(* ===== verification/_CoqProject ===== *)
-Q . S2P
Prelude.v
GoLib.v
Crypto.v
GoJSON.v
Domain.v
Core.v
NetIP.v
HTTP01.v
Requests.v
AuditChain.v
Store.v
Sharing.v
StoreInv.v
Repository.v
SQLTime.v
CoreRunner.v
SQLText.v
SQLEngine.v
SQLScan.v
SQLStore.v
SQLStoreCertificate.v
SQLStoreACME.v
SQLStoreOutbox.v
SQLStoreAudit.v
Repositories.v
Migrations.v
SQLSchema.v
SQLEngineFacts.v
SQLEntity.v
SQLTables.v
SQLRefinement.v
SQLOps.v
SQLSpecialOps.v
SQLAuditOps.v
SQLKeyOps.v
SQLPrograms.v
SQLFacts.v
Service.v
Policy.v
Registry.v
Lifecycle.v
Issuance.v
Outbox.v
CRL.v
APIKeys.v
OCSP.v
ACME.v
CAADNS.v
Queries.v
HTTPTypes.v
HTTPBoundary.v
HTTPCore.v
HTTPACME.v
HTTPServer.v
HTTPRoutes.v
HTTPRouteFacts.v
Samples.v
Machines.v
ServiceFacts.v
Invariants.v
History.v
PolicyFacts.v
Outcomes.v
LifecycleFacts.v
IssuanceFacts.v
OutboxFacts.v
CRLFacts.v
APIKeyFacts.v
DecisionFacts.v
CAAFacts.v
HTTPRefinement.v
AccessFacts.v
LimitFacts.v
SQLNonces.v
SignedFacts.v
GuardFacts.v
CoreRunnerFacts.v
Workers.v
Config.v
Startup.v
