(* ===== verification/Prelude.v ===== *)
(** * AnoPKI lifecycle service: verification development

    The program is a certificate authority as a service. An HTTP server
    ([src/service/internal/httpapi]) authenticates requests and calls the
    lifecycle service ([lifecycle/service.go]), which decides what may be
    issued, revoked or published, asks a signing core ([corecli]) for
    signatures, and keeps its state in a repository ([store]): a store in memory
    or a database. Every change is recorded in an audit log whose entries are
    chained by hashes, and announced through an outbox that a dispatcher
    delivers to webhooks. The command ([cmd/anopki-service]) reads the
    configuration, builds these parts and starts the server and the workers.
    This development models these parts as executable
    functions and proves what they promise each other and the operator.

    ** The parts and their files

    Go and its libraries. [Prelude]: notations, tactics, sorting, maps. [GoLib]:
    errors, the result and state monads [res] and [GoM], strings, integers of 64
    bits, times, with lemmas on strings. [Crypto]: SHA-256, HMAC and hexadecimal
    text, computed. [GoJSON]: JSON text, printed and parsed, with its round
    trip. [NetIP]: addresses, prefixes, URLs, paths. [SQLTime]: calendar dates
    and the textual form of times.

    Data. [Domain]: the structs and enumerations of [domain/types.go].
    [Requests]: the request structs of the service. [Core]: key references
    ([keyref]), signing evidence and the messages of the core
    ([corecli/runner.go]).

    The runner of the core ([corecli]). [CoreRunner]: the operations of
    [Runner] over a state of files and open descriptors ([OS]): temporary files,
    request and result files, the environment of the command, the evidence
    file, and the JSON the structs are written to and read from. Which system
    calls fail and what the process does to the files is the class [OSEnv].

    The repository ([store]). [AuditChain]: the hash chain of [audit_hash.go].
    [Store]: the in-memory repository of [memory.go], one definition per method
    over the record [MemoryStore], with rows as values; [Sharing]: its rows as
    they are, with slices on a heap, and the copies the store makes of them;
    [StoreInv]: its invariant. [Repository]: the
    interfaces of [store.go] as classes; [Repositories]: their four
    implementations (store and transaction, in memory and in a database).
    [SQLText] and [SQLEngine]: the SQL the sources send, parsed from its text,
    and its meaning on tables; the database itself is the parameter
    [SQLDriver], of which [SQLDriverLaws] asks that it gives the statements
    this meaning, visiting rows in any order. [SQLScan], [SQLStore],
    [SQLStoreCertificate], [SQLStoreACME], [SQLStoreOutbox], [SQLStoreAudit]:
    the methods of the [sqlstore] files, with the statement texts and the
    columns of the source. [Migrations]: [migrate.go] and the embedded
    migrations.

    The service ([lifecycle]). [Service]: the environment (clock, identifiers,
    core, parsers: the class [Env]), contexts, audit events, transactions.
    [Policy]: validation and certificate policy. [Registry]: identities,
    issuers, profiles, endpoints. [Lifecycle]: enrollments and certificate
    states. [Issuance]: claim, sign, persist, finalize. [CRL], [OCSP], [APIKeys]
    (which ends with audit retention), [ACME], [Queries]: the operations these
    names say. [HTTP01]: the guarded client of the HTTP-01 challenge. [CAADNS]:
    the CAA resolver of [caa.go]. [Outbox]: dispatcher, handlers and webhooks.
    [Workers]: the two background workers.

    The server ([httpapi]). [HTTPTypes]: bodies. [HTTPBoundary]: requests,
    public and protected paths, error messages. [HTTPCore]: server state,
    nonces, rate limits, responses. [HTTPACME]: signed requests.
    [HTTPServer], [HTTPRoutes]: the handlers, the routing table and
    [ServeHTTP]. [SQLNonces]: the nonce store of [nonce_sql.go].

    The command ([cmd/anopki-service]). [Config]: the environment variables,
    their parsers and checks. [Startup]: construction of the service, [main],
    logs, operation counters, readiness, the operational endpoints and shutdown,
    over the state [Proc] of the process.

    ** What is shown

    The audit log ([AuditChain]): two different logs with the same head exhibit
    a hash collision, and every log that appends and prunes lead to passes
    verification.

    Executions of the service ([Machines], [ServiceFacts], [Invariants],
    [History]): [Invariants.service_step] lists every operation of the service.
    Every reachable store satisfies the store invariant; certificates,
    enrollments, issuance attempts, revocations and ACME orders agree; rows are
    never removed, immutable fields never change and statuses move along their
    state machines.

    Single operations ([PolicyFacts], [Outcomes], [LifecycleFacts],
    [IssuanceFacts], [CRLFacts] (which covers OCSP too), [APIKeyFacts],
    [OutboxFacts], [DecisionFacts], [GuardFacts], [CAAFacts]): which requests policy admits,
    what issuance, revocation, publication, scans and deliveries leave behind,
    that failing operations change nothing, that holders of an outdated lease
    are fenced off, and that bytes from the network cannot make the CAA
    resolver panic or run on.

    The server ([HTTPRouteFacts], [HTTPRefinement],
    [AccessFacts], [LimitFacts], [SignedFacts], [SQLNonces]): any sequence of
    requests and background work acts on the store only as operations of the
    service do, so the invariants above hold of the server; protected endpoints
    ask for a key with the right scope; signed requests have effects only for
    their signer; nonces are used once, in memory and in the database; limits
    bound what a client gets through.

    The database ([SQLSchema], [SQLEngineFacts], [SQLEntity], [SQLTables],
    [SQLRefinement], [SQLOps], [SQLSpecialOps], [SQLAuditOps], [SQLKeyOps],
    [SQLPrograms], [SQLFacts]): a database represents an
    in-memory store table by table, and every program over the repository
    interface gives the same results on both, transactions and errors included;
    the migrations turn an empty database into one that represents the empty
    store. Each operation has the precondition under which the two agree
    ([SQLPrograms.op_pre]): values that fit the columns (times of the years 0 to
    9999, text without byte 0 in composite keys, valid UTF-8 in JSON columns),
    new keys on creation, and the fields an update leaves alone.

    The in-memory store ([Sharing]): no caller that overwrites the slices it
    holds can change a stored row or notice that rows are not values.

    The runner ([CoreRunnerFacts]): whatever fails, a call leaves no file and no
    open descriptor behind; a signature that is returned was made by one run of
    the core on exactly the request, with evidence that is valid for it; the
    request files carry the lists of certificates in parallel.

    The process ([Workers], [Startup]): the workers run once per tick until they
    are cancelled and act only by calls of the service; a process that listens
    is migrated and, in production, asks for keys, has strong secrets and the
    strict policy; when it reports itself ready.

    [Samples] holds concrete environments in which the
    theorems with hypotheses are witnessed.

    ** Conventions

    An action of the service is a function from a state to a result and a state;
    an error is a value. Integers of Go that can overflow are wrapped where they
    do ([wrap64]). The in-memory maps are finite maps; where the code ranges
    over one, the iteration order is explicit or the result is shown not to
    depend on it. The clock, identifiers and random bytes come from the
    environment, indexed by a tick, so two readings may differ. Locks are not
    modelled: each repository call and each transaction is one step, and
    concurrent requests are interleavings of these steps.

    Loops that are not structural take fuel that suffices, as their lemmas show
    or their definitions say: [TrimSpace] and the rune loops the length of the
    text, issuer chains the number of issuers and two, eviction of nonces the
    size of the map, DNS names the length of the message and one, the climb to
    the root the number of labels and one, the SQL parser the number of tokens
    and one, the JSON parser two more than twice the length, durations the
    length of the text. [os.CreateTemp] tries 10000 names, as Go does.

    ** Not modelled

    Wall-clock time: tickers, timeouts and cancellation are the choices of a
    select or an error of the environment, and the latency of an operation is a
    number the environment gives. File permissions, and the counters the service
    writes around each call of the signer, which nothing in the program reads.
    Texts of errors leave out
    the quotes of the verb [%q] and the details of parse errors of the standard
    library. Code outside the repository is a parameter with the laws
    the sources rely on: the database and its driver, [encoding/json] for
    requests, [net/http], DNS, X.509 and CSR parsing, the signature schemes, the
    core process.
    The SQL engine follows SQLite; the PostgreSQL statements of the migrations
    are recorded but not run. In the comparison of the stores, the inventory
    query over three tables, the queries with optional filters and the latest
    CRL of an issuer (where the stores differ) are modelled but not covered. *)

From Stdlib Require Export ZArith Lia.
From stdpp Require Export base gmap strings sorting option list.

#[global] Set Default Goal Selector "!".

(** ** Scopes and notations *)

Declare Scope go_scope.
Delimit Scope go_scope with go.
Global Open Scope go_scope.

(** Go's [==] on strings (and on the string-typed enumerations). *)
Notation "a =s b" := (String.eqb a b) (at level 70, no associativity) : go_scope.
Notation "a <>s b" := (negb (String.eqb a b)) (at level 70, no associativity) : go_scope.

(** Go's [<] on strings compares bytes lexicographically. *)
Notation "a <s b" := (String.ltb a b) (at level 70, no associativity) : go_scope.

(** ** Tactics of the development *)

(** Case analysis on a string comparison of the goal or of a hypothesis. *)
Ltac case_streq :=
  match goal with
  | |- context [String.eqb ?a ?b] => destruct (String.eqb_spec a b)
  | H : context [String.eqb ?a ?b] |- _ => destruct (String.eqb_spec a b)
  end.

(** Case analysis on the scrutinee of the outermost [if] or [match]. *)
Ltac case_head H :=
  match type of H with
  | context [if ?b then _ else _] => destruct b eqn:?
  | context [match ?x with _ => _ end] => destruct x eqn:?
  end.

(** The head symbol of an application. *)
Ltac head_of t := lazymatch t with ?f _ => head_of f | _ => t end.

(** Turn boolean facts of the context into propositions. *)
Ltac bool_prop :=
  repeat match goal with
  | H : _ && _ = true |- _ => apply andb_prop in H; destruct H
  | H : _ || _ = false |- _ => apply orb_false_elim in H; destruct H
  | H : negb _ = true |- _ => apply negb_true_iff in H
  | H : negb _ = false |- _ => apply negb_false_iff in H
  | H : (_ =s _) = true |- _ => apply String.eqb_eq in H
  | H : (_ =s _) = false |- _ => apply String.eqb_neq in H
  | H : Z.eqb _ _ = true |- _ => apply Z.eqb_eq in H
  | H : Z.eqb _ _ = false |- _ => apply Z.eqb_neq in H
  | H : Z.ltb _ _ = true |- _ => apply Z.ltb_lt in H
  | H : Z.ltb _ _ = false |- _ => apply Z.ltb_ge in H
  | H : Z.leb _ _ = true |- _ => apply Z.leb_le in H
  | H : Z.leb _ _ = false |- _ => apply Z.leb_gt in H
  | H : Nat.leb _ _ = true |- _ => apply Nat.leb_le in H
  | H : Nat.leb _ _ = false |- _ => apply Nat.leb_gt in H
  | H : Nat.ltb _ _ = true |- _ => apply Nat.ltb_lt in H
  | H : Nat.ltb _ _ = false |- _ => apply Nat.ltb_ge in H
  end.

(** Unfold a chain of guards in [H : prog = value]: split each test and
    discard the branches whose result contradicts [H]. *)
Ltac step_guards H :=
  repeat (case_head H; simplify_eq/=; try discriminate).

(** ** Strings as byte sequences: the order used by Go's [<] *)

Lemma string_eqb_refl s : (s =s s) = true.
Proof. apply String.eqb_refl. Qed.

Lemma ascii_compare_trans (a b c : Ascii.ascii) o :
  Ascii.compare a b = o → Ascii.compare b c = o → Ascii.compare a c = o.
Proof.
  unfold Ascii.compare. intros H1 H2. destruct o.
  - apply N.compare_eq in H1, H2. rewrite H1, H2. apply N.compare_refl.
  - rewrite N.compare_lt_iff in *. lia.
  - rewrite N.compare_gt_iff in *. lia.
Qed.

Lemma string_compare_refl s : String.compare s s = Eq.
Proof.
  induction s as [|a s IH]; [done|]; cbn.
  unfold Ascii.compare. by rewrite N.compare_refl.
Qed.

Lemma string_compare_lt_trans s1 s2 s3 :
  String.compare s1 s2 = Lt → String.compare s2 s3 = Lt → String.compare s1 s3 = Lt.
Proof.
  revert s2 s3. induction s1 as [|a s1 IH]; intros [|b s2] [|c s3]; cbn; try done.
  destruct (Ascii.compare a b) eqn:E1; destruct (Ascii.compare b c) eqn:E2; intros H1 H2;
    try discriminate.
  - rewrite (ascii_compare_trans _ _ _ _ E1 E2). eauto.
  - apply Ascii.compare_eq_iff in E1 as ->. by rewrite E2.
  - apply Ascii.compare_eq_iff in E2 as ->. by rewrite E1.
  - by rewrite (ascii_compare_trans _ _ _ _ E1 E2).
Qed.

Lemma string_ltb_lt s1 s2 : (s1 <s s2) = true ↔ String.compare s1 s2 = Lt.
Proof. unfold String.ltb. destruct (String.compare s1 s2); split; congruence. Qed.

Lemma string_ltb_irrefl s : (s <s s) = false.
Proof. unfold String.ltb. by rewrite string_compare_refl. Qed.

Lemma string_ltb_trans s1 s2 s3 :
  (s1 <s s2) = true → (s2 <s s3) = true → (s1 <s s3) = true.
Proof. rewrite !string_ltb_lt. apply string_compare_lt_trans. Qed.

Lemma string_ltb_total s1 s2 : (s1 <s s2) = false → (s2 <s s1) = false → s1 = s2.
Proof.
  unfold String.ltb. intros H1 H2.
  destruct (String.compare s1 s2) eqn:E; [by apply String.compare_eq_iff| done |].
  rewrite String.compare_antisym, E in H2. done.
Qed.

(** ** Sorting: [sort.Slice] and [sort.SliceStable]

    [go_sort less l] orders [l] with the comparator the source passes to
    [sort.Slice]. The algorithm of the standard library is not the merge sort
    used here; [go_sort_unique] shows that this is irrelevant whenever the
    comparator separates the elements. *)

Definition not_after {A} (less : A → A → bool) (x y : A) : Prop := less y x = false.

#[global] Instance not_after_dec {A} (less : A → A → bool) x y : Decision (not_after less x y).
Proof. unfold not_after. apply _. Defined.

Definition go_sort {A} (less : A → A → bool) (l : list A) : list A :=
  merge_sort (not_after less) l.

(** What [sort.Slice] requires of its comparator. *)
Class StrictWeakOrder {A} (less : A → A → bool) : Prop := {
  swo_irrefl : ∀ x, less x x = false;
  swo_trans : ∀ x y z, less x y = true → less y z = true → less x z = true;
  swo_cotrans : ∀ x y z, less x y = true → less x z = true ∨ less z y = true;
}.

Section Sorting.
Context {A : Type} (less : A → A → bool) `{!StrictWeakOrder less}.

#[global] Instance not_after_trans : Transitive (not_after less).
Proof.
  intros x y z Hxy Hyz. unfold not_after in *. destruct (less z x) eqn:E; [|done].
  destruct (swo_cotrans _ _ y E); congruence.
Qed.

#[global] Instance not_after_total : Total (not_after less).
Proof.
  intros x y. unfold not_after. destruct (less y x) eqn:E; [|by left]. right.
  destruct (less x y) eqn:E'; [|done].
  pose proof (swo_trans _ _ _ E' E) as H. by rewrite swo_irrefl in H.
Qed.

Lemma go_sort_perm l : go_sort less l ≡ₚ l.
Proof. apply merge_sort_Permutation. Qed.

Lemma go_sort_sorted l : StronglySorted (not_after less) (go_sort less l).
Proof. apply StronglySorted_merge_sort; apply _. Qed.

(** Any sorted permutation is the one computed here, when the comparator
    separates distinct elements of the list. *)
Lemma go_sort_unique l l' :
  (∀ x y, x ∈ l → y ∈ l → less x y = false → less y x = false → x = y) →
  l' ≡ₚ l → Sorted (not_after less) l' → l' = go_sort less l.
Proof.
  intros Hsep Hperm Hsort.
  eapply (Sorted_unique_strong (not_after less)).
  - intros x y Hx Hy H1 H2. apply Hsep.
    + by rewrite <- Hperm.
    + by rewrite <- go_sort_perm.
    + exact H2.
    + exact H1.
  - done.
  - apply Sorted_merge_sort. apply _.
  - by rewrite Hperm, go_sort_perm.
Qed.

Lemma go_sort_permutation_invariant l1 l2 :
  (∀ x y, x ∈ l1 → y ∈ l1 → less x y = false → less y x = false → x = y) →
  l1 ≡ₚ l2 → go_sort less l1 = go_sort less l2.
Proof.
  intros Hsep Hp. symmetry. apply go_sort_unique; [done| |].
  - by rewrite go_sort_perm, Hp.
  - apply Sorted_merge_sort. apply _.
Qed.
End Sorting.

(** Orders built from an integer key with a string tie-break, the comparator
    shape of every [sort.Slice] call of the store. *)
Definition key_less {A} (key : A → Z) (id : A → string) (x y : A) : bool :=
  if negb (Z.eqb (key x) (key y)) then Z.ltb (key x) (key y) else id x <s id y.

#[global] Instance key_less_swo {A} (key : A → Z) (id : A → string) :
  StrictWeakOrder (key_less key id).
Proof.
  unfold key_less. split.
  - intros x. rewrite Z.eqb_refl; simpl. apply string_ltb_irrefl.
  - intros x y z.
    destruct (Z.eqb_spec (key x) (key y)), (Z.eqb_spec (key y) (key z)),
      (Z.eqb_spec (key x) (key z)); simpl; rewrite ?Z.ltb_lt; intros;
      try lia; eauto using string_ltb_trans.
  - intros x y z.
    destruct (Z.eqb_spec (key x) (key y)), (Z.eqb_spec (key x) (key z)),
      (Z.eqb_spec (key z) (key y)); simpl; rewrite ?Z.ltb_lt; intros H; try lia.
    destruct (id x <s id z) eqn:E1; [by left|]. right.
    destruct (id z <s id y) eqn:E2; [done|].
    destruct (String.ltb (id z) (id x)) eqn:E3.
    + pose proof (string_ltb_trans _ _ _ E3 H). congruence.
    + pose proof (string_ltb_total _ _ E1 E3) as E. rewrite <- E in E2. congruence.
Qed.

Lemma key_less_separates {A} (key : A → Z) (id : A → string) x y :
  key_less key id x y = false → key_less key id y x = false → id x = id y.
Proof.
  unfold key_less. destruct (Z.eqb_spec (key x) (key y)) as [E|E]; simpl.
  - rewrite E, Z.eqb_refl; simpl. apply string_ltb_total.
  - destruct (Z.eqb_spec (key y) (key x)); simpl; [congruence|].
    rewrite !Z.ltb_ge. lia.
Qed.

(** A further integer key in front of an order. *)
Definition then_by {A} (key : A → Z) (less : A → A → bool) (x y : A) : bool :=
  if negb (Z.eqb (key x) (key y)) then Z.ltb (key x) (key y) else less x y.

#[global] Instance then_by_swo {A} (key : A → Z) (less : A → A → bool) :
  StrictWeakOrder less → StrictWeakOrder (then_by key less).
Proof.
  intros Hl. unfold then_by. split.
  - intros x. rewrite Z.eqb_refl; simpl. apply swo_irrefl.
  - intros x y z.
    destruct (Z.eqb_spec (key x) (key y)), (Z.eqb_spec (key y) (key z)),
      (Z.eqb_spec (key x) (key z)); simpl; rewrite ?Z.ltb_lt; intros;
      try lia; eauto using swo_trans.
  - intros x y z.
    destruct (Z.eqb_spec (key x) (key y)), (Z.eqb_spec (key x) (key z)),
      (Z.eqb_spec (key z) (key y)); simpl; rewrite ?Z.ltb_lt; intros H; try lia.
    by apply swo_cotrans.
Qed.

Lemma then_by_separates {A} (key : A → Z) (less : A → A → bool) x y :
  then_by key less x y = false → then_by key less y x = false →
  less x y = false ∧ less y x = false.
Proof.
  unfold then_by. destruct (Z.eqb_spec (key x) (key y)) as [E|E]; simpl.
  - by rewrite E, Z.eqb_refl.
  - destruct (Z.eqb_spec (key y) (key x)); simpl; [congruence|]. rewrite !Z.ltb_ge. lia.
Qed.

(** ** Maps: iteration in the order of [map_to_list] *)

(** The values of a Go map in one iteration order. *)
Definition map_values {V} (m : gmap string V) : list V := (map_to_list m).*2.

Lemma elem_of_map_values {V} (m : gmap string V) v :
  v ∈ map_values m ↔ ∃ k, m !! k = Some v.
Proof.
  unfold map_values. rewrite list_elem_of_fmap. split.
  - intros ([k w] & -> & Hin). exists k. by apply elem_of_map_to_list.
  - intros (k & Hk). exists (k, v). split; [done|]. by apply elem_of_map_to_list.
Qed.

Lemma map_values_insert_new {V} (m : gmap string V) k v :
  m !! k = None → map_values (<[k:=v]> m) ≡ₚ v :: map_values m.
Proof. intros H. unfold map_values. by rewrite map_to_list_insert. Qed.

(** ** Lists *)

Lemma list_find_existsb {A} (f : A → bool) l : existsb f l = true ↔ ∃ x, x ∈ l ∧ f x = true.
Proof. rewrite existsb_exists. by setoid_rewrite list_elem_of_In. Qed.

Lemma StronglySorted_app_inv {A} (R : relation A) l1 l2 :
  StronglySorted R (l1 ++ l2) → ∀ x y, x ∈ l1 → y ∈ l2 → R x y.
Proof.
  induction l1 as [|a l1 IH]; simpl; intros H x y Hx Hy; [by apply not_elem_of_nil in Hx|].
  apply StronglySorted_inv in H as [H Hall]. rewrite Forall_app, !Forall_forall in Hall.
  apply elem_of_cons in Hx as [->|Hx]; [|eauto].
  by apply (proj2 Hall).
Qed.

(** ** Hint databases *)

Create HintDb golib.
#[export] Hint Resolve string_ltb_irrefl string_ltb_trans string_eqb_refl : golib.
