(* ===== verification/GoLib.v ===== *)
(** * The parts of Go and of its standard library that the service uses

    Errors as values with the [errors.Is]/[errors.As] chain, a state and error
    monad with Go's semantics (an error does not undo the effects before it),
    [strings], 64-bit integers and [time.Time]. *)

From Stdlib Require Import SpecFloat DecimalString DecimalPos DecimalZ.
From Stdlib Require Import Ascii.
From S2P Require Import Prelude.

(** ** Errors *)

(** The sentinel errors of [domain/errors.go]. *)
Inductive DomainErr :=
| ErrInvalidRequest | ErrUnsupportedMediaType | ErrUnauthorized | ErrForbidden
| ErrRateLimited | ErrIdentityNotFound | ErrIssuerNotFound | ErrOCSPResponderNotFound
| ErrNotificationEndpointNotFound | ErrCertificateProfileNotFound | ErrEnrollmentNotFound
| ErrCertificateNotFound | ErrIssuanceAttemptNotFound | ErrCRLPublicationNotFound
| ErrCRLGenerationClaimNotFound | ErrOutboxMessageNotFound | ErrWebhookDeliveryNotFound
| ErrAPIKeyNotFound | ErrACMEAccountNotFound | ErrACMEAccountDeactivated
| ErrACMEOrderNotFound | ErrACMEAuthorizationNotFound | ErrACMEChallengeNotFound
| ErrInvalidTransition | ErrCSRParseFailed | ErrCertificateIssuanceFailed
| ErrCRLGenerationFailed | ErrOCSPDecodeFailed | ErrOCSPResponseFailed
| ErrOCSPResponderValidationFailed | ErrAuditIntegrity | ErrStorageFailure.

#[global] Instance DomainErr_eq_dec : EqDecision DomainErr.
Proof. solve_decision. Defined.

(** An [error] value: a sentinel, a [policyDecisionError] (which unwraps to
    [ErrInvalidRequest]), a [corecli.CommandError], an error built with
    [fmt.Errorf] around one or two [%w] operands, the sentinel
    [errACMEBadNonce] of the HTTP layer, or an error of another package that
    carries only its text. [EPanic] is a run-time panic, which unwinds the
    calls like an error that no caller inspects. *)
Inductive goerr :=
| EDomain (d : DomainErr)
| EPolicy (reason : string) (evidenceRefs : list string)
| ECommand (code message : string) (opensslErrors : list string) (inner : goerr)
| EWrap (text : string) (inner : goerr)
| EWrap2 (outer inner : goerr)
| EACMEBadNonce
| EText (text : string)
| EPanic (what : string).

Coercion EDomain : DomainErr >-> goerr.

(** [errors.Is(err, target)] for a sentinel target. *)
Fixpoint errors_Is (e : goerr) (target : DomainErr) : bool :=
  match e with
  | EDomain d => bool_decide (d = target)
  | EPolicy _ _ => bool_decide (ErrInvalidRequest = target)
  | ECommand _ _ _ inner => errors_Is inner target
  | EWrap _ inner => errors_Is inner target
  | EWrap2 outer inner => errors_Is outer target || errors_Is inner target
  | EACMEBadNonce | EText _ | EPanic _ => false
  end.

(** [errors.As(err, *CommandError)]: the code of the first command error. *)
Fixpoint errors_As_command (e : goerr) : option string :=
  match e with
  | ECommand code _ _ _ => Some code
  | EWrap _ inner => errors_As_command inner
  | EWrap2 outer inner =>
      match errors_As_command outer with Some c => Some c | None => errors_As_command inner end
  | _ => None
  end.

(** [errors.As(err, *policyDecisionError)]. *)
Fixpoint errors_As_policy (e : goerr) : option (string * list string) :=
  match e with
  | EPolicy r refs => Some (r, refs)
  | ECommand _ _ _ inner => errors_As_policy inner
  | EWrap _ inner => errors_As_policy inner
  | EWrap2 outer inner =>
      match errors_As_policy outer with Some c => Some c | None => errors_As_policy inner end
  | _ => None
  end.

(** ** Results and the state monad *)

Inductive res (A : Type) := Ok (a : A) | Err (e : goerr).
Arguments Ok {A} a.
Arguments Err {A} e.

Definition is_ok {A} (r : res A) : bool := match r with Ok _ => true | Err _ => false end.

(** A Go function over a mutable state [S]: the state it leaves is kept
    whether or not it returns an error. *)
Definition GoM (S A : Type) : Type := S → res A * S.

Definition retM {S A} (a : A) : GoM S A := λ s, (Ok a, s).
Definition failM {S A} (e : goerr) : GoM S A := λ s, (Err e, s).
Definition bindM {S A B} (m : GoM S A) (k : A → GoM S B) : GoM S B := λ s,
  match m s with
  | (Ok a, s') => k a s'
  | (Err e, s') => (Err e, s')
  end.

(** [v, err := m()] where the caller inspects [err] itself. *)
Definition catchM {S A} (m : GoM S A) : GoM S (res A) := λ s,
  let '(r, s') := m s in (Ok r, s').

(** [if cond { return err }] *)
Definition return_if {S} (cond : bool) (e : goerr) : GoM S unit :=
  if cond then failM e else retM tt.

(** A pure check whose error is returned to the caller. *)
Definition liftM {S A} (r : res A) : GoM S A := λ s, (r, s).

(** A read of the state, and an update of it. *)
Definition getM {S A} (f : S → A) : GoM S A := λ s, (Ok (f s), s).
Definition putM {S} (f : S → S) : GoM S unit := λ s, (Ok tt, f s).

Notation "'let*' x ':=' c 'in' k" := (bindM c (λ x, k))
  (at level 10, x name, c at level 100, k at level 200) : go_scope.
Notation "'let*' ' p ':=' c 'in' k" := (bindM c (λ x, match x with p => k end))
  (at level 10, p pattern, c at level 100, k at level 200) : go_scope.
Notation "'do*' c 'in' k" := (bindM c (λ _, k))
  (at level 10, c at level 100, k at level 200) : go_scope.

(** Sequencing of checks that need no state. *)
Definition bindR {A B} (r : res A) (k : A → res B) : res B :=
  match r with Ok a => k a | Err e => Err e end.
Definition check_not (cond : bool) (e : goerr) : res unit :=
  if cond then Err e else Ok tt.
Notation "'let!' x ':=' c 'in' k" := (bindR c (λ x, k))
  (at level 10, x name, c at level 100, k at level 200) : go_scope.
Notation "'do!' c 'in' k" := (bindR c (λ _, k))
  (at level 10, c at level 100, k at level 200) : go_scope.

(** [for _, x := range l { if err := f(x); err != nil { return err } }] *)
Fixpoint forM {S A} (l : list A) (f : A → GoM S unit) : GoM S unit :=
  match l with
  | [] => retM tt
  | x :: l => do* f x in forM l f
  end.

(** The first error a check finds along a list. *)
Fixpoint for_checks {A} (l : list A) (f : A → res unit) : res unit :=
  match l with
  | [] => Ok tt
  | x :: l => do! f x in for_checks l f
  end.

Lemma bindM_inv {S A B} (m : GoM S A) (k : A → GoM S B) s r s' :
  bindM m k s = (r, s') →
  (∃ a s1, m s = (Ok a, s1) ∧ k a s1 = (r, s')) ∨
  (∃ e, m s = (Err e, s') ∧ r = Err e).
Proof.
  unfold bindM. destruct (m s) as [[a|e] s1]; intros H; simplify_eq; [left|right]; eauto.
Qed.

Lemma bindM_ok_inv {S A B} (m : GoM S A) (k : A → GoM S B) s b s' :
  bindM m k s = (Ok b, s') → ∃ a s1, m s = (Ok a, s1) ∧ k a s1 = (Ok b, s').
Proof. intros [?|(e & _ & ?)]%bindM_inv; [done|discriminate]. Qed.

Lemma return_if_ok_inv {S} cond e (s : S) u s' :
  return_if cond e s = (Ok u, s') → cond = false ∧ s' = s.
Proof. destruct cond; intros H; inversion H; auto. Qed.

Lemma check_not_ok cond e : check_not cond e = Ok tt ↔ cond = false.
Proof. unfold check_not. destruct cond; split; congruence. Qed.

Lemma for_checks_ok {A} (l : list A) f :
  for_checks l f = Ok tt ↔ Forall (λ x, f x = Ok tt) l.
Proof.
  induction l as [|x l IH]; simpl; [split; auto|].
  rewrite Forall_cons. unfold bindR. destruct (f x) as [[]|e] eqn:E.
  - rewrite IH. split; [done|]. by intros [_ ?].
  - split; [discriminate|]. by intros [? _].
Qed.

(** Decompose [H : m s = (Ok b, s')] for [m] a chain of [let*]/[do*]. *)
Ltac inv_ok H :=
  repeat (match type of H with
  | bindM _ _ _ = (Ok _, _) =>
      let a := fresh "a" in let w := fresh "w" in let H1 := fresh "Hstep" in
      apply bindM_ok_inv in H as (a & w & H1 & H);
      match type of H1 with
      | return_if _ _ _ = _ => apply return_if_ok_inv in H1 as [? ->]
      | _ => idtac
      end
  | retM _ _ = (Ok _, _) => unfold retM in H; simplify_eq
  | failM _ _ = (Ok _, _) => discriminate H
  end).

(** ** [strings] *)

Definition bytes_str (l : list nat) : string :=
  String.string_of_list_ascii (map Ascii.ascii_of_nat l).

Definition str_drop (n : nat) (s : string) : string := String.substring n (String.length s - n) s.
Definition str_take (n : nat) (s : string) : string := String.substring 0 n s.

Definition HasPrefix (s p : string) : bool := String.prefix p s.
Definition HasSuffix (s suf : string) : bool :=
  Nat.leb (String.length suf) (String.length s) &&
  (str_drop (String.length s - String.length suf) s =s suf).

(** [strings.Index(s, c)] for a one-byte separator. *)
Fixpoint index_byte (c : Ascii.ascii) (s : string) : option nat :=
  match s with
  | EmptyString => None
  | String.String a s' => if Ascii.eqb a c then Some 0 else S <$> index_byte c s'
  end.

(** [strings.Cut] for a one-byte separator. *)
Definition cut_byte (c : Ascii.ascii) (s : string) : option (string * string) :=
  (λ i, (str_take i s, str_drop (S i) s)) <$> index_byte c s.

(** [strings.Split] for a one-byte separator: never empty. *)
Fixpoint split_byte (c : Ascii.ascii) (s : string) : list string :=
  match s with
  | EmptyString => [EmptyString]
  | String.String a s' =>
      if Ascii.eqb a c then EmptyString :: split_byte c s'
      else match split_byte c s' with
           | [] => [String.String a EmptyString]
           | hd :: tl => String.String a hd :: tl
           end
  end.

(** [strings.Trim(s, c)] for a one-byte [c]. *)
Fixpoint trim_left_byte (c : Ascii.ascii) (s : string) : string :=
  match s with
  | String.String a s' => if Ascii.eqb a c then trim_left_byte c s' else s
  | EmptyString => EmptyString
  end.
Fixpoint trim_right_byte (c : Ascii.ascii) (s : string) : string :=
  match s with
  | EmptyString => EmptyString
  | String.String a s' =>
      let t := trim_right_byte c s' in
      if Ascii.eqb a c && (t =s "") then EmptyString else String.String a t
  end.
Definition Trim_byte (c : Ascii.ascii) (s : string) : string := trim_right_byte c (trim_left_byte c s).

(** [strings.ReplaceAll(s, c, "")] for a one-byte [c]. *)
Fixpoint remove_byte (c : Ascii.ascii) (s : string) : string :=
  match s with
  | EmptyString => EmptyString
  | String.String a s' => if Ascii.eqb a c then remove_byte c s' else String.String a (remove_byte c s')
  end.

Definition contains_byte (c : Ascii.ascii) (s : string) : bool :=
  match index_byte c s with Some _ => true | None => false end.

Definition Contains (s sub : string) : bool :=
  match String.index 0 sub s with Some _ => true | None => false end.

(** The UTF-8 encodings of the runes for which [unicode.IsSpace] holds. *)
Definition space_encodings : list string :=
  bytes_str <$> [[9]; [10]; [11]; [12]; [13]; [32]; [194; 133]; [194; 160]; [225; 154; 128];
    [226; 128; 128]; [226; 128; 129]; [226; 128; 130]; [226; 128; 131]; [226; 128; 132];
    [226; 128; 133]; [226; 128; 134]; [226; 128; 135]; [226; 128; 136]; [226; 128; 137];
    [226; 128; 138]; [226; 128; 168]; [226; 128; 169]; [226; 128; 175]; [226; 129; 159];
    [227; 128; 128]].

Fixpoint trim_left (fuel : nat) (s : string) : string :=
  match fuel with
  | O => s
  | S n =>
      match list_find (λ e, HasPrefix s e = true) space_encodings with
      | Some (_, e) => trim_left n (str_drop (String.length e) s)
      | None => s
      end
  end.

Fixpoint trim_right (fuel : nat) (s : string) : string :=
  match fuel with
  | O => s
  | S n =>
      match list_find (λ e, HasSuffix s e = true) space_encodings with
      | Some (_, e) => trim_right n (str_take (String.length s - String.length e) s)
      | None => s
      end
  end.

(** [strings.TrimSpace]: every round removes at least one byte, so the length
    of the string is enough fuel. *)
Definition TrimSpace (s : string) : string :=
  let l := trim_left (String.length s) s in trim_right (String.length l) l.

(** The runes of a string, as [range] yields them: a byte that does not start
    a valid encoding is the rune U+FFFD. *)
Definition byte_at (n : nat) (s : string) : Z :=
  match String.get n s with Some a => Z.of_nat (Ascii.nat_of_ascii a) | None => (-1)%Z end.
Definition continuation (b : Z) : bool := Z.leb 128 b && Z.leb b 191.

(** The rune at the start of a non-empty string and its width. *)
Definition decode_rune (s : string) : Z * nat :=
  let b0 := byte_at 0 s in let b1 := byte_at 1 s in let b2 := byte_at 2 s in let b3 := byte_at 3 s in
  let bad := (65533%Z, 1) in
  if Z.ltb b0 128 then (b0, 1)
  else if Z.leb 194 b0 && Z.leb b0 223 then
    if continuation b1 then ((b0 - 192) * 64 + (b1 - 128), 2%nat)%Z else bad
  else if Z.leb 224 b0 && Z.leb b0 239 then
    let low := if Z.eqb b0 224 then 160%Z else 128%Z in
    let high := if Z.eqb b0 237 then 159%Z else 191%Z in
    if Z.leb low b1 && Z.leb b1 high && continuation b2
    then (((b0 - 224) * 64 + (b1 - 128)) * 64 + (b2 - 128), 3%nat)%Z else bad
  else if Z.leb 240 b0 && Z.leb b0 244 then
    let low := if Z.eqb b0 240 then 144%Z else 128%Z in
    let high := if Z.eqb b0 244 then 143%Z else 191%Z in
    if Z.leb low b1 && Z.leb b1 high && continuation b2 && continuation b3
    then ((((b0 - 240) * 64 + (b1 - 128)) * 64 + (b2 - 128)) * 64 + (b3 - 128), 4%nat)%Z else bad
  else bad.

(** Every round consumes at least one byte, so the length is enough fuel. *)
Fixpoint runes_go (fuel : nat) (s : string) : list Z :=
  match fuel with
  | O => []
  | S n => if s =s "" then [] else
      let '(r, width) := decode_rune s in r :: runes_go n (str_drop width s)
  end.
Definition runes (s : string) : list Z := runes_go (String.length s) s.

Example runes_sample : runes (bytes_str [97; 195; 169; 226; 130; 172; 255]) = [97; 233; 8364; 65533]%Z.
Proof. reflexivity. Qed.

(** Case mapping: exact on ASCII strings; the Unicode tables used for other
    strings are a parameter. *)
Class GoUnicode := {
  unicode_ToLower : string → string;
  unicode_EqualFold : string → string → bool;
}.

Definition is_ascii_byte (a : Ascii.ascii) : bool := Nat.ltb (Ascii.nat_of_ascii a) 128.
Definition is_ascii (s : string) : bool := forallb is_ascii_byte (String.list_ascii_of_string s).

Definition lower_byte (a : Ascii.ascii) : Ascii.ascii :=
  let n := Ascii.nat_of_ascii a in
  if Nat.leb 65 n && Nat.leb n 90 then Ascii.ascii_of_nat (n + 32) else a.

Fixpoint ascii_lower (s : string) : string :=
  match s with
  | EmptyString => EmptyString
  | String.String a s' => String.String (lower_byte a) (ascii_lower s')
  end.

Definition ToLower `{GoUnicode} (s : string) : string :=
  if is_ascii s then ascii_lower s else unicode_ToLower s.

Definition EqualFold `{GoUnicode} (s t : string) : bool :=
  if is_ascii s && is_ascii t then ascii_lower s =s ascii_lower t else unicode_EqualFold s t.

(** The ASCII-only instance, used to evaluate the model. *)
Definition ascii_unicode : GoUnicode :=
  {| unicode_ToLower := ascii_lower; unicode_EqualFold := λ s t, ascii_lower s =s ascii_lower t |}.

(** ** 64-bit integers and [time] *)

(** Two's-complement wrap-around of an [int64] result. *)
Definition wrap64 (z : Z) : Z := (z + 2 ^ 63) mod 2 ^ 64 - 2 ^ 63.

Definition int64 (z : Z) : Prop := (- 2 ^ 63 <= z < 2 ^ 63)%Z.

Lemma wrap64_range z : int64 (wrap64 z).
Proof. unfold wrap64, int64. pose proof (Z.mod_pos_bound (z + 2 ^ 63) (2 ^ 64)). lia. Qed.

Lemma wrap64_id z : int64 z → wrap64 z = z.
Proof. unfold wrap64, int64. intros H. rewrite Z.mod_small; lia. Qed.

(** [time.Time] as the number of nanoseconds since the zero time. *)
Definition Time := Z.
(** [time.Duration]: an [int64] number of nanoseconds. *)
Definition Duration := Z.

Bind Scope Z_scope with Time.
Bind Scope Z_scope with Duration.

Definition zero_time : Time := 0%Z.
Definition IsZero (t : Time) : bool := Z.eqb t 0.
Definition TimeEqual (a b : Time) : bool := Z.eqb a b.
Definition Before (a b : Time) : bool := Z.ltb a b.
Definition After (a b : Time) : bool := Z.ltb b a.
Definition Add (t : Time) (d : Duration) : Time := (t + d)%Z.

Definition Second : Duration := 1000000000%Z.
Definition Minute : Duration := (60 * Second)%Z.
Definition Hour : Duration := (60 * Minute)%Z.

(** [strconv.Itoa] and the verb [%d]. *)
Definition itoa (z : Z) : string := NilZero.string_of_int (Z.to_int z).

Lemma itoa_inj : Inj (=) (=) itoa.
Proof.
  intros z1 z2 E. unfold itoa in E.
  assert (∀ z, NilZero.int_of_string (NilZero.string_of_int (Z.to_int z)) = Some (Z.to_int z)) as Hr.
  { intros z. apply NilZero.isi; destruct z; try done;
      intros [= E']; by apply (DecimalPos.Unsigned.to_uint_nonnil _ E'). }
  pose proof (Hr z1) as H1. rewrite E, (Hr z2) in H1. injection H1 as H1.
  by rewrite <- (DecimalZ.of_to z1), <- (DecimalZ.of_to z2), H1.
Qed.

(** [float64] arithmetic, as far as [Duration.Seconds] needs it. *)
Definition float64_of_Z (z : Z) : spec_float := binary_normalize 53 1024 z 0 false.
Definition float64_trunc (f : spec_float) : Z :=
  match f with
  | S754_finite s m e =>
      let v := if Z.leb 0 e then Z.shiftl (Z.pos m) e else Z.shiftr (Z.pos m) (- e) in
      if s then Z.opp v else v
  | _ => 0%Z
  end.
Definition Seconds (d : Duration) : spec_float :=
  SFadd 53 1024 (float64_of_Z (Z.quot d Second))
    (SFdiv 53 1024 (float64_of_Z (Z.rem d Second)) (float64_of_Z 1000000000)).

Example seconds_half : float64_trunc (Seconds 2500000000) = 2%Z.
Proof. reflexivity. Qed.

(** Days from the zero time to a civil date (proleptic Gregorian calendar), for
    [time.Date(y, m, d, 0, 0, 0, 0, time.UTC)]. *)
Definition days_from_civil (y m d : Z) : Z :=
  let y' := if Z.leb m 2 then (y - 1)%Z else y in
  let mp := if Z.leb m 2 then (m + 9)%Z else (m - 3)%Z in
  let doy := ((153 * mp + 2) / 5 + d - 1)%Z in
  (365 * y' + y' / 4 - y' / 100 + y' / 400 + doy - 306)%Z.

Definition DateUTC (y m d : Z) : Time := (days_from_civil y m d * 24 * Hour)%Z.

(** 1 January of year 1 is the zero time, and 1 January 1970 lies 719162 days later. *)
Example date_zero : DateUTC 1 1 1 = zero_time.
Proof. reflexivity. Qed.
Example date_epoch : days_from_civil 1970 1 1 = 719162%Z.
Proof. reflexivity. Qed.

Ltac time_prop := unfold After, Before, TimeEqual, IsZero, Add, zero_time in *; bool_prop.

(** * Facts about Go's string functions *)

(** ** Prefixes and suffixes *)

Section Strings.
#[local] Arguments String.append !_ _ /.
Implicit Types s t p : string.

Lemma append_empty_r s : s +:+ "" = s.
Proof. induction s as [|a s IH]; simpl; [done|by f_equal]. Qed.

Lemma length_append s t : String.length (s +:+ t) = String.length s + String.length t.
Proof. induction s; simpl; [done|by f_equal]. Qed.

Lemma append_inj_l s t1 t2 : s +:+ t1 = s +:+ t2 → t1 = t2.
Proof. induction s; simpl; [done|]. intros [= E]. auto. Qed.

Lemma HasPrefix_spec s p : HasPrefix s p = true ↔ ∃ t, s = p +:+ t.
Proof.
  unfold HasPrefix. revert s. induction p as [|a p IH]; intros s;
    [split; [by exists s|by destruct s]|].
  destruct s as [|b s]; [split; [done|by intros (t & [= E])]|].
  simpl. destruct (ascii_dec a b) as [->|Hne].
  - rewrite IH. split; intros (t & E); exists t; simplify_eq; done.
  - split; [done|]. intros (t & [= E _]). by destruct Hne.
Qed.

Lemma substring_all s : String.substring 0 (String.length s) s = s.
Proof. induction s; simpl; [done|by f_equal]. Qed.

Lemma substring_app s t : String.substring (String.length s) (String.length t) (s +:+ t) = t.
Proof. induction s as [|a s IH]; simpl; [apply substring_all|exact IH]. Qed.

Lemma str_drop_app s t : str_drop (String.length s) (s +:+ t) = t.
Proof.
  unfold str_drop. rewrite length_append.
  replace (String.length s + String.length t - String.length s) with (String.length t) by lia.
  apply substring_app.
Qed.

Lemma str_split n s : n ≤ String.length s → ∃ t, String.length t = n ∧ s = t +:+ str_drop n s.
Proof.
  revert s. induction n as [|n IH]; intros s Hn.
  - exists "". split; [done|]. unfold str_drop. by rewrite Nat.sub_0_r, substring_all.
  - destruct s as [|a s]; [simpl in Hn; lia|]. destruct (IH s ltac:(simpl in Hn; lia)) as (t & Ht & E).
    exists (String.String a t). split; [by rewrite <- Ht|]. cbn. f_equal. exact E.
Qed.

Lemma HasSuffix_spec s p : HasSuffix s p = true ↔ ∃ t, s = t +:+ p.
Proof.
  unfold HasSuffix. rewrite andb_true_iff, Nat.leb_le, String.eqb_eq. split.
  - intros [Hl E]. destruct (str_split (String.length s - String.length p) s ltac:(lia)) as (t & _ & Es).
    exists t. by rewrite <- E at 1.
  - intros (t & ->). rewrite length_append. split; [lia|].
    replace (_ - _) with (String.length t) by lia. apply str_drop_app.
Qed.

Lemma append_assoc s t p : (s +:+ t) +:+ p = s +:+ (t +:+ p).
Proof. induction s; simpl; [done|by f_equal]. Qed.

Lemma substring_app_l s t : String.substring 0 (String.length s) (s +:+ t) = s.
Proof. induction s as [|a s IH]; [by destruct t|]. simpl. by rewrite IH. Qed.

Lemma str_take_app s t : str_take (String.length (s +:+ t) - String.length t) (s +:+ t) = s.
Proof.
  unfold str_take. rewrite length_append.
  replace (_ - _) with (String.length s) by lia. apply substring_app_l.
Qed.

(** ** [strings.TrimSpace] *)

Definition clean_left s : Prop := ∀ e, e ∈ space_encodings → HasPrefix s e = false.
Definition clean_right s : Prop := ∀ e, e ∈ space_encodings → HasSuffix s e = false.

Lemma space_nonempty e : e ∈ space_encodings → 0 < String.length e.
Proof.
  assert (Forall (λ e, 0 < String.length e) space_encodings) as Hf; [|by rewrite Forall_forall in Hf; auto].
  apply (bool_decide_unpack _). by vm_compute.
Qed.

Lemma find_space (P : string → bool) :
  match list_find (λ e, P e = true) space_encodings with
  | Some (_, e) => e ∈ space_encodings ∧ P e = true
  | None => ∀ e, e ∈ space_encodings → P e = false
  end.
Proof.
  destruct (list_find _ _) as [[i e]|] eqn:E.
  - apply list_find_Some in E as (He & HP & _). split; [by eapply list_elem_of_lookup_2|done].
  - apply list_find_None in E. rewrite Forall_forall in E. intros e He. specialize (E e He).
    by destruct (P e).
Qed.

Lemma trim_left_clean n s : String.length s ≤ n → clean_left (trim_left n s).
Proof.
  revert s. induction n as [|n IH]; intros s Hn; cbn [trim_left trim_right].
  - destruct s; [|simpl in Hn; lia]. intros e He. destruct e; [|done].
    by apply space_nonempty in He; simpl in He; lia.
  - pose proof (find_space (HasPrefix s)) as Hf. destruct (list_find _ _) as [[i e]|]; [|exact Hf].
    destruct Hf as [He (t & ->)%HasPrefix_spec]. rewrite str_drop_app. apply IH.
    apply space_nonempty in He. rewrite length_append in Hn. lia.
Qed.

Lemma trim_left_id n s : clean_left s → trim_left n s = s.
Proof.
  intros Hc. destruct n; [done|]. cbn [trim_left trim_right]. pose proof (find_space (HasPrefix s)) as Hf.
  destruct (list_find _ _) as [[i e]|]; [|done]. destruct Hf as [He Hp]. by rewrite (Hc e He) in Hp.
Qed.

Lemma trim_right_clean n s : String.length s ≤ n → clean_right (trim_right n s).
Proof.
  revert s. induction n as [|n IH]; intros s Hn; cbn [trim_left trim_right].
  - destruct s; [|simpl in Hn; lia]. intros e He. destruct e; [|done].
    by apply space_nonempty in He; simpl in He; lia.
  - pose proof (find_space (HasSuffix s)) as Hf. destruct (list_find _ _) as [[i e]|]; [|exact Hf].
    destruct Hf as [He (t & ->)%HasSuffix_spec]. rewrite str_take_app. apply IH.
    apply space_nonempty in He. rewrite length_append in Hn. lia.
Qed.

Lemma trim_right_id n s : clean_right s → trim_right n s = s.
Proof.
  intros Hc. destruct n; [done|]. cbn [trim_left trim_right]. pose proof (find_space (HasSuffix s)) as Hf.
  destruct (list_find _ _) as [[i e]|]; [|done]. destruct Hf as [He Hp]. by rewrite (Hc e He) in Hp.
Qed.

Lemma trim_right_prefix n s : ∃ t, s = trim_right n s +:+ t.
Proof.
  revert s. induction n as [|n IH]; intros s; [exists ""; by rewrite append_empty_r|]. cbn [trim_right].
  pose proof (find_space (HasSuffix s)) as Hf. destruct (list_find _ _) as [[i e]|];
    [|exists ""; by rewrite append_empty_r].
  destruct Hf as [He (t & ->)%HasSuffix_spec]. rewrite str_take_app.
  destruct (IH t) as (r & Er). exists (r +:+ e). rewrite <- append_assoc. by rewrite <- Er.
Qed.

Lemma clean_left_prefix s t : clean_left (s +:+ t) → clean_left s.
Proof.
  intros Hc e He. destruct (HasPrefix s e) eqn:E; [|done]. apply HasPrefix_spec in E as (r & ->).
  rewrite <- (Hc e He). symmetry. apply HasPrefix_spec. exists (r +:+ t). by rewrite append_assoc.
Qed.

Lemma TrimSpace_clean s : clean_left (TrimSpace s) ∧ clean_right (TrimSpace s).
Proof.
  unfold TrimSpace. set (l := trim_left _ _). split; [|by apply trim_right_clean].
  destruct (trim_right_prefix (String.length l) l) as (t & Et). eapply clean_left_prefix.
  rewrite <- Et. by apply trim_left_clean.
Qed.

Lemma TrimSpace_id s : clean_left s → clean_right s → TrimSpace s = s.
Proof. intros H1 H2. unfold TrimSpace. rewrite trim_left_id by done. by apply trim_right_id. Qed.

Lemma TrimSpace_idem s : TrimSpace (TrimSpace s) = TrimSpace s.
Proof. apply TrimSpace_id; apply TrimSpace_clean. Qed.
End Strings.
