(* ===== verification/Crypto.v ===== *)
(** * Hash functions and encodings of the standard library

    [crypto/sha256], [crypto/hmac] and [encoding/hex], which the audit chain, the
    API-key store and the webhook signature call, and the FNV-1a hash that
    derives the outbox retry jitter. All are executable and tested here against
    published vectors. *)

From S2P Require Import Prelude GoLib.

(** ** Bytes *)

Definition byte_of (z : Z) : Ascii.ascii := Ascii.ascii_of_N (Z.to_N (z mod 256)).
Definition byte_val (a : Ascii.ascii) : Z := Z.of_N (Ascii.N_of_ascii a).

Definition str_bytes (s : string) : list Z := map byte_val (String.list_ascii_of_string s).
Definition bytes_to_str (l : list Z) : string := String.string_of_list_ascii (map byte_of l).

Lemma byte_val_range a : (0 <= byte_val a < 256)%Z.
Proof. unfold byte_val. pose proof (Ascii.N_ascii_bounded a). lia. Qed.

Lemma byte_of_val a : byte_of (byte_val a) = a.
Proof.
  unfold byte_of. rewrite Z.mod_small by apply byte_val_range.
  unfold byte_val. rewrite N2Z.id. apply Ascii.ascii_N_embedding.
Qed.

Lemma byte_val_of z : (0 <= z < 256)%Z → byte_val (byte_of z) = z.
Proof.
  intros H. unfold byte_val, byte_of. rewrite Z.mod_small by lia.
  rewrite Ascii.N_ascii_embedding by lia. lia.
Qed.

Lemma length_string_of_list (l : list Ascii.ascii) :
  String.length (String.string_of_list_ascii l) = length l.
Proof. induction l; simpl; congruence. Qed.

(** ** SHA-256 *)

Definition w32 (z : Z) : Z := z mod 2 ^ 32.
Definition add32 (a b : Z) : Z := w32 (a + b).
Definition rotr (n x : Z) : Z := Z.lor (Z.shiftr x n) (w32 (Z.shiftl x (32 - n))).

(** The constants of the standard: the first 32 bits of the fractional parts of
    the cube roots of the first 64 primes, and of the square roots of the first
    eight. *)
Fixpoint cube_root_below (bits : nat) (acc n : Z) : Z :=
  match bits with
  | O => acc
  | S bits =>
      let next := (acc + 2 ^ Z.of_nat bits)%Z in
      cube_root_below bits (if Z.leb (next * next * next) n then next else acc) n
  end.
Definition is_prime (n : nat) : bool :=
  Nat.leb 2 n && forallb (λ d, negb (Nat.eqb (n mod d) 0)) (seq 2 (n - 2)).
Definition first_primes : list nat := base.filter (λ n, is_prime n = true) (seq 2 310).

Definition sha_K : list Z := Eval vm_compute in
  map (λ p, w32 (cube_root_below 40 0 (Z.of_nat p * 2 ^ 96))) first_primes.

Record hstate := H8 { ha : Z; hb : Z; hc : Z; hd : Z; he : Z; hf : Z; hg : Z; hh : Z }.

Definition sha_init : hstate := Eval vm_compute in
  match map (λ p, w32 (Z.sqrt (Z.of_nat p * 2 ^ 64))) (firstn 8 first_primes) with
  | [a; b; c; d; e; f; g; h] => H8 a b c d e f g h
  | _ => H8 0 0 0 0 0 0 0 0
  end.

Definition be_bytes (n : nat) (z : Z) : list Z :=
  map (λ i, Z.land (Z.shiftr z (8 * Z.of_nat i)) 255) (rev (seq 0 n)).

Definition be_word (l : list Z) : Z := fold_left (λ acc b, acc * 256 + b)%Z l 0%Z.

(** Padding: 0x80, zeros, then the bit length in eight bytes. *)
Definition sha_pad (msg : list Z) : list Z :=
  let n := Z.of_nat (length msg) in
  let zeros := Z.to_nat ((55 - n) mod 64) in
  msg ++ [128%Z] ++ replicate zeros 0%Z ++ be_bytes 8 (8 * n).

Fixpoint chunks {A} (fuel size : nat) (l : list A) : list (list A) :=
  match fuel, l with
  | O, _ | _, [] => []
  | S f, _ => take size l :: chunks f size (drop size l)
  end.

Definition small_sigma0 (x : Z) : Z := Z.lxor (Z.lxor (rotr 7 x) (rotr 18 x)) (Z.shiftr x 3).
Definition small_sigma1 (x : Z) : Z := Z.lxor (Z.lxor (rotr 17 x) (rotr 19 x)) (Z.shiftr x 10).
Definition big_sigma0 (x : Z) : Z := Z.lxor (Z.lxor (rotr 2 x) (rotr 13 x)) (rotr 22 x).
Definition big_sigma1 (x : Z) : Z := Z.lxor (Z.lxor (rotr 6 x) (rotr 11 x)) (rotr 25 x).

(** The message schedule, kept newest word first. *)
Fixpoint schedule (n : nat) (rev_w : list Z) : list Z :=
  match n with
  | O => rev rev_w
  | S n =>
      let w i := nth i rev_w 0%Z in
      schedule n (w32 (small_sigma1 (w 1%nat) + w 6%nat + small_sigma0 (w 14%nat) + w 15%nat) :: rev_w)
  end.

Definition sha_round (s : hstate) (kw : Z * Z) : hstate :=
  let '(k, w) := kw in
  let ch := Z.lxor (Z.land (he s) (hf s)) (Z.land (Z.lxor (he s) (2 ^ 32 - 1)) (hg s)) in
  let maj := Z.lxor (Z.lxor (Z.land (ha s) (hb s)) (Z.land (ha s) (hc s))) (Z.land (hb s) (hc s)) in
  let t1 := w32 (hh s + big_sigma1 (he s) + ch + k + w) in
  let t2 := w32 (big_sigma0 (ha s) + maj) in
  H8 (add32 t1 t2) (ha s) (hb s) (hc s) (add32 (hd s) t1) (he s) (hf s) (hg s).

Definition sha_block (s : hstate) (block : list Z) : hstate :=
  let words := map be_word (chunks 16 4 block) in
  let w := schedule 48 (rev words) in
  let r := fold_left sha_round (combine sha_K w) s in
  H8 (add32 (ha s) (ha r)) (add32 (hb s) (hb r)) (add32 (hc s) (hc r)) (add32 (hd s) (hd r))
     (add32 (he s) (he r)) (add32 (hf s) (hf r)) (add32 (hg s) (hg r)) (add32 (hh s) (hh r)).

Definition hstate_bytes (s : hstate) : list Z :=
  mjoin (map (be_bytes 4) [ha s; hb s; hc s; hd s; he s; hf s; hg s; hh s]).

(** [sha256.Sum256]: 32 bytes. *)
Definition sha256_bytes (msg : list Z) : list Z :=
  let p := sha_pad msg in
  hstate_bytes (fold_left sha_block (chunks (length p) 64 p) sha_init).

Definition Sum256 (s : string) : list Z := sha256_bytes (str_bytes s).

(** [hmac.New(sha256.New, key)] applied to a message. *)
Definition hmac_sha256 (key msg : string) : list Z :=
  let kb := str_bytes key in
  let k0 := if Nat.ltb 64 (length kb) then sha256_bytes kb else kb in
  let k := k0 ++ replicate (64 - length k0) 0%Z in
  sha256_bytes (map (Z.lxor 0x5c) k ++ sha256_bytes (map (Z.lxor 0x36) k ++ str_bytes msg)).

Lemma length_Sum256 s : length (Sum256 s) = 32.
Proof. reflexivity. Qed.

Lemma be_bytes_range n z b : b ∈ be_bytes n z → (0 <= b < 256)%Z.
Proof.
  unfold be_bytes. rewrite list_elem_of_In, in_map_iff. intros (i & <- & _).
  change 255%Z with (Z.ones 8). rewrite Z.land_ones by lia. apply Z.mod_pos_bound. lia.
Qed.

Lemma Sum256_range s b : b ∈ Sum256 s → (0 <= b < 256)%Z.
Proof.
  unfold Sum256, sha256_bytes, hstate_bytes. intros (l & Hb & Hl)%list_elem_of_join.
  apply list_elem_of_In, in_map_iff in Hl as (z & <- & _). by eapply be_bytes_range.
Qed.

(** ** [encoding/hex] *)

Definition hex_digit (n : Z) : Ascii.ascii := byte_of (if Z.ltb n 10 then 48 + n else 87 + n).

Definition hex_value (a : Ascii.ascii) : option Z :=
  let n := byte_val a in
  if Z.leb 48 n && Z.leb n 57 then Some (n - 48)%Z
  else if Z.leb 97 n && Z.leb n 102 then Some (n - 87)%Z
  else if Z.leb 65 n && Z.leb n 70 then Some (n - 55)%Z
  else None.

Fixpoint hex_encode (l : list Z) : string :=
  match l with
  | [] => EmptyString
  | b :: l => String.String (hex_digit (b / 16)) (String.String (hex_digit (b mod 16)) (hex_encode l))
  end.

Fixpoint hex_decode (s : string) : option (list Z) :=
  match s with
  | EmptyString => Some []
  | String.String a (String.String b s') =>
      match hex_value a, hex_value b, hex_decode s' with
      | Some x, Some y, Some l => Some ((16 * x + y)%Z :: l)
      | _, _, _ => None
      end
  | String.String _ EmptyString => None
  end.

Lemma hex_value_digit n : (0 <= n < 16)%Z → hex_value (hex_digit n) = Some n.
Proof.
  intros H. unfold hex_value, hex_digit.
  rewrite byte_val_of by (destruct (Z.ltb_spec n 10); lia).
  destruct (Z.ltb_spec n 10).
  - destruct (Z.leb_spec 48 (48 + n)), (Z.leb_spec (48 + n) 57); simpl; try lia. f_equal; lia.
  - destruct (Z.leb_spec 48 (87 + n)), (Z.leb_spec (87 + n) 57); simpl; try lia.
    destruct (Z.leb_spec 97 (87 + n)), (Z.leb_spec (87 + n) 102); simpl; try lia. f_equal; lia.
Qed.

Lemma hex_decode_encode l :
  (∀ b, b ∈ l → (0 <= b < 256)%Z) → hex_decode (hex_encode l) = Some l.
Proof.
  induction l as [|b l IH]; simpl; intros H; [done|].
  assert (0 <= b < 256)%Z as Hb by (apply H, list_elem_of_here).
  pose proof (Z.div_mod b 16 ltac:(lia)) as Hdm.
  pose proof (Z.mod_pos_bound b 16 ltac:(lia)).
  assert (0 <= b / 16 < 16)%Z by (split; [apply Z.div_pos; lia | apply Z.div_lt_upper_bound; lia]).
  rewrite !hex_value_digit by lia.
  rewrite IH by (intros; apply H; by apply list_elem_of_further). f_equal. f_equal. lia.
Qed.

Lemma length_hex_encode l : String.length (hex_encode l) = 2 * length l.
Proof. induction l; simpl; lia. Qed.

(** ** FNV-1a, 32 bits ([hash/fnv]) *)

Definition fnv32a (l : list Z) : Z :=
  fold_left (λ h b, w32 (Z.lxor h b * 16777619)) l 2166136261%Z.

Lemma fnv32a_range l : (0 <= fnv32a l < 2 ^ 32)%Z.
Proof.
  unfold fnv32a.
  assert (∀ l h, (0 <= h < 2 ^ 32)%Z →
    (0 <= fold_left (λ h b, w32 (Z.lxor h b * 16777619)) l h < 2 ^ 32)%Z) as Hgen.
  { clear l. induction l as [|b l IH]; simpl; [done|]. intros h _. apply IH.
    apply Z.mod_pos_bound. lia. }
  apply Hgen. lia.
Qed.

(** Little-endian bytes of a [uint64] ([binary.LittleEndian.PutUint64]). *)
Definition le_bytes8 (z : Z) : list Z := rev (be_bytes 8 z).

(** ** Published test vectors *)

Example sha256_abc :
  hex_encode (Sum256 "abc") = "ba7816bf8f01cfea414140de5dae2223b00361a396177a9cb410ff61f20015ad".
Proof. vm_compute. reflexivity. Qed.

Example sha256_empty :
  hex_encode (Sum256 "") = "e3b0c44298fc1c149afbf4c8996fb92427ae41e4649b934ca495991b7852b855".
Proof. vm_compute. reflexivity. Qed.

Example hmac_jefe :
  hex_encode (hmac_sha256 "Jefe" "what do ya want for nothing?") =
  "5bdcc146bf60754e6a042426089575c75a003f089d2739839dec58b964ec3843".
Proof. vm_compute. reflexivity. Qed.

Example fnv32a_a : fnv32a (str_bytes "a") = 0xe40c292c%Z.
Proof. vm_compute. reflexivity. Qed.
