(* ===== verification/GoJSON.v ===== *)
(** * JSON texts ([encoding/json])

    What the service uses of [encoding/json]: writing strings, integers,
    booleans, arrays and objects the way [json.Marshal] does, and reading them
    back. Strings are written with the escapes of [json.Marshal] (control
    characters, quotes, backslashes, the HTML characters and the two Unicode
    line separators; bytes that are not UTF-8 become U+FFFD). The reader takes
    any JSON text, with the numbers that are not integers kept as their text. *)

From Stdlib Require Import Ascii DecimalString DecimalZ DecimalPos.
From S2P Require Import Prelude GoLib Crypto.

Local Open Scope Z_scope.

(** ** Strings *)

(** The width of the UTF-8 encoding at the head of a text, 0 when there is none. *)
Definition utf8_width (l : list Z) : nat :=
  match l with
  | [] => 0
  | b0 :: t =>
      if Z.ltb b0 128 then 1
      else if Z.leb 194 b0 && Z.leb b0 223 then
        match t with b1 :: _ => if continuation b1 then 2 else 0 | _ => 0 end
      else if Z.leb 224 b0 && Z.leb b0 239 then
        match t with
        | b1 :: b2 :: _ =>
            if Z.leb (if Z.eqb b0 224 then 160 else 128) b1
               && Z.leb b1 (if Z.eqb b0 237 then 159 else 191) && continuation b2 then 3 else 0
        | _ => 0
        end
      else if Z.leb 240 b0 && Z.leb b0 244 then
        match t with
        | b1 :: b2 :: b3 :: _ =>
            if Z.leb (if Z.eqb b0 240 then 144 else 128) b1
               && Z.leb b1 (if Z.eqb b0 244 then 143 else 191) && continuation b2
               && continuation b3 then 4 else 0
        | _ => 0
        end
      else 0
  end%nat.

(** The bytes of a rune in UTF-8. *)
Definition utf8_encode (r : Z) : list Z :=
  if Z.ltb r 128 then [r]
  else if Z.ltb r 2048 then [192 + r / 64; 128 + r mod 64]
  else if Z.ltb r 65536 then [224 + r / 4096; 128 + (r / 64) mod 64; 128 + r mod 64]
  else [240 + r / 262144; 128 + (r / 4096) mod 64; 128 + (r / 64) mod 64; 128 + r mod 64].

(** [\u] and four hexadecimal digits. *)
Definition hex4 (r : Z) : list Z :=
  byte_val <$> [hex_digit (r / 4096); hex_digit ((r / 256) mod 16); hex_digit ((r / 16) mod 16); hex_digit (r mod 16)].
Definition escape_u (r : Z) : list Z := 92 :: 117 :: hex4 r.

Definition escape_ascii (b : Z) : list Z :=
  if Z.eqb b 34 || Z.eqb b 92 then [92; b]
  else if Z.eqb b 8 then [92; 98]
  else if Z.eqb b 12 then [92; 102]
  else if Z.eqb b 10 then [92; 110]
  else if Z.eqb b 13 then [92; 114]
  else if Z.eqb b 9 then [92; 116]
  else if Z.ltb b 32 || Z.eqb b 60 || Z.eqb b 62 || Z.eqb b 38 then escape_u b
  else [b].

(** U+2028 and U+2029. *)
Definition line_separator (b0 b1 b2 : Z) : bool :=
  Z.eqb b0 226 && Z.eqb b1 128 && (Z.eqb b2 168 || Z.eqb b2 169).

Fixpoint json_escape (l : list Z) : list Z :=
  match l with
  | [] => []
  | b :: t =>
      if Z.ltb b 128 then escape_ascii b ++ json_escape t
      else match utf8_width l, t with
        | 2%nat, b1 :: t' => b :: b1 :: json_escape t'
        | 3%nat, b1 :: b2 :: t' =>
            (if line_separator b b1 b2 then escape_u (8192 + (b2 - 128)) else [b; b1; b2]) ++ json_escape t'
        | 4%nat, b1 :: b2 :: b3 :: t' => b :: b1 :: b2 :: b3 :: json_escape t'
        | _, _ => escape_u 65533 ++ json_escape t
        end
  end.

Definition json_quote (s : string) : list Z := 34 :: json_escape (str_bytes s) ++ [34].

(** Four hexadecimal digits. *)
Definition read_hex4 (a b c d : Z) : option Z :=
  match hex_value (byte_of a), hex_value (byte_of b), hex_value (byte_of c), hex_value (byte_of d) with
  | Some a, Some b, Some c, Some d => Some (((a * 16 + b) * 16 + c) * 16 + d)
  | _, _, _, _ => None
  end.
Definition is_surrogate (r : Z) : bool := Z.leb 55296 r && Z.ltb r 57344.
(** [utf16.DecodeRune] of a high and a low surrogate. *)
Definition decode_surrogates (r1 r2 : Z) : option Z :=
  if Z.leb 55296 r1 && Z.ltb r1 56320 && Z.leb 56320 r2 && Z.ltb r2 57344
  then Some ((r1 - 55296) * 1024 + (r2 - 56320) + 65536) else None.
Definition simple_escape (e : Z) : option Z :=
  if Z.eqb e 34 || Z.eqb e 92 || Z.eqb e 47 then Some e
  else if Z.eqb e 98 then Some 8
  else if Z.eqb e 102 then Some 12
  else if Z.eqb e 110 then Some 10
  else if Z.eqb e 114 then Some 13
  else if Z.eqb e 116 then Some 9
  else None.

(** The bytes of a string literal after its opening quote, and the text after
    its closing quote. *)
Fixpoint json_unescape (l : list Z) : option (list Z * list Z) :=
  let emit (bytes : list Z) (r : option (list Z * list Z)) :=
    match r with Some (out, rest) => Some (bytes ++ out, rest) | None => None end in
  match l with
  | [] => None
  | b :: t =>
      if Z.eqb b 34 then Some ([], t)
      else if Z.eqb b 92 then
        match t with
        | e :: t1 =>
            if Z.eqb e 117 then
              match t1 with
              | a :: b :: c :: d :: t2 =>
                  match read_hex4 a b c d with
                  | None => None
                  | Some r =>
                      if negb (is_surrogate r) then emit (utf8_encode r) (json_unescape t2)
                      else match t2 with
                        | s :: u :: a' :: b' :: c' :: d' :: t3 =>
                            if Z.eqb s 92 && Z.eqb u 117 then
                              match read_hex4 a' b' c' d' with
                              | None => None
                              | Some r' =>
                                  match decode_surrogates r r' with
                                  | Some rune => emit (utf8_encode rune) (json_unescape t3)
                                  | None => emit (utf8_encode 65533) (json_unescape t2)
                                  end
                              end
                            else emit (utf8_encode 65533) (json_unescape t2)
                        | _ => emit (utf8_encode 65533) (json_unescape t2)
                        end
                  end
              | _ => None
              end
            else match simple_escape e with
              | Some c => emit [c] (json_unescape t1)
              | None => None
              end
        | [] => None
        end
      else if Z.ltb b 32 then None
      else if Z.ltb b 128 then emit [b] (json_unescape t)
      else match utf8_width l, t with
        | 2%nat, b1 :: t' => emit [b; b1] (json_unescape t')
        | 3%nat, b1 :: b2 :: t' => emit [b; b1; b2] (json_unescape t')
        | 4%nat, b1 :: b2 :: b3 :: t' => emit [b; b1; b2; b3] (json_unescape t')
        | _, _ => emit (utf8_encode 65533) (json_unescape t)
        end
  end.

(** ** Values *)

Inductive JSON :=
| JNull
| JBoolean (b : bool)
| JNumber (z : Z)
| JDecimal (text : string)
| JString (s : string)
| JArray (l : list JSON)
| JObject (l : list (string * JSON)).

Definition comma_separated (l : list (list Z)) : list Z :=
  match l with [] => [] | x :: l => x ++ concat (cons 44 <$> l) end.

Fixpoint json_print (v : JSON) : list Z :=
  match v with
  | JNull => str_bytes "null"
  | JBoolean b => str_bytes (if b then "true" else "false")
  | JNumber z => str_bytes (itoa z)
  | JDecimal text => str_bytes text
  | JString s => json_quote s
  | JArray l => 91 :: comma_separated (json_print <$> l) ++ [93]
  | JObject l => 123 :: comma_separated ((λ '(k, v), json_quote k ++ 58 :: json_print v) <$> l) ++ [125]
  end.

(** [json.Marshal] of a value. *)
Definition json_Marshal (v : JSON) : string := bytes_to_str (json_print v).

Fixpoint skip_space (l : list Z) : list Z :=
  match l with
  | b :: t => if Z.eqb b 32 || Z.eqb b 9 || Z.eqb b 10 || Z.eqb b 13 then skip_space t else l
  | [] => []
  end.
Fixpoint strip_word (word l : list Z) : option (list Z) :=
  match word, l with
  | [], _ => Some l
  | w :: word, b :: t => if Z.eqb w b then strip_word word t else None
  | _, [] => None
  end.

Definition is_number_byte (b : Z) : bool :=
  (Z.leb 48 b && Z.leb b 57) || Z.eqb b 45 || Z.eqb b 46 || Z.eqb b 43 || Z.eqb b 69 || Z.eqb b 101.
Fixpoint take_number (l : list Z) : list Z * list Z :=
  match l with
  | b :: t => if is_number_byte b then let '(n, rest) := take_number t in (b :: n, rest) else ([], l)
  | [] => ([], [])
  end.
(** An integer literal: no leading zeros, no plus sign, no fraction. *)
Definition read_integer (n : list Z) : option Z :=
  match NilZero.int_of_string (bytes_to_str n) with
  | Some i => let z := Z.of_int i in if itoa z =s bytes_to_str n then Some z else None
  | None => None
  end.

(** Any other number of the grammar: a sign, an integer part without leading
    zeros, a fraction and an exponent, all but the integer part optional. *)
Definition is_digit_byte (b : Z) : bool := Z.leb 48 b && Z.leb b 57.
Fixpoint drop_digits (l : list Z) : list Z :=
  match l with b :: t => if is_digit_byte b then drop_digits t else l | [] => [] end.
Definition digits1 (l : list Z) : option (list Z) :=
  match l with b :: t => if is_digit_byte b then Some (drop_digits t) else None | [] => None end.
Definition drop_byte (bs : list Z) (l : list Z) : list Z :=
  match l with b :: t => if bool_decide (b ∈ bs) then t else l | [] => [] end.
Definition read_decimal (n : list Z) : option string :=
  l ← match drop_byte [45] n with
      | 48 :: t => Some t
      | l => digits1 l
      end;
  l ← match l with 46 :: t => digits1 t | _ => Some l end;
  l ← match l with
      | b :: t => if Z.eqb b 69 || Z.eqb b 101 then digits1 (drop_byte [43; 45] t) else Some l
      | [] => Some l
      end;
  match l with [] => Some (bytes_to_str n) | _ => None end.
Definition read_number (n : list Z) : option JSON :=
  match read_integer n with Some z => Some (JNumber z) | None => JDecimal <$> read_decimal n end.

(** A value at the head of a text. The fuel bounds the nesting and the number
    of elements; the length of the text is enough. *)
Fixpoint json_value (fuel : nat) (l : list Z) : option (JSON * list Z) :=
  match fuel with
  | O => None
  | S fuel =>
      let l := skip_space l in
      match l with
      | [] => None
      | b :: t =>
          if Z.eqb b 34 then
            match json_unescape t with Some (s, rest) => Some (JString (bytes_to_str s), rest) | None => None end
          else if Z.eqb b 91 then
            match skip_space t with
            | 93 :: rest => Some (JArray [], rest)
            | _ => match json_elements fuel t with Some (vs, rest) => Some (JArray vs, rest) | None => None end
            end
          else if Z.eqb b 123 then
            match skip_space t with
            | 125 :: rest => Some (JObject [], rest)
            | _ => match json_members fuel t with Some (vs, rest) => Some (JObject vs, rest) | None => None end
            end
          else if Z.eqb b 110 then (λ rest, (JNull, rest)) <$> strip_word (str_bytes "null") l
          else if Z.eqb b 116 then (λ rest, (JBoolean true, rest)) <$> strip_word (str_bytes "true") l
          else if Z.eqb b 102 then (λ rest, (JBoolean false, rest)) <$> strip_word (str_bytes "false") l
          else let '(n, rest) := take_number l in (λ v, (v, rest)) <$> read_number n
      end
  end
with json_elements (fuel : nat) (l : list Z) : option (list JSON * list Z) :=
  match fuel with
  | O => None
  | S fuel =>
      match json_value fuel l with
      | None => None
      | Some (v, rest) =>
          match skip_space rest with
          | 44 :: rest =>
              match json_elements fuel rest with Some (vs, rest) => Some (v :: vs, rest) | None => None end
          | 93 :: rest => Some ([v], rest)
          | _ => None
          end
      end
  end
with json_members (fuel : nat) (l : list Z) : option (list (string * JSON) * list Z) :=
  match fuel with
  | O => None
  | S fuel =>
      match skip_space l with
      | 34 :: t =>
          match json_unescape t with
          | None => None
          | Some (k, rest) =>
              match skip_space rest with
              | 58 :: rest =>
                  match json_value fuel rest with
                  | None => None
                  | Some (v, rest) =>
                      match skip_space rest with
                      | 44 :: rest =>
                          match json_members fuel rest with
                          | Some (vs, rest) => Some ((bytes_to_str k, v) :: vs, rest)
                          | None => None
                          end
                      | 125 :: rest => Some ([(bytes_to_str k, v)], rest)
                      | _ => None
                      end
                  end
              | _ => None
              end
          end
      | _ => None
      end
  end.

(** A whole text. *)
Definition json_Parse (s : string) : option JSON :=
  let l := str_bytes s in
  match json_value (2 + 2 * length l) l with
  | Some (v, rest) => match skip_space rest with [] => Some v | _ => None end
  | None => None
  end.

Example json_sample :
  json_Parse (json_Marshal (JObject [("a<b", JArray [JNumber (-12); JBoolean true; JNull]); ("k", JString (bytes_str [34; 10; 226; 128; 168]%nat))]))
  = Some (JObject [("a<b", JArray [JNumber (-12); JBoolean true; JNull]); ("k", JString (bytes_str [34; 10; 226; 128; 168]%nat))]).
Proof. vm_compute. reflexivity. Qed.

(** ** Reading what was written *)

(** The text is a sequence of UTF-8 encodings. *)
Fixpoint utf8_valid (l : list Z) : bool :=
  match l with
  | [] => true
  | b :: t =>
      if Z.ltb b 128 then utf8_valid t
      else match utf8_width l, t with
        | 2%nat, _ :: t' | 3%nat, _ :: _ :: t' | 4%nat, _ :: _ :: _ :: t' => utf8_valid t'
        | _, _ => false
        end
  end.
Definition valid_string (s : string) : bool := utf8_valid (str_bytes s).

Definition isOctet8 (b : Z) : Prop := 0 <= b < 256.

(** A decoded prefix in front of what follows. *)
Definition emit (bytes : list Z) (r : option (list Z * list Z)) : option (list Z * list Z) :=
  match r with Some (out, rest) => Some (bytes ++ out, rest) | None => None end.

Lemma read_hex4_of r : 0 <= r < 65536 → ∃ a b c d, hex4 r = [a; b; c; d] ∧ read_hex4 a b c d = Some r.
Proof.
  intros Hr. do 4 eexists. split; [reflexivity|]. unfold read_hex4. rewrite !byte_of_val.
  rewrite !hex_value_digit by (Z.div_mod_to_equations; lia). f_equal. Z.div_mod_to_equations; lia.
Qed.

Lemma unescape_u r t : 0 <= r < 65536 → is_surrogate r = false →
  json_unescape (escape_u r ++ t) = emit (utf8_encode r) (json_unescape t).
Proof.
  intros Hr Hs. destruct (read_hex4_of r Hr) as (a & b & c & d & E & Hd).
  unfold escape_u. rewrite E. simpl. rewrite Hd, Hs. reflexivity.
Qed.

Lemma unescape_simple e c t : e ≠ 117 → simple_escape e = Some c →
  json_unescape (92 :: e :: t) = emit [c] (json_unescape t).
Proof. intros He Hc. simpl. rewrite (proj2 (Z.eqb_neq e 117) He), Hc. reflexivity. Qed.

Lemma unescape_plain b t : 32 <= b < 128 → b ≠ 34 → b ≠ 92 →
  json_unescape (b :: t) = emit [b] (json_unescape t).
Proof.
  intros Hb H1 H2. simpl. rewrite (proj2 (Z.eqb_neq b 34) H1), (proj2 (Z.eqb_neq b 92) H2).
  rewrite (proj2 (Z.ltb_ge b 32)), (proj2 (Z.ltb_lt b 128)) by lia. reflexivity.
Qed.

Lemma unescape_ascii b t : 0 <= b < 128 →
  json_unescape (escape_ascii b ++ t) = emit [b] (json_unescape t).
Proof.
  intros Hb. unfold escape_ascii.
  repeat match goal with
  | |- context [Z.eqb b ?n] => destruct (Z.eqb_spec b n); [subst b|]; cbn [orb]
  | |- context [Z.ltb b ?n] => destruct (Z.ltb_spec b n); cbn [orb]
  end; first [apply unescape_simple; [lia|reflexivity] | apply unescape_plain; lia | reflexivity | idtac].
  rewrite unescape_u; [|lia|unfold is_surrogate; by rewrite (proj2 (Z.leb_gt _ _)) by lia].
  unfold utf8_encode. by rewrite (proj2 (Z.ltb_lt _ _)) by lia.
Qed.

Lemma width_fits l : (utf8_width l <= length l ∧ utf8_width l <= 4)%nat.
Proof. destruct l as [|b0 [|b1 [|b2 [|b3 t]]]]; simpl; repeat case_match; lia. Qed.

(** Text that starts with the encoding of a rune outside of ASCII. *)
Lemma unescape_high b t t' k : 128 <= b → utf8_width (b :: t) = k → (1 < k)%nat →
  t' = drop (k - 1) t →
  json_unescape (b :: t) = emit (b :: take (k - 1) t) (json_unescape t').
Proof.
  intros Hb Hk Hk1 ->. pose proof (width_fits (b :: t)) as Hf. rewrite Hk in Hf. simpl in Hf.
  cbn [json_unescape].
  rewrite !(proj2 (Z.eqb_neq b _)) by lia. rewrite !(proj2 (Z.ltb_ge b _)) by lia. rewrite Hk.
  destruct k as [|[|[|[|[|k]]]]]; try lia; destruct t as [|b1 [|b2 [|b3 t]]]; simpl in Hf; try lia; reflexivity.
Qed.

(** The width depends on the bytes of the encoding only. *)
Lemma width_prefix l r k : utf8_width l = k → (0 < k)%nat → utf8_width (take k l ++ r) = k.
Proof.
  intros <-. destruct l as [|b0 t]; [simpl; lia|]. cbn [utf8_width].
  destruct (Z.ltb b0 128) eqn:E1; [intros _; simpl; by rewrite E1|].
  destruct (Z.leb 194 b0 && Z.leb b0 223) eqn:E2.
  { destruct t as [|b1 t]; [lia|]. destruct (continuation b1) eqn:E3; [|lia].
    intros _. simpl. by rewrite E1, E2, E3. }
  destruct (Z.leb 224 b0 && Z.leb b0 239) eqn:E3.
  { destruct t as [|b1 [|b2 t]]; [lia|lia|]. match goal with |- context [if ?c then _ else _] => destruct c eqn:E4 end; [|lia].
    intros _. simpl. by rewrite E1, E2, E3, E4. }
  destruct (Z.leb 240 b0 && Z.leb b0 244) eqn:E4; [|lia].
  destruct t as [|b1 [|b2 [|b3 t]]]; [lia|lia|lia|].
  match goal with |- context [if ?c then _ else _] => destruct c eqn:E5 end; [|lia].
  intros _. simpl. by rewrite E1, E2, E3, E4, E5.
Qed.

Lemma line_separator_bytes b0 b1 b2 : line_separator b0 b1 b2 = true →
  escape_u (8192 + (b2 - 128)) = escape_u (8232 + (b2 - 168)) ∧ utf8_encode (8192 + (b2 - 128)) = [b0; b1; b2]
  ∧ 8232 <= 8192 + (b2 - 128) <= 8233.
Proof.
  unfold line_separator. rewrite !andb_true_iff, orb_true_iff, !Z.eqb_eq.
  intros [[-> ->] [-> | ->]]; vm_compute; repeat split; discriminate.
Qed.

Lemma unescape_escape l rest : utf8_valid l = true → Forall isOctet8 l →
  json_unescape (json_escape l ++ 34 :: rest) = Some (l, rest).
Proof.
  remember (length l) as n eqn:Hn. assert (length l <= n)%nat as Hle by lia. clear Hn.
  revert l Hle. induction n as [|n IH]; intros [|b t] Hle Hv Hb; try reflexivity; simpl in Hle; [lia|].
  apply Forall_cons in Hb as [Hb0 Ht]. cbn [json_escape utf8_valid] in *.
  destruct (Z.ltb_spec b 128) as [Hlo|Hhi].
  - rewrite <- app_assoc, unescape_ascii by (unfold isOctet8 in *; lia).
    rewrite IH by (done || lia). reflexivity.
  - destruct (utf8_width (b :: t)) as [|[|[|[|[|k]]]]] eqn:Hw; try discriminate.
    + destruct t as [|b1 t]; [discriminate|]. cbn [app].
      rewrite (unescape_high b _ (json_escape t ++ 34 :: rest) 2); [|lia|apply (width_prefix _ _ _ Hw); lia|lia|reflexivity].
      inversion Ht; subst. simpl in Hle. rewrite IH by (done || lia). reflexivity.
    + destruct t as [|b1 [|b2 t]]; try discriminate. inversion Ht as [|? ? ? Ht2]; subst.
      inversion Ht2; subst. simpl in Hle. destruct (line_separator b b1 b2) eqn:Hs.
      * destruct (line_separator_bytes _ _ _ Hs) as (_ & He & Hr).
        rewrite <- app_assoc, unescape_u;
          [|lia|unfold is_surrogate; by rewrite (proj2 (Z.leb_gt _ _)) by lia].
        rewrite He, IH by (done || lia). reflexivity.
      * cbn [app]. rewrite (unescape_high b _ (json_escape t ++ 34 :: rest) 3);
          [|lia|apply (width_prefix _ _ _ Hw); lia|lia|reflexivity].
        rewrite IH by (done || lia). reflexivity.
    + destruct t as [|b1 [|b2 [|b3 t]]]; try discriminate. inversion Ht as [|? ? ? Ht2]; subst.
      inversion Ht2 as [|? ? ? Ht3]; subst. inversion Ht3; subst. simpl in Hle. cbn [app].
      rewrite (unescape_high b _ (json_escape t ++ 34 :: rest) 4); [|lia|apply (width_prefix _ _ _ Hw); lia|lia|reflexivity].
      rewrite IH by (done || lia). reflexivity.
Qed.

Lemma bytes_to_str_bytes s : bytes_to_str (str_bytes s) = s.
Proof.
  unfold bytes_to_str, str_bytes. rewrite map_map.
  rewrite (map_ext _ id) by apply byte_of_val. rewrite map_id. apply String.string_of_list_ascii_of_string.
Qed.
Lemma str_bytes_to_str l : Forall isOctet8 l → str_bytes (bytes_to_str l) = l.
Proof.
  intros Hl. unfold bytes_to_str, str_bytes. rewrite String.list_ascii_of_string_of_list_ascii, map_map.
  induction Hl; simpl; [done|]. rewrite byte_val_of by done. by f_equal.
Qed.
Lemma str_bytes_octets s : Forall isOctet8 (str_bytes s).
Proof. unfold str_bytes. apply Forall_map, Forall_true. intros a. apply byte_val_range. Qed.

Lemma unquote s rest : valid_string s = true →
  json_unescape (json_escape (str_bytes s) ++ 34 :: rest) = Some (str_bytes s, rest).
Proof. intros Hv. apply unescape_escape; [done|]. apply str_bytes_octets. Qed.

(** *** Integers *)

Lemma itoa_read z : NilZero.int_of_string (itoa z) = Some (Z.to_int z).
Proof.
  apply NilZero.isi; destruct z; try done;
    intros [= E']; by apply (DecimalPos.Unsigned.to_uint_nonnil _ E').
Qed.

Lemma read_integer_of z : read_integer (str_bytes (itoa z)) = Some z.
Proof.
  unfold read_integer. rewrite bytes_to_str_bytes, itoa_read, DecimalZ.of_to.
  by rewrite String.eqb_refl.
Qed.

Lemma uint_bytes u : Forall (λ b, 48 <= b <= 57) (str_bytes (NilEmpty.string_of_uint u)).
Proof. induction u; simpl; [constructor|..]; (constructor; [vm_compute; split; discriminate|exact IHu]). Qed.

(** The text of an integer: digits, after a minus sign when it is negative. *)
Lemma itoa_bytes z : ∃ b l, str_bytes (itoa z) = b :: l ∧ (48 <= b <= 57 ∨ b = 45) ∧ Forall (λ b, 48 <= b <= 57) l.
Proof.
  unfold itoa. destruct z as [|p|p]; simpl.
  - exists 48, []. repeat split; [left; lia|constructor].
  - pose proof (DecimalPos.Unsigned.to_uint_nonnil p) as Hn. unfold NilZero.string_of_uint.
    pose proof (uint_bytes (Pos.to_uint p)) as Hb.
    destruct (Pos.to_uint p); try done; inversion Hb; subst; (eexists _, _; split; [reflexivity|split; [left|]; done]).
  - pose proof (DecimalPos.Unsigned.to_uint_nonnil p) as Hn. unfold NilZero.string_of_uint.
    pose proof (uint_bytes (Pos.to_uint p)) as Hb.
    destruct (Pos.to_uint p); try done; (eexists _, _; split; [reflexivity|split; [by right|exact Hb]]).
Qed.

(** The text does not go on with a number. *)
Definition stops (rest : list Z) : Prop := match rest with b :: _ => is_number_byte b = false | [] => True end.

Lemma number_byte b : 48 <= b <= 57 ∨ b = 45 → is_number_byte b = true.
Proof.
  intros [Hb | ->]; [|reflexivity]. unfold is_number_byte.
  by rewrite (proj2 (Z.leb_le 48 b)), (proj2 (Z.leb_le b 57)) by lia.
Qed.

Lemma take_number_of l rest : Forall (λ b, is_number_byte b = true) l → stops rest →
  take_number (l ++ rest) = (l, rest).
Proof.
  intros Hl Hr. induction Hl as [|b l Hb Hl IH]; simpl.
  - destruct rest as [|b rest]; [done|]. simpl in *. by rewrite Hr.
  - by rewrite Hb, IH.
Qed.

(** *** Values *)

Fixpoint json_valid (v : JSON) : bool :=
  match v with
  | JNull | JBoolean _ | JNumber _ => true
  | JDecimal _ => false
  | JString s => valid_string s
  | JArray l => forallb json_valid l
  | JObject l => forallb (λ '(k, v), valid_string k && json_valid v) l
  end.

Fixpoint json_size (v : JSON) : nat :=
  match v with
  | JDecimal _ => 0
  | JNull | JBoolean _ | JNumber _ | JString _ => 1
  | JArray l => 2 + sum_list_with (λ v, S (json_size v)) l
  | JObject l => 2 + sum_list_with (λ '(_, v), S (json_size v)) l
  end%nat.

Section JSONInd.
Variable P : JSON → Prop.
Hypotheses (Hnull : P JNull) (Hbool : ∀ b, P (JBoolean b)) (Hnum : ∀ z, P (JNumber z))
  (Hdec : ∀ text, P (JDecimal text))
  (Hstr : ∀ s, P (JString s)) (Harr : ∀ l, Forall P l → P (JArray l))
  (Hobj : ∀ l, Forall (λ kv, P (snd kv)) l → P (JObject l)).

Fixpoint JSON_nested_ind (v : JSON) : P v :=
  match v with
  | JNull => Hnull
  | JBoolean b => Hbool b
  | JNumber z => Hnum z
  | JDecimal text => Hdec text
  | JString s => Hstr s
  | JArray l => Harr l ((fix go l := match l return Forall P l with
      [] => Forall_nil_2 _ | v :: l => Forall_cons_2 _ _ _ (JSON_nested_ind v) (go l) end) l)
  | JObject l => Hobj l ((fix go (l : list (string * JSON)) := match l return Forall (λ kv, P (snd kv)) l with
      [] => Forall_nil_2 _ | (k, v) :: l => Forall_cons_2 _ (k, v) l (JSON_nested_ind v) (go l) end) l)
  end.
End JSONInd.

(** The first byte of a value starts no space, and only one reading of it. *)
Lemma print_head v : json_valid v = true → ∃ b l, json_print v = b :: l ∧ b ≠ 32 ∧ b ≠ 9 ∧ b ≠ 10 ∧ b ≠ 13 ∧ b ≠ 93 ∧ b ≠ 125.
Proof.
  destruct v as [|[]|z|text|s|l|l]; simpl; intros Hv; try discriminate Hv;
    try (eexists _, _; split; [reflexivity|vm_compute; repeat split; discriminate]).
  destruct (itoa_bytes z) as (b & l & -> & Hb & _). eexists _, _. split; [reflexivity|lia].
Qed.

Lemma skip_space_head b l : b ≠ 32 → b ≠ 9 → b ≠ 10 → b ≠ 13 → skip_space (b :: l) = b :: l.
Proof. intros. simpl. by rewrite !(proj2 (Z.eqb_neq b _)) by lia. Qed.

Lemma skip_space_print v rest : json_valid v = true → skip_space (json_print v ++ rest) = json_print v ++ rest.
Proof. intros (b & l & -> & Hb)%print_head. apply skip_space_head; lia. Qed.

Lemma value_literal fuel b l v word rest : b :: l = str_bytes word →
  (b = 110 ∧ word = "null" ∧ v = JNull) ∨ (b = 116 ∧ word = "true" ∧ v = JBoolean true)
  ∨ (b = 102 ∧ word = "false" ∧ v = JBoolean false) →
  json_value (S fuel) (str_bytes word ++ rest) = Some (v, rest).
Proof. intros _ [(_ & -> & ->) | [(_ & -> & ->) | (_ & -> & ->)]]; reflexivity. Qed.

Lemma value_number fuel z rest : stops rest →
  json_value (S fuel) (str_bytes (itoa z) ++ rest) = Some (JNumber z, rest).
Proof.
  intros Hr. pose proof (skip_space_print (JNumber z) rest eq_refl) as Hs. simpl in Hs.
  cbn [json_value]. rewrite Hs.
  assert (take_number (str_bytes (itoa z) ++ rest) = (str_bytes (itoa z), rest)) as Ht.
  { apply take_number_of; [|done]. destruct (itoa_bytes z) as (b & l & -> & Hb & Hl).
    constructor; [by apply number_byte|]. eapply Forall_impl; [exact Hl|]. intros c Hc. apply number_byte. by left. }
  pose proof (read_integer_of z) as Hi. destruct (itoa_bytes z) as (b & l & E & Hb & Hl). rewrite E in *.
  cbn [app] in *. rewrite !(proj2 (Z.eqb_neq b _)) by lia. rewrite Ht. unfold read_number. rewrite Hi. reflexivity.
Qed.

Lemma quote_app s rest : json_quote s ++ rest = 34 :: (json_escape (str_bytes s) ++ 34 :: rest).
Proof. unfold json_quote. simpl. by rewrite <- app_assoc. Qed.

Lemma value_string fuel s rest : valid_string s = true →
  json_value (S fuel) (json_quote s ++ rest) = Some (JString s, rest).
Proof.
  intros Hv. rewrite quote_app. cbn [json_value]. rewrite skip_space_head by lia.
  change (Z.eqb 34 34) with true. cbn iota. rewrite unquote by done. by rewrite bytes_to_str_bytes.
Qed.

(** What an element list leaves to be read. *)
Definition reads (v : JSON) : Prop := json_valid v = true → ∀ fuel rest, (json_size v <= fuel)%nat → stops rest →
  json_value fuel (json_print v ++ rest) = Some (v, rest).

Lemma elements_read v l : Forall reads (v :: l) → forallb json_valid (v :: l) = true → ∀ fuel rest,
  (1 + sum_list_with (λ v, S (json_size v)) (v :: l) <= fuel)%nat →
  json_elements fuel (comma_separated (json_print <$> v :: l) ++ 93 :: rest) = Some (v :: l, rest).
Proof.
  revert v. induction l as [|w l IH]; intros v Hl Hv fuel rest Hf;
    apply Forall_cons in Hl as [Hr Hl]; simpl in Hv; apply andb_true_iff in Hv as [Hv Hvl];
    (destruct fuel as [|fuel]; [simpl in Hf; lia|]); cbn [json_elements].
  - simpl. rewrite app_nil_r. simpl in Hf. rewrite Hr; [reflexivity|done|lia|done].
  - simpl in Hf. cbn [comma_separated fmap list_fmap concat]. rewrite <- !app_assoc.
    rewrite Hr; [|done|lia|done]. cbn [app]. rewrite skip_space_head by lia.
    assert (comma_separated (json_print <$> w :: l) ++ 93 :: rest
      = json_print w ++ (concat (cons 44 <$> (json_print <$> l)) ++ 93 :: rest)) as <-.
    { cbn [comma_separated fmap list_fmap]. by rewrite <- app_assoc. }
    rewrite IH; [reflexivity|done|done|simpl; lia].
Qed.

Definition print_member (kv : string * JSON) : list Z := json_quote kv.1 ++ 58 :: json_print kv.2.

Lemma members_read m l : Forall (λ kv, reads (snd kv)) (m :: l) →
  forallb (λ '(k, v), valid_string k && json_valid v) (m :: l) = true → ∀ fuel rest,
  (1 + sum_list_with (λ '(_, v), S (json_size v)) (m :: l) <= fuel)%nat →
  json_members fuel (comma_separated (print_member <$> m :: l) ++ 125 :: rest) = Some (m :: l, rest).
Proof.
  revert m. induction l as [|w l IH]; intros [k v] Hl Hv fuel rest Hf;
    apply Forall_cons in Hl as [Hr Hl]; simpl in Hv, Hr; apply andb_true_iff in Hv as [Hkv Hvl];
    apply andb_true_iff in Hkv as [Hk Hv]; (destruct fuel as [|fuel]; [simpl in Hf; lia|]);
    cbn [json_members]; simpl in Hf; cbn [comma_separated fmap list_fmap concat]; unfold print_member at 1;
    cbn [fst snd]; rewrite <- !app_assoc, quote_app; rewrite skip_space_head by lia; cbn [app];
    rewrite unquote by done; rewrite skip_space_head by lia; rewrite bytes_to_str_bytes.
  - rewrite Hr; [reflexivity|done|lia|done].
  - rewrite Hr; [|done|lia|done]. rewrite skip_space_head by lia.
    assert (comma_separated (print_member <$> w :: l) ++ 125 :: rest
      = print_member w ++ (concat (cons 44 <$> (print_member <$> l)) ++ 125 :: rest)) as <-.
    { cbn [comma_separated fmap list_fmap]. by rewrite <- app_assoc. }
    rewrite IH; [reflexivity|done|done|simpl; lia].
Qed.

(** A list in brackets is not taken for the empty one. *)
Lemma separated_head b l rest c : b ≠ 32 → b ≠ 9 → b ≠ 10 → b ≠ 13 → b ≠ c →
  ∀ x, x = b :: l → match skip_space (x ++ rest) with d :: _ => d ≠ c | [] => False end.
Proof. intros ???? Hc x ->. cbn [app]. by rewrite skip_space_head. Qed.

Lemma value_read v : reads v.
Proof.
  induction v as [|b|z|text|s|l IH|l IH] using JSON_nested_ind; intros Hv fuel rest Hf Hr;
    try discriminate Hv; (destruct fuel as [|fuel]; [simpl in Hf; lia|]).
  - reflexivity.
  - by destruct b.
  - by apply value_number.
  - by apply value_string.
  - cbn [json_print json_valid] in *. cbn [app json_value]. rewrite skip_space_head by lia.
    cbn [Z.eqb Pos.eqb]. destruct l as [|v l]; [reflexivity|]. rewrite <- app_assoc. change ([93] ++ rest) with (93 :: rest).
    rewrite (elements_read v l IH Hv fuel rest) by (simpl in *; lia).
    destruct (print_head v) as (b & t & E & Hb); [by apply andb_true_iff in Hv as [? _]|].
    pose proof (separated_head b (t ++ concat (cons 44 <$> (json_print <$> l))) (93 :: rest) 93) as Hs.
    specialize (Hs ltac:(lia) ltac:(lia) ltac:(lia) ltac:(lia) ltac:(lia) (comma_separated (json_print <$> v :: l))).
    cbn [comma_separated fmap list_fmap] in *. rewrite E in Hs. specialize (Hs eq_refl).
    rewrite E. by repeat case_match.
  - cbn [json_print json_valid] in *. cbn [app json_value]. rewrite skip_space_head by lia.
    cbn [Z.eqb Pos.eqb]. destruct l as [|m l]; [reflexivity|]. rewrite <- app_assoc. change ([125] ++ rest) with (125 :: rest).
    rewrite (list_fmap_ext _ print_member) by (intros ? [] _; reflexivity).
    rewrite (members_read m l IH Hv fuel rest) by (destruct m; simpl in *; lia).
    destruct m as [k v]. cbn [comma_separated fmap list_fmap print_member]. unfold print_member at 1.
    cbn [fst snd]. rewrite <- !app_assoc, quote_app. rewrite skip_space_head by lia. reflexivity.
Qed.

Lemma separated_length {A} (f : A → list Z) (g : A → nat) (l : list A) :
  Forall (λ x, g x <= 2 * length (f x))%nat l →
  (sum_list_with (λ x, S (g x)) l <= 2 * length (comma_separated (f <$> l)) + 2)%nat.
Proof.
  assert (∀ l, Forall (λ x, g x <= 2 * length (f x))%nat l →
    sum_list_with (λ x, S (g x)) l <= 2 * length (concat (cons 44%Z <$> (f <$> l))))%nat as Hc.
  { induction 1 as [|x l' Hx Hl IH]; csimpl; [lia|]. rewrite length_app. lia. }
  destruct 1 as [|x l' Hx Hl]; csimpl; [lia|]. specialize (Hc l' Hl). rewrite length_app. lia.
Qed.

Lemma print_length v : (json_size v <= 2 * length (json_print v))%nat.
Proof.
  induction v as [|b|z|text|s|l IH|l IH] using JSON_nested_ind; cbn [json_size].
  1-2: destruct (print_head JNull) as (b' & t' & E & _); [done|]; try destruct b; simpl; lia.
  1: destruct (print_head (JNumber z)) as (b' & t' & E & _); [done|]; rewrite E; simpl; lia.
  1: lia.
  1: simpl; lia.
  all: cbn [json_print length]; rewrite length_app; simpl (length [_]).
  - pose proof (separated_length json_print json_size l IH). lia.
  - pose proof (separated_length print_member (λ kv, json_size (snd kv)) l) as Hs.
    rewrite (list_fmap_ext _ print_member) by (intros ? [] _; reflexivity).
    assert (sum_list_with (λ '(_, v), S (json_size v)) l = sum_list_with (λ kv, S (json_size (snd kv))) l) as ->.
    { clear. induction l as [|[k v] l IHl]; simpl; [done|]. by rewrite IHl. }
    assert (Forall (λ kv, json_size kv.2 <= 2 * length (print_member kv))%nat l) as Hl; [|specialize (Hs Hl); lia].
    eapply Forall_impl; [exact IH|]. intros kv Hkv. unfold print_member. rewrite length_app. cbn [length]. simpl in Hkv. lia.
Qed.

Lemma escape_u_octets r : Forall isOctet8 (escape_u r).
Proof.
  unfold escape_u, hex4. repeat (constructor; [first [apply byte_val_range | unfold isOctet8; lia]|]). constructor.
Qed.
Lemma escape_ascii_octets b : isOctet8 b → Forall isOctet8 (escape_ascii b).
Proof.
  intros Hb. unfold escape_ascii. repeat case_match; try apply escape_u_octets;
    repeat (constructor; [first [done | unfold isOctet8; lia]|]); constructor.
Qed.
Lemma escape_octets l : Forall isOctet8 l → Forall isOctet8 (json_escape l).
Proof.
  remember (length l) as n eqn:Hn. assert (length l <= n)%nat as Hle by lia. clear Hn.
  revert l Hle. induction n as [|n IH]; intros [|b t] Hle Hb; try constructor; simpl in Hle; [lia|].
  apply Forall_cons in Hb as [Hb Ht]. pose proof Ht as Hall. cbn [json_escape].
  repeat case_match; simplify_eq; repeat (apply Forall_cons in Ht as [? Ht]); simpl in Hle;
    rewrite ?Forall_app, ?Forall_cons; repeat match goal with |- _ ∧ _ => split end; try done; try apply escape_u_octets;
    try (by apply escape_ascii_octets); try (apply Forall_nil_2); apply IH; simpl; try done; lia.
Qed.
Lemma quote_octets s : Forall isOctet8 (json_quote s).
Proof.
  unfold json_quote. constructor; [unfold isOctet8; lia|]. apply Forall_app. split.
  - apply escape_octets, str_bytes_octets.
  - constructor; [unfold isOctet8; lia|constructor].
Qed.
Lemma separated_octets l : Forall (Forall isOctet8) l → Forall isOctet8 (comma_separated l).
Proof.
  destruct 1 as [|x l Hx Hl]; csimpl; [constructor|]. apply Forall_app. split; [done|].
  induction Hl; csimpl; [constructor|]. constructor; [unfold isOctet8; lia|]. by apply Forall_app.
Qed.
Lemma print_octets v : Forall isOctet8 (json_print v).
Proof.
  induction v as [|b|z|text|s|l IH|l IH] using JSON_nested_ind; cbn [json_print].
  1-4: apply str_bytes_octets.
  1: apply quote_octets.
  all: constructor; [unfold isOctet8; lia|]; apply Forall_app; split;
    [|constructor; [unfold isOctet8; lia|constructor]]; apply separated_octets, Forall_fmap.
  - exact IH.
  - eapply Forall_impl; [exact IH|]. intros [k v] Hv. cbn beta. apply Forall_app. split; [apply quote_octets|].
    constructor; [unfold isOctet8; lia|exact Hv].
Qed.

(** Reading what was written gives the value back. *)
Lemma json_roundtrip v : json_valid v = true → json_Parse (json_Marshal v) = Some v.
Proof.
  intros Hv. unfold json_Parse, json_Marshal. rewrite str_bytes_to_str by apply print_octets.
  pose proof (value_read v Hv (2 + 2 * length (json_print v))%nat [] ltac:(pose proof (print_length v); lia) I) as Hr.
  rewrite app_nil_r in Hr. by rewrite Hr.
Qed.
