(* ===== verification/Domain.v ===== *)
(** * The domain types ([domain/types.go])

    Go declares its enumerations as string types with named constants, and a
    value read from a request or from storage may be none of them; the model
    keeps that: each enumeration is [string] with the same constants. Every
    struct is a record with the fields of the source, in its order; [T_with_F]
    is the assignment [t.F = v] on a copy, and [zero_T] the zero value. *)

From S2P Require Import Prelude GoLib.

(** *** [IdentityType] *)
Definition IdentityType := string.
Definition IdentityUser : IdentityType := "user".
Definition IdentityMachine : IdentityType := "machine".
Definition IdentityService : IdentityType := "service".
Definition IdentityIoTDevice : IdentityType := "iot_device".
Definition IdentityWorkload : IdentityType := "workload".

(** *** [IdentityStatus] *)
Definition IdentityStatus := string.
Definition IdentityActive : IdentityStatus := "active".
Definition IdentityDisabled : IdentityStatus := "disabled".

(** *** [IssuerStatus] *)
Definition IssuerStatus := string.
Definition IssuerActive : IssuerStatus := "active".
Definition IssuerDisabled : IssuerStatus := "disabled".

(** *** [OCSPResponderStatus] *)
Definition OCSPResponderStatus := string.
Definition OCSPResponderActive : OCSPResponderStatus := "active".
Definition OCSPResponderDisabled : OCSPResponderStatus := "disabled".

(** *** [NotificationEndpointType] *)
Definition NotificationEndpointType := string.
Definition NotificationEndpointWebhook : NotificationEndpointType := "webhook".

(** *** [NotificationEndpointStatus] *)
Definition NotificationEndpointStatus := string.
Definition NotificationEndpointActive : NotificationEndpointStatus := "active".
Definition NotificationEndpointDisabled : NotificationEndpointStatus := "disabled".

(** *** [EnrollmentStatus] *)
Definition EnrollmentStatus := string.
Definition EnrollmentPending : EnrollmentStatus := "pending".
Definition EnrollmentApproved : EnrollmentStatus := "approved".
Definition EnrollmentRejected : EnrollmentStatus := "rejected".
Definition EnrollmentIssued : EnrollmentStatus := "issued".
Definition EnrollmentCanceled : EnrollmentStatus := "canceled".

(** *** [IssuanceAttemptStatus] *)
Definition IssuanceAttemptStatus := string.
Definition IssuanceAttemptSigning : IssuanceAttemptStatus := "signing".
Definition IssuanceAttemptSigned : IssuanceAttemptStatus := "signed".
Definition IssuanceAttemptFinalized : IssuanceAttemptStatus := "finalized".
Definition IssuanceAttemptFailed : IssuanceAttemptStatus := "failed".

(** *** [CertificateStatus] *)
Definition CertificateStatus := string.
Definition CertificateValid : CertificateStatus := "valid".
Definition CertificateSuspended : CertificateStatus := "suspended".
Definition CertificateRevoked : CertificateStatus := "revoked".
Definition CertificateExpired : CertificateStatus := "expired".

(** *** [CRLPublicationStatus] *)
Definition CRLPublicationStatus := string.
Definition CRLPublicationPublished : CRLPublicationStatus := "published".

(** *** [OutboxMessageStatus] *)
Definition OutboxMessageStatus := string.
Definition OutboxPending : OutboxMessageStatus := "pending".
Definition OutboxProcessing : OutboxMessageStatus := "processing".
Definition OutboxCompleted : OutboxMessageStatus := "completed".
Definition OutboxFailed : OutboxMessageStatus := "failed".
Definition OutboxDeadLetter : OutboxMessageStatus := "dead_letter".

(** *** [JobAttemptStatus] *)
Definition JobAttemptStatus := string.
Definition JobAttemptSucceeded : JobAttemptStatus := "succeeded".
Definition JobAttemptFailed : JobAttemptStatus := "failed".

(** *** [APIKeyStatus] *)
Definition APIKeyStatus := string.
Definition APIKeyActive : APIKeyStatus := "active".
Definition APIKeyDisabled : APIKeyStatus := "disabled".

(** *** [APIKeyScope] *)
Definition APIKeyScope := string.
Definition APIKeyScopeRead : APIKeyScope := "read".
Definition APIKeyScopeWrite : APIKeyScope := "write".
Definition APIKeyScopeOperator : APIKeyScope := "operator".

(** *** [ACMEAccountStatus] *)
Definition ACMEAccountStatus := string.
Definition ACMEAccountValid : ACMEAccountStatus := "valid".
Definition ACMEAccountDeactivated : ACMEAccountStatus := "deactivated".

(** *** [ACMEOrderStatus] *)
Definition ACMEOrderStatus := string.
Definition ACMEOrderPending : ACMEOrderStatus := "pending".
Definition ACMEOrderReady : ACMEOrderStatus := "ready".
Definition ACMEOrderValid : ACMEOrderStatus := "valid".
Definition ACMEOrderInvalid : ACMEOrderStatus := "invalid".

(** *** [ACMEAuthorizationStatus] *)
Definition ACMEAuthorizationStatus := string.
Definition ACMEAuthorizationPending : ACMEAuthorizationStatus := "pending".
Definition ACMEAuthorizationValid : ACMEAuthorizationStatus := "valid".
Definition ACMEAuthorizationInvalid : ACMEAuthorizationStatus := "invalid".

(** *** [ACMEChallengeType] *)
Definition ACMEChallengeType := string.
Definition ACMEChallengeHTTP01 : ACMEChallengeType := "http-01".
Definition ACMEChallengeDNS01 : ACMEChallengeType := "dns-01".

(** *** [ACMEChallengeStatus] *)
Definition ACMEChallengeStatus := string.
Definition ACMEChallengePending : ACMEChallengeStatus := "pending".
Definition ACMEChallengeProcessing : ACMEChallengeStatus := "processing".
Definition ACMEChallengeValid : ACMEChallengeStatus := "valid".
Definition ACMEChallengeInvalid : ACMEChallengeStatus := "invalid".

(** *** [RevocationReason] *)
Definition RevocationReason := string.
Definition RevocationKeyCompromise : RevocationReason := "key_compromise".
Definition RevocationCACompromise : RevocationReason := "ca_compromise".
Definition RevocationAffiliationChanged : RevocationReason := "affiliation_changed".
Definition RevocationSuperseded : RevocationReason := "superseded".
Definition RevocationCessationOfOperation : RevocationReason := "cessation_of_operation".
Definition RevocationPrivilegeWithdrawn : RevocationReason := "privilege_withdrawn".
Definition RevocationUnspecified : RevocationReason := "unspecified".

(** *** [IssuerKind] *)
Definition IssuerKind := string.
Definition IssuerRootCA : IssuerKind := "root_ca".
Definition IssuerIntermediateCA : IssuerKind := "intermediate_ca".

Record Identity := mkIdentity {
  Identity_ID : string;
  Identity_Type : IdentityType;
  Identity_Name : string;
  Identity_ExternalID : string;
  Identity_Owner : string;
  Identity_Team : string;
  Identity_Service : string;
  Identity_Environment : string;
  Identity_DeploymentTarget : string;
  Identity_LastSeenAt : Time;
  Identity_MetadataJSON : string;
  Identity_AllowedDNSNames : list string;
  Identity_AllowedIPAddresses : list string;
  Identity_Status : IdentityStatus;
  Identity_CreatedAt : Time;
  Identity_UpdatedAt : Time;
}.
Definition zero_Identity : Identity :=
  mkIdentity "" "" "" "" "" "" "" "" "" zero_time "" [] [] "" zero_time zero_time.

Record Issuer := mkIssuer {
  Issuer_ID : string;
  Issuer_Name : string;
  Issuer_Kind : IssuerKind;
  Issuer_Status : IssuerStatus;
  Issuer_ParentIssuerID : string;
  Issuer_CertificatePEM : string;
  Issuer_KeyRef : string;
  Issuer_AIAURL : string;
  Issuer_CRLDistributionPoints : list string;
  Issuer_TrustAnchor : bool;
  Issuer_CreatedAt : Time;
  Issuer_UpdatedAt : Time;
}.
Definition zero_Issuer : Issuer :=
  mkIssuer "" "" "" "" "" "" "" "" [] false zero_time zero_time.

Record OCSPResponder := mkOCSPResponder {
  OCSPResponder_ID : string;
  OCSPResponder_IssuerID : string;
  OCSPResponder_Name : string;
  OCSPResponder_Status : OCSPResponderStatus;
  OCSPResponder_CertificatePEM : string;
  OCSPResponder_KeyRef : string;
  OCSPResponder_CreatedAt : Time;
  OCSPResponder_UpdatedAt : Time;
}.
Definition zero_OCSPResponder : OCSPResponder :=
  mkOCSPResponder "" "" "" "" "" "" zero_time zero_time.

Record NotificationEndpoint := mkNotificationEndpoint {
  NotificationEndpoint_ID : string;
  NotificationEndpoint_Name : string;
  NotificationEndpoint_Type : NotificationEndpointType;
  NotificationEndpoint_Status : NotificationEndpointStatus;
  NotificationEndpoint_URL : string;
  NotificationEndpoint_Secret : string;
  NotificationEndpoint_EventTypes : list string;
  NotificationEndpoint_CreatedAt : Time;
  NotificationEndpoint_UpdatedAt : Time;
}.
Definition zero_NotificationEndpoint : NotificationEndpoint :=
  mkNotificationEndpoint "" "" "" "" "" "" [] zero_time zero_time.

Record StringListExtensionPolicy := mkStringListExtensionPolicy {
  StringListExtensionPolicy_Critical : bool;
  StringListExtensionPolicy_Values : list string;
}.
Definition zero_StringListExtensionPolicy : StringListExtensionPolicy :=
  mkStringListExtensionPolicy false [].

Record BasicConstraintsPolicy := mkBasicConstraintsPolicy {
  BasicConstraintsPolicy_Critical : bool;
  BasicConstraintsPolicy_CA : bool;
  BasicConstraintsPolicy_MaxPathLen : option Z;
}.
Definition zero_BasicConstraintsPolicy : BasicConstraintsPolicy :=
  mkBasicConstraintsPolicy false false None.

Record CertificateProfile := mkCertificateProfile {
  CertificateProfile_ID : string;
  CertificateProfile_Name : string;
  CertificateProfile_Description : string;
  CertificateProfile_IssuerID : string;
  CertificateProfile_ValidityPeriodSeconds : Z;
  CertificateProfile_PublicTLS : bool;
  CertificateProfile_SubjectTemplate : string;
  CertificateProfile_AllowedDNSPatterns : list string;
  CertificateProfile_AllowedIPRanges : list string;
  CertificateProfile_AllowedKeyAlgorithms : list string;
  CertificateProfile_MinKeySizeBits : Z;
  CertificateProfile_AllowedSignatureAlgorithms : list string;
  CertificateProfile_KeyUsage : StringListExtensionPolicy;
  CertificateProfile_ExtendedKeyUsage : StringListExtensionPolicy;
  CertificateProfile_BasicConstraints : BasicConstraintsPolicy;
  CertificateProfile_SubjectKeyIdentifier : bool;
  CertificateProfile_AuthorityKeyIdentifier : bool;
  CertificateProfile_CreatedAt : Time;
  CertificateProfile_UpdatedAt : Time;
}.
Definition zero_CertificateProfile : CertificateProfile :=
  mkCertificateProfile "" "" "" "" 0%Z false "" [] [] [] 0%Z [] zero_StringListExtensionPolicy zero_StringListExtensionPolicy zero_BasicConstraintsPolicy false false zero_time zero_time.

Record Enrollment := mkEnrollment {
  Enrollment_ID : string;
  Enrollment_IdentityID : string;
  Enrollment_IssuerID : string;
  Enrollment_CertificateProfileID : string;
  Enrollment_SourceCertificateID : string;
  Enrollment_CSRPEM : string;
  Enrollment_Status : EnrollmentStatus;
  Enrollment_RequestedSubject : string;
  Enrollment_RequestedDNSNames : list string;
  Enrollment_RequestedIPAddresses : list string;
  Enrollment_CSRDNSNames : list string;
  Enrollment_CSRIPAddresses : list string;
  Enrollment_RequestedNotAfter : Time;
  Enrollment_ApprovedBy : string;
  Enrollment_ApprovedAt : Time;
  Enrollment_CreatedAt : Time;
  Enrollment_UpdatedAt : Time;
}.
Definition zero_Enrollment : Enrollment :=
  mkEnrollment "" "" "" "" "" "" "" "" [] [] [] [] zero_time "" zero_time zero_time zero_time.

Record Certificate := mkCertificate {
  Certificate_ID : string;
  Certificate_IdentityID : string;
  Certificate_IssuerID : string;
  Certificate_EnrollmentID : string;
  Certificate_CertificateProfileID : string;
  Certificate_SerialNumber : string;
  Certificate_Subject : string;
  Certificate_DNSNames : list string;
  Certificate_IPAddresses : list string;
  Certificate_NotBefore : Time;
  Certificate_NotAfter : Time;
  Certificate_Status : CertificateStatus;
  Certificate_CertificatePEM : string;
  Certificate_RenewalNotifiedAt : Time;
  Certificate_CreatedAt : Time;
  Certificate_UpdatedAt : Time;
}.
Definition zero_Certificate : Certificate :=
  mkCertificate "" "" "" "" "" "" "" [] [] zero_time zero_time "" "" zero_time zero_time zero_time.

Record IssuanceAttempt := mkIssuanceAttempt {
  IssuanceAttempt_EnrollmentID : string;
  IssuanceAttempt_Status : IssuanceAttemptStatus;
  IssuanceAttempt_LeaseExpiresAt : Time;
  IssuanceAttempt_CertificateID : string;
  IssuanceAttempt_CertificatePEM : string;
  IssuanceAttempt_SerialNumber : string;
  IssuanceAttempt_Subject : string;
  IssuanceAttempt_NotBefore : Time;
  IssuanceAttempt_NotAfter : Time;
  IssuanceAttempt_SigningStartedAt : Time;
  IssuanceAttempt_SignedAt : Time;
  IssuanceAttempt_FinalizedAt : Time;
  IssuanceAttempt_LastError : string;
  IssuanceAttempt_SigningEvidenceJSON : string;
  IssuanceAttempt_CreatedAt : Time;
  IssuanceAttempt_UpdatedAt : Time;
}.
Definition zero_IssuanceAttempt : IssuanceAttempt :=
  mkIssuanceAttempt "" "" zero_time "" "" "" "" zero_time zero_time zero_time zero_time zero_time "" "" zero_time zero_time.

Record Revocation := mkRevocation {
  Revocation_ID : string;
  Revocation_CertificateID : string;
  Revocation_Reason : RevocationReason;
  Revocation_RevokedBy : string;
  Revocation_RevokedAt : Time;
  Revocation_CreatedAt : Time;
}.
Definition zero_Revocation : Revocation :=
  mkRevocation "" "" "" "" zero_time zero_time.

Record RevokedCertificateEntry := mkRevokedCertificateEntry {
  RevokedCertificateEntry_CertificateID : string;
  RevokedCertificateEntry_SerialNumber : string;
  RevokedCertificateEntry_RevokedAt : Time;
  RevokedCertificateEntry_Reason : RevocationReason;
}.
Definition zero_RevokedCertificateEntry : RevokedCertificateEntry :=
  mkRevokedCertificateEntry "" "" zero_time "".

Record CRLPublication := mkCRLPublication {
  CRLPublication_ID : string;
  CRLPublication_IssuerID : string;
  CRLPublication_DistributionPoint : string;
  CRLPublication_CRLNumber : Z;
  CRLPublication_ThisUpdate : Time;
  CRLPublication_NextUpdate : Time;
  CRLPublication_Status : CRLPublicationStatus;
  CRLPublication_CRLPEM : string;
  CRLPublication_CreatedAt : Time;
  CRLPublication_UpdatedAt : Time;
}.
Definition zero_CRLPublication : CRLPublication :=
  mkCRLPublication "" "" "" 0%Z zero_time zero_time "" "" zero_time zero_time.

Record CRLGenerationClaim := mkCRLGenerationClaim {
  CRLGenerationClaim_IssuerID : string;
  CRLGenerationClaim_DistributionPoint : string;
  CRLGenerationClaim_CRLNumber : Z;
  CRLGenerationClaim_LeaseExpiresAt : Time;
  CRLGenerationClaim_CreatedAt : Time;
  CRLGenerationClaim_UpdatedAt : Time;
}.
Definition zero_CRLGenerationClaim : CRLGenerationClaim :=
  mkCRLGenerationClaim "" "" 0%Z zero_time zero_time zero_time.

Record AuditEvent := mkAuditEvent {
  AuditEvent_ID : string;
  AuditEvent_Sequence : Z;
  AuditEvent_Actor : string;
  AuditEvent_Action : string;
  AuditEvent_ResourceType : string;
  AuditEvent_ResourceID : string;
  AuditEvent_MetadataJSON : string;
  AuditEvent_HashAlgorithm : string;
  AuditEvent_PreviousEventHash : string;
  AuditEvent_EventHash : string;
  AuditEvent_CreatedAt : Time;
}.
Definition zero_AuditEvent : AuditEvent :=
  mkAuditEvent "" 0%Z "" "" "" "" "" "" "" "" zero_time.

Record AuditChainCheckpoint := mkAuditChainCheckpoint {
  AuditChainCheckpoint_Sequence : Z;
  AuditChainCheckpoint_HashAlgorithm : string;
  AuditChainCheckpoint_EventHash : string;
  AuditChainCheckpoint_CreatedAt : Time;
}.
Definition zero_AuditChainCheckpoint : AuditChainCheckpoint :=
  mkAuditChainCheckpoint 0%Z "" "" zero_time.

Record AuditIntegrity := mkAuditIntegrity {
  AuditIntegrity_Valid : bool;
  AuditIntegrity_HashAlgorithm : string;
  AuditIntegrity_EventCount : Z;
  AuditIntegrity_FirstSequence : Z;
  AuditIntegrity_LastSequence : Z;
  AuditIntegrity_LastEventHash : string;
  AuditIntegrity_CheckpointSequence : Z;
  AuditIntegrity_CheckpointEventHash : string;
  AuditIntegrity_FailureReason : string;
}.
Definition zero_AuditIntegrity : AuditIntegrity :=
  mkAuditIntegrity false "" 0%Z 0%Z 0%Z "" 0%Z "" "".

Record OutboxMessage := mkOutboxMessage {
  OutboxMessage_ID : string;
  OutboxMessage_Type : string;
  OutboxMessage_PayloadJSON : string;
  OutboxMessage_Status : OutboxMessageStatus;
  OutboxMessage_AvailableAt : Time;
  OutboxMessage_ProcessingDeadlineAt : Time;
  OutboxMessage_AttemptCount : Z;
  OutboxMessage_MaxAttempts : Z;
  OutboxMessage_LastError : string;
  OutboxMessage_CreatedAt : Time;
  OutboxMessage_UpdatedAt : Time;
}.
Definition zero_OutboxMessage : OutboxMessage :=
  mkOutboxMessage "" "" "" "" zero_time zero_time 0%Z 0%Z "" zero_time zero_time.

Record JobAttempt := mkJobAttempt {
  JobAttempt_ID : string;
  JobAttempt_OutboxMessageID : string;
  JobAttempt_Status : JobAttemptStatus;
  JobAttempt_Error : string;
  JobAttempt_StartedAt : Time;
  JobAttempt_FinishedAt : Time;
  JobAttempt_CreatedAt : Time;
}.
Definition zero_JobAttempt : JobAttempt :=
  mkJobAttempt "" "" "" "" zero_time zero_time zero_time.

Record WebhookDelivery := mkWebhookDelivery {
  WebhookDelivery_OutboxMessageID : string;
  WebhookDelivery_EndpointID : string;
  WebhookDelivery_Status : JobAttemptStatus;
  WebhookDelivery_AttemptCount : Z;
  WebhookDelivery_LastError : string;
  WebhookDelivery_LastAttemptedAt : Time;
  WebhookDelivery_CreatedAt : Time;
  WebhookDelivery_UpdatedAt : Time;
}.
Definition zero_WebhookDelivery : WebhookDelivery :=
  mkWebhookDelivery "" "" "" 0%Z "" zero_time zero_time zero_time.

Record APIKey := mkAPIKey {
  APIKey_ID : string;
  APIKey_Name : string;
  APIKey_TokenHash : string;
  APIKey_Status : APIKeyStatus;
  APIKey_Actor : string;
  APIKey_Scopes : list APIKeyScope;
  APIKey_ExpiresAt : Time;
  APIKey_LastUsedAt : Time;
  APIKey_CreatedAt : Time;
  APIKey_UpdatedAt : Time;
}.
Definition zero_APIKey : APIKey :=
  mkAPIKey "" "" "" "" "" [] zero_time zero_time zero_time zero_time.

Record ACMEAccount := mkACMEAccount {
  ACMEAccount_ID : string;
  ACMEAccount_Contacts : list string;
  ACMEAccount_Status : ACMEAccountStatus;
  ACMEAccount_TermsOfServiceAgreed : bool;
  ACMEAccount_KeyThumbprint : string;
  ACMEAccount_KeyJWKJSON : string;
  ACMEAccount_CreatedAt : Time;
  ACMEAccount_UpdatedAt : Time;
}.
Definition zero_ACMEAccount : ACMEAccount :=
  mkACMEAccount "" [] "" false "" "" zero_time zero_time.

Record ACMEOrder := mkACMEOrder {
  ACMEOrder_ID : string;
  ACMEOrder_AccountID : string;
  ACMEOrder_IdentityID : string;
  ACMEOrder_IssuerID : string;
  ACMEOrder_CertificateProfileID : string;
  ACMEOrder_Status : ACMEOrderStatus;
  ACMEOrder_CSRPEM : string;
  ACMEOrder_RequestedSubject : string;
  ACMEOrder_RequestedDNSNames : list string;
  ACMEOrder_RequestedIPAddresses : list string;
  ACMEOrder_RequestedNotAfter : Time;
  ACMEOrder_EnrollmentID : string;
  ACMEOrder_CertificateID : string;
  ACMEOrder_ExpiresAt : Time;
  ACMEOrder_CreatedAt : Time;
  ACMEOrder_UpdatedAt : Time;
}.
Definition zero_ACMEOrder : ACMEOrder :=
  mkACMEOrder "" "" "" "" "" "" "" "" [] [] zero_time "" "" zero_time zero_time zero_time.

Record ACMEAuthorization := mkACMEAuthorization {
  ACMEAuthorization_ID : string;
  ACMEAuthorization_OrderID : string;
  ACMEAuthorization_IdentifierType : string;
  ACMEAuthorization_IdentifierValue : string;
  ACMEAuthorization_Status : ACMEAuthorizationStatus;
  ACMEAuthorization_ExpiresAt : Time;
  ACMEAuthorization_ValidationReuseExpiresAt : Time;
  ACMEAuthorization_CreatedAt : Time;
  ACMEAuthorization_UpdatedAt : Time;
}.
Definition zero_ACMEAuthorization : ACMEAuthorization :=
  mkACMEAuthorization "" "" "" "" "" zero_time zero_time zero_time zero_time.

Record ACMEChallenge := mkACMEChallenge {
  ACMEChallenge_ID : string;
  ACMEChallenge_AuthorizationID : string;
  ACMEChallenge_Type : ACMEChallengeType;
  ACMEChallenge_Token : string;
  ACMEChallenge_Status : ACMEChallengeStatus;
  ACMEChallenge_ValidatedAt : Time;
  ACMEChallenge_CreatedAt : Time;
  ACMEChallenge_UpdatedAt : Time;
}.
Definition zero_ACMEChallenge : ACMEChallenge :=
  mkACMEChallenge "" "" "" "" "" zero_time zero_time zero_time.

(** ** Field assignment *)

Definition OCSPResponder_with_Status (v : OCSPResponderStatus) (r : OCSPResponder) : OCSPResponder :=
  mkOCSPResponder (OCSPResponder_ID r) (OCSPResponder_IssuerID r) (OCSPResponder_Name r) v (OCSPResponder_CertificatePEM r) (OCSPResponder_KeyRef r) (OCSPResponder_CreatedAt r) (OCSPResponder_UpdatedAt r).
Definition OCSPResponder_with_UpdatedAt (v : Time) (r : OCSPResponder) : OCSPResponder :=
  mkOCSPResponder (OCSPResponder_ID r) (OCSPResponder_IssuerID r) (OCSPResponder_Name r) (OCSPResponder_Status r) (OCSPResponder_CertificatePEM r) (OCSPResponder_KeyRef r) (OCSPResponder_CreatedAt r) v.
Definition NotificationEndpoint_with_Status (v : NotificationEndpointStatus) (r : NotificationEndpoint) : NotificationEndpoint :=
  mkNotificationEndpoint (NotificationEndpoint_ID r) (NotificationEndpoint_Name r) (NotificationEndpoint_Type r) v (NotificationEndpoint_URL r) (NotificationEndpoint_Secret r) (NotificationEndpoint_EventTypes r) (NotificationEndpoint_CreatedAt r) (NotificationEndpoint_UpdatedAt r).
Definition NotificationEndpoint_with_UpdatedAt (v : Time) (r : NotificationEndpoint) : NotificationEndpoint :=
  mkNotificationEndpoint (NotificationEndpoint_ID r) (NotificationEndpoint_Name r) (NotificationEndpoint_Type r) (NotificationEndpoint_Status r) (NotificationEndpoint_URL r) (NotificationEndpoint_Secret r) (NotificationEndpoint_EventTypes r) (NotificationEndpoint_CreatedAt r) v.
Definition CertificateProfile_with_IssuerID (v : string) (r : CertificateProfile) : CertificateProfile :=
  mkCertificateProfile (CertificateProfile_ID r) (CertificateProfile_Name r) (CertificateProfile_Description r) v (CertificateProfile_ValidityPeriodSeconds r) (CertificateProfile_PublicTLS r) (CertificateProfile_SubjectTemplate r) (CertificateProfile_AllowedDNSPatterns r) (CertificateProfile_AllowedIPRanges r) (CertificateProfile_AllowedKeyAlgorithms r) (CertificateProfile_MinKeySizeBits r) (CertificateProfile_AllowedSignatureAlgorithms r) (CertificateProfile_KeyUsage r) (CertificateProfile_ExtendedKeyUsage r) (CertificateProfile_BasicConstraints r) (CertificateProfile_SubjectKeyIdentifier r) (CertificateProfile_AuthorityKeyIdentifier r) (CertificateProfile_CreatedAt r) (CertificateProfile_UpdatedAt r).
Definition CertificateProfile_with_UpdatedAt (v : Time) (r : CertificateProfile) : CertificateProfile :=
  mkCertificateProfile (CertificateProfile_ID r) (CertificateProfile_Name r) (CertificateProfile_Description r) (CertificateProfile_IssuerID r) (CertificateProfile_ValidityPeriodSeconds r) (CertificateProfile_PublicTLS r) (CertificateProfile_SubjectTemplate r) (CertificateProfile_AllowedDNSPatterns r) (CertificateProfile_AllowedIPRanges r) (CertificateProfile_AllowedKeyAlgorithms r) (CertificateProfile_MinKeySizeBits r) (CertificateProfile_AllowedSignatureAlgorithms r) (CertificateProfile_KeyUsage r) (CertificateProfile_ExtendedKeyUsage r) (CertificateProfile_BasicConstraints r) (CertificateProfile_SubjectKeyIdentifier r) (CertificateProfile_AuthorityKeyIdentifier r) (CertificateProfile_CreatedAt r) v.
Definition Enrollment_with_Status (v : EnrollmentStatus) (r : Enrollment) : Enrollment :=
  mkEnrollment (Enrollment_ID r) (Enrollment_IdentityID r) (Enrollment_IssuerID r) (Enrollment_CertificateProfileID r) (Enrollment_SourceCertificateID r) (Enrollment_CSRPEM r) v (Enrollment_RequestedSubject r) (Enrollment_RequestedDNSNames r) (Enrollment_RequestedIPAddresses r) (Enrollment_CSRDNSNames r) (Enrollment_CSRIPAddresses r) (Enrollment_RequestedNotAfter r) (Enrollment_ApprovedBy r) (Enrollment_ApprovedAt r) (Enrollment_CreatedAt r) (Enrollment_UpdatedAt r).
Definition Enrollment_with_SourceCertificateID (v : string) (r : Enrollment) : Enrollment :=
  mkEnrollment (Enrollment_ID r) (Enrollment_IdentityID r) (Enrollment_IssuerID r) (Enrollment_CertificateProfileID r) v (Enrollment_CSRPEM r) (Enrollment_Status r) (Enrollment_RequestedSubject r) (Enrollment_RequestedDNSNames r) (Enrollment_RequestedIPAddresses r) (Enrollment_CSRDNSNames r) (Enrollment_CSRIPAddresses r) (Enrollment_RequestedNotAfter r) (Enrollment_ApprovedBy r) (Enrollment_ApprovedAt r) (Enrollment_CreatedAt r) (Enrollment_UpdatedAt r).
Definition Enrollment_with_ApprovedBy (v : string) (r : Enrollment) : Enrollment :=
  mkEnrollment (Enrollment_ID r) (Enrollment_IdentityID r) (Enrollment_IssuerID r) (Enrollment_CertificateProfileID r) (Enrollment_SourceCertificateID r) (Enrollment_CSRPEM r) (Enrollment_Status r) (Enrollment_RequestedSubject r) (Enrollment_RequestedDNSNames r) (Enrollment_RequestedIPAddresses r) (Enrollment_CSRDNSNames r) (Enrollment_CSRIPAddresses r) (Enrollment_RequestedNotAfter r) v (Enrollment_ApprovedAt r) (Enrollment_CreatedAt r) (Enrollment_UpdatedAt r).
Definition Enrollment_with_ApprovedAt (v : Time) (r : Enrollment) : Enrollment :=
  mkEnrollment (Enrollment_ID r) (Enrollment_IdentityID r) (Enrollment_IssuerID r) (Enrollment_CertificateProfileID r) (Enrollment_SourceCertificateID r) (Enrollment_CSRPEM r) (Enrollment_Status r) (Enrollment_RequestedSubject r) (Enrollment_RequestedDNSNames r) (Enrollment_RequestedIPAddresses r) (Enrollment_CSRDNSNames r) (Enrollment_CSRIPAddresses r) (Enrollment_RequestedNotAfter r) (Enrollment_ApprovedBy r) v (Enrollment_CreatedAt r) (Enrollment_UpdatedAt r).
Definition Enrollment_with_UpdatedAt (v : Time) (r : Enrollment) : Enrollment :=
  mkEnrollment (Enrollment_ID r) (Enrollment_IdentityID r) (Enrollment_IssuerID r) (Enrollment_CertificateProfileID r) (Enrollment_SourceCertificateID r) (Enrollment_CSRPEM r) (Enrollment_Status r) (Enrollment_RequestedSubject r) (Enrollment_RequestedDNSNames r) (Enrollment_RequestedIPAddresses r) (Enrollment_CSRDNSNames r) (Enrollment_CSRIPAddresses r) (Enrollment_RequestedNotAfter r) (Enrollment_ApprovedBy r) (Enrollment_ApprovedAt r) (Enrollment_CreatedAt r) v.
Definition Certificate_with_Status (v : CertificateStatus) (r : Certificate) : Certificate :=
  mkCertificate (Certificate_ID r) (Certificate_IdentityID r) (Certificate_IssuerID r) (Certificate_EnrollmentID r) (Certificate_CertificateProfileID r) (Certificate_SerialNumber r) (Certificate_Subject r) (Certificate_DNSNames r) (Certificate_IPAddresses r) (Certificate_NotBefore r) (Certificate_NotAfter r) v (Certificate_CertificatePEM r) (Certificate_RenewalNotifiedAt r) (Certificate_CreatedAt r) (Certificate_UpdatedAt r).
Definition Certificate_with_RenewalNotifiedAt (v : Time) (r : Certificate) : Certificate :=
  mkCertificate (Certificate_ID r) (Certificate_IdentityID r) (Certificate_IssuerID r) (Certificate_EnrollmentID r) (Certificate_CertificateProfileID r) (Certificate_SerialNumber r) (Certificate_Subject r) (Certificate_DNSNames r) (Certificate_IPAddresses r) (Certificate_NotBefore r) (Certificate_NotAfter r) (Certificate_Status r) (Certificate_CertificatePEM r) v (Certificate_CreatedAt r) (Certificate_UpdatedAt r).
Definition Certificate_with_UpdatedAt (v : Time) (r : Certificate) : Certificate :=
  mkCertificate (Certificate_ID r) (Certificate_IdentityID r) (Certificate_IssuerID r) (Certificate_EnrollmentID r) (Certificate_CertificateProfileID r) (Certificate_SerialNumber r) (Certificate_Subject r) (Certificate_DNSNames r) (Certificate_IPAddresses r) (Certificate_NotBefore r) (Certificate_NotAfter r) (Certificate_Status r) (Certificate_CertificatePEM r) (Certificate_RenewalNotifiedAt r) (Certificate_CreatedAt r) v.
Definition IssuanceAttempt_with_Status (v : IssuanceAttemptStatus) (r : IssuanceAttempt) : IssuanceAttempt :=
  mkIssuanceAttempt (IssuanceAttempt_EnrollmentID r) v (IssuanceAttempt_LeaseExpiresAt r) (IssuanceAttempt_CertificateID r) (IssuanceAttempt_CertificatePEM r) (IssuanceAttempt_SerialNumber r) (IssuanceAttempt_Subject r) (IssuanceAttempt_NotBefore r) (IssuanceAttempt_NotAfter r) (IssuanceAttempt_SigningStartedAt r) (IssuanceAttempt_SignedAt r) (IssuanceAttempt_FinalizedAt r) (IssuanceAttempt_LastError r) (IssuanceAttempt_SigningEvidenceJSON r) (IssuanceAttempt_CreatedAt r) (IssuanceAttempt_UpdatedAt r).
Definition IssuanceAttempt_with_LeaseExpiresAt (v : Time) (r : IssuanceAttempt) : IssuanceAttempt :=
  mkIssuanceAttempt (IssuanceAttempt_EnrollmentID r) (IssuanceAttempt_Status r) v (IssuanceAttempt_CertificateID r) (IssuanceAttempt_CertificatePEM r) (IssuanceAttempt_SerialNumber r) (IssuanceAttempt_Subject r) (IssuanceAttempt_NotBefore r) (IssuanceAttempt_NotAfter r) (IssuanceAttempt_SigningStartedAt r) (IssuanceAttempt_SignedAt r) (IssuanceAttempt_FinalizedAt r) (IssuanceAttempt_LastError r) (IssuanceAttempt_SigningEvidenceJSON r) (IssuanceAttempt_CreatedAt r) (IssuanceAttempt_UpdatedAt r).
Definition IssuanceAttempt_with_CertificateID (v : string) (r : IssuanceAttempt) : IssuanceAttempt :=
  mkIssuanceAttempt (IssuanceAttempt_EnrollmentID r) (IssuanceAttempt_Status r) (IssuanceAttempt_LeaseExpiresAt r) v (IssuanceAttempt_CertificatePEM r) (IssuanceAttempt_SerialNumber r) (IssuanceAttempt_Subject r) (IssuanceAttempt_NotBefore r) (IssuanceAttempt_NotAfter r) (IssuanceAttempt_SigningStartedAt r) (IssuanceAttempt_SignedAt r) (IssuanceAttempt_FinalizedAt r) (IssuanceAttempt_LastError r) (IssuanceAttempt_SigningEvidenceJSON r) (IssuanceAttempt_CreatedAt r) (IssuanceAttempt_UpdatedAt r).
Definition IssuanceAttempt_with_CertificatePEM (v : string) (r : IssuanceAttempt) : IssuanceAttempt :=
  mkIssuanceAttempt (IssuanceAttempt_EnrollmentID r) (IssuanceAttempt_Status r) (IssuanceAttempt_LeaseExpiresAt r) (IssuanceAttempt_CertificateID r) v (IssuanceAttempt_SerialNumber r) (IssuanceAttempt_Subject r) (IssuanceAttempt_NotBefore r) (IssuanceAttempt_NotAfter r) (IssuanceAttempt_SigningStartedAt r) (IssuanceAttempt_SignedAt r) (IssuanceAttempt_FinalizedAt r) (IssuanceAttempt_LastError r) (IssuanceAttempt_SigningEvidenceJSON r) (IssuanceAttempt_CreatedAt r) (IssuanceAttempt_UpdatedAt r).
Definition IssuanceAttempt_with_SerialNumber (v : string) (r : IssuanceAttempt) : IssuanceAttempt :=
  mkIssuanceAttempt (IssuanceAttempt_EnrollmentID r) (IssuanceAttempt_Status r) (IssuanceAttempt_LeaseExpiresAt r) (IssuanceAttempt_CertificateID r) (IssuanceAttempt_CertificatePEM r) v (IssuanceAttempt_Subject r) (IssuanceAttempt_NotBefore r) (IssuanceAttempt_NotAfter r) (IssuanceAttempt_SigningStartedAt r) (IssuanceAttempt_SignedAt r) (IssuanceAttempt_FinalizedAt r) (IssuanceAttempt_LastError r) (IssuanceAttempt_SigningEvidenceJSON r) (IssuanceAttempt_CreatedAt r) (IssuanceAttempt_UpdatedAt r).
Definition IssuanceAttempt_with_Subject (v : string) (r : IssuanceAttempt) : IssuanceAttempt :=
  mkIssuanceAttempt (IssuanceAttempt_EnrollmentID r) (IssuanceAttempt_Status r) (IssuanceAttempt_LeaseExpiresAt r) (IssuanceAttempt_CertificateID r) (IssuanceAttempt_CertificatePEM r) (IssuanceAttempt_SerialNumber r) v (IssuanceAttempt_NotBefore r) (IssuanceAttempt_NotAfter r) (IssuanceAttempt_SigningStartedAt r) (IssuanceAttempt_SignedAt r) (IssuanceAttempt_FinalizedAt r) (IssuanceAttempt_LastError r) (IssuanceAttempt_SigningEvidenceJSON r) (IssuanceAttempt_CreatedAt r) (IssuanceAttempt_UpdatedAt r).
Definition IssuanceAttempt_with_NotBefore (v : Time) (r : IssuanceAttempt) : IssuanceAttempt :=
  mkIssuanceAttempt (IssuanceAttempt_EnrollmentID r) (IssuanceAttempt_Status r) (IssuanceAttempt_LeaseExpiresAt r) (IssuanceAttempt_CertificateID r) (IssuanceAttempt_CertificatePEM r) (IssuanceAttempt_SerialNumber r) (IssuanceAttempt_Subject r) v (IssuanceAttempt_NotAfter r) (IssuanceAttempt_SigningStartedAt r) (IssuanceAttempt_SignedAt r) (IssuanceAttempt_FinalizedAt r) (IssuanceAttempt_LastError r) (IssuanceAttempt_SigningEvidenceJSON r) (IssuanceAttempt_CreatedAt r) (IssuanceAttempt_UpdatedAt r).
Definition IssuanceAttempt_with_NotAfter (v : Time) (r : IssuanceAttempt) : IssuanceAttempt :=
  mkIssuanceAttempt (IssuanceAttempt_EnrollmentID r) (IssuanceAttempt_Status r) (IssuanceAttempt_LeaseExpiresAt r) (IssuanceAttempt_CertificateID r) (IssuanceAttempt_CertificatePEM r) (IssuanceAttempt_SerialNumber r) (IssuanceAttempt_Subject r) (IssuanceAttempt_NotBefore r) v (IssuanceAttempt_SigningStartedAt r) (IssuanceAttempt_SignedAt r) (IssuanceAttempt_FinalizedAt r) (IssuanceAttempt_LastError r) (IssuanceAttempt_SigningEvidenceJSON r) (IssuanceAttempt_CreatedAt r) (IssuanceAttempt_UpdatedAt r).
Definition IssuanceAttempt_with_SigningStartedAt (v : Time) (r : IssuanceAttempt) : IssuanceAttempt :=
  mkIssuanceAttempt (IssuanceAttempt_EnrollmentID r) (IssuanceAttempt_Status r) (IssuanceAttempt_LeaseExpiresAt r) (IssuanceAttempt_CertificateID r) (IssuanceAttempt_CertificatePEM r) (IssuanceAttempt_SerialNumber r) (IssuanceAttempt_Subject r) (IssuanceAttempt_NotBefore r) (IssuanceAttempt_NotAfter r) v (IssuanceAttempt_SignedAt r) (IssuanceAttempt_FinalizedAt r) (IssuanceAttempt_LastError r) (IssuanceAttempt_SigningEvidenceJSON r) (IssuanceAttempt_CreatedAt r) (IssuanceAttempt_UpdatedAt r).
Definition IssuanceAttempt_with_SignedAt (v : Time) (r : IssuanceAttempt) : IssuanceAttempt :=
  mkIssuanceAttempt (IssuanceAttempt_EnrollmentID r) (IssuanceAttempt_Status r) (IssuanceAttempt_LeaseExpiresAt r) (IssuanceAttempt_CertificateID r) (IssuanceAttempt_CertificatePEM r) (IssuanceAttempt_SerialNumber r) (IssuanceAttempt_Subject r) (IssuanceAttempt_NotBefore r) (IssuanceAttempt_NotAfter r) (IssuanceAttempt_SigningStartedAt r) v (IssuanceAttempt_FinalizedAt r) (IssuanceAttempt_LastError r) (IssuanceAttempt_SigningEvidenceJSON r) (IssuanceAttempt_CreatedAt r) (IssuanceAttempt_UpdatedAt r).
Definition IssuanceAttempt_with_FinalizedAt (v : Time) (r : IssuanceAttempt) : IssuanceAttempt :=
  mkIssuanceAttempt (IssuanceAttempt_EnrollmentID r) (IssuanceAttempt_Status r) (IssuanceAttempt_LeaseExpiresAt r) (IssuanceAttempt_CertificateID r) (IssuanceAttempt_CertificatePEM r) (IssuanceAttempt_SerialNumber r) (IssuanceAttempt_Subject r) (IssuanceAttempt_NotBefore r) (IssuanceAttempt_NotAfter r) (IssuanceAttempt_SigningStartedAt r) (IssuanceAttempt_SignedAt r) v (IssuanceAttempt_LastError r) (IssuanceAttempt_SigningEvidenceJSON r) (IssuanceAttempt_CreatedAt r) (IssuanceAttempt_UpdatedAt r).
Definition IssuanceAttempt_with_LastError (v : string) (r : IssuanceAttempt) : IssuanceAttempt :=
  mkIssuanceAttempt (IssuanceAttempt_EnrollmentID r) (IssuanceAttempt_Status r) (IssuanceAttempt_LeaseExpiresAt r) (IssuanceAttempt_CertificateID r) (IssuanceAttempt_CertificatePEM r) (IssuanceAttempt_SerialNumber r) (IssuanceAttempt_Subject r) (IssuanceAttempt_NotBefore r) (IssuanceAttempt_NotAfter r) (IssuanceAttempt_SigningStartedAt r) (IssuanceAttempt_SignedAt r) (IssuanceAttempt_FinalizedAt r) v (IssuanceAttempt_SigningEvidenceJSON r) (IssuanceAttempt_CreatedAt r) (IssuanceAttempt_UpdatedAt r).
Definition IssuanceAttempt_with_SigningEvidenceJSON (v : string) (r : IssuanceAttempt) : IssuanceAttempt :=
  mkIssuanceAttempt (IssuanceAttempt_EnrollmentID r) (IssuanceAttempt_Status r) (IssuanceAttempt_LeaseExpiresAt r) (IssuanceAttempt_CertificateID r) (IssuanceAttempt_CertificatePEM r) (IssuanceAttempt_SerialNumber r) (IssuanceAttempt_Subject r) (IssuanceAttempt_NotBefore r) (IssuanceAttempt_NotAfter r) (IssuanceAttempt_SigningStartedAt r) (IssuanceAttempt_SignedAt r) (IssuanceAttempt_FinalizedAt r) (IssuanceAttempt_LastError r) v (IssuanceAttempt_CreatedAt r) (IssuanceAttempt_UpdatedAt r).
Definition IssuanceAttempt_with_UpdatedAt (v : Time) (r : IssuanceAttempt) : IssuanceAttempt :=
  mkIssuanceAttempt (IssuanceAttempt_EnrollmentID r) (IssuanceAttempt_Status r) (IssuanceAttempt_LeaseExpiresAt r) (IssuanceAttempt_CertificateID r) (IssuanceAttempt_CertificatePEM r) (IssuanceAttempt_SerialNumber r) (IssuanceAttempt_Subject r) (IssuanceAttempt_NotBefore r) (IssuanceAttempt_NotAfter r) (IssuanceAttempt_SigningStartedAt r) (IssuanceAttempt_SignedAt r) (IssuanceAttempt_FinalizedAt r) (IssuanceAttempt_LastError r) (IssuanceAttempt_SigningEvidenceJSON r) (IssuanceAttempt_CreatedAt r) v.
Definition IssuanceAttempt_with_EnrollmentID (v : string) (r : IssuanceAttempt) : IssuanceAttempt :=
  mkIssuanceAttempt v (IssuanceAttempt_Status r) (IssuanceAttempt_LeaseExpiresAt r) (IssuanceAttempt_CertificateID r) (IssuanceAttempt_CertificatePEM r) (IssuanceAttempt_SerialNumber r) (IssuanceAttempt_Subject r) (IssuanceAttempt_NotBefore r) (IssuanceAttempt_NotAfter r) (IssuanceAttempt_SigningStartedAt r) (IssuanceAttempt_SignedAt r) (IssuanceAttempt_FinalizedAt r) (IssuanceAttempt_LastError r) (IssuanceAttempt_SigningEvidenceJSON r) (IssuanceAttempt_CreatedAt r) (IssuanceAttempt_UpdatedAt r).
Definition IssuanceAttempt_with_CreatedAt (v : Time) (r : IssuanceAttempt) : IssuanceAttempt :=
  mkIssuanceAttempt (IssuanceAttempt_EnrollmentID r) (IssuanceAttempt_Status r) (IssuanceAttempt_LeaseExpiresAt r) (IssuanceAttempt_CertificateID r) (IssuanceAttempt_CertificatePEM r) (IssuanceAttempt_SerialNumber r) (IssuanceAttempt_Subject r) (IssuanceAttempt_NotBefore r) (IssuanceAttempt_NotAfter r) (IssuanceAttempt_SigningStartedAt r) (IssuanceAttempt_SignedAt r) (IssuanceAttempt_FinalizedAt r) (IssuanceAttempt_LastError r) (IssuanceAttempt_SigningEvidenceJSON r) v (IssuanceAttempt_UpdatedAt r).
Definition CRLGenerationClaim_with_CRLNumber (v : Z) (r : CRLGenerationClaim) : CRLGenerationClaim :=
  mkCRLGenerationClaim (CRLGenerationClaim_IssuerID r) (CRLGenerationClaim_DistributionPoint r) v (CRLGenerationClaim_LeaseExpiresAt r) (CRLGenerationClaim_CreatedAt r) (CRLGenerationClaim_UpdatedAt r).
Definition CRLGenerationClaim_with_LeaseExpiresAt (v : Time) (r : CRLGenerationClaim) : CRLGenerationClaim :=
  mkCRLGenerationClaim (CRLGenerationClaim_IssuerID r) (CRLGenerationClaim_DistributionPoint r) (CRLGenerationClaim_CRLNumber r) v (CRLGenerationClaim_CreatedAt r) (CRLGenerationClaim_UpdatedAt r).
Definition CRLGenerationClaim_with_UpdatedAt (v : Time) (r : CRLGenerationClaim) : CRLGenerationClaim :=
  mkCRLGenerationClaim (CRLGenerationClaim_IssuerID r) (CRLGenerationClaim_DistributionPoint r) (CRLGenerationClaim_CRLNumber r) (CRLGenerationClaim_LeaseExpiresAt r) (CRLGenerationClaim_CreatedAt r) v.
Definition AuditEvent_with_Sequence (v : Z) (r : AuditEvent) : AuditEvent :=
  mkAuditEvent (AuditEvent_ID r) v (AuditEvent_Actor r) (AuditEvent_Action r) (AuditEvent_ResourceType r) (AuditEvent_ResourceID r) (AuditEvent_MetadataJSON r) (AuditEvent_HashAlgorithm r) (AuditEvent_PreviousEventHash r) (AuditEvent_EventHash r) (AuditEvent_CreatedAt r).
Definition AuditEvent_with_HashAlgorithm (v : string) (r : AuditEvent) : AuditEvent :=
  mkAuditEvent (AuditEvent_ID r) (AuditEvent_Sequence r) (AuditEvent_Actor r) (AuditEvent_Action r) (AuditEvent_ResourceType r) (AuditEvent_ResourceID r) (AuditEvent_MetadataJSON r) v (AuditEvent_PreviousEventHash r) (AuditEvent_EventHash r) (AuditEvent_CreatedAt r).
Definition AuditEvent_with_PreviousEventHash (v : string) (r : AuditEvent) : AuditEvent :=
  mkAuditEvent (AuditEvent_ID r) (AuditEvent_Sequence r) (AuditEvent_Actor r) (AuditEvent_Action r) (AuditEvent_ResourceType r) (AuditEvent_ResourceID r) (AuditEvent_MetadataJSON r) (AuditEvent_HashAlgorithm r) v (AuditEvent_EventHash r) (AuditEvent_CreatedAt r).
Definition AuditEvent_with_EventHash (v : string) (r : AuditEvent) : AuditEvent :=
  mkAuditEvent (AuditEvent_ID r) (AuditEvent_Sequence r) (AuditEvent_Actor r) (AuditEvent_Action r) (AuditEvent_ResourceType r) (AuditEvent_ResourceID r) (AuditEvent_MetadataJSON r) (AuditEvent_HashAlgorithm r) (AuditEvent_PreviousEventHash r) v (AuditEvent_CreatedAt r).
Definition AuditIntegrity_with_Valid (v : bool) (r : AuditIntegrity) : AuditIntegrity :=
  mkAuditIntegrity v (AuditIntegrity_HashAlgorithm r) (AuditIntegrity_EventCount r) (AuditIntegrity_FirstSequence r) (AuditIntegrity_LastSequence r) (AuditIntegrity_LastEventHash r) (AuditIntegrity_CheckpointSequence r) (AuditIntegrity_CheckpointEventHash r) (AuditIntegrity_FailureReason r).
Definition AuditIntegrity_with_FirstSequence (v : Z) (r : AuditIntegrity) : AuditIntegrity :=
  mkAuditIntegrity (AuditIntegrity_Valid r) (AuditIntegrity_HashAlgorithm r) (AuditIntegrity_EventCount r) v (AuditIntegrity_LastSequence r) (AuditIntegrity_LastEventHash r) (AuditIntegrity_CheckpointSequence r) (AuditIntegrity_CheckpointEventHash r) (AuditIntegrity_FailureReason r).
Definition AuditIntegrity_with_LastSequence (v : Z) (r : AuditIntegrity) : AuditIntegrity :=
  mkAuditIntegrity (AuditIntegrity_Valid r) (AuditIntegrity_HashAlgorithm r) (AuditIntegrity_EventCount r) (AuditIntegrity_FirstSequence r) v (AuditIntegrity_LastEventHash r) (AuditIntegrity_CheckpointSequence r) (AuditIntegrity_CheckpointEventHash r) (AuditIntegrity_FailureReason r).
Definition AuditIntegrity_with_LastEventHash (v : string) (r : AuditIntegrity) : AuditIntegrity :=
  mkAuditIntegrity (AuditIntegrity_Valid r) (AuditIntegrity_HashAlgorithm r) (AuditIntegrity_EventCount r) (AuditIntegrity_FirstSequence r) (AuditIntegrity_LastSequence r) v (AuditIntegrity_CheckpointSequence r) (AuditIntegrity_CheckpointEventHash r) (AuditIntegrity_FailureReason r).
Definition AuditIntegrity_with_FailureReason (v : string) (r : AuditIntegrity) : AuditIntegrity :=
  mkAuditIntegrity (AuditIntegrity_Valid r) (AuditIntegrity_HashAlgorithm r) (AuditIntegrity_EventCount r) (AuditIntegrity_FirstSequence r) (AuditIntegrity_LastSequence r) (AuditIntegrity_LastEventHash r) (AuditIntegrity_CheckpointSequence r) (AuditIntegrity_CheckpointEventHash r) v.
Definition OutboxMessage_with_Status (v : OutboxMessageStatus) (r : OutboxMessage) : OutboxMessage :=
  mkOutboxMessage (OutboxMessage_ID r) (OutboxMessage_Type r) (OutboxMessage_PayloadJSON r) v (OutboxMessage_AvailableAt r) (OutboxMessage_ProcessingDeadlineAt r) (OutboxMessage_AttemptCount r) (OutboxMessage_MaxAttempts r) (OutboxMessage_LastError r) (OutboxMessage_CreatedAt r) (OutboxMessage_UpdatedAt r).
Definition OutboxMessage_with_AvailableAt (v : Time) (r : OutboxMessage) : OutboxMessage :=
  mkOutboxMessage (OutboxMessage_ID r) (OutboxMessage_Type r) (OutboxMessage_PayloadJSON r) (OutboxMessage_Status r) v (OutboxMessage_ProcessingDeadlineAt r) (OutboxMessage_AttemptCount r) (OutboxMessage_MaxAttempts r) (OutboxMessage_LastError r) (OutboxMessage_CreatedAt r) (OutboxMessage_UpdatedAt r).
Definition OutboxMessage_with_ProcessingDeadlineAt (v : Time) (r : OutboxMessage) : OutboxMessage :=
  mkOutboxMessage (OutboxMessage_ID r) (OutboxMessage_Type r) (OutboxMessage_PayloadJSON r) (OutboxMessage_Status r) (OutboxMessage_AvailableAt r) v (OutboxMessage_AttemptCount r) (OutboxMessage_MaxAttempts r) (OutboxMessage_LastError r) (OutboxMessage_CreatedAt r) (OutboxMessage_UpdatedAt r).
Definition OutboxMessage_with_AttemptCount (v : Z) (r : OutboxMessage) : OutboxMessage :=
  mkOutboxMessage (OutboxMessage_ID r) (OutboxMessage_Type r) (OutboxMessage_PayloadJSON r) (OutboxMessage_Status r) (OutboxMessage_AvailableAt r) (OutboxMessage_ProcessingDeadlineAt r) v (OutboxMessage_MaxAttempts r) (OutboxMessage_LastError r) (OutboxMessage_CreatedAt r) (OutboxMessage_UpdatedAt r).
Definition OutboxMessage_with_MaxAttempts (v : Z) (r : OutboxMessage) : OutboxMessage :=
  mkOutboxMessage (OutboxMessage_ID r) (OutboxMessage_Type r) (OutboxMessage_PayloadJSON r) (OutboxMessage_Status r) (OutboxMessage_AvailableAt r) (OutboxMessage_ProcessingDeadlineAt r) (OutboxMessage_AttemptCount r) v (OutboxMessage_LastError r) (OutboxMessage_CreatedAt r) (OutboxMessage_UpdatedAt r).
Definition OutboxMessage_with_LastError (v : string) (r : OutboxMessage) : OutboxMessage :=
  mkOutboxMessage (OutboxMessage_ID r) (OutboxMessage_Type r) (OutboxMessage_PayloadJSON r) (OutboxMessage_Status r) (OutboxMessage_AvailableAt r) (OutboxMessage_ProcessingDeadlineAt r) (OutboxMessage_AttemptCount r) (OutboxMessage_MaxAttempts r) v (OutboxMessage_CreatedAt r) (OutboxMessage_UpdatedAt r).
Definition OutboxMessage_with_UpdatedAt (v : Time) (r : OutboxMessage) : OutboxMessage :=
  mkOutboxMessage (OutboxMessage_ID r) (OutboxMessage_Type r) (OutboxMessage_PayloadJSON r) (OutboxMessage_Status r) (OutboxMessage_AvailableAt r) (OutboxMessage_ProcessingDeadlineAt r) (OutboxMessage_AttemptCount r) (OutboxMessage_MaxAttempts r) (OutboxMessage_LastError r) (OutboxMessage_CreatedAt r) v.
Definition APIKey_with_Status (v : APIKeyStatus) (r : APIKey) : APIKey :=
  mkAPIKey (APIKey_ID r) (APIKey_Name r) (APIKey_TokenHash r) v (APIKey_Actor r) (APIKey_Scopes r) (APIKey_ExpiresAt r) (APIKey_LastUsedAt r) (APIKey_CreatedAt r) (APIKey_UpdatedAt r).
Definition APIKey_with_LastUsedAt (v : Time) (r : APIKey) : APIKey :=
  mkAPIKey (APIKey_ID r) (APIKey_Name r) (APIKey_TokenHash r) (APIKey_Status r) (APIKey_Actor r) (APIKey_Scopes r) (APIKey_ExpiresAt r) v (APIKey_CreatedAt r) (APIKey_UpdatedAt r).
Definition APIKey_with_UpdatedAt (v : Time) (r : APIKey) : APIKey :=
  mkAPIKey (APIKey_ID r) (APIKey_Name r) (APIKey_TokenHash r) (APIKey_Status r) (APIKey_Actor r) (APIKey_Scopes r) (APIKey_ExpiresAt r) (APIKey_LastUsedAt r) (APIKey_CreatedAt r) v.
Definition ACMEAccount_with_Contacts (v : list string) (r : ACMEAccount) : ACMEAccount :=
  mkACMEAccount (ACMEAccount_ID r) v (ACMEAccount_Status r) (ACMEAccount_TermsOfServiceAgreed r) (ACMEAccount_KeyThumbprint r) (ACMEAccount_KeyJWKJSON r) (ACMEAccount_CreatedAt r) (ACMEAccount_UpdatedAt r).
Definition ACMEAccount_with_Status (v : ACMEAccountStatus) (r : ACMEAccount) : ACMEAccount :=
  mkACMEAccount (ACMEAccount_ID r) (ACMEAccount_Contacts r) v (ACMEAccount_TermsOfServiceAgreed r) (ACMEAccount_KeyThumbprint r) (ACMEAccount_KeyJWKJSON r) (ACMEAccount_CreatedAt r) (ACMEAccount_UpdatedAt r).
Definition ACMEAccount_with_KeyThumbprint (v : string) (r : ACMEAccount) : ACMEAccount :=
  mkACMEAccount (ACMEAccount_ID r) (ACMEAccount_Contacts r) (ACMEAccount_Status r) (ACMEAccount_TermsOfServiceAgreed r) v (ACMEAccount_KeyJWKJSON r) (ACMEAccount_CreatedAt r) (ACMEAccount_UpdatedAt r).
Definition ACMEAccount_with_KeyJWKJSON (v : string) (r : ACMEAccount) : ACMEAccount :=
  mkACMEAccount (ACMEAccount_ID r) (ACMEAccount_Contacts r) (ACMEAccount_Status r) (ACMEAccount_TermsOfServiceAgreed r) (ACMEAccount_KeyThumbprint r) v (ACMEAccount_CreatedAt r) (ACMEAccount_UpdatedAt r).
Definition ACMEAccount_with_UpdatedAt (v : Time) (r : ACMEAccount) : ACMEAccount :=
  mkACMEAccount (ACMEAccount_ID r) (ACMEAccount_Contacts r) (ACMEAccount_Status r) (ACMEAccount_TermsOfServiceAgreed r) (ACMEAccount_KeyThumbprint r) (ACMEAccount_KeyJWKJSON r) (ACMEAccount_CreatedAt r) v.
Definition ACMEOrder_with_CSRPEM (v : string) (r : ACMEOrder) : ACMEOrder :=
  mkACMEOrder (ACMEOrder_ID r) (ACMEOrder_AccountID r) (ACMEOrder_IdentityID r) (ACMEOrder_IssuerID r) (ACMEOrder_CertificateProfileID r) (ACMEOrder_Status r) v (ACMEOrder_RequestedSubject r) (ACMEOrder_RequestedDNSNames r) (ACMEOrder_RequestedIPAddresses r) (ACMEOrder_RequestedNotAfter r) (ACMEOrder_EnrollmentID r) (ACMEOrder_CertificateID r) (ACMEOrder_ExpiresAt r) (ACMEOrder_CreatedAt r) (ACMEOrder_UpdatedAt r).
Definition ACMEOrder_with_RequestedSubject (v : string) (r : ACMEOrder) : ACMEOrder :=
  mkACMEOrder (ACMEOrder_ID r) (ACMEOrder_AccountID r) (ACMEOrder_IdentityID r) (ACMEOrder_IssuerID r) (ACMEOrder_CertificateProfileID r) (ACMEOrder_Status r) (ACMEOrder_CSRPEM r) v (ACMEOrder_RequestedDNSNames r) (ACMEOrder_RequestedIPAddresses r) (ACMEOrder_RequestedNotAfter r) (ACMEOrder_EnrollmentID r) (ACMEOrder_CertificateID r) (ACMEOrder_ExpiresAt r) (ACMEOrder_CreatedAt r) (ACMEOrder_UpdatedAt r).
Definition ACMEOrder_with_EnrollmentID (v : string) (r : ACMEOrder) : ACMEOrder :=
  mkACMEOrder (ACMEOrder_ID r) (ACMEOrder_AccountID r) (ACMEOrder_IdentityID r) (ACMEOrder_IssuerID r) (ACMEOrder_CertificateProfileID r) (ACMEOrder_Status r) (ACMEOrder_CSRPEM r) (ACMEOrder_RequestedSubject r) (ACMEOrder_RequestedDNSNames r) (ACMEOrder_RequestedIPAddresses r) (ACMEOrder_RequestedNotAfter r) v (ACMEOrder_CertificateID r) (ACMEOrder_ExpiresAt r) (ACMEOrder_CreatedAt r) (ACMEOrder_UpdatedAt r).
Definition ACMEOrder_with_CertificateID (v : string) (r : ACMEOrder) : ACMEOrder :=
  mkACMEOrder (ACMEOrder_ID r) (ACMEOrder_AccountID r) (ACMEOrder_IdentityID r) (ACMEOrder_IssuerID r) (ACMEOrder_CertificateProfileID r) (ACMEOrder_Status r) (ACMEOrder_CSRPEM r) (ACMEOrder_RequestedSubject r) (ACMEOrder_RequestedDNSNames r) (ACMEOrder_RequestedIPAddresses r) (ACMEOrder_RequestedNotAfter r) (ACMEOrder_EnrollmentID r) v (ACMEOrder_ExpiresAt r) (ACMEOrder_CreatedAt r) (ACMEOrder_UpdatedAt r).
Definition ACMEOrder_with_Status (v : ACMEOrderStatus) (r : ACMEOrder) : ACMEOrder :=
  mkACMEOrder (ACMEOrder_ID r) (ACMEOrder_AccountID r) (ACMEOrder_IdentityID r) (ACMEOrder_IssuerID r) (ACMEOrder_CertificateProfileID r) v (ACMEOrder_CSRPEM r) (ACMEOrder_RequestedSubject r) (ACMEOrder_RequestedDNSNames r) (ACMEOrder_RequestedIPAddresses r) (ACMEOrder_RequestedNotAfter r) (ACMEOrder_EnrollmentID r) (ACMEOrder_CertificateID r) (ACMEOrder_ExpiresAt r) (ACMEOrder_CreatedAt r) (ACMEOrder_UpdatedAt r).
Definition ACMEOrder_with_UpdatedAt (v : Time) (r : ACMEOrder) : ACMEOrder :=
  mkACMEOrder (ACMEOrder_ID r) (ACMEOrder_AccountID r) (ACMEOrder_IdentityID r) (ACMEOrder_IssuerID r) (ACMEOrder_CertificateProfileID r) (ACMEOrder_Status r) (ACMEOrder_CSRPEM r) (ACMEOrder_RequestedSubject r) (ACMEOrder_RequestedDNSNames r) (ACMEOrder_RequestedIPAddresses r) (ACMEOrder_RequestedNotAfter r) (ACMEOrder_EnrollmentID r) (ACMEOrder_CertificateID r) (ACMEOrder_ExpiresAt r) (ACMEOrder_CreatedAt r) v.
Definition ACMEAuthorization_with_Status (v : ACMEAuthorizationStatus) (r : ACMEAuthorization) : ACMEAuthorization :=
  mkACMEAuthorization (ACMEAuthorization_ID r) (ACMEAuthorization_OrderID r) (ACMEAuthorization_IdentifierType r) (ACMEAuthorization_IdentifierValue r) v (ACMEAuthorization_ExpiresAt r) (ACMEAuthorization_ValidationReuseExpiresAt r) (ACMEAuthorization_CreatedAt r) (ACMEAuthorization_UpdatedAt r).
Definition ACMEAuthorization_with_ValidationReuseExpiresAt (v : Time) (r : ACMEAuthorization) : ACMEAuthorization :=
  mkACMEAuthorization (ACMEAuthorization_ID r) (ACMEAuthorization_OrderID r) (ACMEAuthorization_IdentifierType r) (ACMEAuthorization_IdentifierValue r) (ACMEAuthorization_Status r) (ACMEAuthorization_ExpiresAt r) v (ACMEAuthorization_CreatedAt r) (ACMEAuthorization_UpdatedAt r).
Definition ACMEAuthorization_with_UpdatedAt (v : Time) (r : ACMEAuthorization) : ACMEAuthorization :=
  mkACMEAuthorization (ACMEAuthorization_ID r) (ACMEAuthorization_OrderID r) (ACMEAuthorization_IdentifierType r) (ACMEAuthorization_IdentifierValue r) (ACMEAuthorization_Status r) (ACMEAuthorization_ExpiresAt r) (ACMEAuthorization_ValidationReuseExpiresAt r) (ACMEAuthorization_CreatedAt r) v.
Definition ACMEChallenge_with_Status (v : ACMEChallengeStatus) (r : ACMEChallenge) : ACMEChallenge :=
  mkACMEChallenge (ACMEChallenge_ID r) (ACMEChallenge_AuthorizationID r) (ACMEChallenge_Type r) (ACMEChallenge_Token r) v (ACMEChallenge_ValidatedAt r) (ACMEChallenge_CreatedAt r) (ACMEChallenge_UpdatedAt r).
Definition ACMEChallenge_with_ValidatedAt (v : Time) (r : ACMEChallenge) : ACMEChallenge :=
  mkACMEChallenge (ACMEChallenge_ID r) (ACMEChallenge_AuthorizationID r) (ACMEChallenge_Type r) (ACMEChallenge_Token r) (ACMEChallenge_Status r) v (ACMEChallenge_CreatedAt r) (ACMEChallenge_UpdatedAt r).
Definition ACMEChallenge_with_UpdatedAt (v : Time) (r : ACMEChallenge) : ACMEChallenge :=
  mkACMEChallenge (ACMEChallenge_ID r) (ACMEChallenge_AuthorizationID r) (ACMEChallenge_Type r) (ACMEChallenge_Token r) (ACMEChallenge_Status r) (ACMEChallenge_ValidatedAt r) (ACMEChallenge_CreatedAt r) v.

(** Apply assignments left to right. *)
Notation "r |> f" := (f r) (at level 61, left associativity, only parsing) : go_scope.
