(* ===== verification/Core.v ===== *)
(** * The core signer interface and key references ([corecli/runner.go], [keyref/])

    The requests and results exchanged with the external signer process, the
    check of its signing evidence, and the classification of key references. *)

From Stdlib Require Import Ascii.
From S2P Require Import Prelude GoLib.

(** ** Requests and results

    Byte slices are [string]s. *)

Record IssueRequest := mkIssueRequest {
  IssueRequest_CSRPEM : string;
  IssueRequest_IssuerCertificatePEM : string;
  IssueRequest_IssuerKeyRef : string;
  IssueRequest_AIAURL : string;
  IssueRequest_CRLDistributionPoints : list string;
  IssueRequest_Subject : string;
  IssueRequest_DNSNames : list string;
  IssueRequest_IPAddresses : list string;
  IssueRequest_NotBefore : Time;
  IssueRequest_NotAfter : Time;
  IssueRequest_SignatureAlgorithm : string;
  IssueRequest_ProfileID : string;
  IssueRequest_BasicConstraintsCritical : bool;
  IssueRequest_BasicConstraintsCA : bool;
  IssueRequest_BasicConstraintsMaxPathLen : option Z;
  IssueRequest_KeyUsageCritical : bool;
  IssueRequest_KeyUsage : list string;
  IssueRequest_ExtendedKeyUsageCritical : bool;
  IssueRequest_ExtendedKeyUsage : list string;
  IssueRequest_SubjectKeyIdentifier : bool;
  IssueRequest_AuthorityKeyIdentifier : bool;
}.

Record SigningEvidence := mkSigningEvidence {
  SigningEvidence_SchemaVersion : Z;
  SigningEvidence_EvidenceSource : string;
  SigningEvidence_Operation : string;
  SigningEvidence_ProviderID : string;
  SigningEvidence_ProviderClass : string;
  SigningEvidence_ProviderReadiness : string;
  SigningEvidence_ProviderExportability : string;
  SigningEvidence_ReferenceClass : string;
  SigningEvidence_KeyAlgorithm : string;
  SigningEvidence_RequestedSignatureAlgorithm : string;
  SigningEvidence_IssuerBindingVerified : bool;
  SigningEvidence_FallbackUsed : bool;
  SigningEvidence_ResultCode : string;
}.

Record IssueResult := mkIssueResult {
  IssueResult_CertificatePEM : string;
  IssueResult_SerialNumber : string;
  IssueResult_Subject : string;
  IssueResult_NotBefore : Time;
  IssueResult_NotAfter : Time;
  IssueResult_SigningEvidence : SigningEvidence;
}.

Record CSRInfo := mkCSRInfo {
  CSRInfo_Subject : string;
  CSRInfo_DNSNames : list string;
  CSRInfo_IPAddresses : list string;
  CSRInfo_PublicKeyAlgorithm : string;
  CSRInfo_PublicKeySizeBits : Z;
  CSRInfo_SignatureAlgorithm : string;
  CSRInfo_ExtensionOIDs : list string;
}.

Record RevokedCertificate := mkRevokedCertificate {
  RevokedCertificate_SerialNumber : string;
  RevokedCertificate_RevokedAt : Time;
  RevokedCertificate_Reason : string;
}.

Record GenerateCRLRequest := mkGenerateCRLRequest {
  GenerateCRLRequest_IssuerCertificatePEM : string;
  GenerateCRLRequest_IssuerKeyRef : string;
  GenerateCRLRequest_CRLNumber : Z;
  GenerateCRLRequest_ThisUpdate : Time;
  GenerateCRLRequest_NextUpdate : Time;
  GenerateCRLRequest_RevokedCertificates : list RevokedCertificate;
}.

Record GenerateCRLResult := mkGenerateCRLResult {
  GenerateCRLResult_CRLPEM : string;
  GenerateCRLResult_SigningEvidence : SigningEvidence;
}.

Record OCSPCertificateID := mkOCSPCertificateID {
  OCSPCertificateID_SerialNumber : string;
  OCSPCertificateID_IssuerNameHash : string;
  OCSPCertificateID_IssuerKeyHash : string;
  OCSPCertificateID_HashAlgorithm : string;
}.

Record OCSPRequestInfo := mkOCSPRequestInfo {
  OCSPRequestInfo_Certificates : list OCSPCertificateID;
  OCSPRequestInfo_HasNonce : bool;
  OCSPRequestInfo_NonceHex : string;
}.

Record OCSPIssuerInfo := mkOCSPIssuerInfo {
  OCSPIssuerInfo_IssuerNameHash : string;
  OCSPIssuerInfo_IssuerKeyHash : string;
  OCSPIssuerInfo_HashAlgorithm : string;
}.

Record ValidateOCSPResponderResult := mkValidateOCSPResponderResult {
  ValidateOCSPResponderResult_Valid : bool;
}.

Record OCSPCertificateStatus := mkOCSPCertificateStatus {
  OCSPCertificateStatus_SerialNumber : string;
  OCSPCertificateStatus_Status : string;
  OCSPCertificateStatus_RevokedAt : Time;
  OCSPCertificateStatus_RevocationReason : string;
  OCSPCertificateStatus_HashAlgorithm : string;
  OCSPCertificateStatus_IssuerNameHash : string;
  OCSPCertificateStatus_IssuerKeyHash : string;
}.

Record GenerateOCSPResponseRequest := mkGenerateOCSPResponseRequest {
  GenerateOCSPResponseRequest_RequestDER : string;
  GenerateOCSPResponseRequest_IssuerCertificatePEM : string;
  GenerateOCSPResponseRequest_IssuerKeyRef : string;
  GenerateOCSPResponseRequest_ThisUpdate : Time;
  GenerateOCSPResponseRequest_NextUpdate : Time;
  GenerateOCSPResponseRequest_Certificates : list OCSPCertificateStatus;
}.

Record GenerateOCSPResponseResult := mkGenerateOCSPResponseResult {
  GenerateOCSPResponseResult_ResponseDER : string;
  GenerateOCSPResponseResult_SigningEvidence : SigningEvidence;
}.


(** ** Signing evidence *)

Definition isBlank (value : string) : bool := TrimSpace value =s "".

Definition ValidateSigningEvidence (evidence : SigningEvidence)
    (expectedOperation expectedAlgorithm : string) : res unit :=
  check_not
    (negb (Z.eqb (SigningEvidence_SchemaVersion evidence) 1)
     || (SigningEvidence_EvidenceSource evidence <>s "core_signing")
     || (SigningEvidence_Operation evidence <>s expectedOperation)
     || isBlank (SigningEvidence_ProviderID evidence)
     || isBlank (SigningEvidence_ProviderClass evidence)
     || (SigningEvidence_ProviderReadiness evidence <>s "ready")
     || ((SigningEvidence_ProviderExportability evidence <>s "exportable")
         && (SigningEvidence_ProviderExportability evidence <>s "non_exportable"))
     || isBlank (SigningEvidence_ReferenceClass evidence)
     || isBlank (SigningEvidence_KeyAlgorithm evidence)
     || (SigningEvidence_RequestedSignatureAlgorithm evidence <>s expectedAlgorithm)
     || negb (SigningEvidence_IssuerBindingVerified evidence)
     || SigningEvidence_FallbackUsed evidence
     || (SigningEvidence_ResultCode evidence <>s "ok"))
    (EText "validate signing evidence: inconsistent core signing result").

(** ** Key references *)

Definition ClassFile : string := "file".
Definition ExportabilityExportable : string := "exportable".
Definition ExportabilityNonExportableExpected : string := "non_exportable_expected".
Definition ExportabilityUnknown : string := "unknown".

(** [unicode.IsLetter(rune(b))] for a byte [b]: the letters of Latin-1. *)
Definition isLatin1Letter (a : Ascii.ascii) : bool :=
  let n := Ascii.nat_of_ascii a in
  let within lo hi := Nat.leb lo n && Nat.leb n hi in
  within 65 90 || within 97 122 || Nat.eqb n 170 || Nat.eqb n 181 || Nat.eqb n 186
  || within 192 214 || within 216 246 || within 248 255.

Definition looksLikeWindowsAbs (ref : string) : bool :=
  match ref with
  | String.String a (String.String b (String.String c _)) =>
      isLatin1Letter a && Ascii.eqb b ":"%char && (Ascii.eqb c "\"%char || Ascii.eqb c "/"%char)
  | _ => false
  end.

Section KeyRef.
Context `{GoUnicode}.

Definition Class_ (ref : string) : string :=
  let trimmed := TrimSpace ref in
  let lower := ToLower trimmed in
  if HasPrefix lower "file:" || looksLikeWindowsAbs trimmed then ClassFile
  else match index_byte ":"%char trimmed with
       | Some (S _ as idx) => ToLower (str_take idx trimmed)
       | _ => ClassFile
       end.

Definition FilePath (ref : string) : string :=
  let trimmed := TrimSpace ref in
  if HasPrefix (ToLower trimmed) "file:" then TrimSpace (str_drop 5 trimmed) else trimmed.

Definition Exportability (ref : string) : string :=
  let class := Class_ ref in
  if class =s ClassFile then ExportabilityExportable
  else if (class =s "kms") || (class =s "pkcs11") then ExportabilityNonExportableExpected
  else ExportabilityUnknown.

(** [keyref.FileProvider.CheckReady]. *)
Record ProviderInfo := mkProviderInfo { pi_Class : string; pi_Exportability : string }.
Definition FileProvider_CheckReady (ref : string) : res ProviderInfo :=
  Ok (mkProviderInfo (Class_ ref) (Exportability ref)).
End KeyRef.

Section KeyRefExamples.
#[local] Existing Instance ascii_unicode.
Example class_file : Class_ " FILE:/keys/ca.pem" = ClassFile.
Proof. reflexivity. Qed.
Example class_windows : Class_ "C:\keys\ca.pem" = ClassFile.
Proof. reflexivity. Qed.
Example class_pkcs11 : Class_ "PKCS11:token=ca" = "pkcs11".
Proof. reflexivity. Qed.
End KeyRefExamples.
