(* ===== verification/NetIP.v ===== *)
(** * IP addresses and prefixes ([net/netip])

    The parser and the prefix test of the standard library that the profile
    policy calls, and what the HTTP code uses of [net/netip], [net], [net/url]
    and [path]: the classes of an address, its text, host and port, the percent
    encoding and the cleaning of a path. All are executable functions. *)

From Stdlib Require Import Ascii.
From S2P Require Import Prelude GoLib.

(** A parsed address: an IPv4 value of 32 bits, or an IPv6 value of 128 bits
    with its zone. *)
Record Addr := mkAddr { addr_is6 : bool; addr_bits : Z; addr_zone : string }.

Definition digit_value (a : ascii) : option Z :=
  let n := Z.of_nat (nat_of_ascii a) in
  if Z.leb 48 n && Z.leb n 57 then Some (n - 48)%Z else None.

Definition hex_value (a : ascii) : option Z :=
  let n := Z.of_nat (nat_of_ascii a) in
  if Z.leb 48 n && Z.leb n 57 then Some (n - 48)%Z
  else if Z.leb 97 n && Z.leb n 102 then Some (n - 87)%Z
  else if Z.leb 65 n && Z.leb n 70 then Some (n - 55)%Z
  else None.

(** Decimal digits only; [None] on any other byte or on the empty string. *)
Fixpoint decimal_go (acc : Z) (s : string) : option Z :=
  match s with
  | EmptyString => Some acc
  | String.String a s' =>
      match digit_value a with Some d => decimal_go (acc * 10 + d) s' | None => None end
  end.
Definition decimal (s : string) : option Z :=
  if s =s "" then None else decimal_go 0 s.

(** One octet: decimal, no leading zero, at most 255. *)
Definition parse_octet (s : string) : option Z :=
  if Nat.ltb 1 (String.length s) && HasPrefix s "0" then None
  else match decimal s with
       | Some v => if Z.leb v 255 then Some v else None
       | None => None
       end.

Definition parse_ipv4 (s : string) : option Z :=
  match split_byte "."%char s with
  | [a; b; c; d] =>
      match parse_octet a, parse_octet b, parse_octet c, parse_octet d with
      | Some a, Some b, Some c, Some d => Some (((a * 256 + b) * 256 + c) * 256 + d)%Z
      | _, _, _, _ => None
      end
  | _ => None
  end.

(** The leading hexadecimal digits of a group and the rest of the string;
    [None] when there are none or more than four. *)
Fixpoint hex_group_go (n : nat) (acc : Z) (s : string) : option (nat * Z * string) :=
  match s with
  | EmptyString => Some (n, acc, s)
  | String.String a s' =>
      match hex_value a with
      | Some d => if Nat.ltb 3 n then None else hex_group_go (S n) (acc * 16 + d) s'
      | None => Some (n, acc, s)
      end
  end.
Definition hex_group (s : string) : option (Z * string) :=
  match hex_group_go 0 0 s with
  | Some (S _, acc, rest) => Some (acc, rest)
  | _ => None
  end.

(** The loop of the IPv6 parser: [groups] are the 16-bit groups read so far
    (latest first), [ellipsis] the number of groups before [::]. Eight rounds
    fill the address, so a ninth unit of fuel is never consumed. *)
Fixpoint ipv6_groups (fuel : nat) (groups : list Z) (ellipsis : option nat) (s : string)
  : option (list Z * option nat * string) :=
  match fuel with
  | O => Some (groups, ellipsis, s)
  | S fuel =>
      match hex_group s with
      | None => None
      | Some (acc, rest) =>
          match rest with
          | EmptyString => Some (acc :: groups, ellipsis, rest)
          | String.String c after =>
              if Ascii.eqb c "."%char then
                if match ellipsis with None => negb (Nat.eqb (length groups) 6) | _ => false end
                   || Nat.ltb 6 (length groups)
                then None
                else match parse_ipv4 s with
                     | Some v => Some ((v mod 65536 :: v / 65536 :: groups)%Z, ellipsis, "")
                     | None => None
                     end
              else if negb (Ascii.eqb c ":"%char) then None
              else match after with
                   | EmptyString => None
                   | String.String c' after' =>
                       if Ascii.eqb c' ":"%char then
                         match ellipsis with
                         | Some _ => None
                         | None =>
                             let groups := acc :: groups in
                             let ellipsis := Some (length groups) in
                             if after' =s "" then Some (groups, ellipsis, "")
                             else ipv6_groups fuel groups ellipsis after'
                         end
                       else ipv6_groups fuel (acc :: groups) ellipsis after
                   end
          end
      end
  end.

Definition join_groups (groups : list Z) : Z := fold_left (λ acc g, acc * 65536 + g)%Z groups 0%Z.

Definition parse_ipv6 (whole : string) : option Addr :=
  let '(s, zone, zoneOk) := match cut_byte "%"%char whole with
    | Some (s, zone) => (s, zone, zone <>s "")
    | None => (whole, "", true)
    end in
  if negb zoneOk then None
  else
    let leading := HasPrefix s "::" in
    let s := if leading then str_drop 2 s else s in
    if leading && (s =s "") then Some (mkAddr true 0 zone)
    else match ipv6_groups 8 [] (if leading then Some 0 else None) s with
         | None => None
         | Some (groups, ellipsis, rest) =>
             if rest <>s "" then None
             else
               let groups := reverse groups in
               match ellipsis with
               | None => if Nat.ltb (length groups) 8 then None
                         else Some (mkAddr true (join_groups groups) zone)
               | Some n =>
                   if Nat.ltb (length groups) 8
                   then Some (mkAddr true (join_groups
                          (take n groups ++ replicate (8 - length groups) 0%Z ++ drop n groups)) zone)
                   else None
               end
         end.

(** The first of the bytes [.], [:] and [%] decides the syntax. *)
Fixpoint first_separator (s : string) : option ascii :=
  match s with
  | EmptyString => None
  | String.String a s' =>
      if Ascii.eqb a "."%char || Ascii.eqb a ":"%char || Ascii.eqb a "%"%char then Some a
      else first_separator s'
  end.

Definition ParseAddr (s : string) : option Addr :=
  match first_separator s with
  | Some a =>
      if Ascii.eqb a "."%char then (λ v, mkAddr false v "") <$> parse_ipv4 s
      else if Ascii.eqb a ":"%char then parse_ipv6 s
      else None
  | None => None
  end.

Record Prefix := mkPrefix { prefix_addr : Addr; prefix_len : Z }.

(** [strings.LastIndexByte(s, '/')]. *)
Fixpoint last_index_byte (c : ascii) (s : string) : option nat :=
  match s with
  | EmptyString => None
  | String.String a s' =>
      match last_index_byte c s' with
      | Some i => Some (S i)
      | None => if Ascii.eqb a c then Some 0 else None
      end
  end.

Definition addr_width (a : Addr) : Z := if addr_is6 a then 128%Z else 32%Z.

Definition ParsePrefix (s : string) : option Prefix :=
  match last_index_byte "/"%char s with
  | None => None
  | Some i =>
      match ParseAddr (str_take i s) with
      | None => None
      | Some ip =>
          let bitsStr := str_drop (S i) s in
          if addr_zone ip <>s "" then None
          else if Nat.ltb 1 (String.length bitsStr) && HasPrefix bitsStr "0" then None
          else match decimal bitsStr with
               | Some bits => if Z.leb bits (addr_width ip) then Some (mkPrefix ip bits) else None
               | None => None
               end
      end
  end.

Definition prefix_contains (p : Prefix) (ip : Addr) : bool :=
  if addr_zone ip <>s "" then false
  else if negb (Bool.eqb (addr_is6 (prefix_addr p)) (addr_is6 ip)) then false
  else Z.eqb (Z.shiftr (Z.lxor (addr_bits ip) (addr_bits (prefix_addr p)))
                (addr_width ip - prefix_len p)) 0.

Example parse_v4 : ParseAddr "10.0.255.7" = Some (mkAddr false 167837447 "").
Proof. reflexivity. Qed.
Example parse_v4_zero : ParseAddr "10.0.05.7" = None.
Proof. reflexivity. Qed.
Example parse_v6 : ParseAddr "2001:db8::1" = Some (mkAddr true 42540766411282592856903984951653826561 "").
Proof. reflexivity. Qed.
Example parse_v6_mapped : ParseAddr "::ffff:1.2.3.4" = Some (mkAddr true 281470698652420 "").
Proof. reflexivity. Qed.
Example contains_v4 : (λ p, prefix_contains p (mkAddr false 180880132 "")) <$> ParsePrefix "10.0.0.0/8" = Some true.
Proof. reflexivity. Qed.
Example contains_v4_out : (λ p, prefix_contains p (mkAddr false 180880132 "")) <$> ParsePrefix "10.0.0.0/9" = Some false.
Proof. reflexivity. Qed.

(** * Addresses, URLs and paths of the standard library *)

(** ** [netip.Addr] *)

Definition Is4In6 (a : Addr) : bool := addr_is6 a && Z.eqb (Z.shiftr (addr_bits a) 32) 65535.

Definition Unmap (a : Addr) : Addr :=
  if Is4In6 a then mkAddr false (Z.land (addr_bits a) (2 ^ 32 - 1)) "" else a.

(** The top [n] bits of an address are those of [v]. *)
Definition top_bits (a : Addr) (n v : Z) : bool := Z.eqb (Z.shiftr (addr_bits a) (addr_width a - n)) v.

Definition IsLoopback (a : Addr) : bool :=
  if addr_is6 a then Z.eqb (addr_bits a) 1 else top_bits a 8 127.
Definition IsPrivate (a : Addr) : bool :=
  if addr_is6 a then top_bits a 7 126
  else top_bits a 8 10 || top_bits a 12 2753 || top_bits a 16 49320.
Definition IsLinkLocalUnicast (a : Addr) : bool :=
  if addr_is6 a then top_bits a 10 1018 else top_bits a 16 43518.
Definition IsLinkLocalMulticast (a : Addr) : bool :=
  if addr_is6 a then Z.eqb (Z.land (Z.shiftr (addr_bits a) 112) 65295) 65282 else top_bits a 24 14680064.
Definition IsMulticast (a : Addr) : bool :=
  if addr_is6 a then top_bits a 8 255 else top_bits a 4 14.
Definition IsUnspecified (a : Addr) : bool := Z.eqb (addr_bits a) 0 && (addr_zone a =s "").

Definition addr_eqb (a b : Addr) : bool :=
  Bool.eqb (addr_is6 a) (addr_is6 b) && Z.eqb (addr_bits a) (addr_bits b) && (addr_zone a =s addr_zone b).

(** [netip.AddrFromSlice]: four or sixteen bytes. *)
Definition AddrFromSlice (bytes : list Z) : option Addr :=
  let v := fold_left (λ acc b, acc * 256 + b)%Z bytes 0%Z in
  if Nat.eqb (length bytes) 4 then Some (mkAddr false v "")
  else if Nat.eqb (length bytes) 16 then Some (mkAddr true v "")
  else None.

(** *** Text *)

Definition hex_char (n : Z) : ascii :=
  ascii_of_nat (Z.to_nat (if Z.ltb n 10 then 48 + n else 87 + n)).
(** The hexadecimal digits of a group without leading zeros. *)
Definition group_text (g : Z) : string :=
  let digits := [Z.shiftr g 12; Z.land (Z.shiftr g 8) 15; Z.land (Z.shiftr g 4) 15; Z.land g 15]%Z in
  let fix strip (l : list Z) :=
    match l with [] | [_] => l | d :: l' => if Z.eqb d 0 then strip l' else l end in
  String.string_of_list_ascii (hex_char <$> strip digits).

Definition groups_of (v : Z) : list Z :=
  (λ i, Z.land (Z.shiftr v (112 - 16 * i)) 65535) <$> [0; 1; 2; 3; 4; 5; 6; 7]%Z.

Fixpoint zero_run (l : list Z) : nat :=
  match l with g :: l' => if Z.eqb g 0 then S (zero_run l') else 0 | [] => 0 end.
(** The first longest run of at least two zero groups, as position and length. *)
Definition longest_zeros (groups : list Z) : option (nat * nat) :=
  fold_left (λ best i,
    let n := zero_run (drop i groups) in
    if Nat.leb 2 n && Nat.ltb (from_option snd 0 best) n then Some (i, n) else best)
    (seq 0 8) None.

Definition join_with (sep : string) (l : list string) : string := String.concat sep l.

Definition addr_String (a : Addr) : string :=
  if addr_is6 a then
    let zone := if addr_zone a =s "" then "" else "%" +:+ addr_zone a in
    if Is4In6 a then
      let v := Z.land (addr_bits a) (2 ^ 32 - 1) in
      "::ffff:" +:+ join_with "." ((λ i, itoa (Z.land (Z.shiftr v i) 255)) <$> [24; 16; 8; 0]%Z) +:+ zone
    else
      let groups := groups_of (addr_bits a) in
      (match longest_zeros groups with
       | None => join_with ":" (group_text <$> groups)
       | Some (i, n) => join_with ":" (group_text <$> take i groups) +:+ "::"
                        +:+ join_with ":" (group_text <$> drop (i + n) groups)
       end) +:+ zone
  else join_with "." ((λ i, itoa (Z.land (Z.shiftr (addr_bits a) i) 255)) <$> [24; 16; 8; 0]%Z).

Definition text_of (s : string) : string := from_option addr_String "invalid" (ParseAddr s).
Example text_v4 : text_of "10.0.255.7" = "10.0.255.7".
Proof. reflexivity. Qed.
Example text_v6 : text_of "2001:db8:0:0:0:0:0:1" = "2001:db8::1".
Proof. reflexivity. Qed.
Example text_v6_first : text_of "2001:0:0:1:0:0:1:f0a" = "2001::1:0:0:1:f0a".
Proof. reflexivity. Qed.
Example text_unmap : addr_String (Unmap (from_option id (mkAddr true 0 "") (ParseAddr "::ffff:10.1.2.3"))) = "10.1.2.3".
Proof. reflexivity. Qed.
Example text_unspecified : text_of "::" = "::".
Proof. reflexivity. Qed.
Example text_loopback : text_of "::1" = "::1".
Proof. reflexivity. Qed.

(** ** [net.SplitHostPort] and [net.JoinHostPort] *)

Definition SplitHostPort (hostport : string) : option (string * string) :=
  match last_index_byte ":"%char hostport with
  | None => None
  | Some i =>
      let port := str_drop (S i) hostport in
      if HasPrefix hostport "[" then
        match index_byte "]"%char hostport with
        | None => None
        | Some j =>
            if negb (Nat.eqb (S j) i) then None
            else
              let host := str_take (j - 1) (str_drop 1 hostport) in
              if contains_byte "["%char (str_drop 1 hostport) || contains_byte "]"%char (str_drop (S j) hostport)
              then None else Some (host, port)
        end
      else
        let host := str_take i hostport in
        if contains_byte ":"%char host then None
        else if contains_byte "["%char hostport || contains_byte "]"%char hostport then None
        else Some (host, port)
  end.

Definition JoinHostPort (host port : string) : string :=
  if contains_byte ":"%char host then "[" +:+ host +:+ "]:" +:+ port else host +:+ ":" +:+ port.

Example split_v4 : SplitHostPort "10.0.0.1:80" = Some ("10.0.0.1", "80").
Proof. reflexivity. Qed.
Example split_v6 : SplitHostPort "[::1]:80" = Some ("::1", "80").
Proof. reflexivity. Qed.
Example split_none : SplitHostPort "::1" = None.
Proof. reflexivity. Qed.

(** ** [net/url] *)

Record URL := mkURL {
  url_Scheme : string; url_User : option string; url_Host : string; url_Path : string;
  url_RawQuery : string; url_Fragment : string }.

(** [url.Parse] is a parameter. *)
Class GoURL := { url_Parse : string → option URL }.

Definition is_digit (a : ascii) : bool := match digit_value a with Some _ => true | None => false end.

(** [URL.Hostname]: without a numeric port and without brackets. *)
Definition Hostname (u : URL) : string :=
  let hostPort := url_Host u in
  let host := match last_index_byte ":"%char hostPort with
    | Some i => if forallb is_digit (String.list_ascii_of_string (str_drop (S i) hostPort))
                then str_take i hostPort else hostPort
    | None => hostPort
    end in
  if HasPrefix host "[" && HasSuffix host "]" then str_take (String.length host - 2) (str_drop 1 host) else host.

(** Percent decoding; [plus] is the query form, in which [+] is a space. *)
Fixpoint unescape (plus : bool) (s : string) : option string :=
  match s with
  | EmptyString => Some EmptyString
  | String.String a s1 =>
      if Ascii.eqb a "%"%char then
        match s1 with
        | String.String h (String.String l rest) =>
            match hex_value h, hex_value l with
            | Some h, Some l => String.String (ascii_of_nat (Z.to_nat (h * 16 + l))) <$> unescape plus rest
            | _, _ => None
            end
        | _ => None
        end
      else String.String (if plus && Ascii.eqb a "+"%char then " "%char else a) <$> unescape plus s1
  end.
Definition PathUnescape : string → option string := unescape false.
Definition QueryUnescape : string → option string := unescape true.

Example unescape_sample : PathUnescape "/a%2Fb+c" = Some "/a/b+c" ∧ PathUnescape "/a%2" = None.
Proof. split; reflexivity. Qed.

(** The values of [url.Values.Get] on [URL.Query]: pairs that do not decode, or
    that contain a semicolon, are skipped. *)
Definition query_pair (piece : string) : option (string * string) :=
  if contains_byte ";"%char piece || (piece =s "") then None
  else
    let '(key, value) := default (piece, "") (cut_byte "="%char piece) in
    match QueryUnescape key, QueryUnescape value with
    | Some key, Some value => Some (key, value)
    | _, _ => None
    end.
Definition query_Get (rawQuery key : string) : string :=
  default "" (snd <$> List.find (λ kv : string * string, fst kv =s key)
                        (omap query_pair (split_byte "&"%char rawQuery))).

Example query_sample : query_Get "a=1&b=x%20y+z&a=2" "b" = "x y z" ∧ query_Get "a=1;b=2" "a" = "".
Proof. split; reflexivity. Qed.

(** ** [strconv.Atoi] *)

Definition Atoi (s : string) : option Z :=
  let '(neg, digits) := match s with
    | String.String "-"%char rest => (true, rest)
    | String.String "+"%char rest => (false, rest)
    | _ => (false, s)
    end in
  match decimal digits with
  | None => None
  | Some v =>
      let z := if neg : bool then (- v)%Z else v in
      if Z.leb (- 2 ^ 63) z && Z.ltb z (2 ^ 63) then Some z else None
  end.
Example atoi_samples : Atoi "42" = Some 42%Z ∧ Atoi "-7" = Some (-7)%Z ∧ Atoi "" = None
  ∧ Atoi "9223372036854775808" = None ∧ Atoi "1a" = None.
Proof. repeat split; reflexivity. Qed.

(** ** [path.Clean], as [http.ServeMux] uses it *)

(** Resolve the segments of a rooted path. *)
Fixpoint clean_segments (out segments : list string) : list string :=
  match segments with
  | [] => reverse out
  | seg :: rest =>
      if (seg =s "") || (seg =s ".") then clean_segments out rest
      else if seg =s ".." then clean_segments (tail out) rest
      else clean_segments (seg :: out) rest
  end.

(** [cleanPath]: rooted, resolved, with a final slash kept. *)
Definition cleanPath (p : string) : string :=
  let segments := split_byte "/"%char p in
  let cleaned := clean_segments [] segments in
  let np := "/" +:+ join_with "/" cleaned in
  if HasSuffix p "/" && negb (np =s "/") then np +:+ "/" else np.

Example clean_same : cleanPath "/issuers/7/crl" = "/issuers/7/crl".
Proof. reflexivity. Qed.
Example clean_dots : cleanPath "//a/./b/../c/" = "/a/c/".
Proof. reflexivity. Qed.
Example clean_empty : cleanPath "" = "/".
Proof. reflexivity. Qed.
