(* ===== verification/HTTP01.v ===== *)
(** * The HTTP-01 target guard ([lifecycle/service.go])

    Which URLs and addresses the service agrees to fetch on behalf of others:
    the challenge of an ACME client and the URL of a webhook. DNS resolution
    and the HTTP exchange are parameters. *)

From Stdlib Require Import Ascii.
From S2P Require Import Prelude GoLib NetIP.

Definition acmeHTTP01RedirectLimit : nat := 10.

Definition acmeHTTP01BlockedSpecialPrefixes : list Prefix :=
  omap ParsePrefix ["100.64.0.0/10"; "192.0.0.0/24"; "192.0.2.0/24"; "198.18.0.0/15";
    "198.51.100.0/24"; "203.0.113.0/24"; "2001:db8::/32"].

(** [netip.MustParseAddr] of the two metadata addresses. *)
Definition metadataAddrs : list Addr := omap ParseAddr ["169.254.169.254"; "100.100.100.200"].

Definition acmeHTTP01BlockedSpecialIP (addr : Addr) : bool :=
  existsb (λ prefix, prefix_contains prefix addr) acmeHTTP01BlockedSpecialPrefixes
  || existsb (addr_eqb addr) metadataAddrs.

(** Every parsed address is valid in the sense of [Addr.IsValid]. *)
Definition acmeHTTP01SafeIP (addr : Addr) : bool :=
  let addr := Unmap addr in
  if acmeHTTP01BlockedSpecialIP addr then false
  else negb (IsLoopback addr) && negb (IsPrivate addr) && negb (IsLinkLocalUnicast addr)
       && negb (IsLinkLocalMulticast addr) && negb (IsMulticast addr) && negb (IsUnspecified addr).

Definition acmeHTTP01AllowedScheme (scheme : string) : bool := (scheme =s "http") || (scheme =s "https").

Section HTTP01.
Context `{GoUnicode}.

Definition validateACMEHTTP01Host (host : string) : res unit :=
  let host := TrimSpace (ToLower host) in
  do! check_not ((host =s "") || (host =s "localhost") || HasSuffix host ".localhost") ErrInvalidRequest in
  match ParseAddr host with
  | Some addr => check_not (negb (acmeHTTP01SafeIP (Unmap addr))) ErrInvalidRequest
  | None => Ok tt
  end.

Definition validateACMEHTTP01FetchURL (fetchURL : option URL) : res unit :=
  match fetchURL with
  | None => Err ErrInvalidRequest
  | Some u =>
      do! check_not (negb (acmeHTTP01AllowedScheme (url_Scheme u)) || (url_Host u =s "")
                     || match url_User u with Some _ => true | None => false end) ErrInvalidRequest in
      validateACMEHTTP01Host (Hostname u)
  end.

(** The addresses that are dialled: those of the lookup that are safe. *)
Definition safeTarget (port : string) (ip : list Z) : option string :=
  match AddrFromSlice ip with
  | None => None
  | Some addr =>
      let addr := Unmap addr in
      if negb (acmeHTTP01SafeIP addr) then None else Some (JoinHostPort (addr_String addr) port)
  end.

Definition acmeHTTP01DialTargets (host port : string) (lookup : string → res (list (list Z)))
  : res (list string) :=
  do! validateACMEHTTP01Host host in
  let! ips := lookup host in
  let targets := omap (safeTarget port) ips in
  do! check_not (Nat.eqb (length targets) 0) ErrInvalidRequest in
  Ok targets.

(** [DialContext] of the guarded client: the first target that connects. *)
Fixpoint dialFirst {C} (dial : string → res C) (lastErr : option goerr) (targets : list string) : res C :=
  match targets with
  | [] => Err (default (ErrInvalidRequest : goerr) lastErr)
  | target :: rest =>
      match dial target with
      | Ok conn => Ok conn
      | Err err => dialFirst dial (Some err) rest
      end
  end.

Definition DialContext {C} (lookup : string → res (list (list Z))) (dial : string → res C)
    (address : string) : res C :=
  match SplitHostPort address with
  | None => Err ErrInvalidRequest
  | Some (host, port) =>
      let! targets := acmeHTTP01DialTargets host port lookup in
      dialFirst dial None targets
  end.

(** [CheckRedirect] of the guarded client, for the request after [via]. *)
Definition CheckRedirect (via : nat) (target : URL) : res unit :=
  do! check_not (Nat.leb acmeHTTP01RedirectLimit via) ErrInvalidRequest in
  validateACMEHTTP01FetchURL (Some target).

(** [strings.TrimRight(s, "/")] *)
Fixpoint trim_slashes (fuel : nat) (s : string) : string :=
  match fuel with
  | O => s
  | S n => if HasSuffix s "/" then trim_slashes n (str_take (String.length s - 1) s) else s
  end.

Definition acmeHTTP01ChallengeURL (baseURL : option URL) (identifier token : string) : URL :=
  let challengePath := "/.well-known/acme-challenge/" +:+ token in
  match baseURL with
  | None => mkURL "http" None identifier challengePath "" ""
  | Some base =>
      mkURL (url_Scheme base) (url_User base) (url_Host base)
        (trim_slashes (String.length (url_Path base)) (url_Path base) +:+ challengePath) "" ""
  end.

(** [NewACMEHTTP01Verifier], the override URL. *)
Definition newVerifierBase `{GoURL} (overrideBaseURL : string) : res (option URL) :=
  let overrideBaseURL := TrimSpace overrideBaseURL in
  if overrideBaseURL =s "" then Ok None
  else match url_Parse overrideBaseURL with
  | None => Err (EText "parse")
  | Some parsed =>
      do! check_not (negb (acmeHTTP01AllowedScheme (url_Scheme parsed))) (EText "scheme must be http or https") in
      do! check_not (url_Host parsed =s "") (EText "host is required") in
      Ok (Some parsed)
  end.

(** The verifier: [fetch] is [client.Do], which yields a status and at most
    4096 bytes of the body. *)
Definition VerifyHTTP01 (baseURL : option URL) (fetch : URL → res (Z * string))
    (identifier token keyAuthorization : string) : res unit :=
  let challengeURL := acmeHTTP01ChallengeURL baseURL identifier token in
  do! (match baseURL with
       | None => validateACMEHTTP01FetchURL (Some challengeURL)
       | Some _ => Ok tt
       end) in
  let! response := fetch challengeURL in
  let '(status, body) := response in
  do! check_not (negb (Z.eqb status 200)) ErrInvalidRequest in
  check_not (TrimSpace (str_take 4096 body) <>s keyAuthorization) ErrInvalidRequest.
End HTTP01.

Example blocked_prefixes : length acmeHTTP01BlockedSpecialPrefixes = 7 ∧ length metadataAddrs = 2.
Proof. split; reflexivity. Qed.
