(* ===== verification/Requests.v ===== *)
(** * Requests and results of the service methods ([lifecycle/service.go]) *)

From S2P Require Import Prelude GoLib Domain.

(** The kind of a profile's issuer transition. *)
Definition CertificateProfileIssuerTransition := string.
Definition CertificateProfileIssuerRollover : CertificateProfileIssuerTransition := "rollover".
Definition CertificateProfileIssuerRollback : CertificateProfileIssuerTransition := "rollback".

Record CreateIdentityRequest := mkCreateIdentityRequest {
  CreateIdentityRequest_Type : IdentityType;
  CreateIdentityRequest_Name : string;
  CreateIdentityRequest_ExternalID : string;
  CreateIdentityRequest_Owner : string;
  CreateIdentityRequest_Team : string;
  CreateIdentityRequest_Service : string;
  CreateIdentityRequest_Environment : string;
  CreateIdentityRequest_DeploymentTarget : string;
  CreateIdentityRequest_LastSeenAt : Time;
  CreateIdentityRequest_MetadataJSON : string;
  CreateIdentityRequest_AllowedDNSNames : list string;
  CreateIdentityRequest_AllowedIPAddresses : list string;
}.

Record CreateIssuerRequest := mkCreateIssuerRequest {
  CreateIssuerRequest_Name : string;
  CreateIssuerRequest_Kind : IssuerKind;
  CreateIssuerRequest_ParentIssuerID : string;
  CreateIssuerRequest_CertificatePEM : string;
  CreateIssuerRequest_KeyRef : string;
  CreateIssuerRequest_AIAURL : string;
  CreateIssuerRequest_CRLDistributionPoints : list string;
  CreateIssuerRequest_TrustAnchor : bool;
}.

Record CreateOCSPResponderRequest := mkCreateOCSPResponderRequest {
  CreateOCSPResponderRequest_IssuerID : string;
  CreateOCSPResponderRequest_Name : string;
  CreateOCSPResponderRequest_CertificatePEM : string;
  CreateOCSPResponderRequest_KeyRef : string;
}.

Record RotateOCSPResponderRequest := mkRotateOCSPResponderRequest {
  RotateOCSPResponderRequest_IssuerID : string;
  RotateOCSPResponderRequest_Name : string;
  RotateOCSPResponderRequest_CertificatePEM : string;
  RotateOCSPResponderRequest_KeyRef : string;
}.

Record CreateNotificationEndpointRequest := mkCreateNotificationEndpointRequest {
  CreateNotificationEndpointRequest_Name : string;
  CreateNotificationEndpointRequest_URL : string;
  CreateNotificationEndpointRequest_Secret : string;
  CreateNotificationEndpointRequest_EventTypes : list string;
}.

Record CreateCertificateProfileRequest := mkCreateCertificateProfileRequest {
  CreateCertificateProfileRequest_Name : string;
  CreateCertificateProfileRequest_Description : string;
  CreateCertificateProfileRequest_IssuerID : string;
  CreateCertificateProfileRequest_ValidityPeriodSeconds : Z;
  CreateCertificateProfileRequest_PublicTLS : bool;
  CreateCertificateProfileRequest_SubjectTemplate : string;
  CreateCertificateProfileRequest_AllowedDNSPatterns : list string;
  CreateCertificateProfileRequest_AllowedIPRanges : list string;
  CreateCertificateProfileRequest_AllowedKeyAlgorithms : list string;
  CreateCertificateProfileRequest_MinKeySizeBits : Z;
  CreateCertificateProfileRequest_AllowedSignatureAlgorithms : list string;
  CreateCertificateProfileRequest_KeyUsage : StringListExtensionPolicy;
  CreateCertificateProfileRequest_ExtendedKeyUsage : StringListExtensionPolicy;
  CreateCertificateProfileRequest_BasicConstraints : BasicConstraintsPolicy;
  CreateCertificateProfileRequest_SubjectKeyIdentifier : bool;
  CreateCertificateProfileRequest_AuthorityKeyIdentifier : bool;
}.

Record TransitionCertificateProfileIssuerRequest := mkTransitionCertificateProfileIssuerRequest {
  TransitionCertificateProfileIssuerRequest_ProfileID : string;
  TransitionCertificateProfileIssuerRequest_CurrentIssuerID : string;
  TransitionCertificateProfileIssuerRequest_NextIssuerID : string;
  TransitionCertificateProfileIssuerRequest_Transition : CertificateProfileIssuerTransition;
  TransitionCertificateProfileIssuerRequest_Reason : string;
}.

Record CreateEnrollmentRequest := mkCreateEnrollmentRequest {
  CreateEnrollmentRequest_IdentityID : string;
  CreateEnrollmentRequest_IssuerID : string;
  CreateEnrollmentRequest_CertificateProfileID : string;
  CreateEnrollmentRequest_CSRPEM : string;
  CreateEnrollmentRequest_RequestedSubject : string;
  CreateEnrollmentRequest_RequestedDNSNames : list string;
  CreateEnrollmentRequest_RequestedIPAddresses : list string;
  CreateEnrollmentRequest_RequestedNotAfter : Time;
}.

Record CreateACMEAccountRequest := mkCreateACMEAccountRequest {
  CreateACMEAccountRequest_Contacts : list string;
  CreateACMEAccountRequest_TermsOfServiceAgreed : bool;
  CreateACMEAccountRequest_KeyThumbprint : string;
  CreateACMEAccountRequest_KeyJWKJSON : string;
}.

Record CreateACMEAccountResult := mkCreateACMEAccountResult {
  CreateACMEAccountResult_Account : ACMEAccount;
  CreateACMEAccountResult_Created : bool;
}.

Record UpdateACMEAccountRequest := mkUpdateACMEAccountRequest {
  UpdateACMEAccountRequest_Contacts : list string;
  UpdateACMEAccountRequest_UpdateContacts : bool;
  UpdateACMEAccountRequest_Deactivate : bool;
}.

Record UpdateACMEAccountKeyRequest := mkUpdateACMEAccountKeyRequest {
  UpdateACMEAccountKeyRequest_KeyThumbprint : string;
  UpdateACMEAccountKeyRequest_KeyJWKJSON : string;
}.

Record CreateACMEOrderRequest := mkCreateACMEOrderRequest {
  CreateACMEOrderRequest_AccountID : string;
  CreateACMEOrderRequest_IdentityID : string;
  CreateACMEOrderRequest_IssuerID : string;
  CreateACMEOrderRequest_CertificateProfileID : string;
  CreateACMEOrderRequest_RequestedDNSNames : list string;
  CreateACMEOrderRequest_RequestedIPAddresses : list string;
  CreateACMEOrderRequest_RequestedNotAfter : Time;
}.

Record FinalizeACMEOrderRequest := mkFinalizeACMEOrderRequest {
  FinalizeACMEOrderRequest_CSRPEM : string;
  FinalizeACMEOrderRequest_RequestedSubject : string;
}.

Record RenewCertificateRequest := mkRenewCertificateRequest {
  RenewCertificateRequest_CSRPEM : string;
  RenewCertificateRequest_RequestedNotAfter : Time;
}.

Record ReissueCertificateRequest := mkReissueCertificateRequest {
  ReissueCertificateRequest_CSRPEM : string;
}.

Record ScanCertificateExpirationsRequest := mkScanCertificateExpirationsRequest {
  ScanCertificateExpirationsRequest_WarningWindow : Duration;
  ScanCertificateExpirationsRequest_Limit : Z;
}.

Record CertificateExpirationScanResult := mkCertificateExpirationScanResult {
  CertificateExpirationScanResult_Expired : list Certificate;
  CertificateExpirationScanResult_ExpirationWarnings : list Certificate;
}.

Record ReplayDeadLetterOutboxRequest := mkReplayDeadLetterOutboxRequest {
  ReplayDeadLetterOutboxRequest_EventType : string;
  ReplayDeadLetterOutboxRequest_CreatedFrom : Time;
  ReplayDeadLetterOutboxRequest_CreatedTo : Time;
  ReplayDeadLetterOutboxRequest_Limit : Z;
}.

Record ReplayDeadLetterOutboxResult := mkReplayDeadLetterOutboxResult {
  ReplayDeadLetterOutboxResult_ReplayedMessages : list OutboxMessage;
}.

Record PublishCRLRequest := mkPublishCRLRequest {
  PublishCRLRequest_IssuerID : string;
  PublishCRLRequest_DistributionPoint : string;
  PublishCRLRequest_NextUpdate : Time;
}.

Record OCSPResponse := mkOCSPResponse {
  OCSPResponse_ResponseDER : string;
}.

Record EnsureAPIKeyRequest := mkEnsureAPIKeyRequest {
  EnsureAPIKeyRequest_Name : string;
  EnsureAPIKeyRequest_Token : string;
  EnsureAPIKeyRequest_Actor : string;
  EnsureAPIKeyRequest_Scopes : list APIKeyScope;
}.

Record CreateAPIKeyRequest := mkCreateAPIKeyRequest {
  CreateAPIKeyRequest_Name : string;
  CreateAPIKeyRequest_Actor : string;
  CreateAPIKeyRequest_Scopes : list APIKeyScope;
  CreateAPIKeyRequest_ExpiresAt : Time;
}.

Record CreateAPIKeyResult := mkCreateAPIKeyResult {
  CreateAPIKeyResult_Key : APIKey;
  CreateAPIKeyResult_Token : string;
}.

Record ocspSigner := mkocspSigner {
  ocspSigner_CertificatePEM : string;
  ocspSigner_KeyRef : string;
  ocspSigner_ResponderMode : string;
  ocspSigner_ResponderID : string;
}.

