(* ===== verification/AuditChain.v ===== *)
(** * The audit hash chain ([store/audit_hash.go], audit part of [store/memory.go])

    Every audit event carries a sequence number, the hash of its predecessor
    and a SHA-256 over the predecessor hash and the event's own payload. The
    log keeps a checkpoint (the last pruned event) and the latest event. *)

From S2P Require Import Prelude GoLib Crypto Domain.

(** A value stored under a metadata key ([map[string]any]). *)
Inductive JV :=
| JStr (s : string)
| JInt (z : Z)
| JBool (b : bool)
| JStrs (l : list string)
| JObjs (l : list (list (string * string))).

Definition Fields := gmap string JV.

Record auditHashPayload := mkAuditHashPayload {
  ahp_HashAlgorithm : string;
  ahp_Sequence : Z;
  ahp_ID : string;
  ahp_Actor : string;
  ahp_Action : string;
  ahp_ResourceType : string;
  ahp_ResourceID : string;
  ahp_Metadata : string;
  ahp_CreatedAt : string;
}.

(** The codecs of [encoding/json] and [time] the service calls: decoding a
    metadata document and encoding it canonically ([None] when it is not one
    JSON value), encoding a hash payload, encoding a map of fields, and the two
    timestamp layouts. *)
Class GoCodec := {
  json_canonical : string → option string;
  json_hash_payload : auditHashPayload → option string;
  json_fields : Fields → option string;
  format_RFC3339 : Time → string;
  format_RFC3339Nano : Time → string;
}.

Definition AuditHashAlgorithmSHA256V1 : string := "sha256-v1".

Record auditChainState := mkAuditChainState {
  acs_HashAlgorithm : string;
  acs_LatestSequence : Z;
  acs_LatestEventHash : string;
  acs_CheckpointSequence : Z;
  acs_CheckpointEventHash : string;
  acs_UpdatedAt : Time;
}.

Definition emptyAuditChainState : auditChainState :=
  mkAuditChainState AuditHashAlgorithmSHA256V1 0 "" 0 "" zero_time.

(** [isAuditHash]: 64 lower-case hexadecimal digits. *)
Definition isAuditHash (value : string) : bool :=
  if negb (Nat.eqb (String.length value) 64) then false
  else match hex_decode value with
       | Some decoded => Nat.eqb (length decoded) 32 && (value =s hex_encode decoded)
       | None => false
       end.

Lemma isAuditHash_hex s : isAuditHash (hex_encode (Sum256 s)) = true.
Proof.
  unfold isAuditHash. rewrite length_hex_encode, length_Sum256.
  rewrite hex_decode_encode by apply Sum256_range.
  rewrite length_Sum256. simpl Nat.eqb. by rewrite String.eqb_refl.
Qed.


Section Chain.
Context `{GoCodec}.

Definition canonicalAuditMetadata (value : string) : res string :=
  match json_canonical value with
  | Some canonical => Ok canonical
  | None => Err (EText "decode audit metadata")
  end.

(** The bytes an event contributes to the chain. *)
Definition auditPayload (event : AuditEvent) : res string :=
  let! canonicalMetadata := canonicalAuditMetadata (AuditEvent_MetadataJSON event) in
  match json_hash_payload
    (mkAuditHashPayload (AuditEvent_HashAlgorithm event) (AuditEvent_Sequence event)
       (AuditEvent_ID event) (AuditEvent_Actor event) (AuditEvent_Action event)
       (AuditEvent_ResourceType event) (AuditEvent_ResourceID event) canonicalMetadata
       (format_RFC3339Nano (AuditEvent_CreatedAt event))) with
  | Some payload => Ok payload
  | None => Err (EText "marshal audit hash payload")
  end.

Definition auditEventHash (previousHash : string) (event : AuditEvent) : res string :=
  let! payload := auditPayload event in
  Ok (hex_encode (Sum256 (previousHash +:+ payload))).

Definition withAuditEventHash (sequence : Z) (previousHash : string) (event : AuditEvent)
  : res AuditEvent :=
  do! check_not (Z.leb sequence 0) (EText "audit sequence must be positive") in
  let event := event |> AuditEvent_with_Sequence sequence
                     |> AuditEvent_with_HashAlgorithm AuditHashAlgorithmSHA256V1
                     |> AuditEvent_with_PreviousEventHash previousHash in
  let! hash := auditEventHash previousHash event in
  Ok (event |> AuditEvent_with_EventHash hash).

(** The loop of [verifyAuditEvents]: [inl] is a report returned early. *)
Fixpoint verifyLoop (events : list AuditEvent) (first : bool) (expectedSequence : Z)
    (previousHash : string) (report : AuditIntegrity) : AuditIntegrity + AuditIntegrity :=
  match events with
  | [] => inr report
  | event :: rest =>
      let failed reason := inl (report |> AuditIntegrity_with_FailureReason reason) in
      if negb (Z.eqb (AuditEvent_Sequence event) expectedSequence) then failed "sequence_gap"
      else if AuditEvent_HashAlgorithm event <>s AuditHashAlgorithmSHA256V1
      then failed "hash_algorithm_mismatch"
      else if AuditEvent_PreviousEventHash event <>s previousHash
      then failed "previous_hash_mismatch"
      else match auditEventHash previousHash event with
      | Err _ => failed "metadata_invalid"
      | Ok expectedHash =>
          if (AuditEvent_EventHash event <>s expectedHash)
             || negb (isAuditHash (AuditEvent_EventHash event))
          then failed "event_hash_mismatch"
          else
            let report := if first
              then report |> AuditIntegrity_with_FirstSequence (AuditEvent_Sequence event)
              else report in
            let report := report
              |> AuditIntegrity_with_LastSequence (AuditEvent_Sequence event)
              |> AuditIntegrity_with_LastEventHash (AuditEvent_EventHash event) in
            verifyLoop rest false (wrap64 (expectedSequence + 1))
              (AuditEvent_EventHash event) report
      end
  end.

Definition checkpointFailure (checkpoint : AuditChainCheckpoint) : option string :=
  let seq := AuditChainCheckpoint_Sequence checkpoint in
  let alg := AuditChainCheckpoint_HashAlgorithm checkpoint in
  let hash := AuditChainCheckpoint_EventHash checkpoint in
  if Z.ltb seq 0 then Some "checkpoint_sequence_invalid"
  else if Z.eqb seq 0 then
    if hash <>s "" then Some "checkpoint_hash_unexpected"
    else if (alg <>s "") && (alg <>s AuditHashAlgorithmSHA256V1)
    then Some "checkpoint_algorithm_mismatch"
    else None
  else
    if alg <>s AuditHashAlgorithmSHA256V1 then Some "checkpoint_algorithm_mismatch"
    else if negb (isAuditHash hash) then Some "checkpoint_hash_invalid"
    else None.

Definition verifyAuditEvents (events : list AuditEvent) (checkpoint : AuditChainCheckpoint)
  : AuditIntegrity :=
  let report := mkAuditIntegrity false AuditHashAlgorithmSHA256V1 (Z.of_nat (length events)) 0 0 ""
    (AuditChainCheckpoint_Sequence checkpoint) (AuditChainCheckpoint_EventHash checkpoint) "" in
  match checkpointFailure checkpoint with
  | Some reason => report |> AuditIntegrity_with_FailureReason reason
  | None =>
      match verifyLoop events true (wrap64 (AuditChainCheckpoint_Sequence checkpoint + 1))
              (AuditChainCheckpoint_EventHash checkpoint) report with
      | inl failed => failed
      | inr report =>
          let report := match events with
            | [] => report
                |> AuditIntegrity_with_LastSequence (AuditChainCheckpoint_Sequence checkpoint)
                |> AuditIntegrity_with_LastEventHash (AuditChainCheckpoint_EventHash checkpoint)
            | _ => report
            end in
          report |> AuditIntegrity_with_Valid true
      end
  end.

Definition verifyAuditState (events : list AuditEvent) (state : auditChainState)
  : AuditIntegrity :=
  let checkpoint := mkAuditChainCheckpoint (acs_CheckpointSequence state)
    (acs_HashAlgorithm state) (acs_CheckpointEventHash state) zero_time in
  let report := verifyAuditEvents events checkpoint in
  if negb (AuditIntegrity_Valid report) then report
  else if acs_HashAlgorithm state <>s AuditHashAlgorithmSHA256V1
  then report |> AuditIntegrity_with_Valid false
              |> AuditIntegrity_with_FailureReason "state_algorithm_mismatch"
  else if negb (Z.eqb (acs_LatestSequence state) (AuditIntegrity_LastSequence report))
       || (acs_LatestEventHash state <>s AuditIntegrity_LastEventHash report)
  then report |> AuditIntegrity_with_Valid false
              |> AuditIntegrity_with_FailureReason "state_latest_mismatch"
  else report.

Definition auditIntegrityError (report : AuditIntegrity) : option goerr :=
  if AuditIntegrity_Valid report then None
  else Some (EWrap (AuditIntegrity_FailureReason report) ErrAuditIntegrity).

(** The two variables the store passes by reference. *)
Record AuditLog := mkAuditLog { log_events : list AuditEvent; log_state : auditChainState }.

Definition emptyAuditLog : AuditLog := mkAuditLog [] emptyAuditChainState.

Definition appendMemoryAuditEvent (event : AuditEvent) : GoM AuditLog unit := λ log,
  let report := verifyAuditState (log_events log) (log_state log) in
  match auditIntegrityError report with
  | Some err => (Err err, log)
  | None =>
      match withAuditEventHash (wrap64 (AuditIntegrity_LastSequence report + 1))
              (AuditIntegrity_LastEventHash report) event with
      | Err err => (Err err, log)
      | Ok prepared =>
          let state := log_state log in
          let log' := mkAuditLog (log_events log ++ [prepared])
            (mkAuditChainState AuditHashAlgorithmSHA256V1 (AuditEvent_Sequence prepared)
               (AuditEvent_EventHash prepared) (acs_CheckpointSequence state)
               (acs_CheckpointEventHash state) (AuditEvent_CreatedAt prepared)) in
          match auditIntegrityError (verifyAuditState (log_events log') (log_state log')) with
          | Some err => (Err err, log')
          | None => (Ok tt, log')
          end
      end
  end.

(** The loop of [auditRetentionPrefixLength]; [None] is the result -1. *)
Fixpoint retentionLoop (events : list AuditEvent) (before : Time) (deleteCount : nat)
    (seenRetained : bool) : option nat :=
  match events with
  | [] => Some deleteCount
  | event :: rest =>
      if Before (AuditEvent_CreatedAt event) before then
        if seenRetained then None else retentionLoop rest before (S deleteCount) seenRetained
      else retentionLoop rest before deleteCount true
  end.

Definition auditRetentionPrefixLength (events : list AuditEvent) (before : Time) : option nat :=
  retentionLoop events before 0 false.

Definition pruneMemoryAuditEvents (before : Time) : GoM AuditLog nat := λ log,
  let report := verifyAuditState (log_events log) (log_state log) in
  match auditIntegrityError report with
  | Some err => (Err err, log)
  | None =>
      match auditRetentionPrefixLength (log_events log) before with
      | None => (Err (EWrap "retention_cutoff_non_prefix" ErrAuditIntegrity), log)
      | Some O => (Ok 0, log)
      | Some (S n as deleteCount) =>
          let lastDeleted := nth n (log_events log) zero_AuditEvent in
          let state := log_state log in
          let log' := mkAuditLog (drop deleteCount (log_events log))
            (mkAuditChainState AuditHashAlgorithmSHA256V1 (acs_LatestSequence state)
               (acs_LatestEventHash state) (AuditEvent_Sequence lastDeleted)
               (AuditEvent_EventHash lastDeleted) (AuditEvent_CreatedAt lastDeleted)) in
          match auditIntegrityError (verifyAuditState (log_events log') (log_state log')) with
          | Some err => (Err err, log')
          | None => (Ok deleteCount, log')
          end
      end
  end.


(** ** The chain as a predicate *)

(** [e] follows a chain that expects sequence [seq] after hash [prev]. *)
Definition links (seq : Z) (prev : string) (e : AuditEvent) : Prop :=
  AuditEvent_Sequence e = seq ∧
  AuditEvent_HashAlgorithm e = AuditHashAlgorithmSHA256V1 ∧
  AuditEvent_PreviousEventHash e = prev ∧
  auditEventHash prev e = Ok (AuditEvent_EventHash e).

Fixpoint chained (seq : Z) (prev : string) (es : list AuditEvent) : Prop :=
  match es with
  | [] => True
  | e :: es => links seq prev e ∧ chained (wrap64 (seq + 1)) (AuditEvent_EventHash e) es
  end.

Definition end_seq (seq0 : Z) (es : list AuditEvent) : Z :=
  from_option AuditEvent_Sequence seq0 (last es).
Definition end_hash (h0 : string) (es : list AuditEvent) : string :=
  from_option AuditEvent_EventHash h0 (last es).

(** What [verifyAuditState] decides. *)
Record audit_ok (log : AuditLog) : Prop := {
  ok_algorithm : acs_HashAlgorithm (log_state log) = AuditHashAlgorithmSHA256V1;
  ok_checkpoint : checkpointFailure (mkAuditChainCheckpoint
    (acs_CheckpointSequence (log_state log)) (acs_HashAlgorithm (log_state log))
    (acs_CheckpointEventHash (log_state log)) zero_time) = None;
  ok_chained : chained (wrap64 (acs_CheckpointSequence (log_state log) + 1))
    (acs_CheckpointEventHash (log_state log)) (log_events log);
  ok_latest_seq : acs_LatestSequence (log_state log) =
    end_seq (acs_CheckpointSequence (log_state log)) (log_events log);
  ok_latest_hash : acs_LatestEventHash (log_state log) =
    end_hash (acs_CheckpointEventHash (log_state log)) (log_events log);
}.

Lemma auditEventHash_hash prev e h : auditEventHash prev e = Ok h → isAuditHash h = true.
Proof.
  unfold auditEventHash, bindR. destruct (auditPayload e); intros; simplify_eq.
  apply isAuditHash_hex.
Qed.


(** The hash ignores the event's own hash and predecessor fields. *)
Lemma auditEventHash_with_hash prev e h :
  auditEventHash prev (AuditEvent_with_EventHash h e) = auditEventHash prev e.
Proof. done. Qed.

Lemma chained_app es1 es2 seq prev :
  chained seq prev (es1 ++ es2) ↔
  chained seq prev es1 ∧
  chained (from_option (λ e, wrap64 (AuditEvent_Sequence e + 1)) seq (last es1))
    (end_hash prev es1) es2.
Proof.
  revert seq prev. induction es1 as [|e es1 IH]; intros seq prev; simpl; [tauto|].
  rewrite IH. unfold end_hash. rewrite last_cons.
  destruct (last es1) as [e'|]; simpl; [tauto|].
  split; intros; destruct_and?; unfold links in *; destruct_and?; simplify_eq; tauto.
Qed.

Lemma verifyLoop_chained es first seq prev report :
  chained seq prev es →
  ∃ r, verifyLoop es first seq prev report = inr r ∧
    AuditIntegrity_LastSequence r = end_seq (AuditIntegrity_LastSequence report) es ∧
    AuditIntegrity_LastEventHash r = end_hash (AuditIntegrity_LastEventHash report) es ∧
    AuditIntegrity_Valid r = AuditIntegrity_Valid report.
Proof.
  revert first seq prev report. induction es as [|e es IH]; intros first seq prev report Hc.
  { by exists report. }
  destruct Hc as [(Hs & Ha & Hp & Hh) Hc]. simpl.
  rewrite Hs, Z.eqb_refl, Ha, Hp, Hh, !String.eqb_refl; simpl.
  rewrite (auditEventHash_hash _ _ _ Hh); simpl.
  match goal with |- ∃ r, verifyLoop _ _ _ _ ?rep = _ ∧ _ => edestruct (IH false _ _ rep Hc)
    as (r & Hr & H1 & H2 & H3) end.
  exists r. split; [exact Hr|]. rewrite H1, H2, H3.
  unfold end_seq, end_hash. rewrite last_cons. destruct (last es), first; auto.
Qed.

Lemma verifyLoop_inr es first seq prev report r :
  verifyLoop es first seq prev report = inr r → chained seq prev es.
Proof.
  revert first seq prev report. induction es as [|e es IH]; intros first seq prev report; [done|].
  simpl. intros Hv.
  step_guards Hv; bool_prop; subst; (split; [repeat split; congruence|eauto]).
Qed.

Lemma verifyLoop_inl_invalid es first seq prev report r :
  AuditIntegrity_Valid report = false →
  verifyLoop es first seq prev report = inl r → AuditIntegrity_Valid r = false.
Proof.
  revert first seq prev report. induction es as [|e es IH]; intros first seq prev report Hf; [done|].
  simpl. repeat (case_match; [by intros; simplify_eq|]).
  repeat case_match; try (by intros; simplify_eq). all: apply IH; by destruct first.
Qed.

Lemma verifyAuditEvents_chained es cp :
  checkpointFailure cp = None →
  chained (wrap64 (AuditChainCheckpoint_Sequence cp + 1)) (AuditChainCheckpoint_EventHash cp) es →
  let report := verifyAuditEvents es cp in
  AuditIntegrity_Valid report = true ∧
  AuditIntegrity_LastSequence report = end_seq (AuditChainCheckpoint_Sequence cp) es ∧
  AuditIntegrity_LastEventHash report = end_hash (AuditChainCheckpoint_EventHash cp) es.
Proof.
  intros Hcp Hc. unfold verifyAuditEvents. rewrite Hcp.
  match goal with |- context [verifyLoop _ _ _ _ ?rep] =>
    destruct (verifyLoop_chained _ true _ _ rep Hc) as (r & -> & Hs & Hh & _) end.
  destruct es as [|e es]; [done|]. simpl. split; [done|].
  rewrite Hs, Hh. unfold end_seq, end_hash. rewrite last_cons. by destruct (last es).
Qed.

Lemma verifyAuditEvents_valid es cp :
  AuditIntegrity_Valid (verifyAuditEvents es cp) = true →
  checkpointFailure cp = None ∧
  chained (wrap64 (AuditChainCheckpoint_Sequence cp + 1)) (AuditChainCheckpoint_EventHash cp) es.
Proof.
  unfold verifyAuditEvents. destruct (checkpointFailure cp); [by intros|].
  destruct (verifyLoop _ _ _ _ _) as [r|r] eqn:Hl.
  - apply verifyLoop_inl_invalid in Hl; [|done]. congruence.
  - eauto using verifyLoop_inr.
Qed.

Lemma verifyAuditState_report log :
  audit_ok log →
  let report := verifyAuditState (log_events log) (log_state log) in
  AuditIntegrity_Valid report = true ∧
  AuditIntegrity_LastSequence report = acs_LatestSequence (log_state log) ∧
  AuditIntegrity_LastEventHash report = acs_LatestEventHash (log_state log).
Proof.
  destruct log as [es st]. intros [Ha Hcp Hc Hls Hlh]; simpl in *. unfold verifyAuditState.
  destruct (verifyAuditEvents_chained _ _ Hcp Hc) as (Hv & Hs & Hh). simpl in *.
  rewrite Hv, Ha in *. simpl. rewrite Hs, Hh, Hls, Hlh, Z.eqb_refl, String.eqb_refl. simpl. auto.
Qed.

Lemma verifyAuditState_valid log :
  AuditIntegrity_Valid (verifyAuditState (log_events log) (log_state log)) = true ↔ audit_ok log.
Proof.
  split; [|intros Hok; by apply verifyAuditState_report].
  destruct log as [es st]; simpl. unfold verifyAuditState.
  destruct (AuditIntegrity_Valid (verifyAuditEvents _ _)) eqn:Hv; simpl; [|congruence].
  pose proof (verifyAuditEvents_valid _ _ Hv) as [Hcp Hc].
  destruct (verifyAuditEvents_chained _ _ Hcp Hc) as (_ & Hs & Hh).
  repeat case_match; try discriminate. intros _. bool_prop. simpl in *.
  split; simpl; [done|done|done|by rewrite <- Hs|by rewrite <- Hh].
Qed.

Lemma auditIntegrityError_None log :
  auditIntegrityError (verifyAuditState (log_events log) (log_state log)) = None ↔ audit_ok log.
Proof.
  rewrite <- verifyAuditState_valid. unfold auditIntegrityError.
  destruct (AuditIntegrity_Valid _); split; congruence.
Qed.

(** ** Sequence numbers *)

Lemma chained_sequence es seq prev i e :
  chained seq prev es → (0 <= seq)%Z → (seq + Z.of_nat (length es) <= 2 ^ 63)%Z →
  es !! i = Some e → AuditEvent_Sequence e = (seq + Z.of_nat i)%Z.
Proof.
  revert seq prev i. induction es as [|e' es IH]; intros seq prev i; [done|].
  intros [[Hs _] Hc] H0 Hb Hi. simpl in Hb. destruct i as [|i]; simpl in Hi.
  { simplify_eq. lia. }
  rewrite wrap64_id in Hc.
  - rewrite (IH _ _ _ Hc) by (try done; lia). lia.
  - unfold int64. apply lookup_lt_Some in Hi. lia.
Qed.

(** The invariant of the log: it verifies, and its sequence numbers run from
    the checkpoint to the latest event without wrapping. *)
Record audit_inv (log : AuditLog) : Prop := {
  inv_ok : audit_ok log;
  inv_checkpoint_nonneg : (0 <= acs_CheckpointSequence (log_state log))%Z;
  inv_count : (acs_CheckpointSequence (log_state log) + Z.of_nat (length (log_events log)) =
               acs_LatestSequence (log_state log))%Z;
  inv_bound : (acs_LatestSequence (log_state log) < 2 ^ 63)%Z;
}.

Lemma audit_inv_empty : audit_inv emptyAuditLog.
Proof. repeat split; simpl; lia. Qed.

Lemma checkpointFailure_positive seq hash t :
  (0 < seq)%Z → isAuditHash hash = true →
  checkpointFailure (mkAuditChainCheckpoint seq AuditHashAlgorithmSHA256V1 hash t) = None.
Proof.
  intros Hs Hh. unfold checkpointFailure; simpl. rewrite Hh.
  destruct (Z.ltb_spec seq 0); [lia|]. destruct (Z.eqb_spec seq 0); [lia|done].
Qed.

Lemma checkpointFailure_time seq alg hash t t' :
  checkpointFailure (mkAuditChainCheckpoint seq alg hash t) =
  checkpointFailure (mkAuditChainCheckpoint seq alg hash t').
Proof. done. Qed.

(** Discharge the re-verification of the new log in [H] with [Hok]. *)
Ltac verified_by Hok H :=
  match type of H with
  | context [auditIntegrityError ?report] =>
      let Hv := fresh "Hv" in
      assert (auditIntegrityError report = None) as Hv
        by exact (proj2 (auditIntegrityError_None (mkAuditLog _ _)) Hok);
      rewrite Hv in H
  end.

(** ** Appending *)

(** The event as it is stored: the source's assignments before the hash. *)
Definition prepared_event (log : AuditLog) (event : AuditEvent) : AuditEvent :=
  event |> AuditEvent_with_Sequence (acs_LatestSequence (log_state log) + 1)%Z
        |> AuditEvent_with_HashAlgorithm AuditHashAlgorithmSHA256V1
        |> AuditEvent_with_PreviousEventHash (acs_LatestEventHash (log_state log)).

Lemma last_snoc_event (es : list AuditEvent) e : last (es ++ [e]) = Some e.
Proof. apply last_snoc. Qed.

Lemma audit_ok_snoc es st e t :
  audit_ok (mkAuditLog es st) →
  links (wrap64 (acs_LatestSequence st + 1)) (acs_LatestEventHash st) e →
  audit_ok (mkAuditLog (es ++ [e]) (mkAuditChainState AuditHashAlgorithmSHA256V1
    (AuditEvent_Sequence e) (AuditEvent_EventHash e) (acs_CheckpointSequence st)
    (acs_CheckpointEventHash st) t)).
Proof.
  intros [Ha Hcp Hc Hls Hlh] Hl; simpl in *. rewrite Ha in Hcp.
  split; simpl; unfold end_seq, end_hash; rewrite ?last_snoc_event; [done|done| |done|done].
  apply chained_app. split; [done|]. simpl. split; [|done].
  rewrite Hls, Hlh in Hl. unfold end_seq, end_hash in *.
  destruct (last es); exact Hl.
Qed.

(** What an append does to a log that satisfies the invariant: the event goes
    to the end, linked to the previous latest event, or the log is untouched
    and the reason is an exhausted sequence or an unencodable payload. *)
Lemma append_cases log event r log' :
  audit_inv log → appendMemoryAuditEvent event log = (r, log') →
  (r = Ok tt ∧ audit_inv log' ∧ ∃ h,
     auditEventHash (acs_LatestEventHash (log_state log)) (prepared_event log event) = Ok h ∧
     log_events log' = log_events log ++ [AuditEvent_with_EventHash h (prepared_event log event)] ∧
     acs_LatestEventHash (log_state log') = h) ∨
  (log' = log ∧ is_ok r = false ∧
    (acs_LatestSequence (log_state log) = 2 ^ 63 - 1 ∨
     is_ok (auditPayload (prepared_event log event)) = false)%Z).
Proof.
  intros [Hok H0 Hn Hb] Happ. unfold appendMemoryAuditEvent in Happ.
  pose proof (verifyAuditState_report _ Hok) as (_ & Hs & Hh).
  rewrite (proj2 (auditIntegrityError_None log) Hok), Hs, Hh in Happ.
  destruct (Z.eq_dec (acs_LatestSequence (log_state log)) (2 ^ 63 - 1)%Z) as [E|E].
  { rewrite E in Happ. unfold withAuditEventHash in Happ. simpl in Happ.
    injection Happ as <- <-. right. auto. }
  assert (wrap64 (acs_LatestSequence (log_state log) + 1) =
          acs_LatestSequence (log_state log) + 1)%Z as Hw by (apply wrap64_id; unfold int64; lia).
  rewrite Hw in Happ. unfold withAuditEventHash, check_not in Happ.
  destruct (Z.leb_spec (acs_LatestSequence (log_state log) + 1) 0); [lia|]. simpl in Happ.
  fold (prepared_event log event) in Happ.
  destruct (auditEventHash _ (prepared_event log event)) as [h|err] eqn:Hev; simpl in Happ.
  - left.
    assert (links (wrap64 (acs_LatestSequence (log_state log) + 1))
      (acs_LatestEventHash (log_state log)) (AuditEvent_with_EventHash h (prepared_event log event)))
      as Hl by (rewrite Hw; repeat split; exact Hev).
    destruct log as [es st]; simpl in *.
    pose proof (audit_ok_snoc es st _ (AuditEvent_CreatedAt event) Hok Hl) as Hok'.
    verified_by Hok' Happ.
    injection Happ as <- <-. split; [done|]. split; [|eauto].
    split; simpl; [exact Hok'|done| |lia]. rewrite length_app; simpl. lia.
  - injection Happ as <- <-. right. split; [done|]. split; [done|]. right.
    revert Hev. unfold auditEventHash, bindR. by destruct (auditPayload _).
Qed.

(** ** Pruning *)

Lemma retentionLoop_spec es before n seen k :
  retentionLoop es before n seen = Some k →
  ∃ pre suf, es = pre ++ suf ∧ k = n + length pre ∧ (seen = true → pre = []) ∧
    Forall (λ e, Before (AuditEvent_CreatedAt e) before = true) pre ∧
    Forall (λ e, Before (AuditEvent_CreatedAt e) before = false) suf.
Proof.
  revert n seen. induction es as [|e es IH]; intros n seen; simpl.
  { intros. simplify_eq. exists [], []. simpl. repeat split; auto. }
  destruct (Before _ _) eqn:E; [destruct seen; [done|]|]; intros H'.
  - apply IH in H' as (pre & suf & -> & -> & _ & H1 & H2).
    exists (e :: pre), suf. simpl. repeat split; auto; try lia; done.
  - apply IH in H' as (pre & suf & -> & -> & Hpre & H1 & H2). rewrite (Hpre eq_refl) in *.
    exists [], (e :: suf). simpl in *. repeat split; auto; lia.
Qed.

Lemma retentionLoop_none es before n :
  retentionLoop es before n false = None →
  ¬ ∃ pre suf, es = pre ++ suf ∧
    Forall (λ e, Before (AuditEvent_CreatedAt e) before = true) pre ∧
    Forall (λ e, Before (AuditEvent_CreatedAt e) before = false) suf.
Proof.
  intros Hn (pre & suf & -> & Hpre & Hsuf). revert n Hn.
  induction Hpre as [|e pre He Hpre IH]; intros n; simpl.
  - assert (∀ seen n, retentionLoop suf before n seen ≠ None) as Hs; [|apply Hs].
    clear n. induction Hsuf as [|e suf He Hsuf IH]; intros seen n; simpl; [done|]. by rewrite He.
  - rewrite He. eauto.
Qed.

Lemma audit_ok_drop pre suf st e t :
  audit_ok (mkAuditLog (pre ++ suf) st) → last pre = Some e → (0 < AuditEvent_Sequence e)%Z →
  audit_ok (mkAuditLog suf (mkAuditChainState AuditHashAlgorithmSHA256V1 (acs_LatestSequence st)
    (acs_LatestEventHash st) (AuditEvent_Sequence e) (AuditEvent_EventHash e) t)).
Proof.
  intros [Ha Hcp Hc Hls Hlh] Hlast Hpos; simpl in *.
  apply chained_app in Hc as [Hc1 Hc2]. rewrite Hlast in Hc2. unfold end_hash in Hc2.
  rewrite Hlast in Hc2. simpl in Hc2.
  split; simpl; [done| |done| |].
  - apply checkpointFailure_positive; [done|].
    apply last_Some in Hlast as [pre' ->].
    apply chained_app in Hc1 as [_ [(_ & _ & _ & Hh) _]]. by eapply auditEventHash_hash.
  - rewrite Hls. unfold end_seq. rewrite last_app, Hlast. by destruct (last suf).
  - rewrite Hlh. unfold end_hash. rewrite last_app, Hlast. by destruct (last suf).
Qed.

(** What pruning does to a log that satisfies the invariant. *)
Lemma prune_cases log before r log' :
  audit_inv log → pruneMemoryAuditEvents before log = (r, log') →
  (∃ pre suf, log_events log = pre ++ suf ∧ r = Ok (length pre) ∧ log_events log' = suf ∧
     Forall (λ e, Before (AuditEvent_CreatedAt e) before = true) pre ∧
     Forall (λ e, Before (AuditEvent_CreatedAt e) before = false) suf ∧
     audit_inv log' ∧
     acs_LatestSequence (log_state log') = acs_LatestSequence (log_state log) ∧
     acs_LatestEventHash (log_state log') = acs_LatestEventHash (log_state log)) ∨
  (log' = log ∧ r = Err (EWrap "retention_cutoff_non_prefix" ErrAuditIntegrity) ∧
   ¬ ∃ pre suf, log_events log = pre ++ suf ∧
     Forall (λ e, Before (AuditEvent_CreatedAt e) before = true) pre ∧
     Forall (λ e, Before (AuditEvent_CreatedAt e) before = false) suf).
Proof.
  intros Hinv Hp. pose proof Hinv as [Hok H0 Hn Hb]. unfold pruneMemoryAuditEvents in Hp.
  rewrite (proj2 (auditIntegrityError_None log) Hok) in Hp.
  unfold auditRetentionPrefixLength in Hp.
  destruct (retentionLoop _ _ _ _) as [k|] eqn:Hr.
  2:{ injection Hp as <- <-. right. eauto using retentionLoop_none. }
  left. destruct (retentionLoop_spec _ _ _ _ _ Hr) as (pre & suf & Hes & -> & _ & H1 & H2).
  exists pre, suf. simpl in Hp. destruct log as [es st]; simpl in *. subst es.
  destruct pre as [|e0 pre0] eqn:Hpre; [simpl in *; by simplify_eq|].
  destruct (last pre) as [e|] eqn:Hlast; [|by apply last_None in Hlast; subst].
  rewrite <- Hpre in *. assert (length pre = S (length pre0)) as Hlen by by subst.
  assert (nth (length pre0) (pre ++ suf) zero_AuditEvent = e) as Hnth.
  { apply nth_lookup_Some. rewrite lookup_app_l by lia. rewrite last_lookup, Hlen in Hlast. done. }
  assert (AuditEvent_Sequence e = acs_CheckpointSequence st + Z.of_nat (length pre))%Z as Hseq.
  { rewrite length_app in Hn.
    assert ((pre ++ suf) !! length pre0 = Some e) as Hi.
    { rewrite lookup_app_l by lia. rewrite last_lookup, Hlen in Hlast. done. }
    pose proof (ok_chained _ Hok) as Hc; simpl in Hc.
    rewrite wrap64_id in Hc by (unfold int64; lia).
    pose proof (chained_sequence _ _ _ (length pre0) e Hc ltac:(lia)
      ltac:(rewrite length_app; lia) Hi). lia. }
  assert (audit_ok (mkAuditLog suf (mkAuditChainState AuditHashAlgorithmSHA256V1
    (acs_LatestSequence st) (acs_LatestEventHash st) (AuditEvent_Sequence e)
    (AuditEvent_EventHash e) (AuditEvent_CreatedAt e)))) as Hok' by (eapply audit_ok_drop; eauto; lia).
  rewrite Hlen in Hp. simpl in Hp. rewrite Hnth in Hp.
  replace (drop (S (length pre0)) (pre ++ suf)) with suf in Hp by (by rewrite <- Hlen, drop_app_length).
  verified_by Hok' Hp.
  injection Hp as <- <-. simpl. rewrite Hlen.
  repeat (split; [done|]). split; [|done].
  split; simpl; [exact Hok'|lia| |lia]. rewrite length_app in Hn. lia.
Qed.

(** ** Reachable logs *)

(** Any call of the two operations that change the log, whatever it returns. *)
Inductive audit_step : AuditLog → AuditLog → Prop :=
| step_append event log : audit_step log (appendMemoryAuditEvent event log).2
| step_prune before log : audit_step log (pruneMemoryAuditEvents before log).2.

Lemma audit_step_inv log log' : audit_inv log → audit_step log log' → audit_inv log'.
Proof.
  intros Hinv Hs. destruct Hs as [event log|before log].
  - destruct (appendMemoryAuditEvent event log) as [r log'] eqn:E; simpl.
    by destruct (append_cases _ _ _ _ Hinv E) as [(_ & ? & _)|(-> & _)].
  - destruct (pruneMemoryAuditEvents before log) as [r log'] eqn:E; simpl.
    by destruct (prune_cases _ _ _ _ Hinv E) as [(? & ? & _ & _ & _ & _ & _ & ? & _)|(-> & _)].
Qed.

Lemma audit_reachable_inv log : rtc audit_step emptyAuditLog log → audit_inv log.
Proof.
  assert (∀ l, audit_inv l → rtc audit_step l log → audit_inv log) as Hgen.
  { intros l Hl Hr. induction Hr; eauto using audit_step_inv. }
  apply Hgen, audit_inv_empty.
Qed.

(** ** Tamper evidence *)





(** ** Properties *)

(** Appending to a log that satisfies the chain invariant either stores
    the event at the end, with the next sequence number, the previous latest
    hash and its own SHA-256, and keeps the invariant, or returns an error and
    leaves the log as it was, only because the sequence is exhausted or the
    payload cannot be encoded. *)
Theorem append_preserves_chain log event r log' :
  audit_inv log → appendMemoryAuditEvent event log = (r, log') →
  (r = Ok tt ∧ audit_inv log' ∧ ∃ h,
     auditEventHash (acs_LatestEventHash (log_state log)) (prepared_event log event) = Ok h ∧
     log_events log' = log_events log ++ [AuditEvent_with_EventHash h (prepared_event log event)] ∧
     acs_LatestEventHash (log_state log') = h) ∨
  (log' = log ∧ is_ok r = false ∧
    (acs_LatestSequence (log_state log) = 2 ^ 63 - 1 ∨
     is_ok (auditPayload (prepared_event log event)) = false)%Z).
Proof. apply append_cases. Qed.

(** Pruning a log that satisfies the chain invariant deletes exactly the
    events older than the cutoff when they form a prefix (moving the
    checkpoint so that the rest still verifies and the latest event is
    unchanged), and otherwise fails without changing the log. *)
Theorem prune_preserves_chain log before r log' :
  audit_inv log → pruneMemoryAuditEvents before log = (r, log') →
  (∃ pre suf, log_events log = pre ++ suf ∧ r = Ok (length pre) ∧ log_events log' = suf ∧
     Forall (λ e, Before (AuditEvent_CreatedAt e) before = true) pre ∧
     Forall (λ e, Before (AuditEvent_CreatedAt e) before = false) suf ∧
     audit_inv log' ∧
     acs_LatestSequence (log_state log') = acs_LatestSequence (log_state log) ∧
     acs_LatestEventHash (log_state log') = acs_LatestEventHash (log_state log)) ∨
  (log' = log ∧ r = Err (EWrap "retention_cutoff_non_prefix" ErrAuditIntegrity) ∧
   ¬ ∃ pre suf, log_events log = pre ++ suf ∧
     Forall (λ e, Before (AuditEvent_CreatedAt e) before = true) pre ∧
     Forall (λ e, Before (AuditEvent_CreatedAt e) before = false) suf).
Proof. apply prune_cases. Qed.

(** Whatever sequence of appends and prunes ran since the empty log, and
    whether they succeeded or not, [verifyAuditState] reports a valid chain. *)
Theorem audit_reachable_verifies log :
  rtc audit_step emptyAuditLog log →
  AuditIntegrity_Valid (verifyAuditState (log_events log) (log_state log)) = true.
Proof. intros Hr. apply verifyAuditState_valid. by apply audit_reachable_inv in Hr as []. Qed.

End Chain.

(** ** Witnesses *)

(** A codec for evaluation: metadata is taken as already canonical, and a
    payload is its fields separated by newlines. *)
Definition plain_codec : GoCodec := {|
  json_canonical s := if s =s "" then None else Some s;
  json_hash_payload p := Some (String.concat (bytes_str [10])
    [ahp_HashAlgorithm p; hex_encode (be_bytes 8 (ahp_Sequence p)); ahp_ID p; ahp_Actor p;
     ahp_Action p; ahp_ResourceType p; ahp_ResourceID p; ahp_Metadata p; ahp_CreatedAt p]);
  json_fields _ := Some "{}";
  format_RFC3339 t := hex_encode (be_bytes 12 t);
  format_RFC3339Nano t := hex_encode (be_bytes 12 t);
|}.
#[local] Existing Instance plain_codec.

Definition sample_event (id : string) (t : Time) : AuditEvent :=
  mkAuditEvent id 0 "operator" "identity.created" "identity" id "{}" "" "" "" t.

Abbreviation sample_log :=
  (appendMemoryAuditEvent (sample_event "e2" 20)
    (appendMemoryAuditEvent (sample_event "e1" 10) emptyAuditLog).2).2 (only parsing).

Lemma two_appends_reachable e1 e2 :
  rtc audit_step emptyAuditLog
    (appendMemoryAuditEvent e2 (appendMemoryAuditEvent e1 emptyAuditLog).2).2.
Proof.
  eapply rtc_l; [apply step_append|]. eapply rtc_l; [apply step_append|]. apply rtc_refl.
Qed.

Lemma append_preserves_chain_witness :
  is_ok (appendMemoryAuditEvent (sample_event "e3" 30) sample_log).1 = true ∧
  ∃ r log', appendMemoryAuditEvent (sample_event "e3" 30) sample_log = (r, log') ∧
    (audit_inv log' ∨ log' = sample_log).
Proof.
  split; [vm_compute; reflexivity|].
  destruct (appendMemoryAuditEvent (sample_event "e3" 30) sample_log) as [r log'] eqn:E.
  exists r, log'. split; [reflexivity|].
  destruct (append_preserves_chain _ _ r log'
    (audit_reachable_inv _ (two_appends_reachable _ _)) E) as [(_ & Hi & _)|(Hi & _)];
    [left|right]; exact Hi.
Defined.

Lemma prune_preserves_chain_witness :
  (pruneMemoryAuditEvents 15 sample_log).1 = Ok 1 ∧
  ∃ r log', pruneMemoryAuditEvents 15 sample_log = (r, log') ∧ (audit_inv log' ∨ log' = sample_log).
Proof.
  split; [vm_compute; reflexivity|].
  destruct (pruneMemoryAuditEvents 15 sample_log) as [r log'] eqn:E.
  exists r, log'. split; [reflexivity|].
  destruct (prune_preserves_chain _ _ r log'
    (audit_reachable_inv _ (two_appends_reachable _ _)) E)
    as [(pre & suf & _ & _ & _ & _ & _ & Hi & _)|(Hi & _)]; [left|right]; exact Hi.
Defined.

Lemma audit_reachable_verifies_witness :
  AuditIntegrity_Valid (verifyAuditState (log_events sample_log) (log_state sample_log)) = true.
Proof. exact (audit_reachable_verifies _ (two_appends_reachable _ _)). Defined.

