(* ===== verification/Store.v ===== *)
(** * The in-memory repository ([store/memory.go], [store/store.go])

    [MemoryStore] holds one Go map per entity and the audit log. Every method
    of the [Repository] interface is a [GoM MemoryStore] action of the same
    name; [memoryTx], which has the same fields and the same method bodies, is
    the same record, and [WithinTx] commits or discards it as a whole.

    Slices and structs are values here, so the defensive copies of the source
    ([copyX], [cloneX]) are the identity. A Go map is a [gmap]; a loop over a
    map visits its values in some order, modelled by [map_values], and
    functions whose result could depend on that order take the visited list as
    an argument ([order_independent] lemmas show when it does not matter). *)

From S2P Require Import Prelude GoLib Crypto Domain AuditChain.

Record MemoryStore := mkMemoryStore {
  ms_identities : gmap string Identity;
  ms_issuers : gmap string Issuer;
  ms_ocspResponders : gmap string OCSPResponder;
  ms_notifications : gmap string NotificationEndpoint;
  ms_profiles : gmap string CertificateProfile;
  ms_enrollments : gmap string Enrollment;
  ms_certificates : gmap string Certificate;
  ms_issuanceAttempts : gmap string IssuanceAttempt;
  ms_revocations : gmap string Revocation;
  ms_crls : gmap string CRLPublication;
  ms_crlClaims : gmap string CRLGenerationClaim;
  ms_audit : AuditLog;
  ms_outbox : gmap string OutboxMessage;
  ms_jobAttempts : gmap string JobAttempt;
  ms_webhookDeliveries : gmap string WebhookDelivery;
  ms_apiKeys : gmap string APIKey;
  ms_acmeAccounts : gmap string ACMEAccount;
  ms_acmeOrders : gmap string ACMEOrder;
  ms_acmeAuthzs : gmap string ACMEAuthorization;
  ms_acmeChallenges : gmap string ACMEChallenge;
}.

Definition NewMemoryStore : MemoryStore :=
  mkMemoryStore ∅ ∅ ∅ ∅ ∅ ∅ ∅ ∅ ∅ ∅ ∅ emptyAuditLog ∅ ∅ ∅ ∅ ∅ ∅ ∅ ∅.

Definition set_identities (v : gmap string Identity) (s : MemoryStore) : MemoryStore :=
  mkMemoryStore v (ms_issuers s) (ms_ocspResponders s) (ms_notifications s) (ms_profiles
    s) (ms_enrollments s) (ms_certificates s) (ms_issuanceAttempts s) (ms_revocations s)
    (ms_crls s) (ms_crlClaims s) (ms_audit s) (ms_outbox s) (ms_jobAttempts s)
    (ms_webhookDeliveries s) (ms_apiKeys s) (ms_acmeAccounts s) (ms_acmeOrders s)
    (ms_acmeAuthzs s) (ms_acmeChallenges s).
Definition set_issuers (v : gmap string Issuer) (s : MemoryStore) : MemoryStore :=
  mkMemoryStore (ms_identities s) v (ms_ocspResponders s) (ms_notifications s)
    (ms_profiles s) (ms_enrollments s) (ms_certificates s) (ms_issuanceAttempts s)
    (ms_revocations s) (ms_crls s) (ms_crlClaims s) (ms_audit s) (ms_outbox s)
    (ms_jobAttempts s) (ms_webhookDeliveries s) (ms_apiKeys s) (ms_acmeAccounts s)
    (ms_acmeOrders s) (ms_acmeAuthzs s) (ms_acmeChallenges s).
Definition set_ocspResponders (v : gmap string OCSPResponder) (s : MemoryStore) : MemoryStore :=
  mkMemoryStore (ms_identities s) (ms_issuers s) v (ms_notifications s) (ms_profiles s)
    (ms_enrollments s) (ms_certificates s) (ms_issuanceAttempts s) (ms_revocations s)
    (ms_crls s) (ms_crlClaims s) (ms_audit s) (ms_outbox s) (ms_jobAttempts s)
    (ms_webhookDeliveries s) (ms_apiKeys s) (ms_acmeAccounts s) (ms_acmeOrders s)
    (ms_acmeAuthzs s) (ms_acmeChallenges s).
Definition set_notifications (v : gmap string NotificationEndpoint) (s : MemoryStore) : MemoryStore :=
  mkMemoryStore (ms_identities s) (ms_issuers s) (ms_ocspResponders s) v (ms_profiles s)
    (ms_enrollments s) (ms_certificates s) (ms_issuanceAttempts s) (ms_revocations s)
    (ms_crls s) (ms_crlClaims s) (ms_audit s) (ms_outbox s) (ms_jobAttempts s)
    (ms_webhookDeliveries s) (ms_apiKeys s) (ms_acmeAccounts s) (ms_acmeOrders s)
    (ms_acmeAuthzs s) (ms_acmeChallenges s).
Definition set_profiles (v : gmap string CertificateProfile) (s : MemoryStore) : MemoryStore :=
  mkMemoryStore (ms_identities s) (ms_issuers s) (ms_ocspResponders s) (ms_notifications
    s) v (ms_enrollments s) (ms_certificates s) (ms_issuanceAttempts s) (ms_revocations s)
    (ms_crls s) (ms_crlClaims s) (ms_audit s) (ms_outbox s) (ms_jobAttempts s)
    (ms_webhookDeliveries s) (ms_apiKeys s) (ms_acmeAccounts s) (ms_acmeOrders s)
    (ms_acmeAuthzs s) (ms_acmeChallenges s).
Definition set_enrollments (v : gmap string Enrollment) (s : MemoryStore) : MemoryStore :=
  mkMemoryStore (ms_identities s) (ms_issuers s) (ms_ocspResponders s) (ms_notifications
    s) (ms_profiles s) v (ms_certificates s) (ms_issuanceAttempts s) (ms_revocations s)
    (ms_crls s) (ms_crlClaims s) (ms_audit s) (ms_outbox s) (ms_jobAttempts s)
    (ms_webhookDeliveries s) (ms_apiKeys s) (ms_acmeAccounts s) (ms_acmeOrders s)
    (ms_acmeAuthzs s) (ms_acmeChallenges s).
Definition set_certificates (v : gmap string Certificate) (s : MemoryStore) : MemoryStore :=
  mkMemoryStore (ms_identities s) (ms_issuers s) (ms_ocspResponders s) (ms_notifications
    s) (ms_profiles s) (ms_enrollments s) v (ms_issuanceAttempts s) (ms_revocations s)
    (ms_crls s) (ms_crlClaims s) (ms_audit s) (ms_outbox s) (ms_jobAttempts s)
    (ms_webhookDeliveries s) (ms_apiKeys s) (ms_acmeAccounts s) (ms_acmeOrders s)
    (ms_acmeAuthzs s) (ms_acmeChallenges s).
Definition set_issuanceAttempts (v : gmap string IssuanceAttempt) (s : MemoryStore) : MemoryStore :=
  mkMemoryStore (ms_identities s) (ms_issuers s) (ms_ocspResponders s) (ms_notifications
    s) (ms_profiles s) (ms_enrollments s) (ms_certificates s) v (ms_revocations s)
    (ms_crls s) (ms_crlClaims s) (ms_audit s) (ms_outbox s) (ms_jobAttempts s)
    (ms_webhookDeliveries s) (ms_apiKeys s) (ms_acmeAccounts s) (ms_acmeOrders s)
    (ms_acmeAuthzs s) (ms_acmeChallenges s).
Definition set_revocations (v : gmap string Revocation) (s : MemoryStore) : MemoryStore :=
  mkMemoryStore (ms_identities s) (ms_issuers s) (ms_ocspResponders s) (ms_notifications
    s) (ms_profiles s) (ms_enrollments s) (ms_certificates s) (ms_issuanceAttempts s) v
    (ms_crls s) (ms_crlClaims s) (ms_audit s) (ms_outbox s) (ms_jobAttempts s)
    (ms_webhookDeliveries s) (ms_apiKeys s) (ms_acmeAccounts s) (ms_acmeOrders s)
    (ms_acmeAuthzs s) (ms_acmeChallenges s).
Definition set_crls (v : gmap string CRLPublication) (s : MemoryStore) : MemoryStore :=
  mkMemoryStore (ms_identities s) (ms_issuers s) (ms_ocspResponders s) (ms_notifications
    s) (ms_profiles s) (ms_enrollments s) (ms_certificates s) (ms_issuanceAttempts s)
    (ms_revocations s) v (ms_crlClaims s) (ms_audit s) (ms_outbox s) (ms_jobAttempts s)
    (ms_webhookDeliveries s) (ms_apiKeys s) (ms_acmeAccounts s) (ms_acmeOrders s)
    (ms_acmeAuthzs s) (ms_acmeChallenges s).
Definition set_crlClaims (v : gmap string CRLGenerationClaim) (s : MemoryStore) : MemoryStore :=
  mkMemoryStore (ms_identities s) (ms_issuers s) (ms_ocspResponders s) (ms_notifications
    s) (ms_profiles s) (ms_enrollments s) (ms_certificates s) (ms_issuanceAttempts s)
    (ms_revocations s) (ms_crls s) v (ms_audit s) (ms_outbox s) (ms_jobAttempts s)
    (ms_webhookDeliveries s) (ms_apiKeys s) (ms_acmeAccounts s) (ms_acmeOrders s)
    (ms_acmeAuthzs s) (ms_acmeChallenges s).
Definition set_audit (v : AuditLog) (s : MemoryStore) : MemoryStore :=
  mkMemoryStore (ms_identities s) (ms_issuers s) (ms_ocspResponders s) (ms_notifications
    s) (ms_profiles s) (ms_enrollments s) (ms_certificates s) (ms_issuanceAttempts s)
    (ms_revocations s) (ms_crls s) (ms_crlClaims s) v (ms_outbox s) (ms_jobAttempts s)
    (ms_webhookDeliveries s) (ms_apiKeys s) (ms_acmeAccounts s) (ms_acmeOrders s)
    (ms_acmeAuthzs s) (ms_acmeChallenges s).
Definition set_outbox (v : gmap string OutboxMessage) (s : MemoryStore) : MemoryStore :=
  mkMemoryStore (ms_identities s) (ms_issuers s) (ms_ocspResponders s) (ms_notifications
    s) (ms_profiles s) (ms_enrollments s) (ms_certificates s) (ms_issuanceAttempts s)
    (ms_revocations s) (ms_crls s) (ms_crlClaims s) (ms_audit s) v (ms_jobAttempts s)
    (ms_webhookDeliveries s) (ms_apiKeys s) (ms_acmeAccounts s) (ms_acmeOrders s)
    (ms_acmeAuthzs s) (ms_acmeChallenges s).
Definition set_jobAttempts (v : gmap string JobAttempt) (s : MemoryStore) : MemoryStore :=
  mkMemoryStore (ms_identities s) (ms_issuers s) (ms_ocspResponders s) (ms_notifications
    s) (ms_profiles s) (ms_enrollments s) (ms_certificates s) (ms_issuanceAttempts s)
    (ms_revocations s) (ms_crls s) (ms_crlClaims s) (ms_audit s) (ms_outbox s) v
    (ms_webhookDeliveries s) (ms_apiKeys s) (ms_acmeAccounts s) (ms_acmeOrders s)
    (ms_acmeAuthzs s) (ms_acmeChallenges s).
Definition set_webhookDeliveries (v : gmap string WebhookDelivery) (s : MemoryStore) : MemoryStore :=
  mkMemoryStore (ms_identities s) (ms_issuers s) (ms_ocspResponders s) (ms_notifications
    s) (ms_profiles s) (ms_enrollments s) (ms_certificates s) (ms_issuanceAttempts s)
    (ms_revocations s) (ms_crls s) (ms_crlClaims s) (ms_audit s) (ms_outbox s)
    (ms_jobAttempts s) v (ms_apiKeys s) (ms_acmeAccounts s) (ms_acmeOrders s)
    (ms_acmeAuthzs s) (ms_acmeChallenges s).
Definition set_apiKeys (v : gmap string APIKey) (s : MemoryStore) : MemoryStore :=
  mkMemoryStore (ms_identities s) (ms_issuers s) (ms_ocspResponders s) (ms_notifications
    s) (ms_profiles s) (ms_enrollments s) (ms_certificates s) (ms_issuanceAttempts s)
    (ms_revocations s) (ms_crls s) (ms_crlClaims s) (ms_audit s) (ms_outbox s)
    (ms_jobAttempts s) (ms_webhookDeliveries s) v (ms_acmeAccounts s) (ms_acmeOrders s)
    (ms_acmeAuthzs s) (ms_acmeChallenges s).
Definition set_acmeAccounts (v : gmap string ACMEAccount) (s : MemoryStore) : MemoryStore :=
  mkMemoryStore (ms_identities s) (ms_issuers s) (ms_ocspResponders s) (ms_notifications
    s) (ms_profiles s) (ms_enrollments s) (ms_certificates s) (ms_issuanceAttempts s)
    (ms_revocations s) (ms_crls s) (ms_crlClaims s) (ms_audit s) (ms_outbox s)
    (ms_jobAttempts s) (ms_webhookDeliveries s) (ms_apiKeys s) v (ms_acmeOrders s)
    (ms_acmeAuthzs s) (ms_acmeChallenges s).
Definition set_acmeOrders (v : gmap string ACMEOrder) (s : MemoryStore) : MemoryStore :=
  mkMemoryStore (ms_identities s) (ms_issuers s) (ms_ocspResponders s) (ms_notifications
    s) (ms_profiles s) (ms_enrollments s) (ms_certificates s) (ms_issuanceAttempts s)
    (ms_revocations s) (ms_crls s) (ms_crlClaims s) (ms_audit s) (ms_outbox s)
    (ms_jobAttempts s) (ms_webhookDeliveries s) (ms_apiKeys s) (ms_acmeAccounts s) v
    (ms_acmeAuthzs s) (ms_acmeChallenges s).
Definition set_acmeAuthzs (v : gmap string ACMEAuthorization) (s : MemoryStore) : MemoryStore :=
  mkMemoryStore (ms_identities s) (ms_issuers s) (ms_ocspResponders s) (ms_notifications
    s) (ms_profiles s) (ms_enrollments s) (ms_certificates s) (ms_issuanceAttempts s)
    (ms_revocations s) (ms_crls s) (ms_crlClaims s) (ms_audit s) (ms_outbox s)
    (ms_jobAttempts s) (ms_webhookDeliveries s) (ms_apiKeys s) (ms_acmeAccounts s)
    (ms_acmeOrders s) v (ms_acmeChallenges s).
Definition set_acmeChallenges (v : gmap string ACMEChallenge) (s : MemoryStore) : MemoryStore :=
  mkMemoryStore (ms_identities s) (ms_issuers s) (ms_ocspResponders s) (ms_notifications
    s) (ms_profiles s) (ms_enrollments s) (ms_certificates s) (ms_issuanceAttempts s)
    (ms_revocations s) (ms_crls s) (ms_crlClaims s) (ms_audit s) (ms_outbox s)
    (ms_jobAttempts s) (ms_webhookDeliveries s) (ms_apiKeys s) (ms_acmeAccounts s)
    (ms_acmeOrders s) (ms_acmeAuthzs s) v.

(** ** Tables *)

Definition Mem (A : Type) := GoM MemoryStore A.

(** [v, ok := m[id]; if !ok { return err }] *)
Definition lookupRow {V} (m : gmap string V) (id : string) (err : DomainErr) : res V :=
  match m !! id with
  | Some v => Ok v
  | None => Err err
  end.

(** Read a row of a table. *)
Definition getRow {V} (tbl : MemoryStore → gmap string V) (id : string) (err : DomainErr) : Mem V :=
  λ s, (lookupRow (tbl s) id err, s).

(** Replace a table by the result of an update, or report its error. *)
Definition putRows {V} (tbl : MemoryStore → gmap string V)
    (set : gmap string V → MemoryStore → MemoryStore)
    (f : gmap string V → res (gmap string V)) : Mem unit := λ s,
  match f (tbl s) with
  | Ok m => (Ok tt, set m s)
  | Err e => (Err e, s)
  end.

(** A pure query over the store. *)
Definition query {A} (f : MemoryStore → A) : Mem A := getM f.

(** The compare-and-set shape shared by every [update...If...] function: the
    row must exist and still be the one the caller read. *)
Definition updateIf {V} (id : string) (notFound : DomainErr) (isCurrent : V → bool) (new : V)
    (m : gmap string V) : res (gmap string V) :=
  let! stored := lookupRow m id notFound in
  do! check_not (negb (isCurrent stored)) ErrInvalidTransition in
  Ok (<[id := new]> m).

(** ** Reading one row out of many

    [scan] is the first element of an iteration that satisfies a test. *)
Definition scan {V} (f : V → bool) (order : list V) (err : DomainErr) : res V :=
  match list_find (λ v, f v = true) order with
  | Some (_, v) => Ok v
  | None => Err err
  end.

(** Sort by creation time, then identifier. *)
Definition listBy {V} (f : V → bool) (createdAt : V → Time) (id : V → string)
    (order : list V) : list V :=
  go_sort (key_less createdAt id) (filter (λ v, f v = true) order).

(** [result[offset:]]: Go panics on a negative or too large bound. *)
Definition sliceFrom {V} (offset : Z) (l : list V) : res (list V) :=
  if Z.ltb offset 0 || Z.ltb (Z.of_nat (length l)) offset
  then Err (EText "panic: slice bounds out of range")
  else Ok (drop (Z.to_nat offset) l).

(** [if limit > 0 && len(result) > limit { result = result[:limit] }] *)
Definition limitTo {V} (limit : Z) (l : list V) : list V :=
  if Z.ltb 0 limit then take (Z.to_nat limit) l else l.

(** ** Identities and issuers *)

Definition CreateIdentity (identity : Identity) : Mem unit :=
  putRows ms_identities set_identities (λ m, Ok (<[Identity_ID identity := identity]> m)).
Definition GetIdentity (id : string) : Mem Identity :=
  getRow ms_identities id ErrIdentityNotFound.
Definition ListIdentities : Mem (list Identity) := query (λ s, map_values (ms_identities s)).

Definition CreateIssuer (issuer : Issuer) : Mem unit :=
  putRows ms_issuers set_issuers (λ m, Ok (<[Issuer_ID issuer := issuer]> m)).
Definition GetIssuer (id : string) : Mem Issuer := getRow ms_issuers id ErrIssuerNotFound.
Definition ListIssuers : Mem (list Issuer) := query (λ s, map_values (ms_issuers s)).

(** ** OCSP responders *)

Definition isActiveResponderOf (issuerID : string) (r : OCSPResponder) : bool :=
  (OCSPResponder_IssuerID r =s issuerID) && (OCSPResponder_Status r =s OCSPResponderActive).

(** The loop keeps the most recently created active responder, the greatest
    identifier among those created at the same time. *)
Definition activeOCSPResponderByIssuer (order : list OCSPResponder) (issuerID : string)
  : res OCSPResponder :=
  let pick (acc : option OCSPResponder) (r : OCSPResponder) :=
    if negb (isActiveResponderOf issuerID r) then acc
    else match acc with
      | None => Some r
      | Some active =>
          if After (OCSPResponder_CreatedAt r) (OCSPResponder_CreatedAt active)
             || (TimeEqual (OCSPResponder_CreatedAt r) (OCSPResponder_CreatedAt active)
                 && (OCSPResponder_ID active <s OCSPResponder_ID r))
          then Some r else acc
      end in
  match fold_left pick order None with
  | Some active => Ok active
  | None => Err ErrOCSPResponderNotFound
  end.

Definition listOCSPRespondersByIssuer (order : list OCSPResponder) (issuerID : string)
  : list OCSPResponder :=
  listBy (λ r, OCSPResponder_IssuerID r =s issuerID) OCSPResponder_CreatedAt OCSPResponder_ID order.

Definition updateOCSPResponderIfStatus (responder : OCSPResponder)
    (currentStatus : OCSPResponderStatus) (m : gmap string OCSPResponder)
  : res (gmap string OCSPResponder) :=
  let! current := lookupRow m (OCSPResponder_ID responder) ErrOCSPResponderNotFound in
  do! check_not (OCSPResponder_Status current <>s currentStatus) ErrInvalidTransition in
  do! check_not
    ((OCSPResponder_Status responder =s OCSPResponderActive) &&
     match activeOCSPResponderByIssuer (map_values m) (OCSPResponder_IssuerID responder) with
     | Ok active => OCSPResponder_ID active <>s OCSPResponder_ID responder
     | Err _ => false
     end) ErrInvalidTransition in
  Ok (<[OCSPResponder_ID responder := responder]> m).

Definition CreateOCSPResponder (responder : OCSPResponder) : Mem unit :=
  putRows ms_ocspResponders set_ocspResponders (λ m,
    do! check_not
      ((OCSPResponder_Status responder =s OCSPResponderActive) &&
       is_ok (activeOCSPResponderByIssuer (map_values m) (OCSPResponder_IssuerID responder)))
      ErrInvalidTransition in
    Ok (<[OCSPResponder_ID responder := responder]> m)).
Definition GetOCSPResponder (id : string) : Mem OCSPResponder :=
  getRow ms_ocspResponders id ErrOCSPResponderNotFound.
Definition ListOCSPRespondersByIssuer (issuerID : string) : Mem (list OCSPResponder) :=
  query (λ s, listOCSPRespondersByIssuer (map_values (ms_ocspResponders s)) issuerID).
Definition GetActiveOCSPResponderByIssuer (issuerID : string) : Mem OCSPResponder :=
  λ s, (activeOCSPResponderByIssuer (map_values (ms_ocspResponders s)) issuerID, s).
Definition UpdateOCSPResponderIfStatus (responder : OCSPResponder)
    (currentStatus : OCSPResponderStatus) : Mem unit :=
  putRows ms_ocspResponders set_ocspResponders (updateOCSPResponderIfStatus responder currentStatus).

(** ** Notification endpoints *)

Definition listNotificationEndpoints (order : list NotificationEndpoint) : list NotificationEndpoint :=
  listBy (λ _, true) NotificationEndpoint_CreatedAt NotificationEndpoint_ID order.
Definition updateNotificationEndpointIfStatus (endpoint : NotificationEndpoint)
    (currentStatus : NotificationEndpointStatus) :=
  updateIf (NotificationEndpoint_ID endpoint) ErrNotificationEndpointNotFound
    (λ current, NotificationEndpoint_Status current =s currentStatus) endpoint.

Definition CreateNotificationEndpoint (endpoint : NotificationEndpoint) : Mem unit :=
  putRows ms_notifications set_notifications
    (λ m, Ok (<[NotificationEndpoint_ID endpoint := endpoint]> m)).
Definition GetNotificationEndpoint (id : string) : Mem NotificationEndpoint :=
  getRow ms_notifications id ErrNotificationEndpointNotFound.
Definition ListNotificationEndpoints : Mem (list NotificationEndpoint) :=
  query (λ s, listNotificationEndpoints (map_values (ms_notifications s))).
Definition UpdateNotificationEndpointIfStatus (endpoint : NotificationEndpoint)
    (currentStatus : NotificationEndpointStatus) : Mem unit :=
  putRows ms_notifications set_notifications
    (updateNotificationEndpointIfStatus endpoint currentStatus).

(** ** Certificate profiles *)

Definition updateCertificateProfileIssuerIfCurrent (profile : CertificateProfile)
    (currentIssuerID : string) (currentUpdatedAt : Time) :=
  updateIf (CertificateProfile_ID profile) ErrCertificateProfileNotFound
    (λ stored, (CertificateProfile_IssuerID stored =s currentIssuerID)
               && TimeEqual (CertificateProfile_UpdatedAt stored) currentUpdatedAt) profile.

Definition CreateCertificateProfile (profile : CertificateProfile) : Mem unit :=
  putRows ms_profiles set_profiles (λ m, Ok (<[CertificateProfile_ID profile := profile]> m)).
Definition GetCertificateProfile (id : string) : Mem CertificateProfile :=
  getRow ms_profiles id ErrCertificateProfileNotFound.
Definition ListCertificateProfiles : Mem (list CertificateProfile) :=
  query (λ s, map_values (ms_profiles s)).
Definition UpdateCertificateProfileIssuerIfCurrent (profile : CertificateProfile)
    (currentIssuerID : string) (currentUpdatedAt : Time) : Mem unit :=
  putRows ms_profiles set_profiles
    (updateCertificateProfileIssuerIfCurrent profile currentIssuerID currentUpdatedAt).

(** ** Enrollments *)

Definition updateEnrollmentIfStatus (enrollment : Enrollment) (currentStatus : EnrollmentStatus) :=
  updateIf (Enrollment_ID enrollment) ErrEnrollmentNotFound
    (λ current, Enrollment_Status current =s currentStatus) enrollment.

Definition CreateEnrollment (enrollment : Enrollment) : Mem unit :=
  putRows ms_enrollments set_enrollments (λ m, Ok (<[Enrollment_ID enrollment := enrollment]> m)).
Definition GetEnrollment (id : string) : Mem Enrollment :=
  getRow ms_enrollments id ErrEnrollmentNotFound.
Definition ListEnrollments : Mem (list Enrollment) := query (λ s, map_values (ms_enrollments s)).
Definition UpdateEnrollment (enrollment : Enrollment) : Mem unit :=
  putRows ms_enrollments set_enrollments
    (updateIf (Enrollment_ID enrollment) ErrEnrollmentNotFound (λ _, true) enrollment).
Definition UpdateEnrollmentIfStatus (enrollment : Enrollment) (currentStatus : EnrollmentStatus)
  : Mem unit :=
  putRows ms_enrollments set_enrollments (updateEnrollmentIfStatus enrollment currentStatus).

(** ** Certificates *)

(** The row [existing] takes a key that [certificate] must own alone. *)
Definition finalizationKeyConflict (certificate existing : Certificate) : bool :=
  (Certificate_ID existing <>s Certificate_ID certificate) &&
  (((Certificate_EnrollmentID certificate <>s "")
    && (Certificate_EnrollmentID existing =s Certificate_EnrollmentID certificate))
   || ((Certificate_IssuerID certificate <>s "") && (Certificate_SerialNumber certificate <>s "")
       && (Certificate_IssuerID existing =s Certificate_IssuerID certificate)
       && (Certificate_SerialNumber existing =s Certificate_SerialNumber certificate))).

Definition ensureCertificateFinalizationKeysAvailable (order : list Certificate)
    (certificate : Certificate) : res unit :=
  for_checks order (λ existing,
    check_not (finalizationKeyConflict certificate existing) ErrInvalidTransition).

Definition certificateByEnrollmentID (order : list Certificate) (enrollmentID : string)
  : res Certificate :=
  scan (λ c, Certificate_EnrollmentID c =s enrollmentID) order ErrCertificateNotFound.

Definition updateCertificateIfStatus (certificate : Certificate)
    (currentStatus : CertificateStatus) :=
  updateIf (Certificate_ID certificate) ErrCertificateNotFound
    (λ current, Certificate_Status current =s currentStatus) certificate.

Definition certificateNeedsExpirationScan (certificate : Certificate) (now warningBefore : Time)
  : bool :=
  (((Certificate_Status certificate =s CertificateValid)
    || (Certificate_Status certificate =s CertificateSuspended))
   && negb (After (Certificate_NotAfter certificate) now))
  || ((Certificate_Status certificate =s CertificateValid)
      && After (Certificate_NotAfter certificate) now
      && negb (After (Certificate_NotAfter certificate) warningBefore)
      && IsZero (Certificate_RenewalNotifiedAt certificate)).

Definition listCertificatesForExpirationScan (order : list Certificate)
    (now warningBefore : Time) (limit : Z) : list Certificate :=
  if Z.leb limit 0 then []
  else take (Z.to_nat limit)
    (listBy (λ c, certificateNeedsExpirationScan c now warningBefore)
       Certificate_NotAfter Certificate_ID order).

Definition listCertificatesExpiringWithin (order : list Certificate) (now cutoff : Time)
    (limit offset : Z) : res (list Certificate) :=
  let result := listBy (λ c, (Certificate_Status c =s CertificateValid)
      && After (Certificate_NotAfter c) now && negb (After (Certificate_NotAfter c) cutoff))
    Certificate_NotAfter Certificate_ID order in
  if Z.leb (Z.of_nat (length result)) offset then Ok []
  else let! result := sliceFrom offset result in Ok (limitTo limit result).

Record CertificateInventoryFilter := mkCertificateInventoryFilter {
  cif_Owner : string;
  cif_Team : string;
  cif_Service : string;
  cif_Environment : string;
  cif_IssuerID : string;
  cif_ProfileID : string;
  cif_RevocationState : string;
  cif_Sort : string;
  cif_Limit : Z;
  cif_Offset : Z;
}.

Record CertificateInventoryRecord := mkCertificateInventoryRecord {
  cir_Certificate : Certificate;
  cir_Identity : Identity;
  cir_Issuer : Issuer;
}.

(** [filter.F != "" && value != filter.F] *)
Definition excludedBy (filter value : string) : bool := (filter <>s "") && (value <>s filter).

Definition certificateInventoryRecordMatches (certificate : Certificate) (identity : Identity)
    (f : CertificateInventoryFilter) : bool :=
  negb (excludedBy (cif_Owner f) (Identity_Owner identity)
        || excludedBy (cif_Team f) (Identity_Team identity)
        || excludedBy (cif_Service f) (Identity_Service identity)
        || excludedBy (cif_Environment f) (Identity_Environment identity)
        || excludedBy (cif_IssuerID f) (Certificate_IssuerID certificate)
        || excludedBy (cif_ProfileID f) (Certificate_CertificateProfileID certificate)
        || excludedBy (cif_RevocationState f) (Certificate_Status certificate)).

Definition inventory_less (sort : string) (x y : CertificateInventoryRecord) : bool :=
  if sort =s "desc"
  then Certificate_ID (cir_Certificate y) <s Certificate_ID (cir_Certificate x)
  else Certificate_ID (cir_Certificate x) <s Certificate_ID (cir_Certificate y).

(** A missing identity or issuer reads as the zero value of its type. *)
Definition listCertificateInventory (order : list Certificate)
    (identities : gmap string Identity) (issuers : gmap string Issuer)
    (f : CertificateInventoryFilter) : res (list CertificateInventoryRecord) :=
  let record c := mkCertificateInventoryRecord c
    (default zero_Identity (identities !! Certificate_IdentityID c))
    (default zero_Issuer (issuers !! Certificate_IssuerID c)) in
  let result := go_sort (inventory_less (cif_Sort f))
    (filter (λ r, certificateInventoryRecordMatches (cir_Certificate r) (cir_Identity r) f = true)
       (record <$> order)) in
  if Z.leb (Z.of_nat (length result)) (cif_Offset f) then Ok []
  else let! result := sliceFrom (cif_Offset f) result in Ok (limitTo (cif_Limit f) result).

Definition CreateCertificate (certificate : Certificate) : Mem unit :=
  putRows ms_certificates set_certificates (λ m,
    do! ensureCertificateFinalizationKeysAvailable (map_values m) certificate in
    Ok (<[Certificate_ID certificate := certificate]> m)).
Definition GetCertificate (id : string) : Mem Certificate :=
  getRow ms_certificates id ErrCertificateNotFound.
Definition GetCertificateByEnrollmentID (enrollmentID : string) : Mem Certificate :=
  λ s, (certificateByEnrollmentID (map_values (ms_certificates s)) enrollmentID, s).
Definition ListCertificates : Mem (list Certificate) := query (λ s, map_values (ms_certificates s)).
Definition ListCertificateInventory (f : CertificateInventoryFilter)
  : Mem (list CertificateInventoryRecord) := λ s,
  (listCertificateInventory (map_values (ms_certificates s)) (ms_identities s) (ms_issuers s) f, s).
Definition ListCertificatesExpiringWithin (now cutoff : Time) (limit offset : Z)
  : Mem (list Certificate) := λ s,
  (listCertificatesExpiringWithin (map_values (ms_certificates s)) now cutoff limit offset, s).
Definition ListCertificatesForExpirationScan (now warningBefore : Time) (limit : Z)
  : Mem (list Certificate) :=
  query (λ s, listCertificatesForExpirationScan (map_values (ms_certificates s)) now warningBefore limit).
Definition UpdateCertificate (certificate : Certificate) : Mem unit :=
  putRows ms_certificates set_certificates
    (updateIf (Certificate_ID certificate) ErrCertificateNotFound (λ _, true) certificate).
Definition UpdateCertificateIfStatus (certificate : Certificate)
    (currentStatus : CertificateStatus) : Mem unit :=
  putRows ms_certificates set_certificates (updateCertificateIfStatus certificate currentStatus).

(** ** Issuance attempts, keyed by enrollment *)

Definition createIssuanceAttempt (attempt : IssuanceAttempt) (m : gmap string IssuanceAttempt)
  : res (gmap string IssuanceAttempt) :=
  match m !! IssuanceAttempt_EnrollmentID attempt with
  | Some _ => Err ErrInvalidTransition
  | None => Ok (<[IssuanceAttempt_EnrollmentID attempt := attempt]> m)
  end.
Definition getIssuanceAttempt (m : gmap string IssuanceAttempt) (enrollmentID : string)
  : res IssuanceAttempt := lookupRow m enrollmentID ErrIssuanceAttemptNotFound.

(** [stored] is still the attempt the caller read as [current]. *)
Definition sameIssuanceAttempt (current stored : IssuanceAttempt) : bool :=
  (IssuanceAttempt_Status stored =s IssuanceAttempt_Status current)
  && TimeEqual (IssuanceAttempt_LeaseExpiresAt stored) (IssuanceAttempt_LeaseExpiresAt current)
  && TimeEqual (IssuanceAttempt_UpdatedAt stored) (IssuanceAttempt_UpdatedAt current).
Definition updateIssuanceAttemptIfCurrent (attempt current : IssuanceAttempt) :=
  updateIf (IssuanceAttempt_EnrollmentID attempt) ErrIssuanceAttemptNotFound
    (sameIssuanceAttempt current) attempt.

Definition CreateIssuanceAttempt (attempt : IssuanceAttempt) : Mem unit :=
  putRows ms_issuanceAttempts set_issuanceAttempts (createIssuanceAttempt attempt).
Definition GetIssuanceAttempt (enrollmentID : string) : Mem IssuanceAttempt :=
  λ s, (getIssuanceAttempt (ms_issuanceAttempts s) enrollmentID, s).
Definition UpdateIssuanceAttemptIfCurrent (attempt current : IssuanceAttempt) : Mem unit :=
  putRows ms_issuanceAttempts set_issuanceAttempts (updateIssuanceAttemptIfCurrent attempt current).

(** ** Revocations and CRL publications *)

Definition listRevocationsByIssuer (certificates : gmap string Certificate)
    (order : list Revocation) (issuerID : string) : list RevokedCertificateEntry :=
  omap (λ revocation,
    match certificates !! Revocation_CertificateID revocation with
    | Some certificate =>
        if (Certificate_IssuerID certificate <>s issuerID)
           || (Certificate_Status certificate <>s CertificateRevoked) then None
        else Some (mkRevokedCertificateEntry (Certificate_ID certificate)
               (Certificate_SerialNumber certificate) (Revocation_RevokedAt revocation)
               (Revocation_Reason revocation))
    | None => None
    end) order.

Definition CreateRevocation (revocation : Revocation) : Mem unit :=
  putRows ms_revocations set_revocations (λ m, Ok (<[Revocation_ID revocation := revocation]> m)).
Definition ListRevocationsByIssuer (issuerID : string) : Mem (list RevokedCertificateEntry) :=
  query (λ s, listRevocationsByIssuer (ms_certificates s) (map_values (ms_revocations s)) issuerID).

Definition listCRLPublicationsByIssuer (order : list CRLPublication) (issuerID : string)
  : list CRLPublication :=
  filter (λ p, (CRLPublication_IssuerID p =s issuerID) = true) order.

Definition crlNumberConflict (candidate publication : CRLPublication) : bool :=
  (CRLPublication_ID publication <>s CRLPublication_ID candidate)
  && (CRLPublication_IssuerID publication =s CRLPublication_IssuerID candidate)
  && (CRLPublication_DistributionPoint publication =s CRLPublication_DistributionPoint candidate)
  && Z.eqb (CRLPublication_CRLNumber publication) (CRLPublication_CRLNumber candidate).
Definition ensureCRLPublicationNumberAvailable (order : list CRLPublication)
    (candidate : CRLPublication) : res unit :=
  for_checks order (λ publication,
    check_not (crlNumberConflict candidate publication) ErrInvalidTransition).

Definition latestCRLPublicationByIssuer (order : list CRLPublication) (issuerID : string)
  : res CRLPublication :=
  let pick (acc : option CRLPublication) (p : CRLPublication) :=
    if CRLPublication_IssuerID p <>s issuerID then acc
    else match acc with
      | None => Some p
      | Some latest =>
          if Z.ltb (CRLPublication_CRLNumber latest) (CRLPublication_CRLNumber p)
             || After (CRLPublication_CreatedAt p) (CRLPublication_CreatedAt latest)
          then Some p else acc
      end in
  match fold_left pick order None with
  | Some latest => Ok latest
  | None => Err ErrCRLPublicationNotFound
  end.

Definition CreateCRLPublication (publication : CRLPublication) : Mem unit :=
  putRows ms_crls set_crls (λ m,
    do! ensureCRLPublicationNumberAvailable (map_values m) publication in
    Ok (<[CRLPublication_ID publication := publication]> m)).
Definition GetCRLPublication (id : string) : Mem CRLPublication :=
  getRow ms_crls id ErrCRLPublicationNotFound.
Definition GetLatestCRLPublicationByIssuer (issuerID : string) : Mem CRLPublication :=
  λ s, (latestCRLPublicationByIssuer (map_values (ms_crls s)) issuerID, s).
Definition ListCRLPublicationsByIssuer (issuerID : string) : Mem (list CRLPublication) :=
  query (λ s, listCRLPublicationsByIssuer (map_values (ms_crls s)) issuerID).

(** ** CRL generation claims *)

(** The separator is the byte 0. *)
Definition crlGenerationClaimKey (issuerID distributionPoint : string) : string :=
  issuerID +:+ bytes_str [0] +:+ distributionPoint.
Definition claimKey (claim : CRLGenerationClaim) : string :=
  crlGenerationClaimKey (CRLGenerationClaim_IssuerID claim) (CRLGenerationClaim_DistributionPoint claim).

Definition sameCRLGenerationClaim (current stored : CRLGenerationClaim) : bool :=
  Z.eqb (CRLGenerationClaim_CRLNumber stored) (CRLGenerationClaim_CRLNumber current)
  && TimeEqual (CRLGenerationClaim_LeaseExpiresAt stored) (CRLGenerationClaim_LeaseExpiresAt current)
  && TimeEqual (CRLGenerationClaim_UpdatedAt stored) (CRLGenerationClaim_UpdatedAt current).

Definition createCRLGenerationClaim (claim : CRLGenerationClaim) (m : gmap string CRLGenerationClaim)
  : res (gmap string CRLGenerationClaim) :=
  match m !! claimKey claim with
  | Some _ => Err ErrInvalidTransition
  | None => Ok (<[claimKey claim := claim]> m)
  end.
Definition getCRLGenerationClaim (m : gmap string CRLGenerationClaim)
    (issuerID distributionPoint : string) : res CRLGenerationClaim :=
  lookupRow m (crlGenerationClaimKey issuerID distributionPoint) ErrCRLGenerationClaimNotFound.
Definition updateCRLGenerationClaimIfCurrent (claim current : CRLGenerationClaim) :=
  updateIf (claimKey claim) ErrCRLGenerationClaimNotFound (sameCRLGenerationClaim current) claim.
Definition deleteCRLGenerationClaimIfCurrent (current : CRLGenerationClaim)
    (m : gmap string CRLGenerationClaim) : res (gmap string CRLGenerationClaim) :=
  let! stored := lookupRow m (claimKey current) ErrCRLGenerationClaimNotFound in
  do! check_not (negb (sameCRLGenerationClaim current stored)) ErrInvalidTransition in
  Ok (delete (claimKey current) m).

Definition CreateCRLGenerationClaim (claim : CRLGenerationClaim) : Mem unit :=
  putRows ms_crlClaims set_crlClaims (createCRLGenerationClaim claim).
Definition GetCRLGenerationClaim (issuerID distributionPoint : string) : Mem CRLGenerationClaim :=
  λ s, (getCRLGenerationClaim (ms_crlClaims s) issuerID distributionPoint, s).
Definition UpdateCRLGenerationClaimIfCurrent (claim current : CRLGenerationClaim) : Mem unit :=
  putRows ms_crlClaims set_crlClaims (updateCRLGenerationClaimIfCurrent claim current).
Definition DeleteCRLGenerationClaimIfCurrent (current : CRLGenerationClaim) : Mem unit :=
  putRows ms_crlClaims set_crlClaims (deleteCRLGenerationClaimIfCurrent current).

(** ** Outbox, job attempts and webhook deliveries *)

Definition outboxMessageDue (message : OutboxMessage) (now : Time) : bool :=
  if OutboxMessage_Status message =s OutboxPending
  then negb (After (OutboxMessage_AvailableAt message) now)
  else if OutboxMessage_Status message =s OutboxProcessing
  then negb (IsZero (OutboxMessage_ProcessingDeadlineAt message))
       && negb (After (OutboxMessage_ProcessingDeadlineAt message) now)
  else false.

Definition outboxMessageDueAt (message : OutboxMessage) : Time :=
  if OutboxMessage_Status message =s OutboxProcessing
  then OutboxMessage_ProcessingDeadlineAt message
  else OutboxMessage_AvailableAt message.

Definition due_less : OutboxMessage → OutboxMessage → bool :=
  then_by outboxMessageDueAt (key_less OutboxMessage_CreatedAt OutboxMessage_ID).

Definition listDueOutboxMessages (order : list OutboxMessage) (now : Time) (limit : Z)
  : list OutboxMessage :=
  if Z.leb limit 0 then []
  else take (Z.to_nat limit) (go_sort due_less (filter (λ m, outboxMessageDue m now = true) order)).

Definition listOutboxMessages (order : list OutboxMessage) (status : OutboxMessageStatus)
  : list OutboxMessage :=
  listBy (λ m, negb ((status <>s "") && (OutboxMessage_Status m <>s status)))
    OutboxMessage_CreatedAt OutboxMessage_ID order.

Definition updateOutboxMessageStatusIfStatus (message : OutboxMessage)
    (currentStatus : OutboxMessageStatus) :=
  updateIf (OutboxMessage_ID message) ErrOutboxMessageNotFound
    (λ current, OutboxMessage_Status current =s currentStatus) message.

Definition sameOutboxMessage (current stored : OutboxMessage) : bool :=
  (OutboxMessage_Status stored =s OutboxMessage_Status current)
  && TimeEqual (OutboxMessage_ProcessingDeadlineAt stored) (OutboxMessage_ProcessingDeadlineAt current)
  && TimeEqual (OutboxMessage_UpdatedAt stored) (OutboxMessage_UpdatedAt current).
Definition updateOutboxMessageIfCurrent (message current : OutboxMessage) :=
  updateIf (OutboxMessage_ID message) ErrOutboxMessageNotFound (sameOutboxMessage current) message.

Definition listJobAttemptsByOutboxMessage (order : list JobAttempt) (outboxMessageID : string)
  : list JobAttempt :=
  listBy (λ a, JobAttempt_OutboxMessageID a =s outboxMessageID)
    JobAttempt_CreatedAt JobAttempt_ID order.

Definition webhookDeliveryKey (outboxMessageID endpointID : string) : string :=
  outboxMessageID +:+ bytes_str [0] +:+ endpointID.
Definition getWebhookDelivery (m : gmap string WebhookDelivery)
    (outboxMessageID endpointID : string) : res WebhookDelivery :=
  lookupRow m (webhookDeliveryKey outboxMessageID endpointID) ErrWebhookDeliveryNotFound.
Definition deliveryKey (delivery : WebhookDelivery) : string :=
  webhookDeliveryKey (WebhookDelivery_OutboxMessageID delivery) (WebhookDelivery_EndpointID delivery).

Definition CreateOutboxMessage (message : OutboxMessage) : Mem unit :=
  putRows ms_outbox set_outbox (λ m, Ok (<[OutboxMessage_ID message := message]> m)).
Definition GetOutboxMessage (id : string) : Mem OutboxMessage :=
  getRow ms_outbox id ErrOutboxMessageNotFound.
Definition ListOutboxMessages (status : OutboxMessageStatus) : Mem (list OutboxMessage) :=
  query (λ s, listOutboxMessages (map_values (ms_outbox s)) status).
Definition ListDueOutboxMessages (now : Time) (limit : Z) : Mem (list OutboxMessage) :=
  query (λ s, listDueOutboxMessages (map_values (ms_outbox s)) now limit).
Definition UpdateOutboxMessageStatusIfStatus (message : OutboxMessage)
    (currentStatus : OutboxMessageStatus) : Mem unit :=
  putRows ms_outbox set_outbox (updateOutboxMessageStatusIfStatus message currentStatus).
Definition UpdateOutboxMessageIfCurrent (message current : OutboxMessage) : Mem unit :=
  putRows ms_outbox set_outbox (updateOutboxMessageIfCurrent message current).
Definition CreateJobAttempt (attempt : JobAttempt) : Mem unit :=
  putRows ms_jobAttempts set_jobAttempts (λ m, Ok (<[JobAttempt_ID attempt := attempt]> m)).
Definition ListJobAttemptsByOutboxMessage (outboxMessageID : string) : Mem (list JobAttempt) :=
  query (λ s, listJobAttemptsByOutboxMessage (map_values (ms_jobAttempts s)) outboxMessageID).
Definition GetWebhookDelivery (outboxMessageID endpointID : string) : Mem WebhookDelivery :=
  λ s, (getWebhookDelivery (ms_webhookDeliveries s) outboxMessageID endpointID, s).
Definition UpsertWebhookDelivery (delivery : WebhookDelivery) : Mem unit :=
  putRows ms_webhookDeliveries set_webhookDeliveries (λ m,
    Ok (<[deliveryKey delivery := delivery]> m)).

(** ** API keys *)

Definition apiKeyByTokenHash (order : list APIKey) (tokenHash : string) : res APIKey :=
  scan (λ k, APIKey_TokenHash k =s tokenHash) order ErrAPIKeyNotFound.
Definition listAPIKeys (order : list APIKey) : list APIKey :=
  listBy (λ _, true) APIKey_CreatedAt APIKey_ID order.
Definition updateAPIKeyIfStatus (key : APIKey) (currentStatus : APIKeyStatus) :=
  updateIf (APIKey_ID key) ErrAPIKeyNotFound
    (λ current, APIKey_Status current =s currentStatus) key.

Definition CreateAPIKey (key : APIKey) : Mem unit :=
  putRows ms_apiKeys set_apiKeys (λ m, Ok (<[APIKey_ID key := key]> m)).
Definition GetAPIKey (id : string) : Mem APIKey := getRow ms_apiKeys id ErrAPIKeyNotFound.
Definition GetAPIKeyByTokenHash (tokenHash : string) : Mem APIKey :=
  λ s, (apiKeyByTokenHash (map_values (ms_apiKeys s)) tokenHash, s).
Definition ListAPIKeys : Mem (list APIKey) := query (λ s, listAPIKeys (map_values (ms_apiKeys s))).
Definition UpdateAPIKeyIfStatus (key : APIKey) (currentStatus : APIKeyStatus) : Mem unit :=
  putRows ms_apiKeys set_apiKeys (updateAPIKeyIfStatus key currentStatus).

(** ** ACME objects *)

Definition ensureACMEAccountThumbprintAvailable (order : list ACMEAccount)
    (candidate : ACMEAccount) : res unit :=
  if ACMEAccount_KeyThumbprint candidate =s "" then Ok tt
  else for_checks order (λ account,
    check_not ((ACMEAccount_ID account <>s ACMEAccount_ID candidate)
               && (ACMEAccount_KeyThumbprint account =s ACMEAccount_KeyThumbprint candidate))
      ErrInvalidTransition).
Definition updateACMEAccountIfStatus (account : ACMEAccount) (currentStatus : ACMEAccountStatus)
    (m : gmap string ACMEAccount) : res (gmap string ACMEAccount) :=
  let! current := lookupRow m (ACMEAccount_ID account) ErrACMEAccountNotFound in
  do! check_not (ACMEAccount_Status current <>s currentStatus) ErrInvalidTransition in
  do! ensureACMEAccountThumbprintAvailable (map_values m) account in
  Ok (<[ACMEAccount_ID account := account]> m).
Definition updateACMEOrderIfStatus (order : ACMEOrder) (currentStatus : ACMEOrderStatus) :=
  updateIf (ACMEOrder_ID order) ErrACMEOrderNotFound
    (λ current, ACMEOrder_Status current =s currentStatus) order.
Definition updateACMEAuthorizationIfStatus (authorization : ACMEAuthorization)
    (currentStatus : ACMEAuthorizationStatus) :=
  updateIf (ACMEAuthorization_ID authorization) ErrACMEAuthorizationNotFound
    (λ current, ACMEAuthorization_Status current =s currentStatus) authorization.
Definition updateACMEChallengeIfStatus (challenge : ACMEChallenge)
    (currentStatus : ACMEChallengeStatus) :=
  updateIf (ACMEChallenge_ID challenge) ErrACMEChallengeNotFound
    (λ current, ACMEChallenge_Status current =s currentStatus) challenge.
Definition listACMEAccounts (accounts : list ACMEAccount) : list ACMEAccount :=
  listBy (λ _, true) ACMEAccount_CreatedAt ACMEAccount_ID accounts.
Definition listACMEOrdersByAccount (orders : list ACMEOrder) (accountID : string) : list ACMEOrder :=
  listBy (λ o, ACMEOrder_AccountID o =s accountID) ACMEOrder_CreatedAt ACMEOrder_ID orders.
Definition listACMEAuthorizationsByOrder (authorizations : list ACMEAuthorization) (orderID : string)
  : list ACMEAuthorization :=
  listBy (λ a, ACMEAuthorization_OrderID a =s orderID)
    ACMEAuthorization_CreatedAt ACMEAuthorization_ID authorizations.
Definition listACMEChallengesByAuthorization (challenges : list ACMEChallenge)
    (authorizationID : string) : list ACMEChallenge :=
  listBy (λ c, ACMEChallenge_AuthorizationID c =s authorizationID)
    ACMEChallenge_CreatedAt ACMEChallenge_ID challenges.

Definition CreateACMEAccount (account : ACMEAccount) : Mem unit :=
  putRows ms_acmeAccounts set_acmeAccounts (λ m,
    do! ensureACMEAccountThumbprintAvailable (map_values m) account in
    Ok (<[ACMEAccount_ID account := account]> m)).
Definition GetACMEAccount (id : string) : Mem ACMEAccount :=
  getRow ms_acmeAccounts id ErrACMEAccountNotFound.
Definition ListACMEAccounts : Mem (list ACMEAccount) :=
  query (λ s, listACMEAccounts (map_values (ms_acmeAccounts s))).
Definition UpdateACMEAccountIfStatus (account : ACMEAccount) (currentStatus : ACMEAccountStatus)
  : Mem unit :=
  putRows ms_acmeAccounts set_acmeAccounts (updateACMEAccountIfStatus account currentStatus).
Definition CreateACMEOrder (order : ACMEOrder) : Mem unit :=
  putRows ms_acmeOrders set_acmeOrders (λ m, Ok (<[ACMEOrder_ID order := order]> m)).
Definition GetACMEOrder (id : string) : Mem ACMEOrder :=
  getRow ms_acmeOrders id ErrACMEOrderNotFound.
Definition ListACMEOrdersByAccount (accountID : string) : Mem (list ACMEOrder) :=
  query (λ s, listACMEOrdersByAccount (map_values (ms_acmeOrders s)) accountID).
Definition UpdateACMEOrderIfStatus (order : ACMEOrder) (currentStatus : ACMEOrderStatus) : Mem unit :=
  putRows ms_acmeOrders set_acmeOrders (updateACMEOrderIfStatus order currentStatus).
Definition CreateACMEAuthorization (authorization : ACMEAuthorization) : Mem unit :=
  putRows ms_acmeAuthzs set_acmeAuthzs
    (λ m, Ok (<[ACMEAuthorization_ID authorization := authorization]> m)).
Definition GetACMEAuthorization (id : string) : Mem ACMEAuthorization :=
  getRow ms_acmeAuthzs id ErrACMEAuthorizationNotFound.
Definition ListACMEAuthorizationsByOrder (orderID : string) : Mem (list ACMEAuthorization) :=
  query (λ s, listACMEAuthorizationsByOrder (map_values (ms_acmeAuthzs s)) orderID).
Definition UpdateACMEAuthorizationIfStatus (authorization : ACMEAuthorization)
    (currentStatus : ACMEAuthorizationStatus) : Mem unit :=
  putRows ms_acmeAuthzs set_acmeAuthzs (updateACMEAuthorizationIfStatus authorization currentStatus).
Definition CreateACMEChallenge (challenge : ACMEChallenge) : Mem unit :=
  putRows ms_acmeChallenges set_acmeChallenges
    (λ m, Ok (<[ACMEChallenge_ID challenge := challenge]> m)).
Definition GetACMEChallenge (id : string) : Mem ACMEChallenge :=
  getRow ms_acmeChallenges id ErrACMEChallengeNotFound.
Definition ListACMEChallengesByAuthorization (authorizationID : string) : Mem (list ACMEChallenge) :=
  query (λ s, listACMEChallengesByAuthorization (map_values (ms_acmeChallenges s)) authorizationID).
Definition UpdateACMEChallengeIfStatus (challenge : ACMEChallenge)
    (currentStatus : ACMEChallengeStatus) : Mem unit :=
  putRows ms_acmeChallenges set_acmeChallenges (updateACMEChallengeIfStatus challenge currentStatus).

(** ** Audit log *)

Record AuditEventQuery := mkAuditEventQuery {
  aeq_Actor : string;
  aeq_Action : string;
  aeq_ResourceType : string;
  aeq_ResourceID : string;
  aeq_CreatedFrom : Time;
  aeq_CreatedTo : Time;
  aeq_Sort : string;
  aeq_Limit : Z;
  aeq_Offset : Z;
}.

Definition auditEventSelected (q : AuditEventQuery) (event : AuditEvent) : bool :=
  negb (excludedBy (aeq_Actor q) (AuditEvent_Actor event)
        || excludedBy (aeq_Action q) (AuditEvent_Action event)
        || excludedBy (aeq_ResourceType q) (AuditEvent_ResourceType event)
        || excludedBy (aeq_ResourceID q) (AuditEvent_ResourceID event)
        || (negb (IsZero (aeq_CreatedFrom q)) && Before (AuditEvent_CreatedAt event) (aeq_CreatedFrom q))
        || (negb (IsZero (aeq_CreatedTo q)) && After (AuditEvent_CreatedAt event) (aeq_CreatedTo q))).

Definition audit_less (sort : string) (x y : AuditEvent) : bool :=
  if sort =s "desc" then key_less AuditEvent_CreatedAt AuditEvent_ID y x
  else key_less AuditEvent_CreatedAt AuditEvent_ID x y.

Definition listAuditEventsQuery (events : list AuditEvent) (q : AuditEventQuery) : list AuditEvent :=
  let result := go_sort (audit_less (aeq_Sort q)) (filter (λ e, auditEventSelected q e = true) events) in
  let result := if Z.ltb 0 (aeq_Offset q) then drop (Z.to_nat (aeq_Offset q)) result else result in
  limitTo (aeq_Limit q) result.

Section Audit.
Context `{GoCodec}.

(** Run an operation on the audit variables of the store. *)
Definition onAudit {A} (f : GoM AuditLog A) : Mem A := λ s,
  let '(r, log) := f (ms_audit s) in (r, set_audit log s).

Definition CreateAuditEvent (event : AuditEvent) : Mem unit := onAudit (appendMemoryAuditEvent event).
Definition ListAuditEvents : Mem (list AuditEvent) := query (λ s, log_events (ms_audit s)).
Definition ListAuditEventsQuery (q : AuditEventQuery) : Mem (list AuditEvent) :=
  query (λ s, listAuditEventsQuery (log_events (ms_audit s)) q).
Definition VerifyAuditChain : Mem AuditIntegrity :=
  query (λ s, verifyAuditState (log_events (ms_audit s)) (log_state (ms_audit s))).
Definition DeleteAuditEventsBefore (before : Time) : Mem nat := onAudit (pruneMemoryAuditEvents before).
End Audit.

