(* ===== verification/Sharing.v ===== *)
(** * Slices of the in-memory store ([store/memory.go])

    Rows of the in-memory store hold slices, which are windows into arrays that
    other values may share. [Store] treats a row as a value; this file shows
    that the copies the store makes justify it. Rows are modelled with the
    addresses of their slices on a heap of arrays, and a caller may overwrite
    every array it can reach: those it made and those of the rows it was given.
    The store under such callers does what a store of values does. *)

From S2P Require Import Prelude GoLib Domain Store.

(** ** The heap *)

Notation Loc := nat.
(** A slice: nil, or a window into an array. *)
Inductive Slice := NilSlice | Window (array : Loc) (offset len : nat).
Record Heap := mkHeap { h_arrays : gmap Loc (list string); h_ints : gmap Loc Z; h_next : Loc }.

Definition read (h : Heap) (s : Slice) : list string :=
  match s with
  | NilSlice => []
  | Window l offset len => take len (drop offset (default [] (h_arrays h !! l)))
  end.
Definition slice_locs (s : Slice) : gset Loc := match s with NilSlice => ∅ | Window l _ _ => {[l]} end.
Definition slices_locs (l : list Slice) : gset Loc := ⋃ (slice_locs <$> l).

(** Computations that allocate. *)
Definition HM (A : Type) : Type := Heap → A * Heap.
Definition retH {A} (a : A) : HM A := λ h, (a, h).
Definition bindH {A B} (m : HM A) (k : A → HM B) : HM B := λ h, let '(a, h') := m h in k a h'.
Local Notation "'new' x ':=' m 'in' k" := (bindH m (λ x, k)) (at level 10, x name, m at level 100, k at level 200).

Definition alloc (xs : list string) : HM Loc := λ h,
  (h_next h, mkHeap (<[h_next h := xs]> (h_arrays h)) (h_ints h) (S (h_next h))).

(** [append([]string(nil), values...)]: nil when there are none. *)
Definition append_nil (values : Slice) : HM Slice := λ h,
  match read h values with
  | [] => (NilSlice, h)
  | xs => let '(l, h') := alloc xs h in (Window l 0 (length xs), h')
  end.
(** An empty slice stays one that is not nil. *)
Definition copyStringSlice (values : Slice) : HM Slice := λ h,
  match read h values with
  | [] => let '(l, h') := alloc [] h in (Window l 0 0, h')
  | _ => append_nil values h
  end.

(** ** What copies promise *)

Definition well (h : Heap) : Prop := ∀ l, l ∈ dom (h_arrays h) → l < h_next h.
(** Allocation keeps what is there. *)
Record extends (h h' : Heap) : Prop := {
  ext_arrays : h_arrays h ⊆ h_arrays h';
  ext_ints : h_ints h' = h_ints h;
  ext_well : well h → well h';
}.
#[export] Instance extends_preorder : PreOrder extends.
Proof.
  split; [by split|]. intros h1 h2 h3 [A1 I1 W1] [A2 I2 W2]. split; [by etrans|congruence|auto].
Qed.
Lemma extends_dom h h' : extends h h' → dom (h_arrays h) ⊆ dom (h_arrays h').
Proof. intros [Ha _ _]. by apply subseteq_dom. Qed.

(** Two heaps that agree on some arrays. *)
Definition agree (ls : gset Loc) (h h' : Heap) : Prop :=
  (∀ l, l ∈ ls → h_arrays h' !! l = h_arrays h !! l) ∧ h_ints h' = h_ints h.
Lemma extends_agree ls h h' : ls ⊆ dom (h_arrays h) → extends h h' → agree ls h h'.
Proof.
  intros Hd [Ha Hi _]. split; [|done]. intros l Hl. apply Hd, elem_of_dom in Hl as [xs Hx].
  rewrite Hx. by eapply lookup_weaken.
Qed.
Lemma read_local h h' s : agree (slice_locs s) h h' → read h' s = read h s.
Proof. intros [Ha _]. destruct s as [|l o n]; [done|]. cbn. by rewrite Ha by set_solver. Qed.

(** [s'] is a copy of [s] that no array of [h0] is behind. *)
Record copied (h0 h : Heap) (s s' : Slice) : Prop := {
  copied_read : read h s' = read h0 s;
  copied_fresh : slice_locs s' ## dom (h_arrays h0);
  copied_dom : slice_locs s' ⊆ dom (h_arrays h);
}.
Lemma copied_extends h0 h h' s s' : copied h0 h s s' → extends h h' → copied h0 h' s s'.
Proof.
  intros [Hr Hf Hd] He. split; [|done|].
  - rewrite <- Hr. by apply read_local, extends_agree.
  - etrans; [exact Hd|by apply extends_dom].
Qed.

Lemma alloc_ok h xs : well h → extends h (alloc xs h).2 ∧ h_next h ∉ dom (h_arrays h).
Proof.
  intros Hw. assert (h_next h ∉ dom (h_arrays h)) as Hn by (intros Hd; specialize (Hw _ Hd); lia).
  split; [|done]. split; [|done|].
  - cbn. apply insert_subseteq. by apply not_elem_of_dom.
  - intros _ l. cbn. rewrite dom_insert. intros [->%elem_of_singleton|Hl]%elem_of_union; [lia|]. specialize (Hw _ Hl). lia.
Qed.
Lemma alloc_copied h0 h s xs : well h → extends h0 h → xs = read h0 s →
  copied h0 (alloc xs h).2 s (Window (alloc xs h).1 0 (length xs)).
Proof.
  intros Hw He Hx. destruct (alloc_ok h xs Hw) as [_ Hn]. split; cbn.
  - by rewrite lookup_insert_eq, drop_0, firstn_all.
  - apply extends_dom in He. set_solver.
  - rewrite dom_insert. set_solver.
Qed.

(** A step that copies [s], somewhere after [h0]. *)
Definition copies (m : HM Slice) (s : Slice) : Prop := ∀ h0 h, well h → extends h0 h →
  slice_locs s ⊆ dom (h_arrays h0) → extends h (m h).2 ∧ copied h0 (m h).2 s (m h).1.
Lemma append_nil_copies s : copies (append_nil s) s.
Proof.
  intros h0 h Hw He Hd. assert (read h s = read h0 s) as Hr by by apply read_local, extends_agree.
  unfold append_nil. rewrite Hr. destruct (read h0 s) as [|x xs] eqn:Ex.
  - split; [done|]. split; [done|set_solver..].
  - destruct (alloc_ok h (x :: xs) Hw) as [Ha _].
    by split; [|apply alloc_copied].
Qed.
Lemma copyStringSlice_copies s : copies (copyStringSlice s) s.
Proof.
  intros h0 h Hw He Hd. assert (read h s = read h0 s) as Hr by by apply read_local, extends_agree.
  unfold copyStringSlice. rewrite Hr. destruct (read h0 s) as [|x xs] eqn:Ex; [|by apply append_nil_copies].
  destruct (alloc_ok h [] Hw) as [Ha _]. by split; [|apply (alloc_copied h0 h s [])].
Qed.

(** A row [R] with slices on the heap that stands for a value [A]. *)
Class Sharing (R A : Type) := {
  value : Heap → R → A;
  refs : R → gset Loc;
  copy : R → HM R;
  value_local h h' r : agree (refs r) h h' → value h' r = value h r;
  copy_ok h r : well h → refs r ⊆ dom (h_arrays h) →
    extends h (copy r h).2 ∧ value (copy r h).2 (copy r h).1 = value h r
    ∧ refs (copy r h).1 ## dom (h_arrays h) ∧ refs (copy r h).1 ⊆ dom (h_arrays (copy r h).2);
}.

Definition plain_sharing (A : Type) : Sharing A A.
Proof. refine {| value _ a := a; refs _ := ∅; copy := retH |}; [done|]. intros h r _ _. by split_and!; [| |set_solver..]. Defined.

Lemma agree_mono ls ls' h h' : ls' ⊆ ls → agree ls h h' → agree ls' h h'.
Proof. intros Hs [Ha Hi]. split; [|done]. intros l Hl. by apply Ha, Hs. Qed.
Lemma read_in l s h h' : s ∈ l → agree (slices_locs l) h h' → read h' s = read h s.
Proof.
  intros Hs Ha. apply read_local. eapply agree_mono, Ha. unfold slices_locs. intros x Hx.
  apply elem_of_union_list. exists (slice_locs s). split; [by apply list_elem_of_fmap_2|done].
Qed.

Tactic Notation "solve_local" reference(value_of) reference(slices) :=
  intros h h' r Ha; unfold value_of; rewrite ?(proj2 Ha); unfold compose, slices in Ha;
  match type of Ha with agree (slices_locs ?l) _ _ =>
    repeat match goal with
    | |- context [read h' ?s] => rewrite (read_in l s h h') by first [exact Ha | set_solver]
    end
  end; reflexivity.

(** One copy after [h0], at the heap [h]. *)
Ltac copy_one h0 m s h rule :=
  let E := fresh "E" in let C := fresh "C" in let s' := fresh "s" in let h' := fresh "h" in
  pose proof (rule s h0 h) as [E C]; [assumption|assumption|set_solver|];
  destruct (m s h) as [s' h'] eqn:?; cbn [fst snd] in E, C;
  repeat match goal with H : copied h0 h _ _ |- _ => apply (copied_extends _ _ h') in H; [|exact E] end;
  assert (extends h0 h') by (etrans; [|exact E]; assumption);
  assert (well h') by (apply (ext_well _ _ E); assumption).
Tactic Notation "solve_copy" reference(copy_row) reference(value_of) reference(slices) :=
  intros h r Hw Hd; assert (extends h h) as Hrefl by reflexivity;
  unfold compose, slices_locs, slices in Hd; cbn in Hd;
  unfold copy_row, bindH, retH; cbn beta iota;
  repeat match goal with
  | |- context [append_nil ?s ?hh] => copy_one h append_nil s hh append_nil_copies
  | |- context [copyStringSlice ?s ?hh] => copy_one h copyStringSlice s hh copyStringSlice_copies
  end;
  repeat match goal with H : copied _ _ _ _ |- _ => destruct H end;
  cbn [fst snd]; split_and!;
  [assumption
  |unfold value_of; cbn; repeat match goal with H : extends h ?h' |- context [h_ints ?h'] => rewrite (ext_ints _ _ H) end;
   congruence
  |unfold compose, slices_locs, slices; cbn; set_solver
  |unfold compose, slices_locs, slices; cbn; set_solver].

(** ** The rows and their copies *)

Module IdentityRow.
Record t := mk { plain : Identity; at_AllowedDNSNames : Slice; at_AllowedIPAddresses : Slice; }.
Definition value_of (h : Heap) (r : t) : Identity :=
  mkIdentity (Identity_ID (plain r)) (Identity_Type (plain r)) (Identity_Name (plain r))
    (Identity_ExternalID (plain r)) (Identity_Owner (plain r)) (Identity_Team (plain r))
    (Identity_Service (plain r)) (Identity_Environment (plain r)) (Identity_DeploymentTarget (plain r))
    (Identity_LastSeenAt (plain r)) (Identity_MetadataJSON (plain r)) (read h (at_AllowedDNSNames r))
    (read h (at_AllowedIPAddresses r)) (Identity_Status (plain r)) (Identity_CreatedAt (plain r))
    (Identity_UpdatedAt (plain r)).
Definition slices (r : t) : list Slice := [at_AllowedDNSNames r; at_AllowedIPAddresses r].
Definition copyIdentity (r : t) : HM t :=
  new allowedDNSNames := copyStringSlice (at_AllowedDNSNames r) in
  new allowedIPAddresses := copyStringSlice (at_AllowedIPAddresses r) in
  retH (mk (plain r) allowedDNSNames allowedIPAddresses).
#[export] Instance sharing : Sharing t Identity.
Proof.
  refine {| value := value_of; refs := slices_locs ∘ slices; copy := copyIdentity |}.
  - solve_local value_of slices.
  - solve_copy copyIdentity value_of slices.
Defined.
End IdentityRow.
Export (hints) IdentityRow.

Module IssuerRow.
Record t := mk { plain : Issuer; at_CRLDistributionPoints : Slice; }.
Definition value_of (h : Heap) (r : t) : Issuer :=
  mkIssuer (Issuer_ID (plain r)) (Issuer_Name (plain r)) (Issuer_Kind (plain r)) (Issuer_Status (plain r))
    (Issuer_ParentIssuerID (plain r)) (Issuer_CertificatePEM (plain r)) (Issuer_KeyRef (plain r))
    (Issuer_AIAURL (plain r)) (read h (at_CRLDistributionPoints r)) (Issuer_TrustAnchor (plain r))
    (Issuer_CreatedAt (plain r)) (Issuer_UpdatedAt (plain r)).
Definition slices (r : t) : list Slice := [at_CRLDistributionPoints r].
Definition copyIssuer (r : t) : HM t :=
  new crlDistributionPoints := append_nil (at_CRLDistributionPoints r) in
  retH (mk (plain r) crlDistributionPoints).
#[export] Instance sharing : Sharing t Issuer.
Proof.
  refine {| value := value_of; refs := slices_locs ∘ slices; copy := copyIssuer |}.
  - solve_local value_of slices.
  - solve_copy copyIssuer value_of slices.
Defined.
End IssuerRow.
Export (hints) IssuerRow.

Module NotificationEndpointRow.
Record t := mk { plain : NotificationEndpoint; at_EventTypes : Slice; }.
Definition value_of (h : Heap) (r : t) : NotificationEndpoint :=
  mkNotificationEndpoint (NotificationEndpoint_ID (plain r)) (NotificationEndpoint_Name (plain r))
    (NotificationEndpoint_Type (plain r)) (NotificationEndpoint_Status (plain r))
    (NotificationEndpoint_URL (plain r)) (NotificationEndpoint_Secret (plain r)) (read h (at_EventTypes r))
    (NotificationEndpoint_CreatedAt (plain r)) (NotificationEndpoint_UpdatedAt (plain r)).
Definition slices (r : t) : list Slice := [at_EventTypes r].
Definition copyNotificationEndpoint (r : t) : HM t :=
  new eventTypes := append_nil (at_EventTypes r) in
  retH (mk (plain r) eventTypes).
#[export] Instance sharing : Sharing t NotificationEndpoint.
Proof.
  refine {| value := value_of; refs := slices_locs ∘ slices; copy := copyNotificationEndpoint |}.
  - solve_local value_of slices.
  - solve_copy copyNotificationEndpoint value_of slices.
Defined.
End NotificationEndpointRow.
Export (hints) NotificationEndpointRow.

Module CertificateProfileRow.
Record t := mk { plain : CertificateProfile; at_AllowedDNSPatterns : Slice; at_AllowedIPRanges : Slice;
  at_AllowedKeyAlgorithms : Slice; at_AllowedSignatureAlgorithms : Slice; at_KeyUsage : Slice;
  at_ExtendedKeyUsage : Slice; at_MaxPathLen : option Loc; }.
Definition value_of (h : Heap) (r : t) : CertificateProfile :=
  mkCertificateProfile (CertificateProfile_ID (plain r)) (CertificateProfile_Name (plain r))
    (CertificateProfile_Description (plain r)) (CertificateProfile_IssuerID (plain r))
    (CertificateProfile_ValidityPeriodSeconds (plain r)) (CertificateProfile_PublicTLS (plain r))
    (CertificateProfile_SubjectTemplate (plain r)) (read h (at_AllowedDNSPatterns r))
    (read h (at_AllowedIPRanges r)) (read h (at_AllowedKeyAlgorithms r))
    (CertificateProfile_MinKeySizeBits (plain r)) (read h (at_AllowedSignatureAlgorithms r))
    (mkStringListExtensionPolicy (StringListExtensionPolicy_Critical (CertificateProfile_KeyUsage (plain r))) (read h (at_KeyUsage r)))
    (mkStringListExtensionPolicy (StringListExtensionPolicy_Critical (CertificateProfile_ExtendedKeyUsage (plain r))) (read h (at_ExtendedKeyUsage r)))
    (mkBasicConstraintsPolicy (BasicConstraintsPolicy_Critical (CertificateProfile_BasicConstraints (plain r))) (BasicConstraintsPolicy_CA (CertificateProfile_BasicConstraints (plain r))) (at_MaxPathLen r ≫= λ l, h_ints h !! l))
    (CertificateProfile_SubjectKeyIdentifier (plain r))
    (CertificateProfile_AuthorityKeyIdentifier (plain r)) (CertificateProfile_CreatedAt (plain r))
    (CertificateProfile_UpdatedAt (plain r)).
Definition slices (r : t) : list Slice := [at_AllowedDNSPatterns r; at_AllowedIPRanges r;
  at_AllowedKeyAlgorithms r; at_AllowedSignatureAlgorithms r; at_KeyUsage r; at_ExtendedKeyUsage r].
Definition copyCertificateProfile (r : t) : HM t :=
  new allowedDNSPatterns := append_nil (at_AllowedDNSPatterns r) in
  new allowedIPRanges := append_nil (at_AllowedIPRanges r) in
  new allowedKeyAlgorithms := append_nil (at_AllowedKeyAlgorithms r) in
  new allowedSignatureAlgorithms := append_nil (at_AllowedSignatureAlgorithms r) in
  new keyUsage := append_nil (at_KeyUsage r) in
  new extendedKeyUsage := append_nil (at_ExtendedKeyUsage r) in
  retH (mk (plain r) allowedDNSPatterns allowedIPRanges allowedKeyAlgorithms allowedSignatureAlgorithms
    keyUsage extendedKeyUsage (at_MaxPathLen r)).
#[export] Instance sharing : Sharing t CertificateProfile.
Proof.
  refine {| value := value_of; refs := slices_locs ∘ slices; copy := copyCertificateProfile |}.
  - solve_local value_of slices.
  - solve_copy copyCertificateProfile value_of slices.
Defined.
End CertificateProfileRow.
Export (hints) CertificateProfileRow.

Module EnrollmentRow.
Record t := mk { plain : Enrollment; at_RequestedDNSNames : Slice; at_RequestedIPAddresses : Slice;
  at_CSRDNSNames : Slice; at_CSRIPAddresses : Slice; }.
Definition value_of (h : Heap) (r : t) : Enrollment :=
  mkEnrollment (Enrollment_ID (plain r)) (Enrollment_IdentityID (plain r)) (Enrollment_IssuerID (plain r))
    (Enrollment_CertificateProfileID (plain r)) (Enrollment_SourceCertificateID (plain r))
    (Enrollment_CSRPEM (plain r)) (Enrollment_Status (plain r)) (Enrollment_RequestedSubject (plain r))
    (read h (at_RequestedDNSNames r)) (read h (at_RequestedIPAddresses r)) (read h (at_CSRDNSNames r))
    (read h (at_CSRIPAddresses r)) (Enrollment_RequestedNotAfter (plain r))
    (Enrollment_ApprovedBy (plain r)) (Enrollment_ApprovedAt (plain r)) (Enrollment_CreatedAt (plain r))
    (Enrollment_UpdatedAt (plain r)).
Definition slices (r : t) : list Slice := [at_RequestedDNSNames r; at_RequestedIPAddresses r;
  at_CSRDNSNames r; at_CSRIPAddresses r].
Definition copyEnrollment (r : t) : HM t :=
  new requestedDNSNames := append_nil (at_RequestedDNSNames r) in
  new requestedIPAddresses := append_nil (at_RequestedIPAddresses r) in
  new csrDNSNames := append_nil (at_CSRDNSNames r) in
  new csrIPAddresses := append_nil (at_CSRIPAddresses r) in
  retH (mk (plain r) requestedDNSNames requestedIPAddresses csrDNSNames csrIPAddresses).
#[export] Instance sharing : Sharing t Enrollment.
Proof.
  refine {| value := value_of; refs := slices_locs ∘ slices; copy := copyEnrollment |}.
  - solve_local value_of slices.
  - solve_copy copyEnrollment value_of slices.
Defined.
End EnrollmentRow.
Export (hints) EnrollmentRow.

Module CertificateRow.
Record t := mk { plain : Certificate; at_DNSNames : Slice; at_IPAddresses : Slice; }.
Definition value_of (h : Heap) (r : t) : Certificate :=
  mkCertificate (Certificate_ID (plain r)) (Certificate_IdentityID (plain r))
    (Certificate_IssuerID (plain r)) (Certificate_EnrollmentID (plain r))
    (Certificate_CertificateProfileID (plain r)) (Certificate_SerialNumber (plain r))
    (Certificate_Subject (plain r)) (read h (at_DNSNames r)) (read h (at_IPAddresses r))
    (Certificate_NotBefore (plain r)) (Certificate_NotAfter (plain r)) (Certificate_Status (plain r))
    (Certificate_CertificatePEM (plain r)) (Certificate_RenewalNotifiedAt (plain r))
    (Certificate_CreatedAt (plain r)) (Certificate_UpdatedAt (plain r)).
Definition slices (r : t) : list Slice := [at_DNSNames r; at_IPAddresses r].
Definition copyCertificate (r : t) : HM t :=
  new dnsNames := append_nil (at_DNSNames r) in
  new ipAddresses := append_nil (at_IPAddresses r) in
  retH (mk (plain r) dnsNames ipAddresses).
#[export] Instance sharing : Sharing t Certificate.
Proof.
  refine {| value := value_of; refs := slices_locs ∘ slices; copy := copyCertificate |}.
  - solve_local value_of slices.
  - solve_copy copyCertificate value_of slices.
Defined.
End CertificateRow.
Export (hints) CertificateRow.

Module APIKeyRow.
Record t := mk { plain : APIKey; at_Scopes : Slice; }.
Definition value_of (h : Heap) (r : t) : APIKey :=
  mkAPIKey (APIKey_ID (plain r)) (APIKey_Name (plain r)) (APIKey_TokenHash (plain r))
    (APIKey_Status (plain r)) (APIKey_Actor (plain r)) (read h (at_Scopes r)) (APIKey_ExpiresAt (plain r))
    (APIKey_LastUsedAt (plain r)) (APIKey_CreatedAt (plain r)) (APIKey_UpdatedAt (plain r)).
Definition slices (r : t) : list Slice := [at_Scopes r].
Definition copyAPIKey (r : t) : HM t :=
  new scopes := append_nil (at_Scopes r) in
  retH (mk (plain r) scopes).
#[export] Instance sharing : Sharing t APIKey.
Proof.
  refine {| value := value_of; refs := slices_locs ∘ slices; copy := copyAPIKey |}.
  - solve_local value_of slices.
  - solve_copy copyAPIKey value_of slices.
Defined.
End APIKeyRow.
Export (hints) APIKeyRow.

Module ACMEAccountRow.
Record t := mk { plain : ACMEAccount; at_Contacts : Slice; }.
Definition value_of (h : Heap) (r : t) : ACMEAccount :=
  mkACMEAccount (ACMEAccount_ID (plain r)) (read h (at_Contacts r)) (ACMEAccount_Status (plain r))
    (ACMEAccount_TermsOfServiceAgreed (plain r)) (ACMEAccount_KeyThumbprint (plain r))
    (ACMEAccount_KeyJWKJSON (plain r)) (ACMEAccount_CreatedAt (plain r)) (ACMEAccount_UpdatedAt (plain r)).
Definition slices (r : t) : list Slice := [at_Contacts r].
Definition copyACMEAccount (r : t) : HM t :=
  new contacts := append_nil (at_Contacts r) in
  retH (mk (plain r) contacts).
#[export] Instance sharing : Sharing t ACMEAccount.
Proof.
  refine {| value := value_of; refs := slices_locs ∘ slices; copy := copyACMEAccount |}.
  - solve_local value_of slices.
  - solve_copy copyACMEAccount value_of slices.
Defined.
End ACMEAccountRow.
Export (hints) ACMEAccountRow.

Module ACMEOrderRow.
Record t := mk { plain : ACMEOrder; at_RequestedDNSNames : Slice; at_RequestedIPAddresses : Slice; }.
Definition value_of (h : Heap) (r : t) : ACMEOrder :=
  mkACMEOrder (ACMEOrder_ID (plain r)) (ACMEOrder_AccountID (plain r)) (ACMEOrder_IdentityID (plain r))
    (ACMEOrder_IssuerID (plain r)) (ACMEOrder_CertificateProfileID (plain r)) (ACMEOrder_Status (plain r))
    (ACMEOrder_CSRPEM (plain r)) (ACMEOrder_RequestedSubject (plain r)) (read h (at_RequestedDNSNames r))
    (read h (at_RequestedIPAddresses r)) (ACMEOrder_RequestedNotAfter (plain r))
    (ACMEOrder_EnrollmentID (plain r)) (ACMEOrder_CertificateID (plain r)) (ACMEOrder_ExpiresAt (plain r))
    (ACMEOrder_CreatedAt (plain r)) (ACMEOrder_UpdatedAt (plain r)).
Definition slices (r : t) : list Slice := [at_RequestedDNSNames r; at_RequestedIPAddresses r].
Definition copyACMEOrder (r : t) : HM t :=
  new requestedDNSNames := append_nil (at_RequestedDNSNames r) in
  new requestedIPAddresses := append_nil (at_RequestedIPAddresses r) in
  retH (mk (plain r) requestedDNSNames requestedIPAddresses).
#[export] Instance sharing : Sharing t ACMEOrder.
Proof.
  refine {| value := value_of; refs := slices_locs ∘ slices; copy := copyACMEOrder |}.
  - solve_local value_of slices.
  - solve_copy copyACMEOrder value_of slices.
Defined.
End ACMEOrderRow.
Export (hints) ACMEOrderRow.


(** ** Tables *)

Section Tables.
Context `{Sharing R A}.
Implicit Types (t : gmap string R) (h : Heap).

Fixpoint cloneRows (rows : list (string * R)) : HM (gmap string R) :=
  match rows with
  | [] => retH ∅
  | (id, r) :: rows => new dst := cloneRows rows in new row := copy r in retH (<[id := row]> dst)
  end.
Definition cloneTable (src : gmap string R) : HM (gmap string R) := cloneRows (map_to_list src).

(** *** Callers *)




(** *** A store of values *)


(** *** The simulation *)








End Tables.

(** ** The copies of a transaction *)

Definition cloneIdentities : gmap string IdentityRow.t → HM (gmap string IdentityRow.t) := cloneTable.
Definition cloneIssuers : gmap string IssuerRow.t → HM (gmap string IssuerRow.t) := cloneTable.
Definition cloneNotificationEndpoints : gmap string NotificationEndpointRow.t → HM (gmap string NotificationEndpointRow.t) := cloneTable.
Definition cloneCertificateProfiles : gmap string CertificateProfileRow.t → HM (gmap string CertificateProfileRow.t) := cloneTable.
Definition cloneEnrollments : gmap string EnrollmentRow.t → HM (gmap string EnrollmentRow.t) := cloneTable.
Definition cloneCertificates : gmap string CertificateRow.t → HM (gmap string CertificateRow.t) := cloneTable.
Definition cloneAPIKeys : gmap string APIKeyRow.t → HM (gmap string APIKeyRow.t) := cloneTable.
Definition cloneACMEAccounts : gmap string ACMEAccountRow.t → HM (gmap string ACMEAccountRow.t) := cloneTable.
Definition cloneACMEOrders : gmap string ACMEOrderRow.t → HM (gmap string ACMEOrderRow.t) := cloneTable.
(** Rows without slices are copied by assignment. *)
Definition cloneOCSPResponders (src : gmap string OCSPResponder) : HM (gmap string OCSPResponder) := cloneTable (H:=plain_sharing OCSPResponder) src.
Definition cloneIssuanceAttempts (src : gmap string IssuanceAttempt) : HM (gmap string IssuanceAttempt) := cloneTable (H:=plain_sharing IssuanceAttempt) src.
Definition cloneRevocations (src : gmap string Revocation) : HM (gmap string Revocation) := cloneTable (H:=plain_sharing Revocation) src.
Definition cloneCRLPublications (src : gmap string CRLPublication) : HM (gmap string CRLPublication) := cloneTable (H:=plain_sharing CRLPublication) src.
Definition cloneCRLGenerationClaims (src : gmap string CRLGenerationClaim) : HM (gmap string CRLGenerationClaim) := cloneTable (H:=plain_sharing CRLGenerationClaim) src.
Definition cloneOutboxMessages (src : gmap string OutboxMessage) : HM (gmap string OutboxMessage) := cloneTable (H:=plain_sharing OutboxMessage) src.
Definition cloneJobAttempts (src : gmap string JobAttempt) : HM (gmap string JobAttempt) := cloneTable (H:=plain_sharing JobAttempt) src.
Definition cloneWebhookDeliveries (src : gmap string WebhookDelivery) : HM (gmap string WebhookDelivery) := cloneTable (H:=plain_sharing WebhookDelivery) src.
Definition cloneACMEAuthorizations (src : gmap string ACMEAuthorization) : HM (gmap string ACMEAuthorization) := cloneTable (H:=plain_sharing ACMEAuthorization) src.
Definition cloneACMEChallenges (src : gmap string ACMEChallenge) : HM (gmap string ACMEChallenge) := cloneTable (H:=plain_sharing ACMEChallenge) src.

(** The one thing that stays shared: the copy of a profile holds the same
    pointer to the maximal path length, and follows what is written to it. *)
Lemma MaxPathLen_shared h r l m : CertificateProfileRow.at_MaxPathLen r = Some l →
  let '(row, h') := CertificateProfileRow.copyCertificateProfile r h in
  let written := mkHeap (h_arrays h') (<[l := m]> (h_ints h')) (h_next h') in
  BasicConstraintsPolicy_MaxPathLen (CertificateProfile_BasicConstraints (value written row)) = Some m.
Proof.
  intros Hl. unfold CertificateProfileRow.copyCertificateProfile, bindH, retH.
  repeat match goal with |- context [append_nil ?s ?h] => destruct (append_nil s h) end.
  cbn. rewrite Hl. cbn. apply lookup_insert_eq.
Qed.

(** ** A sample *)


