(* ===== verification/StoreInv.v ===== *)
(** * Invariants of the repository

    What every sequence of repository calls keeps true of the store: each row
    is filed under its own key, the uniqueness rules the store enforces hold
    (one certificate per enrollment and per issuer serial number, one active
    OCSP responder per issuer, one CRL number per distribution point, one
    account per ACME key) and the audit chain verifies. Also: the laws of the
    compare-and-set updates, the specification of the due-message query, and
    the queries whose result does not depend on the iteration order of a map. *)

From S2P Require Import Prelude GoLib Crypto Domain AuditChain Store.

(** ** Compare-and-set *)

Section CompareAndSet.
Context {V : Type}.
Implicit Types (m : gmap string V) (isCurrent : V → bool).

Lemma lookupRow_ok m id err v : lookupRow m id err = Ok v ↔ m !! id = Some v.
Proof. unfold lookupRow. destruct (m !! id); split; congruence. Qed.

Lemma updateIf_cases id err isCurrent new m :
  match m !! id with
  | None => updateIf id err isCurrent new m = Err err
  | Some stored => updateIf id err isCurrent new m =
      if isCurrent stored then Ok (<[id := new]> m) else Err ErrInvalidTransition
  end.
Proof.
  unfold updateIf, lookupRow, bindR, check_not. destruct (m !! id); [|done].
  by destruct (isCurrent _).
Qed.

Lemma updateIf_ok id err isCurrent new m m' :
  updateIf id err isCurrent new m = Ok m' ↔
  ∃ stored, m !! id = Some stored ∧ isCurrent stored = true ∧ m' = <[id := new]> m.
Proof.
  pose proof (updateIf_cases id err isCurrent new m) as Hc.
  destruct (m !! id) as [stored|]; rewrite Hc.
  - destruct (isCurrent stored) eqn:E.
    + split; [intros [= <-]; eauto|]. by intros (? & [= <-] & _ & ->).
    + split; [done|]. intros (? & [= <-] & ? & _). congruence.
  - split; [done|]. by intros (? & ? & _).
Qed.

(** Two writers that read the same row: once the first has stored a row the
    second's token no longer matches, the second is refused. *)
Lemma updateIf_exclusive id err isCurrent new1 new2 m m1 :
  updateIf id err isCurrent new1 m = Ok m1 →
  isCurrent new1 = false →
  updateIf id err isCurrent new2 m1 = Err ErrInvalidTransition.
Proof.
  intros (stored & _ & _ & ->)%updateIf_ok Hnew.
  pose proof (updateIf_cases id err isCurrent new2 (<[id:=new1]> m)) as Hc.
  rewrite lookup_insert_eq in Hc. by rewrite Hc, Hnew.
Qed.
End CompareAndSet.

(** What a component that coordinates through optimistic updates relies on:
    rows carry a version token, an update is refused unless the stored token is
    the one that was read, and an accepted update changes that row only. *)
Class Versioned (V : Type) := {
  ver_key : V → string;
  ver_same : V → V → bool;
  ver_update : V → V → gmap string V → res (gmap string V);
}.

Class VersionedLaws (V : Type) `{Versioned V} : Prop := {
  ver_update_ok : ∀ new current m m',
    ver_update new current m = Ok m' ↔
    ∃ stored, m !! ver_key new = Some stored ∧ ver_same current stored = true ∧
      m' = <[ver_key new := new]> m;
  ver_same_refl : ∀ v, ver_same v v = true;
}.

Section VersionedFacts.
Context `{VersionedLaws V}.

Lemma ver_update_exclusive new1 new2 current m m1 m2 :
  ver_key new1 = ver_key new2 →
  ver_update new1 current m = Ok m1 →
  ver_same current new1 = false →
  ver_update new2 current m1 = Ok m2 → False.
Proof.
  intros Hk (s1 & _ & _ & ->)%ver_update_ok Hnew (s2 & Hs2 & Hsame & _)%ver_update_ok.
  rewrite Hk, lookup_insert_eq in Hs2. congruence.
Qed.

Lemma ver_update_fresh new current m :
  m !! ver_key new = Some current → ver_update new current m = Ok (<[ver_key new := new]> m).
Proof. intros Hm. apply ver_update_ok. exists current. by rewrite ver_same_refl. Qed.

Lemma ver_update_other new current m m' k :
  ver_update new current m = Ok m' → k ≠ ver_key new → m' !! k = m !! k.
Proof. intros (? & _ & _ & ->)%ver_update_ok Hk. by rewrite lookup_insert_ne. Qed.
End VersionedFacts.

#[global] Instance attempt_versioned : Versioned IssuanceAttempt := {
  ver_key := IssuanceAttempt_EnrollmentID;
  ver_same := sameIssuanceAttempt;
  ver_update := updateIssuanceAttemptIfCurrent;
}.
#[global] Instance claim_versioned : Versioned CRLGenerationClaim := {
  ver_key := claimKey;
  ver_same := sameCRLGenerationClaim;
  ver_update := updateCRLGenerationClaimIfCurrent;
}.
#[global] Instance outbox_versioned : Versioned OutboxMessage := {
  ver_key := OutboxMessage_ID;
  ver_same := sameOutboxMessage;
  ver_update := updateOutboxMessageIfCurrent;
}.

Ltac versioned_laws same :=
  split; [intros; cbn; apply updateIf_ok
         |intros; cbn; unfold same, TimeEqual; by rewrite ?String.eqb_refl, ?Z.eqb_refl].

#[global] Instance attempt_versioned_laws : VersionedLaws IssuanceAttempt.
Proof. versioned_laws sameIssuanceAttempt. Qed.
#[global] Instance claim_versioned_laws : VersionedLaws CRLGenerationClaim.
Proof. versioned_laws sameCRLGenerationClaim. Qed.
#[global] Instance outbox_versioned_laws : VersionedLaws OutboxMessage.
Proof. versioned_laws sameOutboxMessage. Qed.

(** ** Tables: rows under their own key, and uniqueness *)

Definition keyed {V} (id : V → string) (m : gmap string V) : Prop := map_Forall (λ k v, id v = k) m.

Definition unique_on {V} (conflict : V → V → Prop) (m : gmap string V) : Prop :=
  ∀ k1 k2 v1 v2, m !! k1 = Some v1 → m !! k2 = Some v2 → conflict v1 v2 → k1 = k2.

Section Tables.
Context {V : Type} (id : V → string).
Implicit Type m : gmap string V.

Lemma keyed_empty : keyed id ∅.
Proof. apply map_Forall_empty. Qed.

Lemma keyed_insert m v : keyed id m → keyed id (<[id v := v]> m).
Proof. intros. by apply map_Forall_insert_2. Qed.

Lemma keyed_updateIf m m' err isCurrent v :
  keyed id m → updateIf (id v) err isCurrent v m = Ok m' → keyed id m'.
Proof. intros Hk (? & _ & _ & ->)%updateIf_ok. by apply keyed_insert. Qed.

Lemma keyed_delete m k : keyed id m → keyed id (delete k m).
Proof. apply map_Forall_delete. Qed.

Lemma unique_empty (R : V → V → Prop) : unique_on R ∅.
Proof. intros k1 k2 v1 v2 Hv. by rewrite lookup_empty in Hv. Qed.

Lemma unique_insert (R : V → V → Prop) `{!Symmetric R} m v :
  keyed id m → unique_on R m →
  (∀ w, w ∈ map_values m → id w ≠ id v → ¬ R v w) →
  unique_on R (<[id v := v]> m).
Proof.
  intros Hk Hu Hnew k1 k2 v1 v2 H1 H2 HR.
  apply lookup_insert_Some in H1 as [[<- <-]|[Hn1 H1]];
    apply lookup_insert_Some in H2 as [[<- <-]|[Hn2 H2]]; auto.
  - exfalso. pose proof (Hk _ _ H2) as Hid; simpl in Hid. apply (Hnew v2); auto; [|congruence].
    apply elem_of_map_values. eauto.
  - exfalso. pose proof (Hk _ _ H1) as Hid; simpl in Hid. apply (Hnew v1); auto; [|congruence].
    apply elem_of_map_values. eauto.
  - eauto.
Qed.

(** Replacing a row by one with the same conflicts keeps uniqueness. *)
Lemma unique_replace (R : V → V → Prop) `{!Symmetric R} m v stored :
  keyed id m → unique_on R m → m !! id v = Some stored →
  (∀ w, R v w → R stored w) → unique_on R (<[id v := v]> m).
Proof.
  intros Hk Hu Hs Hsame. apply unique_insert; [done..|].
  intros w (k & Hw)%elem_of_map_values Hne HR.
  pose proof (Hk _ _ Hw) as Hid; simpl in Hid. apply Hne. rewrite Hid.
  symmetry. eapply Hu; eauto.
Qed.

(** Under [keyed], the values of a table are told apart by their key. *)
Lemma keyed_values_inj m v w :
  keyed id m → v ∈ map_values m → w ∈ map_values m → id v = id w → v = w.
Proof.
  intros Hk (k1 & H1)%elem_of_map_values (k2 & H2)%elem_of_map_values E.
  pose proof (Hk _ _ H1) as E1; pose proof (Hk _ _ H2) as E2; simpl in E1, E2. congruence.
Qed.
End Tables.

Definition cert_conflict (c1 c2 : Certificate) : Prop :=
  (Certificate_EnrollmentID c1 ≠ "" ∧ Certificate_EnrollmentID c1 = Certificate_EnrollmentID c2) ∨
  (Certificate_IssuerID c1 ≠ "" ∧ Certificate_SerialNumber c1 ≠ "" ∧
   Certificate_IssuerID c1 = Certificate_IssuerID c2 ∧
   Certificate_SerialNumber c1 = Certificate_SerialNumber c2).

Definition responder_conflict (r1 r2 : OCSPResponder) : Prop :=
  OCSPResponder_Status r1 = OCSPResponderActive ∧ OCSPResponder_Status r2 = OCSPResponderActive ∧
  OCSPResponder_IssuerID r1 = OCSPResponder_IssuerID r2.

Definition crl_conflict (p1 p2 : CRLPublication) : Prop :=
  CRLPublication_IssuerID p1 = CRLPublication_IssuerID p2 ∧
  CRLPublication_DistributionPoint p1 = CRLPublication_DistributionPoint p2 ∧
  CRLPublication_CRLNumber p1 = CRLPublication_CRLNumber p2.

Definition account_conflict (a1 a2 : ACMEAccount) : Prop :=
  ACMEAccount_KeyThumbprint a1 ≠ "" ∧ ACMEAccount_KeyThumbprint a1 = ACMEAccount_KeyThumbprint a2.

#[global] Instance cert_conflict_sym : Symmetric cert_conflict.
Proof. intros c1 c2 [[? E]|(? & ? & E1 & E2)]; [left|right]; rewrite <- ?E, <- ?E1, <- ?E2; auto. Qed.
#[global] Instance responder_conflict_sym : Symmetric responder_conflict.
Proof. intros r1 r2 (? & ? & ?). by repeat split. Qed.
#[global] Instance crl_conflict_sym : Symmetric crl_conflict.
Proof. intros p1 p2 (? & ? & ?). by repeat split. Qed.
#[global] Instance account_conflict_sym : Symmetric account_conflict.
Proof. intros a1 a2 [? E]. split; congruence. Qed.

(** ** The checks of the store decide the conflicts *)

Lemma bindR_ok {A B} (r : res A) (k : A → res B) b :
  bindR r k = Ok b ↔ ∃ a, r = Ok a ∧ k a = Ok b.
Proof. destruct r; cbn; naive_solver. Qed.

Lemma bindR_check_ok {B} cond e (k : res B) b :
  bindR (check_not cond e) (λ _, k) = Ok b ↔ cond = false ∧ k = Ok b.
Proof.
  rewrite bindR_ok. split.
  - intros ([] & H & ?). by rewrite check_not_ok in H.
  - intros [H ?]. exists tt. by rewrite check_not_ok.
Qed.

Lemma ensure_keys_ok order c :
  ensureCertificateFinalizationKeysAvailable order c = Ok tt →
  ∀ w, w ∈ order → Certificate_ID w ≠ Certificate_ID c → ¬ cert_conflict c w.
Proof.
  unfold ensureCertificateFinalizationKeysAvailable. rewrite for_checks_ok, Forall_forall.
  intros Hall w Hw Hne Hc. specialize (Hall w Hw). cbv beta in Hall. rewrite check_not_ok in Hall.
  unfold finalizationKeyConflict in Hall.
  apply String.eqb_neq in Hne. rewrite Hne in Hall; simpl in Hall.
  destruct Hc as [[Hn E]|(Hn1 & Hn2 & E1 & E2)].
  - rewrite E in Hall. rewrite String.eqb_refl, andb_true_r, <- E in Hall.
    apply String.eqb_neq in Hn. by rewrite Hn in Hall.
  - rewrite <- E1, <- E2, !String.eqb_refl, !andb_true_r in Hall.
    apply String.eqb_neq in Hn1, Hn2. rewrite Hn1, Hn2 in Hall; simpl in Hall.
    by rewrite orb_true_r in Hall.
Qed.

Lemma ensure_crl_number_ok order p :
  ensureCRLPublicationNumberAvailable order p = Ok tt →
  ∀ w, w ∈ order → CRLPublication_ID w ≠ CRLPublication_ID p → ¬ crl_conflict p w.
Proof.
  unfold ensureCRLPublicationNumberAvailable. rewrite for_checks_ok, Forall_forall.
  intros Hall w Hw Hne (E1 & E2 & E3). specialize (Hall w Hw). cbv beta in Hall.
  rewrite check_not_ok in Hall. unfold crlNumberConflict in Hall.
  apply String.eqb_neq in Hne. by rewrite Hne, E1, E2, E3, !String.eqb_refl, Z.eqb_refl in Hall.
Qed.

Lemma ensure_thumbprint_ok order a :
  ensureACMEAccountThumbprintAvailable order a = Ok tt →
  ∀ w, w ∈ order → ACMEAccount_ID w ≠ ACMEAccount_ID a → ¬ account_conflict a w.
Proof.
  unfold ensureACMEAccountThumbprintAvailable. intros H w Hw Hne [Hn E].
  apply String.eqb_neq in Hn. rewrite Hn in H. rewrite for_checks_ok, Forall_forall in H.
  specialize (H w Hw). cbv beta in H. rewrite check_not_ok in H.
  apply String.eqb_neq in Hne. by rewrite Hne, E, String.eqb_refl in H.
Qed.

Lemma isActiveResponderOf_true issuerID r :
  isActiveResponderOf issuerID r = true ↔
  OCSPResponder_IssuerID r = issuerID ∧ OCSPResponder_Status r = OCSPResponderActive.
Proof. unfold isActiveResponderOf. by rewrite andb_true_iff, !String.eqb_eq. Qed.

(** The selection finds an active responder exactly when there is one. *)
Lemma activeOCSPResponderByIssuer_spec order issuerID :
  match activeOCSPResponderByIssuer order issuerID with
  | Ok active => active ∈ order ∧ isActiveResponderOf issuerID active = true
  | Err e => e = ErrOCSPResponderNotFound ∧
      ∀ r, r ∈ order → isActiveResponderOf issuerID r = false
  end.
Proof.
  unfold activeOCSPResponderByIssuer.
  match goal with |- context [fold_left ?f order None] => set (pick := f) end.
  assert (∀ acc, match fold_left pick order acc with
    | Some a => acc = Some a ∨ (a ∈ order ∧ isActiveResponderOf issuerID a = true)
    | None => acc = None ∧ ∀ r, r ∈ order → isActiveResponderOf issuerID r = false
    end) as Hgen.
  { induction order as [|r order IH]; intros acc; simpl.
    - destruct acc; [by left|]. split; [done|]. by intros r ?%not_elem_of_nil.
    - specialize (IH (pick acc r)). destruct (fold_left pick order (pick acc r)) as [a|].
      + destruct IH as [IH|[? ?]]; [|right; split; [by right|done]].
        unfold pick in IH. destruct (isActiveResponderOf issuerID r) eqn:E; simpl in IH; [|by left].
        destruct acc as [active|].
        * case_head IH; [|by left]. simplify_eq. right. split; [left|done].
        * simplify_eq. right. split; [left|done].
      + destruct IH as [Hn Hall]. unfold pick in Hn.
        destruct (isActiveResponderOf issuerID r) eqn:E; simpl in Hn.
        * destruct acc; [case_head Hn|]; discriminate.
        * split; [done|]. intros r' [->|?]%elem_of_cons; auto. }
  specialize (Hgen None). destruct (fold_left pick order None) as [a|].
  - by destruct Hgen as [|?].
  - by destruct Hgen.
Qed.

Lemma no_other_active order r :
  (∀ a, activeOCSPResponderByIssuer order (OCSPResponder_IssuerID r) = Ok a → False) →
  ∀ w, w ∈ order → ¬ responder_conflict r w.
Proof.
  intros Hno w Hw (Hr & Hwa & Hi).
  pose proof (activeOCSPResponderByIssuer_spec order (OCSPResponder_IssuerID r)) as Hs.
  destruct (activeOCSPResponderByIssuer _ _) as [a|e]; [by eapply Hno|].
  destruct Hs as [_ Hall]. specialize (Hall w Hw).
  apply not_true_iff_false in Hall. apply Hall. by rewrite isActiveResponderOf_true.
Qed.

(** ** The invariant *)

Section Invariant.
Context `{GoCodec}.

Record store_inv (s : MemoryStore) : Prop := {
  inv_identities : keyed Identity_ID (ms_identities s);
  inv_issuers : keyed Issuer_ID (ms_issuers s);
  inv_ocspResponders : keyed OCSPResponder_ID (ms_ocspResponders s);
  inv_notifications : keyed NotificationEndpoint_ID (ms_notifications s);
  inv_profiles : keyed CertificateProfile_ID (ms_profiles s);
  inv_enrollments : keyed Enrollment_ID (ms_enrollments s);
  inv_certificates : keyed Certificate_ID (ms_certificates s);
  inv_revocations : keyed Revocation_ID (ms_revocations s);
  inv_crls : keyed CRLPublication_ID (ms_crls s);
  inv_outbox : keyed OutboxMessage_ID (ms_outbox s);
  inv_jobAttempts : keyed JobAttempt_ID (ms_jobAttempts s);
  inv_apiKeys : keyed APIKey_ID (ms_apiKeys s);
  inv_acmeAccounts : keyed ACMEAccount_ID (ms_acmeAccounts s);
  inv_acmeOrders : keyed ACMEOrder_ID (ms_acmeOrders s);
  inv_acmeAuthzs : keyed ACMEAuthorization_ID (ms_acmeAuthzs s);
  inv_acmeChallenges : keyed ACMEChallenge_ID (ms_acmeChallenges s);
  inv_issuanceAttempts : keyed IssuanceAttempt_EnrollmentID (ms_issuanceAttempts s);
  inv_crlClaims : keyed claimKey (ms_crlClaims s);
  inv_webhookDeliveries : keyed deliveryKey (ms_webhookDeliveries s);
  inv_cert_unique : unique_on cert_conflict (ms_certificates s);
  inv_responder_unique : unique_on responder_conflict (ms_ocspResponders s);
  inv_crl_unique : unique_on crl_conflict (ms_crls s);
  inv_account_unique : unique_on account_conflict (ms_acmeAccounts s);
  inv_audit : audit_inv (ms_audit s);
}.

(** A replacement row keeps the keys that make a certificate unique. *)
Definition same_certificate_keys (s : MemoryStore) (c : Certificate) : Prop :=
  ∀ stored, ms_certificates s !! Certificate_ID c = Some stored →
    Certificate_EnrollmentID c = Certificate_EnrollmentID stored ∧
    Certificate_IssuerID c = Certificate_IssuerID stored ∧
    Certificate_SerialNumber c = Certificate_SerialNumber stored.

(** One call of a repository method that can change the store, whatever it
    returns. Updates of a certificate keep its enrollment, issuer and serial
    number, as every caller does. *)
Inductive repo_step : MemoryStore → MemoryStore → Prop :=
| step_CreateIdentity x s : repo_step s (CreateIdentity x s).2
| step_CreateIssuer x s : repo_step s (CreateIssuer x s).2
| step_CreateOCSPResponder x s : repo_step s (CreateOCSPResponder x s).2
| step_CreateNotificationEndpoint x s : repo_step s (CreateNotificationEndpoint x s).2
| step_CreateCertificateProfile x s : repo_step s (CreateCertificateProfile x s).2
| step_CreateEnrollment x s : repo_step s (CreateEnrollment x s).2
| step_UpdateEnrollment x s : repo_step s (UpdateEnrollment x s).2
| step_CreateCertificate x s : repo_step s (CreateCertificate x s).2
| step_CreateIssuanceAttempt x s : repo_step s (CreateIssuanceAttempt x s).2
| step_CreateRevocation x s : repo_step s (CreateRevocation x s).2
| step_CreateCRLPublication x s : repo_step s (CreateCRLPublication x s).2
| step_CreateCRLGenerationClaim x s : repo_step s (CreateCRLGenerationClaim x s).2
| step_DeleteCRLGenerationClaimIfCurrent x s : repo_step s (DeleteCRLGenerationClaimIfCurrent x s).2
| step_CreateOutboxMessage x s : repo_step s (CreateOutboxMessage x s).2
| step_CreateJobAttempt x s : repo_step s (CreateJobAttempt x s).2
| step_UpsertWebhookDelivery x s : repo_step s (UpsertWebhookDelivery x s).2
| step_CreateAPIKey x s : repo_step s (CreateAPIKey x s).2
| step_CreateACMEAccount x s : repo_step s (CreateACMEAccount x s).2
| step_CreateACMEOrder x s : repo_step s (CreateACMEOrder x s).2
| step_CreateACMEAuthorization x s : repo_step s (CreateACMEAuthorization x s).2
| step_CreateACMEChallenge x s : repo_step s (CreateACMEChallenge x s).2
| step_CreateAuditEvent x s : repo_step s (CreateAuditEvent x s).2
| step_DeleteAuditEventsBefore x s : repo_step s (DeleteAuditEventsBefore x s).2
| step_UpdateOCSPResponderIfStatus x cur s : repo_step s (UpdateOCSPResponderIfStatus x cur s).2
| step_UpdateNotificationEndpointIfStatus x cur s : repo_step s (UpdateNotificationEndpointIfStatus x cur s).2
| step_UpdateEnrollmentIfStatus x cur s : repo_step s (UpdateEnrollmentIfStatus x cur s).2
| step_UpdateOutboxMessageStatusIfStatus x cur s : repo_step s (UpdateOutboxMessageStatusIfStatus x cur s).2
| step_UpdateAPIKeyIfStatus x cur s : repo_step s (UpdateAPIKeyIfStatus x cur s).2
| step_UpdateACMEAccountIfStatus x cur s : repo_step s (UpdateACMEAccountIfStatus x cur s).2
| step_UpdateACMEOrderIfStatus x cur s : repo_step s (UpdateACMEOrderIfStatus x cur s).2
| step_UpdateACMEAuthorizationIfStatus x cur s : repo_step s (UpdateACMEAuthorizationIfStatus x cur s).2
| step_UpdateACMEChallengeIfStatus x cur s : repo_step s (UpdateACMEChallengeIfStatus x cur s).2
| step_UpdateIssuanceAttemptIfCurrent x cur s : repo_step s (UpdateIssuanceAttemptIfCurrent x cur s).2
| step_UpdateCRLGenerationClaimIfCurrent x cur s : repo_step s (UpdateCRLGenerationClaimIfCurrent x cur s).2
| step_UpdateOutboxMessageIfCurrent x cur s : repo_step s (UpdateOutboxMessageIfCurrent x cur s).2
| step_UpdateCertificateProfileIssuerIfCurrent x i t s :
    repo_step s (UpdateCertificateProfileIssuerIfCurrent x i t s).2
| step_UpdateCertificate x s :
    same_certificate_keys s x → repo_step s (UpdateCertificate x s).2
| step_UpdateCertificateIfStatus x cur s :
    same_certificate_keys s x → repo_step s (UpdateCertificateIfStatus x cur s).2.

(** A table update that either keeps the table or leaves one that satisfies
    the table's share of the invariant. *)
Lemma putRows_cases {V} (tbl : MemoryStore → gmap string V) set f s :
  (∃ e, f (tbl s) = Err e ∧ putRows tbl set f s = (Err e, s)) ∨
  (∃ m, f (tbl s) = Ok m ∧ putRows tbl set f s = (Ok tt, set m s)).
Proof. unfold putRows. destruct (f (tbl s)); [right|left]; eauto. Qed.

Ltac keep_others Hinv :=
  destruct Hinv; split; simpl; try done.

Ltac table_case Hinv :=
  match goal with
  | |- store_inv (snd (putRows ?tbl ?set ?f ?s)) =>
      destruct (putRows_cases tbl set f s) as [(e & Hf & ->)|(m & Hf & ->)];
      [exact Hinv|]
  end.

(** Insertions and compare-and-set updates without a uniqueness rule. *)
Ltac plain_table Hinv :=
  lazymatch goal with |- store_inv (snd ?t) => let f := head_of t in unfold f end;
  table_case Hinv;
  match goal with
  | Hf : _ = Ok _ |- _ =>
      keep_others Hinv; first [injection Hf as <-; by apply keyed_insert
                              |by eapply keyed_updateIf; [|exact Hf]]
  end.

Lemma keyed_lookup_ID {V} (id : V → string) (m : gmap string V) k v :
  keyed id m → m !! k = Some v → id v = k.
Proof. intros Hk Hm. exact (Hk k v Hm). Qed.

Lemma inv_CreateOCSPResponder x s : store_inv s → store_inv (CreateOCSPResponder x s).2.
Proof.
  intros Hinv. unfold CreateOCSPResponder. table_case Hinv.
  apply bindR_check_ok in Hf as [Hc [= <-]].
  keep_others Hinv; [by apply keyed_insert|].
  apply unique_insert; [apply _|done..|]. intros w Hw _ Hconf.
  pose proof Hconf as (Ha & _). rewrite Ha, String.eqb_refl in Hc; simpl in Hc.
  eapply no_other_active; eauto. intros a Ea. by rewrite Ea in Hc.
Qed.

Lemma inv_UpdateOCSPResponder x cur s :
  store_inv s → store_inv (UpdateOCSPResponderIfStatus x cur s).2.
Proof.
  intros Hinv. unfold UpdateOCSPResponderIfStatus. table_case Hinv.
  unfold updateOCSPResponderIfStatus in Hf.
  apply bindR_ok in Hf as (stored & _ & Hf). apply bindR_check_ok in Hf as [_ Hf].
  apply bindR_check_ok in Hf as [Hc [= <-]].
  keep_others Hinv; [by apply keyed_insert|].
  apply unique_insert; [apply _|done..|]. intros w Hw Hne Hconf.
  pose proof Hconf as (Ha & Hwa & Hi). rewrite Ha, String.eqb_refl in Hc; simpl in Hc.
  pose proof (activeOCSPResponderByIssuer_spec (map_values (ms_ocspResponders s))
    (OCSPResponder_IssuerID x)) as Hs.
  destruct (activeOCSPResponderByIssuer _ _) as [a|e].
  - bool_prop. destruct Hs as [Hin [Hai Has]%isActiveResponderOf_true].
    apply Hne. rewrite <- Hc.
    apply elem_of_map_values in Hw as (k1 & Hk1), Hin as (k2 & Hk2).
    rewrite (keyed_lookup_ID _ _ _ _ inv_ocspResponders0 Hk1),
      (keyed_lookup_ID _ _ _ _ inv_ocspResponders0 Hk2).
    eapply inv_responder_unique0; eauto. repeat split; congruence.
  - destruct Hs as [_ Hall]. specialize (Hall w Hw).
    apply not_true_iff_false in Hall. apply Hall. by rewrite isActiveResponderOf_true.
Qed.

Lemma inv_CreateCertificate x s : store_inv s → store_inv (CreateCertificate x s).2.
Proof.
  intros Hinv. unfold CreateCertificate. table_case Hinv.
  apply bindR_ok in Hf as ([] & Hc & [= <-]).
  keep_others Hinv; [by apply keyed_insert|].
  apply unique_insert; [apply _|done..|]. by apply ensure_keys_ok.
Qed.

Lemma inv_updateCertificate err isCurrent x s :
  same_certificate_keys s x → store_inv s →
  store_inv (putRows ms_certificates set_certificates
    (updateIf (Certificate_ID x) err isCurrent x) s).2.
Proof.
  intros Hkeys Hinv. table_case Hinv.
  pose proof Hf as (stored & Hst & _ & ->)%updateIf_ok.
  keep_others Hinv; [by apply keyed_insert|].
  eapply unique_replace; [apply _|done..|].
  destruct (Hkeys _ Hst) as (E1 & E2 & E3). unfold cert_conflict. by rewrite E1, E2, E3.
Qed.

Lemma inv_CreateCRLPublication x s : store_inv s → store_inv (CreateCRLPublication x s).2.
Proof.
  intros Hinv. unfold CreateCRLPublication. table_case Hinv.
  apply bindR_ok in Hf as ([] & Hc & [= <-]).
  keep_others Hinv; [by apply keyed_insert|].
  apply unique_insert; [apply _|done..|]. by apply ensure_crl_number_ok.
Qed.

Lemma inv_putACMEAccount x f s :
  (∀ m m', f m = Ok m' →
     ensureACMEAccountThumbprintAvailable (map_values m) x = Ok tt ∧
     m' = <[ACMEAccount_ID x := x]> m) →
  store_inv s → store_inv (putRows ms_acmeAccounts set_acmeAccounts f s).2.
Proof.
  intros Hspec Hinv. table_case Hinv. apply Hspec in Hf as [Hc ->].
  keep_others Hinv; [by apply keyed_insert|].
  apply unique_insert; [apply _|done..|]. by apply ensure_thumbprint_ok.
Qed.

Lemma inv_createKeyed_attempt x s : store_inv s → store_inv (CreateIssuanceAttempt x s).2.
Proof.
  intros Hinv. unfold CreateIssuanceAttempt. table_case Hinv.
  unfold createIssuanceAttempt in Hf. case_head Hf; [done|]. injection Hf as <-.
  keep_others Hinv. by apply keyed_insert.
Qed.

Lemma inv_createKeyed_claim x s : store_inv s → store_inv (CreateCRLGenerationClaim x s).2.
Proof.
  intros Hinv. unfold CreateCRLGenerationClaim. table_case Hinv.
  unfold createCRLGenerationClaim in Hf. case_head Hf; [done|]. injection Hf as <-.
  keep_others Hinv. by apply keyed_insert.
Qed.

Lemma inv_deleteClaim x s :
  store_inv s → store_inv (DeleteCRLGenerationClaimIfCurrent x s).2.
Proof.
  intros Hinv. unfold DeleteCRLGenerationClaimIfCurrent. table_case Hinv.
  unfold deleteCRLGenerationClaimIfCurrent in Hf.
  apply bindR_ok in Hf as (stored & _ & Hf). apply bindR_check_ok in Hf as [_ [= <-]].
  keep_others Hinv. by apply keyed_delete.
Qed.

Lemma inv_onAudit {A} (f : GoM AuditLog A) s :
  (∀ log, audit_step log (f log).2) → store_inv s → store_inv (onAudit f s).2.
Proof.
  intros Hf Hinv. unfold onAudit. specialize (Hf (ms_audit s)).
  destruct (f (ms_audit s)) as [r log]; simpl in *.
  keep_others Hinv. by eapply audit_step_inv.
Qed.

Lemma repo_step_inv s s' : store_inv s → repo_step s s' → store_inv s'.
Proof.
  intros Hinv Hstep. destruct Hstep;
    eauto using inv_CreateOCSPResponder, inv_UpdateOCSPResponder, inv_CreateCertificate,
      inv_updateCertificate, inv_CreateCRLPublication, inv_createKeyed_attempt,
      inv_createKeyed_claim, inv_deleteClaim; try solve [plain_table Hinv].
  - apply (inv_putACMEAccount x); [|done]. intros m m' Hf. by apply bindR_ok in Hf as ([] & ? & [= <-]).
  - apply inv_onAudit; [|done]. constructor.
  - apply inv_onAudit; [|done]. constructor.
  - apply (inv_putACMEAccount x); [|done]. intros m m' Hf. unfold updateACMEAccountIfStatus in Hf.
    apply bindR_ok in Hf as (? & _ & Hf). apply bindR_check_ok in Hf as [_ Hf].
    by apply bindR_ok in Hf as ([] & ? & [= <-]).
Qed.

Lemma store_inv_new : store_inv NewMemoryStore.
Proof. split; simpl; auto using keyed_empty, unique_empty, audit_inv_empty. Qed.

Lemma repo_steps_inv s s' : rtc repo_step s s' → store_inv s → store_inv s'.
Proof. induction 1; eauto using repo_step_inv. Qed.

End Invariant.
