(* ===== verification/Repository.v ===== *)
(** * The repository interface ([store/store.go])

    The queries of the list operations and the interfaces of the repository, as
    classes over the monad of an implementation. [WithinTx] takes a computation
    over the same repository. The implementations are in [Repositories]. *)

From S2P Require Import Prelude GoLib Crypto Domain AuditChain Store.

Record IdentityQuery := mkIdentityQuery {
  iq_Owner : string;
  iq_Team : string;
  iq_Service : string;
  iq_Environment : string;
  iq_Sort : string;
  iq_Limit : Z;
  iq_Offset : Z;
}.

Record EnrollmentQuery := mkEnrollmentQuery {
  eq_IdentityID : string;
  eq_IssuerID : string;
  eq_ProfileID : string;
  eq_Status : EnrollmentStatus;
  eq_Sort : string;
  eq_Limit : Z;
  eq_Offset : Z;
}.

Record CertificateQuery := mkCertificateQuery {
  cq_Owner : string;
  cq_Team : string;
  cq_Service : string;
  cq_Environment : string;
  cq_IssuerID : string;
  cq_ProfileID : string;
  cq_SAN : string;
  cq_RevocationState : string;
  cq_RenewalState : string;
  cq_ExpiresAfter : Time;
  cq_ExpiresBefore : Time;
  cq_Sort : string;
  cq_Limit : Z;
  cq_Offset : Z;
}.

Record OutboxMessageQuery := mkOutboxMessageQuery {
  omq_Status : OutboxMessageStatus;
  omq_Type : string;
  omq_CreatedFrom : Time;
  omq_CreatedTo : Time;
  omq_Sort : string;
  omq_Limit : Z;
  omq_Offset : Z;
}.

Class IdentityRepository (M : Type → Type) := {
  repo_CreateIdentity : Identity → M unit;
  repo_GetIdentity : string → M Identity;
  repo_ListIdentities : M (list Identity);
}.

Class IssuerRepository (M : Type → Type) := {
  repo_CreateIssuer : Issuer → M unit;
  repo_GetIssuer : string → M Issuer;
  repo_ListIssuers : M (list Issuer);
}.

Class OCSPResponderRepository (M : Type → Type) := {
  repo_CreateOCSPResponder : OCSPResponder → M unit;
  repo_GetOCSPResponder : string → M OCSPResponder;
  repo_ListOCSPRespondersByIssuer : string → M (list OCSPResponder);
  repo_GetActiveOCSPResponderByIssuer : string → M OCSPResponder;
  repo_UpdateOCSPResponderIfStatus : OCSPResponder → OCSPResponderStatus → M unit;
}.

Class NotificationEndpointRepository (M : Type → Type) := {
  repo_CreateNotificationEndpoint : NotificationEndpoint → M unit;
  repo_GetNotificationEndpoint : string → M NotificationEndpoint;
  repo_ListNotificationEndpoints : M (list NotificationEndpoint);
  repo_UpdateNotificationEndpointIfStatus : NotificationEndpoint → NotificationEndpointStatus → M unit;
}.

Class CertificateProfileRepository (M : Type → Type) := {
  repo_CreateCertificateProfile : CertificateProfile → M unit;
  repo_GetCertificateProfile : string → M CertificateProfile;
  repo_ListCertificateProfiles : M (list CertificateProfile);
  repo_UpdateCertificateProfileIssuerIfCurrent : CertificateProfile → string → Time → M unit;
}.

Class EnrollmentRepository (M : Type → Type) := {
  repo_CreateEnrollment : Enrollment → M unit;
  repo_GetEnrollment : string → M Enrollment;
  repo_ListEnrollments : M (list Enrollment);
  repo_UpdateEnrollment : Enrollment → M unit;
  repo_UpdateEnrollmentIfStatus : Enrollment → EnrollmentStatus → M unit;
}.

Class CertificateRepository (M : Type → Type) := {
  repo_CreateCertificate : Certificate → M unit;
  repo_GetCertificate : string → M Certificate;
  repo_GetCertificateByEnrollmentID : string → M Certificate;
  repo_ListCertificates : M (list Certificate);
  repo_ListCertificateInventory : CertificateInventoryFilter → M (list CertificateInventoryRecord);
  repo_ListCertificatesExpiringWithin : Time → Time → Z → Z → M (list Certificate);
  repo_ListCertificatesForExpirationScan : Time → Time → Z → M (list Certificate);
  repo_UpdateCertificate : Certificate → M unit;
  repo_UpdateCertificateIfStatus : Certificate → CertificateStatus → M unit;
}.

Class IssuanceAttemptRepository (M : Type → Type) := {
  repo_CreateIssuanceAttempt : IssuanceAttempt → M unit;
  repo_GetIssuanceAttempt : string → M IssuanceAttempt;
  repo_UpdateIssuanceAttemptIfCurrent : IssuanceAttempt → IssuanceAttempt → M unit;
}.

Class RevocationRepository (M : Type → Type) := {
  repo_CreateRevocation : Revocation → M unit;
  repo_ListRevocationsByIssuer : string → M (list RevokedCertificateEntry);
}.

Class CRLPublicationRepository (M : Type → Type) := {
  repo_CreateCRLPublication : CRLPublication → M unit;
  repo_GetCRLPublication : string → M CRLPublication;
  repo_GetLatestCRLPublicationByIssuer : string → M CRLPublication;
  repo_ListCRLPublicationsByIssuer : string → M (list CRLPublication);
  repo_CreateCRLGenerationClaim : CRLGenerationClaim → M unit;
  repo_GetCRLGenerationClaim : string → string → M CRLGenerationClaim;
  repo_UpdateCRLGenerationClaimIfCurrent : CRLGenerationClaim → CRLGenerationClaim → M unit;
  repo_DeleteCRLGenerationClaimIfCurrent : CRLGenerationClaim → M unit;
}.

Class AuditRepository (M : Type → Type) := {
  repo_CreateAuditEvent : AuditEvent → M unit;
  repo_ListAuditEvents : M (list AuditEvent);
  repo_ListAuditEventsQuery : AuditEventQuery → M (list AuditEvent);
  repo_VerifyAuditChain : M AuditIntegrity;
  repo_DeleteAuditEventsBefore : Time → M Z;
}.

Class OutboxRepository (M : Type → Type) := {
  repo_CreateOutboxMessage : OutboxMessage → M unit;
  repo_GetOutboxMessage : string → M OutboxMessage;
  repo_ListOutboxMessages : OutboxMessageStatus → M (list OutboxMessage);
  repo_ListDueOutboxMessages : Time → Z → M (list OutboxMessage);
  repo_UpdateOutboxMessageStatusIfStatus : OutboxMessage → OutboxMessageStatus → M unit;
  repo_UpdateOutboxMessageIfCurrent : OutboxMessage → OutboxMessage → M unit;
  repo_CreateJobAttempt : JobAttempt → M unit;
  repo_ListJobAttemptsByOutboxMessage : string → M (list JobAttempt);
  repo_GetWebhookDelivery : string → string → M WebhookDelivery;
  repo_UpsertWebhookDelivery : WebhookDelivery → M unit;
}.

Class APIKeyRepository (M : Type → Type) := {
  repo_CreateAPIKey : APIKey → M unit;
  repo_GetAPIKey : string → M APIKey;
  repo_GetAPIKeyByTokenHash : string → M APIKey;
  repo_ListAPIKeys : M (list APIKey);
  repo_UpdateAPIKeyIfStatus : APIKey → APIKeyStatus → M unit;
}.

Class ACMERepository (M : Type → Type) := {
  repo_CreateACMEAccount : ACMEAccount → M unit;
  repo_GetACMEAccount : string → M ACMEAccount;
  repo_ListACMEAccounts : M (list ACMEAccount);
  repo_UpdateACMEAccountIfStatus : ACMEAccount → ACMEAccountStatus → M unit;
  repo_CreateACMEOrder : ACMEOrder → M unit;
  repo_GetACMEOrder : string → M ACMEOrder;
  repo_ListACMEOrdersByAccount : string → M (list ACMEOrder);
  repo_UpdateACMEOrderIfStatus : ACMEOrder → ACMEOrderStatus → M unit;
  repo_CreateACMEAuthorization : ACMEAuthorization → M unit;
  repo_GetACMEAuthorization : string → M ACMEAuthorization;
  repo_ListACMEAuthorizationsByOrder : string → M (list ACMEAuthorization);
  repo_UpdateACMEAuthorizationIfStatus : ACMEAuthorization → ACMEAuthorizationStatus → M unit;
  repo_CreateACMEChallenge : ACMEChallenge → M unit;
  repo_GetACMEChallenge : string → M ACMEChallenge;
  repo_ListACMEChallengesByAuthorization : string → M (list ACMEChallenge);
  repo_UpdateACMEChallengeIfStatus : ACMEChallenge → ACMEChallengeStatus → M unit;
}.

Class Repository (M : Type → Type) := {
  #[global] IdentityRepository_of :: IdentityRepository M;
  #[global] IssuerRepository_of :: IssuerRepository M;
  #[global] OCSPResponderRepository_of :: OCSPResponderRepository M;
  #[global] NotificationEndpointRepository_of :: NotificationEndpointRepository M;
  #[global] CertificateProfileRepository_of :: CertificateProfileRepository M;
  #[global] EnrollmentRepository_of :: EnrollmentRepository M;
  #[global] CertificateRepository_of :: CertificateRepository M;
  #[global] IssuanceAttemptRepository_of :: IssuanceAttemptRepository M;
  #[global] RevocationRepository_of :: RevocationRepository M;
  #[global] CRLPublicationRepository_of :: CRLPublicationRepository M;
  #[global] AuditRepository_of :: AuditRepository M;
  #[global] OutboxRepository_of :: OutboxRepository M;
  #[global] APIKeyRepository_of :: APIKeyRepository M;
  #[global] ACMERepository_of :: ACMERepository M;
  repo_WithinTx : ∀ {A}, M A → M A;
}.
