(* ===== verification/SQLTime.v ===== *)
(** * Timestamps of the SQL store ([store/sqlstore.go])

    [formatSQLTime] writes a time as fixed-width text in UTC and [parseSQLTime]
    reads it back. The store compares these texts in its statements, so the
    development shows that the text order is the order of time and that reading
    inverts writing, for the years 0 to 9999. The calendar of the [time] package
    (civil dates, the layouts used here) is modelled first. *)

From Stdlib Require Import Ascii.
From S2P Require Import Prelude GoLib.

Local Open Scope Z_scope.

(** ** Civil dates *)

Definition days_per_era : Z := 146097.

(** The month and day of a day of a year that starts on 1 March. *)
Definition month_day (doy : Z) : Z * Z :=
  let mp := (5 * doy + 2) / 153 in
  ((if Z.ltb mp 10 then mp + 3 else mp - 9), doy - (153 * mp + 2) / 5 + 1).

(** The year of a 400-year era (from 1 March of a year that 400 divides) and the
    day of the year, of a day of the era: centuries have 36524 days, four years
    1461, and the last century and the last of four years one day more. *)
Definition year_day (doe : Z) : Z * Z :=
  let c := Z.min (doe / 36524) 3 in
  let r := doe - 36524 * c in
  let q := r / 1461 in
  let r := r - 1461 * q in
  let a := Z.min (r / 365) 3 in
  (100 * c + 4 * q + a, r - 365 * a).

(** The civil date of a day, counted from 1 January of year 1. *)
Definition civil_from_days (n : Z) : Z * Z * Z :=
  let z := n + 306 in
  let '(yoe, doy) := year_day (z mod days_per_era) in
  let '(m, d) := month_day doy in
  let y := yoe + 400 * (z / days_per_era) in
  ((if Z.leb m 2 then y + 1 else y), m, d).

Definition isLeap (y : Z) : bool :=
  Z.eqb (y mod 4) 0 && (negb (Z.eqb (y mod 100) 0) || Z.eqb (y mod 400) 0).
(** [daysIn]. *)
Definition daysIn (m y : Z) : Z :=
  if Z.eqb m 2 then (if isLeap y then 29 else 28)
  else if Z.eqb m 4 || Z.eqb m 6 || Z.eqb m 9 || Z.eqb m 11 then 30 else 31.

(** The fields of a time in UTC: year, month, day, hour, minute, second, nanosecond. *)
Definition day_nanos : Z := 24 * Hour.
Definition time_fields (t : Time) : list Z :=
  let '(y, m, d) := civil_from_days (t / day_nanos) in
  let n := t mod day_nanos in
  [y; m; d; n / Hour; (n / Minute) mod 60; (n / Second) mod 60; n mod Second].

(** [time.Date] of these fields, in UTC. *)
Definition time_of_fields (y m d hour min sec nsec : Z) : Time :=
  days_from_civil y m d * day_nanos + hour * Hour + min * Minute + sec * Second + nsec.

(** ** Layouts *)

Definition digit_char (d : Z) : ascii := ascii_of_nat (Z.to_nat (48 + d)).
(** [w] decimal digits. *)
Fixpoint pad (w : nat) (z : Z) : string :=
  match w with
  | O => ""
  | S w => String.String (digit_char (z / 10 ^ Z.of_nat w)) (pad w (z mod 10 ^ Z.of_nat w))
  end.
(** [appendInt(b, year, 4)]. *)
Definition formatYear (y : Z) : string :=
  let u := Z.abs y in
  (if Z.ltb y 0 then "-" else "") +:+ (if Z.ltb u 10000 then pad 4 u else itoa u).

Definition sqlTimeLayout : string := "2006-01-02T15:04:05.000000000Z".

Definition formatSQLTime (value : Time) : string :=
  match time_fields value with
  | [y; m; d; hour; min; sec; nsec] =>
      formatYear y +:+ "-" +:+ pad 2 m +:+ "-" +:+ pad 2 d +:+ "T" +:+ pad 2 hour +:+ ":" +:+ pad 2 min
      +:+ ":" +:+ pad 2 sec +:+ "." +:+ pad 9 nsec +:+ "Z"
  | _ => ""
  end.

Definition digit_val (a : ascii) : option Z :=
  let n := Z.of_nat (nat_of_ascii a) in if Z.leb 48 n && Z.leb n 57 then Some (n - 48) else None.
(** Exactly [w] digits at the head of a text. *)
Fixpoint digits (w : nat) (acc : Z) (s : string) : option (Z * string) :=
  match w with
  | O => Some (acc, s)
  | S w =>
      match s with
      | String.String a s' => match digit_val a with Some d => digits w (acc * 10 + d) s' | None => None end
      | EmptyString => None
      end
  end.
(** [getnum(s, false)]: one or two digits. *)
Definition getnum (s : string) : option (Z * string) :=
  match digits 2 0 s with Some r => Some r | None => digits 1 0 s end.
Definition literal (c : ascii) (s : string) : option string :=
  match s with String.String a s' => if Ascii.eqb a c then Some s' else None | EmptyString => None end.
Definition commaOrPeriod (s : string) : option string :=
  match literal "." s with Some s' => Some s' | None => literal "," s end.

(** The date and the time of day, with the range checks of [time.Parse]. *)
Definition parse_date_time (value : string) : option (Z * Z * Z * Z * Z * Z * string) :=
  '(y, s) ← digits 4 0 value; s ← literal "-" s;
  '(m, s) ← digits 2 0 s; s ← literal "-" s;
  '(d, s) ← digits 2 0 s; s ← literal "T" s;
  '(hour, s) ← getnum s; s ← literal ":" s;
  '(min, s) ← digits 2 0 s; s ← literal ":" s;
  '(sec, s) ← digits 2 0 s;
  if Z.leb 1 m && Z.leb m 12 && Z.leb 1 d && Z.leb d (daysIn m y) && Z.ltb hour 24 && Z.ltb min 60 && Z.ltb sec 60
  then Some (y, m, d, hour, min, sec, s) else None.

(** [time.Parse(sqlTimeLayout, value)]. *)
Definition parse_layout (value : string) : option Time :=
  '(y, m, d, hour, min, sec, s) ← parse_date_time value;
  s ← commaOrPeriod s;
  '(nsec, s) ← digits 9 0 s;
  s ← literal "Z" s;
  if s =s "" then Some (time_of_fields y m d hour min sec nsec) else None.

(** The fraction of a second: the first nine digits of any number of digits. *)
Fixpoint all_digits (s : string) : list Z * string :=
  match s with
  | String.String a s' =>
      match digit_val a with Some d => let '(l, rest) := all_digits s' in (d :: l, rest) | None => ([], s) end
  | EmptyString => ([], EmptyString)
  end.
Definition fraction (l : list Z) : Z :=
  let l := take 9 l in fold_left (λ acc d, acc * 10 + d) l 0 * 10 ^ (9 - Z.of_nat (length l)).
Definition zone (s : string) : option Duration :=
  match s with
  | String.String a s' =>
      if Ascii.eqb a "Z" then if s' =s "" then Some 0 else None
      else if Ascii.eqb a "+" || Ascii.eqb a "-" then
        '(hh, s) ← digits 2 0 s'; s ← literal ":" s; '(mm, s) ← digits 2 0 s;
        if Z.leb hh 24 && Z.ltb mm 60 && (s =s "")
        then let o := hh * Hour + mm * Minute in Some (if Ascii.eqb a "-" then - o else o) else None
      else None
  | EmptyString => None
  end.
(** [time.Parse(time.RFC3339Nano, value)]. *)
Definition parse_RFC3339Nano (value : string) : option Time :=
  '(y, m, d, hour, min, sec, s) ← parse_date_time value;
  let '(nsec, s) :=
    match commaOrPeriod s with
    | Some s' => match all_digits s' with ([], _) => (0, s) | (l, rest) => (fraction l, rest) end
    | None => (0, s)
    end in
  offset ← zone s;
  Some (time_of_fields y m d hour min sec nsec - offset).

(** ** [parseSQLTimeString] *)

Definition parseSQLTimeString (value : string) : res Time :=
  if value =s "" then Ok zero_time
  else match parse_layout value with
    | Some parsed => Ok (if IsZero parsed then zero_time else parsed)
    | None =>
        match parse_RFC3339Nano value with
        | Some parsed => Ok (if IsZero parsed then zero_time else parsed)
        | None => Err (EText "parsing time")
        end
    end.

Example time_sample :
  formatSQLTime (time_of_fields 2024 2 29 23 59 8 120) = "2024-02-29T23:59:08.000000120Z"
  ∧ parseSQLTimeString "2024-02-29T23:59:08.000000120Z" = Ok (time_of_fields 2024 2 29 23 59 8 120)
  ∧ parseSQLTimeString "1970-01-01T01:00:00.5+01:00" = Ok (time_of_fields 1970 1 1 0 0 0 500000000)
  ∧ formatSQLTime zero_time = "0001-01-01T00:00:00.000000000Z".
Proof. vm_compute. repeat split. Qed.

(** ** The calendar is exact *)

(** Days before 1 March of a year. *)
Definition march_days (y : Z) : Z := 365 * y + y / 4 - y / 100 + y / 400.

Lemma year_day_spec doe : 0 <= doe < days_per_era →
  let '(yoe, doy) := year_day doe in
  0 <= yoe < 400 ∧ march_days yoe + doy = doe ∧ 0 <= doy <= 365
  ∧ (doy = 365 → isLeap (yoe + 1) = true).
Proof.
  unfold year_day, days_per_era, march_days. intros Hd.
  set (c := Z.min (doe / 36524) 3). set (r := doe - 36524 * c). set (q := r / 1461).
  set (s := r - 1461 * q). set (a := Z.min (s / 365) 3).
  assert (0 <= c <= 3 ∧ 0 <= r ∧ r <= 36524 ∧ (c < 3 → r < 36524)) as Hc
    by (subst c r; Z.div_mod_to_equations; lia).
  assert (0 <= q <= 24 ∧ 0 <= s <= 1460 ∧ (q = 24 → c < 3 → s < 1460)) as Hq
    by (subst q s; clearbody r; Z.div_mod_to_equations; lia).
  assert (0 <= a <= 3 ∧ 0 <= s - 365 * a <= 365 ∧ (s - 365 * a = 365 → a = 3 ∧ s = 1460)) as Ha
    by (subst a; clearbody s; Z.div_mod_to_equations; lia).
  assert (s = r - 1461 * q) as Hs by done. assert (r = doe - 36524 * c) as Hr by done.
  clearbody a s q r c.
  assert ((100 * c + 4 * q + a) / 4 = 25 * c + q) as -> by (Z.div_mod_to_equations; lia).
  assert ((100 * c + 4 * q + a) / 100 = c) as -> by (Z.div_mod_to_equations; lia).
  assert ((100 * c + 4 * q + a) / 400 = 0) as -> by (Z.div_mod_to_equations; lia).
  repeat split; try lia. intros H365. destruct Ha as (_ & _ & Ha). destruct (Ha H365) as [-> ->].
  unfold isLeap. assert ((100 * c + 4 * q + 3 + 1) mod 4 = 0) as -> by (Z.div_mod_to_equations; lia).
  destruct (Z.eqb_spec ((100 * c + 4 * q + 3 + 1) mod 100) 0) as [E|]; [|done].
  assert (q = 24 ∧ c = 3) as [-> ->] by (Z.div_mod_to_equations; lia). reflexivity.
Qed.

(** A number in the order of the dates of a year that starts in March. *)
Definition march_key (doy : Z) : Z := let '(m, d) := month_day doy in (if Z.leb m 2 then 10000 else 0) + m * 100 + d.

Definition doy_ok (doy : Z) : bool :=
  let '(m, d) := month_day doy in
  Z.leb 1 m && Z.leb m 12 && Z.leb 1 d
  && (if Z.eqb doy 365 then Z.eqb m 2 && Z.eqb d 29 else Z.leb d (daysIn m 1))
  && Z.eqb ((153 * (if Z.leb m 2 then m + 9 else m - 3) + 2) / 5 + d - 1) doy
  && Z.leb 301 (march_key doy) && Z.leb (march_key doy) 10229
  && (Z.eqb doy 0 || Z.ltb (march_key (doy - 1)) (march_key doy)).

Fixpoint all_from (f : Z → bool) (fuel : nat) (z : Z) : bool :=
  match fuel with O => true | S fuel => f z && all_from f fuel (z + 1) end.

Lemma all_from_spec f fuel z : all_from f fuel z = true → ∀ i, z <= i < z + Z.of_nat fuel → f i = true.
Proof.
  revert z. induction fuel as [|fuel IH]; intros z H i Hi; [lia|].
  cbn [all_from] in H. apply andb_true_iff in H as [H0 H]. destruct (decide (i = z)) as [->|]; [done|].
  apply (IH (z + 1)); [done|lia].
Qed.

Lemma doy_checked doy : 0 <= doy <= 365 → doy_ok doy = true.
Proof.
  intros H. assert (all_from doy_ok 366 0 = true) as Hc by (vm_compute; reflexivity).
  apply (all_from_spec _ _ _ Hc). lia.
Qed.

Lemma doy_spec doy : 0 <= doy <= 365 → let '(m, d) := month_day doy in
  1 <= m <= 12 ∧ 1 <= d <= 31
  ∧ (doy = 365 → m = 2 ∧ d = 29) ∧ (doy ≠ 365 → d <= daysIn m 1)
  ∧ (153 * (if Z.leb m 2 then m + 9 else m - 3) + 2) / 5 + d - 1 = doy
  ∧ 301 <= march_key doy <= 10229 ∧ (doy ≠ 0 → march_key (doy - 1) < march_key doy).
Proof.
  intros H. pose proof (doy_checked doy H) as Hc. unfold doy_ok in Hc.
  destruct (month_day doy) as [m d]. rewrite !andb_true_iff, orb_true_iff in Hc.
  rewrite !Z.leb_le, !Z.eqb_eq, Z.ltb_lt in Hc.
  destruct Hc as (((((((H1 & H2) & H3) & H4) & H5) & H6) & H7) & H8).
  assert (daysIn m 1 <= 31) by (unfold daysIn; repeat case_match; lia).
  destruct (Z.eqb_spec doy 365).
  - apply andb_true_iff in H4 as [H4 H4']. apply Z.eqb_eq in H4, H4'. repeat split; lia.
  - apply Z.leb_le in H4. repeat split; lia.
Qed.

Lemma march_key_mono a b : 0 <= a < b → b <= 365 → march_key a < march_key b.
Proof.
  intros Ha Hb. remember (Z.to_nat (b - a - 1)) as n eqn:Hn. revert b Ha Hb Hn.
  induction n as [|n IH]; intros b Ha Hb Hn; pose proof (doy_spec b ltac:(lia)) as Hs;
    destruct (month_day b) as [m d]; destruct Hs as (_ & _ & _ & _ & _ & _ & Hs); specialize (Hs ltac:(lia)).
  - by replace a with (b - 1) by lia.
  - specialize (IH (b - 1)). lia.
Qed.

Lemma isLeap_era y k : isLeap (y + 400 * k) = isLeap y.
Proof.
  unfold isLeap.
  replace ((y + 400 * k) mod 4) with (y mod 4) by (Z.div_mod_to_equations; lia).
  replace ((y + 400 * k) mod 100) with (y mod 100) by (Z.div_mod_to_equations; lia).
  by replace ((y + 400 * k) mod 400) with (y mod 400) by (Z.div_mod_to_equations; lia).
Qed.

Lemma march_days_era y k : march_days (y + 400 * k) = march_days y + days_per_era * k.
Proof. unfold march_days, days_per_era. Z.div_mod_to_equations. lia. Qed.

(** The date of a day: the year from March, the day of it, and what they determine. *)
Lemma civil_spec n : ∃ y doy m d, civil_from_days n = ((if Z.leb m 2 then y + 1 else y), m, d)
  ∧ month_day doy = (m, d) ∧ march_days y + doy = n + 306 ∧ 0 <= doy <= 365
  ∧ (doy = 365 → isLeap (y + 1) = true).
Proof.
  unfold civil_from_days. pose proof (Z.mod_pos_bound (n + 306) days_per_era ltac:(done)) as Hm.
  pose proof (year_day_spec _ Hm) as Hy. destruct (year_day ((n + 306) mod days_per_era)) as [yoe doy].
  destruct Hy as (_ & Hd & Hr & Hl). destruct (month_day doy) as [m d] eqn:E.
  exists (yoe + 400 * ((n + 306) / days_per_era)), doy, m, d. repeat split; try done; try lia.
  - rewrite march_days_era. pose proof (Z.div_mod (n + 306) days_per_era ltac:(done)). lia.
  - intros H365. replace (yoe + 400 * ((n + 306) / days_per_era) + 1) with (yoe + 1 + 400 * ((n + 306) / days_per_era)) by lia.
    rewrite isLeap_era. auto.
Qed.

(** The date of a day is valid, and the day of that date is the day. *)
Lemma civil_valid n : let '(y, m, d) := civil_from_days n in
  1 <= m <= 12 ∧ 1 <= d <= daysIn m y ∧ d <= 31 ∧ days_from_civil y m d = n.
Proof.
  destruct (civil_spec n) as (y & doy & m & d & -> & Em & Hn & Hr & Hl).
  pose proof (doy_spec doy Hr) as Hs. rewrite Em in Hs. destruct Hs as (Hm & Hd & H365 & Hd' & Hdoy & _).
  repeat split; try lia.
  - destruct (decide (doy = 365)) as [E|E].
    + destruct (H365 E) as [-> ->]. unfold daysIn. simpl. by rewrite (Hl E).
    + specialize (Hd' E). etrans; [exact Hd'|]. unfold daysIn. repeat case_match; try lia; done.
  - unfold days_from_civil. destruct (Z.leb_spec m 2); unfold march_days in Hn; [replace (y + 1 - 1) with y by lia|]; lia.
Qed.

Definition date_key (date : Z * Z * Z) : Z := let '(y, m, d) := date in y * 10000 + m * 100 + d.

Lemma civil_mono n1 n2 : n1 < n2 → date_key (civil_from_days n1) < date_key (civil_from_days n2).
Proof.
  intros Hlt. destruct (civil_spec n1) as (y1 & doy1 & m1 & d1 & -> & Em1 & Hn1 & Hr1 & Hl1).
  destruct (civil_spec n2) as (y2 & doy2 & m2 & d2 & -> & Em2 & Hn2 & Hr2 & Hl2).
  assert (∀ y doy m d, month_day doy = (m, d) →
    date_key ((if Z.leb m 2 then y + 1 else y), m, d) = y * 10000 + march_key doy) as Hk.
  { intros y doy m d E. unfold march_key, date_key. rewrite E. destruct (Z.leb m 2); lia. }
  rewrite (Hk _ _ _ _ Em1), (Hk _ _ _ _ Em2).
  pose proof (doy_spec doy1 Hr1) as H1. pose proof (doy_spec doy2 Hr2) as H2. rewrite Em1 in H1. rewrite Em2 in H2.
  assert (y1 <= y2) as Hy.
  { destruct (Z.le_gt_cases y1 y2); [done|exfalso].
    assert (march_days y2 + 365 <= march_days (y2 + 1) ∧ march_days (y2 + 1) <= march_days y1) as [Hs Hm].
    { unfold march_days. split; Z.div_mod_to_equations; lia. }
    assert (doy2 = 365) as E by lia.
    assert (march_days y2 + 366 <= march_days (y2 + 1)); [|lia].
    specialize (Hl2 E). unfold isLeap in Hl2. apply andb_true_iff in Hl2 as [Ha Hb].
    apply orb_true_iff in Hb as [Hb|Hb]; [apply negb_true_iff, Z.eqb_neq in Hb|apply Z.eqb_eq in Hb];
      apply Z.eqb_eq in Ha; unfold march_days; Z.div_mod_to_equations; lia. }
  destruct (decide (y1 = y2)) as [->|]; [|lia].
  pose proof (march_key_mono doy1 doy2 ltac:(lia) ltac:(lia)). lia.
Qed.

(** ** Texts *)

#[local] Arguments String.append !_ _ /.

Lemma digit_val_char d : 0 <= d < 10 → digit_val (digit_char d) = Some d.
Proof.
  intros Hd. unfold digit_val, digit_char. rewrite nat_ascii_embedding by lia.
  rewrite Z2Nat.id by lia. rewrite (proj2 (Z.leb_le 48 (48 + d))), (proj2 (Z.leb_le (48 + d) 57)) by lia.
  simpl. f_equal. lia.
Qed.

Lemma pad_split w z : 0 <= z < 10 ^ Z.of_nat (S w) →
  0 <= z / 10 ^ Z.of_nat w < 10 ∧ 0 <= z mod 10 ^ Z.of_nat w < 10 ^ Z.of_nat w
  ∧ z = (z / 10 ^ Z.of_nat w) * 10 ^ Z.of_nat w + z mod 10 ^ Z.of_nat w.
Proof.
  intros Hz. pose proof (Z.pow_pos_nonneg 10 (Z.of_nat w) ltac:(lia) ltac:(lia)) as Hp.
  rewrite Nat2Z.inj_succ, Z.pow_succ_r in Hz by lia.
  pose proof (Z.mod_pos_bound z _ Hp). pose proof (Z.div_mod z (10 ^ Z.of_nat w) ltac:(lia)).
  assert (0 <= z / 10 ^ Z.of_nat w) by (apply Z.div_pos; lia).
  assert (z / 10 ^ Z.of_nat w < 10) by (apply Z.div_lt_upper_bound; lia). lia.
Qed.

Lemma digits_pad w z acc rest : 0 <= z < 10 ^ Z.of_nat w →
  digits w acc (pad w z +:+ rest) = Some (acc * 10 ^ Z.of_nat w + z, rest).
Proof.
  revert z acc. induction w as [|w IH]; intros z acc Hz.
  - simpl in *. f_equal. f_equal. lia.
  - destruct (pad_split w z Hz) as (Hq & Hr & Hs). cbn [pad]. simpl String.append. cbn [digits].
    rewrite digit_val_char, IH by done. f_equal. f_equal.
    rewrite Nat2Z.inj_succ, Z.pow_succ_r by lia. lia.
Qed.

Lemma digits_pad0 w z rest : 0 <= z < 10 ^ Z.of_nat w → digits w 0 (pad w z +:+ rest) = Some (z, rest).
Proof. intros. by rewrite digits_pad. Qed.

Lemma length_pad w z : String.length (pad w z) = w.
Proof. revert z. induction w as [|w IH]; intros z; [done|]. cbn [pad String.length]. by rewrite IH. Qed.

Lemma compare_digits a b : 0 <= a < 10 → 0 <= b < 10 → Ascii.compare (digit_char a) (digit_char b) = Z.compare a b.
Proof.
  intros Ha Hb. unfold Ascii.compare, digit_char. unfold ascii_of_nat.
  rewrite !N_ascii_embedding by lia. rewrite <- N2Z.inj_compare. rewrite !nat_N_Z, !Z2Nat.id by lia.
  destruct (Z.compare_spec a b), (Z.compare_spec (48 + a) (48 + b)); lia || done.
Qed.

Lemma compare_pad w x y a b : 0 <= x < 10 ^ Z.of_nat w → 0 <= y < 10 ^ Z.of_nat w →
  String.compare (pad w x +:+ a) (pad w y +:+ b)
  = match Z.compare x y with Eq => String.compare a b | c => c end.
Proof.
  revert x y. induction w as [|w IH]; intros x y Hx Hy.
  - simpl in *. by replace x with y by lia; rewrite Z.compare_refl.
  - destruct (pad_split w x Hx) as (Hq & Hr & Hs), (pad_split w y Hy) as (Hq' & Hr' & Hs').
    cbn [pad]. simpl String.append. cbn [String.compare]. rewrite compare_digits, IH by done.
    set (q := x / _) in *. set (q' := y / _) in *. set (r := x mod _) in *. set (r' := y mod _) in *.
    set (p := 10 ^ Z.of_nat w) in *. clearbody q q' r r' p.
    destruct (Z.compare_spec q q') as [->|Hc|Hc].
    + destruct (Z.compare_spec r r'), (Z.compare_spec x y); subst; nia || done.
    + destruct (Z.compare_spec x y); nia || done.
    + destruct (Z.compare_spec x y); nia || done.
Qed.

Lemma compare_literal c a b : String.compare (String.String c a) (String.String c b) = String.compare a b.
Proof. simpl. assert (Ascii.compare c c = Eq) as -> by (unfold Ascii.compare; apply N.compare_refl). done. Qed.

(** ** Times in range *)

(** The years 0 to 9999, which the layout writes with four digits. *)
Definition sqlTimeOK (t : Time) : bool := Z.leb (DateUTC 0 1 1) t && Z.ltb t (DateUTC 10000 1 1).

Lemma fields_spec t : sqlTimeOK t = true → ∃ y m d hour min sec nsec,
  time_fields t = [y; m; d; hour; min; sec; nsec] ∧ civil_from_days (t / day_nanos) = (y, m, d)
  ∧ 0 <= y < 10000 ∧ 1 <= m <= 12 ∧ 1 <= d <= daysIn m y ∧ d <= 31
  ∧ 0 <= hour < 24 ∧ 0 <= min < 60 ∧ 0 <= sec < 60 ∧ 0 <= nsec < 1000000000
  ∧ t mod day_nanos = hour * Hour + min * Minute + sec * Second + nsec
  ∧ time_of_fields y m d hour min sec nsec = t.
Proof.
  intros Ht. unfold sqlTimeOK in Ht. apply andb_true_iff in Ht as [H1 H2]. apply Z.leb_le in H1. apply Z.ltb_lt in H2.
  unfold time_fields. pose proof (civil_valid (t / day_nanos)) as Hv.
  destruct (civil_from_days (t / day_nanos)) as [[y m] d] eqn:E. destruct Hv as (Hm & Hd & Hd' & Hn).
  assert (DateUTC 0 1 1 = -366 * day_nanos ∧ DateUTC 10000 1 1 = 3652059 * day_nanos) as [E1 E2] by done.
  rewrite E1 in H1. rewrite E2 in H2. clear E1 E2.
  pose proof (Z.div_mod t day_nanos ltac:(done)) as Hdm. pose proof (Z.mod_pos_bound t day_nanos ltac:(done)) as Hmb.
  set (n := t / day_nanos) in *. set (k := t mod day_nanos) in *.
  assert (-366 <= n < 3652059) as Hnr by (unfold day_nanos, Hour, Minute, Second in *; lia).
  exists y, m, d, (k / Hour), ((k / Minute) mod 60), ((k / Second) mod 60), (k mod Second).
  assert (0 <= y < 10000) as Hy.
  { assert (date_key (civil_from_days (-366)) <= date_key (civil_from_days n)
      ∧ date_key (civil_from_days n) <= date_key (civil_from_days 3652058)) as [Hlo Hhi].
    { split.
      - destruct (decide (n = -366)) as [->|]; [done|]. apply Z.lt_le_incl, civil_mono. lia.
      - destruct (decide (n = 3652058)) as [->|]; [done|]. apply Z.lt_le_incl, civil_mono. lia. }
    rewrite E in Hlo, Hhi. change (date_key (civil_from_days (-366))) with 101 in Hlo.
    change (date_key (civil_from_days 3652058)) with 99991231 in Hhi. unfold date_key in *. lia. }
  clearbody n k.
  assert (k = k / Hour * Hour + (k / Minute) mod 60 * Minute + (k / Second) mod 60 * Second + k mod Second
    ∧ 0 <= k / Hour < 24) as [Hk Hh]
    by (unfold day_nanos, Hour, Minute, Second in *; Z.div_mod_to_equations; lia).
  repeat (split; [first [reflexivity | done | lia | apply Z.mod_pos_bound; done | (unfold Second; Z.div_mod_to_equations; lia)]|]).
  unfold time_of_fields. rewrite Hn. lia.
Qed.

#[local] Opaque pad digits.

(** The text of a time in range, field by field. *)
Lemma format_fields t y m d hour min sec nsec : time_fields t = [y; m; d; hour; min; sec; nsec] → 0 <= y < 10000 →
  formatSQLTime t = pad 4 y +:+ "-" +:+ pad 2 m +:+ "-" +:+ pad 2 d +:+ "T" +:+ pad 2 hour +:+ ":" +:+ pad 2 min
    +:+ ":" +:+ pad 2 sec +:+ "." +:+ pad 9 nsec +:+ "Z".
Proof.
  intros E Hy. unfold formatSQLTime. rewrite E. unfold formatYear.
  rewrite (proj2 (Z.ltb_ge y 0)), Z.abs_eq, (proj2 (Z.ltb_lt y 10000)) by lia. reflexivity.
Qed.

(** Reading a written time gives it back, and the order of the texts is the
    order of the times. *)
Lemma parse_format t : sqlTimeOK t = true → parse_layout (formatSQLTime t) = Some t.
Proof.
  intros Ht. destruct (fields_spec t Ht) as (y & m & d & hour & min & sec & nsec & E & _ & Hy & Hm & Hd & Hd' & Hh & Hmi & Hs & Hns & _ & Et).
  rewrite (format_fields t _ _ _ _ _ _ _ E Hy). unfold parse_layout, parse_date_time, getnum.
  repeat (rewrite digits_pad0 by (simpl; lia); simpl).
  rewrite (proj2 (Z.leb_le 1 m)), (proj2 (Z.leb_le m 12)), (proj2 (Z.leb_le 1 d)), (proj2 (Z.leb_le d (daysIn m y))),
    (proj2 (Z.ltb_lt hour 24)), (proj2 (Z.ltb_lt min 60)), (proj2 (Z.ltb_lt sec 60)) by lia. simpl.
  rewrite digits_pad0 by (simpl; lia). simpl. by rewrite Et.
Qed.

Lemma format_order t1 t2 : sqlTimeOK t1 = true → sqlTimeOK t2 = true →
  String.compare (formatSQLTime t1) (formatSQLTime t2) = Z.compare t1 t2.
Proof.
  intros H1 H2.
  destruct (fields_spec t1 H1) as (y & m & d & h & mi & s & ns & E & Ec & Hy & Hm & Hd0 & Hd & Hh & Hmi & Hs & Hns & Hk & _).
  destruct (fields_spec t2 H2) as (y' & m' & d' & h' & mi' & s' & ns' & E' & Ec' & Hy' & Hm' & Hd0' & Hd' & Hh' & Hmi' & Hs' & Hns' & Hk' & _).
  rewrite (format_fields t1 _ _ _ _ _ _ _ E Hy), (format_fields t2 _ _ _ _ _ _ _ E' Hy').
  do 6 (rewrite compare_pad by (simpl; lia); simpl String.append; rewrite compare_literal).
  rewrite compare_pad by (simpl; lia). simpl String.compare.
  pose proof (Z.div_mod t1 day_nanos ltac:(done)) as D1. pose proof (Z.div_mod t2 day_nanos ltac:(done)) as D2.
  pose proof (Z.mod_pos_bound t1 day_nanos ltac:(done)) as M1. pose proof (Z.mod_pos_bound t2 day_nanos ltac:(done)) as M2.
  pose proof (civil_mono (t1 / day_nanos) (t2 / day_nanos)) as Hlt. pose proof (civil_mono (t2 / day_nanos) (t1 / day_nanos)) as Hgt.
  rewrite Ec, Ec' in Hlt, Hgt. unfold date_key in Hlt, Hgt.
  assert (t1 / day_nanos = t2 / day_nanos → y = y' ∧ m = m' ∧ d = d') as Heq.
  { intros En. rewrite En, Ec' in Ec. by simplify_eq. }
  set (n1 := t1 / day_nanos) in *. set (n2 := t2 / day_nanos) in *. set (k1 := t1 mod day_nanos) in *. set (k2 := t2 mod day_nanos) in *.
  clearbody n1 n2 k1 k2. clear Ec Ec' E E' H1 H2. unfold day_nanos, Hour, Minute, Second in *.
  repeat match goal with |- context [match Z.compare ?a ?b with _ => _ end] =>
    destruct (Z.compare_spec a b); [|destruct (Z.compare_spec t1 t2); first [done | exfalso; lia]..] end.
  destruct (Z.compare_spec ns ns'), (Z.compare_spec t1 t2); first [done | exfalso; lia].
Qed.

(** [parseSQLTime] of a written time. *)
Lemma parse_formatted t : sqlTimeOK t = true → parseSQLTimeString (formatSQLTime t) = Ok t.
Proof.
  intros Ht. unfold parseSQLTimeString. rewrite parse_format by done.
  destruct (formatSQLTime t =s "") eqn:E.
  - apply String.eqb_eq in E. pose proof (parse_format t Ht) as Hp. rewrite E in Hp. discriminate.
  - destruct (IsZero t) eqn:Ez; [|done]. unfold IsZero in Ez. apply Z.eqb_eq in Ez. by subst.
Qed.

Lemma format_inj t1 t2 : sqlTimeOK t1 = true → sqlTimeOK t2 = true →
  (formatSQLTime t1 =s formatSQLTime t2) = TimeEqual t1 t2.
Proof.
  intros H1 H2. unfold TimeEqual. destruct (Z.eqb_spec t1 t2) as [->|Hn]; [apply String.eqb_refl|].
  apply String.eqb_neq. intros E. apply Hn. apply Z.compare_eq. rewrite <- format_order by done.
  rewrite E, format_order by done. apply Z.compare_refl.
Qed.

Lemma format_ltb t1 t2 : sqlTimeOK t1 = true → sqlTimeOK t2 = true →
  (formatSQLTime t1 <s formatSQLTime t2) = Before t1 t2.
Proof.
  intros H1 H2. unfold String.ltb, Before. rewrite format_order by done. unfold Z.ltb. by destruct (Z.compare t1 t2).
Qed.
