(* ===== verification/CoreRunner.v ===== *)
(** * Running the core process ([corecli/runner.go], [corecli/backend_info.go])

    Every operation writes its request to temporary files, runs the core
    binary on them, reads the answer back and removes the files. The operating
    system is the state [OS] (the files, the number of open descriptors) with
    the class [OSEnv] of everything outside the program: random names, the
    failures of system calls, the environment and the core process itself.
    [encoding/json] is computed: the requests are printed, the answers are
    parsed, on top of [GoJSON]. *)

From Stdlib Require Import Ascii.
From S2P Require Import Prelude GoLib Crypto GoJSON Core NetIP SQLTime.

Local Open Scope Z_scope.

(** ** Decoding structs ([encoding/json])

    Members are matched to fields by name, exactly or else without regard to
    case; a null member leaves a scalar field and empties a slice; of two
    members for a field the later one wins. *)

Definition json_mismatch : goerr := EText "json: cannot unmarshal value into Go struct field".
Definition json_syntax : goerr := EText "json: invalid character".
Definition json_unknown (key : string) : goerr := EText ("json: unknown field " +:+ key).

Record Field (T : Type) := mkField { field_name : string; field_set : JSON → T → res T }.
Arguments mkField {T} _ _.
Arguments field_name {T} _.
Arguments field_set {T} _ _ _.

(** How a value of the text is stored in a field. [None] leaves the field. *)
Definition json_string (v : JSON) : res (option string) :=
  match v with JNull => Ok None | JString s => Ok (Some s) | _ => Err json_mismatch end.
Definition json_bool (v : JSON) : res (option bool) :=
  match v with JNull => Ok None | JBoolean b => Ok (Some b) | _ => Err json_mismatch end.
(** A signed integer within bounds; [-0] is one. *)
Definition json_int (low high : Z) (v : JSON) : res (option Z) :=
  match v with
  | JNull => Ok None
  | JNumber z => if Z.leb low z && Z.leb z high then Ok (Some z) else Err json_mismatch
  | JDecimal text => if (text =s "-0") && Z.ltb low 0 then Ok (Some 0) else Err json_mismatch
  | _ => Err json_mismatch
  end.
Definition json_int64 : JSON → res (option Z) := json_int (- 2 ^ 63) (2 ^ 63 - 1).
Definition json_uint32 : JSON → res (option Z) := json_int 0 (2 ^ 32 - 1).

Fixpoint json_elements_of {A} (elem : JSON → res A) (l : list JSON) : res (list A) :=
  match l with
  | [] => Ok []
  | v :: l => let! x := elem v in let! rest := json_elements_of elem l in Ok (x :: rest)
  end.
Definition json_slice {A} (elem : JSON → res A) (v : JSON) : res (option (list A)) :=
  match v with
  | JNull => Ok (Some [])
  | JArray l => let! xs := json_elements_of elem l in Ok (Some xs)
  | _ => Err json_mismatch
  end.
Definition json_string_elem (v : JSON) : res string := let! s := json_string v in Ok (default "" s).
Definition json_strings : JSON → res (option (list string)) := json_slice json_string_elem.

(** [time.Time.UnmarshalJSON]: RFC 3339 with a two-digit hour, a period before
    the fraction and an offset below a day. *)
Definition strict_RFC3339 (value : string) : option Time :=
  t ← parse_RFC3339Nano value;
  let n := String.length value in
  if bool_decide (String.get 12 value = Some ":"%char) || bool_decide (String.get 19 value = Some ","%char)
  then None
  else if bool_decide (String.get (n - 1) value = Some "Z"%char) then Some t
  else match digits 2 0 (str_drop (n - 5) value), digits 2 0 (str_drop (n - 2) value) with
       | Some (hh, _), Some (mm, _) => if Z.ltb hh 24 && Z.ltb mm 60 then Some t else None
       | _, _ => None
       end.
Definition json_time (v : JSON) : res (option Time) :=
  match v with
  | JNull => Ok None
  | JString s => match strict_RFC3339 s with Some t => Ok (Some t) | None => Err (EText "parsing time") end
  | _ => Err (EText "Time.UnmarshalJSON: input is not a JSON string")
  end.

Definition field {T A} (name : string) (read : JSON → res (option A)) (set : A → T → T) : Field T :=
  mkField name (λ v x, let! o := read v in Ok (match o with Some a => set a x | None => x end)).

Section Structs.
Context `{GoUnicode}.

Definition find_field {T} (fields : list (Field T)) (key : string) : option (Field T) :=
  match list_find (λ f, field_name f = key) fields with
  | Some (_, f) => Some f
  | None => snd <$> list_find (λ f, EqualFold (field_name f) key = true) fields
  end.

(** One member; [strict] is [DisallowUnknownFields]. *)
Definition set_member {T} (strict : bool) (fields : list (Field T)) (acc : res T) (kv : string * JSON) : res T :=
  let! x := acc in
  match find_field fields kv.1 with
  | Some f => field_set f kv.2 x
  | None => if strict then Err (json_unknown kv.1) else Ok x
  end.
Definition json_struct {T} (strict : bool) (fields : list (Field T)) (zero : T) (v : JSON) : res T :=
  match v with
  | JNull => Ok zero
  | JObject l => foldl (set_member strict fields) (Ok zero) l
  | _ => Err json_mismatch
  end.
End Structs.

(** The nesting the decoder allows. *)
Fixpoint json_depth (v : JSON) : Z :=
  match v with
  | JArray l => 1 + foldr Z.max 0 (json_depth <$> l)
  | JObject l => 1 + foldr Z.max 0 ((λ '(_, v), json_depth v) <$> l)
  | _ => 0
  end.
Definition maxNestingDepth : Z := 10000.

(** [json.Decoder.Decode]: the value at the head of the text and what follows
    it, or that the text has ended. *)
Inductive Decoded := DecodedEOF | DecodedError (e : goerr) | DecodedValue (v : JSON) (rest : list Z).
Definition Decode (text : list Z) : Decoded :=
  match json_value (2 + 2 * length text) text with
  | Some (v, rest) =>
      if Z.leb (json_depth v) maxNestingDepth then DecodedValue v rest else DecodedError (EText "json: exceeded max depth")
  | None => match skip_space text with [] => DecodedEOF | _ => DecodedError json_syntax end
  end.
Definition EOF : goerr := EText "EOF".

(** [json.NewDecoder(r).Decode(&x)]. *)
Definition decode_first {A} (read : JSON → res A) (text : string) : res A :=
  match Decode (str_bytes text) with
  | DecodedEOF => Err EOF
  | DecodedError e => Err e
  | DecodedValue v _ => read v
  end.
(** [json.Unmarshal]. *)
Definition Unmarshal {A} (read : JSON → res A) (text : string) : res A :=
  match Decode (str_bytes text) with
  | DecodedValue v rest => match skip_space rest with [] => read v | _ => Err json_syntax end
  | DecodedEOF => Err (EText "unexpected end of JSON input")
  | DecodedError e => Err e
  end.
(** A strict decode followed by a second one that has to find the end. *)
Definition decode_only {A} (what : string) (read : JSON → res A) (text : string) : res A :=
  match Decode (str_bytes text) with
  | DecodedEOF => Err (EWrap what EOF)
  | DecodedError e => Err (EWrap what e)
  | DecodedValue v rest =>
      match read v with
      | Err e => Err (EWrap what e)
      | Ok x =>
          match Decode rest with
          | DecodedEOF => Ok x
          | DecodedValue _ _ => Err (EText (what +:+ ": trailing JSON value"))
          | DecodedError e => Err (EWrap what e)
          end
      end
  end.

(** ** The messages of the core

    The JSON names of the fields, as in their tags. *)

Record commandErrorPayload := mk_commandErrorPayload {
  commandErrorPayload_Code : string;
  commandErrorPayload_Message : string;
  commandErrorPayload_OpenSSLErrors : list string;
}.

Record BackendInfo := mkBackendInfo {
  BackendInfo_ProductProfile : string;
  BackendInfo_Edition : string;
  BackendInfo_SelectedBackend : string;
  BackendInfo_FallbackEnabled : bool;
  BackendInfo_BackendID : string;
  BackendInfo_BackendDependency : string;
  BackendInfo_BackendVersion : string;
  BackendInfo_BackendReadiness : string;
  BackendInfo_BackendCapabilities : list string;
  BackendInfo_BackendABIVersion : Z;
  BackendInfo_BackendBuildFingerprint : string;
}.

Definition zero_SigningEvidence : SigningEvidence := mkSigningEvidence 0 "" "" "" "" "" "" "" "" "" false false "".
Definition zero_IssueResult : IssueResult := mkIssueResult "" "" "" zero_time zero_time zero_SigningEvidence.
Definition zero_CSRInfo : CSRInfo := mkCSRInfo "" [] [] "" 0 "" [].
Definition zero_GenerateCRLResult : GenerateCRLResult := mkGenerateCRLResult "" zero_SigningEvidence.
Definition zero_OCSPCertificateID : OCSPCertificateID := mkOCSPCertificateID "" "" "" "".
Definition zero_OCSPRequestInfo : OCSPRequestInfo := mkOCSPRequestInfo [] false "".
Definition zero_OCSPIssuerInfo : OCSPIssuerInfo := mkOCSPIssuerInfo "" "" "".
Definition zero_ValidateOCSPResponderResult : ValidateOCSPResponderResult := mkValidateOCSPResponderResult false.
Definition zero_commandErrorPayload : commandErrorPayload := mk_commandErrorPayload "" "" [].
Definition zero_BackendInfo : BackendInfo := mkBackendInfo "" "" "" false "" "" "" "" [] 0 "".

Section Readers.
Context `{GoUnicode}.

Definition SigningEvidence_fields : list (Field SigningEvidence) :=
  [field "schema_version" json_int64 (λ v '(mkSigningEvidence _ b c d e f g h i j k l m), mkSigningEvidence v b c d e f g h i j k l m);
   field "evidence_source" json_string (λ v '(mkSigningEvidence a _ c d e f g h i j k l m), mkSigningEvidence a v c d e f g h i j k l m);
   field "operation" json_string (λ v '(mkSigningEvidence a b _ d e f g h i j k l m), mkSigningEvidence a b v d e f g h i j k l m);
   field "provider_id" json_string (λ v '(mkSigningEvidence a b c _ e f g h i j k l m), mkSigningEvidence a b c v e f g h i j k l m);
   field "provider_class" json_string (λ v '(mkSigningEvidence a b c d _ f g h i j k l m), mkSigningEvidence a b c d v f g h i j k l m);
   field "provider_readiness" json_string (λ v '(mkSigningEvidence a b c d e _ g h i j k l m), mkSigningEvidence a b c d e v g h i j k l m);
   field "provider_exportability" json_string (λ v '(mkSigningEvidence a b c d e f _ h i j k l m), mkSigningEvidence a b c d e f v h i j k l m);
   field "reference_class" json_string (λ v '(mkSigningEvidence a b c d e f g _ i j k l m), mkSigningEvidence a b c d e f g v i j k l m);
   field "key_algorithm" json_string (λ v '(mkSigningEvidence a b c d e f g h _ j k l m), mkSigningEvidence a b c d e f g h v j k l m);
   field "requested_signature_algorithm" json_string (λ v '(mkSigningEvidence a b c d e f g h i _ k l m), mkSigningEvidence a b c d e f g h i v k l m);
   field "issuer_binding_verified" json_bool (λ v '(mkSigningEvidence a b c d e f g h i j _ l m), mkSigningEvidence a b c d e f g h i j v l m);
   field "fallback_used" json_bool (λ v '(mkSigningEvidence a b c d e f g h i j k _ m), mkSigningEvidence a b c d e f g h i j k v m);
   field "result_code" json_string (λ v '(mkSigningEvidence a b c d e f g h i j k l _), mkSigningEvidence a b c d e f g h i j k l v)].
Definition read_SigningEvidence : JSON → res SigningEvidence := json_struct true SigningEvidence_fields zero_SigningEvidence.

Definition IssueResult_fields : list (Field IssueResult) :=
  [field "certificate_pem" json_string (λ v '(mkIssueResult _ b c d e f), mkIssueResult v b c d e f);
   field "serial_number" json_string (λ v '(mkIssueResult a _ c d e f), mkIssueResult a v c d e f);
   field "subject" json_string (λ v '(mkIssueResult a b _ d e f), mkIssueResult a b v d e f);
   field "not_before" json_time (λ v '(mkIssueResult a b c _ e f), mkIssueResult a b c v e f);
   field "not_after" json_time (λ v '(mkIssueResult a b c d _ f), mkIssueResult a b c d v f)].
Definition read_IssueResult : JSON → res IssueResult := json_struct false IssueResult_fields zero_IssueResult.

Definition CSRInfo_fields : list (Field CSRInfo) :=
  [field "subject" json_string (λ v '(mkCSRInfo _ b c d e f g), mkCSRInfo v b c d e f g);
   field "dns_names" json_strings (λ v '(mkCSRInfo a _ c d e f g), mkCSRInfo a v c d e f g);
   field "ip_addresses" json_strings (λ v '(mkCSRInfo a b _ d e f g), mkCSRInfo a b v d e f g);
   field "public_key_algorithm" json_string (λ v '(mkCSRInfo a b c _ e f g), mkCSRInfo a b c v e f g);
   field "public_key_size_bits" json_int64 (λ v '(mkCSRInfo a b c d _ f g), mkCSRInfo a b c d v f g);
   field "signature_algorithm" json_string (λ v '(mkCSRInfo a b c d e _ g), mkCSRInfo a b c d e v g);
   field "extension_oids" json_strings (λ v '(mkCSRInfo a b c d e f _), mkCSRInfo a b c d e f v)].
Definition read_CSRInfo : JSON → res CSRInfo := json_struct false CSRInfo_fields zero_CSRInfo.

Definition GenerateCRLResult_fields : list (Field GenerateCRLResult) :=
  [field "crl_pem" json_string (λ v '(mkGenerateCRLResult _ b), mkGenerateCRLResult v b)].
Definition read_GenerateCRLResult : JSON → res GenerateCRLResult := json_struct false GenerateCRLResult_fields zero_GenerateCRLResult.

Definition OCSPCertificateID_fields : list (Field OCSPCertificateID) :=
  [field "serial_number" json_string (λ v '(mkOCSPCertificateID _ b c d), mkOCSPCertificateID v b c d);
   field "issuer_name_hash" json_string (λ v '(mkOCSPCertificateID a _ c d), mkOCSPCertificateID a v c d);
   field "issuer_key_hash" json_string (λ v '(mkOCSPCertificateID a b _ d), mkOCSPCertificateID a b v d);
   field "hash_algorithm" json_string (λ v '(mkOCSPCertificateID a b c _), mkOCSPCertificateID a b c v)].
Definition read_OCSPCertificateID : JSON → res OCSPCertificateID := json_struct false OCSPCertificateID_fields zero_OCSPCertificateID.

Definition OCSPRequestInfo_fields : list (Field OCSPRequestInfo) :=
  [field "certificates" (json_slice read_OCSPCertificateID) (λ v '(mkOCSPRequestInfo _ b c), mkOCSPRequestInfo v b c);
   field "has_nonce" json_bool (λ v '(mkOCSPRequestInfo a _ c), mkOCSPRequestInfo a v c);
   field "nonce_hex" json_string (λ v '(mkOCSPRequestInfo a b _), mkOCSPRequestInfo a b v)].
Definition read_OCSPRequestInfo : JSON → res OCSPRequestInfo := json_struct false OCSPRequestInfo_fields zero_OCSPRequestInfo.

Definition OCSPIssuerInfo_fields : list (Field OCSPIssuerInfo) :=
  [field "issuer_name_hash" json_string (λ v '(mkOCSPIssuerInfo _ b c), mkOCSPIssuerInfo v b c);
   field "issuer_key_hash" json_string (λ v '(mkOCSPIssuerInfo a _ c), mkOCSPIssuerInfo a v c);
   field "hash_algorithm" json_string (λ v '(mkOCSPIssuerInfo a b _), mkOCSPIssuerInfo a b v)].
Definition read_OCSPIssuerInfo : JSON → res OCSPIssuerInfo := json_struct false OCSPIssuerInfo_fields zero_OCSPIssuerInfo.

Definition ValidateOCSPResponderResult_fields : list (Field ValidateOCSPResponderResult) :=
  [field "valid" json_bool (λ v _, mkValidateOCSPResponderResult v)].
Definition read_ValidateOCSPResponderResult : JSON → res ValidateOCSPResponderResult := json_struct false ValidateOCSPResponderResult_fields zero_ValidateOCSPResponderResult.

Definition commandErrorPayload_fields : list (Field commandErrorPayload) :=
  [field "code" json_string (λ v '(mk_commandErrorPayload _ b c), mk_commandErrorPayload v b c);
   field "message" json_string (λ v '(mk_commandErrorPayload a _ c), mk_commandErrorPayload a v c);
   field "openssl_errors" json_strings (λ v '(mk_commandErrorPayload a b _), mk_commandErrorPayload a b v)].
Definition read_commandErrorPayload : JSON → res commandErrorPayload := json_struct false commandErrorPayload_fields zero_commandErrorPayload.

Definition BackendInfo_fields : list (Field BackendInfo) :=
  [field "product_profile" json_string (λ v '(mkBackendInfo _ b c d e f g h i j k), mkBackendInfo v b c d e f g h i j k);
   field "edition" json_string (λ v '(mkBackendInfo a _ c d e f g h i j k), mkBackendInfo a v c d e f g h i j k);
   field "selected_backend" json_string (λ v '(mkBackendInfo a b _ d e f g h i j k), mkBackendInfo a b v d e f g h i j k);
   field "fallback_enabled" json_bool (λ v '(mkBackendInfo a b c _ e f g h i j k), mkBackendInfo a b c v e f g h i j k);
   field "backend_id" json_string (λ v '(mkBackendInfo a b c d _ f g h i j k), mkBackendInfo a b c d v f g h i j k);
   field "backend_dependency" json_string (λ v '(mkBackendInfo a b c d e _ g h i j k), mkBackendInfo a b c d e v g h i j k);
   field "backend_version" json_string (λ v '(mkBackendInfo a b c d e f _ h i j k), mkBackendInfo a b c d e f v h i j k);
   field "backend_readiness" json_string (λ v '(mkBackendInfo a b c d e f g _ i j k), mkBackendInfo a b c d e f g v i j k);
   field "backend_capabilities" json_strings (λ v '(mkBackendInfo a b c d e f g h _ j k), mkBackendInfo a b c d e f g h v j k);
   field "backend_abi_version" json_uint32 (λ v '(mkBackendInfo a b c d e f g h i _ k), mkBackendInfo a b c d e f g h i v k);
   field "backend_build_fingerprint" json_string (λ v '(mkBackendInfo a b c d e f g h i j _), mkBackendInfo a b c d e f g h i j v)].
Definition read_BackendInfo : JSON → res BackendInfo := json_struct true BackendInfo_fields zero_BackendInfo.

End Readers.


(** ** Requests as JSON *)

(** [value.Format(time.RFC3339)] and [time.RFC3339Nano] of a time in UTC. *)
Definition seconds_text (value : Time) : string :=
  match time_fields value with
  | [y; m; d; hour; min; sec; _] =>
      formatYear y +:+ "-" +:+ pad 2 m +:+ "-" +:+ pad 2 d +:+ "T" +:+ pad 2 hour +:+ ":" +:+ pad 2 min
      +:+ ":" +:+ pad 2 sec
  | _ => ""
  end.
Definition formatRFC3339 (value : Time) : string := seconds_text value +:+ "Z".
Definition nanoseconds (value : Time) : Z := value mod Second.
Definition formatRFC3339Nano (value : Time) : string :=
  seconds_text value
  +:+ (if Z.eqb (nanoseconds value) 0 then ""
       else "." +:+ trim_right_byte "0" (pad 9 (nanoseconds value))) +:+ "Z".

(** [time.Time.MarshalJSON]. Times are instants here: they are written in UTC. *)
Definition time_json (value : Time) : res JSON :=
  if Z.leb (DateUTC 0 1 1) value && Z.ltb value (DateUTC 10000 1 1) then Ok (JString (formatRFC3339Nano value))
  else Err (EText "Time.MarshalJSON: year outside of range [0,9999]").

Definition coreTime (value : Time) : string := formatRFC3339 (value - value mod Second).

(** A member that [omitempty] leaves out when it is empty. *)
Definition omit_string (name value : string) : list (string * JSON) :=
  if value =s "" then [] else [(name, JString value)].
Definition omit_strings (name : string) (value : list string) : list (string * JSON) :=
  match value with [] => [] | _ => [(name, JArray (JString <$> value))] end.
Definition omit_bool (name : string) (value : bool) : list (string * JSON) :=
  if value then [(name, JBoolean true)] else [].
Definition omit_int (name : string) (value : option Z) : list (string * JSON) :=
  match value with Some n => [(name, JNumber n)] | None => [] end.

(** Lists do not tell a nil slice, which is written as null, from an empty
    one; [nil_slice] says which of the two an empty field holds. *)
Definition slice_json (nil : bool) (values : list string) : JSON :=
  match values with [] => if nil then JNull else JArray [] | _ => JArray (JString <$> values) end.

Definition json_IssueRequest (nil_slice : string → bool) (req : IssueRequest) : res JSON :=
  let! notBefore := time_json (IssueRequest_NotBefore req) in
  let! notAfter := time_json (IssueRequest_NotAfter req) in
  Ok (JObject (
    [("csr_pem", JString (IssueRequest_CSRPEM req));
     ("issuer_certificate_pem", JString (IssueRequest_IssuerCertificatePEM req));
     ("issuer_key_ref", JString (IssueRequest_IssuerKeyRef req))]
    ++ omit_string "aia_url" (IssueRequest_AIAURL req)
    ++ omit_strings "crl_distribution_points" (IssueRequest_CRLDistributionPoints req)
    ++ [("subject", JString (IssueRequest_Subject req));
        ("dns_names", slice_json (nil_slice "dns_names") (IssueRequest_DNSNames req));
        ("ip_addresses", slice_json (nil_slice "ip_addresses") (IssueRequest_IPAddresses req));
        ("not_before", notBefore);
        ("not_after", notAfter);
        ("signature_algorithm", JString (IssueRequest_SignatureAlgorithm req))]
    ++ omit_string "profile_id" (IssueRequest_ProfileID req)
    ++ omit_bool "basic_constraints_critical" (IssueRequest_BasicConstraintsCritical req)
    ++ omit_bool "basic_constraints_ca" (IssueRequest_BasicConstraintsCA req)
    ++ omit_int "basic_constraints_max_path_len" (IssueRequest_BasicConstraintsMaxPathLen req)
    ++ omit_bool "key_usage_critical" (IssueRequest_KeyUsageCritical req)
    ++ omit_strings "key_usage" (IssueRequest_KeyUsage req)
    ++ omit_bool "extended_key_usage_critical" (IssueRequest_ExtendedKeyUsageCritical req)
    ++ omit_strings "extended_key_usage" (IssueRequest_ExtendedKeyUsage req)
    ++ omit_bool "subject_key_identifier" (IssueRequest_SubjectKeyIdentifier req)
    ++ omit_bool "authority_key_identifier" (IssueRequest_AuthorityKeyIdentifier req))).

Record crlFileRequest := mk_crlFileRequest {
  crlFileRequest_IssuerCertificatePEM : string;
  crlFileRequest_IssuerKeyRef : string;
  crlFileRequest_CRLNumber : Z;
  crlFileRequest_ThisUpdate : string;
  crlFileRequest_NextUpdate : string;
  crlFileRequest_RevokedSerialNumbers : list string;
  crlFileRequest_RevokedAtTimes : list string;
  crlFileRequest_RevocationReasons : list string;
}.

Record ocspResponseFileRequest := mk_ocspResponseFileRequest {
  ocspResponseFileRequest_IssuerCertificatePEM : string;
  ocspResponseFileRequest_IssuerKeyRef : string;
  ocspResponseFileRequest_ThisUpdate : string;
  ocspResponseFileRequest_NextUpdate : string;
  ocspResponseFileRequest_SerialNumbers : list string;
  ocspResponseFileRequest_HashAlgorithms : list string;
  ocspResponseFileRequest_IssuerNameHashes : list string;
  ocspResponseFileRequest_IssuerKeyHashes : list string;
  ocspResponseFileRequest_Statuses : list string;
  ocspResponseFileRequest_RevokedAtTimes : list string;
  ocspResponseFileRequest_RevocationReasons : list string;
}.

(** The request struct of [GenerateCRL]: the loop appends one entry of each
    list per revoked certificate. *)
Definition appendRevoked (r : crlFileRequest) (revoked : RevokedCertificate) : crlFileRequest :=
  mk_crlFileRequest (crlFileRequest_IssuerCertificatePEM r) (crlFileRequest_IssuerKeyRef r)
    (crlFileRequest_CRLNumber r) (crlFileRequest_ThisUpdate r) (crlFileRequest_NextUpdate r)
    (crlFileRequest_RevokedSerialNumbers r ++ [RevokedCertificate_SerialNumber revoked])
    (crlFileRequest_RevokedAtTimes r ++ [coreTime (RevokedCertificate_RevokedAt revoked)])
    (crlFileRequest_RevocationReasons r ++ [RevokedCertificate_Reason revoked]).
Definition crlRequestOf (req : GenerateCRLRequest) : crlFileRequest :=
  fold_left appendRevoked (GenerateCRLRequest_RevokedCertificates req)
    (mk_crlFileRequest (GenerateCRLRequest_IssuerCertificatePEM req) (GenerateCRLRequest_IssuerKeyRef req)
      (GenerateCRLRequest_CRLNumber req) (coreTime (GenerateCRLRequest_ThisUpdate req))
      (coreTime (GenerateCRLRequest_NextUpdate req)) [] [] []).

Definition appendStatus (r : ocspResponseFileRequest) (certificate : OCSPCertificateStatus)
    : ocspResponseFileRequest :=
  mk_ocspResponseFileRequest (ocspResponseFileRequest_IssuerCertificatePEM r)
    (ocspResponseFileRequest_IssuerKeyRef r) (ocspResponseFileRequest_ThisUpdate r)
    (ocspResponseFileRequest_NextUpdate r)
    (ocspResponseFileRequest_SerialNumbers r ++ [OCSPCertificateStatus_SerialNumber certificate])
    (ocspResponseFileRequest_HashAlgorithms r ++ [OCSPCertificateStatus_HashAlgorithm certificate])
    (ocspResponseFileRequest_IssuerNameHashes r ++ [OCSPCertificateStatus_IssuerNameHash certificate])
    (ocspResponseFileRequest_IssuerKeyHashes r ++ [OCSPCertificateStatus_IssuerKeyHash certificate])
    (ocspResponseFileRequest_Statuses r ++ [OCSPCertificateStatus_Status certificate])
    (ocspResponseFileRequest_RevokedAtTimes r ++ [coreTime (OCSPCertificateStatus_RevokedAt certificate)])
    (ocspResponseFileRequest_RevocationReasons r ++ [OCSPCertificateStatus_RevocationReason certificate]).
Definition ocspRequestOf (req : GenerateOCSPResponseRequest) : ocspResponseFileRequest :=
  fold_left appendStatus (GenerateOCSPResponseRequest_Certificates req)
    (mk_ocspResponseFileRequest (GenerateOCSPResponseRequest_IssuerCertificatePEM req)
      (GenerateOCSPResponseRequest_IssuerKeyRef req) (coreTime (GenerateOCSPResponseRequest_ThisUpdate req))
      (coreTime (GenerateOCSPResponseRequest_NextUpdate req)) [] [] [] [] [] [] []).

Definition strings_json (l : list string) : JSON := JArray (JString <$> l).
Definition json_crlFileRequest (r : crlFileRequest) : JSON :=
  JObject
    [("issuer_certificate_pem", JString (crlFileRequest_IssuerCertificatePEM r));
     ("issuer_key_ref", JString (crlFileRequest_IssuerKeyRef r));
     ("crl_number", JNumber (crlFileRequest_CRLNumber r));
     ("this_update", JString (crlFileRequest_ThisUpdate r));
     ("next_update", JString (crlFileRequest_NextUpdate r));
     ("revoked_serial_numbers", strings_json (crlFileRequest_RevokedSerialNumbers r));
     ("revoked_at_times", strings_json (crlFileRequest_RevokedAtTimes r));
     ("revocation_reasons", strings_json (crlFileRequest_RevocationReasons r))].
Definition json_ocspResponseFileRequest (r : ocspResponseFileRequest) : JSON :=
  JObject
    [("issuer_certificate_pem", JString (ocspResponseFileRequest_IssuerCertificatePEM r));
     ("issuer_key_ref", JString (ocspResponseFileRequest_IssuerKeyRef r));
     ("this_update", JString (ocspResponseFileRequest_ThisUpdate r));
     ("next_update", JString (ocspResponseFileRequest_NextUpdate r));
     ("serial_numbers", strings_json (ocspResponseFileRequest_SerialNumbers r));
     ("hash_algorithms", strings_json (ocspResponseFileRequest_HashAlgorithms r));
     ("issuer_name_hashes", strings_json (ocspResponseFileRequest_IssuerNameHashes r));
     ("issuer_key_hashes", strings_json (ocspResponseFileRequest_IssuerKeyHashes r));
     ("statuses", strings_json (ocspResponseFileRequest_Statuses r));
     ("revoked_at_times", strings_json (ocspResponseFileRequest_RevokedAtTimes r));
     ("revocation_reasons", strings_json (ocspResponseFileRequest_RevocationReasons r))].

(** What [json.NewEncoder(w).Encode] writes. *)
Definition encoded (v : JSON) : string := json_Marshal v +:+ bytes_str [10%nat].

(** ** The operating system *)

Notation Files := (gmap string string).
Record OS := mkOS { os_files : Files; os_descriptors : Z; os_tick : nat }.
Definition IO (A : Type) : Type := GoM OS A.

(** [exec.Cmd]: the program, its arguments and, when it is set, its
    environment. *)
Record Cmd := mkCmd { cmd_Path : string; cmd_Args : list string; cmd_Env : option (list string) }.
(** What a run leaves: the error of [cmd.Run], the two outputs and the files. *)
Record Ran := mkRan { ran_err : option goerr; ran_stdout : string; ran_stderr : string; ran_files : Files }.

(** Everything outside the program, indexed by the time of the call. *)
Class OSEnv := {
  os_unicode :: GoUnicode;
  (** [os.TempDir] and the random part of temporary names, by attempt *)
  temp_dir : string;
  temp_random : nat → nat → string;
  (** failures of the system calls; a failed write has written some bytes *)
  create_fault : nat → option goerr;
  write_fault : nat → option (nat * goerr);
  close_fault : nat → option goerr;
  open_fault : nat → option goerr;
  read_fault : nat → option goerr;
  remove_fault : nat → option goerr;
  (** [os.Environ] *)
  environ : list string;
  (** the core process *)
  process : nat → Cmd → Files → Ran;
  nil_slice : string → bool;
}.

(** [defer f()]: [f] runs after the rest, whatever the rest returns; its own
    result is dropped. *)
Definition deferM {S A B} (f : GoM S B) (rest : GoM S A) : GoM S A := λ s,
  let '(r, s) := rest s in (r, (f s).2).
Notation "'defer*' f 'in' k" := (deferM f k) (at level 10, f at level 100, k at level 200) : go_scope.

(** [if err != nil { return fmt.Errorf(text+": %w", err) }] *)
Definition wrapErr {S A} (text : string) (m : GoM S A) : GoM S A := λ s,
  match m s with (Ok a, s') => (Ok a, s') | (Err e, s') => (Err (EWrap text e), s') end.

Section Runner.
Context `{OSEnv}.

Definition tick : IO nat := λ s, (Ok (os_tick s), mkOS (os_files s) (os_descriptors s) (S (os_tick s))).
Definition set_files (f : Files → Files) : IO unit :=
  putM (λ s, mkOS (f (os_files s)) (os_descriptors s) (os_tick s)).
Definition descriptor (n : Z) : IO unit :=
  putM (λ s, mkOS (os_files s) (os_descriptors s + n) (os_tick s)).
Definition fail_on (fault : option goerr) : IO unit := match fault with Some e => failM e | None => retM tt end.

(** [os.CreateTemp("", pattern)]: an empty new file under a random name; a
    name that exists is tried again, up to 10000 times. *)
Definition temp_name (pattern : string) (t try : nat) : string :=
  match cut_byte "*"%char pattern with
  | Some (prefix, suffix) => temp_dir +:+ "/" +:+ prefix +:+ temp_random t try +:+ suffix
  | None => temp_dir +:+ "/" +:+ pattern +:+ temp_random t try
  end.
Fixpoint free_name (pattern : string) (t : nat) (files : Files) (tries try : nat) : option string :=
  match tries with
  | O => None
  | S tries =>
      let name := temp_name pattern t try in
      match files !! name with
      | Some _ => free_name pattern t files tries (S try)
      | None => Some name
      end
  end.
Definition tempTries : nat := Z.to_nat 10000.
#[global] Arguments tempTries : simpl never.
Definition CreateTemp (pattern : string) : IO string :=
  let* t := tick in
  do* fail_on (create_fault t) in
  let* files := getM os_files in
  match free_name pattern t files tempTries 0 with
  | None => failM (EText "createtemp: file exists")
  | Some name =>
      do* set_files (insert name "") in
      do* descriptor 1 in
      retM name
  end.

(** [file.Write] at the end of the file under this name. *)
Definition Write (name data : string) : IO unit :=
  let* t := tick in
  let append data := set_files (λ files, <[name := default "" (files !! name) +:+ data]> files) in
  match write_fault t with
  | Some (n, e) => do* append (str_take n data) in failM e
  | None => append data
  end.
(** [file.Close]: the descriptor is released in any case. *)
Definition Close : IO unit :=
  let* t := tick in
  do* descriptor (-1) in
  fail_on (close_fault t).
Definition Open (name : string) : IO unit :=
  let* t := tick in
  do* fail_on (open_fault t) in
  let* files := getM os_files in
  match files !! name with
  | None => failM (EText "open: no such file or directory")
  | Some _ => descriptor 1
  end.
(** The text of an open file. *)
Definition Read (name : string) : IO string :=
  let* t := tick in
  do* fail_on (read_fault t) in
  getM (λ s, default "" (os_files s !! name)).
Definition ReadFile (name : string) : IO string :=
  do* Open name in
  defer* Close in
  Read name.
Definition Remove (name : string) : IO unit :=
  let* t := tick in
  do* fail_on (remove_fault t) in
  let* files := getM os_files in
  match files !! name with
  | None => failM (EText "remove: no such file or directory")
  | Some _ => set_files (delete name)
  end.

(** ** Commands *)

Definition coreCommand (bin : string) (args : list string) : Cmd :=
  mkCmd (if bin =s "" then "anopki-core" else bin) args None.

Definition Run (cmd : Cmd) : IO Ran :=
  let* t := tick in
  let* files := getM os_files in
  let ran := process t cmd files in
  do* set_files (λ _, ran_files ran) in
  retM ran.

(** [CommandError.Error]; [text] is the text of the wrapped error. *)
Definition CommandError_Error (text : goerr → string) (Code Message : string) (OpenSSLErrors : list string)
    (Err : option goerr) : string :=
  let prefix := "anopki-core command failed" in
  let detail := Code in
  let detail := if Message =s "" then detail
    else (if detail =s "" then detail else detail +:+ ": ") +:+ Message in
  if detail =s "" then
    match Err with None => prefix | Some e => prefix +:+ ": " +:+ text e end
  else
    let detail := match OpenSSLErrors with
      | [] => detail
      | _ => detail +:+ ": " +:+ String.concat "; " OpenSSLErrors end in
    match Err with
    | None => prefix +:+ ": " +:+ detail
    | Some e => prefix +:+ ": " +:+ detail +:+ ": " +:+ text e
    end.

Definition commandError (err : goerr) (stderr : string) : goerr :=
  let stderr := TrimSpace stderr in
  if stderr =s "" then ECommand "" "" [] err
  else match Unmarshal read_commandErrorPayload stderr with
  | Ok payload =>
      if (commandErrorPayload_Code payload <>s "") || (commandErrorPayload_Message payload <>s "")
      then ECommand (commandErrorPayload_Code payload) (commandErrorPayload_Message payload)
             (commandErrorPayload_OpenSSLErrors payload) err
      else ECommand "" stderr [] err
  | Err _ => ECommand "" stderr [] err
  end.

(** [if err := cmd.Run(); err != nil { return commandError(err, stderr) }];
    the result is the standard output. *)
Definition runCore (cmd : Cmd) : IO string :=
  let* ran := Run cmd in
  match ran_err ran with
  | Some err => failM (commandError err (ran_stderr ran))
  | None => retM (ran_stdout ran)
  end.

(** [closeWithError(err, file)] after a failed write. *)
Definition closeWithError {A} (err : goerr) : IO A := λ s,
  match Close s with
  | (Ok _, s') => (Err err, s')
  | (Err closeErr, s') => (Err (EWrap2 err closeErr), s')
  end.
(** [if err := write; err != nil { return closeWithError(err, file) }] *)
Definition orClose {A} (m : IO A) : IO A := λ s,
  match m s with
  | (Ok a, s') => (Ok a, s')
  | (Err err, s') => closeWithError err s'
  end.
(** [json.NewEncoder(file).Encode(v)] *)
Definition Encode (name : string) (v : res JSON) : IO unit :=
  match v with Ok v => Write name (encoded v) | Err e => failM e end.

(** ** Signing evidence *)

Definition signingEvidenceEnvironment : string := "ANOPKI_CORE_SIGNING_EVIDENCE_FILE".

Definition createSigningEvidenceFile : IO string :=
  let* path := CreateTemp "anopki-core-signing-evidence-*.json" in
  λ s, match Close s with
  | (Ok _, s') => (Ok path, s')
  | (Err err, s') =>
      match Remove path s' with
      | (Ok _, s'') => (Err err, s'')
      | (Err removeErr, s'') => (Err (EWrap2 err removeErr), s'')
      end
  end.

(** The name of an entry of the environment. *)
Definition entry_name (entry : string) : string := from_option fst entry (cut_byte "="%char entry).
Fixpoint withoutEvidence (entries : list string) : list string :=
  match entries with
  | [] => []
  | entry :: entries =>
      if EqualFold (entry_name entry) signingEvidenceEnvironment then withoutEvidence entries
      else entry :: withoutEvidence entries
  end.
Definition withSigningEvidenceEnvironment (cmd : Cmd) (path : string) : Cmd :=
  let prefix := signingEvidenceEnvironment +:+ "=" in
  mkCmd (cmd_Path cmd) (cmd_Args cmd) (Some (withoutEvidence environ ++ [prefix +:+ path])).

Definition readSigningEvidence (path expectedOperation expectedAlgorithm : string) : IO SigningEvidence :=
  do* wrapErr "open signing evidence" (Open path) in
  defer* Close in
  let* text := wrapErr "decode signing evidence" (Read path) in
  let* evidence := liftM (decode_only "decode signing evidence" read_SigningEvidence text) in
  do* liftM (ValidateSigningEvidence evidence expectedOperation expectedAlgorithm) in
  retM evidence.

(** [openCoreResult], decoding and the deferred close. *)
Definition readCoreJSON {A} (open decode : string) (read : JSON → res A) (path : string) (rest : A → IO A) : IO A :=
  do* wrapErr open (Open path) in
  defer* Close in
  let* text := wrapErr decode (Read path) in
  let* result := wrapErr decode (liftM (decode_first read text)) in
  rest result.

(** ** The operations of [Runner] *)

Context (Bin : string).

Definition InspectCSR (csrPEM : string) : IO CSRInfo :=
  let* csrPath := wrapErr "create csr temp file" (CreateTemp "anopki-core-csr-*.pem") in
  defer* Remove csrPath in
  do* wrapErr "write csr temp file" (orClose (Write csrPath csrPEM)) in
  do* wrapErr "close csr temp file" Close in
  let* stdout := runCore (coreCommand Bin ["csr"; "inspect"; "--in"; csrPath; "--out"; "json"]) in
  wrapErr "decode csr info" (liftM (decode_first read_CSRInfo stdout)).

Definition IssueResult_with_evidence (result : IssueResult) (evidence : SigningEvidence) : IssueResult :=
  mkIssueResult (IssueResult_CertificatePEM result) (IssueResult_SerialNumber result) (IssueResult_Subject result)
    (IssueResult_NotBefore result) (IssueResult_NotAfter result) evidence.

Definition Issue (req : IssueRequest) : IO IssueResult :=
  let* requestPath := wrapErr "create issue request temp file" (CreateTemp "anopki-core-issue-request-*.json") in
  defer* Remove requestPath in
  do* wrapErr "write issue request" (orClose (Encode requestPath (json_IssueRequest nil_slice req))) in
  do* wrapErr "close issue request" Close in
  let* resultPath := wrapErr "create issue result temp file" (CreateTemp "anopki-core-issue-result-*.json") in
  defer* Remove resultPath in
  do* wrapErr "close issue result temp file" Close in
  let* evidencePath := wrapErr "create issue signing evidence temp file" createSigningEvidenceFile in
  defer* Remove evidencePath in
  let cmd := coreCommand Bin ["cert"; "issue"; "--request"; requestPath; "--out"; resultPath] in
  do* runCore (withSigningEvidenceEnvironment cmd evidencePath) in
  readCoreJSON "open issue result" "decode issue result" read_IssueResult resultPath (λ result,
    let* evidence := readSigningEvidence evidencePath "certificate_issue" (IssueRequest_SignatureAlgorithm req) in
    retM (IssueResult_with_evidence result evidence)).

Definition GenerateCRL (req : GenerateCRLRequest) : IO GenerateCRLResult :=
  let* requestPath := wrapErr "create crl request temp file" (CreateTemp "anopki-core-crl-request-*.json") in
  defer* Remove requestPath in
  let fileReq := crlRequestOf req in
  do* wrapErr "write crl request" (orClose (Encode requestPath (Ok (json_crlFileRequest fileReq)))) in
  do* wrapErr "close crl request" Close in
  let* resultPath := wrapErr "create crl result temp file" (CreateTemp "anopki-core-crl-result-*.json") in
  defer* Remove resultPath in
  do* wrapErr "close crl result temp file" Close in
  let* evidencePath := wrapErr "create crl signing evidence temp file" createSigningEvidenceFile in
  defer* Remove evidencePath in
  let cmd := coreCommand Bin ["crl"; "generate"; "--request"; requestPath; "--out"; resultPath] in
  do* runCore (withSigningEvidenceEnvironment cmd evidencePath) in
  readCoreJSON "open crl result" "decode crl result" read_GenerateCRLResult resultPath (λ result,
    let* evidence := readSigningEvidence evidencePath "crl_generate_sign" "sha256" in
    retM (mkGenerateCRLResult (GenerateCRLResult_CRLPEM result) evidence)).

Definition InspectOCSP (requestDER : string) : IO OCSPRequestInfo :=
  let* requestPath := wrapErr "create ocsp request temp file" (CreateTemp "anopki-core-ocsp-request-*.der") in
  defer* Remove requestPath in
  do* wrapErr "write ocsp request" (orClose (Write requestPath requestDER)) in
  do* wrapErr "close ocsp request" Close in
  let* resultPath := wrapErr "create ocsp info temp file" (CreateTemp "anopki-core-ocsp-info-*.json") in
  defer* Remove resultPath in
  do* wrapErr "close ocsp info temp file" Close in
  do* runCore (coreCommand Bin ["ocsp"; "inspect"; "--in"; requestPath; "--out"; resultPath]) in
  readCoreJSON "open ocsp info" "decode ocsp info" read_OCSPRequestInfo resultPath retM.

Definition InspectOCSPIssuer (issuerCertificatePEM hashAlgorithm : string) : IO OCSPIssuerInfo :=
  let* issuerPath := wrapErr "create ocsp issuer temp file" (CreateTemp "anopki-core-ocsp-issuer-*.pem") in
  defer* Remove issuerPath in
  do* wrapErr "write ocsp issuer" (orClose (Write issuerPath issuerCertificatePEM)) in
  do* wrapErr "close ocsp issuer" Close in
  let* resultPath := wrapErr "create ocsp issuer info temp file" (CreateTemp "anopki-core-ocsp-issuer-info-*.json") in
  defer* Remove resultPath in
  do* wrapErr "close ocsp issuer info temp file" Close in
  let hashAlgorithm := if hashAlgorithm =s "" then "sha1" else hashAlgorithm in
  do* runCore (coreCommand Bin
    ["ocsp"; "inspect-issuer"; "--issuer"; issuerPath; "--out"; resultPath; "--hash"; hashAlgorithm]) in
  readCoreJSON "open ocsp issuer info" "decode ocsp issuer info" read_OCSPIssuerInfo resultPath retM.

Definition ValidateOCSPResponder (issuerCertificatePEM responderCertificatePEM : string)
    : IO ValidateOCSPResponderResult :=
  let* issuerPath := wrapErr "create ocsp issuer temp file" (CreateTemp "anopki-core-ocsp-issuer-*.pem") in
  defer* Remove issuerPath in
  do* wrapErr "write ocsp issuer" (orClose (Write issuerPath issuerCertificatePEM)) in
  do* wrapErr "close ocsp issuer" Close in
  let* responderPath := wrapErr "create ocsp responder temp file" (CreateTemp "anopki-core-ocsp-responder-*.pem") in
  defer* Remove responderPath in
  do* wrapErr "write ocsp responder" (orClose (Write responderPath responderCertificatePEM)) in
  do* wrapErr "close ocsp responder" Close in
  let* resultPath := wrapErr "create ocsp responder validation temp file"
    (CreateTemp "anopki-core-ocsp-responder-validation-*.json") in
  defer* Remove resultPath in
  do* wrapErr "close ocsp responder validation temp file" Close in
  do* runCore (coreCommand Bin
    ["ocsp"; "validate-responder"; "--issuer"; issuerPath; "--responder"; responderPath; "--out"; resultPath]) in
  readCoreJSON "open ocsp responder validation" "decode ocsp responder validation"
    read_ValidateOCSPResponderResult resultPath retM.

Definition GenerateOCSPResponse (req : GenerateOCSPResponseRequest) : IO GenerateOCSPResponseResult :=
  let* requestDERPath := wrapErr "create ocsp request temp file" (CreateTemp "anopki-core-ocsp-request-*.der") in
  defer* Remove requestDERPath in
  do* wrapErr "write ocsp request der" (orClose (Write requestDERPath (GenerateOCSPResponseRequest_RequestDER req))) in
  do* wrapErr "close ocsp request der" Close in
  let* requestPath := wrapErr "create ocsp response request temp file"
    (CreateTemp "anopki-core-ocsp-response-request-*.json") in
  defer* Remove requestPath in
  let fileReq := ocspRequestOf req in
  do* wrapErr "write ocsp response request"
    (orClose (Encode requestPath (Ok (json_ocspResponseFileRequest fileReq)))) in
  do* wrapErr "close ocsp response request" Close in
  let* responsePath := wrapErr "create ocsp response temp file" (CreateTemp "anopki-core-ocsp-response-*.der") in
  defer* Remove responsePath in
  do* wrapErr "close ocsp response temp file" Close in
  let* evidencePath := wrapErr "create ocsp signing evidence temp file" createSigningEvidenceFile in
  defer* Remove evidencePath in
  let cmd := coreCommand Bin
    ["ocsp"; "respond"; "--in"; requestDERPath; "--request"; requestPath; "--out"; responsePath] in
  do* runCore (withSigningEvidenceEnvironment cmd evidencePath) in
  let* responseDER := wrapErr "read ocsp response" (ReadFile responsePath) in
  let* evidence := readSigningEvidence evidencePath "ocsp_response_sign" "sha256" in
  retM (mkGenerateOCSPResponseResult responseDER evidence).

(** ** Backend information *)

(** The named values the check finds blank; Go ranges over them in any order. *)
Definition backendFields (info : BackendInfo) : list (string * string) :=
  [("product_profile", BackendInfo_ProductProfile info);
   ("edition", BackendInfo_Edition info);
   ("selected_backend", BackendInfo_SelectedBackend info);
   ("backend_id", BackendInfo_BackendID info);
   ("backend_dependency", BackendInfo_BackendDependency info);
   ("backend_version", BackendInfo_BackendVersion info);
   ("backend_readiness", BackendInfo_BackendReadiness info);
   ("backend_build_fingerprint", BackendInfo_BackendBuildFingerprint info)].

Fixpoint capabilitiesLoop (seen : gset string) (capabilities : list string) : res unit :=
  match capabilities with
  | [] => Ok tt
  | capability :: capabilities =>
      let capability := TrimSpace capability in
      do! check_not (capability =s "") (EText "validate backend info: blank capability") in
      do! check_not (bool_decide (capability ∈ seen))
            (EText ("validate backend info: duplicate capability " +:+ capability)) in
      capabilitiesLoop ({[capability]} ∪ seen) capabilities
  end.

(** [order] is the order in which the map of the fields is ranged over. *)
Definition ValidateBackendInfo (order : list (string * string) → list (string * string)) (info : BackendInfo)
    : res unit :=
  do! for_checks (order (backendFields info)) (λ '(name, value),
        check_not (isBlank value) (EText ("validate backend info: " +:+ name +:+ " is empty"))) in
  do! check_not (BackendInfo_FallbackEnabled info) (EText "validate backend info: fallback must be disabled") in
  do! check_not (BackendInfo_SelectedBackend info <>s BackendInfo_BackendID info)
        (EText "validate backend info: selected backend does not match backend id") in
  do! check_not (BackendInfo_BackendReadiness info <>s "ready") (EText "validate backend info: backend is not ready") in
  do! check_not (Z.eqb (BackendInfo_BackendABIVersion info) 0)
        (EText "validate backend info: backend ABI version is zero") in
  capabilitiesLoop ∅ (BackendInfo_BackendCapabilities info).

Definition decodeBackendInfo (order : list (string * string) → list (string * string)) (payload : string)
    : res BackendInfo :=
  let! info := decode_only "decode backend info" read_BackendInfo payload in
  do! ValidateBackendInfo order info in
  Ok info.

Definition Runner_BackendInfo (order : list (string * string) → list (string * string)) : IO BackendInfo :=
  let* stdout := runCore (coreCommand Bin ["backend"; "info"]) in
  liftM (decodeBackendInfo order stdout).
End Runner.
