(* ===== verification/SQLText.v ===== *)
(** * SQL statements

    The SQL store and the migrations hand statements to the database as text.
    This file reads such texts: the tokens, the expressions, and the statements
    of the dialect the sources use (SQLite's, with the [ALTER TABLE] forms of
    PostgreSQL). Keywords are upper-case words, as in the sources. *)

From Stdlib Require Import Ascii.
From S2P Require Import Prelude GoLib.

(** ** Values *)

Inductive SQLValue := VNull | VInt (z : Z) | VText (s : string).
#[global] Instance SQLValue_eq_dec : EqDecision SQLValue.
Proof. solve_decision. Defined.

(** How the SQLite driver binds a boolean. *)
Definition VBool (b : bool) : SQLValue := VInt (if b then 1 else 0).

(** ** Syntax *)

Inductive CmpOp := OpEq | OpNe | OpLt | OpLe | OpGt | OpGe.
Inductive Expr :=
| XCol (qualifier column : string)
| XArg (n : nat)
| XLit (v : SQLValue)
| XCmp (op : CmpOp) (a b : Expr)
| XIsNull (a : Expr)
| XNotNull (a : Expr)
| XNotDistinct (a b : Expr)
| XLike (a b : Expr)
| XAnd (a b : Expr)
| XOr (a b : Expr)
| XCase (c a b : Expr).

Record ColumnDef := mkColumnDef { cd_name : string; cd_notnull : bool; cd_default : SQLValue }.

Inductive TableItem :=
| TColumn (c : ColumnDef) (primaryKey : bool) (check : option Expr)
| TPrimaryKey (columns : list string).

Record Select := mkSelect {
  sel_columns : list Expr;
  sel_from : string * string;                   (* table, alias *)
  sel_joins : list (string * string * Expr);    (* table, alias, condition *)
  sel_where : option Expr;
  sel_order : list (Expr * bool);               (* key, descending *)
  sel_limit : option Expr;
  sel_offset : option Expr;
}.

Inductive Statement :=
| SSelect (s : Select)
| SInsert (table : string) (columns : list string) (values : list Expr)
    (upsert : option (list string * list (string * Expr)))
| SUpdate (table : string) (sets : list (string * Expr)) (where_ : option Expr)
| SDelete (table : string) (where_ : option Expr)
| SCreateTable (ifNotExists : bool) (table : string) (items : list TableItem)
| SCreateIndex (unique ifNotExists : bool) (name table : string) (columns : list string) (where_ : option Expr)
| SAddColumn (ifNotExists : bool) (table : string) (c : ColumnDef)
| SSetNotNull (table column : string)
| STableInfo (table : string)
| SBegin.

(** ** Tokens *)

Inductive Token := TWord (s : string) | TNum (z : Z) | TArg (n : nat) | TStr (s : string) | TSym (s : string).

Inductive LexMode := LStart | LWord (acc : string) | LNum (acc : Z) | LArg (acc : nat) | LStr (acc : string) | LSym (acc : string).

Definition snoc (s : string) (c : ascii) : string := s +:+ String.String c EmptyString.
Definition code (c : ascii) : nat := nat_of_ascii c.
Definition is_blank (c : ascii) : bool := Nat.leb (code c) 32.
Definition is_dec (c : ascii) : bool := Nat.leb 48 (code c) && Nat.leb (code c) 57.
Definition is_word_start (c : ascii) : bool :=
  (Nat.leb 65 (code c) && Nat.leb (code c) 90) || (Nat.leb 97 (code c) && Nat.leb (code c) 122) || Ascii.eqb c "_".
Definition is_word_char (c : ascii) : bool := is_word_start c || is_dec c.

Definition flush (m : LexMode) : list Token :=
  match m with
  | LStart => []
  | LWord acc => [TWord acc]
  | LNum acc => [TNum acc]
  | LArg acc => [TArg acc]
  | LStr acc => [TSym "unterminated"]
  | LSym acc => [TSym acc]
  end.

(** A character between tokens. *)
Definition lex_start (c : ascii) : LexMode :=
  if is_blank c then LStart
  else if is_word_start c then LWord (snoc "" c)
  else if is_dec c then LNum (Z.of_nat (code c - 48))
  else if Ascii.eqb c "$" || Ascii.eqb c "?" then LArg 0
  else if Ascii.eqb c "'" then LStr ""
  else LSym (snoc "" c).

(** The symbols of two characters. *)
Definition two_chars (s : string) (c : ascii) : bool :=
  (s =s "<") && (Ascii.eqb c "=" || Ascii.eqb c ">") || (s =s ">") && Ascii.eqb c "=".

Fixpoint lex (m : LexMode) (s : string) : list Token :=
  match s with
  | EmptyString => flush m
  | String.String c s' =>
      match m with
      | LStr acc => if Ascii.eqb c "'" then TStr acc :: lex LStart s' else lex (LStr (snoc acc c)) s'
      | LWord acc => if is_word_char c then lex (LWord (snoc acc c)) s' else TWord acc :: lex (lex_start c) s'
      | LNum acc =>
          if is_dec c then lex (LNum (acc * 10 + Z.of_nat (code c - 48))) s' else TNum acc :: lex (lex_start c) s'
      | LArg acc => if is_dec c then lex (LArg (acc * 10 + (code c - 48))) s' else TArg acc :: lex (lex_start c) s'
      | LSym acc => if two_chars acc c then TSym (snoc acc c) :: lex LStart s' else TSym acc :: lex (lex_start c) s'
      | LStart => lex (lex_start c) s'
      end
  end.

(** A [?] takes the next argument. *)
Fixpoint number_args (next : nat) (l : list Token) : list Token :=
  match l with
  | TArg 0 :: l => TArg next :: number_args (S next) l
  | t :: l => t :: number_args next l
  | [] => []
  end.
Definition tokens (s : string) : list Token := number_args 1 (lex LStart s).

(** ** Parsers *)

Definition Parser (A : Type) : Type := list Token → option (A * list Token).
Definition pret {A} (a : A) : Parser A := λ l, Some (a, l).
Definition pfail {A} : Parser A := λ _, None.
Definition pbind {A B} (p : Parser A) (k : A → Parser B) : Parser B := λ l,
  match p l with Some (a, l') => k a l' | None => None end.
Definition por {A} (p q : Parser A) : Parser A := λ l, match p l with Some r => Some r | None => q l end.
#[local] Notation "'let%' x ':=' c 'in' k" := (pbind c (λ x, k)) (at level 10, x name, c at level 100, k at level 200).
#[local] Notation "'do%' c 'in' k" := (pbind c (λ _, k)) (at level 10, c at level 100, k at level 200).

Definition word (w : string) : Parser unit := λ l,
  match l with TWord s :: l' => if s =s w then Some (tt, l') else None | _ => None end.
Definition sym (w : string) : Parser unit := λ l,
  match l with TSym s :: l' => if s =s w then Some (tt, l') else None | _ => None end.
Fixpoint words (ws : list string) : Parser unit :=
  match ws with [] => pret tt | w :: ws => do% word w in words ws end.
Definition name : Parser string := λ l, match l with TWord s :: l' => Some (s, l') | _ => None end.
(** Whether the text goes on with these words, which are then taken. *)
Definition opt_words (ws : list string) : Parser bool :=
  por (do% words ws in pret true) (pret false).

(** [p, p, ...] with at most [fuel] elements. *)
Fixpoint list_of {A} (fuel : nat) (p : Parser A) : Parser (list A) :=
  match fuel with
  | O => pfail
  | S fuel => let% x := p in por (do% sym "," in let% l := list_of fuel p in pret (x :: l)) (pret [x])
  end.
Definition parens {A} (p : Parser A) : Parser A := do% sym "(" in let% x := p in do% sym ")" in pret x.

Definition cmp_op : Parser CmpOp := λ l,
  match l with
  | TSym s :: l' =>
      if s =s "=" then Some (OpEq, l') else if s =s "<>" then Some (OpNe, l')
      else if s =s "<" then Some (OpLt, l') else if s =s "<=" then Some (OpLe, l')
      else if s =s ">" then Some (OpGt, l') else if s =s ">=" then Some (OpGe, l') else None
  | _ => None
  end.

(** A literal, as defaults are written. *)
Definition literal : Parser SQLValue := λ l,
  match l with
  | TNum z :: l' => Some (VInt z, l')
  | TStr s :: l' => Some (VText s, l')
  | TWord w :: l' =>
      if w =s "NULL" then Some (VNull, l') else if w =s "TRUE" then Some (VInt 1, l')
      else if w =s "FALSE" then Some (VInt 0, l') else None
  | _ => None
  end.

(** Alternatives and conjunctions of predicates; the fuel bounds the nesting. *)
Fixpoint expr (fuel : nat) : Parser Expr :=
  match fuel with
  | O => pfail
  | S fuel =>
      let operand : Parser Expr :=
        por (let% v := literal in pret (XLit v))
        (por (λ l, match l with TArg n :: l' => Some (XArg n, l') | _ => None end)
        (por (do% words ["CASE"; "WHEN"] in let% c := expr fuel in do% word "THEN" in let% a := expr fuel in
              do% word "ELSE" in let% b := expr fuel in do% word "END" in pret (XCase c a b))
        (por (parens (expr fuel))
        (por (let% q := name in do% sym "." in let% c := name in pret (XCol q c))
             (let% c := name in pret (XCol "" c)))))) in
      let predicate : Parser Expr :=
        let% a := operand in
        por (let% op := cmp_op in let% b := operand in pret (XCmp op a b))
        (por (do% words ["IS"; "NULL"] in pret (XIsNull a))
        (por (do% words ["IS"; "NOT"; "NULL"] in pret (XNotNull a))
        (por (do% words ["IS"; "NOT"; "DISTINCT"; "FROM"] in let% b := operand in pret (XNotDistinct a b))
        (por (do% word "LIKE" in let% b := operand in pret (XLike a b))
        (por (do% word "IN" in let% l := parens (list_of fuel operand) in
              match (λ b, XCmp OpEq a b) <$> l with x :: l => pret (fold_left XOr l x) | [] => pfail end)
             (pret a)))))) in
      let fix conjuncts (n : nat) (a : Expr) : Parser Expr :=
        match n with
        | O => pret a
        | S n => por (do% word "AND" in let% b := predicate in conjuncts n (XAnd a b)) (pret a)
        end in
      let fix disjuncts (n : nat) (a : Expr) : Parser Expr :=
        match n with
        | O => pret a
        | S n => por (do% word "OR" in let% b := predicate in let% b := conjuncts fuel b in disjuncts n (XOr a b)) (pret a)
        end in
      let% a := predicate in let% a := conjuncts fuel a in disjuncts fuel a
  end.

Section Clauses.
Variable fuel : nat.

Definition where_clause : Parser (option Expr) :=
  por (do% word "WHERE" in let% e := expr fuel in pret (Some e)) (pret None).

Definition assignment : Parser (string * Expr) :=
  let% c := name in do% sym "=" in let% e := expr fuel in pret (c, e).

(** A table with the alias its columns are qualified with. *)
Definition reserved (w : string) : bool :=
  existsb (String.eqb w) ["WHERE"; "ORDER"; "JOIN"; "ON"; "LIMIT"; "OFFSET"; "SET"].
Definition table_alias : Parser (string * string) :=
  let% t := name in
  por (let% a := name in if reserved a then pfail else pret (t, a)) (pret (t, t)).

Fixpoint joins (n : nat) : Parser (list (string * string * Expr)) :=
  match n with
  | O => pret []
  | S n =>
      por (do% word "JOIN" in let% ta := table_alias in do% word "ON" in let% e := expr fuel in
           let% js := joins n in pret ((ta, e) :: js))
          (pret [])
  end.

Definition order_key : Parser (Expr * bool) :=
  let% e := expr fuel in
  por (do% word "DESC" in pret (e, true)) (let% _ := opt_words ["ASC"] in pret (e, false)).

Definition select : Parser Statement :=
  do% word "SELECT" in let% cols := list_of fuel (expr fuel) in
  do% word "FROM" in let% from := table_alias in let% js := joins fuel in
  let% w := where_clause in
  let% order := por (do% words ["ORDER"; "BY"] in list_of fuel order_key) (pret []) in
  let% lim := por (do% word "LIMIT" in let% e := expr fuel in pret (Some e)) (pret None) in
  let% off := por (do% word "OFFSET" in let% e := expr fuel in pret (Some e)) (pret None) in
  pret (SSelect (mkSelect cols from js w order lim off)).

Definition insert_ : Parser Statement :=
  do% words ["INSERT"; "INTO"] in let% t := name in let% cols := parens (list_of fuel name) in
  do% word "VALUES" in let% vals := parens (list_of fuel (expr fuel)) in
  let% up := por (do% words ["ON"; "CONFLICT"] in let% target := parens (list_of fuel name) in
                  do% words ["DO"; "UPDATE"; "SET"] in let% sets := list_of fuel assignment in
                  pret (Some (target, sets))) (pret None) in
  pret (SInsert t cols vals up).

Definition update : Parser Statement :=
  do% word "UPDATE" in let% t := name in do% word "SET" in let% sets := list_of fuel assignment in
  let% w := where_clause in pret (SUpdate t sets w).

Definition delete_ : Parser Statement :=
  do% words ["DELETE"; "FROM"] in let% t := name in let% w := where_clause in pret (SDelete t w).

(** The constraints of a column: not null, default, primary key, check. Foreign
    keys are read and dropped: SQLite does not enforce them by default. *)
Fixpoint column_constraints (n : nat) (c : ColumnDef) (pk : bool) (chk : option Expr) : Parser TableItem :=
  match n with
  | O => pfail
  | S n =>
      por (do% words ["PRIMARY"; "KEY"] in column_constraints n c true chk)
      (por (do% words ["NOT"; "NULL"] in column_constraints n (mkColumnDef (cd_name c) true (cd_default c)) pk chk)
      (por (do% word "DEFAULT" in let% v := literal in column_constraints n (mkColumnDef (cd_name c) (cd_notnull c) v) pk chk)
      (por (do% word "REFERENCES" in let% _ := name in let% _ := parens name in column_constraints n c pk chk)
      (por (do% word "CHECK" in let% e := parens (expr fuel) in column_constraints n c pk (Some e))
           (pret (TColumn c pk chk))))))
  end.
Definition column_def : Parser TableItem :=
  let% n := name in let% _ := name in column_constraints fuel (mkColumnDef n false VNull) false None.

Definition table_item : Parser TableItem :=
  por (do% words ["PRIMARY"; "KEY"] in let% cols := parens (list_of fuel name) in pret (TPrimaryKey cols)) column_def.

Definition create : Parser Statement :=
  do% word "CREATE" in
  por (do% word "TABLE" in let% ifne := opt_words ["IF"; "NOT"; "EXISTS"] in let% t := name in
       let% items := parens (list_of fuel table_item) in pret (SCreateTable ifne t items))
      (let% unique := opt_words ["UNIQUE"] in do% word "INDEX" in
       let% ifne := opt_words ["IF"; "NOT"; "EXISTS"] in let% n := name in do% word "ON" in let% t := name in
       let% cols := parens (list_of fuel name) in let% w := where_clause in
       pret (SCreateIndex unique ifne n t cols w)).

Definition alter : Parser Statement :=
  do% words ["ALTER"; "TABLE"] in let% t := name in
  por (do% words ["ADD"; "COLUMN"] in let% ifne := opt_words ["IF"; "NOT"; "EXISTS"] in let% item := column_def in
       match item with TColumn c false None => pret (SAddColumn ifne t c) | _ => pfail end)
      (do% words ["ALTER"; "COLUMN"] in let% c := name in do% words ["SET"; "NOT"; "NULL"] in pret (SSetNotNull t c)).

Definition statement : Parser Statement :=
  por select (por insert_ (por update (por delete_ (por create (por alter
    (por (do% words ["PRAGMA"; "table_info"] in let% t := parens name in pret (STableInfo t))
    (por (do% words ["PRAGMA"; "busy_timeout"] in do% sym "=" in let% _ := literal in pret SBegin)
         (do% words ["BEGIN"; "IMMEDIATE"] in pret SBegin)))))))).

(** Statements separated by semicolons. *)
Fixpoint statements (n : nat) (l : list Token) : option (list Statement) :=
  match n with
  | O => None
  | S n =>
      match l with
      | [] => Some []
      | TSym _ :: l' => match l with TSym s :: _ => if s =s ";" then statements n l' else None | _ => None end
      | _ => match statement l with
             | Some (s, l') => match l' with [] => Some [s] | _ => cons s <$> statements n l' end
             | None => None
             end
      end
  end.
End Clauses.

(** The statements of a text; its length bounds all of the fuels. *)
Definition parse_sql (text : string) : option (list Statement) :=
  let l := tokens text in let n := S (length l) in statements n n l.

Example parse_sample :
  parse_sql "SELECT c.id, r.reason FROM revocations r JOIN certificates c ON c.id = r.certificate_id
WHERE c.issuer_id = $1 AND (c.status = 'x' OR c.n IS NULL)
ORDER BY r.revoked_at DESC, c.id LIMIT $2"
  = Some [SSelect (mkSelect [XCol "c" "id"; XCol "r" "reason"] ("revocations", "r")
      [("certificates", "c", XCmp OpEq (XCol "c" "id") (XCol "r" "certificate_id"))]
      (Some (XAnd (XCmp OpEq (XCol "c" "issuer_id") (XArg 1))
         (XOr (XCmp OpEq (XCol "c" "status") (XLit (VText "x"))) (XIsNull (XCol "c" "n")))))
      [(XCol "r" "revoked_at", true); (XCol "c" "id", false)] (Some (XArg 2)) None)].
Proof. vm_compute. reflexivity. Qed.
