(* ===== verification/SQLEngine.v ===== *)
(** * The database behind [database/sql]

    An executable model of the database the SQL store talks to: tables with
    their columns, indexes and rows, the statements of [SQLText] on them, and
    the part of [database/sql] the sources use ([ExecContext], [QueryContext],
    [QueryRowContext], [Scan], transactions). It follows SQLite: conditions have
    three truth values, text compares byte by byte, [LIKE] ignores the case of
    ASCII letters, nulls sort first, foreign keys are not enforced, and a
    statement that violates a constraint changes nothing. What the database
    leaves open, the order in which rows are visited, is a parameter. The driver
    itself is one too ([SQLDriver]); [SQLDriverLaws] says that it runs statements
    with this meaning. *)

From Stdlib Require Import Ascii.
From S2P Require Import Prelude GoLib SQLText.

Definition Row := list SQLValue.

Record Index := mkIndex { ix_name : string; ix_unique : bool; ix_columns : list string; ix_where : option Expr }.
Record Table := mkTable {
  tb_columns : list ColumnDef;
  tb_indexes : list Index;
  tb_checks : list Expr;
  tb_rows : list Row;
}.
Definition with_rows (t : Table) (rows : list Row) : Table :=
  mkTable (tb_columns t) (tb_indexes t) (tb_checks t) rows.
Notation Database := (gmap string Table).

(** ** Expressions *)

(** The rows in scope: alias, column names, values. *)
Definition Scope := list (string * list string * Row).

Fixpoint column_value (columns : list string) (row : Row) (c : string) : option SQLValue :=
  match columns, row with
  | n :: columns, v :: row => if n =s c then Some v else column_value columns row c
  | _, _ => None
  end.
Fixpoint resolve (scope : Scope) (q c : string) : option SQLValue :=
  match scope with
  | [] => None
  | (alias, columns, row) :: scope =>
      if (q =s "") || (q =s alias)
      then match column_value columns row c with Some v => Some v | None => resolve scope q c end
      else resolve scope q c
  end.

(** Storage classes: nulls before integers before text. *)
Definition compare_values (a b : SQLValue) : comparison :=
  match a, b with
  | VNull, VNull => Eq
  | VNull, _ => Lt
  | _, VNull => Gt
  | VInt x, VInt y => Z.compare x y
  | VInt _, VText _ => Lt
  | VText _, VInt _ => Gt
  | VText x, VText y => String.compare x y
  end.
Definition cmp_holds (op : CmpOp) (c : comparison) : bool :=
  match op, c with
  | OpEq, Eq | OpNe, Lt | OpNe, Gt | OpLt, Lt | OpLe, Lt | OpLe, Eq | OpGt, Gt | OpGe, Gt | OpGe, Eq => true
  | _, _ => false
  end.

(** Three truth values. *)
Definition truth (v : SQLValue) : option bool :=
  match v with VNull => None | VInt z => Some (negb (Z.eqb z 0)) | VText _ => Some false end.
Definition of_truth (b : option bool) : SQLValue := match b with None => VNull | Some b => VBool b end.
Definition and3 (a b : option bool) : option bool :=
  match a, b with
  | Some false, _ | _, Some false => Some false
  | Some true, Some true => Some true
  | _, _ => None
  end.
Definition or3 (a b : option bool) : option bool :=
  match a, b with
  | Some true, _ | _, Some true => Some true
  | Some false, Some false => Some false
  | _, _ => None
  end.

(** [LIKE]: percent for any text, underscore for one character. *)
Fixpoint like (pattern text : string) : bool :=
  match pattern with
  | EmptyString => text =s ""
  | String.String p pattern' =>
      if Ascii.eqb p "%" then
        (fix skip (text : string) : bool :=
           like pattern' text || match text with String.String _ text' => skip text' | EmptyString => false end) text
      else match text with
        | String.String c text' =>
            (Ascii.eqb p "_" || Ascii.eqb (lower_byte p) (lower_byte c)) && like pattern' text'
        | EmptyString => false
        end
  end.

Fixpoint eval (scope : Scope) (args : list SQLValue) (e : Expr) : SQLValue :=
  match e with
  | XCol q c => default VNull (resolve scope q c)
  | XArg n => default VNull (args !! (n - 1))
  | XLit v => v
  | XCmp op a b =>
      match eval scope args a, eval scope args b with
      | VNull, _ | _, VNull => VNull
      | x, y => VBool (cmp_holds op (compare_values x y))
      end
  | XIsNull a => VBool (match eval scope args a with VNull => true | _ => false end)
  | XNotNull a => VBool (match eval scope args a with VNull => false | _ => true end)
  | XNotDistinct a b => VBool (match compare_values (eval scope args a) (eval scope args b) with Eq => true | _ => false end)
  | XLike a b =>
      match eval scope args a, eval scope args b with
      | VText x, VText y => VBool (like y x)
      | VNull, _ | _, VNull => VNull
      | _, _ => VBool false
      end
  | XAnd a b => of_truth (and3 (truth (eval scope args a)) (truth (eval scope args b)))
  | XOr a b => of_truth (or3 (truth (eval scope args a)) (truth (eval scope args b)))
  | XCase c a b =>
      match truth (eval scope args c) with Some true => eval scope args a | _ => eval scope args b end
  end.

(** A condition selects a row when it is true. *)
Definition selects (scope : Scope) (args : list SQLValue) (cond : option Expr) : bool :=
  match cond with
  | None => true
  | Some e => match truth (eval scope args e) with Some true => true | _ => false end
  end.

(** Names and arguments a statement may use, checked before it runs. *)
Definition known (sources : list (string * list string)) (q c : string) : bool :=
  existsb (λ '(alias, columns), ((q =s "") || (q =s alias)) && existsb (String.eqb c) columns) sources.
Fixpoint expr_ok (sources : list (string * list string)) (nargs : nat) (e : Expr) : bool :=
  match e with
  | XCol q c => known sources q c
  | XArg n => Nat.leb 1 n && Nat.leb n nargs
  | XLit _ => true
  | XIsNull a | XNotNull a => expr_ok sources nargs a
  | XCmp _ a b | XNotDistinct a b | XLike a b | XAnd a b | XOr a b => expr_ok sources nargs a && expr_ok sources nargs b
  | XCase c a b => expr_ok sources nargs c && expr_ok sources nargs a && expr_ok sources nargs b
  end.
Definition cond_ok (sources : list (string * list string)) (nargs : nat) (cond : option Expr) : bool :=
  match cond with None => true | Some e => expr_ok sources nargs e end.

(** ** Constraints *)

Definition column_names (t : Table) : list string := cd_name <$> tb_columns t.
Definition row_scope (alias : string) (t : Table) (row : Row) : Scope := [(alias, column_names t, row)].

(** The key a row has in an index: none when the index does not cover the row
    or one of the values is null. *)
Definition index_key (t : Table) (ix : Index) (row : Row) : option (list SQLValue) :=
  if selects (row_scope "" t row) [] (ix_where ix)
  then let key := (λ c, default VNull (column_value (column_names t) row c)) <$> ix_columns ix in
    if existsb (λ v, match v with VNull => true | _ => false end) key then None else Some key
  else None.
Definition value_eqb (a b : SQLValue) : bool :=
  match a, b with
  | VNull, VNull => true
  | VInt x, VInt y => Z.eqb x y
  | VText x, VText y => x =s y
  | _, _ => false
  end.
Fixpoint key_eqb (a b : list SQLValue) : bool :=
  match a, b with
  | [], [] => true
  | x :: a, y :: b => value_eqb x y && key_eqb a b
  | _, _ => false
  end.
Definition conflicting (t : Table) (ix : Index) (a b : Row) : bool :=
  match index_key t ix a, index_key t ix b with Some k1, Some k2 => key_eqb k1 k2 | _, _ => false end.
Definition violated (t : Table) (row : Row) (others : list Row) : option Index :=
  snd <$> list_find (λ ix, ix_unique ix && existsb (conflicting t ix row) others = true) (tb_indexes t).

Definition unique_error (table : string) (ix : Index) : goerr :=
  EText ("constraint failed: UNIQUE constraint failed: " +:+
    String.concat ", " ((λ c, table +:+ "." +:+ c) <$> ix_columns ix)).

(** Not-null and check constraints of a row. *)
Definition row_ok (t : Table) (row : Row) : bool :=
  forallb (λ '(cd, v), negb (cd_notnull cd && match v with VNull => true | _ => false end)) (zip (tb_columns t) row)
  && forallb (λ e, match truth (eval (row_scope "" t row) [] e) with Some false => false | _ => true end) (tb_checks t).
Definition check_error : goerr := EText "constraint failed: NOT NULL constraint failed".
Definition syntax_error : goerr := EText "SQL logic error".

(** ** Statements on rows *)

(** The value a statement assigns to a column. *)
Definition assigned (sets : list (string * Expr)) (c : string) : option Expr :=
  snd <$> (snd <$> list_find (λ s, (fst s =s c) = true) sets).

Definition inserted_row (t : Table) (columns : list string) (values : list SQLValue) : Row :=
  (λ cd, default (cd_default cd) (column_value columns values (cd_name cd))) <$> tb_columns t.
Definition updated_row (t : Table) (scope : Scope) (args : list SQLValue) (sets : list (string * Expr)) (row : Row) : Row :=
  (λ '(cd, v), match assigned sets (cd_name cd) with Some e => eval scope args e | None => v end) <$> zip (tb_columns t) row.

(** Rows are updated one after the other, each against all other rows. *)
Fixpoint update_rows (table : string) (t : Table) (args : list SQLValue) (sets : list (string * Expr))
    (cond : option Expr) (done todo : list Row) (n : Z) : res (list Row * Z) :=
  match todo with
  | [] => Ok (done, n)
  | row :: todo =>
      if selects (row_scope table t row) args cond then
        let row' := updated_row t (row_scope table t row) args sets row in
        if negb (row_ok t row') then Err check_error
        else match violated t row' (done ++ todo) with
          | Some ix => Err (unique_error table ix)
          | None => update_rows table t args sets cond (done ++ [row']) todo (n + 1)
          end
      else update_rows table t args sets cond (done ++ [row]) todo n
  end.

(** [ON CONFLICT (target) DO UPDATE SET]: the row in the way is updated. *)
Fixpoint upsert_rows (table : string) (t : Table) (ix : Index) (new : Row) (args : list SQLValue)
    (sets : list (string * Expr)) (done todo : list Row) : res (list Row) :=
  match todo with
  | [] => Ok done
  | row :: todo =>
      if conflicting t ix new row then
        let row' := updated_row t (row_scope table t row ++ [("excluded", column_names t, new)]) args sets row in
        if negb (row_ok t row') then Err check_error
        else match violated t row' (done ++ todo) with
          | Some ix => Err (unique_error table ix)
          | None => Ok (done ++ row' :: todo)
          end
      else upsert_rows table t ix new args sets (done ++ [row]) todo
  end.

Definition insert_row (table : string) (t : Table) (row : Row) (args : list SQLValue)
    (upsert : option (list string * list (string * Expr))) : res (list Row) :=
  if negb (row_ok t row) then Err check_error
  else match violated t row (tb_rows t) with
    | None => Ok (tb_rows t ++ [row])
    | Some ix =>
        match upsert with
        | Some (target, sets) =>
            if bool_decide (target = ix_columns ix) then upsert_rows table t ix row args sets [] (tb_rows t)
            else Err (unique_error table ix)
        | None => Err (unique_error table ix)
        end
    end.

(** ** Queries *)

Section Select.
Variable scan : list Row → list Row.
Variables (db : Database) (args : list SQLValue).

Definition scopes_of (t : Table) (alias : string) : list Scope := row_scope alias t <$> scan (tb_rows t).
Definition join (scopes : list Scope) (t : Table) (alias : string) (on : Expr) : list Scope :=
  filter (λ s, selects s args (Some on) = true) (scopes ≫= λ s, app s <$> scopes_of t alias).

Fixpoint join_all (scopes : list Scope) (js : list (string * string * Expr)) : option (list Scope) :=
  match js with
  | [] => Some scopes
  | (table, alias, on) :: js => t ← db !! table; join_all (join scopes t alias on) js
  end.

Fixpoint order_less (keys : list (Expr * bool)) (x y : Scope) : bool :=
  match keys with
  | [] => false
  | (e, desc) :: keys =>
      match compare_values (eval x args e) (eval y args e) with
      | Eq => order_less keys x y
      | Lt => negb desc
      | Gt => desc
      end
  end.

Definition limited {A} (limit offset : option Expr) (l : list A) : list A :=
  let l := match offset with Some e => match eval [] args e with VInt n => drop (Z.to_nat n) l | _ => l end | None => l end in
  match limit with
  | Some e => match eval [] args e with VInt n => if Z.ltb n 0 then l else take (Z.to_nat n) l | _ => l end
  | None => l
  end.

(** The tables a query names, with their columns. *)
Fixpoint sources_of (js : list (string * string)) : option (list (string * list string)) :=
  match js with
  | [] => Some []
  | (table, alias) :: js => t ← db !! table; rest ← sources_of js; Some ((alias, column_names t) :: rest)
  end.

Definition names_ok (sources : list (string * list string)) (s : Select) : bool :=
  let ok := expr_ok sources (length args) in
  forallb ok (sel_columns s) && forallb (λ j, ok (snd j)) (sel_joins s) && cond_ok sources (length args) (sel_where s)
  && forallb (λ k, ok (fst k)) (sel_order s) && cond_ok [] (length args) (sel_limit s) && cond_ok [] (length args) (sel_offset s).
Definition select_ok (s : Select) : bool :=
  match sources_of (sel_from s :: (fst <$> sel_joins s)) with
  | None => false
  | Some sources => names_ok sources s
  end.

Definition run_select (s : Select) : res (list Row) :=
  match db !! fst (sel_from s) with
  | None => Err syntax_error
  | Some t =>
      if negb (select_ok s) then Err syntax_error
      else match join_all (scopes_of t (snd (sel_from s))) (sel_joins s) with
        | None => Err syntax_error
        | Some scopes =>
            let found := filter (λ x, selects x args (sel_where s) = true) scopes in
            let sorted := go_sort (order_less (sel_order s)) found in
            Ok ((λ x, eval x args <$> sel_columns s) <$> limited (sel_limit s) (sel_offset s) sorted)
        end
  end.
End Select.

(** ** Schema changes *)

Definition pk_index (table : string) (columns : list string) : Index := mkIndex (table +:+ ".pk") true columns None.
Definition table_of_items (table : string) (items : list TableItem) : Table :=
  mkTable (omap (λ i, match i with TColumn c _ _ => Some c | TPrimaryKey _ => None end) items)
    (omap (λ i, match i with
       | TColumn c true _ => Some (pk_index table [cd_name c])
       | TPrimaryKey columns => Some (pk_index table columns)
       | _ => None end) items)
    (omap (λ i, match i with TColumn _ _ chk => chk | _ => None end) items) [].

Definition has_index (db : Database) (name : string) : bool :=
  existsb (λ t, existsb (λ ix, ix_name ix =s name) (tb_indexes t)) (map_to_list db).*2.

(** No two rows of a table share a key of a unique index. *)
Fixpoint unique_rows (t : Table) (ix : Index) (rows : list Row) : bool :=
  match rows with
  | [] => true
  | row :: rows => negb (existsb (conflicting t ix row) rows) && unique_rows t ix rows
  end.

Definition alter_table (db : Database) (table : string) (f : Table → res Table) : res Database :=
  match db !! table with
  | None => Err syntax_error
  | Some t => let! t' := f t in Ok (<[table := t']> db)
  end.

Definition add_column (t : Table) (ifNotExists : bool) (c : ColumnDef) : res Table :=
  if existsb (String.eqb (cd_name c)) (column_names t) then (if ifNotExists then Ok t else Err syntax_error)
  else if cd_notnull c && bool_decide (cd_default c = VNull) then Err syntax_error
  else Ok (mkTable (tb_columns t ++ [c]) (tb_indexes t) (tb_checks t) ((λ r, r ++ [cd_default c]) <$> tb_rows t)).

Definition set_not_null (t : Table) (c : string) : res Table :=
  let t' := mkTable ((λ cd, if cd_name cd =s c then mkColumnDef (cd_name cd) true (cd_default cd) else cd) <$> tb_columns t)
    (tb_indexes t) (tb_checks t) (tb_rows t) in
  if negb (existsb (String.eqb c) (column_names t)) then Err syntax_error
  else if forallb (row_ok t') (tb_rows t) then Ok t' else Err check_error.

(** The columns of a table, as [PRAGMA table_info] lists them; no rows for a
    table that does not exist. *)
Definition table_info (db : Database) (table : string) : list Row :=
  match db !! table with
  | None => []
  | Some t => imap (λ i cd, [VInt (Z.of_nat i); VText (cd_name cd); VText "TEXT"; VBool (cd_notnull cd); cd_default cd; VInt 0]) (tb_columns t)
  end.

(** ** Statements on the database *)

(** The rows a statement returns and how many it changed. *)
Definition exec_statement (scan : list Row → list Row) (args : list SQLValue) (st : Statement) (db : Database)
  : res (list Row * Z * Database) :=
  match st with
  | SSelect s => let! rows := run_select scan db args s in Ok (rows, 0%Z, db)
  | SInsert table columns values upsert =>
      match db !! table with
      | None => Err syntax_error
      | Some t =>
          if negb (forallb (λ c, existsb (String.eqb c) (column_names t)) columns
                   && Nat.eqb (length columns) (length values)
                   && forallb (expr_ok [] (length args)) values
                   && match upsert with
                      | None => true
                      | Some (_, sets) => forallb (λ '(c, e), existsb (String.eqb c) (column_names t)
                          && expr_ok [(table, column_names t); ("excluded", column_names t)] (length args) e) sets
                      end)
          then Err syntax_error
          else let! rows := insert_row table t (inserted_row t columns (eval [] args <$> values)) args upsert in
            Ok ([], 1%Z, <[table := with_rows t rows]> db)
      end
  | SUpdate table sets cond =>
      match db !! table with
      | None => Err syntax_error
      | Some t =>
          if negb (forallb (λ '(c, e), existsb (String.eqb c) (column_names t)
                     && expr_ok [(table, column_names t)] (length args) e) sets
                   && cond_ok [(table, column_names t)] (length args) cond)
          then Err syntax_error
          else let! r := update_rows table t args sets cond [] (tb_rows t) 0 in
            let '(rows, n) := r in Ok ([], n, <[table := with_rows t rows]> db)
      end
  | SDelete table cond =>
      match db !! table with
      | None => Err syntax_error
      | Some t =>
          if negb (cond_ok [(table, column_names t)] (length args) cond) then Err syntax_error
          else let kept := filter (λ row, selects (row_scope table t row) args cond = false) (tb_rows t) in
            Ok ([], (Z.of_nat (length (tb_rows t)) - Z.of_nat (length kept))%Z, <[table := with_rows t kept]> db)
      end
  | SCreateTable ifNotExists table items =>
      match db !! table with
      | Some _ => if ifNotExists then Ok ([], 0%Z, db) else Err syntax_error
      | None => Ok ([], 0%Z, <[table := table_of_items table items]> db)
      end
  | SCreateIndex unique ifNotExists name table columns cond =>
      if has_index db name then (if ifNotExists then Ok ([], 0%Z, db) else Err syntax_error)
      else let ix := mkIndex name unique columns cond in
        let! db' := alter_table db table (λ t,
          if negb (forallb (λ c, existsb (String.eqb c) (column_names t)) columns) then Err syntax_error
          else if unique && negb (unique_rows t ix (tb_rows t)) then Err (unique_error table ix)
          else Ok (mkTable (tb_columns t) (tb_indexes t ++ [ix]) (tb_checks t) (tb_rows t))) in
        Ok ([], 0%Z, db')
  | SAddColumn ifNotExists table c =>
      let! db' := alter_table db table (λ t, add_column t ifNotExists c) in Ok ([], 0%Z, db')
  | SSetNotNull table c =>
      let! db' := alter_table db table (λ t, set_not_null t c) in Ok ([], 0%Z, db')
  | STableInfo table => Ok (table_info db table, 0%Z, db)
  | SBegin => Ok ([], 0%Z, db)
  end.

(** The statements of a text in order; those before a failing one stay. *)
Fixpoint exec_all (scan : list Row → list Row) (args : list SQLValue) (sts : list Statement) (db : Database)
  : res (list Row * Z) * Database :=
  match sts with
  | [] => (Ok ([], 0%Z), db)
  | [st] => match exec_statement scan args st db with Ok (rows, n, db') => (Ok (rows, n), db') | Err e => (Err e, db) end
  | st :: sts =>
      match exec_statement scan args st db with
      | Ok (_, _, db') => exec_all scan args sts db'
      | Err e => (Err e, db)
      end
  end.

(** ** [database/sql] *)

Record SQLConn := mkSQLConn { sc_db : Database; sc_tick : nat }.
Definition SQLM (A : Type) := GoM SQLConn A.

(** [sql.ErrNoRows]. *)
Definition ErrNoRows : goerr := EText "sql: no rows in result set".
Definition is_no_rows (e : goerr) : bool := match e with EText s => s =s "sql: no rows in result set" | _ => false end.

(** The database and its driver are a parameter: what becomes of the database
    and what comes back when the statements of a text run with arguments, as
    the [n]th call of a connection, and the calls that fail for reasons of their
    own ([BeginTx], [Commit], [RowsAffected]). The clock of [time.Now] is here
    too. *)
Class SQLDriver := {
  sql_run : nat → string → list SQLValue → Database → res (list Row * Z) * Database;
  sql_fault : nat → option goerr;
  sql_now : nat → Time;
}.

(** What the sources rely on: the statements they send have the meaning above,
    the rows of a table being visited in any order, and the calls succeed. *)
Class SQLDriverLaws `{SQLDriver} : Prop := {
  sql_run_meaning : ∀ n text args db sts, parse_sql text = Some sts →
    ∃ scan, (∀ rows, scan rows ≡ₚ rows) ∧ sql_run n text args db = exec_all scan args sts db;
  sql_no_fault : ∀ n, sql_fault n = None;
}.

(** A database that visits rows in insertion order. *)
#[local] Instance reference_driver (now : Time) : SQLDriver := {|
  sql_run _ text args db :=
    match parse_sql text with None => (Err syntax_error, db) | Some sts => exec_all id args sts db end;
  sql_fault _ := None;
  sql_now _ := now;
|}.
#[local] Instance reference_driver_laws now : @SQLDriverLaws (reference_driver now).
Proof. split; [|done]. intros n text args db sts E. exists id. split; [done|]. unfold sql_run, reference_driver. by rewrite E. Qed.

Section Connection.
Context `{SQLDriver}.

Definition run_sql (text : string) (args : list SQLValue) : SQLM (list Row * Z) := λ c,
  let '(r, db') := sql_run (sc_tick c) text args (sc_db c) in (r, mkSQLConn db' (S (sc_tick c))).

(** The number of rows a statement changed, for [RowsAffected]. *)
Definition ExecContext (text : string) (args : list SQLValue) : SQLM Z :=
  let* r := run_sql text args in retM (snd r).
Definition QueryContext (text : string) (args : list SQLValue) : SQLM (list Row) :=
  let* r := run_sql text args in retM (fst r).
Definition QueryRowContext (text : string) (args : list SQLValue) : SQLM Row :=
  let* rows := QueryContext text args in
  match rows with [] => failM ErrNoRows | row :: _ => retM row end.

(** [for rows.Next() { x, err := scan(rows); ... }] *)
Fixpoint scan_rows {A} (scan : Row → res A) (rows : list Row) : res (list A) :=
  match rows with
  | [] => Ok []
  | row :: rows => let! x := scan row in let! l := scan_rows scan rows in Ok (x :: l)
  end.
End Connection.

(** ** [Scan] *)

Definition scanString (v : SQLValue) : res string :=
  match v with
  | VText s => Ok s
  | VInt z => Ok (itoa z)
  | VNull => Err (EText "sql: Scan error: converting NULL to string is unsupported")
  end.
Definition scanInt (v : SQLValue) : res Z :=
  match v with VInt z => Ok z | _ => Err (EText "sql: Scan error: converting driver.Value to an integer") end.
Definition scanBool (v : SQLValue) : res bool :=
  match v with
  | VInt z => if Z.eqb z 0 then Ok false else if Z.eqb z 1 then Ok true else Err (EText "sql: Scan error: invalid bool")
  | _ => Err (EText "sql: Scan error: converting driver.Value to bool")
  end.
Definition scanCount : goerr := EText "sql: expected a different number of destination arguments in Scan".
