(* ===== verification/SQLScan.v ===== *)
(** * Rows and their values ([store/sqlstore.go])

    How the SQL store writes Go values into columns and reads them back: string
    lists and policies as JSON, times as text, and one [scan] function per
    entity, which converts the columns of a result row in the order of the
    query and reports the first conversion that fails. A nil slice and an empty
    one are the same value here, and are written as an empty array. *)

From S2P Require Import Prelude GoLib Crypto Domain AuditChain Store Repository SQLText SQLEngine SQLTime GoJSON.

Definition dquote : string := bytes_str [34].
Definition newline : string := bytes_str [10].

(** ** Values *)

Definition marshalStringSlice (values : list string) : res string := Ok (json_Marshal (JArray (JString <$> values))).

(** The elements of a JSON array of strings; a null element is left empty. *)
Fixpoint string_elements (l : list JSON) : res (list string) :=
  match l with
  | [] => Ok []
  | JString s :: l => let! rest := string_elements l in Ok (s :: rest)
  | JNull :: l => let! rest := string_elements l in Ok ("" :: rest)
  | _ => Err (EText "json: cannot unmarshal into Go value of type string")
  end.
Definition string_slice (v : JSON) : res (list string) :=
  match v with
  | JNull => Ok []
  | JArray l => string_elements l
  | _ => Err (EText "json: cannot unmarshal into Go value of type []string")
  end.
Definition json_unmarshal (data : string) : res JSON :=
  match json_Parse data with Some v => Ok v | None => Err (EText "invalid character in JSON text") end.

Definition unmarshalStringSlice (data : string) : res (list string) :=
  if data =s "" then Ok [] else let! v := json_unmarshal data in string_slice v.

(** [marshalJSON] and [unmarshalJSON] at the two policy types. Members are
    matched without regard to case; unknown ones are skipped, null ones leave
    the field. *)
Definition marshalStringListPolicy (p : StringListExtensionPolicy) : res string :=
  Ok (json_Marshal (JObject [("critical", JBoolean (StringListExtensionPolicy_Critical p));
    ("values", JArray (JString <$> StringListExtensionPolicy_Values p))])).
Definition marshalBasicConstraints (p : BasicConstraintsPolicy) : res string :=
  Ok (json_Marshal (JObject ([("critical", JBoolean (BasicConstraintsPolicy_Critical p)); ("ca", JBoolean (BasicConstraintsPolicy_CA p))]
    ++ match BasicConstraintsPolicy_MaxPathLen p with Some n => [("max_path_len", JNumber n)] | None => [] end))).

Definition json_type_error : goerr := EText "json: cannot unmarshal into Go struct field".
Definition members {A} (step : string → JSON → A → res A) (v : JSON) (zero : A) : res A :=
  match v with
  | JNull => Ok zero
  | JObject l => foldl (λ acc '(k, v), let! x := acc in match v with JNull => Ok x | _ => step (ascii_lower k) v x end) (Ok zero) l
  | _ => Err json_type_error
  end.
Definition stringListMember (k : string) (v : JSON) (p : StringListExtensionPolicy) : res StringListExtensionPolicy :=
  if k =s "critical" then
    match v with JBoolean b => Ok (mkStringListExtensionPolicy b (StringListExtensionPolicy_Values p)) | _ => Err json_type_error end
  else if k =s "values" then
    let! l := string_slice v in Ok (mkStringListExtensionPolicy (StringListExtensionPolicy_Critical p) l)
  else Ok p.
Definition unmarshalStringListPolicy (data : string) : res StringListExtensionPolicy :=
  if data =s "" then Ok zero_StringListExtensionPolicy
  else let! v := json_unmarshal data in members stringListMember v zero_StringListExtensionPolicy.

Definition basicConstraintsMember (k : string) (v : JSON) (p : BasicConstraintsPolicy) : res BasicConstraintsPolicy :=
  if k =s "critical" then
    match v with JBoolean b => Ok (mkBasicConstraintsPolicy b (BasicConstraintsPolicy_CA p) (BasicConstraintsPolicy_MaxPathLen p))
    | _ => Err json_type_error end
  else if k =s "ca" then
    match v with JBoolean b => Ok (mkBasicConstraintsPolicy (BasicConstraintsPolicy_Critical p) b (BasicConstraintsPolicy_MaxPathLen p))
    | _ => Err json_type_error end
  else if k =s "max_path_len" then
    match v with JNumber n => Ok (mkBasicConstraintsPolicy (BasicConstraintsPolicy_Critical p) (BasicConstraintsPolicy_CA p) (Some n))
    | _ => Err json_type_error end
  else Ok p.
Definition unmarshalBasicConstraintsPolicy (data : string) : res BasicConstraintsPolicy :=
  if data =s "" then Ok zero_BasicConstraintsPolicy
  else let! v := json_unmarshal data in
    let! value := members basicConstraintsMember v zero_BasicConstraintsPolicy in
    Ok (if negb (BasicConstraintsPolicy_CA value)
           && match BasicConstraintsPolicy_MaxPathLen value with Some n => Z.eqb n 0 | None => false end
        then mkBasicConstraintsPolicy (BasicConstraintsPolicy_Critical value) (BasicConstraintsPolicy_CA value) None
        else value).

Definition marshalAPIKeyScopes (scopes : list APIKeyScope) : res string := marshalStringSlice scopes.
Definition unmarshalAPIKeyScopes (data : string) : res (list APIKeyScope) :=
  let! values := unmarshalStringSlice data in Ok values.

Definition formatNullableSQLTime (value : Time) : SQLValue :=
  if IsZero value then VNull else VText (formatSQLTime value).

(** A column read into [any]: null, or the text of a time. *)
Definition parseSQLTime (value : SQLValue) : res Time :=
  match value with
  | VNull => Ok zero_time
  | VText v => parseSQLTimeString v
  | VInt _ => Err (EText "unsupported SQL time value")
  end.

(** ** Rows *)

Definition scanIdentity (row : Row) : res Identity :=
  match row with
  | [v1; v2; v3; v4; v5; v6; v7; v8; v9; v10; v11; v12; v13; v14; v15; v16] =>
      let! x1 := scanString v1 in
      let! identityType := scanString v2 in
      let! x3 := scanString v3 in
      let! x4 := scanString v4 in
      let! x5 := scanString v5 in
      let! x6 := scanString v6 in
      let! x7 := scanString v7 in
      let! x8 := scanString v8 in
      let! x9 := scanString v9 in
      let! x11 := scanString v11 in
      let! allowedDNSNames := scanString v12 in
      let! allowedIPAddresses := scanString v13 in
      let! status := scanString v14 in
      let! parsedCreatedAt := parseSQLTime v15 in
      let! parsedUpdatedAt := parseSQLTime v16 in
      let! parsedLastSeenAt := parseSQLTime v10 in
      let! parsedAllowedDNSNames := unmarshalStringSlice allowedDNSNames in
      let! parsedAllowedIPAddresses := unmarshalStringSlice allowedIPAddresses in
      Ok (mkIdentity x1 identityType x3 x4 x5 x6 x7 x8 x9 parsedLastSeenAt x11 parsedAllowedDNSNames parsedAllowedIPAddresses status parsedCreatedAt parsedUpdatedAt)
  | _ => Err scanCount
  end.

Definition scanAPIKey (row : Row) : res APIKey :=
  match row with
  | [v1; v2; v3; v4; v5; v6; v7; v8; v9; v10] =>
      let! x1 := scanString v1 in
      let! x2 := scanString v2 in
      let! x3 := scanString v3 in
      let! status := scanString v4 in
      let! x5 := scanString v5 in
      let! scopes := scanString v6 in
      let! parsedCreatedAt := parseSQLTime v9 in
      let! parsedUpdatedAt := parseSQLTime v10 in
      let! parsedScopes := unmarshalAPIKeyScopes scopes in
      let! parsedExpiresAt := parseSQLTime v7 in
      let! parsedLastUsedAt := parseSQLTime v8 in
      Ok (mkAPIKey x1 x2 x3 status x5 parsedScopes parsedExpiresAt parsedLastUsedAt parsedCreatedAt parsedUpdatedAt)
  | _ => Err scanCount
  end.

Definition scanIssuer (row : Row) : res Issuer :=
  match row with
  | [v1; v2; v3; v4; v5; v6; v7; v8; v9; v10; v11; v12] =>
      let! x1 := scanString v1 in
      let! x2 := scanString v2 in
      let! kind := scanString v3 in
      let! status := scanString v4 in
      let! x5 := scanString v5 in
      let! x6 := scanString v6 in
      let! x7 := scanString v7 in
      let! x8 := scanString v8 in
      let! distributionPoints := scanString v9 in
      let! x10 := scanBool v10 in
      let! parsedCreatedAt := parseSQLTime v11 in
      let! parsedUpdatedAt := parseSQLTime v12 in
      let! parsedDistributionPoints := unmarshalStringSlice distributionPoints in
      Ok (mkIssuer x1 x2 kind status x5 x6 x7 x8 parsedDistributionPoints x10 parsedCreatedAt parsedUpdatedAt)
  | _ => Err scanCount
  end.

Definition scanOCSPResponder (row : Row) : res OCSPResponder :=
  match row with
  | [v1; v2; v3; v4; v5; v6; v7; v8] =>
      let! x1 := scanString v1 in
      let! x2 := scanString v2 in
      let! x3 := scanString v3 in
      let! status := scanString v4 in
      let! x5 := scanString v5 in
      let! x6 := scanString v6 in
      let! parsedCreatedAt := parseSQLTime v7 in
      let! parsedUpdatedAt := parseSQLTime v8 in
      Ok (mkOCSPResponder x1 x2 x3 status x5 x6 parsedCreatedAt parsedUpdatedAt)
  | _ => Err scanCount
  end.

Definition scanNotificationEndpoint (row : Row) : res NotificationEndpoint :=
  match row with
  | [v1; v2; v3; v4; v5; v6; v7; v8; v9] =>
      let! x1 := scanString v1 in
      let! x2 := scanString v2 in
      let! endpointType := scanString v3 in
      let! status := scanString v4 in
      let! x5 := scanString v5 in
      let! x6 := scanString v6 in
      let! eventTypes := scanString v7 in
      let! parsedEventTypes := unmarshalStringSlice eventTypes in
      let! parsedCreatedAt := parseSQLTime v8 in
      let! parsedUpdatedAt := parseSQLTime v9 in
      Ok (mkNotificationEndpoint x1 x2 endpointType status x5 x6 parsedEventTypes parsedCreatedAt parsedUpdatedAt)
  | _ => Err scanCount
  end.

Definition scanCertificateProfile (row : Row) : res CertificateProfile :=
  match row with
  | [v1; v2; v3; v4; v5; v6; v7; v8; v9; v10; v11; v12; v13; v14; v15; v16; v17; v18; v19] =>
      let! x1 := scanString v1 in
      let! x2 := scanString v2 in
      let! x3 := scanString v3 in
      let! x4 := scanString v4 in
      let! x5 := scanInt v5 in
      let! x6 := scanString v6 in
      let! allowedDNSPatterns := scanString v7 in
      let! allowedIPRanges := scanString v8 in
      let! allowedKeyAlgorithms := scanString v9 in
      let! x10 := scanInt v10 in
      let! allowedSignatureAlgorithms := scanString v11 in
      let! keyUsage := scanString v12 in
      let! extendedKeyUsage := scanString v13 in
      let! basicConstraints := scanString v14 in
      let! subjectKeyIdentifier := scanBool v15 in
      let! authorityKeyIdentifier := scanBool v16 in
      let! publicTLS := scanBool v17 in
      let! parsedAllowedDNSPatterns := unmarshalStringSlice allowedDNSPatterns in
      let! parsedAllowedIPRanges := unmarshalStringSlice allowedIPRanges in
      let! parsedAllowedKeyAlgorithms := unmarshalStringSlice allowedKeyAlgorithms in
      let! parsedAllowedSignatureAlgorithms := unmarshalStringSlice allowedSignatureAlgorithms in
      let! y5 := unmarshalStringListPolicy keyUsage in
      let! y6 := unmarshalStringListPolicy extendedKeyUsage in
      let! y7 := unmarshalBasicConstraintsPolicy basicConstraints in
      let! parsedCreatedAt := parseSQLTime v18 in
      let! parsedUpdatedAt := parseSQLTime v19 in
      Ok (mkCertificateProfile x1 x2 x3 x4 x5 publicTLS x6 parsedAllowedDNSPatterns parsedAllowedIPRanges parsedAllowedKeyAlgorithms x10 parsedAllowedSignatureAlgorithms y5 y6 y7 subjectKeyIdentifier authorityKeyIdentifier parsedCreatedAt parsedUpdatedAt)
  | _ => Err scanCount
  end.

Definition scanEnrollment (row : Row) : res Enrollment :=
  match row with
  | [v1; v2; v3; v4; v5; v6; v7; v8; v9; v10; v11; v12; v13; v14; v15; v16; v17] =>
      let! x1 := scanString v1 in
      let! x2 := scanString v2 in
      let! x3 := scanString v3 in
      let! x4 := scanString v4 in
      let! x5 := scanString v5 in
      let! x6 := scanString v6 in
      let! status := scanString v7 in
      let! x8 := scanString v8 in
      let! requestedDNSNames := scanString v9 in
      let! requestedIPAddresses := scanString v10 in
      let! csrDNSNames := scanString v11 in
      let! csrIPAddresses := scanString v12 in
      let! x14 := scanString v14 in
      let! dnsNames := unmarshalStringSlice requestedDNSNames in
      let! ipAddresses := unmarshalStringSlice requestedIPAddresses in
      let! parsedCSRDNSNames := unmarshalStringSlice csrDNSNames in
      let! parsedCSRIPAddresses := unmarshalStringSlice csrIPAddresses in
      let! parsedRequestedNotAfter := parseSQLTime v13 in
      let! parsedApprovedAt := parseSQLTime v15 in
      let! parsedCreatedAt := parseSQLTime v16 in
      let! parsedUpdatedAt := parseSQLTime v17 in
      Ok (mkEnrollment x1 x2 x3 x4 x5 x6 status x8 dnsNames ipAddresses parsedCSRDNSNames parsedCSRIPAddresses parsedRequestedNotAfter x14 parsedApprovedAt parsedCreatedAt parsedUpdatedAt)
  | _ => Err scanCount
  end.

Definition scanCertificate (row : Row) : res Certificate :=
  match row with
  | [v1; v2; v3; v4; v5; v6; v7; v8; v9; v10; v11; v12; v13; v14; v15; v16] =>
      let! x1 := scanString v1 in
      let! x2 := scanString v2 in
      let! x3 := scanString v3 in
      let! x4 := scanString v4 in
      let! x5 := scanString v5 in
      let! x6 := scanString v6 in
      let! x7 := scanString v7 in
      let! dnsNames := scanString v8 in
      let! ipAddresses := scanString v9 in
      let! status := scanString v12 in
      let! x13 := scanString v13 in
      let! parsedDNSNames := unmarshalStringSlice dnsNames in
      let! parsedIPAddresses := unmarshalStringSlice ipAddresses in
      let! parsedNotBefore := parseSQLTime v10 in
      let! parsedNotAfter := parseSQLTime v11 in
      let! parsedRenewalNotifiedAt := parseSQLTime v14 in
      let! parsedCreatedAt := parseSQLTime v15 in
      let! parsedUpdatedAt := parseSQLTime v16 in
      Ok (mkCertificate x1 x2 x3 x4 x5 x6 x7 parsedDNSNames parsedIPAddresses parsedNotBefore parsedNotAfter status x13 parsedRenewalNotifiedAt parsedCreatedAt parsedUpdatedAt)
  | _ => Err scanCount
  end.

Definition scanCertificateInventoryRecord (row : Row) : res CertificateInventoryRecord :=
  match row with
  | [v1; v2; v3; v4; v5; v6; v7; v8; v9; v10; v11; v12; v13; v14; v15; v16; v17; v18; v19; v20; v21; v22; v23; v24; v25; v26; v27; v28; v29; v30; v31; v32; v33; v34; v35; v36; v37; v38; v39; v40; v41; v42; v43; v44] =>
      let! x1 := scanString v1 in
      let! x2 := scanString v2 in
      let! x3 := scanString v3 in
      let! x4 := scanString v4 in
      let! x5 := scanString v5 in
      let! x6 := scanString v6 in
      let! x7 := scanString v7 in
      let! dnsNames := scanString v8 in
      let! ipAddresses := scanString v9 in
      let! certificateStatus := scanString v12 in
      let! x13 := scanString v13 in
      let! x17 := scanString v17 in
      let! identityType := scanString v18 in
      let! x19 := scanString v19 in
      let! x20 := scanString v20 in
      let! x21 := scanString v21 in
      let! x22 := scanString v22 in
      let! x23 := scanString v23 in
      let! x24 := scanString v24 in
      let! x25 := scanString v25 in
      let! x27 := scanString v27 in
      let! allowedDNSNames := scanString v28 in
      let! allowedIPAddresses := scanString v29 in
      let! identityStatus := scanString v30 in
      let! x33 := scanString v33 in
      let! x34 := scanString v34 in
      let! issuerKind := scanString v35 in
      let! issuerStatus := scanString v36 in
      let! x37 := scanString v37 in
      let! x38 := scanString v38 in
      let! x39 := scanString v39 in
      let! x40 := scanString v40 in
      let! distributionPoints := scanString v41 in
      let! x42 := scanBool v42 in
      let! y1 := unmarshalStringSlice dnsNames in
      let! y2 := unmarshalStringSlice ipAddresses in
      let! y3 := parseSQLTime v10 in
      let! y4 := parseSQLTime v11 in
      let! y5 := parseSQLTime v14 in
      let! y6 := parseSQLTime v15 in
      let! y7 := parseSQLTime v16 in
      let! y8 := parseSQLTime v26 in
      let! y9 := unmarshalStringSlice allowedDNSNames in
      let! y10 := unmarshalStringSlice allowedIPAddresses in
      let! y11 := parseSQLTime v31 in
      let! y12 := parseSQLTime v32 in
      let! y13 := unmarshalStringSlice distributionPoints in
      let! y14 := parseSQLTime v43 in
      let! y15 := parseSQLTime v44 in
      Ok (mkCertificateInventoryRecord
      (mkCertificate x1 x2 x3 x4 x5 x6 x7 y1 y2 y3 y4 certificateStatus x13 y5 y6 y7)
      (mkIdentity x17 identityType x19 x20 x21 x22 x23 x24 x25 y8 x27 y9 y10 identityStatus y11 y12)
      (mkIssuer x33 x34 issuerKind issuerStatus x37 x38 x39 x40 y13 x42 y14 y15))
  | _ => Err scanCount
  end.

Definition scanIssuanceAttempt (row : Row) : res IssuanceAttempt :=
  match row with
  | [v1; v2; v3; v4; v5; v6; v7; v8; v9; v10; v11; v12; v13; v14; v15; v16] =>
      let! x1 := scanString v1 in
      let! status := scanString v2 in
      let! x4 := scanString v4 in
      let! x5 := scanString v5 in
      let! x6 := scanString v6 in
      let! x7 := scanString v7 in
      let! x13 := scanString v13 in
      let! x14 := scanString v14 in
      let! parsedLeaseExpiresAt := parseSQLTime v3 in
      let! parsedNotBefore := parseSQLTime v8 in
      let! parsedNotAfter := parseSQLTime v9 in
      let! parsedSigningStartedAt := parseSQLTime v10 in
      let! parsedSignedAt := parseSQLTime v11 in
      let! parsedFinalizedAt := parseSQLTime v12 in
      let! parsedCreatedAt := parseSQLTime v15 in
      let! parsedUpdatedAt := parseSQLTime v16 in
      Ok (mkIssuanceAttempt x1 status parsedLeaseExpiresAt x4 x5 x6 x7 parsedNotBefore parsedNotAfter parsedSigningStartedAt parsedSignedAt parsedFinalizedAt x13 x14 parsedCreatedAt parsedUpdatedAt)
  | _ => Err scanCount
  end.

Definition scanAuditEvent (row : Row) : res AuditEvent :=
  match row with
  | [v1; v2; v3; v4; v5; v6; v7; v8; v9; v10; v11] =>
      let! x1 := scanString v1 in
      let! x2 := scanInt v2 in
      let! x3 := scanString v3 in
      let! x4 := scanString v4 in
      let! x5 := scanString v5 in
      let! x6 := scanString v6 in
      let! x7 := scanString v7 in
      let! x8 := scanString v8 in
      let! x9 := scanString v9 in
      let! x10 := scanString v10 in
      let! parsedCreatedAt := parseSQLTime v11 in
      Ok (mkAuditEvent x1 x2 x3 x4 x5 x6 x7 x8 x9 x10 parsedCreatedAt)
  | _ => Err scanCount
  end.

Definition scanOutboxMessage (row : Row) : res OutboxMessage :=
  match row with
  | [v1; v2; v3; v4; v5; v6; v7; v8; v9; v10; v11] =>
      let! x1 := scanString v1 in
      let! x2 := scanString v2 in
      let! x3 := scanString v3 in
      let! status := scanString v4 in
      let! x7 := scanInt v7 in
      let! x8 := scanInt v8 in
      let! x9 := scanString v9 in
      let! parsedAvailableAt := parseSQLTime v5 in
      let! parsedProcessingDeadlineAt := parseSQLTime v6 in
      let! parsedCreatedAt := parseSQLTime v10 in
      let! parsedUpdatedAt := parseSQLTime v11 in
      Ok (mkOutboxMessage x1 x2 x3 status parsedAvailableAt parsedProcessingDeadlineAt x7 x8 x9 parsedCreatedAt parsedUpdatedAt)
  | _ => Err scanCount
  end.

Definition scanJobAttempt (row : Row) : res JobAttempt :=
  match row with
  | [v1; v2; v3; v4; v5; v6; v7] =>
      let! x1 := scanString v1 in
      let! x2 := scanString v2 in
      let! status := scanString v3 in
      let! x4 := scanString v4 in
      let! parsedStartedAt := parseSQLTime v5 in
      let! parsedFinishedAt := parseSQLTime v6 in
      let! parsedCreatedAt := parseSQLTime v7 in
      Ok (mkJobAttempt x1 x2 status x4 parsedStartedAt parsedFinishedAt parsedCreatedAt)
  | _ => Err scanCount
  end.

Definition scanWebhookDelivery (row : Row) : res WebhookDelivery :=
  match row with
  | [v1; v2; v3; v4; v5; v6; v7; v8] =>
      let! x1 := scanString v1 in
      let! x2 := scanString v2 in
      let! status := scanString v3 in
      let! x4 := scanInt v4 in
      let! x5 := scanString v5 in
      let! parsedLastAttemptedAt := parseSQLTime v6 in
      let! parsedCreatedAt := parseSQLTime v7 in
      let! parsedUpdatedAt := parseSQLTime v8 in
      Ok (mkWebhookDelivery x1 x2 status x4 x5 parsedLastAttemptedAt parsedCreatedAt parsedUpdatedAt)
  | _ => Err scanCount
  end.

Definition scanRevokedCertificateEntry (row : Row) : res RevokedCertificateEntry :=
  match row with
  | [v1; v2; v3; v4] =>
      let! x1 := scanString v1 in
      let! x2 := scanString v2 in
      let! reason := scanString v4 in
      let! parsedRevokedAt := parseSQLTime v3 in
      Ok (mkRevokedCertificateEntry x1 x2 parsedRevokedAt reason)
  | _ => Err scanCount
  end.

Definition scanCRLPublication (row : Row) : res CRLPublication :=
  match row with
  | [v1; v2; v3; v4; v5; v6; v7; v8; v9; v10] =>
      let! x1 := scanString v1 in
      let! x2 := scanString v2 in
      let! x3 := scanString v3 in
      let! x4 := scanInt v4 in
      let! status := scanString v7 in
      let! x8 := scanString v8 in
      let! parsedThisUpdate := parseSQLTime v5 in
      let! parsedNextUpdate := parseSQLTime v6 in
      let! parsedCreatedAt := parseSQLTime v9 in
      let! parsedUpdatedAt := parseSQLTime v10 in
      Ok (mkCRLPublication x1 x2 x3 x4 parsedThisUpdate parsedNextUpdate status x8 parsedCreatedAt parsedUpdatedAt)
  | _ => Err scanCount
  end.

Definition scanCRLGenerationClaim (row : Row) : res CRLGenerationClaim :=
  match row with
  | [v1; v2; v3; v4; v5; v6] =>
      let! x1 := scanString v1 in
      let! x2 := scanString v2 in
      let! x3 := scanInt v3 in
      let! parsedLeaseExpiresAt := parseSQLTime v4 in
      let! parsedCreatedAt := parseSQLTime v5 in
      let! parsedUpdatedAt := parseSQLTime v6 in
      Ok (mkCRLGenerationClaim x1 x2 x3 parsedLeaseExpiresAt parsedCreatedAt parsedUpdatedAt)
  | _ => Err scanCount
  end.

Definition scanACMEAccount (row : Row) : res ACMEAccount :=
  match row with
  | [v1; v2; v3; v4; v5; v6; v7; v8] =>
      let! x1 := scanString v1 in
      let! contacts := scanString v2 in
      let! status := scanString v3 in
      let! x4 := scanBool v4 in
      let! x5 := scanString v5 in
      let! x6 := scanString v6 in
      let! parsedContacts := unmarshalStringSlice contacts in
      let! parsedCreatedAt := parseSQLTime v7 in
      let! parsedUpdatedAt := parseSQLTime v8 in
      Ok (mkACMEAccount x1 parsedContacts status x4 x5 x6 parsedCreatedAt parsedUpdatedAt)
  | _ => Err scanCount
  end.

Definition scanACMEOrder (row : Row) : res ACMEOrder :=
  match row with
  | [v1; v2; v3; v4; v5; v6; v7; v8; v9; v10; v11; v12; v13; v14; v15; v16] =>
      let! x1 := scanString v1 in
      let! x2 := scanString v2 in
      let! x3 := scanString v3 in
      let! x4 := scanString v4 in
      let! x5 := scanString v5 in
      let! status := scanString v6 in
      let! x7 := scanString v7 in
      let! x8 := scanString v8 in
      let! requestedDNSNames := scanString v9 in
      let! requestedIPAddresses := scanString v10 in
      let! x12 := scanString v12 in
      let! x13 := scanString v13 in
      let! dnsNames := unmarshalStringSlice requestedDNSNames in
      let! ipAddresses := unmarshalStringSlice requestedIPAddresses in
      let! parsedRequestedNotAfter := parseSQLTime v11 in
      let! parsedExpiresAt := parseSQLTime v14 in
      let! parsedCreatedAt := parseSQLTime v15 in
      let! parsedUpdatedAt := parseSQLTime v16 in
      Ok (mkACMEOrder x1 x2 x3 x4 x5 status x7 x8 dnsNames ipAddresses parsedRequestedNotAfter x12 x13 parsedExpiresAt parsedCreatedAt parsedUpdatedAt)
  | _ => Err scanCount
  end.

Definition scanACMEAuthorization (row : Row) : res ACMEAuthorization :=
  match row with
  | [v1; v2; v3; v4; v5; v6; v7; v8; v9] =>
      let! x1 := scanString v1 in
      let! x2 := scanString v2 in
      let! x3 := scanString v3 in
      let! x4 := scanString v4 in
      let! status := scanString v5 in
      let! parsedExpiresAt := parseSQLTime v6 in
      let! parsedValidationReuseExpiresAt := parseSQLTime v7 in
      let! parsedCreatedAt := parseSQLTime v8 in
      let! parsedUpdatedAt := parseSQLTime v9 in
      Ok (mkACMEAuthorization x1 x2 x3 x4 status parsedExpiresAt parsedValidationReuseExpiresAt parsedCreatedAt parsedUpdatedAt)
  | _ => Err scanCount
  end.

Definition scanACMEChallenge (row : Row) : res ACMEChallenge :=
  match row with
  | [v1; v2; v3; v4; v5; v6; v7; v8] =>
      let! x1 := scanString v1 in
      let! x2 := scanString v2 in
      let! challengeType := scanString v3 in
      let! x4 := scanString v4 in
      let! status := scanString v5 in
      let! parsedValidatedAt := parseSQLTime v6 in
      let! parsedCreatedAt := parseSQLTime v7 in
      let! parsedUpdatedAt := parseSQLTime v8 in
      Ok (mkACMEChallenge x1 x2 challengeType x4 status parsedValidatedAt parsedCreatedAt parsedUpdatedAt)
  | _ => Err scanCount
  end.
