(* ===== verification/SQLStore.v ===== *)
(** * The SQL repository ([store/sqlstore.go])

    The methods of [sqlRepository], one definition each: the statement text the
    source sends, its arguments in order, and what the method makes of the
    result. [SQLStore] runs them on the database, [WithinTx] in a transaction.
    This file holds identities, issuers, OCSP responders, notification
    endpoints and API keys. *)

From S2P Require Import Prelude GoLib Crypto Domain AuditChain Store Repository SQLText SQLEngine SQLTime GoJSON SQLScan.

Section Store.
Context `{SQLDriver} `{GoUnicode}.

(** ** Results and errors *)

(** The message of an error, as far as the checks below look at it. *)
Definition error_text (e : goerr) : string := match e with EText s => s | _ => "" end.

Definition isUniqueConstraintError (e : goerr) : bool :=
  let message := ToLower (error_text e) in
  Contains message "unique constraint failed" || Contains message "duplicate key value violates unique constraint".

(** [if isUniqueConstraintError(err) { return target }] *)
Definition uniqueAs {A} (target : DomainErr) (m : SQLM A) : SQLM A :=
  let* r := catchM m in
  match r with
  | Ok a => retM a
  | Err e => if isUniqueConstraintError e then failM target else failM e
  end.

(** [if errors.Is(err, sql.ErrNoRows) { return target }] *)
Definition notFound {A} (target : DomainErr) (m : SQLM A) : SQLM A :=
  let* r := catchM m in
  match r with
  | Ok a => retM a
  | Err e => if is_no_rows e then failM target else failM e
  end.

(** [affectedRows]: the driver may fail to tell. *)
Definition affectedRows (result : Z) : SQLM Z := λ c,
  match sql_fault (sc_tick c) with
  | Some e => (Err e, mkSQLConn (sc_db c) (S (sc_tick c)))
  | None => (Ok result, mkSQLConn (sc_db c) (S (sc_tick c)))
  end.
#[local] Notation RowsAffected := affectedRows.

Definition requireRowsAffected (result : Z) (missingErr : DomainErr) : SQLM unit :=
  let* rowsAffected := affectedRows result in
  if Z.eqb rowsAffected 0 then failM missingErr else retM tt.

(** ** Transactions *)

(** [SQLStore.WithinTx]: what the function did is kept when it succeeds and the
    transaction commits, and is undone otherwise. *)
Definition BeginTx : SQLM unit := let* _ := affectedRows 0 in retM tt.
Definition Commit : SQLM unit := let* _ := affectedRows 0 in retM tt.
Definition WithinTx {A} (fn : SQLM A) : SQLM A :=
  do* BeginTx in
  λ c,
    match (let* a := fn in do* Commit in retM a) c with
    | (Ok a, c') => (Ok a, c')
    | (Err e, c') => (Err e, mkSQLConn (sc_db c) (sc_tick c'))
    end.

(** ** Query texts *)

(** The arguments so far and the conditions so far. *)
Definition addSQLStringCondition (args : list SQLValue) (conditions : list string) (column value : string)
  : list SQLValue * list string :=
  if value =s "" then (args, conditions)
  else let args := args ++ [VText value] in
    (args, conditions ++ [column +:+ " = $" +:+ itoa (Z.of_nat (length args))]).
Definition appendSQLWhere (query : string) (conditions : list string) : string :=
  match conditions with
  | [] => query
  | _ => query +:+ newline +:+ "WHERE " +:+ String.concat " AND " conditions
  end.
Definition appendSQLSort (query sortOrder createdAtColumn idColumn : string) : string :=
  if sortOrder =s "desc"
  then query +:+ newline +:+ "ORDER BY " +:+ createdAtColumn +:+ " DESC, " +:+ idColumn +:+ " DESC"
  else query +:+ newline +:+ "ORDER BY " +:+ createdAtColumn +:+ " ASC, " +:+ idColumn +:+ " ASC".
Definition appendSQLLimitOffset (query : string) (args : list SQLValue) (limit offset : Z) : string * list SQLValue :=
  if Z.leb limit 0 then (query, args)
  else
    let args := args ++ [VInt limit] in
    let query := query +:+ newline +:+ "LIMIT $" +:+ itoa (Z.of_nat (length args)) in
    if Z.ltb 0 offset then
      let args := args ++ [VInt offset] in
      (query +:+ " OFFSET $" +:+ itoa (Z.of_nat (length args)), args)
    else (query, args).
Definition sqlJSONStringElementPattern (value : string) : res string :=
  Ok ("%" +:+ json_Marshal (JString value) +:+ "%").
(** A comparison of a time column, unless the bound is the zero time. *)
Definition addSQLTimeCondition (args : list SQLValue) (conditions : list string) (column operator : string) (value : Time)
  : list SQLValue * list string :=
  if IsZero value then (args, conditions)
  else let args := args ++ [VText (formatSQLTime value)] in
    (args, conditions ++ [column +:+ " " +:+ operator +:+ " $" +:+ itoa (Z.of_nat (length args))]).

(** ** Methods *)

Definition CreateIdentity (identity : Identity) : SQLM unit :=
  let* allowedDNSNames := liftM (marshalStringSlice (Identity_AllowedDNSNames identity)) in
  let* allowedIPAddresses := liftM (marshalStringSlice (Identity_AllowedIPAddresses identity)) in
  do* ExecContext "
INSERT INTO identities (
	id, type, name, external_id, owner, team, service, environment, deployment_target, last_seen_at,
	metadata_json, allowed_dns_names, allowed_ip_addresses, status, created_at, updated_at
) VALUES (
	$1, $2, $3, $4, $5, $6, $7, $8, $9, $10, $11, $12, $13, $14, $15, $16
)"
    [VText (Identity_ID identity);
     VText (Identity_Type identity);
     VText (Identity_Name identity);
     VText (Identity_ExternalID identity);
     VText (Identity_Owner identity);
     VText (Identity_Team identity);
     VText (Identity_Service identity);
     VText (Identity_Environment identity);
     VText (Identity_DeploymentTarget identity);
     formatNullableSQLTime (Identity_LastSeenAt identity);
     VText (Identity_MetadataJSON identity);
     VText allowedDNSNames;
     VText allowedIPAddresses;
     VText (Identity_Status identity);
     VText (formatSQLTime (Identity_CreatedAt identity));
     VText (formatSQLTime (Identity_UpdatedAt identity))] in
  retM tt.

Definition GetIdentity (id : string) : SQLM Identity :=
  notFound ErrIdentityNotFound (let* row := QueryRowContext "
SELECT id, type, name, external_id, owner, team, service, environment, deployment_target, last_seen_at,
	metadata_json, allowed_dns_names, allowed_ip_addresses, status, created_at, updated_at
FROM identities
WHERE id = $1"
    [VText id] in
  liftM (scanIdentity row)).

Definition ListIdentities : SQLM (list Identity) :=
  let* rows := QueryContext "
SELECT id, type, name, external_id, owner, team, service, environment, deployment_target, last_seen_at,
	metadata_json, allowed_dns_names, allowed_ip_addresses, status, created_at, updated_at
FROM identities
ORDER BY created_at, id"
    [] in
  liftM (scan_rows scanIdentity rows).

Definition ListIdentitiesQuery (query : IdentityQuery) : SQLM (list Identity) :=
  let sqlQuery := "SELECT id, type, name, external_id, owner, team, service, environment, deployment_target, last_seen_at,
	metadata_json, allowed_dns_names, allowed_ip_addresses, status, created_at, updated_at
FROM identities" in
  let '(args, conditions) := addSQLStringCondition [] [] "owner" (iq_Owner query) in
  let '(args, conditions) := addSQLStringCondition args conditions "team" (iq_Team query) in
  let '(args, conditions) := addSQLStringCondition args conditions "service" (iq_Service query) in
  let '(args, conditions) := addSQLStringCondition args conditions "environment" (iq_Environment query) in
  let sqlQuery := appendSQLWhere sqlQuery conditions in
  let sqlQuery := appendSQLSort sqlQuery (iq_Sort query) "created_at" "id" in
  let '(sqlQuery, args) := appendSQLLimitOffset sqlQuery args (iq_Limit query) (iq_Offset query) in
  let* rows := QueryContext sqlQuery args in
  liftM (scan_rows scanIdentity rows).

Definition CreateIssuer (issuer : Issuer) : SQLM unit :=
  let* distributionPoints := liftM (marshalStringSlice (Issuer_CRLDistributionPoints issuer)) in
  do* ExecContext "
INSERT INTO issuers (
	id, name, kind, status, parent_issuer_id, certificate_pem, key_ref, aia_url, crl_distribution_points, trust_anchor, created_at, updated_at
) VALUES (
	$1, $2, $3, $4, $5, $6, $7, $8, $9, $10, $11, $12
)"
    [VText (Issuer_ID issuer);
     VText (Issuer_Name issuer);
     VText (Issuer_Kind issuer);
     VText (Issuer_Status issuer);
     VText (Issuer_ParentIssuerID issuer);
     VText (Issuer_CertificatePEM issuer);
     VText (Issuer_KeyRef issuer);
     VText (Issuer_AIAURL issuer);
     VText distributionPoints;
     VBool (Issuer_TrustAnchor issuer);
     VText (formatSQLTime (Issuer_CreatedAt issuer));
     VText (formatSQLTime (Issuer_UpdatedAt issuer))] in
  retM tt.

Definition GetIssuer (id : string) : SQLM Issuer :=
  notFound ErrIssuerNotFound (let* row := QueryRowContext "
SELECT id, name, kind, status, parent_issuer_id, certificate_pem, key_ref, aia_url, crl_distribution_points, trust_anchor, created_at, updated_at
FROM issuers
WHERE id = $1"
    [VText id] in
  liftM (scanIssuer row)).

Definition ListIssuers : SQLM (list Issuer) :=
  let* rows := QueryContext "
SELECT id, name, kind, status, parent_issuer_id, certificate_pem, key_ref, aia_url, crl_distribution_points, trust_anchor, created_at, updated_at
FROM issuers
ORDER BY created_at, id"
    [] in
  liftM (scan_rows scanIssuer rows).

Definition CreateOCSPResponder (responder : OCSPResponder) : SQLM unit :=
  do* uniqueAs ErrInvalidTransition (ExecContext "
INSERT INTO ocsp_responders (
	id, issuer_id, name, status, certificate_pem, key_ref, created_at, updated_at
) VALUES (
	$1, $2, $3, $4, $5, $6, $7, $8
)"
    [VText (OCSPResponder_ID responder);
     VText (OCSPResponder_IssuerID responder);
     VText (OCSPResponder_Name responder);
     VText (OCSPResponder_Status responder);
     VText (OCSPResponder_CertificatePEM responder);
     VText (OCSPResponder_KeyRef responder);
     VText (formatSQLTime (OCSPResponder_CreatedAt responder));
     VText (formatSQLTime (OCSPResponder_UpdatedAt responder))]) in
  retM tt.

Definition GetOCSPResponder (id : string) : SQLM OCSPResponder :=
  notFound ErrOCSPResponderNotFound (let* row := QueryRowContext "
SELECT id, issuer_id, name, status, certificate_pem, key_ref, created_at, updated_at
FROM ocsp_responders
WHERE id = $1"
    [VText id] in
  liftM (scanOCSPResponder row)).

Definition ListOCSPRespondersByIssuer (issuerID : string) : SQLM (list OCSPResponder) :=
  let* rows := QueryContext "
SELECT id, issuer_id, name, status, certificate_pem, key_ref, created_at, updated_at
FROM ocsp_responders
WHERE issuer_id = $1
ORDER BY created_at, id"
    [VText issuerID] in
  liftM (scan_rows scanOCSPResponder rows).

Definition GetActiveOCSPResponderByIssuer (issuerID : string) : SQLM OCSPResponder :=
  notFound ErrOCSPResponderNotFound (let* row := QueryRowContext "
SELECT id, issuer_id, name, status, certificate_pem, key_ref, created_at, updated_at
FROM ocsp_responders
WHERE issuer_id = $1 AND status = $2
ORDER BY created_at DESC, id DESC
LIMIT 1"
    [VText issuerID;
     VText OCSPResponderActive] in
  liftM (scanOCSPResponder row)).

Definition UpdateOCSPResponderIfStatus (responder : OCSPResponder) (currentStatus : OCSPResponderStatus) : SQLM unit :=
  let* result := uniqueAs ErrInvalidTransition (ExecContext "
UPDATE ocsp_responders
SET issuer_id = $1,
	name = $2,
	status = $3,
	certificate_pem = $4,
	key_ref = $5,
	created_at = $6,
	updated_at = $7
WHERE id = $8 AND status = $9"
    [VText (OCSPResponder_IssuerID responder);
     VText (OCSPResponder_Name responder);
     VText (OCSPResponder_Status responder);
     VText (OCSPResponder_CertificatePEM responder);
     VText (OCSPResponder_KeyRef responder);
     VText (formatSQLTime (OCSPResponder_CreatedAt responder));
     VText (formatSQLTime (OCSPResponder_UpdatedAt responder));
     VText (OCSPResponder_ID responder);
     VText currentStatus]) in
  let* rowsAffected := RowsAffected result in
  if negb (Z.eqb rowsAffected 0) then retM tt
  else do* GetOCSPResponder (OCSPResponder_ID responder) in failM ErrInvalidTransition.

Definition CreateNotificationEndpoint (endpoint : NotificationEndpoint) : SQLM unit :=
  let* eventTypes := liftM (marshalStringSlice (NotificationEndpoint_EventTypes endpoint)) in
  do* ExecContext "
INSERT INTO notification_endpoints (
	id, name, type, status, url, secret, event_types, created_at, updated_at
) VALUES (
	$1, $2, $3, $4, $5, $6, $7, $8, $9
)"
    [VText (NotificationEndpoint_ID endpoint);
     VText (NotificationEndpoint_Name endpoint);
     VText (NotificationEndpoint_Type endpoint);
     VText (NotificationEndpoint_Status endpoint);
     VText (NotificationEndpoint_URL endpoint);
     VText (NotificationEndpoint_Secret endpoint);
     VText eventTypes;
     VText (formatSQLTime (NotificationEndpoint_CreatedAt endpoint));
     VText (formatSQLTime (NotificationEndpoint_UpdatedAt endpoint))] in
  retM tt.

Definition GetNotificationEndpoint (id : string) : SQLM NotificationEndpoint :=
  notFound ErrNotificationEndpointNotFound (let* row := QueryRowContext "
SELECT id, name, type, status, url, secret, event_types, created_at, updated_at
FROM notification_endpoints
WHERE id = $1"
    [VText id] in
  liftM (scanNotificationEndpoint row)).

Definition ListNotificationEndpoints : SQLM (list NotificationEndpoint) :=
  let* rows := QueryContext "
SELECT id, name, type, status, url, secret, event_types, created_at, updated_at
FROM notification_endpoints
ORDER BY created_at, id"
    [] in
  liftM (scan_rows scanNotificationEndpoint rows).

Definition UpdateNotificationEndpointIfStatus (endpoint : NotificationEndpoint) (currentStatus : NotificationEndpointStatus) : SQLM unit :=
  let* eventTypes := liftM (marshalStringSlice (NotificationEndpoint_EventTypes endpoint)) in
  let* result := ExecContext "
UPDATE notification_endpoints
SET name = $1,
	type = $2,
	status = $3,
	url = $4,
	secret = $5,
	event_types = $6,
	created_at = $7,
	updated_at = $8
WHERE id = $9 AND status = $10"
    [VText (NotificationEndpoint_Name endpoint);
     VText (NotificationEndpoint_Type endpoint);
     VText (NotificationEndpoint_Status endpoint);
     VText (NotificationEndpoint_URL endpoint);
     VText (NotificationEndpoint_Secret endpoint);
     VText eventTypes;
     VText (formatSQLTime (NotificationEndpoint_CreatedAt endpoint));
     VText (formatSQLTime (NotificationEndpoint_UpdatedAt endpoint));
     VText (NotificationEndpoint_ID endpoint);
     VText currentStatus] in
  let* rowsAffected := RowsAffected result in
  if negb (Z.eqb rowsAffected 0) then retM tt
  else do* GetNotificationEndpoint (NotificationEndpoint_ID endpoint) in failM ErrInvalidTransition.

Definition CreateAPIKey (key : APIKey) : SQLM unit :=
  let* scopes := liftM (marshalAPIKeyScopes (APIKey_Scopes key)) in
  do* ExecContext "
INSERT INTO api_keys (
	id, name, token_hash, status, actor, scopes, expires_at, last_used_at, created_at, updated_at
) VALUES (
	$1, $2, $3, $4, $5, $6, $7, $8, $9, $10
)"
    [VText (APIKey_ID key);
     VText (APIKey_Name key);
     VText (APIKey_TokenHash key);
     VText (APIKey_Status key);
     VText (APIKey_Actor key);
     VText scopes;
     formatNullableSQLTime (APIKey_ExpiresAt key);
     formatNullableSQLTime (APIKey_LastUsedAt key);
     VText (formatSQLTime (APIKey_CreatedAt key));
     VText (formatSQLTime (APIKey_UpdatedAt key))] in
  retM tt.

Definition GetAPIKey (id : string) : SQLM APIKey :=
  notFound ErrAPIKeyNotFound (let* row := QueryRowContext "
SELECT id, name, token_hash, status, actor, scopes, expires_at, last_used_at, created_at, updated_at
FROM api_keys
WHERE id = $1"
    [VText id] in
  liftM (scanAPIKey row)).

Definition GetAPIKeyByTokenHash (tokenHash : string) : SQLM APIKey :=
  notFound ErrAPIKeyNotFound (let* row := QueryRowContext "
SELECT id, name, token_hash, status, actor, scopes, expires_at, last_used_at, created_at, updated_at
FROM api_keys
WHERE token_hash = $1"
    [VText tokenHash] in
  liftM (scanAPIKey row)).

Definition ListAPIKeys : SQLM (list APIKey) :=
  let* rows := QueryContext "
SELECT id, name, token_hash, status, actor, scopes, expires_at, last_used_at, created_at, updated_at
FROM api_keys
ORDER BY created_at, id"
    [] in
  liftM (scan_rows scanAPIKey rows).

Definition UpdateAPIKeyIfStatus (key : APIKey) (currentStatus : APIKeyStatus) : SQLM unit :=
  let* scopes := liftM (marshalAPIKeyScopes (APIKey_Scopes key)) in
  let* result := ExecContext "
UPDATE api_keys
SET name = $1, token_hash = $2, status = $3, actor = $4, scopes = $5, expires_at = $6, last_used_at = $7, updated_at = $8
WHERE id = $9 AND status = $10"
    [VText (APIKey_Name key);
     VText (APIKey_TokenHash key);
     VText (APIKey_Status key);
     VText (APIKey_Actor key);
     VText scopes;
     formatNullableSQLTime (APIKey_ExpiresAt key);
     formatNullableSQLTime (APIKey_LastUsedAt key);
     VText (formatSQLTime (APIKey_UpdatedAt key));
     VText (APIKey_ID key);
     VText currentStatus] in
  let* rowsAffected := RowsAffected result in
  if Z.eqb rowsAffected 1 then retM tt
  else let* got := catchM (GetAPIKey (APIKey_ID key)) in
    match got with
    | Err e => if errors_Is e ErrAPIKeyNotFound then failM ErrAPIKeyNotFound else failM ErrInvalidTransition
    | Ok _ => failM ErrInvalidTransition
    end.

End Store.
