(* ===== verification/SQLStoreCertificate.v ===== *)
(** * The SQL repository: certificates ([store/sqlstore_certificate.go])

    Certificate profiles, enrollments, certificates, issuance attempts,
    revocations, CRL publications and CRL generation claims. *)

From S2P Require Import Prelude GoLib Crypto Domain AuditChain Store Repository SQLText SQLEngine SQLTime SQLScan SQLStore.

Section Certificates.
Context `{SQLDriver} `{GoUnicode}.
#[local] Notation RowsAffected := affectedRows.

Definition CreateCertificateProfile (profile : CertificateProfile) : SQLM unit :=
  let* allowedDNSPatterns := liftM (marshalStringSlice (CertificateProfile_AllowedDNSPatterns profile)) in
  let* allowedIPRanges := liftM (marshalStringSlice (CertificateProfile_AllowedIPRanges profile)) in
  let* allowedKeyAlgorithms := liftM (marshalStringSlice (CertificateProfile_AllowedKeyAlgorithms profile)) in
  let* allowedSignatureAlgorithms := liftM (marshalStringSlice (CertificateProfile_AllowedSignatureAlgorithms profile)) in
  let* keyUsage := liftM (marshalStringListPolicy (CertificateProfile_KeyUsage profile)) in
  let* extendedKeyUsage := liftM (marshalStringListPolicy (CertificateProfile_ExtendedKeyUsage profile)) in
  let* basicConstraints := liftM (marshalBasicConstraints (CertificateProfile_BasicConstraints profile)) in
  do* ExecContext "
INSERT INTO certificate_profiles (
	id, name, description, issuer_id, validity_period_seconds, subject_template,
	allowed_dns_patterns, allowed_ip_ranges, allowed_key_algorithms, min_key_size_bits,
	allowed_signature_algorithms, key_usage, extended_key_usage, basic_constraints,
	subject_key_identifier, authority_key_identifier, public_tls, created_at, updated_at
) VALUES (
	$1, $2, $3, $4, $5, $6, $7, $8, $9, $10, $11, $12, $13, $14, $15, $16, $17, $18, $19
)"
    [VText (CertificateProfile_ID profile);
     VText (CertificateProfile_Name profile);
     VText (CertificateProfile_Description profile);
     VText (CertificateProfile_IssuerID profile);
     VInt (CertificateProfile_ValidityPeriodSeconds profile);
     VText (CertificateProfile_SubjectTemplate profile);
     VText allowedDNSPatterns;
     VText allowedIPRanges;
     VText allowedKeyAlgorithms;
     VInt (CertificateProfile_MinKeySizeBits profile);
     VText allowedSignatureAlgorithms;
     VText keyUsage;
     VText extendedKeyUsage;
     VText basicConstraints;
     VBool (CertificateProfile_SubjectKeyIdentifier profile);
     VBool (CertificateProfile_AuthorityKeyIdentifier profile);
     VBool (CertificateProfile_PublicTLS profile);
     VText (formatSQLTime (CertificateProfile_CreatedAt profile));
     VText (formatSQLTime (CertificateProfile_UpdatedAt profile))] in
  retM tt.

Definition GetCertificateProfile (id : string) : SQLM CertificateProfile :=
  notFound ErrCertificateProfileNotFound (let* row := QueryRowContext "
SELECT id, name, description, issuer_id, validity_period_seconds, subject_template,
	allowed_dns_patterns, allowed_ip_ranges, allowed_key_algorithms, min_key_size_bits,
	allowed_signature_algorithms, key_usage, extended_key_usage, basic_constraints,
	subject_key_identifier, authority_key_identifier, public_tls, created_at, updated_at
FROM certificate_profiles
WHERE id = $1"
    [VText id] in
  liftM (scanCertificateProfile row)).

Definition ListCertificateProfiles : SQLM (list CertificateProfile) :=
  let* rows := QueryContext "
SELECT id, name, description, issuer_id, validity_period_seconds, subject_template,
	allowed_dns_patterns, allowed_ip_ranges, allowed_key_algorithms, min_key_size_bits,
	allowed_signature_algorithms, key_usage, extended_key_usage, basic_constraints,
	subject_key_identifier, authority_key_identifier, public_tls, created_at, updated_at
FROM certificate_profiles
ORDER BY created_at, id"
    [] in
  liftM (scan_rows scanCertificateProfile rows).

Definition UpdateCertificateProfileIssuerIfCurrent (profile : CertificateProfile) (currentIssuerID : string) (currentUpdatedAt : Time) : SQLM unit :=
  let* result := ExecContext "
UPDATE certificate_profiles
SET issuer_id = $1, updated_at = $2
WHERE id = $3 AND issuer_id = $4 AND updated_at = $5"
    [VText (CertificateProfile_IssuerID profile);
     VText (formatSQLTime (CertificateProfile_UpdatedAt profile));
     VText (CertificateProfile_ID profile);
     VText currentIssuerID;
     VText (formatSQLTime currentUpdatedAt)] in
  let* rowsAffected := RowsAffected result in
  if Z.eqb rowsAffected 0 then do* GetCertificateProfile (CertificateProfile_ID profile) in failM ErrInvalidTransition
  else retM tt.

Definition CreateEnrollment (enrollment : Enrollment) : SQLM unit :=
  let* requestedDNSNames := liftM (marshalStringSlice (Enrollment_RequestedDNSNames enrollment)) in
  let* requestedIPAddresses := liftM (marshalStringSlice (Enrollment_RequestedIPAddresses enrollment)) in
  let* csrDNSNames := liftM (marshalStringSlice (Enrollment_CSRDNSNames enrollment)) in
  let* csrIPAddresses := liftM (marshalStringSlice (Enrollment_CSRIPAddresses enrollment)) in
  do* ExecContext "
INSERT INTO enrollments (
	id, identity_id, issuer_id, certificate_profile_id, source_certificate_id, csr_pem, status, requested_subject,
	requested_dns_names, requested_ip_addresses, csr_dns_names, csr_ip_addresses, requested_not_after,
	approved_by, approved_at, created_at, updated_at
) VALUES (
	$1, $2, $3, $4, $5, $6, $7, $8, $9, $10, $11, $12, $13, $14, $15, $16, $17
)"
    [VText (Enrollment_ID enrollment);
     VText (Enrollment_IdentityID enrollment);
     VText (Enrollment_IssuerID enrollment);
     VText (Enrollment_CertificateProfileID enrollment);
     VText (Enrollment_SourceCertificateID enrollment);
     VText (Enrollment_CSRPEM enrollment);
     VText (Enrollment_Status enrollment);
     VText (Enrollment_RequestedSubject enrollment);
     VText requestedDNSNames;
     VText requestedIPAddresses;
     VText csrDNSNames;
     VText csrIPAddresses;
     VText (formatSQLTime (Enrollment_RequestedNotAfter enrollment));
     VText (Enrollment_ApprovedBy enrollment);
     formatNullableSQLTime (Enrollment_ApprovedAt enrollment);
     VText (formatSQLTime (Enrollment_CreatedAt enrollment));
     VText (formatSQLTime (Enrollment_UpdatedAt enrollment))] in
  retM tt.

Definition GetEnrollment (id : string) : SQLM Enrollment :=
  notFound ErrEnrollmentNotFound (let* row := QueryRowContext "
SELECT id, identity_id, issuer_id, certificate_profile_id, source_certificate_id, csr_pem, status, requested_subject,
	requested_dns_names, requested_ip_addresses, csr_dns_names, csr_ip_addresses, requested_not_after,
	approved_by, approved_at, created_at, updated_at
FROM enrollments
WHERE id = $1"
    [VText id] in
  liftM (scanEnrollment row)).

Definition ListEnrollments : SQLM (list Enrollment) :=
  let* rows := QueryContext "
SELECT id, identity_id, issuer_id, certificate_profile_id, source_certificate_id, csr_pem, status, requested_subject,
	requested_dns_names, requested_ip_addresses, csr_dns_names, csr_ip_addresses, requested_not_after,
	approved_by, approved_at, created_at, updated_at
FROM enrollments
ORDER BY created_at, id"
    [] in
  liftM (scan_rows scanEnrollment rows).

Definition ListEnrollmentsQuery (query : EnrollmentQuery) : SQLM (list Enrollment) :=
  let sqlQuery := "SELECT id, identity_id, issuer_id, certificate_profile_id, source_certificate_id, csr_pem, status, requested_subject,
	requested_dns_names, requested_ip_addresses, csr_dns_names, csr_ip_addresses, requested_not_after,
	approved_by, approved_at, created_at, updated_at
FROM enrollments" in
  let '(args, conditions) := addSQLStringCondition [] [] "identity_id" (eq_IdentityID query) in
  let '(args, conditions) := addSQLStringCondition args conditions "issuer_id" (eq_IssuerID query) in
  let '(args, conditions) := addSQLStringCondition args conditions "certificate_profile_id" (eq_ProfileID query) in
  let '(args, conditions) := if eq_Status query <>s ""
    then addSQLStringCondition args conditions "status" (eq_Status query) else (args, conditions) in
  let sqlQuery := appendSQLWhere sqlQuery conditions in
  let sqlQuery := appendSQLSort sqlQuery (eq_Sort query) "created_at" "id" in
  let '(sqlQuery, args) := appendSQLLimitOffset sqlQuery args (eq_Limit query) (eq_Offset query) in
  let* rows := QueryContext sqlQuery args in
  liftM (scan_rows scanEnrollment rows).





Definition updateEnrollment (enrollment : Enrollment) (currentStatus : EnrollmentStatus) (requireStatus : bool) : SQLM Z :=
  let* requestedDNSNames := liftM (marshalStringSlice (Enrollment_RequestedDNSNames enrollment)) in
  let* requestedIPAddresses := liftM (marshalStringSlice (Enrollment_RequestedIPAddresses enrollment)) in
  let* csrDNSNames := liftM (marshalStringSlice (Enrollment_CSRDNSNames enrollment)) in
  let* csrIPAddresses := liftM (marshalStringSlice (Enrollment_CSRIPAddresses enrollment)) in
  let query := "
UPDATE enrollments
SET identity_id = $1,
	issuer_id = $2,
	certificate_profile_id = $3,
	source_certificate_id = $4,
	csr_pem = $5,
	status = $6,
	requested_subject = $7,
	requested_dns_names = $8,
	requested_ip_addresses = $9,
	csr_dns_names = $10,
	csr_ip_addresses = $11,
	requested_not_after = $12,
	approved_by = $13,
	approved_at = $14,
	created_at = $15,
	updated_at = $16
WHERE id = $17" in
  let args := [VText (Enrollment_IdentityID enrollment);
     VText (Enrollment_IssuerID enrollment);
     VText (Enrollment_CertificateProfileID enrollment);
     VText (Enrollment_SourceCertificateID enrollment);
     VText (Enrollment_CSRPEM enrollment);
     VText (Enrollment_Status enrollment);
     VText (Enrollment_RequestedSubject enrollment);
     VText requestedDNSNames;
     VText requestedIPAddresses;
     VText csrDNSNames;
     VText csrIPAddresses;
     VText (formatSQLTime (Enrollment_RequestedNotAfter enrollment));
     VText (Enrollment_ApprovedBy enrollment);
     formatNullableSQLTime (Enrollment_ApprovedAt enrollment);
     VText (formatSQLTime (Enrollment_CreatedAt enrollment));
     VText (formatSQLTime (Enrollment_UpdatedAt enrollment));
     VText (Enrollment_ID enrollment)] in
  if requireStatus
  then ExecContext (query +:+ newline +:+ "AND status = $18") (args ++ [VText currentStatus])
  else ExecContext query args.

Definition UpdateEnrollment (enrollment : Enrollment) : SQLM unit :=
  let* result := updateEnrollment enrollment "" false in
  requireRowsAffected result ErrEnrollmentNotFound.

Definition UpdateEnrollmentIfStatus (enrollment : Enrollment) (currentStatus : EnrollmentStatus) : SQLM unit :=
  let* result := updateEnrollment enrollment currentStatus true in
  let* rowsAffected := RowsAffected result in
  if negb (Z.eqb rowsAffected 0) then retM tt
  else do* GetEnrollment (Enrollment_ID enrollment) in failM ErrInvalidTransition.

Definition CreateCertificate (certificate : Certificate) : SQLM unit :=
  let* dnsNames := liftM (marshalStringSlice (Certificate_DNSNames certificate)) in
  let* ipAddresses := liftM (marshalStringSlice (Certificate_IPAddresses certificate)) in
  do* uniqueAs ErrInvalidTransition (ExecContext "
INSERT INTO certificates (
	id, identity_id, issuer_id, enrollment_id, certificate_profile_id, serial_number, subject,
	dns_names, ip_addresses, not_before, not_after, status, certificate_pem,
	renewal_notified_at, created_at, updated_at
) VALUES (
	$1, $2, $3, $4, $5, $6, $7, $8, $9, $10, $11, $12, $13, $14, $15, $16
)"
    [VText (Certificate_ID certificate);
     VText (Certificate_IdentityID certificate);
     VText (Certificate_IssuerID certificate);
     VText (Certificate_EnrollmentID certificate);
     VText (Certificate_CertificateProfileID certificate);
     VText (Certificate_SerialNumber certificate);
     VText (Certificate_Subject certificate);
     VText dnsNames;
     VText ipAddresses;
     VText (formatSQLTime (Certificate_NotBefore certificate));
     VText (formatSQLTime (Certificate_NotAfter certificate));
     VText (Certificate_Status certificate);
     VText (Certificate_CertificatePEM certificate);
     formatNullableSQLTime (Certificate_RenewalNotifiedAt certificate);
     VText (formatSQLTime (Certificate_CreatedAt certificate));
     VText (formatSQLTime (Certificate_UpdatedAt certificate))]) in
  retM tt.

Definition GetCertificate (id : string) : SQLM Certificate :=
  notFound ErrCertificateNotFound (let* row := QueryRowContext "
SELECT id, identity_id, issuer_id, enrollment_id, certificate_profile_id, serial_number, subject,
	dns_names, ip_addresses, not_before, not_after, status, certificate_pem,
	renewal_notified_at, created_at, updated_at
FROM certificates
WHERE id = $1"
    [VText id] in
  liftM (scanCertificate row)).

Definition GetCertificateByEnrollmentID (enrollmentID : string) : SQLM Certificate :=
  notFound ErrCertificateNotFound (let* row := QueryRowContext "
SELECT id, identity_id, issuer_id, enrollment_id, certificate_profile_id, serial_number, subject,
	dns_names, ip_addresses, not_before, not_after, status, certificate_pem,
	renewal_notified_at, created_at, updated_at
FROM certificates
WHERE enrollment_id = $1"
    [VText enrollmentID] in
  liftM (scanCertificate row)).

Definition ListCertificates : SQLM (list Certificate) :=
  let* rows := QueryContext "
SELECT id, identity_id, issuer_id, enrollment_id, certificate_profile_id, serial_number, subject,
	dns_names, ip_addresses, not_before, not_after, status, certificate_pem,
	renewal_notified_at, created_at, updated_at
FROM certificates
ORDER BY created_at, id"
    [] in
  liftM (scan_rows scanCertificate rows).

Definition ListCertificatesQuery (query : CertificateQuery) : SQLM (list Certificate) :=
  let sqlQuery := "SELECT c.id, c.identity_id, c.issuer_id, c.enrollment_id, c.certificate_profile_id, c.serial_number, c.subject,
	c.dns_names, c.ip_addresses, c.not_before, c.not_after, c.status, c.certificate_pem,
	c.renewal_notified_at, c.created_at, c.updated_at
FROM certificates c" in
  let sqlQuery :=
    if (cq_Owner query <>s "") || (cq_Team query <>s "") || (cq_Service query <>s "") || (cq_Environment query <>s "")
    then sqlQuery +:+ "
JOIN identities i ON i.id = c.identity_id" else sqlQuery in
  let '(args, conditions) := addSQLStringCondition [] [] "i.owner" (cq_Owner query) in
  let '(args, conditions) := addSQLStringCondition args conditions "i.team" (cq_Team query) in
  let '(args, conditions) := addSQLStringCondition args conditions "i.service" (cq_Service query) in
  let '(args, conditions) := addSQLStringCondition args conditions "i.environment" (cq_Environment query) in
  let '(args, conditions) := addSQLStringCondition args conditions "c.issuer_id" (cq_IssuerID query) in
  let '(args, conditions) := addSQLStringCondition args conditions "c.certificate_profile_id" (cq_ProfileID query) in
  let '(args, conditions) := addSQLStringCondition args conditions "c.status" (cq_RevocationState query) in
  let* pattern := liftM (if cq_SAN query <>s "" then sqlJSONStringElementPattern (cq_SAN query) else Ok "") in
  let '(args, conditions) :=
    if cq_SAN query <>s "" then
      let args := args ++ [VText pattern; VText pattern] in
      (args, conditions ++ ["(c.dns_names LIKE $" +:+ itoa (Z.of_nat (length args) - 1)
        +:+ " OR c.ip_addresses LIKE $" +:+ itoa (Z.of_nat (length args)) +:+ ")"])
    else (args, conditions) in
  let conditions :=
    if cq_RenewalState query =s "notified" then conditions ++ ["c.renewal_notified_at IS NOT NULL"]
    else if cq_RenewalState query =s "unnotified" then conditions ++ ["c.renewal_notified_at IS NULL"]
    else conditions in
  let '(args, conditions) := addSQLTimeCondition args conditions "c.not_after" ">" (cq_ExpiresAfter query) in
  let '(args, conditions) := addSQLTimeCondition args conditions "c.not_after" "<=" (cq_ExpiresBefore query) in
  let sqlQuery := appendSQLWhere sqlQuery conditions in
  let sqlQuery := appendSQLSort sqlQuery (cq_Sort query) "c.created_at" "c.id" in
  let '(sqlQuery, args) := appendSQLLimitOffset sqlQuery args (cq_Limit query) (cq_Offset query) in
  let* rows := QueryContext sqlQuery args in
  liftM (scan_rows scanCertificate rows).

Definition ListCertificateInventory (filter : CertificateInventoryFilter) : SQLM (list CertificateInventoryRecord) :=
  let query := "
SELECT
	c.id, c.identity_id, c.issuer_id, c.enrollment_id, c.certificate_profile_id, c.serial_number, c.subject,
	c.dns_names, c.ip_addresses, c.not_before, c.not_after, c.status, c.certificate_pem,
	c.renewal_notified_at, c.created_at, c.updated_at,
	i.id, i.type, i.name, i.external_id, i.owner, i.team, i.service, i.environment, i.deployment_target, i.last_seen_at,
	i.metadata_json, i.allowed_dns_names, i.allowed_ip_addresses, i.status, i.created_at, i.updated_at,
	iss.id, iss.name, iss.kind, iss.status, iss.parent_issuer_id, iss.certificate_pem, iss.key_ref, iss.aia_url, iss.crl_distribution_points, iss.trust_anchor, iss.created_at, iss.updated_at
FROM certificates c
JOIN identities i ON i.id = c.identity_id
JOIN issuers iss ON iss.id = c.issuer_id" in
  let '(args, conditions) := addSQLStringCondition [] [] "i.owner" (cif_Owner filter) in
  let '(args, conditions) := addSQLStringCondition args conditions "i.team" (cif_Team filter) in
  let '(args, conditions) := addSQLStringCondition args conditions "i.service" (cif_Service filter) in
  let '(args, conditions) := addSQLStringCondition args conditions "i.environment" (cif_Environment filter) in
  let '(args, conditions) := addSQLStringCondition args conditions "c.issuer_id" (cif_IssuerID filter) in
  let '(args, conditions) := addSQLStringCondition args conditions "c.certificate_profile_id" (cif_ProfileID filter) in
  let '(args, conditions) := addSQLStringCondition args conditions "c.status" (cif_RevocationState filter) in
  let query := appendSQLWhere query conditions in
  let query := if cif_Sort filter =s "desc" then query +:+ newline +:+ "ORDER BY c.id DESC"
    else query +:+ newline +:+ "ORDER BY c.id" in
  let '(query, args) :=
    if Z.ltb 0 (cif_Limit filter) then
      let args := args ++ [VInt (cif_Limit filter); VInt (cif_Offset filter)] in
      (query +:+ newline +:+ "LIMIT $" +:+ itoa (Z.of_nat (length args) - 1) +:+ " OFFSET $" +:+ itoa (Z.of_nat (length args)), args)
    else if Z.ltb 0 (cif_Offset filter) then
      let args := args ++ [VInt (cif_Offset filter)] in
      (query +:+ newline +:+ "LIMIT 9223372036854775807 OFFSET $" +:+ itoa (Z.of_nat (length args)), args)
    else (query, args) in
  let* rows := QueryContext query args in
  liftM (scan_rows scanCertificateInventoryRecord rows).

Definition ListCertificatesExpiringWithin (now cutoff : Time) (limit offset : Z) : SQLM (list Certificate) :=
  let query := "
SELECT id, identity_id, issuer_id, enrollment_id, certificate_profile_id, serial_number, subject,
	dns_names, ip_addresses, not_before, not_after, status, certificate_pem,
	renewal_notified_at, created_at, updated_at
FROM certificates
WHERE status = $1 AND not_after > $2 AND not_after <= $3
ORDER BY not_after, id" in
  let args := [VText CertificateValid; VText (formatSQLTime now); VText (formatSQLTime cutoff)] in
  let '(query, args) := if Z.ltb 0 limit
    then (query +:+ " LIMIT $4 OFFSET $5", args ++ [VInt limit; VInt offset]) else (query, args) in
  let* rows := QueryContext query args in
  liftM (scan_rows scanCertificate rows).

Definition ListCertificatesForExpirationScan (now : Time) (warningBefore : Time) (limit : Z) : SQLM (list Certificate) :=
  let* rows := QueryContext "
SELECT id, identity_id, issuer_id, enrollment_id, certificate_profile_id, serial_number, subject,
	dns_names, ip_addresses, not_before, not_after, status, certificate_pem,
	renewal_notified_at, created_at, updated_at
FROM certificates
WHERE (
	status IN ($1, $2) AND not_after <= $3
) OR (
	status = $1 AND not_after > $3 AND not_after <= $4 AND renewal_notified_at IS NULL
)
ORDER BY not_after, id
LIMIT $5"
    [VText CertificateValid;
     VText CertificateSuspended;
     VText (formatSQLTime now);
     VText (formatSQLTime warningBefore);
     VInt limit] in
  liftM (scan_rows scanCertificate rows).





Definition updateCertificate (certificate : Certificate) (currentStatus : CertificateStatus) (requireStatus : bool) : SQLM Z :=
  let* dnsNames := liftM (marshalStringSlice (Certificate_DNSNames certificate)) in
  let* ipAddresses := liftM (marshalStringSlice (Certificate_IPAddresses certificate)) in
  let query := "
UPDATE certificates
SET identity_id = $1,
	issuer_id = $2,
	enrollment_id = $3,
	certificate_profile_id = $4,
	serial_number = $5,
	subject = $6,
	dns_names = $7,
	ip_addresses = $8,
	not_before = $9,
	not_after = $10,
	status = $11,
	certificate_pem = $12,
	renewal_notified_at = $13,
	created_at = $14,
	updated_at = $15
WHERE id = $16" in
  let args := [VText (Certificate_IdentityID certificate);
     VText (Certificate_IssuerID certificate);
     VText (Certificate_EnrollmentID certificate);
     VText (Certificate_CertificateProfileID certificate);
     VText (Certificate_SerialNumber certificate);
     VText (Certificate_Subject certificate);
     VText dnsNames;
     VText ipAddresses;
     VText (formatSQLTime (Certificate_NotBefore certificate));
     VText (formatSQLTime (Certificate_NotAfter certificate));
     VText (Certificate_Status certificate);
     VText (Certificate_CertificatePEM certificate);
     formatNullableSQLTime (Certificate_RenewalNotifiedAt certificate);
     VText (formatSQLTime (Certificate_CreatedAt certificate));
     VText (formatSQLTime (Certificate_UpdatedAt certificate));
     VText (Certificate_ID certificate)] in
  if requireStatus
  then ExecContext (query +:+ newline +:+ "AND status = $17") (args ++ [VText currentStatus])
  else ExecContext query args.

Definition UpdateCertificate (certificate : Certificate) : SQLM unit :=
  let* result := updateCertificate certificate "" false in
  requireRowsAffected result ErrCertificateNotFound.

Definition UpdateCertificateIfStatus (certificate : Certificate) (currentStatus : CertificateStatus) : SQLM unit :=
  let* result := updateCertificate certificate currentStatus true in
  let* rowsAffected := RowsAffected result in
  if negb (Z.eqb rowsAffected 0) then retM tt
  else do* GetCertificate (Certificate_ID certificate) in failM ErrInvalidTransition.

Definition CreateIssuanceAttempt (attempt : IssuanceAttempt) : SQLM unit :=
  do* uniqueAs ErrInvalidTransition (ExecContext "
INSERT INTO certificate_issuance_attempts (
	enrollment_id, status, lease_expires_at, certificate_id, certificate_pem, serial_number, subject,
	not_before, not_after, signing_started_at, signed_at, finalized_at, last_error, signing_evidence_json, created_at, updated_at
) VALUES (
	$1, $2, $3, $4, $5, $6, $7, $8, $9, $10, $11, $12, $13, $14, $15, $16
)"
    [VText (IssuanceAttempt_EnrollmentID attempt);
     VText (IssuanceAttempt_Status attempt);
     formatNullableSQLTime (IssuanceAttempt_LeaseExpiresAt attempt);
     VText (IssuanceAttempt_CertificateID attempt);
     VText (IssuanceAttempt_CertificatePEM attempt);
     VText (IssuanceAttempt_SerialNumber attempt);
     VText (IssuanceAttempt_Subject attempt);
     formatNullableSQLTime (IssuanceAttempt_NotBefore attempt);
     formatNullableSQLTime (IssuanceAttempt_NotAfter attempt);
     formatNullableSQLTime (IssuanceAttempt_SigningStartedAt attempt);
     formatNullableSQLTime (IssuanceAttempt_SignedAt attempt);
     formatNullableSQLTime (IssuanceAttempt_FinalizedAt attempt);
     VText (IssuanceAttempt_LastError attempt);
     VText (IssuanceAttempt_SigningEvidenceJSON attempt);
     VText (formatSQLTime (IssuanceAttempt_CreatedAt attempt));
     VText (formatSQLTime (IssuanceAttempt_UpdatedAt attempt))]) in
  retM tt.

Definition GetIssuanceAttempt (enrollmentID : string) : SQLM IssuanceAttempt :=
  notFound ErrIssuanceAttemptNotFound (let* row := QueryRowContext "
SELECT enrollment_id, status, lease_expires_at, certificate_id, certificate_pem, serial_number, subject,
	not_before, not_after, signing_started_at, signed_at, finalized_at, last_error, signing_evidence_json, created_at, updated_at
FROM certificate_issuance_attempts
WHERE enrollment_id = $1"
    [VText enrollmentID] in
  liftM (scanIssuanceAttempt row)).

Definition UpdateIssuanceAttemptIfCurrent (attempt : IssuanceAttempt) (current : IssuanceAttempt) : SQLM unit :=
  let* result := ExecContext "
UPDATE certificate_issuance_attempts
SET status = $1,
	lease_expires_at = $2,
	certificate_id = $3,
	certificate_pem = $4,
	serial_number = $5,
	subject = $6,
	not_before = $7,
	not_after = $8,
	signing_started_at = $9,
	signed_at = $10,
	finalized_at = $11,
	last_error = $12,
	signing_evidence_json = $13,
	created_at = $14,
	updated_at = $15
WHERE enrollment_id = $16
	AND status = $17
	AND updated_at = $18
	AND lease_expires_at IS NOT DISTINCT FROM $19"
    [VText (IssuanceAttempt_Status attempt);
     formatNullableSQLTime (IssuanceAttempt_LeaseExpiresAt attempt);
     VText (IssuanceAttempt_CertificateID attempt);
     VText (IssuanceAttempt_CertificatePEM attempt);
     VText (IssuanceAttempt_SerialNumber attempt);
     VText (IssuanceAttempt_Subject attempt);
     formatNullableSQLTime (IssuanceAttempt_NotBefore attempt);
     formatNullableSQLTime (IssuanceAttempt_NotAfter attempt);
     formatNullableSQLTime (IssuanceAttempt_SigningStartedAt attempt);
     formatNullableSQLTime (IssuanceAttempt_SignedAt attempt);
     formatNullableSQLTime (IssuanceAttempt_FinalizedAt attempt);
     VText (IssuanceAttempt_LastError attempt);
     VText (IssuanceAttempt_SigningEvidenceJSON attempt);
     VText (formatSQLTime (IssuanceAttempt_CreatedAt attempt));
     VText (formatSQLTime (IssuanceAttempt_UpdatedAt attempt));
     VText (IssuanceAttempt_EnrollmentID attempt);
     VText (IssuanceAttempt_Status current);
     VText (formatSQLTime (IssuanceAttempt_UpdatedAt current));
     formatNullableSQLTime (IssuanceAttempt_LeaseExpiresAt current)] in
  let* rowsAffected := RowsAffected result in
  if negb (Z.eqb rowsAffected 0) then retM tt
  else do* GetIssuanceAttempt (IssuanceAttempt_EnrollmentID attempt) in failM ErrInvalidTransition.

Definition CreateRevocation (revocation : Revocation) : SQLM unit :=
  do* ExecContext "
INSERT INTO revocations (
	id, certificate_id, reason, revoked_by, revoked_at, created_at
) VALUES (
	$1, $2, $3, $4, $5, $6
)"
    [VText (Revocation_ID revocation);
     VText (Revocation_CertificateID revocation);
     VText (Revocation_Reason revocation);
     VText (Revocation_RevokedBy revocation);
     VText (formatSQLTime (Revocation_RevokedAt revocation));
     VText (formatSQLTime (Revocation_CreatedAt revocation))] in
  retM tt.

Definition ListRevocationsByIssuer (issuerID : string) : SQLM (list RevokedCertificateEntry) :=
  let* rows := QueryContext "
SELECT c.id, c.serial_number, r.revoked_at, r.reason
FROM revocations r
JOIN certificates c ON c.id = r.certificate_id
WHERE c.issuer_id = $1 AND c.status = $2
ORDER BY r.revoked_at, c.serial_number"
    [VText issuerID;
     VText CertificateRevoked] in
  liftM (scan_rows scanRevokedCertificateEntry rows).

Definition CreateCRLPublication (publication : CRLPublication) : SQLM unit :=
  do* uniqueAs ErrInvalidTransition (ExecContext "
INSERT INTO crl_publications (
	id, issuer_id, distribution_point, crl_number, this_update, next_update, status, crl_pem, created_at, updated_at
) VALUES (
	$1, $2, $3, $4, $5, $6, $7, $8, $9, $10
)"
    [VText (CRLPublication_ID publication);
     VText (CRLPublication_IssuerID publication);
     VText (CRLPublication_DistributionPoint publication);
     VInt (CRLPublication_CRLNumber publication);
     VText (formatSQLTime (CRLPublication_ThisUpdate publication));
     VText (formatSQLTime (CRLPublication_NextUpdate publication));
     VText (CRLPublication_Status publication);
     VText (CRLPublication_CRLPEM publication);
     VText (formatSQLTime (CRLPublication_CreatedAt publication));
     VText (formatSQLTime (CRLPublication_UpdatedAt publication))]) in
  retM tt.

Definition GetCRLPublication (id : string) : SQLM CRLPublication :=
  notFound ErrCRLPublicationNotFound (let* row := QueryRowContext "
SELECT id, issuer_id, distribution_point, crl_number, this_update, next_update, status, crl_pem, created_at, updated_at
FROM crl_publications
WHERE id = $1"
    [VText id] in
  liftM (scanCRLPublication row)).

Definition GetLatestCRLPublicationByIssuer (issuerID : string) : SQLM CRLPublication :=
  notFound ErrCRLPublicationNotFound (let* row := QueryRowContext "
SELECT id, issuer_id, distribution_point, crl_number, this_update, next_update, status, crl_pem, created_at, updated_at
FROM crl_publications
WHERE issuer_id = $1
ORDER BY crl_number DESC, created_at DESC, id DESC
LIMIT 1"
    [VText issuerID] in
  liftM (scanCRLPublication row)).

Definition ListCRLPublicationsByIssuer (issuerID : string) : SQLM (list CRLPublication) :=
  let* rows := QueryContext "
SELECT id, issuer_id, distribution_point, crl_number, this_update, next_update, status, crl_pem, created_at, updated_at
FROM crl_publications
WHERE issuer_id = $1
ORDER BY crl_number, created_at, id"
    [VText issuerID] in
  liftM (scan_rows scanCRLPublication rows).

Definition CreateCRLGenerationClaim (claim : CRLGenerationClaim) : SQLM unit :=
  do* uniqueAs ErrInvalidTransition (ExecContext "
INSERT INTO crl_generation_claims (
	issuer_id, distribution_point, crl_number, lease_expires_at, created_at, updated_at
) VALUES (
	$1, $2, $3, $4, $5, $6
)"
    [VText (CRLGenerationClaim_IssuerID claim);
     VText (CRLGenerationClaim_DistributionPoint claim);
     VInt (CRLGenerationClaim_CRLNumber claim);
     VText (formatSQLTime (CRLGenerationClaim_LeaseExpiresAt claim));
     VText (formatSQLTime (CRLGenerationClaim_CreatedAt claim));
     VText (formatSQLTime (CRLGenerationClaim_UpdatedAt claim))]) in
  retM tt.

Definition GetCRLGenerationClaim (issuerID : string) (distributionPoint : string) : SQLM CRLGenerationClaim :=
  notFound ErrCRLGenerationClaimNotFound (let* row := QueryRowContext "
SELECT issuer_id, distribution_point, crl_number, lease_expires_at, created_at, updated_at
FROM crl_generation_claims
WHERE issuer_id = $1 AND distribution_point = $2"
    [VText issuerID;
     VText distributionPoint] in
  liftM (scanCRLGenerationClaim row)).

Definition UpdateCRLGenerationClaimIfCurrent (claim : CRLGenerationClaim) (current : CRLGenerationClaim) : SQLM unit :=
  let* result := ExecContext "
UPDATE crl_generation_claims
SET crl_number = $1,
	lease_expires_at = $2,
	created_at = $3,
	updated_at = $4
WHERE issuer_id = $5
	AND distribution_point = $6
	AND crl_number = $7
	AND lease_expires_at = $8
	AND updated_at = $9"
    [VInt (CRLGenerationClaim_CRLNumber claim);
     VText (formatSQLTime (CRLGenerationClaim_LeaseExpiresAt claim));
     VText (formatSQLTime (CRLGenerationClaim_CreatedAt claim));
     VText (formatSQLTime (CRLGenerationClaim_UpdatedAt claim));
     VText (CRLGenerationClaim_IssuerID claim);
     VText (CRLGenerationClaim_DistributionPoint claim);
     VInt (CRLGenerationClaim_CRLNumber current);
     VText (formatSQLTime (CRLGenerationClaim_LeaseExpiresAt current));
     VText (formatSQLTime (CRLGenerationClaim_UpdatedAt current))] in
  let* rowsAffected := RowsAffected result in
  if negb (Z.eqb rowsAffected 0) then retM tt
  else do* GetCRLGenerationClaim (CRLGenerationClaim_IssuerID claim) (CRLGenerationClaim_DistributionPoint claim) in failM ErrInvalidTransition.

Definition DeleteCRLGenerationClaimIfCurrent (current : CRLGenerationClaim) : SQLM unit :=
  let* result := ExecContext "
DELETE FROM crl_generation_claims
WHERE issuer_id = $1
	AND distribution_point = $2
	AND crl_number = $3
	AND lease_expires_at = $4
	AND updated_at = $5"
    [VText (CRLGenerationClaim_IssuerID current);
     VText (CRLGenerationClaim_DistributionPoint current);
     VInt (CRLGenerationClaim_CRLNumber current);
     VText (formatSQLTime (CRLGenerationClaim_LeaseExpiresAt current));
     VText (formatSQLTime (CRLGenerationClaim_UpdatedAt current))] in
  let* rowsAffected := RowsAffected result in
  if negb (Z.eqb rowsAffected 0) then retM tt
  else do* GetCRLGenerationClaim (CRLGenerationClaim_IssuerID current) (CRLGenerationClaim_DistributionPoint current) in failM ErrInvalidTransition.

End Certificates.
