(* ===== verification/SQLStoreACME.v ===== *)
(** * The SQL repository: ACME objects ([store/sqlstore_acme.go]) *)

From S2P Require Import Prelude GoLib Crypto Domain AuditChain Store Repository SQLText SQLEngine SQLTime SQLScan SQLStore.

Section ACME.
Context `{SQLDriver} `{GoUnicode}.
#[local] Notation RowsAffected := affectedRows.

Definition CreateACMEAccount (account : ACMEAccount) : SQLM unit :=
  let* contacts := liftM (marshalStringSlice (ACMEAccount_Contacts account)) in
  do* uniqueAs ErrInvalidTransition (ExecContext "
INSERT INTO acme_accounts (
	id, contacts, status, terms_of_service_agreed, key_thumbprint, key_jwk_json, created_at, updated_at
) VALUES (
	$1, $2, $3, $4, $5, $6, $7, $8
)"
    [VText (ACMEAccount_ID account);
     VText contacts;
     VText (ACMEAccount_Status account);
     VBool (ACMEAccount_TermsOfServiceAgreed account);
     VText (ACMEAccount_KeyThumbprint account);
     VText (ACMEAccount_KeyJWKJSON account);
     VText (formatSQLTime (ACMEAccount_CreatedAt account));
     VText (formatSQLTime (ACMEAccount_UpdatedAt account))]) in
  retM tt.

Definition GetACMEAccount (id : string) : SQLM ACMEAccount :=
  notFound ErrACMEAccountNotFound (let* row := QueryRowContext "
SELECT id, contacts, status, terms_of_service_agreed, key_thumbprint, key_jwk_json, created_at, updated_at
FROM acme_accounts
WHERE id = $1"
    [VText id] in
  liftM (scanACMEAccount row)).

Definition ListACMEAccounts : SQLM (list ACMEAccount) :=
  let* rows := QueryContext "
SELECT id, contacts, status, terms_of_service_agreed, key_thumbprint, key_jwk_json, created_at, updated_at
FROM acme_accounts
ORDER BY created_at, id"
    [] in
  liftM (scan_rows scanACMEAccount rows).

Definition UpdateACMEAccountIfStatus (account : ACMEAccount) (currentStatus : ACMEAccountStatus) : SQLM unit :=
  let* contacts := liftM (marshalStringSlice (ACMEAccount_Contacts account)) in
  let* result := ExecContext "
UPDATE acme_accounts
SET contacts = $1, status = $2, terms_of_service_agreed = $3, key_thumbprint = $4, key_jwk_json = $5, updated_at = $6
WHERE id = $7 AND status = $8"
    [VText contacts;
     VText (ACMEAccount_Status account);
     VBool (ACMEAccount_TermsOfServiceAgreed account);
     VText (ACMEAccount_KeyThumbprint account);
     VText (ACMEAccount_KeyJWKJSON account);
     VText (formatSQLTime (ACMEAccount_UpdatedAt account));
     VText (ACMEAccount_ID account);
     VText currentStatus] in
  let* rowsAffected := RowsAffected result in
  if Z.eqb rowsAffected 1 then retM tt
  else let* got := catchM (GetACMEAccount (ACMEAccount_ID account)) in
    match got with
    | Err e => if errors_Is e ErrACMEAccountNotFound then failM ErrACMEAccountNotFound else failM ErrInvalidTransition
    | Ok _ => failM ErrInvalidTransition
    end.

Definition CreateACMEOrder (order : ACMEOrder) : SQLM unit :=
  let* dnsNames := liftM (marshalStringSlice (ACMEOrder_RequestedDNSNames order)) in
  let* ipAddresses := liftM (marshalStringSlice (ACMEOrder_RequestedIPAddresses order)) in
  do* ExecContext "
INSERT INTO acme_orders (
	id, account_id, identity_id, issuer_id, certificate_profile_id, status, csr_pem,
	requested_subject, requested_dns_names, requested_ip_addresses, requested_not_after,
	enrollment_id, certificate_id, expires_at, created_at, updated_at
) VALUES (
	$1, $2, $3, $4, $5, $6, $7, $8, $9, $10, $11, $12, $13, $14, $15, $16
)"
    [VText (ACMEOrder_ID order);
     VText (ACMEOrder_AccountID order);
     VText (ACMEOrder_IdentityID order);
     VText (ACMEOrder_IssuerID order);
     VText (ACMEOrder_CertificateProfileID order);
     VText (ACMEOrder_Status order);
     VText (ACMEOrder_CSRPEM order);
     VText (ACMEOrder_RequestedSubject order);
     VText dnsNames;
     VText ipAddresses;
     VText (formatSQLTime (ACMEOrder_RequestedNotAfter order));
     VText (ACMEOrder_EnrollmentID order);
     VText (ACMEOrder_CertificateID order);
     VText (formatSQLTime (ACMEOrder_ExpiresAt order));
     VText (formatSQLTime (ACMEOrder_CreatedAt order));
     VText (formatSQLTime (ACMEOrder_UpdatedAt order))] in
  retM tt.

Definition GetACMEOrder (id : string) : SQLM ACMEOrder :=
  notFound ErrACMEOrderNotFound (let* row := QueryRowContext "
SELECT id, account_id, identity_id, issuer_id, certificate_profile_id, status, csr_pem,
	requested_subject, requested_dns_names, requested_ip_addresses, requested_not_after,
	enrollment_id, certificate_id, expires_at, created_at, updated_at
FROM acme_orders
WHERE id = $1"
    [VText id] in
  liftM (scanACMEOrder row)).

Definition ListACMEOrdersByAccount (accountID : string) : SQLM (list ACMEOrder) :=
  let* rows := QueryContext "
SELECT id, account_id, identity_id, issuer_id, certificate_profile_id, status, csr_pem,
	requested_subject, requested_dns_names, requested_ip_addresses, requested_not_after,
	enrollment_id, certificate_id, expires_at, created_at, updated_at
FROM acme_orders
WHERE account_id = $1
ORDER BY created_at, id"
    [VText accountID] in
  liftM (scan_rows scanACMEOrder rows).

Definition UpdateACMEOrderIfStatus (order : ACMEOrder) (currentStatus : ACMEOrderStatus) : SQLM unit :=
  let* dnsNames := liftM (marshalStringSlice (ACMEOrder_RequestedDNSNames order)) in
  let* ipAddresses := liftM (marshalStringSlice (ACMEOrder_RequestedIPAddresses order)) in
  let* result := ExecContext "
UPDATE acme_orders
SET account_id = $1, identity_id = $2, issuer_id = $3, certificate_profile_id = $4,
	status = $5, csr_pem = $6, requested_subject = $7, requested_dns_names = $8,
	requested_ip_addresses = $9, requested_not_after = $10, enrollment_id = $11,
	certificate_id = $12, expires_at = $13, created_at = $14, updated_at = $15
WHERE id = $16 AND status = $17"
    [VText (ACMEOrder_AccountID order);
     VText (ACMEOrder_IdentityID order);
     VText (ACMEOrder_IssuerID order);
     VText (ACMEOrder_CertificateProfileID order);
     VText (ACMEOrder_Status order);
     VText (ACMEOrder_CSRPEM order);
     VText (ACMEOrder_RequestedSubject order);
     VText dnsNames;
     VText ipAddresses;
     VText (formatSQLTime (ACMEOrder_RequestedNotAfter order));
     VText (ACMEOrder_EnrollmentID order);
     VText (ACMEOrder_CertificateID order);
     VText (formatSQLTime (ACMEOrder_ExpiresAt order));
     VText (formatSQLTime (ACMEOrder_CreatedAt order));
     VText (formatSQLTime (ACMEOrder_UpdatedAt order));
     VText (ACMEOrder_ID order);
     VText currentStatus] in
  let* rowsAffected := RowsAffected result in
  if Z.eqb rowsAffected 1 then retM tt
  else let* got := catchM (GetACMEOrder (ACMEOrder_ID order)) in
    match got with
    | Err e => if errors_Is e ErrACMEOrderNotFound then failM ErrACMEOrderNotFound else failM ErrInvalidTransition
    | Ok _ => failM ErrInvalidTransition
    end.

Definition CreateACMEAuthorization (authorization : ACMEAuthorization) : SQLM unit :=
  do* ExecContext "
INSERT INTO acme_authorizations (
	id, order_id, identifier_type, identifier_value, status, expires_at, validation_reuse_expires_at, created_at, updated_at
) VALUES (
	$1, $2, $3, $4, $5, $6, $7, $8, $9
)"
    [VText (ACMEAuthorization_ID authorization);
     VText (ACMEAuthorization_OrderID authorization);
     VText (ACMEAuthorization_IdentifierType authorization);
     VText (ACMEAuthorization_IdentifierValue authorization);
     VText (ACMEAuthorization_Status authorization);
     VText (formatSQLTime (ACMEAuthorization_ExpiresAt authorization));
     formatNullableSQLTime (ACMEAuthorization_ValidationReuseExpiresAt authorization);
     VText (formatSQLTime (ACMEAuthorization_CreatedAt authorization));
     VText (formatSQLTime (ACMEAuthorization_UpdatedAt authorization))] in
  retM tt.

Definition GetACMEAuthorization (id : string) : SQLM ACMEAuthorization :=
  notFound ErrACMEAuthorizationNotFound (let* row := QueryRowContext "
SELECT id, order_id, identifier_type, identifier_value, status, expires_at, validation_reuse_expires_at, created_at, updated_at
FROM acme_authorizations
WHERE id = $1"
    [VText id] in
  liftM (scanACMEAuthorization row)).

Definition ListACMEAuthorizationsByOrder (orderID : string) : SQLM (list ACMEAuthorization) :=
  let* rows := QueryContext "
SELECT id, order_id, identifier_type, identifier_value, status, expires_at, validation_reuse_expires_at, created_at, updated_at
FROM acme_authorizations
WHERE order_id = $1
ORDER BY created_at, id"
    [VText orderID] in
  liftM (scan_rows scanACMEAuthorization rows).

Definition UpdateACMEAuthorizationIfStatus (authorization : ACMEAuthorization) (currentStatus : ACMEAuthorizationStatus) : SQLM unit :=
  let* result := ExecContext "
UPDATE acme_authorizations
SET order_id = $1, identifier_type = $2, identifier_value = $3, status = $4, expires_at = $5, validation_reuse_expires_at = $6, created_at = $7, updated_at = $8
WHERE id = $9 AND status = $10"
    [VText (ACMEAuthorization_OrderID authorization);
     VText (ACMEAuthorization_IdentifierType authorization);
     VText (ACMEAuthorization_IdentifierValue authorization);
     VText (ACMEAuthorization_Status authorization);
     VText (formatSQLTime (ACMEAuthorization_ExpiresAt authorization));
     formatNullableSQLTime (ACMEAuthorization_ValidationReuseExpiresAt authorization);
     VText (formatSQLTime (ACMEAuthorization_CreatedAt authorization));
     VText (formatSQLTime (ACMEAuthorization_UpdatedAt authorization));
     VText (ACMEAuthorization_ID authorization);
     VText currentStatus] in
  let* rowsAffected := RowsAffected result in
  if Z.eqb rowsAffected 1 then retM tt else failM ErrInvalidTransition.

Definition CreateACMEChallenge (challenge : ACMEChallenge) : SQLM unit :=
  do* ExecContext "
INSERT INTO acme_challenges (
	id, authorization_id, type, token, status, validated_at, created_at, updated_at
) VALUES (
	$1, $2, $3, $4, $5, $6, $7, $8
)"
    [VText (ACMEChallenge_ID challenge);
     VText (ACMEChallenge_AuthorizationID challenge);
     VText (ACMEChallenge_Type challenge);
     VText (ACMEChallenge_Token challenge);
     VText (ACMEChallenge_Status challenge);
     formatNullableSQLTime (ACMEChallenge_ValidatedAt challenge);
     VText (formatSQLTime (ACMEChallenge_CreatedAt challenge));
     VText (formatSQLTime (ACMEChallenge_UpdatedAt challenge))] in
  retM tt.

Definition GetACMEChallenge (id : string) : SQLM ACMEChallenge :=
  notFound ErrACMEChallengeNotFound (let* row := QueryRowContext "
SELECT id, authorization_id, type, token, status, validated_at, created_at, updated_at
FROM acme_challenges
WHERE id = $1"
    [VText id] in
  liftM (scanACMEChallenge row)).

Definition ListACMEChallengesByAuthorization (authorizationID : string) : SQLM (list ACMEChallenge) :=
  let* rows := QueryContext "
SELECT id, authorization_id, type, token, status, validated_at, created_at, updated_at
FROM acme_challenges
WHERE authorization_id = $1
ORDER BY created_at, id"
    [VText authorizationID] in
  liftM (scan_rows scanACMEChallenge rows).

Definition UpdateACMEChallengeIfStatus (challenge : ACMEChallenge) (currentStatus : ACMEChallengeStatus) : SQLM unit :=
  let* result := ExecContext "
UPDATE acme_challenges
SET authorization_id = $1, type = $2, token = $3, status = $4, validated_at = $5, created_at = $6, updated_at = $7
WHERE id = $8 AND status = $9"
    [VText (ACMEChallenge_AuthorizationID challenge);
     VText (ACMEChallenge_Type challenge);
     VText (ACMEChallenge_Token challenge);
     VText (ACMEChallenge_Status challenge);
     formatNullableSQLTime (ACMEChallenge_ValidatedAt challenge);
     VText (formatSQLTime (ACMEChallenge_CreatedAt challenge));
     VText (formatSQLTime (ACMEChallenge_UpdatedAt challenge));
     VText (ACMEChallenge_ID challenge);
     VText currentStatus] in
  let* rowsAffected := RowsAffected result in
  if Z.eqb rowsAffected 1 then retM tt
  else let* got := catchM (GetACMEChallenge (ACMEChallenge_ID challenge)) in
    match got with
    | Err e => if errors_Is e ErrACMEChallengeNotFound then failM ErrACMEChallengeNotFound else failM ErrInvalidTransition
    | Ok _ => failM ErrInvalidTransition
    end.

End ACME.
