(* ===== verification/SQLStoreOutbox.v ===== *)
(** * The SQL repository: outbox ([store/sqlstore_outbox.go])

    Outbox messages, job attempts and webhook deliveries. *)

From S2P Require Import Prelude GoLib Crypto Domain AuditChain Store Repository SQLText SQLEngine SQLTime SQLScan SQLStore.

Section Outbox.
Context `{SQLDriver} `{GoUnicode}.
#[local] Notation RowsAffected := affectedRows.

Definition CreateOutboxMessage (message : OutboxMessage) : SQLM unit :=
  do* ExecContext "
INSERT INTO outbox_messages (
	id, type, payload_json, status, available_at, processing_deadline_at, attempt_count, max_attempts, last_error, created_at, updated_at
) VALUES (
	$1, $2, $3, $4, $5, $6, $7, $8, $9, $10, $11
)"
    [VText (OutboxMessage_ID message);
     VText (OutboxMessage_Type message);
     VText (OutboxMessage_PayloadJSON message);
     VText (OutboxMessage_Status message);
     VText (formatSQLTime (OutboxMessage_AvailableAt message));
     formatNullableSQLTime (OutboxMessage_ProcessingDeadlineAt message);
     VInt (OutboxMessage_AttemptCount message);
     VInt (OutboxMessage_MaxAttempts message);
     VText (OutboxMessage_LastError message);
     VText (formatSQLTime (OutboxMessage_CreatedAt message));
     VText (formatSQLTime (OutboxMessage_UpdatedAt message))] in
  retM tt.

Definition GetOutboxMessage (id : string) : SQLM OutboxMessage :=
  notFound ErrOutboxMessageNotFound (let* row := QueryRowContext "
SELECT id, type, payload_json, status, available_at, processing_deadline_at, attempt_count, max_attempts, last_error, created_at, updated_at
FROM outbox_messages
WHERE id = $1"
    [VText id] in
  liftM (scanOutboxMessage row)).

Definition ListOutboxMessages (status : OutboxMessageStatus) : SQLM (list OutboxMessage) :=
  let query := "
SELECT id, type, payload_json, status, available_at, processing_deadline_at, attempt_count, max_attempts, last_error, created_at, updated_at
FROM outbox_messages" in
  let '(query, args) := if status <>s "" then (query +:+ " WHERE status = $1", [VText status]) else (query, []) in
  let query := query +:+ " ORDER BY created_at, id" in
  let* rows := QueryContext query args in
  liftM (scan_rows scanOutboxMessage rows).

Definition ListOutboxMessagesQuery (query : OutboxMessageQuery) : SQLM (list OutboxMessage) :=
  let sqlQuery := "SELECT id, type, payload_json, status, available_at, processing_deadline_at, attempt_count, max_attempts, last_error, created_at, updated_at
FROM outbox_messages" in
  let '(args, conditions) := if omq_Status query <>s ""
    then addSQLStringCondition [] [] "status" (omq_Status query) else ([], []) in
  let '(args, conditions) := addSQLStringCondition args conditions "type" (omq_Type query) in
  let '(args, conditions) := addSQLTimeCondition args conditions "created_at" ">=" (omq_CreatedFrom query) in
  let '(args, conditions) := addSQLTimeCondition args conditions "created_at" "<=" (omq_CreatedTo query) in
  let sqlQuery := appendSQLWhere sqlQuery conditions in
  let sqlQuery := appendSQLSort sqlQuery (omq_Sort query) "created_at" "id" in
  let '(sqlQuery, args) := appendSQLLimitOffset sqlQuery args (omq_Limit query) (omq_Offset query) in
  let* rows := QueryContext sqlQuery args in
  liftM (scan_rows scanOutboxMessage rows).

Definition ListDueOutboxMessages (now : Time) (limit : Z) : SQLM (list OutboxMessage) :=
  if Z.leb limit 0 then retM []
  else
    let* rows := QueryContext "
SELECT id, type, payload_json, status, available_at, processing_deadline_at, attempt_count, max_attempts, last_error, created_at, updated_at
FROM outbox_messages
WHERE (status = $1 AND available_at <= $3)
	OR (status = $2 AND processing_deadline_at IS NOT NULL AND processing_deadline_at <= $3)
ORDER BY CASE WHEN status = $1 THEN available_at ELSE processing_deadline_at END, created_at, id
LIMIT $4" [VText OutboxPending; VText OutboxProcessing; VText (formatSQLTime now); VInt limit] in
    liftM (scan_rows scanOutboxMessage rows).

Definition UpdateOutboxMessageStatusIfStatus (message : OutboxMessage) (currentStatus : OutboxMessageStatus) : SQLM unit :=
  let* result := ExecContext "
UPDATE outbox_messages
SET type = $1,
	payload_json = $2,
	status = $3,
	available_at = $4,
	processing_deadline_at = $5,
	attempt_count = $6,
	max_attempts = $7,
	last_error = $8,
	created_at = $9,
	updated_at = $10
WHERE id = $11 AND status = $12"
    [VText (OutboxMessage_Type message);
     VText (OutboxMessage_PayloadJSON message);
     VText (OutboxMessage_Status message);
     VText (formatSQLTime (OutboxMessage_AvailableAt message));
     formatNullableSQLTime (OutboxMessage_ProcessingDeadlineAt message);
     VInt (OutboxMessage_AttemptCount message);
     VInt (OutboxMessage_MaxAttempts message);
     VText (OutboxMessage_LastError message);
     VText (formatSQLTime (OutboxMessage_CreatedAt message));
     VText (formatSQLTime (OutboxMessage_UpdatedAt message));
     VText (OutboxMessage_ID message);
     VText currentStatus] in
  let* rowsAffected := RowsAffected result in
  if negb (Z.eqb rowsAffected 0) then retM tt
  else do* notFound ErrOutboxMessageNotFound (let* row := QueryRowContext "
SELECT id, type, payload_json, status, available_at, processing_deadline_at, attempt_count, max_attempts, last_error, created_at, updated_at
FROM outbox_messages
WHERE id = $1"
      [VText (OutboxMessage_ID message)] in liftM (scanOutboxMessage row)) in
    failM ErrInvalidTransition.

Definition UpdateOutboxMessageIfCurrent (message : OutboxMessage) (current : OutboxMessage) : SQLM unit :=
  let* result := ExecContext "
UPDATE outbox_messages
SET type = $1,
	payload_json = $2,
	status = $3,
	available_at = $4,
	processing_deadline_at = $5,
	attempt_count = $6,
	max_attempts = $7,
	last_error = $8,
	created_at = $9,
	updated_at = $10
WHERE id = $11
	AND status = $12
	AND updated_at = $13
	AND ((processing_deadline_at IS NULL AND $14 IS NULL) OR processing_deadline_at = $14)"
    [VText (OutboxMessage_Type message);
     VText (OutboxMessage_PayloadJSON message);
     VText (OutboxMessage_Status message);
     VText (formatSQLTime (OutboxMessage_AvailableAt message));
     formatNullableSQLTime (OutboxMessage_ProcessingDeadlineAt message);
     VInt (OutboxMessage_AttemptCount message);
     VInt (OutboxMessage_MaxAttempts message);
     VText (OutboxMessage_LastError message);
     VText (formatSQLTime (OutboxMessage_CreatedAt message));
     VText (formatSQLTime (OutboxMessage_UpdatedAt message));
     VText (OutboxMessage_ID message);
     VText (OutboxMessage_Status current);
     VText (formatSQLTime (OutboxMessage_UpdatedAt current));
     formatNullableSQLTime (OutboxMessage_ProcessingDeadlineAt current)] in
  let* rowsAffected := RowsAffected result in
  if negb (Z.eqb rowsAffected 0) then retM tt
  else do* notFound ErrOutboxMessageNotFound (let* row := QueryRowContext "
SELECT id, type, payload_json, status, available_at, processing_deadline_at, attempt_count, max_attempts, last_error, created_at, updated_at
FROM outbox_messages
WHERE id = $1"
      [VText (OutboxMessage_ID message)] in liftM (scanOutboxMessage row)) in
    failM ErrInvalidTransition.

Definition CreateJobAttempt (attempt : JobAttempt) : SQLM unit :=
  do* ExecContext "
INSERT INTO job_attempts (
	id, outbox_message_id, status, error, started_at, finished_at, created_at
) VALUES (
	$1, $2, $3, $4, $5, $6, $7
)"
    [VText (JobAttempt_ID attempt);
     VText (JobAttempt_OutboxMessageID attempt);
     VText (JobAttempt_Status attempt);
     VText (JobAttempt_Error attempt);
     VText (formatSQLTime (JobAttempt_StartedAt attempt));
     VText (formatSQLTime (JobAttempt_FinishedAt attempt));
     VText (formatSQLTime (JobAttempt_CreatedAt attempt))] in
  retM tt.

Definition ListJobAttemptsByOutboxMessage (outboxMessageID : string) : SQLM (list JobAttempt) :=
  let* rows := QueryContext "
SELECT id, outbox_message_id, status, error, started_at, finished_at, created_at
FROM job_attempts
WHERE outbox_message_id = $1
ORDER BY created_at, id"
    [VText outboxMessageID] in
  liftM (scan_rows scanJobAttempt rows).

Definition GetWebhookDelivery (outboxMessageID : string) (endpointID : string) : SQLM WebhookDelivery :=
  notFound ErrWebhookDeliveryNotFound (let* row := QueryRowContext "
SELECT outbox_message_id, endpoint_id, status, attempt_count, last_error, last_attempted_at, created_at, updated_at
FROM webhook_deliveries
WHERE outbox_message_id = $1 AND endpoint_id = $2"
    [VText outboxMessageID;
     VText endpointID] in
  liftM (scanWebhookDelivery row)).

Definition UpsertWebhookDelivery (delivery : WebhookDelivery) : SQLM unit :=
  do* ExecContext "
INSERT INTO webhook_deliveries (
	outbox_message_id, endpoint_id, status, attempt_count, last_error, last_attempted_at, created_at, updated_at
) VALUES (
	$1, $2, $3, $4, $5, $6, $7, $8
)
ON CONFLICT (outbox_message_id, endpoint_id) DO UPDATE SET
	status = excluded.status,
	attempt_count = excluded.attempt_count,
	last_error = excluded.last_error,
	last_attempted_at = excluded.last_attempted_at,
	updated_at = excluded.updated_at"
    [VText (WebhookDelivery_OutboxMessageID delivery);
     VText (WebhookDelivery_EndpointID delivery);
     VText (WebhookDelivery_Status delivery);
     VInt (WebhookDelivery_AttemptCount delivery);
     VText (WebhookDelivery_LastError delivery);
     VText (formatSQLTime (WebhookDelivery_LastAttemptedAt delivery));
     VText (formatSQLTime (WebhookDelivery_CreatedAt delivery));
     VText (formatSQLTime (WebhookDelivery_UpdatedAt delivery))] in
  retM tt.

End Outbox.
