(* ===== verification/SQLStoreAudit.v ===== *)
(** * The SQL repository: audit events ([store/sqlstore_audit.go])

    Every append and every prune verifies the whole chain against the stored
    head and checkpoint first and the changed chain afterwards. The update of
    [audit_chain_state] that opens them takes the write lock of the database. *)

From S2P Require Import Prelude GoLib Crypto Domain AuditChain Store Repository SQLText SQLEngine SQLTime SQLScan SQLStore.

Section Audit.
Context `{SQLDriver} `{GoUnicode} `{GoCodec}.

Definition listAuditEventsBySequence : SQLM (list AuditEvent) :=
  let* rows := QueryContext "
SELECT id, sequence, actor, action, resource_type, resource_id, metadata_json,
	hash_algorithm, previous_event_hash, event_hash, created_at
FROM audit_events
ORDER BY sequence" [] in
  liftM (scan_rows scanAuditEvent rows).

Definition stateMissing : goerr := EWrap "state_missing" ErrAuditIntegrity.

Definition scanAuditChainState (row : Row) : res auditChainState :=
  match row with
  | [v1; v2; v3; v4; v5; v6] =>
      let! x1 := scanString v1 in
      let! x2 := scanInt v2 in
      let! x3 := scanString v3 in
      let! x4 := scanInt v4 in
      let! x5 := scanString v5 in
      let! updatedAt := parseSQLTime v6 in
      Ok (mkAuditChainState x1 x2 x3 x4 x5 updatedAt)
  | _ => Err scanCount
  end.
Definition readAuditChainState : SQLM auditChainState :=
  let* r := catchM (QueryRowContext "
SELECT hash_algorithm, latest_sequence, latest_event_hash,
	checkpoint_sequence, checkpoint_event_hash, updated_at
FROM audit_chain_state
WHERE singleton_id = 1" []) in
  match r with
  | Err e => failM (if is_no_rows e then stateMissing else e)
  | Ok row => liftM (scanAuditChainState row)
  end.

Definition lockAuditChain : SQLM unit := λ c,
  match ExecContext "
UPDATE audit_chain_state
SET updated_at = updated_at
WHERE singleton_id = 1" [] c with
  | (Ok _, c') => (Ok tt, c')
  | (Err e, c') => (Err (EWrap "lock audit chain state" e), c')
  end.

Definition updateAuditChainState (state : auditChainState) : SQLM unit :=
  let* result := ExecContext "
UPDATE audit_chain_state
SET hash_algorithm = $1,
	latest_sequence = $2,
	latest_event_hash = $3,
	checkpoint_sequence = $4,
	checkpoint_event_hash = $5,
	updated_at = $6
WHERE singleton_id = 1"
    [VText (acs_HashAlgorithm state); VInt (acs_LatestSequence state); VText (acs_LatestEventHash state);
     VInt (acs_CheckpointSequence state); VText (acs_CheckpointEventHash state); VText (formatSQLTime (acs_UpdatedAt state))] in
  let* rows := affectedRows result in
  if negb (Z.eqb rows 1) then failM stateMissing else retM tt.

Definition lockAndVerifyAuditChain : SQLM (auditChainState * list AuditEvent * AuditIntegrity) :=
  do* lockAuditChain in
  let* state := readAuditChainState in
  let* events := listAuditEventsBySequence in
  let report := verifyAuditState events state in
  match auditIntegrityError report with
  | Some err => failM err
  | None => retM (state, events, report)
  end.

(** [time.Now()]. *)
Definition sqlNow : SQLM Time := λ c, (Ok (sql_now (sc_tick c)), mkSQLConn (sc_db c) (S (sc_tick c))).

Definition CreateAuditEvent (event : AuditEvent) : SQLM unit :=
  let* chain := lockAndVerifyAuditChain in
  let '(state, events, report) := chain in
  let* prepared := liftM (withAuditEventHash (wrap64 (AuditIntegrity_LastSequence report + 1)) (AuditIntegrity_LastEventHash report) event) in
  do* ExecContext "
INSERT INTO audit_events (
	id, sequence, actor, action, resource_type, resource_id, metadata_json,
	hash_algorithm, previous_event_hash, event_hash, created_at
) VALUES (
	$1, $2, $3, $4, $5, $6, $7, $8, $9, $10, $11
)"
    [VText (AuditEvent_ID prepared); VInt (AuditEvent_Sequence prepared); VText (AuditEvent_Actor prepared);
     VText (AuditEvent_Action prepared); VText (AuditEvent_ResourceType prepared); VText (AuditEvent_ResourceID prepared);
     VText (AuditEvent_MetadataJSON prepared); VText (AuditEvent_HashAlgorithm prepared);
     VText (AuditEvent_PreviousEventHash prepared); VText (AuditEvent_EventHash prepared);
     VText (formatSQLTime (AuditEvent_CreatedAt prepared))] in
  let* now := sqlNow in
  let state := mkAuditChainState (acs_HashAlgorithm state) (AuditEvent_Sequence prepared) (AuditEvent_EventHash prepared)
    (acs_CheckpointSequence state) (acs_CheckpointEventHash state) now in
  do* updateAuditChainState state in
  match auditIntegrityError (verifyAuditState (events ++ [prepared]) state) with
  | Some err => failM err
  | None => retM tt
  end.

Definition ListAuditEvents : SQLM (list AuditEvent) := listAuditEventsBySequence.

Definition ListAuditEventsQuery (query : AuditEventQuery) : SQLM (list AuditEvent) :=
  let sqlQuery := "SELECT id, sequence, actor, action, resource_type, resource_id, metadata_json,
	hash_algorithm, previous_event_hash, event_hash, created_at
FROM audit_events" in
  let '(args, conditions) := addSQLStringCondition [] [] "actor" (aeq_Actor query) in
  let '(args, conditions) := addSQLStringCondition args conditions "action" (aeq_Action query) in
  let '(args, conditions) := addSQLStringCondition args conditions "resource_type" (aeq_ResourceType query) in
  let '(args, conditions) := addSQLStringCondition args conditions "resource_id" (aeq_ResourceID query) in
  let '(args, conditions) := addSQLTimeCondition args conditions "created_at" ">=" (aeq_CreatedFrom query) in
  let '(args, conditions) := addSQLTimeCondition args conditions "created_at" "<=" (aeq_CreatedTo query) in
  let sqlQuery := appendSQLWhere sqlQuery conditions in
  let sqlQuery := appendSQLSort sqlQuery (aeq_Sort query) "created_at" "id" in
  let '(sqlQuery, args) := appendSQLLimitOffset sqlQuery args (aeq_Limit query) (aeq_Offset query) in
  let* rows := QueryContext sqlQuery args in
  liftM (scan_rows scanAuditEvent rows).

Definition VerifyAuditChain : SQLM AuditIntegrity :=
  do* lockAuditChain in
  let* state := readAuditChainState in
  let* events := listAuditEventsBySequence in
  retM (verifyAuditState events state).

Definition DeleteAuditEventsBefore (before : Time) : SQLM Z :=
  let* chain := lockAndVerifyAuditChain in
  let '(state, events, _) := chain in
  match auditRetentionPrefixLength events before with
  | None => failM (EWrap "retention_cutoff_non_prefix" ErrAuditIntegrity)
  | Some O => retM 0%Z
  | Some (S n as deleteCount) =>
      match events !! n with
      | None => failM (EPanic "index out of range")
      | Some lastDeleted =>
          let* result := ExecContext "
DELETE FROM audit_events
WHERE sequence <= $1" [VInt (AuditEvent_Sequence lastDeleted)] in
          let* rows := affectedRows result in
          if negb (Z.eqb rows (Z.of_nat deleteCount)) then failM (EWrap "prune_row_count_mismatch" ErrAuditIntegrity)
          else
            let* now := sqlNow in
            let state := mkAuditChainState (acs_HashAlgorithm state) (acs_LatestSequence state) (acs_LatestEventHash state)
              (AuditEvent_Sequence lastDeleted) (AuditEvent_EventHash lastDeleted) now in
            do* updateAuditChainState state in
            match auditIntegrityError (verifyAuditState (drop deleteCount events) state) with
            | Some err => failM err
            | None => retM (Z.of_nat deleteCount)
            end
      end
  end.
End Audit.
