(* ===== verification/Repositories.v ===== *)
(** * The implementations of the repository interface

    [Repository] is what the service is written against. The in-memory store
    implements it twice in [store/memory.go]: as [MemoryStore], whose methods
    take the lock, and as [memoryTx], the copy a transaction works on; the method
    bodies are the same operations of [Store]. [SQLStore] hands each method to
    [sqlRepository] on the connection. The implementations of [WithinTx] differ:
    a store opens a transaction, a transaction runs the function in itself. *)

From S2P Require Import Prelude GoLib Crypto Domain AuditChain Store Repository SQLText SQLEngine SQLTime GoJSON SQLScan SQLStore SQLStoreCertificate SQLStoreACME SQLStoreOutbox SQLStoreAudit.

(** ** In memory *)

Section Memory.
Context `{GoCodec}.

Definition memoryTx_Identity : IdentityRepository Mem := {|
  repo_CreateIdentity := Store.CreateIdentity;
  repo_GetIdentity := Store.GetIdentity;
  repo_ListIdentities := Store.ListIdentities;
|}.
Definition memoryTx_Issuer : IssuerRepository Mem := {|
  repo_CreateIssuer := Store.CreateIssuer;
  repo_GetIssuer := Store.GetIssuer;
  repo_ListIssuers := Store.ListIssuers;
|}.
Definition memoryTx_OCSPResponder : OCSPResponderRepository Mem := {|
  repo_CreateOCSPResponder := Store.CreateOCSPResponder;
  repo_GetOCSPResponder := Store.GetOCSPResponder;
  repo_ListOCSPRespondersByIssuer := Store.ListOCSPRespondersByIssuer;
  repo_GetActiveOCSPResponderByIssuer := Store.GetActiveOCSPResponderByIssuer;
  repo_UpdateOCSPResponderIfStatus := Store.UpdateOCSPResponderIfStatus;
|}.
Definition memoryTx_NotificationEndpoint : NotificationEndpointRepository Mem := {|
  repo_CreateNotificationEndpoint := Store.CreateNotificationEndpoint;
  repo_GetNotificationEndpoint := Store.GetNotificationEndpoint;
  repo_ListNotificationEndpoints := Store.ListNotificationEndpoints;
  repo_UpdateNotificationEndpointIfStatus := Store.UpdateNotificationEndpointIfStatus;
|}.
Definition memoryTx_CertificateProfile : CertificateProfileRepository Mem := {|
  repo_CreateCertificateProfile := Store.CreateCertificateProfile;
  repo_GetCertificateProfile := Store.GetCertificateProfile;
  repo_ListCertificateProfiles := Store.ListCertificateProfiles;
  repo_UpdateCertificateProfileIssuerIfCurrent := Store.UpdateCertificateProfileIssuerIfCurrent;
|}.
Definition memoryTx_Enrollment : EnrollmentRepository Mem := {|
  repo_CreateEnrollment := Store.CreateEnrollment;
  repo_GetEnrollment := Store.GetEnrollment;
  repo_ListEnrollments := Store.ListEnrollments;
  repo_UpdateEnrollment := Store.UpdateEnrollment;
  repo_UpdateEnrollmentIfStatus := Store.UpdateEnrollmentIfStatus;
|}.
Definition memoryTx_Certificate : CertificateRepository Mem := {|
  repo_CreateCertificate := Store.CreateCertificate;
  repo_GetCertificate := Store.GetCertificate;
  repo_GetCertificateByEnrollmentID := Store.GetCertificateByEnrollmentID;
  repo_ListCertificates := Store.ListCertificates;
  repo_ListCertificateInventory := Store.ListCertificateInventory;
  repo_ListCertificatesExpiringWithin := Store.ListCertificatesExpiringWithin;
  repo_ListCertificatesForExpirationScan := Store.ListCertificatesForExpirationScan;
  repo_UpdateCertificate := Store.UpdateCertificate;
  repo_UpdateCertificateIfStatus := Store.UpdateCertificateIfStatus;
|}.
Definition memoryTx_IssuanceAttempt : IssuanceAttemptRepository Mem := {|
  repo_CreateIssuanceAttempt := Store.CreateIssuanceAttempt;
  repo_GetIssuanceAttempt := Store.GetIssuanceAttempt;
  repo_UpdateIssuanceAttemptIfCurrent := Store.UpdateIssuanceAttemptIfCurrent;
|}.
Definition memoryTx_Revocation : RevocationRepository Mem := {|
  repo_CreateRevocation := Store.CreateRevocation;
  repo_ListRevocationsByIssuer := Store.ListRevocationsByIssuer;
|}.
Definition memoryTx_CRLPublication : CRLPublicationRepository Mem := {|
  repo_CreateCRLPublication := Store.CreateCRLPublication;
  repo_GetCRLPublication := Store.GetCRLPublication;
  repo_GetLatestCRLPublicationByIssuer := Store.GetLatestCRLPublicationByIssuer;
  repo_ListCRLPublicationsByIssuer := Store.ListCRLPublicationsByIssuer;
  repo_CreateCRLGenerationClaim := Store.CreateCRLGenerationClaim;
  repo_GetCRLGenerationClaim := Store.GetCRLGenerationClaim;
  repo_UpdateCRLGenerationClaimIfCurrent := Store.UpdateCRLGenerationClaimIfCurrent;
  repo_DeleteCRLGenerationClaimIfCurrent := Store.DeleteCRLGenerationClaimIfCurrent;
|}.
Definition memoryTx_Audit : AuditRepository Mem := {|
  repo_CreateAuditEvent := Store.CreateAuditEvent;
  repo_ListAuditEvents := Store.ListAuditEvents;
  repo_ListAuditEventsQuery := Store.ListAuditEventsQuery;
  repo_VerifyAuditChain := Store.VerifyAuditChain;
  repo_DeleteAuditEventsBefore := λ before, let* n := Store.DeleteAuditEventsBefore before in retM (Z.of_nat n);
|}.
Definition memoryTx_Outbox : OutboxRepository Mem := {|
  repo_CreateOutboxMessage := Store.CreateOutboxMessage;
  repo_GetOutboxMessage := Store.GetOutboxMessage;
  repo_ListOutboxMessages := Store.ListOutboxMessages;
  repo_ListDueOutboxMessages := Store.ListDueOutboxMessages;
  repo_UpdateOutboxMessageStatusIfStatus := Store.UpdateOutboxMessageStatusIfStatus;
  repo_UpdateOutboxMessageIfCurrent := Store.UpdateOutboxMessageIfCurrent;
  repo_CreateJobAttempt := Store.CreateJobAttempt;
  repo_ListJobAttemptsByOutboxMessage := Store.ListJobAttemptsByOutboxMessage;
  repo_GetWebhookDelivery := Store.GetWebhookDelivery;
  repo_UpsertWebhookDelivery := Store.UpsertWebhookDelivery;
|}.
Definition memoryTx_APIKey : APIKeyRepository Mem := {|
  repo_CreateAPIKey := Store.CreateAPIKey;
  repo_GetAPIKey := Store.GetAPIKey;
  repo_GetAPIKeyByTokenHash := Store.GetAPIKeyByTokenHash;
  repo_ListAPIKeys := Store.ListAPIKeys;
  repo_UpdateAPIKeyIfStatus := Store.UpdateAPIKeyIfStatus;
|}.
Definition memoryTx_ACME : ACMERepository Mem := {|
  repo_CreateACMEAccount := Store.CreateACMEAccount;
  repo_GetACMEAccount := Store.GetACMEAccount;
  repo_ListACMEAccounts := Store.ListACMEAccounts;
  repo_UpdateACMEAccountIfStatus := Store.UpdateACMEAccountIfStatus;
  repo_CreateACMEOrder := Store.CreateACMEOrder;
  repo_GetACMEOrder := Store.GetACMEOrder;
  repo_ListACMEOrdersByAccount := Store.ListACMEOrdersByAccount;
  repo_UpdateACMEOrderIfStatus := Store.UpdateACMEOrderIfStatus;
  repo_CreateACMEAuthorization := Store.CreateACMEAuthorization;
  repo_GetACMEAuthorization := Store.GetACMEAuthorization;
  repo_ListACMEAuthorizationsByOrder := Store.ListACMEAuthorizationsByOrder;
  repo_UpdateACMEAuthorizationIfStatus := Store.UpdateACMEAuthorizationIfStatus;
  repo_CreateACMEChallenge := Store.CreateACMEChallenge;
  repo_GetACMEChallenge := Store.GetACMEChallenge;
  repo_ListACMEChallengesByAuthorization := Store.ListACMEChallengesByAuthorization;
  repo_UpdateACMEChallengeIfStatus := Store.UpdateACMEChallengeIfStatus;
|}.

(** [MemoryStore.WithinTx]: the function works on a copy of every map, and the
    copy replaces the store when it succeeds. *)
Definition MemoryStore_WithinTx {A} (fn : Mem A) : Mem A := λ s,
  match fn s with
  | (Ok a, tx) => (Ok a, tx)
  | (Err e, _) => (Err e, s)
  end.

Definition memoryTx_repository : Repository Mem := {|
  IdentityRepository_of := memoryTx_Identity;
  IssuerRepository_of := memoryTx_Issuer;
  OCSPResponderRepository_of := memoryTx_OCSPResponder;
  NotificationEndpointRepository_of := memoryTx_NotificationEndpoint;
  CertificateProfileRepository_of := memoryTx_CertificateProfile;
  EnrollmentRepository_of := memoryTx_Enrollment;
  CertificateRepository_of := memoryTx_Certificate;
  IssuanceAttemptRepository_of := memoryTx_IssuanceAttempt;
  RevocationRepository_of := memoryTx_Revocation;
  CRLPublicationRepository_of := memoryTx_CRLPublication;
  AuditRepository_of := memoryTx_Audit;
  OutboxRepository_of := memoryTx_Outbox;
  APIKeyRepository_of := memoryTx_APIKey;
  ACMERepository_of := memoryTx_ACME;
  repo_WithinTx := λ A fn, fn;
|}.
Definition MemoryStore_repository : Repository Mem := {|
  IdentityRepository_of := memoryTx_Identity;
  IssuerRepository_of := memoryTx_Issuer;
  OCSPResponderRepository_of := memoryTx_OCSPResponder;
  NotificationEndpointRepository_of := memoryTx_NotificationEndpoint;
  CertificateProfileRepository_of := memoryTx_CertificateProfile;
  EnrollmentRepository_of := memoryTx_Enrollment;
  CertificateRepository_of := memoryTx_Certificate;
  IssuanceAttemptRepository_of := memoryTx_IssuanceAttempt;
  RevocationRepository_of := memoryTx_Revocation;
  CRLPublicationRepository_of := memoryTx_CRLPublication;
  AuditRepository_of := memoryTx_Audit;
  OutboxRepository_of := memoryTx_Outbox;
  APIKeyRepository_of := memoryTx_APIKey;
  ACMERepository_of := memoryTx_ACME;
  repo_WithinTx := @MemoryStore_WithinTx;
|}.
End Memory.

(** ** In a database *)

Section Database.
Context `{GoCodec} `{SQLDriver} `{GoUnicode}.

(** A transaction appends to the audit chain, verifies and prunes it; the store
    opens one for each of the three. *)
Definition sqlRepository_Audit : AuditRepository SQLM := {|
  repo_CreateAuditEvent := SQLStoreAudit.CreateAuditEvent;
  repo_ListAuditEvents := SQLStoreAudit.ListAuditEvents;
  repo_ListAuditEventsQuery := SQLStoreAudit.ListAuditEventsQuery;
  repo_VerifyAuditChain := SQLStoreAudit.VerifyAuditChain;
  repo_DeleteAuditEventsBefore := SQLStoreAudit.DeleteAuditEventsBefore;
|}.

Definition SQLStore_Identity : IdentityRepository SQLM := {|
  repo_CreateIdentity := SQLStore.CreateIdentity;
  repo_GetIdentity := SQLStore.GetIdentity;
  repo_ListIdentities := SQLStore.ListIdentities;
|}.
Definition SQLStore_Issuer : IssuerRepository SQLM := {|
  repo_CreateIssuer := SQLStore.CreateIssuer;
  repo_GetIssuer := SQLStore.GetIssuer;
  repo_ListIssuers := SQLStore.ListIssuers;
|}.
Definition SQLStore_OCSPResponder : OCSPResponderRepository SQLM := {|
  repo_CreateOCSPResponder := SQLStore.CreateOCSPResponder;
  repo_GetOCSPResponder := SQLStore.GetOCSPResponder;
  repo_ListOCSPRespondersByIssuer := SQLStore.ListOCSPRespondersByIssuer;
  repo_GetActiveOCSPResponderByIssuer := SQLStore.GetActiveOCSPResponderByIssuer;
  repo_UpdateOCSPResponderIfStatus := SQLStore.UpdateOCSPResponderIfStatus;
|}.
Definition SQLStore_NotificationEndpoint : NotificationEndpointRepository SQLM := {|
  repo_CreateNotificationEndpoint := SQLStore.CreateNotificationEndpoint;
  repo_GetNotificationEndpoint := SQLStore.GetNotificationEndpoint;
  repo_ListNotificationEndpoints := SQLStore.ListNotificationEndpoints;
  repo_UpdateNotificationEndpointIfStatus := SQLStore.UpdateNotificationEndpointIfStatus;
|}.
Definition SQLStore_CertificateProfile : CertificateProfileRepository SQLM := {|
  repo_CreateCertificateProfile := SQLStoreCertificate.CreateCertificateProfile;
  repo_GetCertificateProfile := SQLStoreCertificate.GetCertificateProfile;
  repo_ListCertificateProfiles := SQLStoreCertificate.ListCertificateProfiles;
  repo_UpdateCertificateProfileIssuerIfCurrent := SQLStoreCertificate.UpdateCertificateProfileIssuerIfCurrent;
|}.
Definition SQLStore_Enrollment : EnrollmentRepository SQLM := {|
  repo_CreateEnrollment := SQLStoreCertificate.CreateEnrollment;
  repo_GetEnrollment := SQLStoreCertificate.GetEnrollment;
  repo_ListEnrollments := SQLStoreCertificate.ListEnrollments;
  repo_UpdateEnrollment := SQLStoreCertificate.UpdateEnrollment;
  repo_UpdateEnrollmentIfStatus := SQLStoreCertificate.UpdateEnrollmentIfStatus;
|}.
Definition SQLStore_Certificate : CertificateRepository SQLM := {|
  repo_CreateCertificate := SQLStoreCertificate.CreateCertificate;
  repo_GetCertificate := SQLStoreCertificate.GetCertificate;
  repo_GetCertificateByEnrollmentID := SQLStoreCertificate.GetCertificateByEnrollmentID;
  repo_ListCertificates := SQLStoreCertificate.ListCertificates;
  repo_ListCertificateInventory := SQLStoreCertificate.ListCertificateInventory;
  repo_ListCertificatesExpiringWithin := SQLStoreCertificate.ListCertificatesExpiringWithin;
  repo_ListCertificatesForExpirationScan := SQLStoreCertificate.ListCertificatesForExpirationScan;
  repo_UpdateCertificate := SQLStoreCertificate.UpdateCertificate;
  repo_UpdateCertificateIfStatus := SQLStoreCertificate.UpdateCertificateIfStatus;
|}.
Definition SQLStore_IssuanceAttempt : IssuanceAttemptRepository SQLM := {|
  repo_CreateIssuanceAttempt := SQLStoreCertificate.CreateIssuanceAttempt;
  repo_GetIssuanceAttempt := SQLStoreCertificate.GetIssuanceAttempt;
  repo_UpdateIssuanceAttemptIfCurrent := SQLStoreCertificate.UpdateIssuanceAttemptIfCurrent;
|}.
Definition SQLStore_Revocation : RevocationRepository SQLM := {|
  repo_CreateRevocation := SQLStoreCertificate.CreateRevocation;
  repo_ListRevocationsByIssuer := SQLStoreCertificate.ListRevocationsByIssuer;
|}.
Definition SQLStore_CRLPublication : CRLPublicationRepository SQLM := {|
  repo_CreateCRLPublication := SQLStoreCertificate.CreateCRLPublication;
  repo_GetCRLPublication := SQLStoreCertificate.GetCRLPublication;
  repo_GetLatestCRLPublicationByIssuer := SQLStoreCertificate.GetLatestCRLPublicationByIssuer;
  repo_ListCRLPublicationsByIssuer := SQLStoreCertificate.ListCRLPublicationsByIssuer;
  repo_CreateCRLGenerationClaim := SQLStoreCertificate.CreateCRLGenerationClaim;
  repo_GetCRLGenerationClaim := SQLStoreCertificate.GetCRLGenerationClaim;
  repo_UpdateCRLGenerationClaimIfCurrent := SQLStoreCertificate.UpdateCRLGenerationClaimIfCurrent;
  repo_DeleteCRLGenerationClaimIfCurrent := SQLStoreCertificate.DeleteCRLGenerationClaimIfCurrent;
|}.
Definition SQLStore_Audit : AuditRepository SQLM := {|
  repo_CreateAuditEvent := λ x, SQLStore.WithinTx (@repo_CreateAuditEvent _ sqlRepository_Audit x);
  repo_ListAuditEvents := SQLStoreAudit.ListAuditEvents;
  repo_ListAuditEventsQuery := SQLStoreAudit.ListAuditEventsQuery;
  repo_VerifyAuditChain := SQLStore.WithinTx (@repo_VerifyAuditChain _ sqlRepository_Audit);
  repo_DeleteAuditEventsBefore := λ x, SQLStore.WithinTx (@repo_DeleteAuditEventsBefore _ sqlRepository_Audit x);
|}.
Definition SQLStore_Outbox : OutboxRepository SQLM := {|
  repo_CreateOutboxMessage := SQLStoreOutbox.CreateOutboxMessage;
  repo_GetOutboxMessage := SQLStoreOutbox.GetOutboxMessage;
  repo_ListOutboxMessages := SQLStoreOutbox.ListOutboxMessages;
  repo_ListDueOutboxMessages := SQLStoreOutbox.ListDueOutboxMessages;
  repo_UpdateOutboxMessageStatusIfStatus := SQLStoreOutbox.UpdateOutboxMessageStatusIfStatus;
  repo_UpdateOutboxMessageIfCurrent := SQLStoreOutbox.UpdateOutboxMessageIfCurrent;
  repo_CreateJobAttempt := SQLStoreOutbox.CreateJobAttempt;
  repo_ListJobAttemptsByOutboxMessage := SQLStoreOutbox.ListJobAttemptsByOutboxMessage;
  repo_GetWebhookDelivery := SQLStoreOutbox.GetWebhookDelivery;
  repo_UpsertWebhookDelivery := SQLStoreOutbox.UpsertWebhookDelivery;
|}.
Definition SQLStore_APIKey : APIKeyRepository SQLM := {|
  repo_CreateAPIKey := SQLStore.CreateAPIKey;
  repo_GetAPIKey := SQLStore.GetAPIKey;
  repo_GetAPIKeyByTokenHash := SQLStore.GetAPIKeyByTokenHash;
  repo_ListAPIKeys := SQLStore.ListAPIKeys;
  repo_UpdateAPIKeyIfStatus := SQLStore.UpdateAPIKeyIfStatus;
|}.
Definition SQLStore_ACME : ACMERepository SQLM := {|
  repo_CreateACMEAccount := SQLStoreACME.CreateACMEAccount;
  repo_GetACMEAccount := SQLStoreACME.GetACMEAccount;
  repo_ListACMEAccounts := SQLStoreACME.ListACMEAccounts;
  repo_UpdateACMEAccountIfStatus := SQLStoreACME.UpdateACMEAccountIfStatus;
  repo_CreateACMEOrder := SQLStoreACME.CreateACMEOrder;
  repo_GetACMEOrder := SQLStoreACME.GetACMEOrder;
  repo_ListACMEOrdersByAccount := SQLStoreACME.ListACMEOrdersByAccount;
  repo_UpdateACMEOrderIfStatus := SQLStoreACME.UpdateACMEOrderIfStatus;
  repo_CreateACMEAuthorization := SQLStoreACME.CreateACMEAuthorization;
  repo_GetACMEAuthorization := SQLStoreACME.GetACMEAuthorization;
  repo_ListACMEAuthorizationsByOrder := SQLStoreACME.ListACMEAuthorizationsByOrder;
  repo_UpdateACMEAuthorizationIfStatus := SQLStoreACME.UpdateACMEAuthorizationIfStatus;
  repo_CreateACMEChallenge := SQLStoreACME.CreateACMEChallenge;
  repo_GetACMEChallenge := SQLStoreACME.GetACMEChallenge;
  repo_ListACMEChallengesByAuthorization := SQLStoreACME.ListACMEChallengesByAuthorization;
  repo_UpdateACMEChallengeIfStatus := SQLStoreACME.UpdateACMEChallengeIfStatus;
|}.

Definition sqlRepository_repository : Repository SQLM := {|
  IdentityRepository_of := SQLStore_Identity;
  IssuerRepository_of := SQLStore_Issuer;
  OCSPResponderRepository_of := SQLStore_OCSPResponder;
  NotificationEndpointRepository_of := SQLStore_NotificationEndpoint;
  CertificateProfileRepository_of := SQLStore_CertificateProfile;
  EnrollmentRepository_of := SQLStore_Enrollment;
  CertificateRepository_of := SQLStore_Certificate;
  IssuanceAttemptRepository_of := SQLStore_IssuanceAttempt;
  RevocationRepository_of := SQLStore_Revocation;
  CRLPublicationRepository_of := SQLStore_CRLPublication;
  AuditRepository_of := sqlRepository_Audit;
  OutboxRepository_of := SQLStore_Outbox;
  APIKeyRepository_of := SQLStore_APIKey;
  ACMERepository_of := SQLStore_ACME;
  repo_WithinTx := λ A fn, fn;
|}.
Definition SQLStore_repository : Repository SQLM := {|
  IdentityRepository_of := SQLStore_Identity;
  IssuerRepository_of := SQLStore_Issuer;
  OCSPResponderRepository_of := SQLStore_OCSPResponder;
  NotificationEndpointRepository_of := SQLStore_NotificationEndpoint;
  CertificateProfileRepository_of := SQLStore_CertificateProfile;
  EnrollmentRepository_of := SQLStore_Enrollment;
  CertificateRepository_of := SQLStore_Certificate;
  IssuanceAttemptRepository_of := SQLStore_IssuanceAttempt;
  RevocationRepository_of := SQLStore_Revocation;
  CRLPublicationRepository_of := SQLStore_CRLPublication;
  AuditRepository_of := SQLStore_Audit;
  OutboxRepository_of := SQLStore_Outbox;
  APIKeyRepository_of := SQLStore_APIKey;
  ACMERepository_of := SQLStore_ACME;
  repo_WithinTx := @SQLStore.WithinTx _;
|}.
End Database.

(** A method of an implementation, as the operation that implements it. *)
Ltac repo_simpl := cbv beta iota delta [
  repo_CreateIdentity repo_GetIdentity repo_ListIdentities repo_CreateIssuer repo_GetIssuer repo_ListIssuers
  repo_CreateOCSPResponder repo_GetOCSPResponder repo_ListOCSPRespondersByIssuer repo_GetActiveOCSPResponderByIssuer
  repo_UpdateOCSPResponderIfStatus repo_CreateNotificationEndpoint repo_GetNotificationEndpoint
  repo_ListNotificationEndpoints repo_UpdateNotificationEndpointIfStatus repo_CreateCertificateProfile
  repo_GetCertificateProfile repo_ListCertificateProfiles repo_UpdateCertificateProfileIssuerIfCurrent
  repo_CreateEnrollment repo_GetEnrollment repo_ListEnrollments repo_UpdateEnrollment repo_UpdateEnrollmentIfStatus
  repo_CreateCertificate repo_GetCertificate repo_GetCertificateByEnrollmentID repo_ListCertificates
  repo_ListCertificateInventory repo_ListCertificatesExpiringWithin repo_ListCertificatesForExpirationScan
  repo_UpdateCertificate repo_UpdateCertificateIfStatus repo_CreateIssuanceAttempt repo_GetIssuanceAttempt
  repo_UpdateIssuanceAttemptIfCurrent repo_CreateRevocation repo_ListRevocationsByIssuer repo_CreateCRLPublication
  repo_GetCRLPublication repo_GetLatestCRLPublicationByIssuer repo_ListCRLPublicationsByIssuer
  repo_CreateCRLGenerationClaim repo_GetCRLGenerationClaim repo_UpdateCRLGenerationClaimIfCurrent
  repo_DeleteCRLGenerationClaimIfCurrent repo_CreateAuditEvent repo_ListAuditEvents repo_ListAuditEventsQuery
  repo_VerifyAuditChain repo_DeleteAuditEventsBefore repo_CreateOutboxMessage repo_GetOutboxMessage
  repo_ListOutboxMessages repo_ListDueOutboxMessages repo_UpdateOutboxMessageStatusIfStatus
  repo_UpdateOutboxMessageIfCurrent repo_CreateJobAttempt repo_ListJobAttemptsByOutboxMessage repo_GetWebhookDelivery
  repo_UpsertWebhookDelivery repo_CreateAPIKey repo_GetAPIKey repo_GetAPIKeyByTokenHash repo_ListAPIKeys
  repo_UpdateAPIKeyIfStatus repo_CreateACMEAccount repo_GetACMEAccount repo_ListACMEAccounts
  repo_UpdateACMEAccountIfStatus repo_CreateACMEOrder repo_GetACMEOrder repo_ListACMEOrdersByAccount
  repo_UpdateACMEOrderIfStatus repo_CreateACMEAuthorization repo_GetACMEAuthorization repo_ListACMEAuthorizationsByOrder
  repo_UpdateACMEAuthorizationIfStatus repo_CreateACMEChallenge repo_GetACMEChallenge
  repo_ListACMEChallengesByAuthorization repo_UpdateACMEChallengeIfStatus repo_WithinTx IdentityRepository_of
  IssuerRepository_of OCSPResponderRepository_of NotificationEndpointRepository_of CertificateProfileRepository_of
  EnrollmentRepository_of CertificateRepository_of IssuanceAttemptRepository_of RevocationRepository_of
  CRLPublicationRepository_of AuditRepository_of OutboxRepository_of APIKeyRepository_of ACMERepository_of
  memoryTx_Identity memoryTx_Issuer memoryTx_OCSPResponder memoryTx_NotificationEndpoint memoryTx_CertificateProfile
  memoryTx_Enrollment memoryTx_Certificate memoryTx_IssuanceAttempt memoryTx_Revocation memoryTx_CRLPublication
  memoryTx_Audit memoryTx_Outbox memoryTx_APIKey memoryTx_ACME SQLStore_Identity SQLStore_Issuer SQLStore_OCSPResponder
  SQLStore_NotificationEndpoint SQLStore_CertificateProfile SQLStore_Enrollment SQLStore_Certificate
  SQLStore_IssuanceAttempt SQLStore_Revocation SQLStore_CRLPublication SQLStore_Audit SQLStore_Outbox SQLStore_APIKey
  SQLStore_ACME sqlRepository_Audit memoryTx_repository MemoryStore_repository sqlRepository_repository
  SQLStore_repository].
