(* ===== verification/Migrations.v ===== *)
(** * Migrations ([store/migrate.go], [store/migrations/])

    The schema of the SQL store: the two embedded migrations, the compatibility
    statements that bring older databases up to date, the version table, and
    the backfill of the audit chain. A migration runs in one transaction. The
    statements of both drivers are here; the engine that runs them follows
    SQLite. *)

From S2P Require Import Prelude GoLib Crypto Domain AuditChain Store Repository SQLText SQLEngine SQLTime SQLScan SQLStore SQLStoreAudit.

(** ** Embedded files *)

Definition init_sqlite_sql : string := "CREATE TABLE IF NOT EXISTS identities (
    id TEXT PRIMARY KEY,
    type TEXT NOT NULL,
    name TEXT NOT NULL,
    external_id TEXT NOT NULL,
    owner TEXT NOT NULL,
    team TEXT NOT NULL,
    service TEXT NOT NULL,
    environment TEXT NOT NULL,
    deployment_target TEXT NOT NULL,
    last_seen_at TEXT,
    metadata_json TEXT NOT NULL,
    allowed_dns_names TEXT NOT NULL,
    allowed_ip_addresses TEXT NOT NULL,
    status TEXT NOT NULL,
    created_at TEXT NOT NULL,
    updated_at TEXT NOT NULL
);

CREATE INDEX IF NOT EXISTS idx_identities_inventory_fields
    ON identities(owner, team, service, environment, deployment_target, id);

CREATE TABLE IF NOT EXISTS issuers (
    id TEXT PRIMARY KEY,
    name TEXT NOT NULL,
    kind TEXT NOT NULL,
    status TEXT NOT NULL,
    parent_issuer_id TEXT NOT NULL,
    certificate_pem TEXT NOT NULL,
    key_ref TEXT NOT NULL,
    aia_url TEXT NOT NULL,
    crl_distribution_points TEXT NOT NULL,
    trust_anchor INTEGER NOT NULL,
    created_at TEXT NOT NULL,
    updated_at TEXT NOT NULL
);

CREATE TABLE IF NOT EXISTS ocsp_responders (
    id TEXT PRIMARY KEY,
    issuer_id TEXT NOT NULL REFERENCES issuers(id),
    name TEXT NOT NULL,
    status TEXT NOT NULL,
    certificate_pem TEXT NOT NULL,
    key_ref TEXT NOT NULL,
    created_at TEXT NOT NULL,
    updated_at TEXT NOT NULL
);

CREATE INDEX IF NOT EXISTS idx_ocsp_responders_issuer_active
    ON ocsp_responders(issuer_id, status, created_at, id);

CREATE UNIQUE INDEX IF NOT EXISTS idx_ocsp_responders_single_active
    ON ocsp_responders(issuer_id)
    WHERE status = 'active';

CREATE TABLE IF NOT EXISTS notification_endpoints (
    id TEXT PRIMARY KEY,
    name TEXT NOT NULL,
    type TEXT NOT NULL,
    status TEXT NOT NULL,
    url TEXT NOT NULL,
    secret TEXT NOT NULL,
    event_types TEXT NOT NULL,
    created_at TEXT NOT NULL,
    updated_at TEXT NOT NULL
);

CREATE INDEX IF NOT EXISTS idx_notification_endpoints_status
    ON notification_endpoints(status, created_at, id);

CREATE TABLE IF NOT EXISTS certificate_profiles (
    id TEXT PRIMARY KEY,
    name TEXT NOT NULL,
    description TEXT NOT NULL,
    issuer_id TEXT NOT NULL REFERENCES issuers(id),
    validity_period_seconds INTEGER NOT NULL,
    subject_template TEXT NOT NULL,
    allowed_dns_patterns TEXT NOT NULL,
    allowed_ip_ranges TEXT NOT NULL,
    allowed_key_algorithms TEXT NOT NULL,
    min_key_size_bits INTEGER NOT NULL,
    allowed_signature_algorithms TEXT NOT NULL,
    key_usage TEXT NOT NULL,
    extended_key_usage TEXT NOT NULL,
    basic_constraints TEXT NOT NULL,
    subject_key_identifier INTEGER NOT NULL,
    authority_key_identifier INTEGER NOT NULL,
    public_tls INTEGER NOT NULL,
    created_at TEXT NOT NULL,
    updated_at TEXT NOT NULL
);

CREATE TABLE IF NOT EXISTS enrollments (
    id TEXT PRIMARY KEY,
    identity_id TEXT NOT NULL REFERENCES identities(id),
    issuer_id TEXT NOT NULL REFERENCES issuers(id),
    certificate_profile_id TEXT NOT NULL,
    source_certificate_id TEXT NOT NULL,
    csr_pem TEXT NOT NULL,
    status TEXT NOT NULL,
    requested_subject TEXT NOT NULL,
    requested_dns_names TEXT NOT NULL,
    requested_ip_addresses TEXT NOT NULL,
    csr_dns_names TEXT NOT NULL,
    csr_ip_addresses TEXT NOT NULL,
    requested_not_after TEXT NOT NULL,
    approved_by TEXT NOT NULL,
    approved_at TEXT,
    created_at TEXT NOT NULL,
    updated_at TEXT NOT NULL
);

CREATE TABLE IF NOT EXISTS certificates (
    id TEXT PRIMARY KEY,
    identity_id TEXT NOT NULL REFERENCES identities(id),
    issuer_id TEXT NOT NULL REFERENCES issuers(id),
    enrollment_id TEXT NOT NULL REFERENCES enrollments(id),
    certificate_profile_id TEXT NOT NULL,
    serial_number TEXT NOT NULL,
    subject TEXT NOT NULL,
    dns_names TEXT NOT NULL,
    ip_addresses TEXT NOT NULL,
    not_before TEXT NOT NULL,
    not_after TEXT NOT NULL,
    status TEXT NOT NULL,
    certificate_pem TEXT NOT NULL,
    renewal_notified_at TEXT,
    created_at TEXT NOT NULL,
    updated_at TEXT NOT NULL
);

CREATE UNIQUE INDEX IF NOT EXISTS idx_certificates_enrollment
    ON certificates(enrollment_id)
    WHERE enrollment_id <> '';

CREATE UNIQUE INDEX IF NOT EXISTS idx_certificates_issuer_serial
    ON certificates(issuer_id, serial_number)
    WHERE issuer_id <> '' AND serial_number <> '';

CREATE TABLE IF NOT EXISTS certificate_issuance_attempts (
    enrollment_id TEXT PRIMARY KEY REFERENCES enrollments(id),
    status TEXT NOT NULL,
    lease_expires_at TEXT,
    certificate_id TEXT NOT NULL,
    certificate_pem TEXT NOT NULL,
    serial_number TEXT NOT NULL,
    subject TEXT NOT NULL,
    not_before TEXT,
    not_after TEXT,
    signing_started_at TEXT,
    signed_at TEXT,
    finalized_at TEXT,
    last_error TEXT NOT NULL,
    created_at TEXT NOT NULL,
    updated_at TEXT NOT NULL
);

CREATE INDEX IF NOT EXISTS idx_certificate_issuance_attempts_status_lease
    ON certificate_issuance_attempts(status, lease_expires_at, updated_at, enrollment_id);

CREATE TABLE IF NOT EXISTS revocations (
    id TEXT PRIMARY KEY,
    certificate_id TEXT NOT NULL REFERENCES certificates(id),
    reason TEXT NOT NULL,
    revoked_by TEXT NOT NULL,
    revoked_at TEXT NOT NULL,
    created_at TEXT NOT NULL
);

CREATE TABLE IF NOT EXISTS crl_publications (
    id TEXT PRIMARY KEY,
    issuer_id TEXT NOT NULL REFERENCES issuers(id),
    distribution_point TEXT NOT NULL,
    crl_number INTEGER NOT NULL,
    this_update TEXT NOT NULL,
    next_update TEXT NOT NULL,
    status TEXT NOT NULL,
    crl_pem TEXT NOT NULL,
    created_at TEXT NOT NULL,
    updated_at TEXT NOT NULL
);

CREATE UNIQUE INDEX IF NOT EXISTS idx_crl_publications_issuer_distribution_number
    ON crl_publications(issuer_id, distribution_point, crl_number);

CREATE TABLE IF NOT EXISTS audit_events (
    id TEXT PRIMARY KEY,
    actor TEXT NOT NULL,
    action TEXT NOT NULL,
    resource_type TEXT NOT NULL,
    resource_id TEXT NOT NULL,
    metadata_json TEXT NOT NULL,
    created_at TEXT NOT NULL
);

CREATE TABLE IF NOT EXISTS outbox_messages (
    id TEXT PRIMARY KEY,
    type TEXT NOT NULL,
    payload_json TEXT NOT NULL,
    status TEXT NOT NULL,
    available_at TEXT NOT NULL,
    processing_deadline_at TEXT,
    attempt_count INTEGER NOT NULL,
    max_attempts INTEGER NOT NULL,
    last_error TEXT NOT NULL,
    created_at TEXT NOT NULL,
    updated_at TEXT NOT NULL
);

CREATE INDEX IF NOT EXISTS idx_outbox_messages_due
    ON outbox_messages(status, available_at, created_at, id);

CREATE INDEX IF NOT EXISTS idx_outbox_messages_processing_deadline
    ON outbox_messages(status, processing_deadline_at, created_at, id);

CREATE TABLE IF NOT EXISTS job_attempts (
    id TEXT PRIMARY KEY,
    outbox_message_id TEXT NOT NULL REFERENCES outbox_messages(id),
    status TEXT NOT NULL,
    error TEXT NOT NULL,
    started_at TEXT NOT NULL,
    finished_at TEXT NOT NULL,
    created_at TEXT NOT NULL
);

CREATE INDEX IF NOT EXISTS idx_job_attempts_outbox_message
    ON job_attempts(outbox_message_id, created_at, id);

CREATE TABLE IF NOT EXISTS api_keys (
    id TEXT PRIMARY KEY,
    name TEXT NOT NULL,
    token_hash TEXT NOT NULL,
    status TEXT NOT NULL,
    actor TEXT NOT NULL,
    scopes TEXT NOT NULL,
    expires_at TEXT,
    last_used_at TEXT,
    created_at TEXT NOT NULL,
    updated_at TEXT NOT NULL
);

CREATE UNIQUE INDEX IF NOT EXISTS idx_api_keys_token_hash
    ON api_keys(token_hash);

CREATE TABLE IF NOT EXISTS acme_accounts (
    id TEXT PRIMARY KEY,
    contacts TEXT NOT NULL,
    status TEXT NOT NULL,
    terms_of_service_agreed INTEGER NOT NULL,
    key_thumbprint TEXT NOT NULL,
    key_jwk_json TEXT NOT NULL,
    created_at TEXT NOT NULL,
    updated_at TEXT NOT NULL
);

CREATE TABLE IF NOT EXISTS acme_nonces (
    nonce TEXT PRIMARY KEY,
    issued_at TEXT NOT NULL,
    expires_at TEXT NOT NULL
);

CREATE INDEX IF NOT EXISTS idx_acme_nonces_expires
    ON acme_nonces(expires_at);

CREATE TABLE IF NOT EXISTS acme_orders (
    id TEXT PRIMARY KEY,
    account_id TEXT NOT NULL REFERENCES acme_accounts(id),
    identity_id TEXT NOT NULL REFERENCES identities(id),
    issuer_id TEXT NOT NULL REFERENCES issuers(id),
    certificate_profile_id TEXT NOT NULL,
    status TEXT NOT NULL,
    csr_pem TEXT NOT NULL,
    requested_subject TEXT NOT NULL,
    requested_dns_names TEXT NOT NULL,
    requested_ip_addresses TEXT NOT NULL,
    requested_not_after TEXT NOT NULL,
    enrollment_id TEXT NOT NULL,
    certificate_id TEXT NOT NULL,
    expires_at TEXT NOT NULL,
    created_at TEXT NOT NULL,
    updated_at TEXT NOT NULL
);

CREATE INDEX IF NOT EXISTS idx_acme_orders_account
    ON acme_orders(account_id, created_at, id);

CREATE TABLE IF NOT EXISTS acme_authorizations (
    id TEXT PRIMARY KEY,
    order_id TEXT NOT NULL REFERENCES acme_orders(id),
    identifier_type TEXT NOT NULL,
    identifier_value TEXT NOT NULL,
    status TEXT NOT NULL,
    expires_at TEXT NOT NULL,
    created_at TEXT NOT NULL,
    updated_at TEXT NOT NULL
);

CREATE INDEX IF NOT EXISTS idx_acme_authorizations_order
    ON acme_authorizations(order_id, created_at, id);

CREATE TABLE IF NOT EXISTS acme_challenges (
    id TEXT PRIMARY KEY,
    authorization_id TEXT NOT NULL REFERENCES acme_authorizations(id),
    type TEXT NOT NULL,
    token TEXT NOT NULL,
    status TEXT NOT NULL,
    validated_at TEXT,
    created_at TEXT NOT NULL,
    updated_at TEXT NOT NULL
);

CREATE INDEX IF NOT EXISTS idx_acme_challenges_authorization
    ON acme_challenges(authorization_id, created_at, id);
".
Definition init_sql : string := "CREATE TABLE IF NOT EXISTS identities (
    id TEXT PRIMARY KEY,
    type TEXT NOT NULL,
    name TEXT NOT NULL,
    external_id TEXT NOT NULL,
    owner TEXT NOT NULL,
    team TEXT NOT NULL,
    service TEXT NOT NULL,
    environment TEXT NOT NULL,
    deployment_target TEXT NOT NULL,
    last_seen_at TIMESTAMPTZ,
    metadata_json TEXT NOT NULL,
    allowed_dns_names TEXT NOT NULL,
    allowed_ip_addresses TEXT NOT NULL,
    status TEXT NOT NULL,
    created_at TIMESTAMPTZ NOT NULL,
    updated_at TIMESTAMPTZ NOT NULL
);

CREATE INDEX IF NOT EXISTS idx_identities_inventory_fields
    ON identities(owner, team, service, environment, deployment_target, id);

CREATE TABLE IF NOT EXISTS issuers (
    id TEXT PRIMARY KEY,
    name TEXT NOT NULL,
    kind TEXT NOT NULL,
    status TEXT NOT NULL,
    parent_issuer_id TEXT NOT NULL,
    certificate_pem TEXT NOT NULL,
    key_ref TEXT NOT NULL,
    aia_url TEXT NOT NULL,
    crl_distribution_points TEXT NOT NULL,
    trust_anchor BOOLEAN NOT NULL,
    created_at TIMESTAMPTZ NOT NULL,
    updated_at TIMESTAMPTZ NOT NULL
);

CREATE TABLE IF NOT EXISTS ocsp_responders (
    id TEXT PRIMARY KEY,
    issuer_id TEXT NOT NULL REFERENCES issuers(id),
    name TEXT NOT NULL,
    status TEXT NOT NULL,
    certificate_pem TEXT NOT NULL,
    key_ref TEXT NOT NULL,
    created_at TIMESTAMPTZ NOT NULL,
    updated_at TIMESTAMPTZ NOT NULL
);

CREATE INDEX IF NOT EXISTS idx_ocsp_responders_issuer_active
    ON ocsp_responders(issuer_id, status, created_at, id);

CREATE UNIQUE INDEX IF NOT EXISTS idx_ocsp_responders_single_active
    ON ocsp_responders(issuer_id)
    WHERE status = 'active';

CREATE TABLE IF NOT EXISTS notification_endpoints (
    id TEXT PRIMARY KEY,
    name TEXT NOT NULL,
    type TEXT NOT NULL,
    status TEXT NOT NULL,
    url TEXT NOT NULL,
    secret TEXT NOT NULL,
    event_types TEXT NOT NULL,
    created_at TIMESTAMPTZ NOT NULL,
    updated_at TIMESTAMPTZ NOT NULL
);

CREATE INDEX IF NOT EXISTS idx_notification_endpoints_status
    ON notification_endpoints(status, created_at, id);

CREATE TABLE IF NOT EXISTS certificate_profiles (
    id TEXT PRIMARY KEY,
    name TEXT NOT NULL,
    description TEXT NOT NULL,
    issuer_id TEXT NOT NULL REFERENCES issuers(id),
    validity_period_seconds BIGINT NOT NULL,
    subject_template TEXT NOT NULL,
    allowed_dns_patterns TEXT NOT NULL,
    allowed_ip_ranges TEXT NOT NULL,
    allowed_key_algorithms TEXT NOT NULL,
    min_key_size_bits INTEGER NOT NULL,
    allowed_signature_algorithms TEXT NOT NULL,
    key_usage TEXT NOT NULL,
    extended_key_usage TEXT NOT NULL,
    basic_constraints TEXT NOT NULL,
    subject_key_identifier BOOLEAN NOT NULL,
    authority_key_identifier BOOLEAN NOT NULL,
    public_tls BOOLEAN NOT NULL,
    created_at TIMESTAMPTZ NOT NULL,
    updated_at TIMESTAMPTZ NOT NULL
);

CREATE TABLE IF NOT EXISTS enrollments (
    id TEXT PRIMARY KEY,
    identity_id TEXT NOT NULL REFERENCES identities(id),
    issuer_id TEXT NOT NULL REFERENCES issuers(id),
    certificate_profile_id TEXT NOT NULL,
    source_certificate_id TEXT NOT NULL,
    csr_pem TEXT NOT NULL,
    status TEXT NOT NULL,
    requested_subject TEXT NOT NULL,
    requested_dns_names TEXT NOT NULL,
    requested_ip_addresses TEXT NOT NULL,
    csr_dns_names TEXT NOT NULL,
    csr_ip_addresses TEXT NOT NULL,
    requested_not_after TIMESTAMPTZ NOT NULL,
    approved_by TEXT NOT NULL,
    approved_at TIMESTAMPTZ,
    created_at TIMESTAMPTZ NOT NULL,
    updated_at TIMESTAMPTZ NOT NULL
);

CREATE TABLE IF NOT EXISTS certificates (
    id TEXT PRIMARY KEY,
    identity_id TEXT NOT NULL REFERENCES identities(id),
    issuer_id TEXT NOT NULL REFERENCES issuers(id),
    enrollment_id TEXT NOT NULL REFERENCES enrollments(id),
    certificate_profile_id TEXT NOT NULL,
    serial_number TEXT NOT NULL,
    subject TEXT NOT NULL,
    dns_names TEXT NOT NULL,
    ip_addresses TEXT NOT NULL,
    not_before TIMESTAMPTZ NOT NULL,
    not_after TIMESTAMPTZ NOT NULL,
    status TEXT NOT NULL,
    certificate_pem TEXT NOT NULL,
    renewal_notified_at TIMESTAMPTZ,
    created_at TIMESTAMPTZ NOT NULL,
    updated_at TIMESTAMPTZ NOT NULL
);

CREATE UNIQUE INDEX IF NOT EXISTS idx_certificates_enrollment
    ON certificates(enrollment_id)
    WHERE enrollment_id <> '';

CREATE UNIQUE INDEX IF NOT EXISTS idx_certificates_issuer_serial
    ON certificates(issuer_id, serial_number)
    WHERE issuer_id <> '' AND serial_number <> '';

CREATE TABLE IF NOT EXISTS certificate_issuance_attempts (
    enrollment_id TEXT PRIMARY KEY REFERENCES enrollments(id),
    status TEXT NOT NULL,
    lease_expires_at TIMESTAMPTZ,
    certificate_id TEXT NOT NULL,
    certificate_pem TEXT NOT NULL,
    serial_number TEXT NOT NULL,
    subject TEXT NOT NULL,
    not_before TIMESTAMPTZ,
    not_after TIMESTAMPTZ,
    signing_started_at TIMESTAMPTZ,
    signed_at TIMESTAMPTZ,
    finalized_at TIMESTAMPTZ,
    last_error TEXT NOT NULL,
    created_at TIMESTAMPTZ NOT NULL,
    updated_at TIMESTAMPTZ NOT NULL
);

CREATE INDEX IF NOT EXISTS idx_certificate_issuance_attempts_status_lease
    ON certificate_issuance_attempts(status, lease_expires_at, updated_at, enrollment_id);

CREATE TABLE IF NOT EXISTS revocations (
    id TEXT PRIMARY KEY,
    certificate_id TEXT NOT NULL REFERENCES certificates(id),
    reason TEXT NOT NULL,
    revoked_by TEXT NOT NULL,
    revoked_at TIMESTAMPTZ NOT NULL,
    created_at TIMESTAMPTZ NOT NULL
);

CREATE TABLE IF NOT EXISTS crl_publications (
    id TEXT PRIMARY KEY,
    issuer_id TEXT NOT NULL REFERENCES issuers(id),
    distribution_point TEXT NOT NULL,
    crl_number BIGINT NOT NULL,
    this_update TIMESTAMPTZ NOT NULL,
    next_update TIMESTAMPTZ NOT NULL,
    status TEXT NOT NULL,
    crl_pem TEXT NOT NULL,
    created_at TIMESTAMPTZ NOT NULL,
    updated_at TIMESTAMPTZ NOT NULL
);

CREATE UNIQUE INDEX IF NOT EXISTS idx_crl_publications_issuer_distribution_number
    ON crl_publications(issuer_id, distribution_point, crl_number);

CREATE TABLE IF NOT EXISTS audit_events (
    id TEXT PRIMARY KEY,
    actor TEXT NOT NULL,
    action TEXT NOT NULL,
    resource_type TEXT NOT NULL,
    resource_id TEXT NOT NULL,
    metadata_json TEXT NOT NULL,
    created_at TIMESTAMPTZ NOT NULL
);

CREATE TABLE IF NOT EXISTS outbox_messages (
    id TEXT PRIMARY KEY,
    type TEXT NOT NULL,
    payload_json TEXT NOT NULL,
    status TEXT NOT NULL,
    available_at TIMESTAMPTZ NOT NULL,
    processing_deadline_at TIMESTAMPTZ,
    attempt_count INTEGER NOT NULL,
    max_attempts INTEGER NOT NULL,
    last_error TEXT NOT NULL,
    created_at TIMESTAMPTZ NOT NULL,
    updated_at TIMESTAMPTZ NOT NULL
);

CREATE INDEX IF NOT EXISTS idx_outbox_messages_due
    ON outbox_messages(status, available_at, created_at, id);

CREATE INDEX IF NOT EXISTS idx_outbox_messages_processing_deadline
    ON outbox_messages(status, processing_deadline_at, created_at, id);

CREATE TABLE IF NOT EXISTS job_attempts (
    id TEXT PRIMARY KEY,
    outbox_message_id TEXT NOT NULL REFERENCES outbox_messages(id),
    status TEXT NOT NULL,
    error TEXT NOT NULL,
    started_at TIMESTAMPTZ NOT NULL,
    finished_at TIMESTAMPTZ NOT NULL,
    created_at TIMESTAMPTZ NOT NULL
);

CREATE INDEX IF NOT EXISTS idx_job_attempts_outbox_message
    ON job_attempts(outbox_message_id, created_at, id);

CREATE TABLE IF NOT EXISTS api_keys (
    id TEXT PRIMARY KEY,
    name TEXT NOT NULL,
    token_hash TEXT NOT NULL,
    status TEXT NOT NULL,
    actor TEXT NOT NULL,
    scopes TEXT NOT NULL,
    expires_at TIMESTAMPTZ,
    last_used_at TIMESTAMPTZ,
    created_at TIMESTAMPTZ NOT NULL,
    updated_at TIMESTAMPTZ NOT NULL
);

CREATE UNIQUE INDEX IF NOT EXISTS idx_api_keys_token_hash
    ON api_keys(token_hash);

CREATE TABLE IF NOT EXISTS acme_accounts (
    id TEXT PRIMARY KEY,
    contacts TEXT NOT NULL,
    status TEXT NOT NULL,
    terms_of_service_agreed BOOLEAN NOT NULL,
    key_thumbprint TEXT NOT NULL,
    key_jwk_json TEXT NOT NULL,
    created_at TIMESTAMPTZ NOT NULL,
    updated_at TIMESTAMPTZ NOT NULL
);

CREATE TABLE IF NOT EXISTS acme_nonces (
    nonce TEXT PRIMARY KEY,
    issued_at TIMESTAMPTZ NOT NULL,
    expires_at TIMESTAMPTZ NOT NULL
);

CREATE INDEX IF NOT EXISTS idx_acme_nonces_expires
    ON acme_nonces(expires_at);

CREATE TABLE IF NOT EXISTS acme_orders (
    id TEXT PRIMARY KEY,
    account_id TEXT NOT NULL REFERENCES acme_accounts(id),
    identity_id TEXT NOT NULL REFERENCES identities(id),
    issuer_id TEXT NOT NULL REFERENCES issuers(id),
    certificate_profile_id TEXT NOT NULL,
    status TEXT NOT NULL,
    csr_pem TEXT NOT NULL,
    requested_subject TEXT NOT NULL,
    requested_dns_names TEXT NOT NULL,
    requested_ip_addresses TEXT NOT NULL,
    requested_not_after TIMESTAMPTZ NOT NULL,
    enrollment_id TEXT NOT NULL,
    certificate_id TEXT NOT NULL,
    expires_at TIMESTAMPTZ NOT NULL,
    created_at TIMESTAMPTZ NOT NULL,
    updated_at TIMESTAMPTZ NOT NULL
);

CREATE INDEX IF NOT EXISTS idx_acme_orders_account
    ON acme_orders(account_id, created_at, id);

CREATE TABLE IF NOT EXISTS acme_authorizations (
    id TEXT PRIMARY KEY,
    order_id TEXT NOT NULL REFERENCES acme_orders(id),
    identifier_type TEXT NOT NULL,
    identifier_value TEXT NOT NULL,
    status TEXT NOT NULL,
    expires_at TIMESTAMPTZ NOT NULL,
    created_at TIMESTAMPTZ NOT NULL,
    updated_at TIMESTAMPTZ NOT NULL
);

CREATE INDEX IF NOT EXISTS idx_acme_authorizations_order
    ON acme_authorizations(order_id, created_at, id);

CREATE TABLE IF NOT EXISTS acme_challenges (
    id TEXT PRIMARY KEY,
    authorization_id TEXT NOT NULL REFERENCES acme_authorizations(id),
    type TEXT NOT NULL,
    token TEXT NOT NULL,
    status TEXT NOT NULL,
    validated_at TIMESTAMPTZ,
    created_at TIMESTAMPTZ NOT NULL,
    updated_at TIMESTAMPTZ NOT NULL
);

CREATE INDEX IF NOT EXISTS idx_acme_challenges_authorization
    ON acme_challenges(authorization_id, created_at, id);
".
Definition audit_hash_chain_sqlite_sql : string := "ALTER TABLE audit_events ADD COLUMN sequence INTEGER;
ALTER TABLE audit_events ADD COLUMN hash_algorithm TEXT NOT NULL DEFAULT '';
ALTER TABLE audit_events ADD COLUMN previous_event_hash TEXT NOT NULL DEFAULT '';
ALTER TABLE audit_events ADD COLUMN event_hash TEXT NOT NULL DEFAULT '';

CREATE TABLE audit_chain_state (
    singleton_id INTEGER PRIMARY KEY CHECK (singleton_id = 1),
    hash_algorithm TEXT NOT NULL,
    latest_sequence INTEGER NOT NULL,
    latest_event_hash TEXT NOT NULL,
    checkpoint_sequence INTEGER NOT NULL,
    checkpoint_event_hash TEXT NOT NULL,
    updated_at TEXT NOT NULL
);
".
Definition audit_hash_chain_sql : string := "ALTER TABLE audit_events ADD COLUMN sequence BIGINT;
ALTER TABLE audit_events ADD COLUMN hash_algorithm TEXT NOT NULL DEFAULT '';
ALTER TABLE audit_events ADD COLUMN previous_event_hash TEXT NOT NULL DEFAULT '';
ALTER TABLE audit_events ADD COLUMN event_hash TEXT NOT NULL DEFAULT '';

CREATE TABLE audit_chain_state (
    singleton_id INTEGER PRIMARY KEY CHECK (singleton_id = 1),
    hash_algorithm TEXT NOT NULL,
    latest_sequence BIGINT NOT NULL,
    latest_event_hash TEXT NOT NULL,
    checkpoint_sequence BIGINT NOT NULL,
    checkpoint_event_hash TEXT NOT NULL,
    updated_at TIMESTAMPTZ NOT NULL
);
".

Definition migrationFiles (path : string) : res string :=
  if path =s "migrations/0001_init_sqlite.sql" then Ok init_sqlite_sql
  else if path =s "migrations/0001_init.sql" then Ok init_sql
  else if path =s "migrations/0002_audit_hash_chain_sqlite.sql" then Ok audit_hash_chain_sqlite_sql
  else if path =s "migrations/0002_audit_hash_chain.sql" then Ok audit_hash_chain_sql
  else Err (EText "file does not exist").

Definition initialMigrationVersion : Z := 1.
Definition auditHashChainMigrationVersion : Z := 2.
Definition sqliteMigrationBusyTimeoutMS : Z := 5000.
Definition postgresMigrationAdvisoryLockID : Z := 5847545710944921361.

Definition unsupportedDriver (driver : string) : goerr := EText ("unsupported database driver " +:+ dquote +:+ driver +:+ dquote).

Definition initialMigrationPath (driver : string) : res string :=
  if driver =s "sqlite" then Ok "migrations/0001_init_sqlite.sql"
  else if driver =s "pgx" then Ok "migrations/0001_init.sql"
  else Err (unsupportedDriver driver).
Definition auditHashChainMigrationPath (driver : string) : res string :=
  if driver =s "sqlite" then Ok "migrations/0002_audit_hash_chain_sqlite.sql"
  else if driver =s "pgx" then Ok "migrations/0002_audit_hash_chain.sql"
  else Err (unsupportedDriver driver).
Definition migrationChecksum (sqlBytes : string) : string := hex_encode (Sum256 sqlBytes).

Section Migrations.
Context `{SQLDriver} `{GoUnicode} `{GoCodec}.

(** [fmt.Errorf("text: %w", err)] around the error of an action. *)
Definition wrapM {A} (text : string) (m : SQLM A) : SQLM A := λ c,
  match m c with (Ok a, c') => (Ok a, c') | (Err e, c') => (Err (EWrap text e), c') end.
Definition wrapR {A} (text : string) (r : res A) : res A := match r with Ok a => Ok a | Err e => Err (EWrap text e) end.

(** ** The version table *)

Definition createSchemaMigrationsTable (driver : string) : SQLM unit :=
  let '(appliedAtType, dirtyType) := if driver =s "pgx" then ("TIMESTAMPTZ", "BOOLEAN") else ("TEXT", "INTEGER") in
  do* wrapM "create schema_migrations" (ExecContext ("
CREATE TABLE IF NOT EXISTS schema_migrations (
	version INTEGER PRIMARY KEY,
	checksum TEXT NOT NULL,
	applied_at " +:+ appliedAtType +:+ " NOT NULL,
	dirty " +:+ dirtyType +:+ " NOT NULL
)") []) in
  retM tt.

Definition versionError (version : Z) (what : string) : goerr := EText ("schema migration version " +:+ itoa version +:+ " " +:+ what).

Definition checkSchemaMigration (version : Z) (checksum : string) : SQLM bool :=
  let* r := catchM (let* row := QueryRowContext "
SELECT checksum, CASE WHEN dirty THEN 1 ELSE 0 END
FROM schema_migrations
WHERE version = $1" [VInt version] in
    match row with
    | [v1; v2] => let* storedChecksum := liftM (scanString v1) in let* dirty := liftM (scanInt v2) in retM (storedChecksum, dirty)
    | _ => failM scanCount
    end) in
  match r with
  | Err e => if is_no_rows e then retM false else failM (EWrap ("read schema_migrations version " +:+ itoa version) e)
  | Ok (storedChecksum, dirty) =>
      if negb (Z.eqb dirty 0) then failM (versionError version "is dirty")
      else if storedChecksum <>s checksum then failM (versionError version "checksum mismatch")
      else retM true
  end.

(** Both drivers bind it as 0 or 1 here. *)
Definition migrationDirtyValue (driver : string) (dirty : bool) : SQLValue := VBool dirty.

Definition insertSchemaMigration (driver : string) (version : Z) (checksum : string) (dirty : bool) : SQLM unit :=
  let* now := sqlNow in
  do* wrapM ("insert schema_migrations version " +:+ itoa version) (ExecContext "
INSERT INTO schema_migrations (version, checksum, applied_at, dirty)
VALUES ($1, $2, $3, $4)"
    [VInt version; VText checksum; VText (formatSQLTime now); migrationDirtyValue driver dirty]) in
  retM tt.

Definition markSchemaMigrationClean (driver : string) (version : Z) (checksum : string) : SQLM unit :=
  let* now := sqlNow in
  do* wrapM ("mark schema_migrations version " +:+ itoa version +:+ " clean") (ExecContext "
UPDATE schema_migrations
SET checksum = $1, applied_at = $2, dirty = $3
WHERE version = $4"
    [VText checksum; VText (formatSQLTime now); migrationDirtyValue driver false; VInt version]) in
  retM tt.

(** ** Compatibility *)

(** The name column of the rows of [PRAGMA table_info]. *)
Fixpoint columnListed (rows : list Row) (name : string) : res bool :=
  match rows with
  | [] => Ok false
  | [v1; v2; v3; v4; v5; v6] :: rows =>
      let! _ := scanInt v1 in let! columnName := scanString v2 in let! _ := scanString v3 in
      let! _ := scanInt v4 in let! _ := scanInt v6 in
      if columnName =s name then Ok true else columnListed rows name
  | _ => Err scanCount
  end.
Definition sqliteColumnExists (table name : string) : SQLM bool :=
  let* rows := wrapM ("inspect sqlite table " +:+ table) (QueryContext ("PRAGMA table_info(" +:+ table +:+ ")") []) in
  liftM (wrapR ("scan sqlite table " +:+ table) (columnListed rows name)).

(** [if exists { continue }; ALTER TABLE ... ADD COLUMN ...] *)
Definition ensureSQLiteColumn (table name definition : string) : SQLM unit :=
  let* exists_ := sqliteColumnExists table name in
  if (exists_ : bool) then retM tt
  else do* wrapM ("add sqlite column " +:+ table +:+ "." +:+ name)
        (ExecContext ("ALTER TABLE " +:+ table +:+ " ADD COLUMN " +:+ definition) []) in
    retM tt.

Definition sqliteColumns : list (string * string * string) :=
  [("identities", "owner", "owner TEXT NOT NULL DEFAULT ''");
   ("identities", "team", "team TEXT NOT NULL DEFAULT ''");
   ("identities", "service", "service TEXT NOT NULL DEFAULT ''");
   ("identities", "environment", "environment TEXT NOT NULL DEFAULT ''");
   ("identities", "deployment_target", "deployment_target TEXT NOT NULL DEFAULT ''");
   ("identities", "last_seen_at", "last_seen_at TEXT");
   ("identities", "metadata_json", "metadata_json TEXT NOT NULL DEFAULT ''");
   ("identities", "allowed_dns_names", "allowed_dns_names TEXT NOT NULL DEFAULT '[]'");
   ("identities", "allowed_ip_addresses", "allowed_ip_addresses TEXT NOT NULL DEFAULT '[]'");
   ("issuers", "parent_issuer_id", "parent_issuer_id TEXT NOT NULL DEFAULT ''");
   ("issuers", "aia_url", "aia_url TEXT NOT NULL DEFAULT ''");
   ("issuers", "crl_distribution_points", "crl_distribution_points TEXT NOT NULL DEFAULT '[]'");
   ("issuers", "trust_anchor", "trust_anchor INTEGER NOT NULL DEFAULT 0");
   ("certificate_profiles", "subject_key_identifier", "subject_key_identifier INTEGER NOT NULL DEFAULT 0");
   ("certificate_profiles", "authority_key_identifier", "authority_key_identifier INTEGER NOT NULL DEFAULT 0");
   ("certificate_profiles", "public_tls", "public_tls INTEGER NOT NULL DEFAULT 0");
   ("certificate_profiles", "allowed_key_algorithms", "allowed_key_algorithms TEXT NOT NULL DEFAULT '[]'");
   ("certificate_profiles", "min_key_size_bits", "min_key_size_bits INTEGER NOT NULL DEFAULT 0");
   ("certificate_profiles", "allowed_signature_algorithms", "allowed_signature_algorithms TEXT NOT NULL DEFAULT '[]'");
   ("enrollments", "certificate_profile_id", "certificate_profile_id TEXT NOT NULL DEFAULT ''");
   ("enrollments", "source_certificate_id", "source_certificate_id TEXT NOT NULL DEFAULT ''");
   ("certificates", "certificate_profile_id", "certificate_profile_id TEXT NOT NULL DEFAULT ''");
   ("certificates", "renewal_notified_at", "renewal_notified_at TEXT");
   ("certificate_issuance_attempts", "signing_evidence_json", "signing_evidence_json TEXT NOT NULL DEFAULT ''")].
Definition sqliteStatementsFirst : list string :=
  ["CREATE TABLE IF NOT EXISTS outbox_messages (
			id TEXT PRIMARY KEY,
			type TEXT NOT NULL,
			payload_json TEXT NOT NULL,
			status TEXT NOT NULL,
			available_at TEXT NOT NULL,
			processing_deadline_at TEXT,
			attempt_count INTEGER NOT NULL DEFAULT 0,
			max_attempts INTEGER NOT NULL DEFAULT 0,
			last_error TEXT NOT NULL DEFAULT '',
			created_at TEXT NOT NULL,
			updated_at TEXT NOT NULL
		)";
   "CREATE INDEX IF NOT EXISTS idx_outbox_messages_due
			ON outbox_messages(status, available_at, created_at, id)";
   "CREATE INDEX IF NOT EXISTS idx_outbox_messages_processing_deadline
			ON outbox_messages(status, processing_deadline_at, created_at, id)";
   "CREATE TABLE IF NOT EXISTS job_attempts (
			id TEXT PRIMARY KEY,
			outbox_message_id TEXT NOT NULL REFERENCES outbox_messages(id),
			status TEXT NOT NULL,
			error TEXT NOT NULL,
			started_at TEXT NOT NULL,
			finished_at TEXT NOT NULL,
			created_at TEXT NOT NULL
		)";
   "CREATE INDEX IF NOT EXISTS idx_job_attempts_outbox_message
			ON job_attempts(outbox_message_id, created_at, id)";
   "CREATE TABLE IF NOT EXISTS notification_endpoints (
			id TEXT PRIMARY KEY,
			name TEXT NOT NULL,
			type TEXT NOT NULL,
			status TEXT NOT NULL,
			url TEXT NOT NULL,
			secret TEXT NOT NULL DEFAULT '',
			event_types TEXT NOT NULL,
			created_at TEXT NOT NULL,
			updated_at TEXT NOT NULL
		)";
   "CREATE INDEX IF NOT EXISTS idx_notification_endpoints_status
			ON notification_endpoints(status, created_at, id)";
   "CREATE TABLE IF NOT EXISTS webhook_deliveries (
			outbox_message_id TEXT NOT NULL REFERENCES outbox_messages(id),
			endpoint_id TEXT NOT NULL REFERENCES notification_endpoints(id),
			status TEXT NOT NULL,
			attempt_count INTEGER NOT NULL,
			last_error TEXT NOT NULL,
			last_attempted_at TEXT NOT NULL,
			created_at TEXT NOT NULL,
			updated_at TEXT NOT NULL,
			PRIMARY KEY (outbox_message_id, endpoint_id)
		)";
   "CREATE INDEX IF NOT EXISTS idx_webhook_deliveries_endpoint
			ON webhook_deliveries(endpoint_id, updated_at)";
   "CREATE INDEX IF NOT EXISTS idx_identities_inventory_fields
			ON identities(owner, team, service, environment, deployment_target, id)";
   "CREATE INDEX IF NOT EXISTS idx_identities_list_query
			ON identities(owner, team, service, environment, created_at, id)";
   "CREATE INDEX IF NOT EXISTS idx_enrollments_list_query
			ON enrollments(identity_id, issuer_id, certificate_profile_id, status, created_at, id)";
   "CREATE INDEX IF NOT EXISTS idx_certificates_expiration_scan
			ON certificates(status, not_after, renewal_notified_at, id)";
   "CREATE UNIQUE INDEX IF NOT EXISTS idx_certificates_enrollment
			ON certificates(enrollment_id)
			WHERE enrollment_id <> ''";
   "CREATE UNIQUE INDEX IF NOT EXISTS idx_certificates_issuer_serial
			ON certificates(issuer_id, serial_number)
			WHERE issuer_id <> '' AND serial_number <> ''";
   "CREATE INDEX IF NOT EXISTS idx_certificates_list_query
			ON certificates(issuer_id, certificate_profile_id, status, created_at, id)";
   "CREATE INDEX IF NOT EXISTS idx_certificates_renewal_query
			ON certificates(status, renewal_notified_at, created_at, id)";
   "CREATE INDEX IF NOT EXISTS idx_outbox_messages_list_query
			ON outbox_messages(status, type, created_at, id)";
   "CREATE TABLE IF NOT EXISTS certificate_issuance_attempts (
			enrollment_id TEXT PRIMARY KEY REFERENCES enrollments(id),
			status TEXT NOT NULL,
			lease_expires_at TEXT,
			certificate_id TEXT NOT NULL,
			certificate_pem TEXT NOT NULL,
			serial_number TEXT NOT NULL,
			subject TEXT NOT NULL,
			not_before TEXT,
			not_after TEXT,
			signing_started_at TEXT,
			signed_at TEXT,
			finalized_at TEXT,
			last_error TEXT NOT NULL,
			created_at TEXT NOT NULL,
			updated_at TEXT NOT NULL
		)"].
Definition sqliteStatementsLast : list string :=
  ["CREATE INDEX IF NOT EXISTS idx_certificate_issuance_attempts_status_lease
			ON certificate_issuance_attempts(status, lease_expires_at, updated_at, enrollment_id)";
   "CREATE UNIQUE INDEX IF NOT EXISTS idx_crl_publications_issuer_distribution_number
			ON crl_publications(issuer_id, distribution_point, crl_number)";
   "CREATE TABLE IF NOT EXISTS crl_generation_claims (
			issuer_id TEXT NOT NULL REFERENCES issuers(id),
			distribution_point TEXT NOT NULL,
			crl_number INTEGER NOT NULL,
			lease_expires_at TEXT NOT NULL,
			created_at TEXT NOT NULL,
			updated_at TEXT NOT NULL,
			PRIMARY KEY (issuer_id, distribution_point)
		)";
   "CREATE INDEX IF NOT EXISTS idx_crl_generation_claims_lease
			ON crl_generation_claims(lease_expires_at, issuer_id, distribution_point)";
   ("CREATE TABLE IF NOT EXISTS api_keys (
			id TEXT PRIMARY KEY,
			name TEXT NOT NULL,
			token_hash TEXT NOT NULL,
			status TEXT NOT NULL,
			actor TEXT NOT NULL,
			scopes TEXT NOT NULL DEFAULT '[" +:+ dquote +:+ "operator" +:+ dquote +:+ "]',
			expires_at TEXT,
			last_used_at TEXT,
			created_at TEXT NOT NULL,
			updated_at TEXT NOT NULL
		)");
   "CREATE UNIQUE INDEX IF NOT EXISTS idx_api_keys_token_hash
			ON api_keys(token_hash)";
   "CREATE TABLE IF NOT EXISTS acme_accounts (
			id TEXT PRIMARY KEY,
			contacts TEXT NOT NULL,
			status TEXT NOT NULL,
			terms_of_service_agreed INTEGER NOT NULL,
			key_thumbprint TEXT NOT NULL DEFAULT '',
			key_jwk_json TEXT NOT NULL DEFAULT '',
			created_at TEXT NOT NULL,
			updated_at TEXT NOT NULL
		)";
   "CREATE TABLE IF NOT EXISTS acme_nonces (
			nonce TEXT PRIMARY KEY,
			issued_at TEXT NOT NULL,
			expires_at TEXT NOT NULL
		)";
   "CREATE INDEX IF NOT EXISTS idx_acme_nonces_expires
			ON acme_nonces(expires_at)";
   "CREATE TABLE IF NOT EXISTS acme_orders (
			id TEXT PRIMARY KEY,
			account_id TEXT NOT NULL REFERENCES acme_accounts(id),
			identity_id TEXT NOT NULL REFERENCES identities(id),
			issuer_id TEXT NOT NULL REFERENCES issuers(id),
			certificate_profile_id TEXT NOT NULL,
			status TEXT NOT NULL,
			csr_pem TEXT NOT NULL,
			requested_subject TEXT NOT NULL,
			requested_dns_names TEXT NOT NULL,
			requested_ip_addresses TEXT NOT NULL,
			requested_not_after TEXT NOT NULL,
			enrollment_id TEXT NOT NULL,
			certificate_id TEXT NOT NULL,
			expires_at TEXT NOT NULL DEFAULT '1970-01-01T00:00:00Z',
			created_at TEXT NOT NULL,
			updated_at TEXT NOT NULL
		)";
   "CREATE INDEX IF NOT EXISTS idx_acme_orders_account
			ON acme_orders(account_id, created_at, id)";
   "CREATE TABLE IF NOT EXISTS acme_authorizations (
			id TEXT PRIMARY KEY,
			order_id TEXT NOT NULL REFERENCES acme_orders(id),
			identifier_type TEXT NOT NULL,
			identifier_value TEXT NOT NULL,
			status TEXT NOT NULL,
			expires_at TEXT NOT NULL DEFAULT '1970-01-01T00:00:00Z',
			created_at TEXT NOT NULL,
			updated_at TEXT NOT NULL
		)";
   "CREATE INDEX IF NOT EXISTS idx_acme_authorizations_order
			ON acme_authorizations(order_id, created_at, id)";
   "CREATE TABLE IF NOT EXISTS acme_challenges (
			id TEXT PRIMARY KEY,
			authorization_id TEXT NOT NULL REFERENCES acme_authorizations(id),
			type TEXT NOT NULL,
			token TEXT NOT NULL,
			status TEXT NOT NULL,
			validated_at TEXT,
			created_at TEXT NOT NULL,
			updated_at TEXT NOT NULL
		)";
   "CREATE INDEX IF NOT EXISTS idx_acme_challenges_authorization
			ON acme_challenges(authorization_id, created_at, id)";
   "UPDATE issuers
			SET trust_anchor = 1
			WHERE kind = 'root_ca' AND trust_anchor = 0"].
Definition sqliteStatements : list string := sqliteStatementsFirst ++ sqliteStatementsLast.
Definition outboxColumns : list (string * string) := [("attempt_count", "attempt_count INTEGER NOT NULL DEFAULT 0"); ("max_attempts", "max_attempts INTEGER NOT NULL DEFAULT 0"); ("last_error", "last_error TEXT NOT NULL DEFAULT ''"); ("processing_deadline_at", "processing_deadline_at TEXT")].
Definition apiKeyColumns : list (string * string) := [("expires_at", "expires_at TEXT"); ("last_used_at", "last_used_at TEXT")].
Definition acmeAccountColumns : list (string * string) := [("key_thumbprint", "key_thumbprint TEXT NOT NULL DEFAULT ''"); ("key_jwk_json", "key_jwk_json TEXT NOT NULL DEFAULT ''")].
Definition acmeExpiryColumns : list (string * string * string) :=
  [("acme_orders", "expires_at", "expires_at TEXT NOT NULL DEFAULT '1970-01-01T00:00:00Z'");
   ("acme_authorizations", "expires_at", "expires_at TEXT NOT NULL DEFAULT '1970-01-01T00:00:00Z'");
   ("acme_authorizations", "validation_reuse_expires_at", "validation_reuse_expires_at TEXT")].

Definition applySQLiteCompatibilityMigrations : SQLM unit :=
  do* forM sqliteColumns (λ '(table, name, definition), ensureSQLiteColumn table name definition) in
  do* forM sqliteStatements (λ statement,
    do* wrapM "execute sqlite compatibility migration" (ExecContext statement []) in retM tt) in
  do* forM outboxColumns (λ '(name, definition), ensureSQLiteColumn "outbox_messages" name definition) in
  do* ensureSQLiteColumn "notification_endpoints" "secret" "secret TEXT NOT NULL DEFAULT ''" in
  do* ensureSQLiteColumn "api_keys" "scopes" ("scopes TEXT NOT NULL DEFAULT '[" +:+ dquote +:+ "operator" +:+ dquote +:+ "]'") in
  do* forM apiKeyColumns (λ '(name, definition), ensureSQLiteColumn "api_keys" name definition) in
  do* forM acmeAccountColumns (λ '(name, definition), ensureSQLiteColumn "acme_accounts" name definition) in
  do* wrapM "create sqlite acme account thumbprint index" (ExecContext "CREATE UNIQUE INDEX IF NOT EXISTS idx_acme_accounts_key_thumbprint
		ON acme_accounts(key_thumbprint)
		WHERE key_thumbprint <> ''" []) in
  forM acmeExpiryColumns (λ '(table, name, definition), ensureSQLiteColumn table name definition).

Definition postgresStatementsFirst : list string :=
  ["ALTER TABLE identities ADD COLUMN IF NOT EXISTS owner TEXT NOT NULL DEFAULT ''";
   "ALTER TABLE identities ADD COLUMN IF NOT EXISTS team TEXT NOT NULL DEFAULT ''";
   "ALTER TABLE identities ADD COLUMN IF NOT EXISTS service TEXT NOT NULL DEFAULT ''";
   "ALTER TABLE identities ADD COLUMN IF NOT EXISTS environment TEXT NOT NULL DEFAULT ''";
   "ALTER TABLE identities ADD COLUMN IF NOT EXISTS deployment_target TEXT NOT NULL DEFAULT ''";
   "ALTER TABLE identities ADD COLUMN IF NOT EXISTS last_seen_at TIMESTAMPTZ";
   "ALTER TABLE identities ADD COLUMN IF NOT EXISTS metadata_json TEXT NOT NULL DEFAULT ''";
   "ALTER TABLE identities ADD COLUMN IF NOT EXISTS allowed_dns_names TEXT NOT NULL DEFAULT '[]'";
   "ALTER TABLE identities ADD COLUMN IF NOT EXISTS allowed_ip_addresses TEXT NOT NULL DEFAULT '[]'";
   "ALTER TABLE certificate_profiles ADD COLUMN IF NOT EXISTS subject_key_identifier BOOLEAN NOT NULL DEFAULT FALSE";
   "ALTER TABLE certificate_profiles ADD COLUMN IF NOT EXISTS allowed_key_algorithms TEXT NOT NULL DEFAULT '[]'";
   "ALTER TABLE certificate_profiles ADD COLUMN IF NOT EXISTS min_key_size_bits INTEGER NOT NULL DEFAULT 0";
   "ALTER TABLE certificate_profiles ADD COLUMN IF NOT EXISTS allowed_signature_algorithms TEXT NOT NULL DEFAULT '[]'";
   "ALTER TABLE issuers ADD COLUMN IF NOT EXISTS parent_issuer_id TEXT NOT NULL DEFAULT ''";
   "ALTER TABLE issuers ADD COLUMN IF NOT EXISTS aia_url TEXT NOT NULL DEFAULT ''";
   "ALTER TABLE issuers ADD COLUMN IF NOT EXISTS crl_distribution_points TEXT NOT NULL DEFAULT '[]'";
   "ALTER TABLE issuers ADD COLUMN IF NOT EXISTS trust_anchor BOOLEAN NOT NULL DEFAULT FALSE";
   "ALTER TABLE certificate_profiles ADD COLUMN IF NOT EXISTS authority_key_identifier BOOLEAN NOT NULL DEFAULT FALSE";
   "ALTER TABLE certificate_profiles ADD COLUMN IF NOT EXISTS public_tls BOOLEAN NOT NULL DEFAULT FALSE";
   "ALTER TABLE enrollments ADD COLUMN IF NOT EXISTS certificate_profile_id TEXT NOT NULL DEFAULT ''";
   "ALTER TABLE enrollments ADD COLUMN IF NOT EXISTS source_certificate_id TEXT NOT NULL DEFAULT ''";
   "ALTER TABLE certificates ADD COLUMN IF NOT EXISTS certificate_profile_id TEXT NOT NULL DEFAULT ''";
   "ALTER TABLE certificates ADD COLUMN IF NOT EXISTS renewal_notified_at TIMESTAMPTZ";
   "ALTER TABLE certificate_issuance_attempts ADD COLUMN IF NOT EXISTS signing_evidence_json TEXT NOT NULL DEFAULT ''";
   "CREATE TABLE IF NOT EXISTS outbox_messages (
			id TEXT PRIMARY KEY,
			type TEXT NOT NULL,
			payload_json TEXT NOT NULL,
			status TEXT NOT NULL,
			available_at TIMESTAMPTZ NOT NULL,
			processing_deadline_at TIMESTAMPTZ,
			attempt_count INTEGER NOT NULL DEFAULT 0,
			max_attempts INTEGER NOT NULL DEFAULT 0,
			last_error TEXT NOT NULL DEFAULT '',
			created_at TIMESTAMPTZ NOT NULL,
			updated_at TIMESTAMPTZ NOT NULL
		)";
   "ALTER TABLE outbox_messages ADD COLUMN IF NOT EXISTS attempt_count INTEGER NOT NULL DEFAULT 0";
   "ALTER TABLE outbox_messages ADD COLUMN IF NOT EXISTS max_attempts INTEGER NOT NULL DEFAULT 0";
   "ALTER TABLE outbox_messages ADD COLUMN IF NOT EXISTS last_error TEXT NOT NULL DEFAULT ''";
   "ALTER TABLE outbox_messages ADD COLUMN IF NOT EXISTS processing_deadline_at TIMESTAMPTZ";
   "CREATE INDEX IF NOT EXISTS idx_outbox_messages_due
			ON outbox_messages(status, available_at, created_at, id)";
   "CREATE INDEX IF NOT EXISTS idx_outbox_messages_processing_deadline
			ON outbox_messages(status, processing_deadline_at, created_at, id)";
   "CREATE TABLE IF NOT EXISTS job_attempts (
			id TEXT PRIMARY KEY,
			outbox_message_id TEXT NOT NULL REFERENCES outbox_messages(id),
			status TEXT NOT NULL,
			error TEXT NOT NULL,
			started_at TIMESTAMPTZ NOT NULL,
			finished_at TIMESTAMPTZ NOT NULL,
			created_at TIMESTAMPTZ NOT NULL
		)";
   "CREATE INDEX IF NOT EXISTS idx_job_attempts_outbox_message
			ON job_attempts(outbox_message_id, created_at, id)";
   "CREATE TABLE IF NOT EXISTS notification_endpoints (
			id TEXT PRIMARY KEY,
			name TEXT NOT NULL,
			type TEXT NOT NULL,
			status TEXT NOT NULL,
			url TEXT NOT NULL,
			secret TEXT NOT NULL DEFAULT '',
			event_types TEXT NOT NULL,
			created_at TIMESTAMPTZ NOT NULL,
			updated_at TIMESTAMPTZ NOT NULL
		)";
   "ALTER TABLE notification_endpoints ADD COLUMN IF NOT EXISTS secret TEXT NOT NULL DEFAULT ''";
   "CREATE INDEX IF NOT EXISTS idx_notification_endpoints_status
			ON notification_endpoints(status, created_at, id)";
   "CREATE TABLE IF NOT EXISTS webhook_deliveries (
			outbox_message_id TEXT NOT NULL REFERENCES outbox_messages(id),
			endpoint_id TEXT NOT NULL REFERENCES notification_endpoints(id),
			status TEXT NOT NULL,
			attempt_count INTEGER NOT NULL,
			last_error TEXT NOT NULL,
			last_attempted_at TIMESTAMPTZ NOT NULL,
			created_at TIMESTAMPTZ NOT NULL,
			updated_at TIMESTAMPTZ NOT NULL,
			PRIMARY KEY (outbox_message_id, endpoint_id)
		)";
   "CREATE INDEX IF NOT EXISTS idx_webhook_deliveries_endpoint
			ON webhook_deliveries(endpoint_id, updated_at)";
   "CREATE INDEX IF NOT EXISTS idx_identities_inventory_fields
			ON identities(owner, team, service, environment, deployment_target, id)"].
Definition postgresStatementsLast : list string :=
  ["CREATE INDEX IF NOT EXISTS idx_identities_list_query
			ON identities(owner, team, service, environment, created_at, id)";
   "CREATE INDEX IF NOT EXISTS idx_enrollments_list_query
			ON enrollments(identity_id, issuer_id, certificate_profile_id, status, created_at, id)";
   "CREATE INDEX IF NOT EXISTS idx_certificates_expiration_scan
			ON certificates(status, not_after, renewal_notified_at, id)";
   "CREATE UNIQUE INDEX IF NOT EXISTS idx_certificates_enrollment
			ON certificates(enrollment_id)
			WHERE enrollment_id <> ''";
   "CREATE UNIQUE INDEX IF NOT EXISTS idx_certificates_issuer_serial
			ON certificates(issuer_id, serial_number)
			WHERE issuer_id <> '' AND serial_number <> ''";
   "CREATE INDEX IF NOT EXISTS idx_certificates_list_query
			ON certificates(issuer_id, certificate_profile_id, status, created_at, id)";
   "CREATE INDEX IF NOT EXISTS idx_certificates_renewal_query
			ON certificates(status, renewal_notified_at, created_at, id)";
   "CREATE INDEX IF NOT EXISTS idx_outbox_messages_list_query
			ON outbox_messages(status, type, created_at, id)";
   "CREATE TABLE IF NOT EXISTS certificate_issuance_attempts (
			enrollment_id TEXT PRIMARY KEY REFERENCES enrollments(id),
			status TEXT NOT NULL,
			lease_expires_at TIMESTAMPTZ,
			certificate_id TEXT NOT NULL,
			certificate_pem TEXT NOT NULL,
			serial_number TEXT NOT NULL,
			subject TEXT NOT NULL,
			not_before TIMESTAMPTZ,
			not_after TIMESTAMPTZ,
			signing_started_at TIMESTAMPTZ,
			signed_at TIMESTAMPTZ,
			finalized_at TIMESTAMPTZ,
			last_error TEXT NOT NULL,
			created_at TIMESTAMPTZ NOT NULL,
			updated_at TIMESTAMPTZ NOT NULL
		)";
   "CREATE INDEX IF NOT EXISTS idx_certificate_issuance_attempts_status_lease
			ON certificate_issuance_attempts(status, lease_expires_at, updated_at, enrollment_id)";
   "CREATE UNIQUE INDEX IF NOT EXISTS idx_crl_publications_issuer_distribution_number
			ON crl_publications(issuer_id, distribution_point, crl_number)";
   "CREATE TABLE IF NOT EXISTS crl_generation_claims (
			issuer_id TEXT NOT NULL REFERENCES issuers(id),
			distribution_point TEXT NOT NULL,
			crl_number BIGINT NOT NULL,
			lease_expires_at TIMESTAMPTZ NOT NULL,
			created_at TIMESTAMPTZ NOT NULL,
			updated_at TIMESTAMPTZ NOT NULL,
			PRIMARY KEY (issuer_id, distribution_point)
		)";
   "CREATE INDEX IF NOT EXISTS idx_crl_generation_claims_lease
			ON crl_generation_claims(lease_expires_at, issuer_id, distribution_point)";
   ("CREATE TABLE IF NOT EXISTS api_keys (
			id TEXT PRIMARY KEY,
			name TEXT NOT NULL,
			token_hash TEXT NOT NULL,
			status TEXT NOT NULL,
			actor TEXT NOT NULL,
			scopes TEXT NOT NULL DEFAULT '[" +:+ dquote +:+ "operator" +:+ dquote +:+ "]',
			expires_at TIMESTAMPTZ,
			last_used_at TIMESTAMPTZ,
			created_at TIMESTAMPTZ NOT NULL,
			updated_at TIMESTAMPTZ NOT NULL
		)");
   ("ALTER TABLE api_keys ADD COLUMN IF NOT EXISTS scopes TEXT NOT NULL DEFAULT '[" +:+ dquote +:+ "operator" +:+ dquote +:+ "]'");
   "ALTER TABLE api_keys ADD COLUMN IF NOT EXISTS expires_at TIMESTAMPTZ";
   "ALTER TABLE api_keys ADD COLUMN IF NOT EXISTS last_used_at TIMESTAMPTZ";
   "CREATE UNIQUE INDEX IF NOT EXISTS idx_api_keys_token_hash
			ON api_keys(token_hash)";
   "CREATE TABLE IF NOT EXISTS acme_accounts (
			id TEXT PRIMARY KEY,
			contacts TEXT NOT NULL,
			status TEXT NOT NULL,
			terms_of_service_agreed BOOLEAN NOT NULL,
			key_thumbprint TEXT NOT NULL DEFAULT '',
			key_jwk_json TEXT NOT NULL DEFAULT '',
			created_at TIMESTAMPTZ NOT NULL,
			updated_at TIMESTAMPTZ NOT NULL
		)";
   "ALTER TABLE acme_accounts ADD COLUMN IF NOT EXISTS key_thumbprint TEXT NOT NULL DEFAULT ''";
   "ALTER TABLE acme_accounts ADD COLUMN IF NOT EXISTS key_jwk_json TEXT NOT NULL DEFAULT ''";
   "CREATE UNIQUE INDEX IF NOT EXISTS idx_acme_accounts_key_thumbprint
			ON acme_accounts(key_thumbprint)
			WHERE key_thumbprint <> ''";
   "CREATE TABLE IF NOT EXISTS acme_nonces (
			nonce TEXT PRIMARY KEY,
			issued_at TIMESTAMPTZ NOT NULL,
			expires_at TIMESTAMPTZ NOT NULL
		)";
   "CREATE INDEX IF NOT EXISTS idx_acme_nonces_expires
			ON acme_nonces(expires_at)";
   "CREATE TABLE IF NOT EXISTS acme_orders (
			id TEXT PRIMARY KEY,
			account_id TEXT NOT NULL REFERENCES acme_accounts(id),
			identity_id TEXT NOT NULL REFERENCES identities(id),
			issuer_id TEXT NOT NULL REFERENCES issuers(id),
			certificate_profile_id TEXT NOT NULL,
			status TEXT NOT NULL,
			csr_pem TEXT NOT NULL,
			requested_subject TEXT NOT NULL,
			requested_dns_names TEXT NOT NULL,
			requested_ip_addresses TEXT NOT NULL,
			requested_not_after TIMESTAMPTZ NOT NULL,
			enrollment_id TEXT NOT NULL,
			certificate_id TEXT NOT NULL,
			expires_at TIMESTAMPTZ NOT NULL DEFAULT '1970-01-01T00:00:00Z',
			created_at TIMESTAMPTZ NOT NULL,
			updated_at TIMESTAMPTZ NOT NULL
		)";
   "ALTER TABLE acme_orders ADD COLUMN IF NOT EXISTS expires_at TIMESTAMPTZ NOT NULL DEFAULT '1970-01-01T00:00:00Z'";
   "CREATE INDEX IF NOT EXISTS idx_acme_orders_account
			ON acme_orders(account_id, created_at, id)";
   "CREATE TABLE IF NOT EXISTS acme_authorizations (
			id TEXT PRIMARY KEY,
			order_id TEXT NOT NULL REFERENCES acme_orders(id),
			identifier_type TEXT NOT NULL,
			identifier_value TEXT NOT NULL,
			status TEXT NOT NULL,
			expires_at TIMESTAMPTZ NOT NULL DEFAULT '1970-01-01T00:00:00Z',
			created_at TIMESTAMPTZ NOT NULL,
			updated_at TIMESTAMPTZ NOT NULL
		)";
   "ALTER TABLE acme_authorizations ADD COLUMN IF NOT EXISTS expires_at TIMESTAMPTZ NOT NULL DEFAULT '1970-01-01T00:00:00Z'";
   "ALTER TABLE acme_authorizations ADD COLUMN IF NOT EXISTS validation_reuse_expires_at TIMESTAMPTZ";
   "CREATE INDEX IF NOT EXISTS idx_acme_authorizations_order
			ON acme_authorizations(order_id, created_at, id)";
   "CREATE TABLE IF NOT EXISTS acme_challenges (
			id TEXT PRIMARY KEY,
			authorization_id TEXT NOT NULL REFERENCES acme_authorizations(id),
			type TEXT NOT NULL,
			token TEXT NOT NULL,
			status TEXT NOT NULL,
			validated_at TIMESTAMPTZ,
			created_at TIMESTAMPTZ NOT NULL,
			updated_at TIMESTAMPTZ NOT NULL
		)";
   "CREATE INDEX IF NOT EXISTS idx_acme_challenges_authorization
			ON acme_challenges(authorization_id, created_at, id)";
   "UPDATE issuers
			SET trust_anchor = TRUE
			WHERE kind = 'root_ca' AND trust_anchor = FALSE"].
Definition postgresStatements : list string := postgresStatementsFirst ++ postgresStatementsLast.
Definition applyPostgresCompatibilityMigrations : SQLM unit :=
  forM postgresStatements (λ statement,
    do* wrapM "execute postgres compatibility migration" (ExecContext statement []) in retM tt).

Definition applyCompatibilityMigrations (driver : string) : SQLM unit :=
  if driver =s "sqlite" then applySQLiteCompatibilityMigrations
  else if driver =s "pgx" then applyPostgresCompatibilityMigrations
  else failM (unsupportedDriver driver).

(** ** The audit chain of older databases *)

Definition scanLegacyAuditEvent (row : Row) : res AuditEvent :=
  match row with
  | [v1; v2; v3; v4; v5; v6; v7] =>
      let! x1 := scanString v1 in let! x2 := scanString v2 in let! x3 := scanString v3 in
      let! x4 := scanString v4 in let! x5 := scanString v5 in let! x6 := scanString v6 in
      let! createdAt := wrapR "parse legacy audit event time" (parseSQLTime v7) in
      Ok (mkAuditEvent x1 0 x2 x3 x4 x5 x6 "" "" "" createdAt)
  | _ => Err scanCount
  end.

Fixpoint backfillLoop (index : Z) (previousHash : string) (events : list AuditEvent) : SQLM string :=
  match events with
  | [] => retM previousHash
  | event :: events =>
      let* prepared := liftM (wrapR "backfill audit event" (withAuditEventHash (index + 1) previousHash event)) in
      do* wrapM "backfill audit event" (ExecContext "
UPDATE audit_events
SET sequence = $1, hash_algorithm = $2, previous_event_hash = $3, event_hash = $4
WHERE id = $5"
        [VInt (AuditEvent_Sequence prepared); VText (AuditEvent_HashAlgorithm prepared);
         VText (AuditEvent_PreviousEventHash prepared); VText (AuditEvent_EventHash prepared);
         VText (AuditEvent_ID prepared)]) in
      backfillLoop (index + 1) (AuditEvent_EventHash prepared) events
  end.

Definition backfillAuditHashChain : SQLM unit :=
  let* rows := wrapM "read legacy audit events" (QueryContext "
SELECT id, actor, action, resource_type, resource_id, metadata_json, created_at
FROM audit_events
ORDER BY created_at, id" []) in
  let* events := liftM (wrapR "scan legacy audit event" (scan_rows scanLegacyAuditEvent rows)) in
  let* previousHash := backfillLoop 0 "" events in
  let* now := sqlNow in
  do* wrapM "initialize audit chain state" (ExecContext "
INSERT INTO audit_chain_state (
	singleton_id, hash_algorithm, latest_sequence, latest_event_hash,
	checkpoint_sequence, checkpoint_event_hash, updated_at
) VALUES (1, $1, $2, $3, 0, '', $4)"
    [VText AuditHashAlgorithmSHA256V1; VInt (Z.of_nat (length events)); VText previousHash; VText (formatSQLTime now)]) in
  retM tt.

Definition finalizeAuditHashChainSchema (driver : string) : SQLM unit :=
  let statements := ["CREATE UNIQUE INDEX idx_audit_events_sequence ON audit_events(sequence)"] in
  let statements := if driver =s "pgx"
    then "ALTER TABLE audit_events ALTER COLUMN sequence SET NOT NULL" :: statements else statements in
  forM statements (λ statement, do* wrapM "finalize audit hash-chain schema" (ExecContext statement []) in retM tt).

Definition applyAuditHashChainMigration (driver : string) : SQLM unit :=
  let* path := liftM (auditHashChainMigrationPath driver) in
  let* sqlBytes := liftM (wrapR "read audit hash-chain migration" (migrationFiles path)) in
  let checksum := migrationChecksum sqlBytes in
  let* applied := checkSchemaMigration auditHashChainMigrationVersion checksum in
  if (applied : bool) then retM tt
  else
    do* insertSchemaMigration driver auditHashChainMigrationVersion checksum true in
    do* wrapM "execute audit hash-chain migration" (ExecContext sqlBytes []) in
    do* backfillAuditHashChain in
    do* finalizeAuditHashChainSchema driver in
    markSchemaMigrationClean driver auditHashChainMigrationVersion checksum.

(** ** The migration transaction *)

(** Opening: the busy timeout and the write lock, or the advisory lock. *)
Definition beginSQLiteMigrationTx : SQLM unit :=
  do* wrapM "set sqlite migration busy timeout" (ExecContext ("PRAGMA busy_timeout = " +:+ itoa sqliteMigrationBusyTimeoutMS) []) in
  do* wrapM "begin sqlite migration transaction" (ExecContext "BEGIN IMMEDIATE" []) in
  retM tt.
Definition beginPostgresMigrationTx : SQLM unit :=
  do* wrapM "begin postgres migration transaction" BeginTx in
  do* wrapM "lock postgres migration transaction" (affectedRows 0) in
  retM tt.
Definition beginMigrationTx (driver : string) : SQLM unit :=
  if driver =s "sqlite" then beginSQLiteMigrationTx
  else if driver =s "pgx" then beginPostgresMigrationTx
  else failM (unsupportedDriver driver).

(** [defer tx.Rollback()] around the body, with [tx.Commit()] at its end. *)
Definition migrationTx {A} (driver : string) (body : SQLM A) : SQLM A := λ c,
  match (do* beginMigrationTx driver in let* a := body in do* Commit in retM a) c with
  | (Ok a, c') => (Ok a, c')
  | (Err e, c') => (Err e, mkSQLConn (sc_db c) (sc_tick c'))
  end.

Definition ApplyInitialMigration (driver : string) : SQLM unit :=
  let* path := liftM (initialMigrationPath driver) in
  let* sqlBytes := liftM (wrapR "read initial migration" (migrationFiles path)) in
  migrationTx driver (
    do* createSchemaMigrationsTable driver in
    let checksum := migrationChecksum sqlBytes in
    let* applied := checkSchemaMigration initialMigrationVersion checksum in
    do* (if (applied : bool) then retM tt
         else do* insertSchemaMigration driver initialMigrationVersion checksum true in
           do* wrapM "execute initial migration" (ExecContext sqlBytes []) in retM tt) in
    do* applyCompatibilityMigrations driver in
    do* (if applied then retM tt else markSchemaMigrationClean driver initialMigrationVersion checksum) in
    applyAuditHashChainMigration driver).

Definition CheckInitialMigration (driver : string) : SQLM unit :=
  let* path := liftM (initialMigrationPath driver) in
  let* sqlBytes := liftM (wrapR "read initial migration" (migrationFiles path)) in
  let* applied := checkSchemaMigration initialMigrationVersion (migrationChecksum sqlBytes) in
  if negb applied then failM (versionError initialMigrationVersion "is not applied")
  else
    let* auditPath := liftM (auditHashChainMigrationPath driver) in
    let* auditSQL := liftM (wrapR "read audit hash-chain migration" (migrationFiles auditPath)) in
    let* applied := checkSchemaMigration auditHashChainMigrationVersion (migrationChecksum auditSQL) in
    if negb applied then failM (versionError auditHashChainMigrationVersion "is not applied") else retM tt.
End Migrations.
