(* ===== verification/SQLSchema.v ===== *)
(** * The schema and the rows of the SQL store

    The tables as the migrations leave them ([SQLFacts] shows that they
    do), and for every entity the row that stands for it, the values a query
    returns for it in the order of its [scan] function, and the condition under
    which it can be stored without loss: its times lie in the years 0 to 9999,
    its string lists are UTF-8 and the first part of a composite key has no byte
    0. Then [scan] inverts the writing. *)

From S2P Require Import Prelude GoLib Crypto Domain AuditChain Store Repository SQLText SQLEngine SQLTime GoJSON SQLScan.

Definition required (n : string) : ColumnDef := mkColumnDef n true VNull.
Definition nullable (n : string) : ColumnDef := mkColumnDef n false VNull.

(** ** Texts of lists and policies *)

Definition json_strings (l : list string) : string := json_Marshal (JArray (JString <$> l)).
Definition json_stringListPolicy (p : StringListExtensionPolicy) : string :=
  json_Marshal (JObject [("critical", JBoolean (StringListExtensionPolicy_Critical p));
    ("values", JArray (JString <$> StringListExtensionPolicy_Values p))]).
Definition json_basicConstraints (p : BasicConstraintsPolicy) : string :=
  json_Marshal (JObject ([("critical", JBoolean (BasicConstraintsPolicy_Critical p)); ("ca", JBoolean (BasicConstraintsPolicy_CA p))]
    ++ match BasicConstraintsPolicy_MaxPathLen p with Some n => [("max_path_len", JNumber n)] | None => [] end)).

(** A path length of 0 without the CA flag is read back as none. *)
Definition readable_constraints (p : BasicConstraintsPolicy) : bool :=
  BasicConstraintsPolicy_CA p || match BasicConstraintsPolicy_MaxPathLen p with Some n => negb (Z.eqb n 0) | None => true end.

Lemma json_Marshal_nonempty v : (if v is JDecimal _ then false else true) = true → (json_Marshal v =s "") = false.
Proof.
  intros Hd. apply String.eqb_neq. unfold json_Marshal. destruct v as [|[]|z|text|s|l|l]; try discriminate.
  destruct (print_head (JNumber z)) as (b & l & -> & _); [done|]. discriminate.
Qed.

Lemma string_elements_of l : string_elements (JString <$> l) = Ok l.
Proof. induction l as [|s l IH]; [done|]. csimpl. by rewrite IH. Qed.

Lemma valid_strings l : forallb valid_string l = true → forallb json_valid (JString <$> l) = true.
Proof.
  intros Hl. apply forallb_forall. intros v Hv. apply list_elem_of_In, list_elem_of_fmap in Hv as (s & -> & Hs).
  rewrite forallb_forall in Hl. apply Hl. by apply list_elem_of_In.
Qed.

Lemma read_strings l : forallb valid_string l = true → unmarshalStringSlice (json_strings l) = Ok l.
Proof.
  intros Hl. unfold unmarshalStringSlice, json_strings, json_unmarshal. rewrite json_Marshal_nonempty by done.
  rewrite json_roundtrip by (cbn [json_valid]; by apply valid_strings). apply string_elements_of.
Qed.
Lemma read_scopes l : forallb valid_string l = true → unmarshalAPIKeyScopes (json_strings l) = Ok l.
Proof. intros Hl. unfold unmarshalAPIKeyScopes. by rewrite read_strings. Qed.

Lemma read_policy p : forallb valid_string (StringListExtensionPolicy_Values p) = true →
  unmarshalStringListPolicy (json_stringListPolicy p) = Ok p.
Proof.
  intros Hl. unfold unmarshalStringListPolicy, json_stringListPolicy, json_unmarshal. rewrite json_Marshal_nonempty by done.
  rewrite json_roundtrip by (cbn [json_valid forallb]; by rewrite valid_strings by done).
  destruct p as [b l].
  transitivity (let! l' := string_elements (JString <$> l) in Ok (mkStringListExtensionPolicy b l')); [done|].
  by rewrite string_elements_of.
Qed.
Lemma read_constraints p : readable_constraints p = true → unmarshalBasicConstraintsPolicy (json_basicConstraints p) = Ok p.
Proof.
  intros Hr. unfold unmarshalBasicConstraintsPolicy, json_basicConstraints, json_unmarshal. rewrite json_Marshal_nonempty by done.
  rewrite json_roundtrip by (by destruct (BasicConstraintsPolicy_MaxPathLen p)).
  destruct p as [b [] [n|]]; try done. cbn in Hr. destruct n; done.
Qed.

Lemma read_time t : sqlTimeOK t = true → parseSQLTime (VText (formatSQLTime t)) = Ok t.
Proof. apply parse_formatted. Qed.
Lemma read_nullable t : sqlTimeOK t = true → parseSQLTime (formatNullableSQLTime t) = Ok t.
Proof.
  intros Ht. unfold formatNullableSQLTime. destruct (IsZero t) eqn:E; [|by apply read_time].
  unfold IsZero in E. apply Z.eqb_eq in E. by subst.
Qed.
Lemma read_bool b : scanBool (VBool b) = Ok b.
Proof. by destruct b. Qed.

Create HintDb sql_read.
#[export] Hint Rewrite read_strings read_scopes read_policy read_constraints read_time read_nullable read_bool using done : sql_read.

#[local] Arguments parseSQLTime : simpl never.
#[local] Arguments formatSQLTime : simpl never.
#[local] Arguments formatNullableSQLTime : simpl never.
#[local] Arguments json_strings : simpl never.
#[local] Arguments json_stringListPolicy : simpl never.
#[local] Arguments json_basicConstraints : simpl never.
#[local] Arguments VBool : simpl never.
#[local] Arguments unmarshalStringSlice : simpl never.
#[local] Arguments unmarshalAPIKeyScopes : simpl never.
#[local] Arguments unmarshalStringListPolicy : simpl never.
#[local] Arguments unmarshalBasicConstraintsPolicy : simpl never.
#[local] Arguments scanBool : simpl never.
#[local] Arguments sqlTimeOK : simpl never.

(** The storable fields, one by one, and then every column read back. *)
Ltac storable_fields H :=
  repeat match type of H with (_ && _) = true => apply andb_true_iff in H as [H ?] end.
Ltac scan_back :=
  match goal with |- ?s ?a = true → _ = _ =>
    let H := fresh in intros H; unfold s in H; storable_fields H; destruct a;
    match goal with |- ?f (?g _) = _ => unfold f, g end; cbn in *;
    autorewrite with sql_read; cbn; reflexivity
  end.

(** A text without the byte 0, which the in-memory store puts between the parts
    of a key. *)
Fixpoint no_nul (s : string) : bool :=
  match s with EmptyString => true | String.String c s => negb (Ascii.eqb c Ascii.zero) && no_nul s end.

(** ** Tables *)

Definition acme_accounts_table : Table := mkTable
  [nullable "id"; required "contacts"; required "status"; required "terms_of_service_agreed";
   required "key_thumbprint"; required "key_jwk_json"; required "created_at"; required "updated_at"]
  [mkIndex "acme_accounts.pk" true ["id"] None;
   mkIndex "idx_acme_accounts_key_thumbprint" true ["key_thumbprint"] (Some (XCmp OpNe (XCol "" "key_thumbprint") (XLit (VText ""))))]
  [] [].

Definition acme_authorizations_table : Table := mkTable
  [nullable "id"; required "order_id"; required "identifier_type"; required "identifier_value"; required "status";
   required "expires_at"; required "created_at"; required "updated_at"; nullable "validation_reuse_expires_at"]
  [mkIndex "acme_authorizations.pk" true ["id"] None;
   mkIndex "idx_acme_authorizations_order" false ["order_id"; "created_at"; "id"] None]
  [] [].

Definition acme_challenges_table : Table := mkTable
  [nullable "id"; required "authorization_id"; required "type"; required "token"; required "status";
   nullable "validated_at"; required "created_at"; required "updated_at"]
  [mkIndex "acme_challenges.pk" true ["id"] None;
   mkIndex "idx_acme_challenges_authorization" false ["authorization_id"; "created_at"; "id"] None]
  [] [].

Definition acme_nonces_table : Table := mkTable
  [nullable "nonce"; required "issued_at"; required "expires_at"]
  [mkIndex "acme_nonces.pk" true ["nonce"] None; mkIndex "idx_acme_nonces_expires" false ["expires_at"] None]
  [] [].

Definition acme_orders_table : Table := mkTable
  [nullable "id"; required "account_id"; required "identity_id"; required "issuer_id";
   required "certificate_profile_id"; required "status"; required "csr_pem"; required "requested_subject";
   required "requested_dns_names"; required "requested_ip_addresses"; required "requested_not_after";
   required "enrollment_id"; required "certificate_id"; required "expires_at"; required "created_at";
   required "updated_at"]
  [mkIndex "acme_orders.pk" true ["id"] None;
   mkIndex "idx_acme_orders_account" false ["account_id"; "created_at"; "id"] None]
  [] [].

Definition api_keys_table : Table := mkTable
  [nullable "id"; required "name"; required "token_hash"; required "status"; required "actor"; required "scopes";
   nullable "expires_at"; nullable "last_used_at"; required "created_at"; required "updated_at"]
  [mkIndex "api_keys.pk" true ["id"] None; mkIndex "idx_api_keys_token_hash" true ["token_hash"] None]
  [] [].

Definition audit_chain_state_table : Table := mkTable
  [nullable "singleton_id"; required "hash_algorithm"; required "latest_sequence"; required "latest_event_hash";
   required "checkpoint_sequence"; required "checkpoint_event_hash"; required "updated_at"]
  [mkIndex "audit_chain_state.pk" true ["singleton_id"] None]
  [XCmp OpEq (XCol "" "singleton_id") (XLit (VInt 1))] [].

Definition audit_events_table : Table := mkTable
  [nullable "id"; required "actor"; required "action"; required "resource_type"; required "resource_id";
   required "metadata_json"; required "created_at"; nullable "sequence";
   mkColumnDef "hash_algorithm" true (VText ""); mkColumnDef "previous_event_hash" true (VText "");
   mkColumnDef "event_hash" true (VText "")]
  [mkIndex "audit_events.pk" true ["id"] None; mkIndex "idx_audit_events_sequence" true ["sequence"] None]
  [] [].

Definition certificate_issuance_attempts_table : Table := mkTable
  [nullable "enrollment_id"; required "status"; nullable "lease_expires_at"; required "certificate_id";
   required "certificate_pem"; required "serial_number"; required "subject"; nullable "not_before";
   nullable "not_after"; nullable "signing_started_at"; nullable "signed_at"; nullable "finalized_at";
   required "last_error"; required "created_at"; required "updated_at";
   mkColumnDef "signing_evidence_json" true (VText "")]
  [mkIndex "certificate_issuance_attempts.pk" true ["enrollment_id"] None;
   mkIndex "idx_certificate_issuance_attempts_status_lease" false ["status"; "lease_expires_at"; "updated_at"; "enrollment_id"] None]
  [] [].

Definition certificate_profiles_table : Table := mkTable
  [nullable "id"; required "name"; required "description"; required "issuer_id";
   required "validity_period_seconds"; required "subject_template"; required "allowed_dns_patterns";
   required "allowed_ip_ranges"; required "allowed_key_algorithms"; required "min_key_size_bits";
   required "allowed_signature_algorithms"; required "key_usage"; required "extended_key_usage";
   required "basic_constraints"; required "subject_key_identifier"; required "authority_key_identifier";
   required "public_tls"; required "created_at"; required "updated_at"]
  [mkIndex "certificate_profiles.pk" true ["id"] None]
  [] [].

Definition certificates_table : Table := mkTable
  [nullable "id"; required "identity_id"; required "issuer_id"; required "enrollment_id";
   required "certificate_profile_id"; required "serial_number"; required "subject"; required "dns_names";
   required "ip_addresses"; required "not_before"; required "not_after"; required "status";
   required "certificate_pem"; nullable "renewal_notified_at"; required "created_at"; required "updated_at"]
  [mkIndex "certificates.pk" true ["id"] None;
   mkIndex "idx_certificates_enrollment" true ["enrollment_id"] (Some (XCmp OpNe (XCol "" "enrollment_id") (XLit (VText ""))));
   mkIndex "idx_certificates_issuer_serial" true ["issuer_id"; "serial_number"] (Some (XAnd (XCmp OpNe (XCol "" "issuer_id") (XLit (VText ""))) (XCmp OpNe (XCol "" "serial_number") (XLit (VText "")))));
   mkIndex "idx_certificates_expiration_scan" false ["status"; "not_after"; "renewal_notified_at"; "id"] None;
   mkIndex "idx_certificates_list_query" false ["issuer_id"; "certificate_profile_id"; "status"; "created_at"; "id"] None;
   mkIndex "idx_certificates_renewal_query" false ["status"; "renewal_notified_at"; "created_at"; "id"] None]
  [] [].

Definition crl_generation_claims_table : Table := mkTable
  [required "issuer_id"; required "distribution_point"; required "crl_number"; required "lease_expires_at";
   required "created_at"; required "updated_at"]
  [mkIndex "crl_generation_claims.pk" true ["issuer_id"; "distribution_point"] None;
   mkIndex "idx_crl_generation_claims_lease" false ["lease_expires_at"; "issuer_id"; "distribution_point"] None]
  [] [].

Definition crl_publications_table : Table := mkTable
  [nullable "id"; required "issuer_id"; required "distribution_point"; required "crl_number";
   required "this_update"; required "next_update"; required "status"; required "crl_pem"; required "created_at";
   required "updated_at"]
  [mkIndex "crl_publications.pk" true ["id"] None;
   mkIndex "idx_crl_publications_issuer_distribution_number" true ["issuer_id"; "distribution_point"; "crl_number"] None]
  [] [].

Definition enrollments_table : Table := mkTable
  [nullable "id"; required "identity_id"; required "issuer_id"; required "certificate_profile_id";
   required "source_certificate_id"; required "csr_pem"; required "status"; required "requested_subject";
   required "requested_dns_names"; required "requested_ip_addresses"; required "csr_dns_names";
   required "csr_ip_addresses"; required "requested_not_after"; required "approved_by"; nullable "approved_at";
   required "created_at"; required "updated_at"]
  [mkIndex "enrollments.pk" true ["id"] None;
   mkIndex "idx_enrollments_list_query" false ["identity_id"; "issuer_id"; "certificate_profile_id"; "status"; "created_at"; "id"] None]
  [] [].

Definition identities_table : Table := mkTable
  [nullable "id"; required "type"; required "name"; required "external_id"; required "owner"; required "team";
   required "service"; required "environment"; required "deployment_target"; nullable "last_seen_at";
   required "metadata_json"; required "allowed_dns_names"; required "allowed_ip_addresses"; required "status";
   required "created_at"; required "updated_at"]
  [mkIndex "identities.pk" true ["id"] None;
   mkIndex "idx_identities_inventory_fields" false ["owner"; "team"; "service"; "environment"; "deployment_target"; "id"] None;
   mkIndex "idx_identities_list_query" false ["owner"; "team"; "service"; "environment"; "created_at"; "id"] None]
  [] [].

Definition issuers_table : Table := mkTable
  [nullable "id"; required "name"; required "kind"; required "status"; required "parent_issuer_id";
   required "certificate_pem"; required "key_ref"; required "aia_url"; required "crl_distribution_points";
   required "trust_anchor"; required "created_at"; required "updated_at"]
  [mkIndex "issuers.pk" true ["id"] None]
  [] [].

Definition job_attempts_table : Table := mkTable
  [nullable "id"; required "outbox_message_id"; required "status"; required "error"; required "started_at";
   required "finished_at"; required "created_at"]
  [mkIndex "job_attempts.pk" true ["id"] None;
   mkIndex "idx_job_attempts_outbox_message" false ["outbox_message_id"; "created_at"; "id"] None]
  [] [].

Definition notification_endpoints_table : Table := mkTable
  [nullable "id"; required "name"; required "type"; required "status"; required "url"; required "secret";
   required "event_types"; required "created_at"; required "updated_at"]
  [mkIndex "notification_endpoints.pk" true ["id"] None;
   mkIndex "idx_notification_endpoints_status" false ["status"; "created_at"; "id"] None]
  [] [].

Definition ocsp_responders_table : Table := mkTable
  [nullable "id"; required "issuer_id"; required "name"; required "status"; required "certificate_pem";
   required "key_ref"; required "created_at"; required "updated_at"]
  [mkIndex "ocsp_responders.pk" true ["id"] None;
   mkIndex "idx_ocsp_responders_issuer_active" false ["issuer_id"; "status"; "created_at"; "id"] None;
   mkIndex "idx_ocsp_responders_single_active" true ["issuer_id"] (Some (XCmp OpEq (XCol "" "status") (XLit (VText "active"))))]
  [] [].

Definition outbox_messages_table : Table := mkTable
  [nullable "id"; required "type"; required "payload_json"; required "status"; required "available_at";
   nullable "processing_deadline_at"; required "attempt_count"; required "max_attempts"; required "last_error";
   required "created_at"; required "updated_at"]
  [mkIndex "outbox_messages.pk" true ["id"] None;
   mkIndex "idx_outbox_messages_due" false ["status"; "available_at"; "created_at"; "id"] None;
   mkIndex "idx_outbox_messages_processing_deadline" false ["status"; "processing_deadline_at"; "created_at"; "id"] None;
   mkIndex "idx_outbox_messages_list_query" false ["status"; "type"; "created_at"; "id"] None]
  [] [].

Definition revocations_table : Table := mkTable
  [nullable "id"; required "certificate_id"; required "reason"; required "revoked_by"; required "revoked_at";
   required "created_at"]
  [mkIndex "revocations.pk" true ["id"] None]
  [] [].

Definition schema_migrations_table : Table := mkTable
  [nullable "version"; required "checksum"; required "applied_at"; required "dirty"]
  [mkIndex "schema_migrations.pk" true ["version"] None]
  [] [].

Definition webhook_deliveries_table : Table := mkTable
  [required "outbox_message_id"; required "endpoint_id"; required "status"; required "attempt_count";
   required "last_error"; required "last_attempted_at"; required "created_at"; required "updated_at"]
  [mkIndex "webhook_deliveries.pk" true ["outbox_message_id"; "endpoint_id"] None;
   mkIndex "idx_webhook_deliveries_endpoint" false ["endpoint_id"; "updated_at"] None]
  [] [].

(** ** Rows *)

Definition Identity_values (a : Identity) : list SQLValue :=
  [VText (Identity_ID a); VText (Identity_Type a); VText (Identity_Name a); VText (Identity_ExternalID a);
   VText (Identity_Owner a); VText (Identity_Team a); VText (Identity_Service a); VText (Identity_Environment a);
   VText (Identity_DeploymentTarget a); formatNullableSQLTime (Identity_LastSeenAt a);
   VText (Identity_MetadataJSON a); VText (json_strings (Identity_AllowedDNSNames a));
   VText (json_strings (Identity_AllowedIPAddresses a)); VText (Identity_Status a);
   VText (formatSQLTime (Identity_CreatedAt a)); VText (formatSQLTime (Identity_UpdatedAt a))].
Definition Identity_row : Identity → Row := Identity_values.
Definition Identity_storable (a : Identity) : bool :=
  sqlTimeOK (Identity_LastSeenAt a) && forallb valid_string (Identity_AllowedDNSNames a) &&
  forallb valid_string (Identity_AllowedIPAddresses a) && sqlTimeOK (Identity_CreatedAt a) &&
  sqlTimeOK (Identity_UpdatedAt a).
Lemma scan_Identity a : Identity_storable a = true → scanIdentity (Identity_values a) = Ok a.
Proof. scan_back. Qed.

Definition Issuer_values (a : Issuer) : list SQLValue :=
  [VText (Issuer_ID a); VText (Issuer_Name a); VText (Issuer_Kind a); VText (Issuer_Status a);
   VText (Issuer_ParentIssuerID a); VText (Issuer_CertificatePEM a); VText (Issuer_KeyRef a);
   VText (Issuer_AIAURL a); VText (json_strings (Issuer_CRLDistributionPoints a)); VBool (Issuer_TrustAnchor a);
   VText (formatSQLTime (Issuer_CreatedAt a)); VText (formatSQLTime (Issuer_UpdatedAt a))].
Definition Issuer_row : Issuer → Row := Issuer_values.
Definition Issuer_storable (a : Issuer) : bool :=
  forallb valid_string (Issuer_CRLDistributionPoints a) && sqlTimeOK (Issuer_CreatedAt a) &&
  sqlTimeOK (Issuer_UpdatedAt a).
Lemma scan_Issuer a : Issuer_storable a = true → scanIssuer (Issuer_values a) = Ok a.
Proof. scan_back. Qed.

Definition OCSPResponder_values (a : OCSPResponder) : list SQLValue :=
  [VText (OCSPResponder_ID a); VText (OCSPResponder_IssuerID a); VText (OCSPResponder_Name a);
   VText (OCSPResponder_Status a); VText (OCSPResponder_CertificatePEM a); VText (OCSPResponder_KeyRef a);
   VText (formatSQLTime (OCSPResponder_CreatedAt a)); VText (formatSQLTime (OCSPResponder_UpdatedAt a))].
Definition OCSPResponder_row : OCSPResponder → Row := OCSPResponder_values.
Definition OCSPResponder_storable (a : OCSPResponder) : bool :=
  sqlTimeOK (OCSPResponder_CreatedAt a) && sqlTimeOK (OCSPResponder_UpdatedAt a).
Lemma scan_OCSPResponder a : OCSPResponder_storable a = true → scanOCSPResponder (OCSPResponder_values a) = Ok a.
Proof. scan_back. Qed.

Definition NotificationEndpoint_values (a : NotificationEndpoint) : list SQLValue :=
  [VText (NotificationEndpoint_ID a); VText (NotificationEndpoint_Name a); VText (NotificationEndpoint_Type a);
   VText (NotificationEndpoint_Status a); VText (NotificationEndpoint_URL a);
   VText (NotificationEndpoint_Secret a); VText (json_strings (NotificationEndpoint_EventTypes a));
   VText (formatSQLTime (NotificationEndpoint_CreatedAt a));
   VText (formatSQLTime (NotificationEndpoint_UpdatedAt a))].
Definition NotificationEndpoint_row : NotificationEndpoint → Row := NotificationEndpoint_values.
Definition NotificationEndpoint_storable (a : NotificationEndpoint) : bool :=
  forallb valid_string (NotificationEndpoint_EventTypes a) && sqlTimeOK (NotificationEndpoint_CreatedAt a) &&
  sqlTimeOK (NotificationEndpoint_UpdatedAt a).
Lemma scan_NotificationEndpoint a : NotificationEndpoint_storable a = true → scanNotificationEndpoint (NotificationEndpoint_values a) = Ok a.
Proof. scan_back. Qed.

Definition APIKey_values (a : APIKey) : list SQLValue :=
  [VText (APIKey_ID a); VText (APIKey_Name a); VText (APIKey_TokenHash a); VText (APIKey_Status a);
   VText (APIKey_Actor a); VText (json_strings (APIKey_Scopes a)); formatNullableSQLTime (APIKey_ExpiresAt a);
   formatNullableSQLTime (APIKey_LastUsedAt a); VText (formatSQLTime (APIKey_CreatedAt a));
   VText (formatSQLTime (APIKey_UpdatedAt a))].
Definition APIKey_row : APIKey → Row := APIKey_values.
Definition APIKey_storable (a : APIKey) : bool :=
  forallb valid_string (APIKey_Scopes a) && sqlTimeOK (APIKey_ExpiresAt a) &&
  sqlTimeOK (APIKey_LastUsedAt a) && sqlTimeOK (APIKey_CreatedAt a) && sqlTimeOK (APIKey_UpdatedAt a).
Lemma scan_APIKey a : APIKey_storable a = true → scanAPIKey (APIKey_values a) = Ok a.
Proof. scan_back. Qed.

Definition CertificateProfile_values (a : CertificateProfile) : list SQLValue :=
  [VText (CertificateProfile_ID a); VText (CertificateProfile_Name a); VText (CertificateProfile_Description a);
   VText (CertificateProfile_IssuerID a); VInt (CertificateProfile_ValidityPeriodSeconds a);
   VText (CertificateProfile_SubjectTemplate a); VText (json_strings (CertificateProfile_AllowedDNSPatterns a));
   VText (json_strings (CertificateProfile_AllowedIPRanges a));
   VText (json_strings (CertificateProfile_AllowedKeyAlgorithms a)); VInt (CertificateProfile_MinKeySizeBits a);
   VText (json_strings (CertificateProfile_AllowedSignatureAlgorithms a));
   VText (json_stringListPolicy (CertificateProfile_KeyUsage a));
   VText (json_stringListPolicy (CertificateProfile_ExtendedKeyUsage a));
   VText (json_basicConstraints (CertificateProfile_BasicConstraints a));
   VBool (CertificateProfile_SubjectKeyIdentifier a); VBool (CertificateProfile_AuthorityKeyIdentifier a);
   VBool (CertificateProfile_PublicTLS a); VText (formatSQLTime (CertificateProfile_CreatedAt a));
   VText (formatSQLTime (CertificateProfile_UpdatedAt a))].
Definition CertificateProfile_row : CertificateProfile → Row := CertificateProfile_values.
Definition CertificateProfile_storable (a : CertificateProfile) : bool :=
  forallb valid_string (CertificateProfile_AllowedDNSPatterns a) &&
  forallb valid_string (CertificateProfile_AllowedIPRanges a) &&
  forallb valid_string (CertificateProfile_AllowedKeyAlgorithms a) &&
  forallb valid_string (CertificateProfile_AllowedSignatureAlgorithms a) &&
  forallb valid_string (StringListExtensionPolicy_Values (CertificateProfile_KeyUsage a)) &&
  forallb valid_string (StringListExtensionPolicy_Values (CertificateProfile_ExtendedKeyUsage a)) &&
  readable_constraints (CertificateProfile_BasicConstraints a) && sqlTimeOK (CertificateProfile_CreatedAt a) &&
  sqlTimeOK (CertificateProfile_UpdatedAt a).
Lemma scan_CertificateProfile a : CertificateProfile_storable a = true → scanCertificateProfile (CertificateProfile_values a) = Ok a.
Proof. scan_back. Qed.

Definition Enrollment_values (a : Enrollment) : list SQLValue :=
  [VText (Enrollment_ID a); VText (Enrollment_IdentityID a); VText (Enrollment_IssuerID a);
   VText (Enrollment_CertificateProfileID a); VText (Enrollment_SourceCertificateID a);
   VText (Enrollment_CSRPEM a); VText (Enrollment_Status a); VText (Enrollment_RequestedSubject a);
   VText (json_strings (Enrollment_RequestedDNSNames a));
   VText (json_strings (Enrollment_RequestedIPAddresses a)); VText (json_strings (Enrollment_CSRDNSNames a));
   VText (json_strings (Enrollment_CSRIPAddresses a)); VText (formatSQLTime (Enrollment_RequestedNotAfter a));
   VText (Enrollment_ApprovedBy a); formatNullableSQLTime (Enrollment_ApprovedAt a);
   VText (formatSQLTime (Enrollment_CreatedAt a)); VText (formatSQLTime (Enrollment_UpdatedAt a))].
Definition Enrollment_row : Enrollment → Row := Enrollment_values.
Definition Enrollment_storable (a : Enrollment) : bool :=
  forallb valid_string (Enrollment_RequestedDNSNames a) &&
  forallb valid_string (Enrollment_RequestedIPAddresses a) &&
  forallb valid_string (Enrollment_CSRDNSNames a) && forallb valid_string (Enrollment_CSRIPAddresses a) &&
  sqlTimeOK (Enrollment_RequestedNotAfter a) && sqlTimeOK (Enrollment_ApprovedAt a) &&
  sqlTimeOK (Enrollment_CreatedAt a) && sqlTimeOK (Enrollment_UpdatedAt a).
Lemma scan_Enrollment a : Enrollment_storable a = true → scanEnrollment (Enrollment_values a) = Ok a.
Proof. scan_back. Qed.

Definition Certificate_values (a : Certificate) : list SQLValue :=
  [VText (Certificate_ID a); VText (Certificate_IdentityID a); VText (Certificate_IssuerID a);
   VText (Certificate_EnrollmentID a); VText (Certificate_CertificateProfileID a);
   VText (Certificate_SerialNumber a); VText (Certificate_Subject a);
   VText (json_strings (Certificate_DNSNames a)); VText (json_strings (Certificate_IPAddresses a));
   VText (formatSQLTime (Certificate_NotBefore a)); VText (formatSQLTime (Certificate_NotAfter a));
   VText (Certificate_Status a); VText (Certificate_CertificatePEM a);
   formatNullableSQLTime (Certificate_RenewalNotifiedAt a); VText (formatSQLTime (Certificate_CreatedAt a));
   VText (formatSQLTime (Certificate_UpdatedAt a))].
Definition Certificate_row : Certificate → Row := Certificate_values.
Definition Certificate_storable (a : Certificate) : bool :=
  forallb valid_string (Certificate_DNSNames a) && forallb valid_string (Certificate_IPAddresses a) &&
  sqlTimeOK (Certificate_NotBefore a) && sqlTimeOK (Certificate_NotAfter a) &&
  sqlTimeOK (Certificate_RenewalNotifiedAt a) && sqlTimeOK (Certificate_CreatedAt a) &&
  sqlTimeOK (Certificate_UpdatedAt a).
Lemma scan_Certificate a : Certificate_storable a = true → scanCertificate (Certificate_values a) = Ok a.
Proof. scan_back. Qed.

Definition IssuanceAttempt_values (a : IssuanceAttempt) : list SQLValue :=
  [VText (IssuanceAttempt_EnrollmentID a); VText (IssuanceAttempt_Status a);
   formatNullableSQLTime (IssuanceAttempt_LeaseExpiresAt a); VText (IssuanceAttempt_CertificateID a);
   VText (IssuanceAttempt_CertificatePEM a); VText (IssuanceAttempt_SerialNumber a);
   VText (IssuanceAttempt_Subject a); formatNullableSQLTime (IssuanceAttempt_NotBefore a);
   formatNullableSQLTime (IssuanceAttempt_NotAfter a); formatNullableSQLTime (IssuanceAttempt_SigningStartedAt a);
   formatNullableSQLTime (IssuanceAttempt_SignedAt a); formatNullableSQLTime (IssuanceAttempt_FinalizedAt a);
   VText (IssuanceAttempt_LastError a); VText (IssuanceAttempt_SigningEvidenceJSON a);
   VText (formatSQLTime (IssuanceAttempt_CreatedAt a)); VText (formatSQLTime (IssuanceAttempt_UpdatedAt a))].
Definition IssuanceAttempt_row (a : IssuanceAttempt) : Row :=
  [VText (IssuanceAttempt_EnrollmentID a); VText (IssuanceAttempt_Status a);
   formatNullableSQLTime (IssuanceAttempt_LeaseExpiresAt a); VText (IssuanceAttempt_CertificateID a);
   VText (IssuanceAttempt_CertificatePEM a); VText (IssuanceAttempt_SerialNumber a);
   VText (IssuanceAttempt_Subject a); formatNullableSQLTime (IssuanceAttempt_NotBefore a);
   formatNullableSQLTime (IssuanceAttempt_NotAfter a); formatNullableSQLTime (IssuanceAttempt_SigningStartedAt a);
   formatNullableSQLTime (IssuanceAttempt_SignedAt a); formatNullableSQLTime (IssuanceAttempt_FinalizedAt a);
   VText (IssuanceAttempt_LastError a); VText (formatSQLTime (IssuanceAttempt_CreatedAt a));
   VText (formatSQLTime (IssuanceAttempt_UpdatedAt a)); VText (IssuanceAttempt_SigningEvidenceJSON a)].
Definition IssuanceAttempt_storable (a : IssuanceAttempt) : bool :=
  sqlTimeOK (IssuanceAttempt_LeaseExpiresAt a) && sqlTimeOK (IssuanceAttempt_NotBefore a) &&
  sqlTimeOK (IssuanceAttempt_NotAfter a) && sqlTimeOK (IssuanceAttempt_SigningStartedAt a) &&
  sqlTimeOK (IssuanceAttempt_SignedAt a) && sqlTimeOK (IssuanceAttempt_FinalizedAt a) &&
  sqlTimeOK (IssuanceAttempt_CreatedAt a) && sqlTimeOK (IssuanceAttempt_UpdatedAt a).
Lemma scan_IssuanceAttempt a : IssuanceAttempt_storable a = true → scanIssuanceAttempt (IssuanceAttempt_values a) = Ok a.
Proof. scan_back. Qed.

Definition Revocation_values (a : Revocation) : list SQLValue :=
  [VText (Revocation_ID a); VText (Revocation_CertificateID a); VText (Revocation_Reason a);
   VText (Revocation_RevokedBy a); VText (formatSQLTime (Revocation_RevokedAt a));
   VText (formatSQLTime (Revocation_CreatedAt a))].
Definition Revocation_row : Revocation → Row := Revocation_values.
Definition Revocation_storable (a : Revocation) : bool :=
  sqlTimeOK (Revocation_RevokedAt a) && sqlTimeOK (Revocation_CreatedAt a).

Definition CRLPublication_values (a : CRLPublication) : list SQLValue :=
  [VText (CRLPublication_ID a); VText (CRLPublication_IssuerID a); VText (CRLPublication_DistributionPoint a);
   VInt (CRLPublication_CRLNumber a); VText (formatSQLTime (CRLPublication_ThisUpdate a));
   VText (formatSQLTime (CRLPublication_NextUpdate a)); VText (CRLPublication_Status a);
   VText (CRLPublication_CRLPEM a); VText (formatSQLTime (CRLPublication_CreatedAt a));
   VText (formatSQLTime (CRLPublication_UpdatedAt a))].
Definition CRLPublication_row : CRLPublication → Row := CRLPublication_values.
Definition CRLPublication_storable (a : CRLPublication) : bool :=
  sqlTimeOK (CRLPublication_ThisUpdate a) && sqlTimeOK (CRLPublication_NextUpdate a) &&
  sqlTimeOK (CRLPublication_CreatedAt a) && sqlTimeOK (CRLPublication_UpdatedAt a).
Lemma scan_CRLPublication a : CRLPublication_storable a = true → scanCRLPublication (CRLPublication_values a) = Ok a.
Proof. scan_back. Qed.

Definition CRLGenerationClaim_values (a : CRLGenerationClaim) : list SQLValue :=
  [VText (CRLGenerationClaim_IssuerID a); VText (CRLGenerationClaim_DistributionPoint a);
   VInt (CRLGenerationClaim_CRLNumber a); VText (formatSQLTime (CRLGenerationClaim_LeaseExpiresAt a));
   VText (formatSQLTime (CRLGenerationClaim_CreatedAt a)); VText (formatSQLTime (CRLGenerationClaim_UpdatedAt a))].
Definition CRLGenerationClaim_row : CRLGenerationClaim → Row := CRLGenerationClaim_values.
Definition CRLGenerationClaim_storable (a : CRLGenerationClaim) : bool :=
  no_nul (CRLGenerationClaim_IssuerID a) && sqlTimeOK (CRLGenerationClaim_LeaseExpiresAt a) &&
  sqlTimeOK (CRLGenerationClaim_CreatedAt a) && sqlTimeOK (CRLGenerationClaim_UpdatedAt a).
Lemma scan_CRLGenerationClaim a : CRLGenerationClaim_storable a = true → scanCRLGenerationClaim (CRLGenerationClaim_values a) = Ok a.
Proof. scan_back. Qed.

Definition ACMEAccount_values (a : ACMEAccount) : list SQLValue :=
  [VText (ACMEAccount_ID a); VText (json_strings (ACMEAccount_Contacts a)); VText (ACMEAccount_Status a);
   VBool (ACMEAccount_TermsOfServiceAgreed a); VText (ACMEAccount_KeyThumbprint a);
   VText (ACMEAccount_KeyJWKJSON a); VText (formatSQLTime (ACMEAccount_CreatedAt a));
   VText (formatSQLTime (ACMEAccount_UpdatedAt a))].
Definition ACMEAccount_row : ACMEAccount → Row := ACMEAccount_values.
Definition ACMEAccount_storable (a : ACMEAccount) : bool :=
  forallb valid_string (ACMEAccount_Contacts a) && sqlTimeOK (ACMEAccount_CreatedAt a) &&
  sqlTimeOK (ACMEAccount_UpdatedAt a).
Lemma scan_ACMEAccount a : ACMEAccount_storable a = true → scanACMEAccount (ACMEAccount_values a) = Ok a.
Proof. scan_back. Qed.

Definition ACMEOrder_values (a : ACMEOrder) : list SQLValue :=
  [VText (ACMEOrder_ID a); VText (ACMEOrder_AccountID a); VText (ACMEOrder_IdentityID a);
   VText (ACMEOrder_IssuerID a); VText (ACMEOrder_CertificateProfileID a); VText (ACMEOrder_Status a);
   VText (ACMEOrder_CSRPEM a); VText (ACMEOrder_RequestedSubject a);
   VText (json_strings (ACMEOrder_RequestedDNSNames a)); VText (json_strings (ACMEOrder_RequestedIPAddresses a));
   VText (formatSQLTime (ACMEOrder_RequestedNotAfter a)); VText (ACMEOrder_EnrollmentID a);
   VText (ACMEOrder_CertificateID a); VText (formatSQLTime (ACMEOrder_ExpiresAt a));
   VText (formatSQLTime (ACMEOrder_CreatedAt a)); VText (formatSQLTime (ACMEOrder_UpdatedAt a))].
Definition ACMEOrder_row : ACMEOrder → Row := ACMEOrder_values.
Definition ACMEOrder_storable (a : ACMEOrder) : bool :=
  forallb valid_string (ACMEOrder_RequestedDNSNames a) &&
  forallb valid_string (ACMEOrder_RequestedIPAddresses a) && sqlTimeOK (ACMEOrder_RequestedNotAfter a) &&
  sqlTimeOK (ACMEOrder_ExpiresAt a) && sqlTimeOK (ACMEOrder_CreatedAt a) && sqlTimeOK (ACMEOrder_UpdatedAt a).
Lemma scan_ACMEOrder a : ACMEOrder_storable a = true → scanACMEOrder (ACMEOrder_values a) = Ok a.
Proof. scan_back. Qed.

Definition ACMEAuthorization_values (a : ACMEAuthorization) : list SQLValue :=
  [VText (ACMEAuthorization_ID a); VText (ACMEAuthorization_OrderID a);
   VText (ACMEAuthorization_IdentifierType a); VText (ACMEAuthorization_IdentifierValue a);
   VText (ACMEAuthorization_Status a); VText (formatSQLTime (ACMEAuthorization_ExpiresAt a));
   formatNullableSQLTime (ACMEAuthorization_ValidationReuseExpiresAt a);
   VText (formatSQLTime (ACMEAuthorization_CreatedAt a)); VText (formatSQLTime (ACMEAuthorization_UpdatedAt a))].
Definition ACMEAuthorization_row (a : ACMEAuthorization) : Row :=
  [VText (ACMEAuthorization_ID a); VText (ACMEAuthorization_OrderID a);
   VText (ACMEAuthorization_IdentifierType a); VText (ACMEAuthorization_IdentifierValue a);
   VText (ACMEAuthorization_Status a); VText (formatSQLTime (ACMEAuthorization_ExpiresAt a));
   VText (formatSQLTime (ACMEAuthorization_CreatedAt a)); VText (formatSQLTime (ACMEAuthorization_UpdatedAt a));
   formatNullableSQLTime (ACMEAuthorization_ValidationReuseExpiresAt a)].
Definition ACMEAuthorization_storable (a : ACMEAuthorization) : bool :=
  sqlTimeOK (ACMEAuthorization_ExpiresAt a) && sqlTimeOK (ACMEAuthorization_ValidationReuseExpiresAt a) &&
  sqlTimeOK (ACMEAuthorization_CreatedAt a) && sqlTimeOK (ACMEAuthorization_UpdatedAt a).
Lemma scan_ACMEAuthorization a : ACMEAuthorization_storable a = true → scanACMEAuthorization (ACMEAuthorization_values a) = Ok a.
Proof. scan_back. Qed.

Definition ACMEChallenge_values (a : ACMEChallenge) : list SQLValue :=
  [VText (ACMEChallenge_ID a); VText (ACMEChallenge_AuthorizationID a); VText (ACMEChallenge_Type a);
   VText (ACMEChallenge_Token a); VText (ACMEChallenge_Status a);
   formatNullableSQLTime (ACMEChallenge_ValidatedAt a); VText (formatSQLTime (ACMEChallenge_CreatedAt a));
   VText (formatSQLTime (ACMEChallenge_UpdatedAt a))].
Definition ACMEChallenge_row : ACMEChallenge → Row := ACMEChallenge_values.
Definition ACMEChallenge_storable (a : ACMEChallenge) : bool :=
  sqlTimeOK (ACMEChallenge_ValidatedAt a) && sqlTimeOK (ACMEChallenge_CreatedAt a) &&
  sqlTimeOK (ACMEChallenge_UpdatedAt a).
Lemma scan_ACMEChallenge a : ACMEChallenge_storable a = true → scanACMEChallenge (ACMEChallenge_values a) = Ok a.
Proof. scan_back. Qed.

Definition OutboxMessage_values (a : OutboxMessage) : list SQLValue :=
  [VText (OutboxMessage_ID a); VText (OutboxMessage_Type a); VText (OutboxMessage_PayloadJSON a);
   VText (OutboxMessage_Status a); VText (formatSQLTime (OutboxMessage_AvailableAt a));
   formatNullableSQLTime (OutboxMessage_ProcessingDeadlineAt a); VInt (OutboxMessage_AttemptCount a);
   VInt (OutboxMessage_MaxAttempts a); VText (OutboxMessage_LastError a);
   VText (formatSQLTime (OutboxMessage_CreatedAt a)); VText (formatSQLTime (OutboxMessage_UpdatedAt a))].
Definition OutboxMessage_row : OutboxMessage → Row := OutboxMessage_values.
Definition OutboxMessage_storable (a : OutboxMessage) : bool :=
  sqlTimeOK (OutboxMessage_AvailableAt a) && sqlTimeOK (OutboxMessage_ProcessingDeadlineAt a) &&
  sqlTimeOK (OutboxMessage_CreatedAt a) && sqlTimeOK (OutboxMessage_UpdatedAt a).
Lemma scan_OutboxMessage a : OutboxMessage_storable a = true → scanOutboxMessage (OutboxMessage_values a) = Ok a.
Proof. scan_back. Qed.

Definition JobAttempt_values (a : JobAttempt) : list SQLValue :=
  [VText (JobAttempt_ID a); VText (JobAttempt_OutboxMessageID a); VText (JobAttempt_Status a);
   VText (JobAttempt_Error a); VText (formatSQLTime (JobAttempt_StartedAt a));
   VText (formatSQLTime (JobAttempt_FinishedAt a)); VText (formatSQLTime (JobAttempt_CreatedAt a))].
Definition JobAttempt_row : JobAttempt → Row := JobAttempt_values.
Definition JobAttempt_storable (a : JobAttempt) : bool :=
  sqlTimeOK (JobAttempt_StartedAt a) && sqlTimeOK (JobAttempt_FinishedAt a) &&
  sqlTimeOK (JobAttempt_CreatedAt a).
Lemma scan_JobAttempt a : JobAttempt_storable a = true → scanJobAttempt (JobAttempt_values a) = Ok a.
Proof. scan_back. Qed.

Definition WebhookDelivery_values (a : WebhookDelivery) : list SQLValue :=
  [VText (WebhookDelivery_OutboxMessageID a); VText (WebhookDelivery_EndpointID a);
   VText (WebhookDelivery_Status a); VInt (WebhookDelivery_AttemptCount a); VText (WebhookDelivery_LastError a);
   VText (formatSQLTime (WebhookDelivery_LastAttemptedAt a)); VText (formatSQLTime (WebhookDelivery_CreatedAt a));
   VText (formatSQLTime (WebhookDelivery_UpdatedAt a))].
Definition WebhookDelivery_row : WebhookDelivery → Row := WebhookDelivery_values.
Definition WebhookDelivery_storable (a : WebhookDelivery) : bool :=
  no_nul (WebhookDelivery_OutboxMessageID a) && sqlTimeOK (WebhookDelivery_LastAttemptedAt a) &&
  sqlTimeOK (WebhookDelivery_CreatedAt a) && sqlTimeOK (WebhookDelivery_UpdatedAt a).
Lemma scan_WebhookDelivery a : WebhookDelivery_storable a = true → scanWebhookDelivery (WebhookDelivery_values a) = Ok a.
Proof. scan_back. Qed.

Definition AuditEvent_values (a : AuditEvent) : list SQLValue :=
  [VText (AuditEvent_ID a); VInt (AuditEvent_Sequence a); VText (AuditEvent_Actor a); VText (AuditEvent_Action a);
   VText (AuditEvent_ResourceType a); VText (AuditEvent_ResourceID a); VText (AuditEvent_MetadataJSON a);
   VText (AuditEvent_HashAlgorithm a); VText (AuditEvent_PreviousEventHash a); VText (AuditEvent_EventHash a);
   VText (formatSQLTime (AuditEvent_CreatedAt a))].
Definition AuditEvent_row (a : AuditEvent) : Row :=
  [VText (AuditEvent_ID a); VText (AuditEvent_Actor a); VText (AuditEvent_Action a);
   VText (AuditEvent_ResourceType a); VText (AuditEvent_ResourceID a); VText (AuditEvent_MetadataJSON a);
   VText (formatSQLTime (AuditEvent_CreatedAt a)); VInt (AuditEvent_Sequence a);
   VText (AuditEvent_HashAlgorithm a); VText (AuditEvent_PreviousEventHash a); VText (AuditEvent_EventHash a)].
Definition AuditEvent_storable (a : AuditEvent) : bool :=
  sqlTimeOK (AuditEvent_CreatedAt a).
Lemma scan_AuditEvent a : AuditEvent_storable a = true → scanAuditEvent (AuditEvent_values a) = Ok a.
Proof. scan_back. Qed.
