(* ===== verification/SQLEngineFacts.v ===== *)
(** * Statements on tables of represented rows

    Lemmas about [SQLEngine] for a table whose rows stand for values: [row] maps
    a value to its row. What a query selects, orders and returns, what an insert
    adds, what an update replaces and what a delete removes are stated on the
    values. The conditions on the statement are computations on the text the
    sources send. *)

From S2P Require Import Prelude GoLib SQLText SQLEngine.

(** ** Sorting related lists gives related lists *)

Section SortRelated.
Context {A B : Type} (rel : A → B → Prop) (less1 : A → A → bool) (less2 : B → B → bool).
Hypothesis less_rel : ∀ a a' b b', rel a b → rel a' b' → less1 a a' = less2 b b'.

Lemma list_merge_related l1 l1' l2 l2' : Forall2 rel l1 l1' → Forall2 rel l2 l2' →
  Forall2 rel (list_merge (not_after less1) l1 l2) (list_merge (not_after less2) l1' l2').
Proof.
  intros H1. revert l2 l2'. induction H1 as [|x y l1 l1' Hxy H1 IH]; intros l2 l2' H2.
  - by destruct H2; constructor.
  - induction H2 as [|x' y' l2 l2' Hxy' H2 IH2]; [by constructor|]. cbn -[decide].
    assert (not_after less1 x x' ↔ not_after less2 y y') as Heq
      by (unfold not_after; by rewrite (less_rel x' x y' y)).
    destruct (decide (not_after less1 x x')), (decide (not_after less2 y y')); try tauto.
    + constructor; [done|]. apply IH. by constructor.
    + constructor; [done|]. exact IH2.
Qed.

#[local] Notation stack_rel := (Forall2 (option_Forall2 (Forall2 rel))).

Lemma merge_list_to_stack_related st st' l l' : stack_rel st st' → Forall2 rel l l' →
  stack_rel (merge_list_to_stack (not_after less1) st l) (merge_list_to_stack (not_after less2) st' l').
Proof.
  intros Hst. revert l l'. induction Hst as [|x y st st' Hxy Hst IH]; intros l l' Hl; cbn; [by repeat constructor|].
  destruct Hxy; repeat constructor; try done. apply IH. by apply list_merge_related.
Qed.

Lemma merge_stack_related st st' : stack_rel st st' →
  Forall2 rel (merge_stack (not_after less1) st) (merge_stack (not_after less2) st').
Proof.
  induction 1 as [|x y st st' Hxy Hst IH]; [constructor|]. destruct Hxy; cbn; [|done]. by apply list_merge_related.
Qed.

Lemma go_sort_related l l' : Forall2 rel l l' → Forall2 rel (go_sort less1 l) (go_sort less2 l').
Proof.
  unfold go_sort, merge_sort. intros Hl.
  assert (stack_rel [] []) as Hst by constructor. revert Hst. generalize (@nil (option (list A))) (@nil (option (list B))).
  induction Hl as [|x y l l' Hxy Hl IH]; intros st st' Hst; cbn; [by apply merge_stack_related|].
  apply IH. apply merge_list_to_stack_related; [done|]. by repeat constructor.
Qed.
End SortRelated.

Lemma go_sort_fmap {A B} (f : B → A) (P : B → Prop) less1 less2 l :
  (∀ a b, P a → P b → less1 (f a) (f b) = less2 a b) → Forall P l → go_sort less1 (f <$> l) = f <$> go_sort less2 l.
Proof.
  intros Hless Hl.
  assert (Forall2 (λ x b, x = f b ∧ P b) (go_sort less1 (f <$> l)) (go_sort less2 l)) as Hr.
  { apply go_sort_related; [by intros ???? [-> ?] [-> ?]; apply Hless|].
    induction Hl; csimpl; constructor; auto. }
  induction Hr as [|x b ?? [-> _] _ IH]; csimpl; [done|]. by rewrite IH.
Qed.

Lemma filter_fmap_bool {A B} (f : A → B) (p : B → bool) (q : A → bool) l :
  Forall (λ a, p (f a) = q a) l → filter (λ x, p x = true) (f <$> l) = f <$> filter (λ a, q a = true) l.
Proof.
  induction 1 as [|a l Ha _ IH]; [done|]. csimpl. rewrite !filter_cons, IH.
  by destruct (decide (p (f a) = true)), (decide (q a = true)); try congruence.
Qed.

Lemma filter_twice {A} (f g k : A → bool) l : Forall (λ a, f a && g a = k a) l →
  filter (λ a, g a = true) (filter (λ a, f a = true) l) = filter (λ a, k a = true) l.
Proof.
  induction 1 as [|a l Ha _ IH]; [done|]. destruct (f a) eqn:Ef; cbn in Ha.
  - rewrite (filter_cons_True (λ a, f a = true)) by done. destruct (k a) eqn:Ek.
    + rewrite !filter_cons_True by done. by rewrite IH.
    + rewrite !filter_cons_False by congruence. done.
  - rewrite (filter_cons_False (λ a, f a = true)), (filter_cons_False (λ a, k a = true)) by congruence. done.
Qed.

(** ** Values *)

Lemma cmp_eq a b : cmp_holds OpEq (String.compare a b) = (a =s b).
Proof.
  destruct (String.compare a b) eqn:E; cbn; symmetry; [apply String.eqb_eq; by apply String.compare_eq_iff|..];
    apply String.eqb_neq; intros ->; by rewrite string_compare_refl in E.
Qed.
Lemma cmp_eqZ a b : cmp_holds OpEq (Z.compare a b) = Z.eqb a b.
Proof. destruct (Z.compare_spec a b); symmetry; cbn; [by apply Z.eqb_eq|apply Z.eqb_neq; lia..]. Qed.
Lemma cmp_leZ a b : cmp_holds OpLe (Z.compare a b) = Z.leb a b.
Proof. destruct (Z.compare_spec a b); symmetry; cbn; [apply Z.leb_le; lia..|apply Z.leb_gt; lia]. Qed.
Lemma cmp_geZ a b : cmp_holds OpGe (Z.compare a b) = Z.leb b a.
Proof. destruct (Z.compare_spec a b); symmetry; cbn; [apply Z.leb_le; lia|apply Z.leb_gt; lia|apply Z.leb_le; lia]. Qed.
Lemma cmp_gtZ a b : cmp_holds OpGt (Z.compare a b) = Z.ltb b a.
Proof. destruct (Z.compare_spec a b); symmetry; cbn; [apply Z.ltb_ge; lia|apply Z.ltb_ge; lia|apply Z.ltb_lt; lia]. Qed.
Lemma cmp_ne a b : cmp_holds OpNe (String.compare a b) = (a <>s b).
Proof. rewrite <- cmp_eq. by destruct (String.compare a b). Qed.
Lemma truth_bool b : truth (VBool b) = Some b.
Proof. by destruct b. Qed.
Lemma truth_of_truth b : truth (of_truth b) = b.
Proof. by destruct b as [[]|]. Qed.
Lemma and3_some a b : and3 (Some a) (Some b) = Some (a && b).
Proof. by destruct a, b. Qed.
Lemma or3_some a b : or3 (Some a) (Some b) = Some (a || b).
Proof. by destruct a, b. Qed.
Lemma selected_some b : match Some b with Some true => true | _ => false end = b.
Proof. by destruct b. Qed.

Create HintDb sql.
#[export] Hint Rewrite cmp_eq cmp_eqZ cmp_leZ cmp_geZ cmp_gtZ cmp_ne truth_bool truth_of_truth and3_some or3_some selected_some : sql.

(** ** Queries *)

Lemma limited_fmap {A B} (f : A → B) args limit offset l : limited args limit offset (f <$> l) = f <$> limited args limit offset l.
Proof.
  unfold limited. destruct offset as [o|]; [destruct (eval [] args o)|]; (destruct limit as [m|]; [destruct (eval [] args m)|]);
    rewrite <- ?fmap_drop; try done; destruct (Z.ltb _ 0); rewrite <- ?fmap_take; done.
Qed.

Lemma elem_of_limited {A} args limit offset (l : list A) x : x ∈ limited args limit offset l → x ∈ l.
Proof.
  assert (∀ e l', x ∈ match eval [] args e with VInt n => if Z.ltb n 0 then l' else take (Z.to_nat n) l' | _ => l' end → x ∈ l').
  { intros e l'. destruct (eval [] args e); try done. destruct (Z.ltb _ 0); [done|]. intros (? & Hx & _)%elem_of_take.
    by eapply list_elem_of_lookup_2. }
  assert (∀ e l', x ∈ match eval [] args e with VInt n => drop (Z.to_nat n) l' | _ => l' end → x ∈ l').
  { intros e l'. destruct (eval [] args e); try done. intros (? & Hx)%list_elem_of_lookup_1. rewrite lookup_drop in Hx.
    by eapply list_elem_of_lookup_2. }
  unfold limited. destruct limit, offset; eauto.
Qed.

Section Rows.
Context {V : Type} (t : Table) (row : V → Row) (P : V → Prop).

(** A query over one table. *)
Lemma run_select_rows scan db args s alias columns cond order limit offset table l (keep : V → bool) less values :
  s = mkSelect columns (table, alias) [] cond order limit offset →
  db !! table = Some (with_rows t (row <$> l)) → (∀ rows, scan rows ≡ₚ rows) → Forall P l →
  names_ok args [(alias, column_names t)] s = true →
  (∀ a, P a → selects (row_scope alias t (row a)) args cond = keep a) →
  (∀ a b, P a → P b → keep a = true → keep b = true → order_less args order (row_scope alias t (row a)) (row_scope alias t (row b)) = less a b) →
  (∀ a, P a → eval (row_scope alias t (row a)) args <$> columns = values a) →
  ∃ l', l' ≡ₚ l ∧
    run_select scan db args s = Ok (values <$> limited args limit offset (go_sort less (filter (λ a, keep a = true) l'))).
Proof.
  intros -> Hdb Hscan HP Hok Hkeep Hless Hvalues.
  destruct (Permutation_map_inv row l (Hscan (row <$> l))) as (l' & Hl' & Hp).
  exists l'. split; [by symmetry|]. assert (Forall P l') as HP' by by rewrite <- Hp.
  unfold run_select. cbn [sel_from sel_joins fst snd]. rewrite Hdb.
  assert (select_ok db args (mkSelect columns (table, alias) [] cond order limit offset) = true) as ->.
  { unfold select_ok. cbn [sources_of sel_from sel_joins fst fmap list_fmap]. by rewrite Hdb. }
  cbn [negb join_all]. f_equal. unfold scopes_of.
  assert (scan (tb_rows (with_rows t (row <$> l))) = row <$> l') as -> by exact Hl'. rewrite <- list_fmap_compose.
  cbn [sel_where sel_order sel_limit sel_offset sel_columns].
  assert (filter (λ x, selects x args cond = true) ((row_scope alias (with_rows t (row <$> l)) ∘ row) <$> l')
    = (row_scope alias t ∘ row) <$> filter (λ a, keep a = true) l') as ->.
  { apply (filter_fmap_bool _ (λ x, selects x args cond)). by eapply Forall_impl, Hkeep. }
  assert (Forall (λ a, P a ∧ keep a = true) (filter (λ a, keep a = true) l')) as HPf.
  { apply Forall_forall. intros a [? Ha]%list_elem_of_filter. split; [|done]. by eapply Forall_forall in HP'. }
  rewrite (go_sort_fmap (row_scope alias t ∘ row) (λ a, P a ∧ keep a = true) _ less); [|by intros a b [??] [??]; apply Hless|done].
  rewrite limited_fmap, <- list_fmap_compose. apply list_fmap_ext. intros i a Ha. cbn. apply Hvalues.
  rewrite Forall_forall in HPf. apply HPf. rewrite <- (go_sort_perm less).
  by eapply elem_of_limited, list_elem_of_lookup_2.
Qed.

(** ** Changes *)

(** The rows of a table that a new row would collide with. *)
Definition collides (a b : V) : bool := existsb (λ ix, ix_unique ix && conflicting t ix (row a) (row b)) (tb_indexes t).

Lemma violated_none new l : Forall (λ a, collides new a = false) l → violated t (row new) (row <$> l) = None.
Proof.
  intros Hl. unfold violated. apply fmap_None, list_find_None, Forall_forall.
  intros ix Hix [Hu Hc]%andb_true_iff. apply list_find_existsb in Hc as (r & (a & -> & Ha)%list_elem_of_fmap & Hc).
  rewrite Forall_forall in Hl. specialize (Hl a Ha). apply not_true_iff_false in Hl. apply Hl.
  apply list_find_existsb. exists ix. split; [done|]. by rewrite Hu, Hc.
Qed.
Lemma violated_some new l : Exists (λ a, collides new a = true) l → is_Some (violated t (row new) (row <$> l)).
Proof.
  intros (a & Ha & Hc)%Exists_exists. apply list_find_existsb in Hc as (ix & Hix & [Hu Hc]%andb_true_iff).
  unfold violated. apply fmap_is_Some, (list_find_elem_of _ _ ix Hix). apply andb_true_iff. split; [done|].
  apply list_find_existsb. exists (row a). split; [by apply list_elem_of_fmap_2|done].
Qed.

Lemma insert_statement scan db args table columns exprs l new :
  db !! table = Some (with_rows t (row <$> l)) →
  forallb (λ c, existsb (String.eqb c) (column_names t)) columns && Nat.eqb (length columns) (length exprs)
    && forallb (expr_ok [] (length args)) exprs = true →
  inserted_row t columns (eval [] args <$> exprs) = row new → row_ok t (row new) = true →
  exec_statement scan args (SInsert table columns exprs None) db =
    match violated t (row new) (row <$> l) with
    | None => Ok ([], 1%Z, <[table := with_rows t (row <$> (l ++ [new]))]> db)
    | Some ix => Err (unique_error table ix)
    end.
Proof.
  intros Hdb Hok Hnew Hrow. unfold exec_statement. rewrite Hdb.
  change (column_names (with_rows t (row <$> l))) with (column_names t). rewrite Hok. cbn [andb negb].
  change (inserted_row (with_rows t (row <$> l))) with (inserted_row t). rewrite Hnew.
  unfold insert_row. change (row_ok (with_rows t (row <$> l))) with (row_ok t). rewrite Hrow. cbn [negb].
  change (violated (with_rows t (row <$> l)) (row new) (tb_rows (with_rows t (row <$> l)))) with (violated t (row new) (row <$> l)).
  destruct (violated t (row new) (row <$> l)); [done|]. cbn [bindR]. by rewrite fmap_app.
Qed.

(** [ON CONFLICT DO UPDATE] on the row in the way. *)
Lemma upsert_rows_one table ix new args sets f l1 a l2 done :
  Forall (λ b, conflicting t ix new (row b) = false) l1 → conflicting t ix new (row a) = true →
  updated_row t (row_scope table t (row a) ++ [("excluded", column_names t, new)]) args sets (row a) = row (f a) →
  row_ok t (row (f a)) = true → violated t (row (f a)) (done ++ (row <$> (l1 ++ l2))) = None →
  upsert_rows table t ix new args sets done (row <$> (l1 ++ a :: l2)) = Ok (done ++ (row <$> (l1 ++ f a :: l2))).
Proof.
  intros Hl1 Ha Hf Hok. revert done. induction Hl1 as [|b l1 Hb _ IH]; intros dn Hv; csimpl in *.
  - rewrite Ha, Hf, Hok. cbn [negb]. by rewrite Hv.
  - rewrite Hb. rewrite IH by (by rewrite <- app_assoc). by rewrite <- app_assoc.
Qed.

Lemma upsert_rows_with rows table ix new args sets dn todo :
  upsert_rows table (with_rows t rows) ix new args sets dn todo = upsert_rows table t ix new args sets dn todo.
Proof.
  revert dn. induction todo as [|r todo IH]; intros dn; [done|]. cbn [upsert_rows].
  change (conflicting (with_rows t rows)) with (conflicting t). destruct (conflicting t ix new r); [done|apply IH].
Qed.

Lemma upsert_statement scan db args table columns exprs target sets l new :
  db !! table = Some (with_rows t (row <$> l)) →
  forallb (λ c, existsb (String.eqb c) (column_names t)) columns && Nat.eqb (length columns) (length exprs)
    && forallb (expr_ok [] (length args)) exprs
    && forallb (λ '(c, e), existsb (String.eqb c) (column_names t)
         && expr_ok [(table, column_names t); ("excluded", column_names t)] (length args) e) sets = true →
  inserted_row t columns (eval [] args <$> exprs) = row new → row_ok t (row new) = true →
  exec_statement scan args (SInsert table columns exprs (Some (target, sets))) db =
    let! rows := match violated t (row new) (row <$> l) with
      | None => Ok (row <$> (l ++ [new]))
      | Some ix => if bool_decide (target = ix_columns ix) then upsert_rows table t ix (row new) args sets [] (row <$> l)
          else Err (unique_error table ix)
      end in
    Ok ([], 1%Z, <[table := with_rows t rows]> db).
Proof.
  intros Hdb Hok Hnew Hrow. unfold exec_statement. rewrite Hdb.
  change (column_names (with_rows t (row <$> l))) with (column_names t). rewrite Hok. cbn [negb].
  change (inserted_row (with_rows t (row <$> l))) with (inserted_row t). rewrite Hnew.
  unfold insert_row. change (row_ok (with_rows t (row <$> l))) with (row_ok t). rewrite Hrow. cbn [negb].
  change (violated (with_rows t (row <$> l)) (row new) (tb_rows (with_rows t (row <$> l)))) with (violated t (row new) (row <$> l)).
  destruct (violated t (row new) (row <$> l)) as [ix|]; [|cbn [bindR]; by rewrite fmap_app].
  case_bool_decide; [|done]. by rewrite upsert_rows_with.
Qed.

Section Update.
Variables (table : string) (args : list SQLValue) (sets : list (string * Expr)) (cond : option Expr).
Variables (keep : V → bool) (f : V → V).
Hypothesis keep_spec : ∀ a, P a → selects (row_scope table t (row a)) args cond = keep a.
Hypothesis update_spec : ∀ a, P a → keep a = true → updated_row t (row_scope table t (row a)) args sets (row a) = row (f a).
Hypothesis row_spec : ∀ a, P a → keep a = true → row_ok t (row (f a)) = true.

Lemma update_rows_skip done l todo n : Forall P l → Forall (λ a, keep a = false) l →
  update_rows table t args sets cond done ((row <$> l) ++ todo) n = update_rows table t args sets cond (done ++ (row <$> l)) todo n.
Proof.
  intros HP. revert done. induction HP as [|a l Ha HP IH]; intros done Hk; csimpl; [by rewrite app_nil_r|].
  apply Forall_cons in Hk as [Hka Hk]. rewrite keep_spec, Hka by done. rewrite IH by done.
  by rewrite <- app_assoc.
Qed.

Lemma update_rows_one l1 a l2 : Forall P (l1 ++ a :: l2) → keep a = true → Forall (λ b, keep b = false) (l1 ++ l2) →
  update_rows table t args sets cond [] (row <$> (l1 ++ a :: l2)) 0 =
    match violated t (row (f a)) (row <$> (l1 ++ l2)) with
    | None => Ok (row <$> (l1 ++ f a :: l2), 1%Z)
    | Some ix => Err (unique_error table ix)
    end.
Proof.
  intros HP Hka Hk. apply Forall_app in HP as [HP1 HP2], Hk as [Hk1 Hk2]. apply Forall_cons in HP2 as [HPa HP2].
  rewrite fmap_app, update_rows_skip by done. csimpl. rewrite keep_spec, Hka by done. rewrite update_spec, row_spec by done.
  cbn [negb]. rewrite fmap_app. destruct (violated t (row (f a)) ((row <$> l1) ++ (row <$> l2))); [done|].
  pose proof (update_rows_skip ((row <$> l1) ++ [row (f a)]) l2 [] 1 HP2 Hk2) as Hs. rewrite app_nil_r in Hs.
  etrans; [exact Hs|]. cbn [update_rows]. rewrite fmap_app. csimpl. by rewrite <- app_assoc.
Qed.

Lemma update_rows_none l : Forall P l → Forall (λ a, keep a = false) l →
  update_rows table t args sets cond [] (row <$> l) 0 = Ok (row <$> l, 0%Z).
Proof.
  intros HP Hk. pose proof (update_rows_skip [] l [] 0 HP Hk) as Hs. by rewrite app_nil_r in Hs.
Qed.

Lemma update_statement scan db l :
  db !! table = Some (with_rows t (row <$> l)) →
  forallb (λ '(c, e), existsb (String.eqb c) (column_names t) && expr_ok [(table, column_names t)] (length args) e) sets
    && cond_ok [(table, column_names t)] (length args) cond = true →
  exec_statement scan args (SUpdate table sets cond) db =
    let! r := update_rows table t args sets cond [] (row <$> l) 0 in
    let '(rows, n) := r in Ok ([], n, <[table := with_rows t rows]> db).
Proof.
  intros Hdb Hok. unfold exec_statement. rewrite Hdb.
  change (column_names (with_rows t (row <$> l))) with (column_names t). rewrite Hok. cbn [negb].
  assert (∀ done todo n, update_rows table (with_rows t (row <$> l)) args sets cond done todo n
    = update_rows table t args sets cond done todo n) as ->; [|done].
  intros dn todo. revert dn. induction todo as [|r todo IH]; intros dn n; [done|]. cbn [update_rows].
  change (row_scope table (with_rows t (row <$> l)) r) with (row_scope table t r). destruct (selects _ _ _); [|apply IH].
  change (updated_row (with_rows t (row <$> l))) with (updated_row t). change (row_ok (with_rows t (row <$> l))) with (row_ok t).
  change (violated (with_rows t (row <$> l))) with (violated t). destruct (negb _); [done|]. destruct (violated t _ _); [done|apply IH].
Qed.

Lemma delete_statement scan db l :
  db !! table = Some (with_rows t (row <$> l)) → Forall P l → cond_ok [(table, column_names t)] (length args) cond = true →
  exec_statement scan args (SDelete table cond) db =
    Ok ([], (Z.of_nat (length l) - Z.of_nat (length (filter (λ a, negb (keep a) = true) l)))%Z,
        <[table := with_rows t (row <$> filter (λ a, negb (keep a) = true) l)]> db).
Proof.
  intros Hdb HP Hok. unfold exec_statement. rewrite Hdb.
  change (column_names (with_rows t (row <$> l))) with (column_names t). rewrite Hok. cbn [negb].
  assert (filter (λ r, selects (row_scope table (with_rows t (row <$> l)) r) args cond = false) (tb_rows (with_rows t (row <$> l)))
    = row <$> filter (λ a, negb (keep a) = true) l) as ->.
  { rewrite <- (filter_fmap_bool row (λ r, negb (selects (row_scope table t r) args cond))).
    - apply list_filter_iff. intros r. change (row_scope table (with_rows t (row <$> l)) r) with (row_scope table t r).
      by destruct (selects _ _ _).
    - eapply Forall_impl; [exact HP|]. intros a Ha. cbn. by rewrite keep_spec. }
  change (tb_rows (with_rows t (row <$> l))) with (row <$> l). by rewrite !length_fmap.
Qed.
End Update.
End Rows.

(** ** A query over two tables *)

Section Join.
Context {V W : Type} (t1 t2 : Table) (row1 : V → Row) (row2 : W → Row) (P : V → Prop) (Q : W → Prop).

Lemma run_select_join scan db args s columns table1 alias1 table2 alias2 on cond order l1 l2 (keep : V * W → bool) values :
  s = mkSelect columns (table1, alias1) [((table2, alias2), on)] cond order None None →
  db !! table1 = Some (with_rows t1 (row1 <$> l1)) → db !! table2 = Some (with_rows t2 (row2 <$> l2)) →
  (∀ rows, scan rows ≡ₚ rows) → Forall P l1 → Forall Q l2 →
  names_ok args [(alias1, column_names t1); (alias2, column_names t2)] s = true →
  (∀ a b, P a → Q b → selects (row_scope alias1 t1 (row1 a) ++ row_scope alias2 t2 (row2 b)) args (Some on)
     && selects (row_scope alias1 t1 (row1 a) ++ row_scope alias2 t2 (row2 b)) args cond = keep (a, b)) →
  (∀ a b, P a → Q b → eval (row_scope alias1 t1 (row1 a) ++ row_scope alias2 t2 (row2 b)) args <$> columns = values (a, b)) →
  ∃ found, found ≡ₚ filter (λ p, keep p = true) (l1 ≫= λ a, pair a <$> l2) ∧ run_select scan db args s = Ok (values <$> found).
Proof.
  intros -> Hdb1 Hdb2 Hscan HP HQ Hok Hkeep Hvalues.
  set (scope := (λ p, row_scope alias1 t1 (row1 p.1) ++ row_scope alias2 t2 (row2 p.2)) : V * W → Scope).
  destruct (Permutation_map_inv row1 l1 (Hscan (row1 <$> l1))) as (l1' & Hl1 & Hp1).
  destruct (Permutation_map_inv row2 l2 (Hscan (row2 <$> l2))) as (l2' & Hl2 & Hp2).
  set (pairs := l1' ≫= λ a, pair a <$> l2').
  assert (pairs ≡ₚ l1 ≫= λ a, pair a <$> l2) as Hpairs.
  { unfold pairs. clear -Hp1 Hp2. rewrite Hp1. clear Hp1. induction l1' as [|a l1' IH]; csimpl; [done|]. by rewrite IH, Hp2. }
  assert (Forall (λ p, P p.1 ∧ Q p.2) pairs) as Hall.
  { rewrite Hpairs. apply Forall_bind. eapply Forall_impl; [exact HP|]. intros a Ha. apply Forall_fmap.
    eapply Forall_impl; [exact HQ|]. intros b Hb. by split. }
  assert (join scan args (row_scope alias1 t1 <$> (row1 <$> l1')) (with_rows t2 (row2 <$> l2)) alias2 on
    = scope <$> filter (λ p, selects (scope p) args (Some on) = true) pairs) as Hjoin.
  { unfold join, scopes_of. assert (scan (tb_rows (with_rows t2 (row2 <$> l2))) = row2 <$> l2') as -> by exact Hl2.
    rewrite <- (filter_fmap_bool scope (λ x, selects x args (Some on))) by by apply Forall_true.
    f_equal. unfold pairs. clear. induction l1' as [|a l1' IH]; csimpl; [done|]. rewrite fmap_app, IH. f_equal.
    rewrite <- !list_fmap_compose. done. }
  unfold run_select. cbn [sel_from sel_joins fst snd]. rewrite Hdb1.
  assert (select_ok db args (mkSelect columns (table1, alias1) [((table2, alias2), on)] cond order None None) = true) as ->.
  { unfold select_ok. cbn [sources_of sel_from sel_joins fst fmap list_fmap]. rewrite Hdb1, Hdb2. cbn [mbind option_bind]. exact Hok. }
  cbn [negb join_all]. rewrite Hdb2. cbn [mbind option_bind]. unfold scopes_of.
  assert (scan (tb_rows (with_rows t1 (row1 <$> l1))) = row1 <$> l1') as -> by exact Hl1.
  change (row_scope alias1 (with_rows t1 (row1 <$> l1))) with (row_scope alias1 t1). rewrite Hjoin.
  cbn [sel_where sel_order sel_limit sel_offset sel_columns].
  rewrite (filter_fmap_bool scope (λ x, selects x args cond) (λ p, selects (scope p) args cond)) by by apply Forall_true.
  change (limited args None None ?x) with x.
  match goal with |- context [go_sort ?less (scope <$> ?l)] =>
    destruct (Permutation_map_inv scope l (go_sort_perm less (scope <$> l))) as (found & Hfound & Hperm) end.
  exists found. split.
  - rewrite <- Hpairs, <- Hperm. apply reflexive_eq. apply filter_twice. eapply Forall_impl; [exact Hall|].
    intros [a b] [Ha Hb]. by apply Hkeep.
  - f_equal. etrans; [exact (f_equal (fmap (λ x, eval x args <$> columns)) Hfound)|].
    change (map scope found) with (scope <$> found). rewrite <- list_fmap_compose. apply list_fmap_ext. intros i [a b] Hi. cbn. apply list_elem_of_lookup_2 in Hi. rewrite <- Hperm in Hi.
    apply list_elem_of_filter in Hi as [_ Hi]. apply list_elem_of_filter in Hi as [_ Hi]. rewrite Forall_forall in Hall.
    destruct (Hall _ Hi) as [Ha Hb]. by apply Hvalues.
Qed.
End Join.
