(* ===== verification/SQLEntity.v ===== *)
(** * Entities and their tables

    Which table holds which entity: the row of a value, when it can be stored,
    the key the in-memory repository files it under, and which values cannot be
    in the table together. The laws say that a row meets the constraints of its
    table and that the unique indexes of the schema are these conflicts. *)

From Stdlib Require Import Btauto.
From S2P Require Import Prelude GoLib Crypto Domain AuditChain Store Repository SQLText SQLEngine SQLTime GoJSON SQLScan SQLSchema SQLEngineFacts.

Class Entity (V : Type) := {
  en_name : string;
  en_table : Table;
  en_row : V → Row;
  en_storable : V → bool;
  en_key : V → string;
  en_conflict : V → V → bool;
}.
Class EntityLaws (V : Type) `{Entity V} : Prop := {
  en_row_ok : ∀ a : V, row_ok en_table (en_row a) = true;
  en_collides : ∀ a b : V, collides en_table en_row a b = en_conflict a b;
  en_conflict_sym : ∀ a b : V, en_conflict a b = en_conflict b a;
}.

(** A unique index on a condition: both rows must meet it. *)
Lemma conditional_key (p q : bool) (k1 k2 : list SQLValue) :
  match (if p then Some k1 else None), (if q then Some k2 else None) with
  | Some k1, Some k2 => key_eqb k1 k2
  | _, _ => false
  end = p && q && key_eqb k1 k2.
Proof. by destruct p, q. Qed.

#[global] Arguments formatSQLTime : simpl never.
#[global] Arguments formatNullableSQLTime : simpl never.
#[global] Arguments json_strings : simpl never.
#[global] Arguments json_stringListPolicy : simpl never.
#[global] Arguments json_basicConstraints : simpl never.
#[global] Arguments VBool : simpl never.
#[global] Arguments Z.eqb : simpl never.
#[global] Arguments cmp_holds : simpl never.
#[global] Arguments truth : simpl never.
#[global] Arguments and3 : simpl never.
#[global] Arguments or3 : simpl never.
#[global] Arguments of_truth : simpl never.

Ltac conflict_sym :=
  intros; repeat match goal with
  | |- context [String.eqb ?a ?b] => lazymatch goal with |- context [String.eqb b a] => rewrite (String.eqb_sym a b); generalize (String.eqb b a); intros ? end
  | |- context [Z.eqb ?a ?b] => rewrite (Z.eqb_sym a b); generalize (Z.eqb b a); intros ?
  end; btauto.

Ltac entity_laws :=
  split; [intros []; reflexivity| |by intros []; cbn; conflict_sym];
  intros a b; unfold collides, conflicting, index_key, selects; destruct a, b; cbn;
  autorewrite with sql; cbn; rewrite ?conditional_key; cbn; rewrite ?andb_true_r, ?orb_false_r; reflexivity.

#[global] Instance Identity_entity : Entity Identity := {|
  en_name := "identities"; en_table := identities_table; en_row := Identity_row; en_storable := Identity_storable; en_key := Identity_ID;
  en_conflict a b := (Identity_ID a =s Identity_ID b);
|}.
#[global] Instance Identity_entity_laws : EntityLaws Identity.
Proof. entity_laws. Qed.

#[global] Instance Issuer_entity : Entity Issuer := {|
  en_name := "issuers"; en_table := issuers_table; en_row := Issuer_row; en_storable := Issuer_storable; en_key := Issuer_ID;
  en_conflict a b := (Issuer_ID a =s Issuer_ID b);
|}.
#[global] Instance Issuer_entity_laws : EntityLaws Issuer.
Proof. entity_laws. Qed.

#[global] Instance OCSPResponder_entity : Entity OCSPResponder := {|
  en_name := "ocsp_responders"; en_table := ocsp_responders_table; en_row := OCSPResponder_row; en_storable := OCSPResponder_storable; en_key := OCSPResponder_ID;
  en_conflict a b := (OCSPResponder_ID a =s OCSPResponder_ID b)
    || ((OCSPResponder_Status a =s OCSPResponderActive) && (OCSPResponder_Status b =s OCSPResponderActive) && (OCSPResponder_IssuerID a =s OCSPResponder_IssuerID b));
|}.
#[global] Instance OCSPResponder_entity_laws : EntityLaws OCSPResponder.
Proof. entity_laws. Qed.

#[global] Instance NotificationEndpoint_entity : Entity NotificationEndpoint := {|
  en_name := "notification_endpoints"; en_table := notification_endpoints_table; en_row := NotificationEndpoint_row; en_storable := NotificationEndpoint_storable; en_key := NotificationEndpoint_ID;
  en_conflict a b := (NotificationEndpoint_ID a =s NotificationEndpoint_ID b);
|}.
#[global] Instance NotificationEndpoint_entity_laws : EntityLaws NotificationEndpoint.
Proof. entity_laws. Qed.

#[global] Instance APIKey_entity : Entity APIKey := {|
  en_name := "api_keys"; en_table := api_keys_table; en_row := APIKey_row; en_storable := APIKey_storable; en_key := APIKey_ID;
  en_conflict a b := (APIKey_ID a =s APIKey_ID b)
    || (APIKey_TokenHash a =s APIKey_TokenHash b);
|}.
#[global] Instance APIKey_entity_laws : EntityLaws APIKey.
Proof. entity_laws. Qed.

#[global] Instance CertificateProfile_entity : Entity CertificateProfile := {|
  en_name := "certificate_profiles"; en_table := certificate_profiles_table; en_row := CertificateProfile_row; en_storable := CertificateProfile_storable; en_key := CertificateProfile_ID;
  en_conflict a b := (CertificateProfile_ID a =s CertificateProfile_ID b);
|}.
#[global] Instance CertificateProfile_entity_laws : EntityLaws CertificateProfile.
Proof. entity_laws. Qed.

#[global] Instance Enrollment_entity : Entity Enrollment := {|
  en_name := "enrollments"; en_table := enrollments_table; en_row := Enrollment_row; en_storable := Enrollment_storable; en_key := Enrollment_ID;
  en_conflict a b := (Enrollment_ID a =s Enrollment_ID b);
|}.
#[global] Instance Enrollment_entity_laws : EntityLaws Enrollment.
Proof. entity_laws. Qed.

#[global] Instance Certificate_entity : Entity Certificate := {|
  en_name := "certificates"; en_table := certificates_table; en_row := Certificate_row; en_storable := Certificate_storable; en_key := Certificate_ID;
  en_conflict a b := (Certificate_ID a =s Certificate_ID b)
    || (((Certificate_EnrollmentID a <>s "") && (Certificate_EnrollmentID b <>s "") && (Certificate_EnrollmentID a =s Certificate_EnrollmentID b))
    || ((Certificate_IssuerID a <>s "") && (Certificate_SerialNumber a <>s "") && ((Certificate_IssuerID b <>s "") && (Certificate_SerialNumber b <>s ""))
        && ((Certificate_IssuerID a =s Certificate_IssuerID b) && (Certificate_SerialNumber a =s Certificate_SerialNumber b))));
|}.
#[global] Instance Certificate_entity_laws : EntityLaws Certificate.
Proof. entity_laws. Qed.

#[global] Instance IssuanceAttempt_entity : Entity IssuanceAttempt := {|
  en_name := "certificate_issuance_attempts"; en_table := certificate_issuance_attempts_table; en_row := IssuanceAttempt_row; en_storable := IssuanceAttempt_storable; en_key := IssuanceAttempt_EnrollmentID;
  en_conflict a b := (IssuanceAttempt_EnrollmentID a =s IssuanceAttempt_EnrollmentID b);
|}.
#[global] Instance IssuanceAttempt_entity_laws : EntityLaws IssuanceAttempt.
Proof. entity_laws. Qed.

#[global] Instance Revocation_entity : Entity Revocation := {|
  en_name := "revocations"; en_table := revocations_table; en_row := Revocation_row; en_storable := Revocation_storable; en_key := Revocation_ID;
  en_conflict a b := (Revocation_ID a =s Revocation_ID b);
|}.
#[global] Instance Revocation_entity_laws : EntityLaws Revocation.
Proof. entity_laws. Qed.

#[global] Instance CRLPublication_entity : Entity CRLPublication := {|
  en_name := "crl_publications"; en_table := crl_publications_table; en_row := CRLPublication_row; en_storable := CRLPublication_storable; en_key := CRLPublication_ID;
  en_conflict a b := (CRLPublication_ID a =s CRLPublication_ID b)
    || ((CRLPublication_IssuerID a =s CRLPublication_IssuerID b) && ((CRLPublication_DistributionPoint a =s CRLPublication_DistributionPoint b) && Z.eqb (CRLPublication_CRLNumber a) (CRLPublication_CRLNumber b)));
|}.
#[global] Instance CRLPublication_entity_laws : EntityLaws CRLPublication.
Proof. entity_laws. Qed.

#[global] Instance CRLGenerationClaim_entity : Entity CRLGenerationClaim := {|
  en_name := "crl_generation_claims"; en_table := crl_generation_claims_table; en_row := CRLGenerationClaim_row; en_storable := CRLGenerationClaim_storable; en_key := claimKey;
  en_conflict a b := (CRLGenerationClaim_IssuerID a =s CRLGenerationClaim_IssuerID b) && (CRLGenerationClaim_DistributionPoint a =s CRLGenerationClaim_DistributionPoint b);
|}.
#[global] Instance CRLGenerationClaim_entity_laws : EntityLaws CRLGenerationClaim.
Proof. entity_laws. Qed.

#[global] Instance ACMEAccount_entity : Entity ACMEAccount := {|
  en_name := "acme_accounts"; en_table := acme_accounts_table; en_row := ACMEAccount_row; en_storable := ACMEAccount_storable; en_key := ACMEAccount_ID;
  en_conflict a b := (ACMEAccount_ID a =s ACMEAccount_ID b)
    || ((ACMEAccount_KeyThumbprint a <>s "") && (ACMEAccount_KeyThumbprint b <>s "") && (ACMEAccount_KeyThumbprint a =s ACMEAccount_KeyThumbprint b));
|}.
#[global] Instance ACMEAccount_entity_laws : EntityLaws ACMEAccount.
Proof. entity_laws. Qed.

#[global] Instance ACMEOrder_entity : Entity ACMEOrder := {|
  en_name := "acme_orders"; en_table := acme_orders_table; en_row := ACMEOrder_row; en_storable := ACMEOrder_storable; en_key := ACMEOrder_ID;
  en_conflict a b := (ACMEOrder_ID a =s ACMEOrder_ID b);
|}.
#[global] Instance ACMEOrder_entity_laws : EntityLaws ACMEOrder.
Proof. entity_laws. Qed.

#[global] Instance ACMEAuthorization_entity : Entity ACMEAuthorization := {|
  en_name := "acme_authorizations"; en_table := acme_authorizations_table; en_row := ACMEAuthorization_row; en_storable := ACMEAuthorization_storable; en_key := ACMEAuthorization_ID;
  en_conflict a b := (ACMEAuthorization_ID a =s ACMEAuthorization_ID b);
|}.
#[global] Instance ACMEAuthorization_entity_laws : EntityLaws ACMEAuthorization.
Proof. entity_laws. Qed.

#[global] Instance ACMEChallenge_entity : Entity ACMEChallenge := {|
  en_name := "acme_challenges"; en_table := acme_challenges_table; en_row := ACMEChallenge_row; en_storable := ACMEChallenge_storable; en_key := ACMEChallenge_ID;
  en_conflict a b := (ACMEChallenge_ID a =s ACMEChallenge_ID b);
|}.
#[global] Instance ACMEChallenge_entity_laws : EntityLaws ACMEChallenge.
Proof. entity_laws. Qed.

#[global] Instance OutboxMessage_entity : Entity OutboxMessage := {|
  en_name := "outbox_messages"; en_table := outbox_messages_table; en_row := OutboxMessage_row; en_storable := OutboxMessage_storable; en_key := OutboxMessage_ID;
  en_conflict a b := (OutboxMessage_ID a =s OutboxMessage_ID b);
|}.
#[global] Instance OutboxMessage_entity_laws : EntityLaws OutboxMessage.
Proof. entity_laws. Qed.

#[global] Instance JobAttempt_entity : Entity JobAttempt := {|
  en_name := "job_attempts"; en_table := job_attempts_table; en_row := JobAttempt_row; en_storable := JobAttempt_storable; en_key := JobAttempt_ID;
  en_conflict a b := (JobAttempt_ID a =s JobAttempt_ID b);
|}.
#[global] Instance JobAttempt_entity_laws : EntityLaws JobAttempt.
Proof. entity_laws. Qed.

#[global] Instance WebhookDelivery_entity : Entity WebhookDelivery := {|
  en_name := "webhook_deliveries"; en_table := webhook_deliveries_table; en_row := WebhookDelivery_row; en_storable := WebhookDelivery_storable; en_key := deliveryKey;
  en_conflict a b := (WebhookDelivery_OutboxMessageID a =s WebhookDelivery_OutboxMessageID b) && (WebhookDelivery_EndpointID a =s WebhookDelivery_EndpointID b);
|}.
#[global] Instance WebhookDelivery_entity_laws : EntityLaws WebhookDelivery.
Proof. entity_laws. Qed.
