(* ===== verification/SQLTables.v ===== *)
(** * Tables of the database as maps of the in-memory repository

    [table_repr m db]: the table of an entity holds exactly the values of the
    map [m], each as its row, in some order, and every value can be read back.
    For each kind of statement the repositories send there is one lemma that
    relates its effect and its result to the operation on the map. *)

From S2P Require Import Prelude GoLib Crypto Domain AuditChain Store StoreInv Repository SQLText SQLEngine SQLTime GoJSON SQLScan SQLStore SQLSchema SQLEngineFacts SQLEntity.

Definition next (c : SQLConn) : SQLConn := mkSQLConn (sc_db c) (S (sc_tick c)).

(** The shapes of the repository methods. *)
Section Shapes.
Context `{SQLDriver}.
Definition sql_get {A} (err : DomainErr) (text : string) (args : list SQLValue) (scan : Row → res A) : SQLM A :=
  notFound err (let* row := QueryRowContext text args in liftM (scan row)).
Definition sql_list {A} (text : string) (args : list SQLValue) (scan : Row → res A) : SQLM (list A) :=
  let* rows := QueryContext text args in liftM (scan_rows scan rows).
End Shapes.

Lemma scan_rows_ok {V} (scan : Row → res V) (values : V → Row) l :
  Forall (λ v, scan (values v) = Ok v) l → scan_rows scan (values <$> l) = Ok l.
Proof. induction 1 as [|v l Hv _ IH]; [done|]. csimpl. rewrite Hv. cbn. by rewrite IH. Qed.

Section Tables.
Context `{HD : SQLDriver} `{HL : !SQLDriverLaws} {V : Type} `{HE : Entity V} `{HEL : !EntityLaws V}.
Implicit Types (m : gmap string V) (db : Database) (c : SQLConn).

(** Two values that cannot be in the table together. *)
Definition en_apart (a b : V) : Prop := en_conflict a b = true.
#[local] Instance en_apart_sym : Symmetric en_apart.
Proof. intros a b. unfold en_apart. by rewrite en_conflict_sym. Qed.

Definition table_repr m db : Prop :=
  keyed en_key m ∧ unique_on en_apart m ∧ map_Forall (λ _ v, en_storable v = true) m ∧
  ∃ l, l ≡ₚ map_values m ∧ db !! en_name = Some (with_rows en_table (en_row <$> l)).

Lemma table_repr_other m db name t : name ≠ en_name → table_repr m db → table_repr m (<[name := t]> db).
Proof. intros Hn (Hk & Hu & Hs & l & Hl & Hdb). split_and!; [done..|]. exists l. by rewrite lookup_insert_ne. Qed.

Lemma map_values_storable m (l : list V) : map_Forall (λ _ v, en_storable v = true) m → l ≡ₚ map_values m →
  Forall (λ v, en_storable v = true) l.
Proof. intros Hs ->. apply Forall_forall. intros v (k & Hk)%elem_of_map_values. by apply (Hs _ _ Hk). Qed.

Lemma table_repr_insert m db v l : table_repr m db → en_storable v = true → m !! en_key v = None → l ≡ₚ map_values m →
  (∀ a, a ∈ map_values m → en_conflict v a = false) →
  table_repr (<[en_key v := v]> m) (<[en_name := with_rows en_table (en_row <$> (l ++ [v]))]> db).
Proof.
  intros (Hk & Hu & Hs & _) Hv Hn Hl Hc. split_and!; [by apply keyed_insert| |by apply map_Forall_insert_2|].
  { apply unique_insert; [apply _|done..|]. intros w Hw _. unfold en_apart. by rewrite Hc. }
  exists (l ++ [v]). split; [|by rewrite lookup_insert_eq]. rewrite map_values_insert_new by done. rewrite Hl. symmetry. apply Permutation_cons_append.
Qed.

(** Splitting a table at the value under a key. *)
Lemma split_at m (l : list V) k a : keyed en_key m → l ≡ₚ map_values m → m !! k = Some a →
  ∃ l1 l2, l = l1 ++ a :: l2 ∧ l1 ++ l2 ≡ₚ map_values (delete k m) ∧ Forall (λ b, en_key b ≠ k) (l1 ++ l2).
Proof.
  intros Hk Hl Ha. assert (a ∈ l) as (l1 & l2 & ->)%list_elem_of_split by (rewrite Hl; apply elem_of_map_values; eauto).
  exists l1, l2. split; [done|].
  assert (l1 ++ l2 ≡ₚ map_values (delete k m)) as Hd.
  { rewrite <- (insert_delete_id m k a) in Hl by done. rewrite map_values_insert_new in Hl by apply lookup_delete_eq.
    apply (Permutation_cons_inv (a := a)). by rewrite <- Hl, Permutation_middle. }
  split; [done|]. rewrite Hd. apply Forall_forall. intros b (k' & Hb)%elem_of_map_values.
  apply lookup_delete_Some in Hb as [Hne Hb]. pose proof (Hk _ _ Hb) as E. cbn in E. congruence.
Qed.

Lemma table_repr_replace m db a v l1 l2 : table_repr m db → en_storable v = true → m !! en_key v = Some a →
  l1 ++ l2 ≡ₚ map_values (delete (en_key v) m) → (∀ b, b ∈ map_values (delete (en_key v) m) → en_conflict v b = false) →
  table_repr (<[en_key v := v]> m) (<[en_name := with_rows en_table (en_row <$> (l1 ++ v :: l2))]> db).
Proof.
  intros (Hk & Hu & Hs & _) Hv Ha Hl Hc. split_and!; [by apply keyed_insert| |by apply map_Forall_insert_2|].
  { apply unique_insert; [apply _|done..|]. intros w (k & Hw)%elem_of_map_values Hne. unfold en_apart. rewrite Hc; [done|].
    apply elem_of_map_values. exists k. rewrite lookup_delete_ne; [done|]. pose proof (Hk _ _ Hw) as E. cbn in E. congruence. }
  exists (l1 ++ v :: l2). split; [|by rewrite lookup_insert_eq].
  rewrite <- insert_delete_eq, map_values_insert_new by apply lookup_delete_eq. by rewrite <- Permutation_middle, Hl.
Qed.

Lemma table_repr_same m db l : table_repr m db → db !! en_name = Some (with_rows en_table (en_row <$> l)) →
  <[en_name := with_rows en_table (en_row <$> l)]> db = db.
Proof. intros _ Hdb. by apply insert_id. Qed.

Lemma table_repr_delete m db k l : table_repr m db → l ≡ₚ map_values (delete k m) →
  table_repr (delete k m) (<[en_name := with_rows en_table (en_row <$> l)]> db).
Proof.
  intros (Hk & Hu & Hs & _) Hl. split_and!; [by apply keyed_delete| |by apply map_Forall_delete|].
  { intros k1 k2 v1 v2 [_ H1]%lookup_delete_Some [_ H2]%lookup_delete_Some. by apply (Hu k1 k2 v1 v2). }
  exists l. by rewrite lookup_insert_eq.
Qed.

(** ** One statement *)

Lemma run_sql_statement text args st c : parse_sql text = Some [st] →
  ∃ scan, (∀ rows, scan rows ≡ₚ rows) ∧ run_sql text args c =
    match exec_statement scan args st (sc_db c) with
    | Ok (rows, n, db') => (Ok (rows, n), mkSQLConn db' (S (sc_tick c)))
    | Err e => (Err e, next c)
    end.
Proof.
  intros Hp. destruct (sql_run_meaning (sc_tick c) text args (sc_db c) _ Hp) as (scan & Hscan & Hr).
  exists scan. split; [done|]. unfold run_sql. rewrite Hr. cbn [exec_all].
  by destruct (exec_statement scan args st (sc_db c)) as [[[rows n] db']|e].
Qed.

Lemma affectedRows_ok n c : affectedRows n c = (Ok n, next c).
Proof. unfold affectedRows. by rewrite sql_no_fault. Qed.

(** ** Queries *)

Section Query.
Variables (m : gmap string V) (text : string) (args : list SQLValue) (columns : list Expr) (alias : string)
  (cond : option Expr) (order : list (Expr * bool)) (limit offset : option Expr)
  (keep : V → bool) (less : V → V → bool) (scan : Row → res V) (values : V → Row).
Hypothesis parsed : parse_sql text = Some [SSelect (mkSelect columns (en_name, alias) [] cond order limit offset)].
Hypothesis names : names_ok args [(alias, column_names en_table)] (mkSelect columns (en_name, alias) [] cond order limit offset) = true.
Hypothesis where_spec : ∀ a, en_storable a = true → selects (row_scope alias en_table (en_row a)) args cond = keep a.
Hypothesis order_spec : ∀ a b, en_storable a = true → en_storable b = true → keep a = true → keep b = true →
  order_less args order (row_scope alias en_table (en_row a)) (row_scope alias en_table (en_row b)) = less a b.
Hypothesis columns_spec : ∀ a, en_storable a = true → eval (row_scope alias en_table (en_row a)) args <$> columns = values a.
Hypothesis scan_spec : ∀ a, en_storable a = true → scan (values a) = Ok a.

Lemma query_ok c : table_repr m (sc_db c) → ∃ l, l ≡ₚ map_values m ∧
  let found := limited args limit offset (go_sort less (filter (λ a, keep a = true) l)) in
  QueryContext text args c = (Ok (values <$> found), next c) ∧ scan_rows scan (values <$> found) = Ok found.
Proof.
  intros (Hk & Hu & Hs & l & Hl & Hdb). destruct (run_sql_statement text args _ c parsed) as (scan' & Hscan & Hr).
  assert (Forall (λ v, en_storable v = true) l) as Hst by by eapply map_values_storable.
  destruct (run_select_rows en_table en_row (λ v, en_storable v = true) scan' (sc_db c) args _ alias columns cond order limit offset
    en_name l keep less values eq_refl Hdb Hscan Hst names where_spec order_spec columns_spec) as (l' & Hl' & Hq).
  exists l'. split; [by rewrite Hl'|]. cbv zeta. split.
  - unfold QueryContext, bindM. rewrite Hr. cbn [exec_statement]. by rewrite Hq.
  - apply scan_rows_ok, Forall_forall. intros a Ha%elem_of_limited. apply scan_spec.
    rewrite go_sort_perm in Ha. apply list_elem_of_filter in Ha as [_ Ha]. rewrite Hl' in Ha. by eapply Forall_forall in Hst.
Qed.

Lemma sql_list_ok c : table_repr m (sc_db c) → ∃ l, l ≡ₚ map_values m ∧
  sql_list text args scan c = (Ok (limited args limit offset (go_sort less (filter (λ a, keep a = true) l))), next c).
Proof.
  intros Hm. destruct (query_ok c Hm) as (l & Hl & Hq & Hs). exists l. split; [done|].
  unfold sql_list, bindM. rewrite Hq. unfold liftM. by rewrite Hs.
Qed.

Lemma sql_get_ok err c : table_repr m (sc_db c) → ∃ l, l ≡ₚ map_values m ∧
  sql_get err text args scan c =
    (match head (limited args limit offset (go_sort less (filter (λ a, keep a = true) l))) with
     | Some a => Ok a
     | None => Err (EDomain err)
     end, next c).
Proof.
  intros Hm. destruct (query_ok c Hm) as (l & Hl & Hq & Hs). exists l. split; [done|].
  unfold sql_get, notFound, QueryRowContext, catchM, bindM. rewrite Hq.
  destruct (limited _ _ _ _) as [|a found]; csimpl; [done|]. unfold liftM. cbn [scan_rows fmap list_fmap] in Hs.
  apply bindR_ok in Hs as (a' & Ha & Hs). apply bindR_ok in Hs as (l' & _ & [= -> _]). by rewrite Ha.
Qed.

(** A query by key. *)
Lemma sql_get_key err k c : table_repr m (sc_db c) → (∀ a, a ∈ map_values m → keep a = (en_key a =s k)) →
  limit = None → offset = None → sql_get err text args scan c = (lookupRow m k err, next c).
Proof.
  intros Hm Hkeep Hli Hof. destruct (sql_get_ok err c Hm) as (l & Hl & ->). rewrite Hli, Hof. f_equal. unfold lookupRow. cbn [limited].
  destruct Hm as (Hk & _). set (found := go_sort less (filter (λ a, keep a = true) l)).
  assert (∀ a, a ∈ found ↔ m !! k = Some a) as Hin.
  { intros a. unfold found. rewrite go_sort_perm, list_elem_of_filter, Hl. split.
    - intros [Hka Ha]. rewrite Hkeep in Hka by done. apply String.eqb_eq in Hka. apply elem_of_map_values in Ha as (k' & Ha).
      pose proof (Hk _ _ Ha) as E. cbn in E. congruence.
    - intros Ha. assert (a ∈ map_values m) as Hv by (apply elem_of_map_values; eauto). split; [|done].
      rewrite Hkeep by done. apply String.eqb_eq. by apply (Hk _ _ Ha). }
  destruct found as [|a found'] eqn:Ef; cbn.
  - destruct (m !! k) as [a|]; [|done]. exfalso. by apply (not_elem_of_nil a), Hin.
  - assert (m !! k = Some a) as -> by (apply Hin; apply elem_of_cons; by left). done.
Qed.
End Query.

(** ** Changes *)

Lemma exec_insert m c text args columns exprs v :
  parse_sql text = Some [SInsert en_name columns exprs None] → table_repr m (sc_db c) →
  forallb (λ x, existsb (String.eqb x) (column_names en_table)) columns && Nat.eqb (length columns) (length exprs)
    && forallb (expr_ok [] (length args)) exprs = true →
  inserted_row en_table columns (eval [] args <$> exprs) = en_row v →
  en_storable v = true → m !! en_key v = None → (∀ a, a ∈ map_values m → en_conflict v a = false) →
  ∃ t, ExecContext text args c = (Ok 1%Z, mkSQLConn (<[en_name := t]> (sc_db c)) (S (sc_tick c)))
    ∧ table_repr (<[en_key v := v]> m) (<[en_name := t]> (sc_db c)).
Proof.
  intros Hp Hm Hok Hrow Hs Hn Hc. destruct (run_sql_statement text args _ c Hp) as (scan & Hscan & Hr).
  pose proof Hm as (_ & _ & _ & l & Hl & Hdb). unfold ExecContext, bindM. rewrite Hr.
  rewrite (insert_statement en_table en_row scan _ args en_name columns exprs l v Hdb Hok Hrow (en_row_ok v)).
  rewrite violated_none; [|rewrite Hl; apply Forall_forall; intros a Ha; rewrite en_collides; auto].
  eexists. split; [done|]. by apply table_repr_insert.
Qed.

Lemma exec_insert_conflict m c text args columns exprs v :
  parse_sql text = Some [SInsert en_name columns exprs None] → table_repr m (sc_db c) →
  forallb (λ x, existsb (String.eqb x) (column_names en_table)) columns && Nat.eqb (length columns) (length exprs)
    && forallb (expr_ok [] (length args)) exprs = true →
  inserted_row en_table columns (eval [] args <$> exprs) = en_row v →
  (∃ a, a ∈ map_values m ∧ en_conflict v a = true) →
  ∃ ix, ix ∈ tb_indexes en_table ∧ ExecContext text args c = (Err (unique_error en_name ix), next c).
Proof.
  intros Hp Hm Hok Hrow (a & Ha & Hc). destruct (run_sql_statement text args _ c Hp) as (scan & Hscan & Hr).
  pose proof Hm as (_ & _ & _ & l & Hl & Hdb). unfold ExecContext, bindM. rewrite Hr.
  rewrite (insert_statement en_table en_row scan _ args en_name columns exprs l v Hdb Hok Hrow (en_row_ok v)).
  destruct (violated_some en_table en_row v l) as (ix & Hix).
  { apply Exists_exists. exists a. rewrite Hl. by rewrite en_collides. }
  rewrite Hix. exists ix. split; [|done]. apply fmap_Some in Hix as ([i ix'] & Hf & ->). apply list_find_Some in Hf as [Hf _].
  by eapply list_elem_of_lookup_2.
Qed.

Section Update.
Variables (m : gmap string V) (text : string) (args : list SQLValue) (sets : list (string * Expr)) (cond : option Expr)
  (k : string) (cur : V → bool) (f : V → V).
Hypothesis parsed : parse_sql text = Some [SUpdate en_name sets cond].
Hypothesis names : forallb (λ '(x, e), existsb (String.eqb x) (column_names en_table)
    && expr_ok [(en_name, column_names en_table)] (length args) e) sets
  && cond_ok [(en_name, column_names en_table)] (length args) cond = true.
Hypothesis where_spec : ∀ a, en_storable a = true →
  selects (row_scope en_name en_table (en_row a)) args cond = (en_key a =s k) && cur a.
Hypothesis set_spec : ∀ a, en_storable a = true → (en_key a =s k) && cur a = true →
  updated_row en_table (row_scope en_name en_table (en_row a)) args sets (en_row a) = en_row (f a).

Lemma exec_update_none c : table_repr m (sc_db c) → (∀ a, m !! k = Some a → cur a = false) →
  ExecContext text args c = (Ok 0%Z, next c).
Proof.
  intros Hm Hcur. destruct (run_sql_statement text args _ c parsed) as (scan & Hscan & Hr).
  destruct Hm as (Hk & Hu & Hs & l & Hl & Hdb). unfold ExecContext, bindM. rewrite Hr.
  rewrite (update_statement en_table en_row en_name args sets cond scan _ l Hdb names).
  rewrite (update_rows_none en_table en_row (λ v, en_storable v = true) en_name args sets cond (λ a, (en_key a =s k) && cur a)).
  - cbn [bindR]. unfold next. by rewrite insert_id.
  - done.
  - by eapply map_values_storable.
  - rewrite Hl. apply Forall_forall. intros a (k' & Ha)%elem_of_map_values. pose proof (Hk _ _ Ha) as E. cbn in E.
    destruct (String.eqb_spec (en_key a) k) as [E'|]; [|done]. cbn. apply Hcur. congruence.
Qed.

Lemma exec_update_rows c a : table_repr m (sc_db c) → m !! k = Some a → cur a = true →
  ∃ l1 l2 scan, l1 ++ l2 ≡ₚ map_values (delete k m) ∧
  exec_statement scan args (SUpdate en_name sets cond) (sc_db c) =
    match violated en_table (en_row (f a)) (en_row <$> (l1 ++ l2)) with
    | None => Ok ([], 1%Z, <[en_name := with_rows en_table (en_row <$> (l1 ++ f a :: l2))]> (sc_db c))
    | Some ix => Err (unique_error en_name ix)
    end ∧ run_sql text args c =
    match exec_statement scan args (SUpdate en_name sets cond) (sc_db c) with
    | Ok (rows, n, db') => (Ok (rows, n), mkSQLConn db' (S (sc_tick c)))
    | Err e => (Err e, next c)
    end.
Proof.
  intros (Hk & Hu & Hs & l & Hl & Hdb) Ha Hc. destruct (run_sql_statement text args _ c parsed) as (scan & Hscan & Hr).
  destruct (split_at m l k a Hk Hl Ha) as (l1 & l2 & -> & Hd & Hne). exists l1, l2, scan. split; [done|]. split; [|done].
  rewrite (update_statement en_table en_row en_name args sets cond scan _ _ Hdb names).
  rewrite (update_rows_one en_table en_row (λ v, en_storable v = true) en_name args sets cond (λ a, (en_key a =s k) && cur a) f).
  - by destruct (violated _ _ _).
  - done.
  - done.
  - intros. apply en_row_ok.
  - by eapply map_values_storable.
  - pose proof (Hk _ _ Ha) as E. cbn in E. by rewrite E, string_eqb_refl, Hc.
  - eapply Forall_impl; [exact Hne|]. intros b Hb. cbn in Hb. apply String.eqb_neq in Hb. by rewrite Hb.
Qed.

Lemma exec_update_one c a : table_repr m (sc_db c) → m !! k = Some a → cur a = true →
  en_key (f a) = k → en_storable (f a) = true → (∀ b, b ∈ map_values (delete k m) → en_conflict (f a) b = false) →
  ∃ t, ExecContext text args c = (Ok 1%Z, mkSQLConn (<[en_name := t]> (sc_db c)) (S (sc_tick c)))
    ∧ table_repr (<[k := f a]> m) (<[en_name := t]> (sc_db c)).
Proof.
  intros Hm Ha Hc Hfk Hfs Hconf. destruct (exec_update_rows c a Hm Ha Hc) as (l1 & l2 & scan & Hd & He & Hr).
  rewrite violated_none in He by (rewrite Hd; apply Forall_forall; intros b Hb; rewrite en_collides; auto).
  unfold ExecContext, bindM. rewrite Hr, He. eexists. split; [done|].
  rewrite <- Hfk in Ha, Hd, Hconf |- *. by eapply table_repr_replace.
Qed.

Lemma exec_update_conflict c a : table_repr m (sc_db c) → m !! k = Some a → cur a = true →
  (∃ b, b ∈ map_values (delete k m) ∧ en_conflict (f a) b = true) →
  ∃ ix, ix ∈ tb_indexes en_table ∧ ExecContext text args c = (Err (unique_error en_name ix), next c).
Proof.
  intros Hm Ha Hc (b & Hb & Hconf). destruct (exec_update_rows c a Hm Ha Hc) as (l1 & l2 & scan & Hd & He & Hr).
  destruct (violated_some en_table en_row (f a) (l1 ++ l2)) as (ix & Hix).
  { apply Exists_exists. exists b. rewrite Hd. by rewrite en_collides. }
  rewrite Hix in He. exists ix. split; [|unfold ExecContext, bindM; by rewrite Hr, He].
  apply fmap_Some in Hix as ([i ix'] & Hf & ->). apply list_find_Some in Hf as [Hf _]. by eapply list_elem_of_lookup_2.
Qed.
End Update.

Section Delete.
Variables (m : gmap string V) (text : string) (args : list SQLValue) (cond : option Expr) (k : string) (cur : V → bool).
Hypothesis parsed : parse_sql text = Some [SDelete en_name cond].
Hypothesis names : cond_ok [(en_name, column_names en_table)] (length args) cond = true.
Hypothesis where_spec : ∀ a, en_storable a = true →
  selects (row_scope en_name en_table (en_row a)) args cond = (en_key a =s k) && cur a.

Lemma exec_delete_rows c l : table_repr m (sc_db c) → l ≡ₚ map_values m →
  sc_db c !! en_name = Some (with_rows en_table (en_row <$> l)) →
  ExecContext text args c =
    (Ok (Z.of_nat (length l) - Z.of_nat (length (filter (λ a, negb ((en_key a =s k) && cur a) = true) l)))%Z,
     mkSQLConn (<[en_name := with_rows en_table (en_row <$> filter (λ a, negb ((en_key a =s k) && cur a) = true) l)]> (sc_db c)) (S (sc_tick c))).
Proof.
  intros (_ & _ & Hs & _) Hl Hdb. destruct (run_sql_statement text args _ c parsed) as (scan & Hscan & Hr).
  unfold ExecContext, bindM. rewrite Hr.
  rewrite (delete_statement en_table en_row (λ v, en_storable v = true) en_name args cond (λ a, (en_key a =s k) && cur a) where_spec
    scan _ l Hdb); [done| |done]. by eapply map_values_storable.
Qed.

Lemma filter_all (f : V → bool) l : Forall (λ a, f a = true) l → filter (λ a, f a = true) l = l.
Proof. induction 1 as [|a l Ha _ IH]; [done|]. rewrite filter_cons_True by done. by rewrite IH. Qed.

Lemma exec_delete c : table_repr m (sc_db c) →
  match m !! k with
  | Some a => if cur a
      then ∃ t, ExecContext text args c = (Ok 1%Z, mkSQLConn (<[en_name := t]> (sc_db c)) (S (sc_tick c)))
        ∧ table_repr (delete k m) (<[en_name := t]> (sc_db c))
      else ExecContext text args c = (Ok 0%Z, next c)
  | None => ExecContext text args c = (Ok 0%Z, next c)
  end.
Proof.
  intros Hm. pose proof Hm as (Hk & _ & _ & l & Hl & Hdb). rewrite (exec_delete_rows c l Hm Hl Hdb).
  assert ((∀ a, m !! k = Some a → cur a = false) → filter (λ a, negb ((en_key a =s k) && cur a) = true) l = l) as Hnone.
  { intros Hno. apply filter_all. rewrite Hl. apply Forall_forall. intros a (k' & Ha)%elem_of_map_values.
    pose proof (Hk _ _ Ha) as E. cbn in E. destruct (String.eqb_spec (en_key a) k) as [E'|]; [|done]. cbn. rewrite Hno; [done|congruence]. }
  destruct (m !! k) as [a|] eqn:Ea; [destruct (cur a) eqn:Ec|].
  - destruct (split_at m l k a Hk Hl Ea) as (l1 & l2 & -> & Hd & Hne). clear Hnone.
    assert (filter (λ a, negb ((en_key a =s k) && cur a) = true) (l1 ++ a :: l2) = l1 ++ l2) as ->.
    { assert (∀ l', Forall (λ b, en_key b ≠ k) l' → filter (λ a, negb ((en_key a =s k) && cur a) = true) l' = l') as Hf.
      { intros l' Hf. apply filter_all. eapply Forall_impl; [exact Hf|]. intros b Hb. cbn in Hb. apply String.eqb_neq in Hb. by rewrite Hb. }
      apply Forall_app in Hne as [H1 H2]. rewrite filter_app, (Hf l1 H1).
      pose proof (Hk _ _ Ea) as E. cbn in E. rewrite filter_cons_False; [by rewrite (Hf l2 H2)|]. by rewrite E, string_eqb_refl, Ec. }
    rewrite !length_app. cbn [length].
    assert (Z.of_nat (length l1 + S (length l2)) - Z.of_nat (length l1 + length l2) = 1)%Z as -> by lia.
    eexists. split; [done|]. by apply table_repr_delete.
  - rewrite Hnone by (intros; by simplify_eq). rewrite Z.sub_diag. unfold next. by rewrite insert_id.
  - rewrite Hnone by done. rewrite Z.sub_diag. unfold next. by rewrite insert_id.
Qed.
End Delete.
End Tables.
