(* ===== verification/SQLRefinement.v ===== *)
(** * Repository operations: the database against the in-memory store

    [repr s db]: the database holds the in-memory store [s], table by table, and
    the audit chain. [outcome R x y]: an operation on the store and the same
    operation on the database end alike, with results related by [R] or with the
    same error, in a store and a database that again represent each other. There
    is one lemma for each shape of operation; its conditions are computations on
    the statement. *)

From S2P Require Import Prelude GoLib Crypto Domain AuditChain Store StoreInv Repository SQLText SQLEngine SQLTime GoJSON SQLScan SQLStore SQLStoreAudit SQLSchema SQLEngineFacts SQLEntity SQLTables.

(** ** Representation *)

Definition chain_row (state : auditChainState) (updated : Time) : Row :=
  [VInt 1; VText (acs_HashAlgorithm state); VInt (acs_LatestSequence state); VText (acs_LatestEventHash state);
   VInt (acs_CheckpointSequence state); VText (acs_CheckpointEventHash state); VText (formatSQLTime updated)].

Section Repr.
Context `{HC : GoCodec}.

Record audit_repr (log : AuditLog) (db : Database) : Prop := {
  audit_repr_inv : audit_inv log;
  audit_repr_storable : Forall (λ e, AuditEvent_storable e = true) (log_events log);
  audit_repr_algorithm : acs_HashAlgorithm (log_state log) = AuditHashAlgorithmSHA256V1;
  audit_repr_ids : NoDup (AuditEvent_ID <$> log_events log);
  audit_repr_events : ∃ l, l ≡ₚ log_events log ∧ db !! "audit_events" = Some (with_rows audit_events_table (AuditEvent_row <$> l));
  audit_repr_state : ∃ t, sqlTimeOK t = true ∧
    db !! "audit_chain_state" = Some (with_rows audit_chain_state_table [chain_row (log_state log) t]);
}.

Record repr (s : MemoryStore) (db : Database) : Prop := {
  repr_identities : table_repr (ms_identities s) db;
  repr_issuers : table_repr (ms_issuers s) db;
  repr_ocspResponders : table_repr (ms_ocspResponders s) db;
  repr_notifications : table_repr (ms_notifications s) db;
  repr_profiles : table_repr (ms_profiles s) db;
  repr_enrollments : table_repr (ms_enrollments s) db;
  repr_certificates : table_repr (ms_certificates s) db;
  repr_issuanceAttempts : table_repr (ms_issuanceAttempts s) db;
  repr_revocations : table_repr (ms_revocations s) db;
  repr_crls : table_repr (ms_crls s) db;
  repr_crlClaims : table_repr (ms_crlClaims s) db;
  repr_audit : audit_repr (ms_audit s) db;
  repr_outbox : table_repr (ms_outbox s) db;
  repr_jobAttempts : table_repr (ms_jobAttempts s) db;
  repr_webhookDeliveries : table_repr (ms_webhookDeliveries s) db;
  repr_apiKeys : table_repr (ms_apiKeys s) db;
  repr_acmeAccounts : table_repr (ms_acmeAccounts s) db;
  repr_acmeOrders : table_repr (ms_acmeOrders s) db;
  repr_acmeAuthzs : table_repr (ms_acmeAuthzs s) db;
  repr_acmeChallenges : table_repr (ms_acmeChallenges s) db;
}.

Lemma audit_repr_other log db name t : name ≠ "audit_events" → name ≠ "audit_chain_state" →
  audit_repr log db → audit_repr log (<[name := t]> db).
Proof.
  intros H1 H2 [? ? ? ? (l & ? & ?) (u & ? & ?)]. split; [done..| |].
  - exists l. by rewrite lookup_insert_ne.
  - exists u. by rewrite lookup_insert_ne.
Qed.

(** The table of the in-memory store that holds an entity. *)
Class StoreTable (V : Type) `{Entity V} := {
  st_rows : MemoryStore → gmap string V;
  st_set : gmap string V → MemoryStore → MemoryStore;
  st_repr : ∀ s db, repr s db → table_repr (st_rows s) db;
  st_put : ∀ s db m t, repr s db → table_repr m (<[en_name := t]> db) → repr (st_set m s) (<[en_name := t]> db);
}.

Ltac store_table rows set :=
  refine {| st_rows := rows; st_set := set |};
  [by intros s db []|intros s db m t [] Hm; split; cbn in *;
   first [exact Hm|apply table_repr_other; [discriminate|assumption]|apply audit_repr_other; [discriminate..|assumption]]].
#[global] Instance Identity_store : StoreTable Identity.
Proof. store_table ms_identities set_identities. Defined.
#[global] Instance Issuer_store : StoreTable Issuer.
Proof. store_table ms_issuers set_issuers. Defined.
#[global] Instance OCSPResponder_store : StoreTable OCSPResponder.
Proof. store_table ms_ocspResponders set_ocspResponders. Defined.
#[global] Instance NotificationEndpoint_store : StoreTable NotificationEndpoint.
Proof. store_table ms_notifications set_notifications. Defined.
#[global] Instance CertificateProfile_store : StoreTable CertificateProfile.
Proof. store_table ms_profiles set_profiles. Defined.
#[global] Instance Enrollment_store : StoreTable Enrollment.
Proof. store_table ms_enrollments set_enrollments. Defined.
#[global] Instance Certificate_store : StoreTable Certificate.
Proof. store_table ms_certificates set_certificates. Defined.
#[global] Instance IssuanceAttempt_store : StoreTable IssuanceAttempt.
Proof. store_table ms_issuanceAttempts set_issuanceAttempts. Defined.
#[global] Instance Revocation_store : StoreTable Revocation.
Proof. store_table ms_revocations set_revocations. Defined.
#[global] Instance CRLPublication_store : StoreTable CRLPublication.
Proof. store_table ms_crls set_crls. Defined.
#[global] Instance CRLGenerationClaim_store : StoreTable CRLGenerationClaim.
Proof. store_table ms_crlClaims set_crlClaims. Defined.
#[global] Instance OutboxMessage_store : StoreTable OutboxMessage.
Proof. store_table ms_outbox set_outbox. Defined.
#[global] Instance JobAttempt_store : StoreTable JobAttempt.
Proof. store_table ms_jobAttempts set_jobAttempts. Defined.
#[global] Instance WebhookDelivery_store : StoreTable WebhookDelivery.
Proof. store_table ms_webhookDeliveries set_webhookDeliveries. Defined.
#[global] Instance APIKey_store : StoreTable APIKey.
Proof. store_table ms_apiKeys set_apiKeys. Defined.
#[global] Instance ACMEAccount_store : StoreTable ACMEAccount.
Proof. store_table ms_acmeAccounts set_acmeAccounts. Defined.
#[global] Instance ACMEOrder_store : StoreTable ACMEOrder.
Proof. store_table ms_acmeOrders set_acmeOrders. Defined.
#[global] Instance ACMEAuthorization_store : StoreTable ACMEAuthorization.
Proof. store_table ms_acmeAuthzs set_acmeAuthzs. Defined.
#[global] Instance ACMEChallenge_store : StoreTable ACMEChallenge.
Proof. store_table ms_acmeChallenges set_acmeChallenges. Defined.
End Repr.

(** ** Outcomes *)

Definition same_res {A B} (R : A → B → Prop) (r : res A) (r' : res B) : Prop :=
  match r, r' with
  | Ok a, Ok b => R a b
  | Err e, Err e' => e = e'
  | _, _ => False
  end.

Section Outcomes.
Context `{HC : GoCodec} `{HD : SQLDriver} `{HL : !SQLDriverLaws} `{HU : GoUnicode}.
Implicit Types (s : MemoryStore) (c : SQLConn).

Definition outcome {A B} (R : A → B → Prop) (x : res A * MemoryStore) (y : res B * SQLConn) : Prop :=
  same_res R x.1 y.1 ∧ repr x.2 (sc_db y.2).

(** Checking that a row with the same key is there after an update of no row. *)
Definition sql_update {A} (text : string) (args : list SQLValue) (get : SQLM A) : SQLM unit :=
  let* result := ExecContext text args in
  let* rowsAffected := affectedRows result in
  if negb (Z.eqb rowsAffected 0) then retM tt
  else do* get in failM ErrInvalidTransition.

Section Shapes.
Context {V : Type} `{HE : Entity V} `{HEL : !EntityLaws V} `{HS : !StoreTable V}.

(** Sorted lists do not depend on the order in which rows are visited. *)
Lemma listBy_values (m : gmap string V) l f created : keyed en_key m → l ≡ₚ map_values m →
  go_sort (key_less created en_key) (filter (λ a, f a = true) l) = listBy f created en_key (map_values m).
Proof.
  intros Hk Hl. unfold listBy. apply go_sort_permutation_invariant; [apply _| |by rewrite Hl].
  intros x y [_ Hx]%list_elem_of_filter [_ Hy]%list_elem_of_filter H1 H2. rewrite Hl in Hx, Hy.
  eapply keyed_values_inj; [done..|]. by eapply key_less_separates.
Qed.

Section Query.
Variables (s : MemoryStore) (c : SQLConn) (text : string) (args : list SQLValue) (columns : list Expr) (alias : string)
  (cond : option Expr) (order : list (Expr * bool)) (limit offset : option Expr)
  (keep : V → bool) (less : V → V → bool) (scan : Row → res V) (values : V → Row).
Hypothesis parsed : parse_sql text = Some [SSelect (mkSelect columns (en_name, alias) [] cond order limit offset)].
Hypothesis names : names_ok args [(alias, column_names en_table)] (mkSelect columns (en_name, alias) [] cond order limit offset) = true.
Hypothesis where_spec : ∀ a, en_storable a = true → selects (row_scope alias en_table (en_row a)) args cond = keep a.
Hypothesis order_spec : ∀ a b, en_storable a = true → en_storable b = true → keep a = true → keep b = true →
  order_less args order (row_scope alias en_table (en_row a)) (row_scope alias en_table (en_row b)) = less a b.
Hypothesis columns_spec : ∀ a, en_storable a = true → eval (row_scope alias en_table (en_row a)) args <$> columns = values a.
Hypothesis scan_spec : ∀ a, en_storable a = true → scan (values a) = Ok a.
Hypothesis represented : repr s (sc_db c).

#[local] Notation shape lemma :=
  (lemma (st_rows s) text args columns alias cond order limit offset keep less scan values
     parsed names where_spec order_spec columns_spec scan_spec) (only parsing).

(** A query by key. *)
Lemma outcome_get k err : (∀ a, en_storable a = true → keep a = (en_key a =s k)) → limit = None → offset = None →
  outcome eq (getRow st_rows k err s) (sql_get err text args scan c).
Proof.
  intros Hk Hl Ho. pose proof (st_repr _ _ represented) as Hm.
  assert (∀ a, a ∈ map_values (st_rows s) → keep a = (en_key a =s k)) as Hk'.
  { intros a (i & Ha)%elem_of_map_values. apply Hk. destruct Hm as (_ & _ & Hs & _). by apply (Hs _ _ Ha). }
  rewrite (shape sql_get_key err k c Hm) by done.
  split; [|done]. unfold getRow, lookupRow. cbn. by destruct (_ !! _).
Qed.

(** The first row of an ordered selection. *)
Lemma outcome_first err (f : MemoryStore → res V) :
  (∀ l, l ≡ₚ map_values (st_rows s) → f s =
    match head (limited args limit offset (go_sort less (filter (λ a, keep a = true) l))) with
    | Some a => Ok a
    | None => Err (EDomain err)
    end) → outcome eq (f s, s) (sql_get err text args scan c).
Proof.
  intros Hf. destruct (shape sql_get_ok err c (st_repr _ _ represented)) as (l & Hl & ->).
  split; [|done]. cbn. rewrite (Hf l Hl). by destruct (head _).
Qed.

(** An ordered selection. *)
Lemma outcome_list (f : MemoryStore → list V) :
  (∀ l, l ≡ₚ map_values (st_rows s) →
    f s = limited args limit offset (go_sort less (filter (λ a, keep a = true) l))) →
  outcome eq (query f s) (sql_list text args scan c).
Proof.
  intros Hf. destruct (shape sql_list_ok c (st_repr _ _ represented)) as (l & Hl & ->).
  split; [|done]. cbn. by apply Hf.
Qed.

(** A selection the in-memory store gives in no particular order. *)
Lemma outcome_selection : limit = None → offset = None →
  outcome Permutation (query (λ s, filter (λ a, keep a = true) (map_values (st_rows s))) s) (sql_list text args scan c).
Proof.
  intros Hli Hof. destruct (shape sql_list_ok c (st_repr _ _ represented)) as (l & Hl & ->).
  rewrite Hli, Hof. split; [|done]. cbn. by rewrite go_sort_perm, <- Hl.
Qed.
Lemma outcome_values : (∀ a, keep a = true) → limit = None → offset = None →
  outcome Permutation (query (λ s, map_values (st_rows s)) s) (sql_list text args scan c).
Proof.
  intros Hk Hli Hof. destruct (shape sql_list_ok c (st_repr _ _ represented)) as (l & Hl & ->).
  rewrite Hli, Hof. split; [|done]. cbn. rewrite go_sort_perm, <- Hl. symmetry.
  clear Hl. induction l as [|a l IH]; [done|]. rewrite filter_cons_True by apply Hk. by apply perm_skip.
Qed.
End Query.

Section Create.
Variables (s : MemoryStore) (c : SQLConn) (text : string) (args : list SQLValue) (columns : list string) (exprs : list Expr) (v : V).
Hypothesis parsed : parse_sql text = Some [SInsert en_name columns exprs None].
Hypothesis names : forallb (λ x, existsb (String.eqb x) (column_names en_table)) columns && Nat.eqb (length columns) (length exprs)
    && forallb (expr_ok [] (length args)) exprs = true.
Hypothesis row_spec : inserted_row en_table columns (eval [] args <$> exprs) = en_row v.
Hypothesis storable : en_storable v = true.
Hypothesis represented : repr s (sc_db c).

(** An insert the database accepts. *)
Lemma outcome_create : st_rows s !! en_key v = None → (∀ a, a ∈ map_values (st_rows s) → en_conflict v a = false) →
  ∀ f, f (st_rows s) = Ok (<[en_key v := v]> (st_rows s)) →
  outcome eq (putRows st_rows st_set f s) ((do* ExecContext text args in retM tt) c).
Proof.
  intros fresh Hc f Hf. unfold putRows. rewrite Hf.
  destruct (exec_insert _ c text args columns exprs v parsed (st_repr _ _ represented) names row_spec storable fresh Hc) as (t & He & Ht).
  unfold bindM. rewrite He. split; [done|]. cbn. by apply st_put.
Qed.

(** An insert whose unique conflicts the repository reports as a transition
    that is not allowed. *)
Lemma outcome_create_unique :
  (existsb (en_conflict v) (map_values (st_rows s)) = false → st_rows s !! en_key v = None) →
  Forall (λ ix, isUniqueConstraintError (unique_error en_name ix) = true) (tb_indexes en_table) →
  ∀ f, (f (st_rows s) = if existsb (en_conflict v) (map_values (st_rows s)) then Err (EDomain ErrInvalidTransition)
                        else Ok (<[en_key v := v]> (st_rows s))) →
  outcome eq (putRows st_rows st_set f s) ((do* uniqueAs ErrInvalidTransition (ExecContext text args) in retM tt) c).
Proof.
  intros Hfresh Hu f Hf. unfold putRows. rewrite Hf. destruct (existsb _ _) eqn:E.
  - destruct (exec_insert_conflict _ c text args columns exprs v parsed (st_repr _ _ represented) names row_spec) as (ix & Hix & He).
    { by apply list_find_existsb. }
    unfold uniqueAs, catchM, bindM. rewrite He. rewrite Forall_forall in Hu. rewrite Hu by done. by split.
  - destruct (exec_insert _ c text args columns exprs v parsed (st_repr _ _ represented) names row_spec storable (Hfresh eq_refl)) as (t & He & Ht).
    { intros a Ha. destruct (en_conflict v a) eqn:Ec; [|done]. apply not_true_iff_false in E. exfalso. apply E, list_find_existsb. eauto. }
    unfold uniqueAs, catchM, bindM. rewrite He. split; [done|]. cbn. by apply st_put.
Qed.
End Create.

Section UpdateIf.
Variables (s : MemoryStore) (c : SQLConn) (text : string) (args : list SQLValue) (sets : list (string * Expr)) (cond : option Expr)
  (cur : V → bool) (f : V → V) (v : V).
Hypothesis parsed : parse_sql text = Some [SUpdate en_name sets cond].
Hypothesis names : forallb (λ '(x, e), existsb (String.eqb x) (column_names en_table)
    && expr_ok [(en_name, column_names en_table)] (length args) e) sets
  && cond_ok [(en_name, column_names en_table)] (length args) cond = true.
Hypothesis where_spec : ∀ a, en_storable a = true →
  selects (row_scope en_name en_table (en_row a)) args cond = (en_key a =s en_key v) && cur a.
Hypothesis set_spec : ∀ a, en_storable a = true → (en_key a =s en_key v) && cur a = true →
  updated_row en_table (row_scope en_name en_table (en_row a)) args sets (en_row a) = en_row (f a).
Hypothesis represented : repr s (sc_db c).
Hypothesis written : ∀ a, st_rows s !! en_key v = Some a → cur a = true → f a = v.
Hypothesis storable : en_storable v = true.

(** The statement itself: one row is replaced, or none. *)
Lemma exec_update_cases err :
  (∀ a, st_rows s !! en_key v = Some a → cur a = true → ∀ b, b ∈ map_values (delete (en_key v) (st_rows s)) → en_conflict v b = false) →
  match updateIf (en_key v) err cur v (st_rows s) with
  | Ok m => ∃ db', ExecContext text args c = (Ok 1%Z, mkSQLConn db' (S (sc_tick c))) ∧ repr (st_set m s) db'
  | Err e => ExecContext text args c = (Ok 0%Z, next c) ∧
      e = match st_rows s !! en_key v with Some _ => EDomain ErrInvalidTransition | None => EDomain err end
  end.
Proof.
  intros Hconf. pose proof (st_repr _ _ represented) as Hm. unfold updateIf, lookupRow.
  destruct (st_rows s !! en_key v) as [a|] eqn:Ea; cbn [bindR].
  - destruct (cur a) eqn:Ec; cbn [negb check_not bindR].
    + pose proof (written a eq_refl Ec) as Hw.
      destruct (exec_update_one _ text args sets cond (en_key v) cur f parsed names where_spec set_spec c a Hm Ea Ec) as (t & He & Ht);
        rewrite ?Hw; try done; [by apply (Hconf a)|].
      eexists. split; [done|]. rewrite Hw in Ht. by apply st_put.
    + split; [|done]. eapply exec_update_none; [done..|]. intros; by simplify_eq.
  - split; [|done]. eapply exec_update_none; [done..|]. intros; by simplify_eq.
Qed.

(** What happens when no row was changed is up to [rest]. *)
Lemma outcome_update_by (rest : Z → SQLM unit) err :
  (∀ a, st_rows s !! en_key v = Some a → cur a = true → ∀ b, b ∈ map_values (delete (en_key v) (st_rows s)) → en_conflict v b = false) →
  (∀ c', rest 1%Z c' = (Ok tt, c')) →
  (∀ c', repr s (sc_db c') → ∃ c'', repr s (sc_db c'') ∧
     rest 0%Z c' = (Err (match st_rows s !! en_key v with Some _ => EDomain ErrInvalidTransition | None => EDomain err end), c'')) →
  outcome eq (putRows st_rows st_set (updateIf (en_key v) err cur v) s)
    ((let* result := ExecContext text args in let* n := affectedRows result in rest n) c).
Proof.
  intros Hconf H1 H0. pose proof (exec_update_cases err Hconf) as Hx. unfold putRows, bindM.
  destruct (updateIf (en_key v) err cur v (st_rows s)) as [m|e].
  - destruct Hx as (db' & He & Hr). rewrite He, affectedRows_ok, H1. by split.
  - destruct Hx as [He ->]. rewrite He, affectedRows_ok. destruct (H0 (next (next c)) represented) as (c'' & Hc & ->).
    by split; [destruct (_ !! _)|].
Qed.

(** A lookup of the row tells a missing row from one in another state. *)
Lemma outcome_update (get : SQLM V) err :
  (∀ a, st_rows s !! en_key v = Some a → cur a = true → ∀ b, b ∈ map_values (delete (en_key v) (st_rows s)) → en_conflict v b = false) →
  (∀ c', repr s (sc_db c') → outcome eq (getRow st_rows (en_key v) err s) (get c')) →
  outcome eq (putRows st_rows st_set (updateIf (en_key v) err cur v) s) (sql_update text args get c).
Proof.
  intros Hconf Hget. eapply (outcome_update_by (λ n, if negb (Z.eqb n 0) then retM tt else do* get in failM ErrInvalidTransition));
    [done|done|].
  intros c' Hc'. specialize (Hget c' Hc'). rewrite Z.eqb_refl. cbn [negb]. unfold bindM.
  destruct (get c') as [r c'']. destruct Hget as [Hr Hr']. exists c''. split; [done|].
  unfold getRow, lookupRow in Hr. cbn in Hr. by destruct (st_rows s !! en_key v), r; cbn in Hr; subst.
Qed.
Lemma outcome_update_catch (get : SQLM V) err :
  (∀ a, st_rows s !! en_key v = Some a → cur a = true → ∀ b, b ∈ map_values (delete (en_key v) (st_rows s)) → en_conflict v b = false) →
  (∀ c', repr s (sc_db c') → outcome eq (getRow st_rows (en_key v) err s) (get c')) →
  outcome eq (putRows st_rows st_set (updateIf (en_key v) err cur v) s)
    ((let* result := ExecContext text args in let* rowsAffected := affectedRows result in
      if Z.eqb rowsAffected 1 then retM tt
      else let* got := catchM get in
        match got with
        | Err e => if errors_Is e err then failM err else failM ErrInvalidTransition
        | Ok _ => failM ErrInvalidTransition
        end) c).
Proof.
  intros Hconf Hget. eapply (outcome_update_by (λ n, if Z.eqb n 1 then retM tt else let* got := catchM get in
    match got with Err e => if errors_Is e err then failM err else failM ErrInvalidTransition | Ok _ => failM ErrInvalidTransition end));
    [done|done|].
  intros c' Hc'. specialize (Hget c' Hc'). change (Z.eqb 0 1) with false. unfold catchM, bindM.
  destruct (get c') as [r c'']. destruct Hget as [Hr Hr']. exists c''. split; [done|].
  unfold getRow, lookupRow in Hr. cbn in Hr. destruct (st_rows s !! en_key v), r; cbn in Hr; subst; try done.
  cbn. by rewrite bool_decide_eq_true_2.
Qed.

(** An update that needs no state: a missing row is the only failure. *)
Lemma outcome_update_required err : (∀ a, cur a = true) →
  (∀ a, st_rows s !! en_key v = Some a → cur a = true → ∀ b, b ∈ map_values (delete (en_key v) (st_rows s)) → en_conflict v b = false) →
  outcome eq (putRows st_rows st_set (updateIf (en_key v) err cur v) s)
    ((let* result := ExecContext text args in requireRowsAffected result err) c).
Proof.
  intros Hcur Hconf. pose proof (exec_update_cases err Hconf) as Hx. unfold putRows, requireRowsAffected, bindM.
  unfold updateIf, lookupRow in *. destruct (st_rows s !! en_key v) as [a|]; cbn [bindR] in *; [rewrite Hcur in *; cbn [negb check_not bindR] in *|].
  - destruct Hx as (db' & He & Hr). rewrite He, affectedRows_ok. by split.
  - destruct Hx as [He _]. rewrite He, affectedRows_ok. by split.
Qed.

(** An update whose unique conflicts are reported as a transition that is not
    allowed. *)
Lemma outcome_update_unique (get : SQLM V) err :
  Forall (λ ix, isUniqueConstraintError (unique_error en_name ix) = true) (tb_indexes en_table) →
  (∀ c', repr s (sc_db c') → outcome eq (getRow st_rows (en_key v) err s) (get c')) →
  outcome eq (putRows st_rows st_set (λ m,
      let! current := lookupRow m (en_key v) err in
      do! check_not (negb (cur current)) ErrInvalidTransition in
      do! check_not (existsb (en_conflict v) (map_values (delete (en_key v) m))) ErrInvalidTransition in
      Ok (<[en_key v := v]> m)) s)
    ((let* result := uniqueAs ErrInvalidTransition (ExecContext text args) in
      let* rowsAffected := affectedRows result in
      if negb (Z.eqb rowsAffected 0) then retM tt else do* get in failM ErrInvalidTransition) c).
Proof.
  intros Hu Hget. assert ((∃ a, st_rows s !! en_key v = Some a ∧ cur a = true ∧
      existsb (en_conflict v) (map_values (delete (en_key v) (st_rows s))) = true) ∨ (∀ a, st_rows s !! en_key v = Some a → cur a = true →
      existsb (en_conflict v) (map_values (delete (en_key v) (st_rows s))) = false)) as [(a & Ea & Ec & E)|Hfree].
  { destruct (existsb (en_conflict v) (map_values (delete (en_key v) (st_rows s)))); [|by right].
    destruct (st_rows s !! en_key v) as [a|]; [|by right]. destruct (cur a) eqn:Ec; [left; eauto|right]. intros a' [= <-]. congruence. }
  - destruct (exec_update_conflict _ text args sets cond (en_key v) cur f parsed names where_spec set_spec c a (st_repr _ _ represented) Ea Ec)
      as (ix & Hix & He).
    { rewrite (written a Ea Ec). by apply list_find_existsb. }
    unfold putRows, lookupRow. rewrite Ea. cbn [bindR]. rewrite Ec, E. cbn [negb check_not bindR].
    unfold uniqueAs, catchM, bindM. rewrite He. rewrite Forall_forall in Hu. rewrite Hu by done. by split.
  - assert (∀ a, st_rows s !! en_key v = Some a → cur a = true →
      ∀ b, b ∈ map_values (delete (en_key v) (st_rows s)) → en_conflict v b = false) as Hconf.
    { intros a Ha Hc b Hb. specialize (Hfree a Ha Hc). apply not_true_iff_false in Hfree. apply not_true_iff_false.
      intros Hcb. apply Hfree, list_find_existsb. eauto. }
    pose proof (outcome_update get err Hconf Hget) as Hgo. pose proof (exec_update_cases err Hconf) as Hx.
    assert (uniqueAs ErrInvalidTransition (ExecContext text args) c = ExecContext text args c) as Hsame.
    { unfold uniqueAs, catchM, bindM. destruct (updateIf _ _ _ _ _); [destruct Hx as (db' & -> & _)|destruct Hx as [-> _]]; done. }
    unfold sql_update, bindM in Hgo |- *. rewrite Hsame.
    revert Hgo. unfold putRows, updateIf, lookupRow. destruct (st_rows s !! en_key v) as [a|] eqn:Ea; [|done]. cbn [bindR].
    destruct (cur a) eqn:Ec; [|done]. by rewrite (Hfree a).
Qed.
End UpdateIf.

(** A delete of the row in the state the caller read. *)
Lemma outcome_delete s c text args cond k (cur : V → bool) (get : SQLM V) err :
  parse_sql text = Some [SDelete en_name cond] → cond_ok [(en_name, column_names en_table)] (length args) cond = true →
  (∀ a, en_storable a = true → selects (row_scope en_name en_table (en_row a)) args cond = (en_key a =s k) && cur a) →
  repr s (sc_db c) → (∀ c', repr s (sc_db c') → outcome eq (getRow st_rows k err s) (get c')) →
  outcome eq (putRows st_rows st_set (λ m,
      let! stored := lookupRow m k err in
      do! check_not (negb (cur stored)) ErrInvalidTransition in
      Ok (delete k m)) s) (sql_update text args get c).
Proof.
  intros Hp Hn Hw Hr Hget. pose proof (exec_delete (st_rows s) text args cond k cur Hp Hn Hw c (st_repr _ _ Hr)) as Hx.
  specialize (Hget (next (next c)) Hr). unfold putRows, sql_update, bindM, lookupRow, getRow, lookupRow in *.
  destruct (get (next (next c))) as [r c'] eqn:Eg. destruct Hget as [Hg Hg']. cbn [fst snd] in Hg, Hg'.
  destruct (st_rows s !! k) as [a|]; cbn [bindR]; [destruct (cur a); cbn [negb check_not bindR]|].
  - destruct Hx as (t & -> & Ht). rewrite affectedRows_ok. split; [done|]. cbn. by apply st_put.
  - rewrite Hx, affectedRows_ok, Z.eqb_refl. cbn [negb]. rewrite Eg. destruct r; cbn in Hg; [by split|done].
  - rewrite Hx, affectedRows_ok, Z.eqb_refl. cbn [negb]. rewrite Eg. destruct r; cbn in Hg; [done|]. by subst.
Qed.
End Shapes.
End Outcomes.
