(* ===== verification/SQLOps.v ===== *)
(** * The operations of the SQL repository refine those of the in-memory one

    One lemma for each operation: on a database that represents a store, the
    statement the source sends does what the method of [MemoryStore] does. *)

From S2P Require Import Prelude GoLib Crypto Domain AuditChain Store StoreInv Repository SQLText SQLEngine SQLTime GoJSON SQLScan SQLStore SQLStoreCertificate SQLStoreACME SQLStoreOutbox SQLStoreAudit SQLSchema SQLEngineFacts SQLEntity SQLTables SQLRefinement.

(** ** Orders *)

Lemma order_asc {A} (created : A → Time) (id : A → string) a b :
  match Z.compare (created a) (created b) with
  | Eq => match String.compare (id a) (id b) with Eq => false | Lt => true | Gt => false end
  | Lt => true
  | Gt => false
  end = key_less created id a b.
Proof.
  unfold key_less, String.ltb. destruct (Z.compare_spec (created a) (created b)) as [E|E|E].
  - by rewrite E, Z.eqb_refl.
  - rewrite (proj2 (Z.eqb_neq _ _)) by lia. cbn. symmetry. by apply Z.ltb_lt.
  - rewrite (proj2 (Z.eqb_neq _ _)) by lia. cbn. symmetry. apply Z.ltb_ge. lia.
Qed.

Ltac storable_in H :=
  cbv [en_storable Identity_entity Issuer_entity OCSPResponder_entity NotificationEndpoint_entity APIKey_entity CertificateProfile_entity
    Enrollment_entity Certificate_entity IssuanceAttempt_entity Revocation_entity CRLPublication_entity CRLGenerationClaim_entity
    ACMEAccount_entity ACMEOrder_entity ACMEAuthorization_entity ACMEChallenge_entity OutboxMessage_entity JobAttempt_entity
    WebhookDelivery_entity Identity_storable Issuer_storable OCSPResponder_storable NotificationEndpoint_storable APIKey_storable
    CertificateProfile_storable Enrollment_storable Certificate_storable IssuanceAttempt_storable Revocation_storable
    CRLPublication_storable CRLGenerationClaim_storable ACMEAccount_storable ACMEOrder_storable ACMEAuthorization_storable
    ACMEChallenge_storable OutboxMessage_storable JobAttempt_storable WebhookDelivery_storable] in H;
  storable_fields H.

(** The texts of lists and policies. *)
Ltac marshalled :=
  repeat match goal with
  | |- context [bindM (liftM (marshalStringSlice ?l)) ?k] => change (bindM (liftM (marshalStringSlice l)) k) with (k (json_strings l)); cbv beta
  | |- context [bindM (liftM (marshalAPIKeyScopes ?l)) ?k] => change (bindM (liftM (marshalAPIKeyScopes l)) k) with (k (json_strings l)); cbv beta
  | |- context [bindM (liftM (marshalStringListPolicy ?l)) ?k] =>
      change (bindM (liftM (marshalStringListPolicy l)) k) with (k (json_stringListPolicy l)); cbv beta
  | |- context [bindM (liftM (marshalBasicConstraints ?l)) ?k] =>
      change (bindM (liftM (marshalBasicConstraints l)) k) with (k (json_basicConstraints l)); cbv beta
  end.

(** The conditions of the shape lemmas. *)
Ltac parse_text :=
  lazymatch goal with |- parse_sql ?t = _ =>
    let v := eval vm_compute in (parse_sql t) in transitivity v; [vm_compute; reflexivity|reflexivity] end.
Ltac sql_where := intros a Ha; cbn; autorewrite with sql; try reflexivity.
Ltac sql_order :=
  intros a b Ha Hb _ _; cbn; storable_in Ha; storable_in Hb; rewrite format_order by assumption; apply order_asc.
Ltac sql_columns := intros a _; destruct a; reflexivity.
Ltac sql_set :=
  intros a _ H; apply andb_true_iff in H as [H _]; apply String.eqb_eq in H; cbn in H; destruct a; cbn in H; subst; reflexivity.

Ltac unfold_ops :=
  match goal with |- outcome _ (?m _) (?q _) =>
    let f := head_of m in let g := head_of q in (lazymatch f with @putRows => idtac | _ => unfold f end); unfold g end; marshalled;
  try match goal with |- context [notFound ?err (bindM (QueryRowContext ?text ?args) (λ row, liftM (?scan row))) ?c] =>
    change (notFound err (bindM (QueryRowContext text args) (λ row, liftM (scan row))) c) with (sql_get err text args scan c) end;
  try match goal with |- context [bindM (QueryContext ?text ?args) (λ rows, liftM (scan_rows ?scan rows)) ?c] =>
    change (bindM (QueryContext text args) (λ rows, liftM (scan_rows scan rows)) c) with (sql_list text args scan c) end.

Ltac get_tac V key k scan_lemma values :=
  intros Hr; unfold_ops;
  match goal with Hr : repr ?s _ |- outcome _ _ (sql_get ?err ?text ?args ?scan ?c) =>
    refine (outcome_get (V:=V) s c text args _ _ _ _ _ _ (λ a, key a =s k) (λ _ _, false) scan values _ _ _ _ _ _ Hr k err _ _ _) end;
  [parse_text|reflexivity|sql_where|by intros|sql_columns|apply scan_lemma|done|reflexivity|reflexivity].

Ltac list_tac V keep created scan_lemma values :=
  intros Hr; unfold_ops;
  match goal with |- outcome _ (query ?f ?s) (sql_list ?text ?args ?scan ?c) =>
    refine (outcome_list (V:=V) s c text args _ _ _ _ _ _ keep (key_less created en_key) scan values _ _ _ _ _ _ Hr f _) end;
  [parse_text|reflexivity|sql_where|sql_order|sql_columns|apply scan_lemma
  |let l := fresh in let Hl := fresh in intros l Hl; symmetry;
   exact (listBy_values (V:=V) _ l keep created (proj1 (st_repr _ _ Hr)) Hl)].
Ltac values_tac V created scan_lemma values :=
  intros Hr; unfold_ops;
  match goal with |- outcome _ (query ?f ?s) (sql_list ?text ?args ?scan ?c) =>
    refine (outcome_values (V:=V) s c text args _ _ _ _ _ _ (λ _, true) (key_less created en_key) scan values _ _ _ _ _ _ Hr _ _ _) end;
  [parse_text|reflexivity|sql_where|sql_order|sql_columns|apply scan_lemma|done|reflexivity|reflexivity].

Ltac create_tac V :=
  intros Hr (Hs & Hf & Hc);
  match goal with |- outcome eq (?m ?s) (?q ?c) => let f := head_of m in let g := head_of q in unfold f, g end; marshalled;
  match goal with |- outcome _ (putRows _ _ ?f ?s) (bindM (ExecContext ?text ?args) _ ?c) =>
    refine (outcome_create (V:=V) s c text args _ _ _ _ _ _ Hs Hr Hf Hc f _) end; [parse_text|reflexivity|reflexivity|reflexivity].

Ltac update_tac V v cur err get_lemma :=
  intros Hr (Hs & Hc); unfold_ops;
  match goal with |- outcome _ (putRows _ _ _ ?s)
      (bindM (ExecContext ?text ?args) (λ r, bindM (affectedRows r) (λ n, if _ then _ else bindM ?get _)) ?c) =>
    refine (outcome_update (V:=V) s c text args _ _ cur (λ _, v) v _ _ _ _ Hr (λ _ _ _, eq_refl) Hs get err (λ _ _ _, Hc) _) end;
  [parse_text|reflexivity|sql_where|sql_set|intros c' Hr'; by apply get_lemma].

Ltac update_catch_tac V v cur f err get_lemma written :=
  intros Hr (Hs & Hc); unfold_ops;
  match goal with |- outcome _ (putRows _ _ _ ?s)
      (bindM (ExecContext ?text ?args) (λ r, bindM (affectedRows r) (λ n, if _ then _ else bindM (catchM ?get) _)) ?c) =>
    refine (outcome_update_catch (V:=V) s c text args _ _ cur f v _ _ _ _ Hr _ Hs get err (λ _ _ _, Hc) _) end;
  [parse_text|reflexivity|sql_where|sql_set|written|intros c' Hr'; by apply get_lemma].

Section Operations.
Context `{HC : GoCodec} `{HD : SQLDriver} `{HL : !SQLDriverLaws} `{HU : GoUnicode}.
Implicit Types (s : MemoryStore) (c : SQLConn).

(** A value that can be added to its table, and one that can replace the value
    under its key. *)
Definition insertable {V} `{Entity V} `{!StoreTable V} (v : V) s : Prop :=
  en_storable v = true ∧ st_rows s !! en_key v = None ∧ ∀ a, a ∈ map_values (st_rows s) → en_conflict v a = false.
Definition replaceable {V} `{Entity V} `{!StoreTable V} (v : V) s : Prop :=
  en_storable v = true ∧ ∀ b, b ∈ map_values (delete (en_key v) (st_rows s)) → en_conflict v b = false.

Lemma CreateIdentity_refines s c x : repr s (sc_db c) → insertable x s → 
  outcome eq (Store.CreateIdentity x s) (SQLStore.CreateIdentity x c).
Proof. create_tac Identity. Qed.
Lemma GetIdentity_refines s c id : repr s (sc_db c) → 
  outcome eq (Store.GetIdentity id s) (SQLStore.GetIdentity id c).
Proof. get_tac Identity Identity_ID id scan_Identity Identity_values. Qed.
Lemma CreateIssuer_refines s c x : repr s (sc_db c) → insertable x s → 
  outcome eq (Store.CreateIssuer x s) (SQLStore.CreateIssuer x c).
Proof. create_tac Issuer. Qed.
Lemma GetIssuer_refines s c id : repr s (sc_db c) → 
  outcome eq (Store.GetIssuer id s) (SQLStore.GetIssuer id c).
Proof. get_tac Issuer Issuer_ID id scan_Issuer Issuer_values. Qed.
Lemma GetOCSPResponder_refines s c id : repr s (sc_db c) → 
  outcome eq (Store.GetOCSPResponder id s) (SQLStore.GetOCSPResponder id c).
Proof. get_tac OCSPResponder OCSPResponder_ID id scan_OCSPResponder OCSPResponder_values. Qed.
Lemma CreateNotificationEndpoint_refines s c x : repr s (sc_db c) → insertable x s → 
  outcome eq (Store.CreateNotificationEndpoint x s) (SQLStore.CreateNotificationEndpoint x c).
Proof. create_tac NotificationEndpoint. Qed.
Lemma GetNotificationEndpoint_refines s c id : repr s (sc_db c) → 
  outcome eq (Store.GetNotificationEndpoint id s) (SQLStore.GetNotificationEndpoint id c).
Proof. get_tac NotificationEndpoint NotificationEndpoint_ID id scan_NotificationEndpoint NotificationEndpoint_values. Qed.
Lemma CreateAPIKey_refines s c x : repr s (sc_db c) → insertable x s → 
  outcome eq (Store.CreateAPIKey x s) (SQLStore.CreateAPIKey x c).
Proof. create_tac APIKey. Qed.
Lemma GetAPIKey_refines s c id : repr s (sc_db c) → 
  outcome eq (Store.GetAPIKey id s) (SQLStore.GetAPIKey id c).
Proof. get_tac APIKey APIKey_ID id scan_APIKey APIKey_values. Qed.
Lemma CreateCertificateProfile_refines s c x : repr s (sc_db c) → insertable x s → 
  outcome eq (Store.CreateCertificateProfile x s) (SQLStoreCertificate.CreateCertificateProfile x c).
Proof. create_tac CertificateProfile. Qed.
Lemma GetCertificateProfile_refines s c id : repr s (sc_db c) → 
  outcome eq (Store.GetCertificateProfile id s) (SQLStoreCertificate.GetCertificateProfile id c).
Proof. get_tac CertificateProfile CertificateProfile_ID id scan_CertificateProfile CertificateProfile_values. Qed.
Lemma CreateEnrollment_refines s c x : repr s (sc_db c) → insertable x s → 
  outcome eq (Store.CreateEnrollment x s) (SQLStoreCertificate.CreateEnrollment x c).
Proof. create_tac Enrollment. Qed.
Lemma GetEnrollment_refines s c id : repr s (sc_db c) → 
  outcome eq (Store.GetEnrollment id s) (SQLStoreCertificate.GetEnrollment id c).
Proof. get_tac Enrollment Enrollment_ID id scan_Enrollment Enrollment_values. Qed.
Lemma GetCertificate_refines s c id : repr s (sc_db c) → 
  outcome eq (Store.GetCertificate id s) (SQLStoreCertificate.GetCertificate id c).
Proof. get_tac Certificate Certificate_ID id scan_Certificate Certificate_values. Qed.
Lemma GetIssuanceAttempt_refines s c id : repr s (sc_db c) → 
  outcome eq (Store.GetIssuanceAttempt id s) (SQLStoreCertificate.GetIssuanceAttempt id c).
Proof. get_tac IssuanceAttempt IssuanceAttempt_EnrollmentID id scan_IssuanceAttempt IssuanceAttempt_values. Qed.
Lemma CreateRevocation_refines s c x : repr s (sc_db c) → insertable x s → 
  outcome eq (Store.CreateRevocation x s) (SQLStoreCertificate.CreateRevocation x c).
Proof. create_tac Revocation. Qed.
Lemma GetCRLPublication_refines s c id : repr s (sc_db c) → 
  outcome eq (Store.GetCRLPublication id s) (SQLStoreCertificate.GetCRLPublication id c).
Proof. get_tac CRLPublication CRLPublication_ID id scan_CRLPublication CRLPublication_values. Qed.
Lemma GetACMEAccount_refines s c id : repr s (sc_db c) → 
  outcome eq (Store.GetACMEAccount id s) (SQLStoreACME.GetACMEAccount id c).
Proof. get_tac ACMEAccount ACMEAccount_ID id scan_ACMEAccount ACMEAccount_values. Qed.
Lemma CreateACMEOrder_refines s c x : repr s (sc_db c) → insertable x s → 
  outcome eq (Store.CreateACMEOrder x s) (SQLStoreACME.CreateACMEOrder x c).
Proof. create_tac ACMEOrder. Qed.
Lemma GetACMEOrder_refines s c id : repr s (sc_db c) → 
  outcome eq (Store.GetACMEOrder id s) (SQLStoreACME.GetACMEOrder id c).
Proof. get_tac ACMEOrder ACMEOrder_ID id scan_ACMEOrder ACMEOrder_values. Qed.
Lemma CreateACMEAuthorization_refines s c x : repr s (sc_db c) → insertable x s → 
  outcome eq (Store.CreateACMEAuthorization x s) (SQLStoreACME.CreateACMEAuthorization x c).
Proof. create_tac ACMEAuthorization. Qed.
Lemma GetACMEAuthorization_refines s c id : repr s (sc_db c) → 
  outcome eq (Store.GetACMEAuthorization id s) (SQLStoreACME.GetACMEAuthorization id c).
Proof. get_tac ACMEAuthorization ACMEAuthorization_ID id scan_ACMEAuthorization ACMEAuthorization_values. Qed.
Lemma CreateACMEChallenge_refines s c x : repr s (sc_db c) → insertable x s → 
  outcome eq (Store.CreateACMEChallenge x s) (SQLStoreACME.CreateACMEChallenge x c).
Proof. create_tac ACMEChallenge. Qed.
Lemma GetACMEChallenge_refines s c id : repr s (sc_db c) → 
  outcome eq (Store.GetACMEChallenge id s) (SQLStoreACME.GetACMEChallenge id c).
Proof. get_tac ACMEChallenge ACMEChallenge_ID id scan_ACMEChallenge ACMEChallenge_values. Qed.
Lemma CreateOutboxMessage_refines s c x : repr s (sc_db c) → insertable x s → 
  outcome eq (Store.CreateOutboxMessage x s) (SQLStoreOutbox.CreateOutboxMessage x c).
Proof. create_tac OutboxMessage. Qed.
Lemma GetOutboxMessage_refines s c id : repr s (sc_db c) → 
  outcome eq (Store.GetOutboxMessage id s) (SQLStoreOutbox.GetOutboxMessage id c).
Proof. get_tac OutboxMessage OutboxMessage_ID id scan_OutboxMessage OutboxMessage_values. Qed.
Lemma CreateJobAttempt_refines s c x : repr s (sc_db c) → insertable x s → 
  outcome eq (Store.CreateJobAttempt x s) (SQLStoreOutbox.CreateJobAttempt x c).
Proof. create_tac JobAttempt. Qed.
Lemma ListOCSPRespondersByIssuer_refines s c i : repr s (sc_db c) → 
  outcome eq (Store.ListOCSPRespondersByIssuer i s) (SQLStore.ListOCSPRespondersByIssuer i c).
Proof. list_tac OCSPResponder (λ a, OCSPResponder_IssuerID a =s i) OCSPResponder_CreatedAt scan_OCSPResponder OCSPResponder_values. Qed.
Lemma ListNotificationEndpoints_refines s c : repr s (sc_db c) → 
  outcome eq (Store.ListNotificationEndpoints s) (SQLStore.ListNotificationEndpoints c).
Proof. list_tac NotificationEndpoint (λ _ : NotificationEndpoint, true) NotificationEndpoint_CreatedAt scan_NotificationEndpoint NotificationEndpoint_values. Qed.
Lemma ListAPIKeys_refines s c : repr s (sc_db c) → 
  outcome eq (Store.ListAPIKeys s) (SQLStore.ListAPIKeys c).
Proof. list_tac APIKey (λ _ : APIKey, true) APIKey_CreatedAt scan_APIKey APIKey_values. Qed.
Lemma ListACMEAccounts_refines s c : repr s (sc_db c) → 
  outcome eq (Store.ListACMEAccounts s) (SQLStoreACME.ListACMEAccounts c).
Proof. list_tac ACMEAccount (λ _ : ACMEAccount, true) ACMEAccount_CreatedAt scan_ACMEAccount ACMEAccount_values. Qed.
Lemma ListACMEOrdersByAccount_refines s c i : repr s (sc_db c) → 
  outcome eq (Store.ListACMEOrdersByAccount i s) (SQLStoreACME.ListACMEOrdersByAccount i c).
Proof. list_tac ACMEOrder (λ a, ACMEOrder_AccountID a =s i) ACMEOrder_CreatedAt scan_ACMEOrder ACMEOrder_values. Qed.
Lemma ListACMEAuthorizationsByOrder_refines s c i : repr s (sc_db c) → 
  outcome eq (Store.ListACMEAuthorizationsByOrder i s) (SQLStoreACME.ListACMEAuthorizationsByOrder i c).
Proof. list_tac ACMEAuthorization (λ a, ACMEAuthorization_OrderID a =s i) ACMEAuthorization_CreatedAt scan_ACMEAuthorization ACMEAuthorization_values. Qed.
Lemma ListACMEChallengesByAuthorization_refines s c i : repr s (sc_db c) → 
  outcome eq (Store.ListACMEChallengesByAuthorization i s) (SQLStoreACME.ListACMEChallengesByAuthorization i c).
Proof. list_tac ACMEChallenge (λ a, ACMEChallenge_AuthorizationID a =s i) ACMEChallenge_CreatedAt scan_ACMEChallenge ACMEChallenge_values. Qed.
Lemma ListJobAttemptsByOutboxMessage_refines s c i : repr s (sc_db c) → 
  outcome eq (Store.ListJobAttemptsByOutboxMessage i s) (SQLStoreOutbox.ListJobAttemptsByOutboxMessage i c).
Proof. list_tac JobAttempt (λ a, JobAttempt_OutboxMessageID a =s i) JobAttempt_CreatedAt scan_JobAttempt JobAttempt_values. Qed.
Lemma ListIdentities_refines s c : repr s (sc_db c) → 
  outcome Permutation (Store.ListIdentities s) (SQLStore.ListIdentities c).
Proof. values_tac Identity Identity_CreatedAt scan_Identity Identity_values. Qed.
Lemma ListIssuers_refines s c : repr s (sc_db c) → 
  outcome Permutation (Store.ListIssuers s) (SQLStore.ListIssuers c).
Proof. values_tac Issuer Issuer_CreatedAt scan_Issuer Issuer_values. Qed.
Lemma ListCertificateProfiles_refines s c : repr s (sc_db c) → 
  outcome Permutation (Store.ListCertificateProfiles s) (SQLStoreCertificate.ListCertificateProfiles c).
Proof. values_tac CertificateProfile CertificateProfile_CreatedAt scan_CertificateProfile CertificateProfile_values. Qed.
Lemma ListEnrollments_refines s c : repr s (sc_db c) → 
  outcome Permutation (Store.ListEnrollments s) (SQLStoreCertificate.ListEnrollments c).
Proof. values_tac Enrollment Enrollment_CreatedAt scan_Enrollment Enrollment_values. Qed.
Lemma ListCertificates_refines s c : repr s (sc_db c) → 
  outcome Permutation (Store.ListCertificates s) (SQLStoreCertificate.ListCertificates c).
Proof. values_tac Certificate Certificate_CreatedAt scan_Certificate Certificate_values. Qed.
Lemma UpdateNotificationEndpointIfStatus_refines s c x st : repr s (sc_db c) → replaceable x s → 
  outcome eq (Store.UpdateNotificationEndpointIfStatus x st s) (SQLStore.UpdateNotificationEndpointIfStatus x st c).
Proof. update_tac NotificationEndpoint x (λ a, NotificationEndpoint_Status a =s st) ErrNotificationEndpointNotFound GetNotificationEndpoint_refines. Qed.
Lemma UpdateOutboxMessageStatusIfStatus_refines s c x st : repr s (sc_db c) → replaceable x s → 
  outcome eq (Store.UpdateOutboxMessageStatusIfStatus x st s) (SQLStoreOutbox.UpdateOutboxMessageStatusIfStatus x st c).
Proof. update_tac OutboxMessage x (λ a, OutboxMessage_Status a =s st) ErrOutboxMessageNotFound GetOutboxMessage_refines. Qed.
Lemma UpdateACMEOrderIfStatus_refines s c x st : repr s (sc_db c) → replaceable x s → 
  outcome eq (Store.UpdateACMEOrderIfStatus x st s) (SQLStoreACME.UpdateACMEOrderIfStatus x st c).
Proof. update_catch_tac ACMEOrder x (λ a, ACMEOrder_Status a =s st) (λ _ : ACMEOrder, x) ErrACMEOrderNotFound GetACMEOrder_refines ltac:(done). Qed.
Lemma UpdateACMEChallengeIfStatus_refines s c x st : repr s (sc_db c) → replaceable x s → 
  outcome eq (Store.UpdateACMEChallengeIfStatus x st s) (SQLStoreACME.UpdateACMEChallengeIfStatus x st c).
Proof. update_catch_tac ACMEChallenge x (λ a, ACMEChallenge_Status a =s st) (λ _ : ACMEChallenge, x) ErrACMEChallengeNotFound GetACMEChallenge_refines ltac:(done). Qed.

End Operations.
