(* ===== verification/SQLSpecialOps.v ===== *)
(** * Operations whose conditions go beyond a key or a state

    Inserts with unique indexes, compare-and-set on times, lookups by an
    alternative key, and the lists of due work. *)

From Stdlib Require Import Btauto.
From S2P Require Import Prelude GoLib Crypto Domain AuditChain Store StoreInv Repository SQLText SQLEngine SQLTime GoJSON SQLScan SQLStore SQLStoreCertificate SQLStoreACME SQLStoreOutbox SQLStoreAudit SQLSchema SQLEngineFacts SQLEntity SQLTables SQLRefinement SQLOps.

Lemma for_checks_existsb {A} (g : A → bool) e l :
  for_checks l (λ x, check_not (g x) e) = if existsb g l then Err e else Ok tt.
Proof. induction l as [|x l IH]; [done|]. cbn. rewrite IH. by destruct (g x). Qed.

Lemma existsb_ext_in {A} (f g : A → bool) l : (∀ x, x ∈ l → f x = g x) → existsb f l = existsb g l.
Proof.
  induction l as [|x l IH]; intros H; [done|]. cbn. rewrite (H x), IH; [done| |left]. intros y Hy. apply H. by right.
Qed.

Lemma existsb_never {A} (l : list A) : existsb (λ _, false) l = false.
Proof. by induction l. Qed.

(** Equality of texts that are not empty, as the partial indexes state it. *)
Lemma nonempty_eq a b : (a <>s "") && (b <>s "") && (a =s b) = (a <>s "") && (b =s a).
Proof. destruct (String.eqb_spec a b) as [->|Hn]; [rewrite String.eqb_refl|rewrite (proj2 (String.eqb_neq b a)) by congruence]; btauto. Qed.

Ltac create_unique_tac V :=
  unfold_ops;
  match goal with Hr : repr _ _, Hs : en_storable ?v = true |- outcome _ (putRows _ _ ?f ?s) (bindM (uniqueAs _ (ExecContext ?text ?args)) _ ?c) =>
    refine (outcome_create_unique (V:=V) s c text args _ _ v _ _ _ Hs Hr _ _ f _) end;
  [parse_text|reflexivity|reflexivity| |by repeat constructor|].

(** Times in conditions. *)
Lemma nullable_eq t1 t2 : sqlTimeOK t1 = true → sqlTimeOK t2 = true →
  match compare_values (formatNullableSQLTime t1) (formatNullableSQLTime t2) with Eq => true | _ => false end = TimeEqual t1 t2.
Proof.
  intros H1 H2. unfold formatNullableSQLTime, TimeEqual, IsZero.
  destruct (Z.eqb_spec t1 0) as [->|N1], (Z.eqb_spec t2 0) as [->|N2]; cbn [compare_values].
  - done.
  - symmetry. apply Z.eqb_neq. congruence.
  - symmetry. by apply Z.eqb_neq.
  - rewrite format_order by done. destruct (Z.compare_spec t1 t2); symmetry; [by apply Z.eqb_eq|apply Z.eqb_neq; lia..].
Qed.
Lemma nullable_null t : match formatNullableSQLTime t with VNull => true | _ => false end = IsZero t.
Proof. unfold formatNullableSQLTime. by destruct (IsZero t). Qed.

(** [(x IS NULL AND y IS NULL) OR x = y]. *)
Lemma nullable_same t1 t2 : sqlTimeOK t1 = true → sqlTimeOK t2 = true →
  or3 (Some (IsZero t1 && IsZero t2)) (truth match formatNullableSQLTime t1, formatNullableSQLTime t2 with
    | VNull, _ | _, VNull => VNull
    | x, y => VBool (cmp_holds OpEq (compare_values x y))
    end) = if IsZero t1 || IsZero t2 then (if IsZero t1 && IsZero t2 then Some true else None) else Some (TimeEqual t1 t2).
Proof.
  intros H1 H2. unfold formatNullableSQLTime. destruct (IsZero t1), (IsZero t2); try done.
  cbn [compare_values]. autorewrite with sql. by rewrite format_inj.
Qed.

Lemma and_nullable b t1 t2 :
  match and3 (Some b) (if IsZero t1 || IsZero t2 then (if IsZero t1 && IsZero t2 then Some true else None) else Some (TimeEqual t1 t2)) with
  | Some true => true
  | _ => false
  end = b && TimeEqual t1 t2.
Proof.
  unfold TimeEqual, IsZero. destruct (Z.eqb_spec t1 0) as [->|N1], (Z.eqb_spec t2 0) as [->|N2]; cbn [orb andb].
  - by destruct b.
  - rewrite (proj2 (Z.eqb_neq 0 t2)) by congruence. by destruct b.
  - rewrite (proj2 (Z.eqb_neq t1 0)) by done. by destruct b.
  - by rewrite and3_some, selected_some.
Qed.

Lemma order_desc {A} (created : A → Time) (id : A → string) a b :
  match Z.compare (created a) (created b) with
  | Eq => match String.compare (id a) (id b) with Eq => false | Lt => false | Gt => true end
  | Lt => false
  | Gt => true
  end = key_less created id b a.
Proof.
  rewrite <- order_asc, Z.compare_antisym, (String.compare_antisym (id a)).
  by destruct (Z.compare (created b) (created a)), (String.compare (id b) (id a)).
Qed.

Lemma then_by_match {A} (key : A → Z) less a b :
  match Z.compare (key a) (key b) with Eq => less a b | Lt => true | Gt => false end = then_by key less a b.
Proof.
  unfold then_by. destruct (Z.compare_spec (key a) (key b)) as [E|E|E].
  - by rewrite E, Z.eqb_refl.
  - rewrite (proj2 (Z.eqb_neq _ _)) by lia. cbn. symmetry. by apply Z.ltb_lt.
  - rewrite (proj2 (Z.eqb_neq _ _)) by lia. cbn. symmetry. apply Z.ltb_ge. lia.
Qed.

Section Special.
Context `{HC : GoCodec} `{HD : SQLDriver} `{HL : !SQLDriverLaws} `{HU : GoUnicode}.
Implicit Types (s : MemoryStore) (c : SQLConn).

(** A value whose key is not in use. *)
Definition addable {V} `{Entity V} `{!StoreTable V} (v : V) s : Prop :=
  en_storable v = true ∧ st_rows s !! en_key v = None.

Lemma fresh_key {V} `{Entity V} `{!StoreTable V} (v a : V) s db : repr s db → addable v s →
  a ∈ map_values (st_rows s) → (en_key v =s en_key a) = false.
Proof.
  intros Hr [_ Hf] (k & Ha)%elem_of_map_values. apply String.eqb_neq. intros E.
  pose proof (proj1 (st_repr _ _ Hr) _ _ Ha) as Hk. cbn in Hk. congruence.
Qed.

Lemma conflict_by_key {V} `{Entity V} (m : gmap string V) v : keyed en_key m → (∀ a, en_conflict v a = (en_key v =s en_key a)) →
  existsb (en_conflict v) (map_values m) = match m !! en_key v with Some _ => true | None => false end.
Proof.
  intros Hk Hc. apply eq_true_iff_eq. rewrite list_find_existsb. setoid_rewrite Hc. setoid_rewrite String.eqb_eq. split.
  - intros (a & (k & Ha)%elem_of_map_values & E). pose proof (Hk _ _ Ha) as Ek. cbn in Ek. by rewrite E, Ek, Ha.
  - destruct (m !! en_key v) as [a|] eqn:Ea; [|done]. intros _. exists a. split; [apply elem_of_map_values; eauto|].
    symmetry. by apply (Hk _ _ Ea).
Qed.

Lemma CreateIssuanceAttempt_refines s c x : repr s (sc_db c) → en_storable x = true →
  outcome eq (Store.CreateIssuanceAttempt x s) (SQLStoreCertificate.CreateIssuanceAttempt x c).
Proof.
  intros Hr Hs. pose proof (conflict_by_key (st_rows s) x (proj1 (st_repr _ _ Hr)) (λ _, eq_refl)) as Hc.
  create_unique_tac IssuanceAttempt; rewrite Hc; [by destruct (st_rows s !! en_key x)|].
  unfold createIssuanceAttempt. cbn. by destruct (ms_issuanceAttempts s !! IssuanceAttempt_EnrollmentID x).
Qed.

Lemma CreateCertificate_refines s c x : repr s (sc_db c) → addable x s →
  outcome eq (Store.CreateCertificate x s) (SQLStoreCertificate.CreateCertificate x c).
Proof.
  intros Hr [Hs Hf]. create_unique_tac Certificate; [done|].
  unfold ensureCertificateFinalizationKeysAvailable. rewrite for_checks_existsb.
  rewrite (existsb_ext_in _ (en_conflict x)); [by destruct (existsb _ _)|].
  intros a Ha. pose proof (fresh_key x a s _ Hr (conj Hs Hf) Ha) as E. cbn in E. cbn. unfold finalizationKeyConflict.
  rewrite (String.eqb_sym (Certificate_ID a)), E. cbn. rewrite nonempty_eq. f_equal.
  transitivity (((Certificate_IssuerID x <>s "") && (Certificate_IssuerID a <>s "") && (Certificate_IssuerID x =s Certificate_IssuerID a))
    && ((Certificate_SerialNumber x <>s "") && (Certificate_SerialNumber a <>s "") && (Certificate_SerialNumber x =s Certificate_SerialNumber a)));
    [rewrite !nonempty_eq|]; btauto.
Qed.

Lemma CreateCRLPublication_refines s c x : repr s (sc_db c) → addable x s →
  outcome eq (Store.CreateCRLPublication x s) (SQLStoreCertificate.CreateCRLPublication x c).
Proof.
  intros Hr [Hs Hf]. create_unique_tac CRLPublication; [done|].
  unfold ensureCRLPublicationNumberAvailable. rewrite for_checks_existsb.
  rewrite (existsb_ext_in _ (en_conflict x)); [by destruct (existsb _ _)|].
  intros a Ha. pose proof (fresh_key x a s _ Hr (conj Hs Hf) Ha) as E. cbn in E. cbn. unfold crlNumberConflict.
  rewrite (String.eqb_sym (CRLPublication_ID a)), E, (String.eqb_sym (CRLPublication_IssuerID a)),
    (String.eqb_sym (CRLPublication_DistributionPoint a)), (Z.eqb_sym (CRLPublication_CRLNumber a)). btauto.
Qed.

Lemma CreateACMEAccount_refines s c x : repr s (sc_db c) → addable x s →
  outcome eq (Store.CreateACMEAccount x s) (SQLStoreACME.CreateACMEAccount x c).
Proof.
  intros Hr [Hs Hf]. create_unique_tac ACMEAccount; [done|].
  assert (∀ a, a ∈ map_values (st_rows s) → en_conflict x a =
    (ACMEAccount_KeyThumbprint x <>s "") && ((ACMEAccount_ID a <>s ACMEAccount_ID x) && (ACMEAccount_KeyThumbprint a =s ACMEAccount_KeyThumbprint x))) as Hc.
  { intros a Ha. pose proof (fresh_key x a s _ Hr (conj Hs Hf) Ha) as E. cbn in E. cbn.
    by rewrite (String.eqb_sym (ACMEAccount_ID a)), E, nonempty_eq. }
  rewrite (existsb_ext_in _ _ _ Hc). unfold ensureACMEAccountThumbprintAvailable. rewrite for_checks_existsb.
  destruct (ACMEAccount_KeyThumbprint x =s ""); cbn [negb andb]; [|by destruct (existsb _ _)].
  by rewrite existsb_never.
Qed.

Lemma active_exists order i : is_ok (activeOCSPResponderByIssuer order i) = existsb (isActiveResponderOf i) order.
Proof.
  pose proof (activeOCSPResponderByIssuer_spec order i) as Hs. symmetry.
  destruct (activeOCSPResponderByIssuer order i) as [a|e]; cbn; [by apply list_find_existsb; eauto|].
  apply not_true_iff_false. intros (a & Ha & E)%list_find_existsb. destruct Hs as [_ Hs]. by rewrite Hs in E.
Qed.

Lemma CreateOCSPResponder_refines s c x : repr s (sc_db c) → addable x s →
  outcome eq (Store.CreateOCSPResponder x s) (SQLStore.CreateOCSPResponder x c).
Proof.
  intros Hr [Hs Hf]. create_unique_tac OCSPResponder; [done|]. rewrite active_exists.
  assert (∀ a, a ∈ map_values (st_rows s) → en_conflict x a =
    (OCSPResponder_Status x =s OCSPResponderActive) && isActiveResponderOf (OCSPResponder_IssuerID x) a) as Hc.
  { intros a Ha. pose proof (fresh_key x a s _ Hr (conj Hs Hf) Ha) as E. cbn in E. cbn. unfold isActiveResponderOf.
    rewrite E, (String.eqb_sym (OCSPResponder_IssuerID a)). btauto. }
  rewrite (existsb_ext_in _ _ _ Hc).
  destruct (OCSPResponder_Status x =s OCSPResponderActive); cbn [andb]; [by destruct (existsb _ _)|].
  by rewrite existsb_never.
Qed.

(** ** Updates *)

(** The profile as the statement leaves it: only the issuer and the time change. *)
Definition reissued (x a : CertificateProfile) : CertificateProfile :=
  CertificateProfile_with_IssuerID (CertificateProfile_IssuerID x) (CertificateProfile_with_UpdatedAt (CertificateProfile_UpdatedAt x) a).

Lemma UpdateCertificateProfileIssuerIfCurrent_refines s c x i t : repr s (sc_db c) → replaceable x s → sqlTimeOK t = true →
  (∀ a, ms_profiles s !! CertificateProfile_ID x = Some a → reissued x a = x) →
  outcome eq (Store.UpdateCertificateProfileIssuerIfCurrent x i t s) (SQLStoreCertificate.UpdateCertificateProfileIssuerIfCurrent x i t c).
Proof.
  intros Hr [Hs Hc] Ht Hw. unfold_ops.
  match goal with |- outcome _ _ (bindM (ExecContext ?text ?args) (λ r, bindM (affectedRows r) ?rest) ?c) =>
    refine (outcome_update_by (V:=CertificateProfile) s c text args _ _
      (λ a, (CertificateProfile_IssuerID a =s i) && TimeEqual (CertificateProfile_UpdatedAt a) t) (reissued x) x
      _ _ _ _ Hr (λ a Ha _, Hw a Ha) Hs rest ErrCertificateProfileNotFound (λ _ _ _, Hc) _ _) end.
  - parse_text.
  - reflexivity.
  - sql_where. storable_in Ha. rewrite format_inj by done. btauto.
  - sql_set.
  - done.
  - intros c' Hr'. rewrite Z.eqb_refl. unfold bindM.
    pose proof (GetCertificateProfile_refines s c' (CertificateProfile_ID x) Hr') as [Hg Hg'].
    destruct (SQLStoreCertificate.GetCertificateProfile (CertificateProfile_ID x) c') as [r c'']. exists c''. split; [done|].
    unfold Store.GetCertificateProfile, getRow, lookupRow in Hg. cbn in *.
    by destruct (ms_profiles s !! CertificateProfile_ID x), r; cbn in Hg; subst.
Qed.

(** The creation time of a key or an account is not written. *)
Definition APIKey_keeping_CreatedAt (x a : APIKey) : APIKey :=
  mkAPIKey (APIKey_ID x) (APIKey_Name x) (APIKey_TokenHash x) (APIKey_Status x) (APIKey_Actor x) (APIKey_Scopes x)
    (APIKey_ExpiresAt x) (APIKey_LastUsedAt x) (APIKey_CreatedAt a) (APIKey_UpdatedAt x).

Lemma UpdateAPIKeyIfStatus_refines s c x st : repr s (sc_db c) → replaceable x s →
  (∀ a, ms_apiKeys s !! APIKey_ID x = Some a → APIKey_CreatedAt a = APIKey_CreatedAt x) →
  outcome eq (Store.UpdateAPIKeyIfStatus x st s) (SQLStore.UpdateAPIKeyIfStatus x st c).
Proof.
  intros Hr Hc Hw. revert Hr Hc.
  update_catch_tac APIKey x (λ a, APIKey_Status a =s st) (APIKey_keeping_CreatedAt x) ErrAPIKeyNotFound GetAPIKey_refines
    ltac:(intros a Ha _; unfold APIKey_keeping_CreatedAt; rewrite (Hw a Ha); by destruct x).
Qed.

Definition ACMEAccount_keeping_CreatedAt (x a : ACMEAccount) : ACMEAccount :=
  mkACMEAccount (ACMEAccount_ID x) (ACMEAccount_Contacts x) (ACMEAccount_Status x) (ACMEAccount_TermsOfServiceAgreed x)
    (ACMEAccount_KeyThumbprint x) (ACMEAccount_KeyJWKJSON x) (ACMEAccount_CreatedAt a) (ACMEAccount_UpdatedAt x).

(** Without a conflict the check of the key thumbprint passes. *)
Lemma thumbprint_available s x : replaceable x s → keyed ACMEAccount_ID (ms_acmeAccounts s) →
  ensureACMEAccountThumbprintAvailable (map_values (ms_acmeAccounts s)) x = Ok tt.
Proof.
  intros [_ Hc] Hk. unfold ensureACMEAccountThumbprintAvailable. destruct (ACMEAccount_KeyThumbprint x =s "") eqn:E; [done|].
  rewrite for_checks_existsb. destruct (existsb _ _) eqn:Ee; [|done].
  apply list_find_existsb in Ee as (a & Ha & [H1 H2]%andb_true_iff). apply elem_of_map_values in Ha as (k & Ha).
  assert (a ∈ map_values (delete (en_key x) (st_rows s))) as Hd.
  { apply elem_of_map_values. exists k. rewrite lookup_delete_ne; [done|]. pose proof (Hk _ _ Ha) as Ek. cbn in Ek. cbn.
    rewrite <- Ek. intros E'. rewrite E', String.eqb_refl in H1. done. }
  specialize (Hc a Hd). cbn in Hc. apply String.eqb_eq in H2. rewrite H2, E, String.eqb_refl in Hc. cbn in Hc.
  by rewrite orb_true_r in Hc.
Qed.

Lemma UpdateACMEAccountIfStatus_refines s c x st : repr s (sc_db c) → replaceable x s →
  (∀ a, ms_acmeAccounts s !! ACMEAccount_ID x = Some a → ACMEAccount_CreatedAt a = ACMEAccount_CreatedAt x) →
  outcome eq (Store.UpdateACMEAccountIfStatus x st s) (SQLStoreACME.UpdateACMEAccountIfStatus x st c).
Proof.
  intros Hr Hc Hw.
  assert (Store.UpdateACMEAccountIfStatus x st s =
    putRows ms_acmeAccounts set_acmeAccounts (updateIf (ACMEAccount_ID x) ErrACMEAccountNotFound (λ a, ACMEAccount_Status a =s st) x) s) as ->.
  { unfold Store.UpdateACMEAccountIfStatus, putRows, updateACMEAccountIfStatus, updateIf.
    rewrite (thumbprint_available s x Hc (proj1 (repr_acmeAccounts _ _ Hr))).
    destruct (lookupRow _ _ _) as [a|]; [|done]. cbn [bindR]. by destruct (ACMEAccount_Status a =s st). }
  revert Hr Hc.
  update_catch_tac ACMEAccount x (λ a, ACMEAccount_Status a =s st) (ACMEAccount_keeping_CreatedAt x) ErrACMEAccountNotFound GetACMEAccount_refines
    ltac:(intros a Ha _; unfold ACMEAccount_keeping_CreatedAt; rewrite (Hw a Ha); by destruct x).
Qed.

(** A missing authorization is reported as a transition that is not allowed, so
    the row must be there. *)
Lemma UpdateACMEAuthorizationIfStatus_refines s c x st : repr s (sc_db c) → replaceable x s →
  is_Some (ms_acmeAuthzs s !! ACMEAuthorization_ID x) →
  outcome eq (Store.UpdateACMEAuthorizationIfStatus x st s) (SQLStoreACME.UpdateACMEAuthorizationIfStatus x st c).
Proof.
  intros Hr [Hs Hc] [a0 Ha0]. unfold_ops.
  match goal with |- outcome _ _ (bindM (ExecContext ?text ?args) (λ r, bindM (affectedRows r) ?rest) ?c) =>
    refine (outcome_update_by (V:=ACMEAuthorization) s c text args _ _ (λ a, ACMEAuthorization_Status a =s st) (λ _, x) x
      _ _ _ _ Hr (λ _ _ _, eq_refl) Hs rest ErrACMEAuthorizationNotFound (λ _ _ _, Hc) _ _) end.
  - parse_text.
  - reflexivity.
  - sql_where.
  - sql_set.
  - done.
  - intros c' Hr'. exists c'. split; [done|]. cbn. cbn in Ha0. by rewrite Ha0.
Qed.

Lemma UpdateIssuanceAttemptIfCurrent_refines s c x cur : repr s (sc_db c) → replaceable x s → en_storable cur = true →
  outcome eq (Store.UpdateIssuanceAttemptIfCurrent x cur s) (SQLStoreCertificate.UpdateIssuanceAttemptIfCurrent x cur c).
Proof.
  intros Hr [Hs Hc] Hcur. unfold_ops.
  match goal with |- outcome _ _ (bindM (ExecContext ?text ?args) (λ r, bindM (affectedRows r) (λ n, if _ then _ else bindM ?get _)) ?c) =>
    refine (outcome_update (V:=IssuanceAttempt) s c text args _ _ (sameIssuanceAttempt cur) (λ _, x) x
      _ _ _ _ Hr (λ _ _ _, eq_refl) Hs get ErrIssuanceAttemptNotFound (λ _ _ _, Hc) _) end.
  - parse_text.
  - reflexivity.
  - sql_where. storable_in Ha. storable_in Hcur. rewrite format_inj, nullable_eq by done. unfold sameIssuanceAttempt. btauto.
  - sql_set.
  - intros c' Hr'. by apply GetIssuanceAttempt_refines.
Qed.

Lemma UpdateOutboxMessageIfCurrent_refines s c x cur : repr s (sc_db c) → replaceable x s → en_storable cur = true →
  outcome eq (Store.UpdateOutboxMessageIfCurrent x cur s) (SQLStoreOutbox.UpdateOutboxMessageIfCurrent x cur c).
Proof.
  intros Hr [Hs Hc] Hcur. unfold_ops.
  match goal with |- outcome _ _ (bindM (ExecContext ?text ?args) (λ r, bindM (affectedRows r) (λ n, if _ then _ else bindM ?get _)) ?c) =>
    refine (outcome_update (V:=OutboxMessage) s c text args _ _ (sameOutboxMessage cur) (λ _, x) x
      _ _ _ _ Hr (λ _ _ _, eq_refl) Hs get ErrOutboxMessageNotFound (λ _ _ _, Hc) _) end.
  - parse_text.
  - reflexivity.
  - intros a Ha. cbn. rewrite !nullable_null. autorewrite with sql. storable_in Ha. storable_in Hcur.
    rewrite nullable_same, and_nullable, format_inj by done. unfold sameOutboxMessage. btauto.
  - sql_set.
  - intros c' Hr'. by apply GetOutboxMessage_refines.
Qed.

(** The text of these updates is put together from two parts. *)
Ltac joined := unfold updateEnrollment, updateCertificate; marshalled; cbn [app].

Lemma UpdateEnrollmentIfStatus_refines s c x st : repr s (sc_db c) → replaceable x s →
  outcome eq (Store.UpdateEnrollmentIfStatus x st s) (SQLStoreCertificate.UpdateEnrollmentIfStatus x st c).
Proof.
  intros Hr [Hs Hc]. unfold_ops. joined.
  match goal with |- outcome _ _ (bindM (ExecContext ?text ?args) (λ r, bindM (affectedRows r) (λ n, if _ then _ else bindM ?get _)) ?c) =>
    refine (outcome_update (V:=Enrollment) s c text args _ _ (λ a, Enrollment_Status a =s st) (λ _, x) x
      _ _ _ _ Hr (λ _ _ _, eq_refl) Hs get ErrEnrollmentNotFound (λ _ _ _, Hc) _) end;
  [parse_text|reflexivity|sql_where|sql_set|intros c' Hr'; by apply GetEnrollment_refines].
Qed.
Lemma UpdateEnrollment_refines s c x : repr s (sc_db c) → replaceable x s →
  outcome eq (Store.UpdateEnrollment x s) (SQLStoreCertificate.UpdateEnrollment x c).
Proof.
  intros Hr [Hs Hc]. unfold_ops. joined.
  match goal with |- outcome _ _ (bindM (ExecContext ?text ?args) _ ?c) =>
    refine (outcome_update_required (V:=Enrollment) s c text args _ _ (λ _, true) (λ _, x) x
      _ _ _ _ Hr (λ _ _ _, eq_refl) Hs ErrEnrollmentNotFound (λ _, eq_refl) (λ _ _ _, Hc)) end;
  [parse_text|reflexivity|sql_where; by rewrite andb_true_r|sql_set].
Qed.
Lemma UpdateCertificateIfStatus_refines s c x st : repr s (sc_db c) → replaceable x s →
  outcome eq (Store.UpdateCertificateIfStatus x st s) (SQLStoreCertificate.UpdateCertificateIfStatus x st c).
Proof.
  intros Hr [Hs Hc]. unfold_ops. joined.
  match goal with |- outcome _ _ (bindM (ExecContext ?text ?args) (λ r, bindM (affectedRows r) (λ n, if _ then _ else bindM ?get _)) ?c) =>
    refine (outcome_update (V:=Certificate) s c text args _ _ (λ a, Certificate_Status a =s st) (λ _, x) x
      _ _ _ _ Hr (λ _ _ _, eq_refl) Hs get ErrCertificateNotFound (λ _ _ _, Hc) _) end;
  [parse_text|reflexivity|sql_where|sql_set|intros c' Hr'; by apply GetCertificate_refines].
Qed.
Lemma UpdateCertificate_refines s c x : repr s (sc_db c) → replaceable x s →
  outcome eq (Store.UpdateCertificate x s) (SQLStoreCertificate.UpdateCertificate x c).
Proof.
  intros Hr [Hs Hc]. unfold_ops. joined.
  match goal with |- outcome _ _ (bindM (ExecContext ?text ?args) _ ?c) =>
    refine (outcome_update_required (V:=Certificate) s c text args _ _ (λ _, true) (λ _, x) x
      _ _ _ _ Hr (λ _ _ _, eq_refl) Hs ErrCertificateNotFound (λ _, eq_refl) (λ _ _ _, Hc)) end;
  [parse_text|reflexivity|sql_where; by rewrite andb_true_r|sql_set].
Qed.

(** The values of a table that conflict are the same value. *)
Lemma conflict_same {V} `{EntityLaws V} (m : gmap string V) db a b : table_repr m db →
  a ∈ map_values m → b ∈ map_values m → en_conflict a b = true → a = b.
Proof.
  intros (_ & Hu & _) (k1 & Ha)%elem_of_map_values (k2 & Hb)%elem_of_map_values Hc.
  pose proof (Hu k1 k2 a b Ha Hb Hc) as ->. congruence.
Qed.

Lemma active_same s db i a b : repr s db → a ∈ map_values (ms_ocspResponders s) → b ∈ map_values (ms_ocspResponders s) →
  isActiveResponderOf i a = true → isActiveResponderOf i b = true → a = b.
Proof.
  intros Hr Ha Hb [E1 E2]%isActiveResponderOf_true [E3 E4]%isActiveResponderOf_true.
  apply (conflict_same (ms_ocspResponders s) db); [by apply Hr|done..|]. cbn. by rewrite E1, E2, E3, E4, !String.eqb_refl, orb_true_r.
Qed.

(** The checks of the in-memory store and the unique index find the same other
    active responder. *)
Lemma other_active s db x : repr s db →
  existsb (en_conflict x) (map_values (delete (en_key x) (ms_ocspResponders s))) =
  (OCSPResponder_Status x =s OCSPResponderActive) &&
    match activeOCSPResponderByIssuer (map_values (ms_ocspResponders s)) (OCSPResponder_IssuerID x) with
    | Ok active => OCSPResponder_ID active <>s OCSPResponder_ID x
    | Err _ => false
    end.
Proof.
  intros Hr. pose proof (activeOCSPResponderByIssuer_spec (map_values (ms_ocspResponders s)) (OCSPResponder_IssuerID x)) as Hs.
  pose proof (proj1 (repr_ocspResponders _ _ Hr)) as Hk. apply eq_true_iff_eq. rewrite list_find_existsb, andb_true_iff. split.
  - intros (b & (k & [Hne Hb]%lookup_delete_Some)%elem_of_map_values & Hc). pose proof (Hk _ _ Hb) as Ek. cbn in Ek, Hne, Hc.
    assert ((OCSPResponder_ID x =s OCSPResponder_ID b) = false) as E by (apply String.eqb_neq; congruence). rewrite E in Hc. cbn in Hc.
    apply andb_true_iff in Hc as [[H1 H2]%andb_true_iff H3%String.eqb_eq]. split; [done|].
    assert (isActiveResponderOf (OCSPResponder_IssuerID x) b = true) as Hactive
      by (apply isActiveResponderOf_true; apply String.eqb_eq in H2; by split).
    destruct (activeOCSPResponderByIssuer _ _) as [a|e].
    + destruct Hs as [Ha Ha']. assert (a = b) as -> by (eapply active_same; [done| |apply elem_of_map_values; eauto|done..]; done).
      rewrite String.eqb_sym. by rewrite E.
    + destruct Hs as [_ Hs]. rewrite Hs in Hactive; [done|]. apply elem_of_map_values. eauto.
  - intros [H1 H2]. destruct (activeOCSPResponderByIssuer _ _) as [a|e]; [|done]. destruct Hs as [Ha [H3 H4]%isActiveResponderOf_true].
    apply elem_of_map_values in Ha as (k & Ha). pose proof (Hk _ _ Ha) as Ek. cbn in Ek. exists a. split.
    + apply elem_of_map_values. exists k. apply lookup_delete_Some. split; [|done]. cbn. intros E. apply negb_true_iff, String.eqb_neq in H2. congruence.
    + cbn. by rewrite H1, H3, H4, !String.eqb_refl, orb_true_r.
Qed.

Lemma UpdateOCSPResponderIfStatus_refines s c x st : repr s (sc_db c) → en_storable x = true →
  outcome eq (Store.UpdateOCSPResponderIfStatus x st s) (SQLStore.UpdateOCSPResponderIfStatus x st c).
Proof.
  intros Hr Hs. pose proof (other_active s _ x Hr) as Ho. unfold_ops. unfold updateOCSPResponderIfStatus, putRows. rewrite <- Ho. clear Ho.
  match goal with |- outcome _ _ (bindM (uniqueAs _ (ExecContext ?text ?args)) (λ r, bindM (affectedRows r) (λ n, if _ then _ else bindM ?get _)) ?c) =>
    refine (outcome_update_unique (V:=OCSPResponder) s c text args _ _ (λ a, OCSPResponder_Status a =s st) (λ _, x) x
      _ _ _ _ Hr (λ _ _ _, eq_refl) Hs get ErrOCSPResponderNotFound _ _) end;
  [parse_text|reflexivity|sql_where|sql_set|by repeat constructor|intros c' Hr'; by apply GetOCSPResponder_refines].
Qed.

(** ** Lookups by another key *)

(** When at most one value qualifies, the order of the rows is immaterial. *)
Lemma head_unique {V} (keep : V → bool) less (l : list V) :
  (∀ a b, a ∈ l → b ∈ l → keep a = true → keep b = true → a = b) →
  match head (go_sort less (filter (λ a, keep a = true) l)) with
  | Some a => a ∈ l ∧ keep a = true
  | None => ∀ a, a ∈ l → keep a = false
  end.
Proof.
  intros Hu. pose proof (go_sort_perm less (filter (λ a, keep a = true) l)) as Hp.
  destruct (go_sort less (filter (λ a, keep a = true) l)) as [|a sorted]; cbn.
  - intros a Ha. apply not_true_iff_false. intros Hk. apply (not_elem_of_nil a). rewrite Hp. by apply list_elem_of_filter.
  - assert (a ∈ filter (λ a, keep a = true) l) as [? ?]%list_elem_of_filter; [|done]. rewrite <- Hp. apply elem_of_cons. by left.
Qed.

Lemma scan_unique {V} (keep : V → bool) less (l order : list V) err :
  (∀ a b, a ∈ l → b ∈ l → keep a = true → keep b = true → a = b) → l ≡ₚ order →
  Store.scan keep order err = match head (go_sort less (filter (λ a, keep a = true) l)) with Some a => Ok a | None => Err (EDomain err) end.
Proof.
  intros Hu Hl. pose proof (head_unique keep less l Hu) as Hh. unfold Store.scan.
  destruct (list_find (λ v, keep v = true) order) as [[i v]|] eqn:Ef.
  - apply list_find_Some in Ef as (Hi & Hk & _). apply list_elem_of_lookup_2 in Hi. rewrite <- Hl in Hi.
    destruct (head _) as [a|]; [|by rewrite Hh in Hk]. destruct Hh as [Ha Hka]. by rewrite (Hu a v).
  - rewrite list_find_None, Forall_forall in Ef. destruct (head _) as [a|]; [|done]. destruct Hh as [Ha Hka].
    rewrite Hl in Ha. by destruct (Ef a Ha).
Qed.

Lemma GetAPIKeyByTokenHash_refines s c h : repr s (sc_db c) →
  outcome eq (Store.GetAPIKeyByTokenHash h s) (SQLStore.GetAPIKeyByTokenHash h c).
Proof.
  intros Hr. unfold_ops.
  match goal with |- outcome _ _ (sql_get ?err ?text ?args ?scan ?c) =>
    refine (outcome_first (V:=APIKey) s c text args _ _ _ _ _ _ (λ a, APIKey_TokenHash a =s h) (λ _ _, false) scan APIKey_values
      _ _ _ _ _ _ Hr err (λ s, apiKeyByTokenHash (map_values (ms_apiKeys s)) h) _) end;
  [parse_text|reflexivity|sql_where|by intros|sql_columns|apply scan_APIKey|].
  intros l Hl. apply scan_unique; [|exact Hl]. intros a b Ha Hb E1 E2. rewrite Hl in Ha, Hb.
  apply String.eqb_eq in E1, E2. apply (conflict_same (ms_apiKeys s) (sc_db c)); [by apply Hr|done..|].
  cbn. by rewrite E1, E2, String.eqb_refl, orb_true_r.
Qed.

Lemma GetCertificateByEnrollmentID_refines s c e : repr s (sc_db c) → e ≠ "" →
  outcome eq (Store.GetCertificateByEnrollmentID e s) (SQLStoreCertificate.GetCertificateByEnrollmentID e c).
Proof.
  intros Hr He. unfold_ops.
  match goal with |- outcome _ _ (sql_get ?err ?text ?args ?scan ?c) =>
    refine (outcome_first (V:=Certificate) s c text args _ _ _ _ _ _ (λ a, Certificate_EnrollmentID a =s e) (λ _ _, false) scan Certificate_values
      _ _ _ _ _ _ Hr err (λ s, certificateByEnrollmentID (map_values (ms_certificates s)) e) _) end;
  [parse_text|reflexivity|sql_where|by intros|sql_columns|apply scan_Certificate|].
  intros l Hl. apply scan_unique; [|exact Hl]. intros a b Ha Hb E1 E2. rewrite Hl in Ha, Hb.
  apply String.eqb_eq in E1, E2. apply (conflict_same (ms_certificates s) (sc_db c)); [by apply Hr|done..|].
  apply String.eqb_neq in He. cbn. by rewrite E1, E2, He, String.eqb_refl, orb_true_r.
Qed.

Lemma GetActiveOCSPResponderByIssuer_refines s c i : repr s (sc_db c) →
  outcome eq (Store.GetActiveOCSPResponderByIssuer i s) (SQLStore.GetActiveOCSPResponderByIssuer i c).
Proof.
  intros Hr. unfold_ops.
  match goal with |- outcome _ _ (sql_get ?err ?text ?args ?scan ?c) =>
    refine (outcome_first (V:=OCSPResponder) s c text args _ _ _ _ _ _ (isActiveResponderOf i)
      (λ a b, key_less OCSPResponder_CreatedAt OCSPResponder_ID b a) scan OCSPResponder_values
      _ _ _ _ _ _ Hr err (λ s, activeOCSPResponderByIssuer (map_values (ms_ocspResponders s)) i) _) end;
  [parse_text|reflexivity|sql_where| |sql_columns|apply scan_OCSPResponder|].
  { intros a b Ha Hb _ _. cbn. storable_in Ha. storable_in Hb. rewrite format_order by assumption. apply order_desc. }
  intros l Hl. change (limited _ _ _ ?l) with (take 1 l).
  assert (∀ l : list OCSPResponder, head (take 1 l) = head l) as -> by by intros [].
  pose proof (head_unique (isActiveResponderOf i) (λ a b, key_less OCSPResponder_CreatedAt OCSPResponder_ID b a) l) as Hh.
  pose proof (activeOCSPResponderByIssuer_spec (map_values (ms_ocspResponders s)) i) as Hs.
  destruct (head _) as [a|].
  - destruct Hh as [Ha Hk]; [intros ????; rewrite Hl in *; by eapply active_same|]. rewrite Hl in Ha.
    destruct (activeOCSPResponderByIssuer _ _) as [a'|e].
    + destruct Hs as [Ha' Hk']. f_equal. by eapply active_same.
    + destruct Hs as [_ Hs]. change (a ∈ map_values (ms_ocspResponders s)) in Ha. by rewrite Hs in Hk.
  - destruct (activeOCSPResponderByIssuer _ _) as [a'|e].
    + destruct Hs as [Ha' Hk']. rewrite Hh in Hk'; [done| |by rewrite Hl]. intros ????; rewrite Hl in *; by eapply active_same.
    + by destruct Hs as [-> _].
Qed.

(** ** Lists of due work *)

(** An order of the source and the order the database computes agree on the
    selected values, and the order leaves no choice. *)
Lemma sorted_values {V} `{Entity V} (m : gmap string V) l (keep : V → bool) less `{!StrictWeakOrder less} :
  keyed en_key m → l ≡ₚ map_values m → (∀ a b, less a b = false → less b a = false → en_key a = en_key b) →
  go_sort less (filter (λ a, keep a = true) l) = go_sort less (filter (λ a, keep a = true) (map_values m)).
Proof.
  intros Hk Hl Hsep. apply go_sort_permutation_invariant; [apply _| |by rewrite Hl].
  intros x y [_ Hx]%list_elem_of_filter [_ Hy]%list_elem_of_filter H1 H2. rewrite Hl in Hx, Hy.
  eapply keyed_values_inj; [done..|]. by apply Hsep.
Qed.

Lemma ListOutboxMessages_refines s c st : repr s (sc_db c) →
  outcome eq (Store.ListOutboxMessages st s) (SQLStoreOutbox.ListOutboxMessages st c).
Proof.
  intros Hr. unfold Store.ListOutboxMessages, SQLStoreOutbox.ListOutboxMessages. destruct (st <>s "") eqn:E; cbv beta iota zeta.
  - match goal with |- outcome _ (query ?f _) (bindM (QueryContext ?text ?args) (λ rows, liftM (scan_rows ?scan rows)) ?c) =>
      refine (outcome_list (V:=OutboxMessage) s c text args _ _ _ _ _ _ (λ m, OutboxMessage_Status m =s st)
        (key_less OutboxMessage_CreatedAt OutboxMessage_ID) scan OutboxMessage_values _ _ _ _ _ _ Hr f _) end;
    [parse_text|reflexivity|sql_where|sql_order|sql_columns|apply scan_OutboxMessage|].
    intros l Hl. change (limited _ _ _ ?l) with l. symmetry.
    rewrite (sorted_values (ms_outbox s)); [|apply _|apply Hr|done|intros; by eapply key_less_separates].
    unfold listOutboxMessages, listBy. f_equal. apply list_filter_iff. intros m. rewrite E. by destruct (OutboxMessage_Status m =s st).
  - match goal with |- outcome _ (query ?f _) (bindM (QueryContext ?text ?args) (λ rows, liftM (scan_rows ?scan rows)) ?c) =>
      refine (outcome_list (V:=OutboxMessage) s c text args _ _ _ _ _ _ (λ _, true)
        (key_less OutboxMessage_CreatedAt OutboxMessage_ID) scan OutboxMessage_values _ _ _ _ _ _ Hr f _) end;
    [parse_text|reflexivity|sql_where|sql_order|sql_columns|apply scan_OutboxMessage|].
    intros l Hl. change (limited _ _ _ ?l) with l. symmetry.
    rewrite (sorted_values (ms_outbox s)); [|apply _|apply Hr|done|intros; by eapply key_less_separates].
    unfold listOutboxMessages, listBy. f_equal. apply list_filter_iff. intros m. by rewrite E.
Qed.

Lemma ListCertificatesForExpirationScan_refines s c now before limit : repr s (sc_db c) →
  sqlTimeOK now = true → sqlTimeOK before = true → (0 <= limit)%Z →
  outcome eq (Store.ListCertificatesForExpirationScan now before limit s) (SQLStoreCertificate.ListCertificatesForExpirationScan now before limit c).
Proof.
  intros Hr Hn Hw Hlim. unfold_ops.
  match goal with |- outcome _ (query ?f _) (sql_list ?text ?args ?scan ?c) =>
    refine (outcome_list (V:=Certificate) s c text args _ _ _ _ _ _ (λ a, certificateNeedsExpirationScan a now before)
      (key_less Certificate_NotAfter Certificate_ID) scan Certificate_values _ _ _ _ _ _ Hr f _) end.
  - parse_text.
  - reflexivity.
  - sql_where. storable_in Ha. rewrite !format_order, nullable_null by done. autorewrite with sql.
    unfold certificateNeedsExpirationScan, After. rewrite !Z.leb_antisym. btauto.
  - sql_order.
  - sql_columns.
  - apply scan_Certificate.
  - intros l Hl. rewrite (sorted_values (ms_certificates s)); [|apply _|apply Hr|done|intros; by eapply key_less_separates].
    unfold listCertificatesForExpirationScan, limited. cbn [eval]. cbn. rewrite (proj2 (Z.ltb_ge limit 0)) by done.
    destruct (Z.leb_spec limit 0) as [Hle|Hgt]; [|done]. by replace limit with 0%Z by lia.
Qed.

Lemma ListCertificatesExpiringWithin_refines s c now cutoff limit offset : repr s (sc_db c) →
  sqlTimeOK now = true → sqlTimeOK cutoff = true → (0 < limit)%Z → (0 <= offset)%Z →
  outcome eq (Store.ListCertificatesExpiringWithin now cutoff limit offset s)
    (SQLStoreCertificate.ListCertificatesExpiringWithin now cutoff limit offset c).
Proof.
  intros Hr Hn Hc Hlim Hoff.
  set (found := listBy (λ x, (Certificate_Status x =s CertificateValid) && After (Certificate_NotAfter x) now
    && negb (After (Certificate_NotAfter x) cutoff)) Certificate_NotAfter Certificate_ID (map_values (ms_certificates s))).
  assert (Store.ListCertificatesExpiringWithin now cutoff limit offset s
    = query (λ _, take (Z.to_nat limit) (drop (Z.to_nat offset) found)) s) as ->.
  { unfold Store.ListCertificatesExpiringWithin, listCertificatesExpiringWithin, query, getM. f_equal. fold found.
    destruct (Z.leb_spec (Z.of_nat (length found)) offset) as [Hle|Hgt].
    - by rewrite drop_ge, take_nil by lia.
    - unfold sliceFrom, limitTo. rewrite (proj2 (Z.ltb_ge offset 0)) by done.
      rewrite (proj2 (Z.ltb_ge (Z.of_nat (length found)) offset)) by lia. cbn [orb bindR].
      by rewrite (proj2 (Z.ltb_lt 0 limit)). }
  unfold SQLStoreCertificate.ListCertificatesExpiringWithin. rewrite (proj2 (Z.ltb_lt 0 limit)) by done. cbv beta iota zeta. cbn [app].
  match goal with |- outcome _ (query ?f _) (bindM (QueryContext ?text ?args) (λ rows, liftM (scan_rows ?scan rows)) ?c) =>
    refine (outcome_list (V:=Certificate) s c text args _ _ _ _ _ _ (λ x, (Certificate_Status x =s CertificateValid)
      && After (Certificate_NotAfter x) now && negb (After (Certificate_NotAfter x) cutoff))
      (key_less Certificate_NotAfter Certificate_ID) scan Certificate_values _ _ _ _ _ _ Hr f _) end.
  - parse_text.
  - reflexivity.
  - sql_where. storable_in Ha. rewrite !format_order by done. autorewrite with sql.
    unfold After. rewrite !Z.leb_antisym. btauto.
  - sql_order.
  - sql_columns.
  - apply scan_Certificate.
  - intros l Hl. rewrite (sorted_values (ms_certificates s)); [|apply _|apply Hr|done|intros; by eapply key_less_separates].
    unfold limited. cbn [eval]. cbn. by rewrite (proj2 (Z.ltb_ge limit 0)) by lia.
Qed.

(** A message that is due has its due time: the processing deadline of one that
    is being processed, the time it becomes available otherwise. *)
Lemma due_key a now : en_storable a = true → outboxMessageDue a now = true →
  match truth (VBool (cmp_holds OpEq (String.compare (OutboxMessage_Status a) OutboxPending))) with
  | Some true => VText (formatSQLTime (OutboxMessage_AvailableAt a))
  | _ => formatNullableSQLTime (OutboxMessage_ProcessingDeadlineAt a)
  end = VText (formatSQLTime (outboxMessageDueAt a)).
Proof.
  intros _. unfold outboxMessageDue, outboxMessageDueAt, formatNullableSQLTime. autorewrite with sql.
  destruct (String.eqb_spec (OutboxMessage_Status a) OutboxPending) as [E|E]; [by rewrite E|].
  destruct (OutboxMessage_Status a =s OutboxProcessing); [|done]. by destruct (IsZero _).
Qed.
Lemma due_time_ok a : en_storable a = true → sqlTimeOK (outboxMessageDueAt a) = true.
Proof. intros Ha. storable_in Ha. unfold outboxMessageDueAt. by destruct (OutboxMessage_Status a =s OutboxProcessing). Qed.

Lemma ListDueOutboxMessages_refines s c now limit : repr s (sc_db c) → sqlTimeOK now = true →
  outcome eq (Store.ListDueOutboxMessages now limit s) (SQLStoreOutbox.ListDueOutboxMessages now limit c).
Proof.
  intros Hr Hn. unfold Store.ListDueOutboxMessages, SQLStoreOutbox.ListDueOutboxMessages, listDueOutboxMessages.
  destruct (Z.leb_spec limit 0) as [Hle|Hgt]; [by split|].
  match goal with |- outcome _ (query ?f _) (bindM (QueryContext ?text ?args) (λ rows, liftM (scan_rows ?scan rows)) ?c) =>
    refine (outcome_list (V:=OutboxMessage) s c text args _ _ _ _ _ _ (λ m, outboxMessageDue m now)
      due_less scan OutboxMessage_values _ _ _ _ _ _ Hr f _) end.
  - parse_text.
  - reflexivity.
  - sql_where. storable_in Ha. unfold outboxMessageDue, formatNullableSQLTime, After.
    destruct (String.eqb_spec (OutboxMessage_Status a) OutboxPending) as [E|E].
    + rewrite E. change (OutboxPending =s OutboxProcessing) with false. rewrite format_order by done. autorewrite with sql.
      rewrite Z.leb_antisym. cbn [andb]. destruct (IsZero _); cbn [truth]; by destruct (Z.ltb _ _).
    + destruct (OutboxMessage_Status a =s OutboxProcessing); [|by destruct (IsZero _)].
      destruct (IsZero (OutboxMessage_ProcessingDeadlineAt a)); [done|]. rewrite !format_order by done. autorewrite with sql.
      cbn [andb orb negb]. by rewrite Z.leb_antisym.
  - intros a b Ha Hb Hka Hkb. cbn. rewrite (due_key a now Ha Hka), (due_key b now Hb Hkb).
    pose proof (due_time_ok a Ha). pose proof (due_time_ok b Hb). storable_in Ha. storable_in Hb. cbn [compare_values].
    rewrite !format_order by done. rewrite order_asc. apply then_by_match.
  - sql_columns.
  - apply scan_OutboxMessage.
  - intros l Hl. unfold due_less. rewrite (sorted_values (ms_outbox s) l);
      [|apply _|apply Hr|done|intros a b H1 H2; destruct (then_by_separates _ _ _ _ H1 H2); by eapply key_less_separates].
    unfold limited. cbn [eval]. cbn. by rewrite (proj2 (Z.ltb_ge limit 0)) by lia.
Qed.
End Special.
