(* ===== verification/SQLAuditOps.v ===== *)
(** * The audit chain in the database refines the audit log in memory

    Appending, pruning, reading and verifying the chain of [audit_events] and
    [audit_chain_state]. *)

From S2P Require Import Prelude GoLib Crypto Domain AuditChain Store StoreInv Repository SQLText SQLEngine SQLTime GoJSON SQLScan SQLStore SQLStoreAudit SQLSchema SQLEngineFacts SQLEntity SQLTables SQLRefinement SQLOps SQLSpecialOps.

(** ** Sequence numbers order the log *)

Definition seq_less (a b : AuditEvent) : bool := Z.ltb (AuditEvent_Sequence a) (AuditEvent_Sequence b).
#[global] Instance seq_less_swo : StrictWeakOrder seq_less.
Proof.
  unfold seq_less. split; intros *; rewrite ?Z.ltb_lt; [apply Z.ltb_irrefl|lia|lia].
Qed.

Lemma sorted_by_index {A} (R : relation A) (l : list A) :
  (∀ i j x y, l !! i = Some x → l !! j = Some y → i < j → R x y) → StronglySorted R l.
Proof.
  induction l as [|a l IH]; intros Hl; constructor.
  - apply IH. intros i j x y Hi Hj Hlt. apply (Hl (S i) (S j)); [done..|lia].
  - apply Forall_forall. intros x (i & Hi)%list_elem_of_lookup. apply (Hl 0 (S i)); [done..|lia].
Qed.

Section Sequences.
Context `{HC : GoCodec}.

Lemma sequence_at log i e : audit_inv log → log_events log !! i = Some e →
  AuditEvent_Sequence e = (acs_CheckpointSequence (log_state log) + 1 + Z.of_nat i)%Z.
Proof.
  intros [Hok H0 Hn Hb] Hi. pose proof (ok_chained _ Hok) as Hc. pose proof (lookup_lt_Some _ _ _ Hi).
  rewrite wrap64_id in Hc by (unfold int64; lia).
  apply (chained_sequence _ _ _ i _ Hc); [lia..|done].
Qed.

Lemma log_sorted log l : audit_inv log → l ≡ₚ log_events log → go_sort seq_less l = log_events log.
Proof.
  intros Hinv Hl. symmetry. apply go_sort_unique; [apply _| |by symmetry|].
  - intros x y Hx Hy H1 H2. rewrite Hl in Hx, Hy. apply list_elem_of_lookup in Hx as (i & Hi), Hy as (j & Hj).
    unfold seq_less in H1, H2. rewrite !(sequence_at log i x), !(sequence_at log j y) in H1, H2 by done.
    apply Z.ltb_ge in H1, H2. assert (i = j) as -> by lia. congruence.
  - apply StronglySorted_Sorted. apply sorted_by_index. intros i j x y Hi Hj Hlt.
    unfold not_after, seq_less. rewrite (sequence_at log i x), (sequence_at log j y) by done. apply Z.ltb_ge. lia.
Qed.
End Sequences.

(** The statement of a text, run once; and what a query of one table finds. *)
Ltac run_text c :=
  match goal with |- context [run_sql ?text ?args] =>
    let v := eval vm_compute in (parse_sql text) in
    match v with Some [?st] => destruct (run_sql_statement text args st c) as (scan & Hscan & Hr); [vm_compute; reflexivity|] end
  end.
Ltac query_rows t row P l keep less values Hdb HP :=
  match goal with Hscan : ∀ rows, ?scan rows ≡ₚ rows, Hr : run_sql _ ?args ?c = _ |- _ =>
    match type of Hr with context [SSelect (mkSelect ?columns (?table, ?alias) [] ?cond ?order ?limit ?offset)] =>
      destruct (run_select_rows t row P scan (sc_db c) args _ alias columns cond order limit offset table l keep less values eq_refl Hdb Hscan HP)
        as (l' & Hl' & Hq) end end.

Section Audit.
Context `{HC : GoCodec} `{HD : SQLDriver} `{HL : !SQLDriverLaws} `{HU : GoUnicode}.
Implicit Types (log : AuditLog) (db : Database) (c : SQLConn).

(** ** The statements *)

#[local] Notation state_row := (λ p : auditChainState * Time, chain_row p.1 p.2).

Lemma listAuditEventsBySequence_ok log c : audit_repr log (sc_db c) →
  listAuditEventsBySequence c = (Ok (log_events log), next c).
Proof.
  intros [Hinv Hst _ _ (l & Hl & Hdb) _]. unfold listAuditEventsBySequence, QueryContext.
  run_text c.
  assert (Forall (λ e, AuditEvent_storable e = true) l) as Hs by by rewrite Hl.
  query_rows audit_events_table AuditEvent_row (λ e, AuditEvent_storable e = true) l (λ _ : AuditEvent, true) seq_less AuditEvent_values Hdb Hs.
  - reflexivity.
  - by intros.
  - intros a b _ _ _ _. cbn. unfold seq_less, Z.ltb. by destruct (Z.compare _ _).
  - intros a _. by destruct a.
  - unfold bindM. rewrite Hr. cbn [exec_statement]. rewrite Hq. cbn [bindR retM fst]. unfold liftM.
    change (limited [] None None ?x) with x.
    assert (filter (λ _ : AuditEvent, true = true) l' = l') as ->.
    { clear. induction l' as [|a l IH]; [done|]. by rewrite filter_cons_True, IH. }
    rewrite (log_sorted log l') by (try done; by rewrite Hl').
    rewrite scan_rows_ok; [done|]. eapply Forall_impl; [exact Hst|]. apply scan_AuditEvent.
Qed.

(** The row of the chain state is replaced. *)
Lemma state_statement args sets cond st t st' t' db scan :
  db !! "audit_chain_state" = Some (with_rows audit_chain_state_table [chain_row st t]) →
  forallb (λ '(x, e), existsb (String.eqb x) (column_names audit_chain_state_table)
    && expr_ok [("audit_chain_state", column_names audit_chain_state_table)] (length args) e) sets
    && cond_ok [("audit_chain_state", column_names audit_chain_state_table)] (length args) cond = true →
  selects (row_scope "audit_chain_state" audit_chain_state_table (chain_row st t)) args cond = true →
  updated_row audit_chain_state_table (row_scope "audit_chain_state" audit_chain_state_table (chain_row st t)) args sets (chain_row st t)
    = chain_row st' t' →
  exec_statement scan args (SUpdate "audit_chain_state" sets cond) db =
    Ok ([], 1%Z, <["audit_chain_state" := with_rows audit_chain_state_table [chain_row st' t']]> db).
Proof.
  intros Hdb Hok Hsel Hset.
  rewrite (update_statement audit_chain_state_table state_row "audit_chain_state" args sets cond scan db [(st, t)] Hdb Hok).
  pose proof (update_rows_one audit_chain_state_table state_row (λ p, p = (st, t)) "audit_chain_state" args sets cond (λ _, true) (λ _, (st', t'))
    ltac:(by intros ? ->) ltac:(by intros ? ->) ltac:(done) [] (st, t) [] ltac:(by repeat constructor) eq_refl ltac:(constructor)) as Hu.
  cbn [app] in Hu. by rewrite Hu.
Qed.

Lemma lockAuditChain_ok log c : audit_repr log (sc_db c) → lockAuditChain c = (Ok tt, next c).
Proof.
  intros [_ _ _ _ _ (t & Ht & Hdb)]. unfold lockAuditChain, ExecContext, bindM.
  run_text c. rewrite Hr.
  rewrite (state_statement [] _ _ (log_state log) t (log_state log) t (sc_db c) scan Hdb); [|reflexivity..].
  cbn. unfold next. by rewrite insert_id.
Qed.

Lemma readAuditChainState_ok log c : audit_repr log (sc_db c) → ∃ st, readAuditChainState c = (Ok st, next c) ∧
  acs_HashAlgorithm st = acs_HashAlgorithm (log_state log) ∧ acs_LatestSequence st = acs_LatestSequence (log_state log)
  ∧ acs_LatestEventHash st = acs_LatestEventHash (log_state log) ∧ acs_CheckpointSequence st = acs_CheckpointSequence (log_state log)
  ∧ acs_CheckpointEventHash st = acs_CheckpointEventHash (log_state log).
Proof.
  intros [_ _ _ _ _ (t & Ht & Hdb)]. unfold readAuditChainState, QueryRowContext, QueryContext, catchM.
  run_text c.
  assert (Forall (λ p : auditChainState * Time, sqlTimeOK p.2 = true) [(log_state log, t)]) as Hs by by repeat constructor.
  query_rows audit_chain_state_table (λ p : auditChainState * Time, chain_row p.1 p.2) (λ p : auditChainState * Time, sqlTimeOK p.2 = true)
    [(log_state log, t)] (λ _ : auditChainState * Time, true) (λ _ _ : auditChainState * Time, false)
    (λ p : auditChainState * Time, [VText (acs_HashAlgorithm p.1); VInt (acs_LatestSequence p.1); VText (acs_LatestEventHash p.1);
       VInt (acs_CheckpointSequence p.1); VText (acs_CheckpointEventHash p.1); VText (formatSQLTime p.2)]) Hdb Hs.
  - reflexivity.
  - intros a _. reflexivity.
  - by intros.
  - intros a _. reflexivity.
  - symmetry in Hl'. apply Permutation_singleton_l in Hl'. subst l'.
    exists (mkAuditChainState (acs_HashAlgorithm (log_state log)) (acs_LatestSequence (log_state log)) (acs_LatestEventHash (log_state log))
      (acs_CheckpointSequence (log_state log)) (acs_CheckpointEventHash (log_state log)) t).
    change (limited [] None None ?x) with x in Hq.
    change (go_sort _ _) with [(log_state log, t)] in Hq.
    split; [|done]. unfold bindM. rewrite Hr. cbn [exec_statement]. rewrite Hq. cbn -[parseSQLTime].
    unfold liftM. by rewrite read_time.
Qed.

Lemma updateAuditChainState_ok st0 t0 st c :
  sc_db c !! "audit_chain_state" = Some (with_rows audit_chain_state_table [chain_row st0 t0]) →
  updateAuditChainState st c = (Ok tt, mkSQLConn (<["audit_chain_state" := with_rows audit_chain_state_table
    [chain_row st (acs_UpdatedAt st)]]> (sc_db c)) (S (S (sc_tick c)))).
Proof.
  intros Hdb. unfold updateAuditChainState, ExecContext, bindM. run_text c. rewrite Hr.
  rewrite (state_statement _ _ _ st0 t0 st (acs_UpdatedAt st) (sc_db c) scan Hdb); [|reflexivity..].
  cbn [retM snd]. by rewrite affectedRows_ok.
Qed.

(** Verification does not look at the time of the last change. *)
Lemma verify_same es st st' : acs_HashAlgorithm st = acs_HashAlgorithm st' → acs_LatestSequence st = acs_LatestSequence st' →
  acs_LatestEventHash st = acs_LatestEventHash st' → acs_CheckpointSequence st = acs_CheckpointSequence st' →
  acs_CheckpointEventHash st = acs_CheckpointEventHash st' → verifyAuditState es st = verifyAuditState es st'.
Proof. unfold verifyAuditState. by intros -> -> -> -> ->. Qed.

Lemma lockAndVerifyAuditChain_ok log c : audit_repr log (sc_db c) → ∃ st,
  lockAndVerifyAuditChain c = (Ok (st, log_events log, verifyAuditState (log_events log) (log_state log)), next (next (next c)))
  ∧ acs_HashAlgorithm st = AuditHashAlgorithmSHA256V1 ∧ acs_LatestSequence st = acs_LatestSequence (log_state log)
  ∧ acs_LatestEventHash st = acs_LatestEventHash (log_state log) ∧ acs_CheckpointSequence st = acs_CheckpointSequence (log_state log)
  ∧ acs_CheckpointEventHash st = acs_CheckpointEventHash (log_state log).
Proof.
  intros Ha. destruct (readAuditChainState_ok log (next c) Ha) as (st & Hst & H1 & H2 & H3 & H4 & H5). exists st.
  split; [|by rewrite H1, (audit_repr_algorithm _ _ Ha)].
  unfold lockAndVerifyAuditChain, bindM. rewrite (lockAuditChain_ok log c Ha), Hst, (listAuditEventsBySequence_ok log (next (next c)) Ha).
  rewrite (verify_same _ st (log_state log)) by done.
  by rewrite (proj2 (auditIntegrityError_None log) (inv_ok _ (audit_repr_inv _ _ Ha))).
Qed.

(** Events with other identifiers and sequence numbers do not collide. *)
Lemma event_collides a b : collides audit_events_table AuditEvent_row a b =
  (AuditEvent_ID a =s AuditEvent_ID b) || Z.eqb (AuditEvent_Sequence a) (AuditEvent_Sequence b).
Proof.
  unfold collides, conflicting, index_key, selects. destruct a, b. cbn. autorewrite with sql. cbn. by rewrite ?andb_true_r, ?orb_false_r.
Qed.

Lemma repr_set_audit s db log t1 t2 : repr s db →
  audit_repr log (<["audit_chain_state" := t2]> (<["audit_events" := t1]> db)) →
  repr (set_audit log s) (<["audit_chain_state" := t2]> (<["audit_events" := t1]> db)).
Proof.
  intros [] Hlog. split; cbn; first [exact Hlog|by repeat (apply table_repr_other; [discriminate|])].
Qed.

(** ** Appending *)

Lemma withAuditEventHash_ok seq prev e p : withAuditEventHash seq prev e = Ok p →
  AuditEvent_ID p = AuditEvent_ID e ∧ AuditEvent_Sequence p = seq ∧ AuditEvent_CreatedAt p = AuditEvent_CreatedAt e.
Proof.
  unfold withAuditEventHash. intros (_ & _ & (h & _ & [= <-])%bindR_ok)%bindR_ok. by destruct e.
Qed.

(** The next event does not collide with the stored ones. *)
Lemma append_free log p : audit_inv log → AuditEvent_Sequence p = (acs_LatestSequence (log_state log) + 1)%Z →
  AuditEvent_ID p ∉ AuditEvent_ID <$> log_events log →
  Forall (λ a, collides audit_events_table AuditEvent_row p a = false) (log_events log).
Proof.
  intros Hinv Hseq Hid. apply Forall_forall. intros a Ha. rewrite event_collides. apply orb_false_iff. split.
  - apply String.eqb_neq. intros E. apply Hid. rewrite E. by apply list_elem_of_fmap_2.
  - apply list_elem_of_lookup in Ha as (i & Hi). rewrite (sequence_at log i a Hinv Hi), Hseq. apply Z.eqb_neq.
    pose proof (inv_count _ Hinv). pose proof (lookup_lt_Some _ _ _ Hi). lia.
Qed.

Lemma insert_event log p c : audit_repr log (sc_db c) →
  Forall (λ a, collides audit_events_table AuditEvent_row p a = false) (log_events log) →
  ∃ l, l ≡ₚ log_events log ∧ (ExecContext "
INSERT INTO audit_events (
	id, sequence, actor, action, resource_type, resource_id, metadata_json,
	hash_algorithm, previous_event_hash, event_hash, created_at
) VALUES (
	$1, $2, $3, $4, $5, $6, $7, $8, $9, $10, $11
)"
    [VText (AuditEvent_ID p); VInt (AuditEvent_Sequence p); VText (AuditEvent_Actor p);
     VText (AuditEvent_Action p); VText (AuditEvent_ResourceType p); VText (AuditEvent_ResourceID p);
     VText (AuditEvent_MetadataJSON p); VText (AuditEvent_HashAlgorithm p);
     VText (AuditEvent_PreviousEventHash p); VText (AuditEvent_EventHash p);
     VText (formatSQLTime (AuditEvent_CreatedAt p))] c)
  = (Ok 1%Z, mkSQLConn (<["audit_events" := with_rows audit_events_table (AuditEvent_row <$> (l ++ [p]))]> (sc_db c)) (S (sc_tick c))).
Proof.
  intros [_ _ _ _ (l & Hl & Hdb) _] Hfree. exists l. split; [done|]. unfold ExecContext, bindM. run_text c. rewrite Hr.
  rewrite (insert_statement audit_events_table AuditEvent_row scan (sc_db c) _ "audit_events" _ _ l p Hdb); [|by destruct p..].
  by rewrite violated_none by by rewrite Hl.
Qed.

Lemma CreateAuditEvent_refines s c e : repr s (sc_db c) → AuditEvent_storable e = true →
  AuditEvent_ID e ∉ AuditEvent_ID <$> log_events (ms_audit s) → (∀ n, sqlTimeOK (sql_now n) = true) →
  outcome eq (Store.CreateAuditEvent e s) (SQLStoreAudit.CreateAuditEvent e c).
Proof.
  intros Hr He Hid Hnow. pose proof (repr_audit _ _ Hr) as Ha.
  destruct (lockAndVerifyAuditChain_ok _ _ Ha) as (st & Hlock & H1 & H2 & H3 & H4 & H5).
  pose proof (audit_repr_inv _ _ Ha) as Hinv. pose proof (verifyAuditState_report _ (inv_ok _ Hinv)) as (_ & Hls & Hlh).
  unfold Store.CreateAuditEvent, onAudit, SQLStoreAudit.CreateAuditEvent.
  destruct (appendMemoryAuditEvent e (ms_audit s)) as [r log'] eqn:Happ.
  pose proof (append_cases _ _ _ _ Hinv Happ) as Hcases. unfold bindM. rewrite Hlock. unfold appendMemoryAuditEvent in Happ.
  rewrite (proj2 (auditIntegrityError_None (ms_audit s)) (inv_ok _ Hinv)) in Happ. unfold liftM.
  destruct (withAuditEventHash _ _ e) as [p|err] eqn:Hp; [|simplify_eq; split; [done|]; cbn; by destruct s].
  apply withAuditEventHash_ok in Hp as (Hpid & _ & Hpat).
  set (st' := mkAuditChainState AuditHashAlgorithmSHA256V1 (AuditEvent_Sequence p) (AuditEvent_EventHash p)
    (acs_CheckpointSequence (log_state (ms_audit s))) (acs_CheckpointEventHash (log_state (ms_audit s))) (AuditEvent_CreatedAt p)) in *.
  set (new := mkAuditLog (log_events (ms_audit s) ++ [p]) st') in *.
  assert (log' = new) as -> by (destruct (auditIntegrityError _) in Happ; congruence).
  destruct Hcases as [(-> & Hinv' & _)|(E & _)].
  2: { apply (f_equal (λ l, length (log_events l))) in E. cbn in E. rewrite length_app in E. cbn in E. lia. }
  assert (AuditEvent_Sequence p = (acs_LatestSequence (log_state (ms_audit s)) + 1)%Z) as Hseq.
  { pose proof (inv_count _ Hinv). pose proof (inv_count _ Hinv') as Hn. cbn in Hn. rewrite length_app in Hn. cbn in Hn. lia. }
  rewrite <- Hpid in Hid. destruct (insert_event (ms_audit s) p (next (next (next c))) Ha (append_free _ _ Hinv Hseq Hid)) as (l & Hl & ->).
  unfold sqlNow. destruct (audit_repr_state _ _ Ha) as (t0 & Ht0 & Hdb0).
  rewrite (updateAuditChainState_ok (log_state (ms_audit s)) t0) by (cbn; by rewrite lookup_insert_ne).
  rewrite (verify_same _ _ st') by done.
  assert (auditIntegrityError (verifyAuditState (log_events (ms_audit s) ++ [p]) st') = None) as ->
    by exact (proj2 (auditIntegrityError_None new) (inv_ok _ Hinv')).
  split; [done|]. cbn. apply repr_set_audit; [done|]. split; cbn.
  - done.
  - apply Forall_app. split; [apply Ha|]. constructor; [|done]. unfold AuditEvent_storable in *. by rewrite Hpat.
  - done.
  - rewrite fmap_app. apply NoDup_app. split; [apply Ha|]. split; [|apply NoDup_singleton].
    intros x Hx Hp. apply list_elem_of_singleton in Hp. subst x. by apply Hid.
  - exists (l ++ [p]). rewrite lookup_insert_ne, lookup_insert_eq by done. split; [by rewrite Hl|done].
  - exists (sql_now (S (sc_tick (next (next (next c)))))). rewrite lookup_insert_eq. split; [apply Hnow|].
    unfold chain_row. cbn. by rewrite H1, H4, H5.
Qed.

(** ** Pruning *)

(** The events up to a sequence number are those up to its index. *)
Lemma filter_after log n e : audit_inv log → log_events log !! n = Some e →
  filter (λ a, negb (Z.leb (AuditEvent_Sequence a) (AuditEvent_Sequence e)) = true) (log_events log) = drop (S n) (log_events log).
Proof.
  intros Hinv Hn. pose proof (sequence_at log n e Hinv Hn) as He.
  rewrite <- (take_drop (S n) (log_events log)) at 1. rewrite filter_app.
  assert (∀ l, Forall (λ a, Z.leb (AuditEvent_Sequence a) (AuditEvent_Sequence e) = true) l →
    filter (λ a, negb (Z.leb (AuditEvent_Sequence a) (AuditEvent_Sequence e)) = true) l = []) as ->.
  { induction 1 as [|a l Ha _ IH]; [done|]. by rewrite filter_cons_False by by rewrite Ha. }
  - assert (∀ l, Forall (λ a, Z.leb (AuditEvent_Sequence a) (AuditEvent_Sequence e) = false) l →
      filter (λ a, negb (Z.leb (AuditEvent_Sequence a) (AuditEvent_Sequence e)) = true) l = l) as ->; [|done|].
    { induction 1 as [|a l Ha _ IH]; [done|]. rewrite filter_cons_True by by rewrite Ha. by rewrite IH. }
    apply Forall_forall. intros a (i & Hi)%list_elem_of_lookup. rewrite lookup_drop in Hi.
    rewrite (sequence_at log _ a Hinv Hi), He. apply Z.leb_gt. lia.
  - apply Forall_forall. intros a (i & Hi & Hlt)%elem_of_take.
    rewrite (sequence_at log _ a Hinv Hi), He. apply Z.leb_le. lia.
Qed.

Lemma delete_events log n e c : audit_repr log (sc_db c) → log_events log !! n = Some e →
  ∃ l, l ≡ₚ drop (S n) (log_events log) ∧ ExecContext "
DELETE FROM audit_events
WHERE sequence <= $1" [VInt (AuditEvent_Sequence e)] c
  = (Ok (Z.of_nat (S n)), mkSQLConn (<["audit_events" := with_rows audit_events_table (AuditEvent_row <$> l)]> (sc_db c)) (S (sc_tick c))).
Proof.
  intros [Hinv Hst _ _ (l & Hl & Hdb) _] Hn.
  exists (filter (λ a, negb (Z.leb (AuditEvent_Sequence a) (AuditEvent_Sequence e)) = true) l).
  assert (filter (λ a, negb (Z.leb (AuditEvent_Sequence a) (AuditEvent_Sequence e)) = true) l ≡ₚ drop (S n) (log_events log)) as Hd
    by (rewrite <- (filter_after log n e) by done; by rewrite Hl).
  split; [done|]. unfold ExecContext, bindM. run_text c. rewrite Hr.
  rewrite (delete_statement audit_events_table AuditEvent_row (λ _, True) "audit_events" _ _
    (λ a, Z.leb (AuditEvent_Sequence a) (AuditEvent_Sequence e))) with (l := l).
  - cbn [retM snd]. apply Permutation_length in Hd, Hl. rewrite length_drop in Hd. apply lookup_lt_Some in Hn.
    assert (Z.of_nat (length l) - Z.of_nat (length (filter (λ a, negb (Z.leb (AuditEvent_Sequence a) (AuditEvent_Sequence e)) = true) l))
      = Z.of_nat (S n))%Z as -> by lia. done.
  - intros a _. cbn. by autorewrite with sql.
  - done.
  - by apply Forall_true.
  - reflexivity.
Qed.

Lemma DeleteAuditEventsBefore_refines s c before : repr s (sc_db c) → (∀ n, sqlTimeOK (sql_now n) = true) →
  outcome (λ n z, z = Z.of_nat n) (Store.DeleteAuditEventsBefore before s) (SQLStoreAudit.DeleteAuditEventsBefore before c).
Proof.
  intros Hr Hnow. pose proof (repr_audit _ _ Hr) as Ha.
  destruct (lockAndVerifyAuditChain_ok _ _ Ha) as (st & Hlock & H1 & H2 & H3 & H4 & H5).
  pose proof (audit_repr_inv _ _ Ha) as Hinv. unfold Store.DeleteAuditEventsBefore, onAudit, SQLStoreAudit.DeleteAuditEventsBefore.
  destruct (pruneMemoryAuditEvents before (ms_audit s)) as [r log'] eqn:Hp.
  pose proof (prune_cases _ _ _ _ Hinv Hp) as Hcases. unfold bindM. rewrite Hlock. unfold pruneMemoryAuditEvents in Hp.
  rewrite (proj2 (auditIntegrityError_None (ms_audit s)) (inv_ok _ Hinv)) in Hp.
  destruct (auditRetentionPrefixLength (log_events (ms_audit s)) before) as [[|n]|] eqn:Hret;
    [simplify_eq; split; [done|]; cbn; by destruct s| |simplify_eq; split; [done|]; cbn; by destruct s].
  unfold auditRetentionPrefixLength in Hret. destruct (retentionLoop_spec _ _ _ _ _ Hret) as (pre & suf & Hes & Hlen & _ & Hpre & Hsuf).
  destruct Hcases as [(pre' & suf' & _ & _ & _ & _ & _ & Hinv' & _)|(_ & _ & Hno)]; [|destruct Hno; by exists pre, suf].
  assert (∃ e, log_events (ms_audit s) !! n = Some e) as (e & He).
  { apply lookup_lt_is_Some. rewrite Hes, length_app. cbn in Hlen. lia. }
  rewrite (nth_lookup_Some _ _ _ _ He) in Hp. rewrite He.
  destruct (delete_events (ms_audit s) n e (next (next (next c))) Ha He) as (l & Hl & ->). rewrite affectedRows_ok, Z.eqb_refl. cbn [negb].
  unfold sqlNow. destruct (audit_repr_state _ _ Ha) as (t0 & Ht0 & Hdb0).
  rewrite (updateAuditChainState_ok (log_state (ms_audit s)) t0) by (cbn; by rewrite lookup_insert_ne).
  set (st' := mkAuditChainState AuditHashAlgorithmSHA256V1 (acs_LatestSequence (log_state (ms_audit s)))
    (acs_LatestEventHash (log_state (ms_audit s))) (AuditEvent_Sequence e) (AuditEvent_EventHash e) (AuditEvent_CreatedAt e)) in *.
  set (new := mkAuditLog (drop (S n) (log_events (ms_audit s))) st') in *.
  assert (log' = new) as -> by (destruct (auditIntegrityError _) in Hp; congruence).
  rewrite (verify_same _ _ st') by done.
  assert (auditIntegrityError (verifyAuditState (drop (S n) (log_events (ms_audit s))) st') = None) as Hok
    by exact (proj2 (auditIntegrityError_None new) (inv_ok _ Hinv')).
  rewrite Hok. cbn [log_events log_state new] in Hp. rewrite Hok in Hp. simplify_eq.
  split; [done|]. cbn. apply repr_set_audit; [done|]. split; cbn.
  - done.
  - apply Forall_drop, Ha.
  - done.
  - rewrite fmap_drop. pose proof (audit_repr_ids _ _ Ha) as Hnd. rewrite <- (take_drop (S n) (AuditEvent_ID <$> _)) in Hnd.
    by apply NoDup_app in Hnd as (_ & _ & ?).
  - exists l. rewrite lookup_insert_ne, lookup_insert_eq by done. done.
  - eexists. rewrite lookup_insert_eq. split; [apply Hnow|]. unfold chain_row. cbn. by rewrite H1, H2, H3.
Qed.

(** ** Reading and verifying *)

Lemma ListAuditEvents_refines s c : repr s (sc_db c) → outcome eq (Store.ListAuditEvents s) (SQLStoreAudit.ListAuditEvents c).
Proof. intros Hr. unfold SQLStoreAudit.ListAuditEvents. by rewrite (listAuditEventsBySequence_ok _ _ (repr_audit _ _ Hr)). Qed.

Lemma VerifyAuditChain_refines s c : repr s (sc_db c) → outcome eq (Store.VerifyAuditChain s) (SQLStoreAudit.VerifyAuditChain c).
Proof.
  intros Hr. pose proof (repr_audit _ _ Hr) as Ha. unfold SQLStoreAudit.VerifyAuditChain, bindM.
  rewrite (lockAuditChain_ok _ _ Ha). destruct (readAuditChainState_ok _ (next c) Ha) as (st & -> & H1 & H2 & H3 & H4 & H5).
  rewrite (listAuditEventsBySequence_ok _ (next (next c)) Ha). split; [|done]. cbn. by apply verify_same.
Qed.
End Audit.
