(* ===== verification/SQLKeyOps.v ===== *)
(** * Tables with composite keys: CRL generation claims and webhook deliveries

    The in-memory store files these under a text made of two parts with the
    byte 0 between them, the database under two columns. The parts are told
    apart when the first one has no byte 0. CRL publications of an issuer are
    here too, and the revocations of an issuer: the database joins them with
    their certificates, the in-memory store looks each certificate up. *)

From Stdlib Require Import Btauto.
From S2P Require Import Prelude GoLib Crypto GoJSON Domain AuditChain Store StoreInv Repository SQLTime SQLText SQLEngine SQLScan SQLStore SQLStoreCertificate SQLStoreOutbox SQLSchema SQLEngineFacts SQLEntity SQLTables SQLRefinement SQLOps SQLSpecialOps SQLAuditOps.

Lemma split_key a b x y : no_nul a = true → no_nul x = true →
  (a +:+ bytes_str [0] +:+ b =s x +:+ bytes_str [0] +:+ y) = (a =s x) && (b =s y).
Proof.
  revert x. induction a as [|c a IH]; intros [|d x] Ha Hx.
  - change (bytes_str [0]) with (String.String Ascii.zero EmptyString). by cbn.
  - apply String.eqb_neq. intros E. injection E as <- _. done.
  - apply String.eqb_neq. intros E. injection E as -> _. done.
  - cbn in Ha, Hx. apply andb_true_iff in Ha as [_ Ha], Hx as [_ Hx]. specialize (IH x Ha Hx).
    change ((if Ascii.eqb c d then a +:+ bytes_str [0] +:+ b =s x +:+ bytes_str [0] +:+ y else false)
      = (if Ascii.eqb c d then a =s x else false) && (b =s y)). by destruct (Ascii.eqb c d).
Qed.

Section Keys.
Context `{HC : GoCodec} `{HD : SQLDriver} `{HL : !SQLDriverLaws} `{HU : GoUnicode}.
Implicit Types (s : MemoryStore) (c : SQLConn).

Lemma ListCRLPublicationsByIssuer_refines s c i : repr s (sc_db c) →
  outcome Permutation (Store.ListCRLPublicationsByIssuer i s) (SQLStoreCertificate.ListCRLPublicationsByIssuer i c).
Proof.
  intros Hr. unfold_ops.
  match goal with |- outcome _ _ (sql_list ?text ?args ?scan ?c) =>
    refine (outcome_selection (V:=CRLPublication) s c text args _ _ _ _ _ _ (λ p, CRLPublication_IssuerID p =s i)
      (then_by CRLPublication_CRLNumber (key_less CRLPublication_CreatedAt CRLPublication_ID)) scan CRLPublication_values
      _ _ _ _ _ _ Hr eq_refl eq_refl) end.
  - parse_text.
  - reflexivity.
  - sql_where.
  - intros a b Ha Hb _ _. cbn. storable_in Ha. storable_in Hb. rewrite format_order by assumption. rewrite order_asc. apply then_by_match.
  - sql_columns.
  - apply scan_CRLPublication.
Qed.

(** ** CRL generation claims *)

Lemma claim_key_eq a i d : en_storable a = true → no_nul i = true →
  (CRLGenerationClaim_IssuerID a =s i) && (CRLGenerationClaim_DistributionPoint a =s d) = (en_key a =s crlGenerationClaimKey i d).
Proof. intros Ha Hi. storable_in Ha. cbn. unfold claimKey, crlGenerationClaimKey. by rewrite split_key. Qed.

Lemma GetCRLGenerationClaim_refines s c i d : repr s (sc_db c) → no_nul i = true →
  outcome eq (Store.GetCRLGenerationClaim i d s) (SQLStoreCertificate.GetCRLGenerationClaim i d c).
Proof.
  intros Hr Hi. unfold_ops.
  match goal with |- outcome _ _ (sql_get ?err ?text ?args ?scan ?c) =>
    refine (outcome_get (V:=CRLGenerationClaim) s c text args _ _ _ _ _ _
      (λ a, (CRLGenerationClaim_IssuerID a =s i) && (CRLGenerationClaim_DistributionPoint a =s d)) (λ _ _, false) scan CRLGenerationClaim_values
      _ _ _ _ _ _ Hr (crlGenerationClaimKey i d) err _ _ _) end;
  [parse_text|reflexivity|sql_where|by intros|sql_columns|apply scan_CRLGenerationClaim| |reflexivity|reflexivity].
  intros a Ha. by apply claim_key_eq.
Qed.

(** Claims conflict when they have the same key. *)
Lemma claim_conflict (m : gmap string CRLGenerationClaim) db x : table_repr m db → en_storable x = true →
  existsb (en_conflict x) (map_values m) = match m !! en_key x with Some _ => true | None => false end.
Proof.
  intros Hm Hx. rewrite (existsb_ext_in _ (λ a, en_key x =s en_key a)).
  - apply (conflict_by_key (H := {| en_name := ""; en_table := crl_generation_claims_table; en_row := CRLGenerationClaim_row;
      en_storable := CRLGenerationClaim_storable; en_key := claimKey; en_conflict a b := claimKey a =s claimKey b |})); [apply Hm|done].
  - intros a (k & Ha)%elem_of_map_values. assert (en_storable a = true) as Hs by (destruct Hm as (_ & _ & Hs & _); by apply (Hs _ _ Ha)).
    rewrite (String.eqb_sym (en_key x)). storable_in Hx.
    change (en_key x) with (crlGenerationClaimKey (CRLGenerationClaim_IssuerID x) (CRLGenerationClaim_DistributionPoint x)).
    rewrite <- (claim_key_eq a (CRLGenerationClaim_IssuerID x) (CRLGenerationClaim_DistributionPoint x)) by done.
    cbn. by rewrite (String.eqb_sym (CRLGenerationClaim_IssuerID x)), (String.eqb_sym (CRLGenerationClaim_DistributionPoint x)).
Qed.

Lemma CreateCRLGenerationClaim_refines s c x : repr s (sc_db c) → en_storable x = true →
  outcome eq (Store.CreateCRLGenerationClaim x s) (SQLStoreCertificate.CreateCRLGenerationClaim x c).
Proof.
  intros Hr Hs. pose proof (claim_conflict (st_rows s) _ x (st_repr _ _ Hr) Hs) as Hc.
  create_unique_tac CRLGenerationClaim; rewrite Hc; [by destruct (st_rows s !! en_key x)|].
  unfold createCRLGenerationClaim. cbn. by destruct (ms_crlClaims s !! claimKey x).
Qed.

(** The claim under the key of another one has the same parts. *)
Lemma claim_free (m : gmap string CRLGenerationClaim) db x b : table_repr m db → en_storable x = true →
  b ∈ map_values (delete (en_key x) m) → en_conflict x b = false.
Proof.
  intros Hm Hx (k & [Hne Hb]%lookup_delete_Some)%elem_of_map_values. pose proof (proj1 Hm _ _ Hb) as E. cbn in E.
  assert (en_storable b = true) as Hsb by (destruct Hm as (_ & _ & Hs & _); by apply (Hs _ _ Hb)).
  apply not_true_iff_false. intros [H1%String.eqb_eq H2%String.eqb_eq]%andb_true_iff. apply Hne. rewrite <- E. cbn. unfold claimKey. by rewrite H1, H2.
Qed.

Lemma UpdateCRLGenerationClaimIfCurrent_refines s c x cur : repr s (sc_db c) → en_storable x = true → en_storable cur = true →
  outcome eq (Store.UpdateCRLGenerationClaimIfCurrent x cur s) (SQLStoreCertificate.UpdateCRLGenerationClaimIfCurrent x cur c).
Proof.
  intros Hr Hs Hcur. unfold_ops.
  match goal with |- outcome _ _ (bindM (ExecContext ?text ?args) (λ r, bindM (affectedRows r) (λ n, if _ then _ else bindM ?get _)) ?c) =>
    refine (outcome_update (V:=CRLGenerationClaim) s c text args _ _ (sameCRLGenerationClaim cur) (λ _, x) x
      _ _ _ _ Hr (λ _ _ _, eq_refl) Hs get ErrCRLGenerationClaimNotFound (λ _ _ _ b, claim_free _ _ x b (st_repr _ _ Hr) Hs) _) end.
  - parse_text.
  - reflexivity.
  - intros a Ha. storable_in Hs.
    change (en_key x) with (crlGenerationClaimKey (CRLGenerationClaim_IssuerID x) (CRLGenerationClaim_DistributionPoint x)).
    rewrite <- (claim_key_eq a (CRLGenerationClaim_IssuerID x) (CRLGenerationClaim_DistributionPoint x)) by done.
    cbn. autorewrite with sql. storable_in Ha. storable_in Hcur. rewrite !format_inj by done. unfold sameCRLGenerationClaim. btauto.
  - intros a Ha H. apply andb_true_iff in H as [H _]. storable_in Hs.
    pose proof (claim_key_eq a (CRLGenerationClaim_IssuerID x) (CRLGenerationClaim_DistributionPoint x) Ha ltac:(done)) as Hk.
    change (en_key x) with (crlGenerationClaimKey (CRLGenerationClaim_IssuerID x) (CRLGenerationClaim_DistributionPoint x)) in H.
    rewrite H in Hk. apply andb_true_iff in Hk as [Hk1%String.eqb_eq Hk2%String.eqb_eq]. destruct a. cbn in Hk1, Hk2. subst. reflexivity.
  - intros c' Hr'. storable_in Hs. by apply GetCRLGenerationClaim_refines.
Qed.

Lemma DeleteCRLGenerationClaimIfCurrent_refines s c cur : repr s (sc_db c) → en_storable cur = true →
  outcome eq (Store.DeleteCRLGenerationClaimIfCurrent cur s) (SQLStoreCertificate.DeleteCRLGenerationClaimIfCurrent cur c).
Proof.
  intros Hr Hcur. unfold_ops.
  match goal with |- outcome _ _ (bindM (ExecContext ?text ?args) (λ r, bindM (affectedRows r) (λ n, if _ then _ else bindM ?get _)) ?c) =>
    refine (outcome_delete (V:=CRLGenerationClaim) s c text args _ (claimKey cur) (sameCRLGenerationClaim cur) get ErrCRLGenerationClaimNotFound
      _ _ _ Hr _) end.
  - parse_text.
  - reflexivity.
  - intros a Ha. storable_in Hcur.
    change (claimKey cur) with (crlGenerationClaimKey (CRLGenerationClaim_IssuerID cur) (CRLGenerationClaim_DistributionPoint cur)).
    rewrite <- claim_key_eq by done. cbn. autorewrite with sql. storable_in Ha. rewrite !format_inj by done. unfold sameCRLGenerationClaim. btauto.
  - intros c' Hr'. storable_in Hcur. by apply GetCRLGenerationClaim_refines.
Qed.

(** ** Webhook deliveries *)

Lemma delivery_key_eq a m e : en_storable a = true → no_nul m = true →
  (WebhookDelivery_OutboxMessageID a =s m) && (WebhookDelivery_EndpointID a =s e) = (en_key a =s webhookDeliveryKey m e).
Proof. intros Ha Hm. storable_in Ha. cbn. unfold deliveryKey, webhookDeliveryKey. by rewrite split_key. Qed.

Lemma GetWebhookDelivery_refines s c m e : repr s (sc_db c) → no_nul m = true →
  outcome eq (Store.GetWebhookDelivery m e s) (SQLStoreOutbox.GetWebhookDelivery m e c).
Proof.
  intros Hr Hm. unfold_ops.
  match goal with |- outcome _ _ (sql_get ?err ?text ?args ?scan ?c) =>
    refine (outcome_get (V:=WebhookDelivery) s c text args _ _ _ _ _ _
      (λ a, (WebhookDelivery_OutboxMessageID a =s m) && (WebhookDelivery_EndpointID a =s e)) (λ _ _, false) scan WebhookDelivery_values
      _ _ _ _ _ _ Hr (webhookDeliveryKey m e) err _ _ _) end;
  [parse_text|reflexivity|sql_where|by intros|sql_columns|apply scan_WebhookDelivery| |reflexivity|reflexivity].
  intros a Ha. by apply delivery_key_eq.
Qed.

#[local] Notation delivery_pk := (mkIndex "webhook_deliveries.pk" true ["outbox_message_id"; "endpoint_id"] None).

Lemma delivery_violated r rows : violated webhook_deliveries_table r rows =
  if existsb (conflicting webhook_deliveries_table delivery_pk r) rows then Some delivery_pk else None.
Proof.
  unfold violated. cbn [tb_indexes webhook_deliveries_table list_find].
  destruct (decide _) as [Hd|Hd]; cbn [ix_unique andb] in Hd; [by rewrite Hd|]. apply not_true_iff_false in Hd. rewrite Hd. done.
Qed.

Lemma delivery_conflicting a b : conflicting webhook_deliveries_table delivery_pk (WebhookDelivery_row a) (WebhookDelivery_row b)
  = en_conflict a b.
Proof. destruct a, b. unfold conflicting, index_key. cbn. by rewrite andb_true_r. Qed.

(** The creation time of a delivery is not written again. *)
Definition redelivered (x a : WebhookDelivery) : WebhookDelivery :=
  mkWebhookDelivery (WebhookDelivery_OutboxMessageID a) (WebhookDelivery_EndpointID a) (WebhookDelivery_Status x)
    (WebhookDelivery_AttemptCount x) (WebhookDelivery_LastError x) (WebhookDelivery_LastAttemptedAt x) (WebhookDelivery_CreatedAt a)
    (WebhookDelivery_UpdatedAt x).

Lemma delivery_conflict_key a x : en_storable a = true → en_storable x = true → en_conflict x a = (en_key a =s en_key x).
Proof.
  intros Ha Hx. storable_in Hx.
  change (en_key x) with (webhookDeliveryKey (WebhookDelivery_OutboxMessageID x) (WebhookDelivery_EndpointID x)).
  rewrite <- delivery_key_eq by done. cbn.
  by rewrite (String.eqb_sym (WebhookDelivery_OutboxMessageID a)), (String.eqb_sym (WebhookDelivery_EndpointID a)).
Qed.

Lemma delivery_free (x : WebhookDelivery) l b : Forall (λ b, en_conflict x b = (en_key b =s en_key x)) l →
  Forall (λ b, en_key b ≠ deliveryKey x) l → b ∈ l → en_conflict x b = false.
Proof. rewrite !Forall_forall. intros Hc Hn Hb. rewrite Hc by done. apply String.eqb_neq. by apply Hn. Qed.

Lemma UpsertWebhookDelivery_refines s c x : repr s (sc_db c) → en_storable x = true →
  (∀ a, ms_webhookDeliveries s !! deliveryKey x = Some a → WebhookDelivery_CreatedAt a = WebhookDelivery_CreatedAt x) →
  outcome eq (Store.UpsertWebhookDelivery x s) (SQLStoreOutbox.UpsertWebhookDelivery x c).
Proof.
  intros Hr Hx Hcreated. pose proof (st_repr (V:=WebhookDelivery) _ _ Hr) as Hm. pose proof Hm as (Hk & Hu & Hst & l & Hl & Hdb).
  assert (Forall (λ b, en_conflict x b = (en_key b =s en_key x)) l) as Hconf.
  { eapply Forall_impl; [by eapply map_values_storable|]. intros b Hb. by apply delivery_conflict_key. }
  unfold Store.UpsertWebhookDelivery, SQLStoreOutbox.UpsertWebhookDelivery, putRows, ExecContext, bindM.
  match goal with |- context [run_sql ?text ?args] =>
    let v := eval vm_compute in (parse_sql text) in
    match v with Some [?st] => destruct (run_sql_statement text args st c) as (scan & Hscan & Hrun); [vm_compute; reflexivity|] end end.
  rewrite Hrun. clear Hrun.
  rewrite (upsert_statement webhook_deliveries_table WebhookDelivery_row scan (sc_db c) _ "webhook_deliveries" _ _ _ _ l x Hdb); [|by destruct x..].
  rewrite delivery_violated. destruct (ms_webhookDeliveries s !! deliveryKey x) as [a|] eqn:Ea.
  - destruct (split_at _ l _ a Hk Hl Ea) as (l1 & l2 & -> & Hd & Hne).
    assert (en_key a =s en_key x = true) as Eax by (apply String.eqb_eq; exact (Hk _ _ Ea)).
    apply Forall_app in Hne as [Hne1 Hne2], Hconf as [Hc1 [Hca Hc2]%Forall_cons].
    rewrite Eax in Hca. change (en_key x) with (deliveryKey x) in *.
    assert (existsb (conflicting webhook_deliveries_table delivery_pk (WebhookDelivery_row x)) (WebhookDelivery_row <$> (l1 ++ a :: l2)) = true) as ->.
    { apply list_find_existsb. exists (WebhookDelivery_row a). split; [|by rewrite delivery_conflicting].
      apply list_elem_of_fmap_2, elem_of_app. right. apply elem_of_cons. by left. }
    rewrite bool_decide_eq_true_2 by done.
    assert (redelivered x a = x) as Hre.
    { unfold redelivered. rewrite (Hcreated a eq_refl). cbn in Hca. apply andb_true_iff in Hca as [<-%String.eqb_eq <-%String.eqb_eq]. by destruct x. }
    rewrite (upsert_rows_one webhook_deliveries_table WebhookDelivery_row "webhook_deliveries" _ _ _ _ (redelivered x)).
    + rewrite Hre. cbn [bindR app retM]. split; [done|]. cbn. refine (st_put (V:=WebhookDelivery) s (sc_db c) (<[deliveryKey x := x]> (ms_webhookDeliveries s)) _ Hr _).
      refine (table_repr_replace (V:=WebhookDelivery) _ _ a x l1 l2 Hm Hx Ea Hd _). intros b Hb. rewrite <- Hd in Hb.
      by apply delivery_free with (l := l1 ++ l2); [by apply Forall_app|by apply Forall_app|].
    + apply Forall_forall. intros b Hb. rewrite delivery_conflicting. by apply (delivery_free x l1).
    + by rewrite delivery_conflicting.
    + by destruct a, x.
    + by rewrite Hre; destruct x.
    + rewrite Hre. cbn [app]. apply (violated_none webhook_deliveries_table WebhookDelivery_row x). apply Forall_forall. intros b Hb.
      etrans; [exact (en_collides x b)|]. by apply delivery_free with (l := l1 ++ l2); [by apply Forall_app|by apply Forall_app|].
  - assert (Forall (λ b, en_key b ≠ deliveryKey x) l) as Hne.
    { rewrite Hl. apply Forall_forall. intros b (k & Hb)%elem_of_map_values E. pose proof (Hk _ _ Hb) as E'. cbn in E'.
      cbn in E, Hb. rewrite <- E' in Hb. unfold deliveryKey in *. congruence. }
    assert (existsb (conflicting webhook_deliveries_table delivery_pk (WebhookDelivery_row x)) (WebhookDelivery_row <$> l) = false) as ->.
    { apply not_true_iff_false. intros (r & (b & -> & Hb)%list_elem_of_fmap & Hc)%list_find_existsb.
      rewrite delivery_conflicting in Hc. by rewrite (delivery_free x l b) in Hc. }
    cbn [bindR retM]. split; [done|]. cbn. refine (st_put (V:=WebhookDelivery) s (sc_db c) (<[deliveryKey x := x]> (ms_webhookDeliveries s)) _ Hr _).
    refine (table_repr_insert (V:=WebhookDelivery) _ _ x l Hm Hx Ea Hl _). intros b Hb. rewrite <- Hl in Hb. by apply delivery_free with (l := l).
Qed.
End Keys.

(** * The revocations of an issuer: a query over two tables *)

#[local] Arguments parseSQLTime : simpl never.

Section Revocations.
Context `{HC : GoCodec} `{HD : SQLDriver} `{HL : !SQLDriverLaws} `{HU : GoUnicode}.
Implicit Types (s : MemoryStore) (c : SQLConn).
Variable issuerID : string.

#[local] Notation listed x := ((Certificate_IssuerID x =s issuerID) && (Certificate_Status x =s CertificateRevoked)).
#[local] Notation entry := (λ p : Revocation * Certificate, mkRevokedCertificateEntry (Certificate_ID p.2) (Certificate_SerialNumber p.2)
  (Revocation_RevokedAt p.1) (Revocation_Reason p.1)).
#[local] Notation joined_pair := (λ p : Revocation * Certificate, (Certificate_ID p.2 =s Revocation_CertificateID p.1) && listed p.2).

(** The certificates a revocation is joined with. *)
Lemma joined_certificates (m : gmap string Certificate) l r : keyed Certificate_ID m → l ≡ₚ map_values m →
  filter (λ p, joined_pair p = true) (pair r <$> l) =
  match m !! Revocation_CertificateID r with
  | Some x => if listed x then [(r, x)] else []
  | None => []
  end.
Proof.
  intros Hk Hl.
  assert (∀ l', Forall (λ x, Certificate_ID x ≠ Revocation_CertificateID r) l' → filter (λ p, joined_pair p = true) (pair r <$> l') = []) as Hno.
  { induction 1 as [|x l' Hx _ IH]; [done|]. csimpl. rewrite filter_cons_False; [done|]. cbn. apply String.eqb_neq in Hx. by rewrite Hx. }
  destruct (m !! Revocation_CertificateID r) as [x|] eqn:Ex.
  - destruct (split_at (HE:=Certificate_entity) m l _ x Hk Hl Ex) as (l1 & l2 & -> & _ & Hne). apply Forall_app in Hne as [H1 H2].
    rewrite fmap_app, filter_app, (Hno l1 H1). csimpl. pose proof (Hk _ _ Ex) as E. cbn in E. rewrite filter_cons. cbn [fst snd].
    rewrite (Hno l2 H2), E, String.eqb_refl. cbn [andb]. destruct (listed x); by case_decide.
  - apply Hno. rewrite Hl. apply Forall_forall. intros x (k & Hx)%elem_of_map_values E. pose proof (Hk _ _ Hx) as E'. cbn in E'. congruence.
Qed.

Lemma joined_entries (m : gmap string Certificate) l revocations : keyed Certificate_ID m → l ≡ₚ map_values m →
  entry <$> filter (λ p, joined_pair p = true) (revocations ≫= λ r, pair r <$> l) = listRevocationsByIssuer m revocations issuerID.
Proof.
  intros Hk Hl. induction revocations as [|r revocations IH]; [done|]. csimpl.
  rewrite filter_app, fmap_app, IH, (joined_certificates m l r Hk Hl). unfold listRevocationsByIssuer. csimpl.
  destruct (m !! Revocation_CertificateID r) as [x|]; [|done].
  destruct (Certificate_IssuerID x =s issuerID); [|done]. by destruct (Certificate_Status x =s CertificateRevoked).
Qed.

Lemma ListRevocationsByIssuer_refines s c : repr s (sc_db c) →
  outcome Permutation (Store.ListRevocationsByIssuer issuerID s) (SQLStoreCertificate.ListRevocationsByIssuer issuerID c).
Proof.
  intros Hrepr. pose proof (repr_revocations _ _ Hrepr) as (_ & _ & Hs1 & l1 & Hl1 & Hdb1).
  pose proof (repr_certificates _ _ Hrepr) as (Hk & _ & Hs2 & l2 & Hl2 & Hdb2).
  unfold Store.ListRevocationsByIssuer, SQLStoreCertificate.ListRevocationsByIssuer, QueryContext, bindM. run_text c. rewrite Hr.
  match goal with |- context [SSelect (mkSelect ?columns (?t1, ?a1) [((?t2, ?a2), ?on)] ?cond ?order _ _)] =>
    destruct (run_select_join revocations_table certificates_table Revocation_row Certificate_row
      (λ r, en_storable r = true) (λ x, en_storable x = true) scan (sc_db c) [VText issuerID; VText CertificateRevoked] _
      columns t1 a1 t2 a2 on cond order l1 l2 (λ p, joined_pair p)
      (λ p, [VText (Certificate_ID p.2); VText (Certificate_SerialNumber p.2); VText (formatSQLTime (Revocation_RevokedAt p.1));
        VText (Revocation_Reason p.1)]) eq_refl Hdb1 Hdb2 Hscan) as (found & Hfound & Hq) end.
  - by eapply map_values_storable.
  - by eapply map_values_storable.
  - reflexivity.
  - intros a b _ _. cbn. autorewrite with sql. done.
  - intros a b _ _. destruct a, b. reflexivity.
  - cbn [exec_statement]. rewrite Hq. cbn [bindR retM fst]. unfold liftM. split; [|done]. cbn [fst].
    assert (∀ l, Forall (λ p, en_storable p.1 = true) l → scan_rows scanRevokedCertificateEntry ((λ p : Revocation * Certificate,
      [VText (Certificate_ID p.2); VText (Certificate_SerialNumber p.2); VText (formatSQLTime (Revocation_RevokedAt p.1));
       VText (Revocation_Reason p.1)]) <$> l) = Ok (entry <$> l)) as ->.
    { induction 1 as [|p l Hp _ IH]; [done|]. csimpl. storable_in Hp. rewrite read_time by done. cbn [bindR]. by rewrite IH. }
    + cbn. rewrite Hfound, (joined_entries (ms_certificates s) l2 l1 Hk Hl2). unfold listRevocationsByIssuer. by rewrite Hl1.
    + rewrite Hfound. apply Forall_forall. intros p [_ Hp]%list_elem_of_filter. apply list_elem_of_bind in Hp as (r & Hp & Hr').
      apply list_elem_of_fmap in Hp as (x & -> & _). eapply map_values_storable in Hs1; [|exact Hl1]. by eapply Forall_forall in Hs1.
Qed.
End Revocations.
