(* ===== verification/SQLPrograms.v ===== *)
(** * Programs over the repository: the database implements the in-memory store

    A program calls repository operations, looks at their results and runs
    transactions. [run] interprets it with any implementation of [Repository].
    The database gives the same result as the in-memory store, and represents
    the store the in-memory run ends in. *)

From S2P Require Import Prelude GoLib Crypto Domain AuditChain Store StoreInv Repository SQLText SQLEngine SQLTime GoJSON SQLScan SQLStore SQLStoreCertificate SQLStoreACME SQLStoreOutbox SQLStoreAudit Repositories SQLSchema SQLEngineFacts SQLEntity SQLTables SQLRefinement SQLOps SQLSpecialOps SQLAuditOps SQLKeyOps.

(** ** Operations *)

Inductive RepoOp : Type → Type :=
| CreateIdentity_ (x : Identity) : RepoOp unit
| GetIdentity_ (id : string) : RepoOp Identity
| CreateIssuer_ (x : Issuer) : RepoOp unit
| GetIssuer_ (id : string) : RepoOp Issuer
| GetOCSPResponder_ (id : string) : RepoOp OCSPResponder
| CreateNotificationEndpoint_ (x : NotificationEndpoint) : RepoOp unit
| GetNotificationEndpoint_ (id : string) : RepoOp NotificationEndpoint
| CreateAPIKey_ (x : APIKey) : RepoOp unit
| GetAPIKey_ (id : string) : RepoOp APIKey
| CreateCertificateProfile_ (x : CertificateProfile) : RepoOp unit
| GetCertificateProfile_ (id : string) : RepoOp CertificateProfile
| CreateEnrollment_ (x : Enrollment) : RepoOp unit
| GetEnrollment_ (id : string) : RepoOp Enrollment
| GetCertificate_ (id : string) : RepoOp Certificate
| GetIssuanceAttempt_ (id : string) : RepoOp IssuanceAttempt
| CreateRevocation_ (x : Revocation) : RepoOp unit
| GetCRLPublication_ (id : string) : RepoOp CRLPublication
| GetACMEAccount_ (id : string) : RepoOp ACMEAccount
| CreateACMEOrder_ (x : ACMEOrder) : RepoOp unit
| GetACMEOrder_ (id : string) : RepoOp ACMEOrder
| CreateACMEAuthorization_ (x : ACMEAuthorization) : RepoOp unit
| GetACMEAuthorization_ (id : string) : RepoOp ACMEAuthorization
| CreateACMEChallenge_ (x : ACMEChallenge) : RepoOp unit
| GetACMEChallenge_ (id : string) : RepoOp ACMEChallenge
| CreateOutboxMessage_ (x : OutboxMessage) : RepoOp unit
| GetOutboxMessage_ (id : string) : RepoOp OutboxMessage
| CreateJobAttempt_ (x : JobAttempt) : RepoOp unit
| ListOCSPRespondersByIssuer_ (i : string) : RepoOp (list OCSPResponder)
| ListNotificationEndpoints_ : RepoOp (list NotificationEndpoint)
| ListAPIKeys_ : RepoOp (list APIKey)
| ListACMEAccounts_ : RepoOp (list ACMEAccount)
| ListACMEOrdersByAccount_ (i : string) : RepoOp (list ACMEOrder)
| ListACMEAuthorizationsByOrder_ (i : string) : RepoOp (list ACMEAuthorization)
| ListACMEChallengesByAuthorization_ (i : string) : RepoOp (list ACMEChallenge)
| ListJobAttemptsByOutboxMessage_ (i : string) : RepoOp (list JobAttempt)
| ListIdentities_ : RepoOp (list Identity)
| ListIssuers_ : RepoOp (list Issuer)
| ListCertificateProfiles_ : RepoOp (list CertificateProfile)
| ListEnrollments_ : RepoOp (list Enrollment)
| ListCertificates_ : RepoOp (list Certificate)
| UpdateNotificationEndpointIfStatus_ (x : NotificationEndpoint) (st : string) : RepoOp unit
| UpdateOutboxMessageStatusIfStatus_ (x : OutboxMessage) (st : string) : RepoOp unit
| UpdateACMEOrderIfStatus_ (x : ACMEOrder) (st : string) : RepoOp unit
| UpdateACMEChallengeIfStatus_ (x : ACMEChallenge) (st : string) : RepoOp unit
| CreateCertificate_ (x : Certificate) : RepoOp unit
| CreateCRLPublication_ (x : CRLPublication) : RepoOp unit
| CreateACMEAccount_ (x : ACMEAccount) : RepoOp unit
| CreateOCSPResponder_ (x : OCSPResponder) : RepoOp unit
| CreateIssuanceAttempt_ (x : IssuanceAttempt) : RepoOp unit
| UpdateCertificateProfileIssuerIfCurrent_ (x : CertificateProfile) (i : string) (t : Time) : RepoOp unit
| UpdateAPIKeyIfStatus_ (x : APIKey) (st : string) : RepoOp unit
| UpdateACMEAccountIfStatus_ (x : ACMEAccount) (st : string) : RepoOp unit
| UpdateACMEAuthorizationIfStatus_ (x : ACMEAuthorization) (st : string) : RepoOp unit
| UpdateIssuanceAttemptIfCurrent_ (x : IssuanceAttempt) (cur : IssuanceAttempt) : RepoOp unit
| UpdateOutboxMessageIfCurrent_ (x : OutboxMessage) (cur : OutboxMessage) : RepoOp unit
| UpdateEnrollmentIfStatus_ (x : Enrollment) (st : string) : RepoOp unit
| UpdateEnrollment_ (x : Enrollment) : RepoOp unit
| UpdateCertificateIfStatus_ (x : Certificate) (st : string) : RepoOp unit
| UpdateCertificate_ (x : Certificate) : RepoOp unit
| UpdateOCSPResponderIfStatus_ (x : OCSPResponder) (st : string) : RepoOp unit
| GetAPIKeyByTokenHash_ (h : string) : RepoOp APIKey
| GetCertificateByEnrollmentID_ (e : string) : RepoOp Certificate
| GetActiveOCSPResponderByIssuer_ (i : string) : RepoOp OCSPResponder
| ListOutboxMessages_ (st : string) : RepoOp (list OutboxMessage)
| ListCertificatesForExpirationScan_ (now : Time) (before : Time) (limit : Z) : RepoOp (list Certificate)
| ListCertificatesExpiringWithin_ (now : Time) (cutoff : Time) (limit : Z) (offset : Z) : RepoOp (list Certificate)
| ListDueOutboxMessages_ (now : Time) (limit : Z) : RepoOp (list OutboxMessage)
| CreateAuditEvent_ (x : AuditEvent) : RepoOp unit
| DeleteAuditEventsBefore_ (before : Time) : RepoOp Z
| ListAuditEvents_ : RepoOp (list AuditEvent)
| VerifyAuditChain_ : RepoOp AuditIntegrity
| ListCRLPublicationsByIssuer_ (i : string) : RepoOp (list CRLPublication)
| GetCRLGenerationClaim_ (i : string) (d : string) : RepoOp CRLGenerationClaim
| CreateCRLGenerationClaim_ (x : CRLGenerationClaim) : RepoOp unit
| UpdateCRLGenerationClaimIfCurrent_ (x : CRLGenerationClaim) (cur : CRLGenerationClaim) : RepoOp unit
| DeleteCRLGenerationClaimIfCurrent_ (cur : CRLGenerationClaim) : RepoOp unit
| GetWebhookDelivery_ (m : string) (e : string) : RepoOp WebhookDelivery
| UpsertWebhookDelivery_ (x : WebhookDelivery) : RepoOp unit
| ListRevocationsByIssuer_ (i : string) : RepoOp (list RevokedCertificateEntry).

Definition call {M : Type → Type} (repo : Repository M) {X} (op : RepoOp X) : M X :=
  match op with
  | CreateIdentity_ x => repo_CreateIdentity x
  | GetIdentity_ id => repo_GetIdentity id
  | CreateIssuer_ x => repo_CreateIssuer x
  | GetIssuer_ id => repo_GetIssuer id
  | GetOCSPResponder_ id => repo_GetOCSPResponder id
  | CreateNotificationEndpoint_ x => repo_CreateNotificationEndpoint x
  | GetNotificationEndpoint_ id => repo_GetNotificationEndpoint id
  | CreateAPIKey_ x => repo_CreateAPIKey x
  | GetAPIKey_ id => repo_GetAPIKey id
  | CreateCertificateProfile_ x => repo_CreateCertificateProfile x
  | GetCertificateProfile_ id => repo_GetCertificateProfile id
  | CreateEnrollment_ x => repo_CreateEnrollment x
  | GetEnrollment_ id => repo_GetEnrollment id
  | GetCertificate_ id => repo_GetCertificate id
  | GetIssuanceAttempt_ id => repo_GetIssuanceAttempt id
  | CreateRevocation_ x => repo_CreateRevocation x
  | GetCRLPublication_ id => repo_GetCRLPublication id
  | GetACMEAccount_ id => repo_GetACMEAccount id
  | CreateACMEOrder_ x => repo_CreateACMEOrder x
  | GetACMEOrder_ id => repo_GetACMEOrder id
  | CreateACMEAuthorization_ x => repo_CreateACMEAuthorization x
  | GetACMEAuthorization_ id => repo_GetACMEAuthorization id
  | CreateACMEChallenge_ x => repo_CreateACMEChallenge x
  | GetACMEChallenge_ id => repo_GetACMEChallenge id
  | CreateOutboxMessage_ x => repo_CreateOutboxMessage x
  | GetOutboxMessage_ id => repo_GetOutboxMessage id
  | CreateJobAttempt_ x => repo_CreateJobAttempt x
  | ListOCSPRespondersByIssuer_ i => repo_ListOCSPRespondersByIssuer i
  | ListNotificationEndpoints_ => repo_ListNotificationEndpoints
  | ListAPIKeys_ => repo_ListAPIKeys
  | ListACMEAccounts_ => repo_ListACMEAccounts
  | ListACMEOrdersByAccount_ i => repo_ListACMEOrdersByAccount i
  | ListACMEAuthorizationsByOrder_ i => repo_ListACMEAuthorizationsByOrder i
  | ListACMEChallengesByAuthorization_ i => repo_ListACMEChallengesByAuthorization i
  | ListJobAttemptsByOutboxMessage_ i => repo_ListJobAttemptsByOutboxMessage i
  | ListIdentities_ => repo_ListIdentities
  | ListIssuers_ => repo_ListIssuers
  | ListCertificateProfiles_ => repo_ListCertificateProfiles
  | ListEnrollments_ => repo_ListEnrollments
  | ListCertificates_ => repo_ListCertificates
  | UpdateNotificationEndpointIfStatus_ x st => repo_UpdateNotificationEndpointIfStatus x st
  | UpdateOutboxMessageStatusIfStatus_ x st => repo_UpdateOutboxMessageStatusIfStatus x st
  | UpdateACMEOrderIfStatus_ x st => repo_UpdateACMEOrderIfStatus x st
  | UpdateACMEChallengeIfStatus_ x st => repo_UpdateACMEChallengeIfStatus x st
  | CreateCertificate_ x => repo_CreateCertificate x
  | CreateCRLPublication_ x => repo_CreateCRLPublication x
  | CreateACMEAccount_ x => repo_CreateACMEAccount x
  | CreateOCSPResponder_ x => repo_CreateOCSPResponder x
  | CreateIssuanceAttempt_ x => repo_CreateIssuanceAttempt x
  | UpdateCertificateProfileIssuerIfCurrent_ x i t => repo_UpdateCertificateProfileIssuerIfCurrent x i t
  | UpdateAPIKeyIfStatus_ x st => repo_UpdateAPIKeyIfStatus x st
  | UpdateACMEAccountIfStatus_ x st => repo_UpdateACMEAccountIfStatus x st
  | UpdateACMEAuthorizationIfStatus_ x st => repo_UpdateACMEAuthorizationIfStatus x st
  | UpdateIssuanceAttemptIfCurrent_ x cur => repo_UpdateIssuanceAttemptIfCurrent x cur
  | UpdateOutboxMessageIfCurrent_ x cur => repo_UpdateOutboxMessageIfCurrent x cur
  | UpdateEnrollmentIfStatus_ x st => repo_UpdateEnrollmentIfStatus x st
  | UpdateEnrollment_ x => repo_UpdateEnrollment x
  | UpdateCertificateIfStatus_ x st => repo_UpdateCertificateIfStatus x st
  | UpdateCertificate_ x => repo_UpdateCertificate x
  | UpdateOCSPResponderIfStatus_ x st => repo_UpdateOCSPResponderIfStatus x st
  | GetAPIKeyByTokenHash_ h => repo_GetAPIKeyByTokenHash h
  | GetCertificateByEnrollmentID_ e => repo_GetCertificateByEnrollmentID e
  | GetActiveOCSPResponderByIssuer_ i => repo_GetActiveOCSPResponderByIssuer i
  | ListOutboxMessages_ st => repo_ListOutboxMessages st
  | ListCertificatesForExpirationScan_ now before limit => repo_ListCertificatesForExpirationScan now before limit
  | ListCertificatesExpiringWithin_ now cutoff limit offset => repo_ListCertificatesExpiringWithin now cutoff limit offset
  | ListDueOutboxMessages_ now limit => repo_ListDueOutboxMessages now limit
  | CreateAuditEvent_ x => repo_CreateAuditEvent x
  | DeleteAuditEventsBefore_ before => repo_DeleteAuditEventsBefore before
  | ListAuditEvents_ => repo_ListAuditEvents
  | VerifyAuditChain_ => repo_VerifyAuditChain
  | ListCRLPublicationsByIssuer_ i => repo_ListCRLPublicationsByIssuer i
  | GetCRLGenerationClaim_ i d => repo_GetCRLGenerationClaim i d
  | CreateCRLGenerationClaim_ x => repo_CreateCRLGenerationClaim x
  | UpdateCRLGenerationClaimIfCurrent_ x cur => repo_UpdateCRLGenerationClaimIfCurrent x cur
  | DeleteCRLGenerationClaimIfCurrent_ cur => repo_DeleteCRLGenerationClaimIfCurrent cur
  | GetWebhookDelivery_ m e => repo_GetWebhookDelivery m e
  | UpsertWebhookDelivery_ x => repo_UpsertWebhookDelivery x
  | ListRevocationsByIssuer_ i => repo_ListRevocationsByIssuer i
  end.

(** What the caller owes: values a column can hold, keys that are new where the
    in-memory store would replace a value, and the fields a statement leaves
    alone. *)
Definition op_pre `{GoCodec} {X} (op : RepoOp X) (s : MemoryStore) : Prop :=
  match op with
  | CreateIdentity_ x => insertable x s
  | CreateIssuer_ x => insertable x s
  | CreateNotificationEndpoint_ x => insertable x s
  | CreateAPIKey_ x => insertable x s
  | CreateCertificateProfile_ x => insertable x s
  | CreateEnrollment_ x => insertable x s
  | CreateRevocation_ x => insertable x s
  | CreateACMEOrder_ x => insertable x s
  | CreateACMEAuthorization_ x => insertable x s
  | CreateACMEChallenge_ x => insertable x s
  | CreateOutboxMessage_ x => insertable x s
  | CreateJobAttempt_ x => insertable x s
  | UpdateNotificationEndpointIfStatus_ x st => replaceable x s
  | UpdateOutboxMessageStatusIfStatus_ x st => replaceable x s
  | UpdateACMEOrderIfStatus_ x st => replaceable x s
  | UpdateACMEChallengeIfStatus_ x st => replaceable x s
  | CreateCertificate_ x => addable x s
  | CreateCRLPublication_ x => addable x s
  | CreateACMEAccount_ x => addable x s
  | CreateOCSPResponder_ x => addable x s
  | CreateIssuanceAttempt_ x => en_storable x = true
  | UpdateCertificateProfileIssuerIfCurrent_ x i t => replaceable x s ∧ sqlTimeOK t = true ∧
      (∀ a, ms_profiles s !! CertificateProfile_ID x = Some a → reissued x a = x)
  | UpdateAPIKeyIfStatus_ x st => replaceable x s ∧
      (∀ a, ms_apiKeys s !! APIKey_ID x = Some a → APIKey_CreatedAt a = APIKey_CreatedAt x)
  | UpdateACMEAccountIfStatus_ x st => replaceable x s ∧
      (∀ a, ms_acmeAccounts s !! ACMEAccount_ID x = Some a → ACMEAccount_CreatedAt a = ACMEAccount_CreatedAt x)
  | UpdateACMEAuthorizationIfStatus_ x st => replaceable x s ∧ is_Some (ms_acmeAuthzs s !! ACMEAuthorization_ID x)
  | UpdateIssuanceAttemptIfCurrent_ x cur => replaceable x s ∧ en_storable cur = true
  | UpdateOutboxMessageIfCurrent_ x cur => replaceable x s ∧ en_storable cur = true
  | UpdateEnrollmentIfStatus_ x st => replaceable x s
  | UpdateEnrollment_ x => replaceable x s
  | UpdateCertificateIfStatus_ x st => replaceable x s
  | UpdateCertificate_ x => replaceable x s
  | UpdateOCSPResponderIfStatus_ x st => en_storable x = true
  | GetCertificateByEnrollmentID_ e => e ≠ ""
  | ListCertificatesForExpirationScan_ now before limit => sqlTimeOK now = true ∧ sqlTimeOK before = true ∧ (0 <= limit)%Z
  | ListCertificatesExpiringWithin_ now cutoff limit offset => sqlTimeOK now = true ∧ sqlTimeOK cutoff = true ∧ (0 < limit)%Z ∧ (0 <= offset)%Z
  | ListDueOutboxMessages_ now limit => sqlTimeOK now = true
  | CreateAuditEvent_ x => AuditEvent_storable x = true ∧ AuditEvent_ID x ∉ AuditEvent_ID <$> log_events (ms_audit s)
  | GetCRLGenerationClaim_ i d => no_nul i = true
  | CreateCRLGenerationClaim_ x => en_storable x = true
  | UpdateCRLGenerationClaimIfCurrent_ x cur => en_storable x = true ∧ en_storable cur = true
  | DeleteCRLGenerationClaimIfCurrent_ cur => en_storable cur = true
  | GetWebhookDelivery_ m e => no_nul m = true
  | UpsertWebhookDelivery_ x => en_storable x = true ∧
      (∀ a, ms_webhookDeliveries s !! deliveryKey x = Some a → WebhookDelivery_CreatedAt a = WebhookDelivery_CreatedAt x)
  | _ => True
  end.

(** How results compare: where the in-memory store ranges over a map, the list
    may come in another order. *)
Definition op_rel {X} (op : RepoOp X) : X → X → Prop :=
  match op with
  | ListIdentities_ => Permutation
  | ListIssuers_ => Permutation
  | ListCertificateProfiles_ => Permutation
  | ListEnrollments_ => Permutation
  | ListCertificates_ => Permutation
  | ListCRLPublicationsByIssuer_ i => Permutation
  | ListRevocationsByIssuer_ i => Permutation
  | _ => eq
  end.

(** ** Programs *)

Inductive Program : Type → Type :=
| Return {A} (r : res A) : Program A
| Call {X A} (op : RepoOp X) (k : res X → Program A) : Program A
| Transaction {X A} (body : Program X) (k : res X → Program A) : Program A.

(** [repo] answers the calls, [tx] those inside a transaction. *)
Fixpoint run {S A} (repo tx : Repository (GoM S)) (p : Program A) : GoM S A :=
  match p with
  | Return r => liftM r
  | Call op k => let* r := catchM (call repo op) in run repo tx (k r)
  | Transaction body k => let* r := catchM (@repo_WithinTx _ repo _ (run tx tx body)) in run repo tx (k r)
  end.

(** Each call is made where its precondition holds, and what the program does
    next does not depend on an order the repository leaves open. *)
Fixpoint prog_ok `{GoCodec} {A} (repo : Repository Mem) (p : Program A) (s : MemoryStore) : Prop :=
  match p with
  | Return _ => True
  | Call op k =>
      let o := call repo op s in
      op_pre op s ∧ (∀ r, same_res (op_rel op) o.1 r → k r = k o.1) ∧ prog_ok repo (k o.1) o.2
  | Transaction body k =>
      let o := @repo_WithinTx _ repo _ (run memoryTx_repository memoryTx_repository body) s in
      prog_ok memoryTx_repository body s ∧ prog_ok repo (k o.1) o.2
  end.

Create HintDb refines.

Section Programs.
Context `{HC : GoCodec} `{HD : SQLDriver} `{HL : !SQLDriverLaws} `{HU : GoUnicode}.
Hypothesis clock_ok : ∀ n, sqlTimeOK (sql_now n) = true.
Implicit Types (s : MemoryStore) (c : SQLConn).

#[local] Hint Resolve
  CreateIdentity_refines GetIdentity_refines CreateIssuer_refines GetIssuer_refines GetOCSPResponder_refines
  CreateNotificationEndpoint_refines GetNotificationEndpoint_refines CreateAPIKey_refines GetAPIKey_refines
  CreateCertificateProfile_refines GetCertificateProfile_refines CreateEnrollment_refines GetEnrollment_refines
  GetCertificate_refines GetIssuanceAttempt_refines CreateRevocation_refines GetCRLPublication_refines
  GetACMEAccount_refines CreateACMEOrder_refines GetACMEOrder_refines CreateACMEAuthorization_refines
  GetACMEAuthorization_refines CreateACMEChallenge_refines GetACMEChallenge_refines CreateOutboxMessage_refines
  GetOutboxMessage_refines CreateJobAttempt_refines ListOCSPRespondersByIssuer_refines ListNotificationEndpoints_refines
  ListAPIKeys_refines ListACMEAccounts_refines ListACMEOrdersByAccount_refines ListACMEAuthorizationsByOrder_refines
  ListACMEChallengesByAuthorization_refines ListJobAttemptsByOutboxMessage_refines ListIdentities_refines
  ListIssuers_refines ListCertificateProfiles_refines ListEnrollments_refines ListCertificates_refines
  UpdateNotificationEndpointIfStatus_refines UpdateOutboxMessageStatusIfStatus_refines UpdateACMEOrderIfStatus_refines
  UpdateACMEChallengeIfStatus_refines CreateCertificate_refines CreateCRLPublication_refines CreateACMEAccount_refines
  CreateOCSPResponder_refines CreateIssuanceAttempt_refines UpdateCertificateProfileIssuerIfCurrent_refines
  UpdateAPIKeyIfStatus_refines UpdateACMEAccountIfStatus_refines UpdateACMEAuthorizationIfStatus_refines
  UpdateIssuanceAttemptIfCurrent_refines UpdateOutboxMessageIfCurrent_refines UpdateEnrollmentIfStatus_refines
  UpdateEnrollment_refines UpdateCertificateIfStatus_refines UpdateCertificate_refines
  UpdateOCSPResponderIfStatus_refines GetAPIKeyByTokenHash_refines GetCertificateByEnrollmentID_refines
  GetActiveOCSPResponderByIssuer_refines ListOutboxMessages_refines ListCertificatesForExpirationScan_refines
  ListCertificatesExpiringWithin_refines ListDueOutboxMessages_refines CreateAuditEvent_refines ListAuditEvents_refines
  VerifyAuditChain_refines ListCRLPublicationsByIssuer_refines GetCRLGenerationClaim_refines
  CreateCRLGenerationClaim_refines UpdateCRLGenerationClaimIfCurrent_refines DeleteCRLGenerationClaimIfCurrent_refines
  GetWebhookDelivery_refines UpsertWebhookDelivery_refines ListRevocationsByIssuer_refines : refines.

(** ** Transactions *)

Lemma within_refines {A B} (R : A → B → Prop) (f : Mem A) (g : SQLM B) s c :
  repr s (sc_db c) → (∀ c', sc_db c' = sc_db c → outcome R (f s) (g c')) →
  outcome R (MemoryStore_WithinTx f s) (SQLStore.WithinTx g c).
Proof.
  intros Hr Hfg. unfold MemoryStore_WithinTx, SQLStore.WithinTx, BeginTx, Commit, bindM, affectedRows.
  rewrite !sql_no_fault. cbn. destruct (Hfg (mkSQLConn (sc_db c) (S (sc_tick c))) eq_refl) as [H1 H2].
  destruct (f s) as [[a|e] s'], (g _) as [[b|e'] c']; cbn in *; try done. by rewrite sql_no_fault.
Qed.

(** ** Operations *)

Lemma op_refines {X} (op : RepoOp X) s c : repr s (sc_db c) → op_pre op s →
  outcome (op_rel op) (call memoryTx_repository op s) (call sqlRepository_repository op c).
Proof.
  intros Hr Hp. destruct op; cbn [op_pre] in Hp; destruct_and? Hp; cbv [op_rel]; cbn [call]; repo_simpl; try solve [eauto with refines].
  destruct (DeleteAuditEventsBefore_refines s c before Hr clock_ok) as [H1 H2]. unfold bindM.
  destruct (Store.DeleteAuditEventsBefore before s) as [[n|e] s'], (DeleteAuditEventsBefore before c) as [[z|e'] c']; done.
Qed.

Lemma keeps_on_error {A} (f : Mem A) s : (∀ e s', f s = (Err e, s') → s' = s) → MemoryStore_WithinTx f s = f s.
Proof. intros Hf. unfold MemoryStore_WithinTx. destruct (f s) as [[a|e] s']; [done|]. by rewrite (Hf e s' eq_refl). Qed.

(** The store opens a transaction for the operations on the audit chain. *)
Lemma store_op_refines {X} (op : RepoOp X) s c : repr s (sc_db c) → op_pre op s →
  outcome (op_rel op) (call MemoryStore_repository op s) (call SQLStore_repository op c).
Proof.
  intros Hr Hp.
  assert (∀ c', sc_db c' = sc_db c → outcome (op_rel op) (call memoryTx_repository op s) (call sqlRepository_repository op c')) as Ho
    by (intros c' E; apply op_refines; [by rewrite E|done]).
  pose proof (audit_repr_inv _ _ (repr_audit _ _ Hr)) as Hinv. destruct op; try exact (Ho c eq_refl).
  all: pose proof (within_refines _ _ _ s c Hr Ho) as Hw; rewrite keeps_on_error in Hw; [exact Hw|].
  - intros e s'. cbn. unfold Store.CreateAuditEvent, onAudit. destruct (appendMemoryAuditEvent x (ms_audit s)) as [r l] eqn:E.
    intros [= -> <-]. destruct (append_cases _ _ _ _ Hinv E) as [(? & _)|(-> & _)]; [done|]. by destruct s.
  - intros e s'. cbn. unfold bindM, Store.DeleteAuditEventsBefore, onAudit.
    destruct (pruneMemoryAuditEvents before (ms_audit s)) as [r l] eqn:E. destruct r as [n|e']; [done|]. intros [= -> <-].
    destruct (prune_cases _ _ _ _ Hinv E) as [(? & ? & _ & ? & _)|(-> & _)]; [done|]. by destruct s.
  - intros e s'. cbn. by intros [= _ ->].
Qed.

(** ** Programs *)

(** A call, and the rest of the program after it. *)
Lemma run_call {X A} (R : X → X → Prop) (f : Mem X) (g : SQLM X) (m : res X → Mem A) (n : res X → SQLM A) s c :
  outcome R (f s) (g c) → (∀ r', same_res R (f s).1 r' → n r' = n (f s).1) →
  (∀ c', repr (f s).2 (sc_db c') → outcome eq (m (f s).1 (f s).2) (n (f s).1 c')) →
  outcome eq ((let* r := catchM f in m r) s) ((let* r := catchM g in n r) c).
Proof.
  intros [H1 H2] Hn Hm. unfold bindM, catchM. destruct (f s) as [r s'], (g c) as [r' c']. cbn in *.
  rewrite (Hn r' H1). by apply Hm.
Qed.

Lemma same_res_eq {A} (r r' : res A) : same_res eq r r' → r' = r.
Proof. by destruct r, r'; cbn; intros; subst. Qed.

(** Two implementations whose operations and transactions agree. *)
Record agree (mem : Repository Mem) (sql : Repository SQLM) : Prop := {
  agree_call : ∀ X (op : RepoOp X) s c, repr s (sc_db c) → op_pre op s → outcome (op_rel op) (call mem op s) (call sql op c);
  agree_tx : ∀ X (f : Mem X) (g : SQLM X) s c, repr s (sc_db c) → (∀ c', sc_db c' = sc_db c → outcome eq (f s) (g c')) →
    outcome eq (@repo_WithinTx _ mem _ f s) (@repo_WithinTx _ sql _ g c);
}.

Lemma transactions_agree : agree memoryTx_repository sqlRepository_repository.
Proof. split; [intros; by apply op_refines|]. intros X f g s c Hr Hfg. by apply Hfg. Qed.

Lemma stores_agree : agree MemoryStore_repository SQLStore_repository.
Proof. split; [intros; by apply store_op_refines|]. intros X f g s c. apply within_refines. Qed.

Lemma program_refines {A} (p : Program A) mem sql s c : agree mem sql → repr s (sc_db c) → prog_ok mem p s →
  outcome eq (run mem memoryTx_repository p s) (run sql sqlRepository_repository p c).
Proof.
  intros Hag. revert mem sql Hag s c. induction p as [A r|X A op k IH|X A body IHb k IH]; intros mem sql Hag s c Hr Hok.
  - split; [by destruct r|done].
  - destruct Hok as (Hp & Hk & Hok). cbn [run]. apply run_call with (op_rel op).
    + by apply (agree_call _ _ Hag).
    + intros r' Hr'. f_equal. by apply Hk.
    + intros c' Hr'. by apply IH.
  - destruct Hok as (Hb & Hok). cbn [run]. apply run_call with eq.
    + apply (agree_tx _ _ Hag); [done|]. intros c' Hc'. apply IHb; [apply transactions_agree|by rewrite Hc'|done].
    + intros r' Hr'. by rewrite (same_res_eq _ _ Hr').
    + intros c' Hr'. by apply IH.
Qed.
End Programs.
