(* ===== verification/SQLFacts.v ===== *)
(** * The database as a repository: what the SQL store promises

    The database implements the in-memory repository, program by program. *)

From S2P Require Import Prelude GoLib Crypto GoJSON Domain AuditChain Store StoreInv Repository SQLTime SQLText SQLEngine SQLScan SQLStore SQLStoreCertificate SQLStoreACME SQLStoreOutbox SQLStoreAudit Repositories Migrations SQLSchema SQLEngineFacts SQLEntity SQLTables SQLRefinement SQLOps SQLSpecialOps SQLAuditOps SQLKeyOps SQLPrograms.

(** ** The empty store *)

(** The tables of the schema, with the row of the empty audit chain. *)
Definition schema_tables (started : Time) : list (string * Table) :=
  [("identities", identities_table); ("issuers", issuers_table); ("ocsp_responders", ocsp_responders_table);
   ("notification_endpoints", notification_endpoints_table); ("api_keys", api_keys_table);
   ("certificate_profiles", certificate_profiles_table); ("enrollments", enrollments_table);
   ("certificates", certificates_table); ("certificate_issuance_attempts", certificate_issuance_attempts_table);
   ("revocations", revocations_table); ("crl_publications", crl_publications_table);
   ("crl_generation_claims", crl_generation_claims_table); ("acme_accounts", acme_accounts_table);
   ("acme_orders", acme_orders_table); ("acme_authorizations", acme_authorizations_table);
   ("acme_challenges", acme_challenges_table); ("outbox_messages", outbox_messages_table);
   ("job_attempts", job_attempts_table); ("webhook_deliveries", webhook_deliveries_table);
   ("audit_events", audit_events_table); ("acme_nonces", acme_nonces_table);
   ("audit_chain_state", with_rows audit_chain_state_table [chain_row emptyAuditChainState started])].

Section Empty.
Context `{HC : GoCodec}.

Lemma table_repr_empty {V} `{Entity V} db : db !! en_name = Some en_table → tb_rows en_table = [] → table_repr ∅ db.
Proof.
  intros Hdb Hrows. split_and!; [done|done|done|]. exists []. split; [done|]. rewrite Hdb. f_equal.
  cbn. unfold with_rows. rewrite <- Hrows. by destruct en_table.
Qed.

(** A database that has these tables, whatever else it has. *)
Lemma repr_schema db t : sqlTimeOK t = true → Forall (λ '(name, table), db !! name = Some table) (schema_tables t) → repr NewMemoryStore db.
Proof.
  intros Ht Hdb. unfold schema_tables in Hdb. decompose_Forall_hyps.
  split; try (by apply table_repr_empty); cbn. split.
  - apply audit_inv_empty.
  - constructor.
  - done.
  - constructor.
  - exists []. by split.
  - by exists t.
Qed.
End Empty.

Section Promise.
Context `{HC : GoCodec} `{HD : SQLDriver} `{HL : !SQLDriverLaws} `{HU : GoUnicode}.

(** C8: The database implements the in-memory repository. Take any program over
    the repository interface: calls whose results decide what it does next, and
    transactions, which may fail and be undone. Run on a database that
    represents an in-memory store, with any driver that gives the statements
    their meaning and visits rows in any order, it returns exactly what it
    returns on that store, errors included, and leaves a database that
    represents the store it leaves. A program may use every operation of
    [RepoOp] where its precondition holds, and may depend on the order of a list
    only where the interface fixes it. *)
Theorem sql_refines_memory {A} (p : Program A) (s : MemoryStore) (c : SQLConn)
  (Hclock : ∀ n, sqlTimeOK (sql_now n) = true) (Hrepr : repr s (sc_db c)) (Hok : prog_ok MemoryStore_repository p s) :
  outcome eq (run MemoryStore_repository memoryTx_repository p s) (run SQLStore_repository sqlRepository_repository p c).
Proof. apply program_refines; [done|by apply stores_agree|done|done]. Qed.

End Promise.

(** Times survive the database: a time the store accepts is written as text
    that reads back as the same time, and the order of two texts, by which the
    database sorts and compares, is the order of the times. *)
Theorem sql_times (t1 t2 : Time) (H1 : sqlTimeOK t1 = true) (H2 : sqlTimeOK t2 = true) :
  parseSQLTime (VText (formatSQLTime t1)) = Ok t1 ∧ String.compare (formatSQLTime t1) (formatSQLTime t2) = Z.compare t1 t2.
Proof. split; [by apply read_time|by apply format_order]. Qed.

(** ** Samples *)

#[local] Existing Instances plain_codec ascii_unicode.
#[local] Instance sample_driver : SQLDriver := reference_driver 1700000000000000000.
#[local] Instance sample_laws : SQLDriverLaws := reference_driver_laws _.

Definition sample_database : Database := list_to_map (schema_tables 0).
Definition sample_row : Identity :=
  mkIdentity "id-1" "service" "api" "" "ops" "" "" "" "" zero_time "" ["a.example"] [] "active" 1000 1000.
Definition sample_event : AuditEvent :=
  mkAuditEvent "ev-1" 0 "operator" "create" "identity" "id-1" "" "" "" "" 1000.

(** A transaction that adds an identity and its audit event, then a count. *)
Definition sample_program : Program nat :=
  Transaction (Call (CreateIdentity_ sample_row) (λ _, Call (CreateAuditEvent_ sample_event) Return))
    (λ _, Call ListIdentities_ (λ r, Return (match r with Ok l => Ok (length l) | Err e => Err e end))).

Lemma sql_refines_memory_witness :
  repr NewMemoryStore sample_database ∧
  outcome eq (run MemoryStore_repository memoryTx_repository sample_program NewMemoryStore)
    (run SQLStore_repository sqlRepository_repository sample_program (mkSQLConn sample_database 0)).
Proof.
  assert (repr NewMemoryStore sample_database) as Hr.
  { apply (repr_schema _ 0); [vm_compute; reflexivity|]. repeat constructor. }
  split; [exact Hr|]. apply sql_refines_memory; [intros n; vm_compute; reflexivity|exact Hr|].
  split.
  - split; [|split].
    + split; [vm_compute; reflexivity|]. split; [reflexivity|]. intros a Ha. vm_compute in Ha. inversion Ha.
    + intros r _. reflexivity.
    + split; [|split; [|exact I]].
      * split; [vm_compute; reflexivity|]. apply not_elem_of_nil.
      * intros r Hr'. by rewrite (same_res_eq _ _ Hr').
  - split; [exact I|]. split; [|exact I]. intros r Hp.
    match type of Hp with same_res _ ?x _ => destruct x as [l|e], r as [l'|e']; try done end.
    + cbn in Hp. by rewrite (Permutation_length Hp).
    + cbn in Hp. by rewrite Hp.
Defined.

Lemma sql_times_witness : parseSQLTime (VText (formatSQLTime 1000)) = Ok 1000%Z ∧
  String.compare (formatSQLTime 1000) (formatSQLTime 2000) = Z.compare 1000 2000.
Proof. apply (sql_times 1000 2000); vm_compute; reflexivity. Defined.

(** * A migrated database is an empty store *)

(** ** Lists of tables *)

Notation Tables := (list (string * Table)).

Definition of_tables (l : Tables) : Database := list_to_map l.
Fixpoint find_table (l : Tables) (name : string) : option Table :=
  match l with [] => None | (k, t) :: l => if k =s name then Some t else find_table l name end.
Fixpoint put_table (l : Tables) (name : string) (t : Table) : Tables :=
  match l with [] => [(name, t)] | (k, u) :: l => if k =s name then (k, t) :: l else (k, u) :: put_table l name t end.

Lemma of_tables_lookup l name : of_tables l !! name = find_table l name.
Proof.
  unfold of_tables. induction l as [|[k t] l IH]; [done|]. cbn. destruct (String.eqb_spec k name) as [->|Hn].
  - by rewrite lookup_insert_eq.
  - by rewrite lookup_insert_ne.
Qed.

Lemma of_tables_put l name t : <[name := t]> (of_tables l) = of_tables (put_table l name t).
Proof.
  unfold of_tables. induction l as [|[k u] l IH]; [done|]. cbn. destruct (String.eqb_spec k name) as [->|Hn]; cbn.
  - by rewrite insert_insert_eq.
  - rewrite insert_insert_ne by done. by rewrite IH.
Qed.

Lemma put_table_other l name t k : k ≠ name → k ∉ l.*1 → k ∉ (put_table l name t).*1.
Proof.
  intros Hk. induction l as [|[k' u] l IH]; cbn.
  - intros _ Hi. by apply list_elem_of_singleton in Hi.
  - rewrite not_elem_of_cons. intros [H1 H2]. destruct (String.eqb_spec k' name); cbn; rewrite not_elem_of_cons; auto.
Qed.

Lemma put_table_names l name t : NoDup l.*1 → NoDup (put_table l name t).*1.
Proof.
  induction l as [|[k u] l IH]; cbn; [intros _; apply NoDup_singleton|]. rewrite NoDup_cons. intros [Hk Hnd].
  destruct (String.eqb_spec k name) as [->|Hn]; cbn; apply NoDup_cons; [done|]. split; [by apply put_table_other|by apply IH].
Qed.

Definition listed_index (l : Tables) (name : string) : bool :=
  existsb (λ t, existsb (λ ix, ix_name ix =s name) (tb_indexes t)) l.*2.

Lemma of_tables_index l name : NoDup l.*1 → has_index (of_tables l) name = listed_index l name.
Proof.
  intros Hnd. unfold has_index, listed_index, of_tables. apply eq_true_iff_eq. rewrite !existsb_exists.
  pose proof (map_to_list_to_map l Hnd) as Hp. split; intros (t & Ht & Hix); exists t; (split; [|done]).
  - eapply Permutation_in; [|exact Ht]. by apply fmap_Permutation.
  - eapply Permutation_in; [|exact Ht]. by apply fmap_Permutation.
Qed.

(** ** Statements *)

(** A table the order of whose rows is no question. *)
Definition small (t : Table) : bool := match tb_rows t with [] | [_] => true | _ => false end.

Lemma scan_small scan t : (∀ rows : list Row, scan rows ≡ₚ rows) → small t = true → scan (tb_rows t) = tb_rows t.
Proof.
  intros Hscan. unfold small. destruct (tb_rows t) as [|r [|r' l]]; [| |done]; intros _.
  - apply Permutation_nil_r, Hscan.
  - apply Permutation_length_1_inv. symmetry. apply Hscan.
Qed.

Definition list_alter (l : Tables) (table : string) (f : Table → res Table) : option (res (list Row * Z * Tables)) :=
  Some (match find_table l table with
  | None => Err syntax_error
  | Some t => let! t' := f t in Ok ([], 0%Z, put_table l table t')
  end).

(** The statements the migrations send, on a list of tables; [None] stands for
    what they do not need. *)
Definition list_statement (args : list SQLValue) (st : Statement) (l : Tables) : option (res (list Row * Z * Tables)) :=
  match st with
  | SSelect s =>
      t ← find_table l (fst (sel_from s));
      match sel_joins s with
      | [] =>
          if small t && names_ok args [(snd (sel_from s), column_names t)] s then
            let found := filter (λ x, selects x args (sel_where s) = true) (scopes_of id t (snd (sel_from s))) in
            Some (Ok ((λ x, eval x args <$> sel_columns s) <$>
              limited args (sel_limit s) (sel_offset s) (go_sort (order_less args (sel_order s)) found), 0%Z, l))
          else None
      | _ => None
      end
  | SInsert table columns values None =>
      t ← find_table l table;
      if forallb (λ c, existsb (String.eqb c) (column_names t)) columns && Nat.eqb (length columns) (length values)
         && forallb (expr_ok [] (length args)) values
      then Some (let! rows := insert_row table t (inserted_row t columns (eval [] args <$> values)) args None in
        Ok ([], 1%Z, put_table l table (with_rows t rows)))
      else None
  | SUpdate table sets cond =>
      t ← find_table l table;
      if forallb (λ '(c, e), existsb (String.eqb c) (column_names t) && expr_ok [(table, column_names t)] (length args) e) sets
         && cond_ok [(table, column_names t)] (length args) cond
      then Some (let! r := update_rows table t args sets cond [] (tb_rows t) 0 in
        Ok ([], r.2, put_table l table (with_rows t r.1)))
      else None
  | SCreateTable ifNotExists table items =>
      match find_table l table with
      | Some _ => if ifNotExists then Some (Ok ([], 0%Z, l)) else None
      | None => Some (Ok ([], 0%Z, put_table l table (table_of_items table items)))
      end
  | SCreateIndex unique ifNotExists name table columns cond =>
      if listed_index l name then (if ifNotExists then Some (Ok ([], 0%Z, l)) else None)
      else let ix := mkIndex name unique columns cond in
        list_alter l table (λ t,
          if negb (forallb (λ c, existsb (String.eqb c) (column_names t)) columns) then Err syntax_error
          else if unique && negb (unique_rows t ix (tb_rows t)) then Err (unique_error table ix)
          else Ok (mkTable (tb_columns t) (tb_indexes t ++ [ix]) (tb_checks t) (tb_rows t)))
  | SAddColumn ifNotExists table c => list_alter l table (λ t, add_column t ifNotExists c)
  | STableInfo table =>
      t ← find_table l table;
      Some (Ok (imap (λ i cd, [VInt (Z.of_nat i); VText (cd_name cd); VText "TEXT"; VBool (cd_notnull cd); cd_default cd; VInt 0])
        (tb_columns t), 0%Z, l))
  | SBegin => Some (Ok ([], 0%Z, l))
  | _ => None
  end.

(** What a run on a list says of a run on the database. *)
Definition res_tables {A} (r : res (A * Tables)) : res (A * Database) :=
  match r with Ok (a, l) => Ok (a, of_tables l) | Err e => Err e end.
Definition res_names {A} (r : res (A * Tables)) : Prop := match r with Ok (_, l) => NoDup l.*1 | Err _ => True end.

Lemma list_alter_sim l table f r : NoDup l.*1 → list_alter l table f = Some r →
  (let! db := alter_table (of_tables l) table f in Ok ([], 0%Z, db)) = res_tables r ∧ res_names r.
Proof.
  intros Hnd [= <-]. unfold alter_table. rewrite of_tables_lookup. destruct (find_table l table) as [t|]; [|done].
  cbn. destruct (f t) as [t'|e]; [|done]. cbn. rewrite of_tables_put. split; [done|by apply put_table_names].
Qed.

Lemma list_statement_sim scan args st l r : (∀ rows, scan rows ≡ₚ rows) → NoDup l.*1 → list_statement args st l = Some r →
  exec_statement scan args st (of_tables l) = res_tables r ∧ res_names r.
Proof.
  intros Hscan Hnd. destruct st as [s|table columns values [u|]|table sets cond| |ine table items|u ine name table columns cond|ine table c| |table|];
    cbn [list_statement exec_statement]; try discriminate.
  - intros H. apply bind_Some in H as (t & Ht & H). destruct (sel_joins s) eqn:Ej; [|done].
    destruct (small t) eqn:Es; [|done]. destruct (names_ok _ _ s) eqn:En; [|done]. cbn in H. injection H as <-.
    unfold run_select, select_ok. rewrite of_tables_lookup, Ht, Ej. destruct (sel_from s) as [table alias]. cbn in *.
    rewrite of_tables_lookup, Ht. cbn. rewrite En. unfold scopes_of. rewrite (scan_small scan t Hscan Es). by split.
  - intros H. apply bind_Some in H as (t & Ht & H). rewrite of_tables_lookup, Ht, andb_true_r. case_match; [|done].
    injection H as <-. cbn. destruct (insert_row _ _ _ _ _); [|done]. cbn. rewrite of_tables_put. split; [done|by apply put_table_names].
  - intros H. apply bind_Some in H as (t & Ht & H). rewrite of_tables_lookup, Ht. case_match; [|done].
    injection H as <-. cbn. destruct (update_rows _ _ _ _ _ _ _ _) as [[rows n]|]; [|done]. cbn.
    rewrite of_tables_put. split; [done|by apply put_table_names].
  - rewrite of_tables_lookup. destruct (find_table l table) as [t|].
    + destruct ine; [|done]. by intros [= <-].
    + intros [= <-]. rewrite of_tables_put. split; [done|by apply put_table_names].
  - rewrite of_tables_index by done. destruct (listed_index l name); [destruct ine; [by intros [= <-]|done]|].
    by apply list_alter_sim.
  - by apply list_alter_sim.
  - intros H. apply bind_Some in H as (t & Ht & H). injection H as <-. unfold table_info. rewrite of_tables_lookup, Ht. by split.
  - by intros [= <-].
Qed.

Fixpoint list_all (args : list SQLValue) (sts : list Statement) (l : Tables) : option (res (list Row * Z) * Tables) :=
  match sts with
  | [] => Some (Ok ([], 0%Z), l)
  | [st] => r ← list_statement args st l; Some (match r with Ok (rows, n, l') => (Ok (rows, n), l') | Err e => (Err e, l) end)
  | st :: sts =>
      r ← list_statement args st l;
      match r with Ok (_, _, l') => list_all args sts l' | Err e => Some (Err e, l) end
  end.

Lemma list_all_sim scan args sts l r l' : (∀ rows, scan rows ≡ₚ rows) → NoDup l.*1 → list_all args sts l = Some (r, l') →
  exec_all scan args sts (of_tables l) = (r, of_tables l') ∧ NoDup l'.*1.
Proof.
  intros Hscan. revert l. induction sts as [|st sts IH]; intros l Hnd; [by intros [= <- <-]|].
  assert (∀ o, list_statement args st l = Some o → exec_statement scan args st (of_tables l) = res_tables o ∧ res_names o) as Hst
    by (intros o; by apply list_statement_sim).
  destruct sts as [|st' sts].
  - cbn. destruct (list_statement args st l) as [o|]; [|done]. cbn. destruct (Hst o eq_refl) as [-> Hn].
    by destruct o as [[[rows n] l1]|e]; intros [= <- <-].
  - change (list_all args (st :: st' :: sts) l) with
      (list_statement args st l ≫= λ o, match o with Ok (_, _, l') => list_all args (st' :: sts) l' | Err e => Some (Err e, l) end).
    change (exec_all scan args (st :: st' :: sts) (of_tables l)) with
      (match exec_statement scan args st (of_tables l) with
       | Ok (_, _, db') => exec_all scan args (st' :: sts) db' | Err e => (Err e, of_tables l) end).
    destruct (list_statement args st l) as [o|]; [|done]. cbn [mbind option_bind]. destruct (Hst o eq_refl) as [-> Hn].
    destruct o as [[[rows n] l1]|e]; cbn [res_tables]; [by apply IH|by intros [= <- <-]].
Qed.

(** ** Actions *)

Section Actions.
Context `{HC : GoCodec} `{HD : SQLDriver} `{HL : !SQLDriverLaws}.

Definition ListM (A : Type) : Type := Tables * nat → option (res A * (Tables * nat)).

Definition Sim {A} (m : SQLM A) (m' : ListM A) : Prop :=
  ∀ l n r l' n', NoDup l.*1 → m' (l, n) = Some (r, (l', n')) → m (mkSQLConn (of_tables l) n) = (r, mkSQLConn (of_tables l') n') ∧ NoDup l'.*1.

Definition list_lift {A} (r : res A) : ListM A := λ s, Some (r, s).
Definition list_bind {A B} (m : ListM A) (k : A → ListM B) : ListM B := λ s,
  o ← m s; match o with (Ok a, s') => k a s' | (Err e, s') => Some (Err e, s') end.
Definition list_catch {A} (m : ListM A) : ListM (res A) := λ s, o ← m s; Some (Ok o.1, o.2).
Definition list_wrap {A} (text : string) (m : ListM A) : ListM A := λ s, o ← m s; Some (wrapR text o.1, o.2).
Definition list_exec {A} (text : string) (args : list SQLValue) (f : list Row * Z → A) : ListM A := λ '(l, n),
  sts ← parse_sql text; o ← list_all args sts l;
  Some (match o.1 with Ok x => Ok (f x) | Err e => Err e end, (o.2, S n)).
Fixpoint list_for {X} (l : list X) (f : X → ListM unit) : ListM unit :=
  match l with [] => list_lift (Ok tt) | x :: l => list_bind (f x) (λ _, list_for l f) end.

Lemma sim_lift {A} (r : res A) : Sim (liftM r) (list_lift r).
Proof. by intros l n r' l' n' Hnd [= <- <- <-]. Qed.
Lemma sim_bind {A B} (m : SQLM A) (k : A → SQLM B) m' k' : Sim m m' → (∀ a, Sim (k a) (k' a)) → Sim (bindM m k) (list_bind m' k').
Proof.
  intros Hm Hk l n r l' n' Hnd H. unfold list_bind in H. apply bind_Some in H as ([r1 [l1 n1]] & H1 & H).
  destruct (Hm _ _ _ _ _ Hnd H1) as [E Hnd1]. unfold bindM. rewrite E. destruct r1 as [a|e]; [by apply (Hk a)|by simplify_eq].
Qed.
Lemma sim_catch {A} (m : SQLM A) m' : Sim m m' → Sim (catchM m) (list_catch m').
Proof.
  intros Hm l n r l' n' Hnd H. unfold list_catch in H. apply bind_Some in H as ([r1 [l1 n1]] & H1 & H). simplify_eq/=.
  destruct (Hm _ _ _ _ _ Hnd H1) as [E Hnd1]. unfold catchM. by rewrite E.
Qed.
Lemma sim_wrap {A} text (m : SQLM A) m' : Sim m m' → Sim (wrapM text m) (list_wrap text m').
Proof.
  intros Hm l n r l' n' Hnd H. unfold list_wrap in H. apply bind_Some in H as ([r1 [l1 n1]] & H1 & H). simplify_eq/=.
  destruct (Hm _ _ _ _ _ Hnd H1) as [E Hnd1]. unfold wrapM. rewrite E. by destruct r1.
Qed.
Lemma sim_for {X} (xs : list X) f f' : (∀ x, Sim (f x) (f' x)) → Sim (forM xs f) (list_for xs f').
Proof. intros Hf. induction xs as [|x xs IH]; [apply sim_lift|]. cbn. by apply sim_bind. Qed.

Lemma sim_run text args l n r l' n' : NoDup l.*1 → list_exec text args id (l, n) = Some (r, (l', n')) →
  run_sql text args (mkSQLConn (of_tables l) n) = (r, mkSQLConn (of_tables l') n') ∧ NoDup l'.*1.
Proof.
  intros Hnd H. unfold list_exec in H. apply bind_Some in H as (sts & Hp & H). apply bind_Some in H as ([r1 l1] & H1 & H).
  destruct (sql_run_meaning n text args (of_tables l) sts Hp) as (scan & Hscan & Hr). unfold run_sql. cbn. rewrite Hr.
  destruct (list_all_sim scan args sts l r1 l1 Hscan Hnd H1) as [-> Hnd1]. simplify_eq/=. by destruct r1.
Qed.
Lemma sim_view {A} text args (f : list Row * Z → A) : Sim (let* r := run_sql text args in retM (f r)) (list_exec text args f).
Proof.
  intros l n r l' n' Hnd H. unfold list_exec in H. apply bind_Some in H as (sts & Hp & H). apply bind_Some in H as ([r1 l1] & H1 & H).
  destruct (sim_run text args l n r1 l1 (S n) Hnd) as [E Hnd1].
  { unfold list_exec. rewrite Hp. cbn. rewrite H1. by destruct r1. }
  unfold bindM. rewrite E. simplify_eq/=. by destruct r1.
Qed.
Lemma sim_exec text args : Sim (ExecContext text args) (list_exec text args snd).
Proof. apply sim_view. Qed.
Lemma sim_query text args : Sim (QueryContext text args) (list_exec text args fst).
Proof. apply sim_view. Qed.
Lemma sim_now : Sim sqlNow (λ '(l, n), Some (Ok (sql_now n), (l, S n))).
Proof. by intros l n r l' n' Hnd [= <- <- <-]. Qed.
Lemma sim_rows z : Sim (affectedRows z) (λ '(l, n), Some (Ok z, (l, S n))).
Proof. intros l n r l' n' Hnd [= <- <- <-]. unfold affectedRows. by rewrite sql_no_fault. Qed.

Lemma sim_if {A} (b : bool) (m1 m2 : SQLM A) m1' m2' : Sim m1 m1' → Sim m2 m2' → Sim (if b then m1 else m2) (if b then m1' else m2').
Proof. by destruct b. Qed.
(** Steps that the run on an empty database does not reach. *)
Lemma sim_none {A} (m : SQLM A) : Sim m (λ _, None).
Proof. intros l n r l' n' _. done. Qed.

Lemma sim_backfill i h events : Sim (backfillLoop i h events) (match events with [] => list_lift (Ok h) | _ => λ _, None end).
Proof. destruct events; [apply sim_lift|apply sim_none]. Qed.

Lemma sim_ret {A} (a : A) : Sim (retM a) (list_lift (Ok a)).
Proof. apply sim_lift. Qed.

(** The check of a version finds none. *)
Lemma sim_check version checksum : Sim (checkSchemaMigration version checksum) (λ s,
  o ← list_exec "
SELECT checksum, CASE WHEN dirty THEN 1 ELSE 0 END
FROM schema_migrations
WHERE version = $1" [VInt version] fst s;
  match o with (Ok [], s') => Some (Ok false, s') | _ => None end).
Proof.
  intros l n r l' n' Hnd H. apply bind_Some in H as ([r1 [l1 n1]] & H1 & H).
  destruct (sim_query _ _ _ _ _ _ _ Hnd H1) as [E Hnd1]. destruct r1 as [[|row rows]|e]; [|done..]. simplify_eq.
  unfold checkSchemaMigration, QueryRowContext, bindM, catchM. by rewrite E.
Qed.

Lemma sim_migrationTx {A} driver (body : SQLM A) begin' body' : Sim (beginMigrationTx driver) begin' → Sim body body' →
  Sim (migrationTx driver body) (λ s,
    o ← list_bind begin' (λ _, list_bind body' (λ a, list_bind (λ '(l, n), Some (Ok 0%Z, (l, S n))) (λ _, list_lift (Ok a)))) s;
    match o with (Ok a, s') => Some (Ok a, s') | _ => None end).
Proof.
  intros Hbegin Hbody l n r l' n' Hnd H. apply bind_Some in H as ([r1 [l1 n1]] & H1 & H).
  assert (Sim (do* beginMigrationTx driver in let* a := body in do* Commit in retM a)
    (list_bind begin' (λ _, list_bind body' (λ a, list_bind (λ '(l, n), Some (Ok 0%Z, (l, S n))) (λ _, list_lift (Ok a)))))) as Hs.
  { apply sim_bind; [done|]. intros _. apply sim_bind; [done|]. intros a. unfold Commit.
    intros k m r' k' m' Hk Hm. destruct (sim_bind (affectedRows 0) (λ _, retM a) _ _ (sim_rows 0) (λ _, sim_ret a) k m r' k' m' Hk Hm) as [<- ?].
    split; [|done]. unfold bindM. by destruct (affectedRows 0 _) as [[]]. }
  destruct (Hs _ _ _ _ _ Hnd H1) as [E Hnd1]. unfold migrationTx. rewrite E. by destruct r1; simplify_eq.
Qed.

(** ** The migrations on an empty database *)

Ltac sim_step := first
  [ apply sim_check | apply sim_backfill | apply sim_now | apply sim_exec | apply sim_query | apply sim_rows | apply sim_ret | apply sim_lift
  | eapply sim_wrap | eapply sim_bind; [|intros ?] | eapply sim_if | eapply sim_for; intros ? ].

Definition list_ensure (table name definition : string) : ListM unit :=
  list_bind (list_bind (list_wrap ("inspect sqlite table " +:+ table) (list_exec ("PRAGMA table_info(" +:+ table +:+ ")") [] fst))
    (λ rows, list_lift (wrapR ("scan sqlite table " +:+ table) (columnListed rows name))))
    (λ exists_ : bool, if exists_ then list_lift (Ok tt)
      else list_bind (list_wrap ("add sqlite column " +:+ table +:+ "." +:+ name)
        (list_exec ("ALTER TABLE " +:+ table +:+ " ADD COLUMN " +:+ definition) [] snd)) (λ _, list_lift (Ok tt))).
Lemma sim_ensure table name definition : Sim (ensureSQLiteColumn table name definition) (list_ensure table name definition).
Proof. unfold ensureSQLiteColumn, sqliteColumnExists, list_ensure. repeat sim_step. Qed.
Lemma sim_columns xs : Sim (forM xs (λ '(table, name, definition), ensureSQLiteColumn table name definition))
  (list_for xs (λ '(table, name, definition), list_ensure table name definition)).
Proof. apply sim_for. intros [[table name] definition]. apply sim_ensure. Qed.
Lemma sim_columns_of table xs : Sim (forM xs (λ '(name, definition), ensureSQLiteColumn table name definition))
  (list_for xs (λ '(name, definition), list_ensure table name definition)).
Proof. apply sim_for. intros [name definition]. apply sim_ensure. Qed.

Ltac sim_all := repeat first [apply sim_columns | apply sim_columns_of | apply sim_ensure | sim_step].

(** The migrations as an action on lists of tables. *)
Definition migrations_on_lists : { m' | Sim (ApplyInitialMigration "sqlite") m' }.
Proof.
  eexists. unfold ApplyInitialMigration. sim_all. eapply sim_migrationTx.
  { unfold beginMigrationTx. cbn [String.eqb Ascii.eqb Bool.eqb]. unfold beginSQLiteMigrationTx. sim_all. }
  unfold createSchemaMigrationsTable, insertSchemaMigration, applyCompatibilityMigrations, markSchemaMigrationClean,
    applyAuditHashChainMigration, backfillAuditHashChain, finalizeAuditHashChainSchema.
  cbn [String.eqb Ascii.eqb Bool.eqb]. unfold applySQLiteCompatibilityMigrations. sim_all.
Defined.

Lemma migrated_tables n : ∃ k, match proj1_sig migrations_on_lists ([], n) with
  | Some (Ok _, (l, _)) => find_table l <$> (schema_tables 0).*1
  | _ => []
  end = Some <$> (schema_tables (sql_now k)).*2.
Proof. eexists. lazy -[formatSQLTime migrationChecksum sql_now]. reflexivity. Qed.

Lemma find_all l names tables : find_table l <$> names = Some <$> tables →
  Forall (λ '(name, table), of_tables l !! name = Some table) (zip names tables).
Proof.
  revert tables. induction names as [|name names IH]; intros [|table tables]; try done. cbn. intros [= H1 H2].
  constructor; [by rewrite of_tables_lookup|by apply IH].
Qed.

Lemma migrations_succeed (n : nat) (Hclock : ∀ k, sqlTimeOK (sql_now k) = true) :
  ∃ c, ApplyInitialMigration "sqlite" (mkSQLConn ∅ n) = (Ok tt, c) ∧ repr NewMemoryStore (sc_db c).
Proof.
  destruct (migrated_tables n) as [k Hk]. pose proof (proj2_sig migrations_on_lists [] n) as Hsim.
  destruct (proj1_sig migrations_on_lists ([], n)) as [[[[]|e] [l n']]|]; [|done..].
  destruct (Hsim (Ok tt) l n' NoDup_nil_2 eq_refl) as [E _]. eexists. split; [exact E|].
  apply (repr_schema _ (sql_now k)); [done|]. cbn. apply find_all in Hk.
  by replace (zip (schema_tables 0).*1 (schema_tables (sql_now k)).*2) with (schema_tables (sql_now k)) in Hk.
Qed.

(** C9: The migrations build the schema the repository works on: run on an
    empty SQLite database, with any driver that gives the statements their
    meaning, they succeed and leave a database that represents the empty
    in-memory store: every table with the columns, keys and unique indexes that
    the refinement relies on, and the audit chain at its start. *)
Theorem migrated_database (n : nat) (Hclock : ∀ k, sqlTimeOK (sql_now k) = true) :
  ∃ c, ApplyInitialMigration "sqlite" (mkSQLConn ∅ n) = (Ok tt, c) ∧ repr NewMemoryStore (sc_db c).
Proof. by apply migrations_succeed. Qed.
End Actions.

Lemma migrated_database_witness :
  ∃ c, ApplyInitialMigration "sqlite" (mkSQLConn ∅ 0) = (Ok tt, c) ∧ repr NewMemoryStore (sc_db c).
Proof. apply migrated_database. intros k. vm_compute. reflexivity. Defined.
