(* ===== verification/Service.v ===== *)
(** * The service: environment, transactions, audit and outbox records
    ([lifecycle/service.go], shared part)

    [Env] gathers what a [Service] is built from and what it reads from
    outside: the clock, the identifier generator, random bytes, the core
    signer, the key provider and the configuration. A call to the outside
    consumes one tick of [World], so two calls may answer differently; every
    theorem holds for all environments. [World] also holds the repository.
    Service methods are [Svc] actions; [WithinTx] is [MemoryStore.WithinTx]. *)

From Stdlib Require Import Ascii.
From S2P Require Import Prelude GoLib NetIP Crypto Domain Core AuditChain Store StoreInv.

(** ** Request context *)

Record AuditRequestMetadata := mkAuditRequestMetadata {
  arm_RequestID : string;
  arm_Traceparent : string;
  arm_ClientIP : string;
  arm_UserAgent : string;
  arm_AuthMethod : string;
  arm_StartedAt : Time;
}.

Record APIKeyAuditMetadata := mkAPIKeyAuditMetadata {
  akm_ID : string;
  akm_Name : string;
  akm_Actor : string;
  akm_Fingerprint : string;
  akm_Scopes : list APIKeyScope;
}.

Record AuthorizationAuditMetadata := mkAuthorizationAuditMetadata {
  aam_Outcome : string;
  aam_DecisionID : string;
  aam_ReasonCode : string;
  aam_PolicyRevision : string;
  aam_EvaluatorStatus : string;
}.

(** The values a [context.Context] may carry. *)
Record CallContext := mkCallContext {
  ctx_request : option AuditRequestMetadata;
  ctx_apiKey : option APIKeyAuditMetadata;
  ctx_authorization : option AuthorizationAuditMetadata;
}.

Definition policyValidationEvidenceSchema : string := "anopki.policy.validation.v1".

Record policyValidationEvidenceInput := mkPolicyValidationEvidenceInput {
  pvi_Schema : string;
  pvi_IdentityID : string;
  pvi_IdentityAllowedDNSNames : list string;
  pvi_IdentityAllowedIPAddresses : list string;
  pvi_IssuerID : string;
  pvi_ProfileID : string;
  pvi_ProfileValiditySeconds : Z;
  pvi_ProfilePublicTLS : bool;
  pvi_ProfileAllowedDNSPatterns : list string;
  pvi_ProfileAllowedIPRanges : list string;
  pvi_ProfileAllowedKeyAlgs : list string;
  pvi_ProfileMinKeySizeBits : Z;
  pvi_ProfileAllowedSignatureAlgs : list string;
  pvi_RequestedSubject : string;
  pvi_RequestedDNSNames : list string;
  pvi_RequestedIPAddresses : list string;
  pvi_RequestedNotAfter : string;
  pvi_CSRReference : string;
}.

Record PublicTLSLintRequest := mkPublicTLSLintRequest {
  plr_Enrollment : Enrollment;
  plr_Profile : CertificateProfile;
  plr_CSRInfo : CSRInfo;
}.

(** ** CAA policy *)

Definition CAADNSSECStatus := string.
Definition CAADNSSECSecure : CAADNSSECStatus := "secure".
Definition CAADNSSECInsecure : CAADNSSECStatus := "insecure".
Definition CAADNSSECBogus : CAADNSSECStatus := "bogus".
Definition CAADNSSECIndeterminate : CAADNSSECStatus := "indeterminate".

Record CAARecord := mkCAARecord { caa_Flag : Z; caa_Tag : string; caa_Value : string }.
Record CAALookupResult := mkCAALookupResult {
  clr_Records : list CAARecord;
  clr_DNSSECStatus : CAADNSSECStatus;
}.
Record PublicTLSCAAPolicy := mkPublicTLSCAAPolicy {
  cap_IssuerDomain : string;
  cap_AccountURI : string;
  cap_ValidationMethod : string;
  cap_AllowDNSSECIndeterminate : bool;
  cap_Lookup : nat → string → res CAALookupResult;
}.

(** ** Environment *)

Class Env := {
  env_codec :: GoCodec;
  env_unicode :: GoUnicode;
  env_url :: GoURL;
  (** JSON encodings of two further structs *)
  json_policy_input : policyValidationEvidenceInput → option string;
  json_evidence : SigningEvidence → option string;
  json_evidence_decode : string → option SigningEvidence;
  (** [Clock], [IDGenerator], [rand.Read], by tick *)
  clock_Now : nat → Time;
  idgen_NewID : nat → string;
  rand_bytes : nat → res (list Z);
  (** [time.Since(t).Milliseconds()] *)
  since_ms : Time → Z;
  (** [CertificateIssuer], the core signer *)
  issuer_Issue : nat → IssueRequest → res IssueResult;
  issuer_InspectCSR : nat → string → res CSRInfo;
  issuer_GenerateCRL : nat → GenerateCRLRequest → res GenerateCRLResult;
  issuer_InspectOCSPIssuer : nat → string → string → res OCSPIssuerInfo;
  issuer_ValidateOCSPResponder : nat → string → string → res ValidateOCSPResponderResult;
  issuer_InspectOCSP : nat → string → res OCSPRequestInfo;
  issuer_GenerateOCSPResponse : nat → GenerateOCSPResponseRequest → res GenerateOCSPResponseResult;
  (** [keyref.Provider] *)
  key_CheckReady : nat → string → res ProviderInfo;
  (** [ACMEHTTP01Verifier] and [PublicTLSLintHook] *)
  acme_VerifyHTTP01 : nat → string → string → string → res unit;
  lint_CheckPublicTLS : option (nat → PublicTLSLintRequest → res unit);
  (** the error text a failed call records *)
  error_text : goerr → string;
  (** fields of [Service] *)
  apiKeyPepper : string;
  productionPolicy : bool;
  publicTLSMaxValidityOverride : Duration;
  publicTLSCAAPolicy : option PublicTLSCAAPolicy;
  (** the context of the call *)
  env_ctx : CallContext;
}.

(** The same service called with another context. *)
Definition with_ctx (c : CallContext) (E : Env) : Env := {|
  env_codec := @env_codec E;
  env_unicode := @env_unicode E;
  env_url := @env_url E;
  json_policy_input := @json_policy_input E;
  json_evidence := @json_evidence E;
  json_evidence_decode := @json_evidence_decode E;
  clock_Now := @clock_Now E;
  idgen_NewID := @idgen_NewID E;
  rand_bytes := @rand_bytes E;
  since_ms := @since_ms E;
  issuer_Issue := @issuer_Issue E;
  issuer_InspectCSR := @issuer_InspectCSR E;
  issuer_GenerateCRL := @issuer_GenerateCRL E;
  issuer_InspectOCSPIssuer := @issuer_InspectOCSPIssuer E;
  issuer_ValidateOCSPResponder := @issuer_ValidateOCSPResponder E;
  issuer_InspectOCSP := @issuer_InspectOCSP E;
  issuer_GenerateOCSPResponse := @issuer_GenerateOCSPResponse E;
  key_CheckReady := @key_CheckReady E;
  acme_VerifyHTTP01 := @acme_VerifyHTTP01 E;
  lint_CheckPublicTLS := @lint_CheckPublicTLS E;
  error_text := @error_text E;
  apiKeyPepper := @apiKeyPepper E;
  productionPolicy := @productionPolicy E;
  publicTLSMaxValidityOverride := @publicTLSMaxValidityOverride E;
  publicTLSCAAPolicy := @publicTLSCAAPolicy E;
  env_ctx := c;
|}.

Lemma with_ctx_id (E : Env) : with_ctx (@env_ctx E) E = E.
Proof. by destruct E. Qed.

(** ** World *)

Record World := mkWorld { w_store : MemoryStore; w_tick : nat }.

Definition Svc (A : Type) := GoM World A.

(** A repository call. *)
Definition repo {A} (op : Mem A) : Svc A := λ w,
  let '(r, s) := op (w_store w) in (r, mkWorld s (w_tick w)).

(** A call to the outside. *)
Definition outside {A} (f : nat → res A) : Svc A := λ w,
  (f (w_tick w), mkWorld (w_store w) (S (w_tick w))).

(** The store is restored when [fn] fails; time has passed anyway. *)
Definition WithinTx {A} (fn : Svc A) : Svc A := λ w,
  match fn w with
  | (Ok a, w') => (Ok a, w')
  | (Err e, w') => (Err e, mkWorld (w_store w) (w_tick w'))
  end.

(** [errors.Is(err, target)] on the result of a call. *)
Definition failed_with {A} (r : res A) (target : DomainErr) : bool :=
  match r with Err e => errors_Is e target | Ok _ => false end.

Section Environment.
Context `{Env}.

Definition now_ : Svc Time := outside (λ t, Ok (clock_Now t)).
Definition newID : Svc string := outside (λ t, Ok (idgen_NewID t)).

(** ** Audit fields *)

(** Pairs with an empty key or an empty value are left out. *)
Definition auditFields (pairs : list (string * string)) : Fields :=
  fold_left (λ fields '(key, value),
    if (key <>s "") && (value <>s "") then <[key := JStr value]> fields else fields) pairs ∅.

Definition addStatusTransition (fields : Fields) (previous next : string) : Fields :=
  <["new_status" := JStr next]> (<["previous_status" := JStr previous]> fields).

Definition addPolicyDecisionAuditFields (fields : Fields) (decision reason : string)
    (refs : list string) : Fields :=
  let fields := <["policy_decision_reason" := JStr reason]>
    (<["policy_decision" := JStr decision]> fields) in
  match refs with
  | [] => fields
  | _ => <["policy_validation_evidence_refs" := JStrs refs]> fields
  end.

Definition apiKeyScopesToStrings (scopes : list APIKeyScope) : list string := scopes.

Definition apiKeyAuditFields (key : APIKey) : Fields :=
  <["api_key_scopes" := JStrs (apiKeyScopesToStrings (APIKey_Scopes key))]>
    (auditFields [("api_key_id", APIKey_ID key); ("api_key_name", APIKey_Name key);
                  ("api_key_actor", APIKey_Actor key)]).

Definition coreSigningAuditFields (evidence : SigningEvidence) (fields : Fields) : Fields :=
  let set key v (m : Fields) := <[key := v]> m in
  fields
  |> set "key_provider_id" (JStr (SigningEvidence_ProviderID evidence))
  |> set "key_provider_class" (JStr (SigningEvidence_ProviderClass evidence))
  |> set "key_provider_readiness" (JStr (SigningEvidence_ProviderReadiness evidence))
  |> set "key_provider_exportability" (JStr (SigningEvidence_ProviderExportability evidence))
  |> set "key_provider_reference_class" (JStr (SigningEvidence_ReferenceClass evidence))
  |> set "key_provider_operation" (JStr (SigningEvidence_Operation evidence))
  |> set "key_provider_key_algorithm" (JStr (SigningEvidence_KeyAlgorithm evidence))
  |> set "key_provider_signature_algorithm"
       (JStr (SigningEvidence_RequestedSignatureAlgorithm evidence))
  |> set "key_provider_binding_verified" (JBool (SigningEvidence_IssuerBindingVerified evidence))
  |> set "key_provider_fallback_used" (JBool (SigningEvidence_FallbackUsed evidence))
  |> set "key_provider_result_code" (JStr (SigningEvidence_ResultCode evidence))
  |> set "key_provider_evidence_source" (JStr (SigningEvidence_EvidenceSource evidence))
  |> set "key_provider_signing_proven" (JBool true).

Definition legacyKeyProviderAuditFields (keyRef : string) (fields : Fields) : Fields :=
  let set key v (m : Fields) := <[key := v]> m in
  fields
  |> set "key_provider_class" (JStr (Class_ keyRef))
  |> set "key_provider_exportability" (JStr (Exportability keyRef))
  |> set "key_provider_evidence_source" (JStr "legacy_key_ref_classification")
  |> set "key_provider_signing_proven" (JBool false).

Definition certificateExpirationAuditFields (certificate : Certificate)
    (warningWindow : Duration) : Fields :=
  <["warning_window_seconds" := JInt (float64_trunc (Seconds warningWindow))]>
    (<["not_after" := JStr (format_RFC3339 (Certificate_NotAfter certificate))]>
      (auditFields [("identity_id", Certificate_IdentityID certificate);
                    ("issuer_id", Certificate_IssuerID certificate);
                    ("enrollment_id", Certificate_EnrollmentID certificate);
                    ("certificate_id", Certificate_ID certificate);
                    ("serial_number", Certificate_SerialNumber certificate);
                    ("profile_id", Certificate_CertificateProfileID certificate)])).

(** ** Audit metadata *)

Definition decision_char (a : ascii) : bool :=
  let n := nat_of_ascii a in
  (Nat.leb 97 n && Nat.leb n 122) || (Nat.leb 65 n && Nat.leb n 90)
  || (Nat.leb 48 n && Nat.leb n 57) || contains_byte a "-._:/@+".

(** A non-ASCII rune is none of the accepted characters, so the bytes decide. *)
Definition auditDecisionReference (value : string) : string :=
  let value := TrimSpace value in
  if (value =s "") || Nat.ltb 128 (String.length value) then ""
  else if forallb decision_char (String.list_ascii_of_string value) then value else "".

Definition auditMetadataKeySensitive (key : string) : bool :=
  let key := ToLower key in
  Contains key "secret" || Contains key "token" || Contains key "password"
  || Contains key "private_key".

Definition auditMetadataValue (key : string) (value : JV) : JV :=
  if auditMetadataKeySensitive key then JStr "[redacted]" else value.

(** [if v != "" { metadata[key] = v }] *)
Definition setIfNonEmpty (key value : string) (m : Fields) : Fields :=
  if value <>s "" then <[key := JStr value]> m else m.

Definition requestMetadataFields (r : AuditRequestMetadata) (m : Fields) : Fields :=
  let m := m |> setIfNonEmpty "request_id" (arm_RequestID r)
             |> setIfNonEmpty "traceparent" (arm_Traceparent r)
             |> setIfNonEmpty "client_ip" (arm_ClientIP r)
             |> setIfNonEmpty "user_agent" (arm_UserAgent r)
             |> setIfNonEmpty "auth_method" (arm_AuthMethod r) in
  if negb (IsZero (arm_StartedAt r)) then <["elapsed_ms" := JInt (since_ms (arm_StartedAt r))]> m else m.

Definition authorizationMetadataFields (a : AuthorizationAuditMetadata) (m : Fields) : Fields :=
  m |> setIfNonEmpty "authorization_outcome" (auditDecisionReference (aam_Outcome a))
    |> setIfNonEmpty "authorization_decision_id" (auditDecisionReference (aam_DecisionID a))
    |> setIfNonEmpty "authorization_reason_code" (auditDecisionReference (aam_ReasonCode a))
    |> setIfNonEmpty "authorization_policy_revision" (auditDecisionReference (aam_PolicyRevision a))
    |> setIfNonEmpty "authorization_evaluator_status" (auditDecisionReference (aam_EvaluatorStatus a)).

Definition apiKeyMetadataFields (k : APIKeyAuditMetadata) (m : Fields) : Fields :=
  let m := m |> setIfNonEmpty "api_key_id" (akm_ID k)
             |> setIfNonEmpty "api_key_name" (akm_Name k)
             |> setIfNonEmpty "api_key_actor" (akm_Actor k)
             |> setIfNonEmpty "api_key_fingerprint" (akm_Fingerprint k) in
  match akm_Scopes k with
  | [] => m
  | scopes => <["api_key_scopes" := JStrs (apiKeyScopesToStrings scopes)]> m
  end.

(** The map [auditMetadataJSON] encodes. *)
Definition auditMetadata (fields : Fields) (resultCode errorCode : string) : Fields :=
  let m := map_imap (λ key value, Some (auditMetadataValue key value)) fields in
  let m := <["result_code" := JStr resultCode]> m in
  let m := setIfNonEmpty "error_code" errorCode m in
  let m := match ctx_request env_ctx with Some r => requestMetadataFields r m | None => m end in
  let m := match ctx_authorization env_ctx with
           | Some a => authorizationMetadataFields a m | None => m end in
  match ctx_apiKey env_ctx with Some k => apiKeyMetadataFields k m | None => m end.

Definition auditMetadataJSON (fields : Fields) (resultCode errorCode : string) : string :=
  default "{}" (json_fields (auditMetadata fields resultCode errorCode)).

(** ** Recording *)

Definition createAuditEventWithResult (actor action resourceType resourceID : string)
    (createdAt : Time) (fields : Fields) (resultCode errorCode : string) : Svc unit :=
  let* id := newID in
  repo (CreateAuditEvent (mkAuditEvent id 0 actor action resourceType resourceID
    (auditMetadataJSON fields resultCode errorCode) "" "" "" createdAt)).

Definition createAuditEvent (actor action resourceType resourceID : string)
    (createdAt : Time) (fields : Fields) : Svc unit :=
  createAuditEventWithResult actor action resourceType resourceID createdAt fields "ok" "".

Definition defaultOutboxMaxAttempts : Z := 5.

Definition createOutboxMessage (messageType : string) (createdAt : Time) (fields : Fields)
  : Svc unit :=
  let payload : Fields := <["event_type" := JStr messageType]> fields in
  match json_fields payload with
  | None => failM (EText "json: unsupported value")
  | Some encoded =>
      let* id := newID in
      repo (CreateOutboxMessage (mkOutboxMessage id messageType encoded OutboxPending createdAt
        zero_time 0 defaultOutboxMaxAttempts "" createdAt createdAt))
  end.

Definition addIdentityDeploymentTarget (identityID : string) (fields : Fields) : Svc Fields :=
  let* r := catchM (repo (GetIdentity identityID)) in
  match r with
  | Err e => if errors_Is e ErrIdentityNotFound then retM fields else failM e
  | Ok identity =>
      retM (setIfNonEmpty "deployment_target" (Identity_DeploymentTarget identity) fields)
  end.
End Environment.
