(* ===== verification/Policy.v ===== *)
(** * Request validation and certificate policy ([lifecycle/service.go])

    The checks that decide whether a request is accepted: the shape of each
    request, the profile's extension rules and public-TLS validity ceiling, the
    CSR rules, the DNS and IP restrictions of profile and identity, and the
    evidence references recorded for the decision. *)

From Stdlib Require Import Ascii.
From S2P Require Import Prelude GoLib Crypto Domain Core NetIP Requests AuditChain Store.
From S2P Require Import StoreInv Service.

Definition maxCSRSANs : nat := 100.

(** ** Public TLS ceilings *)

Record Ceiling := mkCeiling { ceiling_start : Time; ceiling_max : Duration }.

Definition publicTLSValidityCeilingSchedule : list Ceiling :=
  [mkCeiling (DateUTC 2026 3 15) (200 * 24 * Hour);
   mkCeiling (DateUTC 2027 3 15) (100 * 24 * Hour);
   mkCeiling (DateUTC 2029 3 15) (47 * 24 * Hour)].

Definition publicTLSValidationReuseCeilingSchedule : list Ceiling :=
  [mkCeiling (DateUTC 2026 3 15) (200 * 24 * Hour);
   mkCeiling (DateUTC 2027 3 15) (100 * 24 * Hour);
   mkCeiling (DateUTC 2029 3 15) (10 * 24 * Hour)].

(** The loop over a schedule: the last entry that has started, or the first. *)
Definition scheduleCeiling (schedule : list Ceiling) (now : Time) : Duration :=
  fold_left (λ maxValidity ceiling,
    if negb (Before now (ceiling_start ceiling)) then ceiling_max ceiling else maxValidity)
    schedule (from_option ceiling_max 0%Z (head schedule)).

Definition publicTLSValidityCeiling (now : Time) (override : Duration) : Duration :=
  if Z.ltb 0 override then override else scheduleCeiling publicTLSValidityCeilingSchedule now.

Definition publicTLSValidationReuseCeiling (now : Time) : Duration :=
  scheduleCeiling publicTLSValidationReuseCeilingSchedule now.

(** [time.Duration(n) * time.Second] on 64 bits. *)
Definition secondsToDuration (n : Z) : Duration := wrap64 (n * Second).

(** ** String helpers *)

Definition string_le (a b : string) : Prop := (b <s a) = false.
#[global] Instance string_le_dec a b : Decision (string_le a b).
Proof. unfold string_le. apply _. Defined.

(** [sort.Strings]: equal strings are indistinguishable, so the order is unique. *)
Definition sortedStrings (values : list string) : list string := merge_sort string_le values.

Definition sameStringSet (left right : list string) : bool :=
  Nat.eqb (length left) (length right)
  && forallb (λ '(a, b), a =s b) (zip (sortedStrings left) (sortedStrings right)).

Definition valueAllowedByList (value : string) (allowed : list string) : bool :=
  match allowed with
  | [] => true
  | _ =>
      let value := TrimSpace value in
      if value =s "" then false
      else existsb (λ candidate, TrimSpace candidate =s value) allowed
  end.

Definition oneOf (value : string) (values : list string) : bool := existsb (λ v, v =s value) values.

Section Policy.
Context `{Env}.

Definition normalizeAlgorithm (value : string) : string := ToLower (TrimSpace value).

Definition normalizeStringList (values : list string) : list string := normalizeAlgorithm <$> values.

Definition isSupportedKeyAlgorithm (value : string) : bool :=
  oneOf (normalizeAlgorithm value) ["rsa"; "ecdsa"; "ed25519"].

Definition isSupportedSignatureAlgorithm (value : string) : bool :=
  oneOf (normalizeAlgorithm value)
    ["sha256"; "sha384"; "sha512"; "rsa_with_sha256"; "rsa_with_sha384"; "rsa_with_sha512";
     "ecdsa_with_sha256"; "ecdsa_with_sha384"; "ecdsa_with_sha512"; "ed25519"].

Definition stringInList (value : string) (allowed : list string) : bool :=
  let value := normalizeAlgorithm value in
  existsb (λ candidate, normalizeAlgorithm candidate =s value) allowed.

(** ** Enumerations *)

Definition isValidIdentityType (t : IdentityType) : bool :=
  oneOf t [IdentityUser; IdentityMachine; IdentityService; IdentityIoTDevice; IdentityWorkload].
Definition isValidIssuerKind (kind : IssuerKind) : bool := oneOf kind [IssuerRootCA; IssuerIntermediateCA].
Definition isValidOutboxMessageStatus (status : OutboxMessageStatus) : bool :=
  oneOf status [OutboxPending; OutboxProcessing; OutboxCompleted; OutboxFailed; OutboxDeadLetter].
Definition isValidEnrollmentStatus (status : EnrollmentStatus) : bool :=
  oneOf status [EnrollmentPending; EnrollmentApproved; EnrollmentRejected; EnrollmentIssued;
                EnrollmentCanceled].
Definition isValidCertificateStatus (status : CertificateStatus) : bool :=
  oneOf status [CertificateValid; CertificateSuspended; CertificateRevoked; CertificateExpired].
Definition isValidRevocationReason (reason : RevocationReason) : bool :=
  oneOf reason [RevocationKeyCompromise; RevocationCACompromise; RevocationAffiliationChanged;
    RevocationSuperseded; RevocationCessationOfOperation; RevocationPrivilegeWithdrawn;
    RevocationUnspecified].

Definition identityCompletenessWarnings (identity : Identity) : list string :=
  (if isBlank (Identity_Owner identity) then ["missing_owner"] else []) ++
  (if isBlank (Identity_Team identity) then ["missing_team"] else []) ++
  (if isBlank (Identity_Service identity) then ["missing_service"] else []).

(** ** Requests *)

Definition validateSupportedSigningKeyRef (ref : string) : res unit :=
  check_not (Class_ ref <>s ClassFile) ErrInvalidRequest.

Definition validateCreateIdentityRequest (req : CreateIdentityRequest) : res unit :=
  do! check_not (negb (isValidIdentityType (CreateIdentityRequest_Type req))
                 || isBlank (CreateIdentityRequest_Name req)) ErrInvalidRequest in
  check_not (productionPolicy
    && (isBlank (CreateIdentityRequest_Owner req) || isBlank (CreateIdentityRequest_Team req)
        || isBlank (CreateIdentityRequest_Service req))) ErrInvalidRequest.

Definition validateCreateIssuerRequest (req : CreateIssuerRequest) : res unit :=
  do! check_not (isBlank (CreateIssuerRequest_Name req)
                 || negb (isValidIssuerKind (CreateIssuerRequest_Kind req))
                 || isBlank (CreateIssuerRequest_CertificatePEM req)
                 || isBlank (CreateIssuerRequest_KeyRef req)) ErrInvalidRequest in
  do! check_not (productionPolicy && (Class_ (CreateIssuerRequest_KeyRef req) =s ClassFile))
        ErrInvalidRequest in
  do! validateSupportedSigningKeyRef (CreateIssuerRequest_KeyRef req) in
  do! check_not ((CreateIssuerRequest_Kind req =s IssuerRootCA)
                 && negb (isBlank (CreateIssuerRequest_ParentIssuerID req))) ErrInvalidRequest in
  for_checks (CreateIssuerRequest_CRLDistributionPoints req)
    (λ dp, check_not (isBlank dp) ErrInvalidRequest).

Definition validateCertificateProfileIssuerTransitionRequest
    (req : TransitionCertificateProfileIssuerRequest) : res unit :=
  do! check_not (isBlank (TransitionCertificateProfileIssuerRequest_ProfileID req)
                 || isBlank (TransitionCertificateProfileIssuerRequest_CurrentIssuerID req)
                 || isBlank (TransitionCertificateProfileIssuerRequest_NextIssuerID req)
                 || (TransitionCertificateProfileIssuerRequest_CurrentIssuerID req
                     =s TransitionCertificateProfileIssuerRequest_NextIssuerID req))
        ErrInvalidRequest in
  do! check_not ((TransitionCertificateProfileIssuerRequest_Transition req
                    <>s CertificateProfileIssuerRollover)
                 && (TransitionCertificateProfileIssuerRequest_Transition req
                    <>s CertificateProfileIssuerRollback)) ErrInvalidRequest in
  let reason := TrimSpace (TransitionCertificateProfileIssuerRequest_Reason req) in
  check_not ((reason =s "") || Nat.ltb 256 (String.length reason)
             || contains_byte (ascii_of_nat 13) reason || contains_byte (ascii_of_nat 10) reason)
    ErrInvalidRequest.

Definition validateCertificateProfileExtensionCombination (req : CreateCertificateProfileRequest)
  : res unit :=
  if negb (BasicConstraintsPolicy_CA (CreateCertificateProfileRequest_BasicConstraints req)) then
    for_checks (StringListExtensionPolicy_Values (CreateCertificateProfileRequest_KeyUsage req))
      (λ usage, check_not (oneOf (normalizeAlgorithm usage) ["key_cert_sign"; "crl_sign"])
                  ErrInvalidRequest)
  else
    for_checks (StringListExtensionPolicy_Values
                  (CreateCertificateProfileRequest_ExtendedKeyUsage req))
      (λ usage, check_not (oneOf (normalizeAlgorithm usage)
         ["server_auth"; "client_auth"; "code_signing"; "email_protection"; "time_stamping";
          "ocsp_signing"]) ErrInvalidRequest).

Definition validateCreateCertificateProfileRequest (req : CreateCertificateProfileRequest)
    (now : Time) : res unit :=
  do! check_not (isBlank (CreateCertificateProfileRequest_Name req)
                 || isBlank (CreateCertificateProfileRequest_IssuerID req)
                 || Z.leb (CreateCertificateProfileRequest_ValidityPeriodSeconds req) 0)
        ErrInvalidRequest in
  do! check_not (Z.ltb (CreateCertificateProfileRequest_MinKeySizeBits req) 0) ErrInvalidRequest in
  do! for_checks (CreateCertificateProfileRequest_AllowedKeyAlgorithms req)
        (λ a, check_not (negb (isSupportedKeyAlgorithm a)) ErrInvalidRequest) in
  do! for_checks (CreateCertificateProfileRequest_AllowedSignatureAlgorithms req)
        (λ a, check_not (negb (isSupportedSignatureAlgorithm a)) ErrInvalidRequest) in
  do! check_not (CreateCertificateProfileRequest_PublicTLS req
        && Z.ltb (publicTLSValidityCeiling now publicTLSMaxValidityOverride)
             (secondsToDuration (CreateCertificateProfileRequest_ValidityPeriodSeconds req)))
        ErrInvalidRequest in
  do! check_not
        match BasicConstraintsPolicy_MaxPathLen
                (CreateCertificateProfileRequest_BasicConstraints req) with
        | Some n => Z.ltb n 0
            || negb (BasicConstraintsPolicy_CA (CreateCertificateProfileRequest_BasicConstraints req))
        | None => false
        end ErrInvalidRequest in
  validateCertificateProfileExtensionCombination req.

Definition validateCreateEnrollmentRequest (req : CreateEnrollmentRequest) (now : Time) : res unit :=
  do! check_not (isBlank (CreateEnrollmentRequest_IdentityID req)
                 || isBlank (CreateEnrollmentRequest_IssuerID req)
                 || isBlank (CreateEnrollmentRequest_CSRPEM req)
                 || isBlank (CreateEnrollmentRequest_RequestedSubject req)) ErrInvalidRequest in
  check_not (negb (After (CreateEnrollmentRequest_RequestedNotAfter req) now)) ErrInvalidRequest.

Definition validateCreateACMEAccountRequest (req : CreateACMEAccountRequest) : res unit :=
  do! check_not (Nat.eqb (length (CreateACMEAccountRequest_Contacts req)) 0
                 || negb (CreateACMEAccountRequest_TermsOfServiceAgreed req)) ErrInvalidRequest in
  for_checks (CreateACMEAccountRequest_Contacts req) (λ c, check_not (isBlank c) ErrInvalidRequest).

Definition validateCreateACMEOrderRequest (req : CreateACMEOrderRequest) (now : Time) : res unit :=
  do! check_not (isBlank (CreateACMEOrderRequest_AccountID req)
                 || isBlank (CreateACMEOrderRequest_IdentityID req)
                 || isBlank (CreateACMEOrderRequest_IssuerID req)) ErrInvalidRequest in
  do! check_not (Nat.eqb (length (CreateACMEOrderRequest_RequestedDNSNames req)) 0
                 && Nat.eqb (length (CreateACMEOrderRequest_RequestedIPAddresses req)) 0)
        ErrInvalidRequest in
  do! check_not (negb (After (CreateACMEOrderRequest_RequestedNotAfter req) now)) ErrInvalidRequest in
  do! for_checks (CreateACMEOrderRequest_RequestedDNSNames req)
        (λ n, check_not (isBlank n) ErrInvalidRequest) in
  for_checks (CreateACMEOrderRequest_RequestedIPAddresses req)
    (λ n, check_not (isBlank n) ErrInvalidRequest).

Definition validatePublishCRLRequest (req : PublishCRLRequest) (now : Time) : res unit :=
  do! check_not (isBlank (PublishCRLRequest_IssuerID req)
                 || isBlank (PublishCRLRequest_DistributionPoint req)) ErrInvalidRequest in
  check_not (negb (After (PublishCRLRequest_NextUpdate req) now)) ErrInvalidRequest.

Definition validateListOptions (sortOrder : string) (limit offset : Z) : res unit :=
  do! check_not ((sortOrder <>s "") && (sortOrder <>s "asc") && (sortOrder <>s "desc"))
        ErrInvalidRequest in
  check_not (Z.ltb limit 0 || Z.ltb offset 0) ErrInvalidRequest.

(** A list of scopes without repetition. *)
Fixpoint scopesLoop (seen scopes : list APIKeyScope) : res unit :=
  match scopes with
  | [] => Ok tt
  | scope :: rest =>
      do! check_not (negb (oneOf scope [APIKeyScopeRead; APIKeyScopeWrite; APIKeyScopeOperator]))
            ErrInvalidRequest in
      do! check_not (oneOf scope seen) ErrInvalidRequest in
      scopesLoop (scope :: seen) rest
  end.
Definition validateAPIKeyScopes (scopes : list APIKeyScope) : res unit :=
  do! check_not (Nat.eqb (length scopes) 0) ErrInvalidRequest in
  scopesLoop [] scopes.

(** ** Profile and identity policy *)

Definition policyDecision (reason : string) : goerr := EPolicy reason [].

Definition attachPolicyValidationEvidence (err : goerr) (refs : list string) : goerr :=
  match errors_As_policy err with
  | Some (reason, _) => EPolicy reason refs
  | None => err
  end.

Definition policyDecisionReason (err : goerr) : string :=
  from_option fst "" (errors_As_policy err).
Definition policyDecisionEvidenceRefs (err : goerr) : list string :=
  from_option snd [] (errors_As_policy err).

(** The loop of [dnsAllowedByProfile]: a blank pattern ends it with [false]. *)
Fixpoint dnsPatternLoop (name : string) (patterns : list string) : bool :=
  match patterns with
  | [] => false
  | pattern :: rest =>
      let pattern := ToLower (TrimSpace pattern) in
      if pattern =s "" then false
      else if pattern =s name then true
      else
        let suffix := str_drop 1 pattern in
        if HasPrefix pattern "*." && HasSuffix name suffix
           && Nat.ltb (String.length suffix) (String.length name)
        then true else dnsPatternLoop name rest
  end.

Definition dnsAllowedByProfile (name : string) (patterns : list string) : bool :=
  match patterns with
  | [] => true
  | _ =>
      let name := ToLower (TrimSpace name) in
      if name =s "" then false else dnsPatternLoop name patterns
  end.

Definition wildcardAllowedByProfile (name : string) (patterns : list string) : bool :=
  let name := ToLower (TrimSpace name) in
  existsb (λ pattern,
    let pattern := ToLower (TrimSpace pattern) in
    HasPrefix pattern "*." && dnsAllowedByProfile name [pattern]) patterns.

(** The loop of [ipAllowedByProfile]: a malformed range ends it with [false]. *)
Fixpoint ipRangeLoop (addr : Addr) (ranges : list string) : bool :=
  match ranges with
  | [] => false
  | rawRange :: rest =>
      match ParsePrefix (TrimSpace rawRange) with
      | None => false
      | Some prefix => if prefix_contains prefix addr then true else ipRangeLoop addr rest
      end
  end.

Definition ipAllowedByProfile (address : string) (ranges : list string) : bool :=
  match ranges with
  | [] => true
  | _ =>
      match ParseAddr (TrimSpace address) with
      | None => false
      | Some addr => ipRangeLoop addr ranges
      end
  end.

Definition profileSignatureAlgorithm (profile : CertificateProfile) : string :=
  match CertificateProfile_AllowedSignatureAlgorithms profile with
  | a :: _ => normalizeAlgorithm a
  | [] => "ecdsa_with_sha256"
  end.

Definition profileRequiresCSRPolicy (profile : CertificateProfile) : bool :=
  (CertificateProfile_ID profile <>s "")
  || negb (Nat.eqb (length (CertificateProfile_AllowedKeyAlgorithms profile)) 0)
  || Z.ltb 0 (CertificateProfile_MinKeySizeBits profile).

Definition validateCSRPolicy (req : CreateEnrollmentRequest) (profile : CertificateProfile)
    (csrInfo : CSRInfo) : res unit :=
  let totalSANs := length (CreateEnrollmentRequest_RequestedDNSNames req)
                 + length (CreateEnrollmentRequest_RequestedIPAddresses req) in
  do! check_not (Nat.eqb totalSANs 0 || Nat.ltb maxCSRSANs totalSANs)
        (policyDecision "csr_san_count_invalid") in
  do! for_checks (CSRInfo_ExtensionOIDs csrInfo) (λ oid,
        check_not (oneOf (TrimSpace oid) ["2.5.29.15"; "2.5.29.19"; "2.5.29.37"])
          (policyDecision "csr_forbidden_extension_requested")) in
  do! for_checks (CreateEnrollmentRequest_RequestedDNSNames req) (λ dnsName,
        check_not (HasPrefix (TrimSpace dnsName) "*."
                   && negb (wildcardAllowedByProfile dnsName
                              (CertificateProfile_AllowedDNSPatterns profile)))
          (policyDecision "profile_wildcard_dns_not_allowed")) in
  check_not (CertificateProfile_PublicTLS profile
             && negb (Nat.eqb (length (CreateEnrollmentRequest_RequestedIPAddresses req)) 0)
             && Nat.eqb (length (CertificateProfile_AllowedIPRanges profile)) 0)
    (policyDecision "profile_public_tls_ip_san_not_allowed").

Definition validateEnrollmentProfilePolicy (req : CreateEnrollmentRequest)
    (profile : CertificateProfile) (csrInfo : CSRInfo) (now : Time) : res unit :=
  do! validateCSRPolicy req profile csrInfo in
  if CertificateProfile_ID profile =s "" then Ok tt
  else
    do! check_not
          (Z.ltb 0 (CertificateProfile_ValidityPeriodSeconds profile)
           && After (CreateEnrollmentRequest_RequestedNotAfter req)
                (Add now (secondsToDuration (CertificateProfile_ValidityPeriodSeconds profile))))
          (policyDecision "profile_validity_exceeded") in
    do! for_checks (CreateEnrollmentRequest_RequestedDNSNames req) (λ dnsName,
          check_not (negb (dnsAllowedByProfile dnsName (CertificateProfile_AllowedDNSPatterns profile)))
            (policyDecision "profile_dns_not_allowed")) in
    do! for_checks (CreateEnrollmentRequest_RequestedIPAddresses req) (λ ipAddress,
          check_not (negb (ipAllowedByProfile ipAddress (CertificateProfile_AllowedIPRanges profile)))
            (policyDecision "profile_ip_not_allowed")) in
    do! check_not (negb (Nat.eqb (length (CertificateProfile_AllowedKeyAlgorithms profile)) 0)
                   && negb (stringInList (normalizeAlgorithm (CSRInfo_PublicKeyAlgorithm csrInfo))
                              (CertificateProfile_AllowedKeyAlgorithms profile)))
          (policyDecision "profile_key_algorithm_not_allowed") in
    do! check_not (Z.ltb 0 (CertificateProfile_MinKeySizeBits profile)
                   && Z.ltb (CSRInfo_PublicKeySizeBits csrInfo)
                        (CertificateProfile_MinKeySizeBits profile))
          (policyDecision "profile_key_size_too_small") in
    check_not (negb (Nat.eqb (length (CertificateProfile_AllowedSignatureAlgorithms profile)) 0)
               && negb (stringInList (profileSignatureAlgorithm profile)
                          (CertificateProfile_AllowedSignatureAlgorithms profile)))
      (policyDecision "profile_signature_algorithm_not_allowed").

Definition validateEnrollmentIdentityPolicy (req : CreateEnrollmentRequest) (identity : Identity)
  : res unit :=
  if Identity_ID identity =s "" then Ok tt
  else
    do! for_checks (CreateEnrollmentRequest_RequestedDNSNames req) (λ dnsName,
          check_not (negb (valueAllowedByList dnsName (Identity_AllowedDNSNames identity)))
            (policyDecision "identity_dns_not_allowed")) in
    for_checks (CreateEnrollmentRequest_RequestedIPAddresses req) (λ ipAddress,
      check_not (negb (valueAllowedByList ipAddress (Identity_AllowedIPAddresses identity)))
        (policyDecision "identity_ip_not_allowed")).

Definition enrollmentProfilePolicyRequest (enrollment : Enrollment) : CreateEnrollmentRequest :=
  mkCreateEnrollmentRequest (Enrollment_IdentityID enrollment) (Enrollment_IssuerID enrollment)
    (Enrollment_CertificateProfileID enrollment) (Enrollment_CSRPEM enrollment)
    (Enrollment_RequestedSubject enrollment) (Enrollment_RequestedDNSNames enrollment)
    (Enrollment_RequestedIPAddresses enrollment) (Enrollment_RequestedNotAfter enrollment).

(** ** Evidence *)

Definition sha256EvidenceReference (kind payload : string) : string :=
  kind +:+ ":sha256:" +:+ hex_encode (Sum256 payload).

Definition policyValidationEvidenceRefs (req : CreateEnrollmentRequest)
    (profile : CertificateProfile) (identity : Identity) : list string :=
  let csrRef := sha256EvidenceReference "csr" (CreateEnrollmentRequest_CSRPEM req) in
  let input := mkPolicyValidationEvidenceInput policyValidationEvidenceSchema
    (Identity_ID identity) (sortedStrings (Identity_AllowedDNSNames identity))
    (sortedStrings (Identity_AllowedIPAddresses identity)) (CreateEnrollmentRequest_IssuerID req)
    (CertificateProfile_ID profile) (CertificateProfile_ValidityPeriodSeconds profile)
    (CertificateProfile_PublicTLS profile)
    (sortedStrings (CertificateProfile_AllowedDNSPatterns profile))
    (sortedStrings (CertificateProfile_AllowedIPRanges profile))
    (sortedStrings (CertificateProfile_AllowedKeyAlgorithms profile))
    (CertificateProfile_MinKeySizeBits profile)
    (sortedStrings (CertificateProfile_AllowedSignatureAlgorithms profile))
    (TrimSpace (CreateEnrollmentRequest_RequestedSubject req))
    (sortedStrings (CreateEnrollmentRequest_RequestedDNSNames req))
    (sortedStrings (CreateEnrollmentRequest_RequestedIPAddresses req))
    (format_RFC3339Nano (CreateEnrollmentRequest_RequestedNotAfter req)) csrRef in
  match json_policy_input input with
  | None => []
  | Some encoded =>
      ["schema:" +:+ policyValidationEvidenceSchema]
      ++ (if Identity_ID identity <>s "" then ["identity:" +:+ Identity_ID identity] else [])
      ++ (if CreateEnrollmentRequest_IssuerID req <>s ""
          then ["issuer:" +:+ CreateEnrollmentRequest_IssuerID req] else [])
      ++ (if CertificateProfile_ID profile <>s ""
          then ["profile:" +:+ CertificateProfile_ID profile] else [])
      ++ (if TrimSpace (CreateEnrollmentRequest_CSRPEM req) <>s "" then [csrRef] else [])
      ++ [sha256EvidenceReference "policy-input" encoded]
  end.

Definition legacyPolicyEvidenceRefs (certificate : Certificate) : list string :=
  ["schema:" +:+ policyValidationEvidenceSchema;
   "identity:" +:+ Certificate_IdentityID certificate;
   "issuer:" +:+ Certificate_IssuerID certificate;
   "enrollment:" +:+ Certificate_EnrollmentID certificate]
  ++ (if Certificate_CertificateProfileID certificate <>s ""
      then ["profile:" +:+ Certificate_CertificateProfileID certificate] else []).

(** ** Errors of the core signer *)

Definition mapIssueError (err : goerr) : goerr :=
  match errors_As_command err with
  | Some code => if code =s "issue.csr_parse_failed" then EWrap2 ErrCSRParseFailed err
                 else EWrap2 ErrCertificateIssuanceFailed err
  | None => EWrap2 ErrCertificateIssuanceFailed err
  end.
Definition mapCRLError (err : goerr) : goerr := EWrap2 ErrCRLGenerationFailed err.
Definition mapOCSPDecodeError (err : goerr) : goerr := EWrap2 ErrOCSPDecodeFailed err.
Definition mapOCSPResponseError (err : goerr) : goerr := EWrap2 ErrOCSPResponseFailed err.
Definition mapCSRInspectError (err : goerr) : goerr := EWrap2 ErrCSRParseFailed err.

(** The code recorded for an error, by the first sentinel that matches. *)
Definition auditErrorCodes : list (DomainErr * string) :=
  [(ErrInvalidRequest, "invalid_request"); (ErrUnsupportedMediaType, "unsupported_media_type");
   (ErrUnauthorized, "unauthorized"); (ErrForbidden, "forbidden");
   (ErrRateLimited, "rate_limited"); (ErrInvalidTransition, "invalid_lifecycle_transition");
   (ErrIdentityNotFound, "identity_not_found"); (ErrIssuerNotFound, "issuer_not_found");
   (ErrOCSPResponderNotFound, "ocsp_responder_not_found");
   (ErrNotificationEndpointNotFound, "notification_endpoint_not_found");
   (ErrCertificateProfileNotFound, "certificate_profile_not_found");
   (ErrEnrollmentNotFound, "enrollment_not_found");
   (ErrCertificateNotFound, "certificate_not_found");
   (ErrCRLPublicationNotFound, "crl_publication_not_found");
   (ErrOutboxMessageNotFound, "outbox_message_not_found");
   (ErrAPIKeyNotFound, "api_key_not_found"); (ErrACMEAccountNotFound, "acme_account_not_found");
   (ErrACMEAccountDeactivated, "acme_account_deactivated");
   (ErrACMEOrderNotFound, "acme_order_not_found");
   (ErrACMEAuthorizationNotFound, "acme_authorization_not_found");
   (ErrACMEChallengeNotFound, "acme_challenge_not_found");
   (ErrCSRParseFailed, "csr_parse_failed");
   (ErrCertificateIssuanceFailed, "certificate_issuance_failed");
   (ErrCRLGenerationFailed, "crl_generation_failed");
   (ErrOCSPDecodeFailed, "ocsp_decode_failed");
   (ErrOCSPResponderValidationFailed, "ocsp_responder_validation_failed");
   (ErrOCSPResponseFailed, "ocsp_response_failed"); (ErrAuditIntegrity, "audit_integrity_failed");
   (ErrStorageFailure, "storage_failure")].
Definition auditErrorCode (err : goerr) : string :=
  match list_find (λ p, errors_Is err (fst p) = true) auditErrorCodes with
  | Some (_, (_, code)) => code
  | None => "internal"
  end.
End Policy.
