(* ===== verification/Registry.v ===== *)
(** * Identities, issuers, profiles and endpoints ([lifecycle/service.go])

    The service methods that register the objects certificates are issued for
    and from, the issuer chain, and the roll-over of a profile from one
    intermediate CA to another. *)

From S2P Require Import Prelude GoLib Crypto Domain Core NetIP HTTP01 Requests AuditChain Store.
From S2P Require Import StoreInv Service Policy.

Section Registry.
Context `{Env}.

Definition CreateIdentity (actor : string) (req : CreateIdentityRequest) : Svc Identity :=
  do* liftM (validateCreateIdentityRequest req) in
  let* now := now_ in
  let* id := newID in
  let identity := mkIdentity id (CreateIdentityRequest_Type req) (CreateIdentityRequest_Name req)
    (CreateIdentityRequest_ExternalID req) (CreateIdentityRequest_Owner req)
    (CreateIdentityRequest_Team req) (CreateIdentityRequest_Service req)
    (CreateIdentityRequest_Environment req) (CreateIdentityRequest_DeploymentTarget req)
    (CreateIdentityRequest_LastSeenAt req) (CreateIdentityRequest_MetadataJSON req)
    (CreateIdentityRequest_AllowedDNSNames req) (CreateIdentityRequest_AllowedIPAddresses req)
    IdentityActive now now in
  do* WithinTx (
    do* repo (Store.CreateIdentity identity) in
    createAuditEvent actor "identity.created" "identity" (Identity_ID identity) now
      (auditFields [("identity_id", Identity_ID identity); ("owner", Identity_Owner identity);
        ("team", Identity_Team identity); ("service", Identity_Service identity);
        ("environment", Identity_Environment identity);
        ("deployment_target", Identity_DeploymentTarget identity);
        ("allowed_dns_names", itoa (Z.of_nat (length (Identity_AllowedDNSNames identity))));
        ("allowed_ip_addresses", itoa (Z.of_nat (length (Identity_AllowedIPAddresses identity))))])) in
  retM identity.

Definition CreateIssuer (actor : string) (req : CreateIssuerRequest) : Svc Issuer :=
  do* liftM (validateCreateIssuerRequest req) in
  let* now := now_ in
  let* id := newID in
  let issuer := mkIssuer id (CreateIssuerRequest_Name req) (CreateIssuerRequest_Kind req)
    IssuerActive (CreateIssuerRequest_ParentIssuerID req) (CreateIssuerRequest_CertificatePEM req)
    (CreateIssuerRequest_KeyRef req) (CreateIssuerRequest_AIAURL req)
    (CreateIssuerRequest_CRLDistributionPoints req)
    (CreateIssuerRequest_TrustAnchor req || (CreateIssuerRequest_Kind req =s IssuerRootCA))
    now now in
  do* WithinTx (
    do* (if CreateIssuerRequest_ParentIssuerID req <>s ""
         then do* repo (GetIssuer (CreateIssuerRequest_ParentIssuerID req)) in retM tt
         else retM tt) in
    do* repo (Store.CreateIssuer issuer) in
    createAuditEvent actor "issuer.created" "issuer" (Issuer_ID issuer) now
      (legacyKeyProviderAuditFields (CreateIssuerRequest_KeyRef req)
        (auditFields [("issuer_id", Issuer_ID issuer);
                      ("parent_issuer_id", Issuer_ParentIssuerID issuer)]))) in
  retM issuer.

(** The loop of [GetIssuerChain]. [None] is exhausted fuel: one round per
    issuer suffices, because a second visit of an issuer is an error
    ([issuerChainLoop_terminates]). *)
Fixpoint issuerChainLoop (fuel : nat) (issuers : gmap string Issuer) (seen : gset string)
    (currentID : string) (chain : list Issuer) : option (res (list Issuer)) :=
  match fuel with
  | O => None
  | S fuel =>
      if currentID =s "" then Some (Ok chain)
      else if bool_decide (currentID ∈ seen) then Some (Err ErrInvalidRequest)
      else match lookupRow issuers currentID ErrIssuerNotFound with
           | Err e => Some (Err e)
           | Ok issuer => issuerChainLoop fuel issuers ({[currentID]} ∪ seen)
                            (Issuer_ParentIssuerID issuer) (chain ++ [issuer])
           end
  end.

Definition GetIssuerChain (id : string) : Svc (list Issuer) := λ w,
  if isBlank id then (Err ErrInvalidRequest, w)
  else
    let issuers := ms_issuers (w_store w) in
    (default (Err (EText "fuel")) (issuerChainLoop (size issuers + 2) issuers ∅ id []), w).

Definition ListTrustAnchors : Svc (list Issuer) :=
  let* issuers := repo ListIssuers in
  retM (filter (λ i, ((Issuer_Status i =s IssuerActive) && Issuer_TrustAnchor i) = true) issuers).

Definition CreateCertificateProfile (actor : string) (req : CreateCertificateProfileRequest)
  : Svc CertificateProfile :=
  let* now := now_ in
  do* liftM (validateCreateCertificateProfileRequest req now) in
  let* id := newID in
  let profile := mkCertificateProfile id (CreateCertificateProfileRequest_Name req)
    (CreateCertificateProfileRequest_Description req) (CreateCertificateProfileRequest_IssuerID req)
    (CreateCertificateProfileRequest_ValidityPeriodSeconds req)
    (CreateCertificateProfileRequest_PublicTLS req)
    (CreateCertificateProfileRequest_SubjectTemplate req)
    (CreateCertificateProfileRequest_AllowedDNSPatterns req)
    (CreateCertificateProfileRequest_AllowedIPRanges req)
    (normalizeStringList (CreateCertificateProfileRequest_AllowedKeyAlgorithms req))
    (CreateCertificateProfileRequest_MinKeySizeBits req)
    (normalizeStringList (CreateCertificateProfileRequest_AllowedSignatureAlgorithms req))
    (CreateCertificateProfileRequest_KeyUsage req)
    (CreateCertificateProfileRequest_ExtendedKeyUsage req)
    (CreateCertificateProfileRequest_BasicConstraints req)
    (CreateCertificateProfileRequest_SubjectKeyIdentifier req)
    (CreateCertificateProfileRequest_AuthorityKeyIdentifier req) now now in
  do* WithinTx (
    do* repo (GetIssuer (CreateCertificateProfileRequest_IssuerID req)) in
    do* repo (Store.CreateCertificateProfile profile) in
    createAuditEvent actor "certificate_profile.created" "certificate_profile"
      (CertificateProfile_ID profile) now
      (auditFields [("issuer_id", CertificateProfile_IssuerID profile);
                    ("profile_id", CertificateProfile_ID profile)])) in
  retM profile.

(** Only between active intermediates below the same active root anchor. *)
Definition validateIntermediateIssuerTransition (currentIssuer nextIssuer : Issuer) : Svc string :=
  do* return_if
    ((Issuer_ID currentIssuer =s Issuer_ID nextIssuer)
     || (Issuer_Status currentIssuer <>s IssuerActive)
     || (Issuer_Status nextIssuer <>s IssuerActive)
     || (Issuer_Kind currentIssuer <>s IssuerIntermediateCA)
     || (Issuer_Kind nextIssuer <>s IssuerIntermediateCA)
     || isBlank (Issuer_ParentIssuerID currentIssuer)
     || (Issuer_ParentIssuerID currentIssuer <>s Issuer_ParentIssuerID nextIssuer))
    ErrInvalidRequest in
  let* parent := repo (GetIssuer (Issuer_ParentIssuerID currentIssuer)) in
  do* return_if ((Issuer_Status parent <>s IssuerActive) || (Issuer_Kind parent <>s IssuerRootCA)
                 || negb (Issuer_TrustAnchor parent)) ErrInvalidRequest in
  retM (Issuer_ID parent).

Definition profileTransitionAction (t : CertificateProfileIssuerTransition) : string :=
  if t =s CertificateProfileIssuerRollback then "certificate_profile.issuer_rolled_back"
  else "certificate_profile.issuer_rolled_over".

Definition TransitionCertificateProfileIssuer (actor : string)
    (req : TransitionCertificateProfileIssuerRequest) : Svc CertificateProfile :=
  do* liftM (validateCertificateProfileIssuerTransitionRequest req) in
  let* now := now_ in
  WithinTx (
    let* profile := repo (GetCertificateProfile
      (TransitionCertificateProfileIssuerRequest_ProfileID req)) in
    do* return_if (CertificateProfile_IssuerID profile
                   <>s TransitionCertificateProfileIssuerRequest_CurrentIssuerID req)
          ErrInvalidTransition in
    let* currentIssuer := repo (GetIssuer
      (TransitionCertificateProfileIssuerRequest_CurrentIssuerID req)) in
    let* nextIssuer := repo (GetIssuer
      (TransitionCertificateProfileIssuerRequest_NextIssuerID req)) in
    let* parentID := validateIntermediateIssuerTransition currentIssuer nextIssuer in
    let currentUpdatedAt := CertificateProfile_UpdatedAt profile in
    let profile := profile |> CertificateProfile_with_IssuerID (Issuer_ID nextIssuer)
                           |> CertificateProfile_with_UpdatedAt now in
    do* repo (UpdateCertificateProfileIssuerIfCurrent profile (Issuer_ID currentIssuer)
                currentUpdatedAt) in
    let action := profileTransitionAction (TransitionCertificateProfileIssuerRequest_Transition req) in
    let fields := auditFields [("profile_id", CertificateProfile_ID profile);
      ("previous_issuer_id", Issuer_ID currentIssuer); ("next_issuer_id", Issuer_ID nextIssuer);
      ("parent_issuer_id", parentID);
      ("transition", TransitionCertificateProfileIssuerRequest_Transition req);
      ("reason", TrimSpace (TransitionCertificateProfileIssuerRequest_Reason req))] in
    do* createAuditEvent actor action "certificate_profile" (CertificateProfile_ID profile) now fields in
    do* createOutboxMessage action now fields in
    retM profile).

(** *** Notification endpoints *)

Definition isSingleRepeatedRune (value : string) : bool :=
  match runes value with
  | [] => false
  | first :: rest => forallb (Z.eqb first) rest
  end.

Definition isWeakWebhookSecret (secret : string) : bool :=
  let trimmed := TrimSpace secret in
  if Nat.ltb (String.length trimmed) 32 then true
  else if isSingleRepeatedRune trimmed then true
  else oneOf (ToLower trimmed)
         ["change-me"; "changeme"; "webhook-secret"; "secret"; "password"; "anopki"].

Definition validateCreateNotificationEndpointRequest (req : CreateNotificationEndpointRequest)
    (production : bool) : res unit :=
  do! check_not (isBlank (CreateNotificationEndpointRequest_Name req)
                 || isBlank (CreateNotificationEndpointRequest_URL req)
                 || isBlank (CreateNotificationEndpointRequest_Secret req)) ErrInvalidRequest in
  match url_Parse (CreateNotificationEndpointRequest_URL req) with
  | None => Err ErrInvalidRequest
  | Some parsed =>
      do! check_not ((url_Host parsed =s "")
                     || (url_Scheme parsed <>s "http") && (url_Scheme parsed <>s "https"))
            ErrInvalidRequest in
      do! check_not (production && ((url_Scheme parsed <>s "https")
                     || isWeakWebhookSecret (CreateNotificationEndpointRequest_Secret req)))
            ErrInvalidRequest in
      do! validateACMEHTTP01FetchURL (Some parsed) in
      for_checks (CreateNotificationEndpointRequest_EventTypes req)
        (λ eventType, check_not (isBlank eventType) ErrInvalidRequest)
  end.

Definition CreateNotificationEndpoint (actor : string) (req : CreateNotificationEndpointRequest)
  : Svc NotificationEndpoint :=
  do* liftM (validateCreateNotificationEndpointRequest req productionPolicy) in
  let* now := now_ in
  let* id := newID in
  let endpoint := {| NotificationEndpoint_ID := id;
    NotificationEndpoint_Name := CreateNotificationEndpointRequest_Name req;
    NotificationEndpoint_Type := NotificationEndpointWebhook;
    NotificationEndpoint_Status := NotificationEndpointActive;
    NotificationEndpoint_URL := CreateNotificationEndpointRequest_URL req;
    NotificationEndpoint_Secret := CreateNotificationEndpointRequest_Secret req;
    NotificationEndpoint_EventTypes := CreateNotificationEndpointRequest_EventTypes req;
    NotificationEndpoint_CreatedAt := now; NotificationEndpoint_UpdatedAt := now |} in
  do* WithinTx (
    do* repo (Store.CreateNotificationEndpoint endpoint) in
    createAuditEvent actor "notification_endpoint.created" "notification_endpoint"
      (NotificationEndpoint_ID endpoint) now
      (auditFields [("notification_endpoint_id", NotificationEndpoint_ID endpoint);
                    ("notification_endpoint_type", NotificationEndpoint_Type endpoint)])) in
  retM endpoint.

Definition DisableNotificationEndpoint (actor id : string) : Svc NotificationEndpoint :=
  do* return_if (isBlank id) ErrInvalidRequest in
  let* now := now_ in
  let* endpoint := repo (GetNotificationEndpoint id) in
  do* return_if (NotificationEndpoint_Status endpoint <>s NotificationEndpointActive)
        ErrInvalidTransition in
  let endpoint := endpoint |> NotificationEndpoint_with_Status NotificationEndpointDisabled
                           |> NotificationEndpoint_with_UpdatedAt now in
  do* WithinTx (
    do* repo (UpdateNotificationEndpointIfStatus endpoint NotificationEndpointActive) in
    createAuditEvent actor "notification_endpoint.disabled" "notification_endpoint"
      (NotificationEndpoint_ID endpoint) now
      (auditFields [("notification_endpoint_id", NotificationEndpoint_ID endpoint);
                    ("notification_endpoint_type", NotificationEndpoint_Type endpoint)])) in
  retM endpoint.
End Registry.
