(* ===== verification/Lifecycle.v ===== *)
(** * Enrollments and certificate states ([lifecycle/service.go])

    Creating, approving and rejecting enrollments, renewal and reissue,
    revocation, suspension, resumption and the expiration scan. *)

From S2P Require Import Prelude GoLib Crypto Domain Core NetIP Requests AuditChain Store.
From S2P Require Import StoreInv Service Policy.

Section Lifecycle.
Context `{Env}.

(** The profile an enrollment refers to, or the zero profile. *)
Definition profileFor (profileID issuerID : string) : Svc CertificateProfile :=
  if profileID <>s "" then
    let* profile := repo (GetCertificateProfile profileID) in
    do* return_if (CertificateProfile_IssuerID profile <>s issuerID) ErrInvalidRequest in
    retM profile
  else retM zero_CertificateProfile.

Definition inspectCSR (csrPEM : string) : Svc CSRInfo :=
  let* r := catchM (outside (λ t, issuer_InspectCSR t csrPEM)) in
  match r with
  | Ok info => retM info
  | Err err => failM (mapCSRInspectError err)
  end.

(** A policy check whose error carries the evidence references. *)
Definition withEvidence (refs : list string) (r : res unit) : Svc unit :=
  match r with
  | Ok _ => retM tt
  | Err err => failM (attachPolicyValidationEvidence err refs)
  end.

Definition csrMatchesRequest (req : CreateEnrollmentRequest) (info : CSRInfo) : bool :=
  sameStringSet (CreateEnrollmentRequest_RequestedDNSNames req) (CSRInfo_DNSNames info)
  && sameStringSet (CreateEnrollmentRequest_RequestedIPAddresses req) (CSRInfo_IPAddresses info).

Definition pendingEnrollment (id : string) (req : CreateEnrollmentRequest) (info : CSRInfo)
    (sourceCertificateID : string) (now : Time) : Enrollment :=
  {| Enrollment_ID := id;
     Enrollment_IdentityID := CreateEnrollmentRequest_IdentityID req;
     Enrollment_IssuerID := CreateEnrollmentRequest_IssuerID req;
     Enrollment_CertificateProfileID := CreateEnrollmentRequest_CertificateProfileID req;
     Enrollment_SourceCertificateID := sourceCertificateID;
     Enrollment_CSRPEM := CreateEnrollmentRequest_CSRPEM req;
     Enrollment_Status := EnrollmentPending;
     Enrollment_RequestedSubject := CreateEnrollmentRequest_RequestedSubject req;
     Enrollment_RequestedDNSNames := CreateEnrollmentRequest_RequestedDNSNames req;
     Enrollment_RequestedIPAddresses := CreateEnrollmentRequest_RequestedIPAddresses req;
     Enrollment_CSRDNSNames := CSRInfo_DNSNames info;
     Enrollment_CSRIPAddresses := CSRInfo_IPAddresses info;
     Enrollment_RequestedNotAfter := CreateEnrollmentRequest_RequestedNotAfter req;
     Enrollment_ApprovedBy := ""; Enrollment_ApprovedAt := zero_time;
     Enrollment_CreatedAt := now; Enrollment_UpdatedAt := now |}.

Definition CreateEnrollment (actor : string) (req : CreateEnrollmentRequest) : Svc Enrollment :=
  let* now := now_ in
  do* liftM (validateCreateEnrollmentRequest req now) in
  let* identity := repo (GetIdentity (CreateEnrollmentRequest_IdentityID req)) in
  do* repo (GetIssuer (CreateEnrollmentRequest_IssuerID req)) in
  let* profile := profileFor (CreateEnrollmentRequest_CertificateProfileID req)
    (CreateEnrollmentRequest_IssuerID req) in
  let* csrInfo := inspectCSR (CreateEnrollmentRequest_CSRPEM req) in
  do* return_if (negb (csrMatchesRequest req csrInfo)) ErrInvalidRequest in
  let refs := policyValidationEvidenceRefs req profile identity in
  do* withEvidence refs (validateEnrollmentProfilePolicy req profile csrInfo now) in
  do* withEvidence refs (validateEnrollmentIdentityPolicy req identity) in
  let* id := newID in
  let enrollment := pendingEnrollment id req csrInfo "" now in
  do* WithinTx (
    do* repo (GetIdentity (CreateEnrollmentRequest_IdentityID req)) in
    do* repo (GetIssuer (CreateEnrollmentRequest_IssuerID req)) in
    do* repo (Store.CreateEnrollment enrollment) in
    let* fields := addIdentityDeploymentTarget (Enrollment_IdentityID enrollment)
      (auditFields [("identity_id", Enrollment_IdentityID enrollment);
                    ("issuer_id", Enrollment_IssuerID enrollment);
                    ("enrollment_id", Enrollment_ID enrollment);
                    ("profile_id", Enrollment_CertificateProfileID enrollment)]) in
    createAuditEvent actor "enrollment.created" "enrollment" (Enrollment_ID enrollment) now
      (addPolicyDecisionAuditFields fields "allow" "enrollment_policy_passed" refs)) in
  retM enrollment.

Definition createCertificateReplacementEnrollment (actor certificateID csrPEM : string)
    (requestedNotAfter : Time) (action : string) : Svc Enrollment :=
  do* return_if (isBlank certificateID) ErrInvalidRequest in
  let* certificate := repo (GetCertificate certificateID) in
  do* return_if (Certificate_Status certificate <>s CertificateValid) ErrInvalidTransition in
  let createReq := {|
    CreateEnrollmentRequest_IdentityID := Certificate_IdentityID certificate;
    CreateEnrollmentRequest_IssuerID := Certificate_IssuerID certificate;
    CreateEnrollmentRequest_CertificateProfileID := Certificate_CertificateProfileID certificate;
    CreateEnrollmentRequest_CSRPEM := csrPEM;
    CreateEnrollmentRequest_RequestedSubject := Certificate_Subject certificate;
    CreateEnrollmentRequest_RequestedDNSNames := Certificate_DNSNames certificate;
    CreateEnrollmentRequest_RequestedIPAddresses := Certificate_IPAddresses certificate;
    CreateEnrollmentRequest_RequestedNotAfter := requestedNotAfter |} in
  let* now := now_ in
  do* liftM (validateCreateEnrollmentRequest createReq now) in
  let* csrInfo := inspectCSR csrPEM in
  do* return_if (negb (csrMatchesRequest createReq csrInfo)) ErrInvalidRequest in
  let* profile := profileFor (Certificate_CertificateProfileID certificate)
    (Certificate_IssuerID certificate) in
  let* identity := repo (GetIdentity (Certificate_IdentityID certificate)) in
  let refs := policyValidationEvidenceRefs createReq profile identity in
  do* withEvidence refs (validateEnrollmentProfilePolicy createReq profile csrInfo now) in
  do* withEvidence refs (validateEnrollmentIdentityPolicy createReq identity) in
  let* id := newID in
  WithinTx (
    let* currentCertificate := repo (GetCertificate certificateID) in
    do* return_if (Certificate_Status currentCertificate <>s CertificateValid)
          ErrInvalidTransition in
    let enrollment := pendingEnrollment id createReq csrInfo (Certificate_ID currentCertificate) now in
    do* repo (GetIdentity (Enrollment_IdentityID enrollment)) in
    do* repo (GetIssuer (Enrollment_IssuerID enrollment)) in
    do* profileFor (Enrollment_CertificateProfileID enrollment) (Enrollment_IssuerID enrollment) in
    do* repo (Store.CreateEnrollment enrollment) in
    let* fields := addIdentityDeploymentTarget (Enrollment_IdentityID enrollment)
      (auditFields [("identity_id", Enrollment_IdentityID enrollment);
                    ("issuer_id", Enrollment_IssuerID enrollment);
                    ("enrollment_id", Enrollment_ID enrollment);
                    ("certificate_id", Certificate_ID currentCertificate);
                    ("serial_number", Certificate_SerialNumber currentCertificate);
                    ("previous_serial_number", Certificate_SerialNumber currentCertificate);
                    ("profile_id", Enrollment_CertificateProfileID enrollment)]) in
    let fields := addPolicyDecisionAuditFields fields "allow" "enrollment_policy_passed" refs in
    do* createAuditEvent actor action "enrollment" (Enrollment_ID enrollment) now fields in
    do* createOutboxMessage action now fields in
    retM enrollment).

Definition RenewCertificate (actor certificateID : string) (req : RenewCertificateRequest)
  : Svc Enrollment :=
  createCertificateReplacementEnrollment actor certificateID (RenewCertificateRequest_CSRPEM req)
    (RenewCertificateRequest_RequestedNotAfter req) "certificate.renewal_requested".

Definition ReissueCertificate (actor certificateID : string) (req : ReissueCertificateRequest)
  : Svc Enrollment :=
  do* return_if (isBlank certificateID) ErrInvalidRequest in
  let* certificate := repo (GetCertificate certificateID) in
  createCertificateReplacementEnrollment actor certificateID (ReissueCertificateRequest_CSRPEM req)
    (Certificate_NotAfter certificate) "certificate.reissue_requested".

(** ** Approval *)

Definition enrollmentTransitionFields (enrollment : Enrollment) : Fields :=
  addStatusTransition
    (auditFields [("identity_id", Enrollment_IdentityID enrollment);
                  ("issuer_id", Enrollment_IssuerID enrollment);
                  ("enrollment_id", Enrollment_ID enrollment);
                  ("profile_id", Enrollment_CertificateProfileID enrollment)])
    EnrollmentPending (Enrollment_Status enrollment).

Definition ApproveEnrollmentWithReason (actor id reason : string) : Svc Enrollment :=
  do* return_if (isBlank id) ErrInvalidRequest in
  let* now := now_ in
  WithinTx (
    let* enrollment := repo (GetEnrollment id) in
    do* return_if (Enrollment_Status enrollment <>s EnrollmentPending) ErrInvalidTransition in
    let enrollment := enrollment |> Enrollment_with_Status EnrollmentApproved
      |> Enrollment_with_ApprovedBy actor |> Enrollment_with_ApprovedAt now
      |> Enrollment_with_UpdatedAt now in
    do* repo (UpdateEnrollmentIfStatus enrollment EnrollmentPending) in
    let* fields := addIdentityDeploymentTarget (Enrollment_IdentityID enrollment)
      (enrollmentTransitionFields enrollment) in
    let fields := if negb (isBlank reason)
      then <["approval_reason" := JStr (TrimSpace reason)]> fields else fields in
    do* createAuditEvent actor "enrollment.approved" "enrollment" (Enrollment_ID enrollment) now
          fields in
    retM enrollment).

Definition ApproveEnrollment (actor id : string) : Svc Enrollment :=
  ApproveEnrollmentWithReason actor id "".

Definition RejectEnrollment (actor id : string) : Svc Enrollment :=
  do* return_if (isBlank id) ErrInvalidRequest in
  let* now := now_ in
  WithinTx (
    let* enrollment := repo (GetEnrollment id) in
    do* return_if (Enrollment_Status enrollment <>s EnrollmentPending) ErrInvalidTransition in
    let enrollment := enrollment |> Enrollment_with_Status EnrollmentRejected
      |> Enrollment_with_UpdatedAt now in
    do* repo (UpdateEnrollmentIfStatus enrollment EnrollmentPending) in
    let* fields := addIdentityDeploymentTarget (Enrollment_IdentityID enrollment)
      (enrollmentTransitionFields enrollment) in
    do* createAuditEvent actor "enrollment.rejected" "enrollment" (Enrollment_ID enrollment) now
          fields in
    retM enrollment).

(** ** Revocation, suspension and resumption *)

Definition canRevokeCertificateStatus (status : CertificateStatus) (force : bool) : bool :=
  if status =s CertificateValid then true else force && (status =s CertificateSuspended).

Definition certificateFields (certificate : Certificate) : list (string * string) :=
  [("identity_id", Certificate_IdentityID certificate);
   ("issuer_id", Certificate_IssuerID certificate);
   ("enrollment_id", Certificate_EnrollmentID certificate);
   ("certificate_id", Certificate_ID certificate);
   ("serial_number", Certificate_SerialNumber certificate);
   ("profile_id", Certificate_CertificateProfileID certificate)].

Definition revokeCertificate (actor certificateID : string) (reason : RevocationReason)
    (force : bool) : Svc Certificate :=
  do* return_if (isBlank certificateID || negb (isValidRevocationReason reason)) ErrInvalidRequest in
  let* now := now_ in
  WithinTx (
    let* certificate := repo (GetCertificate certificateID) in
    do* return_if (negb (canRevokeCertificateStatus (Certificate_Status certificate) force))
          ErrInvalidTransition in
    let currentStatus := Certificate_Status certificate in
    let certificate := certificate |> Certificate_with_Status CertificateRevoked
                                   |> Certificate_with_UpdatedAt now in
    do* repo (UpdateCertificateIfStatus certificate currentStatus) in
    let* revocationID := newID in
    do* repo (CreateRevocation {|
      Revocation_ID := revocationID; Revocation_CertificateID := Certificate_ID certificate;
      Revocation_Reason := reason; Revocation_RevokedBy := actor;
      Revocation_RevokedAt := now; Revocation_CreatedAt := now |}) in
    let action := if force then "certificate.force_revoked" else "certificate.revoked" in
    let* fields := addIdentityDeploymentTarget (Certificate_IdentityID certificate)
      (auditFields (certificateFields certificate ++ [("revocation_reason", reason)])) in
    let fields := addStatusTransition fields currentStatus (Certificate_Status certificate) in
    do* createAuditEvent actor action "certificate" (Certificate_ID certificate) now fields in
    do* createOutboxMessage action now fields in
    retM certificate).

Definition RevokeCertificate (actor certificateID : string) (reason : RevocationReason)
  : Svc Certificate := revokeCertificate actor certificateID reason false.
Definition ForceRevokeCertificate (actor certificateID : string) (reason : RevocationReason)
  : Svc Certificate := revokeCertificate actor certificateID reason true.

Definition transitionCertificateStatus (actor certificateID : string)
    (currentStatus nextStatus : CertificateStatus) (action : string) : Svc Certificate :=
  let* now := now_ in
  WithinTx (
    let* certificate := repo (GetCertificate certificateID) in
    do* return_if (Certificate_Status certificate <>s currentStatus) ErrInvalidTransition in
    let certificate := certificate |> Certificate_with_Status nextStatus
                                   |> Certificate_with_UpdatedAt now in
    do* repo (UpdateCertificateIfStatus certificate currentStatus) in
    let* fields := addIdentityDeploymentTarget (Certificate_IdentityID certificate)
      (auditFields (certificateFields certificate)) in
    let fields := addStatusTransition fields currentStatus nextStatus in
    do* createAuditEvent actor action "certificate" (Certificate_ID certificate) now fields in
    do* createOutboxMessage action now fields in
    retM certificate).

Definition SuspendCertificate (actor certificateID : string) : Svc Certificate :=
  do* return_if (isBlank certificateID) ErrInvalidRequest in
  transitionCertificateStatus actor certificateID CertificateValid CertificateSuspended
    "certificate.suspended".
Definition ResumeCertificate (actor certificateID : string) : Svc Certificate :=
  do* return_if (isBlank certificateID) ErrInvalidRequest in
  transitionCertificateStatus actor certificateID CertificateSuspended CertificateValid
    "certificate.resumed".

(** ** Expiration scan *)

Definition certificateIsExpiredCandidate (certificate : Certificate) (now : Time) : bool :=
  ((Certificate_Status certificate =s CertificateValid)
   || (Certificate_Status certificate =s CertificateSuspended))
  && negb (After (Certificate_NotAfter certificate) now).

Definition certificateNeedsRenewalWarning (certificate : Certificate) (now warningBefore : Time)
  : bool :=
  (Certificate_Status certificate =s CertificateValid)
  && After (Certificate_NotAfter certificate) now
  && negb (After (Certificate_NotAfter certificate) warningBefore)
  && IsZero (Certificate_RenewalNotifiedAt certificate).

(** The body shared by the two cases of the loop: update one certificate and
    record it; [None] when the update lost a race and the loop continues. *)
Definition scanUpdate (actor action : string) (updated : Certificate)
    (currentStatus : CertificateStatus) (now : Time) (window : Duration)
  : Svc (option Certificate) :=
  let* r := catchM (repo (UpdateCertificateIfStatus updated currentStatus)) in
  match r with
  | Err err => if errors_Is err ErrInvalidTransition then retM None else failM err
  | Ok _ =>
      let* fields := addIdentityDeploymentTarget (Certificate_IdentityID updated)
        (certificateExpirationAuditFields updated window) in
      do* createAuditEvent actor action "certificate" (Certificate_ID updated) now fields in
      do* createOutboxMessage action now fields in
      retM (Some updated)
  end.

(** [append] of an optional element. *)
Definition appendSome {A} (l : list A) (o : option A) : list A := l ++ option_list o.

Fixpoint scanLoop (actor : string) (now warningBefore : Time) (window : Duration)
    (candidates : list Certificate) (result : CertificateExpirationScanResult)
  : Svc CertificateExpirationScanResult :=
  match candidates with
  | [] => retM result
  | certificate :: rest =>
      let expired := CertificateExpirationScanResult_Expired result in
      let warnings := CertificateExpirationScanResult_ExpirationWarnings result in
      if certificateIsExpiredCandidate certificate now then
        let updated := certificate |> Certificate_with_Status CertificateExpired
                                   |> Certificate_with_UpdatedAt now in
        let* o := scanUpdate actor "certificate.expired" updated (Certificate_Status certificate)
                    now window in
        scanLoop actor now warningBefore window rest
          (mkCertificateExpirationScanResult (appendSome expired o) warnings)
      else if certificateNeedsRenewalWarning certificate now warningBefore then
        let updated := certificate |> Certificate_with_RenewalNotifiedAt now
                                   |> Certificate_with_UpdatedAt now in
        let* o := scanUpdate actor "certificate.expiration_warning" updated CertificateValid
                    now window in
        scanLoop actor now warningBefore window rest
          (mkCertificateExpirationScanResult expired (appendSome warnings o))
      else scanLoop actor now warningBefore window rest result
  end.

Definition ScanCertificateExpirations (actor : string) (req : ScanCertificateExpirationsRequest)
  : Svc CertificateExpirationScanResult :=
  do* return_if (Z.ltb (ScanCertificateExpirationsRequest_WarningWindow req) 0
                 || Z.leb (ScanCertificateExpirationsRequest_Limit req) 0) ErrInvalidRequest in
  let* now := now_ in
  let warningBefore := Add now (ScanCertificateExpirationsRequest_WarningWindow req) in
  WithinTx (
    let* candidates := repo (ListCertificatesForExpirationScan now warningBefore
      (ScanCertificateExpirationsRequest_Limit req)) in
    scanLoop actor now warningBefore (ScanCertificateExpirationsRequest_WarningWindow req)
      candidates (mkCertificateExpirationScanResult [] [])).
End Lifecycle.
