(* ===== verification/Issuance.v ===== *)
(** * Certificate issuance ([lifecycle/service.go])

    Issuing a certificate takes several transactions, so that a crash or a
    second node never issues twice: claim the attempt (a lease), sign outside
    any transaction, persist the signed result with a compare-and-set on the
    claim, finalize (enrollment, certificate and attempt together), and record
    the audit event. *)

From S2P Require Import Prelude GoLib Crypto Domain Core NetIP Requests AuditChain Store.
From S2P Require Import StoreInv Service Policy Lifecycle.

Definition defaultIssuanceSigningLease : Duration := (5 * Minute)%Z.

Section Issuance.
Context `{Env}.

Definition claimIssuanceAttempt (enrollmentID : string) (now : Time)
  : Svc (IssuanceAttempt * bool) :=
  WithinTx (
    let* r := catchM (repo (GetIssuanceAttempt enrollmentID)) in
    match r with
    | Err err =>
        if errors_Is err ErrIssuanceAttemptNotFound then
          let attempt := zero_IssuanceAttempt
            |> IssuanceAttempt_with_EnrollmentID enrollmentID
            |> IssuanceAttempt_with_Status IssuanceAttemptSigning
            |> IssuanceAttempt_with_LeaseExpiresAt (Add now defaultIssuanceSigningLease)
            |> IssuanceAttempt_with_SigningStartedAt now
            |> IssuanceAttempt_with_CreatedAt now
            |> IssuanceAttempt_with_UpdatedAt now in
          do* repo (CreateIssuanceAttempt attempt) in
          retM (attempt, true)
        else failM err
    | Ok current =>
        let status := IssuanceAttempt_Status current in
        if (status =s IssuanceAttemptSigned) || (status =s IssuanceAttemptFinalized)
        then retM (current, false)
        else
          do* (if status =s IssuanceAttemptSigning
               then return_if (After (IssuanceAttempt_LeaseExpiresAt current) now)
                      ErrInvalidTransition
               else return_if (status <>s IssuanceAttemptFailed) ErrInvalidTransition) in
          let next := current
            |> IssuanceAttempt_with_Status IssuanceAttemptSigning
            |> IssuanceAttempt_with_LeaseExpiresAt (Add now defaultIssuanceSigningLease)
            |> IssuanceAttempt_with_SigningStartedAt now
            |> IssuanceAttempt_with_LastError ""
            |> IssuanceAttempt_with_UpdatedAt now in
          do* repo (UpdateIssuanceAttemptIfCurrent next current) in
          retM (next, true)
    end).

Definition signedAttempt (current : IssuanceAttempt) (result : IssueResult)
    (certificateID evidenceJSON : string) (now : Time) : IssuanceAttempt :=
  current
  |> IssuanceAttempt_with_Status IssuanceAttemptSigned
  |> IssuanceAttempt_with_LeaseExpiresAt zero_time
  |> IssuanceAttempt_with_CertificateID certificateID
  |> IssuanceAttempt_with_CertificatePEM (IssueResult_CertificatePEM result)
  |> IssuanceAttempt_with_SerialNumber (IssueResult_SerialNumber result)
  |> IssuanceAttempt_with_Subject (IssueResult_Subject result)
  |> IssuanceAttempt_with_NotBefore (IssueResult_NotBefore result)
  |> IssuanceAttempt_with_NotAfter (IssueResult_NotAfter result)
  |> IssuanceAttempt_with_SignedAt now
  |> IssuanceAttempt_with_LastError ""
  |> IssuanceAttempt_with_SigningEvidenceJSON evidenceJSON
  |> IssuanceAttempt_with_UpdatedAt now.

Definition persistSignedIssuanceAttempt (current : IssuanceAttempt) (result : IssueResult)
    (now : Time) : Svc IssuanceAttempt :=
  let* certificateID := newID in
  match json_evidence (IssueResult_SigningEvidence result) with
  | None => failM (EText "encode signing evidence")
  | Some evidenceJSON =>
      let signed := signedAttempt current result certificateID evidenceJSON now in
      do* WithinTx (repo (UpdateIssuanceAttemptIfCurrent signed current)) in
      retM signed
  end.

Definition issuedCertificate (enrollment : Enrollment) (attempt : IssuanceAttempt) (now : Time)
  : Certificate :=
  {| Certificate_ID := IssuanceAttempt_CertificateID attempt;
     Certificate_IdentityID := Enrollment_IdentityID enrollment;
     Certificate_IssuerID := Enrollment_IssuerID enrollment;
     Certificate_EnrollmentID := Enrollment_ID enrollment;
     Certificate_CertificateProfileID := Enrollment_CertificateProfileID enrollment;
     Certificate_SerialNumber := IssuanceAttempt_SerialNumber attempt;
     Certificate_Subject := IssuanceAttempt_Subject attempt;
     Certificate_DNSNames := Enrollment_RequestedDNSNames enrollment;
     Certificate_IPAddresses := Enrollment_RequestedIPAddresses enrollment;
     Certificate_NotBefore := IssuanceAttempt_NotBefore attempt;
     Certificate_NotAfter := IssuanceAttempt_NotAfter attempt;
     Certificate_Status := CertificateValid;
     Certificate_CertificatePEM := IssuanceAttempt_CertificatePEM attempt;
     Certificate_RenewalNotifiedAt := zero_time;
     Certificate_CreatedAt := now; Certificate_UpdatedAt := now |}.

(** The transaction of [finalizeSignedIssuanceAttempt]. *)
Definition finalizeTx (enrollmentID : string) (attempt : IssuanceAttempt) (now : Time)
  : Svc Certificate :=
  WithinTx (
    let* currentEnrollment := repo (GetEnrollment enrollmentID) in
    if Enrollment_Status currentEnrollment =s EnrollmentIssued
    then repo (GetCertificateByEnrollmentID enrollmentID)
    else
      do* return_if (Enrollment_Status currentEnrollment <>s EnrollmentApproved)
            ErrInvalidTransition in
      let* currentAttempt := repo (GetIssuanceAttempt enrollmentID) in
      do* return_if
        ((IssuanceAttempt_Status currentAttempt <>s IssuanceAttemptSigned)
         || (IssuanceAttempt_CertificateID currentAttempt <>s IssuanceAttempt_CertificateID attempt)
         || (IssuanceAttempt_SerialNumber currentAttempt <>s IssuanceAttempt_SerialNumber attempt))
        ErrInvalidTransition in
      let issuedEnrollment := currentEnrollment |> Enrollment_with_Status EnrollmentIssued
                                                |> Enrollment_with_UpdatedAt now in
      do* repo (UpdateEnrollmentIfStatus issuedEnrollment EnrollmentApproved) in
      let certificate := issuedCertificate currentEnrollment currentAttempt now in
      do* repo (CreateCertificate certificate) in
      let finalized := currentAttempt |> IssuanceAttempt_with_Status IssuanceAttemptFinalized
        |> IssuanceAttempt_with_FinalizedAt now |> IssuanceAttempt_with_UpdatedAt now in
      do* repo (UpdateIssuanceAttemptIfCurrent finalized currentAttempt) in
      retM certificate).

(** The transaction that marks an attempt as failed. *)
Definition markFailedTx (attempt : IssuanceAttempt) (err : goerr) (now : Time) : Svc unit :=
  let failed := attempt |> IssuanceAttempt_with_Status IssuanceAttemptFailed
    |> IssuanceAttempt_with_LastError (error_text err) |> IssuanceAttempt_with_UpdatedAt now in
  WithinTx (repo (UpdateIssuanceAttemptIfCurrent failed attempt)).

Definition finalizeSignedIssuanceAttempt (enrollmentID : string) (attempt : IssuanceAttempt)
    (now : Time) : Svc Certificate :=
  if IssuanceAttempt_Status attempt =s IssuanceAttemptFinalized
  then repo (GetCertificateByEnrollmentID enrollmentID)
  else
    do* return_if (IssuanceAttempt_Status attempt <>s IssuanceAttemptSigned) ErrInvalidTransition in
    let* r := catchM (finalizeTx enrollmentID attempt now) in
    match r with
    | Ok certificate => retM certificate
    | Err err =>
        if errors_Is err ErrInvalidTransition then
          let* existing := catchM (repo (GetCertificateByEnrollmentID enrollmentID)) in
          match existing with
          | Ok certificate => retM certificate
          | Err lookupErr =>
              if negb (errors_Is lookupErr ErrCertificateNotFound) then failM lookupErr
              else do* markFailedTx attempt err now in failM err
          end
        else failM err
    end.

(** ** The audit event of an issued certificate *)

Definition isIssuedEventOf (certificateID : string) (event : AuditEvent) : bool :=
  (AuditEvent_Action event =s "certificate.issued")
  && (AuditEvent_ResourceType event =s "certificate")
  && (AuditEvent_ResourceID event =s certificateID).

Definition addCertificatePolicyAuditFields (certificate : Certificate) (fields : Fields)
  : Svc Fields :=
  let unavailable := addPolicyDecisionAuditFields fields "unknown"
    "legacy_policy_evidence_unavailable" (legacyPolicyEvidenceRefs certificate) in
  let* er := catchM (repo (GetEnrollment (Certificate_EnrollmentID certificate))) in
  match er with
  | Err e => if errors_Is e ErrEnrollmentNotFound then retM unavailable else failM e
  | Ok enrollment =>
      let* ir := catchM (repo (GetIdentity (Certificate_IdentityID certificate))) in
      match ir with
      | Err e => if errors_Is e ErrIdentityNotFound then retM unavailable else failM e
      | Ok identity =>
          let allow profile := addPolicyDecisionAuditFields fields "allow" "issuance_policy_passed"
            (policyValidationEvidenceRefs (enrollmentProfilePolicyRequest enrollment) profile identity) in
          if Certificate_CertificateProfileID certificate <>s "" then
            let* pr := catchM (repo (GetCertificateProfile
              (Certificate_CertificateProfileID certificate))) in
            match pr with
            | Err e => if errors_Is e ErrCertificateProfileNotFound then retM unavailable else failM e
            | Ok profile => retM (allow profile)
            end
          else retM (allow zero_CertificateProfile)
      end
  end.

Definition addReplacementCertificateLinkage (certificate : Certificate) (fields : Fields)
  : Svc Fields :=
  let* er := catchM (repo (GetEnrollment (Certificate_EnrollmentID certificate))) in
  match er with
  | Err e => if errors_Is e ErrEnrollmentNotFound then retM fields else failM e
  | Ok enrollment =>
      if Enrollment_SourceCertificateID enrollment =s "" then retM fields
      else
        let fields : Fields :=
          <["source_certificate_id" := JStr (Enrollment_SourceCertificateID enrollment)]> fields in
        let* cr := catchM (repo (GetCertificate (Enrollment_SourceCertificateID enrollment))) in
        match cr with
        | Err e => if errors_Is e ErrCertificateNotFound then retM fields else failM e
        | Ok source => retM
            (<["successor_serial_number" := JStr (Certificate_SerialNumber certificate)]>
              (<["previous_serial_number" := JStr (Certificate_SerialNumber source)]> fields))
        end
  end.

(** The signing evidence kept with the attempt, or the classification of the
    issuer's key reference when there is none. *)
Definition addSigningAuditFields (certificate : Certificate) (fields : Fields) : Svc Fields :=
  let* ar := catchM (repo (GetIssuanceAttempt (Certificate_EnrollmentID certificate))) in
  let legacy :=
    let* ir := catchM (repo (GetIssuer (Certificate_IssuerID certificate))) in
    match ir with
    | Ok issuer => retM (legacyKeyProviderAuditFields (Issuer_KeyRef issuer) fields)
    | Err e => if errors_Is e ErrIssuerNotFound then retM fields else failM e
    end in
  match ar with
  | Ok attempt =>
      if TrimSpace (IssuanceAttempt_SigningEvidenceJSON attempt) <>s "" then
        match json_evidence_decode (IssuanceAttempt_SigningEvidenceJSON attempt) with
        | None => failM (EText "decode persisted signing evidence")
        | Some evidence =>
            match ValidateSigningEvidence evidence "certificate_issue"
                    (SigningEvidence_RequestedSignatureAlgorithm evidence) with
            | Err e => failM (EWrap "validate persisted signing evidence" e)
            | Ok _ => retM (coreSigningAuditFields evidence fields)
            end
        end
      else legacy
  | Err e => if negb (errors_Is e ErrIssuanceAttemptNotFound) then failM e else legacy
  end.

Definition ensureCertificateIssuedAuditEvent (actor : string) (certificate : Certificate)
    (now : Time) : Svc unit :=
  let* events := repo ListAuditEvents in
  if existsb (isIssuedEventOf (Certificate_ID certificate)) events then retM tt
  else WithinTx (
    let* fields := addCertificatePolicyAuditFields certificate
      (auditFields (certificateFields certificate)) in
    let* fields := addReplacementCertificateLinkage certificate fields in
    let* fields := addSigningAuditFields certificate fields in
    let* fields := addIdentityDeploymentTarget (Certificate_IdentityID certificate) fields in
    createAuditEvent actor "certificate.issued" "certificate" (Certificate_ID certificate) now
      fields).

(** The loop of [RepairMissingIssuanceAuditEvents]: the count of repaired
    certificates comes back with the error that ended the loop, if any; the
    set holds the certificates whose event was found or written. *)
Fixpoint repairLoop (actor : string) (now : Time) (certificates : list Certificate)
    (done : gset string) (repaired : nat) : Svc (nat * option goerr) :=
  match certificates with
  | [] => retM (repaired, None)
  | certificate :: rest =>
      if bool_decide (Certificate_ID certificate ∈ done)
      then repairLoop actor now rest done repaired
      else
        let* r := catchM (ensureCertificateIssuedAuditEvent actor certificate now) in
        match r with
        | Err err => retM (repaired, Some err)
        | Ok _ => repairLoop actor now rest ({[Certificate_ID certificate]} ∪ done) (S repaired)
        end
  end.

Definition issuedEventResources (events : list AuditEvent) : gset string :=
  list_to_set (AuditEvent_ResourceID <$> filter (λ e,
    ((AuditEvent_Action e =s "certificate.issued")
     && (AuditEvent_ResourceType e =s "certificate")) = true) events).

Definition RepairMissingIssuanceAuditEvents (actor : string) : Svc (nat * option goerr) :=
  let* certificates := repo ListCertificates in
  let* events := repo ListAuditEvents in
  let* now := now_ in
  repairLoop actor now certificates (issuedEventResources events) 0.

(** ** The whole operation *)

Definition validatePublicTLSLint (enrollment : Enrollment) (profile : CertificateProfile)
    (csrInfo : CSRInfo) : Svc unit :=
  if negb (CertificateProfile_PublicTLS profile) then retM tt
  else match lint_CheckPublicTLS with
       | None => failM ErrInvalidRequest
       | Some check => outside (λ t, check t (mkPublicTLSLintRequest enrollment profile csrInfo))
       end.

Definition issueRequest (enrollment : Enrollment) (issuer : Issuer) (profile : CertificateProfile)
    (now : Time) : IssueRequest :=
  {| IssueRequest_CSRPEM := Enrollment_CSRPEM enrollment;
     IssueRequest_IssuerCertificatePEM := Issuer_CertificatePEM issuer;
     IssueRequest_IssuerKeyRef := Issuer_KeyRef issuer;
     IssueRequest_AIAURL := Issuer_AIAURL issuer;
     IssueRequest_CRLDistributionPoints := Issuer_CRLDistributionPoints issuer;
     IssueRequest_Subject := Enrollment_RequestedSubject enrollment;
     IssueRequest_DNSNames := Enrollment_RequestedDNSNames enrollment;
     IssueRequest_IPAddresses := Enrollment_RequestedIPAddresses enrollment;
     IssueRequest_NotBefore := now;
     IssueRequest_NotAfter := Enrollment_RequestedNotAfter enrollment;
     IssueRequest_SignatureAlgorithm := profileSignatureAlgorithm profile;
     IssueRequest_ProfileID := CertificateProfile_ID profile;
     IssueRequest_BasicConstraintsCritical :=
       BasicConstraintsPolicy_Critical (CertificateProfile_BasicConstraints profile);
     IssueRequest_BasicConstraintsCA :=
       BasicConstraintsPolicy_CA (CertificateProfile_BasicConstraints profile);
     IssueRequest_BasicConstraintsMaxPathLen :=
       BasicConstraintsPolicy_MaxPathLen (CertificateProfile_BasicConstraints profile);
     IssueRequest_KeyUsageCritical :=
       StringListExtensionPolicy_Critical (CertificateProfile_KeyUsage profile);
     IssueRequest_KeyUsage := StringListExtensionPolicy_Values (CertificateProfile_KeyUsage profile);
     IssueRequest_ExtendedKeyUsageCritical :=
       StringListExtensionPolicy_Critical (CertificateProfile_ExtendedKeyUsage profile);
     IssueRequest_ExtendedKeyUsage :=
       StringListExtensionPolicy_Values (CertificateProfile_ExtendedKeyUsage profile);
     IssueRequest_SubjectKeyIdentifier := CertificateProfile_SubjectKeyIdentifier profile;
     IssueRequest_AuthorityKeyIdentifier := CertificateProfile_AuthorityKeyIdentifier profile |}.

(** Key check, signing, evidence check and persistence by the claim holder. *)
Definition signAndPersist (enrollment : Enrollment) (issuer : Issuer)
    (profile : CertificateProfile) (attempt : IssuanceAttempt) (now : Time)
  : Svc IssuanceAttempt :=
  do* outside (λ t, key_CheckReady t (Issuer_KeyRef issuer)) in
  let* r := catchM (outside (λ t, issuer_Issue t (issueRequest enrollment issuer profile now))) in
  match r with
  | Err err => failM (mapIssueError err)
  | Ok result =>
      match ValidateSigningEvidence (IssueResult_SigningEvidence result) "certificate_issue"
              (profileSignatureAlgorithm profile) with
      | Err err => failM (mapIssueError err)
      | Ok _ => persistSignedIssuanceAttempt attempt result now
      end
  end.

Definition IssueCertificate (actor enrollmentID : string) : Svc Certificate :=
  do* return_if (isBlank enrollmentID) ErrInvalidRequest in
  let* enrollment := repo (GetEnrollment enrollmentID) in
  if Enrollment_Status enrollment =s EnrollmentIssued then
    let* r := catchM (repo (GetCertificateByEnrollmentID enrollmentID)) in
    match r with
    | Ok certificate =>
        let* now := now_ in
        do* ensureCertificateIssuedAuditEvent actor certificate now in
        retM certificate
    | Err err => if negb (errors_Is err ErrCertificateNotFound) then failM err
                 else failM ErrInvalidTransition
    end
  else
    do* return_if (Enrollment_Status enrollment <>s EnrollmentApproved) ErrInvalidTransition in
    let* issuer := repo (GetIssuer (Enrollment_IssuerID enrollment)) in
    let* identity := repo (GetIdentity (Enrollment_IdentityID enrollment)) in
    do* return_if (productionPolicy
          && negb (Nat.eqb (length (identityCompletenessWarnings identity)) 0)) ErrInvalidRequest in
    let* profile := (if Enrollment_CertificateProfileID enrollment <>s ""
      then repo (GetCertificateProfile (Enrollment_CertificateProfileID enrollment))
      else retM zero_CertificateProfile) in
    let* now := now_ in
    let* csrInfo := (if profileRequiresCSRPolicy profile
      then inspectCSR (Enrollment_CSRPEM enrollment)
      else retM (mkCSRInfo "" [] [] "" 0 "" [])) in
    let policyRequest := enrollmentProfilePolicyRequest enrollment in
    let refs := policyValidationEvidenceRefs policyRequest profile identity in
    do* withEvidence refs (validateEnrollmentProfilePolicy policyRequest profile csrInfo now) in
    do* withEvidence refs (validateEnrollmentIdentityPolicy policyRequest identity) in
    do* validatePublicTLSLint enrollment profile csrInfo in
    let* claim := claimIssuanceAttempt enrollmentID now in
    let* attempt := (if snd claim then signAndPersist enrollment issuer profile (fst claim) now
                     else retM (fst claim)) in
    let* certificate := finalizeSignedIssuanceAttempt enrollmentID attempt now in
    do* ensureCertificateIssuedAuditEvent actor certificate now in
    retM certificate.
End Issuance.
