(* ===== verification/Outbox.v ===== *)
(** * The outbox ([lifecycle/outbox_dispatcher.go], [outbox_handler.go],
    [webhook_handler.go], retry and replay in [service.go])

    Messages written with the change they announce are delivered later by a
    dispatcher: claim with a processing lease, run the handler, then complete,
    retry with a jittered delay, or move to the dead-letter state. *)

From S2P Require Import Prelude GoLib Crypto Domain Core NetIP Requests AuditChain Store.
From S2P Require Import StoreInv Service Policy.

Definition defaultOutboxProcessingLease : Duration := (10 * Minute)%Z.

Definition outboxRetryDelays : list Duration := [Minute; 5 * Minute; 15 * Minute; Hour]%Z.

Definition effectiveOutboxMaxAttempts (message : OutboxMessage) : Z :=
  if Z.ltb 0 (OutboxMessage_MaxAttempts message) then OutboxMessage_MaxAttempts message
  else defaultOutboxMaxAttempts.

Definition outboxRetryDelayForAttempt (attemptCount : Z) : Duration :=
  if Z.leb attemptCount 1 then nth 0 outboxRetryDelays 0%Z
  else
    let index := (attemptCount - 1)%Z in
    let last := (Z.of_nat (length outboxRetryDelays) - 1)%Z in
    let index := if Z.leb (Z.of_nat (length outboxRetryDelays)) index then last else index in
    nth (Z.to_nat index) outboxRetryDelays 0%Z.

Definition nonNegativeUint64 (value : Z) : Z := if Z.leb value 0 then 0%Z else value.

(** The jitter is a hash of the message identifier and the attempt number. *)
Definition outboxRetryDelayForMessage (message : OutboxMessage) : Duration :=
  let base := outboxRetryDelayForAttempt (OutboxMessage_AttemptCount message) in
  let jitterMax := Z.quot base 10 in
  if Z.leb jitterMax 0 then base
  else
    let hash := fnv32a (str_bytes (OutboxMessage_ID message)
      ++ le_bytes8 (nonNegativeUint64 (OutboxMessage_AttemptCount message))) in
    (base + Z.rem hash (jitterMax + 1))%Z.

Definition outboxMessageForReplay (message : OutboxMessage) (now : Time) : OutboxMessage :=
  let message := message
    |> OutboxMessage_with_Status OutboxPending |> OutboxMessage_with_AvailableAt now
    |> OutboxMessage_with_ProcessingDeadlineAt zero_time |> OutboxMessage_with_AttemptCount 0 in
  let message := if Z.leb (OutboxMessage_MaxAttempts message) 0
    then OutboxMessage_with_MaxAttempts defaultOutboxMaxAttempts message else message in
  message |> OutboxMessage_with_LastError "" |> OutboxMessage_with_UpdatedAt now.

(** What the webhook handler reads from outside: the wall clock, the encoded
    delivery body (the payload decoded and wrapped), and the HTTP exchange,
    which answers with a status code. *)
Record WebhookPost := mkWebhookPost {
  wp_URL : string;
  wp_Event : string;
  wp_Delivery : string;
  wp_Timestamp : string;
  wp_Signature : option string;
  wp_Body : string;
}.

Class WebhookEnv := {
  wall_Now : nat → Time;
  webhook_body : OutboxMessage → res string;
  http_Do : nat → WebhookPost → res Z;
}.

Section Outbox.
Context `{Env}.

(** ** Dispatcher *)

(** [Some claimed] when this worker now holds the message. *)
Definition claim (message : OutboxMessage) : Svc (option OutboxMessage) :=
  let lost err := errors_Is err ErrInvalidTransition || errors_Is err ErrOutboxMessageNotFound in
  let currentStatus := OutboxMessage_Status message in
  if (currentStatus <>s OutboxPending) && (currentStatus <>s OutboxProcessing) then retM None
  else
    let* now := now_ in
    let take (message : OutboxMessage) :=
      let claimed := message |> OutboxMessage_with_Status OutboxProcessing
        |> OutboxMessage_with_ProcessingDeadlineAt (Add now defaultOutboxProcessingLease)
        |> OutboxMessage_with_UpdatedAt now in
      let* r := catchM (repo (UpdateOutboxMessageIfCurrent claimed message)) in
      match r with
      | Ok _ => retM (Some claimed)
      | Err err => if lost err then retM None else failM err
      end in
    if currentStatus =s OutboxProcessing then
      let recovered := message |> OutboxMessage_with_Status OutboxPending
        |> OutboxMessage_with_ProcessingDeadlineAt zero_time |> OutboxMessage_with_UpdatedAt now in
      let* r := catchM (repo (UpdateOutboxMessageIfCurrent recovered message)) in
      match r with
      | Ok _ => take recovered
      | Err err => if lost err then retM None else failM err
      end
    else take message.

Definition finish (message : OutboxMessage) (status : OutboxMessageStatus) (attempt : JobAttempt)
  : Svc unit :=
  WithinTx (
    let finished := message |> OutboxMessage_with_Status status
      |> OutboxMessage_with_ProcessingDeadlineAt zero_time
      |> OutboxMessage_with_UpdatedAt (JobAttempt_FinishedAt attempt) in
    do* repo (UpdateOutboxMessageIfCurrent finished message) in
    repo (CreateJobAttempt attempt)).

(** The outcome of one handler call: the message to store, its status, the
    status of the job attempt and the recorded error. *)
Definition attemptOutcome (claimed : OutboxMessage) (handlerErr : res unit) (finishedAt : Time)
  : OutboxMessage * OutboxMessageStatus * JobAttemptStatus * string :=
  match handlerErr with
  | Ok _ => (OutboxMessage_with_LastError "" claimed, OutboxCompleted, JobAttemptSucceeded, "")
  | Err err =>
      let errorMessage := error_text err in
      let claimed := claimed
        |> OutboxMessage_with_AttemptCount (wrap64 (OutboxMessage_AttemptCount claimed + 1)) in
      let claimed := claimed
        |> OutboxMessage_with_MaxAttempts (effectiveOutboxMaxAttempts claimed)
        |> OutboxMessage_with_LastError errorMessage in
      if Z.leb (OutboxMessage_MaxAttempts claimed) (OutboxMessage_AttemptCount claimed)
      then (claimed, OutboxDeadLetter, JobAttemptFailed, errorMessage)
      else (OutboxMessage_with_AvailableAt
              (Add finishedAt (outboxRetryDelayForMessage claimed)) claimed,
            OutboxPending, JobAttemptFailed, errorMessage)
  end.

(** One message of the batch: [false] when another worker holds it. *)
Definition processMessage (handler : OutboxMessage → Svc unit) (message : OutboxMessage) : Svc bool :=
  let* c := claim message in
  match c with
  | None => retM false
  | Some claimed =>
      let* startedAt := now_ in
      let* handlerErr := catchM (handler claimed) in
      let* finishedAt := now_ in
      let '(updated, nextStatus, attemptStatus, errorMessage) :=
        attemptOutcome claimed handlerErr finishedAt in
      let* id := newID in
      do* finish updated nextStatus {|
        JobAttempt_ID := id; JobAttempt_OutboxMessageID := OutboxMessage_ID updated;
        JobAttempt_Status := attemptStatus; JobAttempt_Error := errorMessage;
        JobAttempt_StartedAt := startedAt; JobAttempt_FinishedAt := finishedAt;
        JobAttempt_CreatedAt := finishedAt |} in
      retM true
  end.

(** The count comes back together with the error that ended the batch. *)
Fixpoint runLoop (handler : OutboxMessage → Svc unit) (messages : list OutboxMessage)
    (processed : nat) : Svc (nat * option goerr) :=
  match messages with
  | [] => retM (processed, None)
  | message :: rest =>
      let* r := catchM (processMessage handler message) in
      match r with
      | Err err => retM (processed, Some err)
      | Ok ok => runLoop handler rest (if ok then S processed else processed)
      end
  end.

Definition RunOnce (handler : OutboxMessage → Svc unit) (limit : Z) : Svc (nat * option goerr) :=
  let* now := now_ in
  let* messages := repo (ListDueOutboxMessages now limit) in
  runLoop handler messages 0.

(** ** Handlers *)

Definition OutboxHandler := OutboxMessage → Svc unit.

Definition ErrOutboxHandlerNotFound : goerr := EText "outbox handler not found".

(** [OutboxHandlerRegistry.HandleOutboxMessage]. *)
Definition registryHandler (handlers : gmap string OutboxHandler) : OutboxHandler := λ message,
  match handlers !! OutboxMessage_Type message with
  | None => failM (EWrap (OutboxMessage_Type message) ErrOutboxHandlerNotFound)
  | Some handler => handler message
  end.

Definition noopHandler : OutboxHandler := λ _, retM tt.

Definition lifecycleEventTypes : list string :=
  ["certificate.suspended"; "certificate.resumed"; "certificate.renewal_requested";
   "certificate.reissue_requested"; "certificate.expiration_warning"; "certificate.expired";
   "certificate.revoked"; "certificate.force_revoked"].

Definition handlersFor (handler : OutboxHandler) : gmap string OutboxHandler :=
  list_to_map ((λ t, (t, handler)) <$> lifecycleEventTypes).

Definition NewLifecycleOutboxHandler : OutboxHandler := registryHandler (handlersFor noopHandler).

Definition NewLifecycleOutboxHandlerWithWebhook (webhook : option OutboxHandler) : OutboxHandler :=
  match webhook with
  | None => NewLifecycleOutboxHandler
  | Some webhook => registryHandler (handlersFor webhook)
  end.

(** ** Webhook handler *)

Section Webhook.
Context `{WebhookEnv}.

Definition webhookEndpointMatches (endpoint : NotificationEndpoint) (eventType : string) : bool :=
  if (NotificationEndpoint_Type endpoint <>s NotificationEndpointWebhook)
     || (NotificationEndpoint_Status endpoint <>s NotificationEndpointActive) then false
  else match NotificationEndpoint_EventTypes endpoint with
       | [] => true
       | types => existsb (λ candidate, candidate =s eventType) types
       end.

Definition signWebhookPayload (secret timestamp data : string) : string :=
  "sha256=" +:+ hex_encode (hmac_sha256 secret (timestamp +:+ "." +:+ data)).

Definition postWebhook (endpoint : NotificationEndpoint) (message : OutboxMessage)
    (data : string) : Svc unit :=
  let* wall := outside (λ t, Ok (wall_Now t)) in
  let timestamp := format_RFC3339 wall in
  let* status := outside (λ t, http_Do t {|
    wp_URL := NotificationEndpoint_URL endpoint; wp_Event := OutboxMessage_Type message;
    wp_Delivery := OutboxMessage_ID message; wp_Timestamp := timestamp;
    wp_Signature := (if NotificationEndpoint_Secret endpoint <>s ""
      then Some (signWebhookPayload (NotificationEndpoint_Secret endpoint) timestamp data)
      else None);
    wp_Body := data |}) in
  return_if (Z.ltb status 200 || Z.leb 300 status) (EText "webhook delivery failed").

Definition recordWebhookDelivery (message : OutboxMessage) (endpoint : NotificationEndpoint)
    (current : WebhookDelivery) (status : JobAttemptStatus) (lastError : string) : Svc unit :=
  let* now := outside (λ t, Ok (wall_Now t)) in
  let createdAt := if IsZero (WebhookDelivery_CreatedAt current) then now
                   else WebhookDelivery_CreatedAt current in
  repo (UpsertWebhookDelivery {|
    WebhookDelivery_OutboxMessageID := OutboxMessage_ID message;
    WebhookDelivery_EndpointID := NotificationEndpoint_ID endpoint;
    WebhookDelivery_Status := status;
    WebhookDelivery_AttemptCount := wrap64 (WebhookDelivery_AttemptCount current + 1);
    WebhookDelivery_LastError := lastError; WebhookDelivery_LastAttemptedAt := now;
    WebhookDelivery_CreatedAt := createdAt; WebhookDelivery_UpdatedAt := now |}).

(** The delivery row of an endpoint; the zero value when there is none. *)
Definition currentDelivery (message : OutboxMessage) (endpoint : NotificationEndpoint)
  : Svc WebhookDelivery :=
  let* r := catchM (repo (GetWebhookDelivery (OutboxMessage_ID message)
    (NotificationEndpoint_ID endpoint))) in
  match r with
  | Ok delivery => retM delivery
  | Err err => if negb (errors_Is err ErrWebhookDeliveryNotFound) then failM err
               else retM zero_WebhookDelivery
  end.

Definition deliverTo (message : OutboxMessage) (data : string) (endpoint : NotificationEndpoint)
  : Svc unit :=
  if negb (webhookEndpointMatches endpoint (OutboxMessage_Type message)) then retM tt
  else
    let* delivery := currentDelivery message endpoint in
    if WebhookDelivery_Status delivery =s JobAttemptSucceeded then retM tt
    else
      let* posted := catchM (postWebhook endpoint message data) in
      match posted with
      | Err err =>
          do* recordWebhookDelivery message endpoint delivery JobAttemptFailed (error_text err) in
          failM err
      | Ok _ => recordWebhookDelivery message endpoint delivery JobAttemptSucceeded ""
      end.

(** [WebhookOutboxHandler.HandleOutboxMessage]. *)
Definition webhookHandler : OutboxHandler := λ message,
  let* endpoints := repo ListNotificationEndpoints in
  let* data := liftM (webhook_body message) in
  forM endpoints (deliverTo message data).
End Webhook.

(** ** Retry and replay by an operator *)

Definition RetryOutboxMessage (actor id : string) : Svc OutboxMessage :=
  do* return_if (isBlank id) ErrInvalidRequest in
  let* now := now_ in
  let* message := repo (GetOutboxMessage id) in
  let currentStatus := OutboxMessage_Status message in
  do* return_if ((currentStatus <>s OutboxDeadLetter) && (currentStatus <>s OutboxFailed))
        ErrInvalidTransition in
  let message := outboxMessageForReplay message now in
  do* WithinTx (
    do* repo (UpdateOutboxMessageStatusIfStatus message currentStatus) in
    createAuditEvent actor "outbox.retry_requested" "outbox_message" (OutboxMessage_ID message) now
      (auditFields [("outbox_message_id", OutboxMessage_ID message);
                    ("outbox_message_type", OutboxMessage_Type message)])) in
  retM message.

Fixpoint replayLoop (req : ReplayDeadLetterOutboxRequest) (now : Time)
    (messages replayed : list OutboxMessage) : Svc (list OutboxMessage) :=
  match messages with
  | [] => retM replayed
  | message :: rest =>
      if Z.leb (ReplayDeadLetterOutboxRequest_Limit req) (Z.of_nat (length replayed))
      then retM replayed
      else if (OutboxMessage_Type message <>s ReplayDeadLetterOutboxRequest_EventType req)
           || Before (OutboxMessage_CreatedAt message) (ReplayDeadLetterOutboxRequest_CreatedFrom req)
           || After (OutboxMessage_CreatedAt message) (ReplayDeadLetterOutboxRequest_CreatedTo req)
      then replayLoop req now rest replayed
      else
        let updated := outboxMessageForReplay message now in
        do* repo (UpdateOutboxMessageStatusIfStatus updated OutboxDeadLetter) in
        replayLoop req now rest (replayed ++ [updated])
  end.

Definition ReplayDeadLetterOutboxMessages (actor : string) (req : ReplayDeadLetterOutboxRequest)
  : Svc ReplayDeadLetterOutboxResult :=
  do* return_if (isBlank (ReplayDeadLetterOutboxRequest_EventType req)
        || IsZero (ReplayDeadLetterOutboxRequest_CreatedFrom req)
        || IsZero (ReplayDeadLetterOutboxRequest_CreatedTo req)
        || Before (ReplayDeadLetterOutboxRequest_CreatedTo req)
             (ReplayDeadLetterOutboxRequest_CreatedFrom req)
        || Z.leb (ReplayDeadLetterOutboxRequest_Limit req) 0) ErrInvalidRequest in
  let* now := now_ in
  WithinTx (
    let* messages := repo (ListOutboxMessages OutboxDeadLetter) in
    let* replayed := replayLoop req now messages [] in
    let* resourceID := newID in
    do* createAuditEvent actor "outbox.bulk_replay_requested" "outbox_messages" resourceID now
      (auditFields [("outbox_message_type", ReplayDeadLetterOutboxRequest_EventType req);
        ("created_from", format_RFC3339Nano (ReplayDeadLetterOutboxRequest_CreatedFrom req));
        ("created_to", format_RFC3339Nano (ReplayDeadLetterOutboxRequest_CreatedTo req));
        ("limit", itoa (ReplayDeadLetterOutboxRequest_Limit req));
        ("replayed_count", itoa (Z.of_nat (length replayed)))]) in
    retM (mkReplayDeadLetterOutboxResult replayed)).
End Outbox.
