(* ===== verification/CRL.v ===== *)
(** * CRL publication ([lifecycle/service.go])

    Publishing a CRL is a leased single-writer protocol per distribution point:
    claim the next number, sign outside any transaction, then store the
    publication, its audit event and the release of the claim together. *)

From S2P Require Import Prelude GoLib Crypto Domain Core NetIP Requests AuditChain Store.
From S2P Require Import StoreInv Service Policy.

Definition defaultCRLGenerationLease : Duration := (5 * Minute)%Z.

Definition nextCRLNumber (publications : list CRLPublication) (distributionPoint : string) : Z :=
  let maxNumber := fold_left (λ maxNumber p,
    if (CRLPublication_DistributionPoint p =s distributionPoint)
       && Z.ltb maxNumber (CRLPublication_CRLNumber p)
    then CRLPublication_CRLNumber p else maxNumber) publications 0%Z in
  wrap64 (maxNumber + 1).

Definition latestCRLPublication (publications : list CRLPublication) (distributionPoint : string)
  : res CRLPublication :=
  let pick (acc : option CRLPublication) (p : CRLPublication) :=
    if CRLPublication_DistributionPoint p <>s distributionPoint then acc
    else match acc with
      | None => Some p
      | Some latest =>
          if Z.ltb (CRLPublication_CRLNumber latest) (CRLPublication_CRLNumber p)
             || (Z.eqb (CRLPublication_CRLNumber p) (CRLPublication_CRLNumber latest)
                 && After (CRLPublication_CreatedAt p) (CRLPublication_CreatedAt latest))
          then Some p else acc
      end in
  match fold_left pick publications None with
  | Some latest => Ok latest
  | None => Err ErrCRLPublicationNotFound
  end.

Section CRL.
Context `{Env}.

Definition claimCRLGeneration (issuerID distributionPoint : string) (now : Time)
  : Svc CRLGenerationClaim :=
  WithinTx (
    let* publications := repo (ListCRLPublicationsByIssuer issuerID) in
    let nextNumber := nextCRLNumber publications distributionPoint in
    let* r := catchM (repo (GetCRLGenerationClaim issuerID distributionPoint)) in
    match r with
    | Err err =>
        if errors_Is err ErrCRLGenerationClaimNotFound then
          let claim := {| CRLGenerationClaim_IssuerID := issuerID;
            CRLGenerationClaim_DistributionPoint := distributionPoint;
            CRLGenerationClaim_CRLNumber := nextNumber;
            CRLGenerationClaim_LeaseExpiresAt := Add now defaultCRLGenerationLease;
            CRLGenerationClaim_CreatedAt := now; CRLGenerationClaim_UpdatedAt := now |} in
          do* repo (CreateCRLGenerationClaim claim) in
          retM claim
        else failM err
    | Ok current =>
        do* return_if (After (CRLGenerationClaim_LeaseExpiresAt current) now)
              ErrInvalidTransition in
        let claim := current |> CRLGenerationClaim_with_CRLNumber nextNumber
          |> CRLGenerationClaim_with_LeaseExpiresAt (Add now defaultCRLGenerationLease)
          |> CRLGenerationClaim_with_UpdatedAt now in
        do* repo (UpdateCRLGenerationClaimIfCurrent claim current) in
        retM claim
    end).

(** The deferred release; its own error is dropped. *)
Definition releaseCRLClaim (claim : CRLGenerationClaim) : Svc unit :=
  do* catchM (WithinTx (
    let* r := catchM (repo (DeleteCRLGenerationClaimIfCurrent claim)) in
    match r with
    | Ok _ => retM tt
    | Err err => if errors_Is err ErrCRLGenerationClaimNotFound
                    || errors_Is err ErrInvalidTransition then retM tt else failM err
    end)) in
  retM tt.

Definition revokedForCore (entry : RevokedCertificateEntry) : RevokedCertificate :=
  mkRevokedCertificate (RevokedCertificateEntry_SerialNumber entry)
    (RevokedCertificateEntry_RevokedAt entry) (RevokedCertificateEntry_Reason entry).

(** The transaction that stores the signed CRL. *)
Definition storeCRL (actor : string) (claim : CRLGenerationClaim) (publication : CRLPublication)
    (evidence : SigningEvidence) (now : Time) : Svc unit :=
  WithinTx (
    do* repo (GetIssuer (CRLPublication_IssuerID publication)) in
    do* repo (CreateCRLPublication publication) in
    let fields := coreSigningAuditFields evidence (list_to_map [
      ("issuer_id", JStr (CRLPublication_IssuerID publication));
      ("crl_publication_id", JStr (CRLPublication_ID publication));
      ("distribution_point", JStr (CRLPublication_DistributionPoint publication));
      ("crl_number", JInt (CRLPublication_CRLNumber publication));
      ("claim_mode", JStr "leased_single_writer")]) in
    do* createAuditEvent actor "crl.published" "crl_publication" (CRLPublication_ID publication) now
          fields in
    repo (DeleteCRLGenerationClaimIfCurrent claim)).

(** What [PublishCRL] does while it holds the claim. *)
Definition publishClaimedCRL (actor : string) (req : PublishCRLRequest) (issuer : Issuer)
    (claim : CRLGenerationClaim) (now : Time) : Svc CRLPublication :=
  let* revokedEntries := repo (ListRevocationsByIssuer (PublishCRLRequest_IssuerID req)) in
  do* outside (λ t, key_CheckReady t (Issuer_KeyRef issuer)) in
  let* r := catchM (outside (λ t, issuer_GenerateCRL t {|
    GenerateCRLRequest_IssuerCertificatePEM := Issuer_CertificatePEM issuer;
    GenerateCRLRequest_IssuerKeyRef := Issuer_KeyRef issuer;
    GenerateCRLRequest_CRLNumber := CRLGenerationClaim_CRLNumber claim;
    GenerateCRLRequest_ThisUpdate := now;
    GenerateCRLRequest_NextUpdate := PublishCRLRequest_NextUpdate req;
    GenerateCRLRequest_RevokedCertificates := revokedForCore <$> revokedEntries |})) in
  match r with
  | Err err => failM (mapCRLError err)
  | Ok result =>
      match ValidateSigningEvidence (GenerateCRLResult_SigningEvidence result)
              "crl_generate_sign" "sha256" with
      | Err err => failM (mapCRLError err)
      | Ok _ =>
          let* id := newID in
          let publication := {| CRLPublication_ID := id;
            CRLPublication_IssuerID := PublishCRLRequest_IssuerID req;
            CRLPublication_DistributionPoint := PublishCRLRequest_DistributionPoint req;
            CRLPublication_CRLNumber := CRLGenerationClaim_CRLNumber claim;
            CRLPublication_ThisUpdate := now;
            CRLPublication_NextUpdate := PublishCRLRequest_NextUpdate req;
            CRLPublication_Status := CRLPublicationPublished;
            CRLPublication_CRLPEM := GenerateCRLResult_CRLPEM result;
            CRLPublication_CreatedAt := now; CRLPublication_UpdatedAt := now |} in
          do* storeCRL actor claim publication (GenerateCRLResult_SigningEvidence result) now in
          retM publication
      end
  end.

Definition PublishCRL (actor : string) (req : PublishCRLRequest) : Svc CRLPublication :=
  let* now := now_ in
  do* liftM (validatePublishCRLRequest req now) in
  let* issuer := repo (GetIssuer (PublishCRLRequest_IssuerID req)) in
  let* claim := claimCRLGeneration (PublishCRLRequest_IssuerID req)
    (PublishCRLRequest_DistributionPoint req) now in
  let* r := catchM (publishClaimedCRL actor req issuer claim now) in
  match r with
  | Ok publication => retM publication
  | Err err => do* releaseCRLClaim claim in failM err
  end.
End CRL.
