(* ===== verification/APIKeys.v ===== *)
(** * API keys ([lifecycle/service.go])

    Tokens are stored as digests, plain or keyed with a pepper; authentication
    finds the key of a token, checks that it may be used, and records the use. *)

From Stdlib Require Import Ascii.
From S2P Require Import Prelude GoLib Crypto Domain Core NetIP Requests AuditChain Store.
From S2P Require Import StoreInv Service Policy.

Definition HashAPIKeyToken (token : string) : string := "sha256:" +:+ hex_encode (Sum256 token).

Definition HashAPIKeyTokenWithPepper (token pepper : string) : string :=
  let pepper := TrimSpace pepper in
  if pepper =s "" then HashAPIKeyToken token
  else "hmac-sha256:" +:+ hex_encode (hmac_sha256 pepper token).

Definition APIKeyTokenFingerprint (tokenHash : string) : string :=
  match cut_byte ":"%char tokenHash with
  | None => ""
  | Some (algorithm, hash) =>
      if (algorithm =s "") || (hash =s "") then ""
      else
        let hash := if Nat.ltb 16 (String.length hash) then str_take 16 hash else hash in
        algorithm +:+ ":" +:+ hash
  end.

(** ** [base64.RawURLEncoding] *)

Definition base64_alphabet : string :=
  "ABCDEFGHIJKLMNOPQRSTUVWXYZabcdefghijklmnopqrstuvwxyz0123456789-_".
Definition base64_digit (n : Z) : ascii :=
  default "A"%char (String.list_ascii_of_string base64_alphabet !! Z.to_nat n).
Fixpoint base64_raw_url (l : list Z) : string :=
  match l with
  | a :: b :: c :: rest =>
      String.String (base64_digit (a / 4))
        (String.String (base64_digit (a mod 4 * 16 + b / 16))
          (String.String (base64_digit (b mod 16 * 4 + c / 64))
            (String.String (base64_digit (c mod 64)) (base64_raw_url rest))))
  | [a; b] =>
      String.String (base64_digit (a / 4))
        (String.String (base64_digit (a mod 4 * 16 + b / 16))
          (String.String (base64_digit (b mod 16 * 4)) EmptyString))
  | [a] =>
      String.String (base64_digit (a / 4))
        (String.String (base64_digit (a mod 4 * 16)) EmptyString)
  | [] => EmptyString
  end.

Example base64_sample : base64_raw_url (str_bytes "any carnal pleas") = "YW55IGNhcm5hbCBwbGVhcw".
Proof. reflexivity. Qed.

Section APIKeys.
Context `{Env}.

Definition hashAPIKeyToken (token : string) : string := HashAPIKeyTokenWithPepper token apiKeyPepper.

(** With a pepper the keyed digest is tried first; keys stored before the
    pepper was configured still match the plain digest. *)
Definition getAPIKeyByToken (token : string) : Svc APIKey :=
  if TrimSpace apiKeyPepper <>s "" then
    let* r := catchM (repo (GetAPIKeyByTokenHash (hashAPIKeyToken token))) in
    match r with
    | Ok key => retM key
    | Err err => if negb (errors_Is err ErrAPIKeyNotFound) then failM err
                 else repo (GetAPIKeyByTokenHash (HashAPIKeyToken token))
    end
  else repo (GetAPIKeyByTokenHash (HashAPIKeyToken token)).

Definition AuthenticateAPIKey (token : string) : Svc APIKey :=
  let token := TrimSpace token in
  do* return_if (token =s "") ErrUnauthorized in
  let* r := catchM (getAPIKeyByToken token) in
  match r with
  | Err err => if errors_Is err ErrAPIKeyNotFound then failM ErrUnauthorized else failM err
  | Ok key =>
      do* return_if ((APIKey_Status key <>s APIKeyActive) || isBlank (APIKey_Actor key))
            ErrUnauthorized in
      do* return_if (Nat.eqb (length (APIKey_Scopes key)) 0) ErrUnauthorized in
      let* now := now_ in
      do* return_if (negb (IsZero (APIKey_ExpiresAt key)) && negb (After (APIKey_ExpiresAt key) now))
            ErrUnauthorized in
      let key := key |> APIKey_with_LastUsedAt now |> APIKey_with_UpdatedAt now in
      let* u := catchM (repo (UpdateAPIKeyIfStatus key APIKeyActive)) in
      match u with
      | Ok _ => retM key
      | Err err => if errors_Is err ErrAPIKeyNotFound || errors_Is err ErrInvalidTransition
                   then failM ErrUnauthorized else failM err
      end
  end.

Definition generateAPIKeyToken : Svc string :=
  let* raw := outside rand_bytes in retM (base64_raw_url raw).

(** The key that already holds a configured token must be usable. *)
Definition reuseAPIKey (existing : APIKey) : res APIKey :=
  do! check_not ((APIKey_Status existing <>s APIKeyActive) || isBlank (APIKey_Actor existing)
                 || Nat.eqb (length (APIKey_Scopes existing)) 0) ErrInvalidTransition in
  do! validateAPIKeyScopes (APIKey_Scopes existing) in
  do! check_not (negb (oneOf APIKeyScopeOperator (APIKey_Scopes existing))) ErrInvalidTransition in
  Ok existing.

Definition EnsureAPIKey (actor : string) (req : EnsureAPIKeyRequest) : Svc APIKey :=
  do* return_if (isBlank (EnsureAPIKeyRequest_Name req) || isBlank (EnsureAPIKeyRequest_Token req)
                 || isBlank (EnsureAPIKeyRequest_Actor req)) ErrInvalidRequest in
  let scopes := match EnsureAPIKeyRequest_Scopes req with
    | [] => [APIKeyScopeOperator] | scopes => scopes end in
  do* liftM (validateAPIKeyScopes scopes) in
  let tokenHash := hashAPIKeyToken (EnsureAPIKeyRequest_Token req) in
  let* r := catchM (getAPIKeyByToken (EnsureAPIKeyRequest_Token req)) in
  match r with
  | Ok existing => liftM (reuseAPIKey existing)
  | Err err =>
      if negb (errors_Is err ErrAPIKeyNotFound) then failM err
      else
        let* now := now_ in
        let* id := newID in
        let key := {| APIKey_ID := id; APIKey_Name := TrimSpace (EnsureAPIKeyRequest_Name req);
          APIKey_TokenHash := tokenHash; APIKey_Status := APIKeyActive;
          APIKey_Actor := TrimSpace (EnsureAPIKeyRequest_Actor req); APIKey_Scopes := scopes;
          APIKey_ExpiresAt := zero_time; APIKey_LastUsedAt := zero_time;
          APIKey_CreatedAt := now; APIKey_UpdatedAt := now |} in
        do* WithinTx (
          do* repo (Store.CreateAPIKey key) in
          createAuditEvent actor "api_key.created" "api_key" (APIKey_ID key) now
            (auditFields [("api_key_id", APIKey_ID key); ("api_key_name", APIKey_Name key);
                          ("api_key_actor", APIKey_Actor key)])) in
        retM key
  end.

Definition CreateAPIKey (actor : string) (req : CreateAPIKeyRequest) : Svc CreateAPIKeyResult :=
  do* return_if (isBlank (CreateAPIKeyRequest_Name req) || isBlank (CreateAPIKeyRequest_Actor req)
                 || Nat.eqb (length (CreateAPIKeyRequest_Scopes req)) 0) ErrInvalidRequest in
  do* liftM (validateAPIKeyScopes (CreateAPIKeyRequest_Scopes req)) in
  let* now := now_ in
  do* return_if (negb (IsZero (CreateAPIKeyRequest_ExpiresAt req))
                 && negb (After (CreateAPIKeyRequest_ExpiresAt req) now)) ErrInvalidRequest in
  let* token := generateAPIKeyToken in
  let* id := newID in
  let key := {| APIKey_ID := id; APIKey_Name := TrimSpace (CreateAPIKeyRequest_Name req);
    APIKey_TokenHash := hashAPIKeyToken token; APIKey_Status := APIKeyActive;
    APIKey_Actor := TrimSpace (CreateAPIKeyRequest_Actor req);
    APIKey_Scopes := CreateAPIKeyRequest_Scopes req;
    APIKey_ExpiresAt := CreateAPIKeyRequest_ExpiresAt req; APIKey_LastUsedAt := zero_time;
    APIKey_CreatedAt := now; APIKey_UpdatedAt := now |} in
  do* WithinTx (
    do* repo (Store.CreateAPIKey key) in
    createAuditEvent actor "api_key.created" "api_key" (APIKey_ID key) now (apiKeyAuditFields key)) in
  retM (mkCreateAPIKeyResult key token).

Definition DisableAPIKey (actor id : string) : Svc APIKey :=
  do* return_if (isBlank id) ErrInvalidRequest in
  let* now := now_ in
  WithinTx (
    let* key := repo (GetAPIKey id) in
    do* return_if (APIKey_Status key <>s APIKeyActive) ErrInvalidTransition in
    let key := key |> APIKey_with_Status APIKeyDisabled |> APIKey_with_UpdatedAt now in
    do* repo (UpdateAPIKeyIfStatus key APIKeyActive) in
    do* createAuditEvent actor "api_key.disabled" "api_key" (APIKey_ID key) now
          (addStatusTransition (apiKeyAuditFields key) APIKeyActive (APIKey_Status key)) in
    retM key).

Definition RotateAPIKey (actor id : string) : Svc CreateAPIKeyResult :=
  do* return_if (isBlank id) ErrInvalidRequest in
  let* token := generateAPIKeyToken in
  let* now := now_ in
  let* newKey := WithinTx (
    let* oldKey := repo (GetAPIKey id) in
    do* return_if ((APIKey_Status oldKey <>s APIKeyActive)
          || (negb (IsZero (APIKey_ExpiresAt oldKey)) && negb (After (APIKey_ExpiresAt oldKey) now)))
          ErrInvalidTransition in
    let oldStatus := APIKey_Status oldKey in
    let oldKey := oldKey |> APIKey_with_Status APIKeyDisabled |> APIKey_with_UpdatedAt now in
    do* repo (UpdateAPIKeyIfStatus oldKey APIKeyActive) in
    let* newKeyID := newID in
    let newKey := {| APIKey_ID := newKeyID; APIKey_Name := APIKey_Name oldKey;
      APIKey_TokenHash := hashAPIKeyToken token; APIKey_Status := APIKeyActive;
      APIKey_Actor := APIKey_Actor oldKey; APIKey_Scopes := APIKey_Scopes oldKey;
      APIKey_ExpiresAt := APIKey_ExpiresAt oldKey; APIKey_LastUsedAt := zero_time;
      APIKey_CreatedAt := now; APIKey_UpdatedAt := now |} in
    do* repo (Store.CreateAPIKey newKey) in
    let fields := addStatusTransition (apiKeyAuditFields newKey) oldStatus (APIKey_Status newKey) in
    do* createAuditEvent actor "api_key.rotated" "api_key" (APIKey_ID newKey) now
          (<["rotated_from_api_key_id" := JStr (APIKey_ID oldKey)]> fields) in
    retM newKey) in
  retM (mkCreateAPIKeyResult newKey token).
End APIKeys.

(** * Audit maintenance ([lifecycle/service.go])

    Retention pruning of the audit log and the record of a failed API call. *)

Record APIFailureAuditRequest := mkAPIFailureAuditRequest {
  afr_Method : string;
  afr_Path : string;
  afr_StatusCode : Z;
  afr_Err : goerr;
}.

Section AuditService.
Context `{Env}.

Definition actorOrAnonymous (actor : string) : string :=
  if isBlank actor then "anonymous" else actor.

(** The count is returned next to the error: it is the number of events the
    transaction deleted, also when the transaction is then undone. *)
Definition PruneAuditEventsBefore (actor : string) (before : Time) : Svc (nat * option goerr) :=
  let* checkedAt := (if IsZero before then retM zero_time else now_) in
  if IsZero before || negb (Before before checkedAt)
  then retM (0, Some (ErrInvalidRequest : goerr))
  else
    let actor := actorOrAnonymous actor in
    let* now := now_ in
    λ w,
      let tx :=
        let* deleted := repo (DeleteAuditEventsBefore before) in
        let* resourceID := newID in
        do* createAuditEvent actor "audit.retention_pruned" "audit" resourceID now
              (list_to_map [("retention_cutoff", JStr (format_RFC3339 before));
                            ("deleted_count", JInt (Z.of_nat deleted))]) in
        retM deleted in
      let attempted := match fst (repo (DeleteAuditEventsBefore before) w) with
        | Ok deleted => deleted | Err _ => 0 end in
      match WithinTx tx w with
      | (Ok deleted, w') => (Ok (deleted, None), w')
      | (Err err, w') => (Ok (attempted, Some err), w')
      end.

Definition RecordAPIFailure (actor : string) (req : APIFailureAuditRequest) : Svc unit :=
  let actor := actorOrAnonymous actor in
  let* now := now_ in
  let fields : Fields := list_to_map [("http_method", JStr (afr_Method req));
    ("http_path", JStr (afr_Path req)); ("http_status", JInt (afr_StatusCode req))] in
  let reason := policyDecisionReason (afr_Err req) in
  let fields := if reason <>s ""
    then addPolicyDecisionAuditFields fields "reject" reason (policyDecisionEvidenceRefs (afr_Err req))
    else fields in
  WithinTx (
    let* resourceID := newID in
    createAuditEventWithResult actor "api.request_failed" "api" resourceID now fields "error"
      (auditErrorCode (afr_Err req))).
End AuditService.
