(* ===== verification/OCSP.v ===== *)
(** * OCSP responders and responses ([lifecycle/service.go])

    Registration, disabling and rotation of delegated responders, and the
    answer to an OCSP request: the status of each requested certificate and
    the signer that answers for its issuer. *)

From Stdlib Require Import Ascii.
From S2P Require Import Prelude GoLib Crypto Domain Core NetIP Requests AuditChain Store.
From S2P Require Import StoreInv Service Policy.

Definition nul : string := bytes_str [0].

Definition ocspIssuerSerialKey (issuerID serialNumber : string) : string :=
  issuerID +:+ nul +:+ serialNumber.

Definition firstOCSPSerial (ids : list OCSPCertificateID) : string :=
  match ids with [] => "" | id :: _ => OCSPCertificateID_SerialNumber id end.
Definition firstOCSPStatus (statuses : list OCSPCertificateStatus) : string :=
  match statuses with [] => "" | s :: _ => OCSPCertificateStatus_Status s end.

Section OCSP.
Context `{Env}.

(** ** Responders *)

Definition validateOCSPResponder (issuer : Issuer) (certificatePEM : string) : Svc unit :=
  let* r := catchM (outside (λ t,
    issuer_ValidateOCSPResponder t (Issuer_CertificatePEM issuer) certificatePEM)) in
  match r with
  | Err err => failM (mapOCSPResponseError err)
  | Ok validation =>
      return_if (negb (ValidateOCSPResponderResult_Valid validation))
        ErrOCSPResponderValidationFailed
  end.

Definition responderFields (responder : OCSPResponder) : Fields :=
  auditFields [("issuer_id", OCSPResponder_IssuerID responder);
               ("ocsp_responder_id", OCSPResponder_ID responder)].

Definition CreateOCSPResponder (actor : string) (req : CreateOCSPResponderRequest)
  : Svc OCSPResponder :=
  do* return_if (isBlank (CreateOCSPResponderRequest_IssuerID req)
        || isBlank (CreateOCSPResponderRequest_Name req)
        || isBlank (CreateOCSPResponderRequest_CertificatePEM req)
        || isBlank (CreateOCSPResponderRequest_KeyRef req)) ErrInvalidRequest in
  do* return_if (productionPolicy && (Class_ (CreateOCSPResponderRequest_KeyRef req) =s ClassFile))
        ErrInvalidRequest in
  do* liftM (validateSupportedSigningKeyRef (CreateOCSPResponderRequest_KeyRef req)) in
  let* now := now_ in
  let* issuer := repo (GetIssuer (CreateOCSPResponderRequest_IssuerID req)) in
  let* active := catchM (repo (GetActiveOCSPResponderByIssuer
    (CreateOCSPResponderRequest_IssuerID req))) in
  do* match active with
      | Ok _ => failM ErrInvalidTransition
      | Err err => if negb (errors_Is err ErrOCSPResponderNotFound) then failM err else retM tt
      end in
  do* validateOCSPResponder issuer (CreateOCSPResponderRequest_CertificatePEM req) in
  let* id := newID in
  let responder := {| OCSPResponder_ID := id;
    OCSPResponder_IssuerID := CreateOCSPResponderRequest_IssuerID req;
    OCSPResponder_Name := CreateOCSPResponderRequest_Name req;
    OCSPResponder_Status := OCSPResponderActive;
    OCSPResponder_CertificatePEM := CreateOCSPResponderRequest_CertificatePEM req;
    OCSPResponder_KeyRef := CreateOCSPResponderRequest_KeyRef req;
    OCSPResponder_CreatedAt := now; OCSPResponder_UpdatedAt := now |} in
  do* WithinTx (
    do* repo (Store.CreateOCSPResponder responder) in
    createAuditEvent actor "ocsp_responder.created" "ocsp_responder" (OCSPResponder_ID responder) now
      (legacyKeyProviderAuditFields (CreateOCSPResponderRequest_KeyRef req)
         (responderFields responder))) in
  retM responder.

Definition ListOCSPRespondersByIssuer (issuerID : string) : Svc (list OCSPResponder) :=
  do* return_if (isBlank issuerID) ErrInvalidRequest in
  do* repo (GetIssuer issuerID) in
  repo (Store.ListOCSPRespondersByIssuer issuerID).

Definition DisableOCSPResponder (actor issuerID responderID : string) : Svc OCSPResponder :=
  do* return_if (isBlank issuerID || isBlank responderID) ErrInvalidRequest in
  let* now := now_ in
  WithinTx (
    do* repo (GetIssuer issuerID) in
    let* responder := repo (GetOCSPResponder responderID) in
    do* return_if (OCSPResponder_IssuerID responder <>s issuerID) ErrOCSPResponderNotFound in
    do* return_if (OCSPResponder_Status responder <>s OCSPResponderActive) ErrInvalidTransition in
    let responder := responder |> OCSPResponder_with_Status OCSPResponderDisabled
                               |> OCSPResponder_with_UpdatedAt now in
    do* repo (UpdateOCSPResponderIfStatus responder OCSPResponderActive) in
    do* createAuditEvent actor "ocsp_responder.disabled" "ocsp_responder"
          (OCSPResponder_ID responder) now (responderFields responder) in
    retM responder).

(** Unlike [CreateOCSPResponder], no check of the key reference. *)
Definition RotateOCSPResponder (actor : string) (req : RotateOCSPResponderRequest)
  : Svc OCSPResponder :=
  do* return_if (isBlank (RotateOCSPResponderRequest_IssuerID req)
        || isBlank (RotateOCSPResponderRequest_Name req)
        || isBlank (RotateOCSPResponderRequest_CertificatePEM req)
        || isBlank (RotateOCSPResponderRequest_KeyRef req)) ErrInvalidRequest in
  let* now := now_ in
  let* issuer := repo (GetIssuer (RotateOCSPResponderRequest_IssuerID req)) in
  let currentActive :=
    let* active := catchM (repo (GetActiveOCSPResponderByIssuer
      (RotateOCSPResponderRequest_IssuerID req))) in
    match active with
    | Ok responder => retM responder
    | Err err => if errors_Is err ErrOCSPResponderNotFound then failM ErrInvalidTransition
                 else failM err
    end in
  do* currentActive in
  do* validateOCSPResponder issuer (RotateOCSPResponderRequest_CertificatePEM req) in
  let* id := newID in
  let responder := {| OCSPResponder_ID := id;
    OCSPResponder_IssuerID := RotateOCSPResponderRequest_IssuerID req;
    OCSPResponder_Name := RotateOCSPResponderRequest_Name req;
    OCSPResponder_Status := OCSPResponderActive;
    OCSPResponder_CertificatePEM := RotateOCSPResponderRequest_CertificatePEM req;
    OCSPResponder_KeyRef := RotateOCSPResponderRequest_KeyRef req;
    OCSPResponder_CreatedAt := now; OCSPResponder_UpdatedAt := now |} in
  do* WithinTx (
    do* repo (GetIssuer (RotateOCSPResponderRequest_IssuerID req)) in
    let* current := currentActive in
    let current := current |> OCSPResponder_with_Status OCSPResponderDisabled
                           |> OCSPResponder_with_UpdatedAt now in
    do* repo (UpdateOCSPResponderIfStatus current OCSPResponderActive) in
    do* createAuditEvent actor "ocsp_responder.disabled" "ocsp_responder"
          (OCSPResponder_ID current) now (responderFields current) in
    do* repo (Store.CreateOCSPResponder responder) in
    createAuditEvent actor "ocsp_responder.created" "ocsp_responder" (OCSPResponder_ID responder) now
      (responderFields responder)) in
  retM responder.

(** ** Statuses *)

Definition normalizeOCSPHashAlgorithm (hashAlgorithm : string) : string :=
  let normalized := ToLower (remove_byte "_"%char (remove_byte "-"%char hashAlgorithm)) in
  if normalized =s "" then "sha1" else normalized.

Definition ocspIssuerHashKey (hashAlgorithm nameHash keyHash : string) : string :=
  normalizeOCSPHashAlgorithm hashAlgorithm +:+ nul +:+ nameHash +:+ nul +:+ keyHash.

Definition ocspStatusForID (id : OCSPCertificateID) (status : string) : OCSPCertificateStatus :=
  {| OCSPCertificateStatus_SerialNumber := OCSPCertificateID_SerialNumber id;
     OCSPCertificateStatus_Status := status;
     OCSPCertificateStatus_RevokedAt := zero_time;
     OCSPCertificateStatus_RevocationReason := "";
     OCSPCertificateStatus_HashAlgorithm := normalizeOCSPHashAlgorithm (OCSPCertificateID_HashAlgorithm id);
     OCSPCertificateStatus_IssuerNameHash := OCSPCertificateID_IssuerNameHash id;
     OCSPCertificateStatus_IssuerKeyHash := OCSPCertificateID_IssuerKeyHash id |}.

Definition unknownOCSPStatus (id : OCSPCertificateID) : OCSPCertificateStatus :=
  ocspStatusForID id "unknown".

Definition revokedOCSPStatus (id : OCSPCertificateID) (certificate : Certificate)
    (revocations : list RevokedCertificateEntry) : OCSPCertificateStatus :=
  let status := ocspStatusForID id "revoked" in
  match list_find (λ r, RevokedCertificateEntry_SerialNumber r = Certificate_SerialNumber certificate)
          revocations with
  | Some (_, r) =>
      {| OCSPCertificateStatus_SerialNumber := OCSPCertificateStatus_SerialNumber status;
         OCSPCertificateStatus_Status := OCSPCertificateStatus_Status status;
         OCSPCertificateStatus_RevokedAt := RevokedCertificateEntry_RevokedAt r;
         OCSPCertificateStatus_RevocationReason := RevokedCertificateEntry_Reason r;
         OCSPCertificateStatus_HashAlgorithm := OCSPCertificateStatus_HashAlgorithm status;
         OCSPCertificateStatus_IssuerNameHash := OCSPCertificateStatus_IssuerNameHash status;
         OCSPCertificateStatus_IssuerKeyHash := OCSPCertificateStatus_IssuerKeyHash status |}
  | None => status
  end.

(** Distinct normalized algorithms in order of appearance. *)
Definition ocspHashAlgorithms (ids : list OCSPCertificateID) : list string :=
  let algorithms := fold_left (λ acc id,
    let algorithm := normalizeOCSPHashAlgorithm (OCSPCertificateID_HashAlgorithm id) in
    if oneOf algorithm acc then acc else acc ++ [algorithm]) ids [] in
  match algorithms with [] => ["sha1"] | _ => algorithms end.

(** The hash algorithms of one issuer. *)
Fixpoint issuerHashLoop (issuer : Issuer) (algorithms : list string) (byHash : gmap string Issuer)
  : Svc (gmap string Issuer) :=
  match algorithms with
  | [] => retM byHash
  | hashAlgorithm :: rest =>
      let* r := catchM (outside (λ t,
        issuer_InspectOCSPIssuer t (Issuer_CertificatePEM issuer) hashAlgorithm)) in
      match r with
      | Err err => failM (mapOCSPDecodeError err)
      | Ok info => issuerHashLoop issuer rest
          (<[ocspIssuerHashKey hashAlgorithm (OCSPIssuerInfo_IssuerNameHash info)
               (OCSPIssuerInfo_IssuerKeyHash info) := issuer]> byHash)
      end
  end.

Fixpoint issuersHashLoop (issuers : list Issuer) (algorithms : list string)
    (byHash : gmap string Issuer) : Svc (gmap string Issuer) :=
  match issuers with
  | [] => retM byHash
  | issuer :: rest =>
      if Issuer_Status issuer <>s IssuerActive then issuersHashLoop rest algorithms byHash
      else
        let* byHash := issuerHashLoop issuer algorithms byHash in
        issuersHashLoop rest algorithms byHash
  end.

Definition ocspIssuersByHash (ids : list OCSPCertificateID) : Svc (gmap string Issuer) :=
  let* issuers := repo ListIssuers in
  issuersHashLoop issuers (ocspHashAlgorithms ids) ∅.

(** The first certificate of each issuer and serial number. *)
Definition indexByIssuerSerial (certificates : list Certificate) : gmap string Certificate :=
  fold_left (λ m c,
    let key := ocspIssuerSerialKey (Certificate_IssuerID c) (Certificate_SerialNumber c) in
    match m !! key with Some _ => m | None => <[key := c]> m end) certificates ∅.

(** The loop over the requested identifiers. Nothing changes the store during
    it, so the revocations of an issuer are read from it directly instead of
    being cached. *)
Fixpoint statusLoop (issuersByHash : gmap string Issuer) (byIssuerSerial : gmap string Certificate)
    (ids : list OCSPCertificateID) (statuses : list OCSPCertificateStatus) (issuerID : string)
  : Svc (list OCSPCertificateStatus * string) :=
  match ids with
  | [] => retM (statuses, issuerID)
  | id :: rest =>
      let continue status issuerID :=
        statusLoop issuersByHash byIssuerSerial rest (statuses ++ [status]) issuerID in
      match issuersByHash !! ocspIssuerHashKey (OCSPCertificateID_HashAlgorithm id)
              (OCSPCertificateID_IssuerNameHash id) (OCSPCertificateID_IssuerKeyHash id) with
      | None => continue (unknownOCSPStatus id) issuerID
      | Some issuer =>
          let issuerID := if issuerID =s "" then Issuer_ID issuer else issuerID in
          if issuerID <>s Issuer_ID issuer then failM ErrInvalidRequest
          else match byIssuerSerial !! ocspIssuerSerialKey (Issuer_ID issuer)
                       (OCSPCertificateID_SerialNumber id) with
          | None => continue (unknownOCSPStatus id) issuerID
          | Some certificate =>
              if Certificate_Status certificate =s CertificateValid
              then continue (ocspStatusForID id "good") issuerID
              else if Certificate_Status certificate =s CertificateRevoked then
                let* revocations := repo (ListRevocationsByIssuer (Certificate_IssuerID certificate)) in
                continue (revokedOCSPStatus id certificate revocations) issuerID
              else continue (unknownOCSPStatus id) issuerID
          end
      end
  end.

Definition ocspCertificateStatuses (ids : list OCSPCertificateID)
  : Svc (list OCSPCertificateStatus * string) :=
  let* issuersByHash := ocspIssuersByHash ids in
  let* certificates := repo ListCertificates in
  statusLoop issuersByHash (indexByIssuerSerial certificates) ids [] "".

Definition ocspAuditCertificate (p : OCSPCertificateID * option OCSPCertificateStatus)
  : list (string * string) :=
  let '(id, o) := p in
  [("serial_number", OCSPCertificateID_SerialNumber id);
   ("issuer_name_hash", OCSPCertificateID_IssuerNameHash id);
   ("issuer_key_hash", OCSPCertificateID_IssuerKeyHash id);
   ("hash_algorithm", normalizeOCSPHashAlgorithm (OCSPCertificateID_HashAlgorithm id))]
  ++ match o with
     | None => []
     | Some s =>
         [("status", OCSPCertificateStatus_Status s)]
         ++ (if OCSPCertificateStatus_RevocationReason s <>s ""
             then [("reason", OCSPCertificateStatus_RevocationReason s)] else [])
         ++ (if negb (IsZero (OCSPCertificateStatus_RevokedAt s))
             then [("revoked_at", format_RFC3339 (OCSPCertificateStatus_RevokedAt s))] else [])
     end.

Definition ocspAuditCertificates (ids : list OCSPCertificateID)
    (statuses : list OCSPCertificateStatus) : list (list (string * string)) :=
  imap (λ i id, ocspAuditCertificate (id, statuses !! i)) ids.

Definition ocspSignerForIssuer (issuer : Issuer) : Svc ocspSigner :=
  let* r := catchM (repo (GetActiveOCSPResponderByIssuer (Issuer_ID issuer))) in
  match r with
  | Ok responder => retM {| ocspSigner_CertificatePEM := OCSPResponder_CertificatePEM responder;
      ocspSigner_KeyRef := OCSPResponder_KeyRef responder; ocspSigner_ResponderMode := "delegated";
      ocspSigner_ResponderID := OCSPResponder_ID responder |}
  | Err err =>
      if errors_Is err ErrOCSPResponderNotFound
      then retM {| ocspSigner_CertificatePEM := Issuer_CertificatePEM issuer;
             ocspSigner_KeyRef := Issuer_KeyRef issuer; ocspSigner_ResponderMode := "issuer_direct";
             ocspSigner_ResponderID := "" |}
      else failM err
  end.

Definition RespondOCSP (actor requestDER : string) : Svc OCSPResponse :=
  do* return_if (requestDER =s "") ErrInvalidRequest in
  let* now := now_ in
  let* inspected := catchM (outside (λ t, issuer_InspectOCSP t requestDER)) in
  let* info := match inspected with
    | Err err => failM (mapOCSPDecodeError err)
    | Ok info => retM info
    end in
  do* return_if (Nat.eqb (length (OCSPRequestInfo_Certificates info)) 0) ErrInvalidRequest in
  let* '(statuses, issuerID) := ocspCertificateStatuses (OCSPRequestInfo_Certificates info) in
  do* return_if (issuerID =s "") ErrInvalidRequest in
  let* issuer := repo (GetIssuer issuerID) in
  let* signer := ocspSignerForIssuer issuer in
  do* outside (λ t, key_CheckReady t (ocspSigner_KeyRef signer)) in
  let* generated := catchM (outside (λ t, issuer_GenerateOCSPResponse t {|
    GenerateOCSPResponseRequest_RequestDER := requestDER;
    GenerateOCSPResponseRequest_IssuerCertificatePEM := ocspSigner_CertificatePEM signer;
    GenerateOCSPResponseRequest_IssuerKeyRef := ocspSigner_KeyRef signer;
    GenerateOCSPResponseRequest_ThisUpdate := now;
    GenerateOCSPResponseRequest_NextUpdate := Add now Hour;
    GenerateOCSPResponseRequest_Certificates := statuses |})) in
  match generated with
  | Err err => failM (mapOCSPResponseError err)
  | Ok result =>
      match ValidateSigningEvidence (GenerateOCSPResponseResult_SigningEvidence result)
              "ocsp_response_sign" "sha256" with
      | Err err => failM (mapOCSPResponseError err)
      | Ok _ =>
          do* WithinTx (
            let fields := coreSigningAuditFields (GenerateOCSPResponseResult_SigningEvidence result)
              (list_to_map [("request_type", JStr "ocsp"); ("issuer_id", JStr issuerID);
                ("requested_cert_count", JInt (Z.of_nat (length (OCSPRequestInfo_Certificates info))));
                ("response_status", JStr "successful");
                ("nonce_present", JBool (OCSPRequestInfo_HasNonce info));
                ("first_serial_number", JStr (firstOCSPSerial (OCSPRequestInfo_Certificates info)));
                ("first_certificate_status", JStr (firstOCSPStatus statuses));
                ("certificates", JObjs (ocspAuditCertificates (OCSPRequestInfo_Certificates info) statuses));
                ("responder_mode", JStr (ocspSigner_ResponderMode signer))]) in
            let fields := setIfNonEmpty "responder_id" (ocspSigner_ResponderID signer) fields in
            let* resourceID := newID in
            createAuditEvent actor "ocsp.requested" "ocsp" resourceID now fields) in
          retM (mkOCSPResponse (GenerateOCSPResponseResult_ResponseDER result))
      end
  end.
End OCSP.
