(* ===== verification/ACME.v ===== *)
(** * ACME accounts, orders and challenges ([lifecycle/service.go])

    Accounts bound to a key, orders with one authorization and one HTTP-01
    challenge per identifier, promotion of challenge to authorization to order,
    the CAA check of public-TLS orders, and finalization into a certificate. *)

From Stdlib Require Import Ascii.
From S2P Require Import Prelude GoLib Crypto Domain Core NetIP Requests AuditChain Store.
From S2P Require Import StoreInv Service Policy Lifecycle Issuance.

Definition defaultACMEAuthorizationLifetime : Duration := (24 * Hour)%Z.

Definition acmeExpired (expiresAt now : Time) : bool :=
  negb (IsZero expiresAt) && negb (After expiresAt now).

Section ACME.
Context `{Env}.

(** ** CAA *)

Definition hasCAATag (records : list CAARecord) (tag : string) : bool :=
  existsb (λ r, EqualFold (TrimSpace (caa_Tag r)) tag) records.

Definition caaValidationMethodsAllow (value validationMethod : string) : bool :=
  existsb (λ method, EqualFold (TrimSpace method) validationMethod) (split_byte ","%char value).

(** A parameter without [=] is skipped. *)
Definition caaParamAllows (accountURI validationMethod rawParam : string) : bool :=
  match cut_byte "="%char (TrimSpace rawParam) with
  | None => true
  | Some (name, paramValue) =>
      let name := ToLower (TrimSpace name) in
      if name =s "accounturi" then TrimSpace paramValue =s accountURI
      else if name =s "validationmethods" then caaValidationMethodsAllow paramValue validationMethod
      else true
  end.

Definition caaRecordAllowsIssue (value issuerDomain accountURI validationMethod : string) : bool :=
  match split_byte ";"%char value with
  | [] => false
  | first :: params =>
      let issuer := TrimSpace first in
      if (issuer =s "") || negb (EqualFold issuer issuerDomain) then false
      else forallb (caaParamAllows accountURI validationMethod) params
  end.

Definition caaTag (r : CAARecord) : string := ToLower (TrimSpace (caa_Tag r)).

(** The loop that collects the records of a tag; [None] when it meets an
    unknown critical record. *)
Fixpoint caaCollect (tag : string) (records acc : list CAARecord) : option (list CAARecord) :=
  match records with
  | [] => Some acc
  | record :: rest =>
      let recordTag := caaTag record in
      if negb (Z.eqb (Z.land (caa_Flag record) 128) 0) && (recordTag <>s "issue")
         && (recordTag <>s "issuewild") && (recordTag <>s "iodef") then None
      else caaCollect tag rest (if recordTag =s tag then acc ++ [record] else acc)
  end.

(** [PublicTLSCAAPolicy.check] on a lookup result. *)
Definition caaDecision (p : PublicTLSCAAPolicy) (dnsName : string) (result : CAALookupResult)
  : res unit :=
  do! check_not (clr_DNSSECStatus result =s CAADNSSECBogus) ErrInvalidRequest in
  do! check_not ((clr_DNSSECStatus result =s CAADNSSECIndeterminate)
                 && negb (cap_AllowDNSSECIndeterminate p)) ErrInvalidRequest in
  let tag := if HasPrefix dnsName "*." && hasCAATag (clr_Records result) "issuewild"
             then "issuewild" else "issue" in
  match caaCollect tag (clr_Records result) [] with
  | None => Err ErrInvalidRequest
  | Some [] => Ok tt
  | Some records =>
      check_not (negb (existsb (λ r, caaRecordAllowsIssue (caa_Value r) (cap_IssuerDomain p)
                                       (cap_AccountURI p) (cap_ValidationMethod p)) records))
        ErrInvalidRequest
  end.

Definition caaCheck (p : PublicTLSCAAPolicy) (dnsName : string) : Svc unit :=
  let* result := outside (λ t, cap_Lookup p t dnsName) in
  liftM (caaDecision p dnsName result).

Definition validatePublicTLSCAA (dnsNames : list string) : Svc unit :=
  match dnsNames with
  | [] => retM tt
  | _ =>
      match publicTLSCAAPolicy with
      | None => failM ErrInvalidRequest
      | Some policy => forM dnsNames (caaCheck policy)
      end
  end.

(** ** Accounts *)

Definition accountFields (account : ACMEAccount) : Fields :=
  auditFields [("acme_account_id", ACMEAccount_ID account)].

Definition createACMEAccount (actor : string) (req : CreateACMEAccountRequest) : Svc ACMEAccount :=
  let* now := now_ in
  let* id := newID in
  let account := {| ACMEAccount_ID := id; ACMEAccount_Contacts := CreateACMEAccountRequest_Contacts req;
    ACMEAccount_Status := ACMEAccountValid;
    ACMEAccount_TermsOfServiceAgreed := CreateACMEAccountRequest_TermsOfServiceAgreed req;
    ACMEAccount_KeyThumbprint := TrimSpace (CreateACMEAccountRequest_KeyThumbprint req);
    ACMEAccount_KeyJWKJSON := TrimSpace (CreateACMEAccountRequest_KeyJWKJSON req);
    ACMEAccount_CreatedAt := now; ACMEAccount_UpdatedAt := now |} in
  do* WithinTx (
    do* repo (Store.CreateACMEAccount account) in
    createAuditEvent actor "acme.account.created" "acme_account" (ACMEAccount_ID account) now
      (accountFields account)) in
  retM account.

Definition CreateACMEAccount (actor : string) (req : CreateACMEAccountRequest) : Svc ACMEAccount :=
  do* liftM (validateCreateACMEAccountRequest req) in
  createACMEAccount actor req.

Definition CreateOrGetACMEAccount (actor : string) (req : CreateACMEAccountRequest)
  : Svc CreateACMEAccountResult :=
  do* liftM (validateCreateACMEAccountRequest req) in
  let keyThumbprint := TrimSpace (CreateACMEAccountRequest_KeyThumbprint req) in
  let* existing := (if keyThumbprint <>s "" then
      let* accounts := repo ListACMEAccounts in
      retM (snd <$> list_find (λ a, ACMEAccount_KeyThumbprint a = keyThumbprint) accounts)
    else retM None) in
  match existing with
  | Some account => retM (mkCreateACMEAccountResult account false)
  | None =>
      let* account := createACMEAccount actor req in
      retM (mkCreateACMEAccountResult account true)
  end.

(** The account must be usable to be changed. *)
Definition requireValidAccount (account : ACMEAccount) : Svc unit :=
  do* return_if (ACMEAccount_Status account =s ACMEAccountDeactivated) ErrACMEAccountDeactivated in
  return_if (ACMEAccount_Status account <>s ACMEAccountValid) ErrInvalidTransition.

Definition UpdateACMEAccount (actor accountID : string) (req : UpdateACMEAccountRequest)
  : Svc ACMEAccount :=
  do* return_if (isBlank accountID || (negb (UpdateACMEAccountRequest_UpdateContacts req)
                                       && negb (UpdateACMEAccountRequest_Deactivate req)))
        ErrInvalidRequest in
  let* now := now_ in
  WithinTx (
    let* account := repo (GetACMEAccount accountID) in
    do* requireValidAccount account in
    let account := if UpdateACMEAccountRequest_UpdateContacts req
      then ACMEAccount_with_Contacts (UpdateACMEAccountRequest_Contacts req) account else account in
    let account := if UpdateACMEAccountRequest_Deactivate req
      then ACMEAccount_with_Status ACMEAccountDeactivated account else account in
    let account := ACMEAccount_with_UpdatedAt now account in
    do* repo (UpdateACMEAccountIfStatus account ACMEAccountValid) in
    let action := if UpdateACMEAccountRequest_Deactivate req then "acme.account.deactivated"
                  else "acme.account.updated" in
    do* createAuditEvent actor action "acme_account" (ACMEAccount_ID account) now
          (accountFields account) in
    retM account).

Definition UpdateACMEAccountKey (actor accountID : string) (req : UpdateACMEAccountKeyRequest)
  : Svc ACMEAccount :=
  do* return_if (isBlank accountID || isBlank (UpdateACMEAccountKeyRequest_KeyThumbprint req)
                 || isBlank (UpdateACMEAccountKeyRequest_KeyJWKJSON req)) ErrInvalidRequest in
  let* now := now_ in
  WithinTx (
    let* account := repo (GetACMEAccount accountID) in
    do* requireValidAccount account in
    let account := account
      |> ACMEAccount_with_KeyThumbprint (TrimSpace (UpdateACMEAccountKeyRequest_KeyThumbprint req))
      |> ACMEAccount_with_KeyJWKJSON (TrimSpace (UpdateACMEAccountKeyRequest_KeyJWKJSON req))
      |> ACMEAccount_with_UpdatedAt now in
    do* repo (UpdateACMEAccountIfStatus account ACMEAccountValid) in
    do* createAuditEvent actor "acme.account.key_updated" "acme_account" (ACMEAccount_ID account) now
          (accountFields account) in
    retM account).

(** ** Orders *)

Definition createACMEAuthorization (orderID identifierType identifierValue : string)
    (challengeType : ACMEChallengeType) (now : Time) : Svc unit :=
  let* authorizationID := newID in
  do* repo (CreateACMEAuthorization {| ACMEAuthorization_ID := authorizationID;
    ACMEAuthorization_OrderID := orderID; ACMEAuthorization_IdentifierType := identifierType;
    ACMEAuthorization_IdentifierValue := identifierValue;
    ACMEAuthorization_Status := ACMEAuthorizationPending;
    ACMEAuthorization_ExpiresAt := Add now defaultACMEAuthorizationLifetime;
    ACMEAuthorization_ValidationReuseExpiresAt := zero_time;
    ACMEAuthorization_CreatedAt := now; ACMEAuthorization_UpdatedAt := now |}) in
  let* challengeID := newID in
  let* token := newID in
  repo (CreateACMEChallenge {| ACMEChallenge_ID := challengeID;
    ACMEChallenge_AuthorizationID := authorizationID; ACMEChallenge_Type := challengeType;
    ACMEChallenge_Token := token; ACMEChallenge_Status := ACMEChallengePending;
    ACMEChallenge_ValidatedAt := zero_time; ACMEChallenge_CreatedAt := now;
    ACMEChallenge_UpdatedAt := now |}).

Definition createACMEAuthorizations (order : ACMEOrder) (now : Time) : Svc unit :=
  do* forM (ACMEOrder_RequestedDNSNames order) (λ dnsName,
        createACMEAuthorization (ACMEOrder_ID order) "dns" dnsName ACMEChallengeHTTP01 now) in
  forM (ACMEOrder_RequestedIPAddresses order) (λ ipAddress,
    createACMEAuthorization (ACMEOrder_ID order) "ip" ipAddress ACMEChallengeHTTP01 now).

Definition CreateACMEOrder (actor : string) (req : CreateACMEOrderRequest) : Svc ACMEOrder :=
  let* now := now_ in
  do* liftM (validateCreateACMEOrderRequest req now) in
  do* (if CreateACMEOrderRequest_CertificateProfileID req <>s "" then
         let* profile := repo (GetCertificateProfile
           (CreateACMEOrderRequest_CertificateProfileID req)) in
         if CertificateProfile_PublicTLS profile
         then validatePublicTLSCAA (CreateACMEOrderRequest_RequestedDNSNames req) else retM tt
       else retM tt) in
  let* id := newID in
  let order := {| ACMEOrder_ID := id; ACMEOrder_AccountID := CreateACMEOrderRequest_AccountID req;
    ACMEOrder_IdentityID := CreateACMEOrderRequest_IdentityID req;
    ACMEOrder_IssuerID := CreateACMEOrderRequest_IssuerID req;
    ACMEOrder_CertificateProfileID := CreateACMEOrderRequest_CertificateProfileID req;
    ACMEOrder_Status := ACMEOrderPending; ACMEOrder_CSRPEM := ""; ACMEOrder_RequestedSubject := "";
    ACMEOrder_RequestedDNSNames := CreateACMEOrderRequest_RequestedDNSNames req;
    ACMEOrder_RequestedIPAddresses := CreateACMEOrderRequest_RequestedIPAddresses req;
    ACMEOrder_RequestedNotAfter := CreateACMEOrderRequest_RequestedNotAfter req;
    ACMEOrder_EnrollmentID := ""; ACMEOrder_CertificateID := "";
    ACMEOrder_ExpiresAt := Add now defaultACMEAuthorizationLifetime;
    ACMEOrder_CreatedAt := now; ACMEOrder_UpdatedAt := now |} in
  do* WithinTx (
    let* account := repo (GetACMEAccount (CreateACMEOrderRequest_AccountID req)) in
    do* return_if (ACMEAccount_Status account =s ACMEAccountDeactivated)
          ErrACMEAccountDeactivated in
    do* return_if (ACMEAccount_Status account <>s ACMEAccountValid) ErrInvalidRequest in
    let* identity := repo (GetIdentity (CreateACMEOrderRequest_IdentityID req)) in
    do* liftM (validateEnrollmentIdentityPolicy {|
      CreateEnrollmentRequest_IdentityID := CreateACMEOrderRequest_IdentityID req;
      CreateEnrollmentRequest_IssuerID := CreateACMEOrderRequest_IssuerID req;
      CreateEnrollmentRequest_CertificateProfileID := CreateACMEOrderRequest_CertificateProfileID req;
      CreateEnrollmentRequest_CSRPEM := ""; CreateEnrollmentRequest_RequestedSubject := "";
      CreateEnrollmentRequest_RequestedDNSNames := CreateACMEOrderRequest_RequestedDNSNames req;
      CreateEnrollmentRequest_RequestedIPAddresses := CreateACMEOrderRequest_RequestedIPAddresses req;
      CreateEnrollmentRequest_RequestedNotAfter := CreateACMEOrderRequest_RequestedNotAfter req |}
      identity) in
    do* repo (GetIssuer (CreateACMEOrderRequest_IssuerID req)) in
    do* (if CreateACMEOrderRequest_CertificateProfileID req <>s ""
         then do* repo (GetCertificateProfile (CreateACMEOrderRequest_CertificateProfileID req)) in
              retM tt
         else retM tt) in
    do* repo (Store.CreateACMEOrder order) in
    do* createACMEAuthorizations order now in
    createAuditEvent actor "acme.order.created" "acme_order" (ACMEOrder_ID order) now
      (auditFields [("acme_account_id", ACMEOrder_AccountID order);
                    ("acme_order_id", ACMEOrder_ID order);
                    ("identity_id", ACMEOrder_IdentityID order);
                    ("issuer_id", ACMEOrder_IssuerID order);
                    ("profile_id", ACMEOrder_CertificateProfileID order)])) in
  retM order.

(** ** Challenges *)

Definition acmeChallengeAuditFields (challenge : ACMEChallenge) (authorization : ACMEAuthorization)
  : Fields :=
  let fields := auditFields [("acme_challenge_id", ACMEChallenge_ID challenge);
    ("acme_authorization_id", ACMEAuthorization_ID authorization);
    ("acme_order_id", ACMEAuthorization_OrderID authorization);
    ("identifier_type", ACMEAuthorization_IdentifierType authorization);
    ("identifier_value", ACMEAuthorization_IdentifierValue authorization);
    ("challenge_type", ACMEChallenge_Type challenge);
    ("validation_method", ACMEChallenge_Type challenge)] in
  let fields := if negb (IsZero (ACMEChallenge_ValidatedAt challenge))
    then <["validated_at" := JStr (format_RFC3339 (ACMEChallenge_ValidatedAt challenge))]> fields
    else fields in
  if negb (IsZero (ACMEAuthorization_ValidationReuseExpiresAt authorization))
  then <["validation_reuse_expires_at" :=
           JStr (format_RFC3339 (ACMEAuthorization_ValidationReuseExpiresAt authorization))]> fields
  else fields.

Definition promoteACMEOrderIfReady (order : ACMEOrder) (now : Time) : Svc unit :=
  if ACMEOrder_Status order <>s ACMEOrderPending then retM tt
  else
    let* authorizations := repo (ListACMEAuthorizationsByOrder (ACMEOrder_ID order)) in
    if existsb (λ a, ACMEAuthorization_Status a <>s ACMEAuthorizationValid) authorizations
    then retM tt
    else repo (UpdateACMEOrderIfStatus
           (order |> ACMEOrder_with_Status ACMEOrderReady |> ACMEOrder_with_UpdatedAt now)
           ACMEOrderPending).

Definition promoteACMEAuthorizationIfReady (authorization : ACMEAuthorization) (now : Time)
  : Svc unit :=
  let* challenges := repo (ListACMEChallengesByAuthorization (ACMEAuthorization_ID authorization)) in
  if existsb (λ c, ACMEChallenge_Status c <>s ACMEChallengeValid) challenges then retM tt
  else
    let authorization := authorization |> ACMEAuthorization_with_Status ACMEAuthorizationValid
      |> ACMEAuthorization_with_ValidationReuseExpiresAt (Add now (publicTLSValidationReuseCeiling now))
      |> ACMEAuthorization_with_UpdatedAt now in
    do* repo (UpdateACMEAuthorizationIfStatus authorization ACMEAuthorizationPending) in
    let* order := repo (GetACMEOrder (ACMEAuthorization_OrderID authorization)) in
    promoteACMEOrderIfReady order now.

(** A challenge that may still change, with its pending authorization. *)
Definition openChallenge (challengeID : string) : Svc (ACMEChallenge * ACMEAuthorization) :=
  let* challenge := repo (GetACMEChallenge challengeID) in
  do* return_if ((ACMEChallenge_Status challenge <>s ACMEChallengePending)
                 && (ACMEChallenge_Status challenge <>s ACMEChallengeProcessing))
        ErrInvalidTransition in
  let* authorization := repo (GetACMEAuthorization (ACMEChallenge_AuthorizationID challenge)) in
  do* return_if (ACMEAuthorization_Status authorization <>s ACMEAuthorizationPending)
        ErrInvalidTransition in
  retM (challenge, authorization).

Definition CompleteACMEChallenge (actor challengeID : string) : Svc ACMEChallenge :=
  do* return_if (isBlank challengeID) ErrInvalidRequest in
  let* now := now_ in
  WithinTx (
    let* p := openChallenge challengeID in
    let currentStatus := ACMEChallenge_Status (fst p) in
    let challenge := fst p |> ACMEChallenge_with_Status ACMEChallengeValid
      |> ACMEChallenge_with_ValidatedAt now |> ACMEChallenge_with_UpdatedAt now in
    do* repo (UpdateACMEChallengeIfStatus challenge currentStatus) in
    do* promoteACMEAuthorizationIfReady (snd p) now in
    let* authorization := repo (GetACMEAuthorization (ACMEAuthorization_ID (snd p))) in
    do* createAuditEvent actor "acme.challenge.completed" "acme_challenge" (ACMEChallenge_ID challenge)
          now (acmeChallengeAuditFields challenge authorization) in
    retM challenge).

Definition markACMEChallengeProcessing (actor challengeID : string) : Svc ACMEChallenge :=
  let* now := now_ in
  WithinTx (
    let* p := openChallenge challengeID in
    let currentStatus := ACMEChallenge_Status (fst p) in
    let challenge := fst p |> ACMEChallenge_with_Status ACMEChallengeProcessing
                           |> ACMEChallenge_with_UpdatedAt now in
    do* repo (UpdateACMEChallengeIfStatus challenge currentStatus) in
    do* createAuditEvent actor "acme.challenge.processing" "acme_challenge"
          (ACMEChallenge_ID challenge) now (acmeChallengeAuditFields challenge (snd p)) in
    retM challenge).

Record acmeHTTP01ValidationContext := mkAcmeHTTP01ValidationContext {
  avc_Challenge : ACMEChallenge;
  avc_IdentifierValue : string;
  avc_KeyAuthorization : string;
}.

(** The function of the same name in the source. *)
Definition validationContext (challengeID : string) : Svc acmeHTTP01ValidationContext :=
  do* return_if (isBlank challengeID) ErrInvalidRequest in
  let* challenge := repo (GetACMEChallenge challengeID) in
  do* return_if ((ACMEChallenge_Type challenge <>s ACMEChallengeHTTP01)
        || ((ACMEChallenge_Status challenge <>s ACMEChallengePending)
            && (ACMEChallenge_Status challenge <>s ACMEChallengeProcessing))) ErrInvalidTransition in
  let* authorization := repo (GetACMEAuthorization (ACMEChallenge_AuthorizationID challenge)) in
  do* return_if (ACMEAuthorization_Status authorization <>s ACMEAuthorizationPending)
        ErrInvalidTransition in
  let* order := repo (GetACMEOrder (ACMEAuthorization_OrderID authorization)) in
  do* return_if (ACMEOrder_Status order <>s ACMEOrderPending) ErrInvalidTransition in
  let* now := now_ in
  do* return_if (acmeExpired (ACMEOrder_ExpiresAt order) now
                 || acmeExpired (ACMEAuthorization_ExpiresAt authorization) now)
        ErrInvalidTransition in
  let* account := repo (GetACMEAccount (ACMEOrder_AccountID order)) in
  do* return_if (ACMEAccount_Status account =s ACMEAccountDeactivated) ErrACMEAccountDeactivated in
  do* return_if ((ACMEAccount_Status account <>s ACMEAccountValid)
                 || (ACMEAccount_KeyThumbprint account =s "")) ErrInvalidRequest in
  retM (mkAcmeHTTP01ValidationContext challenge (ACMEAuthorization_IdentifierValue authorization)
          (ACMEChallenge_Token challenge +:+ "." +:+ ACMEAccount_KeyThumbprint account)).

Definition ValidateACMEHTTP01Challenge (actor challengeID : string) : Svc ACMEChallenge :=
  let* validation := validationContext challengeID in
  let* verified := catchM (outside (λ t, acme_VerifyHTTP01 t (avc_IdentifierValue validation)
    (ACMEChallenge_Token (avc_Challenge validation)) (avc_KeyAuthorization validation))) in
  match verified with
  | Err _ => markACMEChallengeProcessing actor (ACMEChallenge_ID (avc_Challenge validation))
  | Ok _ => CompleteACMEChallenge actor challengeID
  end.

Definition PollACMEAuthorization (actor authorizationID : string) : Svc ACMEAuthorization :=
  do* return_if (isBlank authorizationID) ErrInvalidRequest in
  let* authorization := repo (GetACMEAuthorization authorizationID) in
  if ACMEAuthorization_Status authorization <>s ACMEAuthorizationPending then retM authorization
  else
    let* challenges := repo (ListACMEChallengesByAuthorization authorizationID) in
    do* forM challenges (λ challenge,
          if (ACMEChallenge_Type challenge =s ACMEChallengeHTTP01)
             && (ACMEChallenge_Status challenge =s ACMEChallengeProcessing)
          then do* ValidateACMEHTTP01Challenge actor (ACMEChallenge_ID challenge) in retM tt
          else retM tt) in
    repo (GetACMEAuthorization authorizationID).

(** ** Finalization *)

Definition invalidateACMEOrder (actor : string) (order : ACMEOrder) : Svc unit :=
  let* now := now_ in
  let order := order |> ACMEOrder_with_Status ACMEOrderInvalid |> ACMEOrder_with_UpdatedAt now in
  WithinTx (
    do* repo (UpdateACMEOrderIfStatus order ACMEOrderReady) in
    createAuditEvent actor "acme.order.invalid" "acme_order" (ACMEOrder_ID order) now
      (auditFields [("acme_account_id", ACMEOrder_AccountID order);
                    ("acme_order_id", ACMEOrder_ID order)])).

Definition validateACMEPublicTLSValidationEvidence (order : ACMEOrder) (now : Time) : Svc unit :=
  if ACMEOrder_CertificateProfileID order =s "" then retM tt
  else
    let* profile := repo (GetCertificateProfile (ACMEOrder_CertificateProfileID order)) in
    if negb (CertificateProfile_PublicTLS profile) then retM tt
    else
      let* authorizations := repo (ListACMEAuthorizationsByOrder (ACMEOrder_ID order)) in
      return_if (existsb (λ a,
        (ACMEAuthorization_Status a <>s ACMEAuthorizationValid)
        || acmeExpired (ACMEAuthorization_ValidationReuseExpiresAt a) now
        || IsZero (ACMEAuthorization_ValidationReuseExpiresAt a)) authorizations)
        ErrInvalidTransition.

Definition FinalizeACMEOrder (actor orderID : string) (req : FinalizeACMEOrderRequest)
  : Svc ACMEOrder :=
  do* return_if (isBlank orderID || isBlank (FinalizeACMEOrderRequest_CSRPEM req)
                 || isBlank (FinalizeACMEOrderRequest_RequestedSubject req)) ErrInvalidRequest in
  let* order := repo (GetACMEOrder orderID) in
  if ACMEOrder_Status order =s ACMEOrderValid then retM order
  else
    do* return_if (ACMEOrder_Status order <>s ACMEOrderReady) ErrInvalidTransition in
    let* checkedAt := now_ in
    do* (if acmeExpired (ACMEOrder_ExpiresAt order) checkedAt
         then do* invalidateACMEOrder actor order in failM ErrInvalidTransition
         else retM tt) in
    let* evidenceAt := now_ in
    do* validateACMEPublicTLSValidationEvidence order evidenceAt in
    let* enrollment := CreateEnrollment actor {|
      CreateEnrollmentRequest_IdentityID := ACMEOrder_IdentityID order;
      CreateEnrollmentRequest_IssuerID := ACMEOrder_IssuerID order;
      CreateEnrollmentRequest_CertificateProfileID := ACMEOrder_CertificateProfileID order;
      CreateEnrollmentRequest_CSRPEM := FinalizeACMEOrderRequest_CSRPEM req;
      CreateEnrollmentRequest_RequestedSubject := FinalizeACMEOrderRequest_RequestedSubject req;
      CreateEnrollmentRequest_RequestedDNSNames := ACMEOrder_RequestedDNSNames order;
      CreateEnrollmentRequest_RequestedIPAddresses := ACMEOrder_RequestedIPAddresses order;
      CreateEnrollmentRequest_RequestedNotAfter := ACMEOrder_RequestedNotAfter order |} in
    do* ApproveEnrollment actor (Enrollment_ID enrollment) in
    let* certificate := IssueCertificate actor (Enrollment_ID enrollment) in
    let* now := now_ in
    let order := order |> ACMEOrder_with_CSRPEM (FinalizeACMEOrderRequest_CSRPEM req)
      |> ACMEOrder_with_RequestedSubject (FinalizeACMEOrderRequest_RequestedSubject req)
      |> ACMEOrder_with_EnrollmentID (Enrollment_ID enrollment)
      |> ACMEOrder_with_CertificateID (Certificate_ID certificate)
      |> ACMEOrder_with_Status ACMEOrderValid |> ACMEOrder_with_UpdatedAt now in
    do* WithinTx (repo (UpdateACMEOrderIfStatus order ACMEOrderReady)) in
    do* WithinTx (createAuditEvent actor "acme.order.finalized" "acme_order" (ACMEOrder_ID order) now
          (auditFields [("acme_account_id", ACMEOrder_AccountID order);
                        ("acme_order_id", ACMEOrder_ID order);
                        ("enrollment_id", Enrollment_ID enrollment);
                        ("certificate_id", Certificate_ID certificate)])) in
    retM order.
End ACME.
