(* ===== verification/CAADNS.v ===== *)
(** * The CAA resolver ([lifecycle/caa.go])

    DNS queries for CAA records: building a query, climbing from a name to its
    parents, and parsing the response. Slices and indices are checked, with a
    run-time panic outside of their bounds. The exchange with the resolver and
    the random source are parameters. *)

From Stdlib Require Import Ascii.
From S2P Require Import Prelude GoLib Crypto NetIP Domain Core Requests AuditChain Store Service.

Definition dnsTypeCAA : Z := 257.

(** ** Slices of bytes *)

(** [b[i]] and [b[lo:hi]]. *)
Definition index (b : list Z) (i : Z) : res Z :=
  if Z.leb 0 i then match b !! Z.to_nat i with Some v => Ok v | None => Err (EPanic "index out of range") end
  else Err (EPanic "index out of range").
Definition slice (b : list Z) (lo hi : Z) : res (list Z) :=
  if Z.leb 0 lo && Z.leb lo hi && Z.leb hi (Z.of_nat (length b))
  then Ok (take (Z.to_nat (hi - lo)) (drop (Z.to_nat lo) b))
  else Err (EPanic "slice bounds out of range").

(** [binary.BigEndian.Uint16] of a slice, and the bytes [PutUint16] writes. *)
Definition Uint16 (b : list Z) : res Z :=
  match b with x :: y :: _ => Ok (x * 256 + y)%Z | _ => Err (EPanic "index out of range") end.
Definition PutUint16 (v : Z) : list Z := [Z.land (Z.shiftr v 8) 255; Z.land v 255]%Z.

Record dnsCAALookup := mkDNSCAALookup { dl_resolver : string; dl_timeout : Duration }.

(** ** Building a query *)

(** [strings.TrimSuffix(s, ".")] *)
Definition TrimSuffix_dot (s : string) : string :=
  if HasSuffix s "." then str_take (String.length s - 1) s else s.

(** The labels of the question, each with its length. *)
Fixpoint appendLabels (labels : list string) (out : list Z) : res (list Z) :=
  match labels with
  | [] => Ok out
  | label :: rest =>
      let labelLen := Z.of_nat (String.length label) in
      do! check_not (Z.eqb labelLen 0 || Z.ltb 63 labelLen) ErrInvalidRequest in
      appendLabels rest (out ++ labelLen :: str_bytes label)
  end.

(** With the two random bytes that were read for the identifier. *)
Definition buildCAAQuery (idBytes : res (list Z)) (name : string) : res (list Z * Z) :=
  let! idBytes := idBytes in
  let! id := Uint16 idBytes in
  let out := PutUint16 id ++ PutUint16 0x0100 ++ PutUint16 1 ++ replicate 6 0%Z in
  let! out := appendLabels (split_byte "."%char (TrimSuffix_dot name)) out in
  Ok (out ++ [0; Z.land (Z.shiftr dnsTypeCAA 8) 255; Z.land dnsTypeCAA 255; 0; 1]%Z, id).

(** ** Parsing a response *)

(** The loop of [skipDNSName]; every round moves the offset forward, so the
    length of the message is enough fuel. *)
Fixpoint skipLoop (fuel : nat) (message : list Z) (offset : Z) : res Z :=
  let len := Z.of_nat (length message) in
  match fuel with
  | O => Err (EText "no fuel")
  | S fuel =>
      if Z.leb len offset then Err ErrInvalidRequest
      else
        let! length := index message offset in
        let offset := (offset + 1)%Z in
        if Z.eqb length 0 then Ok offset
        else if Z.eqb (Z.land length 0xc0) 0xc0
        then if Z.leb len offset then Err ErrInvalidRequest else Ok (offset + 1)%Z
        else
          let offset := (offset + length)%Z in
          if Z.ltb len offset then Err ErrInvalidRequest else skipLoop fuel message offset
  end.
Definition skipDNSName (message : list Z) (offset : Z) : res Z :=
  skipLoop (S (length message)) message offset.

(** The first loop of [parseCAAResponse]: the questions are skipped. *)
Fixpoint skipQuestions (qd : nat) (message : list Z) (offset : Z) : res Z :=
  match qd with
  | O => Ok offset
  | S qd =>
      let! offset := skipDNSName message offset in
      let offset := (offset + 4)%Z in
      do! check_not (Z.ltb (Z.of_nat (length message)) offset) ErrInvalidRequest in
      skipQuestions qd message offset
  end.

(** The data of one record; [None] when the tag does not fit. *)
Definition parseCAAData (data : list Z) : res (option CAARecord) :=
  let! tagByte := index data 1 in
  if Z.leb (2 + tagByte) (Z.of_nat (length data)) then
    let! flag := index data 0 in
    let! tag := slice data 2 (2 + tagByte) in
    let! value := slice data (2 + tagByte) (Z.of_nat (length data)) in
    Ok (Some (mkCAARecord flag (bytes_to_str tag) (bytes_to_str value)))
  else Ok None.

(** The second loop: the CAA records of the answer, in order. *)
Fixpoint parseAnswers (an : nat) (message : list Z) (offset : Z) (records : list CAARecord)
  : res (list CAARecord) :=
  let len := Z.of_nat (length message) in
  match an with
  | O => Ok records
  | S an =>
      let! offset := skipDNSName message offset in
      do! check_not (Z.ltb len (offset + 10)) ErrInvalidRequest in
      let! typeBytes := slice message offset (offset + 2) in
      let! rrType := Uint16 typeBytes in
      let! classBytes := slice message (offset + 2) (offset + 4) in
      let! rrClass := Uint16 classBytes in
      let! lenBytes := slice message (offset + 8) (offset + 10) in
      let! rdLen := Uint16 lenBytes in
      let offset := (offset + 10)%Z in
      do! check_not (Z.ltb len (offset + rdLen)) ErrInvalidRequest in
      let! record := (if Z.eqb rrType dnsTypeCAA && Z.eqb rrClass 1 && Z.leb 2 rdLen then
                        let! data := slice message offset (offset + rdLen) in parseCAAData data
                      else Ok None) in
      parseAnswers an message (offset + rdLen)%Z
        (records ++ match record with Some r => [r] | None => [] end)
  end.

Definition parseCAAResponse (message : list Z) (id : Z) : res (CAALookupResult * bool) :=
  do! check_not (Z.ltb (Z.of_nat (length message)) 12) ErrInvalidRequest in
  let! idBytes := slice message 0 2 in
  let! messageID := Uint16 idBytes in
  do! check_not (negb (Z.eqb messageID id)) ErrInvalidRequest in
  let! flagBytes := slice message 2 4 in
  let! flags := Uint16 flagBytes in
  let status := if negb (Z.eqb (Z.land flags 0x0020) 0) then CAADNSSECSecure else CAADNSSECIndeterminate in
  let rcode := Z.land flags 0x000f in
  if Z.eqb rcode 2 then Ok (mkCAALookupResult [] CAADNSSECBogus, true)
  else if Z.eqb rcode 3 then Ok (mkCAALookupResult [] status, false)
  else if negb (Z.eqb rcode 0) then Err (EText "dns response rcode")
  else
    let! qdBytes := slice message 4 6 in
    let! qd := Uint16 qdBytes in
    let! anBytes := slice message 6 8 in
    let! an := Uint16 anBytes in
    let! offset := skipQuestions (Z.to_nat qd) message 12 in
    let! records := parseAnswers (Z.to_nat an) message offset [] in
    Ok (mkCAALookupResult records status, negb (Nat.eqb (length records) 0)).

(** ** Lookups *)

(** [strings.Cut(name, ".")] shortens the name, so its length is enough fuel. *)
Fixpoint climb {S} (fuel : nat) (lookup : string → GoM S (CAALookupResult * bool)) (name : string)
  : GoM S CAALookupResult :=
  match fuel with
  | O => failM (EText "no fuel")
  | Datatypes.S fuel =>
      if name =s "" then retM (mkCAALookupResult [] CAADNSSECIndeterminate)
      else
        let* answer := lookup name in
        let '(result, found) := answer in
        if found : bool then retM result
        else match cut_byte "."%char name with
             | None => retM result
             | Some (_, rest) => climb fuel lookup rest
             end
  end.

(** The random source and the exchange of a query for a response of at most
    4096 bytes with the resolver, by tick. *)
Class DNSEnv := {
  dns_rand : nat → res (list Z);
  dns_exchange : nat → string → Duration → list Z → res (list Z);
}.

Section Resolver.
Context `{GoUnicode} `{DNSEnv}.

Definition NewDNSCAALookup (resolver : string) (timeout : Duration) : res dnsCAALookup :=
  let resolver := TrimSpace resolver in
  do! check_not ((resolver =s "") || Z.leb timeout 0) ErrInvalidRequest in
  let resolver := match SplitHostPort resolver with Some _ => resolver | None => JoinHostPort resolver "53" end in
  Ok (mkDNSCAALookup resolver timeout).

Definition lookupCAAName (l : dnsCAALookup) (name : string) : GoM nat (CAALookupResult * bool) := λ t,
  (let! query := buildCAAQuery (dns_rand t) name in
   let '(query, id) := query in
   let! message := dns_exchange t (dl_resolver l) (dl_timeout l) query in
   parseCAAResponse message id, S t).

Definition LookupCAA (l : dnsCAALookup) (dnsName : string) : GoM nat CAALookupResult :=
  let name := TrimSuffix_dot (TrimSpace dnsName) in
  climb (S (String.length name)) (lookupCAAName l) name.
End Resolver.
