(* ===== verification/Queries.v ===== *)
(** * Queries of the service ([lifecycle/service.go])

    The read operations: single rows, filtered and paged lists, the inventory
    and the expiry objective. The repository is the in-memory one, which has no
    query methods of its own, so the lists take the filtering path. *)

From S2P Require Import Prelude GoLib Crypto Domain Core NetIP Requests AuditChain Store.
From S2P Require Import StoreInv Service Policy CRL.

(** ** Options *)

Record CertificateInventoryEntry := mkCertificateInventoryEntry {
  CertificateInventoryEntry_CertificateID : string;
  CertificateInventoryEntry_Owner : string;
  CertificateInventoryEntry_Team : string;
  CertificateInventoryEntry_Service : string;
  CertificateInventoryEntry_Environment : string;
  CertificateInventoryEntry_DeploymentTarget : string;
  CertificateInventoryEntry_IssuerID : string;
  CertificateInventoryEntry_ProfileID : string;
  CertificateInventoryEntry_IssuerKeyRef : string;
  CertificateInventoryEntry_RevocationState : string;
  CertificateInventoryEntry_LastSeenAt : Time;
  CertificateInventoryEntry_CompletenessWarnings : list string;
}.

Record CertificateInventoryOptions := mkCertificateInventoryOptions {
  CertificateInventoryOptions_Owner : string;
  CertificateInventoryOptions_Team : string;
  CertificateInventoryOptions_Service : string;
  CertificateInventoryOptions_Environment : string;
  CertificateInventoryOptions_IssuerID : string;
  CertificateInventoryOptions_ProfileID : string;
  CertificateInventoryOptions_RevocationState : string;
  CertificateInventoryOptions_Sort : string;
  CertificateInventoryOptions_Limit : Z;
  CertificateInventoryOptions_Offset : Z;
}.

Record IdentityListOptions := mkIdentityListOptions {
  IdentityListOptions_Owner : string;
  IdentityListOptions_Team : string;
  IdentityListOptions_Service : string;
  IdentityListOptions_Environment : string;
  IdentityListOptions_Sort : string;
  IdentityListOptions_Limit : Z;
  IdentityListOptions_Offset : Z;
}.

Record EnrollmentListOptions := mkEnrollmentListOptions {
  EnrollmentListOptions_IdentityID : string;
  EnrollmentListOptions_IssuerID : string;
  EnrollmentListOptions_ProfileID : string;
  EnrollmentListOptions_Status : EnrollmentStatus;
  EnrollmentListOptions_Sort : string;
  EnrollmentListOptions_Limit : Z;
  EnrollmentListOptions_Offset : Z;
}.

Record CertificateListOptions := mkCertificateListOptions {
  CertificateListOptions_Owner : string;
  CertificateListOptions_Team : string;
  CertificateListOptions_Service : string;
  CertificateListOptions_Environment : string;
  CertificateListOptions_IssuerID : string;
  CertificateListOptions_ProfileID : string;
  CertificateListOptions_SAN : string;
  CertificateListOptions_RevocationState : string;
  CertificateListOptions_RenewalState : string;
  CertificateListOptions_ExpiresWithinDays : Z;
  CertificateListOptions_Sort : string;
  CertificateListOptions_Limit : Z;
  CertificateListOptions_Offset : Z;
}.

Record OutboxMessageListOptions := mkOutboxMessageListOptions {
  OutboxMessageListOptions_Status : OutboxMessageStatus;
  OutboxMessageListOptions_Type : string;
  OutboxMessageListOptions_CreatedFrom : Time;
  OutboxMessageListOptions_CreatedTo : Time;
  OutboxMessageListOptions_Sort : string;
  OutboxMessageListOptions_Limit : Z;
  OutboxMessageListOptions_Offset : Z;
}.

Record ExpirySLO := mkExpirySLO {
  ExpirySLO_WindowDays : Z;
  ExpirySLO_UnhandledCount : Z;
  ExpirySLO_UnhandledIDs : list string;
  ExpirySLO_OK : bool;
}.

(** ** Sorting and paging *)

Definition page_less {V} (less : V → V → bool) (sortOrder : string) (x y : V) : bool :=
  if sortOrder =s "desc" then less y x else less x y.

(** [start+limit] is computed on 64-bit integers; a slice with an upper bound
    below its lower one is a run-time panic. *)
Definition sortAndPage {V} (items : list V) (sortOrder : string) (limit offset : Z)
    (less : V → V → bool) : res (list V) :=
  let sortOrder := if sortOrder =s "" then "asc" else sortOrder in
  let items := go_sort (page_less less sortOrder) items in
  let len := Z.of_nat (length items) in
  if Z.leb len offset then Ok []
  else
    let start := offset in
    let end_ := if Z.ltb 0 limit && Z.ltb (wrap64 (start + limit)) len
                then wrap64 (start + limit) else len in
    if Z.ltb start 0 || Z.ltb end_ start then Err (EPanic "slice bounds out of range")
    else Ok (take (Z.to_nat (end_ - start)) (drop (Z.to_nat start) items)).

Definition isAllowedExpiryWindowDays (days : Z) : bool := existsb (Z.eqb days) [30; 14; 7; 3; 1]%Z.

Definition certificateHasSAN (certificate : Certificate) (san : string) : bool :=
  oneOf san (Certificate_DNSNames certificate) || oneOf san (Certificate_IPAddresses certificate).

Definition identityMatchesCertificateFilters (identity : Identity) (opts : CertificateListOptions) : bool :=
  negb (excludedBy (CertificateListOptions_Owner opts) (Identity_Owner identity)
        || excludedBy (CertificateListOptions_Team opts) (Identity_Team identity)
        || excludedBy (CertificateListOptions_Service opts) (Identity_Service identity)
        || excludedBy (CertificateListOptions_Environment opts) (Identity_Environment identity)).

Section Queries.
Context `{Env}.

(** ** Single rows *)

Definition GetIdentity (id : string) : Svc Identity := repo (Store.GetIdentity id).
Definition GetCertificateProfile (id : string) : Svc CertificateProfile :=
  repo (Store.GetCertificateProfile id).
Definition GetEnrollment (id : string) : Svc Enrollment := repo (Store.GetEnrollment id).
Definition GetCertificate (id : string) : Svc Certificate := repo (Store.GetCertificate id).
Definition GetCRLPublication (id : string) : Svc CRLPublication :=
  do* return_if (isBlank id) ErrInvalidRequest in repo (Store.GetCRLPublication id).
Definition GetACMEOrder (id : string) : Svc ACMEOrder :=
  do* return_if (isBlank id) ErrInvalidRequest in repo (Store.GetACMEOrder id).
Definition GetACMEAccount (id : string) : Svc ACMEAccount :=
  do* return_if (isBlank id) ErrInvalidRequest in repo (Store.GetACMEAccount id).
Definition GetACMEAuthorization (id : string) : Svc ACMEAuthorization :=
  do* return_if (isBlank id) ErrInvalidRequest in repo (Store.GetACMEAuthorization id).
Definition GetACMEChallenge (id : string) : Svc ACMEChallenge :=
  do* return_if (isBlank id) ErrInvalidRequest in repo (Store.GetACMEChallenge id).

Definition GetLatestCRLPublication (issuerID : string) : Svc CRLPublication :=
  do* return_if (isBlank issuerID) ErrInvalidRequest in
  repo (GetLatestCRLPublicationByIssuer issuerID).
Definition GetLatestCRLPublicationForDistributionPoint (issuerID distributionPoint : string)
  : Svc CRLPublication :=
  do* return_if (isBlank issuerID || isBlank distributionPoint) ErrInvalidRequest in
  let* publications := repo (ListCRLPublicationsByIssuer issuerID) in
  liftM (latestCRLPublication publications distributionPoint).

Definition GetAuditIntegrity : Svc AuditIntegrity := repo VerifyAuditChain.

(** ** Plain lists *)

Definition ListIdentities : Svc (list Identity) := repo Store.ListIdentities.
Definition ListIssuers : Svc (list Issuer) := repo Store.ListIssuers.
Definition ListCertificateProfiles : Svc (list CertificateProfile) := repo Store.ListCertificateProfiles.
Definition ListEnrollments : Svc (list Enrollment) := repo Store.ListEnrollments.
Definition ListCertificates : Svc (list Certificate) := repo Store.ListCertificates.
Definition ListAPIKeys : Svc (list APIKey) := repo Store.ListAPIKeys.
Definition ListNotificationEndpoints : Svc (list NotificationEndpoint) :=
  repo Store.ListNotificationEndpoints.
Definition ListACMEAccounts : Svc (list ACMEAccount) := repo Store.ListACMEAccounts.
Definition ListAuditEvents : Svc (list AuditEvent) := repo Store.ListAuditEvents.

Definition ListACMEOrdersByAccount (accountID : string) : Svc (list ACMEOrder) :=
  do* return_if (isBlank accountID) ErrInvalidRequest in
  repo (Store.ListACMEOrdersByAccount accountID).
Definition ListACMEAuthorizations (orderID : string) : Svc (list ACMEAuthorization) :=
  do* return_if (isBlank orderID) ErrInvalidRequest in
  do* repo (Store.GetACMEOrder orderID) in
  repo (ListACMEAuthorizationsByOrder orderID).
Definition ListACMEChallenges (authorizationID : string) : Svc (list ACMEChallenge) :=
  do* return_if (isBlank authorizationID) ErrInvalidRequest in
  do* repo (Store.GetACMEAuthorization authorizationID) in
  repo (ListACMEChallengesByAuthorization authorizationID).
Definition ListOutboxMessages (status : OutboxMessageStatus) : Svc (list OutboxMessage) :=
  do* return_if ((status <>s "") && negb (isValidOutboxMessageStatus status)) ErrInvalidRequest in
  repo (Store.ListOutboxMessages status).

(** ** Filtered lists *)

Definition ListIdentitiesQuery (opts : IdentityListOptions) : Svc (list Identity) :=
  do* liftM (validateListOptions (IdentityListOptions_Sort opts) (IdentityListOptions_Limit opts)
               (IdentityListOptions_Offset opts)) in
  let* identities := repo Store.ListIdentities in
  let filtered := filter (λ i,
    negb (excludedBy (IdentityListOptions_Owner opts) (Identity_Owner i)
          || excludedBy (IdentityListOptions_Team opts) (Identity_Team i)
          || excludedBy (IdentityListOptions_Service opts) (Identity_Service i)
          || excludedBy (IdentityListOptions_Environment opts) (Identity_Environment i)) = true) identities in
  liftM (sortAndPage filtered (IdentityListOptions_Sort opts) (IdentityListOptions_Limit opts)
           (IdentityListOptions_Offset opts) (key_less Identity_CreatedAt Identity_ID)).

Definition ListEnrollmentsQuery (opts : EnrollmentListOptions) : Svc (list Enrollment) :=
  do* liftM (validateListOptions (EnrollmentListOptions_Sort opts) (EnrollmentListOptions_Limit opts)
               (EnrollmentListOptions_Offset opts)) in
  do* return_if ((EnrollmentListOptions_Status opts <>s "")
                 && negb (isValidEnrollmentStatus (EnrollmentListOptions_Status opts))) ErrInvalidRequest in
  let* enrollments := repo Store.ListEnrollments in
  let filtered := filter (λ e,
    negb (excludedBy (EnrollmentListOptions_IdentityID opts) (Enrollment_IdentityID e)
          || excludedBy (EnrollmentListOptions_IssuerID opts) (Enrollment_IssuerID e)
          || excludedBy (EnrollmentListOptions_ProfileID opts) (Enrollment_CertificateProfileID e)
          || excludedBy (EnrollmentListOptions_Status opts) (Enrollment_Status e)) = true) enrollments in
  liftM (sortAndPage filtered (EnrollmentListOptions_Sort opts) (EnrollmentListOptions_Limit opts)
           (EnrollmentListOptions_Offset opts) (key_less Enrollment_CreatedAt Enrollment_ID)).

(** [None] when no identity filter is given. *)
Definition identityFilterLookup (opts : CertificateListOptions) : Svc (option (gmap string Identity)) :=
  if (CertificateListOptions_Owner opts =s "") && (CertificateListOptions_Team opts =s "")
     && (CertificateListOptions_Service opts =s "") && (CertificateListOptions_Environment opts =s "")
  then retM None
  else
    let* identities := repo Store.ListIdentities in
    retM (Some (fold_left (λ m i, <[Identity_ID i := i]> m) identities ∅)).

Definition days (n : Z) : Duration := (n * 24 * Hour)%Z.

(** The loop body of [ListCertificatesQuery]. *)
Definition certificateSelected (opts : CertificateListOptions)
    (identityByID : option (gmap string Identity)) (now cutoff : Time) (c : Certificate) : bool :=
  negb (excludedBy (CertificateListOptions_IssuerID opts) (Certificate_IssuerID c)
        || excludedBy (CertificateListOptions_ProfileID opts) (Certificate_CertificateProfileID c)
        || (CertificateListOptions_SAN opts <>s "") && negb (certificateHasSAN c (CertificateListOptions_SAN opts))
        || excludedBy (CertificateListOptions_RevocationState opts) (Certificate_Status c)
        || (CertificateListOptions_RenewalState opts =s "notified") && IsZero (Certificate_RenewalNotifiedAt c)
        || (CertificateListOptions_RenewalState opts =s "unnotified")
           && negb (IsZero (Certificate_RenewalNotifiedAt c))
        || negb (Z.eqb (CertificateListOptions_ExpiresWithinDays opts) 0)
           && ((Certificate_Status c <>s CertificateValid) || Before (Certificate_NotAfter c) now
               || After (Certificate_NotAfter c) cutoff))
  && match identityByID with
     | None => true
     | Some byID => match byID !! Certificate_IdentityID c with
         | Some identity => identityMatchesCertificateFilters identity opts
         | None => false
         end
     end.

Definition ListCertificatesQuery (opts : CertificateListOptions) : Svc (list Certificate) :=
  do* liftM (validateListOptions (CertificateListOptions_Sort opts) (CertificateListOptions_Limit opts)
               (CertificateListOptions_Offset opts)) in
  do* return_if ((CertificateListOptions_RevocationState opts <>s "")
                 && negb (isValidCertificateStatus (CertificateListOptions_RevocationState opts)))
        ErrInvalidRequest in
  do* return_if ((CertificateListOptions_RenewalState opts <>s "")
                 && (CertificateListOptions_RenewalState opts <>s "notified")
                 && (CertificateListOptions_RenewalState opts <>s "unnotified")) ErrInvalidRequest in
  do* return_if (negb (Z.eqb (CertificateListOptions_ExpiresWithinDays opts) 0)
                 && negb (isAllowedExpiryWindowDays (CertificateListOptions_ExpiresWithinDays opts)))
        ErrInvalidRequest in
  let* certificates := repo Store.ListCertificates in
  let* identityByID := identityFilterLookup opts in
  let* now := now_ in
  let cutoff := Add now (days (CertificateListOptions_ExpiresWithinDays opts)) in
  let filtered := filter (λ c, certificateSelected opts identityByID now cutoff c = true) certificates in
  liftM (sortAndPage filtered (CertificateListOptions_Sort opts) (CertificateListOptions_Limit opts)
           (CertificateListOptions_Offset opts) (key_less Certificate_CreatedAt Certificate_ID)).

Definition ListCertificatesExpiringWithin (n limit offset : Z) : Svc (list Certificate) :=
  do* return_if (negb (isAllowedExpiryWindowDays n)) ErrInvalidRequest in
  do* return_if (Z.ltb limit 0 || Z.ltb offset 0) ErrInvalidRequest in
  let* now := now_ in
  repo (Store.ListCertificatesExpiringWithin now (Add now (days n)) limit offset).

Definition inventoryEntry (r : CertificateInventoryRecord) : CertificateInventoryEntry :=
  let certificate := cir_Certificate r in
  let identity := cir_Identity r in
  {| CertificateInventoryEntry_CertificateID := Certificate_ID certificate;
     CertificateInventoryEntry_Owner := Identity_Owner identity;
     CertificateInventoryEntry_Team := Identity_Team identity;
     CertificateInventoryEntry_Service := Identity_Service identity;
     CertificateInventoryEntry_Environment := Identity_Environment identity;
     CertificateInventoryEntry_DeploymentTarget := Identity_DeploymentTarget identity;
     CertificateInventoryEntry_IssuerID := Certificate_IssuerID certificate;
     CertificateInventoryEntry_ProfileID := Certificate_CertificateProfileID certificate;
     CertificateInventoryEntry_IssuerKeyRef := Issuer_KeyRef (cir_Issuer r);
     CertificateInventoryEntry_RevocationState := Certificate_Status certificate;
     CertificateInventoryEntry_LastSeenAt := Identity_LastSeenAt identity;
     CertificateInventoryEntry_CompletenessWarnings := identityCompletenessWarnings identity |}.

Definition ListCertificateInventory (opts : CertificateInventoryOptions)
  : Svc (list CertificateInventoryEntry) :=
  do* liftM (validateListOptions (CertificateInventoryOptions_Sort opts)
               (CertificateInventoryOptions_Limit opts) (CertificateInventoryOptions_Offset opts)) in
  do* return_if ((CertificateInventoryOptions_RevocationState opts <>s "")
                 && negb (isValidCertificateStatus (CertificateInventoryOptions_RevocationState opts)))
        ErrInvalidRequest in
  let* records := repo (Store.ListCertificateInventory {|
    cif_Owner := CertificateInventoryOptions_Owner opts; cif_Team := CertificateInventoryOptions_Team opts;
    cif_Service := CertificateInventoryOptions_Service opts;
    cif_Environment := CertificateInventoryOptions_Environment opts;
    cif_IssuerID := CertificateInventoryOptions_IssuerID opts;
    cif_ProfileID := CertificateInventoryOptions_ProfileID opts;
    cif_RevocationState := CertificateInventoryOptions_RevocationState opts;
    cif_Sort := CertificateInventoryOptions_Sort opts; cif_Limit := CertificateInventoryOptions_Limit opts;
    cif_Offset := CertificateInventoryOptions_Offset opts |}) in
  retM (inventoryEntry <$> records).

(** Certificates that expire within fourteen days and were not announced. *)
Definition ExpirySLO_ : Svc ExpirySLO :=
  let* certificates := repo Store.ListCertificates in
  let* now := now_ in
  let cutoff := Add now (days 14) in
  let ids := Certificate_ID <$> filter (λ c,
    ((Certificate_Status c =s CertificateValid) || (Certificate_Status c =s CertificateSuspended))
    && After (Certificate_NotAfter c) now && negb (After (Certificate_NotAfter c) cutoff)
    && IsZero (Certificate_RenewalNotifiedAt c) = true) certificates in
  retM {| ExpirySLO_WindowDays := 14; ExpirySLO_UnhandledCount := Z.of_nat (length ids);
          ExpirySLO_UnhandledIDs := ids; ExpirySLO_OK := Nat.eqb (length ids) 0 |}.

Definition ListOutboxMessagesQuery (opts : OutboxMessageListOptions) : Svc (list OutboxMessage) :=
  do* liftM (validateListOptions (OutboxMessageListOptions_Sort opts) (OutboxMessageListOptions_Limit opts)
               (OutboxMessageListOptions_Offset opts)) in
  do* return_if ((OutboxMessageListOptions_Status opts <>s "")
                 && negb (isValidOutboxMessageStatus (OutboxMessageListOptions_Status opts)))
        ErrInvalidRequest in
  do* return_if (negb (IsZero (OutboxMessageListOptions_CreatedFrom opts))
                 && negb (IsZero (OutboxMessageListOptions_CreatedTo opts))
                 && Before (OutboxMessageListOptions_CreatedTo opts) (OutboxMessageListOptions_CreatedFrom opts))
        ErrInvalidRequest in
  let* messages := repo (Store.ListOutboxMessages (OutboxMessageListOptions_Status opts)) in
  let filtered := filter (λ m,
    negb (excludedBy (OutboxMessageListOptions_Type opts) (OutboxMessage_Type m)
          || negb (IsZero (OutboxMessageListOptions_CreatedFrom opts))
             && Before (OutboxMessage_CreatedAt m) (OutboxMessageListOptions_CreatedFrom opts)
          || negb (IsZero (OutboxMessageListOptions_CreatedTo opts))
             && After (OutboxMessage_CreatedAt m) (OutboxMessageListOptions_CreatedTo opts)) = true) messages in
  liftM (sortAndPage filtered (OutboxMessageListOptions_Sort opts) (OutboxMessageListOptions_Limit opts)
           (OutboxMessageListOptions_Offset opts) (key_less OutboxMessage_CreatedAt OutboxMessage_ID)).

Definition ListAuditEventsQuery (query : AuditEventQuery) : Svc (list AuditEvent) :=
  do* return_if ((aeq_Sort query <>s "") && (aeq_Sort query <>s "asc") && (aeq_Sort query <>s "desc"))
        ErrInvalidRequest in
  do* return_if (Z.ltb (aeq_Limit query) 0 || Z.ltb (aeq_Offset query) 0
                 || Z.ltb 0 (aeq_Offset query) && Z.eqb (aeq_Limit query) 0) ErrInvalidRequest in
  do* return_if (negb (IsZero (aeq_CreatedFrom query)) && negb (IsZero (aeq_CreatedTo query))
                 && Before (aeq_CreatedTo query) (aeq_CreatedFrom query)) ErrInvalidRequest in
  repo (Store.ListAuditEventsQuery query).
End Queries.
