(* ===== verification/HTTPTypes.v ===== *)
(** * Messages of the HTTP API ([httpapi/server.go], [httpapi/acme.go])

    The structs that request bodies are decoded into and that responses are
    encoded from, the conversions of domain values into responses, and the
    kinds of values that are decoded ([JSONKind]) and encoded ([Payload]). *)

From S2P Require Import Prelude GoLib Crypto Domain Core Requests Store StoreInv Service APIKeys CRL Queries.

(** ** Structs *)

Record acmeProblem := mk_acmeProblem {
  acmeProblem_Type : string;
  acmeProblem_Title : string;
  acmeProblem_Status : Z;
  acmeProblem_Detail : string;
}.

Record createIdentityRequest := mk_createIdentityRequest {
  createIdentityRequest_Type : IdentityType;
  createIdentityRequest_Name : string;
  createIdentityRequest_ExternalID : string;
  createIdentityRequest_Owner : string;
  createIdentityRequest_Team : string;
  createIdentityRequest_Service : string;
  createIdentityRequest_Environment : string;
  createIdentityRequest_DeploymentTarget : string;
  createIdentityRequest_LastSeenAt : Time;
  createIdentityRequest_MetadataJSON : string;
  createIdentityRequest_AllowedDNSNames : list string;
  createIdentityRequest_AllowedIPAddresses : list string;
}.

Record createIssuerRequest := mk_createIssuerRequest {
  createIssuerRequest_Name : string;
  createIssuerRequest_Kind : IssuerKind;
  createIssuerRequest_ParentIssuerID : string;
  createIssuerRequest_CertificatePEM : string;
  createIssuerRequest_KeyRef : string;
  createIssuerRequest_AIAURL : string;
  createIssuerRequest_CRLDistributionPoints : list string;
  createIssuerRequest_TrustAnchor : bool;
}.

Record createOCSPResponderRequest := mk_createOCSPResponderRequest {
  createOCSPResponderRequest_Name : string;
  createOCSPResponderRequest_CertificatePEM : string;
  createOCSPResponderRequest_KeyRef : string;
}.

Record createNotificationEndpointRequest := mk_createNotificationEndpointRequest {
  createNotificationEndpointRequest_Name : string;
  createNotificationEndpointRequest_URL : string;
  createNotificationEndpointRequest_Secret : string;
  createNotificationEndpointRequest_EventTypes : list string;
}.

Record replayDeadLetterOutboxRequest := mk_replayDeadLetterOutboxRequest {
  replayDeadLetterOutboxRequest_EventType : string;
  replayDeadLetterOutboxRequest_CreatedFrom : Time;
  replayDeadLetterOutboxRequest_CreatedTo : Time;
  replayDeadLetterOutboxRequest_Limit : Z;
}.

Record pruneAuditEventsRequest := mk_pruneAuditEventsRequest {
  pruneAuditEventsRequest_Before : Time;
}.

Record createCertificateProfileRequest := mk_createCertificateProfileRequest {
  createCertificateProfileRequest_Name : string;
  createCertificateProfileRequest_Description : string;
  createCertificateProfileRequest_IssuerID : string;
  createCertificateProfileRequest_ValidityPeriodSeconds : Z;
  createCertificateProfileRequest_PublicTLS : bool;
  createCertificateProfileRequest_SubjectTemplate : string;
  createCertificateProfileRequest_AllowedDNSPatterns : list string;
  createCertificateProfileRequest_AllowedIPRanges : list string;
  createCertificateProfileRequest_AllowedKeyAlgorithms : list string;
  createCertificateProfileRequest_MinKeySizeBits : Z;
  createCertificateProfileRequest_AllowedSignatureAlgorithms : list string;
  createCertificateProfileRequest_KeyUsage : StringListExtensionPolicy;
  createCertificateProfileRequest_ExtendedKeyUsage : StringListExtensionPolicy;
  createCertificateProfileRequest_BasicConstraints : BasicConstraintsPolicy;
  createCertificateProfileRequest_SubjectKeyIdentifier : bool;
  createCertificateProfileRequest_AuthorityKeyIdentifier : bool;
}.

Record createEnrollmentRequest := mk_createEnrollmentRequest {
  createEnrollmentRequest_IdentityID : string;
  createEnrollmentRequest_IssuerID : string;
  createEnrollmentRequest_CertificateProfileID : string;
  createEnrollmentRequest_CSRPEM : string;
  createEnrollmentRequest_RequestedSubject : string;
  createEnrollmentRequest_RequestedDNSNames : list string;
  createEnrollmentRequest_RequestedIPAddresses : list string;
  createEnrollmentRequest_RequestedNotAfter : Time;
}.

Record approveEnrollmentRequest := mk_approveEnrollmentRequest {
  approveEnrollmentRequest_Reason : string;
}.
Definition zero_approveEnrollmentRequest : approveEnrollmentRequest :=
  mk_approveEnrollmentRequest "".

Record issueCertificateRequest := mk_issueCertificateRequest {
  issueCertificateRequest_EnrollmentID : string;
}.

Record revokeCertificateRequest := mk_revokeCertificateRequest {
  revokeCertificateRequest_Reason : RevocationReason;
  revokeCertificateRequest_Force : bool;
}.

Record renewCertificateRequest := mk_renewCertificateRequest {
  renewCertificateRequest_CSRPEM : string;
  renewCertificateRequest_RequestedNotAfter : Time;
}.

Record reissueCertificateRequest := mk_reissueCertificateRequest {
  reissueCertificateRequest_CSRPEM : string;
}.

Record scanCertificateExpirationsRequest := mk_scanCertificateExpirationsRequest {
  scanCertificateExpirationsRequest_WarningWindowSeconds : Z;
  scanCertificateExpirationsRequest_Limit : Z;
}.

Record createAPIKeyRequest := mk_createAPIKeyRequest {
  createAPIKeyRequest_Name : string;
  createAPIKeyRequest_Actor : string;
  createAPIKeyRequest_Scopes : list APIKeyScope;
  createAPIKeyRequest_ExpiresAt : Time;
}.

Record publishCRLRequest := mk_publishCRLRequest {
  publishCRLRequest_IssuerID : string;
  publishCRLRequest_DistributionPoint : string;
  publishCRLRequest_NextUpdate : Time;
}.

Record errorResponse := mk_errorResponse {
  errorResponse_Error : string;
}.

Record identityResponse := mk_identityResponse {
  identityResponse_ID : string;
  identityResponse_Type : IdentityType;
  identityResponse_Name : string;
  identityResponse_ExternalID : string;
  identityResponse_Owner : string;
  identityResponse_Team : string;
  identityResponse_Service : string;
  identityResponse_Environment : string;
  identityResponse_DeploymentTarget : string;
  identityResponse_LastSeenAt : Time;
  identityResponse_MetadataJSON : string;
  identityResponse_AllowedDNSNames : list string;
  identityResponse_AllowedIPAddresses : list string;
  identityResponse_Status : IdentityStatus;
  identityResponse_CreatedAt : Time;
  identityResponse_UpdatedAt : Time;
}.

Record issuerResponse := mk_issuerResponse {
  issuerResponse_ID : string;
  issuerResponse_Name : string;
  issuerResponse_Kind : IssuerKind;
  issuerResponse_Status : IssuerStatus;
  issuerResponse_ParentIssuerID : string;
  issuerResponse_CertificatePEM : string;
  issuerResponse_KeyRef : string;
  issuerResponse_AIAURL : string;
  issuerResponse_CRLDistributionPoints : list string;
  issuerResponse_TrustAnchor : bool;
  issuerResponse_CreatedAt : Time;
  issuerResponse_UpdatedAt : Time;
}.

Record ocspResponderResponse := mk_ocspResponderResponse {
  ocspResponderResponse_ID : string;
  ocspResponderResponse_IssuerID : string;
  ocspResponderResponse_Name : string;
  ocspResponderResponse_Status : OCSPResponderStatus;
  ocspResponderResponse_CertificatePEM : string;
  ocspResponderResponse_KeyRef : string;
  ocspResponderResponse_CreatedAt : Time;
  ocspResponderResponse_UpdatedAt : Time;
}.

Record notificationEndpointResponse := mk_notificationEndpointResponse {
  notificationEndpointResponse_ID : string;
  notificationEndpointResponse_Name : string;
  notificationEndpointResponse_Type : NotificationEndpointType;
  notificationEndpointResponse_Status : NotificationEndpointStatus;
  notificationEndpointResponse_URL : string;
  notificationEndpointResponse_EventTypes : list string;
  notificationEndpointResponse_CreatedAt : Time;
  notificationEndpointResponse_UpdatedAt : Time;
}.

Record outboxMessageResponse := mk_outboxMessageResponse {
  outboxMessageResponse_ID : string;
  outboxMessageResponse_Type : string;
  outboxMessageResponse_PayloadJSON : string;
  outboxMessageResponse_Status : OutboxMessageStatus;
  outboxMessageResponse_AvailableAt : Time;
  outboxMessageResponse_AttemptCount : Z;
  outboxMessageResponse_MaxAttempts : Z;
  outboxMessageResponse_LastError : string;
  outboxMessageResponse_CreatedAt : Time;
  outboxMessageResponse_UpdatedAt : Time;
}.

Record replayDeadLetterOutboxResponse := mk_replayDeadLetterOutboxResponse {
  replayDeadLetterOutboxResponse_ReplayedCount : Z;
  replayDeadLetterOutboxResponse_MessageIDs : list string;
}.

Record certificateInventoryEntryResponse := mk_certificateInventoryEntryResponse {
  certificateInventoryEntryResponse_CertificateID : string;
  certificateInventoryEntryResponse_Owner : string;
  certificateInventoryEntryResponse_Team : string;
  certificateInventoryEntryResponse_Service : string;
  certificateInventoryEntryResponse_Environment : string;
  certificateInventoryEntryResponse_DeploymentTarget : string;
  certificateInventoryEntryResponse_IssuerID : string;
  certificateInventoryEntryResponse_ProfileID : string;
  certificateInventoryEntryResponse_IssuerKeyRef : string;
  certificateInventoryEntryResponse_RevocationState : string;
  certificateInventoryEntryResponse_LastSeenAt : Time;
  certificateInventoryEntryResponse_CompletenessWarnings : list string;
}.

Record expirySLOResponse := mk_expirySLOResponse {
  expirySLOResponse_WindowDays : Z;
  expirySLOResponse_UnhandledCount : Z;
  expirySLOResponse_UnhandledIDs : list string;
  expirySLOResponse_OK : bool;
}.

Record apiKeyResponse := mk_apiKeyResponse {
  apiKeyResponse_ID : string;
  apiKeyResponse_Name : string;
  apiKeyResponse_Actor : string;
  apiKeyResponse_Status : APIKeyStatus;
  apiKeyResponse_Scopes : list APIKeyScope;
  apiKeyResponse_ExpiresAt : Time;
  apiKeyResponse_LastUsedAt : Time;
  apiKeyResponse_TokenFingerprint : string;
  apiKeyResponse_Token : string;
  apiKeyResponse_TokenHash : string;
  apiKeyResponse_CreatedAt : Time;
  apiKeyResponse_UpdatedAt : Time;
}.

Record acmeAccountResponse := mk_acmeAccountResponse {
  acmeAccountResponse_ID : string;
  acmeAccountResponse_Contacts : list string;
  acmeAccountResponse_Status : ACMEAccountStatus;
  acmeAccountResponse_TermsOfServiceAgreed : bool;
  acmeAccountResponse_CreatedAt : Time;
  acmeAccountResponse_UpdatedAt : Time;
}.

Record acmeOrderResponse := mk_acmeOrderResponse {
  acmeOrderResponse_ID : string;
  acmeOrderResponse_AccountID : string;
  acmeOrderResponse_IdentityID : string;
  acmeOrderResponse_IssuerID : string;
  acmeOrderResponse_CertificateProfileID : string;
  acmeOrderResponse_Status : ACMEOrderStatus;
  acmeOrderResponse_CSRPEM : string;
  acmeOrderResponse_RequestedSubject : string;
  acmeOrderResponse_RequestedDNSNames : list string;
  acmeOrderResponse_RequestedIPAddresses : list string;
  acmeOrderResponse_RequestedNotAfter : Time;
  acmeOrderResponse_EnrollmentID : string;
  acmeOrderResponse_CertificateID : string;
  acmeOrderResponse_ExpiresAt : Time;
  acmeOrderResponse_CreatedAt : Time;
  acmeOrderResponse_UpdatedAt : Time;
}.

Record acmeAuthorizationResponse := mk_acmeAuthorizationResponse {
  acmeAuthorizationResponse_ID : string;
  acmeAuthorizationResponse_OrderID : string;
  acmeAuthorizationResponse_IdentifierType : string;
  acmeAuthorizationResponse_IdentifierValue : string;
  acmeAuthorizationResponse_Status : ACMEAuthorizationStatus;
  acmeAuthorizationResponse_ExpiresAt : Time;
  acmeAuthorizationResponse_ValidationReuseExpiresAt : Time;
  acmeAuthorizationResponse_CreatedAt : Time;
  acmeAuthorizationResponse_UpdatedAt : Time;
}.

Record acmeChallengeResponse := mk_acmeChallengeResponse {
  acmeChallengeResponse_ID : string;
  acmeChallengeResponse_AuthorizationID : string;
  acmeChallengeResponse_Type : ACMEChallengeType;
  acmeChallengeResponse_Token : string;
  acmeChallengeResponse_Status : ACMEChallengeStatus;
  acmeChallengeResponse_ValidatedAt : Time;
  acmeChallengeResponse_CreatedAt : Time;
  acmeChallengeResponse_UpdatedAt : Time;
}.

Record acmeProtocolAccountResponse := mk_acmeProtocolAccountResponse {
  acmeProtocolAccountResponse_ID : string;
  acmeProtocolAccountResponse_Status : string;
  acmeProtocolAccountResponse_Contact : list string;
  acmeProtocolAccountResponse_Location : string;
}.

Record acmeProtocolIdentifierResponse := mk_acmeProtocolIdentifierResponse {
  acmeProtocolIdentifierResponse_Type : string;
  acmeProtocolIdentifierResponse_Value : string;
}.

Record acmeProtocolOrderResponse := mk_acmeProtocolOrderResponse {
  acmeProtocolOrderResponse_ID : string;
  acmeProtocolOrderResponse_Status : string;
  acmeProtocolOrderResponse_URL : string;
  acmeProtocolOrderResponse_Identifiers : list acmeProtocolIdentifierResponse;
  acmeProtocolOrderResponse_Authorizations : list string;
  acmeProtocolOrderResponse_Finalize : string;
  acmeProtocolOrderResponse_Certificate : string;
  acmeProtocolOrderResponse_Expires : Time;
}.

Record acmeProtocolChallengeResponse := mk_acmeProtocolChallengeResponse {
  acmeProtocolChallengeResponse_ID : string;
  acmeProtocolChallengeResponse_Type : string;
  acmeProtocolChallengeResponse_URL : string;
  acmeProtocolChallengeResponse_Token : string;
  acmeProtocolChallengeResponse_Status : string;
}.

Record acmeProtocolAuthorizationResponse := mk_acmeProtocolAuthorizationResponse {
  acmeProtocolAuthorizationResponse_ID : string;
  acmeProtocolAuthorizationResponse_Status : string;
  acmeProtocolAuthorizationResponse_Identifier : acmeProtocolIdentifierResponse;
  acmeProtocolAuthorizationResponse_Challenges : list acmeProtocolChallengeResponse;
  acmeProtocolAuthorizationResponse_Expires : Time;
}.

Record certificateProfileResponse := mk_certificateProfileResponse {
  certificateProfileResponse_ID : string;
  certificateProfileResponse_Name : string;
  certificateProfileResponse_Description : string;
  certificateProfileResponse_IssuerID : string;
  certificateProfileResponse_ValidityPeriodSeconds : Z;
  certificateProfileResponse_PublicTLS : bool;
  certificateProfileResponse_SubjectTemplate : string;
  certificateProfileResponse_AllowedDNSPatterns : list string;
  certificateProfileResponse_AllowedIPRanges : list string;
  certificateProfileResponse_AllowedKeyAlgorithms : list string;
  certificateProfileResponse_MinKeySizeBits : Z;
  certificateProfileResponse_AllowedSignatureAlgorithms : list string;
  certificateProfileResponse_KeyUsage : StringListExtensionPolicy;
  certificateProfileResponse_ExtendedKeyUsage : StringListExtensionPolicy;
  certificateProfileResponse_BasicConstraints : BasicConstraintsPolicy;
  certificateProfileResponse_SubjectKeyIdentifier : bool;
  certificateProfileResponse_AuthorityKeyIdentifier : bool;
  certificateProfileResponse_CreatedAt : Time;
  certificateProfileResponse_UpdatedAt : Time;
}.

Record enrollmentResponse := mk_enrollmentResponse {
  enrollmentResponse_ID : string;
  enrollmentResponse_IdentityID : string;
  enrollmentResponse_IssuerID : string;
  enrollmentResponse_CertificateProfileID : string;
  enrollmentResponse_SourceCertificateID : string;
  enrollmentResponse_CSRPEM : string;
  enrollmentResponse_Status : EnrollmentStatus;
  enrollmentResponse_RequestedSubject : string;
  enrollmentResponse_RequestedDNSNames : list string;
  enrollmentResponse_RequestedIPAddresses : list string;
  enrollmentResponse_CSRDNSNames : list string;
  enrollmentResponse_CSRIPAddresses : list string;
  enrollmentResponse_RequestedNotAfter : Time;
  enrollmentResponse_ApprovedBy : string;
  enrollmentResponse_ApprovedAt : Time;
  enrollmentResponse_CreatedAt : Time;
  enrollmentResponse_UpdatedAt : Time;
}.

Record certificateResponse := mk_certificateResponse {
  certificateResponse_ID : string;
  certificateResponse_IdentityID : string;
  certificateResponse_IssuerID : string;
  certificateResponse_EnrollmentID : string;
  certificateResponse_CertificateProfileID : string;
  certificateResponse_SerialNumber : string;
  certificateResponse_Subject : string;
  certificateResponse_DNSNames : list string;
  certificateResponse_IPAddresses : list string;
  certificateResponse_NotBefore : Time;
  certificateResponse_NotAfter : Time;
  certificateResponse_Status : CertificateStatus;
  certificateResponse_CertificatePEM : string;
  certificateResponse_RenewalNotifiedAt : Time;
  certificateResponse_CreatedAt : Time;
  certificateResponse_UpdatedAt : Time;
}.

Record certificateExpirationScanResponse := mk_certificateExpirationScanResponse {
  certificateExpirationScanResponse_Expired : list certificateResponse;
  certificateExpirationScanResponse_ExpirationWarnings : list certificateResponse;
}.

Record crlPublicationResponse := mk_crlPublicationResponse {
  crlPublicationResponse_ID : string;
  crlPublicationResponse_IssuerID : string;
  crlPublicationResponse_DistributionPoint : string;
  crlPublicationResponse_CRLNumber : Z;
  crlPublicationResponse_ThisUpdate : Time;
  crlPublicationResponse_NextUpdate : Time;
  crlPublicationResponse_Status : CRLPublicationStatus;
  crlPublicationResponse_CRLPEM : string;
  crlPublicationResponse_CreatedAt : Time;
  crlPublicationResponse_UpdatedAt : Time;
}.

Record auditEventResponse := mk_auditEventResponse {
  auditEventResponse_ID : string;
  auditEventResponse_Sequence : Z;
  auditEventResponse_Actor : string;
  auditEventResponse_Action : string;
  auditEventResponse_ResourceType : string;
  auditEventResponse_ResourceID : string;
  auditEventResponse_MetadataJSON : string;
  auditEventResponse_HashAlgorithm : string;
  auditEventResponse_PreviousEventHash : string;
  auditEventResponse_EventHash : string;
  auditEventResponse_CreatedAt : Time;
}.

Record auditIntegrityResponse := mk_auditIntegrityResponse {
  auditIntegrityResponse_Valid : bool;
  auditIntegrityResponse_HashAlgorithm : string;
  auditIntegrityResponse_EventCount : Z;
  auditIntegrityResponse_FirstSequence : Z;
  auditIntegrityResponse_LastSequence : Z;
  auditIntegrityResponse_LastEventHash : string;
  auditIntegrityResponse_CheckpointSequence : Z;
  auditIntegrityResponse_CheckpointEventHash : string;
  auditIntegrityResponse_FailureReason : string;
}.

Record repairIssuanceAuditEventsResponse := mk_repairIssuanceAuditEventsResponse {
  repairIssuanceAuditEventsResponse_RepairedCount : Z;
}.

Record pruneAuditEventsResponse := mk_pruneAuditEventsResponse {
  pruneAuditEventsResponse_DeletedCount : Z;
}.

Record createACMEAccountRequest := mk_createACMEAccountRequest {
  createACMEAccountRequest_Contacts : list string;
  createACMEAccountRequest_TermsOfServiceAgreed : bool;
}.

Record createACMEOrderRequest := mk_createACMEOrderRequest {
  createACMEOrderRequest_AccountID : string;
  createACMEOrderRequest_IdentityID : string;
  createACMEOrderRequest_IssuerID : string;
  createACMEOrderRequest_CertificateProfileID : string;
  createACMEOrderRequest_RequestedDNSNames : list string;
  createACMEOrderRequest_RequestedIPAddresses : list string;
  createACMEOrderRequest_RequestedNotAfter : Time;
}.

Record finalizeACMEOrderRequest := mk_finalizeACMEOrderRequest {
  finalizeACMEOrderRequest_CSRPEM : string;
  finalizeACMEOrderRequest_CSR : string;
  finalizeACMEOrderRequest_RequestedSubject : string;
}.

Record acmeRevokeCertificateRequest := mk_acmeRevokeCertificateRequest {
  acmeRevokeCertificateRequest_CertificateID : string;
  acmeRevokeCertificateRequest_Reason : RevocationReason;
}.

Record acmeJWSRequest := mk_acmeJWSRequest {
  acmeJWSRequest_Protected : string;
  acmeJWSRequest_Payload : string;
  acmeJWSRequest_Signature : string;
}.

Record acmeJWSResult := mk_acmeJWSResult {
  acmeJWSResult_Payload : string;
  acmeJWSResult_AccountID : string;
  acmeJWSResult_KeyThumbprint : string;
  acmeJWSResult_KeyJWKJSON : string;
}.

Record acmeJWK := mk_acmeJWK {
  acmeJWK_KTY : string;
  acmeJWK_CRV : string;
  acmeJWK_X : string;
  acmeJWK_Y : string;
  acmeJWK_N : string;
  acmeJWK_E : string;
}.
Definition zero_acmeJWK : acmeJWK :=
  mk_acmeJWK "" "" "" "" "" "".

Record acmeKeyChangeJWSResult := mk_acmeKeyChangeJWSResult {
  acmeKeyChangeJWSResult_Account : string;
  acmeKeyChangeJWSResult_OldKey : acmeJWK;
  acmeKeyChangeJWSResult_NewKeyThumbprint : string;
  acmeKeyChangeJWSResult_NewKeyJWKJSON : string;
}.

(** [JWK] is the re-encoding of the decoded value, which is all that is used of it. *)
Record acmeProtectedHeader := mk_acmeProtectedHeader {
  acmeProtectedHeader_Alg : string;
  acmeProtectedHeader_Nonce : string;
  acmeProtectedHeader_URL : string;
  acmeProtectedHeader_KID : string;
  acmeProtectedHeader_JWK : option string;
}.

Record acmeNewAccountRequest := mk_acmeNewAccountRequest {
  acmeNewAccountRequest_Contact : list string;
  acmeNewAccountRequest_TermsOfServiceAgreed : bool;
}.

Record acmeUpdateAccountRequest := mk_acmeUpdateAccountRequest {
  acmeUpdateAccountRequest_Contact : option (list string);
  acmeUpdateAccountRequest_Status : string;
}.

Record acmeKeyChangeRequest := mk_acmeKeyChangeRequest {
  acmeKeyChangeRequest_Account : string;
  acmeKeyChangeRequest_OldKey : acmeJWK;
}.

Record acmeIdentifierRequest := mk_acmeIdentifierRequest {
  acmeIdentifierRequest_Type : string;
  acmeIdentifierRequest_Value : string;
}.

Record acmeNewOrderRequest := mk_acmeNewOrderRequest {
  acmeNewOrderRequest_AccountID : string;
  acmeNewOrderRequest_IdentityID : string;
  acmeNewOrderRequest_IssuerID : string;
  acmeNewOrderRequest_CertificateProfileID : string;
  acmeNewOrderRequest_Identifiers : list acmeIdentifierRequest;
  acmeNewOrderRequest_NotAfter : Time;
}.

(** ** Conversions *)

Definition toIdentityResponse (identity : Identity) : identityResponse :=
  {| identityResponse_ID := Identity_ID identity;
     identityResponse_Type := Identity_Type identity;
     identityResponse_Name := Identity_Name identity;
     identityResponse_ExternalID := Identity_ExternalID identity;
     identityResponse_Owner := Identity_Owner identity;
     identityResponse_Team := Identity_Team identity;
     identityResponse_Service := Identity_Service identity;
     identityResponse_Environment := Identity_Environment identity;
     identityResponse_DeploymentTarget := Identity_DeploymentTarget identity;
     identityResponse_LastSeenAt := Identity_LastSeenAt identity;
     identityResponse_MetadataJSON := Identity_MetadataJSON identity;
     identityResponse_AllowedDNSNames := Identity_AllowedDNSNames identity;
     identityResponse_AllowedIPAddresses := Identity_AllowedIPAddresses identity;
     identityResponse_Status := Identity_Status identity;
     identityResponse_CreatedAt := Identity_CreatedAt identity;
     identityResponse_UpdatedAt := Identity_UpdatedAt identity |}.

Definition toIdentityResponses (identities : list Identity) : list identityResponse := toIdentityResponse <$> identities.

Definition toIssuerResponse (issuer : Issuer) : issuerResponse :=
  {| issuerResponse_ID := Issuer_ID issuer;
     issuerResponse_Name := Issuer_Name issuer;
     issuerResponse_Kind := Issuer_Kind issuer;
     issuerResponse_Status := Issuer_Status issuer;
     issuerResponse_ParentIssuerID := Issuer_ParentIssuerID issuer;
     issuerResponse_CertificatePEM := Issuer_CertificatePEM issuer;
     issuerResponse_KeyRef := Issuer_KeyRef issuer;
     issuerResponse_AIAURL := Issuer_AIAURL issuer;
     issuerResponse_CRLDistributionPoints := Issuer_CRLDistributionPoints issuer;
     issuerResponse_TrustAnchor := Issuer_TrustAnchor issuer;
     issuerResponse_CreatedAt := Issuer_CreatedAt issuer;
     issuerResponse_UpdatedAt := Issuer_UpdatedAt issuer |}.

Definition toIssuerResponses (issuers : list Issuer) : list issuerResponse := toIssuerResponse <$> issuers.

Definition toOCSPResponderResponse (responder : OCSPResponder) : ocspResponderResponse :=
  {| ocspResponderResponse_ID := OCSPResponder_ID responder;
     ocspResponderResponse_IssuerID := OCSPResponder_IssuerID responder;
     ocspResponderResponse_Name := OCSPResponder_Name responder;
     ocspResponderResponse_Status := OCSPResponder_Status responder;
     ocspResponderResponse_CertificatePEM := OCSPResponder_CertificatePEM responder;
     ocspResponderResponse_KeyRef := OCSPResponder_KeyRef responder;
     ocspResponderResponse_CreatedAt := OCSPResponder_CreatedAt responder;
     ocspResponderResponse_UpdatedAt := OCSPResponder_UpdatedAt responder |}.

Definition toOCSPResponderResponses (responders : list OCSPResponder) : list ocspResponderResponse := toOCSPResponderResponse <$> responders.

Definition toNotificationEndpointResponse (endpoint : NotificationEndpoint) : notificationEndpointResponse :=
  {| notificationEndpointResponse_ID := NotificationEndpoint_ID endpoint;
     notificationEndpointResponse_Name := NotificationEndpoint_Name endpoint;
     notificationEndpointResponse_Type := NotificationEndpoint_Type endpoint;
     notificationEndpointResponse_Status := NotificationEndpoint_Status endpoint;
     notificationEndpointResponse_URL := NotificationEndpoint_URL endpoint;
     notificationEndpointResponse_EventTypes := NotificationEndpoint_EventTypes endpoint;
     notificationEndpointResponse_CreatedAt := NotificationEndpoint_CreatedAt endpoint;
     notificationEndpointResponse_UpdatedAt := NotificationEndpoint_UpdatedAt endpoint |}.

Definition toNotificationEndpointResponses (endpoints : list NotificationEndpoint) : list notificationEndpointResponse := toNotificationEndpointResponse <$> endpoints.

Definition toOutboxMessageResponse (message : OutboxMessage) : outboxMessageResponse :=
  {| outboxMessageResponse_ID := OutboxMessage_ID message;
     outboxMessageResponse_Type := OutboxMessage_Type message;
     outboxMessageResponse_PayloadJSON := OutboxMessage_PayloadJSON message;
     outboxMessageResponse_Status := OutboxMessage_Status message;
     outboxMessageResponse_AvailableAt := OutboxMessage_AvailableAt message;
     outboxMessageResponse_AttemptCount := OutboxMessage_AttemptCount message;
     outboxMessageResponse_MaxAttempts := OutboxMessage_MaxAttempts message;
     outboxMessageResponse_LastError := OutboxMessage_LastError message;
     outboxMessageResponse_CreatedAt := OutboxMessage_CreatedAt message;
     outboxMessageResponse_UpdatedAt := OutboxMessage_UpdatedAt message |}.

Definition toOutboxMessageResponses (messages : list OutboxMessage) : list outboxMessageResponse := toOutboxMessageResponse <$> messages.

Definition toReplayDeadLetterOutboxResponse (result : ReplayDeadLetterOutboxResult)
  : replayDeadLetterOutboxResponse :=
  let ids := OutboxMessage_ID <$> ReplayDeadLetterOutboxResult_ReplayedMessages result in
  {| replayDeadLetterOutboxResponse_ReplayedCount := Z.of_nat (length ids);
     replayDeadLetterOutboxResponse_MessageIDs := ids |}.

Definition toCertificateInventoryResponse (entry : CertificateInventoryEntry) : certificateInventoryEntryResponse :=
  {| certificateInventoryEntryResponse_CertificateID := CertificateInventoryEntry_CertificateID entry;
     certificateInventoryEntryResponse_Owner := CertificateInventoryEntry_Owner entry;
     certificateInventoryEntryResponse_Team := CertificateInventoryEntry_Team entry;
     certificateInventoryEntryResponse_Service := CertificateInventoryEntry_Service entry;
     certificateInventoryEntryResponse_Environment := CertificateInventoryEntry_Environment entry;
     certificateInventoryEntryResponse_DeploymentTarget := CertificateInventoryEntry_DeploymentTarget entry;
     certificateInventoryEntryResponse_IssuerID := CertificateInventoryEntry_IssuerID entry;
     certificateInventoryEntryResponse_ProfileID := CertificateInventoryEntry_ProfileID entry;
     certificateInventoryEntryResponse_IssuerKeyRef := CertificateInventoryEntry_IssuerKeyRef entry;
     certificateInventoryEntryResponse_RevocationState := CertificateInventoryEntry_RevocationState entry;
     certificateInventoryEntryResponse_LastSeenAt := CertificateInventoryEntry_LastSeenAt entry;
     certificateInventoryEntryResponse_CompletenessWarnings := CertificateInventoryEntry_CompletenessWarnings entry |}.

Definition toCertificateInventoryResponses (entries : list CertificateInventoryEntry) : list certificateInventoryEntryResponse := toCertificateInventoryResponse <$> entries.

Definition toExpirySLOResponse (slo : ExpirySLO) : expirySLOResponse :=
  {| expirySLOResponse_WindowDays := ExpirySLO_WindowDays slo;
     expirySLOResponse_UnhandledCount := ExpirySLO_UnhandledCount slo;
     expirySLOResponse_UnhandledIDs := ExpirySLO_UnhandledIDs slo;
     expirySLOResponse_OK := ExpirySLO_OK slo |}.

Definition toAPIKeyResponse (key : APIKey) : apiKeyResponse :=
  {| apiKeyResponse_ID := APIKey_ID key;
     apiKeyResponse_Name := APIKey_Name key;
     apiKeyResponse_Actor := APIKey_Actor key;
     apiKeyResponse_Status := APIKey_Status key;
     apiKeyResponse_Scopes := APIKey_Scopes key;
     apiKeyResponse_ExpiresAt := APIKey_ExpiresAt key;
     apiKeyResponse_LastUsedAt := APIKey_LastUsedAt key;
     apiKeyResponse_TokenFingerprint := APIKeyTokenFingerprint (APIKey_TokenHash key);
     apiKeyResponse_Token := "";
     apiKeyResponse_TokenHash := "";
     apiKeyResponse_CreatedAt := APIKey_CreatedAt key;
     apiKeyResponse_UpdatedAt := APIKey_UpdatedAt key |}.

Definition toAPIKeyResponseWithToken (key : APIKey) (token : string) : apiKeyResponse :=
  let response := toAPIKeyResponse key in
  {| apiKeyResponse_ID := apiKeyResponse_ID response;
     apiKeyResponse_Name := apiKeyResponse_Name response;
     apiKeyResponse_Actor := apiKeyResponse_Actor response;
     apiKeyResponse_Status := apiKeyResponse_Status response;
     apiKeyResponse_Scopes := apiKeyResponse_Scopes response;
     apiKeyResponse_ExpiresAt := apiKeyResponse_ExpiresAt response;
     apiKeyResponse_LastUsedAt := apiKeyResponse_LastUsedAt response;
     apiKeyResponse_TokenFingerprint := apiKeyResponse_TokenFingerprint response;
     apiKeyResponse_Token := token;
     apiKeyResponse_TokenHash := apiKeyResponse_TokenHash response;
     apiKeyResponse_CreatedAt := apiKeyResponse_CreatedAt response;
     apiKeyResponse_UpdatedAt := apiKeyResponse_UpdatedAt response |}.

Definition toAPIKeyResponses (keys : list APIKey) : list apiKeyResponse := toAPIKeyResponse <$> keys.

Definition toCertificateProfileResponse (profile : CertificateProfile) : certificateProfileResponse :=
  {| certificateProfileResponse_ID := CertificateProfile_ID profile;
     certificateProfileResponse_Name := CertificateProfile_Name profile;
     certificateProfileResponse_Description := CertificateProfile_Description profile;
     certificateProfileResponse_IssuerID := CertificateProfile_IssuerID profile;
     certificateProfileResponse_ValidityPeriodSeconds := CertificateProfile_ValidityPeriodSeconds profile;
     certificateProfileResponse_PublicTLS := CertificateProfile_PublicTLS profile;
     certificateProfileResponse_SubjectTemplate := CertificateProfile_SubjectTemplate profile;
     certificateProfileResponse_AllowedDNSPatterns := CertificateProfile_AllowedDNSPatterns profile;
     certificateProfileResponse_AllowedIPRanges := CertificateProfile_AllowedIPRanges profile;
     certificateProfileResponse_AllowedKeyAlgorithms := CertificateProfile_AllowedKeyAlgorithms profile;
     certificateProfileResponse_MinKeySizeBits := CertificateProfile_MinKeySizeBits profile;
     certificateProfileResponse_AllowedSignatureAlgorithms := CertificateProfile_AllowedSignatureAlgorithms profile;
     certificateProfileResponse_KeyUsage := CertificateProfile_KeyUsage profile;
     certificateProfileResponse_ExtendedKeyUsage := CertificateProfile_ExtendedKeyUsage profile;
     certificateProfileResponse_BasicConstraints := CertificateProfile_BasicConstraints profile;
     certificateProfileResponse_SubjectKeyIdentifier := CertificateProfile_SubjectKeyIdentifier profile;
     certificateProfileResponse_AuthorityKeyIdentifier := CertificateProfile_AuthorityKeyIdentifier profile;
     certificateProfileResponse_CreatedAt := CertificateProfile_CreatedAt profile;
     certificateProfileResponse_UpdatedAt := CertificateProfile_UpdatedAt profile |}.

Definition toCertificateProfileResponses (profiles : list CertificateProfile) : list certificateProfileResponse := toCertificateProfileResponse <$> profiles.

Definition toEnrollmentResponse (enrollment : Enrollment) : enrollmentResponse :=
  {| enrollmentResponse_ID := Enrollment_ID enrollment;
     enrollmentResponse_IdentityID := Enrollment_IdentityID enrollment;
     enrollmentResponse_IssuerID := Enrollment_IssuerID enrollment;
     enrollmentResponse_CertificateProfileID := Enrollment_CertificateProfileID enrollment;
     enrollmentResponse_SourceCertificateID := Enrollment_SourceCertificateID enrollment;
     enrollmentResponse_CSRPEM := Enrollment_CSRPEM enrollment;
     enrollmentResponse_Status := Enrollment_Status enrollment;
     enrollmentResponse_RequestedSubject := Enrollment_RequestedSubject enrollment;
     enrollmentResponse_RequestedDNSNames := Enrollment_RequestedDNSNames enrollment;
     enrollmentResponse_RequestedIPAddresses := Enrollment_RequestedIPAddresses enrollment;
     enrollmentResponse_CSRDNSNames := Enrollment_CSRDNSNames enrollment;
     enrollmentResponse_CSRIPAddresses := Enrollment_CSRIPAddresses enrollment;
     enrollmentResponse_RequestedNotAfter := Enrollment_RequestedNotAfter enrollment;
     enrollmentResponse_ApprovedBy := Enrollment_ApprovedBy enrollment;
     enrollmentResponse_ApprovedAt := Enrollment_ApprovedAt enrollment;
     enrollmentResponse_CreatedAt := Enrollment_CreatedAt enrollment;
     enrollmentResponse_UpdatedAt := Enrollment_UpdatedAt enrollment |}.

Definition toEnrollmentResponses (enrollments : list Enrollment) : list enrollmentResponse := toEnrollmentResponse <$> enrollments.

Definition toCertificateResponse (certificate : Certificate) : certificateResponse :=
  {| certificateResponse_ID := Certificate_ID certificate;
     certificateResponse_IdentityID := Certificate_IdentityID certificate;
     certificateResponse_IssuerID := Certificate_IssuerID certificate;
     certificateResponse_EnrollmentID := Certificate_EnrollmentID certificate;
     certificateResponse_CertificateProfileID := Certificate_CertificateProfileID certificate;
     certificateResponse_SerialNumber := Certificate_SerialNumber certificate;
     certificateResponse_Subject := Certificate_Subject certificate;
     certificateResponse_DNSNames := Certificate_DNSNames certificate;
     certificateResponse_IPAddresses := Certificate_IPAddresses certificate;
     certificateResponse_NotBefore := Certificate_NotBefore certificate;
     certificateResponse_NotAfter := Certificate_NotAfter certificate;
     certificateResponse_Status := Certificate_Status certificate;
     certificateResponse_CertificatePEM := Certificate_CertificatePEM certificate;
     certificateResponse_RenewalNotifiedAt := Certificate_RenewalNotifiedAt certificate;
     certificateResponse_CreatedAt := Certificate_CreatedAt certificate;
     certificateResponse_UpdatedAt := Certificate_UpdatedAt certificate |}.

Definition toCertificateResponses (certificates : list Certificate) : list certificateResponse := toCertificateResponse <$> certificates.

Definition toCertificateExpirationScanResponse (result : CertificateExpirationScanResult) : certificateExpirationScanResponse :=
  {| certificateExpirationScanResponse_Expired := toCertificateResponses (CertificateExpirationScanResult_Expired result);
     certificateExpirationScanResponse_ExpirationWarnings := toCertificateResponses (CertificateExpirationScanResult_ExpirationWarnings result) |}.

Definition toCRLPublicationResponse (publication : CRLPublication) : crlPublicationResponse :=
  {| crlPublicationResponse_ID := CRLPublication_ID publication;
     crlPublicationResponse_IssuerID := CRLPublication_IssuerID publication;
     crlPublicationResponse_DistributionPoint := CRLPublication_DistributionPoint publication;
     crlPublicationResponse_CRLNumber := CRLPublication_CRLNumber publication;
     crlPublicationResponse_ThisUpdate := CRLPublication_ThisUpdate publication;
     crlPublicationResponse_NextUpdate := CRLPublication_NextUpdate publication;
     crlPublicationResponse_Status := CRLPublication_Status publication;
     crlPublicationResponse_CRLPEM := CRLPublication_CRLPEM publication;
     crlPublicationResponse_CreatedAt := CRLPublication_CreatedAt publication;
     crlPublicationResponse_UpdatedAt := CRLPublication_UpdatedAt publication |}.

Definition toAuditEventResponse (event : AuditEvent) : auditEventResponse :=
  {| auditEventResponse_ID := AuditEvent_ID event;
     auditEventResponse_Sequence := AuditEvent_Sequence event;
     auditEventResponse_Actor := AuditEvent_Actor event;
     auditEventResponse_Action := AuditEvent_Action event;
     auditEventResponse_ResourceType := AuditEvent_ResourceType event;
     auditEventResponse_ResourceID := AuditEvent_ResourceID event;
     auditEventResponse_MetadataJSON := AuditEvent_MetadataJSON event;
     auditEventResponse_HashAlgorithm := AuditEvent_HashAlgorithm event;
     auditEventResponse_PreviousEventHash := AuditEvent_PreviousEventHash event;
     auditEventResponse_EventHash := AuditEvent_EventHash event;
     auditEventResponse_CreatedAt := AuditEvent_CreatedAt event |}.

Definition toAuditIntegrityResponse (report : AuditIntegrity) : auditIntegrityResponse :=
  {| auditIntegrityResponse_Valid := AuditIntegrity_Valid report;
     auditIntegrityResponse_HashAlgorithm := AuditIntegrity_HashAlgorithm report;
     auditIntegrityResponse_EventCount := AuditIntegrity_EventCount report;
     auditIntegrityResponse_FirstSequence := AuditIntegrity_FirstSequence report;
     auditIntegrityResponse_LastSequence := AuditIntegrity_LastSequence report;
     auditIntegrityResponse_LastEventHash := AuditIntegrity_LastEventHash report;
     auditIntegrityResponse_CheckpointSequence := AuditIntegrity_CheckpointSequence report;
     auditIntegrityResponse_CheckpointEventHash := AuditIntegrity_CheckpointEventHash report;
     auditIntegrityResponse_FailureReason := AuditIntegrity_FailureReason report |}.

Definition toAuditEventResponses (events : list AuditEvent) : list auditEventResponse := toAuditEventResponse <$> events.

Definition toACMEAccountResponse (account : ACMEAccount) : acmeAccountResponse :=
  {| acmeAccountResponse_ID := ACMEAccount_ID account;
     acmeAccountResponse_Contacts := ACMEAccount_Contacts account;
     acmeAccountResponse_Status := ACMEAccount_Status account;
     acmeAccountResponse_TermsOfServiceAgreed := ACMEAccount_TermsOfServiceAgreed account;
     acmeAccountResponse_CreatedAt := ACMEAccount_CreatedAt account;
     acmeAccountResponse_UpdatedAt := ACMEAccount_UpdatedAt account |}.

Definition toACMEAccountResponses (accounts : list ACMEAccount) : list acmeAccountResponse := toACMEAccountResponse <$> accounts.

Definition toACMEOrderResponse (order : ACMEOrder) : acmeOrderResponse :=
  {| acmeOrderResponse_ID := ACMEOrder_ID order;
     acmeOrderResponse_AccountID := ACMEOrder_AccountID order;
     acmeOrderResponse_IdentityID := ACMEOrder_IdentityID order;
     acmeOrderResponse_IssuerID := ACMEOrder_IssuerID order;
     acmeOrderResponse_CertificateProfileID := ACMEOrder_CertificateProfileID order;
     acmeOrderResponse_Status := ACMEOrder_Status order;
     acmeOrderResponse_CSRPEM := ACMEOrder_CSRPEM order;
     acmeOrderResponse_RequestedSubject := ACMEOrder_RequestedSubject order;
     acmeOrderResponse_RequestedDNSNames := ACMEOrder_RequestedDNSNames order;
     acmeOrderResponse_RequestedIPAddresses := ACMEOrder_RequestedIPAddresses order;
     acmeOrderResponse_RequestedNotAfter := ACMEOrder_RequestedNotAfter order;
     acmeOrderResponse_EnrollmentID := ACMEOrder_EnrollmentID order;
     acmeOrderResponse_CertificateID := ACMEOrder_CertificateID order;
     acmeOrderResponse_ExpiresAt := ACMEOrder_ExpiresAt order;
     acmeOrderResponse_CreatedAt := ACMEOrder_CreatedAt order;
     acmeOrderResponse_UpdatedAt := ACMEOrder_UpdatedAt order |}.

Definition toACMEAuthorizationResponse (authorization : ACMEAuthorization) : acmeAuthorizationResponse :=
  {| acmeAuthorizationResponse_ID := ACMEAuthorization_ID authorization;
     acmeAuthorizationResponse_OrderID := ACMEAuthorization_OrderID authorization;
     acmeAuthorizationResponse_IdentifierType := ACMEAuthorization_IdentifierType authorization;
     acmeAuthorizationResponse_IdentifierValue := ACMEAuthorization_IdentifierValue authorization;
     acmeAuthorizationResponse_Status := ACMEAuthorization_Status authorization;
     acmeAuthorizationResponse_ExpiresAt := ACMEAuthorization_ExpiresAt authorization;
     acmeAuthorizationResponse_ValidationReuseExpiresAt := ACMEAuthorization_ValidationReuseExpiresAt authorization;
     acmeAuthorizationResponse_CreatedAt := ACMEAuthorization_CreatedAt authorization;
     acmeAuthorizationResponse_UpdatedAt := ACMEAuthorization_UpdatedAt authorization |}.

Definition toACMEAuthorizationResponses (authorizations : list ACMEAuthorization) : list acmeAuthorizationResponse := toACMEAuthorizationResponse <$> authorizations.

Definition toACMEChallengeResponse (challenge : ACMEChallenge) : acmeChallengeResponse :=
  {| acmeChallengeResponse_ID := ACMEChallenge_ID challenge;
     acmeChallengeResponse_AuthorizationID := ACMEChallenge_AuthorizationID challenge;
     acmeChallengeResponse_Type := ACMEChallenge_Type challenge;
     acmeChallengeResponse_Token := ACMEChallenge_Token challenge;
     acmeChallengeResponse_Status := ACMEChallenge_Status challenge;
     acmeChallengeResponse_ValidatedAt := ACMEChallenge_ValidatedAt challenge;
     acmeChallengeResponse_CreatedAt := ACMEChallenge_CreatedAt challenge;
     acmeChallengeResponse_UpdatedAt := ACMEChallenge_UpdatedAt challenge |}.

Definition toACMEChallengeResponses (challenges : list ACMEChallenge) : list acmeChallengeResponse := toACMEChallengeResponse <$> challenges.

(** ** Kinds of decoded and encoded values *)

Inductive JSONKind : Type → Type :=
| K_createIdentityRequest : JSONKind createIdentityRequest
| K_createIssuerRequest : JSONKind createIssuerRequest
| K_createOCSPResponderRequest : JSONKind createOCSPResponderRequest
| K_createNotificationEndpointRequest : JSONKind createNotificationEndpointRequest
| K_replayDeadLetterOutboxRequest : JSONKind replayDeadLetterOutboxRequest
| K_pruneAuditEventsRequest : JSONKind pruneAuditEventsRequest
| K_createCertificateProfileRequest : JSONKind createCertificateProfileRequest
| K_createEnrollmentRequest : JSONKind createEnrollmentRequest
| K_approveEnrollmentRequest : JSONKind approveEnrollmentRequest
| K_issueCertificateRequest : JSONKind issueCertificateRequest
| K_revokeCertificateRequest : JSONKind revokeCertificateRequest
| K_renewCertificateRequest : JSONKind renewCertificateRequest
| K_reissueCertificateRequest : JSONKind reissueCertificateRequest
| K_scanCertificateExpirationsRequest : JSONKind scanCertificateExpirationsRequest
| K_createAPIKeyRequest : JSONKind createAPIKeyRequest
| K_publishCRLRequest : JSONKind publishCRLRequest
| K_createACMEAccountRequest : JSONKind createACMEAccountRequest
| K_createACMEOrderRequest : JSONKind createACMEOrderRequest
| K_finalizeACMEOrderRequest : JSONKind finalizeACMEOrderRequest
| K_acmeRevokeCertificateRequest : JSONKind acmeRevokeCertificateRequest
| K_acmeJWSRequest : JSONKind acmeJWSRequest
| K_acmeJWK : JSONKind acmeJWK
| K_acmeProtectedHeader : JSONKind acmeProtectedHeader
| K_acmeNewAccountRequest : JSONKind acmeNewAccountRequest
| K_acmeUpdateAccountRequest : JSONKind acmeUpdateAccountRequest
| K_acmeKeyChangeRequest : JSONKind acmeKeyChangeRequest
| K_acmeNewOrderRequest : JSONKind acmeNewOrderRequest.

Inductive Payload :=
| J_errorResponse (v : errorResponse)
| J_acmeProblem (v : acmeProblem)
| J_identityResponse (v : identityResponse)
| J_identityResponses (v : list identityResponse)
| J_issuerResponse (v : issuerResponse)
| J_issuerResponses (v : list issuerResponse)
| J_ocspResponderResponse (v : ocspResponderResponse)
| J_ocspResponderResponses (v : list ocspResponderResponse)
| J_notificationEndpointResponse (v : notificationEndpointResponse)
| J_notificationEndpointResponses (v : list notificationEndpointResponse)
| J_outboxMessageResponse (v : outboxMessageResponse)
| J_outboxMessageResponses (v : list outboxMessageResponse)
| J_replayDeadLetterOutboxResponse (v : replayDeadLetterOutboxResponse)
| J_certificateInventoryEntryResponse (v : certificateInventoryEntryResponse)
| J_certificateInventoryEntryResponses (v : list certificateInventoryEntryResponse)
| J_expirySLOResponse (v : expirySLOResponse)
| J_apiKeyResponse (v : apiKeyResponse)
| J_apiKeyResponses (v : list apiKeyResponse)
| J_acmeAccountResponse (v : acmeAccountResponse)
| J_acmeAccountResponses (v : list acmeAccountResponse)
| J_acmeOrderResponse (v : acmeOrderResponse)
| J_acmeAuthorizationResponse (v : acmeAuthorizationResponse)
| J_acmeAuthorizationResponses (v : list acmeAuthorizationResponse)
| J_acmeChallengeResponse (v : acmeChallengeResponse)
| J_acmeChallengeResponses (v : list acmeChallengeResponse)
| J_acmeProtocolAccountResponse (v : acmeProtocolAccountResponse)
| J_acmeProtocolOrderResponse (v : acmeProtocolOrderResponse)
| J_acmeProtocolChallengeResponse (v : acmeProtocolChallengeResponse)
| J_acmeProtocolAuthorizationResponse (v : acmeProtocolAuthorizationResponse)
| J_certificateProfileResponse (v : certificateProfileResponse)
| J_certificateProfileResponses (v : list certificateProfileResponse)
| J_enrollmentResponse (v : enrollmentResponse)
| J_enrollmentResponses (v : list enrollmentResponse)
| J_certificateResponse (v : certificateResponse)
| J_certificateResponses (v : list certificateResponse)
| J_certificateExpirationScanResponse (v : certificateExpirationScanResponse)
| J_crlPublicationResponse (v : crlPublicationResponse)
| J_auditEventResponse (v : auditEventResponse)
| J_auditEventResponses (v : list auditEventResponse)
| J_auditIntegrityResponse (v : auditIntegrityResponse)
| J_repairIssuanceAuditEventsResponse (v : repairIssuanceAuditEventsResponse)
| J_pruneAuditEventsResponse (v : pruneAuditEventsResponse)
(** the directory, an object of URLs, and an empty object *)
| J_directory (urls : list (string * string)) (externalAccountRequired : bool)
| J_empty.
