(* ===== verification/HTTPBoundary.v ===== *)
(** * The HTTP boundary ([httpapi/server.go], [httpapi/metrics.go])

    What the server decides from a request alone: which endpoints are public,
    the scope an endpoint needs, the client address, the query options, the
    status and message of an error, and the metric a request is counted under.
    [Request] holds what [net/http] hands to the server: [req_Path] is
    [URL.Path], [req_EscapedPath] is [URL.EscapedPath()], header names are in
    their canonical form. *)

From Stdlib Require Import Ascii.
From S2P Require Import Prelude GoLib NetIP Crypto Domain Core Requests Store StoreInv Service.
From S2P Require Import Queries HTTPTypes.

(** ** Requests and configuration *)

Record Request := mkRequest {
  req_Method : string;
  req_Path : string;
  req_EscapedPath : string;
  req_RawQuery : string;
  req_ForceQuery : bool;
  req_Host : string;
  req_Header : gmap string string;
  req_RemoteAddr : string;
  req_Body : string;
  (** the context value of [actorContextKey] and the path values of the route *)
  req_Actor : option string;
  req_PathValues : list (string * string);
}.

Definition with_actor (actor : string) (r : Request) : Request :=
  mkRequest (req_Method r) (req_Path r) (req_EscapedPath r) (req_RawQuery r) (req_ForceQuery r)
    (req_Host r) (req_Header r) (req_RemoteAddr r) (req_Body r) (Some actor) (req_PathValues r).
Definition with_path_values (values : list (string * string)) (r : Request) : Request :=
  mkRequest (req_Method r) (req_Path r) (req_EscapedPath r) (req_RawQuery r) (req_ForceQuery r)
    (req_Host r) (req_Header r) (req_RemoteAddr r) (req_Body r) (req_Actor r) values.

(** [net/http] and [net/url]: the path is the decoding of the escaped path. *)
Definition well_formed (r : Request) : Prop := PathUnescape (req_EscapedPath r) = Some (req_Path r).

Definition header_Get (r : Request) (key : string) : string := default "" (req_Header r !! key).
Definition PathValue (r : Request) (name : string) : string :=
  default "" (snd <$> List.find (λ kv : string * string, fst kv =s name) (req_PathValues r)).
Definition query (r : Request) (key : string) : string := query_Get (req_RawQuery r) key.

(** [URL.RequestURI] *)
Definition RequestURI (r : Request) : string :=
  (if req_EscapedPath r =s "" then "/" else req_EscapedPath r)
  +:+ (if req_ForceQuery r || (req_RawQuery r <>s "") then "?" +:+ req_RawQuery r else "").

Definition MethodGet : string := "GET".
Definition MethodHead : string := "HEAD".
Definition MethodPost : string := "POST".

Definition acmeRetryAfterSeconds : string := "5".
Definition defaultJSONBodyLimit : Z := Z.shiftl 1 20.
Definition defaultOCSPBodyLimit : Z := Z.shiftl 16 10.
Definition defaultACMENonceTTL : Duration := (10 * Minute)%Z.
Definition defaultACMENonceCacheSize : Z := 1024.
Definition defaultACMERateLimit : Z := 120.
Definition defaultACMERateWindow : Duration := Minute.
Definition defaultAuthorizationTimeout : Duration := (2 * Second)%Z.

Definition AuthMode := string.
Definition AuthModeDev : AuthMode := "dev".
Definition AuthModeAPIKey : AuthMode := "api_key".

Record AuthConfig := mkAuthConfig {
  AuthConfig_Mode : AuthMode;
  AuthConfig_TrustedProxies : list Prefix;
  AuthConfig_AuthorizationTimeout : Duration;
}.

Record AuthorizationInput := mkAuthorizationInput {
  AuthorizationInput_ActorID : string;
  AuthorizationInput_AuthenticationMethod : string;
  AuthorizationInput_RequiredScope : string;
  AuthorizationInput_HTTPMethod : string;
  AuthorizationInput_RoutePattern : string;
  AuthorizationInput_RequestID : string;
  AuthorizationInput_Traceparent : string;
  AuthorizationInput_ClientIP : string;
  AuthorizationInput_UserAgent : string;
}.

Definition AuthorizationOutcome := string.
Definition AuthorizationOutcomeAllow : AuthorizationOutcome := "allow".
Definition AuthorizationOutcomeDeny : AuthorizationOutcome := "deny".
Definition AuthorizationOutcomeApprovalRequired : AuthorizationOutcome := "approval_required".

Record AuthorizationResult := mkAuthorizationResult {
  AuthorizationResult_Outcome : AuthorizationOutcome;
  AuthorizationResult_DecisionID : string;
  AuthorizationResult_ReasonCode : string;
  AuthorizationResult_PolicyRevision : string;
}.

(** The errors of [context] an error of the authorizer may wrap. *)
Inductive ContextErr := DeadlineExceeded | Canceled.
#[global] Instance ContextErr_eq_dec : EqDecision ContextErr.
Proof. solve_decision. Defined.

(** The nonce store of the configuration is the state of the server. *)
Record ACMEConfig := mkACMEConfig {
  ACMEConfig_DefaultIdentityID : string;
  ACMEConfig_DefaultIssuerID : string;
  ACMEConfig_DefaultCertificateProfileID : string;
  ACMEConfig_DefaultValidityPeriod : Duration;
  ACMEConfig_RateLimit : Z;
  ACMEConfig_RateLimitWindow : Duration;
}.

Definition requiredScope := string.
Definition requiredScopeRead : requiredScope := "read".
Definition requiredScopeWrite : requiredScope := "write".
Definition requiredScopeOperator : requiredScope := "operator".

(** ** Endpoints *)

Definition isPublicACMEProtocolEndpoint (method path : string) : bool :=
  if (method =s MethodGet) && (path =s "/acme/directory") then true
  else if ((method =s MethodHead) || (method =s MethodGet)) && (path =s "/acme/new-nonce") then true
  else if (method =s MethodPost) && ((path =s "/acme/new-account") || (path =s "/acme/new-order")
            || (path =s "/acme/key-change") || (path =s "/acme/revoke-cert")) then true
  else if (method =s MethodPost) && HasPrefix path "/acme/account/" then true
  else if (method =s MethodGet) && (HasPrefix path "/acme/order/" || HasPrefix path "/acme/authz/") then true
  else if (method =s MethodPost) && (HasPrefix path "/acme/order/" || HasPrefix path "/acme/authz/"
            || HasPrefix path "/acme/challenge/" || HasPrefix path "/acme/cert/") then true
  else if (method =s MethodGet) && HasPrefix path "/acme/cert/" then true
  else false.

Definition isPublicEndpoint (method path : string) : bool :=
  if (method =s MethodPost) && (path =s "/ocsp") then true
  else if isPublicACMEProtocolEndpoint method path then true
  else if (method =s MethodGet) && HasPrefix path "/crls/"
          && Nat.ltb 0 (String.length (str_drop (String.length "/crls/") path)) then true
  else if (method <>s MethodGet) || negb (HasPrefix path "/issuers/") || negb (HasSuffix path "/crl") then false
  else match split_byte "/"%char (Trim_byte "/"%char path) with
       | [a; b; c] => (a =s "issuers") && (b <>s "") && (c =s "crl")
       | _ => false
       end.

Definition isRateLimitedACMEProtocolEndpoint (method path : string) : bool :=
  if method <>s MethodPost then false
  else (path =s "/acme/new-account") || (path =s "/acme/new-order") || (path =s "/acme/key-change")
       || HasPrefix path "/acme/challenge/"
       || (HasPrefix path "/acme/order/" && HasSuffix path "/finalize").

Definition acmeRateLimitClass (path : string) : string :=
  if path =s "/acme/new-account" then "account"
  else if path =s "/acme/new-order" then "order"
  else if path =s "/acme/key-change" then "account"
  else if HasPrefix path "/acme/challenge/" then "challenge"
  else if HasPrefix path "/acme/order/" && HasSuffix path "/finalize" then "finalize"
  else path.

Definition requiredScopeForRequest (method path : string) : requiredScope :=
  if (path =s "/debug/vars") || HasPrefix path "/api-keys" || HasPrefix path "/outbox/"
     || HasPrefix path "/audit-events" || HasPrefix path "/operator/" then requiredScopeOperator
  else if (method =s MethodPost) && (path =s "/certificates/expiration-scan") then requiredScopeOperator
  else if method =s MethodGet then requiredScopeRead
  else requiredScopeWrite.

Definition apiKeyAllowsScope (key : APIKey) (required : requiredScope) : bool :=
  existsb (λ scope, (scope =s APIKeyScopeOperator)
                    || (required =s requiredScopeRead) && (scope =s APIKeyScopeWrite)
                    || (scope =s required)) (APIKey_Scopes key).

Definition bearerToken (header : string) : option string :=
  if negb (HasPrefix header "Bearer ") then None
  else let token := TrimSpace (str_drop (String.length "Bearer ") header) in
       if token =s "" then None else Some token.

Definition requestBodyLimit (r : Request) : Z :=
  if (req_Method r =s MethodPost) && (req_Path r =s "/ocsp") then defaultOCSPBodyLimit
  else defaultJSONBodyLimit.

(** Reading the whole body through [http.MaxBytesReader]. *)
Definition readBody (r : Request) : option string :=
  if Z.leb (Z.of_nat (String.length (req_Body r))) (requestBodyLimit r) then Some (req_Body r) else None.

Definition requestActor (r : Request) : string :=
  let actor := default "" (req_Actor r) in
  if actor <>s "" then actor
  else let actor := header_Get r "X-Actor" in
       if actor =s "" then "anonymous" else actor.

(** ** Client address *)

Definition remoteAddrTrusted (host : string) (trustedProxies : list Prefix) : bool :=
  match ParseAddr (TrimSpace host) with
  | None => false
  | Some addr => existsb (λ prefix, prefix_contains prefix (Unmap addr)) trustedProxies
  end.

Definition forwardedClientIP (forwardedFor : string) : string :=
  let clientIP := TrimSpace (default "" (head (split_byte ","%char forwardedFor))) in
  if clientIP =s "" then ""
  else match ParseAddr clientIP with
       | None => ""
       | Some addr => addr_String (Unmap addr)
       end.

Definition requestClientIP (r : Request) (trustedProxies : list Prefix) : string :=
  match SplitHostPort (req_RemoteAddr r) with
  | None => req_RemoteAddr r
  | Some (host, _) =>
      if Nat.ltb 0 (length trustedProxies) && remoteAddrTrusted host trustedProxies
      then let clientIP := forwardedClientIP (header_Get r "X-Forwarded-For") in
           if clientIP <>s "" then clientIP else host
      else host
  end.

(** ** Query options *)

Definition paginationFromQuery (r : Request) : res (Z * Z) :=
  let rawLimit := query r "limit" in
  let! limit := (if rawLimit =s "" then Ok 0%Z
                 else match Atoi rawLimit with
                      | Some parsed => if Z.ltb parsed 1 then Err ErrInvalidRequest else Ok parsed
                      | None => Err ErrInvalidRequest
                      end) in
  let rawOffset := query r "offset" in
  if rawOffset =s "" then Ok (limit, 0%Z)
  else if Z.eqb limit 0 then Err ErrInvalidRequest
  else match Atoi rawOffset with
       | Some parsed => if Z.ltb parsed 0 then Err ErrInvalidRequest else Ok (limit, parsed)
       | None => Err ErrInvalidRequest
       end.

Definition paginationAndSortFromQuery (r : Request) : res (string * Z * Z) :=
  let sort := query r "sort" in
  do! check_not ((sort <>s "") && (sort <>s "asc") && (sort <>s "desc")) ErrInvalidRequest in
  let! page := paginationFromQuery r in
  Ok (sort, fst page, snd page).

Definition identityListOptionsFromQuery (r : Request) : res IdentityListOptions :=
  let! page := paginationAndSortFromQuery r in
  let '(sort, limit, offset) := page in
  Ok {| IdentityListOptions_Owner := query r "owner"; IdentityListOptions_Team := query r "team";
        IdentityListOptions_Service := query r "service";
        IdentityListOptions_Environment := query r "environment";
        IdentityListOptions_Sort := sort; IdentityListOptions_Limit := limit;
        IdentityListOptions_Offset := offset |}.

Definition enrollmentListOptionsFromQuery (r : Request) : res EnrollmentListOptions :=
  let! page := paginationAndSortFromQuery r in
  let '(sort, limit, offset) := page in
  Ok {| EnrollmentListOptions_IdentityID := query r "identity_id";
        EnrollmentListOptions_IssuerID := query r "issuer_id";
        EnrollmentListOptions_ProfileID := query r "profile_id";
        EnrollmentListOptions_Status := query r "status";
        EnrollmentListOptions_Sort := sort; EnrollmentListOptions_Limit := limit;
        EnrollmentListOptions_Offset := offset |}.

Definition isAllowedExpiryWindowDays (days : Z) : bool := existsb (Z.eqb days) [30; 14; 7; 3; 1]%Z.

Definition certificateListOptionsFromQuery (r : Request) : res CertificateListOptions :=
  let! page := paginationAndSortFromQuery r in
  let '(sort, limit, offset) := page in
  let raw := query r "expires_within_days" in
  let! days := (if raw =s "" then Ok 0%Z
                else match Atoi raw with
                     | Some days => if Z.ltb days 1 || negb (isAllowedExpiryWindowDays days)
                                    then Err ErrInvalidRequest else Ok days
                     | None => Err ErrInvalidRequest
                     end) in
  Ok {| CertificateListOptions_Owner := query r "owner"; CertificateListOptions_Team := query r "team";
        CertificateListOptions_Service := query r "service";
        CertificateListOptions_Environment := query r "environment";
        CertificateListOptions_IssuerID := query r "issuer_id";
        CertificateListOptions_ProfileID := query r "profile_id";
        CertificateListOptions_SAN := query r "san";
        CertificateListOptions_RevocationState := query r "revocation_state";
        CertificateListOptions_RenewalState := query r "renewal_state";
        CertificateListOptions_ExpiresWithinDays := days;
        CertificateListOptions_Sort := sort; CertificateListOptions_Limit := limit;
        CertificateListOptions_Offset := offset |}.

Definition certificateInventoryOptionsFromQuery (r : Request) : res CertificateInventoryOptions :=
  let! page := paginationAndSortFromQuery r in
  let '(sort, limit, offset) := page in
  Ok {| CertificateInventoryOptions_Owner := query r "owner";
        CertificateInventoryOptions_Team := query r "team";
        CertificateInventoryOptions_Service := query r "service";
        CertificateInventoryOptions_Environment := query r "environment";
        CertificateInventoryOptions_IssuerID := query r "issuer_id";
        CertificateInventoryOptions_ProfileID := query r "profile_id";
        CertificateInventoryOptions_RevocationState := query r "revocation_state";
        CertificateInventoryOptions_Sort := sort; CertificateInventoryOptions_Limit := limit;
        CertificateInventoryOptions_Offset := offset |}.

Section TimeOptions.
(** [time.Parse(time.RFC3339, raw)] *)
Variable parse_RFC3339 : string → option Time.

Definition optionalTime (raw : string) : res Time :=
  if raw =s "" then Ok zero_time
  else match parse_RFC3339 raw with Some t => Ok t | None => Err ErrInvalidRequest end.

Definition outboxMessageListOptionsFromQuery (r : Request) : res OutboxMessageListOptions :=
  let! page := paginationAndSortFromQuery r in
  let '(sort, limit, offset) := page in
  let! from := optionalTime (query r "from") in
  let! to := optionalTime (query r "to") in
  Ok {| OutboxMessageListOptions_Status := query r "status"; OutboxMessageListOptions_Type := query r "type";
        OutboxMessageListOptions_CreatedFrom := from; OutboxMessageListOptions_CreatedTo := to;
        OutboxMessageListOptions_Sort := sort; OutboxMessageListOptions_Limit := limit;
        OutboxMessageListOptions_Offset := offset |}.

Definition auditEventQueryFromRequest (r : Request) : res AuditEventQuery :=
  let! page := paginationAndSortFromQuery r in
  let '(sort, limit, offset) := page in
  let! from := optionalTime (query r "from") in
  let! to := optionalTime (query r "to") in
  Ok {| aeq_Actor := query r "actor"; aeq_Action := query r "action";
        aeq_ResourceType := query r "resource_type"; aeq_ResourceID := query r "resource_id";
        aeq_CreatedFrom := from; aeq_CreatedTo := to; aeq_Sort := sort; aeq_Limit := limit;
        aeq_Offset := offset |}.
End TimeOptions.

(** ** Errors *)

(** [errors.Is(err, errACMEBadNonce)] *)
Fixpoint is_bad_nonce (e : goerr) : bool :=
  match e with
  | EACMEBadNonce => true
  | ECommand _ _ _ inner | EWrap _ inner => is_bad_nonce inner
  | EWrap2 outer inner => is_bad_nonce outer || is_bad_nonce inner
  | EDomain _ | EPolicy _ _ | EText _ | EPanic _ => false
  end.

(** [Error()] of the sentinels of [domain/errors.go]. *)
Definition domain_Error (d : DomainErr) : string :=
  match d with
  | ErrInvalidRequest => "invalid request"
  | ErrUnsupportedMediaType => "unsupported media type"
  | ErrUnauthorized => "unauthorized"
  | ErrForbidden => "forbidden"
  | ErrRateLimited => "rate limited"
  | ErrIdentityNotFound => "identity not found"
  | ErrIssuerNotFound => "issuer not found"
  | ErrOCSPResponderNotFound => "ocsp responder not found"
  | ErrNotificationEndpointNotFound => "notification endpoint not found"
  | ErrCertificateProfileNotFound => "certificate profile not found"
  | ErrEnrollmentNotFound => "enrollment not found"
  | ErrCertificateNotFound => "certificate not found"
  | ErrIssuanceAttemptNotFound => "issuance attempt not found"
  | ErrCRLPublicationNotFound => "crl publication not found"
  | ErrCRLGenerationClaimNotFound => "crl generation claim not found"
  | ErrOutboxMessageNotFound => "outbox message not found"
  | ErrWebhookDeliveryNotFound => "webhook delivery not found"
  | ErrAPIKeyNotFound => "api key not found"
  | ErrACMEAccountNotFound => "acme account not found"
  | ErrACMEAccountDeactivated => "acme account deactivated"
  | ErrACMEOrderNotFound => "acme order not found"
  | ErrACMEAuthorizationNotFound => "acme authorization not found"
  | ErrACMEChallengeNotFound => "acme challenge not found"
  | ErrInvalidTransition => "invalid lifecycle transition"
  | ErrCSRParseFailed => "csr parse failed"
  | ErrCertificateIssuanceFailed => "certificate issuance failed"
  | ErrCRLGenerationFailed => "crl generation failed"
  | ErrOCSPDecodeFailed => "ocsp decode failed"
  | ErrOCSPResponseFailed => "ocsp response failed"
  | ErrOCSPResponderValidationFailed => "ocsp responder validation failed"
  | ErrAuditIntegrity => "audit integrity check failed"
  | ErrStorageFailure => "storage failure"
  end.

(** The cases of [publicErrorMessage], in order. *)
Definition publicErrors : list DomainErr :=
  [ErrInvalidRequest; ErrUnsupportedMediaType; ErrUnauthorized; ErrForbidden; ErrRateLimited;
   ErrInvalidTransition; ErrIdentityNotFound; ErrIssuerNotFound; ErrOCSPResponderNotFound;
   ErrNotificationEndpointNotFound; ErrCertificateProfileNotFound; ErrEnrollmentNotFound;
   ErrCertificateNotFound; ErrCRLPublicationNotFound; ErrOutboxMessageNotFound; ErrAPIKeyNotFound;
   ErrACMEAccountNotFound; ErrACMEAccountDeactivated; ErrACMEOrderNotFound;
   ErrACMEAuthorizationNotFound; ErrACMEChallengeNotFound; ErrCSRParseFailed;
   ErrCertificateIssuanceFailed; ErrCRLGenerationFailed; ErrOCSPDecodeFailed;
   ErrOCSPResponderValidationFailed; ErrOCSPResponseFailed; ErrAuditIntegrity; ErrStorageFailure].

Definition publicErrorMessage (err : goerr) : string :=
  if is_bad_nonce err then domain_Error ErrInvalidRequest
  else match List.find (errors_Is err) publicErrors with
       | Some d => domain_Error d
       | None => "internal server error"
       end.

(** The cases of [statusForError], in order. *)
Definition errorStatuses : list (DomainErr * Z) :=
  [(ErrInvalidRequest, 400%Z); (ErrUnsupportedMediaType, 415%Z); (ErrUnauthorized, 401%Z);
   (ErrForbidden, 403%Z); (ErrRateLimited, 429%Z); (ErrACMEAccountDeactivated, 401%Z);
   (ErrInvalidTransition, 409%Z); (ErrIdentityNotFound, 404%Z); (ErrIssuerNotFound, 404%Z);
   (ErrOCSPResponderNotFound, 404%Z); (ErrNotificationEndpointNotFound, 404%Z);
   (ErrCertificateProfileNotFound, 404%Z); (ErrEnrollmentNotFound, 404%Z);
   (ErrCertificateNotFound, 404%Z); (ErrCRLPublicationNotFound, 404%Z);
   (ErrOutboxMessageNotFound, 404%Z); (ErrAPIKeyNotFound, 404%Z); (ErrACMEAccountNotFound, 404%Z);
   (ErrACMEOrderNotFound, 404%Z); (ErrACMEAuthorizationNotFound, 404%Z);
   (ErrACMEChallengeNotFound, 404%Z); (ErrCSRParseFailed, 422%Z);
   (ErrCertificateIssuanceFailed, 502%Z); (ErrCRLGenerationFailed, 502%Z);
   (ErrOCSPDecodeFailed, 400%Z); (ErrOCSPResponderValidationFailed, 422%Z);
   (ErrOCSPResponseFailed, 502%Z); (ErrAuditIntegrity, 500%Z); (ErrStorageFailure, 500%Z)].

Definition statusForError (err : goerr) : Z :=
  if is_bad_nonce err then 400
  else match List.find (λ c : DomainErr * Z, errors_Is err (fst c)) errorStatuses with
       | Some (_, status) => status
       | None => 500
       end.

Definition acmeProblemType (err : goerr) : string :=
  if is_bad_nonce err then "urn:ietf:params:acme:error:badNonce"
  else if errors_Is err ErrRateLimited then "urn:ietf:params:acme:error:rateLimited"
  else if errors_Is err ErrACMEAccountDeactivated then "urn:ietf:params:acme:error:unauthorized"
  else if errors_Is err ErrUnauthorized || errors_Is err ErrForbidden
  then "urn:ietf:params:acme:error:unauthorized"
  else "urn:ietf:params:acme:error:malformed".

(** [http.StatusText], on the statuses of this server. *)
Definition StatusText (status : Z) : string :=
  default "" (snd <$> List.find (λ s : Z * string, Z.eqb (fst s) status)
    [(400, "Bad Request"); (401, "Unauthorized"); (403, "Forbidden"); (404, "Not Found");
     (405, "Method Not Allowed"); (409, "Conflict"); (415, "Unsupported Media Type");
     (422, "Unprocessable Entity"); (429, "Too Many Requests"); (500, "Internal Server Error");
     (502, "Bad Gateway")]%Z).

(** ** Metrics *)

Definition requestMetricBoundary (path : string) : string :=
  if (path =s "/debug/vars") then "observability"
  else if HasPrefix path "/identities" then "identity"
  else if HasPrefix path "/issuers/" && Contains path "/ocsp-responders" then "ocsp_responder"
  else if HasPrefix path "/issuers/" && HasSuffix path "/crl" then "crl"
  else if HasPrefix path "/issuers" then "issuer"
  else if HasPrefix path "/certificate-profiles" then "profile"
  else if HasPrefix path "/enrollments" then "enrollment"
  else if (path =s "/certificates") then "issuance"
  else if Contains path "/revoke" then "revocation"
  else if Contains path "/renew" then "renewal"
  else if Contains path "/reissue" then "reissue"
  else if Contains path "/suspend" || Contains path "/resume" then "suspension"
  else if HasPrefix path "/certificates/expiration-scan" then "expiration_scan"
  else if HasPrefix path "/certificates" then "certificate"
  else if HasPrefix path "/crls" then "crl"
  else if (path =s "/ocsp") then "ocsp"
  else if HasPrefix path "/acme" then "acme"
  else if HasPrefix path "/notification-endpoints" then "webhook"
  else if HasPrefix path "/outbox" then "outbox"
  else if HasPrefix path "/api-keys" then "auth"
  else if HasPrefix path "/audit-events" then "audit"
  else if HasPrefix path "/operator" then "operator"
  else "http".

(** ** The outcome of the authorizer, as it is audited *)

(** [errs] are the context errors that the returned error wraps, if there is one. *)
Definition authorizationAuditMetadata (result : AuthorizationResult) (err : option (list ContextErr))
    (contextErr : option ContextErr) : AuthorizationAuditMetadata :=
  let wraps c := bool_decide (contextErr = Some c) || existsb (λ e, bool_decide (e = c)) (default [] err) in
  let outcome := AuthorizationResult_Outcome result in
  let '(auditOutcome, status) :=
    if wraps DeadlineExceeded then ("error", "timeout")
    else if wraps Canceled then ("error", "canceled")
    else match err with
         | Some _ => ("error", "error")
         | None =>
             if (outcome =s AuthorizationOutcomeAllow) || (outcome =s AuthorizationOutcomeDeny)
                || (outcome =s AuthorizationOutcomeApprovalRequired) then (outcome, "ok")
             else ("invalid", "invalid_result")
         end in
  {| aam_Outcome := auditOutcome; aam_DecisionID := AuthorizationResult_DecisionID result;
     aam_ReasonCode := AuthorizationResult_ReasonCode result;
     aam_PolicyRevision := AuthorizationResult_PolicyRevision result;
     aam_EvaluatorStatus := status |}.
