(* ===== verification/HTTPCore.v ===== *)
(** * The HTTP server: state, nonces, rate limits, decoding and responses
    ([httpapi/server.go], [httpapi/acme.go], [observability/metrics.go])

    A handler is an action over [HState]: the world of the lifecycle service,
    the rate buckets, the nonce store and the counters. It ends in a response;
    every error leads to [writeError]. What the server takes from the standard
    library and cannot be computed here is a field of [HTTPEnv]. *)

From Stdlib Require Import Ascii.
From S2P Require Import Prelude GoLib NetIP Crypto Domain Core Requests AuditChain Store StoreInv.
From S2P Require Import Service Policy APIKeys Queries HTTPTypes HTTPBoundary.

(** ** Environment *)

(** The parts of [x509.CertificateRequest] that are read: the subject as text,
    the DNS names, and the text of each address ([None] for a nil address). *)
Record ParsedCSR := mkParsedCSR {
  pcsr_Subject : string;
  pcsr_DNSNames : list string;
  pcsr_IPAddresses : list (option string);
}.

(** The fields of [Server] that do not change. *)
Record Server := mkServer { srv_auth : AuthConfig; srv_acme : ACMEConfig }.

Class HTTPEnv := {
  http_server : Server;
  (** [time.Now], [rand.Read] into a slice of the given length, [ctx.Err], by tick *)
  time_Now : nat → Time;
  http_rand : nat → nat → res (list Z);
  ctx_Err : nat → option goerr;
  (** [encoding/json]: the first value of a text that is not blank, with unknown
      fields refused, and the rest of the text; and a whole text *)
  json_value : ∀ {T}, JSONKind T → string → option (T * string);
  json_unmarshal : ∀ {T}, JSONKind T → string → option T;
  parse_RFC3339 : string → option Time;
  (** [RequestAuthorizer]: the result, the context errors wrapped by the
      returned error, and the error of the authorization context *)
  authorizer : option (nat → AuthorizationInput →
    AuthorizationResult * option (list ContextErr) * option ContextErr);
  (** [crypto/ecdh], [crypto/ecdsa], [crypto/rsa], [crypto/ed25519] *)
  p256_NewPublicKey : list Z → bool;
  ecdsa_Verify : Z → Z → list Z → Z → Z → bool;
  rsa_VerifyPKCS1v15 : Z → Z → list Z → list Z → bool;
  ed25519_Verify : list Z → string → list Z → bool;
  (** [crypto/x509], [pkix.Name.String] of a common name, [encoding/pem] *)
  x509_ParseCertificateRequest : list Z → option ParsedCSR;
  pkix_CommonName : string → string;
  pem_CertificateRequest : list Z → string;
}.

(** ** State *)

Record acmeStoredNonce := mkStoredNonce { sn_IssuedAt : Time; sn_ExpiresAt : Time }.
Record acmeRateBucket := mkRateBucket { rb_Count : Z; rb_ResetAt : Time }.

(** [ACMENonceStore]: what the server asks of a nonce store. The first argument
    is [ctx.Err()]. *)
Class ACMENonceStore (N : Type) := {
  nonce_Issue : option goerr → string → Time → Time → GoM N unit;
  nonce_Consume : option goerr → string → Time → GoM N bool;
}.

Record HState (N : Type) := mkHState {
  hs_world : World;
  hs_rates : gmap string acmeRateBucket;
  hs_nonces : N;
  (** the counters of [observability]: requests by boundary and status, events *)
  hs_requests : gmap string Z;
  hs_events : gmap string Z;
}.
Arguments mkHState {N} _ _ _ _ _.
Arguments hs_world {N} _.
Arguments hs_rates {N} _.
Arguments hs_nonces {N} _.
Arguments hs_requests {N} _.
Arguments hs_events {N} _.

(** ** The nonce store in memory *)

Record acmeMemoryNonceStore := mkMemoryNonceStore {
  mn_nonces : gmap string acmeStoredNonce;
  mn_maxSize : Z;
}.

Definition newACMEMemoryNonceStore (maxSize : Z) : acmeMemoryNonceStore := mkMemoryNonceStore ∅ maxSize.

Definition removeExpiredLocked (now : Time) (s : acmeMemoryNonceStore) : acmeMemoryNonceStore :=
  mkMemoryNonceStore (filter (λ kv, After (sn_ExpiresAt (snd kv)) now = true) (mn_nonces s)) (mn_maxSize s).

(** One pass over the map, in the order of iteration [entries]: the nonce that
    is deleted. *)
Definition oldestNonce (entries : list (string * acmeStoredNonce)) : string :=
  fst (fold_left (λ best entry,
         if (fst best =s "") || Before (sn_IssuedAt (snd entry)) (snd best)
         then (fst entry, sn_IssuedAt (snd entry)) else best)
       entries ("", zero_time)).

(** Every round deletes an entry, so the size of the map is enough fuel. *)
Fixpoint evictLoop (fuel : nat) (maxSize : Z) (nonces : gmap string acmeStoredNonce)
  : gmap string acmeStoredNonce :=
  match fuel with
  | O => nonces
  | S n => if Z.leb (Z.of_nat (size nonces)) maxSize then nonces
           else evictLoop n maxSize (delete (oldestNonce (map_to_list nonces)) nonces)
  end.
Definition evictOldestLocked (maxSize : Z) (s : acmeMemoryNonceStore) : acmeMemoryNonceStore :=
  mkMemoryNonceStore (evictLoop (size (mn_nonces s)) maxSize (mn_nonces s)) (mn_maxSize s).

Definition Issue (ctxErr : option goerr) (nonce : string) (issuedAt expiresAt : Time)
  : GoM acmeMemoryNonceStore unit := λ s,
  match ctxErr with
  | Some err => (Err err, s)
  | None =>
      let s := evictOldestLocked (mn_maxSize s - 1) (removeExpiredLocked issuedAt s) in
      (Ok tt, mkMemoryNonceStore (<[nonce := mkStoredNonce issuedAt expiresAt]> (mn_nonces s)) (mn_maxSize s))
  end.

Definition Consume (ctxErr : option goerr) (nonce : string) (now : Time)
  : GoM acmeMemoryNonceStore bool := λ s,
  match ctxErr with
  | Some err => (Err err, s)
  | None =>
      let s := removeExpiredLocked now s in
      match mn_nonces s !! nonce with
      | None => (Ok false, s)
      | Some _ => (Ok true, mkMemoryNonceStore (delete nonce (mn_nonces s)) (mn_maxSize s))
      end
  end.

#[global] Instance memory_nonce_store : ACMENonceStore acmeMemoryNonceStore :=
  {| nonce_Issue := Issue; nonce_Consume := Consume |}.

(** ** Construction *)

Definition NewWithAuthorizer (auth : AuthConfig) (acme : ACMEConfig) : Server :=
  let auth := mkAuthConfig
    (if AuthConfig_Mode auth =s "" then AuthModeDev else AuthConfig_Mode auth)
    (AuthConfig_TrustedProxies auth)
    (if Z.leb (AuthConfig_AuthorizationTimeout auth) 0
        || Z.ltb defaultAuthorizationTimeout (AuthConfig_AuthorizationTimeout auth)
     then defaultAuthorizationTimeout else AuthConfig_AuthorizationTimeout auth) in
  let acme := mkACMEConfig (ACMEConfig_DefaultIdentityID acme) (ACMEConfig_DefaultIssuerID acme)
    (ACMEConfig_DefaultCertificateProfileID acme) (ACMEConfig_DefaultValidityPeriod acme)
    (if Z.leb (ACMEConfig_RateLimit acme) 0 then defaultACMERateLimit else ACMEConfig_RateLimit acme)
    (if Z.leb (ACMEConfig_RateLimitWindow acme) 0 then defaultACMERateWindow
     else ACMEConfig_RateLimitWindow acme) in
  mkServer auth acme.

(** The state of a new server without a configured nonce store. *)
Definition newServerState (w : World) : HState acmeMemoryNonceStore :=
  mkHState w ∅ (newACMEMemoryNonceStore defaultACMENonceCacheSize) ∅ ∅.

(** ** Responses *)

Inductive Body :=
| BodyNone
| BodyJSON (value : Payload)
| BodyBytes (bytes : string)
(** what [expvar.Handler] and [http.ServeMux] write themselves *)
| BodyExpvar
| BodyMux
(** the connection is closed without a response: the handler panicked *)
| BodyAborted.

Record Response := mkResponse {
  resp_Status : Z;
  resp_Header : list (string * string);
  resp_Body : Body;
}.

(** [Header.Set] and [Header.Add] *)
Definition header_Set (key value : string) (h : list (string * string)) : list (string * string) :=
  filter (λ kv, fst kv ≠ key) h ++ [(key, value)].
Definition header_Add (key value : string) (h : list (string * string)) : list (string * string) :=
  h ++ [(key, value)].

Definition StatusOK : Z := 200.
Definition StatusCreated : Z := 201.

(** [h] are the headers set before. *)
Definition writeJSON (h : list (string * string)) (status : Z) (value : Payload) : Response :=
  mkResponse status (header_Set "Content-Type" "application/json" h) (BodyJSON value).

Definition requestBaseURL (r : Request) : string :=
  let scheme := header_Get r "X-Forwarded-Proto" in
  (if scheme =s "" then "http" else scheme) +:+ "://" +:+ req_Host r.
Definition requestAbsoluteURL (r : Request) : string := requestBaseURL r +:+ RequestURI r.

Definition quote : string := String.String (ascii_of_nat 34) EmptyString.
Definition acmeDirectoryLink (r : Request) : string :=
  "<" +:+ requestBaseURL r +:+ "/acme/directory>;rel=" +:+ quote +:+ "index" +:+ quote.
Definition acmeAuthorizationLink (r : Request) (authorizationID : string) : string :=
  "<" +:+ requestBaseURL r +:+ "/acme/authz/" +:+ authorizationID +:+ ">;rel=" +:+ quote +:+ "up" +:+ quote.

(** Actions of the server, and handlers. *)
Definition HTTPM (N A : Type) := GoM (HState N) A.
Definition HandlerM (N : Type) := HState N → Response * HState N.

Section Core.
Context `{E : Env} `{HTTPEnv} {N : Type} `{ACMENonceStore N}.

Abbreviation HTTP := (HTTPM N).
Abbreviation Handler := (HandlerM N).

(** A call of the lifecycle service, and of the nonce store. *)
Definition svc {A} (op : Svc A) : HTTP A := λ st,
  let '(r, w) := op (hs_world st) in
  (r, mkHState w (hs_rates st) (hs_nonces st) (hs_requests st) (hs_events st)).
Definition nonces {A} (op : GoM N A) : HTTP A := λ st,
  let '(r, n) := op (hs_nonces st) in
  (r, mkHState (hs_world st) (hs_rates st) n (hs_requests st) (hs_events st)).
Definition now : HTTP Time := svc (outside (λ t, Ok (time_Now t))).
Definition ctxErr : HTTP (option goerr) := svc (outside (λ t, Ok (ctx_Err t))).

(** ** Counters *)

Definition RecordHTTPRequest (boundary : string) (status : Z) : HTTP unit :=
  let boundary := if boundary =s "" then "unknown" else boundary in
  let key := boundary +:+ ":" +:+ itoa status in
  putM (λ st, mkHState (hs_world st) (hs_rates st) (hs_nonces st)
    (<[key := wrap64 (default 0%Z (hs_requests st !! key) + 1)]> (hs_requests st)) (hs_events st)).
Definition RecordEvent (key : string) : HTTP unit :=
  putM (λ st, mkHState (hs_world st) (hs_rates st) (hs_nonces st) (hs_requests st)
    (<[key := wrap64 (default 0%Z (hs_events st !! key) + 1)]> (hs_events st))).

(** ** Nonces *)

Definition issueACMENonce : HTTP string :=
  let* raw := svc (outside (λ t, http_rand t 32)) in
  let nonce := base64_raw_url raw in
  let* issuedAt := now in
  let* cancelled := ctxErr in
  do* nonces (nonce_Issue cancelled nonce issuedAt (Add issuedAt defaultACMENonceTTL)) in
  retM nonce.

Definition consumeACMENonce (nonce : string) : HTTP bool :=
  let* at_ := now in
  let* cancelled := ctxErr in
  let* r := catchM (nonces (nonce_Consume cancelled nonce at_)) in
  retM (match r with Ok ok => ok | Err _ => false end).

(** ** Rate limits *)

Definition checkACMERateLimit (r : Request) : HTTP unit :=
  if negb (isRateLimitedACMEProtocolEndpoint (req_Method r) (req_Path r)) then retM tt
  else
    let* at_ := now in
    let acme := srv_acme http_server in
    let key := requestClientIP r (AuthConfig_TrustedProxies (srv_auth http_server))
               +:+ " " +:+ acmeRateLimitClass (req_Path r) in
    let* rates := getM hs_rates in
    let bucket := default (mkRateBucket 0 zero_time) (rates !! key) in
    let bucket := if IsZero (rb_ResetAt bucket) || negb (After (rb_ResetAt bucket) at_)
                  then mkRateBucket 0 (Add at_ (ACMEConfig_RateLimitWindow acme)) else bucket in
    let limited := Z.leb (ACMEConfig_RateLimit acme) (rb_Count bucket) in
    let bucket := if limited then bucket else mkRateBucket (rb_Count bucket + 1) (rb_ResetAt bucket) in
    do* putM (λ st, mkHState (hs_world st) (<[key := bucket]> (hs_rates st)) (hs_nonces st)
                      (hs_requests st) (hs_events st)) in
    if limited then
      do* RecordEvent ("rate_limit:acme_" +:+ acmeRateLimitClass (req_Path r)) in
      failM ErrRateLimited
    else retM tt.

(** ** Decoding *)

Definition is_json_space (a : ascii) : bool :=
  let n := nat_of_ascii a in Nat.eqb n 32 || Nat.eqb n 9 || Nat.eqb n 10 || Nat.eqb n 13.
Definition json_blank (s : string) : bool := forallb is_json_space (String.list_ascii_of_string s).

(** A body over the limit ends in a read error, never in [io.EOF]. *)
Definition decodeJSON {T} (k : JSONKind T) (r : Request) : res T :=
  match readBody r with
  | None => Err ErrInvalidRequest
  | Some body =>
      if json_blank body then Err ErrInvalidRequest
      else match json_value k body with
           | Some (v, rest) => if json_blank rest then Ok v else Err ErrInvalidRequest
           | None => Err ErrInvalidRequest
           end
  end.

(** [zero] is the value of the destination when the body is empty. *)
Definition decodeOptionalJSON {T} (k : JSONKind T) (zero : T) (r : Request) : res T :=
  match readBody r with
  | None => Err ErrInvalidRequest
  | Some body =>
      if json_blank body then Ok zero
      else match json_value k body with
           | Some (v, rest) => if json_blank rest then Ok v else Err ErrInvalidRequest
           | None => Err ErrInvalidRequest
           end
  end.

(** [json.Unmarshal] whose error becomes [ErrInvalidRequest]. *)
Definition unmarshal {T} (k : JSONKind T) (bytes : string) : res T :=
  match json_unmarshal k bytes with Some v => Ok v | None => Err ErrInvalidRequest end.

(** ** Writing responses *)

Definition optionalNonce (h : list (string * string)) : HTTP (list (string * string)) :=
  let* nonce := catchM issueACMENonce in
  retM (match nonce with Ok nonce => header_Set "Replay-Nonce" nonce h | Err _ => h end).

Definition writeACMEJSON (r : Request) (h : list (string * string)) (status : Z) (value : Payload)
  : HTTP Response :=
  let* h := optionalNonce h in
  retM (writeJSON (header_Add "Link" (acmeDirectoryLink r) h) status value).

Definition writeACMEProblem (r : Request) (status : Z) (err : goerr) : HTTP Response :=
  let* h := optionalNonce [] in
  let h := header_Set "Link" (acmeDirectoryLink r) h in
  let h := if errors_Is err ErrRateLimited
           then header_Set "Retry-After"
                  (itoa (float64_trunc (Seconds (ACMEConfig_RateLimitWindow (srv_acme http_server))))) h
           else h in
  retM (mkResponse status (header_Set "Content-Type" "application/problem+json" h)
    (BodyJSON (J_acmeProblem (mk_acmeProblem (acmeProblemType err) (StatusText status) status
      (publicErrorMessage err))))).

(** [writeError] after [RecordAPIFailure]; both branches succeed. *)
Definition errorBody (r : Request) (status : Z) (err : goerr) : HTTP Response :=
  if isPublicACMEProtocolEndpoint (req_Method r) (req_Path r) then writeACMEProblem r status err
  else retM (writeJSON [] status (J_errorResponse (mk_errorResponse (publicErrorMessage err)))).

Definition writeErrorM (r : Request) (err : goerr) : HTTP Response :=
  let status := statusForError err in
  let auditErr := if is_bad_nonce err then (ErrInvalidRequest : goerr) else err in
  do* catchM (svc (RecordAPIFailure (requestActor r)
        (mkAPIFailureAuditRequest (req_Method r) (req_Path r) status auditErr))) in
  errorBody r status err.

(** [writeErrorM] never fails, see [writeErrorM_ok]. *)
Definition writeError (r : Request) (err : goerr) : Handler := λ st,
  match writeErrorM r err st with
  | (Ok resp, st') => (resp, st')
  | (Err _, st') => (mkResponse 500 [] BodyNone, st')
  end.

(** [if err != nil { s.writeError(w, r, err); return }], after every call. A
    panic leaves the handler without a response; the counter of the status
    then still holds its initial value 200. *)
Definition handle (r : Request) (body : HTTP Response) : Handler := λ st,
  match body st with
  | (Ok resp, st') => (resp, st')
  | (Err (EPanic _), st') => (mkResponse StatusOK [] BodyAborted, st')
  | (Err err, st') => writeError r err st'
  end.

Lemma catchM_ok {S A} (m : GoM S A) s : ∃ a, (catchM m s).1 = Ok a.
Proof. unfold catchM. destruct (m s). eauto. Qed.

Lemma optionalNonce_ok h st : ∃ a st', optionalNonce h st = (Ok a, st').
Proof.
  unfold optionalNonce, bindM. destruct (catchM_ok issueACMENonce st) as [a Ea].
  destruct (catchM issueACMENonce st) as [? st']. simpl in Ea. subst. eauto.
Qed.

Lemma errorBody_ok r status err st : ∃ a st', errorBody r status err st = (Ok a, st').
Proof.
  unfold errorBody, writeACMEProblem. case_match; [|unfold retM; eauto].
  destruct (optionalNonce_ok [] st) as (h & st' & Eh). unfold bindM. rewrite Eh. unfold retM. eauto.
Qed.

Lemma writeErrorM_ok r err st : ∃ resp st', writeErrorM r err st = (Ok resp, st').
Proof.
  unfold writeErrorM. unfold bindM at 1. destruct (catchM _ st) as [[]] eqn:Er; [apply errorBody_ok|].
  unfold catchM in Er. by destruct (svc _ st).
Qed.
End Core.
