(* ===== verification/HTTPACME.v ===== *)
(** * The ACME protocol endpoints ([httpapi/acme.go])

    Signed requests (JWS), account keys (JWK), the checks that a request's
    account owns what it asks for, and the handlers. The signature schemes are
    parameters; everything around them is computed. *)

From Stdlib Require Import Ascii.
From S2P Require Import Prelude GoLib NetIP Crypto Domain Core Requests AuditChain Store StoreInv.
From S2P Require Import Service Policy Registry Lifecycle APIKeys ACME Queries HTTPTypes.
From S2P Require Import HTTPBoundary HTTPCore.

(** ** Base64 *)

Definition base64_value (a : ascii) : option Z :=
  Z.of_nat <$> index_byte a base64_alphabet.

(** Groups of four digits; the bits that a short last group leaves are ignored. *)
Fixpoint base64_groups (l : list Z) : option (list Z) :=
  match l with
  | a :: b :: c :: d :: rest =>
      app [a * 4 + b / 16; b mod 16 * 16 + c / 4; c mod 4 * 64 + d]%Z <$> base64_groups rest
  | [a; b; c] => Some [a * 4 + b / 16; b mod 16 * 16 + c / 4]%Z
  | [a; b] => Some [a * 4 + b / 16]%Z
  | [_] => None
  | [] => Some []
  end.

Definition base64_line_break (a : ascii) : bool :=
  Nat.eqb (nat_of_ascii a) 10 || Nat.eqb (nat_of_ascii a) 13.
Definition base64_text (s : string) : list ascii :=
  filter (λ a, base64_line_break a = false) (String.list_ascii_of_string s).

(** [base64.RawURLEncoding.DecodeString] *)
Definition RawURLDecode (s : string) : option (list Z) :=
  match mapM base64_value (base64_text s) with
  | Some digits => base64_groups digits
  | None => None
  end.

(** [base64.URLEncoding.DecodeString]: padded to a multiple of four. *)
Definition URLDecode (s : string) : option (list Z) :=
  let text := base64_text s in
  let n := length text in
  if negb (Nat.eqb (n mod 4) 0) then None
  else
    let pads := if bool_decide (drop (n - 2) text = ["="; "="]%char) && Nat.leb 2 n then 2
                else if bool_decide (drop (n - 1) text = ["="]%char) && Nat.leb 1 n then 1 else 0 in
    match mapM base64_value (take (n - pads) text) with
    | Some digits => base64_groups digits
    | None => None
    end.

Example base64_decoded : RawURLDecode "YW55IGNhcm5hbCBwbGVhcw" = Some (str_bytes "any carnal pleas").
Proof. reflexivity. Qed.
Example base64_padded : URLDecode "YW55IGNhcm5hbCBwbGVhcw==" = Some (str_bytes "any carnal pleas")
  ∧ URLDecode "YW55IGNhcm5hbCBwbGVhcw" = None.
Proof. split; reflexivity. Qed.

Definition bytes_string (l : list Z) : string := bytes_str (Z.to_nat <$> l).

(** [big.Int.SetBytes] *)
Definition big_SetBytes (l : list Z) : Z := fold_left (λ acc b, acc * 256 + b)%Z l 0%Z.

(** ** Account keys *)

Definition isValidACMEECJWK (jwk : acmeJWK) : bool :=
  (acmeJWK_KTY jwk =s "EC") && (acmeJWK_CRV jwk =s "P-256") && (acmeJWK_X jwk <>s "")
  && (acmeJWK_Y jwk <>s "") && (acmeJWK_N jwk =s "") && (acmeJWK_E jwk =s "").
Definition isValidACMERSAJWK (jwk : acmeJWK) : bool :=
  (acmeJWK_KTY jwk =s "RSA") && (acmeJWK_N jwk <>s "") && (acmeJWK_E jwk <>s "")
  && (acmeJWK_CRV jwk =s "") && (acmeJWK_X jwk =s "") && (acmeJWK_Y jwk =s "").
Definition isValidACMEOKPJWK (jwk : acmeJWK) : bool :=
  (acmeJWK_KTY jwk =s "OKP") && (acmeJWK_CRV jwk =s "Ed25519") && (acmeJWK_X jwk <>s "")
  && (acmeJWK_Y jwk =s "") && (acmeJWK_N jwk =s "") && (acmeJWK_E jwk =s "").

Definition isSupportedACMEJWSAlg (alg : string) : bool :=
  (alg =s "ES256") || (alg =s "RS256") || (alg =s "EdDSA").

(** [base64.RawURLEncoding.DecodeString] whose error becomes [ErrInvalidRequest]. *)
Definition decodeField (s : string) : res (list Z) :=
  match RawURLDecode s with Some l => Ok l | None => Err ErrInvalidRequest end.

Section JWS.
Context `{HTTPEnv}.

Definition acmeECJWKPublicKey (jwk : acmeJWK) : res (Z * Z) :=
  do! check_not (negb (isValidACMEECJWK jwk)) ErrInvalidRequest in
  let! xBytes := decodeField (acmeJWK_X jwk) in
  let! yBytes := decodeField (acmeJWK_Y jwk) in
  do! check_not (negb (Nat.eqb (length xBytes) 32) || negb (Nat.eqb (length yBytes) 32)) ErrInvalidRequest in
  do! check_not (negb (p256_NewPublicKey (4%Z :: xBytes ++ yBytes))) ErrInvalidRequest in
  Ok (big_SetBytes xBytes, big_SetBytes yBytes).

Definition acmeRSAJWKPublicKey (jwk : acmeJWK) : res (Z * Z) :=
  do! check_not (negb (isValidACMERSAJWK jwk)) ErrInvalidRequest in
  let! nBytes := decodeField (acmeJWK_N jwk) in
  let! eBytes := decodeField (acmeJWK_E jwk) in
  let n := big_SetBytes nBytes in
  let e := big_SetBytes eBytes in
  do! check_not (Z.leb n 0 || negb (Z.ltb e (2 ^ 63)) || Z.leb e 1) ErrInvalidRequest in
  Ok (n, e).

Definition acmeOKPJWKPublicKey (jwk : acmeJWK) : res (list Z) :=
  do! check_not (negb (isValidACMEOKPJWK jwk)) ErrInvalidRequest in
  let! xBytes := decodeField (acmeJWK_X jwk) in
  do! check_not (negb (Nat.eqb (length xBytes) 32)) ErrInvalidRequest in
  Ok xBytes.

Definition jsonMember (key value : string) : string :=
  quote +:+ key +:+ quote +:+ ":" +:+ quote +:+ value +:+ quote.

Definition canonicalACMEJWKJSON (jwk : acmeJWK) : res string :=
  if acmeJWK_KTY jwk =s "EC" then
    do! acmeECJWKPublicKey jwk in
    Ok ("{" +:+ jsonMember "crv" (acmeJWK_CRV jwk) +:+ "," +:+ jsonMember "kty" (acmeJWK_KTY jwk) +:+ ","
        +:+ jsonMember "x" (acmeJWK_X jwk) +:+ "," +:+ jsonMember "y" (acmeJWK_Y jwk) +:+ "}")
  else if acmeJWK_KTY jwk =s "RSA" then
    do! acmeRSAJWKPublicKey jwk in
    Ok ("{" +:+ jsonMember "e" (acmeJWK_E jwk) +:+ "," +:+ jsonMember "kty" (acmeJWK_KTY jwk) +:+ ","
        +:+ jsonMember "n" (acmeJWK_N jwk) +:+ "}")
  else if acmeJWK_KTY jwk =s "OKP" then
    do! acmeOKPJWKPublicKey jwk in
    Ok ("{" +:+ jsonMember "crv" (acmeJWK_CRV jwk) +:+ "," +:+ jsonMember "kty" (acmeJWK_KTY jwk) +:+ ","
        +:+ jsonMember "x" (acmeJWK_X jwk) +:+ "}")
  else Err ErrInvalidRequest.

Definition acmeJWKThumbprint (jwk : acmeJWK) : res string :=
  let! canonical := canonicalACMEJWKJSON jwk in
  Ok (base64_raw_url (Sum256 canonical)).

Definition acmeJWKFromProtected (value : option string) : res acmeJWK :=
  match value with
  | None => Err ErrInvalidRequest
  | Some encoded =>
      let! jwk := unmarshal K_acmeJWK encoded in
      if isValidACMEECJWK jwk || isValidACMERSAJWK jwk || isValidACMEOKPJWK jwk then Ok jwk
      else Err ErrInvalidRequest
  end.

Definition verifyACMEJWS (alg : string) (jwk : acmeJWK) (signingInput signatureB64 : string) : res unit :=
  let! signature := decodeField signatureB64 in
  let sum := Sum256 signingInput in
  if alg =s "ES256" then
    let! publicKey := acmeECJWKPublicKey jwk in
    do! check_not (negb (Nat.eqb (length signature) 64)) ErrInvalidRequest in
    check_not (negb (ecdsa_Verify (fst publicKey) (snd publicKey) sum
                 (big_SetBytes (take 32 signature)) (big_SetBytes (drop 32 signature)))) ErrInvalidRequest
  else if alg =s "RS256" then
    let! publicKey := acmeRSAJWKPublicKey jwk in
    check_not (negb (rsa_VerifyPKCS1v15 (fst publicKey) (snd publicKey) sum signature)) ErrInvalidRequest
  else if alg =s "EdDSA" then
    let! publicKey := acmeOKPJWKPublicKey jwk in
    check_not (negb (ed25519_Verify publicKey signingInput signature)) ErrInvalidRequest
  else Err ErrInvalidRequest.

(** ** Parts of requests *)

Definition acmeAccountIDFromKID `{GoURL} (kid : string) : res string :=
  match url_Parse kid with
  | None => Err (EText "parse")
  | Some parsed =>
      match split_byte "/"%char (Trim_byte "/"%char (url_Path parsed)) with
      | [a; b; c] => if (a <>s "acme") || (b <>s "account") || (c =s "") then Err ErrInvalidRequest else Ok c
      | _ => Err ErrInvalidRequest
      end
  end.

Fixpoint acmeOrderIdentifiersLoop (identifiers : list acmeIdentifierRequest)
    (dnsNames ipAddresses : list string) : res (list string * list string) :=
  match identifiers with
  | [] => Ok (dnsNames, ipAddresses)
  | identifier :: rest =>
      let value := acmeIdentifierRequest_Value identifier in
      if TrimSpace value =s "" then Err ErrInvalidRequest
      else if acmeIdentifierRequest_Type identifier =s "dns"
      then acmeOrderIdentifiersLoop rest (dnsNames ++ [value]) ipAddresses
      else if acmeIdentifierRequest_Type identifier =s "ip"
      then acmeOrderIdentifiersLoop rest dnsNames (ipAddresses ++ [value])
      else Err ErrInvalidRequest
  end.
Definition acmeOrderIdentifiers (identifiers : list acmeIdentifierRequest)
  : res (list string * list string) := acmeOrderIdentifiersLoop identifiers [] [].

Definition decodeACMECSR (encoded : string) : option (list Z) :=
  match RawURLDecode encoded with Some der => Some der | None => URLDecode encoded end.

Definition acmeDefaultSubjectFromCSR (csr : ParsedCSR) : string :=
  match List.find (λ name, TrimSpace name <>s "") (pcsr_DNSNames csr) with
  | Some name => pkix_CommonName name
  | None =>
      match omap id (pcsr_IPAddresses csr) with
      | ip :: _ => pkix_CommonName ip
      | [] => ""
      end
  end.

Definition normalizeACMEFinalizeRequest (req : finalizeACMEOrderRequest) : res (string * string) :=
  if TrimSpace (finalizeACMEOrderRequest_CSRPEM req) <>s ""
  then Ok (finalizeACMEOrderRequest_CSRPEM req, finalizeACMEOrderRequest_RequestedSubject req)
  else if TrimSpace (finalizeACMEOrderRequest_CSR req) =s "" then Err ErrInvalidRequest
  else match decodeACMECSR (finalizeACMEOrderRequest_CSR req) with
  | None => Err ErrInvalidRequest
  | Some der =>
      match x509_ParseCertificateRequest der with
      | None => Err ErrInvalidRequest
      | Some csr =>
          let subject := finalizeACMEOrderRequest_RequestedSubject req in
          let subject := if TrimSpace subject =s "" then pcsr_Subject csr else subject in
          let subject := if TrimSpace subject =s "" then acmeDefaultSubjectFromCSR csr else subject in
          if TrimSpace subject =s "" then Err ErrInvalidRequest
          else Ok (pem_CertificateRequest der, subject)
      end
  end.

(** [strings.TrimRight(block, "\r\n")] *)
Fixpoint trim_line_breaks (s : string) : string :=
  match s with
  | EmptyString => EmptyString
  | String.String a s' =>
      let t := trim_line_breaks s' in
      if base64_line_break a && (t =s "") then EmptyString else String.String a t
  end.
Definition newline : string := String.String (ascii_of_nat 10) EmptyString.

(** The text built so far, with one more block. *)
Definition acmeAppendCertificateChainBlock (builder block : string) : string :=
  let normalized := trim_line_breaks block in
  if normalized =s "" then builder
  else (if builder <>s "" then builder +:+ newline else builder) +:+ normalized.
End JWS.

(** ** Signed requests *)

Section Protocol.
Context `{E : Env} `{HTTPEnv} {N : Type} `{ACMENonceStore N}.
Abbreviation HTTP := (HTTPM N).
Abbreviation Handler := (HandlerM N).

(** The key and account a protected header names; [None] for a new key. *)
Definition jwsKeyOfAccount (r : Request) (kid : string) : HTTP (acmeJWK * acmeJWSResult) :=
  do* return_if (negb (HasPrefix kid (requestBaseURL r +:+ "/acme/account/"))) ErrInvalidRequest in
  match acmeAccountIDFromKID kid with
  | Err _ => failM ErrInvalidRequest
  | Ok accountID =>
      let* account := svc (Queries.GetACMEAccount accountID) in
      do* return_if ((ACMEAccount_KeyJWKJSON account =s "") || (ACMEAccount_KeyThumbprint account =s ""))
            ErrInvalidRequest in
      let* jwk := liftM (unmarshal K_acmeJWK (ACMEAccount_KeyJWKJSON account)) in
      retM (jwk, mk_acmeJWSResult "" (ACMEAccount_ID account) (ACMEAccount_KeyThumbprint account)
                   (ACMEAccount_KeyJWKJSON account))
  end.

Definition jwsKeyOfHeader (value : option string) : HTTP (acmeJWK * acmeJWSResult) :=
  match acmeJWKFromProtected value with
  | Err _ => failM ErrInvalidRequest
  | Ok jwk =>
      match canonicalACMEJWKJSON jwk, acmeJWKThumbprint jwk with
      | Ok keyJSON, Ok thumbprint => retM (jwk, mk_acmeJWSResult "" "" thumbprint keyJSON)
      | _, _ => failM ErrInvalidRequest
      end
  end.

Definition decodeACMEJWS (r : Request) : HTTP acmeJWSResult :=
  let contentType := header_Get r "Content-Type" in
  do* return_if ((contentType <>s "") && negb (HasPrefix contentType "application/jose+json"))
        ErrUnsupportedMediaType in
  let* req := liftM (decodeJSON K_acmeJWSRequest r) in
  do* return_if ((acmeJWSRequest_Protected req =s "") || (acmeJWSRequest_Signature req =s ""))
        ErrInvalidRequest in
  let* protectedBytes := liftM (decodeField (acmeJWSRequest_Protected req)) in
  let* protected := liftM (unmarshal K_acmeProtectedHeader (bytes_string protectedBytes)) in
  let alg := acmeProtectedHeader_Alg protected in
  let url := acmeProtectedHeader_URL protected in
  let kid := acmeProtectedHeader_KID protected in
  do* return_if (negb (isSupportedACMEJWSAlg alg) || (acmeProtectedHeader_Nonce protected =s "")
                 || (url =s "") || (url <>s requestAbsoluteURL r)) ErrInvalidRequest in
  do* return_if (Bool.eqb (kid =s "") (match acmeProtectedHeader_JWK protected with
                                       | None => true | Some _ => false end)) ErrInvalidRequest in
  let* fresh := consumeACMENonce (acmeProtectedHeader_Nonce protected) in
  do* return_if (negb fresh) EACMEBadNonce in
  let* payload := liftM (decodeField (acmeJWSRequest_Payload req)) in
  let* key := (if kid <>s "" then jwsKeyOfAccount r kid
               else jwsKeyOfHeader (acmeProtectedHeader_JWK protected)) in
  let '(jwk, result) := key in
  match verifyACMEJWS alg jwk (acmeJWSRequest_Protected req +:+ "." +:+ acmeJWSRequest_Payload req)
          (acmeJWSRequest_Signature req) with
  | Err _ => failM ErrInvalidRequest
  | Ok _ => retM (mk_acmeJWSResult (bytes_string payload) (acmeJWSResult_AccountID result)
                    (acmeJWSResult_KeyThumbprint result) (acmeJWSResult_KeyJWKJSON result))
  end.

(** The inner request of a key change; every error is [ErrInvalidRequest]. *)
Definition decodeACMEKeyChangeJWS (r : Request) (payload : string) : res acmeKeyChangeJWSResult :=
  let! req := unmarshal K_acmeJWSRequest payload in
  do! check_not ((acmeJWSRequest_Protected req =s "") || (acmeJWSRequest_Payload req =s "")
                 || (acmeJWSRequest_Signature req =s "")) ErrInvalidRequest in
  let! protectedBytes := decodeField (acmeJWSRequest_Protected req) in
  let! protected := unmarshal K_acmeProtectedHeader (bytes_string protectedBytes) in
  do! check_not (negb (isSupportedACMEJWSAlg (acmeProtectedHeader_Alg protected))
                 || (acmeProtectedHeader_URL protected <>s requestBaseURL r +:+ "/acme/key-change")
                 || (acmeProtectedHeader_KID protected <>s "")
                 || match acmeProtectedHeader_JWK protected with None => true | Some _ => false end)
        ErrInvalidRequest in
  match acmeJWKFromProtected (acmeProtectedHeader_JWK protected) with
  | Err _ => Err ErrInvalidRequest
  | Ok jwk =>
      match verifyACMEJWS (acmeProtectedHeader_Alg protected) jwk
              (acmeJWSRequest_Protected req +:+ "." +:+ acmeJWSRequest_Payload req)
              (acmeJWSRequest_Signature req) with
      | Err _ => Err ErrInvalidRequest
      | Ok _ =>
          let! innerPayload := decodeField (acmeJWSRequest_Payload req) in
          let! change := unmarshal K_acmeKeyChangeRequest (bytes_string innerPayload) in
          do! check_not (acmeKeyChangeRequest_Account change =s "") ErrInvalidRequest in
          match canonicalACMEJWKJSON jwk, acmeJWKThumbprint jwk with
          | Ok keyJSON, Ok thumbprint =>
              Ok (mk_acmeKeyChangeJWSResult (acmeKeyChangeRequest_Account change)
                    (acmeKeyChangeRequest_OldKey change) thumbprint keyJSON)
          | _, _ => Err ErrInvalidRequest
          end
      end
  end.

(** ** Ownership *)

Definition requireACMEOrderAccount (orderID accountID : string) : Svc unit :=
  do* return_if (accountID =s "") ErrInvalidRequest in
  let* account := Queries.GetACMEAccount accountID in
  do* return_if (ACMEAccount_Status account =s ACMEAccountDeactivated) ErrACMEAccountDeactivated in
  do* return_if (ACMEAccount_Status account <>s ACMEAccountValid) ErrInvalidRequest in
  let* order := Queries.GetACMEOrder orderID in
  return_if (ACMEOrder_AccountID order <>s accountID) ErrInvalidRequest.

Definition requireACMEAuthorizationAccount (authorizationID accountID : string) : Svc unit :=
  do* return_if (accountID =s "") ErrInvalidRequest in
  let* authorization := Queries.GetACMEAuthorization authorizationID in
  requireACMEOrderAccount (ACMEAuthorization_OrderID authorization) accountID.

Definition requireACMEChallengeAccount (challengeID accountID : string) : Svc unit :=
  do* return_if (accountID =s "") ErrInvalidRequest in
  let* challenge := Queries.GetACMEChallenge challengeID in
  let* authorization := Queries.GetACMEAuthorization (ACMEChallenge_AuthorizationID challenge) in
  requireACMEOrderAccount (ACMEAuthorization_OrderID authorization) accountID.

Definition requireACMECertificateAccount (certificateID accountID : string) : Svc unit :=
  do* return_if ((certificateID =s "") || (accountID =s "")) ErrInvalidRequest in
  let* orders := Queries.ListACMEOrdersByAccount accountID in
  return_if (negb (existsb (λ order, ACMEOrder_CertificateID order =s certificateID) orders)) ErrForbidden.

(** ** Responses *)

Definition toACMEProtocolAccount (r : Request) (account : ACMEAccount) : acmeProtocolAccountResponse :=
  mk_acmeProtocolAccountResponse (ACMEAccount_ID account) (ACMEAccount_Status account)
    (ACMEAccount_Contacts account) (requestBaseURL r +:+ "/acme/account/" +:+ ACMEAccount_ID account).

Definition acmeProtocolOrderIdentifiers (order : ACMEOrder) : list acmeProtocolIdentifierResponse :=
  (mk_acmeProtocolIdentifierResponse "dns" <$> ACMEOrder_RequestedDNSNames order)
  ++ (mk_acmeProtocolIdentifierResponse "ip" <$> ACMEOrder_RequestedIPAddresses order).

Definition toACMEProtocolOrder (r : Request) (order : ACMEOrder) : Svc acmeProtocolOrderResponse :=
  let* authorizations := Queries.ListACMEAuthorizations (ACMEOrder_ID order) in
  let baseURL := requestBaseURL r in
  retM {| acmeProtocolOrderResponse_ID := ACMEOrder_ID order;
          acmeProtocolOrderResponse_Status := ACMEOrder_Status order;
          acmeProtocolOrderResponse_URL := baseURL +:+ "/acme/order/" +:+ ACMEOrder_ID order;
          acmeProtocolOrderResponse_Identifiers := acmeProtocolOrderIdentifiers order;
          acmeProtocolOrderResponse_Authorizations :=
            (λ a, baseURL +:+ "/acme/authz/" +:+ ACMEAuthorization_ID a) <$> authorizations;
          acmeProtocolOrderResponse_Finalize :=
            baseURL +:+ "/acme/order/" +:+ ACMEOrder_ID order +:+ "/finalize";
          acmeProtocolOrderResponse_Certificate :=
            if ACMEOrder_CertificateID order <>s "" then baseURL +:+ "/acme/cert/" +:+ ACMEOrder_CertificateID order else "";
          acmeProtocolOrderResponse_Expires := ACMEOrder_ExpiresAt order |}.

Definition toACMEProtocolChallenge (r : Request) (challenge : ACMEChallenge)
  : acmeProtocolChallengeResponse :=
  mk_acmeProtocolChallengeResponse (ACMEChallenge_ID challenge) (ACMEChallenge_Type challenge)
    (requestBaseURL r +:+ "/acme/challenge/" +:+ ACMEChallenge_ID challenge)
    (ACMEChallenge_Token challenge) (ACMEChallenge_Status challenge).

Definition toACMEProtocolAuthorization (r : Request) (authorization : ACMEAuthorization)
  : Svc acmeProtocolAuthorizationResponse :=
  let* challenges := Queries.ListACMEChallenges (ACMEAuthorization_ID authorization) in
  retM {| acmeProtocolAuthorizationResponse_ID := ACMEAuthorization_ID authorization;
          acmeProtocolAuthorizationResponse_Status := ACMEAuthorization_Status authorization;
          acmeProtocolAuthorizationResponse_Identifier := mk_acmeProtocolIdentifierResponse
            (ACMEAuthorization_IdentifierType authorization) (ACMEAuthorization_IdentifierValue authorization);
          acmeProtocolAuthorizationResponse_Challenges := toACMEProtocolChallenge r <$> challenges;
          acmeProtocolAuthorizationResponse_Expires := ACMEAuthorization_ExpiresAt authorization |}.

Definition acmeAuthorizationHasProcessingChallenge (authorization : acmeProtocolAuthorizationResponse) : bool :=
  existsb (λ c, acmeProtocolChallengeResponse_Status c =s ACMEChallengeProcessing)
    (acmeProtocolAuthorizationResponse_Challenges authorization).

Definition acmeCertificateChainPEM (certificateID : string) : Svc string :=
  let* certificate := Queries.GetCertificate certificateID in
  let* chain := GetIssuerChain (Certificate_IssuerID certificate) in
  let built := fold_left acmeAppendCertificateChainBlock (Issuer_CertificatePEM <$> chain)
    (acmeAppendCertificateChainBlock "" (Certificate_CertificatePEM certificate)) in
  retM (if built <>s "" then built +:+ newline else built).

Definition retryAfter (processing : bool) : list (string * string) :=
  if processing then [("Retry-After", acmeRetryAfterSeconds)] else [].

(** ** Handlers of the protocol *)

Definition acmeDirectory (r : Request) : Handler := λ st,
  let baseURL := requestBaseURL r in
  (writeJSON [] StatusOK (J_directory
    [("newNonce", baseURL +:+ "/acme/new-nonce"); ("newAccount", baseURL +:+ "/acme/new-account");
     ("newOrder", baseURL +:+ "/acme/new-order"); ("keyChange", baseURL +:+ "/acme/key-change");
     ("revokeCert", baseURL +:+ "/acme/revoke-cert")] false), st).

Definition acmeNewNonce (r : Request) : Handler := handle r (
  let* nonce := issueACMENonce in
  retM (mkResponse StatusOK [("Replay-Nonce", nonce); ("Link", acmeDirectoryLink r);
    ("Cache-Control", "no-store")] BodyNone)).

Definition acmeNewAccount (r : Request) : Handler := handle r (
  let* jws := decodeACMEJWS r in
  let* req := liftM (unmarshal K_acmeNewAccountRequest (acmeJWSResult_Payload jws)) in
  let* result := svc (CreateOrGetACMEAccount (requestActor r)
    (mkCreateACMEAccountRequest (acmeNewAccountRequest_Contact req)
       (acmeNewAccountRequest_TermsOfServiceAgreed req) (acmeJWSResult_KeyThumbprint jws)
       (acmeJWSResult_KeyJWKJSON jws))) in
  let response := toACMEProtocolAccount r (CreateACMEAccountResult_Account result) in
  writeACMEJSON r [("Location", acmeProtocolAccountResponse_Location response)]
    (if CreateACMEAccountResult_Created result then StatusCreated else StatusOK)
    (J_acmeProtocolAccountResponse response)).

Definition acmeUpdateAccount (r : Request) : Handler := handle r (
  let* jws := decodeACMEJWS r in
  let accountID := PathValue r "id" in
  do* return_if ((acmeJWSResult_AccountID jws =s "") || (acmeJWSResult_AccountID jws <>s accountID))
        ErrInvalidRequest in
  let* req := liftM (unmarshal K_acmeUpdateAccountRequest (acmeJWSResult_Payload jws)) in
  let contacts := acmeUpdateAccountRequest_Contact req in
  let status := acmeUpdateAccountRequest_Status req in
  do* return_if ((status <>s "") && (status <>s ACMEAccountDeactivated)) ErrInvalidRequest in
  let* account := svc (UpdateACMEAccount (requestActor r) accountID
    {| UpdateACMEAccountRequest_Contacts := default [] contacts;
       UpdateACMEAccountRequest_UpdateContacts := match contacts with Some _ => true | None => false end;
       UpdateACMEAccountRequest_Deactivate := status <>s "" |}) in
  writeACMEJSON r [] StatusOK (J_acmeProtocolAccountResponse (toACMEProtocolAccount r account))).

Definition acmeKeyChange (r : Request) : Handler := handle r (
  let* jws := decodeACMEJWS r in
  do* return_if (acmeJWSResult_AccountID jws =s "") ErrInvalidRequest in
  let* account := svc (Queries.GetACMEAccount (acmeJWSResult_AccountID jws)) in
  do* return_if (ACMEAccount_KeyJWKJSON account =s "") ErrInvalidRequest in
  let* inner := liftM (decodeACMEKeyChangeJWS r (acmeJWSResult_Payload jws)) in
  do* return_if (acmeKeyChangeJWSResult_Account inner
                 <>s requestBaseURL r +:+ "/acme/account/" +:+ ACMEAccount_ID account) ErrInvalidRequest in
  do* return_if (match canonicalACMEJWKJSON (acmeKeyChangeJWSResult_OldKey inner) with
                 | Ok oldKeyJSON => oldKeyJSON <>s ACMEAccount_KeyJWKJSON account
                 | Err _ => true
                 end) ErrInvalidRequest in
  let* updated := svc (UpdateACMEAccountKey (requestActor r) (ACMEAccount_ID account)
    {| UpdateACMEAccountKeyRequest_KeyThumbprint := acmeKeyChangeJWSResult_NewKeyThumbprint inner;
       UpdateACMEAccountKeyRequest_KeyJWKJSON := acmeKeyChangeJWSResult_NewKeyJWKJSON inner |}) in
  writeACMEJSON r [] StatusOK (J_acmeProtocolAccountResponse (toACMEProtocolAccount r updated))).

(** [if value == "" { value = fallback }] *)
Definition orDefault (value fallback : string) : string := if value =s "" then fallback else value.

Definition acmeNewOrder (r : Request) : Handler := handle r (
  let acme := srv_acme http_server in
  let* jws := decodeACMEJWS r in
  let* req := liftM (unmarshal K_acmeNewOrderRequest (acmeJWSResult_Payload jws)) in
  do* return_if (acmeJWSResult_AccountID jws =s "") ErrInvalidRequest in
  let accountID := orDefault (acmeNewOrderRequest_AccountID req) (acmeJWSResult_AccountID jws) in
  let identityID := orDefault (acmeNewOrderRequest_IdentityID req) (ACMEConfig_DefaultIdentityID acme) in
  let issuerID := orDefault (acmeNewOrderRequest_IssuerID req) (ACMEConfig_DefaultIssuerID acme) in
  let profileID := orDefault (acmeNewOrderRequest_CertificateProfileID req)
                     (ACMEConfig_DefaultCertificateProfileID acme) in
  let* notAfter := (if IsZero (acmeNewOrderRequest_NotAfter req)
                       && Z.ltb 0 (ACMEConfig_DefaultValidityPeriod acme)
                    then let* at_ := now in retM (Add at_ (ACMEConfig_DefaultValidityPeriod acme))
                    else retM (acmeNewOrderRequest_NotAfter req)) in
  do* return_if (accountID <>s acmeJWSResult_AccountID jws) ErrInvalidRequest in
  let* identifiers := liftM (acmeOrderIdentifiers (acmeNewOrderRequest_Identifiers req)) in
  let* order := svc (ACME.CreateACMEOrder (requestActor r)
    {| CreateACMEOrderRequest_AccountID := accountID; CreateACMEOrderRequest_IdentityID := identityID;
       CreateACMEOrderRequest_IssuerID := issuerID;
       CreateACMEOrderRequest_CertificateProfileID := profileID;
       CreateACMEOrderRequest_RequestedDNSNames := fst identifiers;
       CreateACMEOrderRequest_RequestedIPAddresses := snd identifiers;
       CreateACMEOrderRequest_RequestedNotAfter := notAfter |}) in
  let* response := svc (toACMEProtocolOrder r order) in
  writeACMEJSON r [("Location", acmeProtocolOrderResponse_URL response)] StatusCreated
    (J_acmeProtocolOrderResponse response)).

Definition acmeGetOrder (r : Request) : Handler := handle r (
  let* order := svc (Queries.GetACMEOrder (PathValue r "id")) in
  let* response := svc (toACMEProtocolOrder r order) in
  retM (writeJSON [] StatusOK (J_acmeProtocolOrderResponse response))).

Definition acmePostAsGetOrder (r : Request) : Handler := handle r (
  let* jws := decodeACMEJWS r in
  do* return_if (acmeJWSResult_Payload jws <>s "") ErrInvalidRequest in
  do* svc (requireACMEOrderAccount (PathValue r "id") (acmeJWSResult_AccountID jws)) in
  let* order := svc (Queries.GetACMEOrder (PathValue r "id")) in
  let* response := svc (toACMEProtocolOrder r order) in
  writeACMEJSON r [] StatusOK (J_acmeProtocolOrderResponse response)).

Definition acmeGetAuthorization (r : Request) : Handler := handle r (
  let* authorization := svc (PollACMEAuthorization (requestActor r) (PathValue r "id")) in
  let* response := svc (toACMEProtocolAuthorization r authorization) in
  retM (writeJSON (retryAfter (acmeAuthorizationHasProcessingChallenge response)) StatusOK
    (J_acmeProtocolAuthorizationResponse response))).

Definition acmePostAsGetAuthorization (r : Request) : Handler := handle r (
  let* jws := decodeACMEJWS r in
  do* return_if (acmeJWSResult_Payload jws <>s "") ErrInvalidRequest in
  do* svc (requireACMEAuthorizationAccount (PathValue r "id") (acmeJWSResult_AccountID jws)) in
  let* authorization := svc (PollACMEAuthorization (requestActor r) (PathValue r "id")) in
  let* response := svc (toACMEProtocolAuthorization r authorization) in
  writeACMEJSON r (retryAfter (acmeAuthorizationHasProcessingChallenge response)) StatusOK
    (J_acmeProtocolAuthorizationResponse response)).

Definition acmeCompleteChallenge (r : Request) : Handler := handle r (
  let* jws := decodeACMEJWS r in
  do* svc (requireACMEChallengeAccount (PathValue r "id") (acmeJWSResult_AccountID jws)) in
  let* challenge := svc (ValidateACMEHTTP01Challenge (requestActor r) (PathValue r "id")) in
  writeACMEJSON r (header_Add "Link" (acmeAuthorizationLink r (ACMEChallenge_AuthorizationID challenge))
      (retryAfter (ACMEChallenge_Status challenge =s ACMEChallengeProcessing)))
    StatusOK (J_acmeProtocolChallengeResponse (toACMEProtocolChallenge r challenge))).

Definition acmeFinalizeOrder (r : Request) : Handler := handle r (
  let* jws := decodeACMEJWS r in
  let* req := liftM (unmarshal K_finalizeACMEOrderRequest (acmeJWSResult_Payload jws)) in
  do* svc (requireACMEOrderAccount (PathValue r "id") (acmeJWSResult_AccountID jws)) in
  let* csr := liftM (normalizeACMEFinalizeRequest req) in
  let* order := svc (FinalizeACMEOrder (requestActor r) (PathValue r "id")
    (mkFinalizeACMEOrderRequest (fst csr) (snd csr))) in
  let* response := svc (toACMEProtocolOrder r order) in
  writeACMEJSON r [] StatusOK (J_acmeProtocolOrderResponse response)).

Definition acmeRevokeCertificate (r : Request) : Handler := handle r (
  let* jws := decodeACMEJWS r in
  let* req := liftM (unmarshal K_acmeRevokeCertificateRequest (acmeJWSResult_Payload jws)) in
  let certificateID := acmeRevokeCertificateRequest_CertificateID req in
  let reason := acmeRevokeCertificateRequest_Reason req in
  do* return_if ((certificateID =s "") || (reason =s "")) ErrInvalidRequest in
  do* svc (requireACMECertificateAccount certificateID (acmeJWSResult_AccountID jws)) in
  do* svc (Lifecycle.RevokeCertificate (requestActor r) certificateID reason) in
  writeACMEJSON r [] StatusOK J_empty).

Definition acmeGetCertificate (r : Request) : Handler := handle r (
  let* chainPEM := svc (acmeCertificateChainPEM (PathValue r "id")) in
  retM (mkResponse StatusOK [("Content-Type", "application/pem-certificate-chain")] (BodyBytes chainPEM))).

Definition acmePostAsGetCertificate (r : Request) : Handler := handle r (
  let* jws := decodeACMEJWS r in
  do* return_if (acmeJWSResult_Payload jws <>s "") ErrInvalidRequest in
  do* svc (requireACMECertificateAccount (PathValue r "id") (acmeJWSResult_AccountID jws)) in
  let* chainPEM := svc (acmeCertificateChainPEM (PathValue r "id")) in
  let* h := optionalNonce [] in
  retM (mkResponse StatusOK
    (header_Set "Content-Type" "application/pem-certificate-chain"
      (header_Set "Link" (acmeDirectoryLink r) h)) (BodyBytes chainPEM))).
End Protocol.
