(* ===== verification/HTTPServer.v ===== *)
(** * Handlers of the management API ([httpapi/server.go], [httpapi/acme.go])

    Decode the request, call the lifecycle service as the actor of the request,
    encode the result. *)

From Stdlib Require Import Ascii.
From S2P Require Import Prelude GoLib NetIP Crypto Domain Core Requests AuditChain Store StoreInv.
From S2P Require Import Service Policy Registry Lifecycle Issuance Outbox CRL APIKeys OCSP ACME.
From S2P Require Import Queries HTTPTypes HTTPBoundary HTTPCore.

Section Handlers.
Context `{E : Env} `{HTTPEnv} {N : Type} `{ACMENonceStore N}.
Abbreviation HTTP := (HTTPM N).
Abbreviation Handler := (HandlerM N).

Definition createIdentity (r : Request) : Handler := handle r (
  let* req := liftM (decodeJSON K_createIdentityRequest r) in
  let* identity := svc (Registry.CreateIdentity (requestActor r)
    {| CreateIdentityRequest_Type := createIdentityRequest_Type req;
       CreateIdentityRequest_Name := createIdentityRequest_Name req;
       CreateIdentityRequest_ExternalID := createIdentityRequest_ExternalID req;
       CreateIdentityRequest_Owner := createIdentityRequest_Owner req;
       CreateIdentityRequest_Team := createIdentityRequest_Team req;
       CreateIdentityRequest_Service := createIdentityRequest_Service req;
       CreateIdentityRequest_Environment := createIdentityRequest_Environment req;
       CreateIdentityRequest_DeploymentTarget := createIdentityRequest_DeploymentTarget req;
       CreateIdentityRequest_LastSeenAt := createIdentityRequest_LastSeenAt req;
       CreateIdentityRequest_MetadataJSON := createIdentityRequest_MetadataJSON req;
       CreateIdentityRequest_AllowedDNSNames := createIdentityRequest_AllowedDNSNames req;
       CreateIdentityRequest_AllowedIPAddresses := createIdentityRequest_AllowedIPAddresses req |}) in
  retM (writeJSON [] StatusCreated (J_identityResponse (toIdentityResponse identity)))).

Definition listIdentities (r : Request) : Handler := handle r (
  let* opts := liftM (identityListOptionsFromQuery r) in
  let* identities := svc (Queries.ListIdentitiesQuery opts) in
  retM (writeJSON [] StatusOK (J_identityResponses (toIdentityResponses identities)))).

Definition getIdentity (r : Request) : Handler := handle r (
  let* identity := svc (Queries.GetIdentity (PathValue r "id")) in
  retM (writeJSON [] StatusOK (J_identityResponse (toIdentityResponse identity)))).

Definition createIssuer (r : Request) : Handler := handle r (
  let* req := liftM (decodeJSON K_createIssuerRequest r) in
  let* issuer := svc (Registry.CreateIssuer (requestActor r)
    {| CreateIssuerRequest_Name := createIssuerRequest_Name req;
       CreateIssuerRequest_Kind := createIssuerRequest_Kind req;
       CreateIssuerRequest_ParentIssuerID := createIssuerRequest_ParentIssuerID req;
       CreateIssuerRequest_CertificatePEM := createIssuerRequest_CertificatePEM req;
       CreateIssuerRequest_KeyRef := createIssuerRequest_KeyRef req;
       CreateIssuerRequest_AIAURL := createIssuerRequest_AIAURL req;
       CreateIssuerRequest_CRLDistributionPoints := createIssuerRequest_CRLDistributionPoints req;
       CreateIssuerRequest_TrustAnchor := createIssuerRequest_TrustAnchor req |}) in
  retM (writeJSON [] StatusCreated (J_issuerResponse (toIssuerResponse issuer)))).

Definition getIssuerChain (r : Request) : Handler := handle r (
  let* chain := svc (Registry.GetIssuerChain (PathValue r "id")) in
  retM (writeJSON [] StatusOK (J_issuerResponses (toIssuerResponses chain)))).

Definition createOCSPResponder (r : Request) : Handler := handle r (
  let* req := liftM (decodeJSON K_createOCSPResponderRequest r) in
  let* responder := svc (OCSP.CreateOCSPResponder (requestActor r)
    {| CreateOCSPResponderRequest_IssuerID := PathValue r "id";
       CreateOCSPResponderRequest_Name := createOCSPResponderRequest_Name req;
       CreateOCSPResponderRequest_CertificatePEM := createOCSPResponderRequest_CertificatePEM req;
       CreateOCSPResponderRequest_KeyRef := createOCSPResponderRequest_KeyRef req |}) in
  retM (writeJSON [] StatusCreated (J_ocspResponderResponse (toOCSPResponderResponse responder)))).

Definition listOCSPResponders (r : Request) : Handler := handle r (
  let* responders := svc (OCSP.ListOCSPRespondersByIssuer (PathValue r "id")) in
  retM (writeJSON [] StatusOK (J_ocspResponderResponses (toOCSPResponderResponses responders)))).

Definition disableOCSPResponder (r : Request) : Handler := handle r (
  let* responder := svc (OCSP.DisableOCSPResponder (requestActor r) (PathValue r "id") (PathValue r "responderID")) in
  retM (writeJSON [] StatusOK (J_ocspResponderResponse (toOCSPResponderResponse responder)))).

Definition rotateOCSPResponder (r : Request) : Handler := handle r (
  let* req := liftM (decodeJSON K_createOCSPResponderRequest r) in
  let* responder := svc (OCSP.RotateOCSPResponder (requestActor r)
    {| RotateOCSPResponderRequest_IssuerID := PathValue r "id";
       RotateOCSPResponderRequest_Name := createOCSPResponderRequest_Name req;
       RotateOCSPResponderRequest_CertificatePEM := createOCSPResponderRequest_CertificatePEM req;
       RotateOCSPResponderRequest_KeyRef := createOCSPResponderRequest_KeyRef req |}) in
  retM (writeJSON [] StatusCreated (J_ocspResponderResponse (toOCSPResponderResponse responder)))).

Definition createNotificationEndpoint (r : Request) : Handler := handle r (
  let* req := liftM (decodeJSON K_createNotificationEndpointRequest r) in
  let* endpoint := svc (Registry.CreateNotificationEndpoint (requestActor r)
    {| CreateNotificationEndpointRequest_Name := createNotificationEndpointRequest_Name req;
       CreateNotificationEndpointRequest_URL := createNotificationEndpointRequest_URL req;
       CreateNotificationEndpointRequest_Secret := createNotificationEndpointRequest_Secret req;
       CreateNotificationEndpointRequest_EventTypes := createNotificationEndpointRequest_EventTypes req |}) in
  retM (writeJSON [] StatusCreated (J_notificationEndpointResponse (toNotificationEndpointResponse endpoint)))).

Definition listNotificationEndpoints (r : Request) : Handler := handle r (
  let* endpoints := svc (Queries.ListNotificationEndpoints) in
  retM (writeJSON [] StatusOK (J_notificationEndpointResponses (toNotificationEndpointResponses endpoints)))).

Definition disableNotificationEndpoint (r : Request) : Handler := handle r (
  let* endpoint := svc (Registry.DisableNotificationEndpoint (requestActor r) (PathValue r "id")) in
  retM (writeJSON [] StatusOK (J_notificationEndpointResponse (toNotificationEndpointResponse endpoint)))).

Definition listOutboxMessages (r : Request) : Handler := handle r (
  let* opts := liftM (outboxMessageListOptionsFromQuery parse_RFC3339 r) in
  let* messages := svc (Queries.ListOutboxMessagesQuery opts) in
  retM (writeJSON [] StatusOK (J_outboxMessageResponses (toOutboxMessageResponses messages)))).

Definition retryOutboxMessage (r : Request) : Handler := handle r (
  let* message := svc (Outbox.RetryOutboxMessage (requestActor r) (PathValue r "id")) in
  retM (writeJSON [] StatusOK (J_outboxMessageResponse (toOutboxMessageResponse message)))).

Definition replayDeadLetterOutboxMessages (r : Request) : Handler := handle r (
  let* req := liftM (decodeJSON K_replayDeadLetterOutboxRequest r) in
  let* result := svc (Outbox.ReplayDeadLetterOutboxMessages (requestActor r)
    {| ReplayDeadLetterOutboxRequest_EventType := replayDeadLetterOutboxRequest_EventType req;
       ReplayDeadLetterOutboxRequest_CreatedFrom := replayDeadLetterOutboxRequest_CreatedFrom req;
       ReplayDeadLetterOutboxRequest_CreatedTo := replayDeadLetterOutboxRequest_CreatedTo req;
       ReplayDeadLetterOutboxRequest_Limit := replayDeadLetterOutboxRequest_Limit req |}) in
  retM (writeJSON [] StatusOK (J_replayDeadLetterOutboxResponse (toReplayDeadLetterOutboxResponse result)))).

Definition createAPIKey (r : Request) : Handler := handle r (
  let* req := liftM (decodeJSON K_createAPIKeyRequest r) in
  let* result := svc (APIKeys.CreateAPIKey (requestActor r)
    {| CreateAPIKeyRequest_Name := createAPIKeyRequest_Name req;
       CreateAPIKeyRequest_Actor := createAPIKeyRequest_Actor req;
       CreateAPIKeyRequest_Scopes := createAPIKeyRequest_Scopes req;
       CreateAPIKeyRequest_ExpiresAt := createAPIKeyRequest_ExpiresAt req |}) in
  retM (writeJSON [] StatusCreated
    (J_apiKeyResponse (toAPIKeyResponseWithToken (CreateAPIKeyResult_Key result) (CreateAPIKeyResult_Token result))))).

Definition listAPIKeys (r : Request) : Handler := handle r (
  let* keys := svc (Queries.ListAPIKeys) in
  retM (writeJSON [] StatusOK (J_apiKeyResponses (toAPIKeyResponses keys)))).

Definition disableAPIKey (r : Request) : Handler := handle r (
  let* key := svc (APIKeys.DisableAPIKey (requestActor r) (PathValue r "id")) in
  retM (writeJSON [] StatusOK (J_apiKeyResponse (toAPIKeyResponse key)))).

Definition rotateAPIKey (r : Request) : Handler := handle r (
  let* result := svc (APIKeys.RotateAPIKey (requestActor r) (PathValue r "id")) in
  retM (writeJSON [] StatusCreated
    (J_apiKeyResponse (toAPIKeyResponseWithToken (CreateAPIKeyResult_Key result) (CreateAPIKeyResult_Token result))))).

Definition createCertificateProfile (r : Request) : Handler := handle r (
  let* req := liftM (decodeJSON K_createCertificateProfileRequest r) in
  let* profile := svc (Registry.CreateCertificateProfile (requestActor r)
    {| CreateCertificateProfileRequest_Name := createCertificateProfileRequest_Name req;
       CreateCertificateProfileRequest_Description := createCertificateProfileRequest_Description req;
       CreateCertificateProfileRequest_IssuerID := createCertificateProfileRequest_IssuerID req;
       CreateCertificateProfileRequest_ValidityPeriodSeconds := createCertificateProfileRequest_ValidityPeriodSeconds req;
       CreateCertificateProfileRequest_PublicTLS := createCertificateProfileRequest_PublicTLS req;
       CreateCertificateProfileRequest_SubjectTemplate := createCertificateProfileRequest_SubjectTemplate req;
       CreateCertificateProfileRequest_AllowedDNSPatterns := createCertificateProfileRequest_AllowedDNSPatterns req;
       CreateCertificateProfileRequest_AllowedIPRanges := createCertificateProfileRequest_AllowedIPRanges req;
       CreateCertificateProfileRequest_AllowedKeyAlgorithms := createCertificateProfileRequest_AllowedKeyAlgorithms req;
       CreateCertificateProfileRequest_MinKeySizeBits := createCertificateProfileRequest_MinKeySizeBits req;
       CreateCertificateProfileRequest_AllowedSignatureAlgorithms := createCertificateProfileRequest_AllowedSignatureAlgorithms req;
       CreateCertificateProfileRequest_KeyUsage := createCertificateProfileRequest_KeyUsage req;
       CreateCertificateProfileRequest_ExtendedKeyUsage := createCertificateProfileRequest_ExtendedKeyUsage req;
       CreateCertificateProfileRequest_BasicConstraints := createCertificateProfileRequest_BasicConstraints req;
       CreateCertificateProfileRequest_SubjectKeyIdentifier := createCertificateProfileRequest_SubjectKeyIdentifier req;
       CreateCertificateProfileRequest_AuthorityKeyIdentifier := createCertificateProfileRequest_AuthorityKeyIdentifier req |}) in
  retM (writeJSON [] StatusCreated (J_certificateProfileResponse (toCertificateProfileResponse profile)))).

Definition listCertificateProfiles (r : Request) : Handler := handle r (
  let* profiles := svc (Queries.ListCertificateProfiles) in
  retM (writeJSON [] StatusOK (J_certificateProfileResponses (toCertificateProfileResponses profiles)))).

Definition getCertificateProfile (r : Request) : Handler := handle r (
  let* profile := svc (Queries.GetCertificateProfile (PathValue r "id")) in
  retM (writeJSON [] StatusOK (J_certificateProfileResponse (toCertificateProfileResponse profile)))).

Definition createEnrollment (r : Request) : Handler := handle r (
  let* req := liftM (decodeJSON K_createEnrollmentRequest r) in
  let* enrollment := svc (Lifecycle.CreateEnrollment (requestActor r)
    {| CreateEnrollmentRequest_IdentityID := createEnrollmentRequest_IdentityID req;
       CreateEnrollmentRequest_IssuerID := createEnrollmentRequest_IssuerID req;
       CreateEnrollmentRequest_CertificateProfileID := createEnrollmentRequest_CertificateProfileID req;
       CreateEnrollmentRequest_CSRPEM := createEnrollmentRequest_CSRPEM req;
       CreateEnrollmentRequest_RequestedSubject := createEnrollmentRequest_RequestedSubject req;
       CreateEnrollmentRequest_RequestedDNSNames := createEnrollmentRequest_RequestedDNSNames req;
       CreateEnrollmentRequest_RequestedIPAddresses := createEnrollmentRequest_RequestedIPAddresses req;
       CreateEnrollmentRequest_RequestedNotAfter := createEnrollmentRequest_RequestedNotAfter req |}) in
  retM (writeJSON [] StatusCreated (J_enrollmentResponse (toEnrollmentResponse enrollment)))).

Definition listEnrollments (r : Request) : Handler := handle r (
  let* opts := liftM (enrollmentListOptionsFromQuery r) in
  let* enrollments := svc (Queries.ListEnrollmentsQuery opts) in
  retM (writeJSON [] StatusOK (J_enrollmentResponses (toEnrollmentResponses enrollments)))).

Definition getEnrollment (r : Request) : Handler := handle r (
  let* enrollment := svc (Queries.GetEnrollment (PathValue r "id")) in
  retM (writeJSON [] StatusOK (J_enrollmentResponse (toEnrollmentResponse enrollment)))).

Definition approveEnrollment (r : Request) : Handler := handle r (
  let* req := liftM (decodeOptionalJSON K_approveEnrollmentRequest zero_approveEnrollmentRequest r) in
  let* enrollment := svc (Lifecycle.ApproveEnrollmentWithReason (requestActor r) (PathValue r "id") (approveEnrollmentRequest_Reason req)) in
  retM (writeJSON [] StatusOK (J_enrollmentResponse (toEnrollmentResponse enrollment)))).

Definition rejectEnrollment (r : Request) : Handler := handle r (
  let* enrollment := svc (Lifecycle.RejectEnrollment (requestActor r) (PathValue r "id")) in
  retM (writeJSON [] StatusOK (J_enrollmentResponse (toEnrollmentResponse enrollment)))).

Definition issueCertificate (r : Request) : Handler := handle r (
  let* req := liftM (decodeJSON K_issueCertificateRequest r) in
  let* certificate := svc (Issuance.IssueCertificate (requestActor r) (issueCertificateRequest_EnrollmentID req)) in
  retM (writeJSON [] StatusCreated (J_certificateResponse (toCertificateResponse certificate)))).

Definition listCertificates (r : Request) : Handler := handle r (
  let* opts := liftM (certificateListOptionsFromQuery r) in
  let* certificates := svc (Queries.ListCertificatesQuery opts) in
  retM (writeJSON [] StatusOK (J_certificateResponses (toCertificateResponses certificates)))).

Definition listCertificateInventory (r : Request) : Handler := handle r (
  let* opts := liftM (certificateInventoryOptionsFromQuery r) in
  let* entries := svc (Queries.ListCertificateInventory opts) in
  retM (writeJSON [] StatusOK
    (J_certificateInventoryEntryResponses (toCertificateInventoryResponses entries)))).

Definition getExpirySLO (r : Request) : Handler := handle r (
  let* slo := svc (Queries.ExpirySLO_) in
  retM (writeJSON [] StatusOK (J_expirySLOResponse (toExpirySLOResponse slo)))).

Definition scanCertificateExpirations (r : Request) : Handler := handle r (
  let* req := liftM (decodeJSON K_scanCertificateExpirationsRequest r) in
  let* result := svc (Lifecycle.ScanCertificateExpirations (requestActor r)
    {| ScanCertificateExpirationsRequest_WarningWindow := (wrap64 (scanCertificateExpirationsRequest_WarningWindowSeconds req * Second));
       ScanCertificateExpirationsRequest_Limit := scanCertificateExpirationsRequest_Limit req |}) in
  retM (writeJSON [] StatusOK
    (J_certificateExpirationScanResponse (toCertificateExpirationScanResponse result)))).

Definition getCertificate (r : Request) : Handler := handle r (
  let* certificate := svc (Queries.GetCertificate (PathValue r "id")) in
  retM (writeJSON [] StatusOK (J_certificateResponse (toCertificateResponse certificate)))).

Definition suspendCertificate (r : Request) : Handler := handle r (
  let* certificate := svc (Lifecycle.SuspendCertificate (requestActor r) (PathValue r "id")) in
  retM (writeJSON [] StatusOK (J_certificateResponse (toCertificateResponse certificate)))).

Definition resumeCertificate (r : Request) : Handler := handle r (
  let* certificate := svc (Lifecycle.ResumeCertificate (requestActor r) (PathValue r "id")) in
  retM (writeJSON [] StatusOK (J_certificateResponse (toCertificateResponse certificate)))).

Definition renewCertificate (r : Request) : Handler := handle r (
  let* req := liftM (decodeJSON K_renewCertificateRequest r) in
  let* enrollment := svc (Lifecycle.RenewCertificate (requestActor r) (PathValue r "id")
    {| RenewCertificateRequest_CSRPEM := renewCertificateRequest_CSRPEM req;
       RenewCertificateRequest_RequestedNotAfter := renewCertificateRequest_RequestedNotAfter req |}) in
  retM (writeJSON [] StatusCreated (J_enrollmentResponse (toEnrollmentResponse enrollment)))).

Definition reissueCertificate (r : Request) : Handler := handle r (
  let* req := liftM (decodeJSON K_reissueCertificateRequest r) in
  let* enrollment := svc (Lifecycle.ReissueCertificate (requestActor r) (PathValue r "id")
    {| ReissueCertificateRequest_CSRPEM := reissueCertificateRequest_CSRPEM req |}) in
  retM (writeJSON [] StatusCreated (J_enrollmentResponse (toEnrollmentResponse enrollment)))).

Definition publishCRL (r : Request) : Handler := handle r (
  let* req := liftM (decodeJSON K_publishCRLRequest r) in
  let* publication := svc (CRL.PublishCRL (requestActor r)
    {| PublishCRLRequest_IssuerID := publishCRLRequest_IssuerID req;
       PublishCRLRequest_DistributionPoint := publishCRLRequest_DistributionPoint req;
       PublishCRLRequest_NextUpdate := publishCRLRequest_NextUpdate req |}) in
  retM (writeJSON [] StatusCreated (J_crlPublicationResponse (toCRLPublicationResponse publication)))).

Definition getCRLPublication (r : Request) : Handler := handle r (
  let* publication := svc (Queries.GetCRLPublication (PathValue r "id")) in
  retM (writeJSON [] StatusOK (J_crlPublicationResponse (toCRLPublicationResponse publication)))).

Definition listAuditEvents (r : Request) : Handler := handle r (
  let* query := liftM (auditEventQueryFromRequest parse_RFC3339 r) in
  let* events := svc (Queries.ListAuditEventsQuery query) in
  retM (writeJSON [] StatusOK (J_auditEventResponses (toAuditEventResponses events)))).

Definition getAuditIntegrity (r : Request) : Handler := handle r (
  let* report := svc (Queries.GetAuditIntegrity) in
  retM (writeJSON [] StatusOK (J_auditIntegrityResponse (toAuditIntegrityResponse report)))).

Definition listTrustAnchors (r : Request) : Handler := handle r (
  let* anchors := svc (Registry.ListTrustAnchors) in
  retM (writeJSON [] StatusOK (J_issuerResponses (toIssuerResponses anchors)))).

Definition createACMEAccount (r : Request) : Handler := handle r (
  let* req := liftM (decodeJSON K_createACMEAccountRequest r) in
  let* account := svc (ACME.CreateACMEAccount (requestActor r)
    {| CreateACMEAccountRequest_Contacts := createACMEAccountRequest_Contacts req;
       CreateACMEAccountRequest_TermsOfServiceAgreed := createACMEAccountRequest_TermsOfServiceAgreed req;
       CreateACMEAccountRequest_KeyThumbprint := "";
       CreateACMEAccountRequest_KeyJWKJSON := "" |}) in
  retM (writeJSON [] StatusCreated (J_acmeAccountResponse (toACMEAccountResponse account)))).

Definition listACMEAccounts (r : Request) : Handler := handle r (
  let* accounts := svc (Queries.ListACMEAccounts) in
  retM (writeJSON [] StatusOK (J_acmeAccountResponses (toACMEAccountResponses accounts)))).

Definition createACMEOrder (r : Request) : Handler := handle r (
  let* req := liftM (decodeJSON K_createACMEOrderRequest r) in
  let* order := svc (ACME.CreateACMEOrder (requestActor r)
    {| CreateACMEOrderRequest_AccountID := createACMEOrderRequest_AccountID req;
       CreateACMEOrderRequest_IdentityID := createACMEOrderRequest_IdentityID req;
       CreateACMEOrderRequest_IssuerID := createACMEOrderRequest_IssuerID req;
       CreateACMEOrderRequest_CertificateProfileID := createACMEOrderRequest_CertificateProfileID req;
       CreateACMEOrderRequest_RequestedDNSNames := createACMEOrderRequest_RequestedDNSNames req;
       CreateACMEOrderRequest_RequestedIPAddresses := createACMEOrderRequest_RequestedIPAddresses req;
       CreateACMEOrderRequest_RequestedNotAfter := createACMEOrderRequest_RequestedNotAfter req |}) in
  retM (writeJSON [] StatusCreated (J_acmeOrderResponse (toACMEOrderResponse order)))).

Definition getACMEOrder (r : Request) : Handler := handle r (
  let* order := svc (Queries.GetACMEOrder (PathValue r "id")) in
  retM (writeJSON [] StatusOK (J_acmeOrderResponse (toACMEOrderResponse order)))).

Definition listACMEAuthorizations (r : Request) : Handler := handle r (
  let* authorizations := svc (Queries.ListACMEAuthorizations (PathValue r "id")) in
  retM (writeJSON [] StatusOK (J_acmeAuthorizationResponses (toACMEAuthorizationResponses authorizations)))).

Definition listACMEChallenges (r : Request) : Handler := handle r (
  let* challenges := svc (Queries.ListACMEChallenges (PathValue r "id")) in
  retM (writeJSON [] StatusOK (J_acmeChallengeResponses (toACMEChallengeResponses challenges)))).

Definition completeACMEChallenge (r : Request) : Handler := handle r (
  let* challenge := svc (ACME.CompleteACMEChallenge (requestActor r) (PathValue r "id")) in
  retM (writeJSON [] StatusOK (J_acmeChallengeResponse (toACMEChallengeResponse challenge)))).

Definition finalizeACMEOrder (r : Request) : Handler := handle r (
  let* req := liftM (decodeJSON K_finalizeACMEOrderRequest r) in
  let* order := svc (ACME.FinalizeACMEOrder (requestActor r) (PathValue r "id")
    {| FinalizeACMEOrderRequest_CSRPEM := finalizeACMEOrderRequest_CSRPEM req;
       FinalizeACMEOrderRequest_RequestedSubject := finalizeACMEOrderRequest_RequestedSubject req |}) in
  retM (writeJSON [] StatusOK (J_acmeOrderResponse (toACMEOrderResponse order)))).

Definition revokeCertificate (r : Request) : Handler := handle r (
  let* req := liftM (decodeJSON K_revokeCertificateRequest r) in
  let reason := revokeCertificateRequest_Reason req in
  let* certificate := (if revokeCertificateRequest_Force req
    then svc (Lifecycle.ForceRevokeCertificate (requestActor r) (PathValue r "id") reason)
    else svc (Lifecycle.RevokeCertificate (requestActor r) (PathValue r "id") reason)) in
  retM (writeJSON [] StatusOK (J_certificateResponse (toCertificateResponse certificate)))).

Definition getLatestIssuerCRL (r : Request) : Handler := handle r (
  let distributionPoint := query r "distribution_point" in
  let* publication := (if distributionPoint =s ""
    then svc (Queries.GetLatestCRLPublication (PathValue r "id"))
    else svc (Queries.GetLatestCRLPublicationForDistributionPoint (PathValue r "id") distributionPoint)) in
  retM (mkResponse StatusOK [("Content-Type", "application/x-pem-file")]
    (BodyBytes (CRLPublication_CRLPEM publication)))).

Definition respondOCSP (r : Request) : Handler := handle r (
  do* return_if (header_Get r "Content-Type" <>s "application/ocsp-request") ErrUnsupportedMediaType in
  match readBody r with
  | None => failM ErrInvalidRequest
  | Some requestDER =>
      let* response := svc (OCSP.RespondOCSP (requestActor r) requestDER) in
      retM (mkResponse StatusOK [("Content-Type", "application/ocsp-response")]
        (BodyBytes (OCSPResponse_ResponseDER response)))
  end).

Definition pruneAuditEvents (r : Request) : Handler := handle r (
  let* req := liftM (decodeJSON K_pruneAuditEventsRequest r) in
  let* outcome := svc (APIKeys.PruneAuditEventsBefore (requestActor r) (pruneAuditEventsRequest_Before req)) in
  match snd outcome with
  | Some err => failM err
  | None => retM (writeJSON [] StatusOK
      (J_pruneAuditEventsResponse (mk_pruneAuditEventsResponse (Z.of_nat (fst outcome)))))
  end).

Definition repairIssuanceAuditEvents (r : Request) : Handler := handle r (
  let* outcome := svc (Issuance.RepairMissingIssuanceAuditEvents (requestActor r)) in
  match snd outcome with
  | Some err => failM err
  | None => retM (writeJSON [] StatusOK
      (J_repairIssuanceAuditEventsResponse (mk_repairIssuanceAuditEventsResponse (Z.of_nat (fst outcome)))))
  end).
End Handlers.
