(* ===== verification/HTTPRoutes.v ===== *)
(** * Routing, authentication and [ServeHTTP] ([httpapi/server.go])

    [registerRoutes] is the table of the source; [findHandler] is the matching
    of [http.ServeMux] (Go 1.22 and later) for patterns of a method and
    segments: the decoded segments are compared, literals are tried before
    wildcards, GET patterns also serve HEAD, and a path that is not clean is
    redirected. No pattern ends in a slash, so the trailing-slash redirection
    of the multiplexer never applies. *)

From Stdlib Require Import Ascii.
From S2P Require Import Prelude GoLib NetIP Crypto Domain Core Requests AuditChain Store StoreInv.
From S2P Require Import Service Policy APIKeys Queries HTTPTypes HTTPBoundary HTTPCore.
From S2P Require HTTPServer HTTPACME.

(** ** Endpoints and routes *)

(** One per handler of [registerRoutes]. *)
Inductive Endpoint :=
| E_debugVars
| E_createIdentity | E_listIdentities | E_getIdentity | E_createIssuer | E_getIssuerChain
| E_createOCSPResponder | E_listOCSPResponders | E_rotateOCSPResponder | E_disableOCSPResponder
| E_createNotificationEndpoint | E_listNotificationEndpoints | E_disableNotificationEndpoint
| E_listOutboxMessages | E_replayDeadLetterOutboxMessages | E_retryOutboxMessage
| E_listCertificateInventory | E_getExpirySLO | E_createAPIKey | E_listAPIKeys | E_rotateAPIKey
| E_disableAPIKey | E_createACMEAccount | E_listACMEAccounts | E_createACMEOrder | E_getACMEOrder
| E_listACMEAuthorizations | E_finalizeACMEOrder | E_listACMEChallenges | E_completeACMEChallenge
| E_acmeDirectory | E_acmeNewNonce | E_acmeNewAccount | E_acmeUpdateAccount | E_acmeNewOrder
| E_acmeKeyChange | E_acmeGetOrder | E_acmePostAsGetOrder | E_acmeGetAuthorization
| E_acmePostAsGetAuthorization | E_acmeCompleteChallenge | E_acmeFinalizeOrder
| E_acmeRevokeCertificate | E_acmeGetCertificate | E_acmePostAsGetCertificate
| E_createCertificateProfile | E_listCertificateProfiles | E_getCertificateProfile | E_createEnrollment
| E_listEnrollments | E_getEnrollment | E_approveEnrollment | E_rejectEnrollment | E_issueCertificate
| E_listCertificates | E_scanCertificateExpirations | E_getCertificate | E_revokeCertificate
| E_suspendCertificate | E_resumeCertificate | E_renewCertificate | E_reissueCertificate | E_publishCRL
| E_getCRLPublication | E_getLatestIssuerCRL | E_respondOCSP | E_listAuditEvents | E_getAuditIntegrity
| E_pruneAuditEvents | E_repairIssuanceAuditEvents | E_listTrustAnchors.

Definition registerRoutes : list (string * Endpoint) :=
  [("GET /debug/vars", E_debugVars);
   ("POST /identities", E_createIdentity);
   ("GET /identities", E_listIdentities);
   ("GET /identities/{id}", E_getIdentity);
   ("POST /issuers", E_createIssuer);
   ("GET /issuers/{id}/chain", E_getIssuerChain);
   ("POST /issuers/{id}/ocsp-responders", E_createOCSPResponder);
   ("GET /issuers/{id}/ocsp-responders", E_listOCSPResponders);
   ("POST /issuers/{id}/ocsp-responders/rotate", E_rotateOCSPResponder);
   ("POST /issuers/{id}/ocsp-responders/{responderID}/disable", E_disableOCSPResponder);
   ("POST /notification-endpoints", E_createNotificationEndpoint);
   ("GET /notification-endpoints", E_listNotificationEndpoints);
   ("POST /notification-endpoints/{id}/disable", E_disableNotificationEndpoint);
   ("GET /outbox/messages", E_listOutboxMessages);
   ("POST /outbox/messages/dead-letter/replay", E_replayDeadLetterOutboxMessages);
   ("POST /outbox/messages/{id}/retry", E_retryOutboxMessage);
   ("GET /operator/certificate-inventory", E_listCertificateInventory);
   ("GET /operator/expiry-slo", E_getExpirySLO);
   ("POST /api-keys", E_createAPIKey);
   ("GET /api-keys", E_listAPIKeys);
   ("POST /api-keys/{id}/rotate", E_rotateAPIKey);
   ("POST /api-keys/{id}/disable", E_disableAPIKey);
   ("POST /acme/accounts", E_createACMEAccount);
   ("GET /acme/accounts", E_listACMEAccounts);
   ("POST /acme/orders", E_createACMEOrder);
   ("GET /acme/orders/{id}", E_getACMEOrder);
   ("GET /acme/orders/{id}/authorizations", E_listACMEAuthorizations);
   ("POST /acme/orders/{id}/finalize", E_finalizeACMEOrder);
   ("GET /acme/authorizations/{id}/challenges", E_listACMEChallenges);
   ("POST /acme/challenges/{id}/complete", E_completeACMEChallenge);
   ("GET /acme/directory", E_acmeDirectory);
   ("HEAD /acme/new-nonce", E_acmeNewNonce);
   ("GET /acme/new-nonce", E_acmeNewNonce);
   ("POST /acme/new-account", E_acmeNewAccount);
   ("POST /acme/account/{id}", E_acmeUpdateAccount);
   ("POST /acme/new-order", E_acmeNewOrder);
   ("POST /acme/key-change", E_acmeKeyChange);
   ("GET /acme/order/{id}", E_acmeGetOrder);
   ("POST /acme/order/{id}", E_acmePostAsGetOrder);
   ("GET /acme/authz/{id}", E_acmeGetAuthorization);
   ("POST /acme/authz/{id}", E_acmePostAsGetAuthorization);
   ("POST /acme/challenge/{id}", E_acmeCompleteChallenge);
   ("POST /acme/order/{id}/finalize", E_acmeFinalizeOrder);
   ("POST /acme/revoke-cert", E_acmeRevokeCertificate);
   ("GET /acme/cert/{id}", E_acmeGetCertificate);
   ("POST /acme/cert/{id}", E_acmePostAsGetCertificate);
   ("POST /certificate-profiles", E_createCertificateProfile);
   ("GET /certificate-profiles", E_listCertificateProfiles);
   ("GET /certificate-profiles/{id}", E_getCertificateProfile);
   ("POST /enrollments", E_createEnrollment);
   ("GET /enrollments", E_listEnrollments);
   ("GET /enrollments/{id}", E_getEnrollment);
   ("POST /enrollments/{id}/approve", E_approveEnrollment);
   ("POST /enrollments/{id}/reject", E_rejectEnrollment);
   ("POST /certificates", E_issueCertificate);
   ("GET /certificates", E_listCertificates);
   ("POST /certificates/expiration-scan", E_scanCertificateExpirations);
   ("GET /certificates/{id}", E_getCertificate);
   ("POST /certificates/{id}/revoke", E_revokeCertificate);
   ("POST /certificates/{id}/suspend", E_suspendCertificate);
   ("POST /certificates/{id}/resume", E_resumeCertificate);
   ("POST /certificates/{id}/renew", E_renewCertificate);
   ("POST /certificates/{id}/reissue", E_reissueCertificate);
   ("POST /crls", E_publishCRL);
   ("GET /crls/{id}", E_getCRLPublication);
   ("GET /issuers/{id}/crl", E_getLatestIssuerCRL);
   ("POST /ocsp", E_respondOCSP);
   ("GET /audit-events", E_listAuditEvents);
   ("GET /audit-events/integrity", E_getAuditIntegrity);
   ("POST /audit-events/retention/prune", E_pruneAuditEvents);
   ("POST /audit-events/repair/issuance", E_repairIssuanceAuditEvents);
   ("GET /trust/anchors", E_listTrustAnchors)].

Inductive Seg := Lit (s : string) | Wild (name : string).

Record Route := mkRoute {
  rt_method : string;
  rt_segs : list Seg;
  rt_pattern : string;
  rt_endpoint : Endpoint;
}.

Definition parseSeg (s : string) : Seg :=
  if HasPrefix s "{" && HasSuffix s "}" then Wild (str_take (String.length s - 2) (str_drop 1 s)) else Lit s.

Definition parseRoute (r : string * Endpoint) : Route :=
  let '(method, path) := default ("", fst r) (cut_byte " "%char (fst r)) in
  mkRoute method (parseSeg <$> tail (split_byte "/"%char path)) (fst r) (snd r).

Definition routes : list Route := parseRoute <$> registerRoutes.

(** ** Matching *)

(** The successive [firstSegment]s of a path: decoded, "/" for a final slash. *)
Definition pathUnescape (s : string) : string := default s (PathUnescape s).
Fixpoint pathSegments (parts : list string) : list string :=
  match parts with
  | [] => []
  | [last] => [if last =s "" then "/" else pathUnescape last]
  | p :: rest => pathUnescape p :: pathSegments rest
  end.
Definition segmentsOf (path : string) : list string := pathSegments (tail (split_byte "/"%char path)).

Definition afterLit (s : string) (r : list Seg * Route) : option (list Seg * Route) :=
  match fst r with
  | Lit l :: rest => if l =s s then Some (rest, snd r) else None
  | _ => None
  end.
Definition afterWild (r : list Seg * Route) : option (list Seg * Route) :=
  match fst r with
  | Wild _ :: rest => Some (rest, snd r)
  | _ => None
  end.

(** The route of a path and the segments its wildcards stand for. *)
Fixpoint matchPath (segs : list string) (rs : list (list Seg * Route)) : option (Route * list string) :=
  match segs with
  | [] => (λ r, (snd r, [])) <$> List.find (λ r : list Seg * Route, Nat.eqb (length (fst r)) 0) rs
  | s :: rest =>
      match matchPath rest (omap (afterLit s) rs) with
      | Some m => Some m
      | None => if s =s "/" then None
                else (λ m, (fst m, s :: snd m)) <$> matchPath rest (omap afterWild rs)
      end
  end.

Definition routesOf (method : string) : list (list Seg * Route) :=
  (λ r, (rt_segs r, r)) <$> filter (λ r, rt_method r = method) routes.

Definition matchMethodAndPath (method path : string) : option (Route * list string) :=
  match matchPath (segmentsOf path) (routesOf method) with
  | Some m => Some m
  | None => if method =s MethodHead then matchPath (segmentsOf path) (routesOf MethodGet) else None
  end.

Definition wildNames (segs : list Seg) : list string :=
  omap (λ s, match s with Wild n => Some n | Lit _ => None end) segs.

Inductive MuxResult :=
| MuxRoute (route : Route) (values : list (string * string))
| MuxRedirect (pattern : string)
| MuxMethodNotAllowed (allow : list string)
| MuxNotFound.

Definition matchingMethods (path : string) : list string :=
  filter (λ method, match matchMethodAndPath method path with Some _ => true | None => false end = true)
    [MethodGet; MethodHead; MethodPost].

Definition findHandler (r : Request) : MuxResult :=
  let path := if req_Method r =s "CONNECT" then req_EscapedPath r else cleanPath (req_EscapedPath r) in
  let matched := matchMethodAndPath (req_Method r) path in
  if path <>s req_EscapedPath r
  then MuxRedirect (default "" ((λ m, rt_pattern (fst m)) <$> matched))
  else match matched with
       | Some (route, values) => MuxRoute route (zip (wildNames (rt_segs route)) values)
       | None => match matchingMethods path with
                 | [] => MuxNotFound
                 | methods => MuxMethodNotAllowed methods
                 end
       end.

(** The pattern that [mux.Handler] reports. *)
Definition muxPattern (m : MuxResult) : string :=
  match m with
  | MuxRoute route _ => rt_pattern route
  | MuxRedirect pattern => pattern
  | MuxMethodNotAllowed _ | MuxNotFound => ""
  end.

Section Serve.
Context {N : Type} `{ACMENonceStore N} `{HTTPEnv}.
Abbreviation HTTP := (HTTPM N).
Abbreviation Handler := (HandlerM N).

Definition dispatch `{E : Env} (e : Endpoint) : Request → Handler :=
  match e with
  | E_debugVars => λ _ st, (mkResponse StatusOK [("Content-Type", "application/json; charset=utf-8")] BodyExpvar, st)
  | E_createIdentity => HTTPServer.createIdentity
  | E_listIdentities => HTTPServer.listIdentities
  | E_getIdentity => HTTPServer.getIdentity
  | E_createIssuer => HTTPServer.createIssuer
  | E_getIssuerChain => HTTPServer.getIssuerChain
  | E_createOCSPResponder => HTTPServer.createOCSPResponder
  | E_listOCSPResponders => HTTPServer.listOCSPResponders
  | E_rotateOCSPResponder => HTTPServer.rotateOCSPResponder
  | E_disableOCSPResponder => HTTPServer.disableOCSPResponder
  | E_createNotificationEndpoint => HTTPServer.createNotificationEndpoint
  | E_listNotificationEndpoints => HTTPServer.listNotificationEndpoints
  | E_disableNotificationEndpoint => HTTPServer.disableNotificationEndpoint
  | E_listOutboxMessages => HTTPServer.listOutboxMessages
  | E_replayDeadLetterOutboxMessages => HTTPServer.replayDeadLetterOutboxMessages
  | E_retryOutboxMessage => HTTPServer.retryOutboxMessage
  | E_listCertificateInventory => HTTPServer.listCertificateInventory
  | E_getExpirySLO => HTTPServer.getExpirySLO
  | E_createAPIKey => HTTPServer.createAPIKey
  | E_listAPIKeys => HTTPServer.listAPIKeys
  | E_rotateAPIKey => HTTPServer.rotateAPIKey
  | E_disableAPIKey => HTTPServer.disableAPIKey
  | E_createACMEAccount => HTTPServer.createACMEAccount
  | E_listACMEAccounts => HTTPServer.listACMEAccounts
  | E_createACMEOrder => HTTPServer.createACMEOrder
  | E_getACMEOrder => HTTPServer.getACMEOrder
  | E_listACMEAuthorizations => HTTPServer.listACMEAuthorizations
  | E_finalizeACMEOrder => HTTPServer.finalizeACMEOrder
  | E_listACMEChallenges => HTTPServer.listACMEChallenges
  | E_completeACMEChallenge => HTTPServer.completeACMEChallenge
  | E_acmeDirectory => HTTPACME.acmeDirectory
  | E_acmeNewNonce => HTTPACME.acmeNewNonce
  | E_acmeNewAccount => HTTPACME.acmeNewAccount
  | E_acmeUpdateAccount => HTTPACME.acmeUpdateAccount
  | E_acmeNewOrder => HTTPACME.acmeNewOrder
  | E_acmeKeyChange => HTTPACME.acmeKeyChange
  | E_acmeGetOrder => HTTPACME.acmeGetOrder
  | E_acmePostAsGetOrder => HTTPACME.acmePostAsGetOrder
  | E_acmeGetAuthorization => HTTPACME.acmeGetAuthorization
  | E_acmePostAsGetAuthorization => HTTPACME.acmePostAsGetAuthorization
  | E_acmeCompleteChallenge => HTTPACME.acmeCompleteChallenge
  | E_acmeFinalizeOrder => HTTPACME.acmeFinalizeOrder
  | E_acmeRevokeCertificate => HTTPACME.acmeRevokeCertificate
  | E_acmeGetCertificate => HTTPACME.acmeGetCertificate
  | E_acmePostAsGetCertificate => HTTPACME.acmePostAsGetCertificate
  | E_createCertificateProfile => HTTPServer.createCertificateProfile
  | E_listCertificateProfiles => HTTPServer.listCertificateProfiles
  | E_getCertificateProfile => HTTPServer.getCertificateProfile
  | E_createEnrollment => HTTPServer.createEnrollment
  | E_listEnrollments => HTTPServer.listEnrollments
  | E_getEnrollment => HTTPServer.getEnrollment
  | E_approveEnrollment => HTTPServer.approveEnrollment
  | E_rejectEnrollment => HTTPServer.rejectEnrollment
  | E_issueCertificate => HTTPServer.issueCertificate
  | E_listCertificates => HTTPServer.listCertificates
  | E_scanCertificateExpirations => HTTPServer.scanCertificateExpirations
  | E_getCertificate => HTTPServer.getCertificate
  | E_revokeCertificate => HTTPServer.revokeCertificate
  | E_suspendCertificate => HTTPServer.suspendCertificate
  | E_resumeCertificate => HTTPServer.resumeCertificate
  | E_renewCertificate => HTTPServer.renewCertificate
  | E_reissueCertificate => HTTPServer.reissueCertificate
  | E_publishCRL => HTTPServer.publishCRL
  | E_getCRLPublication => HTTPServer.getCRLPublication
  | E_getLatestIssuerCRL => HTTPServer.getLatestIssuerCRL
  | E_respondOCSP => HTTPServer.respondOCSP
  | E_listAuditEvents => HTTPServer.listAuditEvents
  | E_getAuditIntegrity => HTTPServer.getAuditIntegrity
  | E_pruneAuditEvents => HTTPServer.pruneAuditEvents
  | E_repairIssuanceAuditEvents => HTTPServer.repairIssuanceAuditEvents
  | E_listTrustAnchors => HTTPServer.listTrustAnchors
  end.

(** [mux.ServeHTTP]; [BodyMux] stands for what it writes itself, including the
    location of a redirection. *)
Definition muxServe `{E : Env} (r : Request) : Handler :=
  match findHandler r with
  | MuxRoute route values => dispatch (rt_endpoint route) (with_path_values values r)
  | MuxRedirect _ => λ st, (mkResponse 301 [] BodyMux, st)
  | MuxMethodNotAllowed allow => λ st,
      (mkResponse 405 [("Allow", String.concat ", " allow); ("Content-Type", "text/plain; charset=utf-8")] BodyMux, st)
  | MuxNotFound => λ st, (mkResponse 404 [("Content-Type", "text/plain; charset=utf-8")] BodyMux, st)
  end.

(** ** Authentication *)

(** The actor and the metadata of the key. The context that the source returns
    next to an error is not used by its caller. *)
Definition authenticateRequest `{E : Env} (r : Request) : HTTP (string * option APIKeyAuditMetadata) :=
  let mode := AuthConfig_Mode (srv_auth http_server) in
  if (mode =s AuthModeDev) || (mode =s "") then retM (requestActor r, None)
  else if mode =s AuthModeAPIKey then
    if isPublicEndpoint (req_Method r) (req_Path r) then retM ("public", None)
    else match bearerToken (header_Get r "Authorization") with
    | None => failM ErrUnauthorized
    | Some token =>
        let* key := svc (AuthenticateAPIKey token) in
        do* return_if (negb (apiKeyAllowsScope key (requiredScopeForRequest (req_Method r) (req_Path r))))
              ErrForbidden in
        retM (APIKey_Actor key, Some (mkAPIKeyAuditMetadata (APIKey_ID key) (APIKey_Name key)
          (APIKey_Actor key) (APIKeyTokenFingerprint (APIKey_TokenHash key)) (APIKey_Scopes key)))
    end
  else failM ErrUnauthorized.

(** [time.Time.UnixNano] *)
Definition UnixNano (t : Time) : Z := wrap64 (t - DateUTC 1970 1 1).

Definition requestIDForRequest (r : Request) : HTTP string :=
  let requestID := TrimSpace (header_Get r "X-Request-Id") in
  if requestID <>s "" then retM requestID
  else
    let* raw := catchM (svc (outside (λ t, http_rand t 16))) in
    match raw with
    | Ok raw => retM ("req-" +:+ base64_raw_url raw)
    | Err _ => let* at_ := now in retM ("req-" +:+ itoa (UnixNano at_))
    end.

(** The authorizer's decision on a request: [None] when it is not consulted. *)
Definition consultAuthorizer (r : Request) (meta : AuditRequestMetadata)
  : HTTP (option (AuthorizationResult * option (list ContextErr) * option ContextErr)) :=
  match authorizer with
  | None => retM None
  | Some authorize =>
      if isPublicEndpoint (req_Method r) (req_Path r) then retM None
      else
        let routePattern := muxPattern (findHandler r) in
        let routePattern := default routePattern (snd <$> cut_byte " "%char routePattern) in
        if routePattern =s "" then retM None
        else
          let* answer := svc (outside (λ t, Ok (authorize t
            {| AuthorizationInput_ActorID := requestActor r;
               AuthorizationInput_AuthenticationMethod := AuthConfig_Mode (srv_auth http_server);
               AuthorizationInput_RequiredScope := requiredScopeForRequest (req_Method r) (req_Path r);
               AuthorizationInput_HTTPMethod := req_Method r;
               AuthorizationInput_RoutePattern := routePattern;
               AuthorizationInput_RequestID := arm_RequestID meta;
               AuthorizationInput_Traceparent := arm_Traceparent meta;
               AuthorizationInput_ClientIP := arm_ClientIP meta;
               AuthorizationInput_UserAgent := arm_UserAgent meta |}))) in
          retM (Some answer)
  end.

Definition authorizationAllows (result : AuthorizationResult) (err : option (list ContextErr)) : bool :=
  match err with Some _ => false | None => AuthorizationResult_Outcome result =s AuthorizationOutcomeAllow end.

(** What is served once the request is authenticated: the metric boundary, if
    it changes, and the response. *)
Definition serveAuthorized (E : Env) (ctx : CallContext) (r : Request)
  : HState N → option string * Response * HState N := λ st,
  match checkACMERateLimit r st with
  | (Err err, st1) =>
      let '(resp, st2) := writeError (E:=with_ctx ctx E) r err st1 in (Some "rate_limit", resp, st2)
  | (Ok _, st1) =>
      let '(resp, st2) := muxServe (E:=with_ctx ctx E) r st1 in (None, resp, st2)
  end.

Definition serveAuthenticated (E : Env) (meta : AuditRequestMetadata) (key : option APIKeyAuditMetadata)
    (r : Request) : HState N → option string * Response * HState N := λ st,
  let ctx := mkCallContext (Some meta) key None in
  match consultAuthorizer r meta st with
  | (Ok (Some (result, err, contextErr)), st1) =>
      let ctx := mkCallContext (Some meta) key (Some (authorizationAuditMetadata result err contextErr)) in
      if authorizationAllows result err then serveAuthorized E ctx r st1
      else let '(resp, st2) := writeError (E:=with_ctx ctx E) r ErrForbidden st1 in (None, resp, st2)
  | (_, st1) => serveAuthorized E ctx r st1
  end.

Definition serveWithMetadata (E : Env) (meta : AuditRequestMetadata) (r : Request)
  : HState N → option string * Response * HState N := λ st,
  let ctx := mkCallContext (Some meta) None None in
  match authenticateRequest (E:=with_ctx ctx E) r st with
  | (Ok (actor, key), st1) => serveAuthenticated E meta key (with_actor actor r) st1
  | (Err err, st1) =>
      let st2 := (RecordEvent "auth:failure" st1).2 in
      let '(resp, st3) := writeError (E:=with_ctx ctx E) (with_actor "anonymous" r) err st2 in
      (Some "auth", resp, st3)
  end.

Definition requestMetadata (r : Request) : HTTP AuditRequestMetadata :=
  let* requestID := requestIDForRequest r in
  let* startedAt := now in
  retM {| arm_RequestID := requestID;
          arm_Traceparent := TrimSpace (header_Get r "Traceparent");
          arm_ClientIP := requestClientIP r (AuthConfig_TrustedProxies (srv_auth http_server));
          arm_UserAgent := TrimSpace (header_Get r "User-Agent");
          arm_AuthMethod := AuthConfig_Mode (srv_auth http_server);
          arm_StartedAt := startedAt |}.

(** The metadata are always made: the first branch is never taken. *)
Definition ServeHTTP `{E : Env} (r : Request) : Handler := λ st,
  match requestMetadata r st with
  | (Err _, st1) => (mkResponse StatusOK [] BodyAborted, st1)
  | (Ok meta, st1) =>
      let '(boundary, resp, st2) := serveWithMetadata E meta r st1 in
      let boundary := default (requestMetricBoundary (req_Path r)) boundary in
      (mkResponse (resp_Status resp) (("X-Request-Id", arm_RequestID meta) :: resp_Header resp) (resp_Body resp),
       (RecordHTTPRequest boundary (resp_Status resp) st2).2)
  end.
End Serve.

Definition bare_request (method path : string) : Request :=
  mkRequest method (pathUnescape path) path "" false "pki.example" ∅ "10.0.0.1:4000" "" None [].

Example route_literal_first : ∃ values,
  findHandler (bare_request "POST" "/outbox/messages/dead-letter/replay")
  = MuxRoute (mkRoute "POST" [Lit "outbox"; Lit "messages"; Lit "dead-letter"; Lit "replay"]
      "POST /outbox/messages/dead-letter/replay" E_replayDeadLetterOutboxMessages) values.
Proof. eexists. vm_compute. reflexivity. Qed.
Example route_wildcards :
  muxPattern (findHandler (bare_request "POST" "/issuers/a%2Fb/ocsp-responders/c/disable"))
  = "POST /issuers/{id}/ocsp-responders/{responderID}/disable".
Proof. vm_compute. reflexivity. Qed.
Example route_redirect : findHandler (bare_request "GET" "/acme/order/../../api-keys") = MuxRedirect "GET /api-keys".
Proof. vm_compute. reflexivity. Qed.
Example route_method : findHandler (bare_request "DELETE" "/api-keys") = MuxMethodNotAllowed ["GET"; "HEAD"; "POST"].
Proof. vm_compute. reflexivity. Qed.
