(* ===== verification/HTTPRouteFacts.v ===== *)
(** * Routing facts

    The multiplexer compares decoded segments of the escaped path, while the
    access decisions look at the decoded path. [route_path] relates the two:
    the decoded path of a routed request is the pattern of the route with
    values for its wildcards. From it follows which requests reach which
    endpoint without authentication, and with which scope. *)

From Stdlib Require Import Ascii.
From S2P Require Import Prelude GoLib NetIP Crypto Domain Core Requests Store StoreInv Service Policy.
From S2P Require Import HTTPTypes HTTPBoundary HTTPCore HTTPRoutes.

#[local] Arguments String.append !_ _ /.

(** ** Matching *)

(** The segments fit the pattern, with these values for the wildcards. *)
Fixpoint fits (pat : list Seg) (segs vals : list string) : Prop :=
  match pat, segs, vals with
  | [], [], [] => True
  | Lit l :: pat, s :: segs, _ => l = s ∧ fits pat segs vals
  | Wild _ :: pat, s :: segs, v :: vals => v = s ∧ s ≠ "/" ∧ fits pat segs vals
  | _, _, _ => False
  end.

Lemma matchPath_fits segs rs rt vals :
  matchPath segs rs = Some (rt, vals) → ∃ pat, (pat, rt) ∈ rs ∧ fits pat segs vals.
Proof.
  revert rs vals. induction segs as [|s segs IH]; intros rs vals; simpl.
  - destruct (List.find _ rs) as [[pat rt']|] eqn:Ef; [|done]. intros [= <- <-].
    apply find_some in Ef as [Hin Hl%Nat.eqb_eq]. exists pat. split; [by apply list_elem_of_In|].
    simpl in Hl. by apply nil_length_inv in Hl as ->.
  - destruct (matchPath segs (omap (afterLit s) rs)) as [m|] eqn:Em.
    + intros [= ->]. apply IH in Em as (pat & Hin & Hf).
      apply list_elem_of_omap in Hin as ([p' rt'] & Hin & Ha). unfold afterLit in Ha. simpl in Ha.
      repeat case_match; simplify_eq. bool_prop. subst. eexists. split; [exact Hin|]. done.
    + destruct (String.eqb_spec s "/") as [|Hs]; [done|].
      destruct (matchPath segs (omap afterWild rs)) as [[rt' vs]|] eqn:Ew; [|done].
      intros [= <- <-]. apply IH in Ew as (pat & Hin & Hf).
      apply list_elem_of_omap in Hin as ([p' rt''] & Hin & Ha). unfold afterWild in Ha. simpl in Ha.
      repeat case_match; simplify_eq. eexists. split; [exact Hin|]. done.
Qed.

Lemma routesOf_in method pat rt : (pat, rt) ∈ routesOf method → rt ∈ routes ∧ rt_method rt = method ∧ pat = rt_segs rt.
Proof.
  unfold routesOf. intros (r & [= -> ->] & Hin)%list_elem_of_fmap.
  by apply list_elem_of_filter in Hin as [? ?].
Qed.

(** The method of a route that serves requests of [method]. *)
Definition serves (rt : Route) (method : string) : Prop :=
  rt_method rt = method ∨ method = MethodHead ∧ rt_method rt = MethodGet.

Lemma matchMethod_fits method path rt vals :
  matchMethodAndPath method path = Some (rt, vals) →
  rt ∈ routes ∧ serves rt method ∧ fits (rt_segs rt) (segmentsOf path) vals.
Proof.
  unfold matchMethodAndPath. destruct (matchPath _ (routesOf method)) as [m|] eqn:Em.
  - intros [= ->]. apply matchPath_fits in Em as (pat & (? & ? & ->)%routesOf_in & Hf). by repeat split; [|left|].
  - destruct (String.eqb_spec method MethodHead) as [->|]; [|done]. intros Eg.
    apply matchPath_fits in Eg as (pat & (? & ? & ->)%routesOf_in & Hf). by repeat split; [|right|].
Qed.

(** ** Decoding *)

Lemma concat_head sep a h tl :
  String.concat sep (String.String a h :: tl) = String.String a (String.concat sep (h :: tl)).
Proof. by destruct tl. Qed.

Lemma split_nonempty c s : ∃ h tl, split_byte c s = h :: tl.
Proof.
  induction s as [|a s (h & tl & IH)]; simpl; [eauto|]. rewrite IH. destruct (Ascii.eqb a c); eauto.
Qed.

Lemma split_other c a s h tl : Ascii.eqb a c = false → split_byte c s = h :: tl →
  split_byte c (String.String a s) = String.String a h :: tl.
Proof. intros Ea Es. simpl. by rewrite Ea, Es. Qed.

Lemma hex_not_slash a v : NetIP.hex_value a = Some v → Ascii.eqb a "/"%char = false.
Proof. intros Hv. apply Ascii.eqb_neq. intros ->. discriminate. Qed.

(** Decoding a path decodes its segments. *)
Lemma unescape_split n s t : String.length s ≤ n → PathUnescape s = Some t →
  ∃ us, mapM PathUnescape (split_byte "/"%char s) = Some us ∧ t = String.concat "/" us.
Proof.
  unfold PathUnescape. revert s t. induction n as [|n IH]; intros s t Hn Hu.
  { destruct s; simpl in Hn; [|lia]. simplify_eq/=. by exists [""]. }
  destruct s as [|a s1]; [simplify_eq/=; by exists [""]|].
  simpl in Hn. destruct (Ascii.eqb a "%"%char) eqn:Ea.
  - destruct s1 as [|h [|l rest]]; [by simpl in Hu; rewrite Ea in Hu|by simpl in Hu; rewrite Ea in Hu|].
    simpl in Hn, Hu. rewrite Ea in Hu. apply Ascii.eqb_eq in Ea as ->.
    destruct (NetIP.hex_value h) as [vh|] eqn:Eh, (NetIP.hex_value l) as [vl|] eqn:El; try done.
    apply fmap_Some in Hu as (t' & Hu & ->).
    destruct (IH rest t') as (us & Em & ->); [lia|done|].
    destruct (split_nonempty "/"%char rest) as (hd & tl & Es). rewrite Es in Em.
    rewrite (split_other _ "%"%char _ (String.String h (String.String l hd)) tl);
      [|done|by apply split_other; [by eapply hex_not_slash|]; apply split_other; [by eapply hex_not_slash|]].
    rewrite mapM_Some in Em. apply Forall2_cons_inv_l in Em as (u & us' & Hu1 & Hus & ->).
    exists (String.String (ascii_of_nat (Z.to_nat (vh * 16 + vl))) u :: us'). split; [|by rewrite concat_head].
    apply mapM_Some. constructor; [|done]. simpl. by rewrite Eh, El, Hu1.
  - simpl in Hu. rewrite Ea in Hu. apply fmap_Some in Hu as (t' & Hu & ->).
    destruct (IH s1 t') as (us & Em & ->); [lia|done|].
    destruct (split_nonempty "/"%char s1) as (hd & tl & Es).
    destruct (Ascii.eqb_spec a "/"%char) as [->|Hs].
    + simpl. rewrite Es in *. exists ("" :: us). split.
      * simpl in Em |- *. by rewrite Em.
      * destruct us; [|done]. by apply mapM_Some, Forall2_length in Em.
    + apply Ascii.eqb_neq in Hs. rewrite (split_other _ a _ hd tl Hs Es). rewrite Es in Em.
      rewrite mapM_Some in Em. apply Forall2_cons_inv_l in Em as (u & us' & Hu1 & Hus & ->).
      exists (String.String a u :: us'). split; [|by rewrite concat_head].
      apply mapM_Some. constructor; [|done]. simpl. by rewrite Ea, Hu1.
Qed.

(** The path of a pattern with values for its wildcards. *)
Fixpoint render (pat : list Seg) (vals : list string) : string :=
  match pat, vals with
  | Lit l :: pat, _ => "/" +:+ l +:+ render pat vals
  | Wild _ :: pat, v :: vals => "/" +:+ v +:+ render pat vals
  | _, _ => ""
  end.

Lemma concat_cons s l : String.concat "/" ("" :: s :: l) = "/" +:+ s +:+ match l with [] => "" | _ => String.concat "/" ("" :: l) end.
Proof. destruct l; simpl; [by rewrite append_empty_r|done]. Qed.

Lemma fits_render pat segs vals : segs ≠ [] → fits pat segs vals →
  String.concat "/" ("" :: segs) = render pat vals.
Proof.
  revert segs vals. induction pat as [|[l|n] pat IH]; intros [|s segs] vals Hne Hf; try done.
  - destruct Hf as [<- Hf]. rewrite concat_cons. simpl render.
    destruct segs as [|s' segs]; [by destruct pat as [|[] ?], vals|]. by rewrite (IH _ vals).
  - destruct vals as [|v vals]; [done|]. destruct Hf as (-> & _ & Hf). rewrite concat_cons. simpl render.
    destruct segs as [|s' segs]; [by destruct pat as [|[] ?], vals|]. by rewrite (IH _ vals).
Qed.

(** No literal of the table is a slash, so a final slash fits no pattern. *)
Definition no_slash (pat : list Seg) : bool :=
  forallb (λ s, match s with Lit l => l <>s "/" | Wild _ => true end) pat.
Lemma routes_no_slash : forallb (λ rt, no_slash (rt_segs rt)) routes = true.
Proof. vm_compute. reflexivity. Qed.

Lemma routes_methods :
  forallb (λ rt, oneOf (rt_method rt) [MethodGet; MethodHead; MethodPost]) routes = true.
Proof. vm_compute. reflexivity. Qed.
Lemma not_connect rt : rt ∈ routes → ¬ serves rt "CONNECT".
Proof.
  intros Hin%list_elem_of_In. pose proof routes_methods as Hr. rewrite forallb_forall in Hr.
  specialize (Hr rt Hin). by intros [E|[E _]]; [rewrite E in Hr|].
Qed.

Lemma fits_no_slash pat segs vals : no_slash pat = true → fits pat segs vals → "/" ∉ segs.
Proof.
  revert segs vals. induction pat as [|[l|n] pat IH]; intros [|s segs] vals Hp Hf Hin; try done.
  - by apply not_elem_of_nil in Hin.
  - destruct Hf as [<- Hf]. simpl in Hp. bool_prop. apply elem_of_cons in Hin as [Ex|Hin]; [congruence|]. by eapply IH.
  - destruct vals as [|v vals]; [done|]. destruct Hf as (-> & Hs & Hf). simpl in Hp. bool_prop.
    apply elem_of_cons in Hin as [Ex|Hin]; [congruence|]. by eapply IH.
Qed.

Lemma pathSegments_decoded parts us : mapM PathUnescape parts = Some us → "/" ∉ pathSegments parts →
  pathSegments parts = us.
Proof.
  intros Hm%mapM_Some. induction Hm as [|p u parts us Hp Hm IH]; [done|]. intros Hn.
  assert (pathUnescape p = u) as Eu by (unfold pathUnescape; by rewrite Hp).
  destruct parts as [|p' parts].
  - inversion Hm; subst. simpl in *. destruct (String.eqb_spec p "") as [->|]; [|done].
    exfalso. apply Hn. by left.
  - change (pathUnescape p :: pathSegments (p' :: parts) = u :: us). rewrite Eu. f_equal. apply IH.
    intros Hin. apply Hn. change (pathSegments (p :: p' :: parts)) with (pathUnescape p :: pathSegments (p' :: parts)).
    by right.
Qed.

Lemma cleanPath_rooted p : ∃ s, cleanPath p = String.String "/"%char s.
Proof. unfold cleanPath. case_match; simpl; eauto. Qed.

(** The decoded path of a routed request is the pattern of its route. *)
Lemma route_path r route values : well_formed r → findHandler r = MuxRoute route values →
  ∃ vals, route ∈ routes ∧ serves route (req_Method r) ∧ req_Path r = render (rt_segs route) vals
    ∧ fits (rt_segs route) (segmentsOf (req_EscapedPath r)) vals.
Proof.
  intros Hw Hf. unfold findHandler in Hf.
  set (path := if req_Method r =s "CONNECT" then _ else cleanPath (req_EscapedPath r)) in Hf.
  destruct (String.eqb_spec path (req_EscapedPath r)) as [Ep|]; [|done]. simpl in Hf.
  destruct (matchMethodAndPath _ path) as [[route' vals]|] eqn:Em; [|by repeat case_match].
  injection Hf as -> _. exists vals. rewrite Ep in Em. apply matchMethod_fits in Em as (Hin & Hs & Hfit).
  split_and!; [done|done| |done].
  assert (∃ s, req_EscapedPath r = String.String "/"%char s) as [s Es].
  { destruct (String.eqb_spec (req_Method r) "CONNECT") as [Ec|Hc].
    - rewrite Ec in Hs. by destruct (not_connect route Hin).
    - rewrite <- Ep. unfold path. apply cleanPath_rooted. }
  destruct (unescape_split _ _ _ (le_n _) Hw) as (us & Em & ->).
  unfold segmentsOf in Hfit. rewrite Es in *.
  apply mapM_Some in Em. simpl in Em, Hfit. apply Forall2_cons_inv_l in Em as (u & us' & [= <-] & Hus%mapM_Some & ->).
  rewrite <- (fits_render (rt_segs route) us' vals); [done| |].
  - intros ->. destruct (split_nonempty "/"%char s) as (h & tl & Esp). rewrite Esp in Hus.
    by apply mapM_Some, Forall2_length in Hus.
  - rewrite <- (pathSegments_decoded _ _ Hus); [exact Hfit|].
    eapply fits_no_slash; [|exact Hfit]. pose proof routes_no_slash as Hr.
    rewrite forallb_forall in Hr. apply Hr. by apply list_elem_of_In.
Qed.

(** ** Classification of the endpoints *)

(** The endpoints that are meant to be public. *)
Definition publicEndpoint (e : Endpoint) : bool :=
  match e with
  | E_respondOCSP | E_getCRLPublication | E_getLatestIssuerCRL
  | E_acmeDirectory | E_acmeNewNonce | E_acmeNewAccount | E_acmeUpdateAccount | E_acmeNewOrder
  | E_acmeKeyChange | E_acmeGetOrder | E_acmePostAsGetOrder | E_acmeGetAuthorization
  | E_acmePostAsGetAuthorization | E_acmeCompleteChallenge | E_acmeFinalizeOrder
  | E_acmeRevokeCertificate | E_acmeGetCertificate | E_acmePostAsGetCertificate => true
  | _ => false
  end.

(** The endpoints of operators: metrics, API keys, outbox, audit log,
    inventory, objectives and expiration scans. *)
Definition operatorEndpoint (e : Endpoint) : bool :=
  match e with
  | E_debugVars | E_createAPIKey | E_listAPIKeys | E_rotateAPIKey | E_disableAPIKey
  | E_listOutboxMessages | E_replayDeadLetterOutboxMessages | E_retryOutboxMessage
  | E_listAuditEvents | E_getAuditIntegrity | E_pruneAuditEvents | E_repairIssuanceAuditEvents
  | E_listCertificateInventory | E_getExpirySLO | E_scanCertificateExpirations => true
  | _ => false
  end.

Definition endpointScope (e : Endpoint) (method : string) : requiredScope :=
  if operatorEndpoint e then requiredScopeOperator
  else if method =s MethodGet then requiredScopeRead else requiredScopeWrite.

(** A symbolic path is compared with a constant by its suffix. *)
Lemma HasSuffix_append s t p : String.length p ≤ String.length t → HasSuffix (s +:+ t) p = HasSuffix t p.
Proof.
  intros Hl. destruct (HasSuffix t p) eqn:Et.
  - apply HasSuffix_spec in Et as [u ->]. apply HasSuffix_spec. exists (s +:+ u). by rewrite append_assoc.
  - apply not_true_is_false. intros [u Eu]%HasSuffix_spec. revert Et. apply not_false_iff_true.
    apply HasSuffix_spec. revert u Eu. induction s as [|a s IH]; intros u Eu; [by exists u|].
    destruct u as [|b u]; [|injection Eu as _ Eu; eauto].
    simpl in Eu. apply (f_equal String.length) in Eu. simpl in Eu. rewrite length_append in Eu. lia.
Qed.

Lemma append_neq s t u : HasSuffix u t = false → (s +:+ t =s u) = false.
Proof. intros Hs. apply String.eqb_neq. intros <-. rewrite (proj2 (HasSuffix_spec _ _)) in Hs; [done|eauto]. Qed.

Definition classified (method : string) (rt : Route) : Prop :=
  ∀ segs vals, fits (rt_segs rt) segs vals → serves rt method →
    let path := render (rt_segs rt) vals in
    (isPublicEndpoint method path = true → publicEndpoint (rt_endpoint rt) = true) ∧
    requiredScopeForRequest method path = endpointScope (rt_endpoint rt) method.

Lemma routes_table : routes = ltac:(let l := eval vm_compute in routes in exact l).
Proof. vm_compute. reflexivity. Qed.

Lemma fits_length pat segs vals : fits pat segs vals → length vals = length (wildNames pat).
Proof.
  revert segs vals. induction pat as [|[l|n] pat IH]; intros [|s segs] vals Hf; try done; simpl.
  - by destruct vals.
  - by apply (IH segs), Hf.
  - destruct vals; [done|]. simpl. f_equal. by apply (IH segs), Hf.
Qed.

(** The two kinds of path that are not decided by their constant prefix. *)
Lemma issuer_path_protected v t : HasSuffix t "/crl" = false → 4 ≤ String.length t →
  isPublicEndpoint MethodGet ("/issuers/" +:+ v +:+ t) = false.
Proof.
  intros Ht Hl. unfold isPublicEndpoint.
  change ("/issuers/" +:+ v +:+ t) with (("/issuers/" +:+ v) +:+ t). rewrite (HasSuffix_append _ t "/crl" Hl), Ht.
  rewrite orb_true_r. vm_compute. reflexivity.
Qed.
Lemma certificate_path_write v t : HasSuffix "/certificates/expiration-scan" t = false →
  requiredScopeForRequest MethodPost ("/certificates/" +:+ v +:+ t) = requiredScopeWrite.
Proof.
  intros Ht. unfold requiredScopeForRequest.
  change ("/certificates/" +:+ v +:+ t) with (("/certificates/" +:+ v) +:+ t).
  rewrite (append_neq _ t "/certificates/expiration-scan" Ht). vm_compute. reflexivity.
Qed.

Lemma routes_classified_all method : Forall (classified method) routes.
Proof.
  rewrite routes_table.
  repeat (apply Forall_cons_2; [intros segs vals Hf%fits_length Hs; cbv [serves rt_method] in Hs;
    destruct Hs as [<-|[-> Hs]]; [|try discriminate Hs];
    destruct vals as [|v1 [|v2 [|v3 vals]]]; try discriminate Hf; split|]).
  all: try (intros; reflexivity).
  all: try (intros Hp; exfalso; vm_compute in Hp; discriminate Hp).
  all: try (vm_compute; reflexivity).
  all: try apply Forall_nil_2.
  all: cbn [render rt_segs rt_endpoint].
  1-2: intros Hp; rewrite <- Hp; symmetry; apply issuer_path_protected; [reflexivity|simpl; lia].
  all: apply certificate_path_write; reflexivity.
Qed.

Lemma route_classified r route values : well_formed r → findHandler r = MuxRoute route values →
  (isPublicEndpoint (req_Method r) (req_Path r) = true → publicEndpoint (rt_endpoint route) = true) ∧
  requiredScopeForRequest (req_Method r) (req_Path r) = endpointScope (rt_endpoint route) (req_Method r).
Proof.
  intros Hw Hf. destruct (route_path r route values Hw Hf) as (vals & Hin & Hs & -> & Hfit).
  pose proof (routes_classified_all (req_Method r)) as Ha. rewrite Forall_forall in Ha.
  exact (Ha route Hin _ vals Hfit Hs).
Qed.
