(* ===== verification/Samples.v ===== *)
(** * A concrete environment

    An environment in which the service can be run by evaluation: a clock that
    advances a second per outside call, numbered identifiers, a signer that
    accepts every request and reports consistent evidence, and a webhook
    receiver that answers 200. The witnesses of the theorems run in it. *)

From Stdlib Require Import Ascii.
From S2P Require Import Prelude GoLib Crypto Domain Core NetIP Requests AuditChain Store StoreInv Service Policy Registry Lifecycle Issuance Outbox APIKeys Queries HTTPTypes HTTPBoundary HTTPCore HTTPRoutes.

Definition sample_evidence (operation algorithm : string) : SigningEvidence := {|
  SigningEvidence_SchemaVersion := 1; SigningEvidence_EvidenceSource := "core_signing";
  SigningEvidence_Operation := operation; SigningEvidence_ProviderID := "file";
  SigningEvidence_ProviderClass := "file"; SigningEvidence_ProviderReadiness := "ready";
  SigningEvidence_ProviderExportability := "exportable"; SigningEvidence_ReferenceClass := "file";
  SigningEvidence_KeyAlgorithm := "rsa"; SigningEvidence_RequestedSignatureAlgorithm := algorithm;
  SigningEvidence_IssuerBindingVerified := true; SigningEvidence_FallbackUsed := false;
  SigningEvidence_ResultCode := "ok" |}.

(** 2026-05-01, in nanoseconds since the epoch of [Time]. *)
Definition sample_epoch : Time := DateUTC 2026 5 1.

(** The CSR of a request names one host. *)
Definition sample_csr : CSRInfo := {|
  CSRInfo_Subject := "CN=host.example"; CSRInfo_DNSNames := ["host.example"];
  CSRInfo_IPAddresses := []; CSRInfo_PublicKeyAlgorithm := "rsa"; CSRInfo_PublicKeySizeBits := 2048;
  CSRInfo_SignatureAlgorithm := "sha256"; CSRInfo_ExtensionOIDs := [] |}.

Definition sample_env : Env := {|
  env_codec := plain_codec;
  env_unicode := ascii_unicode;
  env_url := {| url_Parse s := Some (mkURL "https" None s "" "" "") |};
  json_policy_input _ := Some "{}";
  json_evidence _ := Some "evidence";
  json_evidence_decode _ := Some (sample_evidence "certificate_issue" "sha256");
  clock_Now t := (sample_epoch + Z.of_nat t * Second)%Z;
  idgen_NewID t := "id-" +:+ itoa (Z.of_nat t);
  rand_bytes t := Ok (repeat (Z.of_nat t mod 256)%Z 32);
  since_ms _ := 0%Z;
  issuer_Issue t r := Ok {| IssueResult_CertificatePEM := "certificate";
    IssueResult_SerialNumber := "serial-" +:+ itoa (Z.of_nat t);
    IssueResult_Subject := IssueRequest_Subject r; IssueResult_NotBefore := IssueRequest_NotBefore r;
    IssueResult_NotAfter := IssueRequest_NotAfter r;
    IssueResult_SigningEvidence :=
      sample_evidence "certificate_issue" (IssueRequest_SignatureAlgorithm r) |};
  issuer_InspectCSR _ _ := Ok sample_csr;
  issuer_GenerateCRL _ _ :=
    Ok (mkGenerateCRLResult "crl" (sample_evidence "crl_generate_sign" "sha256"));
  issuer_InspectOCSPIssuer _ pem alg := Ok (mkOCSPIssuerInfo pem pem alg);
  issuer_ValidateOCSPResponder _ _ _ := Ok (mkValidateOCSPResponderResult true);
  issuer_InspectOCSP _ der := Ok (mkOCSPRequestInfo [mkOCSPCertificateID der "pem" "pem" "sha1"] false "");
  issuer_GenerateOCSPResponse _ _ :=
    Ok (mkGenerateOCSPResponseResult "response" (sample_evidence "ocsp_response_sign" "sha256"));
  key_CheckReady _ ref := Ok (mkProviderInfo ClassFile ExportabilityExportable);
  acme_VerifyHTTP01 _ _ _ _ := Ok tt;
  lint_CheckPublicTLS := None;
  error_text _ := "error";
  apiKeyPepper := "";
  productionPolicy := false;
  publicTLSMaxValidityOverride := 0%Z;
  publicTLSCAAPolicy := None;
  env_ctx := mkCallContext None None None;
|}.

Definition sample_webhook : WebhookEnv := {|
  wall_Now t := (sample_epoch + Z.of_nat t * Second)%Z;
  webhook_body _ := Ok "{}";
  http_Do _ _ := Ok 200%Z;
|}.

(** ** A small installation *)

Definition sample_identity : CreateIdentityRequest :=
  mkCreateIdentityRequest IdentityMachine "host" "" "" "" "" "" "" zero_time "{}" [] [].

Definition sample_issuer : CreateIssuerRequest :=
  mkCreateIssuerRequest "root" IssuerRootCA "" "pem" "file:ca.key" "" [] true.

Definition sample_enrollment (identityID issuerID : string) : CreateEnrollmentRequest := {|
  CreateEnrollmentRequest_IdentityID := identityID; CreateEnrollmentRequest_IssuerID := issuerID;
  CreateEnrollmentRequest_CertificateProfileID := ""; CreateEnrollmentRequest_CSRPEM := "csr";
  CreateEnrollmentRequest_RequestedSubject := "CN=host.example";
  CreateEnrollmentRequest_RequestedDNSNames := ["host.example"];
  CreateEnrollmentRequest_RequestedIPAddresses := [];
  CreateEnrollmentRequest_RequestedNotAfter := (sample_epoch + 90 * 24 * Hour)%Z |}.

Definition new_world : World := mkWorld NewMemoryStore 0.

Section Runs.
#[local] Existing Instance sample_env.

(** An approved enrollment. *)
Definition sample_approved : Svc Enrollment :=
  let* identity := Registry.CreateIdentity "operator" sample_identity in
  let* issuer := Registry.CreateIssuer "operator" sample_issuer in
  let* enrollment := Lifecycle.CreateEnrollment "operator"
    (sample_enrollment (Identity_ID identity) (Issuer_ID issuer)) in
  ApproveEnrollment "operator" (Enrollment_ID enrollment).

(** An issued certificate. *)
Definition sample_issued : Svc Certificate :=
  let* enrollment := sample_approved in
  IssueCertificate "operator" (Enrollment_ID enrollment).

(** The first outcome of a run from the empty store. *)
Definition run {A} (m : Svc A) : res A := (m new_world).1.

Definition outcome {A} (p : A → bool) (m : Svc A) : bool :=
  match run m with Ok a => p a | Err _ => false end.

Example sample_issued_runs :
  outcome (λ c, Certificate_Status c =s CertificateValid) sample_issued = true.
Proof. vm_compute. reflexivity. Qed.
End Runs.

(** * Actions of the server along a relation *)

Section Along.
Context {N : Type} (R : relation World) `{!PreOrder R}.

Definition along {A} (m : HTTPM N A) : Prop := ∀ st, R (hs_world st) (hs_world (m st).2).
Definition handled (h : HandlerM N) : Prop := ∀ st, R (hs_world st) (hs_world (h st).2).

Lemma along_svc {A} (m : Svc A) : (∀ w, R w (m w).2) → along (svc m).
Proof. intros Hm st. unfold svc. specialize (Hm (hs_world st)). by destruct (m (hs_world st)). Qed.
Lemma along_nonces {A} (m : GoM N A) : along (nonces m).
Proof. intros st. unfold nonces. by destruct (m (hs_nonces st)). Qed.
Lemma along_ret {A} (a : A) : along (retM a).
Proof. by intros st. Qed.
Lemma along_fail {A} e : along (failM (A:=A) e).
Proof. by intros st. Qed.
Lemma along_lift {A} (r : res A) : along (liftM r).
Proof. by intros st. Qed.
Lemma along_if c e : along (return_if c e).
Proof. intros st. by destruct c. Qed.
Lemma along_get {A} (f : HState N → A) : along (getM f).
Proof. by intros st. Qed.
Lemma along_catch {A} (m : HTTPM N A) : along m → along (catchM m).
Proof. intros Hm st. specialize (Hm st). unfold catchM. by destruct (m st). Qed.
Lemma along_bind {A B} (m : HTTPM N A) (k : A → HTTPM N B) :
  along m → (∀ a, along (k a)) → along (bindM m k).
Proof.
  intros Hm Hk st. unfold bindM. specialize (Hm st). destruct (m st) as [[a|e] st1]; [|done].
  etrans; [exact Hm|apply Hk].
Qed.
(** An update that keeps the world. *)
Lemma along_put (f : HState N → HState N) : (∀ st, hs_world (f st) = hs_world st) → along (putM f).
Proof. intros Hf st. simpl. by rewrite Hf. Qed.
End Along.

Create HintDb along_db discriminated.
#[export] Hint Constants Opaque : along_db.
#[export] Hint Resolve along_nonces along_ret along_fail along_lift along_if along_get : along_db.
#[export] Hint Extern 0 (PreOrder _) => apply _ : along_db.

(** Split an action; [call] solves the calls of the service. *)
Ltac along_step call :=
  lazymatch goal with
  | |- along _ (bindM _ _) => apply along_bind; [apply _| |intros]
  | |- along _ (catchM _) => apply along_catch
  | |- along _ (svc _) => solve [call]
  | |- along _ (putM _) => apply along_put; [apply _|intros; reflexivity]
  | |- along _ (if ?b then _ else _) => destruct b
  | |- along _ (match ?x with _ => _ end) => destruct x
  end.
Ltac along call := repeat (cbv zeta; first [along_step call | solve [auto with along_db nocore]]).

(** ** The stages of a request

    A preorder that contains the passing of time, the failure record and the
    calls of the handlers contains what requests do. *)

Class Timely (R : relation World) : Prop :=
  timely : ∀ w t, w_tick w ≤ t → R w (mkWorld (w_store w) t).
#[export] Hint Extern 0 (Timely _) => apply _ : along_db.

Lemma timely_outside (R : relation World) `{!Timely R} {A} (f : nat → res A) w : R w (outside f w).2.
Proof. apply timely. simpl. lia. Qed.

Section Core.
Context `{E : Env} {N : Type} `{!ACMENonceStore N} `{!HTTPEnv} (R : relation World) `{!PreOrder R} `{!Timely R}.

Ltac outside_call := apply along_svc; intros; apply timely_outside; apply _.

Lemma along_now : along (N:=N) R now.
Proof. unfold now. along outside_call. Qed.
Lemma along_ctxErr : along (N:=N) R ctxErr.
Proof. unfold ctxErr. along outside_call. Qed.
#[local] Hint Resolve along_now along_ctxErr : along_db.
Lemma along_issueNonce : along (N:=N) R issueACMENonce.
Proof. unfold issueACMENonce. along outside_call. Qed.
Lemma along_consumeNonce n : along (N:=N) R (consumeACMENonce n).
Proof. unfold consumeACMENonce. along outside_call. Qed.
#[local] Hint Resolve along_issueNonce along_consumeNonce : along_db.
Lemma along_optionalNonce h : along (N:=N) R (optionalNonce h).
Proof. unfold optionalNonce. along outside_call. Qed.
#[local] Hint Resolve along_optionalNonce : along_db.
Lemma along_writeACMEJSON r h s v : along (N:=N) R (writeACMEJSON r h s v).
Proof. unfold writeACMEJSON. along outside_call. Qed.
Lemma along_errorBody r s e : along (N:=N) R (errorBody r s e).
Proof. unfold errorBody, writeACMEProblem. along outside_call. Qed.
Lemma along_rateLimit r : along (N:=N) R (checkACMERateLimit r).
Proof. unfold checkACMERateLimit, RecordEvent. along outside_call. Qed.
Lemma along_metadata r : along (N:=N) R (requestMetadata r).
Proof. unfold requestMetadata, requestIDForRequest. along outside_call. Qed.
Lemma along_consult r meta : along (N:=N) R (consultAuthorizer r meta).
Proof. unfold consultAuthorizer. along outside_call. Qed.

(** An error response, when [R] contains the record of the failure. *)
Lemma handled_writeError r err :
  (∀ actor req w, R w (RecordAPIFailure actor req w).2) → handled (N:=N) R (writeError r err).
Proof.
  intros Hf st. assert (along (N:=N) R (writeErrorM r err)) as Hc.
  { unfold writeErrorM. along ltac:(apply along_svc; intros; apply Hf). apply along_errorBody. }
  specialize (Hc st). unfold writeError. by destruct (writeErrorM r err st) as [[] ?].
Qed.

Lemma handled_handle r (body : HTTPM N Response) :
  (∀ actor req w, R w (RecordAPIFailure actor req w).2) → along R body → handled R (handle r body).
Proof.
  intros Hf Hb st. specialize (Hb st). unfold handle. destruct (body st) as [[resp|err] st1]; [done|].
  pose proof (handled_writeError r err Hf st1). destruct err; try (by etrans); done.
Qed.
End Core.

#[export] Hint Resolve along_now along_ctxErr along_issueNonce along_consumeNonce along_optionalNonce
  along_writeACMEJSON along_errorBody : along_db.

(** * A concrete server *)

(** 32 zero bytes. *)
Definition sample_jwk : acmeJWK :=
  mk_acmeJWK "OKP" "Ed25519" "AAAAAAAAAAAAAAAAAAAAAAAAAAAAAAAAAAAAAAAAAAA" "" "" "".

(** The header of a request to create an account, with a new key. *)
Definition sample_header : acmeProtectedHeader :=
  mk_acmeProtectedHeader "EdDSA" "nonce-1" "http://pki.example/acme/new-account" "" (Some "jwk").

(** Decoded values by the text they are decoded from. *)
Definition sample_json {T} (k : JSONKind T) : string → option T :=
  match k in JSONKind T return string → option T with
  | K_acmeJWSRequest => λ s, if s =s "jws" then Some (mk_acmeJWSRequest "aGVhZGVy" "YWNjb3VudA" "c2ln") else None
  | K_acmeProtectedHeader => λ s, if s =s "header" then Some sample_header else None
  | K_acmeJWK => λ s, if s =s "jwk" then Some sample_jwk else None
  | K_acmeNewAccountRequest =>
      λ s, if s =s "account" then Some (mk_acmeNewAccountRequest ["mailto:ops@example.org"] true) else None
  | _ => λ _, None
  end.

Definition sample_server : Server :=
  mkServer (mkAuthConfig AuthModeAPIKey [] 0) (mkACMEConfig "" "" "" 0 2 (60 * Second)).

Definition sample_http : HTTPEnv := {|
  http_server := sample_server;
  time_Now t := (sample_epoch + Z.of_nat t * Second)%Z;
  http_rand t n := Ok (repeat (Z.of_nat t mod 256)%Z n);
  ctx_Err _ := None;
  json_value T k s := (λ v, (v, "")) <$> sample_json k s;
  json_unmarshal T k s := sample_json k s;
  parse_RFC3339 _ := None;
  authorizer := None;
  p256_NewPublicKey _ := true;
  ecdsa_Verify _ _ _ _ _ := false;
  rsa_VerifyPKCS1v15 _ _ _ _ := false;
  ed25519_Verify _ _ signature := bool_decide (signature = str_bytes "sig");
  x509_ParseCertificateRequest _ := None;
  pkix_CommonName name := "CN=" +:+ name;
  pem_CertificateRequest _ := "csr";
|}.

(** A server over a world, with one live nonce. *)
Definition sample_state (w : World) : HState acmeMemoryNonceStore :=
  mkHState w ∅ (mkMemoryNonceStore {["nonce-1" := mkStoredNonce sample_epoch (sample_epoch + Hour)]} 10) ∅ ∅.

Definition sample_post (path : string) : Request :=
  mkRequest "POST" path path "" false "pki.example" ∅ "192.0.2.1:4000" "jws" None [].
