(* ===== verification/Machines.v ===== *)
(** * State machines of the stored entities

    The specification side of the lifecycle: for every entity with a status, the
    transitions it may make and the fields that never change ([Machine]), and
    [svc_step], the writes the service makes to the store together with the
    conditions under which it makes them. [Invariants] shows that the service's
    operations are sequences of these steps; [History] derives from them what
    holds of every execution. *)

From S2P Require Import Prelude GoLib Crypto Domain Core NetIP Requests AuditChain Store StoreInv.
From S2P Require Import Service Lifecycle Issuance.

(** ** Machines *)

Class Machine (V : Type) := {
  mc_table : MemoryStore → gmap string V;
  mc_key : V → string;
  mc_status : V → string;
  (** the row with its mutable fields cleared *)
  mc_erase : V → V;
  (** the permitted changes of status *)
  mc_moves : list (string * string);
}.

(** One change of a row: the immutable fields stay, and the status stays or
    makes a permitted move. *)
Definition row_step `{Machine V} (v v' : V) : Prop :=
  mc_erase v' = mc_erase v ∧
  (mc_status v' = mc_status v ∨ (mc_status v, mc_status v') ∈ mc_moves).

(** The history of a table: rows are never removed and only make row steps. *)
Definition rows_evolve `{Machine V} (m m' : gmap string V) : Prop :=
  ∀ id v, m !! id = Some v → ∃ v', m' !! id = Some v' ∧ rtc row_step v v'.

(** A replacement is a row step for every row it can replace. *)
Definition update_ok `{Machine V} (m : gmap string V) (current : string) (x : V) : Prop :=
  ∀ v, m !! mc_key x = Some v → mc_status v = current → row_step v x.

#[global] Instance certificate_machine : Machine Certificate := {
  mc_table := ms_certificates; mc_key := Certificate_ID; mc_status := Certificate_Status;
  mc_erase c := c |> Certificate_with_Status "" |> Certificate_with_RenewalNotifiedAt zero_time
                  |> Certificate_with_UpdatedAt zero_time;
  mc_moves := [(CertificateValid, CertificateSuspended); (CertificateSuspended, CertificateValid);
               (CertificateValid, CertificateRevoked); (CertificateSuspended, CertificateRevoked);
               (CertificateValid, CertificateExpired); (CertificateSuspended, CertificateExpired)];
}.

#[global] Instance enrollment_machine : Machine Enrollment := {
  mc_table := ms_enrollments; mc_key := Enrollment_ID; mc_status := Enrollment_Status;
  mc_erase e := e |> Enrollment_with_Status "" |> Enrollment_with_ApprovedBy ""
                  |> Enrollment_with_ApprovedAt zero_time |> Enrollment_with_UpdatedAt zero_time;
  mc_moves := [(EnrollmentPending, EnrollmentApproved); (EnrollmentPending, EnrollmentRejected);
               (EnrollmentApproved, EnrollmentIssued)];
}.

(** The documented transitions, and [signed] to [failed] when finalization is
    refused. *)
#[global] Instance attempt_machine : Machine IssuanceAttempt := {
  mc_table := ms_issuanceAttempts; mc_key := IssuanceAttempt_EnrollmentID;
  mc_status := IssuanceAttempt_Status;
  mc_erase a := zero_IssuanceAttempt
    |> IssuanceAttempt_with_EnrollmentID (IssuanceAttempt_EnrollmentID a)
    |> IssuanceAttempt_with_CreatedAt (IssuanceAttempt_CreatedAt a);
  mc_moves := [(IssuanceAttemptSigning, IssuanceAttemptSigned);
               (IssuanceAttemptSigned, IssuanceAttemptFinalized);
               (IssuanceAttemptFailed, IssuanceAttemptSigning);
               (IssuanceAttemptSigned, IssuanceAttemptFailed)];
}.

#[global] Instance outbox_machine : Machine OutboxMessage := {
  mc_table := ms_outbox; mc_key := OutboxMessage_ID; mc_status := OutboxMessage_Status;
  mc_erase m := m |> OutboxMessage_with_Status "" |> OutboxMessage_with_AvailableAt zero_time
    |> OutboxMessage_with_ProcessingDeadlineAt zero_time |> OutboxMessage_with_AttemptCount 0
    |> OutboxMessage_with_MaxAttempts 0 |> OutboxMessage_with_LastError ""
    |> OutboxMessage_with_UpdatedAt zero_time;
  mc_moves := [(OutboxPending, OutboxProcessing); (OutboxProcessing, OutboxPending);
               (OutboxProcessing, OutboxCompleted); (OutboxProcessing, OutboxDeadLetter);
               (OutboxFailed, OutboxPending); (OutboxDeadLetter, OutboxPending)];
}.

#[global] Instance apikey_machine : Machine APIKey := {
  mc_table := ms_apiKeys; mc_key := APIKey_ID; mc_status := APIKey_Status;
  mc_erase k := k |> APIKey_with_Status "" |> APIKey_with_LastUsedAt zero_time
                  |> APIKey_with_UpdatedAt zero_time;
  mc_moves := [(APIKeyActive, APIKeyDisabled)];
}.

#[global] Instance responder_machine : Machine OCSPResponder := {
  mc_table := ms_ocspResponders; mc_key := OCSPResponder_ID; mc_status := OCSPResponder_Status;
  mc_erase r := r |> OCSPResponder_with_Status "" |> OCSPResponder_with_UpdatedAt zero_time;
  mc_moves := [(OCSPResponderActive, OCSPResponderDisabled)];
}.

#[global] Instance endpoint_machine : Machine NotificationEndpoint := {
  mc_table := ms_notifications; mc_key := NotificationEndpoint_ID;
  mc_status := NotificationEndpoint_Status;
  mc_erase e := e |> NotificationEndpoint_with_Status "" |> NotificationEndpoint_with_UpdatedAt zero_time;
  mc_moves := [(NotificationEndpointActive, NotificationEndpointDisabled)];
}.

#[global] Instance account_machine : Machine ACMEAccount := {
  mc_table := ms_acmeAccounts; mc_key := ACMEAccount_ID; mc_status := ACMEAccount_Status;
  mc_erase a := a |> ACMEAccount_with_Contacts [] |> ACMEAccount_with_Status ""
    |> ACMEAccount_with_KeyThumbprint "" |> ACMEAccount_with_KeyJWKJSON ""
    |> ACMEAccount_with_UpdatedAt zero_time;
  mc_moves := [(ACMEAccountValid, ACMEAccountDeactivated)];
}.

#[global] Instance order_machine : Machine ACMEOrder := {
  mc_table := ms_acmeOrders; mc_key := ACMEOrder_ID; mc_status := ACMEOrder_Status;
  mc_erase o := o |> ACMEOrder_with_CSRPEM "" |> ACMEOrder_with_RequestedSubject ""
    |> ACMEOrder_with_EnrollmentID "" |> ACMEOrder_with_CertificateID ""
    |> ACMEOrder_with_Status "" |> ACMEOrder_with_UpdatedAt zero_time;
  mc_moves := [(ACMEOrderPending, ACMEOrderReady); (ACMEOrderReady, ACMEOrderValid);
               (ACMEOrderReady, ACMEOrderInvalid)];
}.

#[global] Instance authorization_machine : Machine ACMEAuthorization := {
  mc_table := ms_acmeAuthzs; mc_key := ACMEAuthorization_ID; mc_status := ACMEAuthorization_Status;
  mc_erase a := a |> ACMEAuthorization_with_Status ""
    |> ACMEAuthorization_with_ValidationReuseExpiresAt zero_time
    |> ACMEAuthorization_with_UpdatedAt zero_time;
  mc_moves := [(ACMEAuthorizationPending, ACMEAuthorizationValid)];
}.

(** A validation that succeeds at the first attempt moves a challenge from
    [pending] to [valid] directly. *)
#[global] Instance challenge_machine : Machine ACMEChallenge := {
  mc_table := ms_acmeChallenges; mc_key := ACMEChallenge_ID; mc_status := ACMEChallenge_Status;
  mc_erase c := c |> ACMEChallenge_with_Status "" |> ACMEChallenge_with_ValidatedAt zero_time
                  |> ACMEChallenge_with_UpdatedAt zero_time;
  mc_moves := [(ACMEChallengePending, ACMEChallengeProcessing);
               (ACMEChallengeProcessing, ACMEChallengeValid);
               (ACMEChallengePending, ACMEChallengeValid)];
}.

(** A profile has no status; only its issuer changes. *)
#[global] Instance profile_machine : Machine CertificateProfile := {
  mc_table := ms_profiles; mc_key := CertificateProfile_ID; mc_status _ := "";
  mc_erase p := p |> CertificateProfile_with_IssuerID "" |> CertificateProfile_with_UpdatedAt zero_time;
  mc_moves := [];
}.

(** Identities, issuers, revocations and CRL publications are never changed. *)
#[global] Instance identity_machine : Machine Identity := {
  mc_table := ms_identities; mc_key := Identity_ID; mc_status _ := ""; mc_erase v := v; mc_moves := [];
}.
#[global] Instance issuer_machine : Machine Issuer := {
  mc_table := ms_issuers; mc_key := Issuer_ID; mc_status _ := ""; mc_erase v := v; mc_moves := [];
}.
#[global] Instance revocation_machine : Machine Revocation := {
  mc_table := ms_revocations; mc_key := Revocation_ID; mc_status _ := ""; mc_erase v := v;
  mc_moves := [];
}.
#[global] Instance crl_machine : Machine CRLPublication := {
  mc_table := ms_crls; mc_key := CRLPublication_ID; mc_status _ := ""; mc_erase v := v; mc_moves := [];
}.

Section Evolution.
Context `{Machine V}.
Implicit Types (m : gmap string V) (v : V).

#[global] Instance rows_evolve_preorder : PreOrder rows_evolve.
Proof.
  split; [intros m id v Hv; exists v; split; [done|apply rtc_refl]|].
  intros m1 m2 m3 H12 H23 id v Hv. apply H12 in Hv as (v2 & Hv2 & H2).
  apply H23 in Hv2 as (v3 & Hv3 & H3). exists v3. split; [done|by etrans].
Qed.

Lemma rows_evolve_insert_new m k v : m !! k = None → rows_evolve m (<[k := v]> m).
Proof.
  intros Hn id u Hu. exists u. split; [|apply rtc_refl].
  rewrite lookup_insert_ne by congruence. done.
Qed.

Lemma rows_evolve_replace m k v v' :
  m !! k = Some v → row_step v v' → rows_evolve m (<[k := v']> m).
Proof.
  intros Hv Hs id u Hu. destruct (decide (id = k)) as [->|Hne].
  - exists v'. rewrite lookup_insert_eq. split; [done|].
    assert (u = v) as -> by congruence. by apply rtc_once.
  - exists u. rewrite lookup_insert_ne by done. split; [done|apply rtc_refl].
Qed.

Lemma erase_evolve v v' : rtc row_step v v' → mc_erase v' = mc_erase v.
Proof. induction 1 as [|v1 v2 v3 [E _] _ IH]; [done|congruence]. Qed.

(** A status with no way out. *)
Definition final_status (st : string) : bool := forallb (λ p, fst p <>s st) mc_moves.

Lemma final_stays v v' st :
  mc_status v = st → final_status st = true → row_step v v' → mc_status v' = st.
Proof.
  intros <- Hf [_ [E|Hm]]; [done|]. unfold final_status in Hf. rewrite forallb_forall in Hf.
  apply list_elem_of_In, Hf in Hm. simpl in Hm. by rewrite String.eqb_refl in Hm.
Qed.

Lemma final_evolve v v' st :
  mc_status v = st → final_status st = true → rtc row_step v v' → mc_status v' = st.
Proof.
  intros E Hf Hs. induction Hs as [|v1 v2 v3 Hs _ IH]; [done|]. apply IH. by eapply final_stays.
Qed.
End Evolution.

(** ** Identifiers in use

    Only what the generator produced counts: the keys of the tables below and
    the certificate identifiers reserved by signed attempts. *)

Definition reserves (a : IssuanceAttempt) : Prop :=
  IssuanceAttempt_Status a = IssuanceAttemptSigned ∨ IssuanceAttempt_Status a = IssuanceAttemptFinalized.

Inductive used (s : MemoryStore) (id : string) : Prop :=
| used_identity v : ms_identities s !! id = Some v → used s id
| used_issuer v : ms_issuers s !! id = Some v → used s id
| used_responder v : ms_ocspResponders s !! id = Some v → used s id
| used_endpoint v : ms_notifications s !! id = Some v → used s id
| used_profile v : ms_profiles s !! id = Some v → used s id
| used_enrollment v : ms_enrollments s !! id = Some v → used s id
| used_certificate v : ms_certificates s !! id = Some v → used s id
| used_reserved e a : ms_issuanceAttempts s !! e = Some a → reserves a →
    IssuanceAttempt_CertificateID a = id → used s id
| used_revocation v : ms_revocations s !! id = Some v → used s id
| used_crl v : ms_crls s !! id = Some v → used s id
| used_outbox v : ms_outbox s !! id = Some v → used s id
| used_apiKey v : ms_apiKeys s !! id = Some v → used s id
| used_account v : ms_acmeAccounts s !! id = Some v → used s id
| used_order v : ms_acmeOrders s !! id = Some v → used s id
| used_authz v : ms_acmeAuthzs s !! id = Some v → used s id
| used_challenge v : ms_acmeChallenges s !! id = Some v → used s id.

(** ** Steps *)

(** The three writes of a finalization, all successful. *)
Definition finalizeWrites (enrollment : Enrollment) (attempt : IssuanceAttempt) (now : Time)
  : Mem unit :=
  do* UpdateEnrollmentIfStatus (enrollment |> Enrollment_with_Status EnrollmentIssued
                                           |> Enrollment_with_UpdatedAt now) EnrollmentApproved in
  do* CreateCertificate (issuedCertificate enrollment attempt now) in
  UpdateIssuanceAttemptIfCurrent
    (attempt |> IssuanceAttempt_with_Status IssuanceAttemptFinalized
             |> IssuanceAttempt_with_FinalizedAt now |> IssuanceAttempt_with_UpdatedAt now) attempt.

(** The two writes of a revocation. *)
Definition revokeWrites (certificate : Certificate) (current : CertificateStatus)
    (revocation : Revocation) (s : MemoryStore) : MemoryStore :=
  (CreateRevocation revocation (UpdateCertificateIfStatus certificate current s).2).2.

Section Steps.
Context `{GoCodec}.

(** [gen id]: the generator has produced [id]; [collision]: it has produced some
    identifier twice. *)
Context (gen : string → Prop) (collision : Prop).

Definition fresh (s : MemoryStore) (id : string) : Prop := gen id ∧ (used s id → collision).

Definition attempt_update_ok (s : MemoryStore) (current x : IssuanceAttempt) : Prop :=
  ∀ v, ms_issuanceAttempts s !! IssuanceAttempt_EnrollmentID x = Some v →
    IssuanceAttempt_Status v = IssuanceAttempt_Status current →
    row_step v x ∧ IssuanceAttempt_Status x ≠ IssuanceAttemptFinalized ∧
    (IssuanceAttempt_Status x = IssuanceAttemptSigned → fresh s (IssuanceAttempt_CertificateID x)).

Inductive svc_step : MemoryStore → MemoryStore → Prop :=
| sv_Identity x s : fresh s (Identity_ID x) → svc_step s (CreateIdentity x s).2
| sv_Issuer x s : fresh s (Issuer_ID x) → svc_step s (CreateIssuer x s).2
| sv_Responder x s :
    fresh s (OCSPResponder_ID x) → OCSPResponder_Status x = OCSPResponderActive →
    svc_step s (CreateOCSPResponder x s).2
| sv_UpdateResponder x cur s :
    update_ok (ms_ocspResponders s) cur x → svc_step s (UpdateOCSPResponderIfStatus x cur s).2
| sv_Endpoint x s :
    fresh s (NotificationEndpoint_ID x) → svc_step s (Store.CreateNotificationEndpoint x s).2
| sv_UpdateEndpoint x cur s :
    update_ok (ms_notifications s) cur x → svc_step s (UpdateNotificationEndpointIfStatus x cur s).2
| sv_Profile x s : fresh s (CertificateProfile_ID x) → svc_step s (CreateCertificateProfile x s).2
| sv_UpdateProfile x i t s :
    update_ok (ms_profiles s) "" x → svc_step s (UpdateCertificateProfileIssuerIfCurrent x i t s).2
| sv_Enrollment x s :
    fresh s (Enrollment_ID x) → Enrollment_Status x = EnrollmentPending →
    svc_step s (Store.CreateEnrollment x s).2
| sv_UpdateEnrollment x cur s :
    update_ok (ms_enrollments s) cur x → Enrollment_Status x ≠ EnrollmentIssued →
    svc_step s (UpdateEnrollmentIfStatus x cur s).2
| sv_Attempt x s :
    IssuanceAttempt_Status x = IssuanceAttemptSigning →
    svc_step s (CreateIssuanceAttempt x s).2
| sv_UpdateAttempt x cur s :
    attempt_update_ok s cur x → svc_step s (UpdateIssuanceAttemptIfCurrent x cur s).2
| sv_UpdateCertificate x cur s :
    update_ok (ms_certificates s) cur x → Certificate_Status x ≠ CertificateRevoked →
    svc_step s (UpdateCertificateIfStatus x cur s).2
| sv_Revoke c x r s :
    ms_certificates s !! Certificate_ID x = Some c → row_step c x →
    Certificate_Status x = CertificateRevoked → Certificate_Status c ≠ CertificateRevoked →
    fresh s (Revocation_ID r) → Revocation_CertificateID r = Certificate_ID x →
    svc_step s (revokeWrites x (Certificate_Status c) r s)
| sv_CRL x s : fresh s (CRLPublication_ID x) → svc_step s (CreateCRLPublication x s).2
| sv_Claim x s : svc_step s (CreateCRLGenerationClaim x s).2
| sv_UpdateClaim x cur s : svc_step s (UpdateCRLGenerationClaimIfCurrent x cur s).2
| sv_DeleteClaim x s : svc_step s (DeleteCRLGenerationClaimIfCurrent x s).2
| sv_Outbox x s :
    fresh s (OutboxMessage_ID x) → OutboxMessage_Status x = OutboxPending →
    svc_step s (CreateOutboxMessage x s).2
| sv_UpdateOutboxStatus x cur s :
    update_ok (ms_outbox s) cur x → svc_step s (UpdateOutboxMessageStatusIfStatus x cur s).2
| sv_UpdateOutbox x cur s :
    update_ok (ms_outbox s) (OutboxMessage_Status cur) x →
    svc_step s (UpdateOutboxMessageIfCurrent x cur s).2
| sv_JobAttempt x s : svc_step s (CreateJobAttempt x s).2
| sv_Delivery x s : svc_step s (UpsertWebhookDelivery x s).2
| sv_APIKey x s :
    fresh s (APIKey_ID x) → APIKey_Status x = APIKeyActive → svc_step s (CreateAPIKey x s).2
| sv_UpdateAPIKey x cur s :
    update_ok (ms_apiKeys s) cur x → svc_step s (UpdateAPIKeyIfStatus x cur s).2
| sv_Account x s :
    fresh s (ACMEAccount_ID x) → ACMEAccount_Status x = ACMEAccountValid →
    svc_step s (CreateACMEAccount x s).2
| sv_UpdateAccount x cur s :
    update_ok (ms_acmeAccounts s) cur x → svc_step s (UpdateACMEAccountIfStatus x cur s).2
| sv_Order x s :
    fresh s (ACMEOrder_ID x) → ACMEOrder_Status x = ACMEOrderPending →
    svc_step s (CreateACMEOrder x s).2
| sv_UpdateOrder x cur s :
    update_ok (ms_acmeOrders s) cur x →
    (ACMEOrder_Status x = ACMEOrderReady → ∀ k a, ms_acmeAuthzs s !! k = Some a →
       ACMEAuthorization_OrderID a = ACMEOrder_ID x →
       ACMEAuthorization_Status a = ACMEAuthorizationValid) →
    svc_step s (UpdateACMEOrderIfStatus x cur s).2
| sv_Authorization x s :
    fresh s (ACMEAuthorization_ID x) → ACMEAuthorization_Status x = ACMEAuthorizationPending →
    (∀ o, ms_acmeOrders s !! ACMEAuthorization_OrderID x = Some o →
       ACMEOrder_Status o = ACMEOrderPending) →
    svc_step s (CreateACMEAuthorization x s).2
| sv_UpdateAuthorization x cur s :
    update_ok (ms_acmeAuthzs s) cur x →
    (ACMEAuthorization_Status x = ACMEAuthorizationValid → ∀ k c, ms_acmeChallenges s !! k = Some c →
       ACMEChallenge_AuthorizationID c = ACMEAuthorization_ID x →
       ACMEChallenge_Status c = ACMEChallengeValid) →
    svc_step s (UpdateACMEAuthorizationIfStatus x cur s).2
| sv_Challenge x s :
    fresh s (ACMEChallenge_ID x) → ACMEChallenge_Status x = ACMEChallengePending →
    (∀ a, ms_acmeAuthzs s !! ACMEChallenge_AuthorizationID x = Some a →
       ACMEAuthorization_Status a = ACMEAuthorizationPending) →
    svc_step s (CreateACMEChallenge x s).2
| sv_UpdateChallenge x cur s :
    update_ok (ms_acmeChallenges s) cur x → svc_step s (UpdateACMEChallengeIfStatus x cur s).2
| sv_Audit x s : svc_step s (CreateAuditEvent x s).2
| sv_Prune x s : svc_step s (DeleteAuditEventsBefore x s).2
| sv_Finalize e a now s s' :
    ms_enrollments s !! Enrollment_ID e = Some e →
    ms_issuanceAttempts s !! Enrollment_ID e = Some a →
    IssuanceAttempt_EnrollmentID a = Enrollment_ID e →
    IssuanceAttempt_Status a = IssuanceAttemptSigned →
    finalizeWrites e a now s = (Ok tt, s') → svc_step s s'.
End Steps.

(** ** Facts about steps *)

Lemma putRows_other {V B} (tbl : MemoryStore → gmap string V) set f (g : MemoryStore → B) s :
  (∀ m, g (set m s) = g s) → g (putRows tbl set f s).2 = g s.
Proof. intros E. unfold putRows. destruct (f (tbl s)); simpl; [apply E|done]. Qed.

Lemma onAudit_other {A B} (f : GoM AuditLog A) (g : MemoryStore → B) s :
  (∀ l, g (set_audit l s) = g s) → g (onAudit f s).2 = g s.
Proof. intros E. unfold onAudit. destruct (f (ms_audit s)); apply E. Qed.

(** A projection of the store that an operation does not write. *)
Ltac other_table :=
  try match goal with |- context [revokeWrites _ _ _ _] => unfold revokeWrites end;
  repeat match goal with |- context [snd (?op ?s)] =>
    let f := head_of op in
    lazymatch f with
    | @putRows => rewrite putRows_other by done
    | @onAudit => rewrite onAudit_other by done
    | _ => unfold f
    end end;
  done.

(** A successful write, as the table it leaves. *)
Lemma putRows_ok {V} (tbl : MemoryStore → gmap string V) set f s s' r :
  putRows tbl set f s = (Ok r, s') → ∃ m, f (tbl s) = Ok m ∧ s' = set m s.
Proof. unfold putRows. destruct (f (tbl s)) as [m|e]; [|done]. intros [= <- <-]. eauto. Qed.

(** What a successful finalization wrote. *)
Lemma finalizeWrites_ok e a now s s' :
  finalizeWrites e a now s = (Ok tt, s') →
  ∃ stored v,
    ms_enrollments s !! Enrollment_ID e = Some stored ∧ Enrollment_Status stored = EnrollmentApproved ∧
    ensureCertificateFinalizationKeysAvailable (map_values (ms_certificates s))
      (issuedCertificate e a now) = Ok tt ∧
    ms_issuanceAttempts s !! IssuanceAttempt_EnrollmentID a = Some v ∧
    sameIssuanceAttempt a v = true ∧
    s' = s |> set_enrollments (<[Enrollment_ID e := e |> Enrollment_with_Status EnrollmentIssued
              |> Enrollment_with_UpdatedAt now]> (ms_enrollments s))
           |> set_certificates (<[IssuanceAttempt_CertificateID a := issuedCertificate e a now]>
                (ms_certificates s))
           |> set_issuanceAttempts (<[IssuanceAttempt_EnrollmentID a :=
                a |> IssuanceAttempt_with_Status IssuanceAttemptFinalized
                  |> IssuanceAttempt_with_FinalizedAt now |> IssuanceAttempt_with_UpdatedAt now]>
                (ms_issuanceAttempts s)).
Proof.
  unfold finalizeWrites, UpdateEnrollmentIfStatus, CreateCertificate, UpdateIssuanceAttemptIfCurrent.
  intros Hf.
  apply bindM_ok_inv in Hf as (? & s1 & Hf1 & Hf). apply bindM_ok_inv in Hf as (? & s2 & Hf2 & Hf3).
  apply putRows_ok in Hf1 as (m1 & Hm1 & ->). apply putRows_ok in Hf2 as (m2 & Hm2 & ->).
  apply putRows_ok in Hf3 as (m3 & Hm3 & ->).
  apply updateIf_ok in Hm1 as (stored & Hst & Hcur & ->). apply updateIf_ok in Hm3 as (v & Hv & Hsame & ->).
  apply bindR_ok in Hm2 as ([] & Hk & [= <-]). bool_prop. simpl in *. eauto 10.
Qed.

(** Split a written table into the case that it kept and the case that it took
    one row; tables that the operation does not write are unchanged. *)
Ltac written Hu :=
  lazymatch type of Hu with
  | context [snd (?op ?s)] =>
      let f := head_of op in
      lazymatch f with
      | @putRows => first
          [rewrite putRows_other in Hu by done
          |match type of Hu with context [putRows ?t ?st ?g s] =>
             destruct (putRows_cases t st g s) as [(?e & _ & Ew)|(?m & Hm & Ew)];
             rewrite Ew in Hu; clear Ew; simpl in Hu end]
      | @onAudit => rewrite onAudit_other in Hu by done
      | _ => unfold f in Hu
      end
  end.

(** The one row of a successful write. *)
Ltac one_row Hm :=
  repeat lazymatch type of Hm with
  | updateIf _ _ _ _ _ = Ok _ => apply updateIf_ok in Hm as (? & ? & ? & ->)
  | Ok _ = Ok _ => injection Hm as <-
  | bindR (lookupRow _ _ _) _ = Ok _ => apply bindR_ok in Hm as (? & ?%lookupRow_ok & Hm)
  | bindR _ _ = Ok _ => apply bindR_ok in Hm as (? & ? & Hm)
  | match ?x with Some _ => _ | None => _ end = Ok _ => destruct x eqn:?
  | Err _ = Ok _ => discriminate Hm
  | ?t = Ok _ => let f := head_of t in unfold f in Hm
  end.

(** Steps are sequences of repository steps. *)
Section StepFacts.
Context `{GoCodec} (gen : string → Prop) (collision : Prop).
Abbreviation step := (svc_step gen collision).

Lemma update_ok_keys s cur x :
  update_ok (ms_certificates s) cur x →
  ∀ v, ms_certificates s !! Certificate_ID x = Some v → Certificate_Status v = cur →
    Certificate_EnrollmentID x = Certificate_EnrollmentID v ∧
    Certificate_IssuerID x = Certificate_IssuerID v ∧
    Certificate_SerialNumber x = Certificate_SerialNumber v.
Proof. intros Hok v Hv Hst. destruct (Hok v Hv Hst) as [E _]. by destruct v, x; injection E. Qed.

(** A compare-and-set on the status either keeps the store or is a repository
    step that keeps the keys of the certificate. *)
Lemma repo_UpdateCertificate s cur x :
  update_ok (ms_certificates s) cur x → rtc repo_step s (UpdateCertificateIfStatus x cur s).2.
Proof.
  intros Hok. unfold UpdateCertificateIfStatus.
  destruct (putRows_cases ms_certificates set_certificates (updateCertificateIfStatus x cur) s)
    as [(e & _ & E)|(m & Hm & E)]; rewrite E; [reflexivity|].
  apply rtc_once. change (set_certificates m s) with (Ok tt, set_certificates m s).2. rewrite <- E.
  apply step_UpdateCertificateIfStatus. intros v Hv. eapply update_ok_keys; [exact Hok|done|].
  apply updateIf_ok in Hm as (v' & Hv' & Hc & _). bool_prop. congruence.
Qed.

Lemma repo_bind {A B} (m : Mem A) (k : A → Mem B) s :
  rtc repo_step s (m s).2 → (∀ a s1, rtc repo_step s1 (k a s1).2) →
  rtc repo_step s (bindM m k s).2.
Proof.
  intros Hm Hk. unfold bindM. destruct (m s) as [[a|e] s1]; [|done]. etrans; [exact Hm|apply Hk].
Qed.

Lemma repo_finalizeWrites e a now s : rtc repo_step s (finalizeWrites e a now s).2.
Proof. repeat (apply repo_bind; [|intros]); apply rtc_once; constructor. Qed.

Lemma svc_step_repo s s' : step s s' → rtc repo_step s s'.
Proof.
  intros Hs. destruct Hs; try solve [apply rtc_once; constructor]; try by apply repo_UpdateCertificate.
  - unfold revokeWrites. etrans; [apply repo_UpdateCertificate|apply rtc_once; constructor].
    intros v Hv _. by simplify_eq/=.
  - pose proof (repo_finalizeWrites e a now s) as Hr.
    match goal with E : finalizeWrites _ _ _ _ = _ |- _ => by rewrite E in Hr end.
Qed.

(** More generated identifiers allow more steps. *)
Lemma svc_step_mono (gen' : string → Prop) s s' :
  (∀ id, gen id → gen' id) → step s s' → svc_step gen' collision s s'.
Proof.
  intros Hg. assert (∀ s id, fresh gen collision s id → fresh gen' collision s id) as Hf.
  { intros ? ? []. split; auto. }
  intros Hs. destruct Hs; try solve [econstructor; eauto].
  match goal with Hok : attempt_update_ok _ _ _ _ _ |- _ => rename Hok into Ha end.
  constructor. intros v Hv Hst. destruct (Ha v Hv Hst) as (? & ? & ?); eauto.
Qed.

(** ** Identifiers *)

Lemma lookup_insert_cases {V} (m : gmap string V) k x id v :
  <[k := x]> m !! id = Some v → id = k ∨ m !! id = Some v.
Proof. intros [[-> _]|[_ ?]]%lookup_insert_Some; auto. Qed.

(** Where a row of a written table comes from. *)
Lemma putRows_lookup {V} (tbl : MemoryStore → gmap string V) set f key x s id v :
  (∀ m, tbl (set m s) = m) → (∀ m', f (tbl s) = Ok m' → m' = <[key := x]> (tbl s)) →
  tbl (putRows tbl set f s).2 !! id = Some v → id = key ∨ tbl s !! id = Some v.
Proof.
  intros Hset Hf. destruct (putRows_cases tbl set f s) as [(e & _ & ->)|(m & Hm & ->)]; [auto|].
  simpl. rewrite Hset, (Hf _ Hm). apply lookup_insert_cases.
Qed.

Lemma used_finalize e a now s s' id :
  ms_issuanceAttempts s !! Enrollment_ID e = Some a → IssuanceAttempt_EnrollmentID a = Enrollment_ID e →
  IssuanceAttempt_Status a = IssuanceAttemptSigned →
  finalizeWrites e a now s = (Ok tt, s') → used s' id → used s id.
Proof.
  intros Ha Hk Hst Hf Hu. apply finalizeWrites_ok in Hf as (e0 & a0 & He0 & _ & _ & _ & _ & ->).
  assert (used s (IssuanceAttempt_CertificateID a)) as Hc by (eapply used_reserved; unfold reserves; eauto).
  destruct Hu as [| | | | |v Hu|v Hu|k v Hu Hr Hid|v Hu|v Hu|v Hu|v Hu|v Hu|v Hu|v Hu|v Hu];
    simpl in *; try solve [econstructor; eassumption].
  - apply lookup_insert_cases in Hu as [->|Hu]; by econstructor.
  - apply lookup_insert_cases in Hu as [->|Hu]; [done|by econstructor].
  - apply lookup_insert_Some in Hu as [[<- <-]|[_ Hu]]; [by rewrite <- Hid|eapply used_reserved; [exact Hu|done..]].
Qed.

Lemma used_attempt x cur s id :
  attempt_update_ok gen collision s cur x →
  used (UpdateIssuanceAttemptIfCurrent x cur s).2 id → used s id ∨ gen id.
Proof.
  intros Hok Hu.
  destruct Hu as [v Hu|v Hu|v Hu|v Hu|v Hu|v Hu|v Hu|k v Hu Hr Hid|v Hu|v Hu|v Hu|v Hu|v Hu|v Hu|v Hu|v Hu];
    repeat written Hu; try solve [left; econstructor; eassumption]; [].
  one_row Hm. apply lookup_insert_Some in Hu as [[<- <-]|[_ Hu]]; [|left; eapply used_reserved; [exact Hu|done..]].
  unfold sameIssuanceAttempt in *. bool_prop.
  destruct (Hok _ ltac:(eassumption) ltac:(eassumption)) as (_ & Hnf & Hsg).
  destruct Hr as [Hr|Hr]; [|done]. rewrite <- Hid. right. by apply Hsg.
Qed.

Lemma svc_step_used s s' id : step s s' → used s' id → used s id ∨ gen id.
Proof.
  intros Hs Hu. destruct Hs;
    try solve [left; eapply used_finalize; eassumption|eapply used_attempt; eassumption];
    destruct Hu as [v Hu|v Hu|v Hu|v Hu|v Hu|v Hu|v Hu|? ? Hu Hr Hid|v Hu|v Hu|v Hu|v Hu|v Hu|v Hu|v Hu|v Hu].
  all: unfold revokeWrites in *; repeat written Hu; try solve [left; econstructor; eassumption].
  all: one_row Hm; try solve
    [apply lookup_insert_cases in Hu as [->|Hu];
     [first [left; by econstructor|right; match goal with Hf : fresh _ _ _ _ |- _ => apply Hf end]
     |left; econstructor; eassumption]].
  - apply lookup_insert_Some in Hu as [[<- <-]|[_ Hu]]; [|left; eapply used_reserved; [exact Hu|done..]].
    match goal with E : IssuanceAttempt_Status _ = IssuanceAttemptSigning |- _ =>
      by destruct Hr as [Hr|Hr]; rewrite Hr in E end.
  - apply lookup_insert_cases in Hu as [->|Hu]; [right; match goal with Hf : fresh _ _ _ _ |- _ => apply Hf end|].
    repeat written Hu. left. by eapply used_revocation.
Qed.
End StepFacts.
