(* ===== verification/ServiceFacts.v ===== *)
(** * How service actions change the store

    [moves R m w]: from world [w], action [m] takes the store along the
    relation [R], whatever it returns. The rules below follow the structure of
    an action, and the tactic [moves] applies them, so that a fact about a whole
    service method reduces to the repository calls it makes. *)

From S2P Require Import Prelude GoLib Crypto Domain Core NetIP Requests AuditChain Store.
From S2P Require Import StoreInv Service Policy Registry Lifecycle Issuance Outbox CRL APIKeys.
From S2P Require Import OCSP ACME Machines.

Definition moves (R : relation MemoryStore) {A} (m : Svc A) (w : World) : Prop :=
  R (w_store w) (w_store (m w).2).

Section Moves.
Context (R : relation MemoryStore) `{!PreOrder R}.

Lemma moves_ret {A} (a : A) w : moves R (retM a) w.
Proof. unfold moves. simpl. reflexivity. Qed.
Lemma moves_fail {A} e w : moves R (failM (A:=A) e) w.
Proof. unfold moves. simpl. reflexivity. Qed.
Lemma moves_lift {A} (r : res A) w : moves R (liftM r) w.
Proof. unfold moves. simpl. reflexivity. Qed.
Lemma moves_return_if c e w : moves R (return_if c e) w.
Proof. destruct c; [apply moves_fail|apply moves_ret]. Qed.
Lemma moves_outside {A} (f : nat → res A) w : moves R (outside f) w.
Proof. unfold moves. simpl. reflexivity. Qed.

Lemma moves_bind {A B} (m : Svc A) (k : A → Svc B) w :
  moves R m w → (∀ a w', m w = (Ok a, w') → moves R (k a) w') → moves R (bindM m k) w.
Proof.
  unfold moves, bindM. intros Hm Hk. destruct (m w) as [[a|e] w'] eqn:E; simpl in *; [|done].
  specialize (Hk a w' eq_refl). by etrans.
Qed.

Lemma moves_catch {A} (m : Svc A) w : moves R m w → moves R (catchM m) w.
Proof. unfold moves, catchM. by destruct (m w). Qed.

Lemma moves_tx {A} (m : Svc A) w : moves R m w → moves R (WithinTx m) w.
Proof. unfold moves, WithinTx. destruct (m w) as [[a|e] w']; simpl; [done|reflexivity]. Qed.

Lemma moves_forM {A} (l : list A) f w :
  (∀ x w, x ∈ l → moves R (f x) w) → moves R (forM l f) w.
Proof.
  revert w. induction l as [|x l IH]; intros w Hf; simpl; [apply moves_ret|].
  apply moves_bind; [apply Hf; left|]. intros _ w' _. apply IH. intros. apply Hf. by right.
Qed.

Lemma moves_repo {A} (op : Mem A) w : R (w_store w) (op (w_store w)).2 → moves R (repo op) w.
Proof. unfold moves, repo. by destruct (op (w_store w)). Qed.

Lemma moves_repo_read {A} (op : Mem A) w : (op (w_store w)).2 = w_store w → moves R (repo op) w.
Proof. intros E. apply moves_repo. by rewrite E. Qed.

Lemma moves_withEvidence `{Env} refs r w : moves R (withEvidence refs r) w.
Proof. destruct r; [apply moves_ret|apply moves_fail]. Qed.
End Moves.

(** A repository call as seen by the service. *)
Lemma repo_eq {A} (op : Mem A) w r w' :
  repo op w = (r, w') → op (w_store w) = (r, w_store w') ∧ w_tick w' = w_tick w.
Proof. unfold repo. destruct (op (w_store w)) as [r0 s]. intros [= <- <-]. done. Qed.

Lemma repo_getRow {V} (tbl : MemoryStore → gmap string V) id err w v w' :
  repo (getRow tbl id err) w = (Ok v, w') → w' = w ∧ tbl (w_store w) !! id = Some v.
Proof.
  unfold repo, getRow. intros [= Hl <-]. apply lookupRow_ok in Hl. by destruct w.
Qed.

Lemma catch_ok {A} (m : Svc A) w (r : res A) w' : catchM m w = (Ok r, w') → m w = (r, w').
Proof. unfold catchM. destruct (m w). by intros [= -> ->]. Qed.

Lemma WithinTx_ok {A} (m : Svc A) w a w' : WithinTx m w = (Ok a, w') → m w = (Ok a, w').
Proof. unfold WithinTx. destruct (m w) as [[]?]; congruence. Qed.

Lemma WithinTx_err {A} (m : Svc A) w e w' : WithinTx m w = (Err e, w') → w_store w' = w_store w.
Proof. unfold WithinTx. destruct (m w) as [[]?]; [congruence|]. by intros [= _ <-]. Qed.

Lemma now_ok `{Env} w t w' : now_ w = (Ok t, w') → w_store w' = w_store w.
Proof. unfold now_, outside. by intros [= _ <-]. Qed.
Lemma newID_ok `{Env} w t w' : newID w = (Ok t, w') → w_store w' = w_store w.
Proof. unfold newID, outside. by intros [= _ <-]. Qed.
Lemma outside_store {A} (f : nat → res A) w r w' : outside f w = (r, w') → w_store w' = w_store w.
Proof. unfold outside. by intros [= _ <-]. Qed.

(** One structural step. Goals about repository calls are left to [moves_db]. *)
Create HintDb moves_db.

Ltac moves_step :=
  lazymatch goal with
  | |- moves _ (bindM _ _) _ => apply moves_bind; [apply _| |intros ? ? ?]
  | |- moves _ (retM _) _ => apply moves_ret; apply _
  | |- moves _ (failM _) _ => apply moves_fail; apply _
  | |- moves _ (liftM _) _ => apply moves_lift; apply _
  | |- moves _ (return_if _ _) _ => apply moves_return_if; apply _
  | |- moves _ (outside _) _ => apply moves_outside; apply _
  | |- moves _ now_ _ => apply moves_outside; apply _
  | |- moves _ newID _ => apply moves_outside; apply _
  | |- moves _ (catchM _) _ => apply moves_catch
  | |- moves _ (WithinTx _) _ => apply moves_tx; [apply _|]
  | |- moves _ (withEvidence _ _) _ => apply moves_withEvidence; apply _
  | |- moves _ (if ?b then _ else _) _ => destruct b eqn:?
  | |- moves _ (match ?x with _ => _ end) _ => destruct x eqn:?
  | |- moves _ (let '_ := ?x in _) _ => destruct x eqn:?
  end.

Ltac moves_read :=
  lazymatch goal with
  | |- moves _ (repo _) _ => solve [apply moves_repo_read; [apply _|reflexivity]]
  end.

Ltac moves := repeat (cbv zeta; first [moves_step | moves_read | solve [eauto with moves_db]]).

(** A read-only action leaves the store as it was. *)
Lemma reads_ok {A} (m : Svc A) w r w' : moves eq m w → m w = (r, w') → w_store w' = w_store w.
Proof. unfold moves. intros E Em. by rewrite Em in E. Qed.

Lemma reads_eq {A} (m : Svc A) w : moves eq m w → w_store (m w).2 = w_store w.
Proof. done. Qed.

(** ** Runs

    [runs m w]: from a world whose store satisfies its invariant and whose
    identifiers all came from the generator, action [m] takes the store along
    the steps of [Machines]. *)

Section Runs.
Context `{Env}.

Definition gen_before (n : nat) (id : string) : Prop := ∃ t, t < n ∧ id = idgen_NewID t.
Definition id_collision : Prop := ∃ t t', t ≠ t' ∧ idgen_NewID t = idgen_NewID t'.

Abbreviation step_at n := (svc_step (gen_before n) id_collision).

Record good (w : World) : Prop := {
  good_store : store_inv (w_store w);
  good_ids : ∀ id, used (w_store w) id → gen_before (w_tick w) id;
}.

Definition reach (w w' : World) : Prop :=
  w_tick w ≤ w_tick w' ∧ rtc (step_at (w_tick w')) (w_store w) (w_store w').

Definition runs {A} (m : Svc A) (w : World) : Prop := good w → reach w (m w).2.

Lemma gen_before_mono n n' id : n ≤ n' → gen_before n id → gen_before n' id.
Proof. intros Hn (t & Ht & ->). exists t. split; [lia|done]. Qed.

Lemma steps_mono n n' s s' : n ≤ n' → rtc (step_at n) s s' → rtc (step_at n') s s'.
Proof.
  intros Hn. apply rtc_subrel. intros. eapply svc_step_mono; [|done].
  intros. by eapply gen_before_mono.
Qed.

#[global] Instance reach_preorder : PreOrder reach.
Proof.
  split; [intros w; split; [done|apply rtc_refl]|].
  intros w1 w2 w3 [H12 S12] [H23 S23]. split; [lia|].
  etrans; [eapply steps_mono, S12; lia|done].
Qed.

Lemma steps_store_inv n s s' : rtc (step_at n) s s' → store_inv s → store_inv s'.
Proof.
  induction 1 as [|s1 s2 s3 Hs _ IH]; [done|]. intros Hi. apply IH.
  eapply repo_steps_inv; [by eapply svc_step_repo|done].
Qed.

Lemma reach_good w w' : good w → reach w w' → good w'.
Proof.
  intros [Hi Hids] [Hn Hs]. split; [by eapply steps_store_inv|].
  assert (∀ id, used (w_store w) id → gen_before (w_tick w') id) as Hids' by
    (intros id ?; eapply gen_before_mono; eauto).
  clear Hids. induction Hs as [|s1 s2 s3 Hs _ IH]; [done|].
  apply IH; [by eapply repo_steps_inv; [eapply svc_step_repo|]|].
  intros id Hu. by destruct (svc_step_used _ _ _ _ _ Hs Hu) as [?|?]; [apply Hids'|].
Qed.

Lemma runs_same {A} (m : Svc A) w : w_store (m w).2 = w_store w → w_tick w ≤ w_tick (m w).2 → runs m w.
Proof. intros E Hn _. split; [done|]. rewrite E. apply rtc_refl. Qed.

Lemma runs_ret {A} (a : A) w : runs (retM a) w.
Proof. by apply runs_same. Qed.
Lemma runs_fail {A} e w : runs (failM (A:=A) e) w.
Proof. by apply runs_same. Qed.
Lemma runs_lift {A} (r : res A) w : runs (liftM r) w.
Proof. by apply runs_same. Qed.
Lemma runs_return_if c e w : runs (return_if c e) w.
Proof. destruct c; [apply runs_fail|apply runs_ret]. Qed.
Lemma runs_outside {A} (f : nat → res A) w : runs (outside f) w.
Proof. apply runs_same; simpl; [done|lia]. Qed.
Lemma runs_withEvidence refs r w : runs (withEvidence refs r) w.
Proof. destruct r; [apply runs_ret|apply runs_fail]. Qed.

Lemma runs_bind {A B} (m : Svc A) (k : A → Svc B) w :
  runs m w →
  (∀ a w', m w = (Ok a, w') → good w → reach w w' → good w' → runs (k a) w') → runs (bindM m k) w.
Proof.
  unfold runs, bindM. intros Hm Hk Hg. specialize (Hm Hg).
  destruct (m w) as [[a|e] w'] eqn:E; simpl in *; [|done].
  pose proof (reach_good _ _ Hg Hm) as Hg'. etrans; [exact Hm|]. by eapply Hk.
Qed.

Lemma runs_catch {A} (m : Svc A) w : runs m w → runs (catchM m) w.
Proof. unfold runs, catchM. by destruct (m w). Qed.

Lemma runs_tx {A} (m : Svc A) w : runs m w → runs (WithinTx m) w.
Proof.
  unfold runs, WithinTx. intros Hm Hg. specialize (Hm Hg).
  destruct (m w) as [[a|e] w']; simpl in *; [done|]. split; [by apply Hm|apply rtc_refl].
Qed.

(** Only a successful body counts: a failing one is undone. *)
Lemma runs_tx_ok {A} (m : Svc A) w :
  w_tick w ≤ w_tick (m w).2 → (good w → ∀ a w', m w = (Ok a, w') → reach w w') → runs (WithinTx m) w.
Proof.
  unfold runs, WithinTx. intros Hn Hm Hg. destruct (m w) as [[a|e] w'] eqn:E; simpl in *.
  - by eapply Hm.
  - split; [done|apply rtc_refl].
Qed.

(** Repository calls take no time. *)
Definition timeless {A} (m : Svc A) : Prop := ∀ w, w_tick (m w).2 = w_tick w.
Lemma timeless_repo {A} (op : Mem A) : timeless (repo op).
Proof. intros w. unfold repo. by destruct (op (w_store w)). Qed.
Lemma timeless_return_if c e : timeless (return_if c e).
Proof. by destruct c. Qed.
Lemma timeless_ret {A} (a : A) : timeless (retM a).
Proof. done. Qed.
Lemma timeless_bind {A B} (m : Svc A) (k : A → Svc B) :
  timeless m → (∀ a, timeless (k a)) → timeless (bindM m k).
Proof.
  intros Hm Hk w. unfold bindM. specialize (Hm w). destruct (m w) as [[a|e] w']; simpl in *; [|done].
  by rewrite Hk.
Qed.
Lemma timeless_if {A} (b : bool) (m m' : Svc A) :
  timeless m → timeless m' → timeless (if b then m else m').
Proof. by destruct b. Qed.

Lemma runs_forM {A} (l : list A) f w : (∀ x w, x ∈ l → runs (f x) w) → runs (forM l f) w.
Proof.
  revert w. induction l as [|x l IH]; intros w Hf; simpl; [apply runs_ret|].
  apply runs_bind; [apply Hf; left|]. intros _ w' _ _ _ _. apply IH. intros. apply Hf. by right.
Qed.

Lemma runs_repo {A} (op : Mem A) w :
  (good w → rtc (step_at (w_tick w)) (w_store w) (op (w_store w)).2) → runs (repo op) w.
Proof.
  intros Hs Hg. unfold repo. specialize (Hs Hg). destruct (op (w_store w)) as [r s]. by split.
Qed.

Lemma runs_step {A} (op : Mem A) w :
  (good w → step_at (w_tick w) (w_store w) (op (w_store w)).2) → runs (repo op) w.
Proof. intros Hs. apply runs_repo. intros Hg. by apply rtc_once, Hs. Qed.

Lemma runs_repo_read {A} (op : Mem A) w : (op (w_store w)).2 = w_store w → runs (repo op) w.
Proof. intros E. apply runs_repo. intros _. rewrite E. apply rtc_refl. Qed.

(** ** Fresh identifiers *)

Lemma newID_eq w id w' :
  newID w = (Ok id, w') → id = idgen_NewID (w_tick w) ∧ w_tick w' = S (w_tick w).
Proof. unfold newID, outside. intros [= <- <-]. done. Qed.

Lemma newID_fresh w0 w1 id n s :
  newID w0 = (Ok id, w1) → good w0 → w_tick w1 ≤ n → (used s id → used (w_store w0) id) →
  fresh (gen_before n) id_collision s id.
Proof.
  intros [-> Et]%newID_eq Hg Hn Hu. split; [exists (w_tick w0); split; [lia|done]|].
  intros (t & Ht & E)%Hu%(good_ids _ Hg). exists t, (w_tick w0). split; [lia|done].
Qed.

Lemma newID_fresh_same w0 w1 id n s :
  newID w0 = (Ok id, w1) → good w0 → w_tick w1 ≤ n → s = w_store w0 →
  fresh (gen_before n) id_collision s id.
Proof. intros Hn Hg Ht ->. by eapply newID_fresh. Qed.
End Runs.

Create HintDb runs_db.

Ltac runs_step_ :=
  lazymatch goal with
  | |- runs (bindM _ _) _ => apply runs_bind; [|intros ? ? ? ? ? ?]
  | |- runs (retM _) _ => apply runs_ret
  | |- runs (failM _) _ => apply runs_fail
  | |- runs (liftM _) _ => apply runs_lift
  | |- runs (return_if _ _) _ => apply runs_return_if
  | |- runs (outside _) _ => apply runs_outside
  | |- runs now_ _ => apply runs_outside
  | |- runs newID _ => apply runs_outside
  | |- runs (catchM _) _ => apply runs_catch
  | |- runs (WithinTx _) _ => apply runs_tx
  | |- runs (withEvidence _ _) _ => apply runs_withEvidence
  | |- runs (if ?b then _ else _) _ => destruct b eqn:?
  | |- runs (match ?x with _ => _ end) _ => destruct x eqn:?
  | |- runs (let '_ := ?x in _) _ => destruct x eqn:?
  | |- runs (repo _) _ => solve [apply runs_repo_read; reflexivity]
  end.

Ltac runs := repeat (cbv zeta; first [runs_step_ | solve [eauto with runs_db]]).

(** What the equations of the actions run so far say: rows that were read, and
    worlds whose stores agree. *)
Ltac store_facts :=
  repeat match goal with
  | E : return_if _ _ _ = (Ok _, _) |- _ => apply return_if_ok_inv in E as [? ->]
  | E : repo ?op _ = (Ok _, _) |- _ =>
      first [apply repo_getRow in E as [-> ?]]
  | E : reach _ ?w |- _ => destruct E as [? _]
  end;
  repeat match goal with
  | E : ?m ?w = (Ok _, ?w') |- _ =>
      lazymatch goal with
      | _ : w_store w' = w_store w |- _ => fail
      | _ => assert (w_store w' = w_store w) by (eapply reads_ok; [|exact E]; solve [moves])
      end
  end; bool_prop.

(** State everything about the oldest of the stores that agree. *)
Ltac same_store :=
  store_facts;
  repeat match goal with E : w_store ?a = w_store ?b |- _ => rewrite !E in *; clear E end.
