(* ===== verification/Invariants.v ===== *)
(** * Every operation is a sequence of steps

    One lemma per action of the service: from a good world it runs along the
    steps of [Machines], so every write happens under the conditions its step
    states. [service_step] collects the operations into a transition system. *)

From S2P Require Import Prelude GoLib Crypto Domain Core NetIP Requests AuditChain Store.
From S2P Require Import StoreInv Service Policy Registry Lifecycle Issuance Outbox CRL APIKeys.
From S2P Require Import OCSP ACME Samples Machines ServiceFacts.

(** ** Replacements of a row that was read *)

Lemma update_ok_read `{Machine V} (m : gmap string V) id v0 x cur :
  keyed mc_key m → m !! id = Some v0 → mc_key x = mc_key v0 → mc_erase x = mc_erase v0 →
  (mc_status v0 = cur → mc_status x = mc_status v0 ∨ (mc_status v0, mc_status x) ∈ mc_moves) →
  update_ok m cur x.
Proof.
  intros Hk Hm Ek Ee Hst v Hv Hc. pose proof (Hk _ _ Hm) as E; simpl in E.
  rewrite Ek, E, Hm in Hv. injection Hv as <-. by split; [|apply Hst].
Qed.

(** A replacement that is a row step whatever it replaces in the table now was
    one before, when rows only evolved since. *)
Definition replaces `{Machine V} (m : gmap string V) (x : V) : Prop :=
  ∀ v, m !! mc_key x = Some v → mc_erase x = mc_erase v.

Lemma replaces_read `{Machine V} (m : gmap string V) id v0 x :
  keyed mc_key m → m !! id = Some v0 → mc_key x = mc_key v0 → mc_erase x = mc_erase v0 →
  replaces m x.
Proof.
  intros Hk Hm Ek Ee v Hv. pose proof (Hk _ _ Hm) as E; simpl in E.
  rewrite Ek, E, Hm in Hv. by injection Hv as <-.
Qed.

Lemma update_ok_replaces `{Machine V} (m : gmap string V) cur x :
  replaces m x → mc_status x = cur ∨ (cur, mc_status x) ∈ mc_moves → update_ok m cur x.
Proof. intros Hr He v Hv <-. by split; [apply Hr|]. Qed.

(** Membership in a transition table. *)
Lemma listed (p : string * string) (l : list (string * string)) : bool_decide (p ∈ l) = true → p ∈ l.
Proof. apply bool_decide_eq_true_1. Qed.

Ltac edge :=
  first [by left
        |right; simpl; repeat match goal with E : ?f ?x = _ |- (?f ?x, _) ∈ _ => rewrite E end;
         by apply listed].

Section Invariants.
Context `{Env}.

(** A write that is one step. *)
Ltac leaf := apply runs_step; intros ?Hgood; constructor.

(** The identifier was generated after the last write. *)
Ltac solve_fresh :=
  store_facts; eapply newID_fresh_same; [eassumption|assumption|lia|congruence].

Ltac solve_runs := runs; try solve [leaf; try done; solve_fresh].

(** The invariant of a table, from the world at hand. *)
Ltac keyed_table :=
  match goal with G : good ?w |- _ => apply (good_store w G) end.

Lemma runs_auditResult a b c d t f r e w : runs (createAuditEventWithResult a b c d t f r e) w.
Proof. unfold createAuditEventWithResult. runs. leaf. Qed.
Lemma runs_audit a b c d t f w : runs (createAuditEvent a b c d t f) w.
Proof. apply runs_auditResult. Qed.
Lemma runs_outbox a t f w : runs (createOutboxMessage a t f) w.
Proof. unfold createOutboxMessage. solve_runs. Qed.
Lemma runs_deployment i f w : runs (addIdentityDeploymentTarget i f) w.
Proof. unfold addIdentityDeploymentTarget. runs. Qed.
Hint Resolve runs_auditResult runs_audit runs_outbox runs_deployment : runs_db.

Lemma runs_profileFor p i w : runs (profileFor p i) w.
Proof. unfold profileFor. runs. Qed.
Lemma runs_inspectCSR c w : runs (inspectCSR c) w.
Proof. unfold inspectCSR. runs. Qed.
Hint Resolve runs_profileFor runs_inspectCSR : runs_db.

(** Read-only actions. *)
Lemma reads_profileFor p i w : moves eq (profileFor p i) w.
Proof. unfold profileFor. moves. Qed.
Lemma reads_inspectCSR c w : moves eq (inspectCSR c) w.
Proof. unfold inspectCSR. moves. Qed.
Lemma reads_deployment i f w : moves eq (addIdentityDeploymentTarget i f) w.
Proof. unfold addIdentityDeploymentTarget. moves. Qed.
Hint Resolve reads_profileFor reads_inspectCSR reads_deployment : moves_db.

(** ** Registry *)

Lemma runs_CreateIdentity a r w : runs (Registry.CreateIdentity a r) w.
Proof. unfold Registry.CreateIdentity. solve_runs. Qed.
Lemma runs_CreateIssuer a r w : runs (Registry.CreateIssuer a r) w.
Proof. unfold Registry.CreateIssuer. solve_runs. Qed.
Lemma runs_CreateCertificateProfile a r w : runs (Registry.CreateCertificateProfile a r) w.
Proof. unfold Registry.CreateCertificateProfile. solve_runs. Qed.


(** A row that was read in this store, rewritten in its mutable fields. *)
Ltac from_read :=
  same_store; eapply update_ok_read; [keyed_table|eassumption|reflexivity|reflexivity|intros ?Hst].

Lemma runs_TransitionProfile a r w : runs (TransitionCertificateProfileIssuer a r) w.
Proof.
  unfold TransitionCertificateProfileIssuer, validateIntermediateIssuerTransition. runs. leaf.
  from_read. by left.
Qed.

Lemma runs_CreateNotificationEndpoint a r w : runs (Registry.CreateNotificationEndpoint a r) w.
Proof. unfold Registry.CreateNotificationEndpoint. solve_runs. Qed.
Lemma runs_DisableNotificationEndpoint a i w : runs (DisableNotificationEndpoint a i) w.
Proof.
  unfold DisableNotificationEndpoint. runs. leaf. from_read. edge.
Qed.

(** ** Enrollments and certificates *)

Lemma runs_CreateEnrollment a r w : runs (Lifecycle.CreateEnrollment a r) w.
Proof. unfold Lifecycle.CreateEnrollment. solve_runs. Qed.
Lemma runs_replacement a c p t x w : runs (createCertificateReplacementEnrollment a c p t x) w.
Proof. unfold createCertificateReplacementEnrollment. solve_runs. Qed.
Hint Resolve runs_CreateEnrollment runs_replacement : runs_db.
Lemma runs_RenewCertificate a c r w : runs (RenewCertificate a c r) w.
Proof. unfold RenewCertificate. solve_runs. Qed.
Lemma runs_ReissueCertificate a c r w : runs (ReissueCertificate a c r) w.
Proof. unfold ReissueCertificate. solve_runs. Qed.
Lemma runs_Approve a i r w : runs (ApproveEnrollmentWithReason a i r) w.
Proof. unfold ApproveEnrollmentWithReason. runs. leaf; [from_read; edge|done]. Qed.
Lemma runs_ApproveEnrollment a i w : runs (ApproveEnrollment a i) w.
Proof. apply runs_Approve. Qed.
Lemma runs_Reject a i w : runs (RejectEnrollment a i) w.
Proof. unfold RejectEnrollment. runs. leaf; [from_read; edge|done]. Qed.
Hint Resolve runs_ApproveEnrollment : runs_db.

Lemma runs_transition a c s1 s2 x w :
  (s1, s2) ∈ mc_moves (V:=Certificate) → s2 ≠ CertificateRevoked →
  runs (transitionCertificateStatus a c s1 s2 x) w.
Proof.
  intros Hm Hne. unfold transitionCertificateStatus. runs. leaf; [|done].
  from_read. right. simpl in *. by rewrite Hst.
Qed.

Lemma runs_Suspend a c w : runs (SuspendCertificate a c) w.
Proof.
  unfold SuspendCertificate. runs. apply runs_transition; [|done].
  by apply listed.
Qed.
Lemma runs_Resume a c w : runs (ResumeCertificate a c) w.
Proof.
  unfold ResumeCertificate. runs. apply runs_transition; [|done].
  by apply listed.
Qed.

(** The update of the certificate and the revocation record are one step. *)
Lemma runs_revokeWrites {A} c x (r : string → Revocation) (k : Svc A) w :
  ms_certificates (w_store w) !! Certificate_ID x = Some c → row_step c x →
  Certificate_Status x = CertificateRevoked → Certificate_Status c ≠ CertificateRevoked →
  (∀ id, Revocation_ID (r id) = id ∧ Revocation_CertificateID (r id) = Certificate_ID x) →
  (∀ w', runs k w') →
  runs (do* repo (UpdateCertificateIfStatus x (Certificate_Status c)) in
        let* id := newID in
        do* repo (CreateRevocation (r id)) in k) w.
Proof.
  intros Hc Hrow Hx Hcs Hr Hk Hg.
  assert (reach w (mkWorld (revokeWrites x (Certificate_Status c) (r (idgen_NewID (w_tick w)))
    (w_store w)) (S (w_tick w)))) as Hw2.
  { split; simpl; [lia|]. apply rtc_once. destruct (Hr (idgen_NewID (w_tick w))) as [E1 E2].
    eapply sv_Revoke; [done..| |done]. rewrite E1.
    eapply (newID_fresh_same w (mkWorld (w_store w) (S (w_tick w)))); [reflexivity|done|simpl; lia|done]. }
  unfold bindM at 1, repo at 1.
  destruct (UpdateCertificateIfStatus x (Certificate_Status c) (w_store w)) as [[[]|e] s] eqn:E.
  - unfold revokeWrites in Hw2. rewrite E in Hw2. etrans; [exact Hw2|].
    exact (Hk _ (reach_good _ _ Hg Hw2)).
  - unfold UpdateCertificateIfStatus, putRows in E. destruct (updateCertificateIfStatus _ _ _); [done|].
    injection E as _ <-. simpl. split; [done|apply rtc_refl].
Qed.

Lemma can_revoke_move status force :
  canRevokeCertificateStatus status force = true →
  (status, CertificateRevoked) ∈ mc_moves (V:=Certificate) ∧ status ≠ CertificateRevoked.
Proof.
  unfold canRevokeCertificateStatus. intros Hc. case_streq; subst; [by split; [apply listed|]|].
  bool_prop. subst. by split; [apply listed|].
Qed.

Lemma runs_revoke a c r f w : runs (revokeCertificate a c r f) w.
Proof.
  unfold revokeCertificate. repeat (cbv zeta; first [
    match goal with |- runs (do* repo (UpdateCertificateIfStatus _ _) in _) _ => fail 2 end|runs_step_]).
  store_facts. match goal with Hc : canRevokeCertificateStatus _ _ = true |- _ =>
    apply can_revoke_move in Hc as [] end.
  match goal with Hc : ms_certificates _ !! _ = Some ?c |- _ =>
    eapply (runs_revokeWrites c _ (λ id, mkRevocation id _ _ _ _ _)) end; try done.
  - match goal with Hc : ms_certificates _ !! _ = Some ?c |- _ =>
      simpl; rewrite (inv_certificates _ (good_store _ ltac:(eassumption)) _ _ Hc); exact Hc end.
  - split; [done|]. by right.
  - intros w'. runs.
Qed.

(** ** The expiration scan *)

(** Certificates read before the loop can still be rewritten later in it: the
    loop itself only makes row steps. *)
Definition certs_evolve (s s' : MemoryStore) : Prop :=
  rows_evolve (ms_certificates s) (ms_certificates s').
#[local] Instance certs_evolve_preorder : PreOrder certs_evolve.
Proof. split; unfold certs_evolve; [by intros s|]. intros s1 s2 s3 ? ?. by etrans. Qed.

Lemma evolve_auditResult a b c d t f r e w :
  moves certs_evolve (createAuditEventWithResult a b c d t f r e) w.
Proof.
  unfold createAuditEventWithResult. moves. apply moves_repo. unfold certs_evolve.
  match goal with |- rows_evolve ?m ?m' => replace m' with m; [reflexivity|symmetry; other_table] end.
Qed.
Lemma evolve_outbox a t f w : moves certs_evolve (createOutboxMessage a t f) w.
Proof. unfold createOutboxMessage. moves. apply moves_repo. unfold certs_evolve. by simpl. Qed.
Lemma evolve_deployment i f w : moves certs_evolve (addIdentityDeploymentTarget i f) w.
Proof. unfold addIdentityDeploymentTarget. moves. Qed.
Hint Resolve evolve_auditResult evolve_outbox evolve_deployment : moves_db.

Lemma evolve_update c st w :
  update_ok (ms_certificates (w_store w)) st c →
  moves certs_evolve (repo (UpdateCertificateIfStatus c st)) w.
Proof.
  intros Hk. apply moves_repo. unfold UpdateCertificateIfStatus, certs_evolve.
  destruct (putRows_cases ms_certificates set_certificates (updateCertificateIfStatus c st) (w_store w))
    as [(e & _ & ->)|(m & Hf & ->)]; [reflexivity|].
  apply updateIf_ok in Hf as (stored & Hst & Hc & ->). bool_prop. simpl.
  eapply rows_evolve_replace; [exact Hst|]. by apply Hk.
Qed.

Lemma scanUpdate_runs a x c st t d w :
  update_ok (ms_certificates (w_store w)) st c → Certificate_Status c ≠ CertificateRevoked →
  runs (scanUpdate a x c st t d) w ∧ moves certs_evolve (scanUpdate a x c st t d) w.
Proof.
  intros Hk Hne. unfold scanUpdate. split.
  - runs. by leaf.
  - moves. by apply evolve_update.
Qed.

Lemma replaces_evolve `{Machine V} (m m' : gmap string V) x :
  rows_evolve m m' → is_Some (m !! mc_key x) → replaces m x → replaces m' x.
Proof.
  intros He [v0 Hv0] Hr v Hv. apply He in Hv0 as Hv'. destruct Hv' as (v' & Hv' & Hs).
  assert (v = v') as -> by congruence. rewrite (erase_evolve _ _ Hs). by apply Hr.
Qed.

Lemma runs_scanLoop a now wb d cs res w :
  Forall (λ c, is_Some (ms_certificates (w_store w) !! Certificate_ID c) ∧
               replaces (ms_certificates (w_store w)) c) cs →
  runs (scanLoop a now wb d cs res) w.
Proof.
  revert res w. induction cs as [|c cs IH]; intros res w Hcs; simpl; [apply runs_ret|].
  apply Forall_cons in Hcs as [[_ Hc] Hcs].
  assert (∀ c' x st,
    Certificate_ID c' = Certificate_ID c → mc_erase c' = mc_erase c →
    Certificate_Status c' = st ∨ (st, Certificate_Status c') ∈ mc_moves (V:=Certificate) →
    Certificate_Status c' ≠ CertificateRevoked →
    ∀ k, runs (bindM (scanUpdate a x c' st now d) (λ o, scanLoop a now wb d cs (k o))) w) as Hrec.
  { intros c' x st E1 E2 Hm Hne k.
    destruct (scanUpdate_runs a x c' st now d w) as [Hs Hkk]; [|done|].
    { apply update_ok_replaces; [|done]. intros v Hv. rewrite E2. apply Hc. simpl in *. by rewrite <- E1. }
    apply runs_bind; [exact Hs|]. intros o w' E _ _ _. apply IH.
    unfold moves in Hkk. rewrite E in Hkk. simpl in Hkk.
    eapply Forall_impl; [exact Hcs|]. intros c2 [[v2 Hv2] Hr2]. split.
    - apply Hkk in Hv2 as (v' & Hv' & _). eauto.
    - eapply replaces_evolve; eauto. }
  destruct (certificateIsExpiredCandidate c now) eqn:Hexp.
  - refine (Hrec (c |> Certificate_with_Status CertificateExpired |> Certificate_with_UpdatedAt now)
      _ _ eq_refl eq_refl _ _ (λ o, mkCertificateExpirationScanResult _ _)); [|done].
    right. unfold certificateIsExpiredCandidate in Hexp. apply andb_prop in Hexp as [Hexp _].
    apply orb_prop in Hexp as [Hexp|Hexp]; bool_prop; rewrite Hexp; by apply listed.
  - destruct (certificateNeedsRenewalWarning c now wb) eqn:Hw; [|by apply IH].
    unfold certificateNeedsRenewalWarning in Hw. bool_prop.
    refine (Hrec (c |> Certificate_with_RenewalNotifiedAt now |> Certificate_with_UpdatedAt now)
      _ _ eq_refl eq_refl _ _ (λ o, mkCertificateExpirationScanResult _ _)); [by left|].
    simpl. match goal with E : Certificate_Status c = _ |- _ => by rewrite E end.
Qed.

Lemma listBy_elem {V} (f : V → bool) key id order v : v ∈ listBy f key id order → v ∈ order.
Proof.
  unfold listBy. rewrite go_sort_perm. intros Hv. by apply list_elem_of_filter in Hv as [_ ?].
Qed.

Lemma scanCandidates_elem order now wb limit c :
  c ∈ listCertificatesForExpirationScan order now wb limit → c ∈ order.
Proof.
  unfold listCertificatesForExpirationScan. case_match; [by intros ?%not_elem_of_nil|].
  intros Hc. eapply listBy_elem. by eapply elem_of_take in Hc as (? & ? & _);
    eapply list_elem_of_lookup_2.
Qed.

Lemma runs_Scan a r w : runs (ScanCertificateExpirations a r) w.
Proof.
  unfold ScanCertificateExpirations. runs. apply runs_scanLoop.
  match goal with E : repo _ ?w = (Ok _, _), G : good ?w |- _ =>
    apply repo_eq in E as [[= <- E] _]; rewrite <- E; clear E;
    pose proof (inv_certificates _ (good_store _ G)) as Hk end.
  apply Forall_forall. intros c (k & Hc)%scanCandidates_elem%elem_of_map_values.
  pose proof (Hk _ _ Hc) as Ek; simpl in Ek. split; [rewrite Ek; eauto|].
  by eapply replaces_read.
Qed.

(** ** Issuance *)

Lemma repo_getAttempt id w r w' :
  repo (GetIssuanceAttempt id) w = (r, w') →
  w' = w ∧ (∀ a, r = Ok a → ms_issuanceAttempts (w_store w) !! id = Some a).
Proof.
  unfold repo, GetIssuanceAttempt, getIssuanceAttempt. intros [= <- <-].
  split; [by destruct w|]. intros a. apply lookupRow_ok.
Qed.

(** The stored attempt of an enrollment. *)
Definition attempt_at (w : World) (id : string) (a : IssuanceAttempt) : Prop :=
  ms_issuanceAttempts (w_store w) !! id = Some a ∧ IssuanceAttempt_EnrollmentID a = id.

Lemma attempt_read w id a : good w → ms_issuanceAttempts (w_store w) !! id = Some a → attempt_at w id a.
Proof. intros G Ha. split; [done|]. by apply (inv_issuanceAttempts _ (good_store _ G)). Qed.

(** Replacing the attempt that was read. *)
Lemma attempt_ok_read n w id cur x :
  attempt_at w id cur → IssuanceAttempt_EnrollmentID x = id → mc_erase x = mc_erase cur →
  IssuanceAttempt_Status x = IssuanceAttempt_Status cur ∨
    (IssuanceAttempt_Status cur, IssuanceAttempt_Status x) ∈ mc_moves (V:=IssuanceAttempt) →
  IssuanceAttempt_Status x ≠ IssuanceAttemptFinalized →
  (IssuanceAttempt_Status x = IssuanceAttemptSigned →
     fresh (gen_before n) id_collision (w_store w) (IssuanceAttempt_CertificateID x)) →
  attempt_update_ok (gen_before n) id_collision (w_store w) cur x.
Proof.
  intros [Hc Hk] Hx He Hm Hnf Hf v Hv _. rewrite Hx, Hc in Hv. injection Hv as <-. split; [by split|done].
Qed.

(** A successful conditional update leaves the new attempt. *)
Lemma update_attempt_ok x cur w u w' :
  repo (UpdateIssuanceAttemptIfCurrent x cur) w = (Ok u, w') →
  attempt_at w' (IssuanceAttempt_EnrollmentID x) x.
Proof.
  intros [E _]%repo_eq. apply putRows_ok in E as (m & Hm & E).
  apply updateIf_ok in Hm as (? & _ & _ & ->). unfold attempt_at. rewrite E. simpl.
  by rewrite lookup_insert_eq.
Qed.

Lemma runs_claimIssuance e t w : runs (claimIssuanceAttempt e t) w.
Proof.
  unfold claimIssuanceAttempt. runs; leaf; try done.
  match goal with E : catchM _ _ = _ |- _ => apply catch_ok, repo_getAttempt in E as [-> Hr] end.
  specialize (Hr _ eq_refl). apply attempt_read in Hr; [|done].
  same_store. eapply attempt_ok_read; [exact Hr|apply Hr|done| |done|done].
  match goal with E : (if _ then _ else _) _ = (Ok _, _) |- _ => rename E into Hif end.
  destruct (IssuanceAttempt_Status _ =s IssuanceAttemptSigning) eqn:Es in Hif;
    apply return_if_ok_inv in Hif as [? _]; bool_prop; edge.
Qed.

(** What a claim returns: the stored attempt, held for signing or already signed. *)
Lemma claim_result e t w a b w' :
  claimIssuanceAttempt e t w = (Ok (a, b), w') → good w →
  attempt_at w' e a ∧
  (if b then IssuanceAttempt_Status a = IssuanceAttemptSigning else reserves a).
Proof.
  unfold claimIssuanceAttempt. intros E%WithinTx_ok G.
  apply bindM_ok_inv in E as (r & w1 & Er & E). apply catch_ok, repo_getAttempt in Er as [-> Hr].
  destruct r as [cur|err].
  - specialize (Hr _ eq_refl). apply attempt_read in Hr; [|done].
    destruct ((_ =s IssuanceAttemptSigned) || _) eqn:Es.
    + injection E as <- <- <-. split; [done|]. apply orb_prop in Es as [Es|Es]; bool_prop;
        [by left|by right].
    + apply bindM_ok_inv in E as (? & w2 & _ & E). apply bindM_ok_inv in E as (? & w3 & Eu & E).
      injection E as <- <- <-. apply update_attempt_ok in Eu.
      change (IssuanceAttempt_EnrollmentID _) with (IssuanceAttempt_EnrollmentID cur) in Eu.
      destruct Hr as [_ Hk]. by rewrite Hk in Eu.
  - destruct (errors_Is err _); [|done]. apply bindM_ok_inv in E as (? & w2 & Ec & E).
    injection E as <- <- <-. apply repo_eq in Ec as [Ec _]. apply putRows_ok in Ec as (m & Hm & E).
    unfold createIssuanceAttempt in Hm. destruct (_ !! _); [done|]. injection Hm as <-.
    split; [|done]. split; [|done]. rewrite E. simpl. by rewrite lookup_insert_eq.
Qed.

Lemma runs_persist c r t w :
  attempt_at w (IssuanceAttempt_EnrollmentID c) c → IssuanceAttempt_Status c = IssuanceAttemptSigning →
  runs (persistSignedIssuanceAttempt c r t) w.
Proof.
  intros Hc Hs. unfold persistSignedIssuanceAttempt. runs. leaf.
  store_facts. match goal with E : w_store _ = w_store _ |- _ => rename E into Es end.
  rewrite Es. eapply attempt_ok_read; [exact Hc|done..| |done|].
  - right. simpl. rewrite Hs. by apply listed.
  - intros _. simpl. eapply newID_fresh_same; [eassumption|assumption|lia|done].
Qed.

Lemma persist_result c r t w a w' :
  persistSignedIssuanceAttempt c r t w = (Ok a, w') →
  attempt_at w' (IssuanceAttempt_EnrollmentID c) a ∧ IssuanceAttempt_Status a = IssuanceAttemptSigned.
Proof.
  unfold persistSignedIssuanceAttempt. intros E.
  apply bindM_ok_inv in E as (id & w1 & _ & E). destruct (json_evidence _); [|done].
  apply bindM_ok_inv in E as (? & w2 & Eu & E). injection E as <- <-.
  apply WithinTx_ok, update_attempt_ok in Eu. by split.
Qed.

Lemma runs_sign e i p c t w :
  attempt_at w (IssuanceAttempt_EnrollmentID c) c → IssuanceAttempt_Status c = IssuanceAttemptSigning →
  runs (signAndPersist e i p c t) w.
Proof.
  intros Hc Hs. unfold signAndPersist. runs. apply runs_persist; [|done].
  store_facts. unfold attempt_at in *. congruence.
Qed.

Lemma sign_result e i p c t w a w' :
  signAndPersist e i p c t w = (Ok a, w') →
  attempt_at w' (IssuanceAttempt_EnrollmentID c) a ∧ IssuanceAttempt_Status a = IssuanceAttemptSigned.
Proof.
  unfold signAndPersist. intros E. apply bindM_ok_inv in E as (? & w1 & _ & E).
  apply bindM_ok_inv in E as (r & w2 & _ & E). destruct r; [|done].
  destruct (ValidateSigningEvidence _ _ _); [|done]. by eapply persist_result.
Qed.

(** A finalization that succeeds either finds the certificate or makes the
    three writes of [finalizeWrites]. *)
Lemma finalizeTx_ok e a t w c w' :
  finalizeTx e a t w = (Ok c, w') → good w → w_tick w' = w_tick w ∧
  ((w_store w' = w_store w ∧ (GetCertificateByEnrollmentID e (w_store w)).1 = Ok c) ∨
   ∃ en cur, ms_enrollments (w_store w) !! e = Some en ∧ Enrollment_ID en = e ∧
     Enrollment_Status en = EnrollmentApproved ∧ attempt_at w e cur ∧
     IssuanceAttempt_Status cur = IssuanceAttemptSigned ∧
     IssuanceAttempt_CertificateID cur = IssuanceAttempt_CertificateID a ∧
     finalizeWrites en cur t (w_store w) = (Ok tt, w_store w') ∧ c = issuedCertificate en cur t).
Proof.
  unfold finalizeTx. intros E%WithinTx_ok G.
  apply bindM_ok_inv in E as (en & w1 & [-> He]%repo_getRow & E).
  pose proof (inv_enrollments _ (good_store _ G) _ _ He) as Hid; simpl in Hid.
  destruct (Enrollment_Status en =s EnrollmentIssued).
  { apply repo_eq in E as [E ->]. split; [done|]. left. unfold GetCertificateByEnrollmentID in *.
    injection E as E1 E2. by rewrite E1, E2. }
  apply bindM_ok_inv in E as (? & ? & [Hs ->]%return_if_ok_inv & E).
  apply bindM_ok_inv in E as (cur & ? & Ec & E). apply repo_getAttempt in Ec as [-> Hc].
  specialize (Hc _ eq_refl). apply attempt_read in Hc; [|done].
  apply bindM_ok_inv in E as (? & ? & [Hg ->]%return_if_ok_inv & E). bool_prop.
  apply bindM_ok_inv in E as (? & w1 & [E1 T1]%repo_eq & E).
  apply bindM_ok_inv in E as (? & w2 & [E2 T2]%repo_eq & E).
  apply bindM_ok_inv in E as ([] & w3 & [E3 T3]%repo_eq & [= <- <-]).
  split; [congruence|]. right. exists en, cur. repeat split; try done; [by apply Hc..|].
  unfold finalizeWrites, bindM. by rewrite E1, E2, E3.
Qed.

Lemma runs_finalizeTx e a t w : runs (finalizeTx e a t) w.
Proof.
  assert (w_tick (finalizeTx e a t w).2 = w_tick w) as Ht.
  { unfold finalizeTx, WithinTx. match goal with |- context [match ?m w with _ => _ end] =>
      assert (timeless m) as Hm by (repeat first [apply timeless_repo|apply timeless_return_if
        |apply timeless_ret|apply timeless_if|apply timeless_bind; [|intros ?]; cbv zeta]);
      specialize (Hm w); by destruct (m w) as [[] ?] end. }
  intros G. destruct (finalizeTx e a t w) as [[c|err] w'] eqn:E; simpl in *.
  - destruct (finalizeTx_ok _ _ _ _ _ _ E G) as [_ [[Es _]|(en & cur & He & Hid & _ & [Hc Hk] & Hs & _ & Hf & _)]];
      (split; [lia|]); [rewrite Es; apply rtc_refl|].
    apply rtc_once. eapply sv_Finalize; [| | | |exact Hf]; rewrite ?Hid; congruence.
  - apply WithinTx_err in E. split; [lia|]. rewrite E. apply rtc_refl.
Qed.
Hint Resolve runs_claimIssuance runs_finalizeTx : runs_db.

Lemma runs_markFailed w a e t :
  attempt_at w (IssuanceAttempt_EnrollmentID a) a → IssuanceAttempt_Status a = IssuanceAttemptSigned →
  runs (markFailedTx a e t) w.
Proof.
  intros Ha Hs. unfold markFailedTx. runs. leaf. eapply attempt_ok_read; [exact Ha|done..| |done|done].
  right. simpl. rewrite Hs. by apply listed.
Qed.

Lemma runs_finalizeSigned e a t w : attempt_at w e a → runs (finalizeSignedIssuanceAttempt e a t) w.
Proof.
  intros Ha. unfold finalizeSignedIssuanceAttempt. runs.
  repeat match goal with E : catchM _ _ = (Ok (Err _), _) |- _ => apply catch_ok in E end.
  store_facts. apply runs_markFailed; [|done].
  match goal with E : finalizeTx _ _ _ _ = (Err _, _) |- _ => apply WithinTx_err in E end.
  match goal with E : repo _ _ = (Err _, _) |- _ => apply repo_eq in E as [E _]; injection E as _ E end.
  destruct Ha as [Ha Hk]. unfold attempt_at. rewrite Hk. split; congruence.
Qed.

Lemma runs_policyFields c f w : runs (addCertificatePolicyAuditFields c f) w.
Proof. unfold addCertificatePolicyAuditFields. runs. Qed.
Lemma runs_linkage c f w : runs (addReplacementCertificateLinkage c f) w.
Proof. unfold addReplacementCertificateLinkage. runs. Qed.
Lemma runs_signingFields c f w : runs (addSigningAuditFields c f) w.
Proof. unfold addSigningAuditFields. runs. Qed.
Hint Resolve runs_policyFields runs_linkage runs_signingFields : runs_db.
Lemma runs_ensureIssued a c t w : runs (ensureCertificateIssuedAuditEvent a c t) w.
Proof. unfold ensureCertificateIssuedAuditEvent. runs. Qed.
Hint Resolve runs_ensureIssued : runs_db.
Lemma runs_repairLoop a t cs dn n w : runs (repairLoop a t cs dn n) w.
Proof. revert dn n w. induction cs; intros; simpl; runs. Qed.
Hint Resolve runs_repairLoop : runs_db.
Lemma runs_Repair a w : runs (RepairMissingIssuanceAuditEvents a) w.
Proof. unfold RepairMissingIssuanceAuditEvents. runs. Qed.
Lemma runs_lint e p c w : runs (validatePublicTLSLint e p c) w.
Proof. unfold validatePublicTLSLint. runs. Qed.
Hint Resolve runs_lint : runs_db.

(** The attempt a claim holder or a later caller continues with. *)
Lemma claimed_attempt e en i p claim t w1 w2 a w3 :
  claimIssuanceAttempt e t w1 = (Ok claim, w2) → good w1 →
  (if snd claim then signAndPersist en i p (fst claim) t else retM (fst claim)) w2 = (Ok a, w3) →
  attempt_at w3 e a.
Proof.
  destruct claim as [c b]; simpl. intros Ec G Ea. destruct (claim_result _ _ _ _ _ _ Ec G) as [Hc Hb].
  destruct b; [|by injection Ea as <- <-].
  apply sign_result in Ea as [Ha _]. destruct Hc as [_ Hk]. by rewrite Hk in Ha.
Qed.

Lemma runs_claimed e en i p claim t w1 w2 :
  claimIssuanceAttempt e t w1 = (Ok claim, w2) → good w1 →
  runs (if snd claim then signAndPersist en i p (fst claim) t else retM (fst claim)) w2.
Proof.
  destruct claim as [c b]; simpl. intros Ec G. destruct (claim_result _ _ _ _ _ _ Ec G) as [Hc Hb].
  destruct b; [|apply runs_ret]. apply runs_sign; [|done]. destruct Hc as [Hc Hk]. by rewrite Hk.
Qed.

Lemma runs_IssueCertificate a e w : runs (IssueCertificate a e) w.
Proof.
  unfold IssueCertificate. repeat (cbv zeta; first [
    match goal with |- runs (if snd _ then _ else _) _ => fail 2 end|runs_step_|solve [eauto with runs_db]]).
  - by eapply runs_claimed.
  - eapply runs_finalizeSigned, claimed_attempt; eauto.
Qed.

(** ** CRL publication *)

Lemma runs_claimCRL i d t w : runs (claimCRLGeneration i d t) w.
Proof. unfold claimCRLGeneration. runs; leaf. Qed.
Lemma runs_releaseCRL c w : runs (releaseCRLClaim c) w.
Proof. unfold releaseCRLClaim. runs; leaf. Qed.
Hint Resolve runs_claimCRL runs_releaseCRL : runs_db.

Lemma runs_publishClaimed a r i c t w : runs (publishClaimedCRL a r i c t) w.
Proof.
  unfold publishClaimedCRL, storeCRL. runs; leaf. store_facts.
  eapply newID_fresh_same; [eassumption|assumption|lia|simpl in *; congruence].
Qed.
Hint Resolve runs_publishClaimed : runs_db.
Lemma runs_PublishCRL a r w : runs (PublishCRL a r) w.
Proof. unfold PublishCRL. runs. Qed.

(** ** API keys *)

Lemma runs_getAPIKeyByToken t w : runs (getAPIKeyByToken t) w.
Proof. unfold getAPIKeyByToken. runs. Qed.
Lemma runs_generateToken w : runs generateAPIKeyToken w.
Proof. unfold generateAPIKeyToken. runs. Qed.
Lemma reads_getAPIKeyByToken t w : moves eq (getAPIKeyByToken t) w.
Proof. unfold getAPIKeyByToken. moves. Qed.
Lemma reads_generateToken w : moves eq generateAPIKeyToken w.
Proof. unfold generateAPIKeyToken. moves. Qed.
Hint Resolve runs_getAPIKeyByToken runs_generateToken : runs_db.
Hint Resolve reads_getAPIKeyByToken reads_generateToken : moves_db.

Lemma runs_EnsureAPIKey a r w : runs (EnsureAPIKey a r) w.
Proof. unfold EnsureAPIKey. solve_runs. Qed.
Lemma runs_CreateAPIKey a r w : runs (APIKeys.CreateAPIKey a r) w.
Proof. unfold APIKeys.CreateAPIKey. solve_runs. Qed.
Lemma runs_DisableAPIKey a i w : runs (DisableAPIKey a i) w.
Proof. unfold DisableAPIKey. runs. leaf. from_read. edge. Qed.

Lemma scan_ok {V} (f : V → bool) order err v : scan f order err = Ok v → v ∈ order ∧ f v = true.
Proof.
  unfold scan. destruct (list_find _ order) as [[i x]|] eqn:E; [|done]. intros [= ->].
  apply list_find_Some in E as (Hi & Hf & _). split; [by eapply list_elem_of_lookup_2|done].
Qed.

(** The key a token belongs to is a row of the table. *)
Lemma token_key t w k w' :
  getAPIKeyByToken t w = (Ok k, w') →
  ∃ id, ms_apiKeys (w_store w) !! id = Some k.
Proof.
  intros E. assert (∀ h w k w', repo (GetAPIKeyByTokenHash h) w = (Ok k, w') →
    w_store w' = w_store w ∧ ∃ id, ms_apiKeys (w_store w) !! id = Some k) as Hget.
  { clear. intros h w k w' [E _]%repo_eq. unfold GetAPIKeyByTokenHash, apiKeyByTokenHash in E.
    injection E as E E2. split; [done|]. apply scan_ok in E as [E _].
    by apply elem_of_map_values in E. }
  unfold getAPIKeyByToken in E. case_head E; [|by apply Hget in E as [_ ?]].
  apply bindM_ok_inv in E as (r & w1 & Er & E). apply catch_ok in Er. destruct r as [k'|err].
  - apply Hget in Er as [_ ?]. by injection E as <- <-.
  - case_head E; [done|]. apply Hget in E as [_ E]. apply repo_eq in Er as [Er _].
    unfold GetAPIKeyByTokenHash in Er. injection Er as _ Er. by rewrite Er.
Qed.

Lemma runs_AuthenticateAPIKey t w : runs (AuthenticateAPIKey t) w.
Proof.
  unfold AuthenticateAPIKey. runs. leaf.
  match goal with E : catchM (getAPIKeyByToken _) _ = _ |- _ =>
    apply catch_ok in E; pose proof (token_key _ _ _ _ E) as (id & Hk) end.
  from_read. by left.
Qed.
Lemma runs_RotateAPIKey a i w : runs (RotateAPIKey a i) w.
Proof.
  unfold RotateAPIKey. runs.
  - leaf. from_read. edge.
  - leaf; [solve_fresh|done].
Qed.

(** ** OCSP *)

Lemma runs_validateOCSPResponder i c w : runs (validateOCSPResponder i c) w.
Proof. unfold validateOCSPResponder. runs. Qed.
Lemma reads_validateOCSPResponder i c w : moves eq (validateOCSPResponder i c) w.
Proof. unfold validateOCSPResponder. moves. Qed.
Hint Resolve runs_validateOCSPResponder : runs_db.
Hint Resolve reads_validateOCSPResponder : moves_db.
Lemma runs_CreateOCSPResponder a r w : runs (OCSP.CreateOCSPResponder a r) w.
Proof. unfold OCSP.CreateOCSPResponder. solve_runs. Qed.
Lemma runs_DisableOCSPResponder a i r w : runs (DisableOCSPResponder a i r) w.
Proof. unfold DisableOCSPResponder. runs. leaf. from_read. edge. Qed.

(** Writes that take no new identifier. *)
Lemma used_plain {A} (op : Mem A) w r w' id :
  repo op w = (r, w') → svc_step (λ _, False) False (w_store w) (op (w_store w)).2 →
  used (w_store w') id → used (w_store w) id.
Proof.
  intros [E _]%repo_eq Hs Hu. rewrite E in Hs. by destruct (svc_step_used _ _ _ _ _ Hs Hu).
Qed.

Lemma used_audit a b c d t f w r w' id :
  createAuditEvent a b c d t f w = (r, w') → used (w_store w') id → used (w_store w) id.
Proof.
  unfold createAuditEvent, createAuditEventWithResult, bindM. intros E Hu.
  destruct (newID w) as [[i|e] w1] eqn:Ei; [|done]. apply newID_ok in Ei. rewrite <- Ei.
  eapply used_plain; [exact E| |exact Hu]. constructor.
Qed.

Lemma active_responder i w r w' :
  repo (GetActiveOCSPResponderByIssuer i) w = (Ok r, w') →
  w' = w ∧ ∃ id, ms_ocspResponders (w_store w) !! id = Some r ∧
    OCSPResponder_Status r = OCSPResponderActive ∧ OCSPResponder_IssuerID r = i.
Proof.
  intros [E Et]%repo_eq. unfold GetActiveOCSPResponderByIssuer in E. injection E as E Es.
  pose proof (activeOCSPResponderByIssuer_spec (map_values (ms_ocspResponders (w_store w))) i) as Hs.
  rewrite E in Hs. destruct Hs as [(k & Hk)%elem_of_map_values [Hi Ha]%isActiveResponderOf_true].
  split; [destruct w, w'; simpl in *; congruence|]. eauto.
Qed.

Lemma current_active_ok i (k : goerr → Svc OCSPResponder) w r w' :
  (let* active := catchM (repo (GetActiveOCSPResponderByIssuer i)) in
   match active with Ok responder => retM responder | Err err => k err end) w = (Ok r, w') →
  (∀ e w r w', k e w ≠ (Ok r, w')) →
  w' = w ∧ ∃ id, ms_ocspResponders (w_store w) !! id = Some r ∧
    OCSPResponder_Status r = OCSPResponderActive ∧ OCSPResponder_IssuerID r = i.
Proof.
  intros E Hk. apply bindM_ok_inv in E as ([r'|e] & w1 & Er%catch_ok & E).
  - injection E as <- <-. by apply active_responder.
  - by apply Hk in E.
Qed.

Lemma disable_responder_ok w id r t :
  good w → ms_ocspResponders (w_store w) !! id = Some r → OCSPResponder_Status r = OCSPResponderActive →
  update_ok (ms_ocspResponders (w_store w)) OCSPResponderActive
    (r |> OCSPResponder_with_Status OCSPResponderDisabled |> OCSPResponder_with_UpdatedAt t).
Proof. intros G Hr Hst. eapply update_ok_read; [keyed_table|exact Hr|done|done|]. intros _. edge. Qed.

Lemma runs_RotateOCSPResponder a r w : runs (RotateOCSPResponder a r) w.
Proof.
  assert (∀ e w r w', (if errors_Is e ErrOCSPResponderNotFound then failM ErrInvalidTransition
    else failM e : Svc OCSPResponder) w ≠ (Ok r, w')) as Hfail by by intros e; case_match.
  unfold RotateOCSPResponder. runs.
  - match goal with E : _ ?w1 = (Ok ?x, ?w), G : good ?w1 |- runs _ ?w =>
      apply current_active_ok in E as (-> & id & Hr & Hst & _); [|done];
      pose proof (disable_responder_ok _ _ _ a1 G Hr Hst) as Hok end.
    by leaf.
  - match goal with E : _ ?w1 = (Ok ?x, ?w), G : good ?w1,
        U : repo (UpdateOCSPResponderIfStatus _ _) ?w = _ |- _ =>
      apply current_active_ok in E as (-> & id & Hr & Hst & _); [|done];
      pose proof (disable_responder_ok _ _ _ a1 G Hr Hst) as Hok; rename U into HU end.
    store_facts. leaf; [|done]. simpl. eapply newID_fresh; [eassumption|assumption|lia|].
    intros Hu. eapply used_audit in Hu; [|eassumption].
    eapply used_plain in Hu; [|exact HU|by constructor].
    match goal with E : w_store ?w' = w_store ?w |- used (w_store ?w) _ => by rewrite <- E end.
Qed.

Lemma runs_issuerHashLoop i l m w : runs (issuerHashLoop i l m) w.
Proof. revert m w. induction l; intros; simpl; runs. Qed.
Hint Resolve runs_issuerHashLoop : runs_db.
Lemma runs_issuersHashLoop i l m w : runs (issuersHashLoop i l m) w.
Proof. revert m w. induction i; intros; simpl; runs. Qed.
Hint Resolve runs_issuersHashLoop : runs_db.
Lemma runs_statusLoop m1 m2 ids l i w : runs (statusLoop m1 m2 ids l i) w.
Proof. revert l i w. induction ids; intros; simpl; runs. Qed.
Hint Resolve runs_statusLoop : runs_db.
Lemma runs_statuses ids w : runs (ocspCertificateStatuses ids) w.
Proof. unfold ocspCertificateStatuses, ocspIssuersByHash. runs. Qed.
Lemma runs_signer i w : runs (ocspSignerForIssuer i) w.
Proof. unfold ocspSignerForIssuer. runs. Qed.
Hint Resolve runs_statuses runs_signer : runs_db.
Lemma runs_RespondOCSP a d w : runs (RespondOCSP a d) w.
Proof. unfold RespondOCSP. runs. Qed.

(** ** ACME *)

Lemma runs_each {A} (l : list A) f w : (∀ x w, runs (f x) w) → runs (forM l f) w.
Proof. intros Hf. apply runs_forM. auto. Qed.

Lemma runs_CAA ns w : runs (validatePublicTLSCAA ns) w.
Proof. unfold validatePublicTLSCAA, caaCheck. runs. apply runs_each. intros. runs. Qed.
Lemma runs_createAccount a r w : runs (createACMEAccount a r) w.
Proof. unfold createACMEAccount. solve_runs. Qed.
Hint Resolve runs_CAA runs_createAccount : runs_db.
Lemma runs_CreateACMEAccount a r w : runs (ACME.CreateACMEAccount a r) w.
Proof. unfold ACME.CreateACMEAccount. runs. Qed.
Lemma runs_CreateOrGet a r w : runs (CreateOrGetACMEAccount a r) w.
Proof. unfold CreateOrGetACMEAccount. runs. Qed.

Lemma require_valid_ok ac w u w' :
  requireValidAccount ac w = (Ok u, w') → w' = w ∧ ACMEAccount_Status ac = ACMEAccountValid.
Proof.
  unfold requireValidAccount. intros E. apply bindM_ok_inv in E as (? & ? & [_ ->]%return_if_ok_inv & E).
  apply return_if_ok_inv in E as [? ->]. by bool_prop.
Qed.
Lemma runs_requireValid ac w : runs (requireValidAccount ac) w.
Proof. unfold requireValidAccount. runs. Qed.
Hint Resolve runs_requireValid : runs_db.

Lemma runs_UpdateACMEAccount a i r w : runs (UpdateACMEAccount a i r) w.
Proof.
  unfold UpdateACMEAccount. runs. leaf.
  match goal with E : requireValidAccount _ _ = _ |- _ => apply require_valid_ok in E as [-> ?] end.
  same_store. eapply update_ok_read; [keyed_table|eassumption| | |intros ?Hst];
    destruct (UpdateACMEAccountRequest_UpdateContacts r), (UpdateACMEAccountRequest_Deactivate r);
    try done; edge.
Qed.
Lemma runs_UpdateACMEAccountKey a i r w : runs (UpdateACMEAccountKey a i r) w.
Proof.
  unfold UpdateACMEAccountKey. runs. leaf.
  match goal with E : requireValidAccount _ _ = _ |- _ => apply require_valid_ok in E as [-> ?] end.
  from_read. by left.
Qed.

(** ** ACME orders *)

(** Actions that do not touch the orders. *)
Definition same_orders (s s' : MemoryStore) : Prop := ms_acmeOrders s' = ms_acmeOrders s.
#[local] Instance same_orders_preorder : PreOrder same_orders.
Proof. split; unfold same_orders; [done|]. intros ? ? ? E1 E2. congruence. Qed.

Ltac keeps := moves; apply moves_repo; unfold same_orders; other_table.

Lemma keeps_audit a b c d t f w : moves same_orders (createAuditEvent a b c d t f) w.
Proof. unfold createAuditEvent, createAuditEventWithResult. keeps. Qed.
Lemma keeps_deployment i f w : moves same_orders (addIdentityDeploymentTarget i f) w.
Proof. unfold addIdentityDeploymentTarget. moves. Qed.
Lemma keeps_profileFor p i w : moves same_orders (profileFor p i) w.
Proof. unfold profileFor. moves. Qed.
Lemma keeps_inspectCSR c w : moves same_orders (inspectCSR c) w.
Proof. unfold inspectCSR. moves. Qed.
Hint Resolve keeps_audit keeps_deployment keeps_profileFor keeps_inspectCSR : moves_db.
Lemma keeps_CreateEnrollment a r w : moves same_orders (Lifecycle.CreateEnrollment a r) w.
Proof. unfold Lifecycle.CreateEnrollment. keeps. Qed.
Lemma keeps_Approve a i w : moves same_orders (ApproveEnrollment a i) w.
Proof. unfold ApproveEnrollment, ApproveEnrollmentWithReason. keeps. Qed.
Lemma keeps_claim e t w : moves same_orders (claimIssuanceAttempt e t) w.
Proof. unfold claimIssuanceAttempt. keeps. Qed.
Lemma keeps_sign e i p c t w : moves same_orders (signAndPersist e i p c t) w.
Proof. unfold signAndPersist, persistSignedIssuanceAttempt. keeps. Qed.
Lemma keeps_finalizeSigned e a t w : moves same_orders (finalizeSignedIssuanceAttempt e a t) w.
Proof. unfold finalizeSignedIssuanceAttempt, finalizeTx, markFailedTx. keeps. Qed.
Lemma keeps_ensureIssued a c t w : moves same_orders (ensureCertificateIssuedAuditEvent a c t) w.
Proof.
  unfold ensureCertificateIssuedAuditEvent, addCertificatePolicyAuditFields,
    addReplacementCertificateLinkage, addSigningAuditFields. moves.
Qed.
Lemma keeps_lint e p c w : moves same_orders (validatePublicTLSLint e p c) w.
Proof. unfold validatePublicTLSLint. moves. Qed.
Hint Resolve keeps_claim keeps_sign keeps_finalizeSigned keeps_ensureIssued keeps_lint : moves_db.
Lemma keeps_IssueCertificate a e w : moves same_orders (IssueCertificate a e) w.
Proof. unfold IssueCertificate. moves. Qed.

Lemma keeps_eq {A} (m : Svc A) w r w' :
  moves same_orders m w → m w = (r, w') → ms_acmeOrders (w_store w') = ms_acmeOrders (w_store w).
Proof. unfold moves. intros Hm E. by rewrite E in Hm. Qed.

Lemma runs_forM_inv {A} (I : World → Prop) (l : list A) f w :
  I w → (∀ x w, I w → runs (f x) w ∧ ∀ u w', f x w = (Ok u, w') → I w') → runs (forM l f) w.
Proof.
  revert w. induction l as [|x l IH]; intros w Hi Hf; simpl; [apply runs_ret|].
  destruct (Hf x w Hi) as [Hx Hx']. apply runs_bind; [done|]. intros u w' E _ _ _. apply IH; eauto.
Qed.

Definition order_open (o : string) (w : World) : Prop :=
  ∀ order, ms_acmeOrders (w_store w) !! o = Some order → ACMEOrder_Status order = ACMEOrderPending.

Lemma runs_createAuthorization o i v c t w :
  order_open o w → runs (createACMEAuthorization o i v c t) w.
Proof.
  intros Ho. unfold createACMEAuthorization. runs.
  - leaf; [solve_fresh|done|]. same_store. exact Ho.
  - leaf; [solve_fresh|done|]. simpl.
    match goal with E : repo (CreateACMEAuthorization _) _ = _ |- _ => apply repo_eq in E as [E _] end.
    match goal with E : CreateACMEAuthorization _ _ = _ |- _ => injection E as E end.
    store_facts. intros az.
    match goal with E1 : w_store ?w2 = w_store ?w1, E2 : w_store ?w3 = w_store ?w2,
      E : set_acmeAuthzs _ _ = w_store ?w1 |- context [w_store ?w3] => rewrite E2, E1, <- E end.
    simpl. rewrite lookup_insert_eq. by intros [= <-].
Qed.

Lemma keeps_createAuthorization o i v c t w :
  moves same_orders (createACMEAuthorization o i v c t) w.
Proof. unfold createACMEAuthorization. keeps. Qed.

Lemma runs_createAuthorizations o t w :
  order_open (ACMEOrder_ID o) w → runs (createACMEAuthorizations o t) w.
Proof.
  intros Ho. unfold createACMEAuthorizations.
  assert (∀ i v c w, order_open (ACMEOrder_ID o) w →
    runs (createACMEAuthorization (ACMEOrder_ID o) i v c t) w ∧
    ∀ u w', createACMEAuthorization (ACMEOrder_ID o) i v c t w = (Ok u, w') →
      order_open (ACMEOrder_ID o) w') as Hstep.
  { intros i v c w1 Hw1. split; [by apply runs_createAuthorization|]. intros u w2 E.
    apply keeps_eq in E; [|apply keeps_createAuthorization]. unfold order_open. by rewrite E. }
  apply runs_bind; [by eapply runs_forM_inv; eauto|]. intros u w' E _ _ _.
  eapply runs_forM_inv; eauto. intros order. 
  replace (ms_acmeOrders (w_store w')) with (ms_acmeOrders (w_store w)); [apply Ho|].
  symmetry. eapply keeps_eq; [|exact E]. apply moves_forM; [apply _|]. intros. apply keeps_createAuthorization.
Qed.

Lemma runs_CreateACMEOrder a r w : runs (ACME.CreateACMEOrder a r) w.
Proof.
  unfold ACME.CreateACMEOrder. runs.
  - leaf; [solve_fresh|done].
  - apply runs_createAuthorizations.
    match goal with E : repo (Store.CreateACMEOrder _) _ = _ |- _ => apply repo_eq in E as [E _] end.
    match goal with E : Store.CreateACMEOrder _ _ = _ |- _ => injection E as E end.
    intros o. match goal with E : set_acmeOrders _ _ = w_store ?w |- context [w_store ?w] => rewrite <- E end.
    simpl. rewrite lookup_insert_eq. by intros [= <-].
Qed.

Lemma listBy_complete {V} (f : V → bool) key id order v : v ∈ order → f v = true → v ∈ listBy f key id order.
Proof. intros Hv Hf. unfold listBy. rewrite go_sort_perm. by apply list_elem_of_filter. Qed.

Lemma existsb_none {A} (f : A → bool) l x : existsb f l = false → x ∈ l → f x = false.
Proof.
  intros He Hx. apply not_true_iff_false. intros Hf. apply not_true_iff_false in He. apply He.
  apply existsb_exists. exists x. split; [by apply list_elem_of_In|done].
Qed.

Lemma runs_promoteOrder o t w :
  ms_acmeOrders (w_store w) !! ACMEOrder_ID o = Some o → runs (promoteACMEOrderIfReady o t) w.
Proof.
  intros Ho. unfold promoteACMEOrderIfReady. runs. leaf.
  - from_read. edge.
  - intros _ k az Hk Hid. store_facts.
    match goal with E : repo (ListACMEAuthorizationsByOrder _) _ = _ |- _ =>
      apply repo_eq in E as [E _]; injection E as <- Es end.
    rewrite <- Es in *. match goal with E : existsb _ _ = false |- _ =>
      eapply (existsb_none _ _ az) in E end; [cbv beta in *; by bool_prop|].
    apply listBy_complete; [apply elem_of_map_values; eauto|]. simpl in Hid. by rewrite Hid, String.eqb_refl.
Qed.

Lemma runs_promoteAuthorization az t w :
  ms_acmeAuthzs (w_store w) !! ACMEAuthorization_ID az = Some az →
  ACMEAuthorization_Status az = ACMEAuthorizationPending →
  runs (promoteACMEAuthorizationIfReady az t) w.
Proof.
  intros Ha Hs. unfold promoteACMEAuthorizationIfReady. runs.
  - leaf; [from_read; edge|]. intros _ k c Hk Hid. store_facts.
    match goal with E : repo (ListACMEChallengesByAuthorization _) _ = _ |- _ =>
      apply repo_eq in E as [E _]; injection E as <- Es end.
    rewrite <- Es in *. match goal with E : existsb _ _ = false |- _ =>
      eapply (existsb_none _ _ c) in E end; [cbv beta in *; by bool_prop|].
    apply listBy_complete; [apply elem_of_map_values; eauto|]. simpl in Hid. by rewrite Hid, String.eqb_refl.
  - apply runs_promoteOrder. match goal with E : repo (GetACMEOrder _) ?w = _, G : good ?w |- _ =>
      apply repo_getRow in E as [-> E]; by rewrite (inv_acmeOrders _ (good_store _ G) _ _ E) end.
Qed.

(** What [openChallenge] reads. *)
Lemma openChallenge_ok i w p w' :
  openChallenge i w = (Ok p, w') → good w → w' = w ∧
  ms_acmeChallenges (w_store w) !! ACMEChallenge_ID (fst p) = Some (fst p) ∧
  ms_acmeAuthzs (w_store w) !! ACMEAuthorization_ID (snd p) = Some (snd p) ∧
  ACMEAuthorization_Status (snd p) = ACMEAuthorizationPending ∧
  (ACMEChallenge_Status (fst p) = ACMEChallengePending ∨
   ACMEChallenge_Status (fst p) = ACMEChallengeProcessing).
Proof.
  unfold openChallenge. intros E G.
  apply bindM_ok_inv in E as (c & ? & [-> Hc]%repo_getRow & E).
  apply bindM_ok_inv in E as (? & ? & [Hs ->]%return_if_ok_inv & E).
  apply bindM_ok_inv in E as (az & ? & [-> Ha]%repo_getRow & E).
  apply bindM_ok_inv in E as (? & ? & [Hp ->]%return_if_ok_inv & [= <- <-]). simpl. bool_prop.
  rewrite (inv_acmeChallenges _ (good_store _ G) _ _ Hc), (inv_acmeAuthzs _ (good_store _ G) _ _ Ha).
  repeat split; try done. apply andb_false_iff in Hs as [Hs|Hs]; bool_prop; auto.
Qed.

Lemma runs_openChallenge i w : runs (openChallenge i) w.
Proof. unfold openChallenge. runs. Qed.
Hint Resolve runs_openChallenge : runs_db.

Lemma challenge_update_ok w c x :
  ms_acmeChallenges (w_store w) !! ACMEChallenge_ID c = Some c →
  (ACMEChallenge_Status c = ACMEChallengePending ∨ ACMEChallenge_Status c = ACMEChallengeProcessing) →
  ACMEChallenge_ID x = ACMEChallenge_ID c → mc_erase x = mc_erase c →
  ACMEChallenge_Status x = ACMEChallengeValid ∨ ACMEChallenge_Status x = ACMEChallengeProcessing →
  update_ok (ms_acmeChallenges (w_store w)) (ACMEChallenge_Status c) x.
Proof.
  intros Hc Hs Ek Ee Hx v Hv _. simpl in Hv. rewrite Ek, Hc in Hv. injection Hv as <-. split; [done|].
  simpl. destruct Hs as [Hs|Hs], Hx as [Hx|Hx]; rewrite Hs, Hx; edge.
Qed.

Lemma runs_Complete a i w : runs (CompleteACMEChallenge a i) w.
Proof.
  unfold CompleteACMEChallenge. runs.
  all: match goal with E : openChallenge _ ?w = _, G : good ?w |- _ =>
    apply openChallenge_ok in E as (-> & Hc & Ha & Hp & Hs); [|exact G] end.
  - leaf. eapply challenge_update_ok; eauto.
  - apply runs_promoteAuthorization; [|done].
    match goal with E : repo (UpdateACMEChallengeIfStatus _ _) _ = _ |- _ =>
      apply repo_eq in E as [E _]; apply putRows_ok in E as (m & _ & ->) end. exact Ha.
Qed.
Lemma runs_markProcessing a i w : runs (markACMEChallengeProcessing a i) w.
Proof.
  unfold markACMEChallengeProcessing. runs.
  match goal with E : openChallenge _ ?w = _, G : good ?w |- _ =>
    apply openChallenge_ok in E as (-> & Hc & Ha & Hp & Hs); [|exact G] end.
  leaf. eapply challenge_update_ok; eauto.
Qed.
Lemma runs_validationContext i w : runs (validationContext i) w.
Proof. unfold validationContext. runs. Qed.
Hint Resolve runs_Complete runs_markProcessing runs_validationContext : runs_db.
Lemma runs_ValidateHTTP01 a i w : runs (ValidateACMEHTTP01Challenge a i) w.
Proof. unfold ValidateACMEHTTP01Challenge. runs. Qed.
Hint Resolve runs_ValidateHTTP01 : runs_db.
Lemma runs_Poll a i w : runs (PollACMEAuthorization a i) w.
Proof. unfold PollACMEAuthorization. runs. apply runs_each. intros. runs. Qed.

Lemma order_update_ok w w' k o x :
  good w → ms_acmeOrders (w_store w) !! k = Some o →
  ms_acmeOrders (w_store w') = ms_acmeOrders (w_store w) →
  ACMEOrder_ID x = ACMEOrder_ID o → mc_erase x = mc_erase o →
  (ACMEOrderReady, ACMEOrder_Status x) ∈ mc_moves (V:=ACMEOrder) →
  update_ok (ms_acmeOrders (w_store w')) ACMEOrderReady x.
Proof.
  intros G Ho E Ek Ee Hm. rewrite E. apply update_ok_replaces; [|by right].
  eapply replaces_read; [keyed_table|exact Ho|done|done].
Qed.

Lemma runs_invalidate a k o w :
  ms_acmeOrders (w_store w) !! k = Some o → runs (invalidateACMEOrder a o) w.
Proof.
  intros Ho. unfold invalidateACMEOrder. runs. leaf; [|done]. store_facts.
  eapply (order_update_ok w); [done|exact Ho|congruence|done|done|by apply listed].
Qed.
Lemma runs_evidence o t w : runs (validateACMEPublicTLSValidationEvidence o t) w.
Proof. unfold validateACMEPublicTLSValidationEvidence. runs. Qed.
Lemma keeps_evidence o t w : moves same_orders (validateACMEPublicTLSValidationEvidence o t) w.
Proof. unfold validateACMEPublicTLSValidationEvidence. moves. Qed.
Hint Resolve runs_evidence runs_IssueCertificate runs_ApproveEnrollment : runs_db.
Hint Resolve keeps_evidence keeps_CreateEnrollment keeps_Approve keeps_IssueCertificate : moves_db.

(** Worlds whose orders agree. *)
Ltac orders_kept :=
  repeat match goal with
  | E : ?m ?w = (Ok _, ?w') |- _ =>
      lazymatch goal with
      | _ : ms_acmeOrders (w_store w') = ms_acmeOrders (w_store w) |- _ => fail
      | _ => assert (ms_acmeOrders (w_store w') = ms_acmeOrders (w_store w))
               by (eapply keeps_eq; [|exact E]; solve [moves])
      end
  end.

Lemma runs_FinalizeACMEOrder a o r w : runs (FinalizeACMEOrder a o r) w.
Proof.
  unfold FinalizeACMEOrder. runs.
  - match goal with E : repo (GetACMEOrder _) _ = _ |- _ => apply repo_getRow in E as [-> Ho] end.
    store_facts. eapply runs_invalidate. same_store. exact Ho.
  - leaf; [|done]. match goal with E : repo (GetACMEOrder _) _ = _ |- _ => apply repo_getRow in E as [-> Ho] end.
    match goal with E : (if ?b then _ else _) _ = (Ok _, _) |- _ => destruct b;
      [apply bindM_ok_inv in E as (? & ? & _ & E); discriminate E|injection E as _ <-] end.
    repeat match goal with E : return_if _ _ _ = (Ok _, _) |- _ => apply return_if_ok_inv in E as [? ->] end.
    orders_kept. eapply (order_update_ok w); [done|exact Ho|congruence|done|done|by apply listed].
Qed.

(** ** Outbox *)

(** Claiming and finishing only make row steps, so a message read before a batch
    can still be claimed later in it. *)
Definition outbox_evolve (s s' : MemoryStore) : Prop := rows_evolve (ms_outbox s) (ms_outbox s').
#[local] Instance outbox_evolve_preorder : PreOrder outbox_evolve.
Proof. split; unfold outbox_evolve; [by intros s|]. intros s1 s2 s3 ? ?. by etrans. Qed.

Definition in_outbox (w : World) (m : OutboxMessage) : Prop :=
  is_Some (ms_outbox (w_store w) !! OutboxMessage_ID m) ∧ replaces (ms_outbox (w_store w)) m.

Lemma outbox_update_ok w m x :
  in_outbox w m → OutboxMessage_ID x = OutboxMessage_ID m → mc_erase x = mc_erase m →
  OutboxMessage_Status x = OutboxMessage_Status m ∨
    (OutboxMessage_Status m, OutboxMessage_Status x) ∈ mc_moves (V:=OutboxMessage) →
  update_ok (ms_outbox (w_store w)) (OutboxMessage_Status m) x.
Proof.
  intros [_ Hr] Ek Ee Hm. apply update_ok_replaces; [|done].
  intros v Hv. rewrite Ee. apply Hr. simpl in *. by rewrite <- Ek.
Qed.

Lemma in_outbox_evolve w w' m :
  outbox_evolve (w_store w) (w_store w') → in_outbox w m → in_outbox w' m.
Proof.
  intros He [Hs Hr]. split; [|by eapply replaces_evolve].
  destruct Hs as [v Hv]. apply He in Hv as (v' & Hv' & _). eauto.
Qed.

Lemma update_outbox_ok x cur w u w' :
  repo (UpdateOutboxMessageIfCurrent x cur) w = (Ok u, w') → in_outbox w' x.
Proof.
  intros [E _]%repo_eq. apply putRows_ok in E as (m & Hm & E).
  apply updateIf_ok in Hm as (? & _ & _ & ->). unfold in_outbox, replaces. rewrite E. simpl.
  rewrite lookup_insert_eq. split; [eauto|]. by intros v [= <-].
Qed.

(** A conditional update of the outbox, as a step and as an evolution. *)
Lemma outbox_update_runs m x w :
  update_ok (ms_outbox (w_store w)) (OutboxMessage_Status m) x →
  runs (repo (UpdateOutboxMessageIfCurrent x m)) w ∧
  moves outbox_evolve (repo (UpdateOutboxMessageIfCurrent x m)) w.
Proof.
  intros Hok. split; [by leaf|]. apply moves_repo.
  unfold UpdateOutboxMessageIfCurrent, outbox_evolve.
  destruct (putRows_cases ms_outbox set_outbox (updateOutboxMessageIfCurrent x m) (w_store w))
    as [(e & _ & ->)|(m' & Hf & ->)]; [reflexivity|].
  apply updateIf_ok in Hf as (v & Hv & Hsame & ->). unfold sameOutboxMessage in Hsame. bool_prop.
  simpl. eapply rows_evolve_replace; [exact Hv|]. by apply Hok.
Qed.

Lemma claim_runs m w : in_outbox w m → runs (claim m) w ∧ moves outbox_evolve (claim m) w.
Proof.
  intros Hm. 
  assert (∀ m' x w', in_outbox w' m' → OutboxMessage_ID x = OutboxMessage_ID m' →
    mc_erase x = mc_erase m' →
    (OutboxMessage_Status m', OutboxMessage_Status x) ∈ mc_moves (V:=OutboxMessage) →
    runs (repo (UpdateOutboxMessageIfCurrent x m')) w' ∧
    moves outbox_evolve (repo (UpdateOutboxMessageIfCurrent x m')) w') as Hup.
  { intros. apply outbox_update_runs. eapply outbox_update_ok; eauto. }
  assert (∀ w', w_store w' = w_store w → in_outbox w' m) as Hsame
    by (intros w' E; unfold in_outbox; by rewrite E).
  unfold claim. split; [runs|moves]; store_facts;
    repeat match goal with E : catchM _ _ = (Ok (Ok _), _) |- _ => apply catch_ok, update_outbox_ok in E end;
    (apply Hup; [first [assumption|apply Hsame; congruence]|done|done|]); simpl;
    try match goal with E : _ && negb false = false |- _ => rewrite andb_true_r in E; bool_prop end;
    try match goal with E : OutboxMessage_Status m = _ |- _ => rewrite E end; by apply listed.
Qed.

Lemma claim_some m w c w' :
  claim m w = (Ok (Some c), w') → in_outbox w' c ∧ OutboxMessage_Status c = OutboxProcessing.
Proof.
  assert (∀ x cur w w' (e : goerr → bool),
    (let* r := catchM (repo (UpdateOutboxMessageIfCurrent x cur)) in
     match r with Ok _ => retM (Some x) | Err err => if e err then retM None else failM err end) w
      = (Ok (Some c), w') → in_outbox w' c ∧ x = c) as Htake.
  { intros x cur w1 w2 e E. apply bindM_ok_inv in E as ([[]|err] & w3 & Er%catch_ok & E).
    - injection E as <- <-. by apply update_outbox_ok in Er.
    - by destruct (e err). }
  unfold claim. intros E. case_head E; [done|]. apply bindM_ok_inv in E as (now & w1 & _ & E).
  cbv zeta in E. case_head E; [|by apply Htake in E as [? <-]].
  apply bindM_ok_inv in E as ([[]|err] & w3 & _ & E); [by apply Htake in E as [? <-]|].
  by case_head E.
Qed.

Lemma finish_runs m st j w :
  in_outbox w m → (OutboxMessage_Status m, st) ∈ mc_moves (V:=OutboxMessage) →
  runs (finish m st j) w ∧ moves outbox_evolve (finish m st j) w.
Proof.
  intros Hm Hs. unfold finish.
  match goal with |- context [repo (UpdateOutboxMessageIfCurrent ?x m)] =>
    destruct (outbox_update_runs m x w) as [Hr He] end.
  { eapply outbox_update_ok; eauto. }
  split; [runs; leaf|moves]. apply moves_repo; unfold outbox_evolve; by simpl.
Qed.

(** The outcome of a handler call changes the mutable fields only. *)
Lemma attemptOutcome_ok c r t :
  let '(u, st, _, _) := attemptOutcome c r t in
  OutboxMessage_ID u = OutboxMessage_ID c ∧ mc_erase u = mc_erase c ∧
  OutboxMessage_Status u = OutboxMessage_Status c ∧
  (OutboxMessage_Status c = OutboxProcessing →
   (OutboxMessage_Status c, st) ∈ mc_moves (V:=OutboxMessage)).
Proof.
  unfold attemptOutcome. destruct r; [|cbv zeta; match goal with |- context [if ?b then _ else _] =>
    lazymatch b with context [effectiveOutboxMaxAttempts] => destruct b end end];
    (split_and!; try done; intros ->; by apply listed).
Qed.

Lemma process_runs h m w :
  (∀ m w, runs (h m) w ∧ moves outbox_evolve (h m) w) → in_outbox w m →
  runs (processMessage h m) w ∧ moves outbox_evolve (processMessage h m) w.
Proof.
  intros Hh Hm. destruct (claim_runs m w Hm) as [Hcr Hce].
  assert (∀ c w1 w2 t u st as_ er, in_outbox w1 c → OutboxMessage_Status c = OutboxProcessing →
    outbox_evolve (w_store w1) (w_store w2) → ∀ r, attemptOutcome c r t = (u, st, as_, er) →
    ∀ j, runs (finish u st j) w2 ∧ moves outbox_evolve (finish u st j) w2) as Hfin.
  { intros c w1 w2 t u st as_ er Hc Hst He r Ho j. pose proof (attemptOutcome_ok c r t) as Hk.
    rewrite Ho in Hk. destruct Hk as (Ek & Ee & Es & Hmv). apply finish_runs; [|rewrite Es; by apply Hmv].
    apply (in_outbox_evolve _ _ _ He) in Hc as [? Hr]. unfold in_outbox, replaces in *. simpl in *.
    by rewrite Ek, Ee. }
  assert (∀ c w1 r w2, catchM (h c) w1 = (Ok r, w2) → outbox_evolve (w_store w1) (w_store w2)) as Hev.
  { intros c w1 r w2 E%catch_ok. destruct (Hh c w1) as [_ He]. unfold moves in He. by rewrite E in He. }
  unfold processMessage. split; [runs|moves]; try by apply Hh.
  all: match goal with E : claim _ _ = _ |- _ => apply claim_some in E as [Hc Hst] end.
  all: eapply Hfin; [exact Hc|exact Hst| |eassumption].
  all: repeat match goal with E : now_ _ = _ |- _ => apply now_ok in E
         | E : newID _ = _ |- _ => apply newID_ok in E | E : catchM _ _ = _ |- _ => apply Hev in E end.
  all: repeat match goal with E : w_store _ = w_store _ |- _ => rewrite E in *; clear E end; assumption.
Qed.

Lemma runs_runLoop h ms n w :
  (∀ m w, runs (h m) w ∧ moves outbox_evolve (h m) w) → Forall (in_outbox w) ms →
  runs (runLoop h ms n) w.
Proof.
  intros Hh. revert n w. induction ms as [|m ms IH]; intros n w Hms; simpl; [apply runs_ret|].
  apply Forall_cons in Hms as [Hm Hms]. destruct (process_runs h m w Hh Hm) as [Hr He].
  apply runs_bind; [by apply runs_catch|]. intros r w' E%catch_ok _ _ _. destruct r; [|apply runs_ret].
  apply IH. unfold moves in He. rewrite E in He. simpl in He.
  eapply Forall_impl; [exact Hms|]. intros. by eapply in_outbox_evolve.
Qed.

Lemma in_outbox_read w k m : good w → ms_outbox (w_store w) !! k = Some m → in_outbox w m.
Proof.
  intros G Hm. pose proof (inv_outbox _ (good_store _ G) _ _ Hm) as Ek; simpl in Ek.
  split; [rewrite Ek; eauto|]. by eapply replaces_read; [keyed_table|exact Hm|..].
Qed.

Lemma due_elem order now limit m : m ∈ listDueOutboxMessages order now limit → m ∈ order.
Proof.
  unfold listDueOutboxMessages. case_match; [by intros ?%not_elem_of_nil|].
  intros (i & Hi & _)%elem_of_take. apply list_elem_of_lookup_2 in Hi. rewrite go_sort_perm in Hi.
  by apply list_elem_of_filter in Hi as [_ ?].
Qed.

Lemma runs_RunOnce h l w :
  (∀ m w, runs (h m) w ∧ moves outbox_evolve (h m) w) → runs (RunOnce h l) w.
Proof.
  intros Hh. unfold RunOnce. runs. apply runs_runLoop; [done|].
  match goal with E : repo _ ?w = (Ok _, _), G : good ?w |- _ =>
    apply repo_eq in E as [[= <- E] _]; rename G into G0 end.
  apply Forall_forall. intros m (k & Hm)%due_elem%elem_of_map_values.
  match goal with E : w_store ?w = w_store ?w' |- in_outbox ?w' _ => unfold in_outbox; rewrite <- E end.
  by eapply in_outbox_read.
Qed.

(** ** Handlers *)

Lemma handlersFor_runs h m w :
  (∀ m w, runs (h m) w ∧ moves outbox_evolve (h m) w) →
  runs (registryHandler (handlersFor h) m) w ∧ moves outbox_evolve (registryHandler (handlersFor h) m) w.
Proof.
  intros Hh. unfold registryHandler, handlersFor. destruct (_ !! _) as [h'|] eqn:E; [|split; [runs|moves]].
  apply elem_of_list_to_map_2 in E. apply list_elem_of_fmap in E as (? & [= _ ->] & _). apply Hh.
Qed.

Lemma webhook_runs `{WebhookEnv} m w : runs (webhookHandler m) w ∧ moves outbox_evolve (webhookHandler m) w.
Proof.
  unfold webhookHandler. split; [runs; apply runs_each|moves; apply moves_forM; [apply _|]]; intros endpoint ?;
    unfold deliverTo, currentDelivery, recordWebhookDelivery, postWebhook.
  - runs; leaf.
  - intros _. moves; (apply moves_repo; unfold outbox_evolve; by simpl).
Qed.

(** The handler the service installs, with or without webhooks. *)
Lemma lifecycleHandler_runs `{WebhookEnv} (webhooks : bool) m w :
  let h := NewLifecycleOutboxHandlerWithWebhook (if webhooks then Some webhookHandler else None) in
  runs (h m) w ∧ moves outbox_evolve (h m) w.
Proof.
  destruct webhooks; apply handlersFor_runs; intros; [apply webhook_runs|].
  split; [apply runs_ret|apply moves_ret; apply _].
Qed.

Lemma replay_erase m t :
  OutboxMessage_ID (outboxMessageForReplay m t) = OutboxMessage_ID m ∧
  mc_erase (outboxMessageForReplay m t) = mc_erase m ∧
  OutboxMessage_Status (outboxMessageForReplay m t) = OutboxPending.
Proof. unfold outboxMessageForReplay. by case_match. Qed.

Lemma replay_update_ok w m t cur :
  in_outbox w m → (cur, OutboxPending) ∈ mc_moves (V:=OutboxMessage) →
  update_ok (ms_outbox (w_store w)) cur (outboxMessageForReplay m t).
Proof.
  intros [_ Hr] Hm. destruct (replay_erase m t) as (Ek & Ee & Es).
  apply update_ok_replaces; [|right; cbn [mc_status outbox_machine]; by rewrite Es].
  intros v Hv. rewrite Ee. apply Hr. cbn [mc_key outbox_machine] in *. by rewrite <- Ek.
Qed.

Lemma runs_RetryOutbox a i w : runs (RetryOutboxMessage a i) w.
Proof.
  unfold RetryOutboxMessage. runs. leaf.
  match goal with E : repo (GetOutboxMessage _) _ = _ |- _ => apply repo_getRow in E as [-> Hm] end.
  store_facts. apply replay_update_ok; [by eapply in_outbox_read|].
  match goal with E : _ && _ = false |- _ => apply andb_false_iff in E as [E|E] end; bool_prop;
    match goal with E : OutboxMessage_Status _ = _ |- _ => rewrite E end; by apply listed.
Qed.

Lemma runs_replayLoop r t ms l w : Forall (in_outbox w) ms → runs (replayLoop r t ms l) w.
Proof.
  revert l w. induction ms as [|m ms IH]; intros l w Hms; simpl; [apply runs_ret|].
  apply Forall_cons in Hms as [Hm Hms]. runs; try by apply IH.
  - leaf. apply replay_update_ok; [done|by apply listed].
  - apply IH. eapply Forall_impl; [exact Hms|]. intros m' Hm'.
    match goal with E : repo _ _ = (Ok _, _) |- _ => apply repo_eq in E as [E _] end.
    match goal with E : UpdateOutboxMessageStatusIfStatus _ _ _ = _ |- _ =>
      apply putRows_ok in E as (m0 & E & Es) end.
    eapply in_outbox_evolve; [|exact Hm']. unfold outbox_evolve. rewrite Es. simpl.
    match goal with E : updateOutboxMessageStatusIfStatus _ _ _ = _ |- _ =>
      apply updateIf_ok in E as (v & Hv & Hc & ->) end.
    eapply rows_evolve_replace; [exact Hv|]. bool_prop.
    eapply (replay_update_ok w m); [done| |exact Hv|done]. by apply listed.
Qed.

Lemma runs_Replay a r w : runs (ReplayDeadLetterOutboxMessages a r) w.
Proof.
  unfold ReplayDeadLetterOutboxMessages. runs. apply runs_replayLoop.
  match goal with E : repo _ ?w = (Ok _, _), G : good ?w |- _ =>
    apply repo_eq in E as [[= <- E] _]; rename G into G0 end.
  apply Forall_forall. intros m (k & Hm)%listBy_elem%elem_of_map_values.
  match goal with E : w_store ?w = w_store ?w' |- in_outbox ?w' _ => unfold in_outbox; rewrite <- E end.
  by eapply in_outbox_read.
Qed.

(** ** Audit maintenance *)

Lemma runs_Prune a b w : runs (PruneAuditEventsBefore a b) w.
Proof.
  unfold PruneAuditEventsBefore. runs. unfold runs.
  match goal with |- context [WithinTx ?m ?w0] => assert (runs (WithinTx m) w0) as Hs by (runs; leaf);
    unfold runs in Hs; destruct (WithinTx m w0) as [[]?] end; exact Hs.
Qed.
Lemma runs_RecordAPIFailure a r w : runs (RecordAPIFailure a r) w.
Proof. unfold RecordAPIFailure. repeat (cbv zeta; first [runs_step_|apply runs_auditResult]). Qed.

(** ** The service as a transition system

    One constructor per operation that the HTTP layer, the workers or the
    start-up code call on the service; [ss_time] lets outside events pass. *)
Inductive op_step `{WebhookEnv} : World → World → Prop :=
| ss_time s t t' : t ≤ t' → op_step (mkWorld s t) (mkWorld s t')
| ss_CreateIdentity a r w : op_step w (Registry.CreateIdentity a r w).2
| ss_CreateIssuer a r w : op_step w (Registry.CreateIssuer a r w).2
| ss_CreateCertificateProfile a r w : op_step w (Registry.CreateCertificateProfile a r w).2
| ss_TransitionProfile a r w : op_step w (TransitionCertificateProfileIssuer a r w).2
| ss_CreateNotificationEndpoint a r w : op_step w (Registry.CreateNotificationEndpoint a r w).2
| ss_DisableNotificationEndpoint a i w : op_step w (DisableNotificationEndpoint a i w).2
| ss_CreateEnrollment a r w : op_step w (Lifecycle.CreateEnrollment a r w).2
| ss_RenewCertificate a c r w : op_step w (RenewCertificate a c r w).2
| ss_ReissueCertificate a c r w : op_step w (ReissueCertificate a c r w).2
| ss_ApproveEnrollment a i r w : op_step w (ApproveEnrollmentWithReason a i r w).2
| ss_RejectEnrollment a i w : op_step w (RejectEnrollment a i w).2
| ss_IssueCertificate a e w : op_step w (IssueCertificate a e w).2
| ss_RepairAudit a w : op_step w (RepairMissingIssuanceAuditEvents a w).2
| ss_Revoke a c r w : op_step w (RevokeCertificate a c r w).2
| ss_ForceRevoke a c r w : op_step w (ForceRevokeCertificate a c r w).2
| ss_Suspend a c w : op_step w (SuspendCertificate a c w).2
| ss_Resume a c w : op_step w (ResumeCertificate a c w).2
| ss_Scan a r w : op_step w (ScanCertificateExpirations a r w).2
| ss_PublishCRL a r w : op_step w (PublishCRL a r w).2
| ss_AuthenticateAPIKey t w : op_step w (AuthenticateAPIKey t w).2
| ss_EnsureAPIKey a r w : op_step w (EnsureAPIKey a r w).2
| ss_CreateAPIKey a r w : op_step w (APIKeys.CreateAPIKey a r w).2
| ss_DisableAPIKey a i w : op_step w (DisableAPIKey a i w).2
| ss_RotateAPIKey a i w : op_step w (RotateAPIKey a i w).2
| ss_CreateOCSPResponder a r w : op_step w (OCSP.CreateOCSPResponder a r w).2
| ss_DisableOCSPResponder a i r w : op_step w (DisableOCSPResponder a i r w).2
| ss_RotateOCSPResponder a r w : op_step w (RotateOCSPResponder a r w).2
| ss_RespondOCSP a d w : op_step w (RespondOCSP a d w).2
| ss_CreateACMEAccount a r w : op_step w (ACME.CreateACMEAccount a r w).2
| ss_CreateOrGetACMEAccount a r w : op_step w (CreateOrGetACMEAccount a r w).2
| ss_UpdateACMEAccount a i r w : op_step w (UpdateACMEAccount a i r w).2
| ss_UpdateACMEAccountKey a i r w : op_step w (UpdateACMEAccountKey a i r w).2
| ss_CreateACMEOrder a r w : op_step w (ACME.CreateACMEOrder a r w).2
| ss_CompleteACMEChallenge a i w : op_step w (CompleteACMEChallenge a i w).2
| ss_ValidateHTTP01 a i w : op_step w (ValidateACMEHTTP01Challenge a i w).2
| ss_PollACMEAuthorization a i w : op_step w (PollACMEAuthorization a i w).2
| ss_FinalizeACMEOrder a o r w : op_step w (FinalizeACMEOrder a o r w).2
| ss_RunOnce (webhooks : bool) l w : op_step w (RunOnce (NewLifecycleOutboxHandlerWithWebhook
    (if webhooks then Some webhookHandler else None)) l w).2
| ss_RetryOutbox a i w : op_step w (RetryOutboxMessage a i w).2
| ss_ReplayDeadLetter a r w : op_step w (ReplayDeadLetterOutboxMessages a r w).2
| ss_PruneAudit a b w : op_step w (PruneAuditEventsBefore a b w).2
| ss_RecordAPIFailure a r w : op_step w (RecordAPIFailure a r w).2.

Lemma op_step_reach `{WebhookEnv} w w' : op_step w w' → good w → reach w w'.
Proof.
  intros Hs G. destruct Hs; [
    split; [done|apply rtc_refl]|by apply runs_CreateIdentity|by apply runs_CreateIssuer|
    by apply runs_CreateCertificateProfile|by apply runs_TransitionProfile|
    by apply runs_CreateNotificationEndpoint|by apply runs_DisableNotificationEndpoint|by apply runs_CreateEnrollment|
    by apply runs_RenewCertificate|by apply runs_ReissueCertificate|by apply runs_Approve|
    by apply runs_Reject|by apply runs_IssueCertificate|by apply runs_Repair|by apply runs_revoke|
    by apply runs_revoke|by apply runs_Suspend|by apply runs_Resume|by apply runs_Scan|
    by apply runs_PublishCRL|by apply runs_AuthenticateAPIKey|by apply runs_EnsureAPIKey|
    by apply runs_CreateAPIKey|by apply runs_DisableAPIKey|by apply runs_RotateAPIKey|
    by apply runs_CreateOCSPResponder|by apply runs_DisableOCSPResponder|
    by apply runs_RotateOCSPResponder|by apply runs_RespondOCSP|by apply runs_CreateACMEAccount|
    by apply runs_CreateOrGet|by apply runs_UpdateACMEAccount|by apply runs_UpdateACMEAccountKey|
    by apply runs_CreateACMEOrder|by apply runs_Complete|by apply runs_ValidateHTTP01|
    by apply runs_Poll|by apply runs_FinalizeACMEOrder|
    apply runs_RunOnce; [intros; apply lifecycleHandler_runs|done]|by apply runs_RetryOutbox|
    by apply runs_Replay|by apply runs_Prune|by apply runs_RecordAPIFailure].
Qed.

End Invariants.

Section Calls.
Context `{E : Env}.

(** A call of an operation, in some context. *)
Definition service_step `{WebhookEnv} (w w' : World) : Prop :=
  ∃ c, @op_step (with_ctx c E) _ w w'.

Lemma op_step_service `{WebhookEnv} w w' : op_step w w' → service_step w w'.
Proof. intros Hs. exists env_ctx. by rewrite with_ctx_id. Qed.

(** The context of a call does not matter for what it may do to the store. *)
Lemma service_step_reach `{WebhookEnv} w w' : service_step w w' → good w → reach w w'.
Proof. intros [c Hs] [G1 G2]. exact (@op_step_reach (with_ctx c E) _ w w' Hs (@Build_good (with_ctx c E) w G1 G2)). Qed.

Lemma good_new t : good (mkWorld NewMemoryStore t).
Proof.
  split; [apply store_inv_new|]. intros id Hu.
  by destruct Hu; simpl in *; match goal with E : ∅ !! _ = Some _ |- _ => rewrite lookup_empty in E end.
Qed.

Lemma service_reach `{WebhookEnv} w w' : rtc service_step w w' → good w → reach w w' ∧ good w'.
Proof.
  induction 1 as [|w1 w2 w3 Hs _ IH]; [by intros; split|]. intros G.
  pose proof (service_step_reach _ _ Hs G) as Hr. pose proof (reach_good _ _ G Hr) as G2.
  destruct (IH G2). split; [by etrans|done].
Qed.

(** C2: Starting from the empty store, every state the service reaches by any
    sequence of its operations, successful or failing, satisfies the store
    invariant: rows are filed under their own identifiers; no two certificates
    share an enrollment, or an issuer and serial number; at most one OCSP
    responder per issuer is active; no CRL number is published twice at a
    distribution point; no two ACME accounts share a key; and the audit log is
    a hash chain that its own verification accepts. *)
Theorem service_reachable_inv `{WebhookEnv} t w :
  rtc service_step (mkWorld NewMemoryStore t) w → store_inv (w_store w).
Proof. intros Hr. apply good_store, (service_reach _ _ Hr), good_new. Qed.
End Calls.

(** The state after an identity and an issuer were created. *)
Lemma service_reachable_inv_witness :
  ∃ w, w = (@Registry.CreateIssuer sample_env "operator" sample_issuer
              (@Registry.CreateIdentity sample_env "operator" sample_identity new_world).2).2 ∧
       store_inv (H:=@env_codec sample_env) (w_store w).
Proof.
  eexists. split; [reflexivity|].
  apply (@service_reachable_inv sample_env sample_webhook 0).
  eapply rtc_l; [apply op_step_service, ss_CreateIdentity|].
  eapply rtc_l; [apply op_step_service, ss_CreateIssuer|]. apply rtc_refl.
Defined.
