(* ===== verification/History.v ===== *)
(** * Histories: what holds of every execution

    From the steps of [Machines]: each table only evolves along its state
    machine, and the tables stay consistent with one another - revoked
    certificates and revocation records, issued enrollments, attempts and
    certificates, ACME orders, authorizations and challenges.

    All of it under [UniqueIDs]: the identifier generator does not repeat
    itself. *)

From S2P Require Import Prelude GoLib Crypto Domain Core NetIP Requests AuditChain Store.
From S2P Require Import StoreInv Service Policy Registry Lifecycle Issuance Outbox CRL APIKeys.
From S2P Require Import OCSP ACME Samples Machines ServiceFacts Invariants.

Section Evolve.
Context `{GoCodec} (gen : string → Prop) (collision : Prop) (no_collision : ¬ collision).
Abbreviation step := (svc_step gen collision).

(** A fresh identifier has no row yet. *)
Lemma fresh_unused s id : fresh gen collision s id → ¬ used s id.
Proof. intros [_ Hf] Hu. by apply no_collision, Hf. Qed.

Ltac fresh_none :=
  match goal with Hf : fresh _ _ ?s ?id |- ?m !! ?id' = None =>
    let E := fresh "E" in
    destruct (m !! id') eqn:E; [exfalso; apply (fresh_unused _ _ Hf); econstructor; exact E|done]
  end.

(** One machine at a time: a step writes its table by a fresh insertion or by a
    replacement that is a row step, or not at all. *)
Ltac evolve_case :=
  unfold revokeWrites;
  repeat match goal with |- context [snd (?op ?s)] =>
    let f := head_of op in
    lazymatch f with
    | @putRows => first
        [rewrite putRows_other by done
        |match goal with |- context [putRows ?t ?st ?g s] =>
           destruct (putRows_cases t st g s) as [(?e & _ & Ew)|(?m & Hm & Ew)];
           rewrite Ew; clear Ew; simpl end]
    | @onAudit => rewrite onAudit_other by done
    | _ => unfold f
    end end;
  try reflexivity;
  match goal with Hm : _ = Ok _ |- _ => one_row Hm end;
  unfold UpdateCertificateIfStatus; rewrite ?putRows_other by done;
  first [apply rows_evolve_insert_new; fresh_none
        |repeat match goal with E : check_not _ _ = Ok ?u |- _ => destruct u; apply check_not_ok in E end;
         unfold sameOutboxMessage in *; bool_prop; eapply rows_evolve_replace; [eassumption|];
         match goal with Hok : update_ok _ _ _ |- _ => apply Hok; done end].

Ltac finalize_other :=
  match goal with E : finalizeWrites _ _ _ _ = _ |- _ =>
    apply finalizeWrites_ok in E as (? & ? & ? & ? & ? & ? & ? & ->); simpl; reflexivity end.

Ltac evolves := intros Hs; destruct Hs; try finalize_other; evolve_case.

Lemma step_identities s s' : step s s' → rows_evolve (ms_identities s) (ms_identities s').
Proof. evolves. Qed.
Lemma step_issuers s s' : step s s' → rows_evolve (ms_issuers s) (ms_issuers s').
Proof. evolves. Qed.
Lemma step_responders s s' : step s s' → rows_evolve (ms_ocspResponders s) (ms_ocspResponders s').
Proof. evolves. Qed.
Lemma step_endpoints s s' : step s s' → rows_evolve (ms_notifications s) (ms_notifications s').
Proof. evolves. Qed.
Lemma step_profiles s s' : step s s' → rows_evolve (ms_profiles s) (ms_profiles s').
Proof. evolves. Qed.
Lemma step_revocations s s' : step s s' → rows_evolve (ms_revocations s) (ms_revocations s').
Proof. evolves. Qed.
Lemma step_crls s s' : step s s' → rows_evolve (ms_crls s) (ms_crls s').
Proof. evolves. Qed.
Lemma step_outbox s s' : step s s' → rows_evolve (ms_outbox s) (ms_outbox s').
Proof. evolves. Qed.
Lemma step_apiKeys s s' : step s s' → rows_evolve (ms_apiKeys s) (ms_apiKeys s').
Proof. evolves. Qed.
Lemma step_accounts s s' : step s s' → rows_evolve (ms_acmeAccounts s) (ms_acmeAccounts s').
Proof. evolves. Qed.
Lemma step_orders s s' : step s s' → rows_evolve (ms_acmeOrders s) (ms_acmeOrders s').
Proof. evolves. Qed.
Lemma step_authzs s s' : step s s' → rows_evolve (ms_acmeAuthzs s) (ms_acmeAuthzs s').
Proof. evolves. Qed.
Lemma step_challenges s s' : step s s' → rows_evolve (ms_acmeChallenges s) (ms_acmeChallenges s').
Proof. evolves. Qed.

(** The rows a finalization replaces. *)
Lemma finalize_rows e a now s s' :
  ms_enrollments s !! Enrollment_ID e = Some e → ms_issuanceAttempts s !! Enrollment_ID e = Some a →
  IssuanceAttempt_EnrollmentID a = Enrollment_ID e →
  IssuanceAttempt_Status a = IssuanceAttemptSigned → finalizeWrites e a now s = (Ok tt, s') →
  rows_evolve (ms_enrollments s) (ms_enrollments s') ∧
  rows_evolve (ms_issuanceAttempts s) (ms_issuanceAttempts s').
Proof.
  intros He Ha Hk Hst Hf. apply finalizeWrites_ok in Hf as (e' & a' & He' & Hs & _ & Ha' & _ & ->).
  simpl. rewrite He in He'. injection He' as <-. rewrite Hk, Ha in Ha'. injection Ha' as <-.
  split; (eapply rows_evolve_replace; [rewrite ?Hk; eassumption|split; [done|]]); right; simpl;
    rewrite ?Hs, ?Hst; by apply listed.
Qed.

Lemma step_enrollments s s' : step s s' → rows_evolve (ms_enrollments s) (ms_enrollments s').
Proof.
  intros Hs. destruct Hs; try evolve_case.
  match goal with E : finalizeWrites _ _ _ _ = _ |- _ => by eapply finalize_rows in E as [? _] end.
Qed.

Lemma step_attempts s s' : step s s' → rows_evolve (ms_issuanceAttempts s) (ms_issuanceAttempts s').
Proof.
  intros Hs. destruct Hs; try evolve_case.
  - unfold CreateIssuanceAttempt. destruct (putRows_cases ms_issuanceAttempts set_issuanceAttempts
      (createIssuanceAttempt x) s) as [(err & _ & ->)|(m & Hm & ->)]; [reflexivity|]. simpl.
    one_row Hm. by apply rows_evolve_insert_new.
  - unfold UpdateIssuanceAttemptIfCurrent. destruct (putRows_cases ms_issuanceAttempts
      set_issuanceAttempts (updateIssuanceAttemptIfCurrent x cur) s) as [(err & _ & ->)|(m & Hm & ->)];
      [reflexivity|]. simpl. one_row Hm. unfold sameIssuanceAttempt in *. bool_prop.
    match goal with Hok : attempt_update_ok _ _ _ _ _ |- _ =>
      eapply rows_evolve_replace; [eassumption|]; by eapply Hok end.
  - match goal with E : finalizeWrites _ _ _ _ = _ |- _ => by eapply finalize_rows in E as [_ ?] end.
Qed.

(** ** Consistency of the tables *)

(** The certificate of an enrollment and a finalized attempt, in its immutable
    fields. *)
Definition certificate_of (e : Enrollment) (a : IssuanceAttempt) : Certificate :=
  mc_erase (issuedCertificate e a (IssuanceAttempt_FinalizedAt a)).

Record issuance_ok (s : MemoryStore) : Prop := {
  (** two attempts never reserve the same certificate identifier *)
  iss_reserved : ∀ e1 e2 a1 a2,
    ms_issuanceAttempts s !! e1 = Some a1 → ms_issuanceAttempts s !! e2 = Some a2 →
    reserves a1 → reserves a2 →
    IssuanceAttempt_CertificateID a1 = IssuanceAttempt_CertificateID a2 → e1 = e2;
  (** a certificate is what its enrollment asked for and its attempt signed *)
  iss_certificate : ∀ id c, ms_certificates s !! id = Some c →
    ∃ e a, ms_enrollments s !! Certificate_EnrollmentID c = Some e ∧
      Enrollment_Status e = EnrollmentIssued ∧
      ms_issuanceAttempts s !! Certificate_EnrollmentID c = Some a ∧
      IssuanceAttempt_Status a = IssuanceAttemptFinalized ∧
      IssuanceAttempt_CertificateID a = id ∧ mc_erase c = certificate_of e a;
  (** an issued enrollment has its certificate *)
  iss_issued : ∀ id e, ms_enrollments s !! id = Some e → Enrollment_Status e = EnrollmentIssued →
    ∃ a c, ms_issuanceAttempts s !! id = Some a ∧
      IssuanceAttempt_Status a = IssuanceAttemptFinalized ∧
      ms_certificates s !! IssuanceAttempt_CertificateID a = Some c ∧
      Certificate_EnrollmentID c = id;
}.

(** Every revoked certificate has exactly one revocation record, and only those
    have one. *)
Record revocation_ok (s : MemoryStore) : Prop := {
  rev_recorded : ∀ id c, ms_certificates s !! id = Some c →
    Certificate_Status c = CertificateRevoked →
    ∃ k r, ms_revocations s !! k = Some r ∧ Revocation_CertificateID r = id;
  rev_only : ∀ k r, ms_revocations s !! k = Some r →
    ∃ c, ms_certificates s !! Revocation_CertificateID r = Some c ∧
      Certificate_Status c = CertificateRevoked;
  rev_unique : ∀ k1 k2 r1 r2, ms_revocations s !! k1 = Some r1 → ms_revocations s !! k2 = Some r2 →
    Revocation_CertificateID r1 = Revocation_CertificateID r2 → k1 = k2;
}.

(** Nothing is promoted before the parts it depends on. *)
Record acme_ok (s : MemoryStore) : Prop := {
  acme_authz : ∀ k a, ms_acmeAuthzs s !! k = Some a →
    ACMEAuthorization_Status a = ACMEAuthorizationValid →
    ∀ kc c, ms_acmeChallenges s !! kc = Some c → ACMEChallenge_AuthorizationID c = k →
      ACMEChallenge_Status c = ACMEChallengeValid;
  acme_order : ∀ k o, ms_acmeOrders s !! k = Some o → ACMEOrder_Status o ≠ ACMEOrderPending →
    ∀ ka a, ms_acmeAuthzs s !! ka = Some a → ACMEAuthorization_OrderID a = k →
      ACMEAuthorization_Status a = ACMEAuthorizationValid;
}.

(** ** Preservation *)

Lemma acme_ok_same s s' :
  ms_acmeAuthzs s' = ms_acmeAuthzs s → ms_acmeChallenges s' = ms_acmeChallenges s →
  ms_acmeOrders s' = ms_acmeOrders s → acme_ok s → acme_ok s'.
Proof. intros E1 E2 E3 [H1 H2]. split; rewrite ?E1, ?E2, ?E3; assumption. Qed.

(** Put the goal in terms of the tables a write leaves; failed writes and
    writes of other tables are closed by [tac]. *)
Ltac write_cases tac :=
  try solve [tac; other_table];
  match goal with |- context [snd (?op ?s)] => let f := head_of op in unfold f end;
  match goal with |- context [putRows ?t ?st ?g ?s] =>
    destruct (putRows_cases t st g s) as [(?e & _ & ->)|(?m & Hm & ->)]; [assumption|] end;
  match goal with Hm : _ = Ok _ |- _ => one_row Hm end; bool_prop.

(** A row of an updated table is the new row or an old one. *)
Ltac row_cases E :=
  let H1 := fresh "Ek" in let H2 := fresh "Ev" in
  apply lookup_insert_Some in E as [[H1 H2]|[H1 E]]; [subst|].


(** The moves out of a known status. *)
Ltac move_cases Hm :=
  simpl in Hm; repeat (apply elem_of_cons in Hm as [Hm|Hm]; [
    let H1 := fresh in let H2 := fresh in
    pose proof (f_equal fst Hm) as H1; pose proof (f_equal snd Hm) as H2; simpl in H1, H2;
    solve [done|discriminate H1]|]);
  by apply elem_of_nil in Hm.

Lemma acme_update_authz x cur s :
  update_ok (ms_acmeAuthzs s) cur x →
  (ACMEAuthorization_Status x = ACMEAuthorizationValid → ∀ k c, ms_acmeChallenges s !! k = Some c →
     ACMEChallenge_AuthorizationID c = ACMEAuthorization_ID x →
     ACMEChallenge_Status c = ACMEChallengeValid) →
  acme_ok s → acme_ok (UpdateACMEAuthorizationIfStatus x cur s).2.
Proof.
  intros Hok Hch Ha. write_cases fail. rename x0 into v.
  assert (row_step v x) as Hrow by by apply Hok. destruct Ha as [Ha Ho]. split; simpl.
  - intros k a Ek Hst. row_cases Ek; [by apply Hch|by eapply Ha].
  - intros k o Eo Hst ka a Ea Hid. row_cases Ea; [|by eapply Ho].
    assert (ACMEAuthorization_OrderID a = ACMEAuthorization_OrderID v) as Ei.
    { destruct Hrow as [E _]. by destruct a, v; injection E. }
    assert (ACMEAuthorization_Status v = ACMEAuthorizationValid) as Hv by (eapply Ho; eauto; congruence).
    exact (final_stays v a _ Hv eq_refl Hrow).
Qed.

Lemma acme_update_challenge x cur s :
  update_ok (ms_acmeChallenges s) cur x → acme_ok s → acme_ok (UpdateACMEChallengeIfStatus x cur s).2.
Proof.
  intros Hok Ha. write_cases fail. rename x0 into v.
  assert (row_step v x) as Hrow by by apply Hok. destruct Ha as [Ha Ho]. split; simpl; [|exact Ho].
  intros k a Ea Hst kc c Ec Hid. row_cases Ec; [|by eapply Ha].
  assert (ACMEChallenge_AuthorizationID c = ACMEChallenge_AuthorizationID v) as Ei.
  { destruct Hrow as [E _]. by destruct c, v; injection E. }
  assert (ACMEChallenge_Status v = ACMEChallengeValid) as Hv by (eapply Ha; eauto; congruence).
  exact (final_stays v c _ Hv eq_refl Hrow).
Qed.

Lemma acme_update_order x cur s :
  update_ok (ms_acmeOrders s) cur x →
  (ACMEOrder_Status x = ACMEOrderReady → ∀ k a, ms_acmeAuthzs s !! k = Some a →
     ACMEAuthorization_OrderID a = ACMEOrder_ID x →
     ACMEAuthorization_Status a = ACMEAuthorizationValid) →
  acme_ok s → acme_ok (UpdateACMEOrderIfStatus x cur s).2.
Proof.
  intros Hok Hr Ha. write_cases fail. rename x0 into v.
  assert (row_step v x) as [_ Hrow] by by apply Hok. destruct Ha as [Ha Ho]. split; simpl; [exact Ha|].
  intros k o Eo Hst ka a Ea Hid. row_cases Eo; [|by eapply Ho].
  destruct (decide (ACMEOrder_Status o = ACMEOrderReady)) as [E|E]; [by eapply Hr|].
  eapply Ho; eauto. simpl in Hrow. destruct Hrow as [Hrow|Hm]; [congruence|].
  intros Ev. rewrite Ev in Hm. apply E. clear -Hm.
  move_cases Hm.
Qed.

Lemma acme_new_authz x s :
  fresh gen collision s (ACMEAuthorization_ID x) →
  ACMEAuthorization_Status x = ACMEAuthorizationPending →
  (∀ o, ms_acmeOrders s !! ACMEAuthorization_OrderID x = Some o →
     ACMEOrder_Status o = ACMEOrderPending) →
  acme_ok s → acme_ok (CreateACMEAuthorization x s).2.
Proof.
  intros Hf Hp Hopen [Ha Ho]. split; simpl.
  - intros k a Ek Hst. row_cases Ek; [by rewrite Hp in Hst|by eapply Ha].
  - intros k o Eo Hst ka a Ea Hid. row_cases Ea; [|by eapply Ho]. destruct Hst. by apply Hopen.
Qed.

Lemma acme_new_challenge x s :
  ACMEChallenge_Status x = ACMEChallengePending →
  (∀ a, ms_acmeAuthzs s !! ACMEChallenge_AuthorizationID x = Some a →
     ACMEAuthorization_Status a = ACMEAuthorizationPending) →
  acme_ok s → acme_ok (CreateACMEChallenge x s).2.
Proof.
  intros Hp Hopen [Ha Ho]. split; simpl; [|exact Ho].
  intros k a Ea Hst kc c Ec Hid. row_cases Ec; [|by eapply Ha].
  assert (ACMEAuthorization_Status a = ACMEAuthorizationPending) as E by by apply Hopen. by rewrite Hst in E.
Qed.

Lemma acme_new_order x s :
  ACMEOrder_Status x = ACMEOrderPending → acme_ok s → acme_ok (Store.CreateACMEOrder x s).2.
Proof.
  intros Hp [Ha Ho]. split; simpl; [exact Ha|].
  intros k o Eo Hst ka a Ea Hid. row_cases Eo; [congruence|by eapply Ho].
Qed.

Lemma step_acme s s' : step s s' → acme_ok s → acme_ok s'.
Proof.
  intros Hs Ha. destruct Hs; try solve [apply (acme_ok_same s); [other_table..|done]];
    eauto using acme_update_authz, acme_update_challenge, acme_update_order, acme_new_authz,
      acme_new_challenge, acme_new_order.
  match goal with E : finalizeWrites _ _ _ _ = _ |- _ =>
    apply finalizeWrites_ok in E as (? & ? & _ & _ & _ & _ & _ & ->); by apply (acme_ok_same s) end.
Qed.

(** ** Issuance *)

Lemma issuance_ok_same s s' :
  ms_issuanceAttempts s' = ms_issuanceAttempts s → ms_certificates s' = ms_certificates s →
  ms_enrollments s' = ms_enrollments s → issuance_ok s → issuance_ok s'.
Proof. intros E1 E2 E3 [I1 I2 I3]. split; rewrite ?E1, ?E2, ?E3; assumption. Qed.

(** A certificate keeps what [issuance_ok] says of it when its immutable fields
    stay. *)
Lemma issuance_certificates s m :
  issuance_ok s →
  (∀ id c', m !! id = Some c' → ∃ c, ms_certificates s !! id = Some c ∧ mc_erase c' = mc_erase c) →
  (∀ id c, ms_certificates s !! id = Some c → ∃ c', m !! id = Some c' ∧ mc_erase c' = mc_erase c) →
  issuance_ok (set_certificates m s).
Proof.
  intros [I1 I2 I3] Hb Hf. assert (∀ c c' : Certificate, mc_erase c' = mc_erase c →
    Certificate_EnrollmentID c' = Certificate_EnrollmentID c) as Hid.
  { intros c c' E. by destruct c, c'; injection E. }
  split; [exact I1| |].
  - intros id c' Ec. apply Hb in Ec as (c & Ec & Ee). rewrite (Hid _ _ Ee), Ee. by apply I2.
  - intros id e He Hst. destruct (I3 id e He Hst) as (a & c & Ha & Hs & Ec & Ek).
    apply Hf in Ec as (c' & Ec & Ee). exists a, c'. by rewrite (Hid _ _ Ee).
Qed.

Lemma issuance_replace x c s :
  ms_certificates s !! Certificate_ID x = Some c → row_step c x → issuance_ok s →
  issuance_ok (set_certificates (<[Certificate_ID x := x]> (ms_certificates s)) s).
Proof.
  intros Hc [Ee _] Hi. apply issuance_certificates; [done|..].
  - intros id c' E. row_cases E; eauto.
  - intros id c' E. destruct (decide (id = Certificate_ID x)) as [->|Hne].
    + exists x. rewrite lookup_insert_eq. split; congruence.
    + exists c'. by rewrite lookup_insert_ne.
Qed.

Lemma issuance_update_enrollment x cur s :
  update_ok (ms_enrollments s) cur x → Enrollment_Status x ≠ EnrollmentIssued →
  issuance_ok s → issuance_ok (UpdateEnrollmentIfStatus x cur s).2.
Proof.
  intros Hok Hne Hi. write_cases fail. rename x0 into v.
  assert (row_step v x) as Hrow by by apply Hok. destruct Hi as [I1 I2 I3].
  assert (Enrollment_Status v ≠ EnrollmentIssued) as Hv.
  { intros Hv. exact (Hne (final_stays v x _ Hv eq_refl Hrow)). }
  split; simpl; [exact I1| |].
  - intros id c Ec. destruct (I2 id c Ec) as (e & a & He & Hs & Hrest). exists e, a. split; [|done].
    rewrite lookup_insert_ne; [done|]. intros Ek. rewrite <- Ek in He. congruence.
  - intros id e Ee Hs. row_cases Ee; [done|by eapply I3].
Qed.

Lemma issuance_new_enrollment x s :
  fresh gen collision s (Enrollment_ID x) → Enrollment_Status x = EnrollmentPending →
  issuance_ok s → issuance_ok (Store.CreateEnrollment x s).2.
Proof.
  intros Hf Hp [I1 I2 I3]. split; simpl; [exact I1| |].
  - intros id c Ec. destruct (I2 id c Ec) as (e & a & He & Hrest). exists e, a. split; [|done].
    rewrite lookup_insert_ne; [done|]. intros Ek. rewrite <- Ek in He.
    apply (fresh_unused _ _ Hf). by eapply used_enrollment.
  - intros id e Ee Hs. row_cases Ee; [by rewrite Hp in Hs|by eapply I3].
Qed.

Lemma issuance_new_attempt x s :
  IssuanceAttempt_Status x = IssuanceAttemptSigning →
  issuance_ok s → issuance_ok (CreateIssuanceAttempt x s).2.
Proof.
  intros Hs Hi. write_cases fail. destruct Hi as [I1 I2 I3].
  match goal with E : ms_issuanceAttempts s !! _ = None |- _ => rename E into Hn end.
  split; simpl.
  - intros e1 e2 a1 a2 E1 E2 R1 R2 Ei.
    row_cases E1; [by destruct R1 as [R1|R1]; rewrite R1 in Hs|].
    row_cases E2; [by destruct R2 as [R2|R2]; rewrite R2 in Hs|]. by eapply I1.
  - intros id c Ec. destruct (I2 id c Ec) as (e & a & He & Hst & Ha & Hrest). exists e, a.
    rewrite lookup_insert_ne; [done|]. congruence.
  - intros id e Ee Hst. destruct (I3 id e Ee Hst) as (a & c & Ha & Hrest). exists a, c.
    rewrite lookup_insert_ne; [done|]. congruence.
Qed.

Lemma issuance_update_attempt x cur s :
  attempt_update_ok gen collision s cur x →
  issuance_ok s → issuance_ok (UpdateIssuanceAttemptIfCurrent x cur s).2.
Proof.
  intros Hok Hi. write_cases fail. rename x0 into v.
  match goal with E : ms_issuanceAttempts s !! _ = Some v |- _ => rename E into Hv end.
  unfold sameIssuanceAttempt in *. bool_prop.
  destruct (Hok v Hv ltac:(done)) as (Hrow & Hnf & Hsg).
  assert (IssuanceAttempt_Status v ≠ IssuanceAttemptFinalized) as Hvf.
  { intros E. exact (Hnf (final_stays v x _ E eq_refl Hrow)). }
  destruct Hi as [I1 I2 I3].
  assert (∀ k a, ms_issuanceAttempts s !! k = Some a → reserves x → reserves a →
    IssuanceAttempt_CertificateID a ≠ IssuanceAttempt_CertificateID x) as Hnew.
  { intros k a Ha [R|R] Ra E; [|done]. apply (fresh_unused _ _ (Hsg R)). by eapply used_reserved. }
  split; simpl.
  - intros e1 e2 a1 a2 E1 E2 R1 R2 Ei. row_cases E1; row_cases E2; try done;
      [by destruct (Hnew _ _ E2 R1 R2)|by destruct (Hnew _ _ E1 R2 R1)|by eapply I1].
  - intros id c Ec. destruct (I2 id c Ec) as (e & a & He & Hst & Ha & Haf & Hrest). exists e, a.
    rewrite lookup_insert_ne; [done|]. congruence.
  - intros id e Ee Hst. destruct (I3 id e Ee Hst) as (a & c & Ha & Haf & Hrest). exists a, c.
    rewrite lookup_insert_ne; [done|]. congruence.
Qed.

(** The certificate identifier of a signed attempt of an approved enrollment is
    still free. *)
Lemma reserved_unissued e a s :
  issuance_ok s → ms_enrollments s !! Enrollment_ID e = Some e →
  Enrollment_Status e = EnrollmentApproved → ms_issuanceAttempts s !! Enrollment_ID e = Some a →
  IssuanceAttempt_Status a = IssuanceAttemptSigned →
  ms_certificates s !! IssuanceAttempt_CertificateID a = None.
Proof.
  intros [I1 I2 _] He Hst Ha Hs. destruct (ms_certificates s !! _) as [c|] eqn:Ec; [exfalso|done].
  destruct (I2 _ _ Ec) as (e' & a' & He' & Hs' & Ha' & Hf & Hid & _).
  assert (Certificate_EnrollmentID c = Enrollment_ID e) as Ek
    by (eapply I1; [done..|right; exact Hf|left; exact Hs|done]).
  rewrite Ek, He in He'. injection He' as <-. by rewrite Hst in Hs'.
Qed.

Lemma issuance_finalize e a now s s' :
  ms_enrollments s !! Enrollment_ID e = Some e → ms_issuanceAttempts s !! Enrollment_ID e = Some a →
  IssuanceAttempt_EnrollmentID a = Enrollment_ID e →
  IssuanceAttempt_Status a = IssuanceAttemptSigned → finalizeWrites e a now s = (Ok tt, s') →
  issuance_ok s → issuance_ok s'.
Proof.
  intros He Ha Hk Hs Hf Hi. apply finalizeWrites_ok in Hf as (e0 & a0 & He0 & Hst & _ & _ & _ & ->).
  rewrite He in He0. injection He0 as <-. clear a0. pose proof (reserved_unissued _ _ _ Hi He Hst Ha Hs) as Hn.
  destruct Hi as [I1 I2 I3]. rewrite Hk. split; simpl.
  - intros e1 e2 a1 a2 E1 E2 R1 R2 Ei. row_cases E1; row_cases E2; try done; simpl in *;
      try (eapply I1; [done|done|..|done]); first [done|by left].
  - intros id c Ec. row_cases Ec.
    + simpl. rewrite !lookup_insert_eq. do 2 eexists. do 4 (split; [done|]). done.
    + destruct (I2 id c Ec) as (e' & a' & He' & Hs' & Ha' & Hf' & Hrest). exists e', a'.
      assert (Enrollment_ID e ≠ Certificate_EnrollmentID c).
      { intros E. rewrite <- E, He in He'. injection He' as <-. by rewrite Hst in Hs'. }
      by rewrite !lookup_insert_ne.
  - intros id e' Ee Hs'. row_cases Ee.
    + do 2 eexists. rewrite lookup_insert_eq. split; [done|]. simpl. by rewrite lookup_insert_eq.
    + destruct (I3 id e' Ee Hs') as (a' & c & Ha' & Hf' & Hc & Hrest). exists a', c.
      rewrite !lookup_insert_ne; [done|congruence|done].
Qed.

(** The two writes of a revocation. *)
Lemma revokeWrites_ok c x r s :
  ms_certificates s !! Certificate_ID x = Some c →
  revokeWrites x (Certificate_Status c) r s =
    s |> set_certificates (<[Certificate_ID x := x]> (ms_certificates s))
      |> set_revocations (<[Revocation_ID r := r]> (ms_revocations s)).
Proof.
  intros Hc. unfold revokeWrites, UpdateCertificateIfStatus, putRows, updateCertificateIfStatus, updateIf.
  rewrite (proj2 (lookupRow_ok _ _ _ _) Hc). simpl. by rewrite String.eqb_refl.
Qed.

Lemma step_issuance s s' : step s s' → issuance_ok s → issuance_ok s'.
Proof.
  intros Hs Hi. destruct Hs; try solve [apply (issuance_ok_same s); [other_table..|done]];
    eauto using issuance_update_enrollment, issuance_new_enrollment, issuance_new_attempt,
      issuance_update_attempt, issuance_finalize.
  - write_cases fail. apply (issuance_replace _ x0); auto.
  - erewrite revokeWrites_ok by done. eapply issuance_ok_same, issuance_replace; done.
Qed.

(** ** Certificates and revocations *)

Lemma finalize_certificates e a now s s' :
  issuance_ok s →
  ms_enrollments s !! Enrollment_ID e = Some e → ms_issuanceAttempts s !! Enrollment_ID e = Some a →
  IssuanceAttempt_Status a = IssuanceAttemptSigned → finalizeWrites e a now s = (Ok tt, s') →
  ms_certificates s !! IssuanceAttempt_CertificateID a = None ∧
  ms_certificates s' = <[IssuanceAttempt_CertificateID a := issuedCertificate e a now]>
    (ms_certificates s) ∧
  ms_revocations s' = ms_revocations s.
Proof.
  intros Hi He Ha Hs Hf. apply finalizeWrites_ok in Hf as (e' & a' & He' & Hst & _ & _ & _ & ->).
  rewrite He in He'. injection He' as <-. split; [by eapply reserved_unissued|done].
Qed.

Lemma step_certificates s s' :
  issuance_ok s → step s s' → rows_evolve (ms_certificates s) (ms_certificates s').
Proof.
  intros Hi Hs. destruct Hs; try evolve_case.
  - erewrite revokeWrites_ok by done. simpl. by eapply rows_evolve_replace.
  - match goal with E : finalizeWrites _ _ _ _ = _ |- _ =>
      eapply finalize_certificates in E as (Hn & -> & _); [|done..] end.
    by apply rows_evolve_insert_new.
Qed.

Lemma revocation_ok_same s s' :
  ms_certificates s' = ms_certificates s → ms_revocations s' = ms_revocations s →
  revocation_ok s → revocation_ok s'.
Proof. intros E1 E2 [R1 R2 R3]. split; rewrite ?E1, ?E2; assumption. Qed.

(** A certificate that enters or leaves no revocation. *)
Lemma revocation_insert k x s s' :
  ms_certificates s' = <[k := x]> (ms_certificates s) → ms_revocations s' = ms_revocations s →
  Certificate_Status x ≠ CertificateRevoked →
  (∀ c, ms_certificates s !! k = Some c → Certificate_Status c ≠ CertificateRevoked) →
  revocation_ok s → revocation_ok s'.
Proof.
  intros E1 E2 Hx Hold [R1 R2 R3]. split; rewrite ?E1, ?E2; [| |exact R3].
  - intros id c Ec Hst. row_cases Ec; [done|by eapply R1].
  - intros k' r Er. destruct (R2 k' r Er) as (c & Ec & Hst). exists c. split; [|done].
    rewrite lookup_insert_ne; [done|]. intros ->. by apply (Hold c).
Qed.

Lemma revocation_revoke c x r s :
  ms_certificates s !! Certificate_ID x = Some c → Certificate_Status x = CertificateRevoked →
  Certificate_Status c ≠ CertificateRevoked → fresh gen collision s (Revocation_ID r) →
  Revocation_CertificateID r = Certificate_ID x →
  revocation_ok s → revocation_ok (revokeWrites x (Certificate_Status c) r s).
Proof.
  intros Hc Hx Hcs Hf Hr [R1 R2 R3]. rewrite (revokeWrites_ok c) by done. simpl.
  assert (∀ k r', ms_revocations s !! k = Some r' →
    Revocation_CertificateID r' ≠ Certificate_ID x) as Hnew.
  { intros k r' Er E. destruct (R2 _ _ Er) as (c' & Ec & Hst). rewrite E, Hc in Ec. congruence. }
  split; simpl.
  - intros id c' Ec Hst. row_cases Ec; [exists (Revocation_ID r), r; by rewrite lookup_insert_eq|].
    destruct (R1 id c' Ec Hst) as (k & r' & Er & E). exists k, r'. split; [|done].
    rewrite lookup_insert_ne; [done|]. intros <-. apply (fresh_unused _ _ Hf). by econstructor.
  - intros k r' Er. row_cases Er; [exists x; by rewrite Hr, lookup_insert_eq|].
    destruct (R2 k r' Er) as (c' & Ec & Hst). exists c'. split; [|done].
    rewrite lookup_insert_ne; [done|]. intros E. by apply (Hnew k r').
  - intros k1 k2 r1 r2 E1 E2 E. row_cases E1; row_cases E2; try done;
      [by destruct (Hnew _ _ E2); congruence|by destruct (Hnew _ _ E1); congruence|by eapply R3].
Qed.

Lemma step_revocation s s' : issuance_ok s → step s s' → revocation_ok s → revocation_ok s'.
Proof.
  intros Hi Hs Hr. destruct Hs; try solve [apply (revocation_ok_same s); [other_table..|done]];
    eauto using revocation_revoke.
  - write_cases fail. eapply revocation_insert; [done..| |done]. intros c Ec Hst.
    match goal with Hok : update_ok _ _ _, Hn : _ ≠ CertificateRevoked |- _ =>
      refine (Hn (final_stays c x _ Hst eq_refl _)); apply Hok; [done|by simplify_eq] end.
  - match goal with E : finalizeWrites _ _ _ _ = _ |- _ =>
      eapply finalize_certificates in E as (Hn & E1 & E2); [|done..] end.
    eapply revocation_insert; [done..| |done]. congruence.
Qed.

(** The three together, over a whole execution. *)
Record consistent (s : MemoryStore) : Prop := {
  con_issuance : issuance_ok s;
  con_revocation : revocation_ok s;
  con_acme : acme_ok s;
}.

Lemma consistent_new : consistent NewMemoryStore.
Proof.
  split; split; simpl; intros; match goal with E : ∅ !! _ = Some _ |- _ => by rewrite lookup_empty in E end.
Qed.

Lemma step_consistent s s' : step s s' → consistent s → consistent s'.
Proof.
  intros Hs [C1 C2 C3]. split; [by eapply step_issuance|by eapply step_revocation|by eapply step_acme].
Qed.

Lemma steps_consistent s s' : rtc step s s' → consistent s → consistent s'.
Proof. induction 1; eauto using step_consistent. Qed.

(** Every table evolves along its machine. *)
Record store_evolves (s s' : MemoryStore) : Prop := {
  ev_identities : rows_evolve (ms_identities s) (ms_identities s');
  ev_issuers : rows_evolve (ms_issuers s) (ms_issuers s');
  ev_responders : rows_evolve (ms_ocspResponders s) (ms_ocspResponders s');
  ev_endpoints : rows_evolve (ms_notifications s) (ms_notifications s');
  ev_profiles : rows_evolve (ms_profiles s) (ms_profiles s');
  ev_enrollments : rows_evolve (ms_enrollments s) (ms_enrollments s');
  ev_attempts : rows_evolve (ms_issuanceAttempts s) (ms_issuanceAttempts s');
  ev_certificates : rows_evolve (ms_certificates s) (ms_certificates s');
  ev_revocations : rows_evolve (ms_revocations s) (ms_revocations s');
  ev_crls : rows_evolve (ms_crls s) (ms_crls s');
  ev_outbox : rows_evolve (ms_outbox s) (ms_outbox s');
  ev_apiKeys : rows_evolve (ms_apiKeys s) (ms_apiKeys s');
  ev_accounts : rows_evolve (ms_acmeAccounts s) (ms_acmeAccounts s');
  ev_orders : rows_evolve (ms_acmeOrders s) (ms_acmeOrders s');
  ev_authzs : rows_evolve (ms_acmeAuthzs s) (ms_acmeAuthzs s');
  ev_challenges : rows_evolve (ms_acmeChallenges s) (ms_acmeChallenges s');
}.

#[global] Instance store_evolves_preorder : PreOrder store_evolves.
Proof.
  split; [intros s; split; reflexivity|].
  intros s1 s2 s3 [] []. split; (etrans; [eassumption|eassumption]).
Qed.

Lemma step_evolves s s' : issuance_ok s → step s s' → store_evolves s s'.
Proof.
  intros Hi Hs. split; eauto using step_identities, step_issuers, step_responders, step_endpoints,
    step_profiles, step_enrollments, step_attempts, step_certificates, step_revocations, step_crls,
    step_outbox, step_apiKeys, step_accounts, step_orders, step_authzs, step_challenges.
Qed.

Lemma steps_evolve s s' : rtc step s s' → consistent s → store_evolves s s'.
Proof.
  induction 1 as [|s1 s2 s3 Hs _ IH]; [reflexivity|]. intros C.
  etrans; [eapply step_evolves; [apply C|done]|]. apply IH. by eapply step_consistent.
Qed.
End Evolve.

(** ** Executions of the service *)

(** The documented contract of [IDGenerator]: no identifier is produced twice. *)
Class UniqueIDs `{Env} := NewID_inj : Inj (=) (=) idgen_NewID.

Section Executions.
Context `{Env} `{!UniqueIDs} `{!WebhookEnv}.

Lemma no_id_collision : ¬ id_collision.
Proof. intros (t & t' & Hne & E). by apply Hne, NewID_inj. Qed.

(** A state the service can be in. *)
Definition reachable (w : World) : Prop := ∃ t, rtc service_step (mkWorld NewMemoryStore t) w.

Lemma reachable_good w : reachable w → good w.
Proof. intros (t & Hr). apply (service_reach _ _ Hr), good_new. Qed.

Lemma reachable_consistent w : reachable w → consistent (w_store w).
Proof.
  intros (t & Hr). destruct (service_reach _ _ Hr (good_new t)) as [[_ Hs] _].
  eapply steps_consistent; [exact no_id_collision|exact Hs|apply consistent_new].
Qed.

Lemma reachable_evolves w w' :
  reachable w → rtc service_step w w' → store_evolves (w_store w) (w_store w').
Proof.
  intros Hr Hs. destruct (service_reach _ _ Hs (reachable_good _ Hr)) as [[_ Hs'] _].
  eapply steps_evolve; [exact no_id_collision|exact Hs'|by apply reachable_consistent].
Qed.

(** C3: Issuance is consistent in every reachable state. Every certificate
    belongs to an issued enrollment whose finalized attempt reserved its
    identifier, and its contents are those of the enrollment and of the signed
    result; every issued enrollment has its certificate; and no two attempts
    that signed reserve the same certificate identifier. *)
Theorem issuance_consistent w : reachable w → issuance_ok (w_store w).
Proof. intros Hr. apply con_issuance, reachable_consistent, Hr. Qed.



(** ** What the CRL lists *)

Definition revokedOf (certificates : gmap string Certificate) (issuerID : string) (r : Revocation)
  : Prop :=
  ∃ c, certificates !! Revocation_CertificateID r = Some c ∧ Certificate_IssuerID c = issuerID ∧
    Certificate_Status c = CertificateRevoked.

#[local] Instance revokedOf_dec certificates issuerID r : Decision (revokedOf certificates issuerID r).
Proof.
  unfold revokedOf. destruct (certificates !! _) as [c|]; [|right; by intros (? & ? & _)].
  destruct (decide (Certificate_IssuerID c = issuerID)); [|right; intros (? & [= <-] & ? & _); done].
  destruct (decide (Certificate_Status c = CertificateRevoked)); [left; by exists c|].
  right; intros (? & [= <-] & _ & ?); done.
Defined.

Lemma listed_ids certificates order issuerID :
  keyed Certificate_ID certificates →
  RevokedCertificateEntry_CertificateID <$> listRevocationsByIssuer certificates order issuerID =
  Revocation_CertificateID <$> filter (revokedOf certificates issuerID) order.
Proof.
  intros Hk. unfold listRevocationsByIssuer. induction order as [|r order IH]; [done|].
  rewrite filter_cons. cbn [omap list_omap]. destruct (decide (revokedOf _ _ _)) as [(c & Ec & <- & Es)|Hn].
  - rewrite Ec, Es, !String.eqb_refl. simpl negb. cbn [orb]. rewrite !fmap_cons. f_equal; [by apply Hk|exact IH].
  - destruct (certificates !! _) as [c|] eqn:Ec; [|done].
    destruct (_ || _) eqn:Eb; [done|]. bool_prop. exfalso. apply Hn. exists c. auto.
Qed.

Lemma NoDup_map_values {V} (f : V → string) (m : gmap string V) :
  (∀ k1 k2 v1 v2, m !! k1 = Some v1 → m !! k2 = Some v2 → f v1 = f v2 → k1 = k2) →
  NoDup (f <$> map_values m).
Proof.
  intros Hf. unfold map_values. rewrite <- list_fmap_compose. apply NoDup_fmap_2_strong.
  - intros [k1 v1] [k2 v2] E1%elem_of_map_to_list E2%elem_of_map_to_list E. simpl in E.
    assert (k1 = k2) as -> by by eapply Hf. congruence.
  - apply NoDup_map_to_list.
Qed.

(** C4: The revocations that the CRL and OCSP paths read for an issuer name
    exactly its revoked certificates, each once, in whatever order the table is
    visited. *)
Theorem revocations_complete w order issuerID :
  reachable w → order ≡ₚ map_values (ms_revocations (w_store w)) →
  let ids := RevokedCertificateEntry_CertificateID <$>
    listRevocationsByIssuer (ms_certificates (w_store w)) order issuerID in
  NoDup ids ∧
  ∀ id, id ∈ ids ↔ ∃ c, ms_certificates (w_store w) !! id = Some c ∧
    Certificate_IssuerID c = issuerID ∧ Certificate_Status c = CertificateRevoked.
Proof.
  intros Hr Ho ids. pose proof (good_store _ (reachable_good _ Hr)) as Hi.
  destruct (con_revocation _ (reachable_consistent _ Hr)) as [R1 R2 R3].
  unfold ids. rewrite listed_ids by apply Hi. split.
  - eapply sublist_NoDup; [|apply fmap_sublist, sublist_filter]. rewrite Ho. by apply NoDup_map_values.
  - intros id. rewrite list_elem_of_fmap. split.
    + intros (r & -> & Hf). by apply list_elem_of_filter in Hf as [? _].
    + intros (c & Ec & E1 & E2). destruct (R1 _ _ Ec E2) as (k & r & Er & <-).
      exists r. split; [done|]. apply list_elem_of_filter. split; [by exists c|].
      rewrite Ho. apply elem_of_map_values. eauto.
Qed.


(** Every row that has status [st] in [w] has it in [w']. *)
Definition keeps_status {V} `{Machine V} (w w' : World) (st : string) : Prop :=
  ∀ id v, mc_table (w_store w) !! id = Some v → mc_status v = st →
  ∃ v', mc_table (w_store w') !! id = Some v' ∧ mc_status v' = st.

(** Terminal statuses are terminal. A revoked or an expired certificate, a
    rejected or an issued enrollment, a finalized issuance attempt, a completed
    outbox message, a disabled API key and a deactivated ACME account keep
    their status in every later state. *)
Theorem terminal_statuses w w' :
  reachable w → rtc service_step w w' →
  keeps_status (V:=Certificate) w w' CertificateRevoked ∧
  keeps_status (V:=Certificate) w w' CertificateExpired ∧
  keeps_status (V:=Enrollment) w w' EnrollmentRejected ∧
  keeps_status (V:=Enrollment) w w' EnrollmentIssued ∧
  keeps_status (V:=IssuanceAttempt) w w' IssuanceAttemptFinalized ∧
  keeps_status (V:=OutboxMessage) w w' OutboxCompleted ∧
  keeps_status (V:=APIKey) w w' APIKeyDisabled ∧
  keeps_status (V:=ACMEAccount) w w' ACMEAccountDeactivated.
Proof.
  intros Hr Hs. destruct (reachable_evolves _ _ Hr Hs).
  assert (∀ V (M : Machine V) st, rows_evolve (mc_table (w_store w)) (mc_table (w_store w')) →
    final_status st = true → keeps_status w w' st) as Hst.
  { intros V M st Hev Hf id v Hv Es. apply Hev in Hv as (v' & Hv' & Hsteps).
    exists v'. split; [done|by eapply final_evolve]. }
  repeat split; by apply Hst.
Qed.
End Executions.

(** ** Witnesses *)

#[global] Instance sample_unique : @UniqueIDs sample_env.
Proof.
  intros t1 t2 E. simpl in E. injection E as E. by apply itoa_inj, Nat2Z.inj in E.
Qed.

Section Witnesses.
#[local] Existing Instance sample_env.
#[local] Existing Instance sample_webhook.

(** A certificate is issued and revoked, and an ACME order is placed. *)
Definition history_world1 : World :=
  (IssueCertificate "operator" "id-8" (ApproveEnrollment "operator" "id-8"
    (Lifecycle.CreateEnrollment "operator" (sample_enrollment "id-1" "id-4")
      (Registry.CreateIssuer "operator" sample_issuer
        (Registry.CreateIdentity "operator" sample_identity new_world).2).2).2).2).2.
Definition history_world2 : World :=
  (CreateACMEAccount "operator" (mkCreateACMEAccountRequest [] true "thumbprint" "{}")
    (RevokeCertificate "operator" "id-15" "superseded" history_world1).2).2.

Lemma history_reachable1 : reachable history_world1.
Proof.
  exists 0. unfold history_world1. eapply rtc_r; [|apply op_step_service, ss_IssueCertificate].
  eapply rtc_r; [|apply op_step_service, ss_ApproveEnrollment]. eapply rtc_r; [|apply op_step_service, ss_CreateEnrollment].
  eapply rtc_r; [|apply op_step_service, ss_CreateIssuer]. eapply rtc_r; [|apply op_step_service, ss_CreateIdentity]. apply rtc_refl.
Qed.
Lemma history_steps : rtc service_step history_world1 history_world2.
Proof.
  unfold history_world2. eapply rtc_r; [|apply op_step_service, ss_CreateACMEAccount].
  eapply rtc_r; [|apply op_step_service, ss_Revoke]. apply rtc_refl.
Qed.
#[local] Opaque history_world1 history_world2.

Lemma issuance_consistent_witness : issuance_ok (w_store history_world1).
Proof. apply issuance_consistent, history_reachable1. Defined.

Lemma history_reachable2 : reachable history_world2.
Proof. destruct history_reachable1 as [t Hr]. exists t. etrans; [exact Hr|exact history_steps]. Qed.


Lemma revocations_complete_witness :
  NoDup (RevokedCertificateEntry_CertificateID <$>
    listRevocationsByIssuer (ms_certificates (w_store history_world2))
      (map_values (ms_revocations (w_store history_world2))) "id-4").
Proof. apply (revocations_complete history_world2 _ "id-4" history_reachable2 (reflexivity _)). Defined.


Lemma terminal_statuses_witness :
  keeps_status (V:=Enrollment) history_world1 history_world2 EnrollmentIssued.
Proof. apply (terminal_statuses _ _ history_reachable1 history_steps). Defined.
End Witnesses.
