(* ===== verification/PolicyFacts.v ===== *)
(** * Correctness of the policy checks

    Declarative readings of the decision procedures of [Policy]: which names
    and addresses a profile admits, when an enrollment passes the profile, the
    public-TLS validity ceilings and the arithmetic around them, and the small
    list checks. *)

From Stdlib Require Import Ascii.
From S2P Require Import Prelude GoLib Crypto Domain Core NetIP Requests AuditChain Store StoreInv.
From S2P Require Import Service Policy Samples.

(** ** Names and addresses *)

Section Names.
Context `{Env}.

(** What one pattern admits: the name itself, or, for a pattern [*.base], every
    name that ends in [.base] after at least one more byte. *)
Definition dns_matches (name pattern : string) : Prop :=
  pattern = name ∨
  ∃ label base, pattern = "*." +:+ base ∧ label ≠ "" ∧ name = label +:+ "." +:+ base.

Definition canonicalName (name : string) : string := ToLower (TrimSpace name).

(** Membership up to the first blank pattern, which ends the search. *)
Definition admitted {A} (stops ok : A → Prop) (l : list A) : Prop :=
  ∃ pre x post, l = pre ++ x :: post ∧ Forall (λ y, ¬ stops y) pre ∧ ¬ stops x ∧ ok x.

Lemma admitted_nil {A} (stops ok : A → Prop) : ¬ admitted stops ok [].
Proof. intros (pre & x & post & E & _). by destruct pre. Qed.

Lemma admitted_cons {A} (stops ok : A → Prop) x l :
  admitted stops ok (x :: l) ↔ ¬ stops x ∧ (ok x ∨ admitted stops ok l).
Proof.
  split.
  - intros ([|y pre] & z & post & E & Hp & Hz & Hok); simplify_eq/=; [by split; [|left]|].
    apply Forall_cons in Hp as [Hx Hp]. split; [done|]. right. by exists pre, z, post.
  - intros [Hx [Hok|(pre & z & post & -> & Hp & Hz & Hok)]]; [by exists [], x, l|].
    exists (x :: pre), z, post. repeat split; [|done..]. by constructor.
Qed.

Lemma wildcard_matches name pattern :
  HasPrefix pattern "*." && HasSuffix name (str_drop 1 pattern)
    && Nat.ltb (String.length (str_drop 1 pattern)) (String.length name) = true ↔
  ∃ label base, pattern = "*." +:+ base ∧ label ≠ "" ∧ name = label +:+ "." +:+ base.
Proof.
  rewrite !andb_true_iff, Nat.ltb_lt, HasPrefix_spec, HasSuffix_spec.
  assert (∀ base, str_drop 1 ("*." +:+ base) = "." +:+ base) as Hd.
  { intros base. exact (str_drop_app "*" ("." +:+ base)). }
  split.
  - intros [[(base & ->) (label & E)] Hl]. rewrite Hd in E, Hl. exists label, base.
    split; [done|]. split; [|done]. intros ->. subst name. simpl in Hl. lia.
  - intros (label & base & -> & Hne & ->). rewrite Hd. split; [split; eauto|].
    rewrite !length_append. destruct label; [done|]. cbn. lia.
Qed.

Lemma dnsPatternLoop_spec name patterns :
  dnsPatternLoop name patterns = true ↔
  admitted (λ p, canonicalName p = "") (λ p, dns_matches name (canonicalName p)) patterns.
Proof.
  induction patterns as [|p patterns IH]; [split; [done|by intros ?%admitted_nil]|].
  rewrite admitted_cons, <- IH. cbn [dnsPatternLoop]. fold (canonicalName p).
  destruct (String.eqb_spec (canonicalName p) "") as [E|E]; [by split; [|intros []]|].
  unfold dns_matches. destruct (String.eqb_spec (canonicalName p) name) as [E'|E']; [by intuition|].
  rewrite <- wildcard_matches. destruct (_ && _ && _); intuition congruence.
Qed.

(** A profile with patterns admits exactly the names that match one of its
    patterns listed before the first blank one: the name itself up to case and
    surrounding space, or [*.base] with the name ending in [.base] after a
    non-empty prefix. A profile without patterns admits every name. *)
Theorem dnsAllowedByProfile_spec name patterns :
  dnsAllowedByProfile name patterns = true ↔
  patterns = [] ∨
  canonicalName name ≠ "" ∧
  admitted (λ p, canonicalName p = "") (λ p, dns_matches (canonicalName name) (canonicalName p))
    patterns.
Proof.
  destruct patterns as [|p patterns]; [split; [by left|done]|].
  unfold dnsAllowedByProfile. fold (canonicalName name).
  destruct (String.eqb_spec (canonicalName name) "") as [E|E].
  - split; [done|]. by intros [?|[? _]].
  - rewrite dnsPatternLoop_spec. split; [by right|]. by intros [?|[_ ?]].
Qed.

(** An address is in a prefix when it has no zone, is of the same family and
    agrees with it on the first [prefix_len] bits. *)
Definition in_prefix (p : Prefix) (a : Addr) : Prop :=
  addr_zone a = "" ∧ addr_is6 (prefix_addr p) = addr_is6 a ∧
  Z.shiftr (addr_bits a) (addr_width a - prefix_len p) =
  Z.shiftr (addr_bits (prefix_addr p)) (addr_width a - prefix_len p).

Lemma prefix_contains_spec p a : prefix_contains p a = true ↔ in_prefix p a.
Proof.
  unfold prefix_contains, in_prefix.
  destruct (String.eqb_spec (addr_zone a) "") as [->|Hz]; simpl; [|intuition congruence].
  destruct (Bool.eqb_spec (addr_is6 (prefix_addr p)) (addr_is6 a)) as [->|He]; simpl;
    [|intuition congruence].
  rewrite Z.eqb_eq, Z.shiftr_lxor, Z.lxor_eq_0_iff. tauto.
Qed.

(** A profile with ranges admits exactly the addresses that parse and lie in
    one of its ranges before the first malformed one, compared on the bits of
    the prefix. A profile without ranges admits every address. *)
Theorem ipAllowedByProfile_spec address ranges :
  ipAllowedByProfile address ranges = true ↔
  ranges = [] ∨
  ∃ addr, ParseAddr (TrimSpace address) = Some addr ∧
    admitted (λ r, ParsePrefix (TrimSpace r) = None)
      (λ r, ∃ p, ParsePrefix (TrimSpace r) = Some p ∧ in_prefix p addr) ranges.
Proof.
  assert (∀ addr l, ipRangeLoop addr l = true ↔ admitted (λ r, ParsePrefix (TrimSpace r) = None)
    (λ r, ∃ p, ParsePrefix (TrimSpace r) = Some p ∧ in_prefix p addr) l) as Hloop.
  { intros addr l. induction l as [|r l IH]; [split; [done|by intros ?%admitted_nil]|].
    rewrite admitted_cons, <- IH. cbn [ipRangeLoop].
    destruct (ParsePrefix (TrimSpace r)) as [p|]; [|by intuition].
    destruct (prefix_contains p addr) eqn:E.
    - apply prefix_contains_spec in E. split; [intros _; split; [done|left; eauto]|done].
    - split; [intros ?; split; [done|by right]|]. intros [_ [(p' & [= <-] & Hp)|?]]; [|done].
      apply prefix_contains_spec in Hp. congruence. }
  destruct ranges as [|r ranges]; [split; [by left|done]|]. unfold ipAllowedByProfile.
  destruct (ParseAddr (TrimSpace address)) as [addr|].
  - rewrite Hloop. split; [right; eauto|]. by intros [?|(? & [= <-] & ?)].
  - split; [done|]. by intros [?|(? & ? & _)].
Qed.
End Names.

(** ** Ceilings *)

Section Ceilings.
Context `{Env}.

Definition days (n : Z) : Duration := (n * 24 * Hour)%Z.

(** The public-TLS ceilings follow the published schedule - at most 200 days
    until 15 March 2027, 100 days until 15 March 2029 and 47 days (10 for the
    reuse of a validation) from then on - and never grow with time. *)
Theorem ceilings_schedule t1 t2 :
  publicTLSValidityCeiling t1 0 =
    (if Before t1 (DateUTC 2027 3 15) then days 200
     else if Before t1 (DateUTC 2029 3 15) then days 100 else days 47) ∧
  publicTLSValidationReuseCeiling t1 =
    (if Before t1 (DateUTC 2027 3 15) then days 200
     else if Before t1 (DateUTC 2029 3 15) then days 100 else days 10) ∧
  ((t1 <= t2)%Z → (publicTLSValidityCeiling t2 0 <= publicTLSValidityCeiling t1 0)%Z ∧
    (publicTLSValidationReuseCeiling t2 <= publicTLSValidationReuseCeiling t1)%Z).
Proof.
  assert (∀ t x, scheduleCeiling [mkCeiling (DateUTC 2026 3 15) (days 200);
      mkCeiling (DateUTC 2027 3 15) (days 100); mkCeiling (DateUTC 2029 3 15) x] t =
    (if Before t (DateUTC 2027 3 15) then days 200
     else if Before t (DateUTC 2029 3 15) then days 100 else x)) as Hs.
  { intros t x. unfold scheduleCeiling, Before. simpl.
    pose proof (eq_refl : (DateUTC 2026 3 15 ?= DateUTC 2027 3 15)%Z = Lt).
    pose proof (eq_refl : (DateUTC 2027 3 15 ?= DateUTC 2029 3 15)%Z = Lt).
    rewrite !Z.compare_lt_iff in *.
    destruct (Z.ltb_spec t (DateUTC 2027 3 15)), (Z.ltb_spec t (DateUTC 2029 3 15)),
      (Z.ltb_spec t (DateUTC 2026 3 15)); simpl; lia. }
  assert (∀ t, publicTLSValidityCeiling t 0 = _) as E1 by (intros; exact (Hs _ (days 47))).
  assert (∀ t, publicTLSValidationReuseCeiling t = _) as E2 by (intros; exact (Hs _ (days 10))).
  rewrite !E1, !E2. split; [done|]. split; [done|]. intros Ht. unfold Before.
  pose proof (eq_refl : (days 100 ?= days 200)%Z = Lt). pose proof (eq_refl : (days 47 ?= days 100)%Z = Lt).
  pose proof (eq_refl : (days 10 ?= days 100)%Z = Lt). rewrite !Z.compare_lt_iff in *.
  destruct (Z.ltb_spec t1 (DateUTC 2027 3 15)), (Z.ltb_spec t1 (DateUTC 2029 3 15)),
    (Z.ltb_spec t2 (DateUTC 2027 3 15)), (Z.ltb_spec t2 (DateUTC 2029 3 15)); lia.
Qed.

(** Checks in sequence. *)
Lemma bindR_tt (r : res unit) (k : unit → res unit) :
  bindR r k = Ok tt ↔ r = Ok tt ∧ k tt = Ok tt.
Proof. destruct r as [[]|e]; simpl; [intuition|split; [done|by intros []]]. Qed.

Lemma secondsToDuration_exact n :
  (0 <= n <= 9223372036)%Z → secondsToDuration n = (n * Second)%Z.
Proof. intros Hn. apply wrap64_id. unfold int64, Second. lia. Qed.

(** An accepted public-TLS profile has a validity period, as computed on 64
    bits, within the ceiling of the moment. *)
Lemma accepted_profile_duration req now :
  validateCreateCertificateProfileRequest req now = Ok tt →
  CreateCertificateProfileRequest_PublicTLS req = true →
  (0 < CreateCertificateProfileRequest_ValidityPeriodSeconds req)%Z ∧
  (secondsToDuration (CreateCertificateProfileRequest_ValidityPeriodSeconds req)
    <= publicTLSValidityCeiling now publicTLSMaxValidityOverride)%Z.
Proof.
  unfold validateCreateCertificateProfileRequest. rewrite !bindR_tt, !check_not_ok.
  intros (H1 & _ & _ & _ & Hc & _) Hp. rewrite Hp in Hc. simpl in Hc. bool_prop. done.
Qed.

(** A public-TLS profile whose period in nanoseconds fits in 64 bits is
    accepted only when the period is within the ceiling. *)
Theorem profile_within_ceiling req now :
  validateCreateCertificateProfileRequest req now = Ok tt →
  CreateCertificateProfileRequest_PublicTLS req = true →
  (CreateCertificateProfileRequest_ValidityPeriodSeconds req <= 9223372036)%Z →
  (CreateCertificateProfileRequest_ValidityPeriodSeconds req * Second
    <= publicTLSValidityCeiling now publicTLSMaxValidityOverride)%Z.
Proof.
  intros Hv Hp Hn. destruct (accepted_profile_duration _ _ Hv Hp) as [H0 Hc].
  by rewrite secondsToDuration_exact in Hc by lia.
Qed.

(** C25: Whatever period a public-TLS profile was accepted with, also one that
    overflows, an enrollment that passes the profile's policy asks for no more
    than the ceiling in force when the profile was accepted. *)
Theorem public_tls_enrollment_bounded req accepted profile ereq csr now :
  validateCreateCertificateProfileRequest req accepted = Ok tt →
  CreateCertificateProfileRequest_PublicTLS req = true →
  CertificateProfile_ID profile ≠ "" →
  CertificateProfile_ValidityPeriodSeconds profile =
    CreateCertificateProfileRequest_ValidityPeriodSeconds req →
  validateEnrollmentProfilePolicy ereq profile csr now = Ok tt →
  (CreateEnrollmentRequest_RequestedNotAfter ereq
    <= now + publicTLSValidityCeiling accepted publicTLSMaxValidityOverride)%Z.
Proof.
  intros Hv Hp Hid Hn Hpol. destruct (accepted_profile_duration _ _ Hv Hp) as [H0 Hc].
  unfold validateEnrollmentProfilePolicy in Hpol. rewrite bindR_tt in Hpol.
  destruct Hpol as [_ Hpol]. apply String.eqb_neq in Hid. rewrite Hid, bindR_tt, check_not_ok in Hpol.
  destruct Hpol as [Hl _]. rewrite Hn in Hl. apply Z.ltb_lt in H0. rewrite H0 in Hl.
  unfold After, Add in Hl. simpl in Hl. bool_prop. lia.
Qed.
End Ceilings.

(** A profile request with nothing but a name, an issuer and a period. *)
Definition bare_profile (publicTLS : bool) (seconds : Z) : CreateCertificateProfileRequest :=
  mkCreateCertificateProfileRequest "web" "" "issuer" seconds publicTLS "" [] [] [] 0 []
    zero_StringListExtensionPolicy zero_StringListExtensionPolicy zero_BasicConstraintsPolicy
    false false.

(** The conversion of the period to nanoseconds overflows: a public-TLS
    profile of 9,223,372,037 seconds, 292 years, is accepted. *)
Theorem profile_ceiling_overflow now :
  validateCreateCertificateProfileRequest (H:=sample_env) (bare_profile true 9223372037) now = Ok tt.
Proof.
  assert (secondsToDuration 9223372037 < 0)%Z as Hneg by reflexivity.
  assert (0 < publicTLSValidityCeiling now 0)%Z as Hpos.
  { unfold publicTLSValidityCeiling, scheduleCeiling. simpl. by repeat case_match. }
  unfold validateCreateCertificateProfileRequest. rewrite !bindR_tt, !check_not_ok.
  repeat split; try reflexivity. cbn -[secondsToDuration publicTLSValidityCeiling].
  apply Z.ltb_ge. lia.
Qed.

(** ** Enrollment policy *)

Section EnrollmentPolicy.
Context `{Env}.




Lemma oneOf_spec value values : oneOf value values = true ↔ value ∈ values.
Proof.
  unfold oneOf. rewrite list_find_existsb. setoid_rewrite String.eqb_eq. split; [by intros (x & ? & <-)|eauto].
Qed.
Lemma oneOf_false value values : oneOf value values = false ↔ value ∉ values.
Proof. rewrite <- oneOf_spec. by destruct (oneOf value values). Qed.

Lemma nonempty_length {A} (l : list A) : negb (Nat.eqb (length l) 0) = false ↔ l = [].
Proof. by destruct l. Qed.






End EnrollmentPolicy.

(** ** Lists of strings *)

#[local] Instance string_le_total : Total string_le.
Proof.
  intros a b. unfold string_le. destruct (b <s a) eqn:E; [|by left]. right.
  destruct (a <s b) eqn:E'; [|done]. pose proof (string_ltb_trans _ _ _ E E') as H.
  by rewrite string_ltb_irrefl in H.
Qed.
#[local] Instance string_le_trans : Transitive string_le.
Proof.
  intros a b c. unfold string_le. intros H1 H2. destruct (c <s a) eqn:E; [|done].
  destruct (b <s c) eqn:E3.
  - by rewrite (string_ltb_trans _ _ _ E3 E) in H1.
  - by rewrite (string_ltb_total _ _ H2 E3) in E; rewrite E in H1.
Qed.
#[local] Instance string_le_antisymm : AntiSymm (=) string_le.
Proof. intros a b H1 H2. by apply string_ltb_total. Qed.

Lemma zip_eqb_spec (l l' : list string) :
  length l = length l' → forallb (λ '(a, b), a =s b) (zip l l') = true ↔ l = l'.
Proof.
  revert l'. induction l as [|a l IH]; intros [|b l'] Hl; simplify_eq/=; [done|].
  rewrite andb_true_iff, String.eqb_eq, IH by done. split; [by intros [-> ->]|by intros [= -> ->]].
Qed.

(** [sameStringSet] compares lists up to order: it holds exactly when one is
    a permutation of the other, repetitions included. *)
Theorem sameStringSet_spec left right : sameStringSet left right = true ↔ left ≡ₚ right.
Proof.
  unfold sameStringSet, sortedStrings. rewrite andb_true_iff, Nat.eqb_eq. split.
  - intros [Hl Hz]. rewrite zip_eqb_spec in Hz by by rewrite !merge_sort_Permutation.
    by rewrite <- (merge_sort_Permutation string_le left), Hz, merge_sort_Permutation.
  - intros Hp. split; [by apply Permutation_length|].
    rewrite zip_eqb_spec by by rewrite !merge_sort_Permutation, Hp.
    apply (Sorted_unique string_le); [apply Sorted_merge_sort, _..|].
    by rewrite !merge_sort_Permutation.
Qed.

Lemma scopesLoop_spec seen scopes :
  scopesLoop seen scopes = Ok tt ↔
  Forall (λ s, s ∈ [APIKeyScopeRead; APIKeyScopeWrite; APIKeyScopeOperator]) scopes ∧
  NoDup scopes ∧ ∀ s, s ∈ scopes → s ∉ seen.
Proof.
  revert seen. induction scopes as [|x scopes IH]; intros seen; cbn [scopesLoop].
  - split; [|done]. intros _. split; [constructor|]. split; [constructor|]. by intros s ?%elem_of_nil.
  - rewrite !bindR_tt, !check_not_ok, negb_false_iff, oneOf_spec, oneOf_false, IH, Forall_cons, NoDup_cons.
    set_solver.
Qed.

(** The scopes of an API key are accepted exactly when there is at least
    one, each is a known scope and none is repeated. *)
Theorem validateAPIKeyScopes_spec scopes :
  validateAPIKeyScopes scopes = Ok tt ↔
  scopes ≠ [] ∧ NoDup scopes ∧
  scopes ⊆ [APIKeyScopeRead; APIKeyScopeWrite; APIKeyScopeOperator].
Proof.
  unfold validateAPIKeyScopes. rewrite bindR_tt, check_not_ok, scopesLoop_spec.
  assert (Nat.eqb (length scopes) 0 = false ↔ scopes ≠ []) as -> by by destruct scopes.
  rewrite Forall_forall. set_solver.
Qed.

(** ** Witnesses *)

Section Witnesses.
#[local] Existing Instance sample_env.

Lemma ceilings_schedule_witness :
  (publicTLSValidityCeiling (DateUTC 2028 1 1) 0 <= publicTLSValidityCeiling (DateUTC 2026 5 1) 0)%Z.
Proof. apply (ceilings_schedule (DateUTC 2026 5 1) (DateUTC 2028 1 1)). by vm_compute. Defined.

Lemma profile_within_ceiling_witness :
  (7776000 * Second <= publicTLSValidityCeiling sample_epoch 0)%Z.
Proof.
  refine (profile_within_ceiling (H:=sample_env) (bare_profile true 7776000) sample_epoch _ _ _);
    by vm_compute.
Defined.

Lemma public_tls_enrollment_bounded_witness :
  (sample_epoch + 90 * 24 * Hour <= sample_epoch + publicTLSValidityCeiling sample_epoch 0)%Z.
Proof.
  refine (public_tls_enrollment_bounded (H:=sample_env) (bare_profile true 7776000) sample_epoch
    (mkCertificateProfile "web" "" "" "issuer" 7776000 true "" [] [] [] 0 []
       zero_StringListExtensionPolicy zero_StringListExtensionPolicy zero_BasicConstraintsPolicy
       false false zero_time zero_time)
    (sample_enrollment "host" "issuer") sample_csr sample_epoch _ _ _ _ _); by vm_compute.
Defined.
End Witnesses.
