(* ===== verification/Outcomes.v ===== *)
(** * Outcomes of service actions

    What a successful or a failed action says about the world it leaves: the
    inversion of a success into the guards that held and the rows that were
    read ([succeeds]), actions that leave the store as it was when they fail
    ([atomic]), and projections of the store that an action does not change
    ([same]). Most operations of the service do their writes in one transaction:
    they are listed by [transactional], and one that returns an error leaves the
    store exactly as it was. (The exceptions are by design: issuance persists
    the signed attempt before it finalizes, CRL publication leases a claim, the
    HTTP-01 validation marks the challenge as processing, and ACME finalization
    is a sequence of operations.) *)

From S2P Require Import Prelude GoLib Crypto Domain Core NetIP Requests AuditChain Store StoreInv Service Policy Registry Lifecycle Issuance Outbox CRL APIKeys OCSP ACME Samples Machines ServiceFacts Invariants.

(** ** Success *)

Lemma retM_ok {S A} (a b : A) (s s' : S) : retM a s = (Ok b, s') → a = b ∧ s = s'.
Proof. by intros [= -> ->]. Qed.
Lemma liftM_ok {S A} (r : res A) (a : A) (s s' : S) : liftM r s = (Ok a, s') → r = Ok a ∧ s = s'.
Proof. by intros [= -> ->]. Qed.

(** A getter of one row, whatever its name. *)
Ltac getter H :=
  lazymatch type of H with
  | repo ?op _ = _ =>
      let f := head_of op in
      unfold f in H; apply repo_getRow in H; destruct H as [? H]; subst
  end.

Ltac leaf_ok H :=
  lazymatch type of H with
  | return_if _ _ _ = _ => apply return_if_ok_inv in H as [H ?]; subst
  | liftM _ _ = _ => apply liftM_ok in H as [H ?]; subst
  | now_ _ = _ => pose proof (now_ok _ _ _ H)
  | WithinTx _ _ = _ => apply WithinTx_ok in H
  | catchM _ _ = _ => apply catch_ok in H
  | repo _ _ = _ => try getter H
  | _ => idtac
  end.

(** A successful write, as the store it leaves. *)
Lemma repo_putRows {V} (tbl : MemoryStore → gmap string V) set f w u w' :
  repo (putRows tbl set f) w = (Ok u, w') →
  ∃ m, f (tbl (w_store w)) = Ok m ∧ w_store w' = set m (w_store w).
Proof. intros [E _]%repo_eq. by apply putRows_ok in E. Qed.

Ltac wrote H :=
  lazymatch type of H with
  | repo ?op _ = _ =>
      let f := head_of op in
      try unfold f in H;
      let m := fresh "m" in let Hm := fresh "Hm" in
      apply repo_putRows in H as (m & Hm & H); one_row Hm; simpl in H
  end.

(** Decompose a success into its steps. *)
Ltac succeeds H :=
  repeat lazymatch type of H with
  | bindM _ _ _ = (Ok _, _) =>
      let a := fresh "a" in let w := fresh "w" in let Hs := fresh "Hs" in
      apply bindM_ok_inv in H as (a & w & Hs & H); cbv beta zeta in H; leaf_ok Hs
  | WithinTx _ _ = (Ok _, _) => apply WithinTx_ok in H
  | retM _ _ = (Ok _, _) => apply retM_ok in H as [? ?]; subst
  | failM _ _ = (Ok _, _) => discriminate H
  end.

(** ** Evaluation *)

Lemma bindM_ok_eq {S A B} (m : GoM S A) (k : A → GoM S B) s a s' :
  m s = (Ok a, s') → bindM m k s = k a s'.
Proof. intros E. unfold bindM. by rewrite E. Qed.
Lemma bindM_err_eq {S A B} (m : GoM S A) (k : A → GoM S B) s e s' :
  m s = (Err e, s') → bindM m k s = (Err e, s').
Proof. intros E. unfold bindM. by rewrite E. Qed.
Lemma catchM_eq {S A} (m : GoM S A) s r s' : m s = (r, s') → catchM m s = (Ok r, s').
Proof. intros E. unfold catchM. by rewrite E. Qed.
Lemma WithinTx_err_eq {A} (m : Svc A) w e w' :
  m w = (Err e, w') → WithinTx m w = (Err e, mkWorld (w_store w) (w_tick w')).
Proof. intros E. unfold WithinTx. by rewrite E. Qed.
Lemma WithinTx_ok_eq {A} (m : Svc A) w a w' : m w = (Ok a, w') → WithinTx m w = (Ok a, w').
Proof. intros E. unfold WithinTx. by rewrite E. Qed.
Lemma return_if_false {S} c e (s : S) : c = false → return_if c e s = (Ok tt, s).
Proof. by intros ->. Qed.
Lemma return_if_true {S} c e (s : S) : c = true → return_if c e s = (Err e, s).
Proof. by intros ->. Qed.
Lemma now_eq `{Env} w : now_ w = (Ok (clock_Now (w_tick w)), mkWorld (w_store w) (S (w_tick w))).
Proof. done. Qed.
Lemma getRow_err {V} (tbl : MemoryStore → gmap string V) id err w :
  tbl (w_store w) !! id = None → repo (getRow tbl id err) w = (Err err, w).
Proof. intros E. unfold repo, getRow, lookupRow. rewrite E. by destruct w. Qed.
Lemma getRow_eq {V} (tbl : MemoryStore → gmap string V) id err w v :
  tbl (w_store w) !! id = Some v → repo (getRow tbl id err) w = (Ok v, w).
Proof. intros E. unfold repo, getRow, lookupRow. rewrite E. by destruct w. Qed.

(** ** Failure *)

Definition atomic {A} (m : Svc A) : Prop :=
  ∀ w e w', m w = (Err e, w') → w_store w' = w_store w.

Definition total {A} (m : Svc A) : Prop := ∀ w, is_ok (m w).1 = true.

Definition reads {A} (m : Svc A) : Prop := ∀ w, moves eq m w.

Section Atomic.
Lemma reads_store {A} (m : Svc A) w r w' : reads m → m w = (r, w') → w_store w' = w_store w.
Proof. intros Hm. apply reads_ok, Hm. Qed.

Lemma atomic_reads {A} (m : Svc A) : reads m → atomic m.
Proof. intros Hm w e w' E. by eapply reads_store. Qed.

Lemma atomic_tx {A} (m : Svc A) : atomic (WithinTx m).
Proof. intros w e w'. apply WithinTx_err. Qed.

Lemma atomic_bind {A B} (m : Svc A) (k : A → Svc B) :
  reads m → (∀ a, atomic (k a)) → atomic (bindM m k).
Proof.
  intros Hm Hk w e w' E. apply bindM_inv in E as [(a & w1 & E1 & E2)|(e' & E & _)].
  - rewrite (Hk a w1 e w' E2). by eapply reads_store.
  - by eapply reads_store.
Qed.

Lemma atomic_then {A B} (m : Svc A) (k : A → Svc B) :
  atomic m → (∀ a, total (k a)) → atomic (bindM m k).
Proof.
  intros Hm Hk w e w' E. apply bindM_inv in E as [(a & w1 & _ & E2)|(e' & E & _)].
  - specialize (Hk a w1). by rewrite E2 in Hk.
  - by eapply Hm.
Qed.

Lemma total_ret {A} (a : A) : total (retM a).
Proof. done. Qed.
End Atomic.

#[export] Hint Resolve reads_profileFor reads_inspectCSR reads_deployment reads_getAPIKeyByToken
  reads_generateToken reads_validateOCSPResponder : moves_db.

Lemma reads_CAA `{Env} names w : moves eq (validatePublicTLSCAA names) w.
Proof.
  unfold validatePublicTLSCAA. moves. apply moves_forM; [apply _|]. intros. unfold caaCheck. moves.
Qed.
#[export] Hint Resolve reads_CAA : moves_db.

Ltac reads_tac := intros ?; moves.

Ltac atomic :=
  repeat (cbv zeta; lazymatch goal with
  | |- atomic (WithinTx _) => apply atomic_tx
  | |- atomic (bindM (WithinTx _) _) => apply atomic_then; [apply atomic_tx|intros; apply total_ret]
  | |- atomic (bindM _ _) => apply atomic_bind; [|intros]
  | |- atomic (if ?b then _ else _) => destruct b
  | |- atomic (match ?x with _ => _ end) => destruct x
  | |- atomic _ => apply atomic_reads
  | |- reads _ => solve [reads_tac]
  end).

(** ** Untouched projections *)

Definition same {B} (g : MemoryStore → B) (s s' : MemoryStore) : Prop := g s' = g s.
#[global] Instance same_preorder {B} (g : MemoryStore → B) : PreOrder (same g).
Proof. split; [done|]. intros s1 s2 s3 H12 H23. unfold same in *. congruence. Qed.

Section Same.
Context `{Env} {B : Type} (g : MemoryStore → B).

Lemma same_eq {A} (m : Svc A) w r w' :
  moves (same g) m w → m w = (r, w') → g (w_store w') = g (w_store w).
Proof. unfold moves, same. intros E Em. by rewrite Em in E. Qed.

Lemma same_audit actor action rt ri t f w :
  (∀ l s, g (set_audit l s) = g s) → moves (same g) (createAuditEvent actor action rt ri t f) w.
Proof.
  intros Hg. unfold createAuditEvent, createAuditEventWithResult. moves. apply moves_repo.
  unfold CreateAuditEvent. apply onAudit_other. auto.
Qed.

Lemma same_outbox mt t f w :
  (∀ m s, g (set_outbox m s) = g s) → moves (same g) (createOutboxMessage mt t f) w.
Proof.
  intros Hg. unfold createOutboxMessage. moves. apply moves_repo. unfold CreateOutboxMessage.
  apply putRows_other. auto.
Qed.
End Same.

Lemma lookup_keys {V} (m : gmap string V) ks k v : fst <$> map_to_list m = ks → m !! k = Some v → k ∈ ks.
Proof. intros <- Hk. apply list_elem_of_fmap. exists (k, v). split; [done|by apply elem_of_map_to_list]. Qed.

(** ** Records *)

Section Records.
Context `{Env}.

Lemma good_after {A} (m : Svc A) w r w' : runs m w → good w → m w = (r, w') → good w'.
Proof. intros Hr G E. eapply reach_good; [exact G|]. specialize (Hr G). by rewrite E in Hr. Qed.

Definition events (w : World) : list AuditEvent := log_events (ms_audit (w_store w)).

Lemma append_ok event log u log' :
  appendMemoryAuditEvent event log = (Ok u, log') →
  ∃ e, log_events log' = log_events log ++ [e] ∧ AuditEvent_Actor e = AuditEvent_Actor event ∧
    AuditEvent_Action e = AuditEvent_Action event ∧
    AuditEvent_ResourceType e = AuditEvent_ResourceType event ∧
    AuditEvent_ResourceID e = AuditEvent_ResourceID event.
Proof.
  unfold appendMemoryAuditEvent. destruct (auditIntegrityError _); [done|].
  destruct (withAuditEventHash _ _ event) as [p|] eqn:Ep; [|done]. destruct (auditIntegrityError _); [done|].
  intros [= _ <-]. exists p. split; [done|]. unfold withAuditEventHash in Ep.
  apply bindR_ok in Ep as (? & _ & Ep). apply bindR_ok in Ep as (h & _ & [= <-]). done.
Qed.

(** A recorded event is the last of the log. *)
Lemma audit_logged actor action rt ri t f w u w' :
  createAuditEvent actor action rt ri t f w = (Ok u, w') →
  ∃ e, events w' = events w ++ [e] ∧ AuditEvent_Actor e = actor ∧ AuditEvent_Action e = action ∧
    AuditEvent_ResourceType e = rt ∧ AuditEvent_ResourceID e = ri.
Proof.
  unfold createAuditEvent, createAuditEventWithResult. intros E. succeeds E. apply newID_ok in Hs.
  apply repo_eq in E as [E _]. unfold CreateAuditEvent, onAudit in E.
  destruct (appendMemoryAuditEvent _ _) as [[]] eqn:Ea; [|done]. injection E as _ E.
  apply append_ok in Ea as (e & Ee & Hrest). exists e. split; [|done].
  unfold events. rewrite <- E. simpl. by rewrite Ee, Hs.
Qed.
End Records.

(** * Failed operations change nothing *)

Section Atomicity.
Context `{Env}.

Inductive transactional : ∀ {A}, Svc A → Prop :=
| tx_CreateIdentity a r : transactional (Registry.CreateIdentity a r)
| tx_CreateIssuer a r : transactional (Registry.CreateIssuer a r)
| tx_CreateCertificateProfile a r : transactional (Registry.CreateCertificateProfile a r)
| tx_TransitionProfile a r : transactional (TransitionCertificateProfileIssuer a r)
| tx_CreateNotificationEndpoint a r : transactional (Registry.CreateNotificationEndpoint a r)
| tx_DisableNotificationEndpoint a i : transactional (DisableNotificationEndpoint a i)
| tx_CreateEnrollment a r : transactional (Lifecycle.CreateEnrollment a r)
| tx_RenewCertificate a c r : transactional (RenewCertificate a c r)
| tx_ReissueCertificate a c r : transactional (ReissueCertificate a c r)
| tx_ApproveEnrollment a i r : transactional (ApproveEnrollmentWithReason a i r)
| tx_RejectEnrollment a i : transactional (RejectEnrollment a i)
| tx_Revoke a c r f : transactional (revokeCertificate a c r f)
| tx_Suspend a c : transactional (SuspendCertificate a c)
| tx_Resume a c : transactional (ResumeCertificate a c)
| tx_Scan a r : transactional (ScanCertificateExpirations a r)
| tx_CreateAPIKey a r : transactional (APIKeys.CreateAPIKey a r)
| tx_DisableAPIKey a i : transactional (DisableAPIKey a i)
| tx_RotateAPIKey a i : transactional (RotateAPIKey a i)
| tx_CreateOCSPResponder a r : transactional (OCSP.CreateOCSPResponder a r)
| tx_DisableOCSPResponder a i r : transactional (DisableOCSPResponder a i r)
| tx_RotateOCSPResponder a r : transactional (RotateOCSPResponder a r)
| tx_CreateACMEAccount a r : transactional (ACME.CreateACMEAccount a r)
| tx_UpdateACMEAccount a i r : transactional (UpdateACMEAccount a i r)
| tx_UpdateACMEAccountKey a i r : transactional (UpdateACMEAccountKey a i r)
| tx_CreateACMEOrder a r : transactional (ACME.CreateACMEOrder a r)
| tx_CompleteACMEChallenge a i : transactional (CompleteACMEChallenge a i)
| tx_RetryOutbox a i : transactional (RetryOutboxMessage a i)
| tx_ReplayDeadLetter a r : transactional (ReplayDeadLetterOutboxMessages a r)
| tx_RecordAPIFailure a r : transactional (RecordAPIFailure a r).

(** C30: Operations with one transaction are atomic: when one returns an error,
    whatever the error, the store is the one it started from. *)
Theorem transactional_atomic {A} (m : Svc A) : transactional m → atomic m.
Proof.
  intros Hm. destruct Hm.
  1: { unfold Registry.CreateIdentity. atomic. }
  1: { unfold Registry.CreateIssuer. atomic. }
  1: { unfold Registry.CreateCertificateProfile. atomic. }
  1: { unfold TransitionCertificateProfileIssuer. atomic. }
  1: { unfold Registry.CreateNotificationEndpoint. atomic. }
  1: { unfold DisableNotificationEndpoint. atomic. }
  1: { unfold Lifecycle.CreateEnrollment. atomic. }
  1: { unfold RenewCertificate, createCertificateReplacementEnrollment. atomic. }
  1: { unfold ReissueCertificate, createCertificateReplacementEnrollment. atomic. }
  1: { unfold ApproveEnrollmentWithReason. atomic. }
  1: { unfold RejectEnrollment. atomic. }
  1: { unfold revokeCertificate. atomic. }
  1: { unfold SuspendCertificate, transitionCertificateStatus. atomic. }
  1: { unfold ResumeCertificate, transitionCertificateStatus. atomic. }
  1: { unfold ScanCertificateExpirations. atomic. }
  1: { unfold APIKeys.CreateAPIKey. atomic. }
  1: { unfold DisableAPIKey. atomic. }
  1: { unfold RotateAPIKey. atomic. }
  1: { unfold OCSP.CreateOCSPResponder. atomic. }
  1: { unfold DisableOCSPResponder. atomic. }
  1: { unfold RotateOCSPResponder. atomic. }
  1: { unfold ACME.CreateACMEAccount, createACMEAccount. atomic. }
  1: { unfold UpdateACMEAccount. atomic. }
  1: { unfold UpdateACMEAccountKey. atomic. }
  1: { unfold ACME.CreateACMEOrder. atomic. }
  1: { unfold CompleteACMEChallenge. atomic. }
  1: { unfold RetryOutboxMessage. atomic. }
  1: { unfold ReplayDeadLetterOutboxMessages. atomic. }
  1: { unfold RecordAPIFailure. atomic. }
Qed.
End Atomicity.

(** A revocation of an unknown certificate in a world with an issuer. *)
Lemma transactional_atomic_witness :
  ∃ w e w', @revokeCertificate sample_env "operator" "unknown" "superseded" false w = (Err e, w') ∧
    w_store w' = w_store w.
Proof.
  exists new_world, ErrCertificateNotFound. eexists. split; [by vm_compute|].
  eapply (transactional_atomic (H:=sample_env)
    (@revokeCertificate sample_env "operator" "unknown" "superseded" false) (tx_Revoke _ _ _ _) new_world).
  by vm_compute.
Defined.
