(* ===== verification/LifecycleFacts.v ===== *)
(** * Correctness of the certificate lifecycle

    The effect of revocation and of the status transitions on every branch, and
    the expiration scan against a reference that maps one pure function over the
    certificates. *)

From S2P Require Import Prelude GoLib Crypto Domain Core NetIP Requests AuditChain Store.
From S2P Require Import StoreInv Service Policy Registry Lifecycle Issuance Outbox CRL APIKeys.
From S2P Require Import OCSP ACME Samples Machines ServiceFacts Invariants Outcomes.

Section LifecycleFacts.
Context `{Env}.
Abbreviation certs w := (ms_certificates (w_store w)).

(** ** Writes *)

Lemma updateCertificate_eq x c st w :
  certs w !! Certificate_ID x = Some c → Certificate_Status c = st →
  repo (UpdateCertificateIfStatus x st) w =
    (Ok tt, mkWorld (set_certificates (<[Certificate_ID x := x]> (certs w)) (w_store w)) (w_tick w)).
Proof.
  intros Hc <-. unfold repo, UpdateCertificateIfStatus, putRows, updateCertificateIfStatus.
  pose proof (updateIf_cases (Certificate_ID x) ErrCertificateNotFound
    (λ current, Certificate_Status current =s Certificate_Status c) x (certs w)) as E.
  rewrite Hc in E. rewrite E. simpl. by rewrite String.eqb_refl.
Qed.

Lemma deployment_ok i f w a w' : addIdentityDeploymentTarget i f w = (Ok a, w') → w_store w' = w_store w.
Proof. apply reads_ok. auto with moves_db. Qed.

(** The records of a transition keep the certificates and the revocations. *)
Lemma records_keep {B} (g : MemoryStore → B) actor action rt ri t f mt t' f' w u1 w1 u2 w2 :
  (∀ l s, g (set_audit l s) = g s) → (∀ m s, g (set_outbox m s) = g s) →
  createAuditEvent actor action rt ri t f w = (Ok u1, w1) →
  createOutboxMessage mt t' f' w1 = (Ok u2, w2) → g (w_store w2) = g (w_store w).
Proof.
  intros Ha Ho E1 E2. etrans; [eapply same_eq; [by apply same_outbox|exact E2]|].
  eapply same_eq; [by apply same_audit|exact E1].
Qed.

(** ** Revocation *)


(** The rejections of a revocation: a blank identifier or an unknown reason
    is an invalid request, an unknown certificate is not found, and a
    certificate that is expired, already revoked, or suspended without force is
    an invalid transition. The store is left as it was. *)
Theorem revoke_rejects actor id reason force w :
  let r := revokeCertificate actor id reason force w in
  (isBlank id = true ∨ isValidRevocationReason reason = false → r.1 = Err ErrInvalidRequest) ∧
  (isBlank id = false → isValidRevocationReason reason = true → certs w !! id = None →
     r.1 = Err ErrCertificateNotFound ∧ w_store r.2 = w_store w) ∧
  (∀ c, isBlank id = false → isValidRevocationReason reason = true → certs w !! id = Some c →
     Certificate_Status c ∈ [CertificateExpired; CertificateRevoked] ∨
       Certificate_Status c = CertificateSuspended ∧ force = false →
     r.1 = Err ErrInvalidTransition ∧ w_store r.2 = w_store w).
Proof.
  intros r. unfold r, revokeCertificate. split; [|split].
  - intros [E|E]; erewrite bindM_err_eq; [done|apply return_if_true; by rewrite E|done|].
    apply return_if_true. by rewrite E, orb_true_r.
  - intros E1 E2 Hn. erewrite bindM_ok_eq by (apply return_if_false; by rewrite E1, E2).
    erewrite bindM_ok_eq by apply now_eq. erewrite WithinTx_err_eq; [done|].
    apply bindM_err_eq. by apply getRow_err.
  - intros c E1 E2 Hc Hst. erewrite bindM_ok_eq by (apply return_if_false; by rewrite E1, E2).
    erewrite bindM_ok_eq by apply now_eq. erewrite WithinTx_err_eq; [done|].
    erewrite bindM_ok_eq by by apply getRow_eq. apply bindM_err_eq, return_if_true, negb_true_iff.
    destruct Hst as [Hst|[E ->]]; [|by rewrite E].
    apply elem_of_cons in Hst as [E|[E|[]%elem_of_nil]%elem_of_cons]; rewrite E; by destruct force.
Qed.

(** ** Expiration scan *)

(** What a scan makes of one certificate. *)
Definition scanned (now warningBefore : Time) (c : Certificate) : Certificate :=
  if certificateIsExpiredCandidate c now
  then c |> Certificate_with_Status CertificateExpired |> Certificate_with_UpdatedAt now
  else if certificateNeedsRenewalWarning c now warningBefore
  then c |> Certificate_with_RenewalNotifiedAt now |> Certificate_with_UpdatedAt now
  else c.

Lemma scanUpdate_ok actor action u c st now d w o w' :
  certs w !! Certificate_ID u = Some c → Certificate_Status c = st →
  scanUpdate actor action u st now d w = (Ok o, w') →
  o = Some u ∧ certs w' = <[Certificate_ID u := u]> (certs w).
Proof.
  intros Hc Hst E. unfold scanUpdate in E. unfold bindM at 1, catchM in E.
  rewrite (updateCertificate_eq _ _ _ _ Hc Hst) in E. succeeds E. split; [done|].
  match goal with Ea : createAuditEvent _ _ _ _ _ _ _ = _, Eo : createOutboxMessage _ _ _ _ = _ |- _ =>
    rewrite (records_keep ms_certificates _ _ _ _ _ _ _ _ _ _ _ _ _ _ ltac:(done) ltac:(done) Ea Eo) end.
  match goal with Ed : addIdentityDeploymentTarget _ _ _ = _ |- _ => by rewrite (deployment_ok _ _ _ _ _ Ed) end.
Qed.

Definition scanAll (now wb : Time) (cs : list Certificate) (m : gmap string Certificate)
  : gmap string Certificate := foldr (λ c m, <[Certificate_ID c := scanned now wb c]> m) m cs.

Lemma scanAll_insert now wb cs x (m : gmap string Certificate) :
  Certificate_ID x ∉ Certificate_ID <$> cs →
  scanAll now wb cs (<[Certificate_ID x := x]> m) = <[Certificate_ID x := x]> (scanAll now wb cs m).
Proof.
  induction cs as [|c cs IH]; [done|]. rewrite fmap_cons, not_elem_of_cons. intros [Hne Hc]. simpl.
  rewrite IH by done. by apply insert_insert_ne.
Qed.

Lemma scanned_ID now wb c : Certificate_ID (scanned now wb c) = Certificate_ID c.
Proof. unfold scanned. by repeat case_match. Qed.

Lemma scanAll_lookup now wb cs (m : gmap string Certificate) id :
  Forall (λ c, m !! Certificate_ID c = Some c) cs →
  scanAll now wb cs m !! id =
    (λ c, if bool_decide (id ∈ Certificate_ID <$> cs) then scanned now wb c else c) <$> m !! id.
Proof.
  induction cs as [|c cs IH]; intros Hcs; [by cbn; destruct (m !! id)|].
  apply Forall_cons in Hcs as [Hm Hcs]. cbn [scanAll foldr]. fold (scanAll now wb cs m).
  rewrite fmap_cons. destruct (decide (id = Certificate_ID c)) as [->|Hne].
  - rewrite lookup_insert_eq, Hm. cbn. rewrite bool_decide_eq_true_2; [done|]. by left.
  - rewrite lookup_insert_ne by done. rewrite IH by done.
    destruct (m !! id) as [v|]; cbn; [|done]. f_equal.
    rewrite (bool_decide_ext (id ∈ _ :: _) (id ∈ Certificate_ID <$> cs)); [done|]. set_solver.
Qed.

(** The loop applies [scanned] to each of its candidates, in any store where
    they are filed under their identifiers. *)
Lemma scanLoop_ok actor now wb d cs r w r' w' :
  NoDup (Certificate_ID <$> cs) → Forall (λ c, certs w !! Certificate_ID c = Some c) cs →
  scanLoop actor now wb d cs r w = (Ok r', w') → certs w' = scanAll now wb cs (certs w).
Proof.
  revert r w. induction cs as [|c cs IH]; intros r w Hnd Hcs E; [by injection E as _ <-|].
  rewrite fmap_cons, NoDup_cons in Hnd. destruct Hnd as [Hc Hnd].
  apply Forall_cons in Hcs as [Hcw Hcs]. cbn [scanLoop] in E.
  assert (∀ x st act k, Certificate_ID x = Certificate_ID c → Certificate_Status c = st →
    x = scanned now wb c →
    bindM (scanUpdate actor act x st now d) (λ o, scanLoop actor now wb d cs (k o)) w = (Ok r', w') →
    certs w' = scanAll now wb (c :: cs) (certs w)) as Hone.
  { intros x st act k Ex Hst Hx Eb. succeeds Eb. rewrite <- Ex in Hcw.
    eapply scanUpdate_ok in Hs as [_ E1]; [|exact Hcw|done]. apply IH in Eb; [|done|].
    - cbn [scanAll foldr]. rewrite Eb, E1, <- Hx, <- Ex. apply scanAll_insert. by rewrite Ex.
    - rewrite Forall_forall in *. intros c2 H2. rewrite E1, lookup_insert_ne; [by apply Hcs|].
      rewrite Ex. intros E2. apply Hc. rewrite E2. by apply list_elem_of_fmap_2. }
  destruct (certificateIsExpiredCandidate c now) eqn:He; [|destruct (certificateNeedsRenewalWarning c now wb) eqn:Hw].
  - eapply Hone; [..|exact E]; [done|done|]. unfold scanned. by rewrite He.
  - eapply Hone; [..|exact E]; [done| |]; [|unfold scanned; by rewrite He, Hw].
    unfold certificateNeedsRenewalWarning in Hw. by bool_prop.
  - apply IH in E; [|done..]. cbn [scanAll foldr]. unfold scanned at 1. rewrite He, Hw, E.
    rewrite <- (insert_id (certs w) (Certificate_ID c) c) at 1 by done. by apply scanAll_insert.
Qed.

(** The candidates are the certificates that need the scan, all of them when
    the limit allows. *)
Lemma scan_candidates m now wb limit :
  keyed Certificate_ID m → (Z.of_nat (size m) <= limit)%Z → (0 < limit)%Z →
  ∀ c, c ∈ listCertificatesForExpirationScan (map_values m) now wb limit ↔
    m !! Certificate_ID c = Some c ∧ certificateNeedsExpirationScan c now wb = true.
Proof.
  intros Hk Hl H0 c. unfold listCertificatesForExpirationScan, listBy.
  destruct (Z.leb_spec limit 0); [lia|]. rewrite take_ge.
  - rewrite go_sort_perm, list_elem_of_filter, elem_of_map_values. split; [|intros []; eauto].
    intros (Hn & k & Hc). pose proof (Hk _ _ Hc) as Eid. simpl in Eid. by rewrite Eid.
  - rewrite go_sort_perm, length_filter. unfold map_values. rewrite length_fmap, length_map_to_list. lia.
Qed.

Lemma scan_candidates_nodup m now wb limit :
  keyed Certificate_ID m →
  NoDup (Certificate_ID <$> listCertificatesForExpirationScan (map_values m) now wb limit).
Proof.
  intros Hk. unfold listCertificatesForExpirationScan, listBy. case_match; [constructor|].
  eapply sublist_NoDup; [|apply fmap_sublist, sublist_take]. rewrite go_sort_perm.
  eapply sublist_NoDup; [|apply fmap_sublist, sublist_filter].
  assert (Certificate_ID <$> map_values m = (map_to_list m).*1) as ->; [|apply NoDup_fst_map_to_list].
  unfold map_values. rewrite <- list_fmap_compose. apply list_fmap_ext.
  intros i [k c] Hi. simpl. by apply Hk, elem_of_map_to_list, (list_elem_of_lookup_2 _ i).
Qed.

Lemma scanned_other now wb c : certificateNeedsExpirationScan c now wb = false → scanned now wb c = c.
Proof.
  unfold certificateNeedsExpirationScan, scanned, certificateIsExpiredCandidate,
    certificateNeedsRenewalWarning. intros [-> ->]%orb_false_elim. done.
Qed.

(** C32: The expiration scan is complete. When its limit is at least the number
    of certificates, a successful scan at time [now] maps every certificate of
    the table through [scanned]: a valid or suspended certificate whose
    [NotAfter] has passed becomes expired, a valid one inside the warning window
    that was not yet notified is marked, and every other one is unchanged. *)
Theorem scan_complete actor req w r w' :
  keyed Certificate_ID (certs w) →
  (Z.of_nat (size (certs w)) <= ScanCertificateExpirationsRequest_Limit req)%Z →
  ScanCertificateExpirations actor req w = (Ok r, w') →
  let now := clock_Now (w_tick w) in
  certs w' = scanned now (Add now (ScanCertificateExpirationsRequest_WarningWindow req)) <$> certs w.
Proof.
  intros Hk Hl E now. unfold ScanCertificateExpirations in E. succeeds E. bool_prop.
  match goal with En : now_ _ = _ |- _ => rewrite now_eq in En; injection En as <- <- end. simpl in *.
  match goal with Er : repo _ _ = _ |- _ => apply repo_eq in Er as [[= <- Er] _]; rename Er into El end.
  set (wb := Add now _) in *. set (cs := listCertificatesForExpirationScan _ _ _ _) in *.
  assert (∀ c, c ∈ cs ↔ certs w !! Certificate_ID c = Some c ∧
    certificateNeedsExpirationScan c now wb = true) as Hcs by by apply scan_candidates.
  assert (Forall (λ c, certs w !! Certificate_ID c = Some c) cs) as Hrows.
  { apply Forall_forall. intros c Hc. by apply Hcs. }
  apply scanLoop_ok in E; [|by apply scan_candidates_nodup|by rewrite <- El].
  rewrite E, <- El. simpl. apply map_eq. intros id. rewrite scanAll_lookup by done.
  rewrite lookup_fmap. destruct (certs w !! id) as [c|] eqn:Ec; [|done]. cbn. f_equal.
  pose proof (Hk _ _ Ec) as Eid. simpl in Eid. destruct (certificateNeedsExpirationScan c now wb) eqn:En.
  - rewrite bool_decide_eq_true_2; [done|]. rewrite <- Eid. apply list_elem_of_fmap_2, Hcs.
    by rewrite Eid.
  - assert (scanned now wb c = c) as Es by by apply scanned_other. rewrite Es. case_bool_decide; [exact Es|done].
Qed.
End LifecycleFacts.

(** ** Witnesses *)

Section Witnesses.
#[local] Existing Instance sample_env.

Definition sample_certificate (id : string) (status : CertificateStatus) (notAfter : Time) : Certificate :=
  mkCertificate id "host" "issuer" id "" ("serial-" +:+ id) "CN=host.example" ["host.example"] []
    sample_epoch notAfter status "pem" zero_time sample_epoch sample_epoch.

(** A store with a valid and an overdue certificate. *)
Definition certificates_world : World :=
  mkWorld (set_certificates (list_to_map
    [("a", sample_certificate "a" CertificateValid (sample_epoch + 24 * Hour)%Z);
     ("b", sample_certificate "b" CertificateSuspended sample_epoch)]) NewMemoryStore) 7.

Lemma certificates_keyed : keyed Certificate_ID (ms_certificates (w_store certificates_world)).
Proof. unfold keyed. apply (bool_decide_unpack _). by vm_compute. Qed.



Lemma revoke_rejects_witness :
  (revokeCertificate "operator" "b" RevocationSuperseded false certificates_world).1 =
    Err ErrInvalidTransition.
Proof.
  apply (revoke_rejects "operator" "b" RevocationSuperseded false certificates_world)
    with (c := sample_certificate "b" CertificateSuspended sample_epoch); [by vm_compute..|by right].
Defined.

Definition sample_scan : res CertificateExpirationScanResult * World :=
  ScanCertificateExpirations "operator" (mkScanCertificateExpirationsRequest Hour 10) certificates_world.

Lemma scan_complete_witness :
  ms_certificates (w_store sample_scan.2) =
    scanned (clock_Now 7) (Add (clock_Now 7) Hour) <$> ms_certificates (w_store certificates_world).
Proof.
  assert (is_ok sample_scan.1 = true) as Hok by by vm_compute.
  destruct sample_scan as [[r|e] w'] eqn:E; [|discriminate Hok].
  assert (Z.of_nat (size (ms_certificates (w_store certificates_world))) <= 10)%Z as Hl by by vm_compute.
  exact (scan_complete "operator" (mkScanCertificateExpirationsRequest Hour 10) _ _ _
    certificates_keyed Hl E).
Defined.
End Witnesses.
