(* ===== verification/IssuanceFacts.v ===== *)
(** * Correctness of issuance

    The claim is an exclusive lease, a claimant that lost it cannot persist its
    signature, a successful issuance leaves the certificate, the issued
    enrollment and its audit event, issuing again changes nothing, and nothing
    is signed for an enrollment that is not approved or fails the policy. *)

From S2P Require Import Prelude GoLib Crypto Domain Core NetIP Requests AuditChain Store.
From S2P Require Import StoreInv Service Policy Registry Lifecycle Issuance Outbox CRL APIKeys.
From S2P Require Import OCSP ACME Samples Machines ServiceFacts Invariants History.
From S2P Require Import Outcomes.

Section IssuanceFacts.
Context `{Env}.
Abbreviation certs w := (ms_certificates (w_store w)).
Abbreviation attempts w := (ms_issuanceAttempts (w_store w)).

(** ** The lease *)

(** What a claim that may sign has stored. *)
Lemma claim_lease e t w a w' :
  claimIssuanceAttempt e t w = (Ok (a, true), w') → good w →
  attempt_at w' e a ∧ IssuanceAttempt_Status a = IssuanceAttemptSigning ∧
  IssuanceAttempt_LeaseExpiresAt a = Add t defaultIssuanceSigningLease.
Proof.
  intros E G. destruct (claim_result _ _ _ _ _ _ E G) as [Ha Hs]. split; [done|]. split; [done|].
  unfold claimIssuanceAttempt in E. apply WithinTx_ok in E.
  apply bindM_ok_inv in E as (r & w1 & _ & E). destruct r as [cur|err]; repeat case_match; succeeds E; by simplify_eq/=.
Qed.

Lemma getAttempt_eq e w a : attempts w !! e = Some a → repo (GetIssuanceAttempt e) w = (Ok a, w).
Proof.
  intros Ha. unfold repo, GetIssuanceAttempt, getIssuanceAttempt, lookupRow. rewrite Ha. by destruct w.
Qed.

(** The claim is an exclusive lease. After a caller was told to sign, every
    claim of the same enrollment before the lease runs out is refused with an
    invalid transition, in any later state that still holds the attempt. *)
Theorem claim_exclusive e t1 t2 w a w1 w2 :
  good w → claimIssuanceAttempt e t1 w = (Ok (a, true), w1) →
  attempts w2 !! e = attempts w1 !! e →
  (t2 < t1 + defaultIssuanceSigningLease)%Z →
  (claimIssuanceAttempt e t2 w2).1 = Err ErrInvalidTransition.
Proof.
  intros G E Hsame Ht. destruct (claim_lease _ _ _ _ _ E G) as ([Ha _] & Hs & Hl).
  rewrite Ha in Hsame. unfold claimIssuanceAttempt. erewrite WithinTx_err_eq; [done|].
  erewrite bindM_ok_eq by (apply catchM_eq; by apply getAttempt_eq).
  cbv beta iota zeta. rewrite Hs. apply bindM_err_eq, return_if_true.
  unfold After. rewrite Hl. by apply Z.ltb_lt.
Qed.

Lemma update_attempt_stale x cur v w :
  attempts w !! IssuanceAttempt_EnrollmentID x = Some v → sameIssuanceAttempt cur v = false →
  repo (UpdateIssuanceAttemptIfCurrent x cur) w = (Err ErrInvalidTransition, w).
Proof.
  intros Hv Hs. unfold repo, UpdateIssuanceAttemptIfCurrent, putRows, updateIssuanceAttemptIfCurrent.
  pose proof (updateIf_cases (IssuanceAttempt_EnrollmentID x) ErrIssuanceAttemptNotFound
    (sameIssuanceAttempt cur) x (attempts w)) as Hu.
  rewrite Hv in Hu. rewrite Hu, Hs. by destruct w.
Qed.

(** C29: A claimant that outlived its lease is fenced: once another caller has
    taken the claim over at a later time, the first one cannot persist what it
    signed, and its attempt changes nothing. *)
Theorem stale_claim_fenced e t1 t2 t3 w1 a1 w1' w2 a2 w2' result :
  good w1 → claimIssuanceAttempt e t1 w1 = (Ok (a1, true), w1') →
  good w2 → claimIssuanceAttempt e t2 w2 = (Ok (a2, true), w2') →
  t1 ≠ t2 → is_Some (json_evidence (IssueResult_SigningEvidence result)) →
  let r := persistSignedIssuanceAttempt a1 result t3 w2' in
  r.1 = Err ErrInvalidTransition ∧ w_store r.2 = w_store w2'.
Proof.
  intros G1 E1 G2 E2 Hne [j Hj] r. destruct (claim_lease _ _ _ _ _ E1 G1) as ([_ Hk1] & Hs1 & Hl1).
  destruct (claim_lease _ _ _ _ _ E2 G2) as ([Ha2 Hk2] & Hs2 & Hl2).
  assert (sameIssuanceAttempt a1 a2 = false) as Hstale.
  { unfold sameIssuanceAttempt, TimeEqual. rewrite Hl1, Hl2. unfold Add.
    destruct (Z.eqb_spec (t2 + defaultIssuanceSigningLease) (t1 + defaultIssuanceSigningLease)); [lia|].
    by rewrite andb_false_r. }
  unfold r, persistSignedIssuanceAttempt, newID. erewrite bindM_ok_eq by reflexivity. rewrite Hj.
  erewrite bindM_err_eq; [|apply WithinTx_err_eq, (update_attempt_stale _ _ a2); [|exact Hstale]]; [done|].
  simpl. by rewrite Hk1.
Qed.

(** ** The outcome *)

(** Nothing but the audit log changes. *)
Definition audit_only (s s' : MemoryStore) : Prop := s' = set_audit (ms_audit s') s.
#[local] Instance audit_only_preorder : PreOrder audit_only.
Proof.
  split; [by intros []|]. unfold audit_only. intros s1 s2 s3 -> ->. by destruct s1.
Qed.

Lemma audit_only_event a b c d t f w : moves audit_only (createAuditEvent a b c d t f) w.
Proof.
  unfold createAuditEvent, createAuditEventWithResult. moves. apply moves_repo.
  unfold CreateAuditEvent, onAudit. destruct (appendMemoryAuditEvent _ _) as [r l]. simpl.
  unfold audit_only. by destruct (w_store w').
Qed.

Lemma audit_only_read {A} (m : Svc A) w : moves eq m w → moves audit_only m w.
Proof. unfold moves. intros <-. reflexivity. Qed.

Lemma reads_policyFields c f w : moves eq (addCertificatePolicyAuditFields c f) w.
Proof. unfold addCertificatePolicyAuditFields. moves. Qed.
Lemma reads_linkage c f w : moves eq (addReplacementCertificateLinkage c f) w.
Proof. unfold addReplacementCertificateLinkage. moves. Qed.
Lemma reads_signingFields c f w : moves eq (addSigningAuditFields c f) w.
Proof. unfold addSigningAuditFields. moves. Qed.
Hint Resolve audit_only_event audit_only_read reads_policyFields reads_linkage reads_signingFields
  reads_deployment : moves_db.

Lemma audit_only_ensure a c t w : moves audit_only (ensureCertificateIssuedAuditEvent a c t) w.
Proof. unfold ensureCertificateIssuedAuditEvent. moves. Qed.

Definition audited (c : Certificate) (w : World) : Prop :=
  existsb (isIssuedEventOf (Certificate_ID c)) (events w) = true.

Lemma ensure_ok a c t w u w' :
  ensureCertificateIssuedAuditEvent a c t w = (Ok u, w') →
  w_store w' = set_audit (ms_audit (w_store w')) (w_store w) ∧ audited c w'.
Proof.
  intros E. split; [pose proof (audit_only_ensure a c t w) as Hm; unfold moves in Hm; by rewrite E in Hm|].
  unfold ensureCertificateIssuedAuditEvent in E. succeeds E.
  apply repo_eq in Hs as [[= <- Hl] _].
  destruct (existsb _ _) eqn:Eb; succeeds E; [by unfold audited, events in *; rewrite <- Hl|].
  apply audit_logged in E as (e & Ee & _ & Ha & Ht & Hi). unfold audited. rewrite Ee, existsb_app.
  apply orb_true_iff. right. simpl. unfold isIssuedEventOf. by rewrite Ha, Ht, Hi, !String.eqb_refl.
Qed.

(** The certificate that is found for an enrollment is the stored one. *)
Lemma byEnrollment_ok e w c w' :
  repo (GetCertificateByEnrollmentID e) w = (Ok c, w') → store_inv (w_store w) →
  w' = w ∧ certs w !! Certificate_ID c = Some c ∧ Certificate_EnrollmentID c = e.
Proof.
  unfold repo, GetCertificateByEnrollmentID, certificateByEnrollmentID. intros [= E <-] G.
  apply scan_ok in E as [(k & Hc)%elem_of_map_values He]. apply String.eqb_eq in He.
  pose proof (inv_certificates _ G _ _ Hc) as Ek. simpl in Ek. rewrite Ek. by destruct w.
Qed.

Lemma byEnrollment_eq e w c k :
  store_inv (w_store w) → e ≠ "" → certs w !! k = Some c → Certificate_EnrollmentID c = e →
  repo (GetCertificateByEnrollmentID e) w = (Ok c, w).
Proof.
  intros G Hne Hc He. destruct (repo (GetCertificateByEnrollmentID e) w) as [[c'|err] w'] eqn:E.
  - destruct (byEnrollment_ok _ _ _ _ E G) as (-> & Hc' & He').
    assert (Certificate_ID c' = k) as Ek.
    { eapply (inv_cert_unique _ G); [exact Hc'|exact Hc|]. left. split; congruence. }
    rewrite Ek, Hc in Hc'. by injection Hc' as <-.
  - exfalso. unfold repo, GetCertificateByEnrollmentID, certificateByEnrollmentID, scan in E.
    destruct (list_find _ _) as [[]|] eqn:Ef; [done|]. apply list_find_None in Ef.
    rewrite Forall_forall in Ef. apply (Ef c); [apply elem_of_map_values; eauto|]. by apply String.eqb_eq.
Qed.

Lemma finalizeSigned_ok e a t w c w' :
  finalizeSignedIssuanceAttempt e a t w = (Ok c, w') → good w →
  certs w' !! Certificate_ID c = Some c ∧ Certificate_EnrollmentID c = e.
Proof.
  intros E G. unfold finalizeSignedIssuanceAttempt in E. destruct (_ =s IssuanceAttemptFinalized).
  { apply byEnrollment_ok in E as (-> & ? & ?); [done|apply G]. }
  succeeds E. destruct a1 as [c1|err].
  - succeeds E. destruct (finalizeTx_ok _ _ _ _ _ _ Hs0 G) as [_ [[Es Eg]|(en & cur & _ & <- & _ & _ & _ & _ & Hf & ->)]].
    + destruct (repo (GetCertificateByEnrollmentID e) w) as [r wr] eqn:Er.
      assert (r = Ok c) as -> by (unfold repo in Er; simpl in *; injection Er as <- _; exact Eg).
      destruct (byEnrollment_ok _ _ _ _ Er (good_store _ G)) as (_ & Hc & He). by rewrite Es.
    + apply finalizeWrites_ok in Hf as (? & ? & _ & _ & _ & _ & _ & ->). simpl. by rewrite lookup_insert_eq.
  - apply WithinTx_err in Hs0 as Es. destruct (errors_Is err _); [|done]. succeeds E.
    destruct a1 as [c1|err2].
    + succeeds E. apply byEnrollment_ok in Hs1 as (-> & ? & ?); [done|]. rewrite Es. apply G.
    + destruct (errors_Is err2 _); simpl in E; [|done]. apply bindM_ok_inv in E as (? & ? & _ & [=]).
Qed.

Lemma withEvidence_ok refs r w u w' : withEvidence refs r w = (Ok u, w') → r = Ok tt ∧ w' = w.
Proof. destruct r as [[]|]; [|done]. by intros [= _ <-]. Qed.

Lemma getProfile_ok id w p w' :
  (if id <>s "" then repo (GetCertificateProfile id) else retM zero_CertificateProfile) w = (Ok p, w') →
  w' = w ∧ if id <>s "" then ms_profiles (w_store w) !! id = Some p else p = zero_CertificateProfile.
Proof.
  destruct (id <>s ""); [intros E; by getter E|by intros [= <- <-]].
Qed.

(** What the signer reports of a request, when the profile asks for it. *)
Definition csr_of (pem : string) (profile : CertificateProfile) (csr : CSRInfo) : Prop :=
  if profileRequiresCSRPolicy profile then ∃ tick, issuer_InspectCSR tick pem = Ok csr
  else csr = mkCSRInfo "" [] [] "" 0 "" [].

Lemma csr_ok pem profile w csr w' :
  (if profileRequiresCSRPolicy profile then inspectCSR pem else retM (mkCSRInfo "" [] [] "" 0 "" [])) w =
    (Ok csr, w') → csr_of pem profile csr.
Proof.
  unfold csr_of, inspectCSR. destruct (profileRequiresCSRPolicy profile); [|by intros [= <- _]].
  intros E. apply bindM_ok_inv in E as ([c|e] & w1 & Er%catch_ok & E); [|done]. injection E as <- _.
  injection Er as Er _. eauto.
Qed.

(** The policy that an issuance is checked against: the stored identity, the
    stored profile or none, and the request as the signer reads it. *)
Definition policy_passed (w : World) (en : Enrollment) : Prop :=
  ∃ identity profile csr,
    ms_identities (w_store w) !! Enrollment_IdentityID en = Some identity ∧
    (if Enrollment_CertificateProfileID en <>s ""
     then ms_profiles (w_store w) !! Enrollment_CertificateProfileID en = Some profile
     else profile = zero_CertificateProfile) ∧
    csr_of (Enrollment_CSRPEM en) profile csr ∧
    validateEnrollmentProfilePolicy (enrollmentProfilePolicyRequest en) profile csr
      (clock_Now (w_tick w)) = Ok tt ∧
    validateEnrollmentIdentityPolicy (enrollmentProfilePolicyRequest en) identity = Ok tt.

(** How an issuance proceeds from an enrollment that is not yet issued. *)
Record issuing (e : string) (en : Enrollment) (w : World) (c : Certificate) (w' : World) : Prop := {
  ing_approved : Enrollment_Status en = EnrollmentApproved;
  ing_policy : policy_passed w en;
  ing_final : ∃ actor a t w1 w2, good w1 ∧ finalizeSignedIssuanceAttempt e a t w1 = (Ok c, w2) ∧
    ∃ u, ensureCertificateIssuedAuditEvent actor c t w2 = (Ok u, w');
}.

Hint Resolve runs_inspectCSR runs_lint runs_claimIssuance runs_withEvidence : runs_db.
Ltac good_next := match goal with G : good ?w, E : ?m ?w = (_, ?w2) |- _ =>
  lazymatch goal with _ : good w2 |- _ => fail | _ =>
    let G2 := fresh "G" in
    assert (good w2) as G2 by (eapply (good_after m); [|exact G|exact E]; runs; eauto with runs_db) end end.

Lemma issue_inv actor e w c w' en :
  IssueCertificate actor e w = (Ok c, w') → good w → ms_enrollments (w_store w) !! e = Some en →
  Enrollment_Status en ≠ EnrollmentIssued → issuing e en w c w'.
Proof.
  intros E G He Hne. unfold IssueCertificate in E. apply bindM_ok_inv in E as (? & ? & Hb & E). leaf_ok Hb.
  apply bindM_ok_inv in E as (en' & ? & He' & E). getter He'. rewrite He in He'. injection He' as <-.
  apply String.eqb_neq in Hne. cbv zeta in E. rewrite Hne in E.
  apply bindM_ok_inv in E as (? & ? & Hg & E). leaf_ok Hg. bool_prop.
  apply bindM_ok_inv in E as (issuer & ? & Hi & E). getter Hi.
  apply bindM_ok_inv in E as (identity & ? & Hd & E). getter Hd.
  apply bindM_ok_inv in E as (? & ? & Hw & E). leaf_ok Hw.
  apply bindM_ok_inv in E as (profile & ? & Hp & E). apply getProfile_ok in Hp as [-> Hp].
  apply bindM_ok_inv in E as (t & w1 & Ht & E). good_next.
  apply bindM_ok_inv in E as (csr & w2 & Hcsr & E). good_next. apply csr_ok in Hcsr.
  rewrite now_eq in Ht. injection Ht as <- _.
  apply bindM_ok_inv in E as (? & ? & Hpol & E). apply withEvidence_ok in Hpol as [Hpol ->].
  apply bindM_ok_inv in E as (? & ? & Hidp & E). apply withEvidence_ok in Hidp as [Hidp ->].
  apply bindM_ok_inv in E as (? & w3 & Hl & E). good_next.
  apply bindM_ok_inv in E as (claim & w4 & Hc & E). good_next.
  apply bindM_ok_inv in E as (a & w5 & Hsg & E).
  assert (good w5) as G5 by (eapply good_after; [by eapply runs_claimed| |exact Hsg]; done).
  apply bindM_ok_inv in E as (c' & w6 & Hf & E). apply bindM_ok_inv in E as (u & w7 & Hen & [= -> ->]).
  split; [done|by exists identity, profile, csr|]. exists actor, a, (clock_Now (w_tick w)), w5, w6. eauto.
Qed.

Lemma issue_stored actor e w c w' :
  IssueCertificate actor e w = (Ok c, w') → good w →
  isBlank e = false ∧ certs w' !! Certificate_ID c = Some c ∧ Certificate_EnrollmentID c = e ∧ audited c w'.
Proof.
  intros E G. pose proof E as E0. unfold IssueCertificate in E. apply bindM_ok_inv in E as (? & w0 & Hb & E).
  leaf_ok Hb. split; [done|]. apply bindM_ok_inv in E as (en & w0 & He & E). getter He. cbv zeta in E.
  destruct (String.eqb_spec (Enrollment_Status en) EnrollmentIssued) as [Est|Est].
  - succeeds E. destruct a as [c1|err]; [|by destruct (negb _) in E]. succeeds E.
    apply byEnrollment_ok in Hs as (-> & Hc & Hid); [|apply G].
    match goal with En : now_ _ = _, Ee : ensureCertificateIssuedAuditEvent _ _ _ _ = _ |- _ =>
      apply now_ok in En; apply ensure_ok in Ee as [Es Ha] end.
    rewrite Es. simpl. split; [congruence|done].
  - destruct (ing_final _ _ _ _ _ (issue_inv _ _ _ _ _ _ E0 G He Est))
      as (? & a & t & w1 & w2 & G1 & Hf & u & Hen).
    apply finalizeSigned_ok in Hf as [Hc Hid]; [|done]. apply ensure_ok in Hen as [Es Ha].
    by rewrite Es.
Qed.

(** Nothing is issued for an enrollment that is not approved: a pending,
    rejected or canceled enrollment is an invalid transition, the store is left
    as it was and no outside call - clock, signer or generator - is made. *)
Theorem issue_unapproved actor e w en :
  isBlank e = false → ms_enrollments (w_store w) !! e = Some en →
  Enrollment_Status en ≠ EnrollmentApproved → Enrollment_Status en ≠ EnrollmentIssued →
  IssueCertificate actor e w = (Err ErrInvalidTransition, w).
Proof.
  intros Hb He H1 H2. unfold IssueCertificate. erewrite bindM_ok_eq by by apply return_if_false.
  erewrite bindM_ok_eq by by apply getRow_eq. cbv zeta. apply String.eqb_neq in H1, H2.
  rewrite H2. apply bindM_err_eq, return_if_true. by rewrite H1.
Qed.

(** C28: A certificate is issued only under the policy: when an approved
    enrollment is issued, its request passed the restrictions of its stored
    identity and the policy of its stored profile, with the request as the
    signer reads it when the profile restricts requests, at the time of the
    call. *)
Theorem issue_policy actor e w c w' en :
  good w → IssueCertificate actor e w = (Ok c, w') →
  ms_enrollments (w_store w) !! e = Some en → Enrollment_Status en = EnrollmentApproved →
  policy_passed w en.
Proof.
  intros G E He Hst. eapply ing_policy, issue_inv; [exact E|done..|by rewrite Hst].
Qed.

Section Executions.
Context `{!UniqueIDs} `{!WebhookEnv}.

Lemma reachable_step w w' : reachable w → op_step w w' → reachable w'.
Proof. intros [t Hr] Hs. exists t. by eapply rtc_r; [|apply op_step_service]. Qed.

Lemma reachable_issue actor e w r w' :
  reachable w → IssueCertificate actor e w = (r, w') → reachable w'.
Proof.
  intros Hr E. replace w' with (IssueCertificate actor e w).2 by by rewrite E.
  eapply reachable_step; [exact Hr|apply ss_IssueCertificate].
Qed.

(** C26: A successful issuance leaves the certificate it returns in the store,
    for the enrollment that was asked for, with the enrollment issued and the
    issuance in the audit log. *)
Theorem issue_effect actor e w c w' :
  reachable w → IssueCertificate actor e w = (Ok c, w') →
  certs w' !! Certificate_ID c = Some c ∧ Certificate_EnrollmentID c = e ∧ audited c w' ∧
  ∃ en, ms_enrollments (w_store w') !! e = Some en ∧ Enrollment_Status en = EnrollmentIssued.
Proof.
  intros Hr E. destruct (issue_stored _ _ _ _ _ E (reachable_good _ Hr)) as (_ & Hc & Hid & Ha).
  repeat (split; [done|]). pose proof (reachable_issue _ _ _ _ _ Hr E) as Hr'.
  destruct (iss_certificate _ (con_issuance _ (reachable_consistent _ Hr')) _ _ Hc)
    as (en & a & He & Hst & _). rewrite Hid in He. eauto.
Qed.

(** C27: Issuing is idempotent: once it has succeeded, issuing the same
    enrollment again returns the same certificate and changes nothing. *)
Theorem issue_idempotent actor actor' e w c w' :
  reachable w → IssueCertificate actor e w = (Ok c, w') →
  (IssueCertificate actor' e w').1 = Ok c ∧ w_store (IssueCertificate actor' e w').2 = w_store w'.
Proof.
  intros Hr E. destruct (issue_stored _ _ _ _ _ E (reachable_good _ Hr)) as (Hb & Hc & Hid & Ha).
  pose proof (reachable_issue _ _ _ _ _ Hr E) as Hr'.
  destruct (iss_certificate _ (con_issuance _ (reachable_consistent _ Hr')) _ _ Hc)
    as (en & a & He & Hst & _). rewrite Hid in He.
  unfold IssueCertificate. erewrite bindM_ok_eq by by apply return_if_false.
  erewrite bindM_ok_eq by by apply getRow_eq. cbv zeta. rewrite Hst, String.eqb_refl.
  assert (e ≠ "") as Hne by (intros ->; by vm_compute in Hb).
  assert (repo (GetCertificateByEnrollmentID e) w' = (Ok c, w')) as Eg
    by (eapply byEnrollment_eq; [apply (reachable_good _ Hr')|done..]).
  erewrite (bindM_ok_eq (catchM _)) by by apply catchM_eq. cbv beta iota.
  erewrite bindM_ok_eq by apply now_eq.
  unfold ensureCertificateIssuedAuditEvent. rewrite (bindM_ok_eq _ _ _ tt (mkWorld (w_store w') (S (w_tick w')))).
  - done.
  - unfold ListAuditEvents. erewrite bindM_ok_eq; [|unfold repo, query; reflexivity]. simpl.
    unfold audited, events in Ha. by rewrite Ha.
Qed.
End Executions.
End IssuanceFacts.

(** ** Witnesses *)

Section Approval.
Context `{Env}.

Lemma approve_effect actor id reason w en w' :
  keyed Enrollment_ID (ms_enrollments (w_store w)) →
  ApproveEnrollmentWithReason actor id reason w = (Ok en, w') →
  ms_enrollments (w_store w') !! id = Some en ∧ Enrollment_Status en = EnrollmentApproved ∧
  Enrollment_ID en = id.
Proof.
  intros Hk E. unfold ApproveEnrollmentWithReason in E. succeeds E. bool_prop.
  match goal with Hg : ms_enrollments _ !! id = Some ?x |- _ => rename x into v, Hg into Hv end.
  match goal with Hn : w_store ?w1 = w_store w, Hv : ms_enrollments (w_store ?w1) !! _ = _ |- _ =>
    rewrite Hn in Hv end.
  pose proof (Hk _ _ Hv) as Hid. simpl in Hid.
  match goal with Ea : createAuditEvent _ _ _ _ _ _ _ = _ |- _ =>
    eapply (same_eq ms_enrollments) in Ea; [|by apply same_audit]; rewrite Ea end.
  match goal with Ed : addIdentityDeploymentTarget _ _ _ = _ |- _ =>
    apply (reads_ok _ _ _ _ (reads_deployment _ _ _)) in Ed; rewrite Ed end.
  match goal with Eu : repo (UpdateEnrollmentIfStatus _ _) _ = _ |- _ => wrote Eu; rewrite Eu end.
  simpl. rewrite Hid, lookup_insert_eq. done.
Qed.
End Approval.

Section Witnesses.
#[local] Existing Instance sample_env.
#[local] Existing Instance sample_webhook.

Definition sample_claim (t : Time) (w : World) : res (IssuanceAttempt * bool) * World :=
  claimIssuanceAttempt "e" t w.

Lemma claim_exclusive_witness :
  (sample_claim (2 * Minute) (sample_claim 0 new_world).2).1 = Err ErrInvalidTransition.
Proof.
  eapply (claim_exclusive "e" 0 (2 * Minute) new_world); [apply good_new|by vm_compute|done|by vm_compute].
Defined.

Lemma stale_claim_fenced_witness :
  ∃ a1, (persistSignedIssuanceAttempt a1 (mkIssueResult "" "" "" 0 0 (sample_evidence "" ""))
    (6 * Minute) (sample_claim (5 * Minute) (sample_claim 0 new_world).2).2).1 = Err ErrInvalidTransition.
Proof.
  eexists. eapply (stale_claim_fenced "e" 0 (5 * Minute) (6 * Minute) new_world _ _
    (sample_claim 0 new_world).2); [apply good_new|by vm_compute| |by vm_compute|done|by eexists].
  eapply reach_good; [apply good_new|apply (runs_claimIssuance "e" 0), good_new].
Defined.

Definition pending_world : World :=
  mkWorld (set_enrollments {[ "e" := zero_Enrollment |> Enrollment_with_Status EnrollmentPending ]}
    NewMemoryStore) 0.

Lemma issue_unapproved_witness :
  IssueCertificate "operator" "e" pending_world = (Err ErrInvalidTransition, pending_world).
Proof. by eapply (issue_unapproved "operator" "e" pending_world); vm_compute. Defined.

(** The run of [sample_issued], taken apart. *)
Lemma outcome_ok {A} (p : A → bool) (m : Svc A) :
  outcome p m = true → ∃ a w', m new_world = (Ok a, w').
Proof. unfold outcome, run. destruct (m new_world) as [[a|err] w']; [eauto|done]. Qed.

Lemma issued_run w0 c w' : reachable w0 → sample_issued w0 = (Ok c, w') →
  ∃ en w, reachable w ∧ ms_enrollments (w_store w) !! Enrollment_ID en = Some en ∧
    Enrollment_Status en = EnrollmentApproved ∧
    IssueCertificate "operator" (Enrollment_ID en) w = (Ok c, w').
Proof.
  intros Hr0 E. unfold sample_issued in E. apply bindM_ok_inv in E as (en & w & Ea & E).
  unfold sample_approved in Ea. apply bindM_ok_inv in Ea as (i & w1 & E1 & Ea).
  apply bindM_ok_inv in Ea as (s & w2 & E2 & Ea). apply bindM_ok_inv in Ea as (n & w3 & E3 & Ea).
  assert (reachable w1) as Hr1.
  { eapply reachable_step; [exact Hr0|]. pose proof (ss_CreateIdentity "operator" sample_identity w0) as Hs.
    by rewrite E1 in Hs. }
  assert (reachable w2) as Hr2.
  { eapply reachable_step; [exact Hr1|]. pose proof (ss_CreateIssuer "operator" sample_issuer w1) as Hs.
    by rewrite E2 in Hs. }
  assert (reachable w3) as Hr3.
  { eapply reachable_step; [exact Hr2|]. epose proof (ss_CreateEnrollment "operator" _ w2) as Hs.
    erewrite E3 in Hs. exact Hs. }
  assert (reachable w) as Hr.
  { eapply reachable_step; [exact Hr3|]. unfold ApproveEnrollment in Ea.
    pose proof (ss_ApproveEnrollment "operator" (Enrollment_ID n) "" w3) as Hs. by rewrite Ea in Hs. }
  apply approve_effect in Ea as (He & Hst & Hid); [|apply (good_store _ (reachable_good _ Hr3))].
  exists en, w. rewrite <- Hid in He. exact (conj Hr (conj He (conj Hst E))).
Qed.

Lemma new_reachable : reachable new_world.
Proof. exists 0. apply rtc_refl. Qed.

Lemma sample_run : ∃ en w c w', reachable w ∧ ms_enrollments (w_store w) !! Enrollment_ID en = Some en ∧
  Enrollment_Status en = EnrollmentApproved ∧
  IssueCertificate "operator" (Enrollment_ID en) w = (Ok c, w').
Proof.
  destruct (outcome_ok _ _ sample_issued_runs) as (c & w' & E).
  destruct (issued_run _ _ _ new_reachable E) as (en & w & Hrest). by exists en, w, c, w'.
Qed.

Lemma issue_policy_witness : ∃ w en, policy_passed w en.
Proof.
  destruct sample_run as (en & w & c & w' & Hr & He & Hst & E). exists w, en.
  exact (issue_policy _ _ _ _ _ en (reachable_good _ Hr) E He Hst).
Defined.

Lemma issue_effect_witness : ∃ c w',
  ms_certificates (w_store w') !! Certificate_ID c = Some c ∧ audited c w'.
Proof.
  destruct sample_run as (en & w & c & w' & Hr & _ & _ & E).
  destruct (issue_effect _ _ _ _ _ Hr E) as (Hc & _ & Ha & _). exists c, w'. auto.
Defined.

Lemma issue_idempotent_witness : ∃ e c w, (IssueCertificate "operator" e w).1 = Ok c.
Proof.
  destruct sample_run as (en & w & c & w' & Hr & _ & _ & E).
  exists (Enrollment_ID en), c, w'. apply (issue_idempotent "operator" "operator" _ _ _ _ Hr E).
Defined.
End Witnesses.
