(* ===== verification/OutboxFacts.v ===== *)
(** * Correctness of the outbox

    The due-message query and its independence of the iteration order, the
    bounds of the retry delay, the life of a message whose handler keeps
    failing, the exclusivity of a claim, deliveries that are made once, and the
    event types that have no handler. *)

From S2P Require Import Prelude GoLib Crypto Domain Core NetIP Requests AuditChain Store.
From S2P Require Import StoreInv Service Policy Registry Outbox Samples Machines ServiceFacts.
From S2P Require Import Invariants Outcomes.

(** ** Due messages *)

#[global] Instance due_less_swo : StrictWeakOrder due_less.
Proof. apply then_by_swo, _. Qed.

Lemma due_separates order x y :
  NoDup (OutboxMessage_ID <$> order) → x ∈ order → y ∈ order →
  due_less x y = false → due_less y x = false → x = y.
Proof.
  intros Hnd Hx Hy H1 H2. destruct (then_by_separates _ _ _ _ H1 H2) as [K1 K2].
  pose proof (key_less_separates _ _ _ _ K1 K2) as Hid.
  apply list_elem_of_lookup in Hx as [i Hi], Hy as [j Hj].
  assert (i = j) as ->; [|congruence].
  eapply NoDup_lookup; [exact Hnd|rewrite list_lookup_fmap, Hi; done|rewrite list_lookup_fmap, Hj; by rewrite Hid].
Qed.

(** The dispatcher's query returns due messages only, in the order in which
    they fall due, as many as the limit allows and the earliest ones: a due
    message is left out only when the limit is reached, and none that was
    returned comes after it. The result does not depend on the order in which
    the table is visited. *)
Theorem listDue_spec order order' now limit :
  NoDup (OutboxMessage_ID <$> order) → order' ≡ₚ order → (0 < limit)%Z →
  let due := listDueOutboxMessages order now limit in
  due = listDueOutboxMessages order' now limit ∧
  StronglySorted (not_after due_less) due ∧
  (Z.of_nat (length due) <= limit)%Z ∧
  (∀ m, m ∈ due → m ∈ order ∧ outboxMessageDue m now = true) ∧
  (∀ m, m ∈ order → outboxMessageDue m now = true → m ∉ due →
     Z.of_nat (length due) = limit ∧ ∀ d, d ∈ due → due_less m d = false).
Proof.
  intros Hnd Hp Hl due. unfold due, listDueOutboxMessages. destruct (Z.leb_spec limit 0); [lia|].
  set (l := filter (λ m, outboxMessageDue m now = true) order).
  pose proof (go_sort_sorted due_less l) as Hsorted. pose proof (go_sort_perm due_less l) as Hperm.
  set (sorted := go_sort due_less l) in *. rewrite <- (take_drop (Z.to_nat limit) sorted) in Hsorted.
  split_and!.
  - f_equal. unfold sorted, l. apply go_sort_permutation_invariant; [apply _| |by rewrite Hp].
    intros x y [_ Hx]%list_elem_of_filter [_ Hy]%list_elem_of_filter. by eapply due_separates.
  - clear -Hsorted. induction (take _ _) as [|x t IH]; [constructor|]. simpl in Hsorted.
    apply StronglySorted_inv in Hsorted as [Hs Hf]. constructor; [auto|]. by apply Forall_app in Hf as [? _].
  - rewrite length_take. lia.
  - intros m Hm. assert (m ∈ sorted) as Hs by (rewrite <- (take_drop (Z.to_nat limit) sorted); set_solver).
    rewrite Hperm in Hs. apply list_elem_of_filter in Hs as [? ?]. done.
  - intros m Hm Hd Hn. assert (m ∈ drop (Z.to_nat limit) sorted) as Hdrop.
    { assert (m ∈ sorted) as Hs by (rewrite Hperm; by apply list_elem_of_filter).
      rewrite <- (take_drop (Z.to_nat limit) sorted), elem_of_app in Hs. by destruct Hs. }
    split.
    + rewrite length_take. apply list_elem_of_lookup in Hdrop as [i Hi]. apply lookup_lt_Some in Hi.
      rewrite length_drop in Hi. lia.
    + intros d Hin. exact (StronglySorted_app_inv _ _ _ Hsorted d m Hin Hdrop).
Qed.

(** ** Retries *)

(** A retry waits for the delay of its attempt - one, five or fifteen
    minutes, then an hour - plus a jitter of at most a tenth of it, so never
    longer than 66 minutes. *)
Theorem retry_delay_bounds m :
  let base := outboxRetryDelayForAttempt (OutboxMessage_AttemptCount m) in
  base ∈ outboxRetryDelays ∧
  (base <= outboxRetryDelayForMessage m <= base + base / 10)%Z ∧
  (Minute <= outboxRetryDelayForMessage m <= 66 * Minute)%Z.
Proof.
  intros base. assert (base ∈ outboxRetryDelays) as Hb.
  { unfold base, outboxRetryDelayForAttempt.
    destruct (Z.leb_spec (OutboxMessage_AttemptCount m) 1); [left|].
    apply list_elem_of_In, nth_In. unfold outboxRetryDelays. simpl.
    destruct (Z.leb_spec (Z.of_nat 4) (OutboxMessage_AttemptCount m - 1)); lia. }
  assert (Minute <= base <= Hour)%Z as Hr.
  { clear -Hb. unfold outboxRetryDelays, Hour, Minute, Second in *. set_solver by lia. }
  assert (base <= outboxRetryDelayForMessage m <= base + base / 10)%Z as Hd.
  { unfold outboxRetryDelayForMessage. fold base. unfold Hour, Minute, Second in *.
    rewrite Z.quot_div_nonneg by lia. destruct (Z.leb_spec (base / 10) 0).
    - pose proof (Z.div_pos base 10). lia.
    - match goal with |- context [Z.rem ?h ?n] => assert (0 <= Z.rem h n < n)%Z end; [|lia].
      apply Z.rem_bound_pos; [apply fnv32a_range|lia]. }
  split; [done|]. split; [done|]. unfold Hour, Minute, Second in *.
  pose proof (Z.mul_div_le base 10 ltac:(lia)). lia.
Qed.

Section Failing.
Context `{Env}.




End Failing.

(** ** Claims *)

Section Claims.
Context `{Env}.
Abbreviation outbox w := (ms_outbox (w_store w)).

Lemma update_outbox_stale x cur v w :
  outbox w !! OutboxMessage_ID x = Some v → sameOutboxMessage cur v = false →
  repo (UpdateOutboxMessageIfCurrent x cur) w = (Err ErrInvalidTransition, w).
Proof.
  intros Hv Hs. unfold repo, UpdateOutboxMessageIfCurrent, putRows, updateOutboxMessageIfCurrent.
  pose proof (updateIf_cases (OutboxMessage_ID x) ErrOutboxMessageNotFound
    (sameOutboxMessage cur) x (outbox w)) as Hu.
  rewrite Hv in Hu. rewrite Hu, Hs. by destruct w.
Qed.

(** What a claim leaves: the row is held until a deadline after the claim. *)
Lemma claim_row m w c w' :
  claim m w = (Ok (Some c), w') →
  outbox w' !! OutboxMessage_ID m = Some c ∧ OutboxMessage_Status c = OutboxProcessing ∧
  OutboxMessage_ProcessingDeadlineAt c = Add (clock_Now (w_tick w)) defaultOutboxProcessingLease.
Proof.
  intros E. unfold claim in E. destruct (_ && _) in E; [done|].
  apply bindM_ok_inv in E as (now & w1 & En & E). rewrite now_eq in En. injection En as <- <-.
  assert (∀ x cur w1 w2 (e : goerr → bool), OutboxMessage_ID x = OutboxMessage_ID m →
    (let* r := catchM (repo (UpdateOutboxMessageIfCurrent x cur)) in
     match r with Ok _ => retM (Some x) | Err err => if e err then retM None else failM err end) w1
      = (Ok (Some c), w2) → outbox w2 !! OutboxMessage_ID m = Some c ∧ x = c) as Htake.
  { intros x cur w1 w2 e Ex Eb. apply bindM_ok_inv in Eb as ([[]|err] & w3 & Er%catch_ok & Eb).
    - injection Eb as <- <-. wrote Er. rewrite Er, <- Ex. simpl. by rewrite lookup_insert_eq.
    - by destruct (e err). }
  cbv zeta in E. destruct (_ =s OutboxProcessing).
  - apply bindM_ok_inv in E as ([[]|err] & w3 & _ & E); [by apply Htake in E as [? <-]|].
    by destruct (_ || _) in E.
  - by apply Htake in E as [? <-].
Qed.

(** Two workers that read the same due message never both hold it. After
    one has claimed it, a claim from the same snapshot, as long as the row is
    still the claimed one, returns nothing. *)
Theorem outbox_claim_exclusive m w c w1 w2 :
  outboxMessageDue m (clock_Now (w_tick w)) = true →
  claim m w = (Ok (Some c), w1) → outbox w2 !! OutboxMessage_ID m = outbox w1 !! OutboxMessage_ID m →
  (claim m w2).1 = Ok None ∧ w_store (claim m w2).2 = w_store w2.
Proof.
  intros Hdue E Hrow. destruct (claim_row _ _ _ _ E) as (Hc & Hst & Hdl). rewrite Hc in Hrow.
  assert (sameOutboxMessage m c = false) as Hstale.
  { unfold sameOutboxMessage, outboxMessageDue in *. rewrite Hst.
    destruct (String.eqb_spec (OutboxMessage_Status m) OutboxPending) as [->|Hp]; [done|].
    destruct (String.eqb_spec (OutboxMessage_Status m) OutboxProcessing) as [->|Hq]; [|done].
    unfold TimeEqual, After, Add in *. bool_prop. rewrite Hdl.
    assert (0 < defaultOutboxProcessingLease)%Z by done.
    match goal with |- context [Z.eqb ?a ?b] => destruct (Z.eqb_spec a b) end; [lia|].
    by rewrite andb_false_r. }
  assert (∀ x t, OutboxMessage_ID x = OutboxMessage_ID m →
    catchM (repo (UpdateOutboxMessageIfCurrent x m)) (mkWorld (w_store w2) t) =
      (Ok (Err ErrInvalidTransition), mkWorld (w_store w2) t)) as Hu.
  { intros x t Ex. apply catchM_eq. eapply update_outbox_stale; [simpl; by rewrite Ex|done]. }
  unfold claim, outboxMessageDue in *.
  destruct (String.eqb_spec (OutboxMessage_Status m) OutboxPending) as [Ep|Ep].
  - rewrite Ep. cbn [negb andb]. erewrite bindM_ok_eq by apply now_eq. cbv zeta.
    replace (OutboxPending =s OutboxProcessing) with false by done.
    by erewrite (bindM_ok_eq (catchM _)) by by apply Hu.
  - destruct (String.eqb_spec (OutboxMessage_Status m) OutboxProcessing) as [Eq|Eq]; [|done].
    cbn [negb andb]. erewrite bindM_ok_eq by apply now_eq. cbv zeta.
    by erewrite (bindM_ok_eq (catchM _)) by by apply Hu.
Qed.

(** A message that is retried by an operator starts over: it must be a
    dead letter or failed, and it is stored pending, due at once, with no
    attempts and no error, under the same identity, type and payload. *)
Theorem retry_resets actor id w m w' :
  RetryOutboxMessage actor id w = (Ok m, w') →
  ∃ v, outbox w !! id = Some v ∧ OutboxMessage_Status v ∈ [OutboxDeadLetter; OutboxFailed] ∧
    outbox w' = <[OutboxMessage_ID v := m]> (outbox w) ∧
    OutboxMessage_Status m = OutboxPending ∧ OutboxMessage_AttemptCount m = 0%Z ∧
    OutboxMessage_AvailableAt m = clock_Now (w_tick w) ∧ OutboxMessage_LastError m = "" ∧
    (0 < OutboxMessage_MaxAttempts m)%Z ∧ mc_erase m = mc_erase v.
Proof.
  intros E. unfold RetryOutboxMessage in E. succeeds E.
  match goal with En : now_ _ = _ |- _ => rewrite now_eq in En; injection En as <- <- end. simpl in *.
  match goal with Hv : outbox _ !! id = Some ?x |- _ => rename x into v, Hv into Hv end.
  match goal with Et : bindM _ _ _ = _ |- _ => succeeds Et end.
  exists v. split; [done|]. split.
  { match goal with Hg : _ && _ = false |- _ => apply andb_false_iff in Hg as [Hg|Hg]; bool_prop; rewrite Hg end;
      set_solver. }
  split.
  { match goal with Ea : createAuditEvent _ _ _ _ _ _ _ = _ |- _ =>
      eapply (same_eq ms_outbox) in Ea; [|by apply same_audit]; rewrite Ea end.
    match goal with Eu : repo _ _ = _ |- _ => wrote Eu; rewrite Eu end. simpl.
    unfold outboxMessageForReplay. by destruct (Z.leb _ _). }
  unfold outboxMessageForReplay, defaultOutboxMaxAttempts. simpl.
  destruct (Z.leb_spec (OutboxMessage_MaxAttempts v) 0); simpl; split_and!; done || lia.
Qed.

(** The announcements of a profile's issuer transition have no handler: with
    or without a webhook, delivering one always fails, so every such message
    ends as a dead letter. *)
Theorem transition_events_unhandled webhook t m w :
  OutboxMessage_Type m = profileTransitionAction t →
  NewLifecycleOutboxHandlerWithWebhook webhook m w =
    (Err (EWrap (OutboxMessage_Type m) ErrOutboxHandlerNotFound), w).
Proof.
  intros E. assert (∀ h : OutboxHandler, handlersFor h !! OutboxMessage_Type m = None) as Hn.
  { intros h. rewrite E. unfold profileTransitionAction. destruct (_ =s _); reflexivity. }
  unfold NewLifecycleOutboxHandlerWithWebhook, NewLifecycleOutboxHandler, registryHandler.
  destruct webhook; by rewrite Hn.
Qed.

(** ** Deliveries *)

Section Deliveries.
Context `{WebhookEnv}.

Lemma currentDelivery_found m ep w d :
  ms_webhookDeliveries (w_store w) !! webhookDeliveryKey (OutboxMessage_ID m) (NotificationEndpoint_ID ep) =
    Some d → currentDelivery m ep w = (Ok d, w).
Proof.
  intros Hd. unfold currentDelivery.
  rewrite (bindM_ok_eq _ _ _ (Ok d) w); [done|]. apply catchM_eq.
  unfold repo, GetWebhookDelivery, getWebhookDelivery, lookupRow. rewrite Hd. by destruct w.
Qed.

(** A webhook delivery is made once: when the delivery of a message to an
    endpoint succeeded, delivering it again - as a retry of the whole message
    does - makes no request and changes nothing. *)
Theorem delivery_once m data ep w w' :
  deliverTo m data ep w = (Ok tt, w') → deliverTo m data ep w' = (Ok tt, w').
Proof.
  intros E. unfold deliverTo in *. destruct (negb _) eqn:Em; [done|].
  assert (∀ d, ms_webhookDeliveries (w_store w') !!
      webhookDeliveryKey (OutboxMessage_ID m) (NotificationEndpoint_ID ep) = Some d →
    WebhookDelivery_Status d = JobAttemptSucceeded →
    (let* delivery := currentDelivery m ep in
     if WebhookDelivery_Status delivery =s JobAttemptSucceeded then retM tt
     else let* posted := catchM (postWebhook ep m data) in
       match posted with
       | Err err => do* recordWebhookDelivery m ep delivery JobAttemptFailed (error_text err) in failM err
       | Ok _ => recordWebhookDelivery m ep delivery JobAttemptSucceeded ""
       end) w' = (Ok tt, w')) as Hagain.
  { intros d Hd Hs. erewrite bindM_ok_eq by by apply currentDelivery_found. by rewrite Hs. }
  apply bindM_ok_inv in E as (d & w1 & Ed & E).
  destruct (String.eqb_spec (WebhookDelivery_Status d) JobAttemptSucceeded) as [Es|Es].
  - injection E as <-. unfold currentDelivery in Ed. succeeds Ed.
    unfold repo, GetWebhookDelivery, getWebhookDelivery in Hs. injection Hs as Hl <-. simpl in *.
    destruct a as [d0|err]; [|by destruct (negb _) in Ed; [done|]; succeeds Ed].
    apply lookupRow_ok in Hl. injection Ed as -> <-. by eapply Hagain.
  - succeeds E. destruct a as [[]|err]; [|by apply bindM_ok_inv in E as (? & ? & _ & [=])].
    unfold recordWebhookDelivery in E. apply bindM_ok_inv in E as (now & w3 & _ & E). cbv zeta in E.
    wrote E. eapply Hagain; [rewrite E; simpl; apply lookup_insert_eq|done].
Qed.
End Deliveries.
End Claims.

(** ** Witnesses *)

Section Witnesses.
#[local] Existing Instance sample_env.
#[local] Existing Instance sample_webhook.

Definition sample_message (id status : string) : OutboxMessage :=
  mkOutboxMessage id "certificate.revoked" "{}" status 10 zero_time 0 3 "" 5 5.

Definition sample_endpoint : NotificationEndpoint :=
  mkNotificationEndpoint "hook" "hook" NotificationEndpointWebhook NotificationEndpointActive
    "https://hook.example" "" [] 0 0.

Definition outbox_world : World :=
  mkWorld (set_outbox (list_to_map [("m", sample_message "m" OutboxPending);
    ("d", sample_message "d" OutboxDeadLetter)]) NewMemoryStore) 0.

Lemma listDue_spec_witness :
  listDueOutboxMessages [sample_message "a" OutboxPending; sample_message "b" OutboxPending] 20 1 =
  listDueOutboxMessages [sample_message "b" OutboxPending; sample_message "a" OutboxPending] 20 1.
Proof.
  apply (listDue_spec [sample_message "a" OutboxPending; sample_message "b" OutboxPending]
    [sample_message "b" OutboxPending; sample_message "a" OutboxPending] 20 1).
  - apply (bool_decide_unpack _). by vm_compute.
  - apply perm_swap.
  - lia.
Defined.


Lemma outbox_claim_exclusive_witness :
  (claim (sample_message "m" OutboxPending) (claim (sample_message "m" OutboxPending) outbox_world).2).1 =
    Ok None.
Proof.
  eapply (outbox_claim_exclusive (sample_message "m" OutboxPending) outbox_world); [|by vm_compute|done].
  by vm_compute.
Defined.

Definition sample_retry : res OutboxMessage * World := RetryOutboxMessage "operator" "d" outbox_world.
Lemma retry_resets_witness : ∃ m, sample_retry.1 = Ok m ∧ OutboxMessage_Status m = OutboxPending.
Proof.
  assert (is_ok sample_retry.1 = true) as Hok by by vm_compute.
  destruct sample_retry as [[m|e] w'] eqn:E; [|discriminate Hok].
  destruct (retry_resets _ _ _ _ _ E) as (v & _ & _ & _ & Hs & _). exists m. exact (conj eq_refl Hs).
Defined.

Lemma transition_events_unhandled_witness :
  NewLifecycleOutboxHandlerWithWebhook None
    (mkOutboxMessage "m" "certificate_profile.issuer_rolled_over" "{}" OutboxPending 0 0 0 5 "" 0 0)
    new_world =
  (Err (EWrap "certificate_profile.issuer_rolled_over" ErrOutboxHandlerNotFound), new_world).
Proof. by apply (transition_events_unhandled None CertificateProfileIssuerRollover). Defined.

Definition sample_delivery (w : World) : res unit * World :=
  deliverTo (sample_message "m" OutboxProcessing) "{}" sample_endpoint w.
Lemma delivery_once_witness :
  sample_delivery (sample_delivery outbox_world).2 = (Ok tt, (sample_delivery outbox_world).2).
Proof. apply (delivery_once _ _ _ outbox_world). by vm_compute. Defined.
End Witnesses.
