(* ===== verification/CRLFacts.v ===== *)
(** * Correctness of CRL publication and of OCSP answers

    Numbers at a distribution point only grow, one writer at a time holds the
    claim, and the statuses an OCSP answer carries are those of the stored
    certificates. *)

From Stdlib Require Import Ascii.
From S2P Require Import Prelude GoLib Crypto Domain Core NetIP Requests AuditChain Store StoreInv Service Policy Registry Lifecycle Issuance Outbox CRL APIKeys OCSP ACME Samples Machines ServiceFacts Invariants History Outcomes.

(** ** Numbers *)

Section Numbers.
Implicit Types (ps : list CRLPublication) (dp : string).

Definition maxNumber (ps : list CRLPublication) (dp : string) (start : Z) : Z :=
  fold_left (λ m p,
    if (CRLPublication_DistributionPoint p =s dp) && Z.ltb m (CRLPublication_CRLNumber p)
    then CRLPublication_CRLNumber p else m) ps start.

Lemma maxNumber_spec ps dp start :
  (start <= maxNumber ps dp start)%Z ∧
  (∀ p, p ∈ ps → CRLPublication_DistributionPoint p = dp →
     (CRLPublication_CRLNumber p <= maxNumber ps dp start)%Z) ∧
  (maxNumber ps dp start = start ∨ ∃ p, p ∈ ps ∧ CRLPublication_DistributionPoint p = dp ∧
     CRLPublication_CRLNumber p = maxNumber ps dp start).
Proof.
  revert start. induction ps as [|p ps IH]; intros start; cbn [maxNumber fold_left].
  { split; [lia|]. split; [by intros p ?%not_elem_of_nil|by left]. }
  set (s := if (_ : bool) then CRLPublication_CRLNumber p else start). fold (maxNumber ps dp s). destruct (IH s) as (I1 & I2 & I3).
  assert (start <= s ∧ (CRLPublication_DistributionPoint p = dp → CRLPublication_CRLNumber p <= s) ∧
    (s = start ∨ CRLPublication_DistributionPoint p = dp ∧ CRLPublication_CRLNumber p = s))%Z as (S1 & S2 & S3).
  { unfold s. destruct (String.eqb_spec (CRLPublication_DistributionPoint p) dp); simpl; [|intuition lia].
    destruct (Z.ltb_spec start (CRLPublication_CRLNumber p)); intuition lia. }
  split; [lia|]. split.
  - intros q [->|Hq]%elem_of_cons Hd; [specialize (S2 Hd); lia|by apply I2].
  - destruct I3 as [I3|(q & Hq & Hd & Hn)].
    + rewrite I3. destruct S3 as [S3|[S3 S4]]; [by left|right]. exists p. split; [left|done].
    + right. exists q. split; [by right|done].
Qed.

Lemma nextCRLNumber_spec ps dp :
  (∀ p, p ∈ ps → (CRLPublication_CRLNumber p < 2 ^ 63 - 1)%Z) →
  (1 <= nextCRLNumber ps dp)%Z ∧
  ∀ p, p ∈ ps → CRLPublication_DistributionPoint p = dp → (CRLPublication_CRLNumber p < nextCRLNumber ps dp)%Z.
Proof.
  intros Hb. unfold nextCRLNumber. fold (maxNumber ps dp 0).
  destruct (maxNumber_spec ps dp 0) as (M1 & M2 & M3).
  assert (maxNumber ps dp 0 < 2 ^ 63 - 1)%Z as Hm.
  { destruct M3 as [->|(p & Hp & _ & <-)]; [done|by apply Hb]. }
  rewrite wrap64_id by (unfold int64; lia). split; [lia|]. intros p Hp Hd. specialize (M2 p Hp Hd). lia.
Qed.
End Numbers.

Section CRLFacts.
Context `{Env}.
Abbreviation crls w := (ms_crls (w_store w)).
Abbreviation claims w := (ms_crlClaims (w_store w)).

(** What a claim has stored: the next number, under a lease from now. *)
Lemma claimCRL_ok i dp t w c w' :
  claimCRLGeneration i dp t w = (Ok c, w') → good w →
  w_store w' = set_crlClaims (<[crlGenerationClaimKey i dp := c]> (claims w)) (w_store w) ∧
  claimKey c = crlGenerationClaimKey i dp ∧
  CRLGenerationClaim_LeaseExpiresAt c = Add t defaultCRLGenerationLease ∧
  CRLGenerationClaim_UpdatedAt c = t ∧
  CRLGenerationClaim_CRLNumber c =
    nextCRLNumber (listCRLPublicationsByIssuer (map_values (crls w)) i) dp.
Proof.
  intros E G. unfold claimCRLGeneration in E. succeeds E.
  match goal with Ep : repo (ListCRLPublicationsByIssuer _) _ = _ |- _ =>
    apply repo_eq in Ep as [Ep _]; rename Ep into Hp end.
  injection Hp as <- Ep.
  match goal with Eg : repo (GetCRLGenerationClaim _ _) _ = _ |- _ =>
    apply repo_eq in Eg as [Eg _]; rename Eg into Hg end.
  injection Hg as Eg Es.
  destruct a0 as [cur|err].
  - apply lookupRow_ok in Eg. succeeds E. wrote Hs0.
    assert (claimKey cur = crlGenerationClaimKey i dp) as Hk
      by (apply (inv_crlClaims _ (good_store _ G) _ cur); by rewrite Ep).
    split_and!; [|done..]. rewrite Hs0, <- Es, <- Ep. simpl. by rewrite <- Hk.
  - destruct (errors_Is err _); [|done]. succeeds E. wrote Hs. split_and!; [|done..].
    by rewrite Hs, <- Es, <- Ep.
Qed.

Lemma getClaim_eq i dp w c :
  claims w !! crlGenerationClaimKey i dp = Some c → repo (GetCRLGenerationClaim i dp) w = (Ok c, w).
Proof.
  intros Hc. unfold repo, GetCRLGenerationClaim, getCRLGenerationClaim, lookupRow. rewrite Hc. by destruct w.
Qed.

(** A distribution point has one writer at a time: after a claim, every
    other claim of the same issuer and distribution point is refused with an
    invalid transition until its lease has run out, and changes nothing. *)
Theorem crl_claim_exclusive i dp t1 t2 w c w1 w2 :
  good w → claimCRLGeneration i dp t1 w = (Ok c, w1) →
  claims w2 !! crlGenerationClaimKey i dp = claims w1 !! crlGenerationClaimKey i dp →
  (t2 < t1 + defaultCRLGenerationLease)%Z →
  (claimCRLGeneration i dp t2 w2).1 = Err ErrInvalidTransition ∧
  w_store (claimCRLGeneration i dp t2 w2).2 = w_store w2.
Proof.
  intros G E Hsame Ht. destruct (claimCRL_ok _ _ _ _ _ _ E G) as (Es & _ & Hl & _ & _).
  rewrite Es in Hsame. simpl in Hsame. rewrite lookup_insert_eq in Hsame.
  unfold claimCRLGeneration. erewrite WithinTx_err_eq; [done|].
  erewrite bindM_ok_eq by reflexivity. simpl. destruct w2 as [s2 k2]. simpl in *.
  erewrite (bindM_ok_eq (catchM _)) by (apply catchM_eq; by apply getClaim_eq).
  cbv beta iota zeta. apply bindM_err_eq, return_if_true. unfold After. rewrite Hl. by apply Z.ltb_lt.
Qed.

Lemma deleteClaim_stale c v w r w' :
  claims w !! claimKey c = Some v → sameCRLGenerationClaim c v = false →
  repo (DeleteCRLGenerationClaimIfCurrent c) w = (r, w') → r = Err ErrInvalidTransition.
Proof.
  intros Hv Hs. unfold repo, DeleteCRLGenerationClaimIfCurrent, putRows, deleteCRLGenerationClaimIfCurrent,
    lookupRow. rewrite Hv. simpl. rewrite Hs. by intros [= <- _].
Qed.

(** Storing a publication leaves the claims to its last step. *)
Lemma storeCRL_ok actor c p ev t w u w' :
  storeCRL actor c p ev t w = (Ok u, w') →
  ∃ v, claims w !! claimKey c = Some v ∧ sameCRLGenerationClaim c v = true ∧
    claims w' = delete (claimKey c) (claims w) ∧
    crls w' = <[CRLPublication_ID p := p]> (crls w).
Proof.
  intros E. unfold storeCRL in E. succeeds E.
  match goal with Ec : repo (CreateCRLPublication _) _ = _ |- _ => wrote Ec; rename Ec into Hc end.
  match goal with Ea : createAuditEvent _ _ _ _ _ _ _ = _ |- _ => rename Ea into Ha end.
  pose proof (same_eq ms_crls _ _ _ _ (same_audit ms_crls _ _ _ _ _ _ _ (λ _ _, eq_refl)) Ha) as A1.
  pose proof (same_eq ms_crlClaims _ _ _ _ (same_audit ms_crlClaims _ _ _ _ _ _ _ (λ _ _, eq_refl)) Ha) as A2.
  wrote E. rewrite Hc in A1, A2. simpl in *. rewrite E. simpl. rewrite A1, A2.
  match goal with Hv : ms_crlClaims _ !! claimKey c = Some ?x |- _ => exists x; rewrite A2 in Hv end.
  split_and!; try done. destruct (sameCRLGenerationClaim _ _); [done|]. simplify_eq/=.
Qed.

(** A publisher that lost its claim is fenced: once another caller has taken
    the distribution point over at a different time, the CRL that the first one
    signed is not stored and nothing changes. *)
Theorem crl_stale_fenced i dp t1 t2 w1 c1 w1' w2 c2 w2' actor p ev t3 :
  good w1 → claimCRLGeneration i dp t1 w1 = (Ok c1, w1') →
  good w2 → claimCRLGeneration i dp t2 w2 = (Ok c2, w2') → t1 ≠ t2 →
  is_ok (storeCRL actor c1 p ev t3 w2').1 = false ∧
  w_store (storeCRL actor c1 p ev t3 w2').2 = w_store w2'.
Proof.
  intros G1 E1 G2 E2 Hne. destruct (claimCRL_ok _ _ _ _ _ _ E1 G1) as (_ & Hk1 & Hl1 & _).
  destruct (claimCRL_ok _ _ _ _ _ _ E2 G2) as (Es & Hk2 & Hl2 & _).
  destruct (storeCRL actor c1 p ev t3 w2') as [[u|e] w'] eqn:E.
  - exfalso. apply storeCRL_ok in E as (v & Hv & Hs & _). rewrite Es, Hk1 in Hv. simpl in Hv.
    rewrite lookup_insert_eq in Hv. injection Hv as <-. unfold sameCRLGenerationClaim, TimeEqual in Hs.
    bool_prop. unfold Add in *. lia.
  - split; [done|]. by apply WithinTx_err in E.
Qed.

(** ** Publication *)

(** The entries of the revocation list of an issuer. *)
Lemma listRevocations_entry s i e :
  e ∈ listRevocationsByIssuer (ms_certificates s) (map_values (ms_revocations s)) i ↔
  ∃ k r c, ms_revocations s !! k = Some r ∧ ms_certificates s !! Revocation_CertificateID r = Some c ∧
    Certificate_IssuerID c = i ∧ Certificate_Status c = CertificateRevoked ∧
    e = mkRevokedCertificateEntry (Certificate_ID c) (Certificate_SerialNumber c)
          (Revocation_RevokedAt r) (Revocation_Reason r).
Proof.
  unfold listRevocationsByIssuer. rewrite list_elem_of_omap. split.
  - intros (r & (k & Hk)%elem_of_map_values & He).
    destruct (ms_certificates s !! Revocation_CertificateID r) as [c|] eqn:Ec; [|done].
    destruct (_ || _) eqn:Eo in He; [done|]. bool_prop. injection He as <-. exists k, r, c. by split_and!.
  - intros (k & r & c & Hk & Hc & <- & Hst & ->). exists r. split; [apply elem_of_map_values; eauto|].
    by rewrite Hc, Hst, !String.eqb_refl.
Qed.

(** What a CRL of issuer [i] has to say: the recorded revocations of its
    revoked certificates. *)
Definition revoked_by (w : World) (i : string) (r : RevokedCertificate) : Prop :=
  ∃ k rev c, ms_revocations (w_store w) !! k = Some rev ∧
    ms_certificates (w_store w) !! Revocation_CertificateID rev = Some c ∧
    Certificate_IssuerID c = i ∧ Certificate_Status c = CertificateRevoked ∧
    r = mkRevokedCertificate (Certificate_SerialNumber c) (Revocation_RevokedAt rev) (Revocation_Reason rev).

Lemma listRevocations_spec w i r :
  r ∈ revokedForCore <$> listRevocationsByIssuer (ms_certificates (w_store w))
        (map_values (ms_revocations (w_store w))) i ↔ revoked_by w i r.
Proof.
  rewrite list_elem_of_fmap. unfold revoked_by. setoid_rewrite listRevocations_entry. split.
  - intros (e & -> & k & rev & c & ? & ? & ? & ? & ->). by exists k, rev, c.
  - intros (k & rev & c & ? & ? & ? & ? & ->). eexists. split; [|by exists k, rev, c]. done.
Qed.

Lemma publishClaimed_ok actor req issuer c t w p w' :
  publishClaimedCRL actor req issuer c t w = (Ok p, w') →
  CRLPublication_IssuerID p = PublishCRLRequest_IssuerID req ∧
  CRLPublication_DistributionPoint p = PublishCRLRequest_DistributionPoint req ∧
  CRLPublication_CRLNumber p = CRLGenerationClaim_CRLNumber c ∧
  (∃ k request result, issuer_GenerateCRL k request = Ok result ∧
     (∀ r, r ∈ GenerateCRLRequest_RevokedCertificates request ↔
        revoked_by w (PublishCRLRequest_IssuerID req) r) ∧
     GenerateCRLRequest_CRLNumber request = CRLPublication_CRLNumber p ∧
     CRLPublication_CRLPEM p = GenerateCRLResult_CRLPEM result) ∧
  claims w' = delete (claimKey c) (claims w) ∧ crls w' = <[CRLPublication_ID p := p]> (crls w).
Proof.
  intros E. unfold publishClaimedCRL in E. apply bindM_ok_inv in E as (revs & w1 & El & E).
  apply repo_eq in El as [El _]. injection El as <- El.
  apply bindM_ok_inv in E as (? & w2 & Ek & E). apply outside_store in Ek.
  apply bindM_ok_inv in E as (r & w3 & Eg%catch_ok & E).
  destruct r as [result|err]; [|done]. destruct (ValidateSigningEvidence _ _ _); [|done].
  pose proof (outside_store _ _ _ _ Eg) as Es. injection Eg as Eg _. apply bindM_ok_inv in E as (id & w4 & Ei & E). apply newID_ok in Ei.
  cbv zeta in E. apply bindM_ok_inv in E as (? & w5 & Est & E). injection E as <- <-.
  apply storeCRL_ok in Est as (v & _ & _ & Hcl & Hcr). simpl in *.
  assert (w_store w4 = w_store w) as Hw by congruence. rewrite Hw in Hcl, Hcr.
  split_and!; try done. eexists _, _, result. split; [exact Eg|]. split; [|done].
  intros r. apply listRevocations_spec.
Qed.

(** C34: A publication is the newest at its distribution point and lists every
    revocation. The stored CRL has a number above every number its issuer has
    published there before, the signer was given exactly the revocations
    recorded for the issuer's revoked certificates, nothing else is published,
    and the claim is released. *)
Theorem publish_effect actor req w p w' :
  let i := PublishCRLRequest_IssuerID req in
  let dp := PublishCRLRequest_DistributionPoint req in
  good w → (∀ k q, crls w !! k = Some q → CRLPublication_CRLNumber q < 2 ^ 63 - 1)%Z →
  PublishCRL actor req w = (Ok p, w') →
  crls w' = <[CRLPublication_ID p := p]> (crls w) ∧
  CRLPublication_IssuerID p = i ∧ CRLPublication_DistributionPoint p = dp ∧
  (∀ k q, crls w !! k = Some q → CRLPublication_IssuerID q = i → CRLPublication_DistributionPoint q = dp →
     CRLPublication_CRLNumber q < CRLPublication_CRLNumber p)%Z ∧
  (∃ t request result, issuer_GenerateCRL t request = Ok result ∧
     (∀ r, r ∈ GenerateCRLRequest_RevokedCertificates request ↔ revoked_by w i r) ∧
     GenerateCRLRequest_CRLNumber request = CRLPublication_CRLNumber p ∧
     CRLPublication_CRLPEM p = GenerateCRLResult_CRLPEM result) ∧
  claims w' !! crlGenerationClaimKey i dp = None.
Proof.
  intros i dp G Hb E. unfold PublishCRL in E. apply bindM_ok_inv in E as (t & w1 & Et & E).
  pose proof (now_ok _ _ _ Et) as Hn. assert (good w1) as G1 by (eapply (good_after now_); [runs|exact G|exact Et]).
  succeeds E. rename Hs1 into Ec, Hs2 into Ep.
  apply claimCRL_ok in Ec as (Hs2 & Hk & _ & _ & Hnum); [|done].
  destruct a2 as [p'|err]; [|by apply bindM_ok_inv in E as (? & ? & _ & [=])]. injection E as -> ->.
  apply publishClaimed_ok in Ep as (Hi & Hd & Hcn & Hsig & Hcl & Hcr).
  rewrite Hs2 in Hcl, Hcr. simpl in Hcl, Hcr. rewrite Hn in Hcr, Hnum.
  destruct (nextCRLNumber_spec (listCRLPublicationsByIssuer (map_values (crls w)) i) dp) as [_ Hmax].
  { intros q [_ (k & Hq)%elem_of_map_values]%list_elem_of_filter. by eapply Hb. }
  split_and!; try done.
  - intros k q Hq Hqi Hqd. rewrite Hcn, Hnum. apply Hmax; [|done].
    apply list_elem_of_filter. split; [by apply String.eqb_eq|]. apply elem_of_map_values. eauto.
  - destruct Hsig as (k & request & result & Hg & Hr & Hrest). exists k, request, result.
    split; [done|]. split; [|done]. intros r. rewrite Hr. unfold revoked_by. rewrite Hs2. simpl. by rewrite Hn.
  - rewrite Hcl, Hk. apply lookup_delete_eq.
Qed.
End CRLFacts.

(** ** Witnesses *)

Section Witnesses.
#[local] Existing Instance sample_env.

Definition sample_crl_claim (t : Time) (w : World) : res CRLGenerationClaim * World :=
  claimCRLGeneration "i" "http://crl" t w.

Lemma crl_claim_exclusive_witness :
  (sample_crl_claim Minute (sample_crl_claim 0 new_world).2).1 = Err ErrInvalidTransition.
Proof.
  eapply (crl_claim_exclusive "i" "http://crl" 0 Minute new_world); [apply good_new|by vm_compute|done|by vm_compute].
Defined.

Lemma crl_stale_fenced_witness : ∃ c1,
  is_ok (storeCRL "operator" c1 zero_CRLPublication (sample_evidence "" "") 0
    (sample_crl_claim (10 * Minute) (sample_crl_claim 0 new_world).2).2).1 = false.
Proof.
  eexists. eapply (crl_stale_fenced "i" "http://crl" 0 (10 * Minute) new_world _ _
    (sample_crl_claim 0 new_world).2); [apply good_new|by vm_compute| |by vm_compute|done].
  eapply reach_good; [apply good_new|apply (runs_claimCRL "i" "http://crl" 0), good_new].
Defined.

Definition issuer_world : World := (Registry.CreateIssuer "operator" sample_issuer new_world).2.
Definition sample_publish : res CRLPublication * World :=
  PublishCRL "operator" (mkPublishCRLRequest "id-1" "http://crl" (sample_epoch + 24 * Hour)) issuer_world.

Lemma sample_publish_runs :
  bool_decide (fst <$> map_to_list (ms_crls (w_store issuer_world)) = []) && is_ok sample_publish.1 = true.
Proof. vm_compute. reflexivity. Qed.

Lemma issuer_world_good : good issuer_world.
Proof. eapply reach_good; [apply (good_new 0)|apply runs_CreateIssuer, good_new]. Qed.

Lemma publish_effect_witness : ∃ p, sample_publish.1 = Ok p ∧ CRLPublication_IssuerID p = "id-1".
Proof.
  destruct (andb_prop _ _ sample_publish_runs) as [Hc%bool_decide_eq_true_1 Hok].
  destruct sample_publish as [[p|e] w'] eqn:E; [|discriminate Hok].
  destruct (publish_effect "operator" (mkPublishCRLRequest "id-1" "http://crl" (sample_epoch + 24 * Hour))
    issuer_world p w' issuer_world_good) as (_ & Hi & _); [|exact E|exists p; exact (conj eq_refl Hi)].
  intros k q Hq. destruct (not_elem_of_nil _ (lookup_keys _ _ _ _ Hc Hq)).
Defined.
End Witnesses.

(** * Correctness of OCSP answers *)

(** ** Keys *)






(** ** Answers *)

Section OCSPFacts.
Context `{Env}.
Abbreviation certs s := (ms_certificates s).













Section Reachable.
Context `{!UniqueIDs} `{!WebhookEnv}.

End Reachable.
End OCSPFacts.

(** ** Witness *)

Section Witnesses.
#[local] Existing Instance sample_env.
#[local] Existing Instance sample_webhook.



End Witnesses.
