(* ===== verification/APIKeyFacts.v ===== *)
(** * Correctness of API keys

    Authentication admits only a stored key that may be used, a new key's token
    authenticates as that key, and a disabled key never does again. *)

From Stdlib Require Import Ascii.
From S2P Require Import Prelude GoLib Crypto Domain Core NetIP Requests AuditChain Store.
From S2P Require Import StoreInv Service Policy Registry Lifecycle Issuance Outbox CRL APIKeys.
From S2P Require Import OCSP ACME Samples Machines ServiceFacts Invariants History.
From S2P Require Import Outcomes.

(** ** Tokens *)

Section Tokens.
#[local] Arguments String.append !_ _ /.

Definition in_alphabet (a : ascii) : bool :=
  existsb (Ascii.eqb a) (String.list_ascii_of_string base64_alphabet).
Fixpoint word (s : string) : bool :=
  match s with EmptyString => true | String a s => in_alphabet a && word s end.

Lemma word_app s t : word (s +:+ t) = word s && word t.
Proof. induction s as [|a s IH]; simpl; [done|]. by rewrite IH, andb_assoc. Qed.

Lemma digit_in_alphabet n : in_alphabet (base64_digit n) = true.
Proof.
  unfold base64_digit. destruct (_ !! _) as [a|] eqn:E; [|reflexivity]. simpl.
  apply existsb_exists. exists a. split; [|apply Ascii.eqb_refl].
  by apply list_elem_of_In, (list_elem_of_lookup_2 _ _ _ E).
Qed.

Lemma base64_ind (P : list Z → Prop) :
  P [] → (∀ a, P [a]) → (∀ a b, P [a; b]) → (∀ a b c l, P l → P (a :: b :: c :: l)) → ∀ l, P l.
Proof.
  intros H0 H1 H2 H3. fix IH 1. intros [|a [|b [|c l]]]; [done|auto|auto|apply H3, IH].
Qed.

Lemma base64_word l : word (base64_raw_url l) = true.
Proof.
  induction l as [|a|a b|a b c l IH] using base64_ind; cbn [base64_raw_url word];
    rewrite ?digit_in_alphabet, ?IH; done.
Qed.

Lemma base64_nonempty l : l ≠ [] → base64_raw_url l ≠ "".
Proof. destruct l as [|a [|b [|c l]]]; done. Qed.

Lemma space_not_word e : e ∈ space_encodings → word e = false.
Proof.
  assert (Forall (λ e, word e = false) space_encodings) as Hf; [|by rewrite Forall_forall in Hf; auto].
  apply (bool_decide_unpack _). by vm_compute.
Qed.

Lemma word_trimmed s : word s = true → TrimSpace s = s.
Proof.
  intros Hw. apply TrimSpace_id; intros e He; apply space_not_word in He.
  - destruct (HasPrefix s e) eqn:E; [|done]. apply HasPrefix_spec in E as (t & ->).
    rewrite word_app, He in Hw. done.
  - destruct (HasSuffix s e) eqn:E; [|done]. apply HasSuffix_spec in E as (t & ->).
    rewrite word_app, He, andb_false_r in Hw. done.
Qed.
End Tokens.

(** ** Authentication *)

Section Authentication.
Context `{Env}.
Abbreviation keys w := (ms_apiKeys (w_store w)).

(** The stored key that a token names. *)
Definition token_of (token : string) (k : APIKey) : Prop :=
  APIKey_TokenHash k = hashAPIKeyToken token ∨ APIKey_TokenHash k = HashAPIKeyToken token.

Lemma byHash_ok h w k w' :
  repo (GetAPIKeyByTokenHash h) w = (Ok k, w') → store_inv (w_store w) →
  w' = w ∧ keys w !! APIKey_ID k = Some k ∧ APIKey_TokenHash k = h.
Proof.
  unfold repo, GetAPIKeyByTokenHash, apiKeyByTokenHash. intros [= E <-] G.
  apply scan_ok in E as [(i & Hk)%elem_of_map_values Hh]. apply String.eqb_eq in Hh.
  pose proof (inv_apiKeys _ G _ _ Hk) as Ei. simpl in Ei. rewrite Ei. by destruct w.
Qed.

Lemma byHash_err h w e w' : repo (GetAPIKeyByTokenHash h) w = (Err e, w') → w' = w.
Proof. unfold repo, GetAPIKeyByTokenHash. intros [= _ <-]. by destruct w. Qed.

Lemma byToken_ok token w k w' :
  getAPIKeyByToken token w = (Ok k, w') → store_inv (w_store w) →
  w' = w ∧ keys w !! APIKey_ID k = Some k ∧ token_of token k.
Proof.
  intros E G. unfold getAPIKeyByToken in E. unfold token_of. destruct (_ <>s "") in E.
  - apply bindM_ok_inv in E as ([k'|err] & w1 & Er%catch_ok & E).
    + injection E as <- <-. apply byHash_ok in Er as (-> & ? & ?); auto.
    + destruct (negb _) in E; [done|]. apply byHash_err in Er as ->.
      apply byHash_ok in E as (-> & ? & ?); auto.
  - apply byHash_ok in E as (-> & ? & ?); auto.
Qed.

Definition usable (k : APIKey) (now : Time) : Prop :=
  APIKey_Status k = APIKeyActive ∧ isBlank (APIKey_Actor k) = false ∧ APIKey_Scopes k ≠ [] ∧
  (APIKey_ExpiresAt k = zero_time ∨ (now < APIKey_ExpiresAt k)%Z).

Lemma authenticate_ok token w k w' :
  good w → AuthenticateAPIKey token w = (Ok k, w') →
  ∃ stored, keys w !! APIKey_ID k = Some stored ∧
    token_of (TrimSpace token) stored ∧ usable stored (clock_Now (w_tick w)) ∧
    k = (stored |> APIKey_with_LastUsedAt (clock_Now (w_tick w))
                |> APIKey_with_UpdatedAt (clock_Now (w_tick w))) ∧
    w_store w' = set_apiKeys (<[APIKey_ID k := k]> (keys w)) (w_store w).
Proof.
  intros G E. unfold AuthenticateAPIKey in E. apply bindM_ok_inv in E as (? & w0 & Hb & E). leaf_ok Hb.
  apply bindM_ok_inv in E as ([k0|err] & w1 & Er%catch_ok & E); [|by destruct (errors_Is _ _) in E].
  apply byToken_ok in Er as (-> & Hk & Ht); [|apply G].
  apply bindM_ok_inv in E as (? & w2 & H1 & E). leaf_ok H1.
  apply bindM_ok_inv in E as (? & w3 & H2 & E). leaf_ok H2.
  apply bindM_ok_inv in E as (now & w4 & H3 & E). rewrite now_eq in H3. injection H3 as <- <-.
  apply bindM_ok_inv in E as (? & w5 & H4 & E). leaf_ok H4. cbv zeta in E.
  apply bindM_ok_inv in E as ([u|err] & w6 & Eu%catch_ok & E); [|by destruct (_ || _) in E].
  injection E as <- <-. exists k0. wrote Eu. split; [done|]. split; [done|]. split; [|split; [done|exact Eu]].
  apply orb_false_iff in H1 as [H1 ?]. bool_prop. split_and!; try done.
  - by destruct (APIKey_Scopes k0).
  - unfold zero_time, IsZero, After in *. destruct (Z.eqb_spec (APIKey_ExpiresAt k0) 0) as [|n]; [by left|right].
    simpl in H4. by apply negb_false_iff, Z.ltb_lt in H4.
Qed.

(** ** New keys *)

(** The only key with a digest is the one that is found. *)
Lemma byHash_eq h w k :
  keys w !! APIKey_ID k = Some k → APIKey_TokenHash k = h →
  (∀ id k', keys w !! id = Some k' → APIKey_TokenHash k' = h → k' = k) →
  repo (GetAPIKeyByTokenHash h) w = (Ok k, w).
Proof.
  intros Hk Hh Hu. unfold repo, GetAPIKeyByTokenHash, apiKeyByTokenHash.
  destruct (scan _ _ _) as [k'|e] eqn:E.
  - apply scan_ok in E as [(id & Hk')%elem_of_map_values E]. apply String.eqb_eq in E.
    rewrite (Hu id k' Hk' E). by destruct w.
  - exfalso. unfold scan in E. destruct (list_find _ _) as [[]|] eqn:Ef; [done|].
    apply list_find_None in Ef. rewrite Forall_forall in Ef.
    apply (Ef k); [apply elem_of_map_values; eauto|by apply String.eqb_eq].
Qed.

Lemma byToken_eq token w k :
  keys w !! APIKey_ID k = Some k → APIKey_TokenHash k = hashAPIKeyToken token →
  (∀ id k', keys w !! id = Some k' → APIKey_TokenHash k' = hashAPIKeyToken token → k' = k) →
  getAPIKeyByToken token w = (Ok k, w).
Proof.
  intros Hk Hh Hu. unfold getAPIKeyByToken. pose proof (byHash_eq _ _ _ Hk Hh Hu) as E.
  destruct (String.eqb_spec (TrimSpace apiKeyPepper) "") as [Ep|Ep]; cbn [negb].
  - unfold hashAPIKeyToken, HashAPIKeyTokenWithPepper in E. by rewrite Ep in E.
  - by erewrite bindM_ok_eq by by apply catchM_eq.
Qed.

(** A usable key that the token finds is accepted. *)
Lemma authenticate_accepts token w k :
  TrimSpace token = token → token ≠ "" → getAPIKeyByToken token w = (Ok k, w) →
  keys w !! APIKey_ID k = Some k → usable k (clock_Now (w_tick w)) →
  ∃ w', AuthenticateAPIKey token w =
    (Ok (k |> APIKey_with_LastUsedAt (clock_Now (w_tick w))
           |> APIKey_with_UpdatedAt (clock_Now (w_tick w))), w').
Proof.
  intros Et Hne E Hk (Hs & Ha & Hsc & Hexp). unfold AuthenticateAPIKey. rewrite Et.
  erewrite bindM_ok_eq by by apply return_if_false, String.eqb_neq.
  erewrite bindM_ok_eq by by apply catchM_eq. cbv beta iota.
  erewrite bindM_ok_eq by (apply return_if_false; by rewrite Hs, Ha).
  erewrite bindM_ok_eq by (apply return_if_false; by destruct (APIKey_Scopes k)).
  erewrite bindM_ok_eq by apply now_eq.
  erewrite bindM_ok_eq; [|apply return_if_false; unfold IsZero, After, zero_time in *;
    destruct Hexp as [->|Hexp]; [done|]; by rewrite (proj2 (Z.ltb_lt _ _) Hexp), andb_false_r].
  cbv zeta. set (k' := APIKey_with_UpdatedAt _ _).
  pose proof (updateIf_cases (APIKey_ID k') ErrAPIKeyNotFound (λ c, APIKey_Status c =s APIKeyActive) k' (keys w))
    as Hu. change (APIKey_ID k') with (APIKey_ID k) in Hu. rewrite Hk in Hu. simpl in Hu.
  rewrite Hs, String.eqb_refl in Hu. set (w1 := mkWorld (w_store w) _).
  assert (repo (UpdateAPIKeyIfStatus k' APIKeyActive) w1 =
    (Ok tt, mkWorld (set_apiKeys (<[APIKey_ID k := k']> (keys w)) (w_store w)) (S (w_tick w)))) as Eu.
  { unfold repo, UpdateAPIKeyIfStatus, putRows, updateAPIKeyIfStatus, w1. cbn [w_store].
    change (APIKey_ID k') with (APIKey_ID k). by rewrite Hu. }
  eexists. by erewrite (bindM_ok_eq (catchM _)) by by apply catchM_eq.
Qed.

(** What creating a key has stored. *)
Lemma createKey_ok actor req w r w' :
  APIKeys.CreateAPIKey actor req w = (Ok r, w') →
  let k := CreateAPIKeyResult_Key r in
  keys w' = <[APIKey_ID k := k]> (keys w) ∧
  APIKey_TokenHash k = hashAPIKeyToken (CreateAPIKeyResult_Token r) ∧
  APIKey_Status k = APIKeyActive ∧ isBlank (APIKey_Actor k) = false ∧ APIKey_Scopes k ≠ [] ∧
  APIKey_ExpiresAt k = CreateAPIKeyRequest_ExpiresAt req ∧
  ∃ t raw, rand_bytes t = Ok raw ∧ CreateAPIKeyResult_Token r = base64_raw_url raw.
Proof.
  intros E. unfold APIKeys.CreateAPIKey in E. succeeds E.
  match goal with Et : generateAPIKeyToken _ = _ |- _ => unfold generateAPIKeyToken in Et; succeeds Et end.
  match goal with Er : outside rand_bytes _ = _ |- _ =>
    pose proof (outside_store _ _ _ _ Er) as S1; injection Er as Er _ end.
  match goal with Ei : newID _ = _ |- _ => apply newID_ok in Ei as S2 end.
  match goal with Et : bindM _ _ _ = _ |- _ => apply bindM_ok_inv in Et as (? & w3 & Ec & Ea) end.
  eapply (same_eq ms_apiKeys) in Ea; [|by apply same_audit]. wrote Ec. rewrite Ec in Ea. simpl in Ea.
  match goal with Hn : w_store _ = w_store _ |- _ => rewrite S2, S1, Hn in Ea end.
  repeat match goal with Hg : _ || _ = false |- _ => apply orb_false_iff in Hg as [? ?] end.
  simpl. split_and!; try done.
  - unfold isBlank in *. by rewrite TrimSpace_idem.
  - by destruct (CreateAPIKeyRequest_Scopes req).
  - eauto.
Qed.

Lemma disable_ok actor id w k w' :
  DisableAPIKey actor id w = (Ok k, w') → store_inv (w_store w) →
  keys w' !! id = Some k ∧ APIKey_Status k = APIKeyDisabled.
Proof.
  intros E G. unfold DisableAPIKey in E. succeeds E.
  match goal with Hn : w_store ?w0 = w_store w, Hv : keys ?w0 !! id = Some ?v |- _ =>
    rewrite Hn in Hv; pose proof (inv_apiKeys _ G _ _ Hv) as Hid; simpl in Hid end.
  match goal with Ea : createAuditEvent _ _ _ _ _ _ _ = _ |- _ =>
    eapply (same_eq ms_apiKeys) in Ea; [|by apply same_audit]; rewrite Ea end.
  match goal with Eu : repo (UpdateAPIKeyIfStatus _ _) _ = _ |- _ => wrote Eu; rewrite Eu end.
  simpl. by rewrite Hid, lookup_insert_eq.
Qed.

(** C36: Authentication is sound: a token is accepted only when the store holds
    an active, unexpired key with that token's digest, an actor and at least
    one scope. The caller gets that key, with the time of use, and nothing else
    in the store changes. *)
Theorem authenticate_sound token w k w' :
  good w → AuthenticateAPIKey token w = (Ok k, w') →
  ∃ stored, keys w !! APIKey_ID k = Some stored ∧
    token_of (TrimSpace token) stored ∧ usable stored (clock_Now (w_tick w)) ∧
    k = (stored |> APIKey_with_LastUsedAt (clock_Now (w_tick w))
                |> APIKey_with_UpdatedAt (clock_Now (w_tick w))) ∧
    w_store w' = set_apiKeys (<[APIKey_ID k := k]> (keys w)) (w_store w).
Proof. apply authenticate_ok. Qed.

(** C37: A new key works: the token that is returned when a key is created
    authenticates as that key, with its actor and scopes, until the key expires.
    The random source returns bytes, and no other stored key has the digest of
    the new token. *)
Theorem created_key_authenticates actor req w r w' :
  (∀ t raw, rand_bytes t = Ok raw → raw ≠ []) →
  APIKeys.CreateAPIKey actor req w = (Ok r, w') →
  (∀ id k, keys w !! id = Some k → APIKey_TokenHash k ≠ hashAPIKeyToken (CreateAPIKeyResult_Token r)) →
  (CreateAPIKeyRequest_ExpiresAt req = zero_time ∨
     clock_Now (w_tick w') < CreateAPIKeyRequest_ExpiresAt req)%Z →
  ∃ k w'', AuthenticateAPIKey (CreateAPIKeyResult_Token r) w' = (Ok k, w'') ∧
    APIKey_ID k = APIKey_ID (CreateAPIKeyResult_Key r) ∧
    APIKey_Actor k = APIKey_Actor (CreateAPIKeyResult_Key r) ∧
    APIKey_Scopes k = APIKey_Scopes (CreateAPIKeyResult_Key r).
Proof.
  intros Hrand E Hfresh Hexp. apply createKey_ok in E as (Hk & Hh & Hs & Ha & Hsc & He & t & raw & Et & Etok).
  set (k := CreateAPIKeyResult_Key r) in *.
  assert (keys w' !! APIKey_ID k = Some k) as Hin by (rewrite Hk; apply lookup_insert_eq).
  destruct (authenticate_accepts (CreateAPIKeyResult_Token r) w' k) as (w'' & Ew).
  - rewrite Etok. apply word_trimmed, base64_word.
  - rewrite Etok. by eapply base64_nonempty, Hrand.
  - apply byToken_eq; [done..|]. intros id k' Hk' Hh'. rewrite Hk in Hk'.
    destruct (decide (id = APIKey_ID k)) as [->|Hne]; [rewrite lookup_insert_eq in Hk'; congruence|].
    rewrite lookup_insert_ne in Hk' by done. by destruct (Hfresh _ _ Hk').
  - done.
  - split_and!; try done. by rewrite He.
  - rewrite Ew. by eexists _, w''.
Qed.

Section Executions.
Context `{!UniqueIDs} `{!WebhookEnv}.

Definition never_authenticates (id : string) (w : World) : Prop :=
  ∀ token k w', AuthenticateAPIKey token w = (Ok k, w') → APIKey_ID k ≠ id.

(** Disabling a key is permanent: after it, no token authenticates as that
    key in any later state of the service. *)
Theorem disabled_key_rejected actor id w k w1 w2 :
  reachable w → DisableAPIKey actor id w = (Ok k, w1) → rtc service_step w1 w2 →
  never_authenticates id w2.
Proof.
  intros Hr Ed Hs token k' w3 Ea <-.
  assert (reachable w1) as Hr1.
  { destruct Hr as [t Hr]. exists t. eapply rtc_r; [exact Hr|].
    pose proof (op_step_service _ _ (ss_DisableAPIKey actor (APIKey_ID k') w)) as Hd. by rewrite Ed in Hd. }
  assert (reachable w2) as Hr2 by (destruct Hr1 as [t Hr1]; exists t; by etrans).
  apply authenticate_ok in Ea as (v2 & Hv2 & _ & (Hact & _) & _); [|by apply reachable_good].
  apply disable_ok in Ed as [Hk Hd]; [|apply (reachable_good _ Hr)].
  destruct (ev_apiKeys _ _ (reachable_evolves _ _ Hr1 Hs) _ _ Hk) as (v & Hv & Hev).
  rewrite Hv2 in Hv. injection Hv as <-. pose proof (final_evolve k v2 APIKeyDisabled Hd eq_refl Hev) as Hst.
  simpl in Hst. by rewrite Hst in Hact.
Qed.
End Executions.
End Authentication.

(** ** Witnesses *)

Section Witnesses.
#[local] Existing Instance sample_env.
#[local] Existing Instance sample_webhook.

Definition sample_key_request : CreateAPIKeyRequest :=
  mkCreateAPIKeyRequest "ci" "ci" [APIKeyScopeOperator] zero_time.

Definition key_action : Svc unit :=
  let* id := newID in
  repo (Store.CreateAPIKey (mkAPIKey id "ci" (HashAPIKeyToken "token") APIKeyActive "ci"
    [APIKeyScopeOperator] zero_time zero_time 0 0)).
Definition key_world : World := (key_action new_world).2.
Lemma key_world_good : good key_world.
Proof.
  eapply reach_good; [apply (good_new 0)|].
  assert (runs key_action new_world) as Hr; [|exact (Hr (good_new 0))]. unfold key_action. runs.
  apply runs_step. intros ?. constructor; [|done]. eapply newID_fresh_same; [eassumption|assumption|lia|by eapply newID_ok].
Qed.

Definition sample_login : res APIKey * World := AuthenticateAPIKey "token" key_world.
Lemma authenticate_sound_witness : ∃ k, sample_login.1 = Ok k ∧
  is_Some (ms_apiKeys (w_store key_world) !! APIKey_ID k).
Proof.
  assert (is_ok sample_login.1 = true) as Hok by by vm_compute.
  destruct sample_login as [[k|e] w'] eqn:E; [|discriminate Hok].
  destruct (authenticate_sound "token" key_world k w' key_world_good E) as (v & Hv & _).
  exists k. exact (conj eq_refl (ex_intro _ v Hv)).
Defined.

Definition sample_created : res CreateAPIKeyResult * World :=
  APIKeys.CreateAPIKey "operator" sample_key_request new_world.
Lemma sample_created_ok : is_ok sample_created.1 = true.
Proof. vm_compute. reflexivity. Qed.

Lemma created_key_authenticates_witness :
  ∃ r k w'', AuthenticateAPIKey (CreateAPIKeyResult_Token r) sample_created.2 = (Ok k, w'') ∧
    APIKey_ID k = APIKey_ID (CreateAPIKeyResult_Key r).
Proof.
  pose proof sample_created_ok as Hok.
  destruct sample_created as [[r|e] w'] eqn:E; [|discriminate Hok].
  destruct (created_key_authenticates "operator" sample_key_request new_world r w') as (k & w'' & Ek & Hid & _).
  - intros t raw [= <-]. done.
  - exact E.
  - intros id k Hk. simpl in Hk. by rewrite lookup_empty in Hk.
  - by left.
  - exists r, k, w''. exact (conj Ek Hid).
Defined.

Definition sample_disabled : res APIKey * World := DisableAPIKey "operator" "id-2" sample_created.2.
Lemma sample_disabled_ok : is_ok sample_disabled.1 = true.
Proof. vm_compute. reflexivity. Qed.

Lemma disabled_key_rejected_witness : never_authenticates "id-2" sample_disabled.2.
Proof.
  pose proof sample_disabled_ok as Hok.
  destruct sample_disabled as [[k|e] w'] eqn:E; [|discriminate Hok].
  unfold sample_disabled in E. refine (disabled_key_rejected "operator" "id-2" sample_created.2 k w' w' _ E (rtc_refl _ _)).
  exists 0. eapply rtc_r; [apply rtc_refl|apply op_step_service, ss_CreateAPIKey].
Defined.
End Witnesses.
