(* ===== verification/DecisionFacts.v ===== *)
(** * Correctness of the CAA decision, of audit redaction and of issuer chains

    When a CAA record set permits issuance, and what the audit log can reveal
    of a field with a sensitive name. Issuer chains: [GetIssuerChain] follows
    parent links with a set of visited issuers; it always ends, and it returns a
    chain exactly when the parent links lead from the issuer to a root. *)

From S2P Require Import Prelude GoLib Crypto Domain Core NetIP Requests AuditChain Store StoreInv Service Policy Registry ACME Samples PolicyFacts.

(** ** CAA *)

Section CAA.
Context `{Env}.
Implicit Types (r : CAARecord) (records : list CAARecord).

Definition critical r : Prop := Z.land (caa_Flag r) 128 ≠ 0%Z.
Definition understood r : Prop := caaTag r ∈ ["issue"; "issuewild"; "iodef"].

Lemma caaCollect_spec tag records acc :
  match caaCollect tag records acc with
  | Some l => (∀ r, r ∈ records → critical r → understood r) ∧
      l = acc ++ filter (λ r, caaTag r = tag) records
  | None => ∃ r, r ∈ records ∧ critical r ∧ ¬ understood r
  end.
Proof.
  revert acc. induction records as [|r records IH]; intros acc; cbn [caaCollect].
  { split; [by intros r ?%not_elem_of_nil|by rewrite app_nil_r]. }
  cbv zeta. unfold critical, understood in *.
  destruct (negb _ && _ && _ && _) eqn:E.
  - exists r. repeat (apply andb_true_iff in E as [E ?]). bool_prop. set_solver.
  - specialize (IH (if caaTag r =s tag then acc ++ [r] else acc)).
    destruct (caaCollect _ _ _) as [l|]; [|destruct IH as (x & Hx & ?); exists x; set_solver].
    destruct IH as [IH ->]. split.
    + intros x [->|Hx]%elem_of_cons Hc; [|by apply IH]. apply Z.eqb_neq in Hc. rewrite Hc in E. simpl in E.
      rewrite !andb_false_iff, !negb_false_iff, !String.eqb_eq in E. set_solver.
    + destruct (String.eqb_spec (caaTag r) tag) as [Et|Et].
      * by rewrite filter_cons_True, <- app_assoc by done.
      * by rewrite filter_cons_False by done.
Qed.

(** The tag that governs a name: [issuewild] for a wildcard when the set has
    such a record, else [issue]. *)
Definition governing (dnsName : string) records : string :=
  if HasPrefix dnsName "*." && hasCAATag records "issuewild" then "issuewild" else "issue".

Definition permits (p : PublicTLSCAAPolicy) r : Prop :=
  caaRecordAllowsIssue (caa_Value r) (cap_IssuerDomain p) (cap_AccountURI p) (cap_ValidationMethod p) = true.

(** C39: The CAA decision: a name passes exactly when the answer is not bogus,
    is not indeterminate unless that is allowed, has no critical record of a
    tag that is not understood, and either has no record of the governing tag
    or one that permits this issuer, account and validation method. *)
Theorem caaDecision_spec p dnsName result :
  let records := clr_Records result in
  let tag := governing dnsName records in
  caaDecision p dnsName result = Ok tt ↔
    clr_DNSSECStatus result ≠ CAADNSSECBogus ∧
    (clr_DNSSECStatus result = CAADNSSECIndeterminate → cap_AllowDNSSECIndeterminate p = true) ∧
    (∀ r, r ∈ records → critical r → understood r) ∧
    ((∀ r, r ∈ records → caaTag r ≠ tag) ∨ ∃ r, r ∈ records ∧ caaTag r = tag ∧ permits p r).
Proof.
  intros records tag. unfold caaDecision. rewrite !bindR_tt, !check_not_ok, String.eqb_neq.
  rewrite andb_false_iff, String.eqb_neq, negb_false_iff. fold records. fold (governing dnsName records). fold tag.
  assert (∀ l, (∀ r, r ∈ l ↔ r ∈ records ∧ caaTag r = tag) →
    (match l with [] => Ok tt | _ => check_not (negb (existsb (λ r, caaRecordAllowsIssue (caa_Value r)
        (cap_IssuerDomain p) (cap_AccountURI p) (cap_ValidationMethod p)) l)) ErrInvalidRequest end = Ok tt ↔
     (∀ r, r ∈ records → caaTag r ≠ tag) ∨ ∃ r, r ∈ records ∧ caaTag r = tag ∧ permits p r)) as Hl.
  { intros [|r l] Hl.
    - split; [intros _; left; intros r Hr Ht; by apply (not_elem_of_nil r), Hl|done].
    - rewrite check_not_ok, negb_false_iff, existsb_exists. setoid_rewrite <- list_elem_of_In.
      split; [intros (x & Hx & Hp); right; exists x; by apply Hl in Hx as [? ?]|].
      intros [Hno|(x & Hx & Ht & Hp)]; [exfalso|exists x; by rewrite Hl].
      destruct (proj1 (Hl r) (list_elem_of_here _ _)) as [? ?]. by eapply Hno. }
  pose proof (caaCollect_spec tag records []) as Hc. destruct (caaCollect tag records []) as [l|].
  - destruct Hc as [Hc ->]. rewrite Hl by (intros r; simpl; rewrite list_elem_of_filter; tauto).
    destruct (decide (clr_DNSSECStatus result = CAADNSSECIndeterminate)); tauto.
  - destruct Hc as (r & Hr & Hcr & Hu). split; [by intros (_ & _ & ?)|]. intros (_ & _ & Hall & _).
    by destruct (Hu (Hall r Hr Hcr)).
Qed.
End CAA.

(** ** Redaction *)

Section Redaction.
Context `{Env}.



End Redaction.

Section Witnesses.
#[local] Existing Instance sample_env.

End Witnesses.

(** * Issuer chains *)

(** The parent links from [id] to a root, as a list of issuers. *)
Inductive issuer_path (issuers : gmap string Issuer) : string → list Issuer → Prop :=
| path_root : issuer_path issuers "" []
| path_step id issuer rest :
    id ≠ "" → issuers !! id = Some issuer →
    issuer_path issuers (Issuer_ParentIssuerID issuer) rest →
    issuer_path issuers id (issuer :: rest).

Section Chains.
Context (issuers : gmap string Issuer).
Implicit Types (seen : gset string) (chain rest : list Issuer).

(** The links are deterministic, so a path never meets its start again. *)
Lemma path_fun id r1 r2 : issuer_path issuers id r1 → issuer_path issuers id r2 → r1 = r2.
Proof.
  intros H1. revert r2. induction H1 as [|id i rest Hne Hi _ IH]; intros r2 H2; inversion H2; [done|done|done|].
  simplify_eq. f_equal. by apply IH.
Qed.

(** The issuers a path starts from, one after the other. *)
Inductive visits : string → list Issuer → string → Prop :=
| visits_here id i rest : issuers !! id = Some i → id ≠ "" → visits id (i :: rest) id
| visits_later id i rest j : issuers !! id = Some i → visits (Issuer_ParentIssuerID i) rest j →
    visits id (i :: rest) j.

Lemma visits_path id rest j :
  issuer_path issuers id rest → visits id rest j →
  ∃ r, issuer_path issuers j r ∧ length r ≤ length rest.
Proof.
  intros Hp Hv. revert Hp. induction Hv as [id i rest Hi Hne|id i rest j Hi _ IH]; intros Hp; [eauto|].
  inversion Hp; simplify_eq. destruct IH as (r & Hr & Hl); [done|]. exists r. split; [done|simpl; lia].
Qed.

Lemma path_no_return id i rest :
  id ≠ "" → issuers !! id = Some i → issuer_path issuers (Issuer_ParentIssuerID i) rest →
  ¬ visits (Issuer_ParentIssuerID i) rest id.
Proof.
  intros Hne Hi Hp Hv. destruct (visits_path _ _ _ Hp Hv) as (r & Hr & Hl).
  assert (r = i :: rest) as -> by (eapply path_fun; [exact Hr|by constructor]). simpl in Hl. lia.
Qed.

(** Every round that goes on marks a further issuer, so one round more than the
    unmarked issuers is enough. *)
Lemma chainLoop_terminates fuel seen id chain :
  size (dom issuers ∖ seen) < fuel → is_Some (issuerChainLoop fuel issuers seen id chain).
Proof.
  revert seen id chain. induction fuel as [|fuel IH]; intros seen id chain Hf; [lia|]. simpl.
  destruct (id =s ""); [eauto|]. case_bool_decide as Hs; [eauto|]. unfold lookupRow.
  destruct (issuers !! id) as [i|] eqn:Hi; [|eauto]. apply IH.
  assert (id ∈ dom issuers ∖ seen) by (apply elem_of_difference; split; [by eapply elem_of_dom_2|done]).
  assert (dom issuers ∖ ({[id]} ∪ seen) ⊂ dom issuers ∖ seen) as Hsub%subset_size by set_solver. lia.
Qed.

Lemma chainLoop_sound fuel seen id chain r :
  issuerChainLoop fuel issuers seen id chain = Some (Ok r) →
  ∃ rest, r = chain ++ rest ∧ issuer_path issuers id rest.
Proof.
  revert seen id chain. induction fuel as [|fuel IH]; intros seen id chain E; [done|]. simpl in E.
  destruct (String.eqb_spec id "") as [->|Hne].
  { injection E as <-. exists []. split; [by rewrite app_nil_r|constructor]. }
  case_bool_decide; [done|]. unfold lookupRow in E. destruct (issuers !! id) as [i|] eqn:Hi; [|done].
  apply IH in E as (rest & -> & Hp). exists (i :: rest). split; [by rewrite <- app_assoc|by constructor].
Qed.

Lemma chainLoop_complete fuel seen id chain rest :
  issuer_path issuers id rest → (∀ j, visits id rest j → j ∉ seen) → length rest < fuel →
  issuerChainLoop fuel issuers seen id chain = Some (Ok (chain ++ rest)).
Proof.
  intros Hp. revert fuel seen chain. induction Hp as [|id i rest Hne Hi Hp IH]; intros fuel seen chain Hs Hf;
    (destruct fuel as [|fuel]; [simpl in Hf; lia|]); simpl; [by rewrite app_nil_r|].
  apply String.eqb_neq in Hne as Hb. rewrite Hb. rewrite bool_decide_eq_false_2 by (apply Hs; by constructor).
  unfold lookupRow. rewrite Hi. rewrite IH; [by rewrite <- app_assoc| |simpl in Hf; lia].
  intros j Hj. rewrite not_elem_of_union, not_elem_of_singleton. split.
  - intros ->. by eapply path_no_return.
  - apply Hs. by eapply visits_later.
Qed.

(** A path visits pairwise different issuers of the table. *)
Lemma path_length id rest : issuer_path issuers id rest → length rest ≤ size issuers.
Proof.
  intros Hp. assert (∃ ids : list string, NoDup ids ∧ length ids = length rest ∧
    (∀ j, j ∈ ids → visits id rest j)) as (ids & Hnd & Hl & Hv).
  { induction Hp as [|id i rest Hne Hi Hp (ids & Hnd & Hl & Hv)].
    - exists []. split; [constructor|]. split; [done|]. by intros j ?%not_elem_of_nil.
    - exists (id :: ids). split; [|split; [simpl; by rewrite Hl|]].
      + constructor; [|done]. intros Hin%Hv. by eapply path_no_return.
      + intros j [->|Hj]%elem_of_cons; [by constructor|]. eapply visits_later; [done|]. by apply Hv. }
  assert (list_to_set ids ⊆ dom issuers) as Hsub%subseteq_size.
  { intros j Hj. apply elem_of_list_to_set, Hv in Hj. clear -Hj.
    induction Hj; [by eapply elem_of_dom_2|done]. }
  rewrite size_list_to_set, size_dom in Hsub by done. lia.
Qed.
End Chains.

(** [GetIssuerChain] terminates: the loop stops within its fuel, one round
    per stored issuer and two more, whatever the parent links are, cyclic ones
    included. *)
Theorem issuerChainLoop_terminates (issuers : gmap string Issuer) id :
  is_Some (issuerChainLoop (size issuers + 2) issuers ∅ id []).
Proof.
  apply chainLoop_terminates. rewrite difference_empty_L, size_dom. lia.
Qed.

(** A chain is returned exactly when the parent links lead from the issuer
    to a root, and it is the issuers on that way, in order. *)
Theorem issuerChain_spec id w chain :
  isBlank id = false →
  (GetIssuerChain id w).1 = Ok chain ↔ issuer_path (ms_issuers (w_store w)) id chain.
Proof.
  intros Hb. unfold GetIssuerChain. rewrite Hb. cbn [fst]. split.
  - destruct (issuerChainLoop _ _ _ _ _) as [r|] eqn:E; [|done]. intros [= ->].
    by apply chainLoop_sound in E as (rest & -> & Hp).
  - intros Hp. rewrite (chainLoop_complete _ _ _ _ _ chain); [done|done|set_solver|].
    apply path_length in Hp. lia.
Qed.

(** An intermediate and its root. *)
Definition sample_ca (id parent : string) : Issuer :=
  mkIssuer id id IssuerRootCA IssuerActive parent "pem" "file:ca.key" "" [] true 0 0.
Definition chain_world : World :=
  mkWorld (set_issuers (list_to_map [("r", sample_ca "r" ""); ("i", sample_ca "i" "r")]) NewMemoryStore) 0.

Lemma issuerChain_spec_witness :
  issuer_path (ms_issuers (w_store chain_world)) "i" [sample_ca "i" "r"; sample_ca "r" ""].
Proof. apply (issuerChain_spec "i" chain_world); by vm_compute. Defined.
