(* ===== verification/CAAFacts.v ===== *)
(** * The CAA resolver: bounds, formats and climbing

    The parser of DNS responses never indexes outside of the message, whatever
    the resolver sends; it recovers the records of a well-formed response; and
    a lookup finds the records of the closest ancestor that has any. *)

From Stdlib Require Import Ascii.
From S2P Require Import Prelude GoLib Crypto GoJSON NetIP Domain Core Requests AuditChain Store Service CAADNS.

Definition isOctet (b : Z) : Prop := (0 ≤ b < 256)%Z.

(** ** Bounds *)

(** The result is not a run-time panic, and not for want of fuel; when it is a
    value, it satisfies [P]. *)
Definition fine {A} (P : A → Prop) (r : res A) : Prop :=
  match r with
  | Ok a => P a
  | Err (EPanic _) => False
  | Err (EText t) => t ≠ "no fuel"
  | Err _ => True
  end.

Lemma fine_bind {A B} (P : A → Prop) (Q : B → Prop) r (k : A → res B) :
  fine P r → (∀ a, P a → fine Q (k a)) → fine Q (bindR r k).
Proof. destruct r as [a|[]]; simpl; auto. Qed.
Lemma fine_check (c : bool) (e : DomainErr) : fine (λ _, c = false) (check_not c e).
Proof. by destruct c. Qed.
Lemma fine_impl {A} (P Q : A → Prop) r : fine P r → (∀ a, P a → Q a) → fine Q r.
Proof. destruct r as [a|[]]; simpl; auto. Qed.

Lemma fine_index b i : Forall isOctet b → (0 ≤ i < Z.of_nat (length b))%Z → fine isOctet (index b i).
Proof.
  intros Hb Hi. unfold index. destruct (Z.leb_spec 0 i); [|lia].
  destruct (lookup_lt_is_Some_2 b (Z.to_nat i)) as [v Hv]; [lia|]. rewrite Hv. simpl.
  by eapply Forall_lookup_1.
Qed.
Lemma fine_slice b lo hi : Forall isOctet b → (0 ≤ lo ≤ hi)%Z → (hi ≤ Z.of_nat (length b))%Z →
  fine (λ l, Forall isOctet l ∧ Z.of_nat (length l) = (hi - lo)%Z) (slice b lo hi).
Proof.
  intros Hb Hl Hh. unfold slice. destruct (Z.leb_spec 0 lo); [|lia]. destruct (Z.leb_spec lo hi); [|lia].
  destruct (Z.leb_spec hi (Z.of_nat (length b))); [|lia]. simpl. split.
  - by apply Forall_take, Forall_drop.
  - rewrite length_take, length_drop. lia.
Qed.
Lemma fine_Uint16 b : Forall isOctet b → (2 ≤ Z.of_nat (length b))%Z → fine (λ v, (0 ≤ v < 65536)%Z) (Uint16 b).
Proof.
  destruct b as [|x [|y b]]; simpl; [lia|lia|]. intros Hb _. apply Forall_cons in Hb as [[] Hb].
  apply Forall_cons in Hb as [[] _]. simpl. unfold isOctet in *. lia.
Qed.

Create HintDb fine_db discriminated.
#[local] Hint Resolve fine_check fine_index fine_slice fine_Uint16 : fine_db.

Section Parse.
Context (message : list Z) (Hbytes : Forall isOctet message).
Abbreviation len := (Z.of_nat (length message)).

Lemma fine_skipLoop fuel offset : (0 ≤ offset ≤ len)%Z → (len - offset < Z.of_nat fuel)%Z →
  fine (λ o, offset < o ≤ len)%Z (skipLoop fuel message offset).
Proof.
  revert offset. induction fuel as [|fuel IH]; intros offset H0 Hf; [lia|]. simpl.
  destruct (Z.leb_spec len offset); [done|].
  eapply fine_bind; [apply fine_index; [done|lia]|]. intros l Hl. unfold isOctet in Hl. cbv beta.
  destruct (Z.eqb_spec l 0); [simpl; lia|]. destruct (Z.eqb _ _).
  - destruct (Z.leb_spec len (offset + 1)); simpl; [done|lia].
  - destruct (Z.ltb_spec len (offset + 1 + l)); [done|].
    eapply fine_impl; [apply IH; lia|]. simpl. lia.
Qed.

Lemma fine_skipDNSName offset : (0 ≤ offset ≤ len)%Z →
  fine (λ o, offset < o ≤ len)%Z (skipDNSName message offset).
Proof. intros Ho. apply fine_skipLoop; lia. Qed.

Lemma fine_skipQuestions qd offset : (0 ≤ offset ≤ len)%Z →
  fine (λ o, offset ≤ o ≤ len)%Z (skipQuestions qd message offset).
Proof.
  revert offset. induction qd as [|qd IH]; intros offset Ho; simpl; [lia|].
  eapply fine_bind; [by apply fine_skipDNSName|]. intros o1 Ho1. cbv beta in Ho1.
  eapply fine_bind; [apply fine_check|]. intros [] Hc. cbv beta in Hc. apply Z.ltb_ge in Hc.
  eapply fine_impl; [apply IH; lia|]. simpl. lia.
Qed.

Lemma fine_parseCAAData data : Forall isOctet data → (2 ≤ Z.of_nat (length data))%Z →
  fine (λ _, True) (parseCAAData data).
Proof.
  intros Hd Hl. unfold parseCAAData. eapply fine_bind; [apply fine_index; [done|lia]|].
  intros tagByte Ht. unfold isOctet in Ht. destruct (Z.leb_spec (2 + tagByte) (Z.of_nat (length data))); [|done].
  eapply fine_bind; [apply fine_index; [done|lia]|]. intros flag _.
  eapply fine_bind; [apply fine_slice; [done|lia|lia]|]. intros tag _.
  eapply fine_bind; [apply fine_slice; [done|lia|lia]|]. done.
Qed.

Lemma fine_parseAnswers an offset records : (0 ≤ offset ≤ len)%Z →
  fine (λ _, True) (parseAnswers an message offset records).
Proof.
  revert offset records. induction an as [|an IH]; intros offset records Ho; simpl; [done|].
  eapply fine_bind; [by apply fine_skipDNSName|]. intros o1 Ho1. cbv beta in Ho1.
  eapply fine_bind; [apply fine_check|]. intros [] Hc. cbv beta in Hc. apply Z.ltb_ge in Hc.
  do 3 (eapply fine_bind; [apply fine_slice; [done|lia|lia]|]; intros ? [? ?]; cbv beta in *;
        eapply fine_bind; [apply fine_Uint16; [done|lia]|]; intros ? ?; cbv beta in *).
  eapply fine_bind; [apply fine_check|]. intros [] Hc2. cbv beta in Hc2. apply Z.ltb_ge in Hc2.
  eapply (fine_bind (λ _, True)); [|intros; apply IH; lia].
  destruct (Z.eqb a0 dnsTypeCAA && Z.eqb a2 1 && Z.leb 2 a4) eqn:Et; [|done]. bool_prop.
  eapply fine_bind; [apply fine_slice; [done|lia|lia]|]. intros data [Hd Hl].
  apply fine_parseCAAData; [done|lia].
Qed.

Lemma fine_parseCAAResponse id : fine (λ _, True) (parseCAAResponse message id).
Proof.
  unfold parseCAAResponse. eapply fine_bind; [apply fine_check|]. intros [] Hc. cbv beta in Hc. apply Z.ltb_ge in Hc.
  eapply fine_bind; [apply fine_slice; [done|lia|lia]|]. intros ? [? ?]. cbv beta in *.
  eapply fine_bind; [apply fine_Uint16; [done|lia]|]. intros ? _.
  eapply fine_bind; [apply fine_check|]. intros [] _.
  eapply fine_bind; [apply fine_slice; [done|lia|lia]|]. intros ? [? ?]. cbv beta in *.
  eapply fine_bind; [apply fine_Uint16; [done|lia]|]. intros flags _. cbv zeta.
  destruct (Z.eqb _ 2); [done|]. destruct (Z.eqb _ 3); [done|]. destruct (negb _); [done|].
  do 2 (eapply fine_bind; [apply fine_slice; [done|lia|lia]|]; intros ? [? ?]; cbv beta in *;
        eapply fine_bind; [apply fine_Uint16; [done|lia]|]; intros ? ?; cbv beta in *).
  eapply fine_bind; [apply fine_skipQuestions; lia|]. intros o Ho. cbv beta in Ho.
  eapply fine_bind; [apply fine_parseAnswers; lia|]. done.
Qed.
End Parse.

(** ** Lookups end *)

Lemma fine_appendLabels labels out : fine (λ _, True) (appendLabels labels out).
Proof.
  revert out. induction labels as [|label labels IH]; intros out; simpl; [done|].
  eapply fine_bind; [apply fine_check|]. intros [] _. apply IH.
Qed.

Lemma cut_shorter c name before rest : cut_byte c name = Some (before, rest) → String.length rest < String.length name.
Proof.
  unfold cut_byte. destruct (index_byte c name) as [i|] eqn:Ei; [|done]. simpl. intros [= _ <-].
  assert (i < String.length name) as Hi.
  { clear -Ei. revert i Ei. induction name as [|a name IH]; simpl; [done|]. intros i.
    destruct (Ascii.eqb a c); [intros [= <-]; lia|]. destruct (index_byte c name); [|done].
    intros [= <-]. specialize (IH n eq_refl). lia. }
  unfold str_drop. assert (∀ n m s, String.length (String.substring n m s) ≤ m) as Hsub.
  { clear. intros n m s. revert n m. induction s as [|a s IH]; intros [|n] [|m]; simpl; try lia; try apply IH.
    specialize (IH 0 m). lia. }
  specialize (Hsub (S i) (String.length name - S i) name). lia.
Qed.

(** A result of an action, whatever the state. *)
Definition fineM {S A} (P : A → Prop) (m : GoM S A) : Prop := ∀ s, fine P (m s).1.

Lemma fine_climb {S} fuel (lookup : string → GoM S (CAALookupResult * bool)) name :
  (∀ n, fineM (λ _, True) (lookup n)) → String.length name < fuel → fineM (λ _, True) (climb fuel lookup name).
Proof.
  intros Hl. revert name. induction fuel as [|fuel IH]; intros name Hf s; [lia|]. simpl.
  destruct (name =s ""); [done|]. unfold bindM. specialize (Hl name s).
  destruct (lookup name s) as [[[result found]|e] s1]; simpl in *; [|done].
  destruct found; [done|]. destruct (cut_byte "."%char name) as [[before rest]|] eqn:Ec; [|done].
  apply cut_shorter in Ec. apply IH. lia.
Qed.

Section Total.
Context `{GoUnicode} `{DNSEnv}.

(** What the outside returns: bytes, or an error that is not a panic. *)
Definition sane (r : res (list Z)) : Prop := fine (Forall isOctet) r.

Lemma fine_lookupCAAName l name :
  (∀ t, fine (λ b, Forall isOctet b ∧ length b = 2) (dns_rand t)) →
  (∀ t resolver timeout q, sane (dns_exchange t resolver timeout q)) →
  fineM (λ _, True) (lookupCAAName l name).
Proof.
  intros Hr He t. unfold lookupCAAName. simpl. eapply (fine_bind (λ _, True)).
  - unfold buildCAAQuery. eapply fine_bind; [apply Hr|]. intros b [Hb Hl].
    eapply fine_bind; [apply fine_Uint16; [done|lia]|]. intros id Hid. cbv beta zeta.
    eapply fine_bind; [apply fine_appendLabels|done].
  - intros [query id] _. eapply fine_bind; [apply He|]. intros message Hm. by apply fine_parseCAAResponse.
Qed.

(** C38: A CAA lookup ends without a panic. Whatever bytes the resolver answers
    with, the parser never indexes or slices outside of the message, and
    climbing to the parents of a name ends; the fuel of the loops is never the
    reason for a result. *)
Theorem caa_lookup_safe l dnsName t :
  (∀ t, fine (λ b, Forall isOctet b ∧ length b = 2) (dns_rand t)) →
  (∀ t resolver timeout q, sane (dns_exchange t resolver timeout q)) →
  fine (λ _, True) (LookupCAA l dnsName t).1.
Proof.
  intros Hr He. apply fine_climb; [|lia]. intros n. by apply fine_lookupCAAName.
Qed.
End Total.

(** ** Formats *)

Lemma index_app pre x post : index (pre ++ x :: post) (Z.of_nat (length pre)) = Ok x.
Proof.
  unfold index. destruct (Z.leb_spec 0 (Z.of_nat (length pre))); [|lia]. rewrite Nat2Z.id.
  rewrite lookup_app_r, Nat.sub_diag by lia. done.
Qed.
Lemma slice_app pre l post : slice (pre ++ l ++ post) (Z.of_nat (length pre)) (Z.of_nat (length pre + length l)) = Ok l.
Proof.
  unfold slice. rewrite !length_app. destruct (Z.leb_spec 0 (Z.of_nat (length pre))); [|lia].
  destruct (Z.leb_spec (Z.of_nat (length pre)) (Z.of_nat (length pre + length l))); [|lia].
  destruct (Z.leb_spec (Z.of_nat (length pre + length l)) (Z.of_nat (length pre + (length l + length post)))); [|lia].
  simpl. f_equal. rewrite Nat2Z.id, drop_app_length.
  replace (Z.to_nat (Z.of_nat (length pre + length l) - Z.of_nat (length pre))) with (length l) by lia.
  apply take_app_length.
Qed.

Lemma Uint16_Put v post : (0 ≤ v < 65536)%Z → Uint16 (PutUint16 v ++ post) = Ok v.
Proof.
  intros Hv. unfold PutUint16. simpl. f_equal. change 255%Z with (Z.ones 8). rewrite !Z.land_ones by done.
  rewrite Z.shiftr_div_pow2 by done. change (2 ^ 8)%Z with 256%Z. rewrite (Z.mod_small (v / 256)).
  - pose proof (Z.div_mod v 256). lia.
  - split; [apply Z.div_pos; lia|apply Z.div_lt_upper_bound; lia].
Qed.

(** The labels of a name on the wire. *)
Definition labelBytes (labels : list string) : list Z :=
  concat ((λ label, Z.of_nat (String.length label) :: str_bytes label) <$> labels).
Definition labelsFit (labels : list string) : Prop := Forall (λ l, 0 < String.length l ≤ 63) labels.

Lemma appendLabels_ok labels out out' : appendLabels labels out = Ok out' →
  out' = out ++ labelBytes labels ∧ labelsFit labels.
Proof.
  revert out. induction labels as [|label labels IH]; intros out; simpl.
  { intros [= <-]. split; [by rewrite app_nil_r|constructor]. }
  destruct (Z.eqb _ 0 || _) eqn:Ec; simpl; [done|]. intros [-> Hf]%IH. bool_prop.
  split; [by rewrite <- app_assoc|]. constructor; [lia|done].
Qed.

Lemma length_str_bytes s : length (str_bytes s) = String.length s.
Proof. unfold str_bytes. rewrite length_map. induction s; simpl; congruence. Qed.

Lemma short_label n : n ≤ 63 → Z.eqb (Z.land (Z.of_nat n) 0xc0) 0xc0 = false.
Proof. intros Hn. do 64 (destruct n as [|n]; [reflexivity|]). lia. Qed.

Lemma labels_shorter labels : length labels ≤ length (labelBytes labels).
Proof.
  induction labels as [|label labels IH]; [done|].
  change (labelBytes (label :: labels))
    with ((Z.of_nat (String.length label) :: str_bytes label) ++ labelBytes labels).
  rewrite length_app. simpl. lia.
Qed.

Lemma skip_labels labels pre post fuel : labelsFit labels → length labels < fuel →
  skipLoop fuel (pre ++ labelBytes labels ++ 0%Z :: post) (Z.of_nat (length pre))
  = Ok (Z.of_nat (length pre + length (labelBytes labels) + 1)).
Proof.
  intros Hf. revert pre fuel. induction Hf as [|label labels Hl Hf IH]; intros pre [|fuel] Hfuel; [lia| |lia|].
  - simpl. rewrite length_app. simpl. destruct (Z.leb_spec (Z.of_nat (length pre + S (length post))) (Z.of_nat (length pre))); [lia|].
    rewrite index_app. simpl. f_equal. lia.
  - change (labelBytes (label :: labels))
      with ((Z.of_nat (String.length label) :: str_bytes label) ++ labelBytes labels). cbn [skipLoop].
    rewrite <- app_assoc, <- app_comm_cons.
    set (rest := str_bytes label ++ labelBytes labels ++ 0%Z :: post). rewrite length_app, index_app. simpl.
    destruct (Z.leb_spec (Z.of_nat (length pre + S (length rest))) (Z.of_nat (length pre))); [lia|].
    destruct (Z.eqb_spec (Z.of_nat (String.length label)) 0); [lia|]. rewrite short_label by lia.
    assert (length rest = String.length label + (length (labelBytes labels) + S (length post))) as Hrest.
    { unfold rest. rewrite !length_app, length_str_bytes. done. }
    destruct (Z.ltb_spec (Z.of_nat (length pre + S (length rest))) (Z.of_nat (length pre) + 1 + Z.of_nat (String.length label))); [lia|].
    specialize (IH (pre ++ Z.of_nat (String.length label) :: str_bytes label) fuel). simpl in Hfuel.
    rewrite length_app in IH. simpl in IH. rewrite length_str_bytes in IH.
    rewrite <- app_assoc in IH. simpl in IH. unfold rest.
    replace (Z.of_nat (length pre) + 1 + Z.of_nat (String.length label))%Z
      with (Z.of_nat (length pre + S (String.length label))) by lia.
    rewrite IH by lia. f_equal. rewrite length_app, length_str_bytes. lia.
Qed.

(** A CAA record in an answer section: a pointer to the name of the question,
    type, class, time to live, and the data with its length. *)
Definition caaData (r : CAARecord) : list Z :=
  caa_Flag r :: Z.of_nat (String.length (caa_Tag r)) :: str_bytes (caa_Tag r) ++ str_bytes (caa_Value r).
Definition caaAnswer (ttl : list Z) (r : CAARecord) : list Z :=
  [192; 12]%Z ++ PutUint16 dnsTypeCAA ++ PutUint16 1 ++ ttl ++ PutUint16 (Z.of_nat (length (caaData r))) ++ caaData r.
Definition caaFits (r : CAARecord) : Prop :=
  String.length (caa_Tag r) < 256 ∧ (Z.of_nat (length (caaData r)) < 65536)%Z.

Lemma slice_at message p l q lo hi : message = p ++ l ++ q → lo = Z.of_nat (length p) →
  hi = (lo + Z.of_nat (length l))%Z → slice message lo hi = Ok l.
Proof. intros -> -> ->. rewrite <- Nat2Z.inj_add. apply slice_app. Qed.

Lemma parseCAAData_of r : caaFits r → parseCAAData (caaData r) = Ok (Some r).
Proof.
  intros [Ht Hd]. unfold parseCAAData. change (index (caaData r) 1) with (Ok (Z.of_nat (String.length (caa_Tag r)))).
  assert (length (caaData r) = 2 + String.length (caa_Tag r) + String.length (caa_Value r)) as El
    by (unfold caaData; simpl; rewrite length_app, !length_str_bytes; lia).
  cbn [bindR]. rewrite El.
  destruct (Z.leb_spec (2 + Z.of_nat (String.length (caa_Tag r)))
    (Z.of_nat (2 + String.length (caa_Tag r) + String.length (caa_Value r)))); [|lia].
  change (index (caaData r) 0) with (Ok (caa_Flag r)). cbn [bindR].
  rewrite (slice_at _ [caa_Flag r; Z.of_nat (String.length (caa_Tag r))] (str_bytes (caa_Tag r)) (str_bytes (caa_Value r)))
    by (try done; rewrite length_str_bytes; done). cbn [bindR].
  rewrite (slice_at _ ([caa_Flag r; Z.of_nat (String.length (caa_Tag r))] ++ str_bytes (caa_Tag r)) (str_bytes (caa_Value r)) [])
    by (rewrite ?app_nil_r, ?length_app, ?length_str_bytes; simpl; try done; lia). simpl.
  rewrite !bytes_to_str_bytes. by destruct r.
Qed.

Lemma skip_pointer pre post : skipDNSName (pre ++ 192%Z :: 12%Z :: post) (Z.of_nat (length pre))
  = Ok (Z.of_nat (length pre) + 2)%Z.
Proof.
  unfold skipDNSName. rewrite length_app. cbn [skipLoop length].
  rewrite length_app, index_app. cbn [length bindR].
  destruct (Z.leb_spec (Z.of_nat (length pre + S (S (length post)))) (Z.of_nat (length pre))); [lia|].
  change (Z.eqb 192 0) with false. change (Z.eqb (Z.land 192 0xc0) 0xc0) with true. cbv iota.
  destruct (Z.leb_spec (Z.of_nat (length pre + S (S (length post)))) (Z.of_nat (length pre) + 1)); [lia|].
  f_equal. lia.
Qed.

Lemma length_Put v : length (PutUint16 v) = 2.
Proof. done. Qed.

Lemma parseAnswers_of ttl records : length ttl = 4 → Forall caaFits records → ∀ pre acc,
  parseAnswers (length records) (pre ++ concat (caaAnswer ttl <$> records)) (Z.of_nat (length pre)) acc
  = Ok (acc ++ records).
Proof.
  intros Httl Hf. induction Hf as [|r records Hr Hf IH]; intros pre acc; [simpl; by rewrite !app_nil_r|].
  cbn [parseAnswers length fmap list_fmap concat].
  set (tl := concat (caaAnswer ttl <$> records)) in *. remember (length (caaData r)) as n eqn:En.
  set (message := pre ++ caaAnswer ttl r ++ tl).
  assert (message = pre ++ 192%Z :: 12%Z :: (PutUint16 dnsTypeCAA ++ PutUint16 1 ++ ttl ++
    PutUint16 (Z.of_nat n) ++ caaData r ++ tl)) as Em.
  { unfold message, caaAnswer. rewrite En. by rewrite <- !app_assoc. }
  assert (length message = length pre + 12 + n + length tl) as El.
  { rewrite Em, length_app. cbn [length]. rewrite !length_app, !length_Put, Httl, <- En. lia. }
  assert (Z.of_nat n < 65536)%Z as Hn by (rewrite En; apply Hr).
  assert (∀ p l q lo hi, message = pre ++ [192; 12]%Z ++ p ++ l ++ q →
    lo = (Z.of_nat (length pre) + 2 + Z.of_nat (length p))%Z → hi = (lo + Z.of_nat (length l))%Z →
    slice message lo hi = Ok l) as Hslice.
  { intros p l q lo hi Hm -> ->. eapply (slice_at _ (pre ++ [192; 12]%Z ++ p) l q); [by rewrite Hm, <- !app_assoc| |done].
    rewrite !length_app. cbn [length]. lia. }
  rewrite Em at 1. rewrite skip_pointer. cbn [bindR]. rewrite El. set (o := (Z.of_nat (length pre) + 2)%Z) in *.
  destruct (Z.ltb_spec (Z.of_nat (length pre + 12 + n + length tl)) (o + 10)); [lia|]. cbn [check_not bindR].
  rewrite (Hslice [] (PutUint16 dnsTypeCAA) _ o (o + 2)%Z Em) by (rewrite ?length_Put; simpl; lia). cbn [bindR].
  rewrite <- (app_nil_r (PutUint16 dnsTypeCAA)), Uint16_Put by done. cbn [bindR].
  rewrite (Hslice (PutUint16 dnsTypeCAA) (PutUint16 1) _ (o + 2)%Z (o + 4)%Z Em) by (rewrite ?length_Put; lia). cbn [bindR].
  rewrite <- (app_nil_r (PutUint16 1)), Uint16_Put by done. cbn [bindR].
  rewrite (Hslice (PutUint16 dnsTypeCAA ++ PutUint16 1 ++ ttl) (PutUint16 (Z.of_nat n)) (caaData r ++ tl) (o + 8)%Z (o + 10)%Z)
    by (rewrite ?Em, <- ?app_assoc, ?length_app, ?length_Put, ?Httl; try done; lia). cbn [bindR].
  rewrite <- (app_nil_r (PutUint16 (Z.of_nat n))), Uint16_Put by lia. cbn [bindR].
  destruct (Z.ltb_spec (Z.of_nat (length pre + 12 + n + length tl)) (o + 10 + Z.of_nat n)); [lia|]. cbn [check_not bindR].
  rewrite !Z.eqb_refl. destruct (Z.leb_spec 2 (Z.of_nat n)) as [_|Hlt].
  2: { unfold caaData in En. cbn [length] in En. lia. }
  cbn [andb].
  rewrite (Hslice (PutUint16 dnsTypeCAA ++ PutUint16 1 ++ ttl ++ PutUint16 (Z.of_nat n)) (caaData r) tl)
    by (rewrite ?Em, <- ?app_assoc, ?length_app, ?length_Put, ?Httl, <- ?En; try done; lia). cbn [bindR].
  rewrite (parseCAAData_of r Hr). cbn [bindR].
  specialize (IH (pre ++ caaAnswer ttl r) (acc ++ [r])). rewrite <- !app_assoc in IH. fold message in IH.
  etrans; [|exact IH]. f_equal. rewrite length_app. unfold caaAnswer. rewrite !length_app, !length_Put, Httl, <- En.
  simpl. lia.
Qed.

(** The response to a query: its identifier, flags, its question, and the records. *)
Definition caaResponse (query : list Z) (flags : Z) (ttl : list Z) (records : list CAARecord) : list Z :=
  take 2 query ++ PutUint16 flags ++ PutUint16 1 ++
  PutUint16 (Z.of_nat (length records)) ++ [0; 0; 0; 0]%Z ++ drop 12 query ++ concat (caaAnswer ttl <$> records).

Lemma parse_response idBytes name query id flags ttl records :
  buildCAAQuery idBytes name = Ok (query, id) → (0 ≤ id < 65536)%Z → (0 ≤ flags < 65536)%Z →
  Z.land flags 0x000f = 0%Z → length ttl = 4 →
  Forall caaFits records → (Z.of_nat (length records) < 65536)%Z →
  parseCAAResponse (caaResponse query flags ttl records) id
  = Ok (mkCAALookupResult records
          (if negb (Z.eqb (Z.land flags 0x0020) 0) then CAADNSSECSecure else CAADNSSECIndeterminate),
        negb (Nat.eqb (length records) 0)).
Proof.
  intros Hb Hid Hfl Hrc Httl Hf Hn. unfold buildCAAQuery in Hb. destruct idBytes as [b|]; [cbn [bindR] in Hb|done].
  destruct (Uint16 b) as [id'|]; [cbn [bindR] in Hb|done].
  destruct (appendLabels _ _) as [out|] eqn:Ea; [cbn [bindR] in Hb|done]. injection Hb as <- ->.
  apply appendLabels_ok in Ea as [-> Hfit]. set (labels := split_byte _ _) in *.
  set (tail := concat (caaAnswer ttl <$> records)).
  set (fl := PutUint16 flags).
  set (an := PutUint16 (Z.of_nat (length records))).
  set (rest := labelBytes labels ++ 0%Z :: ([1; 1; 0; 1]%Z ++ tail)).
  set (head := PutUint16 id ++ fl ++ PutUint16 1 ++ an ++ [0; 0; 0; 0]%Z).
  match goal with |- parseCAAResponse ?m _ = _ => assert (m = head ++ rest) as Em end.
  { transitivity (head ++ (labelBytes labels ++ [0; 1; 1; 0; 1]%Z) ++ tail); [reflexivity|].
    unfold rest. by rewrite <- !app_assoc. }
  rewrite Em. clear Em. assert (length head = 12) as Hhead by done. unfold parseCAAResponse.
  destruct (Z.ltb_spec (Z.of_nat (length (head ++ rest))) 12) as [Hlt|_]; [rewrite length_app in Hlt; lia|].
  cbn [check_not bindR].
  rewrite (slice_at (head ++ rest) [] (PutUint16 id) (fl ++ PutUint16 1 ++ an ++ [0; 0; 0; 0]%Z ++ rest)) by done.
  cbn [bindR]. rewrite <- (app_nil_r (PutUint16 id)) at 1. rewrite Uint16_Put by done. cbn [bindR].
  rewrite Z.eqb_refl. cbn [negb check_not bindR].
  rewrite (slice_at (head ++ rest) (PutUint16 id) fl (PutUint16 1 ++ an ++ [0; 0; 0; 0]%Z ++ rest)) by done.
  cbn [bindR]. unfold fl at 1. rewrite <- (app_nil_r (PutUint16 flags)) at 1.
  rewrite Uint16_Put by done. cbn [bindR]. cbv zeta. rewrite Hrc. cbn [Z.eqb negb].
  rewrite (slice_at (head ++ rest) (PutUint16 id ++ fl) (PutUint16 1) (an ++ [0; 0; 0; 0]%Z ++ rest)) by done.
  rewrite (slice_at (head ++ rest) (PutUint16 id ++ fl ++ PutUint16 1) an ([0; 0; 0; 0]%Z ++ rest)) by done.
  cbn [bindR]. change (Uint16 (PutUint16 1)) with (Ok 1%Z). cbn [bindR].
  unfold an at 1. rewrite <- (app_nil_r (PutUint16 (Z.of_nat (length records)))) at 1. rewrite Uint16_Put by lia.
  cbn [bindR]. change (Z.to_nat 1) with 1. cbn [skipQuestions].
  assert (skipDNSName (head ++ rest) 12 = Ok (Z.of_nat (length head + length (labelBytes labels) + 1))) as ->.
  { change 12%Z with (Z.of_nat (length head)). apply skip_labels; [done|].
    pose proof (labels_shorter labels). unfold rest. rewrite !length_app. lia. }
  set (pre := head ++ labelBytes labels ++ [0; 1; 1; 0; 1]%Z).
  assert (head ++ rest = pre ++ tail) as -> by (unfold pre, rest; by rewrite <- !app_assoc).
  assert (Z.of_nat (length head + length (labelBytes labels) + 1) + 4 = Z.of_nat (length pre))%Z as Ho
    by (unfold pre; rewrite !length_app; simpl; lia).
  cbn [bindR]. rewrite Ho. destruct (Z.ltb_spec (Z.of_nat (length (pre ++ tail))) (Z.of_nat (length pre))) as [Hlt|_];
    [rewrite length_app in Hlt; lia|].
  cbn [check_not bindR]. rewrite Nat2Z.id. unfold tail. rewrite (parseAnswers_of ttl records Httl Hf pre []). done.
Qed.

(** Queries and responses round-trip: when a query for a name is built, then
    from a response without error that carries its identifier and question and
    any records (up to 65535, each within the limits of the format) the parser
    recovers exactly these records, in order, with the status that the
    authenticated-data bit says. *)
Theorem caa_roundtrip idBytes name query id (ad : bool) ttl records :
  buildCAAQuery idBytes name = Ok (query, id) → (0 ≤ id < 65536)%Z → length ttl = 4 →
  Forall caaFits records → (Z.of_nat (length records) < 65536)%Z →
  parseCAAResponse (caaResponse query (if ad then 0x81a0 else 0x8180) ttl records) id
  = Ok (mkCAALookupResult records (if ad then CAADNSSECSecure else CAADNSSECIndeterminate),
        negb (Nat.eqb (length records) 0)).
Proof.
  intros Hb Hid Httl Hf Hn.
  rewrite (parse_response idBytes name query id (if ad then 0x81a0 else 0x8180) ttl records) by (try done; by destruct ad).
  by destruct ad.
Qed.

(** A response that the server truncated, with the records left out, is taken
    for the absence of records: the truncation bit is not looked at, and the
    lookup goes on to the parent. *)
Lemma truncated_is_absence idBytes name query id :
  buildCAAQuery idBytes name = Ok (query, id) → (0 ≤ id < 65536)%Z →
  parseCAAResponse (caaResponse query 0x8380 [] []) id = Ok (mkCAALookupResult [] CAADNSSECIndeterminate, false).
Proof.
  intros Hb Hid. apply (parse_response idBytes name query id 0x8380 [0; 0; 0; 0]%Z []); done.
Qed.

(** ** Witnesses *)

Section Witnesses.
#[local] Existing Instance ascii_unicode.

(** A resolver that answers with the bytes 0, 1, 2, ... *)
#[local] Instance sample_dns : DNSEnv :=
  {| dns_rand _ := Ok [0x12; 0x34]%Z; dns_exchange _ _ _ _ := Ok (Z.of_nat <$> seq 0 40) |}.

Lemma caa_lookup_safe_witness :
  (LookupCAA (mkDNSCAALookup "ns:53" Second) "host.example." 0).1 = Err ErrInvalidRequest ∧
  fine (λ _, True) (LookupCAA (mkDNSCAALookup "ns:53" Second) "host.example." 0).1.
Proof.
  split; [vm_compute; reflexivity|]. apply (caa_lookup_safe (mkDNSCAALookup "ns:53" Second) "host.example." 0).
  - intros t. simpl. split; [repeat constructor; unfold isOctet; lia|done].
  - intros t r d q. apply (bool_decide_unpack (Forall (λ b, 0 ≤ b < 256)%Z (Z.of_nat <$> seq 0 40))).
    vm_compute. exact I.
Defined.

Definition sample_caa : CAARecord := mkCAARecord 128 "issue" "ca.example; account=7".
Definition sample_query : list Z :=
  match buildCAAQuery (Ok [0x12; 0x34]%Z) "host.example" with Ok (q, _) => q | Err _ => [] end.

Lemma caa_roundtrip_witness :
  parseCAAResponse (caaResponse sample_query 0x81a0 [0; 0; 14; 16]%Z [sample_caa]) 0x1234
  = Ok (mkCAALookupResult [sample_caa] CAADNSSECSecure, true).
Proof.
  apply (caa_roundtrip (Ok [0x12; 0x34]%Z) "host.example" sample_query 0x1234 true [0; 0; 14; 16]%Z [sample_caa]);
    [vm_compute; reflexivity|lia|reflexivity| |reflexivity].
  constructor; [|constructor]. split; [simpl; lia|reflexivity].
Defined.
End Witnesses.
