(* ===== verification/HTTPRefinement.v ===== *)
(** * The HTTP server refines the lifecycle service

    Whatever a request does to the store it does through operations of the
    service: one request is a sequence of service calls in the contexts the
    server makes for it. So every property of the executions of the service
    holds of the executions of the server. *)

From S2P Require Import Prelude GoLib NetIP Crypto Domain Core Requests AuditChain Store StoreInv.
From S2P Require Import Service Policy Registry Lifecycle Issuance Outbox CRL APIKeys OCSP ACME.
From S2P Require Import Queries Machines ServiceFacts Invariants History Outcomes.
From S2P Require Import HTTPTypes HTTPBoundary HTTPCore HTTPRoutes.
From S2P Require Import Samples.
From S2P Require HTTPServer HTTPACME.

(** ** Service calls *)

Section Served.
Context `{E : Env} `{!WebhookEnv}.

Definition served {A} (m : Svc A) : Prop := ∀ w, rtc service_step w (m w).2.

Lemma served_op {A} (m : Svc A) : (∀ w, op_step w (m w).2) → served m.
Proof. intros Hm w. by apply rtc_once, op_step_service. Qed.

Lemma served_ret {A} (a : A) : served (retM a).
Proof. intros w. apply rtc_refl. Qed.
Lemma served_fail {A} e : served (failM (A:=A) e).
Proof. intros w. apply rtc_refl. Qed.
Lemma served_lift {A} (r : res A) : served (liftM r).
Proof. intros w. apply rtc_refl. Qed.
Lemma served_if c e : served (return_if c e).
Proof. intros w. destruct c; apply rtc_refl. Qed.
Lemma served_outside {A} (f : nat → res A) : served (outside f).
Proof. intros [s t]. apply rtc_once, op_step_service. simpl. constructor. lia. Qed.
Lemma served_bind {A B} (m : Svc A) (k : A → Svc B) : served m → (∀ a, served (k a)) → served (bindM m k).
Proof.
  intros Hm Hk w. unfold bindM. specialize (Hm w). destruct (m w) as [[a|e] w1]; [|done].
  etrans; [exact Hm|apply Hk].
Qed.
Lemma served_repo {A} (op : Mem A) : (∀ s, (op s).2 = s) → served (repo op).
Proof.
  intros Ho w. unfold repo. specialize (Ho (w_store w)). destruct (op (w_store w)) as [r s]. simpl in *.
  subst. destruct w. apply rtc_refl.
Qed.
End Served.

Create HintDb served_db discriminated.
#[export] Hint Constants Opaque : served_db.
#[export] Hint Constructors op_step : served_db.
#[export] Hint Resolve served_op served_ret served_fail served_lift served_if served_outside : served_db.

(** The queries: reads, which leave the store as it is. *)
Create HintDb query_db.
#[export] Hint Unfold now_ Queries.GetIdentity Queries.GetCertificateProfile Queries.GetEnrollment
  Queries.GetCertificate Queries.GetCRLPublication Queries.GetACMEOrder Queries.GetACMEAccount
  Queries.GetACMEAuthorization Queries.GetACMEChallenge Queries.GetLatestCRLPublication
  Queries.GetLatestCRLPublicationForDistributionPoint Queries.GetAuditIntegrity
  Queries.ListIdentities Queries.ListIssuers Queries.ListCertificateProfiles Queries.ListEnrollments
  Queries.ListCertificates Queries.ListAPIKeys Queries.ListNotificationEndpoints
  Queries.ListACMEAccounts Queries.ListAuditEvents Queries.ListACMEOrdersByAccount
  Queries.ListACMEAuthorizations Queries.ListACMEChallenges Queries.ListOutboxMessages
  Queries.ListIdentitiesQuery Queries.ListEnrollmentsQuery Queries.identityFilterLookup
  Queries.ListCertificatesQuery Queries.ListCertificatesExpiringWithin
  Queries.ListCertificateInventory Queries.ExpirySLO_ Queries.ListOutboxMessagesQuery
  Queries.ListAuditEventsQuery Registry.ListTrustAnchors OCSP.ListOCSPRespondersByIssuer
  HTTPACME.requireACMEOrderAccount HTTPACME.requireACMEAuthorizationAccount
  HTTPACME.requireACMEChallengeAccount HTTPACME.requireACMECertificateAccount
  HTTPACME.toACMEProtocolOrder HTTPACME.toACMEProtocolAuthorization HTTPACME.acmeCertificateChainPEM
  : query_db.

Lemma served_GetIssuerChain `{E : Env} `{!WebhookEnv} id : served (Registry.GetIssuerChain id).
Proof.
  intros w. unfold Registry.GetIssuerChain. repeat case_match; simplify_eq/=; apply rtc_refl.
Qed.
#[export] Hint Resolve served_GetIssuerChain : served_db.

(** Split an action into its calls. *)
Ltac served_step :=
  lazymatch goal with
  | |- served (bindM _ _) => apply served_bind; [|intros]
  | |- served (if ?b then _ else _) => destruct b
  | |- served (match ?x with _ => _ end) => destruct x
  end.
Ltac served_leaf := solve [eauto with served_db nocore | apply served_repo; intros; reflexivity].
Ltac served := autounfold with query_db; repeat (cbv zeta; first [served_step | served_leaf]).

(** A call of the service by the server. *)
Lemma along_served `{E : Env} `{!WebhookEnv} {N A} (m : Svc A) :
  served m → along (N:=N) (rtc service_step) (svc m).
Proof. apply along_svc. Qed.
Ltac serve := apply along_served; served.

(** ** Handlers *)

Section Handlers.
Context `{E : Env} `{!WebhookEnv} {N : Type} `{!ACMENonceStore N} `{!HTTPEnv}.
Abbreviation served_steps := (rtc service_step).

#[global] Instance service_timely : Timely served_steps.
Proof. intros [s t] t' Ht. apply rtc_once, op_step_service. by constructor. Qed.

Lemma calls_decodeJWS r : along (N:=N) served_steps (HTTPACME.decodeACMEJWS r).
Proof. unfold HTTPACME.decodeACMEJWS, HTTPACME.jwsKeyOfAccount, HTTPACME.jwsKeyOfHeader. along ltac:(serve). Qed.
#[local] Hint Resolve calls_decodeJWS : along_db.

Lemma failure_served a q w : served_steps w (RecordAPIFailure a q w).2.
Proof. apply served_op. constructor. Qed.

Lemma handled_dispatch e r : handled (N:=N) served_steps (dispatch e r).
Proof.
  destruct e; cbv [dispatch];
    try (match goal with |- handled _ (?f _) => let h := head_of f in unfold h end);
    lazymatch goal with
    | |- handled _ (handle _ _) => apply handled_handle; [apply _|apply _|apply failure_served|along ltac:(serve)]
    | _ => by intros st
    end.
Qed.

Lemma handled_muxServe r : handled (N:=N) served_steps (muxServe r).
Proof. intros st. unfold muxServe. destruct (findHandler r); try done. apply handled_dispatch. Qed.

Lemma calls_authenticate r : along (N:=N) served_steps (authenticateRequest r).
Proof. unfold authenticateRequest. along ltac:(serve). Qed.
End Handlers.

(** ** The server *)

Section Server.
Context `{E : Env} `{!WebhookEnv} {N : Type} `{!ACMENonceStore N} `{!HTTPEnv}.
Abbreviation served_steps := (rtc service_step).

(** The context of a request does not matter for what its calls may do. *)
Lemma handled_ctx c (h : HandlerM N) :
  handled (rtc (service_step (E:=with_ctx c E))) h → handled served_steps h.
Proof. done. Qed.

Lemma error_served c r err : handled (N:=N) served_steps (writeError (E:=with_ctx c E) r err).
Proof.
  apply (handled_ctx c), handled_writeError; [apply _|apply service_timely|].
  intros. apply (failure_served (E:=with_ctx c E)).
Qed.

(** The three stages of [ServeHTTP], from the last to the first. *)
Lemma served_authorized ctx r (st : HState N) :
  served_steps (hs_world st) (hs_world (serveAuthorized E ctx r st).2).
Proof.
  unfold serveAuthorized. pose proof (along_rateLimit (N:=N) served_steps r st) as Hr.
  destruct (checkACMERateLimit r st) as [[u|err] st1].
  - pose proof (handled_ctx ctx _ (handled_muxServe (E:=with_ctx ctx E) r) st1).
    destruct (muxServe r st1). by etrans.
  - pose proof (error_served ctx r err st1). destruct (writeError r err st1). by etrans.
Qed.

Lemma served_authenticated meta key r (st : HState N) :
  served_steps (hs_world st) (hs_world (serveAuthenticated E meta key r st).2).
Proof.
  unfold serveAuthenticated. pose proof (along_consult (N:=N) served_steps r meta st) as Hc.
  destruct (consultAuthorizer r meta st) as [[[[[result err] cerr]|]|e] st1]; simpl in Hc;
    try (etrans; [exact Hc|apply served_authorized]).
  destruct (authorizationAllows result err); [etrans; [exact Hc|apply served_authorized]|].
  set (ctx := mkCallContext _ _ _). pose proof (error_served ctx r ErrForbidden st1).
  destruct (writeError r _ st1). by etrans.
Qed.

Lemma served_metadata meta r (st : HState N) :
  served_steps (hs_world st) (hs_world (serveWithMetadata E meta r st).2).
Proof.
  unfold serveWithMetadata. set (ctx := mkCallContext _ _ _).
  pose proof (calls_authenticate (E:=with_ctx ctx E) (N:=N) r st) as Ha.
  destruct (authenticateRequest r st) as [[[actor key]|err] st1].
  - etrans; [exact Ha|apply served_authenticated].
  - set (st2 := (RecordEvent _ st1).2). set (r' := with_actor _ r).
    pose proof (error_served ctx r' err st2). destruct (writeError r' err st2). by etrans.
Qed.

Lemma handled_ServeHTTP r : handled (N:=N) served_steps (ServeHTTP r).
Proof.
  intros st. unfold ServeHTTP. pose proof (along_metadata (N:=N) served_steps r st) as Hm.
  destruct (requestMetadata r st) as [[meta|e] st1]; [|done].
  pose proof (served_metadata meta r st1). destruct (serveWithMetadata E meta r st1) as [[b resp] st2].
  by etrans.
Qed.

(** A step of the running server: a request, or a call of the service by a
    background worker or the start-up code. *)
Inductive server_step : HState N → HState N → Prop :=
| step_request r st : server_step st (ServeHTTP r st).2
| step_service st w :
    service_step (hs_world st) w →
    server_step st (mkHState w (hs_rates st) (hs_nonces st) (hs_requests st) (hs_events st)).

(** C7: The HTTP server refines the lifecycle service: any sequence of
    requests, well-formed or hostile, authenticated or not, interleaved with
    the background work, changes the store only by calls of the service, in
    contexts that the server makes. All the invariants and history properties
    proved of service executions therefore hold of the running server. *)
Theorem server_refines_service st st' :
  rtc server_step st st' → rtc service_step (hs_world st) (hs_world st').
Proof.
  induction 1 as [|st1 st2 st3 Hs _ IH]; [apply rtc_refl|]. etrans; [|exact IH].
  destruct Hs as [r st|st w Hw]; [apply handled_ServeHTTP|by apply rtc_once].
Qed.
End Server.

Section Witness.
#[local] Existing Instance sample_env.
#[local] Existing Instance sample_webhook.
#[local] Existing Instance sample_http.

(** A request that creates an account. *)
Lemma server_refines_service_witness :
  ∃ w, w = hs_world (ServeHTTP (sample_post "/acme/new-account") (sample_state new_world)).2 ∧
    size (ms_acmeAccounts (w_store w)) = 1 ∧ rtc service_step new_world w.
Proof.
  eexists. split; [reflexivity|]. split; [vm_compute; reflexivity|].
  apply (server_refines_service (sample_state new_world)). apply rtc_once, step_request.
Defined.
End Witness.
