(* ===== verification/AccessFacts.v ===== *)
(** * Access control of the HTTP server

    Which requests are served without a key, which keys are enough for an
    endpoint, and what a refused request leaves behind. *)

From Stdlib Require Import Ascii.
From S2P Require Import Prelude GoLib NetIP Crypto Domain Core Requests AuditChain Store StoreInv.
From S2P Require Import Service Policy Outbox APIKeys Samples Machines ServiceFacts Invariants History Outcomes.
From S2P Require Import APIKeyFacts HTTPTypes HTTPBoundary HTTPCore HTTPRoutes HTTPRouteFacts.

(** ** Errors as responses *)

Lemma find_listed {A} (f : A → bool) (l : list A) a : List.find f l = Some a → a ∈ l.
Proof. intros [Hin _]%find_some. by apply list_elem_of_In. Qed.


Section Errors.
Context `{E : Env} `{!HTTPEnv} {N : Type} `{!ACMENonceStore N}.

End Errors.

(** ** Refusals *)

(** Nothing but the audit log and the use times of the API keys changes. *)
Definition only_recorded (s s' : MemoryStore) : Prop :=
  s' = set_apiKeys (ms_apiKeys s') (set_audit (ms_audit s') s).

#[export] Instance only_recorded_preorder : PreOrder only_recorded.
Proof. split; [by intros []|]. unfold only_recorded. intros s1 s2 s3 -> ->. by destruct s1. Qed.

Definition recorded (w w' : World) : Prop := only_recorded (w_store w) (w_store w').
#[export] Instance recorded_preorder : PreOrder recorded.
Proof. split; [by intros w; unfold recorded|]. unfold recorded. intros w1 w2 w3 H1 H2. by etrans. Qed.
#[export] Instance recorded_timely : Timely recorded.
Proof. intros w t _. by unfold recorded. Qed.

Section Access.
Context `{E : Env}.





End Access.

Section Protected.
Context `{E : Env} `{!UniqueIDs} `{!WebhookEnv} `{!HTTPEnv} {N : Type} `{!ACMENonceStore N}.



(** Only time passes. *)
Definition waits (w w' : World) : Prop := w_store w' = w_store w ∧ w_tick w ≤ w_tick w'.
#[export] Instance waits_preorder : PreOrder waits.
Proof. split; [by intros w|]. intros w1 w2 w3 [E1 ?] [E2 ?]. split; [congruence|lia]. Qed.
#[export] Instance waits_timely : Timely waits.
Proof. by intros w t ?. Qed.


End Protected.

(** ** What error responses say *)

Definition publicMessages : list string := "internal server error" :: (domain_Error <$> publicErrors).
Definition problemTypes : list string :=
  ["urn:ietf:params:acme:error:badNonce"; "urn:ietf:params:acme:error:rateLimited";
   "urn:ietf:params:acme:error:unauthorized"; "urn:ietf:params:acme:error:malformed"].

(** A success or redirection, a response of the multiplexer, or one of the
    fixed messages. *)
Inductive disclosed : Response → Prop :=
| disclosed_success resp : (resp_Status resp < 400)%Z → disclosed resp
| disclosed_mux status h : disclosed (mkResponse status h BodyMux)
| disclosed_message status h m :
    m ∈ publicMessages → disclosed (mkResponse status h (BodyJSON (J_errorResponse (mk_errorResponse m))))
| disclosed_problem status h type m :
    type ∈ problemTypes → m ∈ publicMessages →
    disclosed (mkResponse status h (BodyJSON (J_acmeProblem (mk_acmeProblem type (StatusText status) status m)))).

Lemma publicErrorMessage_listed err : publicErrorMessage err ∈ publicMessages.
Proof.
  unfold publicErrorMessage, publicMessages. destruct (is_bad_nonce err).
  { right. apply list_elem_of_fmap. exists ErrInvalidRequest. split; [done|by left]. }
  destruct (List.find _ _) as [d|] eqn:Ef; [|by left].
  right. apply list_elem_of_fmap. exists d. split; [done|by eapply find_listed].
Qed.
Lemma acmeProblemType_listed err : acmeProblemType err ∈ problemTypes.
Proof.
  apply (bool_decide_unpack _). unfold acmeProblemType. repeat case_match; vm_compute; exact I.
Qed.

Section Disclosure.
Context `{!HTTPEnv} {N : Type} `{!ACMENonceStore N}.

(** The value of an action that succeeds. *)
Definition yields {A} (P : A → Prop) (m : HTTPM N A) : Prop := ∀ st a st', m st = (Ok a, st') → P a.

Lemma yields_bind {A B} P (m : HTTPM N A) (k : A → HTTPM N B) : (∀ a, yields P (k a)) → yields P (bindM m k).
Proof. intros Hk st b st' (a & st1 & _ & Ek)%bindM_ok_inv. by eapply Hk. Qed.
Lemma yields_ret {A} (P : A → Prop) a : P a → yields P (retM a).
Proof. by intros Ha st b st' [= <- _]. Qed.
Lemma yields_fail {A} (P : A → Prop) e : yields P (failM e).
Proof. by intros st b st'. Qed.

Definition succeeded (resp : Response) : Prop := (resp_Status resp < 400)%Z.

Lemma yields_writeACMEJSON r h s v : (s < 400)%Z → yields succeeded (writeACMEJSON r h s v).
Proof. intros Hs. unfold writeACMEJSON. apply yields_bind. intros. by apply yields_ret. Qed.

Lemma errorBody_disclosed r status err : yields disclosed (errorBody r status err).
Proof.
  unfold errorBody, writeACMEProblem. destruct (isPublicACMEProtocolEndpoint _ _).
  - apply yields_bind. intros. apply yields_ret.
    apply disclosed_problem; [apply acmeProblemType_listed|apply publicErrorMessage_listed].
  - apply yields_ret. apply disclosed_message, publicErrorMessage_listed.
Qed.

Lemma writeError_disclosed `{E : Env} r err (st : HState N) : disclosed (writeError r err st).1.
Proof.
  unfold writeError. destruct (writeErrorM_ok r err st) as (resp & st' & Er). rewrite Er. simpl.
  unfold writeErrorM in Er. apply bindM_ok_inv in Er as (a & st1 & _ & Er). by eapply errorBody_disclosed.
Qed.

Lemma handle_disclosed `{E : Env} r (body : HTTPM N Response) :
  yields succeeded body → ∀ st, disclosed (handle r body st).1.
Proof.
  intros Hb st. unfold handle. destruct (body st) as [[resp|err] st1] eqn:Eb; [by apply disclosed_success; eapply Hb|].
  pose proof (writeError_disclosed r err st1). destruct err; try done. by apply disclosed_success.
Qed.
End Disclosure.

Ltac yields :=
  repeat (cbv zeta; lazymatch goal with
  | |- yields _ (bindM _ _) => apply yields_bind; intros
  | |- yields _ (retM _) => apply yields_ret; done
  | |- yields _ (failM _) => apply yields_fail
  | |- yields _ (writeACMEJSON _ _ _ _) => apply yields_writeACMEJSON; repeat case_match; done
  | |- yields _ (if ?b then _ else _) => destruct b
  | |- yields _ (match ?x with _ => _ end) => destruct x
  end).

Section Responses.
Context `{!HTTPEnv} {N : Type} `{!ACMENonceStore N}.

Lemma dispatch_disclosed `{E : Env} e r (st : HState N) : disclosed (dispatch e r st).1.
Proof.
  destruct e; cbv [dispatch];
    try (match goal with |- disclosed (?f _ _).1 => let h := head_of f in unfold h end);
    lazymatch goal with
    | |- disclosed (handle _ _ _).1 => apply handle_disclosed; yields
    | _ => by apply disclosed_success
    end.
Qed.

Lemma muxServe_disclosed `{E : Env} r (st : HState N) : disclosed (muxServe r st).1.
Proof. unfold muxServe. destruct (findHandler r); [apply dispatch_disclosed|apply disclosed_mux..]. Qed.

Lemma serveAuthorized_disclosed E c r (st : HState N) : disclosed (serveAuthorized E c r st).1.2.
Proof.
  unfold serveAuthorized. destruct (checkACMERateLimit r st) as [[u|err] st1].
  - pose proof (muxServe_disclosed (E:=with_ctx c E) r st1). by destruct (muxServe r st1).
  - pose proof (writeError_disclosed (E:=with_ctx c E) r err st1). by destruct (writeError r err st1).
Qed.

Lemma serveWithMetadata_disclosed E meta r (st : HState N) : disclosed (serveWithMetadata E meta r st).1.2.
Proof.
  unfold serveWithMetadata. set (c := mkCallContext _ _ _).
  destruct (authenticateRequest r st) as [[[actor key]|err] st1].
  - unfold serveAuthenticated. destruct (consultAuthorizer _ _ _) as [[[[[result err] cerr]|]|e] st2];
      try apply serveAuthorized_disclosed.
    destruct (authorizationAllows result err); [apply serveAuthorized_disclosed|].
    set (c' := mkCallContext _ _ _). set (r' := with_actor _ r).
    pose proof (writeError_disclosed (E:=with_ctx c' E) r' ErrForbidden st2). by destruct (writeError r' _ st2).
  - set (st2 := (RecordEvent _ st1).2). set (r' := with_actor _ r).
    pose proof (writeError_disclosed (E:=with_ctx c E) r' err st2). by destruct (writeError r' err st2).
Qed.

(** C21: Error responses disclose nothing of the error. Whatever a request and
    the state are, and whatever error arises in the service, the store or the
    signer, a response with an error status is one of the multiplexer's, or
    its text is one of the thirty fixed public messages (with one of four
    fixed problem types on the ACME endpoints). *)
Theorem error_responses_fixed `{E : Env} r (st : HState N) : disclosed (ServeHTTP r st).1.
Proof.
  unfold ServeHTTP. destruct (requestMetadata r st) as [[meta|e] st1]; [|by apply disclosed_success].
  pose proof (serveWithMetadata_disclosed E meta r st1) as Hd.
  destruct (serveWithMetadata E meta r st1) as [[b resp] st2]. simpl in *.
  destruct Hd; [by apply disclosed_success|apply disclosed_mux|by apply disclosed_message|by apply disclosed_problem].
Qed.
End Responses.

(** ** Witness *)

Section Witness.
#[local] Existing Instance sample_env.
#[local] Existing Instance sample_webhook.
#[local] Existing Instance sample_http.


End Witness.
