(* ===== verification/LimitFacts.v ===== *)
(** * Limits of the HTTP server

    The rate limiter of the ACME endpoints and the nonce store: bounds that
    hold over any execution. *)

From Stdlib Require Import Ascii.
From S2P Require Import Prelude GoLib NetIP Crypto Domain Core Store StoreInv Service.
From S2P Require Import Samples HTTPTypes HTTPBoundary HTTPCore HTTPRoutes.

(** ** Rate limits *)

(** One check of a bucket: whether the request is admitted, and the bucket after it. *)
Definition bucketCheck (limit : Z) (window : Duration) (at_ : Time) (bucket : acmeRateBucket)
  : bool * acmeRateBucket :=
  let bucket := if IsZero (rb_ResetAt bucket) || negb (After (rb_ResetAt bucket) at_)
                then mkRateBucket 0 (Add at_ window) else bucket in
  if Z.leb limit (rb_Count bucket) then (false, bucket)
  else (true, mkRateBucket (rb_Count bucket + 1) (rb_ResetAt bucket)).

Section Rates.
Context (limit : Z) (window : Duration).
Hypothesis limit_pos : (0 < limit)%Z.
Hypothesis window_pos : (0 < window)%Z.

(** The checks of one bucket, at nondecreasing times after the zero time. *)
Fixpoint bucketRun (bucket : acmeRateBucket) (times : list Time) : list (Time * bool) :=
  match times with
  | [] => []
  | t :: times => let '(ok, bucket') := bucketCheck limit window t bucket in (t, ok) :: bucketRun bucket' times
  end.

(** The admitted requests with a time from [a] to before [a + window]. *)
Definition admittedIn (a : Time) (l : list (Time * bool)) : Z :=
  Z.of_nat (length (filter (λ e : Time * bool, snd e = true ∧ (a ≤ fst e < a + window)%Z) l)).

#[local] Arguments admittedIn : simpl never.

Lemma admittedIn_cons a e l :
  admittedIn a (e :: l) =
  ((if decide (snd e = true ∧ (a ≤ fst e < a + window)%Z) then 1 else 0) + admittedIn a l)%Z.
Proof. unfold admittedIn. rewrite filter_cons. destruct (decide _); simpl length; lia. Qed.

Definition ordered (times : list Time) : Prop := StronglySorted Z.le times ∧ Forall (Z.le 0) times.

Lemma ordered_cons t times : ordered (t :: times) → (0 ≤ t)%Z ∧ Forall (Z.le t) times ∧ ordered times.
Proof. intros [[Hs Hf]%StronglySorted_inv [H0 Hp]%Forall_cons]. by split_and!. Qed.

(** After the interval nothing is counted. *)
Lemma admitted_after a b times : Forall (λ t, a + window ≤ t)%Z times → admittedIn a (bucketRun b times) = 0%Z.
Proof.
  revert b. induction times as [|t times IH]; intros b Hf; [done|]. apply Forall_cons in Hf as [Ht Hf].
  simpl. destruct (bucketCheck _ _ _ _) as [ok b']. rewrite admittedIn_cons, IH by done. cbn [fst snd].
  rewrite decide_False; [done|]. lia.
Qed.

(** A bucket that is not reset before the end of the interval. *)
Lemma admitted_open a b times : ordered times → (0 ≤ rb_Count b)%Z → (a + window ≤ rb_ResetAt b)%Z →
  (admittedIn a (bucketRun b times) ≤ Z.max 0 (limit - rb_Count b))%Z.
Proof.
  revert b. induction times as [|t times IH]; intros b Ho Hc Hr; [unfold admittedIn; simpl; lia|].
  apply ordered_cons in Ho as (H0 & Hle & Ho). simpl. unfold bucketCheck.
  destruct (IsZero (rb_ResetAt b) || negb (After (rb_ResetAt b) t)) eqn:Er.
  - assert (a + window ≤ t)%Z as Ht.
    { apply orb_true_iff in Er as [Er|Er]; time_prop; lia. }
    assert (Forall (λ u, a + window ≤ u)%Z times) as Hf by (eapply Forall_impl; [exact Hle|simpl; lia]).
    cbn [rb_Count]. destruct (Z.leb_spec limit 0); [lia|]. simpl. rewrite admittedIn_cons, admitted_after by done.
    cbn [fst snd]. rewrite decide_False; lia.
  - destruct (Z.leb_spec limit (rb_Count b)); simpl; rewrite admittedIn_cons; cbn [fst snd].
    + rewrite decide_False by naive_solver. specialize (IH b Ho Hc Hr). lia.
    + specialize (IH (mkRateBucket (rb_Count b + 1) (rb_ResetAt b)) Ho). simpl in IH.
      destruct (decide _); lia.
Qed.

(** From the start of the interval on, the bucket is reset at most once. *)
Lemma admitted_started a b times : ordered times → Forall (Z.le a) times → (0 ≤ rb_Count b)%Z →
  (admittedIn a (bucketRun b times) ≤ Z.max 0 (limit - rb_Count b) + limit)%Z.
Proof.
  revert b. induction times as [|t times IH]; intros b Ho Ha Hc; [simpl; unfold admittedIn; simpl; lia|].
  apply ordered_cons in Ho as (H0 & Hle & Ho). apply Forall_cons in Ha as [Ht Ha]. simpl. unfold bucketCheck.
  destruct (IsZero (rb_ResetAt b) || negb (After (rb_ResetAt b) t)) eqn:Er.
  - cbn [rb_Count]. destruct (Z.leb_spec limit 0); [lia|]. simpl. rewrite admittedIn_cons. cbn [fst snd].
    assert (a + window ≤ Add t window)%Z as Hw by (unfold Add; lia).
    pose proof (admitted_open a (mkRateBucket 1 (Add t window)) times Ho ltac:(done) Hw) as Hop.
    cbn [rb_Count] in Hop. change (0 + 1)%Z with 1%Z. destruct (decide _); lia.
  - destruct (Z.leb_spec limit (rb_Count b)); simpl; rewrite admittedIn_cons; cbn [fst snd].
    + rewrite decide_False by naive_solver. specialize (IH b Ho Ha Hc). lia.
    + specialize (IH (mkRateBucket (rb_Count b + 1) (rb_ResetAt b)) Ho Ha). simpl in IH.
      destruct (decide _); lia.
Qed.

Lemma admitted_bound a b times : ordered times → (0 ≤ rb_Count b)%Z →
  (admittedIn a (bucketRun b times) ≤ 2 * limit)%Z.
Proof.
  revert b. induction times as [|t times IH]; intros b Ho Hc; [unfold admittedIn; simpl; lia|].
  destruct (Z.le_gt_cases a t) as [Ha|Ha].
  - pose proof (ordered_cons _ _ Ho) as (_ & Hle & _).
    pose proof (admitted_started a b (t :: times) Ho) as Hs.
    assert (Forall (Z.le a) (t :: times)) as Hall
      by (constructor; [done|eapply Forall_impl; [exact Hle|simpl; lia]]).
    specialize (Hs Hall Hc). lia.
  - apply ordered_cons in Ho as (H0 & Hle & Ho). simpl. destruct (bucketCheck _ _ _ _) as [ok b'] eqn:Eb.
    rewrite admittedIn_cons. cbn [fst snd]. rewrite decide_False by lia. apply IH; [done|].
    unfold bucketCheck in Eb. repeat case_match; simplify_eq/=; lia.
Qed.
End Rates.

(** ** The checks of the server *)

Section Checks.
Context `{!HTTPEnv} {N : Type} `{!ACMENonceStore N}.
Abbreviation acme := (srv_acme http_server).
Abbreviation limit := (ACMEConfig_RateLimit acme).
Abbreviation window := (ACMEConfig_RateLimitWindow acme).

(** The bucket a request is counted in: client address and endpoint class. *)
Definition rateKey (r : Request) : string :=
  requestClientIP r (AuthConfig_TrustedProxies (srv_auth http_server)) +:+ " " +:+ acmeRateLimitClass (req_Path r).
Definition bucketOf (key : string) (st : HState N) : acmeRateBucket :=
  default (mkRateBucket 0 zero_time) (hs_rates st !! key).

Lemma check_bucket r (st : HState N) res st' :
  isRateLimitedACMEProtocolEndpoint (req_Method r) (req_Path r) = true →
  checkACMERateLimit r st = (res, st') →
  bucketCheck limit window (time_Now (w_tick (hs_world st))) (bucketOf (rateKey r) st)
    = (is_ok res, bucketOf (rateKey r) st') ∧
  ∀ key, key ≠ rateKey r → bucketOf key st' = bucketOf key st.
Proof.
  intros Hl. unfold checkACMERateLimit. rewrite Hl. fold (rateKey r).
  unfold bindM, now, svc, outside, getM, putM, RecordEvent, failM, retM. cbn -[Z.leb bucketCheck After IsZero rateKey].
  fold (bucketOf (rateKey r) st). unfold bucketCheck.
  destruct (IsZero (rb_ResetAt (bucketOf (rateKey r) st)) || _); cbn [rb_Count rb_ResetAt];
    case_match eqn:Eb; intros [= <- <-]; unfold bucketOf; cbn [hs_rates is_ok];
    (split; [by rewrite lookup_insert_eq|intros key Hk; by rewrite lookup_insert_ne]).
Qed.

(** The rate-limited requests of an execution, with their bucket, the time and
    whether they were admitted. Everything else the server does leaves the
    buckets alone. *)
Inductive checked : HState N → list (string * Time * bool) → Prop :=
| checked_end st : checked st []
| checked_other st st' trace : hs_rates st' = hs_rates st → checked st' trace → checked st trace
| checked_request r st res st' trace :
    isRateLimitedACMEProtocolEndpoint (req_Method r) (req_Path r) = true →
    checkACMERateLimit r st = (res, st') → checked st' trace →
    checked st ((rateKey r, time_Now (w_tick (hs_world st)), is_ok res) :: trace).

Definition ofBucket (key : string) (trace : list (string * Time * bool)) : list (Time * bool) :=
  omap (λ '(k, t, ok), if k =s key then Some (t, ok) else None) trace.

Lemma checked_run key st trace : checked st trace →
  ofBucket key trace = bucketRun limit window (bucketOf key st) (fst <$> ofBucket key trace).
Proof.
  induction 1 as [|st st' trace Er _ IH|r st res st' trace Hl Ec _ IH]; [done| |].
  - rewrite IH at 1. unfold bucketOf. by rewrite Er.
  - apply check_bucket in Ec as [Eb Ho]; [|done]. unfold ofBucket in *. simpl.
    destruct (String.eqb_spec (rateKey r) key) as [<-|Hk].
    + simpl. rewrite Eb. f_equal. exact IH.
    + rewrite <- (Ho key) by done. exact IH.
Qed.

(** C14: The rate limit holds. In every execution of a server with an empty
    bucket table, with a clock that does not run backwards, at most twice the
    configured number of rate-limited ACME requests of one client and class
    are admitted in any span of one window, however the requests are
    interleaved with others (fixed windows admit the limit at the end of one
    and again at the start of the next). *)
Theorem rate_limit_bound st trace key a :
  (0 < limit)%Z → (0 < window)%Z → hs_rates st = ∅ → checked st trace →
  ordered (fst <$> ofBucket key trace) →
  (admittedIn window a (ofBucket key trace) ≤ 2 * limit)%Z.
Proof.
  intros Hl Hw He Hc Ho. rewrite (checked_run key st trace Hc). apply admitted_bound; try done.
  unfold bucketOf. by rewrite He.
Qed.
End Checks.

(** ** The nonce store *)

(** What a client of a nonce store may rely on, as long as the store is in
    order: [live s n] says that [n] was issued and not yet consumed. *)
Class NonceStoreLaws (N : Type) `{!ACMENonceStore N} := {
  store_ok : N → Prop;
  live : N → string → Prop;
  consume_ok : ∀ c n t s r s', store_ok s → nonce_Consume c n t s = (r, s') → store_ok s';
  issue_ok : ∀ c n t e s r s', store_ok s → nonce_Issue c n t e s = (r, s') → store_ok s';
  consume_live : ∀ c n t s s', store_ok s → nonce_Consume c n t s = (Ok true, s') → live s n ∧ ¬ live s' n;
  consume_other : ∀ c n t s r s' m, store_ok s → nonce_Consume c n t s = (r, s') → live s' m → live s m;
  issue_other : ∀ c n t e s r s' m, store_ok s → nonce_Issue c n t e s = (r, s') → m ≠ n → live s' m → live s m;
}.

Lemma oldest_step best entries :
  let r := fold_left (λ best (entry : string * acmeStoredNonce),
         if (fst best =s "") || Before (sn_IssuedAt (snd entry)) (snd best)
         then (fst entry, sn_IssuedAt (snd entry)) else best) entries best in
  fst r = fst best ∨ fst r ∈ entries.*1.
Proof.
  revert best. induction entries as [|[n v] entries IH]; intros best; simpl; [by left|].
  destruct (_ || _); simpl.
  - destruct (IH (n, sn_IssuedAt v)) as [E|E]; right; [rewrite E; by left|by right].
  - destruct (IH best) as [E|E]; [by left|right; by right].
Qed.

Lemma oldest_in entries : entries ≠ [] → oldestNonce entries ∈ entries.*1.
Proof.
  destruct entries as [|[n v] entries]; [done|]. intros _. unfold oldestNonce. simpl.
  destruct (oldest_step (n, sn_IssuedAt v) entries) as [E|E]; [rewrite E; by left|by right].
Qed.

(** Eviction only removes entries and reaches its bound. *)
Lemma evictLoop_subseteq fuel maxSize m : evictLoop fuel maxSize m ⊆ m.
Proof.
  revert m. induction fuel as [|fuel IH]; intros m; simpl; [done|]. case_match; [done|].
  etrans; [apply IH|apply delete_subseteq].
Qed.

Lemma evictLoop_size fuel maxSize m : (0 ≤ maxSize)%Z → size m ≤ fuel →
  (Z.of_nat (size (evictLoop fuel maxSize m)) ≤ maxSize)%Z.
Proof.
  intros Hmax. revert m. induction fuel as [|fuel IH]; intros m Hs; simpl.
  - lia.
  - destruct (Z.leb_spec (Z.of_nat (size m)) maxSize); [done|].
    assert (m ≠ ∅) as Hne by (intros ->; rewrite map_size_empty in *; lia).
    assert (∃ v, m !! oldestNonce (map_to_list m) = Some v) as [v Hv].
    { pose proof (oldest_in (map_to_list m)) as Hin.
      destruct (proj1 (list_elem_of_fmap _ _ _) (Hin ltac:(by rewrite map_to_list_empty_iff))) as ([n v] & -> & Hv).
      exists v. by apply elem_of_map_to_list in Hv. }
    pose proof (map_size_delete_Some _ _ (ex_intro _ v Hv)) as Hd.
    apply IH. lia.
Qed.

Lemma removeExpired_subseteq now s : mn_nonces (removeExpiredLocked now s) ⊆ mn_nonces s.
Proof. apply map_filter_subseteq. Qed.

Lemma issue_subseteq now k s :
  mn_nonces (evictOldestLocked k (removeExpiredLocked now s)) ⊆ mn_nonces s.
Proof. etrans; [apply evictLoop_subseteq|apply removeExpired_subseteq]. Qed.

(** The operations of a memory store and what they report. *)
Inductive nonceOp := OpIssue (c : option goerr) (n : string) (t e : Time) | OpConsume (c : option goerr) (n : string) (t : Time).
Inductive nonceEvent := Issued (n : string) | Consumed (n : string) | Refused.
#[export] Instance nonceEvent_eq_dec : EqDecision nonceEvent.
Proof. solve_decision. Defined.

Section Runs.
Context {N : Type} `{!ACMENonceStore N}.

Definition nonceStep (op : nonceOp) (s : N) : nonceEvent * N :=
  match op with
  | OpIssue c n t e => match nonce_Issue c n t e s with (Ok _, s') => (Issued n, s') | (Err _, s') => (Refused, s') end
  | OpConsume c n t => match nonce_Consume c n t s with (Ok true, s') => (Consumed n, s') | (_, s') => (Refused, s') end
  end.

Fixpoint nonceRun (ops : list nonceOp) (s : N) : list nonceEvent * N :=
  match ops with
  | [] => ([], s)
  | op :: ops => let '(ev, s1) := nonceStep op s in let '(evs, s2) := nonceRun ops s1 in (ev :: evs, s2)
  end.
End Runs.

Definition count_event (ev : nonceEvent) (evs : list nonceEvent) : nat := length (filter (λ e, e = ev) evs).
Definition held (s : acmeMemoryNonceStore) (n : string) : nat :=
  match mn_nonces s !! n with Some _ => 1 | None => 0 end.

Lemma held_subseteq (m m' : gmap string acmeStoredNonce) k n :
  m' ⊆ m → held (mkMemoryNonceStore m' k) n ≤ held (mkMemoryNonceStore m k) n.
Proof.
  intros Hs. unfold held. simpl. destruct (m' !! n) as [v|] eqn:Em; [|lia].
  by rewrite (lookup_weaken _ _ _ _ Em Hs).
Qed.

Definition bounded (s : acmeMemoryNonceStore) : Prop := (Z.of_nat (size (mn_nonces s)) ≤ mn_maxSize s)%Z.

(** One step: the bound is kept, and the copies of a nonce that are held or
    consumed never exceed those that were issued. *)
Lemma nonceStep_held op s ev s' n : (0 < mn_maxSize s)%Z → bounded s → nonceStep op s = (ev, s') →
  mn_maxSize s' = mn_maxSize s ∧ bounded s' ∧
  held s' n + (if decide (ev = Consumed n) then 1 else 0) ≤ held s n + (if decide (ev = Issued n) then 1 else 0).
Proof.
  intros Hm Hb. destruct s as [nonces k]. unfold bounded in *. simpl in Hm, Hb.
  destruct op as [[err|] m t e|[err|] m t]; simpl.
  - intros [= <- <-]. by rewrite !decide_False.
  - intros [= <- <-]. pose proof (removeExpired_subseteq t (mkMemoryNonceStore nonces k)) as H1.
    simpl in H1. set (f := filter _ nonces) in *.
    pose proof (evictLoop_size (size f) (k - 1) f ltac:(lia) ltac:(done)) as H2.
    pose proof (evictLoop_subseteq (size f) (k - 1) f) as H3. set (g := evictLoop _ _ f) in *.
    split; [done|]. unfold held; cbn [mn_nonces mn_maxSize]. split; [|rewrite (decide_False (P:=Issued m = Consumed n)) by done].
    + rewrite map_size_insert. case_match; unfold id; lia.
    + destruct (decide (Issued m = Issued n)) as [[= ->]|Hne]; [rewrite lookup_insert_eq; lia|].
      rewrite lookup_insert_ne by congruence. rewrite !Nat.add_0_r.
      apply (held_subseteq nonces g k n). by etrans.
  - intros [= <- <-]. by rewrite !decide_False.
  - pose proof (removeExpired_subseteq t (mkMemoryNonceStore nonces k)) as H1. simpl in H1 |- *.
    set (f := filter _ nonces) in *. pose proof (map_subseteq_size _ _ H1) as Hsz.
    destruct (f !! m) as [v|] eqn:Ef; intros [= <- <-]; unfold removeExpiredLocked; cbn [mn_nonces mn_maxSize]; fold f.
    + pose proof (map_size_delete_Some m f (ex_intro _ v Ef)). split_and!; [done|lia|].
      rewrite (decide_False (P:=Consumed m = Issued n)) by done. unfold held; cbn [mn_nonces mn_maxSize].
      destruct (decide (Consumed m = Consumed n)) as [[= ->]|Hne].
      * by rewrite lookup_delete_eq, (lookup_weaken _ _ _ _ Ef H1).
      * rewrite lookup_delete_ne by congruence. rewrite !Nat.add_0_r. by apply (held_subseteq nonces f k n).
    + split_and!; [done|lia|]. rewrite !decide_False by done. rewrite !Nat.add_0_r.
      by apply (held_subseteq nonces f k n).
Qed.

Lemma nonceRun_held ops s evs s' n : (0 < mn_maxSize s)%Z → bounded s → nonceRun ops s = (evs, s') →
  mn_maxSize s' = mn_maxSize s ∧ bounded s' ∧
  held s' n + count_event (Consumed n) evs ≤ held s n + count_event (Issued n) evs.
Proof.
  revert s evs. induction ops as [|op ops IH]; intros s evs Hm Hb; simpl.
  { by intros [= <- <-]. }
  destruct (nonceStep op s) as [ev s1] eqn:Es. destruct (nonceRun ops s1) as [evs1 s2] eqn:Er.
  intros [= <- <-]. destruct (nonceStep_held op s ev s1 n Hm Hb Es) as (Em & Hb1 & Hh).
  destruct (IH s1 evs1) as (Em2 & Hb2 & Hh2); [by rewrite Em|done|done|].
  split_and!; [congruence|done|]. unfold count_event in *. rewrite !filter_cons.
  destruct (decide (ev = Consumed n)), (decide (ev = Issued n)); simpl; lia.
Qed.

(** C12: Nonces are used once and the store is bounded. In any sequence of
    operations on a new memory store, whatever nonces and times clients send,
    a nonce is accepted at most as often as it was issued, and the store never
    holds more entries than its configured size. *)
Theorem nonce_single_use ops maxSize evs s n :
  (0 < maxSize)%Z → nonceRun ops (newACMEMemoryNonceStore maxSize) = (evs, s) →
  count_event (Consumed n) evs ≤ count_event (Issued n) evs ∧
  (Z.of_nat (size (mn_nonces s)) ≤ maxSize)%Z.
Proof.
  intros Hm Hr. destruct (nonceRun_held ops (newACMEMemoryNonceStore maxSize) evs s n Hm ltac:(unfold bounded; simpl; rewrite map_size_empty; lia) Hr) as (Em & Hb & Hh).
  unfold bounded in Hb. rewrite Em in Hb. simpl in Hb. split; [|done].
  change (held (newACMEMemoryNonceStore maxSize) n) with 0 in Hh. lia.
Qed.

(** The memory store keeps the promises of the interface. *)
#[export] Instance memory_nonce_laws : NonceStoreLaws acmeMemoryNonceStore.
Proof.
  refine {| store_ok := λ _, True; live := λ s n, is_Some (mn_nonces s !! n) |}; [done|done|..].
  - intros [err|] n t s s' _; simpl; [done|]. destruct (mn_nonces (removeExpiredLocked t s) !! n) eqn:E.
    + simpl in E. rewrite E. intros [= <-]. simpl. rewrite lookup_delete_eq. split; [|by intros []].
      exists a. by apply (lookup_weaken _ _ _ _ E), (removeExpired_subseteq t s).
    + simpl in E. by rewrite E.
  - intros [err|] n t s r s' m _; simpl; [by intros [= _ <-]|]. case_match; intros [= _ <-] [v Hv]; simpl in Hv.
    + apply lookup_delete_Some in Hv as [_ Hv]. exists v.
      by apply (lookup_weaken _ _ _ _ Hv), (removeExpired_subseteq t s).
    + exists v. by apply (lookup_weaken _ _ _ _ Hv), (removeExpired_subseteq t s).
  - intros [err|] n t e s r s' m _; simpl; [by intros [= _ <-]|]. intros [= _ <-] Hne [v Hv].
    simpl in Hv. rewrite lookup_insert_ne in Hv by done. exists v.
    apply (lookup_weaken _ _ _ _ Hv), issue_subseteq.
Defined.

(** ** Witnesses *)

Section Witnesses.
#[local] Existing Instance sample_env.
#[local] Existing Instance sample_http.

(** Three requests of one client within a window that admits two. *)
Definition limited_request : Request := sample_post "/acme/new-order".
Definition state_after (n : nat) : HState acmeMemoryNonceStore :=
  Nat.iter n (λ st, (checkACMERateLimit limited_request st).2) (sample_state new_world).
Definition sample_trace : list (string * Time * bool) :=
  (λ n, (rateKey limited_request, time_Now (w_tick (hs_world (state_after n))),
         is_ok (checkACMERateLimit limited_request (state_after n)).1)) <$> [0; 1; 2].

Lemma sample_trace_checked : checked (state_after 0) sample_trace.
Proof.
  unfold sample_trace. cbn [fmap list_fmap].
  do 3 (eapply checked_request; [vm_compute; reflexivity|apply surjective_pairing|]). apply checked_end.
Qed.

Lemma rate_limit_bound_witness :
  snd <$> sample_trace = [true; true; false] ∧
  (admittedIn (60 * Second) sample_epoch (ofBucket (rateKey limited_request) sample_trace) ≤ 4)%Z.
Proof.
  split; [vm_compute; reflexivity|].
  change 4%Z with (2 * ACMEConfig_RateLimit (srv_acme http_server))%Z.
  change (60 * Second)%Z with (ACMEConfig_RateLimitWindow (srv_acme http_server)).
  apply (rate_limit_bound (state_after 0) sample_trace (rateKey limited_request) sample_epoch);
    [reflexivity|reflexivity|reflexivity|exact sample_trace_checked|].
  vm_compute. split; repeat constructor; intros H; discriminate H.
Defined.

(** A nonce is issued, consumed, and offered again. *)
Definition sample_nonce_ops : list nonceOp :=
  [OpIssue None "n" 1 100; OpConsume None "n" 2; OpConsume None "n" 3].
Lemma nonce_single_use_witness :
  (nonceRun sample_nonce_ops (newACMEMemoryNonceStore 4)).1 = [Issued "n"; Consumed "n"; Refused] ∧
  count_event (Consumed "n") (nonceRun sample_nonce_ops (newACMEMemoryNonceStore 4)).1 ≤ 1.
Proof.
  split; [vm_compute; reflexivity|].
  exact (proj1 (nonce_single_use sample_nonce_ops 4 _ _ "n" eq_refl (surjective_pairing _))).
Defined.
End Witnesses.
