(* ===== verification/SQLNonces.v ===== *)
(** * Nonces in the database ([httpapi/nonce_sql.go])

    The nonce store of a server that runs on a database. It keeps the promises
    of [NonceStoreLaws] while its table has the schema of the migrations, so
    what is proved of the ACME protocol against the interface holds for it. How
    the driver binds a [time.Time] is a parameter. *)

From S2P Require Import Prelude GoLib Crypto Domain AuditChain Store StoreInv Service SQLText SQLEngine SQLTime SQLScan SQLStore SQLSchema SQLEngineFacts SQLTables SQLAuditOps HTTPCore LimitFacts.

Definition sqliteExpiredNonceCleanupQuery : string := "DELETE FROM acme_nonces WHERE expires_at <= ?".
Definition sqliteInsertNonceQuery : string := "INSERT INTO acme_nonces (nonce, issued_at, expires_at) VALUES (?, ?, ?)".
Definition sqliteConsumeNonceQuery : string := "DELETE FROM acme_nonces WHERE nonce = ? AND expires_at > ?".
Definition postgresExpiredNonceCleanupQuery : string := "DELETE FROM acme_nonces WHERE expires_at <= $1".
Definition postgresInsertNonceQuery : string := "INSERT INTO acme_nonces (nonce, issued_at, expires_at) VALUES ($1, $2, $3)".
Definition postgresConsumeNonceQuery : string := "DELETE FROM acme_nonces WHERE nonce = $1 AND expires_at > $2".

(** How the driver binds times: as values in the order of the times. *)
Class SQLTimeBinding := { sql_time : Time → SQLValue }.
Class SQLTimeBindingLaws `{SQLTimeBinding} : Prop := {
  sql_time_value : ∀ t, sql_time t ≠ VNull;
  sql_time_order : ∀ t u, compare_values (sql_time t) (sql_time u) = Z.compare t u;
}.

Section Nonces.
Context `{HD : SQLDriver} `{HB : SQLTimeBinding}.
Variable driver : string.

(** A call on a context that is done returns its error. *)
Definition withContext {A} (ctxErr : option goerr) (m : SQLM A) : SQLM A :=
  match ctxErr with Some err => failM err | None => m end.

Definition SQLACMENonceStore_Issue (ctxErr : option goerr) (nonce : string) (issuedAt expiresAt : Time) : SQLM unit :=
  withContext ctxErr (
    if driver =s "sqlite" then
      do* ExecContext sqliteExpiredNonceCleanupQuery [sql_time issuedAt] in
      do* ExecContext sqliteInsertNonceQuery [VText nonce; sql_time issuedAt; sql_time expiresAt] in
      retM tt
    else
      do* ExecContext postgresExpiredNonceCleanupQuery [sql_time issuedAt] in
      do* ExecContext postgresInsertNonceQuery [VText nonce; sql_time issuedAt; sql_time expiresAt] in
      retM tt).

Definition SQLACMENonceStore_Consume (ctxErr : option goerr) (nonce : string) (now : Time) : SQLM bool :=
  withContext ctxErr (
    let query := if driver =s "sqlite" then sqliteConsumeNonceQuery else postgresConsumeNonceQuery in
    let* result := ExecContext query [VText nonce; sql_time now] in
    let* rows := affectedRows result in
    retM (Z.eqb rows 1)).

#[local] Instance NewSQLACMENonceStore : ACMENonceStore SQLConn := {|
  nonce_Issue := SQLACMENonceStore_Issue;
  nonce_Consume := SQLACMENonceStore_Consume;
|}.

(** ** The table *)

Record NonceRow := mkNonceRow { nr_Nonce : string; nr_IssuedAt : Time; nr_ExpiresAt : Time }.
Definition nonce_row (r : NonceRow) : Row := [VText (nr_Nonce r); sql_time (nr_IssuedAt r); sql_time (nr_ExpiresAt r)].

(** The rows of the table, no two for one nonce. *)
Definition nonce_rows (c : SQLConn) (l : list NonceRow) : Prop :=
  sc_db c !! "acme_nonces" = Some (with_rows acme_nonces_table (nonce_row <$> l)) ∧ NoDup (nr_Nonce <$> l).
Definition live_nonce (c : SQLConn) (n : string) : Prop := ∃ l, nonce_rows c l ∧ n ∈ nr_Nonce <$> l.

Context `{HL : !SQLDriverLaws} `{HT : !SQLTimeBindingLaws}.

Lemma time_cmp op t u :
  match sql_time t, sql_time u with VNull, _ | _, VNull => VNull | x, y => VBool (cmp_holds op (compare_values x y)) end
  = VBool (cmp_holds op (Z.compare t u)).
Proof.
  rewrite <- sql_time_order. pose proof (sql_time_value t). pose proof (sql_time_value u). by destruct (sql_time t), (sql_time u).
Qed.

Lemma NoDup_fmap_filter {A B} (f : A → B) (p : A → bool) l : NoDup (f <$> l) → NoDup (f <$> filter (λ a, p a = true) l).
Proof.
  induction l as [|a l IH]; [done|]. csimpl. rewrite NoDup_cons. intros [Ha Hl]. rewrite filter_cons. case_decide; [|by apply IH].
  csimpl. apply NoDup_cons. split; [|by apply IH]. intros (b & Hb & [_ Hin]%list_elem_of_filter)%list_elem_of_fmap.
  apply Ha. rewrite Hb. by apply list_elem_of_fmap_2.
Qed.

Lemma length_filter_negb {A} (p : A → bool) l :
  length l = length (filter (λ a, p a = true) l) + length (filter (λ a, negb (p a) = true) l).
Proof. induction l as [|a l IH]; [done|]. rewrite !filter_cons. destruct (p a); repeat case_decide; try done; cbn [length]; lia. Qed.

(** Deleting the rows of a condition. *)
Lemma delete_nonces text args cond (drop : NonceRow → bool) c l : nonce_rows c l →
  parse_sql text = Some [SDelete "acme_nonces" (Some cond)] →
  (∀ r, selects (row_scope "acme_nonces" acme_nonces_table (nonce_row r)) args (Some cond) = drop r) →
  cond_ok [("acme_nonces", column_names acme_nonces_table)] (length args) (Some cond) = true →
  ∃ c', ExecContext text args c = (Ok (Z.of_nat (length (filter (λ r, drop r = true) l))), c') ∧
    nonce_rows c' (filter (λ r, negb (drop r) = true) l).
Proof.
  intros [Hdb Hnd] Hp Hk Hok. destruct (run_sql_statement text args _ c Hp) as (scan & Hscan & Hr).
  unfold ExecContext, bindM. rewrite Hr.
  rewrite (delete_statement acme_nonces_table nonce_row (λ _, True) "acme_nonces" args (Some cond) drop (λ r _, Hk r) scan _ l Hdb);
    [|by apply Forall_true|done].
  eexists. split; [|split].
  - unfold retM. cbn [snd]. pose proof (length_filter_negb drop l). by rewrite <- Nat2Z.inj_sub, H, Nat.add_sub by lia.
  - cbn. by rewrite lookup_insert_eq.
  - by apply NoDup_fmap_filter.
Qed.

Lemma cleanup_nonces text issuedAt c l : nonce_rows c l →
  parse_sql text = Some [SDelete "acme_nonces" (Some (XCmp OpLe (XCol "" "expires_at") (XArg 1)))] →
  ∃ n c', ExecContext text [sql_time issuedAt] c = (Ok n, c') ∧ nonce_rows c' (filter (λ r, negb (Z.leb (nr_ExpiresAt r) issuedAt) = true) l).
Proof.
  intros Hl Hp. destruct (delete_nonces text [sql_time issuedAt] _ (λ r, Z.leb (nr_ExpiresAt r) issuedAt) c l Hl Hp) as (c' & E & Hc').
  - intros r. cbn. rewrite time_cmp. by autorewrite with sql.
  - done.
  - eauto.
Qed.

Lemma collides_nonce r a : collides acme_nonces_table nonce_row r a = (nr_Nonce r =s nr_Nonce a).
Proof. cbn. by rewrite andb_true_r, orb_false_r. Qed.

(** Inserting a row: the key must be new. *)
Lemma insert_nonce text r c l : nonce_rows c l →
  parse_sql text = Some [SInsert "acme_nonces" ["nonce"; "issued_at"; "expires_at"] [XArg 1; XArg 2; XArg 3] None] →
  ∃ o c', ExecContext text (nonce_row r) c = (o, c') ∧
    ((nr_Nonce r ∉ nr_Nonce <$> l ∧ o = Ok 1%Z ∧ nonce_rows c' (l ++ [r])) ∨ (is_ok o = false ∧ nonce_rows c' l)).
Proof.
  intros [Hdb Hnd] Hp. destruct (run_sql_statement text (nonce_row r) _ c Hp) as (scan & Hscan & Hr).
  unfold ExecContext, bindM. rewrite Hr.
  rewrite (insert_statement acme_nonces_table nonce_row scan _ (nonce_row r) "acme_nonces" _ _ l r Hdb); [|done|done|].
  - destruct (decide (nr_Nonce r ∈ nr_Nonce <$> l)) as [Hin|Hout].
    + destruct (violated_some acme_nonces_table nonce_row r l) as [ix ->].
      { apply list_elem_of_fmap in Hin as (a & Ea & Ha). apply Exists_exists. exists a. split; [done|].
        rewrite collides_nonce. by apply String.eqb_eq. }
      eexists _, _. split; [done|]. by right.
    + rewrite violated_none.
      2: { apply Forall_forall. intros a Ha. rewrite collides_nonce. apply String.eqb_neq. intros Ea. apply Hout. rewrite Ea.
           by apply list_elem_of_fmap_2. }
      eexists _, _. split; [done|]. left. split_and!; [done|done|]. split; [cbn; by rewrite lookup_insert_eq|].
      rewrite fmap_app. apply NoDup_app. split; [done|]. split; [|apply NoDup_singleton].
      intros x Hx Hx'. apply list_elem_of_singleton in Hx'. by subst.
  - pose proof (sql_time_value (nr_IssuedAt r)). pose proof (sql_time_value (nr_ExpiresAt r)). unfold row_ok. cbn.
    by destruct (sql_time (nr_IssuedAt r)), (sql_time (nr_ExpiresAt r)).
Qed.

(** ** The operations *)

Lemma deleted_once n (p : NonceRow → bool) l : NoDup (nr_Nonce <$> l) →
  Z.eqb (Z.of_nat (length (filter (λ r, (nr_Nonce r =s n) && p r = true) l))) 1 = existsb (λ r, (nr_Nonce r =s n) && p r) l.
Proof.
  induction l as [|a l IH]; [done|]. csimpl. rewrite NoDup_cons. intros [Ha Hl].
  destruct (String.eqb_spec (nr_Nonce a) n) as [E|E]; cbn [andb orb].
  - assert (Forall (λ r, (nr_Nonce r =s n) = false) l) as Hno.
    { apply Forall_forall. intros r Hr. apply String.eqb_neq. intros Er. apply Ha. rewrite E, <- Er. by apply list_elem_of_fmap_2. }
    assert (filter (λ r, (nr_Nonce r =s n) && p r = true) l = []) as Hf.
    { clear -Hno. induction Hno as [|r l Hr _ IH]; [done|]. rewrite filter_cons_False; [done|]. by rewrite Hr. }
    assert (existsb (λ r, (nr_Nonce r =s n) && p r) l = false) as ->.
    { clear -Hno. induction Hno as [|r l Hr _ IH]; [done|]. cbn. by rewrite Hr, IH. }
    rewrite filter_cons, Hf, E, String.eqb_refl. cbn [andb]. by destruct (p a).
  - rewrite filter_cons_False; [by apply IH|]. apply String.eqb_neq in E. by rewrite E.
Qed.

(** A nonce is accepted when it is in the table and has not expired, and is then
    gone. *)
Lemma consume_rows n now c l : nonce_rows c l → ∃ c',
  SQLACMENonceStore_Consume None n now c = (Ok (existsb (λ r, (nr_Nonce r =s n) && Z.ltb now (nr_ExpiresAt r)) l), c') ∧
  nonce_rows c' (filter (λ r, negb ((nr_Nonce r =s n) && Z.ltb now (nr_ExpiresAt r)) = true) l).
Proof.
  intros Hl. unfold SQLACMENonceStore_Consume, withContext. cbv zeta.
  set (text := if driver =s "sqlite" then _ else _).
  destruct (delete_nonces text [VText n; sql_time now] (XAnd (XCmp OpEq (XCol "" "nonce") (XArg 1)) (XCmp OpGt (XCol "" "expires_at") (XArg 2)))
    (λ r, (nr_Nonce r =s n) && Z.ltb now (nr_ExpiresAt r)) c l Hl) as (c' & E & Hc').
  - unfold text. destruct (driver =s "sqlite"); vm_compute; reflexivity.
  - intros r. cbn. rewrite time_cmp. by autorewrite with sql.
  - done.
  - exists (next c'). split; [|exact Hc']. unfold bindM. rewrite E, affectedRows_ok. unfold retM. do 2 f_equal.
    apply deleted_once, Hl.
Qed.

(** Issuing drops what has expired and adds the nonce, unless it is there. *)
Lemma issue_rows n issuedAt expiresAt c l : nonce_rows c l → ∃ o c' l',
  SQLACMENonceStore_Issue None n issuedAt expiresAt c = (o, c') ∧ nonce_rows c' l' ∧
  (l' = filter (λ r, negb (Z.leb (nr_ExpiresAt r) issuedAt) = true) l ∧ is_ok o = false ∨
   l' = filter (λ r, negb (Z.leb (nr_ExpiresAt r) issuedAt) = true) l ++ [mkNonceRow n issuedAt expiresAt] ∧ o = Ok tt).
Proof.
  intros Hl. assert (∀ cleanup insert,
    parse_sql cleanup = Some [SDelete "acme_nonces" (Some (XCmp OpLe (XCol "" "expires_at") (XArg 1)))] →
    parse_sql insert = Some [SInsert "acme_nonces" ["nonce"; "issued_at"; "expires_at"] [XArg 1; XArg 2; XArg 3] None] →
    ∃ o c' l', (do* ExecContext cleanup [sql_time issuedAt] in
      do* ExecContext insert [VText n; sql_time issuedAt; sql_time expiresAt] in retM tt) c = (o, c') ∧ nonce_rows c' l' ∧
      (l' = filter (λ r, negb (Z.leb (nr_ExpiresAt r) issuedAt) = true) l ∧ is_ok o = false ∨
       l' = filter (λ r, negb (Z.leb (nr_ExpiresAt r) issuedAt) = true) l ++ [mkNonceRow n issuedAt expiresAt] ∧ o = Ok tt)) as Hq.
  { intros cleanup insert H1 H2. destruct (cleanup_nonces cleanup issuedAt c l Hl H1) as (k & c1 & E1 & Hc1).
    destruct (insert_nonce insert (mkNonceRow n issuedAt expiresAt) c1 _ Hc1 H2) as (o & c2 & E2 & [(_ & -> & Hc2)|[Ho Hc2]]);
      unfold bindM; rewrite E1; change [VText n; sql_time issuedAt; sql_time expiresAt] with (nonce_row (mkNonceRow n issuedAt expiresAt));
      rewrite E2.
    - eexists _, _, _. split; [done|]. split; [exact Hc2|]. by right.
    - destruct o as [z|e]; [done|]. eexists _, _, _. split; [done|]. split; [exact Hc2|]. by left. }
  unfold SQLACMENonceStore_Issue, withContext. destruct (driver =s "sqlite"); apply Hq; vm_compute; reflexivity.
Qed.

Lemma nonce_rows_unique c l l' n : nonce_rows c l → nonce_rows c l' → n ∈ nr_Nonce <$> l → n ∈ nr_Nonce <$> l'.
Proof.
  intros [H1 _] [H2 _]. rewrite H1 in H2. injection H2 as H2. intros (r & -> & Hr)%list_elem_of_fmap.
  apply (list_elem_of_fmap_2 nonce_row) in Hr. rewrite H2 in Hr. apply list_elem_of_fmap in Hr as (r' & E & Hr').
  injection E as E _ _. rewrite E. by apply list_elem_of_fmap_2.
Qed.

Lemma same_nonce (l : list NonceRow) r r' : NoDup (nr_Nonce <$> l) → r ∈ l → r' ∈ l → nr_Nonce r = nr_Nonce r' → r = r'.
Proof.
  intros Hnd (i & Hi)%list_elem_of_lookup (j & Hj)%list_elem_of_lookup E.
  assert (i = j) as ->; [|congruence]. eapply NoDup_lookup; [exact Hnd| |]; rewrite list_lookup_fmap; [by rewrite Hi|by rewrite Hj, E].
Qed.
Lemma filtered_nonce (p : NonceRow → bool) (l : list NonceRow) n : n ∈ nr_Nonce <$> filter (λ r, p r = true) l → n ∈ nr_Nonce <$> l.
Proof. intros (r & -> & [_ Hr]%list_elem_of_filter)%list_elem_of_fmap. by apply list_elem_of_fmap_2. Qed.

Lemma consumed_gone (l : list NonceRow) n t : NoDup (nr_Nonce <$> l) →
  existsb (λ r, (nr_Nonce r =s n) && Z.ltb t (nr_ExpiresAt r)) l = true →
  n ∈ nr_Nonce <$> l ∧ n ∉ nr_Nonce <$> filter (λ r, negb ((nr_Nonce r =s n) && Z.ltb t (nr_ExpiresAt r)) = true) l.
Proof.
  intros Hnd (r & Hr & [En Ht]%andb_true_iff)%list_find_existsb. apply String.eqb_eq in En. split.
  - rewrite <- En. by apply list_elem_of_fmap_2.
  - intros (r' & Er' & [Hk Hr']%list_elem_of_filter)%list_elem_of_fmap.
    assert (r' = r) as -> by (eapply same_nonce; [done|done|done|congruence]). by rewrite En, String.eqb_refl, Ht in Hk.
Qed.

(** The database keeps the promises of a nonce store. *)
#[export] Instance sql_nonce_laws : NonceStoreLaws SQLConn.
Proof.
  refine {| store_ok := λ c, ∃ l, nonce_rows c l; live := live_nonce |};
    cbn [nonce_Consume nonce_Issue NewSQLACMENonceStore].
  - intros [e|] n t c r c' [l Hl]; [intros [= _ <-]; by exists l|].
    destruct (consume_rows n t c l Hl) as (c1 & -> & Hc1). intros [= _ <-]. eauto.
  - intros [e|] n t x c r c' [l Hl]; [intros [= _ <-]; by exists l|].
    destruct (issue_rows n t x c l Hl) as (o & c1 & l1 & -> & Hc1 & _). intros [= _ <-]. eauto.
  - intros [e|] n t c c' [l Hl]; [done|]. destruct (consume_rows n t c l Hl) as (c1 & -> & Hc1). intros [= Hex <-].
    destruct (consumed_gone l n t (proj2 Hl) Hex) as [Hin Hout]. split; [by exists l|].
    intros (l1 & Hl1 & Hin1). by eapply nonce_rows_unique in Hin1; [|exact Hl1|exact Hc1].
  - intros [e|] n t c r c' m [l Hl]; [by intros [= _ <-]|].
    destruct (consume_rows n t c l Hl) as (c1 & -> & Hc1). intros [= _ <-] (l1 & Hl1 & Hin). exists l. split; [done|].
    eapply nonce_rows_unique in Hin; [|exact Hl1|exact Hc1]. by apply filtered_nonce in Hin.
  - intros [e|] n t x c r c' m [l Hl]; [by intros [= _ <-]|].
    destruct (issue_rows n t x c l Hl) as (o & c1 & l1 & -> & Hc1 & Hl1). intros [= _ <-] Hne (l2 & Hl2 & Hin). exists l. split; [done|].
    eapply nonce_rows_unique in Hin; [|exact Hl2|exact Hc1]. destruct Hl1 as [[-> _]|[-> _]]; [by apply filtered_nonce in Hin|].
    rewrite fmap_app, elem_of_app in Hin. destruct Hin as [Hin|Hin]; [by apply filtered_nonce in Hin|].
    by apply list_elem_of_singleton in Hin.
Defined.

(** ** Single use *)





End Nonces.

(** ** Samples *)

#[local] Instance sample_driver : SQLDriver := reference_driver 1700000000000000000.
#[local] Instance sample_laws : SQLDriverLaws := reference_driver_laws _.
#[local] Instance sample_binding : SQLTimeBinding := {| sql_time := VInt |}.
#[local] Instance sample_binding_laws : SQLTimeBindingLaws.
Proof. by split. Qed.

