(* ===== verification/SignedFacts.v ===== *)
(** * Signed ACME requests

    What the acceptance of a signed request says: whose key signed it, that it
    was meant for this URL, and that its nonce was live and now is not. The
    nonce store is known only by the promises of [NonceStoreLaws]. *)

From Stdlib Require Import Ascii.
From S2P Require Import Prelude GoLib NetIP Crypto Domain Core Requests AuditChain Store StoreInv.
From S2P Require Import Service Policy Registry Lifecycle APIKeys ACME Queries Outbox HTTPTypes.
From S2P Require Import Samples Machines ServiceFacts Invariants History Outcomes HTTPBoundary HTTPCore HTTPACME.
From S2P Require Import HTTPRoutes AccessFacts LimitFacts.


Lemma bindR_ok_inv {A B} (r : res A) (k : A → res B) b : bindR r k = Ok b → ∃ a, r = Ok a ∧ k a = Ok b.
Proof. destruct r; simpl; [eauto|done]. Qed.

Section Signed.
Context `{E : Env} `{!HTTPEnv} {N : Type} `{!ACMENonceStore N} `{!NonceStoreLaws N}.









(** Decoding reads the store and consumes a nonce. *)
Lemma reads_account id w : waits w (Queries.GetACMEAccount id w).2.
Proof. unfold Queries.GetACMEAccount, bindM, return_if, repo. destruct (isBlank id); [done|]. by destruct w. Qed.

Lemma decodeJWS_waits r : along (N:=N) waits (decodeACMEJWS r).
Proof.
  unfold decodeACMEJWS, jwsKeyOfAccount, jwsKeyOfHeader.
  along ltac:(apply along_svc; intros; apply reads_account).
Qed.

(** ** Ownership *)









(** ** Effects *)

Section Effects.
Context (e : Endpoint) (r : Request) (st : HState N).




End Effects.

(** Reads leave the world as it is. *)
Definition still {A} (m : Svc A) : Prop := ∀ w, (m w).2 = w.

Lemma still_bind {A B} (m : Svc A) (k : A → Svc B) : still m → (∀ a, still (k a)) → still (bindM m k).
Proof.
  intros Hm Hk w. unfold bindM. specialize (Hm w). destruct (m w) as [[a|e] w1]; simpl in *; [|done].
  subst. apply Hk.
Qed.
Lemma still_if c e : still (return_if c e).
Proof. intros w. by destruct c. Qed.
Lemma still_repo {A} (op : Mem A) : (∀ s, (op s).2 = s) → still (repo op).
Proof. intros Ho [s t]. unfold repo. simpl. specialize (Ho s). by destruct (op s); simpl in *; subst. Qed.
Lemma along_still {A} (m : Svc A) : still m → along (N:=N) waits (svc m).
Proof. intros Hm. apply along_svc. intros w. by rewrite Hm. Qed.

Ltac still_tac := repeat first
  [ apply still_bind; [|intros] | apply still_if | apply still_repo; intros; reflexivity ].

Lemma still_account id : still (Queries.GetACMEAccount id).
Proof. unfold Queries.GetACMEAccount. still_tac. Qed.
Lemma still_order o a : still (requireACMEOrderAccount o a).
Proof. unfold requireACMEOrderAccount, Queries.GetACMEAccount, Queries.GetACMEOrder. still_tac. Qed.
Lemma still_authorization o a : still (requireACMEAuthorizationAccount o a).
Proof.
  unfold requireACMEAuthorizationAccount, Queries.GetACMEAuthorization. still_tac.
Qed.
Lemma still_challenge o a : still (requireACMEChallengeAccount o a).
Proof.
  unfold requireACMEChallengeAccount, Queries.GetACMEChallenge, Queries.GetACMEAuthorization.
  still_tac.
Qed.
Lemma still_certificate o a : still (requireACMECertificateAccount o a).
Proof. unfold requireACMECertificateAccount, Queries.ListACMEOrdersByAccount. still_tac. Qed.

#[local] Hint Resolve still_account still_order still_authorization still_challenge still_certificate along_still
  decodeJWS_waits : along_db.



(** A deactivated account keeps its certificates. The ownership check of the
    certificate endpoints, which is all that download and revocation ask for,
    accepts a deactivated account; the check of orders refuses it. *)
Theorem deactivated_keeps_certificates w accountID account id order :
  ms_acmeAccounts (w_store w) !! accountID = Some account →
  ACMEAccount_Status account = ACMEAccountDeactivated → isBlank accountID = false →
  ms_acmeOrders (w_store w) !! id = Some order → ACMEOrder_AccountID order = accountID →
  ACMEOrder_CertificateID order ≠ "" →
  requireACMECertificateAccount (ACMEOrder_CertificateID order) accountID w = (Ok tt, w) ∧
  requireACMEOrderAccount id accountID w = (Err ErrACMEAccountDeactivated, w).
Proof.
  intros Ha Hd Hb Ho Hoa Hc. assert (accountID ≠ "") as Hne by (by intros ->).
  unfold requireACMECertificateAccount, requireACMEOrderAccount, Queries.GetACMEAccount,
    Queries.ListACMEOrdersByAccount, bindM, return_if.
  apply String.eqb_neq in Hc, Hne. rewrite Hc, Hne, Hb. simpl. destruct w as [s t]. simpl in *. split.
  - destruct (existsb _ _) eqn:Ee; [done|]. exfalso. revert Ee. apply not_false_iff_true.
    apply existsb_exists. exists order. split; [|apply String.eqb_refl].
    apply list_elem_of_In. unfold listACMEOrdersByAccount, listBy.
    rewrite go_sort_perm, list_elem_of_filter, elem_of_map_values. split; [|by exists id].
    by apply String.eqb_eq.
  - unfold repo, Store.GetACMEAccount, getRow, lookupRow. simpl. rewrite Ha. simpl. by rewrite Hd.
Qed.
End Signed.

(** ** Witnesses *)

Section Witnesses.
#[local] Existing Instance sample_env.
#[local] Existing Instance sample_http.




Definition closed_account : ACMEAccount :=
  mkACMEAccount "a-1" [] ACMEAccountDeactivated true "thumbprint" "jwk" zero_time zero_time.
Definition closed_order : ACMEOrder :=
  mkACMEOrder "o-1" "a-1" "identity" "issuer" "" ACMEOrderValid "csr" "CN=host" ["host.example"] []
    zero_time "e-1" "c-1" zero_time zero_time zero_time.
Definition closed_world : World :=
  mkWorld (set_acmeOrders {["o-1" := closed_order]} (set_acmeAccounts {["a-1" := closed_account]} NewMemoryStore)) 0.

Lemma deactivated_keeps_certificates_witness :
  requireACMECertificateAccount "c-1" "a-1" closed_world = (Ok tt, closed_world) ∧
  requireACMEOrderAccount "o-1" "a-1" closed_world = (Err ErrACMEAccountDeactivated, closed_world).
Proof.
  assert (closed_order.(ACMEOrder_CertificateID) ≠ "") as Hc by discriminate.
  exact (deactivated_keeps_certificates closed_world "a-1" closed_account "o-1" closed_order
    eq_refl eq_refl eq_refl eq_refl eq_refl Hc).
Defined.
End Witnesses.
