(* ===== verification/GuardFacts.v ===== *)
(** * The guard of outgoing requests, and paging

    Which addresses the guarded client of the HTTP-01 verifier and of the
    webhooks can connect to, and what the list queries return. *)

From Stdlib Require Import Ascii.
From S2P Require Import Prelude GoLib NetIP HTTP01 Domain Core Store Service Queries.

(** ** Address blocks *)

(** [2 ^ k] addresses from [q * 2 ^ k] on. *)
Definition inBlock (v q k : Z) : Prop := (q * 2 ^ k ≤ v < (q + 1) * 2 ^ k)%Z.

#[global] Instance inBlock_dec v q k : Decision (inBlock v q k).
Proof. unfold inBlock. apply _. Defined.







Definition addrRange (a : Addr) : Prop := (0 ≤ addr_bits a < 2 ^ addr_width a)%Z ∧ addr_zone a = "".








(** ** Dialled addresses *)





Section Guard.
Context `{GoUnicode} {C : Type}.


End Guard.

(** ** Paging *)

Lemma wrap64_over z : (2 ^ 63 ≤ z < 2 ^ 64)%Z → wrap64 z = (z - 2 ^ 64)%Z.
Proof.
  intros Hz. unfold wrap64. rewrite <- (Z.mod_unique (z + 2 ^ 63) (2 ^ 64) 1 (z + 2 ^ 63 - 2 ^ 64)); lia.
Qed.

(** The page of a list: all of it from [offset] on when [limit] is zero. *)
Definition page {V} (limit offset : Z) (l : list V) : list V :=
  (if Z.eqb limit 0 then id else take (Z.to_nat limit)) (drop (Z.to_nat offset) l).

(** C23: The list queries page correctly up to an overflow. For any limit and
    offset that validation admits, the result is exactly that page of the
    items in the requested order, with one exception: when an item lies at the
    offset and limit and offset sum to more than an [int64], the slice bounds
    are reversed and the handler panics. *)
Theorem sortAndPage_exact {V} (items : list V) sortOrder limit offset less :
  (0 ≤ limit < 2 ^ 63)%Z → (0 ≤ offset < 2 ^ 63)%Z →
  sortAndPage items sortOrder limit offset less =
  if Z.ltb offset (Z.of_nat (length items)) && Z.leb (2 ^ 63) (limit + offset)
  then Err (EPanic "slice bounds out of range")
  else Ok (page limit offset (go_sort (page_less less (if sortOrder =s "" then "asc" else sortOrder)) items)).
Proof.
  intros Hl Ho. unfold sortAndPage, page. cbv zeta. set (sorted := go_sort _ items).
  assert (length items = length sorted) as -> by (symmetry; apply Permutation_length, go_sort_perm).
  destruct (Z.leb_spec (Z.of_nat (length sorted)) offset) as [Hlen|Hlen].
  - rewrite (proj2 (Z.ltb_ge offset (Z.of_nat (length sorted)))) by done. simpl. rewrite drop_ge by lia. destruct (Z.eqb limit 0); [done|].
    by rewrite take_nil.
  - rewrite (proj2 (Z.ltb_lt offset (Z.of_nat (length sorted)))) by lia. simpl. rewrite (proj2 (Z.ltb_ge offset 0)) by lia. simpl.
    destruct (Z.leb_spec (2 ^ 63) (limit + offset)) as [Hov|Hok].
    + rewrite wrap64_over by lia. rewrite (proj2 (Z.ltb_lt 0 limit)) by lia.
      rewrite (proj2 (Z.ltb_lt (offset + limit - 2 ^ 64) _)) by lia. simpl. by rewrite (proj2 (Z.ltb_lt _ _)) by lia.
    + rewrite wrap64_id by (unfold int64; lia).
      destruct (Z.ltb_spec 0 limit) as [Hp|Hz]; simpl.
      * rewrite (proj2 (Z.eqb_neq limit 0)) by lia. destruct (Z.ltb_spec (offset + limit) (Z.of_nat (length sorted))).
        -- rewrite (proj2 (Z.ltb_ge _ _)) by lia. do 3 f_equal. lia.
        -- rewrite (proj2 (Z.ltb_ge _ _)) by lia. by rewrite !take_ge by (rewrite length_drop; lia).
      * rewrite (proj2 (Z.eqb_eq limit 0)) by lia. rewrite (proj2 (Z.ltb_ge _ _)) by lia.
        by rewrite take_ge by (rewrite length_drop; lia).
Qed.

(** ** Witnesses *)

Section Witnesses.
#[local] Existing Instance ascii_unicode.





Lemma sortAndPage_exact_witness :
  sortAndPage [3; 1; 2]%Z "asc" 2 1 Z.ltb = Ok [2; 3]%Z ∧
  sortAndPage [3; 1; 2]%Z "asc" (2 ^ 63 - 1) 1 Z.ltb = Err (EPanic "slice bounds out of range").
Proof.
  split; [exact (sortAndPage_exact [3; 1; 2]%Z "asc" 2 1 Z.ltb ltac:(lia) ltac:(lia))|].
  exact (sortAndPage_exact [3; 1; 2]%Z "asc" (2 ^ 63 - 1) 1 Z.ltb ltac:(lia) ltac:(lia)).
Defined.
End Witnesses.
