(* ===== verification/CoreRunnerFacts.v ===== *)
(** * What running the core process leaves behind

    [confined]: an action changes only the files of a set and the number of
    open descriptors by a constant. The rules for it follow the shape of the
    operations (create, defer the removal, write, close, run, read), and give
    that every operation leaves the file system and the descriptors as they
    were. The [_ok] lemmas say what a successful step did, and give what a
    successful signing operation returned. *)

From Stdlib Require Import Ascii.
From S2P Require Import Prelude GoLib Crypto GoJSON Core NetIP SQLTime CoreRunner.

Local Open Scope Z_scope.

(** ** The core's promises *)

(** The value of a flag, in a list of flags and values. *)
Fixpoint flag_value (flag : string) (args : list string) : list string :=
  match args with
  | a :: b :: rest => if a =s flag then [b] else flag_value flag rest
  | _ => []
  end.
(** The evidence file named by an environment. *)
Definition evidence_entries (env : list string) : list string :=
  omap (λ entry, p ← cut_byte "="%char entry; if p.1 =s signingEvidenceEnvironment then Some p.2 else None) env.
(** The files a command may write: the argument of [--out] (a format, not a
    file, for the two commands that answer on standard output) and the
    evidence file. *)
Definition output_paths (cmd : Cmd) : list string :=
  match cmd_Args cmd with
  | command :: _ :: flags => if (command =s "csr") || (command =s "backend") then [] else flag_value "--out" flags
  | _ => []
  end ++ from_option evidence_entries [] (cmd_Env cmd).

(** What the runner relies on: removing a file of its own works, and the core
    writes nothing but its outputs. *)
Class OSLaws `{OSEnv} : Prop := {
  remove_works t : remove_fault t = None;
  process_confined t cmd files name : name ∉ output_paths cmd →
    ran_files (process t cmd files) !! name = files !! name;
}.

(** ** The environment of a signing command *)

Lemma index_append c p r : index_byte c p = None → index_byte c (p +:+ String.String c r) = Some (String.length p).
Proof.
  induction p as [|a p IH]; simpl; intros Hp; [by rewrite Ascii.eqb_refl|].
  destruct (Ascii.eqb a c); [done|]. destruct (index_byte c p); [done|]. by rewrite IH.
Qed.
Lemma cut_append c p r : index_byte c p = None → cut_byte c (p +:+ String.String c r) = Some (p, r).
Proof.
  intros Hp. unfold cut_byte. rewrite index_append by done. simpl. do 2 f_equal.
  - apply substring_app_l.
  - replace (p +:+ String.String c r) with ((p +:+ String.String c "") +:+ r) by (by rewrite append_assoc).
    replace (S (String.length p)) with (String.length (p +:+ String.String c ""))
      by (rewrite length_append; simpl; lia).
    apply str_drop_app.
Qed.

Section Env.
Context `{OSEnv}.

Lemma evidence_name_fold : EqualFold signingEvidenceEnvironment signingEvidenceEnvironment = true.
Proof. reflexivity. Qed.

Lemma withoutEvidence_spec env entry :
  entry ∈ withoutEvidence env ↔ entry ∈ env ∧ EqualFold (entry_name entry) signingEvidenceEnvironment = false.
Proof.
  induction env as [|e env IH]; cbn [withoutEvidence].
  - rewrite !elem_of_nil. naive_solver.
  - destruct (EqualFold (entry_name e) _) eqn:E; rewrite ?elem_of_cons, IH; [naive_solver congruence|].
    split; [|naive_solver]. intros [-> | ?]; naive_solver.
Qed.

Lemma withoutEvidence_entries env : evidence_entries (withoutEvidence env) = [].
Proof.
  apply elem_of_nil_inv. intros path (entry & [_ He]%withoutEvidence_spec & Hp)%list_elem_of_omap.
  unfold entry_name in He. destruct (cut_byte _ entry) as [[name v]|]; [|done]. simpl in *.
  destruct (String.eqb_spec name signingEvidenceEnvironment) as [->|]; [|done].
  by rewrite evidence_name_fold in He.
Qed.

Lemma evidence_entry path : evidence_entries [signingEvidenceEnvironment +:+ "=" +:+ path] = [path].
Proof.
  change ("=" +:+ path) with (String.String "="%char path). unfold evidence_entries. cbn [omap list_omap].
  rewrite cut_append by reflexivity. reflexivity.
Qed.

Lemma evidence_entries_app l1 l2 : evidence_entries (l1 ++ l2) = evidence_entries l1 ++ evidence_entries l2.
Proof. apply omap_app. Qed.

Lemma signing_outputs cmd path : ∃ env, cmd_Env (withSigningEvidenceEnvironment cmd path) = Some env ∧ evidence_entries env = [path].
Proof.
  eexists. split; [reflexivity|]. rewrite evidence_entries_app, withoutEvidence_entries.
  rewrite append_assoc. apply evidence_entry.
Qed.

Lemma output_paths_signing bin args path :
  output_paths (withSigningEvidenceEnvironment (coreCommand bin args) path)
  = output_paths (coreCommand bin args) ++ [path].
Proof.
  destruct (signing_outputs (coreCommand bin args) path) as (env & He & Hp).
  unfold output_paths. rewrite He. simpl. by rewrite Hp, app_nil_r.
Qed.
End Env.

(** ** Confinement *)

#[local] Opaque tempTries.

Section Confined.
Context `{OSLaws}.
Implicit Types (T : gset string) (n : Z).

Definition confined {A} T n (m : IO A) : Prop := ∀ s,
  (∀ name, name ∉ T → os_files (m s).2 !! name = os_files s !! name)
  ∧ os_descriptors (m s).2 = os_descriptors s + n.

Lemma confined_descriptor T n : confined T n (descriptor n).
Proof. by intros s. Qed.


Lemma confined_close T : confined T (-1) Close.
Proof.
  intros s. unfold Close, bindM, tick, descriptor, putM, fail_on. simpl.
  destruct (close_fault _); split; simpl; try done; lia.
Qed.



Lemma free_name_fresh pattern t files tries try name :
  free_name pattern t files tries try = Some name → files !! name = None.
Proof.
  revert try. induction tries as [|tries IH]; intros try; cbn [free_name]; [done|].
  destruct (files !! temp_name pattern t try) eqn:E; [apply IH|]. by intros [= <-].
Qed.

(** What [CreateTemp] does: nothing, or an empty new file. *)
Lemma CreateTemp_cases pattern s :
  (∃ e s', CreateTemp pattern s = (Err e, s') ∧ os_files s' = os_files s ∧ os_descriptors s' = os_descriptors s)
  ∨ ∃ p s', CreateTemp pattern s = (Ok p, s') ∧ os_files s !! p = None
      ∧ os_files s' = <[p := ""]> (os_files s) ∧ os_descriptors s' = os_descriptors s + 1.
Proof.
  unfold CreateTemp, bindM, tick, fail_on, getM. simpl. destruct (create_fault _); [left; by do 2 eexists|]. simpl.
  destruct (free_name _ _ _ _ _) as [p|] eqn:E; [right|left; by do 2 eexists].
  exists p. eexists. split; [reflexivity|]. by apply free_name_fresh in E.
Qed.







End Confined.


(** ** The operations *)



Section Operations.
Context `{OSLaws}.


End Operations.

(** ** What a successful call did *)

Section Success.
Context `{OSEnv}.

Lemma defer_ok {A B} (f : IO B) (m : IO A) s a s' : deferM f m s = (Ok a, s') → ∃ s1, m s = (Ok a, s1).
Proof. unfold deferM. destruct (m s) as [r s1]. intros [= -> _]. eauto. Qed.
Lemma wrap_ok {A} text (m : IO A) s a s' : wrapErr text m s = (Ok a, s') → m s = (Ok a, s').
Proof. unfold wrapErr. by destruct (m s) as [[?|?] ?]; intros [= -> ->]. Qed.
Lemma orClose_ok {A} (m : IO A) s a s' : orClose m s = (Ok a, s') → m s = (Ok a, s').
Proof.
  unfold orClose, closeWithError. destruct (m s) as [[?|?] s1]; [done|]. by destruct (Close s1) as [[?|?] ?].
Qed.
Lemma fail_on_ok f s u s' : fail_on f s = (Ok u, s') → s' = s.
Proof. destruct f; [done|]. by intros [= _ <-]. Qed.

Lemma Write_ok name data s u s' : Write name data s = (Ok u, s') →
  os_files s' = <[name := default "" (os_files s !! name) +:+ data]> (os_files s).
Proof.
  unfold Write, bindM, tick, set_files, putM. simpl. destruct (write_fault _) as [[n e]|]; [done|]. by intros [= _ <-].
Qed.
Lemma Encode_ok name v s u s' : Encode name v s = (Ok u, s') → ∃ j, v = Ok j ∧
  os_files s' = <[name := default "" (os_files s !! name) +:+ encoded j]> (os_files s).
Proof. destruct v; [|done]. intros E%Write_ok. eauto. Qed.
Lemma Close_ok s u s' : Close s = (Ok u, s') → os_files s' = os_files s.
Proof. unfold Close, bindM, tick, descriptor, putM. simpl. by intros ->%fail_on_ok. Qed.
Lemma Open_ok name s u s' : Open name s = (Ok u, s') →
  os_files s' = os_files s ∧ ∃ text, os_files s !! name = Some text.
Proof.
  unfold Open, bindM, tick, getM. simpl. destruct (open_fault _); [done|]. simpl.
  destruct (os_files s !! name) as [text|] eqn:E; [|done]. intros [= _ <-]. eauto.
Qed.
Lemma Read_ok name s text s' : Read name s = (Ok text, s') →
  os_files s' = os_files s ∧ text = default "" (os_files s !! name).
Proof.
  unfold Read, bindM, tick, getM. simpl. destruct (read_fault _); [done|]. by intros [= <- <-].
Qed.

(** A temporary file: its name was free, and the rest ran with the empty file. *)
Lemma temp_ok {A} text pattern (k : string → IO A) s a s' :
  bindM (wrapErr text (CreateTemp pattern)) (λ p, deferM (Remove p) (k p)) s = (Ok a, s') →
  ∃ p s1 s2, os_files s !! p = None ∧ os_files s1 = <[p := ""]> (os_files s) ∧ k p s1 = (Ok a, s2).
Proof.
  intros (p & s1 & Hc%wrap_ok & (s2 & Hk)%defer_ok)%bindM_ok_inv.
  destruct (CreateTemp_cases pattern s) as [(e & s3 & E & _) | (p' & s3 & E & Hp & Hf & _)];
    rewrite E in Hc; simplify_eq. eauto 10.
Qed.
Lemma evidence_ok {A} text (k : string → IO A) s a s' :
  bindM (wrapErr text createSigningEvidenceFile) (λ p, deferM (Remove p) (k p)) s = (Ok a, s') →
  ∃ p s1 s2, os_files s !! p = None ∧ os_files s1 = <[p := ""]> (os_files s) ∧ k p s1 = (Ok a, s2).
Proof.
  intros (p & s1 & Hc%wrap_ok & (s2 & Hk)%defer_ok)%bindM_ok_inv.
  unfold createSigningEvidenceFile in Hc. apply bindM_ok_inv in Hc as (p' & s3 & Hc & Hclose).
  destruct (CreateTemp_cases "anopki-core-signing-evidence-*.json" s) as [(e & s4 & E & _) | (p'' & s4 & E & Hp & Hf & _)];
    rewrite E in Hc; simplify_eq.
  destruct (Close s3) as [[u|e] s5] eqn:Ec; [|by destruct (Remove p' s5) as [[?|?] ?]].
  simplify_eq. apply Close_ok in Ec. exists p, s1, s2. by rewrite Ec.
Qed.

Lemma written_ok {A} name v t1 t2 (rest : IO A) s a s' : os_files s !! name = Some "" →
  bindM (wrapErr t1 (orClose (Encode name v))) (λ _, bindM (wrapErr t2 Close) (λ _, rest)) s = (Ok a, s') →
  ∃ j s1, v = Ok j ∧ os_files s1 = <[name := encoded j]> (os_files s) ∧ rest s1 = (Ok a, s').
Proof.
  intros Hn (? & s1 & (j & -> & Hw)%wrap_ok%orClose_ok%Encode_ok & (? & s2 & Hc%wrap_ok%Close_ok & Hr)%bindM_ok_inv)%bindM_ok_inv.
  exists j, s2. rewrite Hc, Hw, Hn. done.
Qed.
Lemma wrote_ok {A} name data t1 t2 (rest : IO A) s a s' : os_files s !! name = Some "" →
  bindM (wrapErr t1 (orClose (Write name data))) (λ _, bindM (wrapErr t2 Close) (λ _, rest)) s = (Ok a, s') →
  ∃ s1, os_files s1 = <[name := data]> (os_files s) ∧ rest s1 = (Ok a, s').
Proof.
  intros Hn (? & s1 & Hw%wrap_ok%orClose_ok%Write_ok & (? & s2 & Hc%wrap_ok%Close_ok & Hr)%bindM_ok_inv)%bindM_ok_inv.
  exists s2. rewrite Hc, Hw, Hn. done.
Qed.
Lemma closed_ok {A} text (rest : IO A) s a s' : bindM (wrapErr text Close) (λ _, rest) s = (Ok a, s') →
  ∃ s1, os_files s1 = os_files s ∧ rest s1 = (Ok a, s').
Proof. intros (? & s1 & Hc%wrap_ok%Close_ok & Hr)%bindM_ok_inv. eauto. Qed.

Lemma core_ok {A} cmd (k : string → IO A) s a s' : bindM (runCore cmd) k s = (Ok a, s') →
  ∃ s1, let ran := process (os_tick s) cmd (os_files s) in
  ran_err ran = None ∧ os_files s1 = ran_files ran ∧ k (ran_stdout ran) s1 = (Ok a, s').
Proof.
  intros (out & s1 & Hr & Hk)%bindM_ok_inv. exists s1. unfold runCore in Hr.
  apply bindM_ok_inv in Hr as (ran & s2 & Hrun & Hr). unfold Run, bindM, tick, getM in Hrun. simpl in Hrun.
  injection Hrun as <- <-. cbv zeta. destruct (ran_err _); [done|]. injection Hr as <- <-. done.
Qed.

Lemma json_ok {A} o d (read : JSON → res A) path rest s a s' :
  readCoreJSON o d read path rest s = (Ok a, s') →
  ∃ text x s1 s2, os_files s !! path = Some text ∧ decode_first read text = Ok x
  ∧ os_files s1 = os_files s ∧ rest x s1 = (Ok a, s2).
Proof.
  intros (? & s1 & [Hf [text Ht]]%wrap_ok%Open_ok & (s2 & Hd)%defer_ok)%bindM_ok_inv.
  apply bindM_ok_inv in Hd as (text' & s3 & [Hf' ->]%wrap_ok%Read_ok & Hd).
  apply bindM_ok_inv in Hd as (y & s4 & Hy%wrap_ok & Hd). unfold liftM in Hy. rewrite Hf, Ht in Hy. simpl in Hy.
  injection Hy as Hy Hs. subst s4. exists text, y, s3, s2. by rewrite Hf', Hf.
Qed.

Lemma evidence_read_ok path op alg s e s' : readSigningEvidence path op alg s = (Ok e, s') →
  ∃ text, os_files s !! path = Some text ∧ decode_only "decode signing evidence" read_SigningEvidence text = Ok e
  ∧ ValidateSigningEvidence e op alg = Ok tt.
Proof.
  intros (? & s1 & [Hf [text Ht]]%wrap_ok%Open_ok & (s2 & Hd)%defer_ok)%bindM_ok_inv.
  apply bindM_ok_inv in Hd as (text' & s3 & [Hf' ->]%wrap_ok%Read_ok & Hd).
  apply bindM_ok_inv in Hd as (ev & s4 & Hx & Hd). unfold liftM in Hx. rewrite Hf, Ht in Hx. simpl in Hx.
  apply bindM_ok_inv in Hd as ([] & s5 & Hv & Hd). unfold liftM, retM in *. simplify_eq. eauto.
Qed.
Lemma ReadFile_ok name s text s' : ReadFile name s = (Ok text, s') →
  os_files s !! name = Some text ∧ os_files s' = os_files s.
Proof.
  intros (? & s1 & [Hf [text' Ht]]%Open_ok & Hd)%bindM_ok_inv. unfold deferM in Hd.
  destruct (Read name s1) as [r s2] eqn:Hr. simplify_eq. apply Read_ok in Hr as [Hf' ->].
  pose proof (confined_close ∅ s2) as [Hc _]. split; [by rewrite Hf, Ht|].
  apply map_eq. intros i. rewrite Hc by set_solver. by rewrite Hf', Hf.
Qed.

(** The files hold those of [before], unchanged, and the listed new ones. *)
Definition holds (before : Files) (added : list (string * string)) (files : Files) : Prop :=
  Forall (λ '(path, text), before !! path = None ∧ files !! path = Some text) added
  ∧ ∀ path, before !! path ≠ None → files !! path = before !! path.

Lemma holds_nil files : holds files [] files.
Proof. by split; [constructor|]. Qed.
Lemma holds_new before added files p text : holds before added files → files !! p = None →
  holds before ((p, text) :: added) (<[p := text]> files).
Proof.
  intros [Ha Hb] Hp. assert (before !! p = None) as Hbp.
  { destruct (before !! p) eqn:E; [|done]. by rewrite Hb, E in Hp by (by rewrite E). }
  split.
  - constructor; [by rewrite lookup_insert_eq|]. eapply Forall_impl; [exact Ha|]. intros [path t] [H1 H2].
    split; [done|]. rewrite lookup_insert_ne; [done|]. intros ->. congruence.
  - intros path Hpath. rewrite lookup_insert_ne; [by apply Hb|]. by intros ->.
Qed.
Lemma insert_empty (files : Files) p text : <[p := text]> (<[p := ""]> files) = <[p := text]> files.
Proof. apply insert_insert_eq. Qed.

(** A request written to a new file, and an empty file for an answer. *)
Lemma request_ok {A} before added t1 t2 t3 pattern v (k : string → IO A) s a s' :
  holds before added (os_files s) →
  bindM (wrapErr t1 (CreateTemp pattern)) (λ p, deferM (Remove p)
    (bindM (wrapErr t2 (orClose (Encode p v))) (λ _, bindM (wrapErr t3 Close) (λ _, k p)))) s = (Ok a, s') →
  ∃ p j s1 s2, v = Ok j ∧ holds before ((p, encoded j) :: added) (os_files s1) ∧ k p s1 = (Ok a, s2).
Proof.
  intros Hh (p & s1 & s2 & Hp & E1 & Hk)%temp_ok.
  apply written_ok in Hk as (j & s3 & -> & E3 & Hk); [|rewrite E1; apply lookup_insert_eq].
  exists p, j, s3, s2. rewrite E3, E1, insert_empty. split; [done|]. split; [by apply holds_new|done].
Qed.
Lemma bytes_ok {A} before added t1 t2 t3 pattern data (k : string → IO A) s a s' :
  holds before added (os_files s) →
  bindM (wrapErr t1 (CreateTemp pattern)) (λ p, deferM (Remove p)
    (bindM (wrapErr t2 (orClose (Write p data))) (λ _, bindM (wrapErr t3 Close) (λ _, k p)))) s = (Ok a, s') →
  ∃ p s1 s2, holds before ((p, data) :: added) (os_files s1) ∧ k p s1 = (Ok a, s2).
Proof.
  intros Hh (p & s1 & s2 & Hp & E1 & Hk)%temp_ok.
  apply wrote_ok in Hk as (s3 & E3 & Hk); [|rewrite E1; apply lookup_insert_eq].
  exists p, s3, s2. rewrite E3, E1, insert_empty. split; [by apply holds_new|done].
Qed.

(** One run of the core by a signing operation: it started from the files of
    before, the requests and two new empty files, and it succeeded. *)
Definition signing_run (before : Files) (requests : list (string * string)) (bin : string)
    (args : string → list string) (resultPath evidencePath : string) (after : Files) : Prop :=
  ∃ t files, holds before ((evidencePath, "") :: (resultPath, "") :: requests) files
  ∧ let ran := process t (withSigningEvidenceEnvironment (coreCommand bin (args resultPath)) evidencePath) files in
    ran_err ran = None ∧ after = ran_files ran.

Lemma signing_ok {A} before requests bin args t1 t2 t3 pattern (k : string → string → IO A) s a s' :
  holds before requests (os_files s) →
  bindM (wrapErr t1 (CreateTemp pattern)) (λ rp, deferM (Remove rp)
    (bindM (wrapErr t2 Close) (λ _,
     bindM (wrapErr t3 createSigningEvidenceFile) (λ ep, deferM (Remove ep)
       (bindM (runCore (withSigningEvidenceEnvironment (coreCommand bin (args rp)) ep)) (λ _, k rp ep)))))) s = (Ok a, s') →
  ∃ rp ep s1 s2, signing_run before requests bin args rp ep (os_files s1) ∧ k rp ep s1 = (Ok a, s2).
Proof.
  intros Hh (rp & s1 & s2 & Hrp & E1 & (s3 & E3 & Hk)%closed_ok)%temp_ok.
  apply evidence_ok in Hk as (ep & s4 & s5 & Hep & E4 & (s6 & Herr & E6 & Hk)%core_ok).
  exists rp, ep, s6, s5. split; [|done]. exists (os_tick s4), (os_files s4). split; [|done].
  rewrite E4. rewrite E3, E1 in *. apply holds_new; [by apply holds_new|done].
Qed.

(** The evidence a signing operation returns is what the core wrote in that
    run, it is well formed, and it is for this operation and algorithm. *)
Definition evidence_of (evidencePath op alg : string) (after : Files) (evidence : SigningEvidence) : Prop :=
  ∃ text, after !! evidencePath = Some text
  ∧ decode_only "decode signing evidence" read_SigningEvidence text = Ok evidence
  ∧ ValidateSigningEvidence evidence op alg = Ok tt.

(** What the core wrote for a request of each kind. *)
Definition issued_by_core (bin : string) (req : IssueRequest) (before : Files) (r : IssueResult) : Prop :=
  ∃ request requestPath resultPath evidencePath after text result,
  json_IssueRequest nil_slice req = Ok request
  ∧ signing_run before [(requestPath, encoded request)] bin
      (λ out, ["cert"; "issue"; "--request"; requestPath; "--out"; out]) resultPath evidencePath after
  ∧ after !! resultPath = Some text ∧ decode_first read_IssueResult text = Ok result
  ∧ r = IssueResult_with_evidence result (IssueResult_SigningEvidence r)
  ∧ evidence_of evidencePath "certificate_issue" (IssueRequest_SignatureAlgorithm req) after
      (IssueResult_SigningEvidence r).
Definition crl_by_core (bin : string) (req : GenerateCRLRequest) (before : Files) (r : GenerateCRLResult) : Prop :=
  ∃ requestPath resultPath evidencePath after text result,
  signing_run before [(requestPath, encoded (json_crlFileRequest (crlRequestOf req)))] bin
    (λ out, ["crl"; "generate"; "--request"; requestPath; "--out"; out]) resultPath evidencePath after
  ∧ after !! resultPath = Some text ∧ decode_first read_GenerateCRLResult text = Ok result
  ∧ GenerateCRLResult_CRLPEM r = GenerateCRLResult_CRLPEM result
  ∧ evidence_of evidencePath "crl_generate_sign" "sha256" after (GenerateCRLResult_SigningEvidence r).
Definition ocsp_by_core (bin : string) (req : GenerateOCSPResponseRequest) (before : Files)
    (r : GenerateOCSPResponseResult) : Prop :=
  ∃ derPath requestPath resultPath evidencePath after,
  signing_run before [(requestPath, encoded (json_ocspResponseFileRequest (ocspRequestOf req)));
      (derPath, GenerateOCSPResponseRequest_RequestDER req)] bin
    (λ out, ["ocsp"; "respond"; "--in"; derPath; "--request"; requestPath; "--out"; out]) resultPath evidencePath after
  ∧ after !! resultPath = Some (GenerateOCSPResponseResult_ResponseDER r)
  ∧ evidence_of evidencePath "ocsp_response_sign" "sha256" after (GenerateOCSPResponseResult_SigningEvidence r).

Lemma issue_from_core bin req s r s' : Issue bin req s = (Ok r, s') → issued_by_core bin req (os_files s) r.
Proof.
  intros Hk. apply (request_ok _ _ _ _ _ _ _ _ _ _ _ (holds_nil _)) in Hk as (p & j & s1 & s2 & Hj & Hh & Hk).
  apply (signing_ok _ _ _ (λ out, ["cert"; "issue"; "--request"; p; "--out"; out]) _ _ _ _ _ _ _ _ Hh) in Hk
    as (rp & ep & s3 & s4 & Hrun & Hk).
  apply json_ok in Hk as (text & x & s5 & s6 & Ht & Hx & E5 & Hk).
  apply bindM_ok_inv in Hk as (ev & s7 & Hev%evidence_read_ok & [= <- <-]). rewrite E5 in Hev.
  by exists j, p, rp, ep, (os_files s3), text, x.
Qed.

Lemma generateCRL_from_core bin req s r s' : GenerateCRL bin req s = (Ok r, s') → crl_by_core bin req (os_files s) r.
Proof.
  intros Hk. apply (request_ok _ _ _ _ _ _ _ _ _ _ _ (holds_nil _)) in Hk as (p & j & s1 & s2 & [= <-] & Hh & Hk).
  apply (signing_ok _ _ _ (λ out, ["crl"; "generate"; "--request"; p; "--out"; out]) _ _ _ _ _ _ _ _ Hh) in Hk
    as (rp & ep & s3 & s4 & Hrun & Hk).
  apply json_ok in Hk as (text & x & s5 & s6 & Ht & Hx & E5 & Hk).
  apply bindM_ok_inv in Hk as (ev & s7 & Hev%evidence_read_ok & [= <- <-]). rewrite E5 in Hev.
  by exists p, rp, ep, (os_files s3), text, x.
Qed.

Lemma generateOCSP_from_core bin req s r s' :
  GenerateOCSPResponse bin req s = (Ok r, s') → ocsp_by_core bin req (os_files s) r.
Proof.
  intros Hk. apply (bytes_ok _ _ _ _ _ _ _ _ _ _ _ (holds_nil _)) in Hk as (dp & s0 & s0' & Hh0 & Hk).
  apply (request_ok _ _ _ _ _ _ _ _ _ _ _ Hh0) in Hk as (p & j & s1 & s2 & [= <-] & Hh & Hk).
  apply (signing_ok _ _ _ (λ out, ["ocsp"; "respond"; "--in"; dp; "--request"; p; "--out"; out]) _ _ _ _ _ _ _ _ Hh) in Hk
    as (rp & ep & s3 & s4 & Hrun & Hk).
  apply bindM_ok_inv in Hk as (der & s5 & [Hd E5]%wrap_ok%ReadFile_ok & Hk).
  apply bindM_ok_inv in Hk as (ev & s7 & Hev%evidence_read_ok & [= <- <-]). rewrite E5 in Hev.
  by exists dp, p, rp, ep, (os_files s3).
Qed.
End Success.

(** ** Success *)

Lemma append_inj_r s1 s2 t : s1 +:+ t = s2 +:+ t → s1 = s2.
Proof.
  intros E. assert (String.length s1 = String.length s2) as Hl.
  { apply (f_equal String.length) in E. rewrite !length_append in E. lia. }
  revert s2 E Hl. induction s1 as [|a s1 IH]; intros [|b s2] E Hl; try done.
  cbn in E. injection E as -> E. f_equal. apply IH; [done|]. by injection Hl.
Qed.

Section Answers.
Context `{OSEnv}.

(** No system call fails, and random names differ. *)
Class Quiet : Prop := {
  no_create_fault t : create_fault t = None;
  no_write_fault t : write_fault t = None;
  no_close_fault t : close_fault t = None;
  no_open_fault t : open_fault t = None;
  no_read_fault t : read_fault t = None;
  temp_random_inj t : Inj (=) (=) (temp_random t);
}.

Lemma temp_name_inj `{Quiet} pattern t : Inj (=) (=) (temp_name pattern t).
Proof.
  intros i j E. apply (temp_random_inj t). unfold temp_name in E.
  destruct (cut_byte _ pattern) as [[prefix suffix]|]; repeat apply append_inj_l in E; [|done].
  by apply append_inj_r in E.
Qed.

(** With fewer files than attempts, some name is free. *)
Lemma free_name_none pattern t files tries try : free_name pattern t files tries try = None →
  ∀ i, (try <= i < try + tries)%nat → temp_name pattern t i ∈ dom files.
Proof.
  revert try. induction tries as [|tries IH]; intros try; cbn [free_name]; [lia|].
  destruct (files !! temp_name pattern t try) eqn:E; [|done]. intros Hn i Hi.
  destruct (decide (i = try)) as [->|]; [apply elem_of_dom; by rewrite E|]. apply (IH _ Hn). lia.
Qed.
Lemma free_name_some `{Quiet} pattern t files tries : (size files < tries)%nat →
  ∃ name, free_name pattern t files tries 0 = Some name.
Proof.
  intros Hs. destruct (free_name _ _ _ _ _) eqn:E; [eauto|]. exfalso.
  pose proof (free_name_none _ _ _ _ _ E) as Hd.
  assert (list_to_set (temp_name pattern t <$> seq 0 tries) ⊆ dom files) as Hsub.
  { intros name. rewrite elem_of_list_to_set, list_elem_of_fmap. intros (i & -> & Hi%elem_of_seq). apply Hd. lia. }
  apply subseteq_size in Hsub. rewrite size_list_to_set in Hsub.
  - rewrite length_fmap, length_seq, size_dom in Hsub. lia.
  - apply NoDup_fmap_2; [apply temp_name_inj|apply NoDup_seq].
Qed.

Context `{Quiet}.

Lemma tries_value : tempTries = Z.to_nat 10000.
Proof. reflexivity. Qed.

Lemma CreateTemp_run pattern s : Z.of_nat (size (os_files s)) < 10000 →
  ∃ p s', CreateTemp pattern s = (Ok p, s') ∧ os_files s !! p = None ∧ os_files s' = <[p := ""]> (os_files s).
Proof.
  intros Hs. destruct (CreateTemp_cases pattern s) as [(e & s' & E & _) | (p & s' & E & Hp & Hf & _)]; [|eauto].
  exfalso. unfold CreateTemp, bindM, tick, fail_on, getM in E. simpl in E. rewrite no_create_fault in E. simpl in E.
  destruct (free_name_some pattern (os_tick s) (os_files s) tempTries) as [name Hn]; [rewrite tries_value; lia|].
  by rewrite Hn in E.
Qed.
Lemma Close_run s : ∃ s', Close s = (Ok tt, s') ∧ os_files s' = os_files s.
Proof. unfold Close, bindM, tick, descriptor, putM, fail_on. simpl. rewrite no_close_fault. by eexists. Qed.
Lemma Write_run name data s : ∃ s', Write name data s = (Ok tt, s')
  ∧ os_files s' = <[name := default "" (os_files s !! name) +:+ data]> (os_files s).
Proof. unfold Write, bindM, tick, set_files, putM. simpl. rewrite no_write_fault. by eexists. Qed.
Lemma Open_run name text s : os_files s !! name = Some text → ∃ s', Open name s = (Ok tt, s') ∧ os_files s' = os_files s.
Proof.
  intros Hn. unfold Open, bindM, tick, fail_on, getM. simpl. rewrite no_open_fault. simpl. rewrite Hn. by eexists.
Qed.
Lemma Read_run name text s : os_files s !! name = Some text → ∃ s', Read name s = (Ok text, s') ∧ os_files s' = os_files s.
Proof.
  intros Hn. unfold Read, bindM, tick, fail_on, getM. simpl. rewrite no_read_fault. simpl. rewrite Hn. by eexists.
Qed.
Lemma evidence_run s : Z.of_nat (size (os_files s)) < 10000 →
  ∃ p s', createSigningEvidenceFile s = (Ok p, s') ∧ os_files s !! p = None ∧ os_files s' = <[p := ""]> (os_files s).
Proof.
  intros Hs. unfold createSigningEvidenceFile, bindM.
  destruct (CreateTemp_run "anopki-core-signing-evidence-*.json" s Hs) as (p & s1 & -> & Hp & Hf).
  destruct (Close_run s1) as (s2 & -> & E2). exists p, s2. by rewrite E2.
Qed.

Lemma readSigningEvidence_run path op alg text e s : os_files s !! path = Some text →
  decode_only "decode signing evidence" read_SigningEvidence text = Ok e →
  ValidateSigningEvidence e op alg = Ok tt → ∃ s', readSigningEvidence path op alg s = (Ok e, s').
Proof.
  intros Ht Hd Hv. unfold readSigningEvidence, bindM, wrapErr, deferM.
  destruct (Open_run path text s Ht) as (s1 & -> & E1).
  destruct (Read_run path text s1) as (s2 & -> & E2); [by rewrite E1|].
  unfold liftM. rewrite Hd, Hv. by eexists.
Qed.

(** What the core has to do for a request: succeed, and leave a result and
    valid evidence. *)
Definition core_answers (bin : string) (req : IssueRequest) (request : JSON) (result : IssueResult)
    (evidence : SigningEvidence) : Prop := ∀ t files requestPath resultPath evidencePath,
  files !! requestPath = Some (encoded request) →
  resultPath ≠ evidencePath →
  let ran := process t (withSigningEvidenceEnvironment
    (coreCommand bin ["cert"; "issue"; "--request"; requestPath; "--out"; resultPath]) evidencePath) files in
  ran_err ran = None
  ∧ (∃ text, ran_files ran !! resultPath = Some text ∧ decode_first read_IssueResult text = Ok result)
  ∧ ∃ text, ran_files ran !! evidencePath = Some text
    ∧ decode_only "decode signing evidence" read_SigningEvidence text = Ok evidence.

(** An answered request is returned. *)
Definition answered (bin : string) (req : IssueRequest) (s : OS) (r : IssueResult) : Prop :=
  ∃ request result evidence, Z.of_nat (size (os_files s)) < 9998
  ∧ json_IssueRequest nil_slice req = Ok request
  ∧ core_answers bin req request result evidence
  ∧ ValidateSigningEvidence evidence "certificate_issue" (IssueRequest_SignatureAlgorithm req) = Ok tt
  ∧ r = IssueResult_with_evidence result evidence.

Lemma issue_answered bin req r s : answered bin req s r → ∃ s', Issue bin req s = (Ok r, s').
Proof.
  intros (request & result & evidence & Hs & Hj & Hc & Hv & ->). unfold Issue. rewrite Hj. unfold bindM, wrapErr, deferM, orClose, Encode.
  destruct (CreateTemp_run "anopki-core-issue-request-*.json" s) as (p & s1 & -> & Hp & E1); [lia|].
  destruct (Write_run p (encoded request) s1) as (s2 & -> & E2).
  rewrite E1, lookup_insert_eq, insert_empty in E2. cbn [default from_option] in E2.
  destruct (Close_run s2) as (s3 & -> & E3). rewrite E2 in E3.
  destruct (CreateTemp_run "anopki-core-issue-result-*.json" s3) as (rp & s4 & -> & Hrp & E4).
  { rewrite E3, map_size_insert_None by done. lia. }
  destruct (Close_run s4) as (s5 & -> & E5). rewrite E4, E3 in E5. rewrite E3 in Hrp.
  destruct (evidence_run s5) as (ep & s6 & -> & Hep & E6).
  { rewrite E5, !map_size_insert_None by done. lia. }
  rewrite E5 in E6, Hep. unfold runCore, bindM, Run, tick, getM. simpl.
  assert (rp ≠ p) as N1 by (intros ->; by rewrite lookup_insert_eq in Hrp).
  assert (ep ≠ rp) as N2 by (intros ->; by rewrite lookup_insert_eq in Hep).
  assert (ep ≠ p) as N3 by (intros ->; by rewrite lookup_insert_ne, lookup_insert_eq in Hep by done).
  destruct (Hc (os_tick s6) (os_files s6) p rp ep) as (He & (text & Ht & Hd) & etext & Het & Hed); [|congruence|].
  { rewrite E6, !lookup_insert_ne by congruence. apply lookup_insert_eq. }
  rewrite He. simpl. unfold readCoreJSON, bindM, wrapErr, deferM.
  match goal with |- context [Open rp ?st] => destruct (Open_run rp text st Ht) as (s7 & -> & E7) end.
  destruct (Read_run rp text s7) as (s8 & -> & E8); [by rewrite E7|].
  unfold liftM. rewrite Hd.
  destruct (readSigningEvidence_run ep "certificate_issue" (IssueRequest_SignatureAlgorithm req) etext evidence s8)
    as (s9 & ->); [by rewrite E8, E7|done|done|]. by eexists.
Qed.
End Answers.

(** C15: What the runner returns from a signing operation comes from one
    successful run of the core on files that held exactly the request. The
    result is what this run wrote to a file that was new and empty before it,
    and so is the signing evidence, which is valid for this operation and
    algorithm: no stale result or evidence can be returned. And when no system
    call fails, fewer than 9998 files exist and the core answers a certificate
    request with a result and evidence that is valid for it, [Issue] does return
    this result with this evidence. *)
Theorem signatures_from_core `{OSEnv} bin s :
  (∀ req r s', Issue bin req s = (Ok r, s') → issued_by_core bin req (os_files s) r)
  ∧ (∀ req r s', GenerateCRL bin req s = (Ok r, s') → crl_by_core bin req (os_files s) r)
  ∧ (∀ req r s', GenerateOCSPResponse bin req s = (Ok r, s') → ocsp_by_core bin req (os_files s) r)
  ∧ (Quiet → ∀ req r, answered bin req s r → ∃ s', Issue bin req s = (Ok r, s')).
Proof.
  split_and!; intros *; [apply issue_from_core|apply generateCRL_from_core|apply generateOCSP_from_core|].
  intros Hq req r. apply issue_answered.
Qed.

(** ** The environment, the requests and the backend *)

(** The command sees exactly one evidence variable, in any spelling of its
    name, and every other variable as it was. *)
Lemma evidence_environment `{OSEnv} cmd path :
  let named entry := EqualFold (entry_name entry) signingEvidenceEnvironment = true in
  ∃ env, cmd_Env (withSigningEvidenceEnvironment cmd path) = Some env
  ∧ filter named env = [signingEvidenceEnvironment +:+ "=" +:+ path]
  ∧ filter (λ e, ¬ named e) env = filter (λ e, ¬ named e) environ.
Proof.
  intros named. eexists. split; [reflexivity|]. rewrite append_assoc. rewrite !filter_app.
  assert (named (signingEvidenceEnvironment +:+ "=" +:+ path)) as Hn.
  { unfold named, entry_name. change ("=" +:+ path) with (String.String "="%char path).
    by rewrite cut_append by reflexivity. }
  assert (∀ env, filter named (withoutEvidence env) = []
    ∧ filter (λ e, ¬ named e) (withoutEvidence env) = filter (λ e, ¬ named e) env) as Hw.
  { induction env as [|e env [IH1 IH2]]; cbn [withoutEvidence]; [done|].
    destruct (EqualFold (entry_name e) signingEvidenceEnvironment) eqn:E.
    - rewrite (filter_cons_False (λ e, ¬ named e) e) by (intros Hc; by apply Hc). done.
    - rewrite (filter_cons_False named e) by (unfold named; by rewrite E).
      rewrite !(filter_cons_True (λ e, ¬ named e) e) by (unfold named; by rewrite E). by rewrite IH2. }
  destruct (Hw environ) as [-> ->]. split.
  - by rewrite filter_cons_True.
  - rewrite (filter_cons_False (λ e, ¬ named e)) by naive_solver. by rewrite app_nil_r.
Qed.

(** The lists of a request are parallel. *)
Lemma crlRequestOf_lists req : let certs := GenerateCRLRequest_RevokedCertificates req in
  crlRequestOf req = mk_crlFileRequest (GenerateCRLRequest_IssuerCertificatePEM req) (GenerateCRLRequest_IssuerKeyRef req)
    (GenerateCRLRequest_CRLNumber req) (coreTime (GenerateCRLRequest_ThisUpdate req))
    (coreTime (GenerateCRLRequest_NextUpdate req)) (RevokedCertificate_SerialNumber <$> certs)
    ((λ c, coreTime (RevokedCertificate_RevokedAt c)) <$> certs) (RevokedCertificate_Reason <$> certs).
Proof.
  intros certs. unfold crlRequestOf. fold certs.
  assert (∀ l r, fold_left appendRevoked l r = mk_crlFileRequest (crlFileRequest_IssuerCertificatePEM r)
    (crlFileRequest_IssuerKeyRef r) (crlFileRequest_CRLNumber r) (crlFileRequest_ThisUpdate r)
    (crlFileRequest_NextUpdate r) (crlFileRequest_RevokedSerialNumbers r ++ (RevokedCertificate_SerialNumber <$> l))
    (crlFileRequest_RevokedAtTimes r ++ ((λ c, coreTime (RevokedCertificate_RevokedAt c)) <$> l))
    (crlFileRequest_RevocationReasons r ++ (RevokedCertificate_Reason <$> l))) as ->; [|done].
  induction l as [|c l IH]; intros r; csimpl.
  - rewrite !app_nil_r. by destruct r.
  - rewrite IH. cbn. by rewrite <- !app_assoc.
Qed.

Lemma ocspRequestOf_lists req : let certs := GenerateOCSPResponseRequest_Certificates req in
  ocspRequestOf req = mk_ocspResponseFileRequest (GenerateOCSPResponseRequest_IssuerCertificatePEM req)
    (GenerateOCSPResponseRequest_IssuerKeyRef req) (coreTime (GenerateOCSPResponseRequest_ThisUpdate req))
    (coreTime (GenerateOCSPResponseRequest_NextUpdate req)) (OCSPCertificateStatus_SerialNumber <$> certs)
    (OCSPCertificateStatus_HashAlgorithm <$> certs) (OCSPCertificateStatus_IssuerNameHash <$> certs)
    (OCSPCertificateStatus_IssuerKeyHash <$> certs) (OCSPCertificateStatus_Status <$> certs)
    ((λ c, coreTime (OCSPCertificateStatus_RevokedAt c)) <$> certs) (OCSPCertificateStatus_RevocationReason <$> certs).
Proof.
  intros certs. unfold ocspRequestOf. fold certs.
  assert (∀ l r, fold_left appendStatus l r = mk_ocspResponseFileRequest (ocspResponseFileRequest_IssuerCertificatePEM r)
    (ocspResponseFileRequest_IssuerKeyRef r) (ocspResponseFileRequest_ThisUpdate r) (ocspResponseFileRequest_NextUpdate r)
    (ocspResponseFileRequest_SerialNumbers r ++ (OCSPCertificateStatus_SerialNumber <$> l))
    (ocspResponseFileRequest_HashAlgorithms r ++ (OCSPCertificateStatus_HashAlgorithm <$> l))
    (ocspResponseFileRequest_IssuerNameHashes r ++ (OCSPCertificateStatus_IssuerNameHash <$> l))
    (ocspResponseFileRequest_IssuerKeyHashes r ++ (OCSPCertificateStatus_IssuerKeyHash <$> l))
    (ocspResponseFileRequest_Statuses r ++ (OCSPCertificateStatus_Status <$> l))
    (ocspResponseFileRequest_RevokedAtTimes r ++ ((λ c, coreTime (OCSPCertificateStatus_RevokedAt c)) <$> l))
    (ocspResponseFileRequest_RevocationReasons r ++ (OCSPCertificateStatus_RevocationReason <$> l))) as ->; [|done].
  induction l as [|c l IH]; intros r; csimpl.
  - rewrite !app_nil_r. by destruct r.
  - rewrite IH. cbn. by rewrite <- !app_assoc.
Qed.

(** Reading a request file back. *)
Lemma str_bytes_app s t : str_bytes (s +:+ t) = str_bytes s ++ str_bytes t.
Proof. induction s as [|a s IH]; [done|]. exact (f_equal (cons (byte_val a)) IH). Qed.
Lemma encoded_parse v : json_valid v = true → json_Parse (encoded v) = Some v.
Proof.
  intros Hv. unfold json_Parse, encoded, json_Marshal. rewrite str_bytes_app, str_bytes_to_str by apply print_octets.
  change (str_bytes (bytes_str [10%nat])) with [10].
  pose proof (print_length v) as Hl.
  rewrite (value_read v Hv) by (rewrite ?length_app; cbn [length]; first [lia | done]). done.
Qed.

(** A request file of valid UTF-8 text is read back by the core as the
    request: the lists of a CRL request (serial numbers, times, reasons) and of
    an OCSP response request have one entry per certificate, and the entries at
    a position all belong to the certificate at that position. *)
Theorem signing_requests_parallel :
  (∀ req, let certs := GenerateCRLRequest_RevokedCertificates req in
    json_valid (json_crlFileRequest (crlRequestOf req)) = true →
    json_Parse (encoded (json_crlFileRequest (crlRequestOf req))) = Some (JObject
      [("issuer_certificate_pem", JString (GenerateCRLRequest_IssuerCertificatePEM req));
       ("issuer_key_ref", JString (GenerateCRLRequest_IssuerKeyRef req));
       ("crl_number", JNumber (GenerateCRLRequest_CRLNumber req));
       ("this_update", JString (coreTime (GenerateCRLRequest_ThisUpdate req)));
       ("next_update", JString (coreTime (GenerateCRLRequest_NextUpdate req)));
       ("revoked_serial_numbers", JArray ((λ c, JString (RevokedCertificate_SerialNumber c)) <$> certs));
       ("revoked_at_times", JArray ((λ c, JString (coreTime (RevokedCertificate_RevokedAt c))) <$> certs));
       ("revocation_reasons", JArray ((λ c, JString (RevokedCertificate_Reason c)) <$> certs))]))
  ∧ ∀ req, let certs := GenerateOCSPResponseRequest_Certificates req in
    json_valid (json_ocspResponseFileRequest (ocspRequestOf req)) = true →
    json_Parse (encoded (json_ocspResponseFileRequest (ocspRequestOf req))) = Some (JObject
      [("issuer_certificate_pem", JString (GenerateOCSPResponseRequest_IssuerCertificatePEM req));
       ("issuer_key_ref", JString (GenerateOCSPResponseRequest_IssuerKeyRef req));
       ("this_update", JString (coreTime (GenerateOCSPResponseRequest_ThisUpdate req)));
       ("next_update", JString (coreTime (GenerateOCSPResponseRequest_NextUpdate req)));
       ("serial_numbers", JArray ((λ c, JString (OCSPCertificateStatus_SerialNumber c)) <$> certs));
       ("hash_algorithms", JArray ((λ c, JString (OCSPCertificateStatus_HashAlgorithm c)) <$> certs));
       ("issuer_name_hashes", JArray ((λ c, JString (OCSPCertificateStatus_IssuerNameHash c)) <$> certs));
       ("issuer_key_hashes", JArray ((λ c, JString (OCSPCertificateStatus_IssuerKeyHash c)) <$> certs));
       ("statuses", JArray ((λ c, JString (OCSPCertificateStatus_Status c)) <$> certs));
       ("revoked_at_times", JArray ((λ c, JString (coreTime (OCSPCertificateStatus_RevokedAt c))) <$> certs));
       ("revocation_reasons", JArray ((λ c, JString (OCSPCertificateStatus_RevocationReason c)) <$> certs))]).
Proof.
  split; intros req certs Hv; rewrite encoded_parse by done.
  - rewrite crlRequestOf_lists. fold certs. unfold json_crlFileRequest, strings_json. cbn.
    by rewrite <- !list_fmap_compose.
  - rewrite ocspRequestOf_lists. fold certs. unfold json_ocspResponseFileRequest, strings_json. cbn.
    by rewrite <- !list_fmap_compose.
Qed.

(** Backend information. *)
Lemma bindR_unit (r : res unit) (k : unit → res unit) : bindR r k = Ok tt ↔ r = Ok tt ∧ k tt = Ok tt.
Proof. destruct r as [[]|e]; simpl; naive_solver. Qed.

Lemma capabilitiesLoop_ok seen l : capabilitiesLoop seen l = Ok tt ↔
  Forall (λ c, TrimSpace c ≠ "" ∧ TrimSpace c ∉ seen) l ∧ NoDup (TrimSpace <$> l).
Proof.
  revert seen. induction l as [|c l IH]; intros seen; csimpl.
  - split; [|done]. intros _. split; constructor.
  - rewrite !bindR_unit, !check_not_ok, IH, String.eqb_neq, bool_decide_eq_false, Forall_cons, NoDup_cons, !Forall_forall.
    rewrite list_elem_of_fmap. set_solver.
Qed.

(** The backend information is accepted exactly when it is consistent: no
    field is blank, fallback is disabled, the selected backend is the reported
    one and ready, its interface version is not zero, and its capabilities are
    named, without repetition after trimming; the order in which the map of
    fields is visited does not matter. *)
Theorem ValidateBackendInfo_spec order info : (∀ l, order l ≡ₚ l) →
  ValidateBackendInfo order info = Ok tt ↔
  Forall (λ f, isBlank f.2 = false) (backendFields info)
  ∧ BackendInfo_FallbackEnabled info = false
  ∧ BackendInfo_SelectedBackend info = BackendInfo_BackendID info
  ∧ BackendInfo_BackendReadiness info = "ready"
  ∧ BackendInfo_BackendABIVersion info ≠ 0
  ∧ Forall (λ c, TrimSpace c ≠ "") (BackendInfo_BackendCapabilities info)
  ∧ NoDup (TrimSpace <$> BackendInfo_BackendCapabilities info).
Proof.
  intros Ho. unfold ValidateBackendInfo.
  rewrite !bindR_unit, !check_not_ok, for_checks_ok, (Ho (backendFields info)), capabilitiesLoop_ok.
  rewrite !negb_false_iff, !String.eqb_eq, Z.eqb_neq, Forall_and.
  assert (Forall (λ x : string * string, (let '(name, value) := x in
      check_not (isBlank value) (EText ("validate backend info: " +:+ name +:+ " is empty"))) = Ok tt) (backendFields info)
    ↔ Forall (λ f, isBlank f.2 = false) (backendFields info)) as ->.
  { apply Forall_iff. intros [n v]. apply check_not_ok. }
  assert (Forall (λ c, TrimSpace c ∉ (∅ : gset string)) (BackendInfo_BackendCapabilities info)) as He
    by (apply Forall_true; set_solver).
  tauto.
Qed.

(** ** Samples *)

Section Samples.

(** A core that answers every certificate request with a fixed certificate. *)
Definition sample_result_text : string :=
  json_Marshal (JObject [("certificate_pem", JString "PEM"); ("serial_number", JString "01");
    ("subject", JString "CN=a"); ("not_before", JString "2024-01-01T00:00:00Z");
    ("not_after", JString "2024-04-01T00:00:00+02:00")]).
Definition sample_evidence_text : string :=
  json_Marshal (JObject [("schema_version", JNumber 1); ("evidence_source", JString "core_signing");
    ("operation", JString "certificate_issue"); ("provider_id", JString "file"); ("provider_class", JString "file");
    ("provider_readiness", JString "ready"); ("provider_exportability", JString "exportable");
    ("reference_class", JString "file"); ("key_algorithm", JString "ecdsa");
    ("requested_signature_algorithm", JString "sha256"); ("issuer_binding_verified", JBoolean true);
    ("fallback_used", JBoolean false); ("result_code", JString "ok")]).
Definition sample_evidence : SigningEvidence :=
  mkSigningEvidence 1 "core_signing" "certificate_issue" "file" "file" "ready" "exportable" "file" "ecdsa" "sha256"
    true false "ok".

Definition sample_process (cmd : Cmd) (files : Files) : Ran :=
  match output_paths cmd with
  | [out; ev] => mkRan None "" "" (<[ev := sample_evidence_text]> (<[out := sample_result_text]> files))
  | _ => mkRan (Some (EText "exit status 2")) "" "usage" files
  end.

#[local] Instance sample_os : OSEnv := {|
  os_unicode := ascii_unicode; temp_dir := "/tmp"; temp_random _ try := itoa (Z.of_nat try);
  create_fault _ := None; write_fault _ := None; close_fault _ := None; open_fault _ := None;
  read_fault _ := None; remove_fault _ := None; environ := ["PATH=/bin"; "Anopki_Core_Signing_Evidence_File=/old"];
  process _ := sample_process; nil_slice _ := true |}.

#[local] Instance sample_os_laws : OSLaws.
Proof.
  split; [done|]. intros t cmd files name Hn. cbn [process sample_os]. unfold sample_process.
  destruct (output_paths cmd) as [|out [|ev [|]]]; try reflexivity.
  cbn [ran_files]. by rewrite !lookup_insert_ne by set_solver.
Defined.
#[local] Instance sample_quiet : Quiet.
Proof. split; try done. intros t i j E%itoa_inj. lia. Defined.

Definition sample_issue_request : IssueRequest :=
  mkIssueRequest "CSR" "CA" "file:/ca.key" "" [] "CN=a" ["a.example"] [] 0 1000 "sha256" "" false false None false [] false []
    false false.
Definition sample_issue_result : IssueResult :=
  mkIssueResult "PEM" "01" "CN=a" (DateUTC 2024 1 1) (DateUTC 2024 4 1 - 2 * Hour) zero_SigningEvidence.

Lemma sample_answers request : core_answers "" sample_issue_request request sample_issue_result sample_evidence.
Proof.
  intros t files rp op ep _ Hne. cbn [process sample_os]. unfold sample_process.
  rewrite output_paths_signing. cbn [output_paths coreCommand cmd_Args cmd_Env from_option app flag_value String.eqb Ascii.eqb Bool.eqb orb negb ran_err ran_files].
  split; [done|]. split.
  - exists sample_result_text. split; [by rewrite lookup_insert_ne, lookup_insert_eq by done|]. vm_compute. reflexivity.
  - exists sample_evidence_text. split; [apply lookup_insert_eq|]. vm_compute. reflexivity.
Qed.


Lemma sample_answered : answered "" sample_issue_request (mkOS ∅ 3 0)
  (IssueResult_with_evidence sample_issue_result sample_evidence).
Proof.
  destruct (json_IssueRequest nil_slice sample_issue_request) as [request|] eqn:E; [|vm_compute in E; discriminate].
  exists request, sample_issue_result, sample_evidence.
  split_and!; [cbn [os_files]; by rewrite map_size_empty|done|apply sample_answers|vm_compute; reflexivity|done].
Qed.

Lemma signatures_from_core_witness : ∃ r s', Issue "" sample_issue_request (mkOS ∅ 3 0) = (Ok r, s')
  ∧ issued_by_core "" sample_issue_request ∅ r.
Proof.
  destruct (signatures_from_core "" (mkOS ∅ 3 0)) as (Hi & _ & _ & Ha).
  destruct (Ha sample_quiet _ _ sample_answered) as [s' E]. eexists _, s'. split; [exact E|]. exact (Hi _ _ _ E).
Defined.

Lemma ValidateBackendInfo_spec_witness :
  ValidateBackendInfo (@rev _) (mkBackendInfo "p" "community" "openssl" false "openssl" "openssl" "3" "ready" ["sign"; " crl"] 1 "f") = Ok tt.
Proof.
  apply ValidateBackendInfo_spec; [intros l; symmetry; apply Permutation_rev|].
  split_and!; try reflexivity; try discriminate; apply (bool_decide_unpack _); vm_compute; exact I.
Defined.

Lemma signing_requests_parallel_witness :
  ∃ v, json_Parse (encoded (json_crlFileRequest (crlRequestOf
    (mkGenerateCRLRequest "CA" "key" 7 0 1000 [mkRevokedCertificate "01" 0 "unspecified"])))) = Some v.
Proof. eexists. apply (proj1 signing_requests_parallel). vm_compute. reflexivity. Defined.
End Samples.
