(* ===== verification/Workers.v ===== *)
(** * Background workers ([lifecycle/outbox_worker.go], [lifecycle/expiration_scan_worker.go])

    A worker runs its task once, then once per tick of its timer until its
    context is cancelled. A run of a worker is described by what each [select]
    chose, and by what the rest of the program did to the world in between. *)

From S2P Require Import Prelude GoLib Crypto Domain Core NetIP Requests AuditChain Store StoreInv.
From S2P Require Import Service Policy Registry Lifecycle Issuance Outbox CRL APIKeys OCSP ACME.
From S2P Require Import Samples Machines ServiceFacts Invariants.

(** ** The loop *)

(** The world, and the lines given to the logger so far. *)
Record WState := mkWState { ws_world : World; ws_log : list string }.

Inductive Choice := ChooseTick | ChooseDone.
(** One [select]: what happened to the world before it, and which case it took. *)
Record Select := mkSelect { sel_others : World → World; sel_choice : Choice }.

Section Loop.
Variable runOnce : WState → WState.

(** The [for] loop; [true] when it has returned, [false] when it waits in the
    next [select]. *)
Fixpoint select_loop (selects : list Select) (st : WState) : bool * WState :=
  match selects with
  | [] => (false, st)
  | sel :: selects =>
      let st := mkWState (sel_others sel (ws_world st)) (ws_log st) in
      match sel_choice sel with
      | ChooseDone => (true, st)
      | ChooseTick => select_loop selects (runOnce st)
      end
  end.
Definition run_with_ticks (selects : list Select) (st : WState) : bool * WState :=
  select_loop selects (runOnce st).
End Loop.

(** ** The outbox worker *)

Definition Logger := list string → string → list string.
Definition no_logger : Logger := λ log _, log.

Section Workers.
Context `{Env}.

(** [OutboxRunner]: [RunOnce] returns the count next to the error. *)
Record OutboxWorker := mkOutboxWorker {
  ow_runner : Z → Svc (nat * option goerr);
  ow_interval : Duration;
  ow_batch : Z;
  ow_logf : Logger;
}.

Definition NewOutboxWorker (runner : Z → Svc (nat * option goerr)) (interval : Duration) (batch : Z)
    (logf : option Logger) : OutboxWorker :=
  mkOutboxWorker runner interval batch (default no_logger logf).

Definition OutboxWorker_runOnce (w : OutboxWorker) (st : WState) : WState :=
  let '(r, world) := ow_runner w (ow_batch w) (ws_world st) in
  let err := match r with Ok (_, err) => err | Err err => Some err end in
  mkWState world (match err with
    | Some err => ow_logf w (ws_log st) ("outbox worker: " +:+ error_text err)
    | None => ws_log st
    end).
Definition OutboxWorker_runWithTicks (w : OutboxWorker) : list Select → WState → bool * WState :=
  run_with_ticks (OutboxWorker_runOnce w).

(** [time.NewTicker] panics for an interval that is not positive. *)
Definition OutboxWorker_Run (w : OutboxWorker) (selects : list Select) (st : WState) : res (bool * WState) :=
  if Z.leb (ow_interval w) 0 then Err (EPanic "non-positive interval for NewTicker")
  else Ok (OutboxWorker_runWithTicks w selects st).

(** ** The expiration scan worker *)

Definition expirationScanWorkerActor : string := "system:expiration-scan-worker".

Record ExpirationScanWorker := mkExpirationScanWorker {
  ew_scanner : string → ScanCertificateExpirationsRequest → Svc CertificateExpirationScanResult;
  ew_interval : Duration;
  ew_warningWindow : Duration;
  ew_batchSize : Z;
  ew_logf : Logger;
}.

Definition NewExpirationScanWorker
    (scanner : string → ScanCertificateExpirationsRequest → Svc CertificateExpirationScanResult)
    (interval warningWindow : Duration) (batchSize : Z) (logf : option Logger) : ExpirationScanWorker :=
  mkExpirationScanWorker scanner interval warningWindow batchSize (default no_logger logf).

Definition ExpirationScanWorker_runOnce (w : ExpirationScanWorker) (st : WState) : WState :=
  let '(r, world) := ew_scanner w expirationScanWorkerActor
    (mkScanCertificateExpirationsRequest (ew_warningWindow w) (ew_batchSize w)) (ws_world st) in
  mkWState world (match r with
    | Err err => ew_logf w (ws_log st) ("expiration scan worker: " +:+ error_text err)
    | Ok result => ew_logf w (ws_log st) ("expiration scan worker: expired="
        +:+ itoa (Z.of_nat (length (CertificateExpirationScanResult_Expired result)))
        +:+ " expiration_warnings="
        +:+ itoa (Z.of_nat (length (CertificateExpirationScanResult_ExpirationWarnings result))))
    end).
Definition ExpirationScanWorker_runWithTicks (w : ExpirationScanWorker) : list Select → WState → bool * WState :=
  run_with_ticks (ExpirationScanWorker_runOnce w).
Definition ExpirationScanWorker_Run (w : ExpirationScanWorker) (selects : list Select) (st : WState)
    : res (bool * WState) :=
  if Z.leb (ew_interval w) 0 then Err (EPanic "non-positive interval for NewTicker")
  else Ok (ExpirationScanWorker_runWithTicks w selects st).
End Workers.

(** ** What the loop does *)

(** The selects up to the first cancellation, and whether there is one. *)
Fixpoint ticks_before_done (selects : list Select) : list Select * option Select :=
  match selects with
  | [] => ([], None)
  | sel :: rest =>
      match sel_choice sel with
      | ChooseDone => ([], Some sel)
      | ChooseTick => let '(ticks, d) := ticks_before_done rest in (sel :: ticks, d)
      end
  end.
Definition disturb (sel : Select) (st : WState) : WState := mkWState (sel_others sel (ws_world st)) (ws_log st).

Section LoopFacts.
Variable runOnce : WState → WState.

Lemma select_loop_spec selects st : select_loop runOnce selects st =
  let '(ticks, d) := ticks_before_done selects in
  let st := foldl (λ st sel, runOnce (disturb sel st)) st ticks in
  match d with Some sel => (true, disturb sel st) | None => (false, st) end.
Proof.
  revert st. induction selects as [|sel rest IH]; intros st; cbn [select_loop ticks_before_done]; [done|].
  destruct (sel_choice sel); [|done]. rewrite IH. by destruct (ticks_before_done rest).
Qed.

(** The worker moves along [R] when its task and the others do. *)
Lemma select_loop_along (R : relation World) `{!PreOrder R} selects st :
  (∀ st, R (ws_world st) (ws_world (runOnce st))) →
  Forall (λ sel, ∀ w, R w (sel_others sel w)) selects →
  R (ws_world st) (ws_world (select_loop runOnce selects st).2).
Proof.
  intros Hr Ho. revert st. induction Ho as [|sel rest Hs Hrest IH]; intros st; cbn [select_loop]; [done|].
  destruct (sel_choice sel); cbn [snd ws_world]; [|apply Hs].
  etrans; [apply (Hs (ws_world st))|]. etrans; [apply (Hr (mkWState _ (ws_log st)))|apply IH].
Qed.
Lemma run_with_ticks_along (R : relation World) `{!PreOrder R} selects st :
  (∀ st, R (ws_world st) (ws_world (runOnce st))) →
  Forall (λ sel, ∀ w, R w (sel_others sel w)) selects →
  R (ws_world st) (ws_world (run_with_ticks runOnce selects st).2).
Proof. intros Hr Ho. unfold run_with_ticks. etrans; [apply Hr|by apply select_loop_along]. Qed.
End LoopFacts.

Section Along.
Context `{E : Env} `{!WebhookEnv}.

(** The workers the program starts. *)
Definition service_outbox_worker (webhooks : bool) (interval : Duration) (batch : Z) (logf : option Logger)
    : OutboxWorker :=
  NewOutboxWorker (RunOnce (NewLifecycleOutboxHandlerWithWebhook (if webhooks then Some webhookHandler else None)))
    interval batch logf.
Definition service_scan_worker (interval window : Duration) (batch : Z) (logf : option Logger) : ExpirationScanWorker :=
  NewExpirationScanWorker ScanCertificateExpirations interval window batch logf.

Lemma outbox_once_step webhooks i b l st :
  rtc service_step (ws_world st) (ws_world (OutboxWorker_runOnce (service_outbox_worker webhooks i b l) st)).
Proof.
  apply rtc_once, op_step_service. pose proof (ss_RunOnce webhooks b (ws_world st)) as Hs.
  unfold OutboxWorker_runOnce. cbn [ow_runner ow_batch service_outbox_worker NewOutboxWorker].
  by destruct (RunOnce _ _ _) as [r w].
Qed.
Lemma scan_once_step i wdw b l st :
  rtc service_step (ws_world st) (ws_world (ExpirationScanWorker_runOnce (service_scan_worker i wdw b l) st)).
Proof.
  apply rtc_once, op_step_service.
  pose proof (ss_Scan expirationScanWorkerActor (mkScanCertificateExpirationsRequest wdw b) (ws_world st)) as Hs.
  unfold ExpirationScanWorker_runOnce. cbn [ew_scanner ew_batchSize ew_warningWindow service_scan_worker NewExpirationScanWorker].
  by destruct (ScanCertificateExpirations _ _ _) as [r w].
Qed.

(** C19: A worker started with a positive interval never panics on its timer; it
    runs its task at once and then exactly once per tick, whether or not the
    earlier runs failed, each time on the world as the rest of the program left
    it; it returns exactly when a select sees the cancelled context. However
    the two workers are interleaved with other work that acts on the store by
    calls of the service, the store moves only by calls of the service. *)
Theorem workers_run_service interval window batch logf selects st :
  (0 < interval)%Z →
  let outbox webhooks := service_outbox_worker webhooks interval batch logf in
  let scan := service_scan_worker interval window batch logf in
  (∀ webhooks, ∃ returned st', OutboxWorker_Run (outbox webhooks) selects st = Ok (returned, st')
    ∧ (let once := OutboxWorker_runOnce (outbox webhooks) in
       let '(ticks, d) := ticks_before_done selects in
       returned = bool_decide (is_Some d)
       ∧ st' = from_option disturb id d (foldl (λ st sel, once (disturb sel st)) (once st) ticks))
    ∧ (Forall (λ sel, ∀ w, rtc service_step w (sel_others sel w)) selects →
       rtc service_step (ws_world st) (ws_world st')))
  ∧ ∃ returned st', ExpirationScanWorker_Run scan selects st = Ok (returned, st')
    ∧ (let once := ExpirationScanWorker_runOnce scan in
       let '(ticks, d) := ticks_before_done selects in
       returned = bool_decide (is_Some d)
       ∧ st' = from_option disturb id d (foldl (λ st sel, once (disturb sel st)) (once st) ticks))
    ∧ (Forall (λ sel, ∀ w, rtc service_step w (sel_others sel w)) selects →
       rtc service_step (ws_world st) (ws_world st')).
Proof.
  intros Hi outbox scan.
  assert (∀ once, (∀ st, rtc service_step (ws_world st) (ws_world (once st))) →
    ∃ returned st', run_with_ticks once selects st = (returned, st')
    ∧ (let '(ticks, d) := ticks_before_done selects in
       returned = bool_decide (is_Some d)
       ∧ st' = from_option disturb id d (foldl (λ st sel, once (disturb sel st)) (once st) ticks))
    ∧ (Forall (λ sel, ∀ w, rtc service_step w (sel_others sel w)) selects →
       rtc service_step (ws_world st) (ws_world st'))) as Hloop.
  { intros once Ho. destruct (run_with_ticks once selects st) as [returned st'] eqn:Er.
    exists returned, st'. split; [done|]. split.
    - unfold run_with_ticks in Er. rewrite select_loop_spec in Er.
      destruct (ticks_before_done selects) as [ticks [d|]]; cbn in Er; simplify_eq; done.
    - intros Hs. pose proof (run_with_ticks_along once (rtc service_step) selects st Ho Hs) as Hr. by rewrite Er in Hr. }
  split.
  - intros webhooks. destruct (Hloop (OutboxWorker_runOnce (outbox webhooks))) as (r & st' & Er & H1 & H2);
      [intros; apply outbox_once_step|].
    exists r, st'. split; [|done]. unfold OutboxWorker_Run, OutboxWorker_runWithTicks. cbn [ow_interval outbox service_outbox_worker NewOutboxWorker].
    destruct (Z.leb_spec interval 0); [lia|]. by f_equal.
  - destruct (Hloop (ExpirationScanWorker_runOnce scan)) as (r & st' & Er & H1 & H2);
      [intros; apply scan_once_step|].
    exists r, st'. split; [|done]. unfold ExpirationScanWorker_Run, ExpirationScanWorker_runWithTicks. cbn [ew_interval scan service_scan_worker NewExpirationScanWorker].
    destruct (Z.leb_spec interval 0); [lia|]. by f_equal.
Qed.
End Along.

Section Witness.
#[local] Existing Instance sample_env.
#[local] Existing Instance sample_webhook.

(** A worker that ticks twice and is cancelled. *)
Definition sample_selects : list Select :=
  [mkSelect id ChooseTick; mkSelect id ChooseTick; mkSelect id ChooseDone; mkSelect id ChooseTick].
Lemma workers_run_service_witness : ∃ st', OutboxWorker_Run
  (service_outbox_worker true Second 10 None) sample_selects (mkWState new_world []) = Ok (true, st')
  ∧ rtc service_step new_world (ws_world st').
Proof.
  destruct (workers_run_service Second 0 10 None sample_selects (mkWState new_world []) ltac:(reflexivity)) as [Ho _].
  destruct (Ho true) as (r & st' & E & Hs & Hr). exists st'. cbn [ticks_before_done sample_selects sel_choice] in Hs.
  destruct Hs as [-> _]. split; [exact E|]. apply Hr. repeat constructor; intros w; apply rtc_refl.
Defined.
End Witness.
