(* ===== verification/Config.v ===== *)
(** * Configuration of the service ([cmd/anopki-service/main.go])

    The environment variables as a function [getenv] (the empty string for a
    variable that is not set) and one definition per function that reads them,
    with the errors it returns. [time.ParseDuration] and [strconv.ParseBool]
    are computed. *)

From Stdlib Require Import Ascii SpecFloat.
From S2P Require Import Prelude GoLib Domain Core NetIP HTTP01 HTTPBoundary.

Local Open Scope Z_scope.

(** ** [strconv.ParseBool] and [time.ParseDuration] *)

Definition ParseBool (s : string) : option bool :=
  if bool_decide (s ∈ ["1"; "t"; "T"; "TRUE"; "true"; "True"]) then Some true
  else if bool_decide (s ∈ ["0"; "f"; "F"; "FALSE"; "false"; "False"]) then Some false
  else None.

(** [leadingInt]: the digits at the head, refusing values over [2^63]. *)
Fixpoint leadingInt (x : Z) (s : string) : option (Z * string) :=
  match s with
  | String.String c s' =>
      match digit_value c with
      | None => Some (x, s)
      | Some d =>
          if Z.ltb (2 ^ 63 / 10) x then None
          else let x := x * 10 + d in if Z.ltb (2 ^ 63) x then None else leadingInt x s'
      end
  | EmptyString => Some (x, s)
  end.

(** [leadingFraction]: the digits that fit, as an integer and its scale; the
    others are skipped. *)
Definition float_ten : spec_float := float64_of_Z 10.
Fixpoint leadingFraction (x : Z) (scale : spec_float) (overflow : bool) (s : string) : Z * spec_float * string :=
  match s with
  | String.String c s' =>
      match digit_value c with
      | None => (x, scale, s)
      | Some d =>
          if overflow then leadingFraction x scale true s'
          else if Z.ltb ((2 ^ 63 - 1) / 10) x then leadingFraction x scale true s'
          else let y := x * 10 + d in
            if Z.ltb (2 ^ 63) y then leadingFraction x scale true s'
            else leadingFraction y (SFmul 53 1024 scale float_ten) false s'
      end
  | EmptyString => (x, scale, s)
  end.

(** The unit: everything up to a period or a digit. *)
Fixpoint unit_text (s : string) : string * string :=
  match s with
  | String.String c s' =>
      if Ascii.eqb c "."%char || is_digit c then (EmptyString, s)
      else let '(u, rest) := unit_text s' in (String.String c u, rest)
  | EmptyString => (EmptyString, EmptyString)
  end.
Definition unitMap (u : string) : option Z :=
  if u =s "ns" then Some 1
  else if (u =s "us") || (u =s bytes_str [194; 181; 115]%nat) || (u =s bytes_str [206; 188; 115]%nat) then Some 1000
  else if u =s "ms" then Some 1000000
  else if u =s "s" then Some Second
  else if u =s "m" then Some Minute
  else if u =s "h" then Some Hour
  else None.

(** The fraction [f / scale] of a unit, computed in [float64]. *)
Definition fraction_of (f : Z) (scale : spec_float) (unit : Z) : Z :=
  float64_trunc (SFmul 53 1024 (float64_of_Z f) (SFdiv 53 1024 (float64_of_Z unit) scale)).

(** One number with its unit, in nanoseconds. *)
Definition duration_part (s : string) : option (Z * string) :=
  match s with
  | EmptyString => None
  | String.String c _ =>
      if negb (Ascii.eqb c "."%char || is_digit c) then None
      else
        '(v, s1) ← leadingInt 0 s;
        let pre := negb (Nat.eqb (String.length s) (String.length s1)) in
        let '(f, scale, post, s2) :=
          match s1 with
          | String.String "."%char t =>
              let '(f, scale, rest) := leadingFraction 0 (float64_of_Z 1) false t in
              (f, scale, negb (Nat.eqb (String.length t) (String.length rest)), rest)
          | _ => (0, float64_of_Z 1, false, s1)
          end in
        if negb pre && negb post then None
        else
          let '(u, rest) := unit_text s2 in
          if u =s "" then None
          else
            unit ← unitMap u;
            if Z.ltb (2 ^ 63 / unit) v then None
            else
              let v := v * unit + (if Z.ltb 0 f then fraction_of f scale unit else 0) in
              if Z.ltb (2 ^ 63) v then None else Some (v, rest)
  end.
(** Every part consumes at least one byte: the length is enough fuel. *)
Fixpoint duration_parts (fuel : nat) (d : Z) (s : string) : option Z :=
  if s =s "" then Some d
  else match fuel with
  | O => None
  | S fuel =>
      '(v, rest) ← duration_part s;
      let d := d + v in
      if Z.ltb (2 ^ 63) d then None else duration_parts fuel d rest
  end.
Definition ParseDuration (s : string) : option Duration :=
  let '(neg, s) := match s with
    | String.String "-"%char rest => (true, rest)
    | String.String "+"%char rest => (false, rest)
    | _ => (false, s)
    end in
  if s =s "0" then Some 0
  else if s =s "" then None
  else
    d ← duration_parts (String.length s) 0 s;
    if neg : bool then Some (- d)
    else if Z.ltb (2 ^ 63 - 1) d then None else Some d.

Example durations :
  ParseDuration "1h30m" = Some (90 * Minute) ∧ ParseDuration "-1.5s" = Some (- 1500000000)
  ∧ ParseDuration "250ms" = Some 250000000 ∧ ParseDuration "0" = Some 0 ∧ ParseDuration "5" = None
  ∧ ParseDuration "" = None ∧ ParseDuration "1.1h" = Some 3960000000000 ∧ ParseDuration "3x" = None
  ∧ ParseDuration "2562048h" = None ∧ ParseDuration ".s" = None
  ∧ ParseDuration "9223372036854775808ns" = None ∧ ParseDuration "-9223372036854775808ns" = Some (- 2 ^ 63).
Proof. vm_compute. repeat split. Qed.

(** ** Defaults *)

Definition defaultAddr : string := ":8080".
Definition defaultDBDriver : string := "sqlite".
Definition defaultDBDSN : string := "anopki.db".
Definition defaultCoreBin : string := "anopki-core".
Definition defaultOutboxEnabled : bool := true.
Definition defaultOutboxInterval : Duration := 5 * Second.
Definition defaultOutboxBatchSize : Z := 10.
Definition defaultExpirationScanEnabled : bool := false.
Definition defaultExpirationScanInterval : Duration := Hour.
Definition defaultExpirationScanWarningWindow : Duration := 30 * 24 * Hour.
Definition defaultExpirationScanBatchSize : Z := 100.
Definition defaultBootstrapAPIKeyName : string := "bootstrap".
Definition defaultBootstrapAPIKeyActor : string := "bootstrap".
Definition defaultACMESmokeValidity : Duration := 24 * Hour.
Definition defaultACMESmokeIssuerKeyRef : string := ".tmp/acme-smoke/acme-smoke-issuer.key".
Definition productionEnv : string := "production".
Definition minProductionBootstrapKeyLength : nat := 32.
Definition defaultServiceVersion : string := "dev".
Definition defaultServiceCommit : string := "unknown".
Definition defaultServiceBuildTime : string := "unknown".

Record outboxConfig := mk_outboxConfig {
  outboxConfig_Enabled : bool; outboxConfig_Interval : Duration; outboxConfig_BatchSize : Z }.
Record expirationScanConfig := mk_expirationScanConfig {
  expirationScanConfig_Enabled : bool; expirationScanConfig_Interval : Duration;
  expirationScanConfig_WarningWindow : Duration; expirationScanConfig_BatchSize : Z }.
Record acmeHTTP01VerifierConfig := mk_acmeHTTP01VerifierConfig { acmeHTTP01VerifierConfig_BaseURL : string }.
Record acmeDefaultsConfig := mk_acmeDefaultsConfig {
  acmeDefaultsConfig_BootstrapDefaults : bool; acmeDefaultsConfig_ValidityPeriod : Duration;
  acmeDefaultsConfig_IssuerKeyRef : string }.
Record acmeNonceConfig := mk_acmeNonceConfig { acmeNonceConfig_Store : string }.
Record publicTLSConfig := mk_publicTLSConfig {
  publicTLSConfig_MaxValidity : Duration;
  publicTLSConfig_CAAIssuerDomain : string;
  publicTLSConfig_CAAAccountURI : string;
  publicTLSConfig_CAAValidationMethod : string;
  publicTLSConfig_CAAResolver : string;
  publicTLSConfig_CAALookupTimeout : Duration;
  publicTLSConfig_AllowDNSSECIndeterminate : bool }.
Record authConfig := mk_authConfig {
  authConfig_HTTP : AuthConfig;
  authConfig_BootstrapAPIKey : string;
  authConfig_BootstrapAPIKeyName : string;
  authConfig_BootstrapAPIKeyActor : string;
  authConfig_APIKeyPepper : string }.

(** ** Variables *)

Section Config.
Context `{GoUnicode} `{GoURL} (getenv : string → string).

Definition envOrDefault (name fallback : string) : string :=
  let value := getenv name in if value =s "" then fallback else value.

Definition invalid_value (name : string) : goerr := EWrap name (EText "invalid syntax").

Definition parseBoolEnv (name : string) (fallback : bool) : res bool :=
  let value := getenv name in
  if value =s "" then Ok fallback
  else match ParseBool value with Some parsed => Ok parsed | None => Err (invalid_value name) end.

Definition parseDurationEnv (name : string) (fallback : Duration) : res Duration :=
  let value := getenv name in
  if value =s "" then Ok fallback
  else match ParseDuration value with
  | None => Err (invalid_value name)
  | Some parsed => if Z.leb parsed 0 then Err (EText (name +:+ " must be positive")) else Ok parsed
  end.

Definition parseNonNegativeDurationEnv (name : string) (fallback : Duration) : res Duration :=
  let value := getenv name in
  if value =s "" then Ok fallback
  else match ParseDuration value with
  | None => Err (invalid_value name)
  | Some parsed => if Z.ltb parsed 0 then Err (EText (name +:+ " must be non-negative")) else Ok parsed
  end.

Definition parsePositiveIntEnv (name : string) (fallback : Z) : res Z :=
  let value := getenv name in
  if value =s "" then Ok fallback
  else match Atoi value with
  | None => Err (invalid_value name)
  | Some parsed => if Z.leb parsed 0 then Err (EText (name +:+ " must be positive")) else Ok parsed
  end.

(** ** Authentication *)

Definition isProductionEnv (env : string) : bool := EqualFold (TrimSpace env) productionEnv.

(** The loop compares every rune with the one at index 0. *)
Definition isSingleRepeatedRune (value : string) : bool :=
  match runes value with
  | [] => false
  | first :: rest => forallb (Z.eqb first) rest && (value <>s "")
  end.

Definition commonSecrets : list string :=
  ["change-me"; "changeme"; "bootstrap"; "bootstrap-token"; "password"; "secret"; "admin"; "anopki"; "anopki-bootstrap"].
Definition isWeakProductionSecret (token : string) : bool :=
  let trimmed := TrimSpace token in
  if Nat.ltb (String.length trimmed) minProductionBootstrapKeyLength then true
  else if isSingleRepeatedRune trimmed then true
  else bool_decide (ToLower trimmed ∈ commonSecrets).
Definition isWeakProductionBootstrapAPIKey (token : string) : bool := isWeakProductionSecret token.

Definition validateProductionAuthConfig (env : string) (mode : AuthMode) (bootstrapAPIKey apiKeyPepper : string)
    : res unit :=
  if negb (isProductionEnv env) then Ok tt
  else
    do! check_not (mode =s AuthModeDev) (EText "ANOPKI_ENV=production requires ANOPKI_AUTH_MODE=api_key") in
    do! check_not (isWeakProductionSecret apiKeyPepper)
          (EText "ANOPKI_API_KEY_PEPPER must be at least 32 characters and not a common default in production") in
    check_not ((bootstrapAPIKey <>s "") && isWeakProductionBootstrapAPIKey bootstrapAPIKey)
      (EText "ANOPKI_BOOTSTRAP_API_KEY must be at least 32 characters and not a common default in production").

Definition parseTrustedProxy (value : string) : res Prefix :=
  if contains_byte "/"%char value then
    match ParsePrefix value with Some p => Ok p | None => Err (EText "netip.ParsePrefix") end
  else match ParseAddr value with
  | None => Err (EText "netip.ParseAddr")
  | Some addr =>
      let addr := Unmap addr in
      (** [netip.PrefixFrom] drops the zone *)
      Ok (mkPrefix (mkAddr (addr_is6 addr) (addr_bits addr) "") (addr_width addr))
  end.

Fixpoint trustedProxiesLoop (name : string) (values : list string) : res (list Prefix) :=
  match values with
  | [] => Ok []
  | value :: values =>
      let value := TrimSpace value in
      if value =s "" then trustedProxiesLoop name values
      else match parseTrustedProxy value with
      | Err e => Err (EWrap (name +:+ " contains invalid proxy " +:+ value) e)
      | Ok prefix => let! rest := trustedProxiesLoop name values in Ok (prefix :: rest)
      end
  end.
Definition parseTrustedProxiesEnv (name : string) : res (list Prefix) :=
  let raw := TrimSpace (getenv name) in
  if raw =s "" then Ok [] else trustedProxiesLoop name (split_byte ","%char raw).

Definition loadAuthConfig : res authConfig :=
  let mode := TrimSpace (envOrDefault "ANOPKI_AUTH_MODE" AuthModeDev) in
  if (mode <>s AuthModeDev) && (mode <>s AuthModeAPIKey)
  then Err (EText "ANOPKI_AUTH_MODE must be dev or api_key")
  else
    let bootstrapAPIKey := getenv "ANOPKI_BOOTSTRAP_API_KEY" in
    let apiKeyPepper := getenv "ANOPKI_API_KEY_PEPPER" in
    let! trustedProxies := parseTrustedProxiesEnv "ANOPKI_TRUSTED_PROXIES" in
    do! validateProductionAuthConfig (getenv "ANOPKI_ENV") mode bootstrapAPIKey apiKeyPepper in
    Ok (mk_authConfig (mkAuthConfig mode trustedProxies 0) bootstrapAPIKey
          (envOrDefault "ANOPKI_BOOTSTRAP_API_KEY_NAME" defaultBootstrapAPIKeyName)
          (envOrDefault "ANOPKI_BOOTSTRAP_API_KEY_ACTOR" defaultBootstrapAPIKeyActor)
          (TrimSpace apiKeyPepper)).

(** ** Workers, public TLS and ACME *)

Definition loadOutboxConfig : res outboxConfig :=
  let! enabled := parseBoolEnv "ANOPKI_OUTBOX_ENABLED" defaultOutboxEnabled in
  let! interval := parseDurationEnv "ANOPKI_OUTBOX_INTERVAL" defaultOutboxInterval in
  let! batchSize := parsePositiveIntEnv "ANOPKI_OUTBOX_BATCH_SIZE" defaultOutboxBatchSize in
  Ok (mk_outboxConfig enabled interval batchSize).

Definition loadExpirationScanConfig : res expirationScanConfig :=
  let! enabled := parseBoolEnv "ANOPKI_EXPIRATION_SCAN_ENABLED" defaultExpirationScanEnabled in
  let! interval := parseDurationEnv "ANOPKI_EXPIRATION_SCAN_INTERVAL" defaultExpirationScanInterval in
  let! warningWindow := parseNonNegativeDurationEnv "ANOPKI_EXPIRATION_WARNING_WINDOW"
    defaultExpirationScanWarningWindow in
  let! batchSize := parsePositiveIntEnv "ANOPKI_EXPIRATION_SCAN_BATCH_SIZE" defaultExpirationScanBatchSize in
  Ok (mk_expirationScanConfig enabled interval warningWindow batchSize).

(** A trimmed duration that is positive when it is set. *)
Definition optionalDuration (name : string) (fallback : Duration) : res Duration :=
  let value := TrimSpace (getenv name) in
  if value =s "" then Ok fallback
  else match ParseDuration value with
  | None => Err (invalid_value name)
  | Some d => if Z.leb d 0 then Err (EText (name +:+ " must be positive")) else Ok d
  end.
Definition loadPublicTLSConfig : res publicTLSConfig :=
  let issuerDomain := TrimSpace (getenv "ANOPKI_PUBLIC_TLS_CAA_ISSUER_DOMAIN") in
  let accountURI := TrimSpace (getenv "ANOPKI_PUBLIC_TLS_CAA_ACCOUNT_URI") in
  let validationMethod := TrimSpace (envOrDefault "ANOPKI_PUBLIC_TLS_CAA_VALIDATION_METHOD" ACMEChallengeHTTP01) in
  let resolver := TrimSpace (getenv "ANOPKI_PUBLIC_TLS_CAA_RESOLVER") in
  let! maxValidity := optionalDuration "ANOPKI_PUBLIC_TLS_MAX_VALIDITY" 0 in
  let! timeout := optionalDuration "ANOPKI_PUBLIC_TLS_CAA_LOOKUP_TIMEOUT" (5 * Second) in
  let! allowIndeterminate := parseBoolEnv "ANOPKI_PUBLIC_TLS_CAA_ALLOW_DNSSEC_INDETERMINATE" false in
  do! check_not ((issuerDomain <>s "") && ((resolver =s "") || (validationMethod =s "")))
        (EText "ANOPKI_PUBLIC_TLS_CAA_RESOLVER and ANOPKI_PUBLIC_TLS_CAA_VALIDATION_METHOD are required when ANOPKI_PUBLIC_TLS_CAA_ISSUER_DOMAIN is set") in
  Ok (mk_publicTLSConfig maxValidity issuerDomain accountURI validationMethod resolver timeout allowIndeterminate).

Definition loadACMEHTTP01VerifierConfig : res acmeHTTP01VerifierConfig :=
  let baseURL := TrimSpace (getenv "ANOPKI_ACME_HTTP01_BASE_URL") in
  do! (if baseURL =s "" then Ok tt
       else match newVerifierBase baseURL with
            | Ok _ => Ok tt
            | Err e => Err (EWrap "ANOPKI_ACME_HTTP01_BASE_URL" e)
            end) in
  Ok (mk_acmeHTTP01VerifierConfig baseURL).

Definition loadACMEDefaultsConfig : res acmeDefaultsConfig :=
  let! bootstrap := parseBoolEnv "ANOPKI_ACME_BOOTSTRAP_DEFAULTS" false in
  let! validity := parseDurationEnv "ANOPKI_ACME_DEFAULT_VALIDITY" defaultACMESmokeValidity in
  Ok (mk_acmeDefaultsConfig bootstrap validity
        (envOrDefault "ANOPKI_ACME_BOOTSTRAP_ISSUER_KEY_REF" defaultACMESmokeIssuerKeyRef)).

Definition loadACMENonceConfig : res acmeNonceConfig :=
  let store := TrimSpace (envOrDefault "ANOPKI_ACME_NONCE_STORE" "memory") in
  do! check_not ((store <>s "memory") && (store <>s "sql")) (EText "ANOPKI_ACME_NONCE_STORE must be memory or sql") in
  do! check_not (isProductionEnv (getenv "ANOPKI_ENV") && (store <>s "sql"))
        (EText "ANOPKI_ACME_NONCE_STORE must be sql when ANOPKI_ENV=production") in
  Ok (mk_acmeNonceConfig store).
End Config.
