(* ===== verification/Startup.v ===== *)
(** * Start-up, readiness and shutdown ([cmd/anopki-service], [observability])

    [main] as an action over the state of the process: the operating system,
    the database, the world of the service (what the repository over this
    database holds), the log and the counters. [log.Fatalf] ends the process:
    it is an error of the action. What [main] hands to the HTTP server and the
    workers is the record [Started]. *)

From Stdlib Require Import Ascii.
From S2P Require Import Prelude GoLib Crypto GoJSON Domain Core NetIP HTTP01 Requests AuditChain Store StoreInv.
From S2P Require Import SQLTime SQLText SQLEngine SQLStore Migrations SQLEngineFacts SQLRefinement SQLFacts.
From S2P Require Import Service Policy Registry APIKeys Lifecycle Issuance Outbox CAADNS.
From S2P Require Import HTTPTypes HTTPBoundary HTTPCore CoreRunner Samples Machines ServiceFacts Invariants Workers Config.

Local Open Scope Z_scope.

(** ** Construction of the service ([lifecycle/service.go])

    The fields of [Service] are fields of the class [Env]. *)

Record CertificateIssuer := mkCertificateIssuer {
  ci_Issue : nat → IssueRequest → res IssueResult;
  ci_InspectCSR : nat → string → res CSRInfo;
  ci_GenerateCRL : nat → GenerateCRLRequest → res GenerateCRLResult;
  ci_InspectOCSPIssuer : nat → string → string → res OCSPIssuerInfo;
  ci_ValidateOCSPResponder : nat → string → string → res ValidateOCSPResponderResult;
  ci_InspectOCSP : nat → string → res OCSPRequestInfo;
  ci_GenerateOCSPResponse : nat → GenerateOCSPResponseRequest → res GenerateOCSPResponseResult;
}.
Definition HTTP01Verifier := nat → string → string → string → res unit.

(** Go's structs are updated in place; here each setter gives the new value. *)
Definition with_service (E : Env) (issuer : CertificateIssuer) (keys : nat → string → res ProviderInfo)
    (verifier : HTTP01Verifier) (lint : option (nat → PublicTLSLintRequest → res unit)) (pepper : string)
    (production : bool) (maxValidity : Duration) (caa : option PublicTLSCAAPolicy) : Env := {|
  env_codec := @env_codec E;
  env_unicode := @env_unicode E;
  env_url := @env_url E;
  json_policy_input := @json_policy_input E;
  json_evidence := @json_evidence E;
  json_evidence_decode := @json_evidence_decode E;
  clock_Now := @clock_Now E;
  idgen_NewID := @idgen_NewID E;
  rand_bytes := @rand_bytes E;
  since_ms := @since_ms E;
  issuer_Issue := ci_Issue issuer;
  issuer_InspectCSR := ci_InspectCSR issuer;
  issuer_GenerateCRL := ci_GenerateCRL issuer;
  issuer_InspectOCSPIssuer := ci_InspectOCSPIssuer issuer;
  issuer_ValidateOCSPResponder := ci_ValidateOCSPResponder issuer;
  issuer_InspectOCSP := ci_InspectOCSP issuer;
  issuer_GenerateOCSPResponse := ci_GenerateOCSPResponse issuer;
  key_CheckReady := keys;
  acme_VerifyHTTP01 := verifier;
  lint_CheckPublicTLS := lint;
  error_text := @Service.error_text E;
  apiKeyPepper := pepper;
  productionPolicy := production;
  publicTLSMaxValidityOverride := maxValidity;
  publicTLSCAAPolicy := caa;
  env_ctx := @env_ctx E;
|}.
Definition issuer_of (E : Env) : CertificateIssuer :=
  mkCertificateIssuer (@issuer_Issue E) (@issuer_InspectCSR E) (@issuer_GenerateCRL E) (@issuer_InspectOCSPIssuer E)
    (@issuer_ValidateOCSPResponder E) (@issuer_InspectOCSP E) (@issuer_GenerateOCSPResponse E).

(** [defaultACMEHTTP01Verifier]: a verifier without an override; [fetch] is the
    guarded HTTP client. *)
Definition NewACMEHTTP01Verifier `{GoUnicode} (base : option URL) (fetch : nat → URL → res (Z * string)) : HTTP01Verifier :=
  λ t identifier token keyAuthorization, VerifyHTTP01 base (fetch t) identifier token keyAuthorization.
Definition defaultACMEHTTP01Verifier `{GoUnicode} (fetch : nat → URL → res (Z * string)) : HTTP01Verifier :=
  NewACMEHTTP01Verifier None fetch.

Definition NewWithACMEHTTP01VerifierAndAPIKeyPepper (fetch : nat → URL → res (Z * string)) (E : Env)
    (issuer : CertificateIssuer) (verifier : option HTTP01Verifier) (pepper : string) : Env :=
  let verifier := default (defaultACMEHTTP01Verifier fetch) verifier in
  with_service E issuer (λ _ ref, FileProvider_CheckReady ref) verifier None (TrimSpace pepper) false 0 None.
Definition NewWithAPIKeyPepper fetch (E : Env) issuer pepper : Env :=
  NewWithACMEHTTP01VerifierAndAPIKeyPepper fetch E issuer None pepper.
Definition NewWithACMEHTTP01Verifier fetch (E : Env) issuer verifier : Env :=
  NewWithACMEHTTP01VerifierAndAPIKeyPepper fetch E issuer verifier "".
Definition New fetch (E : Env) issuer : Env := NewWithACMEHTTP01Verifier fetch E issuer None.

Definition EnableProductionPolicy (E : Env) : Env :=
  with_service E (issuer_of E) (@key_CheckReady E) (@acme_VerifyHTTP01 E) (@lint_CheckPublicTLS E)
    (@apiKeyPepper E) true (@publicTLSMaxValidityOverride E) (@publicTLSCAAPolicy E).
Definition SetKeyProvider (provider : option (nat → string → res ProviderInfo)) (E : Env) : res Env :=
  match provider with
  | None => Err ErrInvalidRequest
  | Some keys =>
      Ok (with_service E (issuer_of E) keys (@acme_VerifyHTTP01 E) (@lint_CheckPublicTLS E)
            (@apiKeyPepper E) (@productionPolicy E) (@publicTLSMaxValidityOverride E) (@publicTLSCAAPolicy E))
  end.
Definition SetPublicTLSMaxValidity (maxValidity : Duration) (E : Env) : res Env :=
  if Z.leb maxValidity 0 then Err ErrInvalidRequest
  else Ok (with_service E (issuer_of E) (@key_CheckReady E) (@acme_VerifyHTTP01 E) (@lint_CheckPublicTLS E)
             (@apiKeyPepper E) (@productionPolicy E) maxValidity (@publicTLSCAAPolicy E)).

(** [rejectingCAALookup]: the lookup of a policy without one. *)
Definition rejectingCAALookup : nat → string → res CAALookupResult := λ _ _, Err ErrInvalidRequest.
Definition SetPublicTLSCAAPolicy (issuerDomain accountURI validationMethod : string) (allowIndeterminate : bool)
    (lookup : option (nat → string → res CAALookupResult)) (E : Env) : res Env :=
  if isBlank issuerDomain || isBlank validationMethod then Err ErrInvalidRequest
  else Ok (with_service E (issuer_of E) (@key_CheckReady E) (@acme_VerifyHTTP01 E) (@lint_CheckPublicTLS E)
             (@apiKeyPepper E) (@productionPolicy E) (@publicTLSMaxValidityOverride E)
             (Some (mkPublicTLSCAAPolicy issuerDomain accountURI validationMethod allowIndeterminate
                      (default rejectingCAALookup lookup)))).
Definition SetPublicTLSLintHook (hook : option (nat → PublicTLSLintRequest → res unit)) (E : Env) : res Env :=
  match hook with
  | None => Err ErrInvalidRequest
  | Some _ =>
      Ok (with_service E (issuer_of E) (@key_CheckReady E) (@acme_VerifyHTTP01 E) hook
            (@apiKeyPepper E) (@productionPolicy E) (@publicTLSMaxValidityOverride E) (@publicTLSCAAPolicy E))
  end.

(** [corecli.Runner] as the issuer of the service: each call runs on the
    operating system as it is at that time. *)
Definition runner_issuer `{OSEnv} (os_at : nat → OS) (bin : string) : CertificateIssuer :=
  mkCertificateIssuer
    (λ t req, (CoreRunner.Issue bin req (os_at t)).1) (λ t csr, (InspectCSR bin csr (os_at t)).1)
    (λ t req, (GenerateCRL bin req (os_at t)).1) (λ t pem hash, (InspectOCSPIssuer bin pem hash (os_at t)).1)
    (λ t issuer responder, (CoreRunner.ValidateOCSPResponder bin issuer responder (os_at t)).1)
    (λ t der, (InspectOCSP bin der (os_at t)).1) (λ t req, (GenerateOCSPResponse bin req (os_at t)).1).

(** ** Operation counters ([observability/metrics.go]) *)

Record Metrics := mkMetrics { m_operations : gmap string Z; m_latencyMS : gmap string Z }.
Definition metric_add (key : string) (n : Z) (m : gmap string Z) : gmap string Z :=
  <[key := wrap64 (default 0 (m !! key) + n)]> m.
Definition expvarIntValue (value : option Z) : Z := default 0 value.
Definition OperationMetricValue (m : Metrics) (key : string) : Z := expvarIntValue (m_operations m !! key).
Definition ObserveOperation (boundary operation : string) (elapsed_ms : Z) (failed : bool) (m : Metrics) : Metrics :=
  let status := if failed then "error" else "success" in
  let key := boundary +:+ ":" +:+ operation +:+ ":" +:+ status in
  mkMetrics (metric_add key 1 (m_operations m)) (metric_add key elapsed_ms (m_latencyMS m)).

(** ** The process *)

Record Proc := mkProc {
  pr_os : OS;
  pr_db : SQLConn;
  pr_world : World;
  pr_log : list string;
  pr_metrics : Metrics;
}.
Definition PM (A : Type) := GoM Proc A.

Definition onOS {A} (m : IO A) : PM A := λ p,
  let '(r, os) := m (pr_os p) in (r, mkProc os (pr_db p) (pr_world p) (pr_log p) (pr_metrics p)).
Definition onDB {A} (m : SQLM A) : PM A := λ p,
  let '(r, db) := m (pr_db p) in (r, mkProc (pr_os p) db (pr_world p) (pr_log p) (pr_metrics p)).
Definition onSvc {A} (m : Svc A) : PM A := λ p,
  let '(r, w) := m (pr_world p) in (r, mkProc (pr_os p) (pr_db p) w (pr_log p) (pr_metrics p)).
Definition logf (line : string) : PM unit :=
  putM (λ p, mkProc (pr_os p) (pr_db p) (pr_world p) (pr_log p ++ [line]) (pr_metrics p)).
Definition observe (f : Metrics → Metrics) : PM unit :=
  putM (λ p, mkProc (pr_os p) (pr_db p) (pr_world p) (pr_log p) (f (pr_metrics p))).

(** ** Structured logs *)

Section Logs.
Context `{GoUnicode}.

Definition isSecretLogField (key : string) : bool :=
  let key := ToLower key in
  Contains key "secret" || Contains key "token" || Contains key "password" || Contains key "pepper"
  || Contains key "private_key".

Definition log_value (key : string) (value : JSON) : JSON :=
  if isSecretLogField key then JString "[redacted]" else value.
Definition log_record (event : string) (fields : list (string * JSON)) : gmap string JSON :=
  foldl (λ m '(key, value), <[key := log_value key value]> m) {["event" := JString event]} fields.
(** [json.Marshal] of a map writes its members in the order of their keys. *)
Definition log_line (event : string) (fields : list (string * JSON)) : string :=
  json_Marshal (JObject (go_sort (λ a b, fst a <s fst b) (map_to_list (log_record event fields)))).
Definition logStructured (event : string) (fields : list (string * JSON)) : PM unit := logf (log_line event fields).
End Logs.

(** ** Readiness *)

(** Everything else outside the program. *)
Class StartEnv := {
  st_os :: OSEnv;
  st_driver :: SQLDriver;
  st_dns :: DNSEnv;
  st_webhook :: WebhookEnv;
  (** the operating system as the running service finds it, by tick *)
  os_at : nat → OS;
  http01_fetch : nat → URL → res (Z * string);
  map_order : list (string * string) → list (string * string);
  (** [sql.Open], [db.PingContext], [os.Stat], [exec.LookPath] *)
  sql_Open : string → string → res unit;
  db_Ping : nat → res unit;
  os_Stat : nat → string → res unit;
  exec_LookPath : nat → string → res unit;
  ctx_Canceled : nat → option goerr;
  elapsed_ms : nat → Z;
  (** [crypto/rsa], [crypto/x509], [encoding/pem] for the smoke issuer *)
  smoke_key : nat → res string;
  smoke_serial : nat → res Z;
  smoke_certificate : string → Z → res string;
  smoke_pkcs8 : string → res string;
  pem_Encode : string → string → string;
  mkdir_fault : nat → string → option goerr;
  (** [log] and formatting *)
  duration_String : Duration → string;
}.

Section Start.
Context `{E : Env} `{SE : StartEnv} (getenv : string → string).
(** Both classes bring their Unicode tables; those of the service are used. *)
#[local] Existing Instance env_unicode | 0.

(** The time of a call. *)
Definition proc_tick : PM nat := onOS tick.

Definition observeOperation {A} (boundary operation : string) (fn : PM A) : PM A := λ p,
  let '(r, p1) := fn p in
  (r, (observe (ObserveOperation boundary operation (elapsed_ms (os_tick (pr_os p1))) (negb (is_ok r))) p1).2).

Definition keyRefProvider (keyRef : string) : string := Class_ keyRef.
Definition fileKeyRefPath (keyRef : string) : string := FilePath keyRef.

Definition checkReadableKeyRef (keyRef : string) (production : bool) : PM unit :=
  if keyRefProvider keyRef =s ClassFile then
    if production then failM (EText "file key provider is not allowed in production")
    else onOS (do* Open (fileKeyRefPath keyRef) in Close)
  else failM (EText ("unsupported key provider " +:+ keyRefProvider keyRef)).

Definition checkResponder (production : bool) (responder : OCSPResponder) : PM unit :=
  if OCSPResponder_Status responder <>s OCSPResponderActive then retM tt
  else wrapErr "ocsp responder key ref unavailable" (checkReadableKeyRef (OCSPResponder_KeyRef responder) production).
Definition checkIssuer (production : bool) (issuer : Issuer) : PM unit :=
  let* t := proc_tick in
  match ctx_Canceled t with
  | Some err => failM err
  | None =>
      if Issuer_Status issuer <>s IssuerActive then retM tt
      else
        do* wrapErr "issuer key ref unavailable" (checkReadableKeyRef (Issuer_KeyRef issuer) production) in
        let* responders := onSvc (repo (Store.ListOCSPRespondersByIssuer (Issuer_ID issuer))) in
        forM responders (checkResponder production)
  end.
Definition checkActiveKeyRefs (production : bool) : PM unit :=
  let* issuers := onSvc (repo Store.ListIssuers) in
  forM issuers (checkIssuer production).

Definition checkCoreCLIAvailable (bin : string) : PM unit :=
  let bin := if TrimSpace bin =s "" then defaultCoreBin else bin in
  let* t := proc_tick in
  (** an absolute path holds a slash *)
  if contains_byte "/"%char bin || contains_byte "\"%char bin
  then wrapErr "core CLI unavailable" (liftM (os_Stat t bin))
  else wrapErr "core CLI unavailable" (liftM (exec_LookPath t bin)).
Definition checkCoreCLI (bin : string) : PM unit := observeOperation "core_cli" "readiness" (checkCoreCLIAvailable bin).

Definition newDatabaseReadinessCheck (driver : string) : PM unit :=
  observeOperation "db" "readiness" (
    let* t := proc_tick in
    do* liftM (db_Ping t) in
    onDB (CheckInitialMigration driver)).

Definition newServiceReadinessCheck (driver coreBin : string) : PM unit :=
  let production := isProductionEnv (getenv "ANOPKI_ENV") in
  do* newDatabaseReadinessCheck driver in
  do* checkCoreCLI coreBin in
  checkActiveKeyRefs production.

(** ** The operational endpoints *)

Record keyProviderPolicyMetadata := mk_keyProviderPolicyMetadata {
  kp_SupportedClasses : list string;
  kp_FileProviderExportability : string;
  kp_FileProviderAllowedProduction : bool;
  kp_CoreSigningEvidenceRequired : bool;
  kp_AutomaticProviderFallback : bool;
}.
Definition communityKeyProviderPolicyMetadata : keyProviderPolicyMetadata :=
  mk_keyProviderPolicyMetadata [ClassFile] ExportabilityExportable false true false.

Record operationalConfig := mk_operationalConfig {
  op_Version : string;
  op_Commit : string;
  op_BuildTime : string;
  op_StartedAt : Time;
  op_Ready : option (PM unit);
  op_Backend : BackendInfo;
  op_KeyProviderPolicy : keyProviderPolicyMetadata;
}.

Definition json_BackendInfo (info : BackendInfo) : JSON :=
  JObject
    [("product_profile", JString (BackendInfo_ProductProfile info));
     ("edition", JString (BackendInfo_Edition info));
     ("selected_backend", JString (BackendInfo_SelectedBackend info));
     ("fallback_enabled", JBoolean (BackendInfo_FallbackEnabled info));
     ("backend_id", JString (BackendInfo_BackendID info));
     ("backend_dependency", JString (BackendInfo_BackendDependency info));
     ("backend_version", JString (BackendInfo_BackendVersion info));
     ("backend_readiness", JString (BackendInfo_BackendReadiness info));
     ("backend_capabilities", slice_json (nil_slice "backend_capabilities") (BackendInfo_BackendCapabilities info));
     ("backend_abi_version", JNumber (BackendInfo_BackendABIVersion info));
     ("backend_build_fingerprint", JString (BackendInfo_BackendBuildFingerprint info))].
Definition json_keyProviderPolicy (p : keyProviderPolicyMetadata) : JSON :=
  JObject
    [("supported_classes", strings_json (kp_SupportedClasses p));
     ("file_provider_exportability", JString (kp_FileProviderExportability p));
     ("file_provider_allowed_in_production", JBoolean (kp_FileProviderAllowedProduction p));
     ("core_signing_evidence_required", JBoolean (kp_CoreSigningEvidenceRequired p));
     ("automatic_provider_fallback", JBoolean (kp_AutomaticProviderFallback p))].

(** The answer of the outer mux: its own JSON, a redirection to the clean path,
    or what the API server answers. Maps are written in the order of their keys. *)
Inductive Routed := RoutedJSON (status : Z) (value : JSON) | RoutedRedirect | RoutedNext.

Definition orDefaultText (value fallback : string) : string := if value =s "" then fallback else value.

Definition newOperationalHandler (now : Time) (cfg : operationalConfig) (r : Request) : PM Routed :=
  let startedAt := if IsZero (op_StartedAt cfg) then now else op_StartedAt cfg in
  let path := if req_Method r =s "CONNECT" then req_EscapedPath r else cleanPath (req_EscapedPath r) in
  if path <>s req_EscapedPath r then retM RoutedRedirect
  else if negb ((req_Method r =s "GET") || (req_Method r =s "HEAD")) then retM RoutedNext
  else if path =s "/healthz" then
    retM (RoutedJSON 200 (JObject [("started_at", JString (formatRFC3339Nano startedAt)); ("status", JString "ok")]))
  else if path =s "/readyz" then
    let* ready := catchM (default (retM tt) (op_Ready cfg)) in
    match ready with
    | Err _ => retM (RoutedJSON 503 (JObject [("error", JString "readiness check failed"); ("status", JString "not_ready")]))
    | Ok _ => retM (RoutedJSON 200 (JObject [("status", JString "ok")]))
    end
  else if path =s "/version" then
    retM (RoutedJSON 200 (JObject
      [("backend", json_BackendInfo (op_Backend cfg));
       ("build_time", JString (orDefaultText (op_BuildTime cfg) defaultServiceBuildTime));
       ("commit", JString (orDefaultText (op_Commit cfg) defaultServiceCommit));
       ("key_provider_policy", json_keyProviderPolicy (op_KeyProviderPolicy cfg));
       ("service", JString "anopki-service");
       ("version", JString (orDefaultText (op_Version cfg) defaultServiceVersion))]))
  else retM RoutedNext.

(** ** Serving until shutdown *)

(** What the two [select]s see: the first, the end of [serve] or the cancelled
    context; the second, the end of [serve] or the timeout. *)
Inductive FirstSelect := ServeEnded (err : option goerr) | ContextDone.
Inductive SecondSelect := ServeEndedLate (err : option goerr) | ShutdownTimedOut.

(** [errors.Is(err, http.ErrServerClosed)] is [closed]. *)
Definition serve_result (closed : goerr → bool) (err : option goerr) : option goerr :=
  match err with Some e => if closed e then None else Some e | None => None end.
Definition runServerUntilShutdown (closed : goerr → bool) (first : FirstSelect) (shutdown : option goerr)
    (second : SecondSelect) : option goerr * list string :=
  match first with
  | ServeEnded err => (serve_result closed err, [])
  | ContextDone =>
      let log := ["AnoPKI service shutting down"] in
      match shutdown with
      | Some err => (Some err, log)
      | None =>
          match second with
          | ServeEndedLate err => (serve_result closed err, log)
          | ShutdownTimedOut => (Some (EText "context deadline exceeded"), log)
          end
      end
  end.

Record HTTPServer := mkHTTPServer {
  hsrv_Addr : string; hsrv_ReadHeaderTimeout : Duration; hsrv_ReadTimeout : Duration;
  hsrv_WriteTimeout : Duration; hsrv_IdleTimeout : Duration; hsrv_MaxHeaderBytes : Z }.
Definition newHTTPServer (addr : string) : HTTPServer :=
  mkHTTPServer addr (5 * Second) (15 * Second) (30 * Second) (60 * Second) (Z.shiftl 1 20).

(** ** ACME defaults for smoke tests *)

(** [filepath.Dir]. *)
Fixpoint clean_relative (rooted : bool) (out segments : list string) : list string :=
  match segments with
  | [] => rev out
  | s :: segments =>
      if (s =s "") || (s =s ".") then clean_relative rooted out segments
      else if s =s ".." then
        match out with
        | top :: out' => if top =s ".." then clean_relative rooted (".." :: out) segments else clean_relative rooted out' segments
        | [] => clean_relative rooted (if rooted then [] else [".."]) segments
        end
      else clean_relative rooted (s :: out) segments
  end.
Definition filepath_Clean (p : string) : string :=
  let rooted := HasPrefix p "/" in
  let text := String.concat "/" (clean_relative rooted [] (split_byte "/"%char p)) in
  if rooted then "/" +:+ text else if text =s "" then "." else text.
Definition filepath_Dir (p : string) : string :=
  match last_index_byte "/"%char p with
  | Some i => filepath_Clean (str_take (S i) p)
  | None => "."
  end.

Definition MkdirAll (dir : string) : IO unit := let* t := tick in fail_on (mkdir_fault t dir).
(** [os.WriteFile]: a new or truncated file. *)
Definition WriteFile (name data : string) : IO unit :=
  let* t := tick in
  do* fail_on (create_fault t) in
  do* set_files (insert name "") in
  do* descriptor 1 in
  let* r := catchM (Write name data) in
  let* c := catchM Close in
  match r, c with
  | Err e, _ => failM e
  | Ok _, Err e => failM e
  | Ok _, Ok _ => retM tt
  end.

Definition ensureACMESmokeIssuerMaterial (issuerKeyRef : string) : IO (string * string) :=
  if TrimSpace issuerKeyRef =s "" then failM (EText "ANOPKI_ACME_BOOTSTRAP_ISSUER_KEY_REF must not be empty")
  else
    let* t := tick in
    let* key := wrapErr "generate ACME smoke issuer key" (liftM (smoke_key t)) in
    let* serial := wrapErr "generate ACME smoke issuer serial" (liftM (smoke_serial t)) in
    let* certDER := wrapErr "create ACME smoke issuer certificate" (liftM (smoke_certificate key serial)) in
    let* keyDER := wrapErr "marshal ACME smoke issuer key" (liftM (smoke_pkcs8 key)) in
    let keyDir := filepath_Dir issuerKeyRef in
    do* (if keyDir <>s "." then wrapErr "create ACME smoke issuer key dir" (MkdirAll keyDir) else retM tt) in
    do* wrapErr "write ACME smoke issuer key" (WriteFile issuerKeyRef (pem_Encode "PRIVATE KEY" keyDER)) in
    retM (pem_Encode "CERTIFICATE" certDER, issuerKeyRef).

Definition smoke_metadata : string :=
  json_Marshal (JObject [("team", JString "platform"); ("service", JString "acme-smoke");
    ("environment", JString "local"); ("deployment_target", JString "local")]).

Definition bootstrapACMEDefaults (svc : Env) (validity : Duration) (issuerKeyRef : string) : PM ACMEConfig :=
  let* '(issuerCertificatePEM, issuerKeyRef) := onOS (ensureACMESmokeIssuerMaterial issuerKeyRef) in
  let* identity := onSvc (@Registry.CreateIdentity svc "system"
    (mkCreateIdentityRequest "machine" "acme-smoke-edge-01" "acme-smoke-edge-01" "platform" "" "" "" "" zero_time
       smoke_metadata [] [])) in
  let* issuer := onSvc (@Registry.CreateIssuer svc "system"
    (mkCreateIssuerRequest "acme-smoke-issuer" "intermediate_ca" "" issuerCertificatePEM issuerKeyRef "" [] false)) in
  let* profile := onSvc (@Registry.CreateCertificateProfile svc "system"
    (mkCreateCertificateProfileRequest "acme-smoke-profile" "" (Issuer_ID issuer) (float64_trunc (Seconds validity)) false ""
       ["*.example.test"] ["127.0.0.0/8"] [] 0 [] (mkStringListExtensionPolicy false []) (mkStringListExtensionPolicy false [])
       (mkBasicConstraintsPolicy false false None) false false)) in
  retM (mkACMEConfig (Identity_ID identity) (Issuer_ID issuer) (CertificateProfile_ID profile) validity 0 0).

(** ** [main] *)

(** What [main] serves with: the address, the service, the API server and where
    its nonces are kept, the workers, and the operational handler. *)
Record Started := mkStarted {
  sd_httpServer : HTTPServer;
  sd_service : Env;
  sd_server : Server;
  sd_nonceStore : string;
  sd_outbox : option OutboxWorker;
  sd_scan : option ExpirationScanWorker;
  sd_operational : operationalConfig;
}.

(** [log.Fatalf(text+": %v", err)] *)
Definition fatal {A} (text : string) (m : PM A) : PM A := wrapErr text m.
Definition process_logger : Logger := λ log line, log ++ [line].

(** The CAA policy of the configuration, when it names an issuer domain. *)
Definition setCAAPolicy (cfg : publicTLSConfig) (svc : Env) : PM Env :=
  if publicTLSConfig_CAAIssuerDomain cfg =s "" then retM svc
  else
    let* lookup := fatal "create public TLS CAA lookup"
      (liftM (NewDNSCAALookup (publicTLSConfig_CAAResolver cfg) (publicTLSConfig_CAALookupTimeout cfg))) in
    fatal "set public TLS CAA policy"
      (liftM (SetPublicTLSCAAPolicy (publicTLSConfig_CAAIssuerDomain cfg) (publicTLSConfig_CAAAccountURI cfg)
         (publicTLSConfig_CAAValidationMethod cfg) (publicTLSConfig_AllowDNSSECIndeterminate cfg)
         (Some (λ t name, (LookupCAA lookup name t).1)) svc)).

Definition bootstrapAPIKey (svc : Env) (cfg : authConfig) : PM unit :=
  if authConfig_BootstrapAPIKey cfg =s "" then retM tt
  else
    let* key := fatal "bootstrap api key" (onSvc (@EnsureAPIKey svc "system"
      (mkEnsureAPIKeyRequest (authConfig_BootstrapAPIKeyName cfg) (authConfig_BootstrapAPIKey cfg)
         (authConfig_BootstrapAPIKeyActor cfg) []))) in
    logStructured "bootstrap_api_key.ready" [("id", JString (APIKey_ID key)); ("name", JString (APIKey_Name key));
      ("actor", JString (APIKey_Actor key))].

Definition setACMEDefaults (svc : Env) (cfg : acmeDefaultsConfig) : PM ACMEConfig :=
  if negb (acmeDefaultsConfig_BootstrapDefaults cfg) then retM (mkACMEConfig "" "" "" 0 0 0)
  else
    let* acme := fatal "bootstrap ACME defaults"
      (bootstrapACMEDefaults svc (acmeDefaultsConfig_ValidityPeriod cfg) (acmeDefaultsConfig_IssuerKeyRef cfg)) in
    do* logStructured "acme_defaults.ready"
      [("identity_id", JString (ACMEConfig_DefaultIdentityID acme)); ("issuer_id", JString (ACMEConfig_DefaultIssuerID acme));
       ("profile_id", JString (ACMEConfig_DefaultCertificateProfileID acme));
       ("validity", JString (duration_String (ACMEConfig_DefaultValidityPeriod acme)))] in
    retM acme.

Definition startOutbox (svc : Env) (cfg : outboxConfig) : PM (option OutboxWorker) :=
  if negb (outboxConfig_Enabled cfg) then retM None
  else
    let worker := @service_outbox_worker svc _ true (outboxConfig_Interval cfg) (outboxConfig_BatchSize cfg)
      (Some process_logger) in
    do* logStructured "outbox_worker.enabled" [("interval", JString (duration_String (outboxConfig_Interval cfg)));
      ("batch", JNumber (outboxConfig_BatchSize cfg))] in
    retM (Some worker).
Definition startScan (svc : Env) (cfg : expirationScanConfig) : PM (option ExpirationScanWorker) :=
  if negb (expirationScanConfig_Enabled cfg) then retM None
  else
    let worker := @service_scan_worker svc (expirationScanConfig_Interval cfg)
      (expirationScanConfig_WarningWindow cfg) (expirationScanConfig_BatchSize cfg) (Some process_logger) in
    do* logStructured "expiration_scan_worker.enabled"
      [("interval", JString (duration_String (expirationScanConfig_Interval cfg)));
       ("warning_window", JString (duration_String (expirationScanConfig_WarningWindow cfg)));
       ("batch", JNumber (expirationScanConfig_BatchSize cfg))] in
    retM (Some worker).

(** The service of the configuration. *)
Definition configuredService (coreBin : string) (auth : authConfig) (base : option URL) (tls : publicTLSConfig) : PM Env :=
  let production := isProductionEnv (getenv "ANOPKI_ENV") in
  let svc := NewWithACMEHTTP01VerifierAndAPIKeyPepper http01_fetch E (runner_issuer os_at coreBin)
    (Some (NewACMEHTTP01Verifier base http01_fetch)) (authConfig_APIKeyPepper auth) in
  let svc := if production then EnableProductionPolicy svc else svc in
  let* svc := (if Z.ltb 0 (publicTLSConfig_MaxValidity tls)
    then fatal "set public TLS max validity" (liftM (SetPublicTLSMaxValidity (publicTLSConfig_MaxValidity tls) svc))
    else retM svc) in
  setCAAPolicy tls svc.

(** Everything up to the point where the server listens. *)
Definition main (startedAt : Time) (serviceVersion serviceCommit serviceBuildTime : string) : PM Started :=
  let addr := envOrDefault getenv "ANOPKI_ADDR" defaultAddr in
  let dbDriver := envOrDefault getenv "ANOPKI_DB_DRIVER" defaultDBDriver in
  let dbDSN := envOrDefault getenv "ANOPKI_DB_DSN" defaultDBDSN in
  let coreBin := envOrDefault getenv "ANOPKI_CORE_BIN" defaultCoreBin in
  let* authCfg := fatal "load auth config" (liftM (loadAuthConfig getenv)) in
  let* outboxCfg := fatal "load outbox config" (liftM (loadOutboxConfig getenv)) in
  let* expirationScanCfg := fatal "load expiration scan config" (liftM (loadExpirationScanConfig getenv)) in
  let* verifierCfg := fatal "load ACME HTTP-01 verifier config" (liftM (loadACMEHTTP01VerifierConfig getenv)) in
  let* acmeDefaultsCfg := fatal "load ACME defaults config" (liftM (loadACMEDefaultsConfig getenv)) in
  let* acmeNonceCfg := fatal "load ACME nonce config" (liftM (loadACMENonceConfig getenv)) in
  let* publicTLSCfg := fatal "load public TLS config" (liftM (loadPublicTLSConfig getenv)) in
  let* backendInfo := fatal "load core backend metadata" (onOS (Runner_BackendInfo coreBin map_order)) in
  do* fatal "open database" (liftM (sql_Open dbDriver dbDSN)) in
  do* fatal "apply database migration" (observeOperation "db" "migration" (onDB (ApplyInitialMigration dbDriver))) in
  let* base := fatal "create ACME HTTP-01 verifier"
    (liftM (newVerifierBase (acmeHTTP01VerifierConfig_BaseURL verifierCfg))) in
  let* svc := configuredService coreBin authCfg base publicTLSCfg in
  do* (if acmeHTTP01VerifierConfig_BaseURL verifierCfg =s "" then retM tt
       else logStructured "acme_http01_override.enabled"
         [("base_url", JString (acmeHTTP01VerifierConfig_BaseURL verifierCfg))]) in
  do* bootstrapAPIKey svc authCfg in
  let* acmeHTTPConfig := setACMEDefaults svc acmeDefaultsCfg in
  do* (if acmeNonceConfig_Store acmeNonceCfg =s "sql"
       then logStructured "acme_nonce_store.enabled" [("store", JString "sql")] else retM tt) in
  let server := NewWithAuthorizer (authConfig_HTTP authCfg) acmeHTTPConfig in
  let* outbox := startOutbox svc outboxCfg in
  let* scan := startScan svc expirationScanCfg in
  let operational := mk_operationalConfig serviceVersion serviceCommit serviceBuildTime startedAt
    (Some (newServiceReadinessCheck dbDriver coreBin)) backendInfo communityKeyProviderPolicyMetadata in
  do* logStructured "service.listening" [("addr", JString addr)] in
  retM (mkStarted (newHTTPServer addr) svc server (acmeNonceConfig_Store acmeNonceCfg) outbox scan operational).
End Start.

(** ** What a configuration guarantees *)

Section ConfigFacts.
Context `{GoUnicode} `{GoURL} (getenv : string → string).

Lemma parseDurationEnv_ok name fallback d : 0 < fallback → parseDurationEnv getenv name fallback = Ok d → 0 < d.
Proof.
  intros Hf. unfold parseDurationEnv. repeat case_match; intros [= <-]; try done. by apply Z.leb_gt.
Qed.
Lemma parseNonNegativeDurationEnv_ok name fallback d :
  0 <= fallback → parseNonNegativeDurationEnv getenv name fallback = Ok d → 0 <= d.
Proof.
  intros Hf. unfold parseNonNegativeDurationEnv. repeat case_match; intros [= <-]; try done. by apply Z.ltb_ge.
Qed.
Lemma parsePositiveIntEnv_ok name fallback n : 0 < fallback → parsePositiveIntEnv getenv name fallback = Ok n → 0 < n.
Proof.
  intros Hf. unfold parsePositiveIntEnv. repeat case_match; intros [= <-]; try done. by apply Z.leb_gt.
Qed.

Lemma bindR_inv {A B} (r : res A) (k : A → res B) b : bindR r k = Ok b → ∃ a, r = Ok a ∧ k a = Ok b.
Proof. destruct r; [eauto|done]. Qed.

Lemma loadOutboxConfig_ok c : loadOutboxConfig getenv = Ok c →
  0 < outboxConfig_Interval c ∧ 0 < outboxConfig_BatchSize c.
Proof.
  intros (e & _ & (i & Hi%parseDurationEnv_ok & (b & Hb%parsePositiveIntEnv_ok & [= <-])%bindR_inv)%bindR_inv)%bindR_inv;
    done.
Qed.
Lemma loadExpirationScanConfig_ok c : loadExpirationScanConfig getenv = Ok c →
  0 < expirationScanConfig_Interval c ∧ 0 <= expirationScanConfig_WarningWindow c ∧ 0 < expirationScanConfig_BatchSize c.
Proof.
  intros (e & _ & (i & Hi%parseDurationEnv_ok & (w & Hw%parseNonNegativeDurationEnv_ok &
    (b & Hb%parsePositiveIntEnv_ok & [= <-])%bindR_inv)%bindR_inv)%bindR_inv)%bindR_inv; done.
Qed.
Lemma loadACMEDefaultsConfig_ok c : loadACMEDefaultsConfig getenv = Ok c → 0 < acmeDefaultsConfig_ValidityPeriod c.
Proof. intros (e & _ & (v & Hv%parseDurationEnv_ok & [= <-])%bindR_inv)%bindR_inv; done. Qed.

(** A strong secret: long, with two different runes. *)
Definition strong_secret (s : string) : Prop :=
  (32 <= String.length (TrimSpace s))%nat ∧ isSingleRepeatedRune (TrimSpace s) = false
  ∧ ToLower (TrimSpace s) ∉ commonSecrets.
Lemma isWeakProductionSecret_false s : isWeakProductionSecret s = false ↔ strong_secret s.
Proof.
  unfold isWeakProductionSecret, strong_secret, minProductionBootstrapKeyLength.
  destruct (Nat.ltb_spec (String.length (TrimSpace s)) 32); [split; [done|intros (? & _); lia]|].
  destruct (isSingleRepeatedRune _); [naive_solver|]. rewrite bool_decide_eq_false. naive_solver.
Qed.

Lemma loadAuthConfig_ok c : loadAuthConfig getenv = Ok c →
  let mode := AuthConfig_Mode (authConfig_HTTP c) in
  (mode = AuthModeDev ∨ mode = AuthModeAPIKey)
  ∧ authConfig_APIKeyPepper c = TrimSpace (getenv "ANOPKI_API_KEY_PEPPER")
  ∧ authConfig_BootstrapAPIKey c = getenv "ANOPKI_BOOTSTRAP_API_KEY"
  ∧ (isProductionEnv (getenv "ANOPKI_ENV") = true → mode = AuthModeAPIKey
     ∧ strong_secret (authConfig_APIKeyPepper c)
     ∧ (authConfig_BootstrapAPIKey c = "" ∨ strong_secret (authConfig_BootstrapAPIKey c))).
Proof.
  unfold loadAuthConfig. set (mode := TrimSpace (envOrDefault getenv "ANOPKI_AUTH_MODE" AuthModeDev)).
  destruct ((mode <>s AuthModeDev) && (mode <>s AuthModeAPIKey)) eqn:Em; [done|].
  intros (px & _ & (u & Hv & [= <-])%bindR_inv)%bindR_inv. cbn [authConfig_HTTP AuthConfig_Mode authConfig_APIKeyPepper authConfig_BootstrapAPIKey].
  assert (mode = AuthModeDev ∨ mode = AuthModeAPIKey) as Hm.
  { apply andb_false_iff in Em as [Em%negb_false_iff%String.eqb_eq|Em%negb_false_iff%String.eqb_eq]; auto. }
  split_and!; [done|done|done|]. intros Hp. unfold validateProductionAuthConfig in Hv. rewrite Hp in Hv.
  apply bindR_inv in Hv as (u1 & H1 & (u2 & H2 & H3)%bindR_inv).
  unfold check_not in *. destruct (String.eqb_spec mode AuthModeDev); [done|].
  destruct (isWeakProductionSecret _) eqn:E2; [done|]. apply isWeakProductionSecret_false in E2.
  split_and!; [naive_solver| |].
  - unfold strong_secret in *. by rewrite !TrimSpace_idem.
  - destruct (String.eqb_spec (getenv "ANOPKI_BOOTSTRAP_API_KEY") ""); [by left|right]. simpl in H3.
    apply isWeakProductionSecret_false. unfold isWeakProductionBootstrapAPIKey in H3. by destruct (isWeakProductionSecret _).
Qed.

Lemma loadACMENonceConfig_ok c : loadACMENonceConfig getenv = Ok c →
  (acmeNonceConfig_Store c = "memory" ∨ acmeNonceConfig_Store c = "sql")
  ∧ (isProductionEnv (getenv "ANOPKI_ENV") = true → acmeNonceConfig_Store c = "sql").
Proof.
  unfold loadACMENonceConfig, check_not. set (store := TrimSpace _).
  intros (u1 & H1 & (u2 & H2 & [= <-])%bindR_inv)%bindR_inv. cbn [acmeNonceConfig_Store].
  destruct (String.eqb_spec store "memory"), (String.eqb_spec store "sql"), (isProductionEnv _); simpl in *; naive_solver.
Qed.
Lemma optionalDuration_ok name fallback d : optionalDuration getenv name fallback = Ok d → d = fallback ∨ 0 < d.
Proof.
  unfold optionalDuration. repeat case_match; intros [= <-]; [by left|right]. by apply Z.leb_gt.
Qed.
Lemma loadPublicTLSConfig_ok c : loadPublicTLSConfig getenv = Ok c →
  0 <= publicTLSConfig_MaxValidity c ∧ 0 < publicTLSConfig_CAALookupTimeout c
  ∧ (publicTLSConfig_CAAIssuerDomain c ≠ "" →
     publicTLSConfig_CAAResolver c ≠ "" ∧ publicTLSConfig_CAAValidationMethod c ≠ "").
Proof.
  unfold loadPublicTLSConfig, check_not.
  intros (m & Hm%optionalDuration_ok & (t & Ht%optionalDuration_ok & (a & _ & (u & Hu & [= <-])%bindR_inv)%bindR_inv)%bindR_inv)%bindR_inv.
  cbn. split_and!; [lia|unfold Second in *; lia|]. intros Hd.
  destruct (String.eqb_spec (TrimSpace (getenv "ANOPKI_PUBLIC_TLS_CAA_ISSUER_DOMAIN")) ""); [done|].
  simpl in Hu. match goal with H : (if ?a || ?b then _ else _) = _ |- _ => destruct a eqn:Ea, b eqn:Eb; try done end.
  by apply String.eqb_neq in Ea, Eb.
Qed.
End ConfigFacts.

(** ** What a started process guarantees *)

Section Frame.
Context (R : relation World) `{!PreOrder R}.

(** An action that leaves the database connection and moves the world along [R]. *)
Definition framed {A} (m : PM A) : Prop := ∀ p,
  pr_db (m p).2 = pr_db p ∧ R (pr_world p) (pr_world (m p).2).

Lemma framed_pure {A} (r : res A) : framed (liftM r).
Proof. by intros p. Qed.
Lemma framed_ret {A} (a : A) : framed (retM a).
Proof. by intros p. Qed.
Lemma framed_bind {A B} (m : PM A) (k : A → PM B) : framed m → (∀ a, framed (k a)) → framed (bindM m k).
Proof.
  intros Hm Hk p. destruct (Hm p) as [Hd Hw]. unfold bindM. destruct (m p) as [[a|e] p1]; [|done].
  destruct (Hk a p1) as [Hd' Hw']. simpl in *. split; [congruence|by etrans].
Qed.
Lemma framed_wrap {A} text (m : PM A) : framed m → framed (wrapErr text m).
Proof. intros Hm p. specialize (Hm p). unfold wrapErr. by destruct (m p) as [[a|e] p1]. Qed.
Lemma framed_os {A} (m : IO A) : framed (onOS m).
Proof. intros p. unfold onOS. by destruct (m (pr_os p)). Qed.
Lemma framed_svc {A} (m : Svc A) : (∀ w, R w (m w).2) → framed (onSvc m).
Proof. intros Hm p. specialize (Hm (pr_world p)). unfold onSvc. by destruct (m (pr_world p)). Qed.
Lemma framed_log `{GoUnicode} event fields : framed (logStructured event fields).
Proof. by intros p. Qed.
End Frame.

Section Started.
Context `{E : Env} `{SE : StartEnv} (getenv : string → string).
#[local] Existing Instance env_unicode | 0.

Lemma configuredService_ok coreBin auth base tls p svc p' :
  configuredService (E:=E) getenv coreBin auth base tls p = (Ok svc, p') →
  p' = p ∧ @env_unicode svc = @env_unicode E
  ∧ @apiKeyPepper svc = TrimSpace (authConfig_APIKeyPepper auth)
  ∧ @productionPolicy svc = isProductionEnv (H:=@env_unicode E) (getenv "ANOPKI_ENV").
Proof.
  unfold configuredService, setCAAPolicy, fatal, wrapErr, SetPublicTLSMaxValidity, SetPublicTLSCAAPolicy.
  intros (svc1 & p1 & H1 & H2)%bindM_ok_inv.
  assert (p1 = p ∧ @env_unicode svc1 = @env_unicode E ∧ @apiKeyPepper svc1 = TrimSpace (authConfig_APIKeyPepper auth)
    ∧ @productionPolicy svc1 = isProductionEnv (H:=@env_unicode E) (getenv "ANOPKI_ENV")) as (-> & Hu & Hp & Hq).
  { unfold liftM, retM in H1. destruct (isProductionEnv _); repeat case_match; simplify_eq; done. }
  destruct (_ =s ""); [by injection H2 as <- <-|].
  apply bindM_ok_inv in H2 as (lookup & p2 & Hl & H2). unfold liftM in *.
  destruct (NewDNSCAALookup _ _); simplify_eq. destruct (isBlank _ || isBlank _); simplify_eq. done.
Qed.

(** The part of [main] that works on the store. *)
Lemma service_framed {A} (svc : Env) (m : Svc A) :
  (∀ w, @op_step svc _ w (m w).2) → framed (rtc (@service_step svc _)) (onSvc m).
Proof. intros Hm. apply framed_svc. intros w. apply rtc_once, op_step_service, Hm. Qed.
Lemma bootstrapAPIKey_framed svc cfg : framed (rtc (@service_step svc _)) (bootstrapAPIKey svc cfg).
Proof.
  unfold bootstrapAPIKey. destruct (_ =s ""); [by apply framed_ret; apply _|].
  apply framed_bind; [apply _|apply framed_wrap, service_framed; intros; apply ss_EnsureAPIKey|]. intros key.
  by apply framed_log; apply _.
Qed.
Lemma setACMEDefaults_framed svc cfg : framed (rtc (@service_step svc _)) (setACMEDefaults svc cfg).
Proof.
  unfold setACMEDefaults, bootstrapACMEDefaults. destruct (negb _); [by apply framed_ret; apply _|].
  apply framed_bind; [apply _|apply framed_wrap|intros; apply framed_bind; [apply _|by apply framed_log; apply _|];
    intros; by apply framed_ret; apply _].
  apply framed_bind; [apply _|by apply framed_os; apply _|]. intros [pem ref].
  apply framed_bind; [apply _|apply service_framed; intros; apply ss_CreateIdentity|]. intros identity.
  apply framed_bind; [apply _|apply service_framed; intros; apply ss_CreateIssuer|]. intros issuer.
  apply framed_bind; [apply _|apply service_framed; intros; apply ss_CreateCertificateProfile|]. intros profile.
  by apply framed_ret; apply _.
Qed.

Lemma fatal_pure {A} text (r : res A) p a p' : fatal text (liftM r) p = (Ok a, p') → r = Ok a ∧ p' = p.
Proof. unfold fatal, wrapErr, liftM. destruct r; intros [= <- <-]; done. Qed.
Lemma fatal_ok {A} text (m : PM A) p a p' : fatal text m p = (Ok a, p') → m p = (Ok a, p').
Proof. unfold fatal, wrapErr. by destruct (m p) as [[?|?] ?]; intros [= <- <-]. Qed.

Lemma startOutbox_ok svc cfg p o p' : startOutbox svc cfg p = (Ok o, p') →
  pr_db p' = pr_db p ∧ pr_world p' = pr_world p
  ∧ ∀ w, o = Some w → ow_interval w = outboxConfig_Interval cfg ∧ ow_batch w = outboxConfig_BatchSize cfg.
Proof.
  unfold startOutbox. destruct (negb _); [by intros [= <- <-]|].
  intros (u & p1 & [= _ <-] & [= <- <-])%bindM_ok_inv. split_and!; [done|done|]. by intros w [= <-].
Qed.
Lemma startScan_ok svc cfg p o p' : startScan svc cfg p = (Ok o, p') →
  pr_db p' = pr_db p ∧ pr_world p' = pr_world p
  ∧ ∀ w, o = Some w → ew_interval w = expirationScanConfig_Interval cfg
      ∧ ew_warningWindow w = expirationScanConfig_WarningWindow cfg ∧ ew_batchSize w = expirationScanConfig_BatchSize cfg.
Proof.
  unfold startScan. destruct (negb _); [by intros [= <- <-]|].
  intros (u & p1 & [= _ <-] & [= <- <-])%bindM_ok_inv. split_and!; [done|done|]. by intros w [= <-].
Qed.
Lemma framed_run {A} (svc : Env) (m : PM A) p a p' : framed (rtc (@service_step svc _)) m → m p = (Ok a, p') →
  pr_db p' = pr_db p ∧ rtc (@service_step svc _) (pr_world p) (pr_world p').
Proof. intros Hm E'. specialize (Hm p). by rewrite E' in Hm. Qed.
Lemma log_unless (U : GoUnicode) (b : bool) event fields p u p' :
  (if b then retM tt else logStructured (H:=U) event fields) p = (Ok u, p') → pr_db p' = pr_db p ∧ pr_world p' = pr_world p.
Proof. by destruct b; intros [= _ <-]. Qed.
Lemma log_if (U : GoUnicode) (b : bool) event fields p u p' :
  (if b then logStructured (H:=U) event fields else retM tt) p = (Ok u, p') → pr_db p' = pr_db p ∧ pr_world p' = pr_world p.
Proof. by destruct b; intros [= _ <-]. Qed.

(** The store and the database after [main]. *)
Definition prepared (started : Started) (p p' : Proc) : Prop :=
  (∃ driver, ApplyInitialMigration driver (pr_db p) = (Ok tt, pr_db p'))
  ∧ rtc (@service_step (sd_service started) _) (pr_world p) (pr_world p').

(** In production: keys are required, secrets are strong, the policy of the
    service is the strict one, and nonces are shared through the database. *)
Definition production_ready (started : Started) : Prop :=
  AuthConfig_Mode (srv_auth (sd_server started)) = AuthModeAPIKey
  ∧ @productionPolicy (sd_service started) = true
  ∧ strong_secret (@apiKeyPepper (sd_service started))
  ∧ sd_nonceStore started = "sql"
  ∧ (getenv "ANOPKI_BOOTSTRAP_API_KEY" = "" ∨ strong_secret (getenv "ANOPKI_BOOTSTRAP_API_KEY")).

(** The workers have timers and limits that can work. *)
Definition workers_sound (started : Started) : Prop :=
  (∀ w, sd_outbox started = Some w → 0 < ow_interval w ∧ 0 < ow_batch w)
  ∧ ∀ w, sd_scan started = Some w → 0 < ew_interval w ∧ 0 <= ew_warningWindow w ∧ 0 < ew_batchSize w.

Lemma backend_valid bin p info p' : onOS (Runner_BackendInfo bin map_order) p = (Ok info, p') →
  pr_db p' = pr_db p ∧ pr_world p' = pr_world p ∧ ValidateBackendInfo map_order info = Ok tt.
Proof.
  unfold onOS. destruct (Runner_BackendInfo bin map_order (pr_os p)) as [r os] eqn:Er. intros [= -> <-].
  split_and!; [done|done|]. apply bindM_ok_inv in Er as (out & os1 & _ & Hd).
  unfold liftM, decodeBackendInfo in Hd. injection Hd as Hd _.
  apply bindR_inv in Hd as (i & _ & ([] & Hv & [= <-])%bindR_inv). done.
Qed.
Lemma observed_migration driver p u p' :
  observeOperation "db" "migration" (onDB (ApplyInitialMigration driver)) p = (Ok u, p') →
  ApplyInitialMigration driver (pr_db p) = (Ok tt, pr_db p') ∧ pr_world p' = pr_world p.
Proof.
  unfold observeOperation, onDB. destruct (ApplyInitialMigration driver (pr_db p)) as [r db].
  intros [= -> <-]. by destruct u.
Qed.

(** The last part of [main], once the database is there. *)
Lemma main_serves (U1 U2 : GoUnicode) svc auth (verifierCfg : acmeHTTP01VerifierConfig) defaultsCfg (nonceCfg : acmeNonceConfig)
    outboxCfg scanCfg (k : ACMEConfig → option OutboxWorker → option ExpirationScanWorker → PM Started)
    e1 f1 e2 f2 p started p' :
  bindM (if acmeHTTP01VerifierConfig_BaseURL verifierCfg =s "" then retM tt else logStructured (H:=U1) e1 f1) (λ _,
  bindM (bootstrapAPIKey svc auth) (λ _,
  bindM (setACMEDefaults svc defaultsCfg) (λ acme,
  bindM (if acmeNonceConfig_Store nonceCfg =s "sql" then logStructured (H:=U2) e2 f2 else retM tt) (λ _,
  bindM (startOutbox svc outboxCfg) (λ outbox,
  bindM (startScan svc scanCfg) (λ scan, k acme outbox scan)))))) p = (Ok started, p') →
  ∃ acme outbox scan p1, pr_db p1 = pr_db p ∧ rtc (@service_step svc _) (pr_world p) (pr_world p1)
  ∧ (∀ w, outbox = Some w → ow_interval w = outboxConfig_Interval outboxCfg ∧ ow_batch w = outboxConfig_BatchSize outboxCfg)
  ∧ (∀ w, scan = Some w → ew_interval w = expirationScanConfig_Interval scanCfg
      ∧ ew_warningWindow w = expirationScanConfig_WarningWindow scanCfg ∧ ew_batchSize w = expirationScanConfig_BatchSize scanCfg)
  ∧ k acme outbox scan p1 = (Ok started, p').
Proof.
  intros (? & q1 & [D1 W1]%log_unless & Hk)%bindM_ok_inv.
  apply bindM_ok_inv in Hk as (? & q2 & [D2 W2]%(framed_run _ _ _ _ _ (bootstrapAPIKey_framed svc auth)) & Hk).
  apply bindM_ok_inv in Hk as (acme & q3 & [D3 W3]%(framed_run _ _ _ _ _ (setACMEDefaults_framed svc defaultsCfg)) & Hk).
  apply bindM_ok_inv in Hk as (? & q4 & [D4 W4]%log_if & Hk).
  apply bindM_ok_inv in Hk as (outbox & q5 & (D5 & W5 & Ho)%startOutbox_ok & Hk).
  apply bindM_ok_inv in Hk as (scan & q6 & (D6 & W6 & Hs)%startScan_ok & Hk).
  exists acme, outbox, scan, q6. split_and!; [congruence| |done|done|done].
  rewrite W6, W5, W4, <- W1. by etrans.
Qed.

(** C17: A process that listens was configured soundly. It has applied the
    migrations to its database and, starting up, acted on the store only by
    calls of the service; the core reported a consistent backend; the timers,
    windows and batch sizes of the workers are in range. When the environment
    says production, in any spelling, the server asks for API keys, the service
    applies the production policy, nonces are kept in the database, and the
    pepper and the bootstrap key are at least 32 bytes long, vary and are no
    common default. In every other case [main] ends with an error before it
    listens. *)
Theorem started_soundly startedAt v c b p started p' :
  main (E:=E) getenv startedAt v c b p = (Ok started, p') →
  prepared started p p'
  ∧ ValidateBackendInfo map_order (op_Backend (sd_operational started)) = Ok tt
  ∧ workers_sound started
  ∧ (isProductionEnv (H:=@env_unicode E) (getenv "ANOPKI_ENV") = true → production_ready started).
Proof.
  unfold main. intros Hmain.
  apply bindM_ok_inv in Hmain as (auth & q & [Hauth ->]%fatal_pure & Hmain).
  apply bindM_ok_inv in Hmain as (outboxCfg & q & [Hob ->]%fatal_pure & Hmain).
  apply bindM_ok_inv in Hmain as (scanCfg & q & [Hsc ->]%fatal_pure & Hmain).
  apply bindM_ok_inv in Hmain as (verifierCfg & q & [_ ->]%fatal_pure & Hmain).
  apply bindM_ok_inv in Hmain as (defaultsCfg & q & [_ ->]%fatal_pure & Hmain).
  apply bindM_ok_inv in Hmain as (nonceCfg & q & [Hnonce ->]%fatal_pure & Hmain).
  apply bindM_ok_inv in Hmain as (tls & q & [_ ->]%fatal_pure & Hmain).
  apply bindM_ok_inv in Hmain as (backend & p1 & (D1 & W1 & Hbackend)%fatal_ok%backend_valid & Hmain).
  apply bindM_ok_inv in Hmain as (u1 & q & [_ ->]%fatal_pure & Hmain).
  apply bindM_ok_inv in Hmain as (u2 & p2 & [Hmig W2]%fatal_ok%observed_migration & Hmain).
  apply bindM_ok_inv in Hmain as (base & q & [_ ->]%fatal_pure & Hmain).
  apply bindM_ok_inv in Hmain as (svc & q & (-> & Hu & Hpepper & Hprod)%configuredService_ok & Hmain).
  apply main_serves in Hmain as (acme & outbox & scan & p3 & D3 & W3 & Ho & Hs & Hmain).
  apply bindM_ok_inv in Hmain as (u3 & p4 & [= _ <-] & [= <- <-]). rewrite D1 in Hmig.
  split_and!.
  - split; [exists (envOrDefault getenv "ANOPKI_DB_DRIVER" defaultDBDriver); cbn; by rewrite D3|].
    cbn. by rewrite <- W1, <- W2.
  - done.
  - split; cbn; intros w Hw.
    + apply Ho in Hw as [-> ->]. by eapply loadOutboxConfig_ok.
    + apply Hs in Hw as (-> & -> & ->). by eapply loadExpirationScanConfig_ok.
  - intros Hp. destruct (loadAuthConfig_ok _ _ Hauth) as (Hm & Hpe & Hbe & Hpr).
    destruct (Hpr Hp) as (Hmode & Hstrong & Hboot). apply loadACMENonceConfig_ok in Hnonce as [_ Hn].
    split_and!; cbn.
    + by rewrite Hmode.
    + by rewrite Hprod.
    + rewrite Hpepper. unfold strong_secret in *. by rewrite !TrimSpace_idem.
    + by apply Hn.
    + by rewrite Hbe in Hboot.
Qed.
End Started.

(** ** Readiness *)

Section Ready.
Context `{E : Env} `{SE : StartEnv}.
#[local] Existing Instance env_unicode | 0.

(** The same files and the same store. *)
Definition same_state (p p' : Proc) : Prop := os_files (pr_os p') = os_files (pr_os p) ∧ pr_world p' = pr_world p.
#[local] Instance same_preorder : PreOrder same_state.
Proof. split; [done|]. intros p1 p2 p3 [H1 H2] [H3 H4]. split; congruence. Qed.

(** A check that leaves the state and succeeds exactly when [P] holds. *)
Definition decides (m : PM unit) (p : Proc) (P : Prop) : Prop :=
  same_state p (m p).2 ∧ ((m p).1 = Ok tt ↔ P).

Lemma decides_iff m p (P Q : Prop) : decides m p P → (P ↔ Q) → decides m p Q.
Proof. intros [Hs Hd] HQ. split; [done|]. by rewrite Hd. Qed.
Lemma decides_wrap text m p P : decides m p P → decides (wrapErr text m) p P.
Proof.
  intros [Hs Hd]. unfold decides, wrapErr. destruct (m p) as [[[]|e] p1]; [done|]. split; [done|].
  rewrite <- Hd. split; discriminate.
Qed.
Lemma decides_seq (m1 m2 : PM unit) p (P Q : Prop) :
  decides m1 p P → (∀ p', same_state p p' → decides m2 p' Q) → decides (bindM m1 (λ _, m2)) p (P ∧ Q).
Proof.
  intros [Hs Hd] H2. unfold decides, bindM. destruct (m1 p) as [[[]|e] p1]; simpl in *.
  - destruct (H2 p1 Hs) as [Hs2 Hd2]. split; [by etrans|]. rewrite Hd2. naive_solver.
  - split; [done|]. split; [discriminate|]. intros [HP _]. naive_solver.
Qed.
Lemma decides_all {A} (f : A → PM unit) (P : A → Prop) l p :
  (∀ x p', same_state p p' → decides (f x) p' (P x)) → decides (forM l f) p (Forall P l).
Proof.
  revert p. induction l as [|x l IH]; intros p Hf; cbn [forM].
  - split; [done|]. split; [constructor|done].
  - eapply decides_iff; [apply decides_seq; [by apply Hf|]|by rewrite Forall_cons].
    intros p1 H1. apply IH. intros y p2 H2. apply Hf. by etrans.
Qed.

Lemma decides_read {A} (m : PM A) (k : A → PM unit) p a p1 P :
  m p = (Ok a, p1) → same_state p p1 → decides (k a) p1 P → decides (bindM m k) p P.
Proof. intros Hm Hs [Hk Hd]. unfold decides, bindM. rewrite Hm. split; [by etrans|done]. Qed.
Lemma onSvc_query p : same_state p (mkProc (pr_os p) (pr_db p) (mkWorld (w_store (pr_world p)) (w_tick (pr_world p))) (pr_log p) (pr_metrics p)).
Proof. split; [done|]. by destruct p as [? ? []]. Qed.

(** The system calls work and the request is not cancelled. *)
Class Undisturbed : Prop := {
  ready_open t : open_fault t = None;
  ready_close t : close_fault t = None;
  ready_ctx t : ctx_Canceled t = None;
}.
Context `{!Undisturbed}.

(** A key reference that readiness accepts. *)
Definition usable (production : bool) (files : Files) (ref : string) : Prop :=
  production = false ∧ keyRefProvider ref = ClassFile ∧ is_Some (files !! fileKeyRefPath ref).

Lemma checkReadable_decides ref production p :
  decides (checkReadableKeyRef ref production) p (usable production (os_files (pr_os p)) ref).
Proof.
  unfold checkReadableKeyRef, usable. destruct (String.eqb_spec (keyRefProvider ref) ClassFile) as [Hc|Hc].
  2: { split; [done|]. split; [discriminate|]. naive_solver. }
  destruct production; [split; [done|split; [discriminate|naive_solver]]|].
  unfold decides, onOS, bindM, Open, Close, tick, getM, fail_on. cbn. rewrite ready_open. cbn.
  destruct (os_files (pr_os p) !! fileKeyRefPath ref) eqn:Ef; cbn; rewrite ?ready_close; cbn.
  - split; [done|]. naive_solver.
  - split; [done|]. split; [discriminate|]. intros (_ & _ & [? ?]). congruence.
Qed.

Lemma checkResponder_decides production r p0 p : same_state p0 p →
  decides (checkResponder production r) p
    (OCSPResponder_Status r = OCSPResponderActive → usable production (os_files (pr_os p0)) (OCSPResponder_KeyRef r)).
Proof.
  intros [<- _]. unfold checkResponder. destruct (String.eqb_spec (OCSPResponder_Status r) OCSPResponderActive) as [Ha|Ha]; cbn.
  - eapply decides_iff; [apply decides_wrap, checkReadable_decides|naive_solver].
  - split; [done|]. naive_solver.
Qed.

(** Everything an active issuer signs with can be used. *)
Definition issuer_usable (production : bool) (files : Files) (s : MemoryStore) (i : Issuer) : Prop :=
  Issuer_Status i = IssuerActive → usable production files (Issuer_KeyRef i)
  ∧ ∀ k r, ms_ocspResponders s !! k = Some r → OCSPResponder_IssuerID r = Issuer_ID i →
      OCSPResponder_Status r = OCSPResponderActive → usable production files (OCSPResponder_KeyRef r).

Lemma responders_of s i r : r ∈ listOCSPRespondersByIssuer (map_values (ms_ocspResponders s)) i ↔
  (∃ k, ms_ocspResponders s !! k = Some r) ∧ OCSPResponder_IssuerID r = i.
Proof.
  unfold listOCSPRespondersByIssuer, listBy. rewrite go_sort_perm, list_elem_of_filter, elem_of_map_values.
  rewrite String.eqb_eq. naive_solver.
Qed.

Lemma checkResponders_decides production id p0 p : same_state p0 p →
  decides (let* responders := onSvc (repo (Store.ListOCSPRespondersByIssuer id)) in forM responders (checkResponder production)) p
    (∀ k r, ms_ocspResponders (w_store (pr_world p0)) !! k = Some r → OCSPResponder_IssuerID r = id →
      OCSPResponder_Status r = OCSPResponderActive → usable production (os_files (pr_os p0)) (OCSPResponder_KeyRef r)).
Proof.
  intros [<- <-]. eapply decides_read; [reflexivity|by apply onSvc_query|].
  eapply decides_iff; [eapply decides_all; intros r p1 H1; exact (checkResponder_decides production r _ p1 H1)|].
  rewrite Forall_forall. setoid_rewrite responders_of. naive_solver.
Qed.

Lemma checkIssuer_decides production i p :
  decides (checkIssuer production i) p (issuer_usable production (os_files (pr_os p)) (w_store (pr_world p)) i).
Proof.
  unfold checkIssuer. eapply decides_read; [reflexivity|done|]. rewrite ready_ctx.
  destruct (String.eqb_spec (Issuer_Status i) IssuerActive) as [Ha|Ha]; cbn [negb].
  - eapply decides_iff; [apply decides_seq; [apply decides_wrap, checkReadable_decides|]|].
    + intros p1 H1. exact (checkResponders_decides production _ _ p1 H1).
    + unfold issuer_usable. naive_solver.
  - split; [done|]. unfold issuer_usable. naive_solver.
Qed.

(** C18: With working system calls, the key check of the readiness endpoint
    passes exactly when every active issuer, and every active responder of one,
    has a file key whose file exists and the process is not in production. In
    production it passes only while no issuer is active. *)
Theorem readiness_spec production p :
  let s := w_store (pr_world p) in
  let passes := (checkActiveKeyRefs production p).1 = Ok tt in
  (passes ↔ ∀ k i, ms_issuers s !! k = Some i → issuer_usable production (os_files (pr_os p)) s i)
  ∧ (production = true → passes ↔ ∀ k i, ms_issuers s !! k = Some i → Issuer_Status i ≠ IssuerActive)
  ∧ same_state p (checkActiveKeyRefs production p).2.
Proof.
  intros s passes.
  assert (decides (checkActiveKeyRefs production) p
    (Forall (issuer_usable production (os_files (pr_os p)) s) (map_values (ms_issuers s)))) as [Hs Hd].
  { unfold decides, checkActiveKeyRefs, bindM, onSvc, repo, Store.ListIssuers, query, getM. cbn.
    set (p1 := mkProc _ _ _ _ _).
    assert (same_state p p1) as Hp1 by (split; [done|]; cbn; by destruct (pr_world p)).
    destruct (decides_all (checkIssuer production) (issuer_usable production (os_files (pr_os p)) s)
      (map_values (ms_issuers (w_store (pr_world p)))) p1) as [Hs Hd].
    { intros i p2 H2. pose proof (checkIssuer_decides production i p2) as Hi.
      destruct (transitivity Hp1 H2) as [Hf Hw]. by rewrite Hf, Hw in Hi. }
    split; [by etrans|exact Hd]. }
  assert (passes ↔ ∀ k i, ms_issuers s !! k = Some i → issuer_usable production (os_files (pr_os p)) s i) as Hp.
  { unfold passes. rewrite Hd, Forall_forall. setoid_rewrite elem_of_map_values. naive_solver. }
  split_and!; [done| |done]. intros ->. rewrite Hp. unfold issuer_usable, usable. split; [|naive_solver].
  intros Hi k i Hk Ha. destruct (Hi k i Hk Ha) as [(? & _) _]. discriminate.
Qed.
End Ready.

(** ** Samples *)

Definition sample_backend_text : string :=
  json_Marshal (JObject [("product_profile", JString "community"); ("edition", JString "community");
    ("selected_backend", JString "openssl"); ("fallback_enabled", JBoolean false); ("backend_id", JString "openssl");
    ("backend_dependency", JString "OpenSSL"); ("backend_version", JString "3.0"); ("backend_readiness", JString "ready");
    ("backend_capabilities", strings_json ["sign"]); ("backend_abi_version", JNumber 1);
    ("backend_build_fingerprint", JString "abc")]).
Definition sample_backend : BackendInfo :=
  mkBackendInfo "community" "community" "openssl" false "openssl" "OpenSSL" "3.0" "ready" ["sign"] 1 "abc".
Definition start_os : OSEnv := {|
  os_unicode := ascii_unicode; temp_dir := "/tmp"; temp_random _ try := itoa (Z.of_nat try);
  create_fault _ := None; write_fault _ := None; close_fault _ := None; open_fault _ := None;
  read_fault _ := None; remove_fault _ := None; environ := [];
  process _ cmd files := mkRan None sample_backend_text "" files; nil_slice _ := true |}.
Definition sample_start : StartEnv := {|
  st_os := start_os; st_driver := reference_driver 1700000000000000000;
  st_dns := {| dns_rand _ := Ok [0; 0]; dns_exchange _ _ _ _ := Err (EText "timeout") |};
  st_webhook := sample_webhook; os_at t := mkOS ∅ 3 t; http01_fetch _ _ := Err (EText "unreachable"); map_order l := l;
  sql_Open _ _ := Ok tt; db_Ping _ := Ok tt; os_Stat _ _ := Ok tt; exec_LookPath _ _ := Ok tt;
  ctx_Canceled _ := None; elapsed_ms _ := 1;
  smoke_key _ := Ok "key"; smoke_serial _ := Ok 1; smoke_certificate _ _ := Ok "der"; smoke_pkcs8 k := Ok k;
  pem_Encode kind der := kind +:+ der; mkdir_fault _ _ := None; duration_String d := itoa d |}.
Definition sample_getenv (name : string) : string :=
  if name =s "ANOPKI_ENV" then " Production" else if name =s "ANOPKI_AUTH_MODE" then "api_key"
  else if name =s "ANOPKI_API_KEY_PEPPER" then "a long pepper that nobody else would choose"
  else if name =s "ANOPKI_ACME_NONCE_STORE" then "sql" else "".

Lemma bind_run {S A B} (m : GoM S A) (k : A → GoM S B) s a s1 r : m s = (Ok a, s1) → k a s1 = r → bindM m k s = r.
Proof. unfold bindM. by intros -> <-. Qed.

Lemma migration_run `{E : Env} `{SE : StartEnv} text driver p db : ApplyInitialMigration driver (pr_db p) = (Ok tt, db) →
  fatal text (observeOperation "db" "migration" (onDB (ApplyInitialMigration driver))) p =
  (Ok tt, mkProc (pr_os p) db (pr_world p) (pr_log p)
    (ObserveOperation "db" "migration" (elapsed_ms (os_tick (pr_os p))) false (pr_metrics p))).
Proof. intros Hm. unfold fatal, wrapErr, observeOperation, onDB. by rewrite Hm. Qed.

Lemma bind_exists {S A B} (m : GoM S A) (k : A → GoM S B) s :
  (∃ a s1, m s = (Ok a, s1)) → (∀ a s1, ∃ b s2, k a s1 = (Ok b, s2)) → ∃ b s2, bindM m k s = (Ok b, s2).
Proof. intros (a & s1 & E) Hk. unfold bindM. rewrite E. apply Hk. Qed.
Lemma workers_start `{E : Env} `{SE : StartEnv} svc outboxCfg scanCfg (k : option OutboxWorker → option ExpirationScanWorker → PM Started) p :
  (∀ o s q, ∃ started q', k o s q = (Ok started, q')) →
  ∃ started p', bindM (startOutbox svc outboxCfg) (λ o, bindM (startScan svc scanCfg) (λ s, k o s)) p = (Ok started, p').
Proof.
  intros Hk. apply bind_exists; [unfold startOutbox; destruct (negb _); by do 2 eexists|]. intros o q.
  apply bind_exists; [unfold startScan; destruct (negb _); by do 2 eexists|]. intros s q'. apply Hk.
Qed.

#[local] Existing Instances sample_env sample_start.
#[local] Opaque log_line ApplyInitialMigration.

(** A production start on an empty database. *)
Lemma started_soundly_witness : ∃ started p',
  main (E:=sample_env) sample_getenv 0 "v" "c" "b"
    (mkProc (mkOS ∅ 3 0) (mkSQLConn ∅ 0) new_world [] (mkMetrics ∅ ∅)) = (Ok started, p')
  ∧ production_ready sample_getenv started.
Proof.
  destruct (@migrations_succeed _ _ (reference_driver_laws 1700000000000000000) 0) as (db & Hm & _); [intros k; vm_compute; reflexivity|].
  assert (∃ started p', main (E:=sample_env) sample_getenv 0 "v" "c" "b"
    (mkProc (mkOS ∅ 3 0) (mkSQLConn ∅ 0) new_world [] (mkMetrics ∅ ∅)) = (Ok started, p')) as (started & p' & Hs).
  { assert (∀ A (a : A) (m' : PM A) (k : A → PM Started) q p, m' q = (Ok a, p) →
      (∃ started p', k a p = (Ok started, p')) → ∃ started p', bindM m' k q = (Ok started, p')) as step.
    { intros A a m' k q p Hm' Hk. unfold bindM. by rewrite Hm'. }
    unfold main.
    do 8 (eapply step; [vm_compute; reflexivity|]).
    eapply step; [reflexivity|].
    eapply step; [apply migration_run; exact Hm|].
    eapply step; [vm_compute; reflexivity|].
    eapply (step _ (EnableProductionPolicy (NewWithACMEHTTP01VerifierAndAPIKeyPepper http01_fetch sample_env
      (runner_issuer os_at "anopki-core") (Some (NewACMEHTTP01Verifier None http01_fetch))
      "a long pepper that nobody else would choose"))); [reflexivity|].
    do 4 (eapply step; [reflexivity|]).
    apply workers_start. intros o s q. by do 2 eexists. }
  exists started, p'. split; [exact Hs|].
  by apply (started_soundly sample_getenv 0 "v" "c" "b" _ _ _ Hs).
Defined.

(** A process whose only issuer is active and has a readable file key. *)
Definition ready_issuer : Issuer :=
  mkIssuer "iss" "root" IssuerRootCA IssuerActive "" "pem" "file:/keys/root.pem" "" [] true 0 0.
Definition ready_process : Proc :=
  mkProc (mkOS {["/keys/root.pem" := "pem"]} 3 0) (mkSQLConn ∅ 0)
    (mkWorld (set_issuers {["iss" := ready_issuer]} NewMemoryStore) 0) [] (mkMetrics ∅ ∅).
#[local] Instance sample_undisturbed : Undisturbed.
Proof. by split. Qed.

(** Such a process is ready, and would not be in production. *)
Lemma readiness_spec_witness :
  (checkActiveKeyRefs (E:=sample_env) false ready_process).1 = Ok tt
  ∧ (checkActiveKeyRefs (E:=sample_env) true ready_process).1 ≠ Ok tt.
Proof.
  pose proof (readiness_spec (E:=sample_env) false ready_process) as (Hf & _ & _).
  pose proof (readiness_spec (E:=sample_env) true ready_process) as (_ & Ht & _).
  split.
  - apply Hf. intros k i Hi. unfold ready_process in Hi. cbn in Hi. apply lookup_singleton_Some in Hi as [<- <-].
    intros _. split; [|by intros k r Hr].
    split_and!; [done|by vm_compute|]. by exists "pem".
  - intros Hp. apply (proj1 (Ht eq_refl) Hp "iss" ready_issuer); done.
Defined.
